(* ===== verification/_CoqProject ===== *)
-Q . S2P
Prelude.v
PyStr.v
PyTime.v
Float64.v
Rounding.v
Domain.v
Json.v
Iso.v
Models.v
TaskQueue.v
Contracts.v
Execution.v
QueueTheory.v
QueueSpec.v
QueueProps.v
Facade.v
ContractProps.v
Snapshot.v
SnapshotProps.v
Evaluation.v
EvaluationProps.v
MarketOutcome.v
MarketOutcomeProps.v
Reflection.v
ReflectionProps.v
Believability.v
BelievabilityProps.v
Replay.v
Lesson.v
LessonTheory.v
LessonInv.v
LessonProps.v
Wiki.v
Committee.v
CommitteeProps.v
Judgment.v
JudgmentProps.v
Handoff.v
JobManifest.v
JobExecution.v
JobTheory.v
JobSteps.v
JobDemo.v
JobProps.v
JobManifestProps.v
HandoffProps.v
ResearchV2.v
ResearchRows.v
ResearchFlow.v
ResearchOutcome.v
ResearchScore.v
ResearchTheory.v
ResearchInv.v
ResearchSteps.v
ResearchDemo.v
ResearchProps.v
PrepareProps.v
OutcomeProps.v
SignalProps.v
AgentEval.v
AgentEvalScore.v
AgentEvalJob.v
AgentEvalTheory.v
AgentEvalEarned.v
AgentEvalJobTheory.v
AgentEvalSealed.v
AgentEvalDemo.v
AgentEvalPrepare.v
AgentEvalNewJob.v
AgentEvalProps.v
