(* ===== verification/Prelude.v ===== *)
(** * Verification of the forecast-loop backend

    forecast-loop runs a committee of Agents on a frozen evidence snapshot,
    records their directional forecasts, scores them when the market has closed,
    and lets reviewed reflections propose lessons.  This library models the core
    of its Python backend ([src/backend/app]) as executable functions and proves
    the properties that make it trustworthy.

    ** The parts and how they interact

    A snapshot is validated ([Snapshot], services/snapshot.py) and frozen into a
    run.  The run is put on a durable queue ([TaskQueue],
    services/task_queue.py, admitted by services/v1_run_admission.py), claimed by
    one of several workers and executed between two fenced transactions
    ([Execution], workflow.py and [run_once]).  In between the committee graph
    runs ([Committee], the nodes of workflow.py) on the frozen Wiki ([Wiki],
    services/wiki.py): research, strategy, critic, validation of citations, and
    the deterministic decision whose forecasts [Execution] persists.  Forecasts use
    the scoring functions of [Domain] (domain.py); Agents submit signals within
    their contracts ([Contracts], agent_contracts.py) which decide what may be
    scored and who has influence ([Facade], services/evaluation_facade.py).  After
    the close a sealed bundle of closes is imported ([MarketOutcome],
    services/market_outcome.py): every due forecast is evaluated from a price
    ledger, and scorecards are computed ([Evaluation], services/evaluation.py).
    People seal judgments of their own before the opening ([Judgment],
    services/user_judgment.py), which the same outcomes score.  A run can also be
    handed to an external task through files ([Handoff], services/handoff.py),
    scheduled by a manifest ([JobManifest], jobs/manifest.py and
    jobs/renderers.py) and tracked in an append-only store ([JobExecution],
    jobs/execution.py).  Reflections on the outcomes
    pass a gate of human reviews ([Reflection],
    services/reflection_governance.py); a finalized reflection proposes lessons
    (services/reflection_handoff.py), which are replayed on frozen outcomes
    ([Replay]), approved, revalidated and retired in an append-only ledger
    ([Lesson], services/lesson_lifecycle.py).  Scored opinions and approved
    reflections are frozen into each run as evidence about its Agents
    ([Believability], services/believability.py).  The focused v2 loop
    ([ResearchV2] to [ResearchScore], research_v2.py and services/research_v2.py)
    stands beside this: it freezes evidence on one index and its benchmark into a
    request for an external model, seals the returned drafts and a deterministic
    decision as signals and forecasts, scores them, has their reasoning reviewed,
    and lets the D1 forecast become formal when enough of them were approved; it
    selects its Wiki entries with [Wiki] and checks hosts with [Snapshot].  Its
    activation also asks for a passing comparison of two versions of the Agents on
    frozen episodes, which is handed to four external tasks through files and
    evaluated again when it is used ([AgentEval] to [AgentEvalJob],
    services/agent_evaluation_v2.py).

    ** Files

    - [Prelude]: exceptions as a result monad, the tactics and the generic lemmas.
    - [PyStr], [PyTime], [Float64], [Json], [Iso]: the parts of Python the code
      uses: text as UTF-8 bytes handled by code points; dates as proleptic
      ordinals, datetimes as wall microseconds with an optional offset; floats as
      exact IEEE binary64 ([sum] in both the 3.11 and the 3.12 algorithm); JSON
      values, ISO 8601 with its round trip and the canonical digest as a class.
    - [Rounding]: binary64 multiplication by a positive constant is monotone,
      proved from the shift-and-sticky rounding of [SpecFloat].
    - [Domain]: enumerations, rosters, labels, probabilities, Brier score.
    - [Models]: the table rows and their check constraints.
    - [TaskQueue]: every operation of the queue on a database of rows;
      compare-and-swap updates are [update_task], reads by another session may be
      stale and are separate arguments.
    - [Execution]: the seals, the start, publish and failure transactions of
      [execute_prepared], and [run_once] with the other processes as an argument.
    - [QueueTheory]: all these transactions as one interleaved step relation over
      any number of workers, with its inductive invariant; [QueueSpec]: what the
      composite operations compute and that they are sequences of steps;
      [QueueProps]: the theorems, with a concrete execution.
    - [Contracts] and [Facade] with [ContractProps]; [Snapshot] with
      [SnapshotProps]; [Evaluation] with [EvaluationProps].
    - [Wiki], [Committee] with [CommitteeProps]: the graph as a composition of
      nodes on the run state, with the language models as a record of functions.
    - [Reflection] with [ReflectionProps]: reviews as rows, the gate as a function
      of the rows up to a cutoff.
    - [Replay]: bundles of replay observations and their metrics; [Lesson]: the
      operations of the ledger; [LessonTheory]: what each operation changes;
      [LessonInv]: the step relation of the ledger and its invariant;
      [LessonProps]: the theorems, with a concrete life of a lesson.
    - [MarketOutcome] with [MarketOutcomeProps]: the bundle as a record with its
      validators, the import as a loop over the due forecasts.
    - [Believability] with [BelievabilityProps]: the two queries as joins over
      tables, the profiles and the sealed snapshot.
    - [Judgment] with [JudgmentProps]: the page store as a map from paths to
      contents; sealing reads one database and commits to another.
    - [Handoff] with [HandoffProps]: the contracts of the file handoff, the
      expected matrix of drafts, its acceptance, and the provider that replays it
      through [Committee].
    - [JobManifest] with [JobManifestProps]: commands, paths and cron schedules of
      scheduled jobs and the launchd and systemd units rendered from them.
    - [JobExecution]: the append-only store of job executions on directories as
      finite maps, with what other processes do in between as an argument;
      [JobTheory]: valid histories and how they grow; [JobSteps]: what each
      operation keeps, and the step relation; [JobDemo]: a concrete codec and a
      run from begin to the receipt; [JobProps]: the theorems.
    - [ResearchV2]: the contracts of the v2 research loop (research_v2.py), its
      exact sample volatility, thresholds, labels and scores; [ResearchRows]: its
      tables (models.py) as lists of rows with their unique constraints;
      [ResearchFlow]: preparing and finalizing a run, [ResearchOutcome]: outcomes,
      reviews, reflections and activation, [ResearchScore]: scorecards (all of
      services/research_v2.py).  Each operation is a transaction from tables to
      tables.  [ResearchTheory]: the writes of the tables and how they grow;
      [ResearchInv]: the invariant of the store; [ResearchSteps]: every operation
      as a sequence of writes, and the step relation; [ResearchDemo]: a concrete
      run from the evidence to the human decision, and a live store with its
      activation; [ResearchProps], [PrepareProps], [OutcomeProps], [SignalProps]:
      the theorems.
    - [AgentEval], [AgentEvalScore], [AgentEvalJob]: the replays that compare two
      versions of the Agents (services/agent_evaluation_v2.py): the contracts and
      validators, the comparison of the arms with its gates, and the job directory
      as a map from paths to files, with the Pydantic dumps and reads and the JSON
      text as a class.  [AgentEvalTheory] and [AgentEvalEarned]: what a decision
      certifies; [AgentEvalJobTheory], [AgentEvalSealed], [AgentEvalPrepare]: what
      loading, publishing, verifying and preparing do to the files; [AgentEvalDemo]
      and [AgentEvalNewJob]: two concrete jobs; [AgentEvalProps]: the theorems.
    ** What the theorems show

    - Queue: results are published once; a lease that lost its task is refused
      forever; at most one lease per task is admitted; attempts are counted and
      bounded; leases end before their deadline; recovery and claiming do exactly
      what they say, make progress, and refine the step relation; a worker's turn
      never raises; submission is idempotent.
    - Committee: a finished graph is complete; its forecasts keep the strategist's
      direction through the haircut and its rounding, do not depend on the critic's
      vote, cite only frozen content, and pass the executor's checks.
    - Reflections and lessons: reviews are immutable and open the gate only at its
      front, without looking past the cutoff; the audit accepts every reachable
      ledger; lessons become active only on frozen evidence, are challenged and
      retired by the two-strikes rule, and keep an append-only history.
    - Evaluation: a score certifies its clock, prices, label and arithmetic; scores
      and prices are immutable; scorecards count every observation once.
    - Snapshots and signals: nothing newer than the cutoff enters; hosts are on the
      allowlist; sealing is stable; routing and scoring follow the contract.
    - Domain: labels are the threshold specification and symmetric; predictions
      are never neutral and not biased.
    - Outcomes: importing is idempotent, evaluates exactly what the bundle says,
      and blocked batches are recorded once.
    - Believability: nothing after the cutoff counts, each opinion counts once with
      its latest correction, and no weight is ever applied.
    - Judgments: sealed after the committee and before the opening, verifiable and
      final; failed calls leave no page; scored once by the official outcome.
    - Handoffs: an accepted bundle is exactly the matrix that was asked for, its
      replay through the research nodes never fails, and receipts are sealed and
      chained to the attempt before.
    - Jobs: the accepted cron grammar and its meaning; every rendered unit covers
      the schedule and reads back as the invocation, except that launchd runs
      named weekdays a day late; executions are append-only and resumable under
      any interleaving, tamper-evident, and finish only on a receipt of their
      handoff; the external task may write one file.
    - The v2 loop: under any order of its services the store only grows, an anchor
      date is frozen once, everything is scored once and human decisions are
      final; the evidence of a run looks only back; the assignments of a job are
      bound to the frozen evidence and complete; drafts are accepted before the
      target session and give exactly the sealed rows of the receipt; finalizing
      and scoring again change nothing; the formal lane is earned by approved
      forward evidence; the deterministic officer refuses an exact tie that it
      means to accept.
    - Replays of the Agents: a passing report has earned every gated target on
      independent episodes; a prepared job loads and waits for its four drafts; a
      finalized job is sealed, repeatable and survives an interruption; the D1
      target is activated only on a job that is evaluated again; the bound of the
      mean Brier score is too tight for an arm that is always wrong.
    ** Choices and bounds

    Code outside the repository is a parameter: SHA-256 and canonical JSON hashes
    ([CanonicalHash], [TextHash]), the JSON dumps of Pydantic, the language
    models, [math.exp] and [math.log], the tz database, the Unicode tables of
    [upper] and the checks of [urlsplit], and how Python prints floats.  Recursion
    is structural except for the session calendar, whose fuel of three days per
    session is proved enough.  Queue timestamps are microseconds of the worker's
    clock.  A [ZoneInfo]-aware datetime carries its offset; datetimes of one zone
    are compared by wall clock where Python does so.  Fresh [uuid4] identifiers are
    arguments, assumed fresh by the steps that insert rows.  Each service call is
    one transaction of one session: the order of flushes inside it is not
    modelled.  The batches of one lesson are recorded at strictly increasing
    stored times.  A file of the
    execution store is published whole or not at all, and two writers of one name
    are decided by the file system; at most four revisions exist, so six digits
    name them.  The nodes of the graph that LangGraph runs in one step read the
    same state, and their additions are merged in any order the scheduler picks.

    ** Not modelled

    HTTP, CLI and process glue, the polling loop and the heartbeat thread (its
    renewals are steps), data adapters, LLM providers, the checkpoints of the
    graph, links and permissions of the file system, migrations and the
    frontend are outside the model: they are I/O or third-party code.  Of the v2
    loop the OpenAI Responses provider (its contracts, readiness admission and
    evidence coverage), trace records and the text of the prompts are left out:
    they surround the Codex path, which is modelled, and do not change its tables.
    The database half of the v1 file handoff, the assignments of reflections, the
    exports of sealed runs, the status and benchmark reports, the premarket brief,
    the v1 evaluation of Agents and the tracing are not modelled: they read the
    modelled tables, or are operator workflows of the same pattern as those
    modelled here.  Of the v2 replays the feedback of a failed report into the
    trace tables, the listings, permission bits and the resolution of paths are
    left out; a file is there whole or not at all. *)
From stdpp Require Export prelude strings gmap sorting.
From Stdlib Require Export ZArith Lia.
#[global] Open Scope Z_scope.

(** ** Exceptions and the result monad *)

(** The exception classes the modelled code raises or catches. *)
Inductive exn_class :=
  | ValueError | RuntimeError | KeyError | TypeError | AssertionError
  | IntegrityError | OverflowError | ZeroDivisionError
  | TaskQueueError | TaskIdempotencyConflictError
  | TaskPayloadIntegrityError | StaleTaskLeaseError | StaleRunExecutionError
  | V1RunAdmissionError | IndexError | StopIteration
  | DemoForecastNotScoredError | ForecastAlreadyEvaluatedError
  | ForecastNotMatureError | PriceObservationConflictError
  | LiveEvidenceRequiredError | AttributeError | SignalEnvelopeConflictError
  | UserJudgmentNotFoundError | UserJudgmentConflictError | UserJudgmentClosedError
  | UserJudgmentWikiError | JobManifestLoadError | JobExecutionError | JobExecutionConflictError
  | ResearchV2Error | AgentEvalV2Error | OSError.

#[global] Instance exn_class_eq_dec : EqDecision exn_class.
Proof. solve_decision. Defined.

(** A raised exception: its class and its message. *)
Record exn := Exn { exn_cls : exn_class; exn_msg : string }.

#[global] Instance exn_eq_dec : EqDecision exn.
Proof. solve_decision. Defined.

(** The value of a Python call: a returned value or a raised exception. *)
Inductive result (A : Type) :=
  | Ok (a : A)
  | Err (e : exn).
Arguments Ok {A} a.
Arguments Err {A} e.

#[global] Instance result_ret : MRet result := fun A a => Ok a.
#[global] Instance result_bind : MBind result := fun A B f r =>
  match r with Ok a => f a | Err e => Err e end.
#[global] Instance result_fmap : FMap result := fun A B f r =>
  match r with Ok a => Ok (f a) | Err e => Err e end.

(** [raise C "m"] is Python's [raise C("m")]. *)
Definition raise {A} (c : exn_class) (m : string) : result A := Err (Exn c m).

(** [raise_when b C "m"] is the guard [if b: raise C("m")]. *)
Definition raise_when (b : bool) (c : exn_class) (m : string) : result unit :=
  if b then raise c m else Ok tt.

(** Evaluate a fallible function on every element, left to right. *)
Fixpoint mapM_result {A B} (f : A -> result B) (l : list A) : result (list B) :=
  match l with
  | [] => Ok []
  | x :: l' => y ← f x; ys ← mapM_result f l'; Ok (y :: ys)
  end.

(** A [for] loop over a list that threads a state and may raise. *)
Fixpoint for_each {A S} (f : S -> A -> result S) (s : S) (l : list A) : result S :=
  match l with
  | [] => Ok s
  | x :: l' => s' ← f s x; for_each f s' l'
  end.

Definition is_ok {A} (r : result A) : bool :=
  match r with Ok _ => true | Err _ => false end.

Lemma bind_Ok {A B} (f : A -> result B) r b :
  (x ← r; f x) = Ok b <-> exists a, r = Ok a /\ f a = Ok b.
Proof.
  destruct r; cbn; split; [by eauto | by intros (? & [= ->] & ?) | done |].
  by intros (? & [=] & ?).
Qed.

Lemma bind_Err {A B} (f : A -> result B) r e :
  (x ← r; f x) = Err e <->
  r = Err e \/ exists a, r = Ok a /\ f a = Err e.
Proof.
  destruct r; cbn; split; [by eauto | | intros [= ->]; by left |].
  - by intros [[=] | (? & [= ->] & ?)].
  - by intros [[= ->] | (? & [=] & ?)].
Qed.

Lemma raise_when_Ok b c m u : raise_when b c m = Ok u <-> b = false.
Proof. destruct b, u; cbn; split; (done || congruence). Qed.

Lemma raise_when_Err b c m e :
  raise_when b c m = Err e <-> b = true /\ e = Exn c m.
Proof. unfold raise_when, raise. destruct b; split; intuition congruence. Qed.

Lemma raise_when_bind_Ok {A} b c m (k : result A) a :
  (raise_when b c m ;; k) = Ok a <-> b = false /\ k = Ok a.
Proof. destruct b; cbn; intuition congruence. Qed.

Lemma mapM_result_Ok {A B} (f : A -> result B) l k :
  mapM_result f l = Ok k <-> Forall2 (fun x y => f x = Ok y) l k.
Proof.
  revert k; induction l as [|x l IH]; intros k; cbn.
  - split; [intros [= <-]; constructor | inversion 1; done].
  - rewrite bind_Ok. setoid_rewrite bind_Ok. setoid_rewrite IH. split.
    + intros (y & Hy & ys & Hys & [= <-]). by constructor.
    + inversion 1; subst. eauto 8.
Qed.

Lemma mapM_result_elem {A B} (f : A -> result B) l k x :
  mapM_result f l = Ok k -> x ∈ l -> exists y, f x = Ok y.
Proof.
  intros H%mapM_result_Ok Hin. induction H as [|a b l k Hab _ IH]; [by apply not_elem_of_nil in Hin|].
  apply elem_of_cons in Hin as [->|Hin]; eauto.
Qed.

Lemma mapM_result_total {A B} (f : A -> result B) (g : A -> B) l :
  (forall x, x ∈ l -> f x = Ok (g x)) -> mapM_result f l = Ok (g <$> l).
Proof.
  intros Hf. apply mapM_result_Ok. induction l as [|x l IH]; constructor; [apply Hf; left|].
  apply IH. intros y Hy. apply Hf. by right.
Qed.

Lemma mapM_result_exists {A B} (f : A -> result B) l :
  (forall x, x ∈ l -> exists y, f x = Ok y) -> exists k, mapM_result f l = Ok k.
Proof.
  induction l as [|x l IH]; intros Hf; [by exists []|]. destruct (Hf x) as [y Hy]; [left|].
  destruct IH as [k Hk]; [intros z Hz; apply Hf; by right|]. exists (y :: k). cbn. by rewrite Hy, Hk.
Qed.

Lemma for_each_app {A S} (f : S -> A -> result S) s l1 l2 :
  for_each f s (l1 ++ l2) = (s' ← for_each f s l1; for_each f s' l2).
Proof.
  revert s; induction l1 as [|x l1 IH]; intros s; cbn; [done|].
  destruct (f s x); cbn; [apply IH|done].
Qed.

(** An invariant preserved by the body is preserved by the loop. *)
Lemma for_each_invariant {A S} (I : S -> Prop) (f : S -> A -> result S) l :
  (forall s x s', x ∈ l -> I s -> f s x = Ok s' -> I s') ->
  forall s s', I s -> for_each f s l = Ok s' -> I s'.
Proof.
  induction l as [|x l IH]; intros Hstep s s' Hs; cbn.
  - by intros [= <-].
  - rewrite bind_Ok. intros (s1 & H1 & H2). eapply IH; [|..|exact H2].
    + intros ??? Hin. apply Hstep. by right.
    + eapply Hstep; [by left|done|done].
Qed.

(** ** Lexicographic order of pairs *)

Definition lex_le {A B} (RA : relation A) (RB : relation B) : relation (A * B) :=
  fun x y => (RA x.1 y.1 /\ x.1 <> y.1) \/ (x.1 = y.1 /\ RB x.2 y.2).

Section LexOrder.
Context {A B} (RA : relation A) (RB : relation B).

#[global] Instance lex_le_dec `{EqDecision A, !RelDecision RA, !RelDecision RB} :
  RelDecision (lex_le RA RB).
Proof. intros x y. unfold lex_le. apply _. Defined.

#[global] Instance lex_le_trans `{!PartialOrder RA, !Transitive RB} : Transitive (lex_le RA RB).
Proof.
  intros [a1 b1] [a2 b2] [a3 b3] [[H1 N1]|[E1 H1]] [[H2 N2]|[E2 H2]]; cbn in *; subst.
  - left; cbn. split; [by etrans|]. intros ->. by destruct N1; apply (anti_symm RA).
  - by left.
  - by left.
  - right; cbn. split; [done|by etrans].
Qed.

#[global] Instance lex_le_total `{EqDecision A, !Total RA, !Total RB} : Total (lex_le RA RB).
Proof.
  intros [a1 b1] [a2 b2]. destruct (decide (a1 = a2)) as [->|N].
  - destruct (total RB b1 b2); [left|right]; right; by cbn.
  - destruct (total RA a1 a2); [left|right]; left; cbn; split; congruence.
Qed.

#[global] Instance lex_le_order `{!PartialOrder RA, !PartialOrder RB} :
  PartialOrder (lex_le RA RB).
Proof.
  split; [split|].
  - intros [a b]. right; by cbn.
  - apply _.
  - intros [a1 b1] [a2 b2] [[H1 N1]|[E1 H1]] [[H2 N2]|[E2 H2]]; cbn in *; subst; try done.
    + by destruct N1; apply (anti_symm RA).
    + f_equal. by apply (anti_symm RB).
Qed.

End LexOrder.

(** Sorting commutes with a map that preserves and reflects the order. *)
Section SortMap.
Context {A} (R : relation A) `{forall x y, Decision (R x y)} (f : A -> A).
Hypothesis f_le : forall x y, R (f x) (f y) <-> R x y.

Lemma list_merge_map l1 l2 :
  list_merge R (f <$> l1) (f <$> l2) = f <$> list_merge R l1 l2.
Proof.
  revert l2; induction l1 as [|x l1 IH]; intros l2; [by destruct l2|].
  induction l2 as [|y l2 IH2]; [done|]. rewrite !fmap_cons, !list_merge_cons.
  destruct (decide (R (f x) (f y))) as [Hf|Hf], (decide (R x y)) as [Hx|Hx];
    rewrite ?f_le in Hf; try done; rewrite fmap_cons; f_equal; [apply (IH (y :: l2))|exact IH2].
Qed.

Lemma merge_list_to_stack_map st l :
  merge_list_to_stack R (fmap (M:=option) (fmap (M:=list) f) <$> st) (f <$> l)
  = fmap (M:=option) (fmap (M:=list) f) <$> merge_list_to_stack R st l.
Proof.
  revert l; induction st as [|[l'|] st IH]; intros l; cbn; try done.
  by rewrite list_merge_map, IH.
Qed.

Lemma merge_stack_map st :
  merge_stack R (fmap (M:=option) (fmap (M:=list) f) <$> st) = f <$> merge_stack R st.
Proof. induction st as [|[l'|] st IH]; cbn; rewrite ?IH, ?list_merge_map; done. Qed.

Lemma merge_sort_map l : merge_sort R (f <$> l) = f <$> merge_sort R l.
Proof.
  unfold merge_sort. change (@nil (option (list A))) with (fmap (M:=option) (fmap (M:=list) f) <$> []) at 1.
  generalize (@nil (option (list A))) as st. induction l as [|x l IH]; intros st; cbn.
  - apply merge_stack_map.
  - rewrite <- IH. f_equal. apply (merge_list_to_stack_map st [x]).
Qed.

End SortMap.

Lemma existsb_false {A} (p : A -> bool) l : existsb p l = false <-> forall x, x ∈ l -> p x = false.
Proof.
  induction l as [|y l IH]; cbn; [split; [by intros _ x ?%not_elem_of_nil|done]|].
  rewrite orb_false_iff, IH. set_solver.
Qed.

(** Elements of a search and of a boolean filter. *)
Lemma find_elem {A} (p : A -> bool) l x : List.find p l = Some x -> x ∈ l /\ p x = true.
Proof. intros [Hin Hp]%List.find_some. split; [by apply list_elem_of_In|done]. Qed.

Lemma find_None_elem {A} (p : A -> bool) l x : List.find p l = None -> x ∈ l -> p x = false.
Proof. intros Hf Hx. eapply List.find_none; [exact Hf|by apply list_elem_of_In]. Qed.

Lemma filter_elem {A} (p : A -> bool) l x : x ∈ List.filter p l <-> x ∈ l /\ p x = true.
Proof. rewrite !list_elem_of_In. apply List.filter_In. Qed.

(** A filter commutes with a map, read through the map. *)
Lemma filter_map {A B} (P : B -> Prop) `{forall x, Decision (P x)} (Q : A -> Prop)
    `{forall x, Decision (Q x)} (f : A -> B) (l : list A) :
  (forall x, P (f x) <-> Q x) -> filter P (f <$> l) = f <$> filter Q l.
Proof.
  intros Hf. induction l as [|x l IH]; [done|]. rewrite fmap_cons, !filter_cons, IH.
  destruct (decide (P (f x))) as [Hx|Hx], (decide (Q x)) as [Hy|Hy];
    rewrite ?Hf in Hx; done.
Qed.

(** ** Tactics *)

(** Case analysis on the innermost scrutinee of a match in the goal or a
    hypothesis, keeping the equation. *)
Ltac case_inner t :=
  lazymatch t with
  | context [match ?x with _ => _ end] => case_inner x
  | _ => destruct t eqn:?
  end.

Ltac case_in H :=
  match type of H with
  | context [match ?x with _ => _ end] => case_inner x
  end.

Ltac case_goal :=
  match goal with
  | |- context [match ?x with _ => _ end] => case_inner x
  end.

(** Split a successful monadic computation into its successful parts. *)
Ltac inv_ok H :=
  repeat first
    [ rewrite raise_when_bind_Ok in H;
      let H1 := fresh "Hok" in destruct H as [H1 H]
    | rewrite bind_Ok in H;
      let x := fresh "v" in let H1 := fresh "Hok" in destruct H as (x & H1 & H) ].

Ltac bool_prop :=
  repeat match goal with
  | H : _ && _ = true |- _ => apply andb_true_iff in H as [? ?]
  | H : _ || _ = false |- _ => apply orb_false_iff in H as [? ?]
  | H : negb _ = true |- _ => apply negb_true_iff in H
  | H : negb _ = false |- _ => apply negb_false_iff in H
  | H : bool_decide _ = true |- _ => apply bool_decide_eq_true in H
  | H : bool_decide _ = false |- _ => apply bool_decide_eq_false in H
  | H : (_ =? _) = true |- _ => apply Z.eqb_eq in H
  | H : (_ =? _) = false |- _ => apply Z.eqb_neq in H
  | H : (_ <? _) = true |- _ => apply Z.ltb_lt in H
  | H : (_ <? _) = false |- _ => apply Z.ltb_ge in H
  | H : (_ <=? _) = true |- _ => apply Z.leb_le in H
  | H : (_ <=? _) = false |- _ => apply Z.leb_gt in H
  | H : (_ =? _)%string = true |- _ => apply String.eqb_eq in H
  | H : (_ =? _)%string = false |- _ => apply String.eqb_neq in H
  end.

(** Close a closed equation by evaluation in the kernel's virtual machine. *)
Ltac by_vm := lazymatch goal with |- ?a = _ => vm_cast_no_check (@eq_refl _ a) end.

(** Close a closed decidable fact by evaluation. *)
Ltac by_decide := apply (bool_decide_unpack _); vm_compute; exact I.

Create Rewrite HintDb forecast.
#[export] Hint Rewrite @bind_Ok @raise_when_Ok @raise_when_bind_Ok : forecast.
