(* ===== verification/PyStr.v ===== *)
(** * Python strings

    A Python [str] is represented by its UTF-8 bytes (a Rocq [string]); the
    operations the code uses ([len], [strip], [split]/[join], slicing, [lower],
    substring tests) work on code points, which [py_chars] recovers by grouping
    each lead byte with its continuation bytes. *)
From stdpp Require Import pretty.
From S2P Require Import Prelude.
Open Scope string_scope.
Open Scope Z_scope.

Module PyStr.

(** A UTF-8 continuation byte is [10xxxxxx]. *)
Definition is_continuation (c : Ascii.ascii) : bool :=
  let n := Ascii.nat_of_ascii c in (128 <=? n)%nat && (n <? 192)%nat.

(** One pass from the right: the continuation bytes still waiting for their
    lead byte, and the code points found so far. *)
Fixpoint chars_aux (s : string) : string * list string :=
  match s with
  | EmptyString => (EmptyString, [])
  | String c s' =>
      let '(pending, cs) := chars_aux s' in
      if is_continuation c then (String c pending, cs)
      else (EmptyString, String c pending :: cs)
  end.

(** The code points of a string, each as its UTF-8 encoding. *)
Definition py_chars (s : string) : list string :=
  let '(pending, cs) := chars_aux s in
  if decide (pending = EmptyString) then cs else pending :: cs.

Definition py_concat (l : list string) : string := foldr String.app EmptyString l.

(** [len(s)] *)
Definition py_len (s : string) : Z := Z.of_nat (length (py_chars s)).

(** [s[:n]] for [n >= 0] *)
Definition py_take (n : nat) (s : string) : string := py_concat (take n (py_chars s)).

Definition bytes (l : list nat) : string :=
  foldr (fun n s => String (Ascii.ascii_of_nat n) s) EmptyString l.

(** The code points for which [str.isspace] holds, UTF-8 encoded: these are what
    [strip()] and [split()] without arguments remove. *)
Definition whitespace : list string :=
  bytes <$> [[9]; [10]; [11]; [12]; [13]; [28]; [29]; [30]; [31]; [32];
             [194; 133]; [194; 160]; [225; 154; 128];
             [226; 128; 128]; [226; 128; 129]; [226; 128; 130]; [226; 128; 131];
             [226; 128; 132]; [226; 128; 133]; [226; 128; 134]; [226; 128; 135];
             [226; 128; 136]; [226; 128; 137]; [226; 128; 138];
             [226; 128; 168]; [226; 128; 169]; [226; 128; 175];
             [226; 129; 159]; [227; 128; 128]]%nat.

Definition is_space (c : string) : bool := bool_decide (c ∈ whitespace).

Fixpoint drop_while {A} (p : A -> bool) (l : list A) : list A :=
  match l with
  | [] => []
  | x :: l' => if p x then drop_while p l' else l
  end.

Definition strip_chars (l : list string) : list string :=
  reverse (drop_while is_space (reverse (drop_while is_space l))).

(** [s.strip()] *)
Definition py_strip (s : string) : string := py_concat (strip_chars (py_chars s)).

(** [s.split()]: the maximal runs of non-space code points. *)
Fixpoint split_chars (l : list string) : string * list string :=
  match l with
  | [] => (EmptyString, [])
  | c :: l' =>
      let '(word, ws) := split_chars l' in
      if is_space c
      then (EmptyString, if decide (word = EmptyString) then ws else word :: ws)
      else (String.app c word, ws)
  end.

Definition py_split (s : string) : list string :=
  let '(word, ws) := split_chars (py_chars s) in
  if decide (word = EmptyString) then ws else word :: ws.

(** [sep.join(l)] *)
Fixpoint py_join (sep : string) (l : list string) : string :=
  match l with
  | [] => EmptyString
  | [x] => x
  | x :: l' => String.app x (String.app sep (py_join sep l'))
  end.

(** Truthiness of a string. *)
Definition truthy (s : string) : bool := negb (s =? "")%string.

(** Truthiness of an optional string. *)
Definition truthy_opt (s : option string) : bool :=
  match s with Some s => truthy s | None => false end.

(** [s.startswith(p)] *)
Definition py_startswith (s p : string) : bool := String.prefix p s.

(** [sub in s] *)
Fixpoint py_contains (sub s : string) : bool :=
  String.prefix sub s ||
  match s with
  | EmptyString => false
  | String _ s' => py_contains sub s'
  end.

Definition in_range (lo hi : nat) (c : Ascii.ascii) : bool :=
  let n := Ascii.nat_of_ascii c in (lo <=? n)%nat && (n <=? hi)%nat.

Definition is_upper := in_range 65 90.
Definition is_lower := in_range 97 122.
Definition is_digit := in_range 48 57.
Definition is_alnum (c : Ascii.ascii) : bool := is_upper c || is_lower c || is_digit c.
Definition is_hex (c : Ascii.ascii) : bool := is_digit c || in_range 97 102 c.

Definition char_in (l : string) (c : Ascii.ascii) : bool :=
  bool_decide (c ∈ String.list_ascii_of_string l).

(** All bytes of [s] satisfy [p] (character classes are ASCII). *)
Definition all_bytes (p : Ascii.ascii -> bool) (s : string) : bool :=
  forallb p (String.list_ascii_of_string s).

(** ASCII part of [s.lower()]. *)
Definition lower_ascii (c : Ascii.ascii) : Ascii.ascii :=
  if is_upper c then Ascii.ascii_of_nat (Ascii.nat_of_ascii c + 32) else c.
Definition py_lower (s : string) : string :=
  String.string_of_list_ascii (lower_ascii <$> String.list_ascii_of_string s).

(** The pattern [^[0-9a-f]{64}$] of the SHA-256 digests. *)
Definition is_sha256_hex (s : string) : bool :=
  (String.length s =? 64)%nat && all_bytes is_hex s.

(** ["0" * 64], the placeholder digest. *)
Definition zero_digest : string :=
  "0000000000000000000000000000000000000000000000000000000000000000".

(** [str(n)] for an integer. *)
Definition py_str_Z (n : Z) : string := pretty n.

(** [" ".join(s.split()).strip()] *)
Definition collapse_spaces (s : string) : string := py_strip (py_join " " (py_split s)).

(** ** Lemmas *)

Lemma chars_aux_concat s :
  String.app (chars_aux s).1 (py_concat (chars_aux s).2) = s.
Proof.
  induction s as [|c s IH]; [done|]. cbn [chars_aux].
  destruct (chars_aux s) as [p cs]; cbn [fst snd] in IH.
  destruct (is_continuation c); cbn [fst snd]; [|cbn [py_concat foldr]];
    (change (String c (String.app p (py_concat cs)) = String c s)); by rewrite IH.
Qed.

(** Splitting into code points loses nothing. *)
Lemma py_concat_chars s : py_concat (py_chars s) = s.
Proof.
  pose proof (chars_aux_concat s) as H. unfold py_chars.
  destruct (chars_aux s) as [p cs]; cbn in *.
  case_decide as Hp; [by rewrite Hp in H|done].
Qed.

Lemma py_take_ge n s : py_len s <= Z.of_nat n -> py_take n s = s.
Proof.
  unfold py_len, py_take. intros H. rewrite take_ge by lia. apply py_concat_chars.
Qed.

Lemma drop_while_sublist {A} (p : A -> bool) l : exists k, drop_while p l = drop k l.
Proof.
  induction l as [|x l [k IH]]; cbn; [by exists O|].
  destruct (p x); [by exists (S k) | by exists O].
Qed.

Lemma drop_while_idemp {A} (p : A -> bool) l :
  drop_while p (drop_while p l) = drop_while p l.
Proof. induction l as [|x l IH]; cbn; [done|]. destruct (p x) eqn:E; cbn; by rewrite ?E. Qed.

(** *** Splitting again what was put together from code points *)

Fixpoint all_continuation (s : string) : bool :=
  match s with EmptyString => true | String c s' => is_continuation c && all_continuation s' end.

Definition is_char (x : string) : bool :=
  match x with EmptyString => false | String c s' => negb (is_continuation c) && all_continuation s' end.

(** A list that [py_chars] can return. *)
Definition chars_ok (l : list string) : bool :=
  match l with
  | [] => true
  | x :: l' => (is_char x || (negb (x =? "")%string && all_continuation x)) && forallb is_char l'
  end.

Lemma chars_aux_ok s : all_continuation (chars_aux s).1 = true /\ forallb is_char (chars_aux s).2 = true.
Proof.
  induction s as [|c s [IH1 IH2]]; [done|]. cbn [chars_aux].
  destruct (chars_aux s) as [p cs]; cbn [fst snd] in *.
  destruct (is_continuation c) eqn:E; cbn; by rewrite ?E, ?IH1, ?IH2.
Qed.

Lemma py_chars_ok s : chars_ok (py_chars s) = true.
Proof.
  unfold py_chars. destruct (chars_aux_ok s) as [H1 H2].
  destruct (chars_aux s) as [p cs]; cbn [fst snd] in *. case_decide as Hp.
  - destruct cs as [|x cs]; [done|]. cbn in *. apply andb_true_iff in H2 as [-> ->]. done.
  - cbn. rewrite H1, H2. apply String.eqb_neq in Hp. rewrite Hp. cbn. by rewrite orb_true_r.
Qed.

Lemma chars_aux_app p s :
  all_continuation p = true ->
  chars_aux (String.app p s) = (String.app p (chars_aux s).1, (chars_aux s).2).
Proof.
  induction p as [|c p IH]; cbn; [intros _; apply surjective_pairing|].
  intros [Hc Hp]%andb_true_iff. change (String.app (String c p) s) with (String c (String.app p s)).
  cbn [chars_aux]. rewrite IH by done. by rewrite Hc.
Qed.

Lemma string_app_nil_r s : String.app s "" = s.
Proof.
  induction s as [|c s IH]; [done|].
  change (String.app (String c s) "") with (String c (String.app s "")). by rewrite IH.
Qed.

Lemma chars_aux_char x s :
  is_char x = true -> (chars_aux s).1 = "" ->
  chars_aux (String.app x s) = ("", x :: (chars_aux s).2).
Proof.
  destruct x as [|c x]; cbn; [done|]. intros [Hc Hx]%andb_true_iff Hs.
  apply negb_true_iff in Hc. change (String.app (String c x) s) with (String c (String.app x s)).
  cbn [chars_aux]. rewrite chars_aux_app, Hc, Hs by done. by rewrite string_app_nil_r.
Qed.

Lemma chars_aux_concat_chars l :
  forallb is_char l = true -> chars_aux (py_concat l) = ("", l).
Proof.
  induction l as [|x l IH]; [done|]. intros [Hx Hl]%andb_true_iff.
  change (py_concat (x :: l)) with (String.app x (py_concat l)).
  rewrite chars_aux_char; [by rewrite IH|done|by rewrite IH].
Qed.

Lemma py_chars_concat l : chars_ok l = true -> py_chars (py_concat l) = l.
Proof.
  destruct l as [|x l]; [done|]. cbn [chars_ok py_concat foldr]. fold (py_concat l).
  intros [[Hx|[Hne Hx]%andb_true_iff]%orb_true_iff Hl]%andb_true_iff; unfold py_chars.
  - rewrite chars_aux_char; [|done|]; by rewrite chars_aux_concat_chars.
  - rewrite chars_aux_app, chars_aux_concat_chars by done. cbn. rewrite string_app_nil_r.
    apply negb_true_iff, String.eqb_neq in Hne. by rewrite decide_False.
Qed.

Lemma chars_ok_drop k l : chars_ok l = true -> chars_ok (drop k l) = true.
Proof.
  destruct k as [|k]; [done|]. destruct l as [|x l]; [done|]. cbn [chars_ok drop].
  intros [_ Hl]%andb_true_iff. revert l Hl. induction k as [|k IH]; intros [|y l]; cbn; try done.
  - by intros [-> ->]%andb_true_iff.
  - intros [_ ?]%andb_true_iff. by apply IH.
Qed.

Lemma chars_ok_take k l : chars_ok l = true -> chars_ok (take k l) = true.
Proof.
  destruct k as [|k]; [done|]. destruct l as [|x l]; [done|]. cbn [chars_ok take].
  intros [-> Hl]%andb_true_iff. cbn. revert l Hl. induction k as [|k IH]; intros [|y l]; cbn; try done.
  intros [-> ?]%andb_true_iff. by apply IH.
Qed.

(** [drop_while] from the right keeps a prefix. *)
Lemma drop_while_reverse {A} (p : A -> bool) l : exists k, reverse (drop_while p (reverse l)) = take k l.
Proof.
  destruct (drop_while_sublist p (reverse l)) as [k ->]. exists (length l - k)%nat.
  by rewrite drop_reverse, reverse_involutive.
Qed.

Lemma chars_ok_strip l : chars_ok l = true -> chars_ok (strip_chars l) = true.
Proof.
  intros H. unfold strip_chars. destruct (drop_while_reverse is_space (drop_while is_space l)) as [k ->].
  destruct (drop_while_sublist is_space l) as [k' ->]. by apply chars_ok_take, chars_ok_drop.
Qed.

Lemma drop_while_head {A} (p : A -> bool) l x l' : drop_while p l = x :: l' -> p x = false.
Proof.
  induction l as [|y l IH]; cbn; [done|]. destruct (p y) eqn:E; [done|]. by intros [= -> ->].
Qed.

Lemma strip_chars_idemp l : strip_chars (strip_chars l) = strip_chars l.
Proof.
  unfold strip_chars at 2. set (l1 := drop_while is_space l).
  destruct (drop_while_reverse is_space l1) as [k Hk].
  assert (Hhead : drop_while is_space (take k l1) = take k l1).
  { destruct l1 as [|x l1'] eqn:E; [by rewrite take_nil|]. destruct k as [|k]; [done|]. cbn.
    subst l1. by rewrite (drop_while_head _ _ _ _ E). }
  unfold strip_chars. fold l1. rewrite Hk, Hhead, <- Hk.
  by rewrite reverse_involutive, drop_while_idemp.
Qed.

(** Stripping twice is stripping once. *)
Lemma py_strip_idemp s : py_strip (py_strip s) = py_strip s.
Proof.
  unfold py_strip at 1 2. rewrite py_chars_concat by (apply chars_ok_strip, py_chars_ok).
  by rewrite strip_chars_idemp.
Qed.

Lemma list_ascii_of_string_app a b :
  String.list_ascii_of_string (String.app a b)
  = (String.list_ascii_of_string a ++ String.list_ascii_of_string b)%list.
Proof.
  induction a as [|c a IH]; [done|].
  change (String.app (String c a) b) with (String c (String.app a b)). cbn. by rewrite IH.
Qed.

Lemma string_of_list_ascii_app l k :
  String.string_of_list_ascii (l ++ k)%list
  = String.app (String.string_of_list_ascii l) (String.string_of_list_ascii k).
Proof.
  induction l as [|c l IH]; [done|]. cbn. by rewrite IH.
Qed.

Lemma truthy_spec s : truthy s = true <-> s <> "".
Proof. unfold truthy. rewrite negb_true_iff, String.eqb_neq. done. Qed.

Lemma is_sha256_hex_length s : is_sha256_hex s = true -> String.length s = 64%nat.
Proof. unfold is_sha256_hex. intros H. bool_prop. by apply Nat.eqb_eq. Qed.

Example strip_example : py_strip " ab c  " = "ab c".
Proof. reflexivity. Qed.
Example split_example : collapse_spaces "  a   b c " = "a b c".
Proof. reflexivity. Qed.
Example len_example : py_len "今日" = 2.
Proof. reflexivity. Qed.

End PyStr.
