(* ===== verification/PyTime.v ===== *)
(** * Dates and datetimes

    A [date] is its proleptic Gregorian ordinal ([date.toordinal()], day 1 is
    0001-01-01), which orders dates as Python does.  A [datetime] is its wall
    time in microseconds since the start of day 0 together with its UTC offset
    ([None] for a naive datetime).  A time zone is the pair of functions a
    [ZoneInfo] provides: the offset of a wall time and the offset of an
    instant. *)
From S2P Require Import Prelude PyStr.
Open Scope Z_scope.

Module PyTime.

Definition date := Z.

Definition us_per_second : Z := 1000000.
Definition us_per_minute : Z := 60 * us_per_second.
Definition us_per_hour : Z := 60 * us_per_minute.
Definition us_per_day : Z := 24 * us_per_hour.

(** [timedelta(seconds=n)], [timedelta(minutes=n)] *)
Definition seconds (n : Z) : Z := n * us_per_second.
Lemma seconds_le a b : a <= b -> seconds a <= seconds b.
Proof. unfold seconds, us_per_second. lia. Qed.

Definition minutes (n : Z) : Z := n * us_per_minute.

(** [time(h, m)] as microseconds of the day *)
Definition time_of (h m : Z) : Z := h * us_per_hour + m * us_per_minute.

Record datetime := DateTime { dt_wall : Z; dt_offset : option Z }.

#[global] Instance datetime_eq_dec : EqDecision datetime.
Proof. solve_decision. Defined.

(** [value.tzinfo is not None and value.utcoffset() is not None] *)
Definition is_aware (d : datetime) : bool :=
  match dt_offset d with Some _ => true | None => false end.

(** The instant an aware datetime denotes, in microseconds of UTC wall time; a
    naive one is read as UTC. *)
Definition instant (d : datetime) : Z := dt_wall d - default 0 (dt_offset d).

(** Python orders aware datetimes by the instants they denote. *)
Definition dt_ltb (a b : datetime) : bool := instant a <? instant b.
Definition dt_leb (a b : datetime) : bool := instant a <=? instant b.
Definition dt_eqb (a b : datetime) : bool := instant a =? instant b.

(** Two datetimes that carry the same [ZoneInfo] object are ordered by their
    wall clocks. *)
Definition wall_ltb (a b : datetime) : bool := dt_wall a <? dt_wall b.

(** [d + timedelta] *)
Definition dt_add (d : datetime) (us : Z) : datetime :=
  DateTime (dt_wall d + us) (dt_offset d).

(** [d.date()], [d.time()] *)
Definition date_of (d : datetime) : date := dt_wall d / us_per_day.
Definition time_of_day (d : datetime) : Z := dt_wall d mod us_per_day.

(** [date.weekday()], Monday = 0 *)
Definition weekday (d : date) : Z := (d + 6) mod 7.

(** A [ZoneInfo]. *)
Record zoneinfo := Zone {
  zone_name : string;
  offset_of_wall : Z -> Z;
  offset_of_instant : Z -> Z }.

Definition fixed_zone (name : string) (off : Z) : zoneinfo :=
  Zone name (fun _ => off) (fun _ => off).

Definition UTC : zoneinfo := fixed_zone "UTC" 0.
Definition shanghai : zoneinfo := fixed_zone "Asia/Shanghai" (8 * us_per_hour).

(** [d.replace(tzinfo=z)] *)
Definition attach (z : zoneinfo) (d : datetime) : datetime :=
  DateTime (dt_wall d) (Some (offset_of_wall z (dt_wall d))).

(** [d.astimezone(z)] of an aware datetime *)
Definition astimezone (z : zoneinfo) (d : datetime) : datetime :=
  let i := instant d in
  DateTime (i + offset_of_instant z i) (Some (offset_of_instant z i)).

(** The helper [_aware(value, zone)] that the services share: a naive value is
    read in [zone], an aware one converted to it. *)
Definition aware (z : zoneinfo) (d : datetime) : datetime :=
  if is_aware d then astimezone z d else attach z d.

(** [datetime.combine(d, t, tzinfo=z)] *)
Definition combine (d : date) (t : Z) (z : zoneinfo) : datetime :=
  attach z (DateTime (d * us_per_day + t) None).

Lemma instant_astimezone z d : instant (astimezone z d) = instant d.
Proof. unfold astimezone, instant; cbn. lia. Qed.

Lemma instant_add d us : instant (dt_add d us) = instant d + us.
Proof. unfold instant, dt_add; cbn. lia. Qed.

Lemma is_aware_aware z d : is_aware (aware z d) = true.
Proof. unfold aware. destruct (is_aware d); reflexivity. Qed.

(** Converting twice is converting once, up to the denoted instant. *)
Lemma instant_aware_aware z z' d :
  is_aware d = true -> instant (aware z (aware z' d)) = instant d.
Proof.
  intros H. unfold aware at 1. rewrite is_aware_aware, instant_astimezone.
  unfold aware. by rewrite H, instant_astimezone.
Qed.

Lemma instant_aware_of_aware z d : is_aware d = true -> instant (aware z d) = instant d.
Proof. intros H. unfold aware. by rewrite H, instant_astimezone. Qed.

(** ** The civil calendar *)

Definition is_leap (y : Z) : bool :=
  (y mod 4 =? 0) && (negb (y mod 100 =? 0) || (y mod 400 =? 0)).

(** [calendar.monthrange(y, m)[1]] *)
Definition days_in_month (y m : Z) : Z :=
  match m with
  | 2 => if is_leap y then 29 else 28
  | 4 | 6 | 9 | 11 => 30
  | _ => 31
  end.

(** Days of the years before [y]. *)
Definition days_before_year (y : Z) : Z :=
  (y - 1) * 365 + (y - 1) / 4 - (y - 1) / 100 + (y - 1) / 400.

(** Days of the year [y] before month [m]. *)
Fixpoint days_before_month_nat (y : Z) (k : nat) : Z :=
  match k with
  | O => 0
  | S k' => days_before_month_nat y k' + days_in_month y (Z.of_nat k)
  end.
Definition days_before_month (y m : Z) : Z := days_before_month_nat y (Z.to_nat (m - 1)).

(** [date(y, m, d).toordinal()] *)
Definition ymd2ord (y m d : Z) : date := days_before_year y + days_before_month y m + d.

Record civil := Civil { c_year : Z; c_month : Z; c_day : Z }.

Definition civil_ok (c : civil) : Prop :=
  1 <= c_month c <= 12 /\ 1 <= c_day c <= days_in_month (c_year c) (c_month c).

Definition civil_ord (c : civil) : date := ymd2ord (c_year c) (c_month c) (c_day c).

Lemma days_in_month_bounds y m : 28 <= days_in_month y m <= 31.
Proof.
  unfold days_in_month. destruct (is_leap y), m as [|p|p]; try lia;
    do 4 (destruct p as [p|p|]; try lia).
Qed.

Lemma year_length y :
  days_before_year (y + 1) = days_before_year y + days_before_month_nat y 12.
Proof.
  assert (Hyear : days_before_month_nat y 12 = 365 + (if is_leap y then 1 else 0)).
  { unfold days_before_month_nat, days_in_month; cbn. destruct (is_leap y); reflexivity. }
  rewrite Hyear. unfold days_before_year.
  replace (y + 1 - 1) with y by lia.
  enough (y / 4 - (y - 1) / 4 - (y / 100 - (y - 1) / 100) + (y / 400 - (y - 1) / 400)
          = if is_leap y then 1 else 0) by (destruct (is_leap y); lia).
  assert (Hd : forall k, 0 < k -> y / k - (y - 1) / k = if y mod k =? 0 then 1 else 0).
  { intros k Hk. destruct (Z.eqb_spec (y mod k) 0) as [E|E].
    - apply Z.mod_divide in E as [q ->]; [|lia].
      rewrite Z.div_mul by lia. replace (q * k - 1) with ((q - 1) * k + (k - 1)) by lia.
      rewrite Z.div_add_l, (Z.div_small (k - 1)) by lia. lia.
    - pose proof (Z.mod_pos_bound y k Hk). pose proof (Z.div_mod y k ltac:(lia)) as Hy.
      replace (y - 1) with (y / k * k + (y mod k - 1)) by lia.
      rewrite Z.div_add_l, (Z.div_small (y mod k - 1)) by lia. lia. }
  rewrite !Hd by lia. unfold is_leap.
  assert (y mod 100 = 0 -> y mod 4 = 0) by (intros; Z.div_mod_to_equations; lia).
  assert (y mod 400 = 0 -> y mod 100 = 0) by (intros; Z.div_mod_to_equations; lia).
  repeat match goal with |- context [?a =? ?b] => destruct (Z.eqb_spec a b) end; cbn; lia.
Qed.

Lemma days_before_month_nat_S y k :
  days_before_month_nat y (S k) = days_before_month_nat y k + days_in_month y (Z.of_nat (S k)).
Proof. reflexivity. Qed.

Lemma days_before_month_nat_mono y k1 k2 :
  (k1 <= k2)%nat ->
  days_before_month_nat y k1 + 28 * Z.of_nat (k2 - k1) <= days_before_month_nat y k2.
Proof.
  induction 1 as [|k2 H IH]; [lia|]. cbn [days_before_month_nat].
  pose proof (days_in_month_bounds y (Z.of_nat (S k2))). lia.
Qed.

Lemma days_before_year_mono y1 y2 :
  y1 <= y2 -> days_before_year y1 + 336 * (y2 - y1) <= days_before_year y2.
Proof.
  intros H. replace y2 with (y1 + Z.of_nat (Z.to_nat (y2 - y1))) by lia.
  generalize (Z.to_nat (y2 - y1)) as n. intros n. induction n as [|n IH].
  { rewrite Z.add_0_r. lia. }
  replace (y1 + Z.of_nat (S n)) with (y1 + Z.of_nat n + 1) by lia.
  rewrite year_length.
  pose proof (days_before_month_nat_mono (y1 + Z.of_nat n) 0 12 ltac:(lia)) as Hm.
  change (days_before_month_nat (y1 + Z.of_nat n) 0) with 0 in Hm. lia.
Qed.

(** The day of the year of a valid month and day stays inside the year. *)
Lemma day_of_year_bounds y m d :
  1 <= m <= 12 -> 1 <= d <= days_in_month y m ->
  days_before_month y m < days_before_month y m + d <= days_before_month_nat y 12.
Proof.
  intros Hm Hd. unfold days_before_month.
  pose proof (days_before_month_nat_mono y (S (Z.to_nat (m - 1))) 12 ltac:(lia)) as H.
  rewrite days_before_month_nat_S in H.
  replace (Z.of_nat (S (Z.to_nat (m - 1)))) with m in H by lia. lia.
Qed.

Definition civil_ltb (a b : civil) : bool :=
  (c_year a <? c_year b) ||
  (c_year a =? c_year b) &&
    ((c_month a <? c_month b) || (c_month a =? c_month b) && (c_day a <? c_day b)).

(** Python's lexicographic order on dates is the order of their ordinals. *)
Lemma civil_ord_lt a b :
  civil_ok a -> civil_ok b -> civil_ltb a b = true -> civil_ord a < civil_ord b.
Proof.
  intros [Hma Hda] [Hmb Hdb] H. destruct a as [ya ma da], b as [yb mb db].
  unfold civil_ltb, civil_ord, ymd2ord in *; cbn in *.
  apply orb_true_iff in H as [H|H].
  - apply Z.ltb_lt in H. pose proof (days_before_year_mono (ya + 1) yb ltac:(lia)) as Hy.
    rewrite year_length in Hy.
    pose proof (day_of_year_bounds ya ma da Hma Hda).
    pose proof (days_before_month_nat_mono yb 0 (Z.to_nat (mb - 1)) ltac:(lia)) as Hz.
    change (days_before_month_nat yb 0) with 0 in Hz. unfold days_before_month in *. lia.
  - apply andb_true_iff in H as [Hy H]. apply Z.eqb_eq in Hy as ->.
    apply orb_true_iff in H as [H|H].
    + apply Z.ltb_lt in H. unfold days_before_month.
      pose proof (days_before_month_nat_mono yb (S (Z.to_nat (ma - 1))) (Z.to_nat (mb - 1))
                    ltac:(lia)) as Hm.
      rewrite days_before_month_nat_S in Hm.
      replace (Z.of_nat (S (Z.to_nat (ma - 1)))) with ma in Hm by lia. lia.
    + apply andb_true_iff in H as [Hm H]. apply Z.eqb_eq in Hm as ->.
      apply Z.ltb_lt in H. lia.
Qed.

(** Two valid civil dates with the same ordinal are equal. *)
Lemma civil_ord_inj a b :
  civil_ok a -> civil_ok b -> civil_ord a = civil_ord b -> a = b.
Proof.
  intros Ha Hb He.
  destruct (civil_ltb a b) eqn:E1; [pose proof (civil_ord_lt a b Ha Hb E1); lia|].
  destruct (civil_ltb b a) eqn:E2; [pose proof (civil_ord_lt b a Hb Ha E2); lia|].
  destruct a as [ya ma da], b as [yb mb db]; unfold civil_ltb in *; cbn in *.
  repeat match goal with
  | H : _ |- _ => rewrite orb_false_iff in H
  | H : _ |- _ => rewrite andb_false_iff in H
  | H : _ |- _ => rewrite Z.ltb_ge in H
  | H : _ |- _ => rewrite Z.eqb_neq in H
  end.
  assert (ya = yb) as -> by lia. assert (ma = mb) as -> by lia.
  assert (da = db) as -> by lia. done.
Qed.

End PyTime.
