(* ===== verification/Float64.v ===== *)
(** * IEEE 754 binary64, as Python's [float]

    Python floats are modelled by the Standard Library's executable
    specification of binary64 ([SpecFloat], precision 53, exponent range 1024,
    round to nearest even): no rounding is idealised away.  The file adds the
    Python functions the code calls ([sum], [math.isclose], [max], [min], [int],
    [round(x, 12)], decimal literals) and the order theory of comparisons. *)
From Stdlib Require Import Floats.SpecFloat.
From stdpp Require Import pretty.
From S2P Require Import Prelude.
Open Scope Z_scope.

Module Float64.

Definition float := spec_float.

#[global] Instance float_eq_dec : EqDecision float.
Proof. unfold float, EqDecision, Decision. decide equality; apply decide; apply _. Defined.

Definition fadd : float -> float -> float := SFadd 53 1024.
Definition fsub : float -> float -> float := SFsub 53 1024.
Definition fmul : float -> float -> float := SFmul 53 1024.
Definition fdiv : float -> float -> float := SFdiv 53 1024.
Definition fsqrt : float -> float := SFsqrt 53 1024.
Definition fopp : float -> float := SFopp.
Definition fabs : float -> float := SFabs.
Definition feqb : float -> float -> bool := SFeqb.
Definition fltb : float -> float -> bool := SFltb.
Definition fleb : float -> float -> bool := SFleb.

(** The literals [float(n)] and [n / d]: one correct rounding of the rational. *)
Definition of_Z (n : Z) : float := binary_normalize 53 1024 n 0 false.
Definition lit (n : Z) (d : positive) : float :=
  match n with
  | Z0 => S754_zero false
  | Zpos p => SFdiv 53 1024 (S754_finite false p 0) (S754_finite false d 0)
  | Zneg p => SFdiv 53 1024 (S754_finite true p 0) (S754_finite false d 0)
  end.

Definition f0 : float := S754_zero false.
Definition f1 : float := of_Z 1.

Definition is_nan (x : float) : bool :=
  match x with S754_nan => true | _ => false end.

(** [math.isfinite] *)
Definition is_finite (x : float) : bool :=
  match x with S754_zero _ | S754_finite _ _ _ => true | _ => false end.

Definition is_inf (x : float) : bool :=
  match x with S754_infinity _ => true | _ => false end.

(** [math.isclose(a, b, rel_tol=.., abs_tol=..)] *)
Definition isclose (rel_tol abs_tol a b : float) : bool :=
  if feqb a b then true
  else if is_inf a || is_inf b then false
  else
    let diff := fabs (fsub b a) in
    fleb diff (fabs (fmul rel_tol b)) || fleb diff (fabs (fmul rel_tol a))
    || fleb diff abs_tol.

(** The default [rel_tol = 1e-09]. *)
Definition rel_tol_default : float := lit 1 1000000000.

(** [max(a, b)] keeps its first argument unless the second is greater. *)
Definition fmax (a b : float) : float := if fltb a b then b else a.
Definition fmin (a b : float) : float := if fltb b a then b else a.

(** [x ** 2] *)
Definition fsquare (x : float) : float := fmul x x.

(** [int(x)] of a finite float: truncation towards zero. *)
Definition ftrunc (x : float) : Z :=
  match x with
  | S754_finite s m e =>
      let v := if 0 <=? e then Z.pos m * 2 ^ e else Z.pos m / 2 ^ (- e) in
      if s then - v else v
  | _ => 0
  end.

(** [round(x, digits)]: the exact value times [10^digits], rounded half to even, then
    the nearest double of the resulting decimal. *)
Definition round_half_even (n d : Z) : Z :=
  let q := n / d in
  let r := n mod d in
  if 2 * r <? d then q
  else if d <? 2 * r then q + 1
  else if Z.even q then q else q + 1.

Definition fround (digits : positive) (x : float) : float :=
  match x with
  | S754_finite s m e =>
      let n := if 0 <=? e then Z.pos m * 10 ^ Z.pos digits * 2 ^ e
               else round_half_even (Z.pos m * 10 ^ Z.pos digits) (2 ^ (- e)) in
      match n with
      | Zpos p => SFdiv 53 1024 (S754_finite s p 0) (S754_finite false (10 ^ digits) 0)
      | _ => S754_zero s
      end
  | _ => x
  end.

Definition fround12 : float -> float := fround 12.

(** [n / d] of two integers: one correct rounding. *)
Definition int_div (n d : Z) : float := lit n (Z.to_pos d).

(** [x.hex()] *)
Definition hex_digit (n : Z) : string :=
  String (Ascii.ascii_of_nat (Z.to_nat (if n <? 10 then 48 + n else 87 + n))) EmptyString.

Fixpoint hex_digits (width : nat) (n : Z) : string :=
  match width with
  | O => ""
  | S w => String.app (hex_digits w (n / 16)) (hex_digit (n mod 16))
  end.

Definition signed_text (n : Z) : string :=
  if n <? 0 then String.app "-" (pretty (- n)) else String.app "+" (pretty n).

Definition float_hex (x : float) : string :=
  let sign (s : bool) := if s then "-"%string else ""%string in
  match x with
  | S754_nan => "nan"
  | S754_infinity s => String.app (sign s) "inf"
  | S754_zero s => String.app (sign s) "0x0.0p+0"
  | S754_finite s m e =>
      let lead := if Z.pos m <? 2 ^ 52 then 0 else 1 in
      let exponent := if Z.pos m <? 2 ^ 52 then -1022 else e + 52 in
      String.app (sign s) (String.app "0x" (String.app (hex_digit lead) (String.app "."
        (String.app (hex_digits 13 (Z.pos m mod 2 ^ 52)) (String.app "p" (signed_text exponent))))))
  end.

(** ** [sum] of floats

    Since Python 3.12 the builtin [sum] compensates (Neumaier); before it adds
    left to right.  The project supports both, so the definitions that sum
    floats are parametrised by the interpreter. *)
Inductive py_version := Py311 | Py312.

Class PyRuntime := { runtime : py_version }.

Definition neumaier_step (acc : float * float) (x : float) : float * float :=
  let '(s, c) := acc in
  let t := fadd s x in
  let c' := if fleb (fabs x) (fabs s)
            then fadd c (fadd (fsub s t) x)
            else fadd c (fadd (fsub x t) s) in
  (t, c').

Definition neumaier_result (acc : float * float) : float :=
  let '(s, c) := acc in
  if negb (feqb c f0) && is_finite c then fadd s c else s.

(** [sum(l)]; of an empty list it is the integer 0, read as [0.0]. *)
Definition py_sum `{PyRuntime} (l : list float) : float :=
  match l with
  | [] => f0
  | x :: l' =>
      match runtime with
      | Py311 => fold_left fadd l' (fadd f0 x)
      | Py312 => neumaier_result (fold_left neumaier_step l' (fadd f0 x, f0))
      end
  end.

(** ** Order theory *)

(** Position of a float in the total preorder of comparisons. *)
Definition rank (x : float) : Z * Z * Z :=
  match x with
  | S754_zero _ | S754_nan => (0, 0, 0)
  | S754_infinity false => (2, 0, 0)
  | S754_infinity true => (-2, 0, 0)
  | S754_finite false m e => (1, e, Z.pos m)
  | S754_finite true m e => (-1, - e, - Z.pos m)
  end.

Definition lex (a b : Z * Z * Z) : Prop :=
  let '(a1, a2, a3) := a in
  let '(b1, b2, b3) := b in
  a1 < b1 \/ a1 = b1 /\ (a2 < b2 \/ a2 = b2 /\ a3 < b3).

Lemma SFcompare_rank x y :
  is_nan x = false -> is_nan y = false ->
  match SFcompare x y with
  | Some Lt => lex (rank x) (rank y)
  | Some Eq => rank x = rank y
  | Some Gt => lex (rank y) (rank x)
  | None => False
  end.
Proof.
  destruct x as [[]|[]| |[] mx ex], y as [[]|[]| |[] my ey]; cbn; try done; try lia;
    intros _ _; destruct (Z.compare_spec ex ey); subst; try lia;
    fold (Pos.compare mx my); destruct (Pos.compare_spec mx my); cbn; subst;
    first [done | lia].
Qed.

Lemma SFcompare_nan x y :
  is_nan x || is_nan y = true -> SFcompare x y = None.
Proof. destruct x, y; cbn; done. Qed.

Lemma lex_irrefl a : ~ lex a a.
Proof. destruct a as [[??]?]; cbn; lia. Qed.

Lemma lex_trans a b c : lex a b -> lex b c -> lex a c.
Proof. destruct a as [[??]?], b as [[??]?], c as [[??]?]; cbn; lia. Qed.

Lemma fltb_spec x y :
  fltb x y = true <-> is_nan x = false /\ is_nan y = false /\ lex (rank x) (rank y).
Proof.
  unfold fltb, SFltb.
  destruct (is_nan x) eqn:Nx; [rewrite SFcompare_nan by (by rewrite Nx); naive_solver|].
  destruct (is_nan y) eqn:Ny;
    [rewrite SFcompare_nan by (by rewrite Ny, orb_true_r); naive_solver|].
  pose proof (SFcompare_rank x y Nx Ny) as H.
  destruct (SFcompare x y) as [[]|]; split; try done.
  - rewrite H. by intros (_ & _ & []%lex_irrefl).
  - intros (_ & _ & H'). destruct (lex_irrefl (rank x)). by eapply lex_trans.
Qed.

Lemma feqb_spec x y :
  feqb x y = true <-> is_nan x = false /\ is_nan y = false /\ rank x = rank y.
Proof.
  unfold feqb, SFeqb.
  destruct (is_nan x) eqn:Nx; [rewrite SFcompare_nan by (by rewrite Nx); naive_solver|].
  destruct (is_nan y) eqn:Ny;
    [rewrite SFcompare_nan by (by rewrite Ny, orb_true_r); naive_solver|].
  pose proof (SFcompare_rank x y Nx Ny) as H.
  destruct (SFcompare x y) as [[]|]; split; try done;
    intros (_ & _ & Heq); rewrite Heq in H; by apply lex_irrefl in H.
Qed.

Lemma fleb_spec x y : fleb x y = fltb x y || feqb x y.
Proof. unfold fleb, fltb, feqb, SFleb, SFltb, SFeqb. by destruct (SFcompare x y) as [[]|]. Qed.

Lemma fltb_irrefl x : fltb x x = false.
Proof.
  apply not_true_iff_false. rewrite fltb_spec. intros (_ & _ & []%lex_irrefl).
Qed.

Lemma fltb_trans x y z : fltb x y = true -> fltb y z = true -> fltb x z = true.
Proof. rewrite !fltb_spec. intuition eauto using lex_trans. Qed.

Lemma fltb_asym x y : fltb x y = true -> fltb y x = false.
Proof.
  intros H. apply not_true_iff_false. intros H'.
  pose proof (fltb_trans _ _ _ H H') as Hx. by rewrite fltb_irrefl in Hx.
Qed.

Lemma fltb_feqb_l x y z : feqb x y = true -> fltb y z = true -> fltb x z = true.
Proof. rewrite feqb_spec, !fltb_spec. intros (?&?&->). naive_solver. Qed.

Lemma fltb_feqb_r x y z : fltb x y = true -> feqb y z = true -> fltb x z = true.
Proof. rewrite feqb_spec, !fltb_spec. intros (?&?&?) (?&?&<-). naive_solver. Qed.

Lemma fleb_fltb_trans x y z : fleb x y = true -> fltb y z = true -> fltb x z = true.
Proof.
  rewrite fleb_spec, orb_true_iff. intros [H|H] Hyz;
    [by eapply fltb_trans | by eapply fltb_feqb_l].
Qed.

Lemma feqb_sym x y : feqb x y = feqb y x.
Proof. apply eq_true_iff_eq. rewrite !feqb_spec. naive_solver. Qed.

Lemma feqb_refl x : is_nan x = false -> feqb x x = true.
Proof. rewrite feqb_spec. naive_solver. Qed.

Lemma fleb_trans x y z : fleb x y = true -> fleb y z = true -> fleb x z = true.
Proof.
  rewrite !fleb_spec, !orb_true_iff. intros [Hx|Hx] [Hy|Hy].
  - left. by eapply fltb_trans.
  - left. by eapply fltb_feqb_r.
  - left. by eapply fltb_feqb_l.
  - right. revert Hx Hy. rewrite !feqb_spec. intuition congruence.
Qed.

(** Comparisons of two numbers are decided one way or the other. *)
Lemma fltb_false_fleb x y :
  is_nan x = false -> is_nan y = false -> fltb x y = negb (fleb y x).
Proof.
  intros Nx Ny. unfold fltb, fleb, SFltb, SFleb.
  pose proof (SFcompare_rank x y Nx Ny) as H1.
  pose proof (SFcompare_rank y x Ny Nx) as H2.
  destruct (SFcompare x y) as [[]|], (SFcompare y x) as [[]|]; cbn; try done.
  all: try (rewrite H1 in H2; by apply lex_irrefl in H2).
  all: try (rewrite H2 in H1; by apply lex_irrefl in H1).
  all: destruct (lex_irrefl (rank x)); by eapply lex_trans.
Qed.

Lemma is_finite_not_nan x : is_finite x = true -> is_nan x = false.
Proof. by destruct x. Qed.

Lemma rank_opp x :
  let '(a, b, c) := rank x in rank (fopp x) = (- a, - b, - c).
Proof. destruct x as [[]|[]| |[] m e]; cbn; done || (repeat f_equal; lia). Qed.

Lemma is_nan_opp x : is_nan (fopp x) = is_nan x.
Proof. by destruct x. Qed.

Lemma is_finite_opp x : is_finite (fopp x) = is_finite x.
Proof. by destruct x. Qed.

Lemma fopp_involutive x : fopp (fopp x) = x.
Proof. destruct x as [[]|[]| |[] ??]; reflexivity. Qed.

(** Negation reverses the order. *)
Lemma fltb_opp x y : fltb (fopp x) (fopp y) = fltb y x.
Proof.
  apply eq_true_iff_eq. rewrite !fltb_spec, !is_nan_opp.
  pose proof (rank_opp x) as Hx. pose proof (rank_opp y) as Hy.
  destruct (rank x) as [[??]?], (rank y) as [[??]?]. rewrite Hx, Hy. cbn.
  split; intros (?&?&?); (split; [done|split; [done|lia]]).
Qed.

Lemma fltb_opp_l x y : fltb (fopp x) y = fltb (fopp y) x.
Proof. rewrite <- (fltb_opp y (fopp x)). by rewrite fopp_involutive. Qed.

Lemma fltb_opp_r x y : fltb x (fopp y) = fltb y (fopp x).
Proof. rewrite <- (fltb_opp (fopp y) x). by rewrite fopp_involutive. Qed.

(** The sign of a number. *)
Definition nonneg (x : float) : bool :=
  match x with
  | S754_zero _ | S754_infinity false | S754_finite false _ _ => true
  | _ => false
  end.

Lemma nonneg_fleb x : is_nan x = false -> fleb f0 x = nonneg x.
Proof. destruct x as [[]|[]| |[] ??]; done. Qed.

Example lit_quarter : lit 1 4 = S754_finite false 4503599627370496 (-54).
Proof. reflexivity. Qed.
(** [0.1 + 0.2 == 0.30000000000000004] *)
Example add_example : fadd (lit 1 10) (lit 2 10) = lit 30000000000000004 100000000000000000.
Proof. vm_compute. reflexivity. Qed.
Example round_example : fround12 (lit 1 3) = lit 333333333333 1000000000000.
Proof. vm_compute. reflexivity. Qed.
Example sum_versions :
  @py_sum {| runtime := Py312 |} (repeat (lit 1 10) 10) = f1 /\
  @py_sum {| runtime := Py311 |} (repeat (lit 1 10) 10) <> f1.
Proof. split; [vm_compute; reflexivity | vm_compute; discriminate]. Qed.

End Float64.
