(* ===== verification/Rounding.v ===== *)
(** * Rounding of products

    Multiplication by a positive normal constant is monotone on the doubles a
    machine can hold ([valid_binary]), whatever is rounded away.  The file reads
    the shift-and-sticky rounding of [SpecFloat] as the rounding half to even of
    an exact quotient, and compares results by exponent and mantissa. *)
From Stdlib Require Import Floats.SpecFloat.
From S2P Require Import Prelude Float64.
Import Float64.
Open Scope Z_scope.

Module Rounding.

(** A value a double can hold. *)
Definition canonical (x : float) : bool := valid_binary 53 1024 x.

Abbreviation digits p := (Z.pos (digits2_pos p)).
Abbreviation rexp := (fexp 53 1024).

Lemma rexp_eq e : rexp e = Z.max (e - 53) (-1074).
Proof. done. Qed.

Lemma digits_bounds p : 2 ^ (digits p - 1) <= Z.pos p < 2 ^ digits p.
Proof.
  induction p as [p IH|p IH|]; cbn [digits2_pos]; [| |by cbn];
    rewrite Pos2Z.inj_succ, Z.sub_succ_l in *; rewrite !Z.pow_succ_r by lia;
    replace (digits p) with (Z.succ (digits p - 1)) in IH at 2 by lia;
    rewrite Z.pow_succ_r in IH by lia;
    replace (2 ^ digits p) with (2 * 2 ^ (digits p - 1))
      by (rewrite <- Z.pow_succ_r by lia; f_equal; lia); lia.
Qed.

Lemma digits_le p n : 0 <= n -> Z.pos p < 2 ^ n -> digits p <= n.
Proof.
  intros Hn Hp. destruct (digits_bounds p) as [Hlo _].
  assert (2 ^ (digits p - 1) < 2 ^ n) as Hlt%Z.pow_lt_mono_r_iff by lia; lia.
Qed.

(** ** The quotient behind a shift *)

(** The record holds [P] shifted right by [k]: the quotient, and whether the
    remainder is zero, below, at or above the half. *)
Definition shifted (P k : Z) (rec : shr_record) : Prop :=
  let '(Build_shr_record m r s) := rec in
  0 <= k /\ 0 <= m /\ exists R, P = m * 2 ^ k + R /\
  match r, s with
  | false, false => R = 0
  | false, true => 0 < 2 * R < 2 ^ k
  | true, false => 2 * R = 2 ^ k
  | true, true => 2 ^ k < 2 * R < 2 * 2 ^ k
  end.

Lemma shifted_1 P k rec : shifted P k rec -> shifted P (k + 1) (shr_1 rec).
Proof.
  destruct rec as [m r s]. intros (Hk & Hm & R & HP & HR).
  assert (2 ^ (k + 1) = 2 * 2 ^ k) as E by (rewrite Z.pow_add_r by lia; lia).
  assert (0 < 2 ^ k) by (apply Z.pow_pos_nonneg; lia).
  destruct m as [|[p|p|]|]; cbn; try lia; (split; [lia|]); (split; [lia|]); rewrite E;
    [exists R|exists (2 ^ k + R)|exists R|exists (2 ^ k + R)]; destruct r, s; cbn; lia.
Qed.

Lemma shifted_iter P p : forall k rec,
  shifted P k rec -> shifted P (k + Z.pos p) (SpecFloat.iter_pos shr_1 p rec).
Proof.
  induction p as [p IH|p IH|]; intros k rec Hs; cbn [SpecFloat.iter_pos].
  - replace (k + Z.pos p~1) with (k + 1 + Z.pos p + Z.pos p) by lia.
    by apply IH, IH, shifted_1.
  - replace (k + Z.pos p~0) with (k + Z.pos p + Z.pos p) by lia. by apply IH, IH.
  - by apply shifted_1.
Qed.

Lemma shifted_round P k rec :
  shifted P k rec ->
  round_nearest_even (shr_m rec) (loc_of_shr_record rec) = round_half_even P (2 ^ k).
Proof.
  destruct rec as [m r s]. intros (Hk & Hm & R & HP & HR).
  assert (0 < 2 ^ k) by (apply Z.pow_pos_nonneg; lia).
  assert (0 <= R < 2 ^ k) as Hr by (destruct r, s; lia).
  assert (P / 2 ^ k = m) as Eq by (symmetry; apply Z.div_unique with R; lia).
  assert (P mod 2 ^ k = R) as Er by (symmetry; apply Z.mod_unique with m; lia).
  unfold round_half_even. rewrite Eq, Er.
  destruct r, s; cbn; destruct (Z.ltb_spec (2 * R) (2 ^ k)); try lia;
    destruct (Z.ltb_spec (2 ^ k) (2 * R)); try lia; done.
Qed.

(** ** Rounding half to even *)

Lemma round_half_even_range n d :
  0 < d -> n / d <= round_half_even n d <= n / d + 1.
Proof. intros Hd. unfold round_half_even. repeat case_match; lia. Qed.

(** It is monotone in the exact quotient. *)
Lemma round_half_even_mono n d n' d' :
  0 < d -> 0 < d' -> n * d' <= n' * d ->
  round_half_even n d <= round_half_even n' d'.
Proof.
  intros Hd Hd' Hle.
  pose proof (round_half_even_range n d Hd). pose proof (round_half_even_range n' d' Hd').
  pose proof (Z.div_mod n d ltac:(lia)) as En. pose proof (Z.mod_pos_bound n d Hd).
  pose proof (Z.div_mod n' d' ltac:(lia)) as En'. pose proof (Z.mod_pos_bound n' d' Hd').
  unfold round_half_even in *.
  set (q := n / d) in *. set (r := n mod d) in *. set (q' := n' / d') in *. set (r' := n' mod d') in *.
  clearbody q r q' r'. subst n n'.
  assert (q <= q') as Hq.
  { apply Z.lt_succ_r. apply Z.mul_lt_mono_pos_r with (d * d'); [nia|]. nia. }
  destruct (Z.eq_dec q q') as [<-|]; [|lia].
  assert (r * d' <= r' * d) by nia.
  destruct (Z.ltb_spec (2 * r) d), (Z.ltb_spec (2 * r') d'), (Z.ltb_spec d (2 * r)),
    (Z.ltb_spec d' (2 * r')); try lia; destruct (Z.even q); try lia; nia.
Qed.

Lemma round_half_even_mul n d : 0 < d -> round_half_even (n * d) d = n.
Proof.
  intros Hd. unfold round_half_even. rewrite Z.div_mul, Z.mod_mul by lia.
  by destruct (Z.ltb_spec (2 * 0) d); [|lia].
Qed.

(** ** The rounded value *)

(** A positive mantissa at most [2^53] and its exponent, as a double. *)
Definition settle (m e : Z) : float :=
  match m with
  | Zpos p =>
      if m =? 2 ^ 53 then (if e + 1 <=? 971 then S754_finite false (2 ^ 52) (e + 1) else S754_infinity false)
      else if e <=? 971 then S754_finite false p e else S754_infinity false
  | _ => S754_zero false
  end.

Lemma settle_spec m e :
  0 <= m <= 2 ^ 53 -> -1074 <= e ->
  (let '(mrs, e') := shr_fexp 53 1024 m e loc_Exact in
   match shr_m mrs with
   | Z0 => S754_zero false
   | Zpos p => if e' <=? 1024 - 53 then S754_finite false p e' else S754_infinity false
   | _ => S754_nan
   end) = settle m e.
Proof.
  intros Hm He. unfold shr_fexp. rewrite rexp_eq.
  destruct m as [|p|]; [..|lia]; cbn [Zdigits2 settle].
  - replace (shr _ _ _) with (shr_record_of_loc 0 loc_Exact, e); [done|].
    unfold shr. destruct (_ - e) eqn:E; [done|lia|done].
  - destruct (Z.eqb_spec (Z.pos p) (2 ^ 53)) as [Ep|Np].
    + assert (digits p = 54) as -> by (injection Ep as ->; done).
      replace (_ `max` _ - e) with 1 by lia. injection Ep as ->. done.
    + pose proof (digits_le p 53 ltac:(lia) ltac:(lia)) as Hd.
      replace (shr _ _ _) with (shr_record_of_loc (Z.pos p) loc_Exact, e); [done|].
      unfold shr. destruct (_ - e) eqn:E; [done|lia|done].
Qed.

Lemma rounded_range P ex e :
  ex <= e -> digits P + ex - 53 <= e ->
  0 <= round_half_even (Z.pos P) (2 ^ (e - ex)) <= 2 ^ 53.
Proof.
  intros He Hd. pose proof (digits_bounds P) as [_ Hhi].
  assert (0 < 2 ^ (e - ex)) by (apply Z.pow_pos_nonneg; lia). split.
  - pose proof (round_half_even_range (Z.pos P) (2 ^ (e - ex)) ltac:(lia)).
    pose proof (Z.div_pos (Z.pos P) (2 ^ (e - ex)) ltac:(lia) ltac:(lia)). lia.
  - rewrite <- (round_half_even_mul (2 ^ 53) (2 ^ (e - ex))) by lia.
    apply round_half_even_mono; [lia..|]. apply Z.mul_le_mono_nonneg_r; [lia|].
    rewrite <- Z.pow_add_r by lia. transitivity (2 ^ digits P); [lia|].
    apply Z.pow_le_mono_r; lia.
Qed.

(** The rounding of an integer at an exponent it does not exceed. *)
Lemma binary_round_spec P ex :
  let e := rexp (digits P + ex) in
  ex <= e ->
  binary_round_aux 53 1024 false (Z.pos P) ex loc_Exact
  = settle (round_half_even (Z.pos P) (2 ^ (e - ex))) e.
Proof.
  intros e He.
  assert (-1074 <= e /\ digits P + ex - 53 <= e) as [Hmin Hd] by (unfold e; rewrite rexp_eq; lia).
  set (rec0 := Build_shr_record (Z.pos P) false false).
  assert (exists rec, shr_fexp 53 1024 (Z.pos P) ex loc_Exact = (rec, e)
            /\ shifted (Z.pos P) (e - ex) rec) as (rec & Erec & Hrec).
  { unfold shr_fexp. cbn [Zdigits2 shr_record_of_loc]. fold e. fold rec0.
    assert (shifted (Z.pos P) 0 rec0) as H0 by (cbn; split; [lia|]; split; [lia|]; exists 0; lia).
    destruct (e - ex) as [|k|k] eqn:E; [| |lia]; cbn [shr].
    - exists rec0. split; [f_equal; lia|done].
    - eexists. split; [f_equal; lia|]. by apply (shifted_iter (Z.pos P) k 0). }
  unfold binary_round_aux. rewrite Erec. rewrite (shifted_round _ _ _ Hrec).
  rewrite settle_spec; [done|by apply rounded_range|done].
Qed.

(** ** Monotonicity *)

(** [p] at exponent [e] is at most [q] at exponent [f]. *)
Definition value_le (p e q f : Z) : Prop :=
  p * 2 ^ (e - Z.min e f) <= q * 2 ^ (f - Z.min e f).

Lemma value_le_scale p e q f c g :
  0 < c -> value_le p e q f -> value_le (c * p) (g + e) (c * q) (g + f).
Proof.
  unfold value_le. replace (Z.min (g + e) (g + f)) with (g + Z.min e f) by lia.
  intros Hc Hle. replace (g + e - _) with (e - Z.min e f) by lia.
  replace (g + f - _) with (f - Z.min e f) by lia. nia.
Qed.

Lemma value_le_digits p e q f :
  value_le (Z.pos p) e (Z.pos q) f -> digits p + e <= digits q + f.
Proof.
  unfold value_le. intros Hle. destruct (digits_bounds p) as [Hp _], (digits_bounds q) as [_ Hq].
  set (B := Z.min e f) in *.
  assert (2 ^ (digits p - 1 + (e - B)) < 2 ^ (digits q + (f - B))) as Hlt%Z.pow_lt_mono_r_iff;
    [|lia|lia|lia].
  rewrite !Z.pow_add_r by lia.
  assert (0 < 2 ^ (e - B)) by (apply Z.pow_pos_nonneg; lia).
  assert (0 < 2 ^ (f - B)) by (apply Z.pow_pos_nonneg; lia). nia.
Qed.

Lemma settle_mono m e m' e' :
  0 <= m <= 2 ^ 53 -> 0 <= m' <= 2 ^ 53 ->
  (e = e' /\ m <= m') \/ (e < e' /\ 2 ^ 52 <= m') ->
  fleb (settle m e) (settle m' e') = true.
Proof.
  intros Hm Hm' Hcase.
  enough (rank (settle m e) = rank (settle m' e') \/ lex (rank (settle m e)) (rank (settle m' e'))) as Hr.
  { assert (forall n f, is_nan (settle n f) = false) as Hn
      by (intros [] ?; cbn [settle]; repeat case_match; done).
    rewrite fleb_spec. apply orb_true_iff. rewrite fltb_spec, feqb_spec, !Hn. tauto. }
  destruct m as [|p|], m' as [|q|]; try lia; [by left|..]; cbn [settle];
    repeat match goal with
    | |- context [?a =? ?b] => destruct (Z.eqb_spec a b)
    | |- context [?a <=? ?b] => destruct (Z.leb_spec a b)
    end; cbn [rank lex]; change (Z.pos (2 ^ 52)) with (2 ^ 52); rewrite ?pair_equal_spec; lia.
Qed.

(** Rounding keeps the order of exact values. *)
Lemma binary_round_mono P ex Q fx :
  ex <= rexp (digits P + ex) -> fx <= rexp (digits Q + fx) ->
  value_le (Z.pos P) ex (Z.pos Q) fx ->
  fleb (binary_round_aux 53 1024 false (Z.pos P) ex loc_Exact)
       (binary_round_aux 53 1024 false (Z.pos Q) fx loc_Exact) = true.
Proof.
  intros He Hf Hle. pose proof (value_le_digits _ _ _ _ Hle) as Hd.
  rewrite !binary_round_spec by done.
  set (e := rexp (digits P + ex)) in *. set (f := rexp (digits Q + fx)) in *.
  assert (e <= f) as Hef by (unfold e, f; rewrite !rexp_eq; lia).
  assert (0 < 2 ^ (e - ex)) by (apply Z.pow_pos_nonneg; lia).
  assert (0 < 2 ^ (f - fx)) by (apply Z.pow_pos_nonneg; lia).
  apply settle_mono; [apply rounded_range; [done|unfold e; rewrite rexp_eq; lia]
                     |apply rounded_range; [done|unfold f; rewrite rexp_eq; lia]|].
  destruct (Z.eq_dec e f) as [E|N].
  - left. split; [done|]. apply round_half_even_mono; [done..|]. rewrite <- E in *.
    unfold value_le in Hle. set (B := Z.min ex fx) in *.
    apply (Z.mul_le_mono_nonneg_r _ _ (2 ^ (e - ex + (e - fx) - (e - B)))) in Hle; [|lia].
    rewrite <- !Z.mul_assoc, <- !Z.pow_add_r in Hle by lia.
    replace (e - fx) with (ex - B + (e - ex + (e - fx) - (e - B))) by lia.
    replace (e - ex) with (fx - B + (e - ex + (e - fx) - (e - B))) at 2 by lia. done.
  - right. split; [lia|]. assert (f = digits Q + fx - 53) as Ef by (unfold e, f in *; rewrite !rexp_eq in *; lia).
    rewrite <- (round_half_even_mul (2 ^ 52) (2 ^ (f - fx))) by done.
    apply round_half_even_mono; [done..|]. apply Z.mul_le_mono_nonneg_r; [lia|].
    rewrite <- Z.pow_add_r by lia. replace (52 + (f - fx)) with (digits Q - 1) by lia.
    apply digits_bounds.
Qed.

(** ** Multiplication by a constant *)

(** The order of canonical magnitudes is the order of their values. *)
Lemma canonical_value p e q f :
  bounded 53 1024 p e = true -> bounded 53 1024 q f = true ->
  e < f \/ (e = f /\ Z.pos p <= Z.pos q) -> value_le (Z.pos p) e (Z.pos q) f.
Proof.
  unfold bounded, canonical_mantissa. rewrite !rexp_eq, !andb_true_iff, !Z.eqb_eq.
  intros [Hp _] [Hq _] Hlt. unfold value_le.
  destruct Hlt as [Hlt|[<- Hle]]; [|nia].
  replace (e - Z.min e f) with 0 by lia. replace (f - Z.min e f) with (f - e) by lia.
  destruct (digits_bounds p) as [_ Hhi], (digits_bounds q) as [Hlo _].
  assert (2 ^ digits p <= 2 ^ (digits q - 1 + (f - e))) as Hpow by (apply Z.pow_le_mono_r; lia).
  rewrite Z.pow_add_r in Hpow by lia.
  assert (0 < 2 ^ (f - e)) by (apply Z.pow_pos_nonneg; lia). nia.
Qed.

Lemma digits_mul p q : digits p + digits q - 1 <= digits (p * q).
Proof.
  destruct (digits_bounds p) as [Hp _], (digits_bounds q) as [Hq _], (digits_bounds (p * q)) as [_ Hpq].
  assert (2 ^ (digits p - 1 + (digits q - 1)) < 2 ^ digits (p * q)) as Hlt%Z.pow_lt_mono_r_iff; [|lia..].
  rewrite Z.pow_add_r by lia. nia.
Qed.

Lemma settle_extremes s m e :
  fleb (S754_zero s) (settle m e) = true /\ fleb (settle m e) (S754_infinity false) = true.
Proof. destruct m; cbn [settle]; repeat case_match; done. Qed.

Lemma fleb_finite p e q f :
  fleb (S754_finite false p e) (S754_finite false q f) = true ->
  e < f \/ (e = f /\ Z.pos p <= Z.pos q).
Proof.
  rewrite fleb_spec, orb_true_iff, fltb_spec, feqb_spec. cbn [rank lex].
  rewrite !pair_equal_spec. lia.
Qed.

(** Multiplying by a positive normal constant keeps the order of the
    non-negative doubles. *)
Lemma fmul_mono m e x y :
  digits m = 53 ->
  canonical x = true -> canonical y = true -> nonneg x = true -> nonneg y = true ->
  fleb x y = true ->
  fleb (fmul (S754_finite false m e) x) (fmul (S754_finite false m e) y) = true.
Proof.
  intros Hm Hx Hy Nx Ny Hle.
  assert (forall p g, e + g <= rexp (digits (m * p) + (e + g))) as Hexp.
  { intros p g. rewrite rexp_eq. pose proof (digits_mul m p). lia. }
  destruct x as [sx|[]| |[] p f], y as [sy|[]| |[] q g]; try done; cbn in Nx, Ny;
    try (destruct sx; done); try (destruct sy; done); unfold fmul; cbn [SFmul xorb].
  - rewrite binary_round_spec by (by apply Hexp). apply settle_extremes.
  - rewrite binary_round_spec by (by apply Hexp). apply (settle_extremes false).
  - apply binary_round_mono; [by apply Hexp..|]. rewrite !Pos2Z.inj_mul. apply value_le_scale; [lia|].
    apply canonical_value; [done..|]. apply fleb_finite in Hle. lia.
Qed.

End Rounding.
