(* ===== verification/Domain.v ===== *)
(** * Domain definitions and scoring ([backend/app/domain.py])

    The enumerations, the frozen index and Agent rosters, and the deterministic
    scoring functions: neutral band, realised return, three-way outcome label,
    probability validation, the mandatory up/down choice, and the Brier score. *)
From Stdlib Require Import Floats.SpecFloat.
From S2P Require Import Prelude PyStr Float64.
Import PyStr Float64.
Open Scope string_scope.
Open Scope Z_scope.

Module Domain.

(** ** Enumerations *)

Inductive Direction := UP | NEUTRAL | DOWN.
Inductive Horizon := D1 | D2.
Inductive RunStatus :=
  | RUN_AWAITING_DRAFT | RUN_QUEUED | RUN_RUNNING | RUN_COMPLETED | RUN_FAILED.
Inductive TaskStatus :=
  | QUEUED | RUNNING | RETRY_WAIT | COMPLETED | FAILED.
Inductive AgentSourceType := AI | MANUAL | QUANT | DETERMINISTIC.
Inductive AgentWorkflowRole := RESEARCH | STRATEGY | CRITIC | DECISION | SHADOW.

#[global] Instance Direction_eq_dec : EqDecision Direction.
Proof. solve_decision. Defined.
#[global] Instance Horizon_eq_dec : EqDecision Horizon.
Proof. solve_decision. Defined.
#[global] Instance RunStatus_eq_dec : EqDecision RunStatus.
Proof. solve_decision. Defined.
#[global] Instance TaskStatus_eq_dec : EqDecision TaskStatus.
Proof. solve_decision. Defined.

Definition direction_value (d : Direction) : string :=
  match d with UP => "up" | NEUTRAL => "neutral" | DOWN => "down" end.
Definition horizon_value (h : Horizon) : string :=
  match h with D1 => "D1" | D2 => "D2" end.
Definition run_status_value (s : RunStatus) : string :=
  match s with
  | RUN_AWAITING_DRAFT => "awaiting_draft" | RUN_QUEUED => "queued"
  | RUN_RUNNING => "running" | RUN_COMPLETED => "completed" | RUN_FAILED => "failed"
  end.
Definition task_status_value (s : TaskStatus) : string :=
  match s with
  | QUEUED => "queued" | RUNNING => "running" | RETRY_WAIT => "retry_wait"
  | COMPLETED => "completed" | FAILED => "failed"
  end.

(** Iteration order of the enumeration class. *)
Definition all_directions : list Direction := [UP; NEUTRAL; DOWN].
Definition PREDICTION_HORIZONS : list Horizon := [D1].
Definition LEGACY_PREDICTION_HORIZONS : list Horizon := [D1; D2].

(** [Direction(value)] *)
Definition Direction_of (s : string) : result Direction :=
  if (s =? "up")%string then Ok UP
  else if (s =? "neutral")%string then Ok NEUTRAL
  else if (s =? "down")%string then Ok DOWN
  else raise ValueError (String.app s " is not a valid Direction").

(** [Horizon(value)] *)
Definition Horizon_of (s : string) : result Horizon :=
  if (s =? "D1")%string then Ok D1
  else if (s =? "D2")%string then Ok D2
  else raise ValueError (String.app s " is not a valid Horizon").

(** ** Rosters *)

Record IndexDefinition := Index {
  idx_code : string; idx_name : string; idx_market : string;
  idx_asset_type : string; idx_exchange : string; idx_currency : string;
  idx_timezone : string; idx_sector : option string;
  idx_strategy_bucket : string; idx_tags : list string;
  idx_wiki_entry_ids : list (string * string);
  idx_agent_briefs : list (string * string) }.

Definition index (code name : string) : IndexDefinition :=
  Index code name "CN" "index" "" "CNY" "Asia/Shanghai" None "balanced" [] [] [].

(** [dict(pairs).get(k)]: the last binding of a key wins. *)
Definition dict_get {A} (pairs : list (string * A)) (k : string) : option A :=
  (fold_left (fun (m : gmap string A) '(k, v) => <[k := v]> m) pairs ∅) !! k.

Definition wiki_entry_id_for (i : IndexDefinition) (agent_id : string) : option string :=
  dict_get (idx_wiki_entry_ids i) agent_id.
Definition agent_brief_for (i : IndexDefinition) (agent_id : string) : option string :=
  dict_get (idx_agent_briefs i) agent_id.

Record AgentDefinition := Agent {
  ag_id : string; ag_name : string; ag_role : string; ag_kind : string;
  ag_version : string; ag_weight : float; ag_status : string;
  ag_workflow_role : AgentWorkflowRole; ag_source_type : AgentSourceType }.

Definition INDEXES : list IndexDefinition :=
  [ index "000300.SH" "沪深300";
    index "000905.SH" "中证500";
    index "000852.SH" "中证1000";
    index "399006.SZ" "创业板指";
    index "000688.SH" "科创50" ].

Definition AGENTS : list AgentDefinition :=
  [ Agent "macro_policy_agent" "宏观政策研究员"
      "分析货币、财政、监管、汇率与海外宏观向中国宽基指数的传导。"
      "research" "0.2.0" f1 "active" RESEARCH AI;
    Agent "market_news_agent" "市场资讯研究员"
      "识别当日新增事件、跨市场变化、市场叙事与预期差。"
      "research" "0.2.0" f1 "active" RESEARCH AI;
    Agent "ai_storage_industry_agent" "AI存储行业研究员"
      "跟踪全球AI算力、存储与半导体产业链，并映射至中国宽基指数。"
      "research" "0.2.0" f1 "active" RESEARCH AI;
    Agent "quant_agent" "量化研究员（待接入）"
      "等待经过验证的只读因子、行情与模型适配器；未接入前不产生方向判断。"
      "placeholder" "0.2.0" f0 "unavailable" RESEARCH QUANT;
    Agent "strategy_agent" "市场策略研究员"
      "综合专业研究观点，判断市场状态、风格、指数相对强弱与配置优先级。"
      "strategy" "0.2.0" f1 "active" STRATEGY AI;
    Agent "risk_critic_agent" "风险反证官"
      "检查反证、共识拥挤、数据污染、事件遗漏和结论失效条件。"
      "critic" "0.3.0" f0 "active" CRITIC AI;
    Agent "cio_agent" "首席投资官"
      "综合研究观点和风险反证，形成可审计的投委会最终判断。"
      "decision" "0.3.0" f0 "active" DECISION DETERMINISTIC ].

Definition USER_JUDGMENT_AGENT : AgentDefinition :=
  Agent "user_judgment_agent" "用户判断 Agent"
    "在查看委员会结论前独立选择涨跌，并封存理由、反证与失效条件。"
    "human" "0.1.0" f0 "shadow" SHADOW MANUAL.

Definition DISPLAY_AGENTS : list AgentDefinition := AGENTS ++ [USER_JUDGMENT_AGENT].

Definition INDEX_BY_CODE : gmap string IndexDefinition :=
  list_to_map ((fun i => (idx_code i, i)) <$> INDEXES).
Definition AGENT_BY_ID : gmap string AgentDefinition :=
  list_to_map ((fun a => (ag_id a, a)) <$> DISPLAY_AGENTS).

Record AgentHashEntry := HashEntry {
  he_id : string; he_version : string; he_kind : string;
  he_status : string; he_weight : float; he_model_name : string }.

Definition legacy_v1_agent_hash_projection (model_names : gmap string string)
    : result (list AgentHashEntry) :=
  mapM_result (fun a =>
    match model_names !! ag_id a with
    | Some m => Ok (HashEntry (ag_id a) (ag_version a) (ag_kind a) (ag_status a)
                      (ag_weight a) m)
    | None => raise KeyError (ag_id a)
    end) AGENTS.

(** ** Scoring *)

Definition neutral_threshold (volatility_20d : float) (horizon : Horizon) : result float :=
  raise_when (negb (is_finite volatility_20d) || fltb volatility_20d f0) ValueError
    "volatility_20d must be a finite non-negative number" ;;
  let scale := match horizon with D1 => f1 | D2 => fsqrt (of_Z 2) end in
  Ok (fmul (fmul (lit 1 4) volatility_20d) scale).

Definition realized_return (start_close end_close : float) : result float :=
  raise_when (fleb start_close f0 || fleb end_close f0) ValueError
    "close prices must be positive" ;;
  Ok (fsub (fdiv end_close start_close) f1).

Definition classify_return (actual_return threshold : float) : result Direction :=
  raise_when (negb (is_finite actual_return)) ValueError "actual_return must be finite" ;;
  raise_when (negb (is_finite threshold) || fltb threshold f0) ValueError
    "threshold must be a finite non-negative number" ;;
  if fltb threshold actual_return then Ok UP
  else if fltb actual_return (fopp threshold) then Ok DOWN
  else Ok NEUTRAL.

(** A normalised probability mapping: one value per direction. *)
Record Probs := mkProbs { p_up : float; p_neutral : float; p_down : float }.

Definition prob (p : Probs) (d : Direction) : float :=
  match d with UP => p_up p | NEUTRAL => p_neutral p | DOWN => p_down p end.

Definition Probs_of (f : Direction -> float) : Probs := mkProbs (f UP) (f NEUTRAL) (f DOWN).

Section WithRuntime.
Context `{PyRuntime}.

Definition validate_probabilities (probabilities : gmap string float) : result Probs :=
  let normalized :=
    Probs_of (fun d => default f0 (probabilities !! direction_value d)) in
  let values := prob normalized <$> all_directions in
  raise_when
    (existsb (fun v => negb (is_finite v) || fltb v f0 || fltb f1 v) values) ValueError
    "probabilities must be finite values between zero and one" ;;
  raise_when (negb (isclose rel_tol_default (lit 1 1000000) (py_sum values) f1)) ValueError
    "probabilities must sum to one" ;;
  Ok normalized.

Definition predicted_direction (probabilities : gmap string float) : result Direction :=
  values ← validate_probabilities probabilities;
  raise_when (isclose rel_tol_default (lit 1 1000000000) (p_up values) (p_down values))
    ValueError "up and down probabilities must not be tied" ;;
  Ok (if fltb (p_down values) (p_up values) then UP else DOWN).

Definition directional_confidence (probabilities : gmap string float) : result float :=
  values ← validate_probabilities probabilities;
  let directional_total := fadd (p_up values) (p_down values) in
  raise_when (fleb directional_total f0) ValueError
    "at least one directional probability must be positive" ;;
  Ok (fdiv (fmax (p_up values) (p_down values)) directional_total).

Definition indicator (b : bool) : float := if b then f1 else f0.

(** The score of a normalised mapping; [multiclass_brier_score] validates first. *)
Definition brier_of (values : Probs) (actual : Direction) : float :=
  fdiv (py_sum ((fun d => fsquare (fsub (prob values d) (indicator (bool_decide (d = actual)))))
                  <$> all_directions))
       (of_Z 3).

Definition multiclass_brier_score (probabilities : gmap string float)
    (actual_label : string) : result float :=
  values ← validate_probabilities probabilities;
  actual ← Direction_of actual_label;
  Ok (brier_of values actual).

(** [x ** 2]: Python raises when a finite base overflows. *)
Definition py_square (x : float) : result float :=
  let y := fsquare x in
  raise_when (is_finite x && is_inf y) OverflowError "Numerical result out of range" ;;
  Ok y.

Definition sample_volatility (returns : list float) : result float :=
  raise_when (Z.of_nat (length returns) <? 2) ValueError "at least two returns are required" ;;
  raise_when (existsb (fun v => negb (is_finite v)) returns) ValueError
    "returns must all be finite" ;;
  let mean := fdiv (py_sum returns) (of_Z (Z.of_nat (length returns))) in
  squares ← mapM_result (fun v => py_square (fsub v mean)) returns;
  let variance := fdiv (py_sum squares) (of_Z (Z.of_nat (length returns) - 1)) in
  Ok (fsqrt variance).

End WithRuntime.

(** ** Reference notions *)

Definition flip (d : Direction) : Direction :=
  match d with UP => DOWN | NEUTRAL => NEUTRAL | DOWN => UP end.

(** The specification of the outcome label: outside the symmetric band
    [[-threshold, threshold]] the sign of the return, inside it neutral. *)
Definition label_spec (r t : float) (d : Direction) : Prop :=
  match d with
  | UP => fltb t r = true
  | DOWN => fltb r (fopp t) = true
  | NEUTRAL => fleb (fopp t) r = true /\ fleb r t = true
  end.

(** The mapping with the mass of up and down exchanged. *)
Definition swap_up_down (m : gmap string float) : gmap string float :=
  <["up" := default f0 (m !! "down")]> (<["down" := default f0 (m !! "up")]> m).

(** ** Lemmas *)

Lemma Direction_of_value d : Direction_of (direction_value d) = Ok d.
Proof. by destruct d. Qed.

Lemma Direction_of_Ok s d : Direction_of s = Ok d <-> s = direction_value d.
Proof.
  split; [|intros ->; apply Direction_of_value].
  unfold Direction_of, raise.
  repeat (case_goal; [bool_prop; by intros [= <-]|]). done.
Qed.

Lemma classify_return_guards r t d :
  classify_return r t = Ok d ->
  is_finite r = true /\ is_finite t = true /\ fltb t f0 = false.
Proof. unfold classify_return. intros H. inv_ok H. bool_prop. done. Qed.

Lemma opp_threshold_le t :
  is_finite t = true -> fltb t f0 = false -> fleb (fopp t) t = true.
Proof.
  intros Hf Hn. destruct t as [[]|[]| |[] m e]; try done.
Qed.

(** The band never contains a return above the threshold and one below its
    opposite at once. *)
Lemma band_exclusive r t :
  is_finite t = true -> fltb t f0 = false ->
  fltb t r = true -> fltb r (fopp t) = false.
Proof.
  intros Hf Hn Hr. apply fltb_asym. eapply fleb_fltb_trans; [|exact Hr].
  by apply opp_threshold_le.
Qed.

Lemma classify_return_body r t :
  is_finite r = true -> is_finite t = true -> fltb t f0 = false ->
  classify_return r t =
  Ok (if fltb t r then UP else if fltb r (fopp t) then DOWN else NEUTRAL).
Proof.
  intros Hr Ht Hn. unfold classify_return. rewrite Hr, Ht, Hn; cbn.
  by destruct (fltb t r), (fltb r (fopp t)).
Qed.

Lemma binary_round_sign s m e :
  binary_round 53 1024 (negb s) m e = fopp (binary_round 53 1024 s m e).
Proof.
  unfold binary_round, binary_round_aux.
  repeat (case_goal; cbn [negb fopp SFopp]; try reflexivity).
Qed.

Lemma fabs_opp x : fabs (fopp x) = fabs x.
Proof. by destruct x. Qed.

Lemma fabs_normalize_opp m e :
  fabs (binary_normalize 53 1024 (- m) e false) = fabs (binary_normalize 53 1024 m e false).
Proof.
  destruct m as [|p|p]; [done| |];
    [change (- Z.pos p) with (Z.neg p) | change (- Z.neg p) with (Z.pos p)];
    cbn [binary_normalize].
  - pose proof (binary_round_sign false p e) as H. cbn [negb] in H. by rewrite H, fabs_opp.
  - pose proof (binary_round_sign true p e) as H. cbn [negb] in H. by rewrite H, fabs_opp.
Qed.

(** The distance of two floats does not depend on the order of the operands. *)
Lemma fabs_fsub_comm x y : fabs (fsub x y) = fabs (fsub y x).
Proof.
  destruct x as [[]|[]| |sx mx ex], y as [[]|[]| |sy my ey]; try done.
  unfold fsub, SFsub. rewrite (Z.min_comm ey ex).
  match goal with |- fabs (binary_normalize _ _ (?a - ?b) _ _) = _ =>
    replace (a - b) with (- (b - a)) by lia end.
  apply fabs_normalize_opp.
Qed.

Lemma isclose_comm rel tol x y : isclose rel tol x y = isclose rel tol y x.
Proof.
  unfold isclose. rewrite (feqb_sym y x), (fabs_fsub_comm x y), (orb_comm (is_inf y)).
  rewrite (orb_comm (fleb _ (fabs (fmul rel y)))). done.
Qed.

Lemma swap_lookup_up m : swap_up_down m !! "up" = Some (default f0 (m !! "down")).
Proof. unfold swap_up_down. by rewrite lookup_insert_eq. Qed.
Lemma swap_lookup_down m : swap_up_down m !! "down" = Some (default f0 (m !! "up")).
Proof. unfold swap_up_down. by rewrite lookup_insert_ne, lookup_insert_eq. Qed.
Lemma swap_lookup_neutral m : swap_up_down m !! "neutral" = m !! "neutral".
Proof. unfold swap_up_down. by rewrite !lookup_insert_ne. Qed.

(** ** Properties *)

(** Classification: the label of a return is total on finite inputs with a
    non-negative threshold, and is exactly the three-way specification. *)
Theorem classify_return_spec r t d :
  classify_return r t = Ok d <->
  (is_finite r = true /\ is_finite t = true /\ fltb t f0 = false) /\ label_spec r t d.
Proof.
  split.
  - intros H. pose proof (classify_return_guards _ _ _ H) as (Hr & Ht & Hn).
    split; [done|]. rewrite classify_return_body in H by done. injection H as <-.
    destruct (fltb t r) eqn:E1; cbn; [done|].
    destruct (fltb r (fopp t)) eqn:E2; cbn; [done|].
    pose proof (is_finite_not_nan r Hr). pose proof (is_finite_not_nan t Ht).
    rewrite fltb_false_fleb in E1 by done.
    rewrite fltb_false_fleb in E2 by (rewrite ?is_nan_opp; done).
    bool_prop. done.
  - intros ((Hr & Ht & Hn) & Hd). rewrite classify_return_body by done. f_equal.
    pose proof (is_finite_not_nan r Hr). pose proof (is_finite_not_nan t Ht).
    destruct d; cbn in Hd.
    + by rewrite Hd.
    + destruct Hd as [H1 H2].
      by rewrite !fltb_false_fleb, H1, H2 by (rewrite ?is_nan_opp; done).
    + destruct (fltb t r) eqn:E; [|by rewrite Hd].
      by rewrite (band_exclusive r t) in Hd.
Qed.

(** Symmetry: the band is symmetric, so negating the return flips the label,
    errors included. *)
Theorem classify_return_opp r t :
  classify_return (fopp r) t = flip <$> classify_return r t.
Proof.
  unfold classify_return at 1. rewrite is_finite_opp.
  destruct (is_finite r) eqn:Hr; cbn; [|unfold classify_return; by rewrite Hr].
  destruct (is_finite t) eqn:Ht; cbn; [|unfold classify_return; by rewrite Hr, Ht].
  destruct (fltb t f0) eqn:Hn; cbn; [unfold classify_return; by rewrite Hr, Ht, Hn|].
  rewrite classify_return_body by done. rewrite fltb_opp_r, fltb_opp.
  destruct (fltb t r) eqn:E1.
  - by rewrite (band_exclusive r t).
  - by destruct (fltb r (fopp t)).
Qed.

Section Predictions.
Context `{PyRuntime}.

Lemma validate_probabilities_Ok m v :
  validate_probabilities m = Ok v ->
  v = Probs_of (fun d => default f0 (m !! direction_value d)) /\
  (forall d, is_finite (prob v d) = true /\ fltb (prob v d) f0 = false
             /\ fltb f1 (prob v d) = false) /\
  isclose rel_tol_default (lit 1 1000000) (py_sum (prob v <$> all_directions)) f1 = true.
Proof.
  unfold validate_probabilities. intros H1. inv_ok H1. injection H1 as <-.
  split; [done|]. bool_prop. split; [|done].
  cbn in Hok. rewrite !orb_false_iff in Hok. rewrite !negb_false_iff in Hok.
  intros []; cbn; tauto.
Qed.

(** Mandatory choice: a prediction is never neutral and names the side that
    strictly dominates the other in the validated mapping. *)
Theorem predicted_direction_strict m d :
  predicted_direction m = Ok d ->
  exists v, validate_probabilities m = Ok v /\ d <> NEUTRAL
            /\ fltb (prob v (flip d)) (prob v d) = true.
Proof.
  unfold predicted_direction. intros H1. inv_ok H1. exists v. split; [done|].
  injection H1 as <-.
  destruct (validate_probabilities_Ok _ _ Hok) as (_ & Hr & _).
  destruct (Hr UP) as (Hu & _), (Hr DOWN) as (Hd & _); cbn in Hu, Hd.
  destruct (fltb (p_down v) (p_up v)) eqn:E; cbn; [done|]. split; [done|].
  rewrite fltb_false_fleb, fleb_spec in E by (by apply is_finite_not_nan).
  apply negb_false_iff, orb_true_iff in E as [E|E]; [done|].
  unfold isclose in Hok0. by rewrite E in Hok0.
Qed.

(** No directional bias: exchanging the up and down mass exchanges the
    prediction, and a tie is refused on both sides. *)
Theorem predicted_direction_swap m v w :
  validate_probabilities m = Ok v ->
  validate_probabilities (swap_up_down m) = Ok w ->
  predicted_direction (swap_up_down m) = flip <$> predicted_direction m.
Proof.
  intros Hv Hw. unfold predicted_direction. rewrite Hv, Hw. cbn.
  destruct (validate_probabilities_Ok _ _ Hv) as (Ev & Hr & _).
  destruct (validate_probabilities_Ok _ _ Hw) as (Ew & _ & _).
  assert (p_up w = p_down v) as -> by (subst; cbn; by rewrite swap_lookup_up).
  assert (p_down w = p_up v) as -> by (subst; cbn; by rewrite swap_lookup_down).
  rewrite (isclose_comm _ _ (p_down v)).
  destruct (isclose _ _ (p_up v) (p_down v)) eqn:Et; [done|]. cbn.
  destruct (Hr UP) as (Hu & _), (Hr DOWN) as (Hd & _); cbn in Hu, Hd.
  destruct (fltb (p_down v) (p_up v)) eqn:E.
  - by rewrite (fltb_asym _ _ E).
  - rewrite fltb_false_fleb, fleb_spec in E by (by apply is_finite_not_nan).
    apply negb_false_iff, orb_true_iff in E as [E|E]; [by rewrite E|].
    unfold isclose in Et. by rewrite E in Et.
Qed.

(** Brier extremes: a forecast that puts all mass on the realised label
    scores exactly zero, and all mass on another label scores exactly two
    thirds, with either summation algorithm. *)
Theorem brier_one_hot d a :
  brier_of (Probs_of (fun x => indicator (bool_decide (x = d)))) a =
  if decide (d = a) then f0 else fdiv (of_Z 2) (of_Z 3).
Proof.
  unfold brier_of, py_sum. destruct (@runtime _), d, a; vm_compute; reflexivity.
Qed.

End Predictions.

(** ** Concrete inputs *)

Definition sample_probabilities : gmap string float :=
  {[ "up" := lit 1 2; "neutral" := lit 1 4; "down" := lit 1 4 ]}.

Lemma predicted_direction_strict_witness :
  exists v, @validate_probabilities {| runtime := Py312 |} sample_probabilities = Ok v
            /\ fltb (p_down v) (p_up v) = true.
Proof.
  destruct (@predicted_direction_strict {| runtime := Py312 |} sample_probabilities UP)
    as (v & Hv & _ & Hlt); [by_vm|].
  exists v. split; [exact Hv|exact Hlt].
Defined.

Lemma predicted_direction_swap_witness :
  @predicted_direction {| runtime := Py311 |} (swap_up_down sample_probabilities) = Ok DOWN.
Proof.
  rewrite (@predicted_direction_swap {| runtime := Py311 |} sample_probabilities
    (mkProbs (lit 1 2) (lit 1 4) (lit 1 4)) (mkProbs (lit 1 4) (lit 1 4) (lit 1 2)));
    by_vm.
Defined.

End Domain.
