(* ===== verification/Json.v ===== *)
(** * JSON values and ISO timestamps

    The JSON values the services persist and hash, Python's accessors on them,
    and the ISO 8601 text of a datetime as [datetime.isoformat] writes it and
    [datetime.fromisoformat] reads it. *)
From Stdlib Require Import Ascii.
From S2P Require Import Prelude PyStr PyTime Float64.
Import PyStr PyTime Float64.
Open Scope string_scope.
Open Scope Z_scope.

Module Json.

(** An object is a finite map: Python compares dicts without regard to order. *)
Inductive json :=
  | JNull
  | JBool (b : bool)
  | JInt (n : Z)
  | JFloat (x : float)
  | JStr (s : string)
  | JArr (l : list json)
  | JObj (m : gmap string json).

#[global] Instance json_eq_dec : EqDecision json.
Proof.
  refine (fix go j1 j2 :=
    let r : EqDecision json := @go in
    match j1, j2 with
    | JNull, JNull => left eq_refl
    | JBool a, JBool b => cast_if (decide (a = b))
    | JInt a, JInt b => cast_if (decide (a = b))
    | JFloat a, JFloat b => cast_if (decide (a = b))
    | JStr a, JStr b => cast_if (decide (a = b))
    | JArr a, JArr b => cast_if (decide (a = b))
    | JObj a, JObj b => cast_if (decide (a = b))
    | _, _ => right _
    end); clear r go; abstract congruence.
Defined.

Definition jobject := gmap string json.

(** [d.get(k)] when the value is used as text: [None] if absent or not text. *)
Definition get_str (m : gmap string json) (k : string) : option string :=
  match m !! k with Some (JStr s) => Some s | _ => None end.

Definition get_obj (m : gmap string json) (k : string) : option (gmap string json) :=
  match m !! k with Some (JObj o) => Some o | _ => None end.

(** [d.get(k) == s] for a text [s] *)
Definition get_is (m : gmap string json) (k s : string) : bool :=
  bool_decide (m !! k = Some (JStr s)).

(** [d.get(k) is True] *)
Definition get_true (m : gmap string json) (k : string) : bool :=
  bool_decide (m !! k = Some (JBool true)).

(** The digest functions of the services: SHA-256 of the canonical JSON text
    (sorted keys, compact separators, UTF-8). *)
Class CanonicalHash := { canonical_hash : json -> string }.

(** ** ISO 8601 *)

Definition digit_char (n : Z) : Ascii.ascii := Ascii.ascii_of_nat (Z.to_nat (48 + n)).

(** The format [%0kd] of a number of at most [k] digits. *)
Fixpoint pad (width : nat) (n : Z) : string :=
  match width with
  | O => ""
  | S w => pad w (n / 10) +:+ String (digit_char (n mod 10)) ""
  end.

(** Python's [date.fromordinal]. *)
Definition ord2civil (ord : date) : civil :=
  let n := ord - 1 in
  let n400 := n / 146097 in
  let n := n mod 146097 in
  let year := n400 * 400 + 1 in
  let n100 := n / 36524 in
  let n := n mod 36524 in
  let n4 := n / 1461 in
  let n := n mod 1461 in
  let n1 := n / 365 in
  let n := n mod 365 in
  let year := year + n100 * 100 + n4 * 4 + n1 in
  if (n1 =? 4) || (n100 =? 4) then Civil (year - 1) 12 31
  else
    let leapyear := (n1 =? 3) && (negb (n4 =? 24) || (n100 =? 3)) in
    let month := Z.shiftr (n + 50) 5 in
    let preceding :=
      days_before_month 1 month + (if (2 <? month) && leapyear then 1 else 0) in
    let '(month, preceding) :=
      if n <? preceding
      then (month - 1,
            preceding - (days_in_month 1 (month - 1)
                         + (if (month - 1 =? 2) && leapyear then 1 else 0)))
      else (month, preceding) in
    Civil year month (n - preceding + 1).

Definition iso_date (d : date) : string :=
  let c := ord2civil d in
  pad 4 (c_year c) +:+ "-" +:+ pad 2 (c_month c) +:+ "-" +:+ pad 2 (c_day c).

Definition iso_time (t : Z) : string :=
  let s := t / us_per_second in
  let us := t mod us_per_second in
  pad 2 (s / 3600) +:+ ":" +:+ pad 2 (s / 60 mod 60) +:+ ":" +:+ pad 2 (s mod 60)
  +:+ (if us =? 0 then "" else "." +:+ pad 6 us).

Definition iso_offset (off : option Z) : string :=
  match off with
  | None => ""
  | Some o =>
      let a := Z.abs o / us_per_second in
      (if o <? 0 then "-" else "+") +:+ pad 2 (a / 3600) +:+ ":" +:+ pad 2 (a / 60 mod 60)
      +:+ (if a mod 60 =? 0 then "" else ":" +:+ pad 2 (a mod 60))
  end.

(** [d.isoformat()] *)
Definition isoformat (d : datetime) : string :=
  iso_date (date_of d) +:+ "T" +:+ iso_time (time_of_day d) +:+ iso_offset (dt_offset d).

Definition digit (c : Ascii.ascii) : option Z :=
  if is_digit c then Some (Z.of_nat (Ascii.nat_of_ascii c) - 48) else None.

(** Read exactly [k] digits. *)
Fixpoint read_num (k : nat) (acc : Z) (l : list Ascii.ascii) : option (Z * list Ascii.ascii) :=
  match k with
  | O => Some (acc, l)
  | S k' =>
      match l with
      | c :: l' => d ← digit c; read_num k' (acc * 10 + d) l'
      | [] => None
      end
  end.

Definition read_char (c : Ascii.ascii) (l : list Ascii.ascii) : option (list Ascii.ascii) :=
  match l with
  | c' :: l' => if decide (c = c') then Some l' else None
  | [] => None
  end.

Definition read_hms (l : list Ascii.ascii) : option (Z * list Ascii.ascii) :=
  '(h, l) ← read_num 2 0 l;
  l ← read_char ":"%char l;
  '(m, l) ← read_num 2 0 l;
  l ← read_char ":"%char l;
  '(s, l) ← read_num 2 0 l;
  if (h <? 24) && (m <? 60) && (s <? 60)
  then Some ((h * 3600 + m * 60 + s) * us_per_second, l) else None.

Definition read_offset (l : list Ascii.ascii) : option (option Z) :=
  match l with
  | [] => Some None
  | [c] => if decide (c = "Z"%char) then Some (Some 0) else None
  | c :: l' =>
      sign ← (if decide (c = "+"%char) then Some 1
              else if decide (c = "-"%char) then Some (-1) else None);
      '(h, l) ← read_num 2 0 l';
      l ← read_char ":"%char l;
      '(m, l) ← read_num 2 0 l;
      match l with
      | [] => if (h <? 24) && (m <? 60)
              then Some (Some (sign * ((h * 60 + m) * us_per_minute))) else None
      | _ =>
          l ← read_char ":"%char l;
          '(s, l) ← read_num 2 0 l;
          match l with
          | [] => if (h <? 24) && (m <? 60) && (s <? 60)
                  then Some (Some (sign * ((h * 3600 + m * 60 + s) * us_per_second)))
                  else None
          | _ => None
          end
      end
  end.

(** [datetime.fromisoformat(s)] on the extended format [isoformat] writes;
    [None] is the [ValueError] of malformed text. *)
Definition fromisoformat (s : string) : option datetime :=
  let l := String.list_ascii_of_string s in
  '(y, l) ← read_num 4 0 l;
  l ← read_char "-"%char l;
  '(m, l) ← read_num 2 0 l;
  l ← read_char "-"%char l;
  '(d, l) ← read_num 2 0 l;
  if (1 <=? y) && (1 <=? m) && (m <=? 12) && (1 <=? d) && (d <=? days_in_month y m)
  then
    let day := ymd2ord y m d * us_per_day in
    match l with
    | [] => Some (DateTime day None)
    | _ :: l =>
        '(t, l) ← read_hms l;
        match l with
        | "."%char :: l' =>
            '(us, l') ← read_num 6 0 l';
            off ← read_offset l';
            Some (DateTime (day + t + us) off)
        | _ => off ← read_offset l; Some (DateTime (day + t) off)
        end
    end
  else None.

Example iso_example :
  isoformat (DateTime (ymd2ord 2026 7 31 * us_per_day + time_of 17 55 + 1)
               (Some (8 * us_per_hour)))
  = "2026-07-31T17:55:00.000001+08:00".
Proof. vm_compute. reflexivity. Qed.

Example iso_roundtrip :
  (fun d => fromisoformat (isoformat d)) <$>
    [DateTime (ymd2ord 2024 2 29 * us_per_day + 5) (Some (- (9 * us_per_hour)));
     DateTime (ymd2ord 1999 12 31 * us_per_day + time_of 23 59) None]
  = [Some (DateTime (ymd2ord 2024 2 29 * us_per_day + 5) (Some (- (9 * us_per_hour))));
     Some (DateTime (ymd2ord 1999 12 31 * us_per_day + time_of 23 59) None)].
Proof. vm_compute. reflexivity. Qed.

End Json.
