(* ===== verification/Iso.v ===== *)
(** * ISO 8601 round trip

    [datetime.fromisoformat] reads back exactly what [datetime.isoformat]
    wrote: the text a service stores in a JSON column denotes the datetime it
    was made from. *)
From Stdlib Require Import Ascii.
From S2P Require Import Prelude PyStr PyTime Float64 Json.
Import PyStr PyTime Json.
Open Scope string_scope.
Open Scope Z_scope.

Module Iso.

(** ** Digits *)

Lemma digit_digit_char n : 0 <= n < 10 -> digit (digit_char n) = Some n.
Proof.
  intros Hn. assert (Hall : Forall (fun k => digit (digit_char k) = Some k) (seqZ 0 10))
    by repeat constructor.
  rewrite Forall_forall in Hall. by apply Hall, elem_of_seqZ.
Qed.

Lemma read_num_add a b acc l :
  read_num (a + b) acc l = '(x, l') ← read_num a acc l; read_num b x l'.
Proof.
  revert acc l; induction a as [|a IH]; intros acc l; cbn; [done|].
  destruct l as [|c l]; [done|]. destruct (digit c); cbn; [apply IH|done].
Qed.

Lemma read_num_pad k n acc rest :
  0 <= n < 10 ^ Z.of_nat k ->
  read_num k acc (String.list_ascii_of_string (pad k n) ++ rest)%list
  = Some (acc * 10 ^ Z.of_nat k + n, rest).
Proof.
  revert n acc rest; induction k as [|k IH]; intros n acc rest Hn.
  { cbn in *. f_equal. f_equal. lia. }
  rewrite Nat2Z.inj_succ, Z.pow_succ_r in * by lia.
  cbn [pad]. rewrite list_ascii_of_string_app, <- (assoc_L app).
  replace (S k) with (k + 1)%nat by lia. rewrite read_num_add, IH.
  2: { split; [apply Z.div_pos; lia|]. apply Z.div_lt_upper_bound; lia. }
  cbn. rewrite digit_digit_char by (apply Z.mod_pos_bound; lia). cbn. f_equal. f_equal.
  rewrite (Z.div_mod n 10) at 3 by lia. lia.
Qed.

(** ** The calendar *)

Definition month_of (n : Z) (leapyear : bool) : Z * Z :=
  let month := Z.shiftr (n + 50) 5 in
  let preceding := days_before_month 1 month + (if (2 <? month) && leapyear then 1 else 0) in
  if n <? preceding
  then (month - 1, preceding - (days_in_month 1 (month - 1)
                                + (if (month - 1 =? 2) && leapyear then 1 else 0)))
  else (month, preceding).

(** Days of a month and before it, by leap year. *)
Definition month_days (leapyear : bool) (m : Z) : Z :=
  days_in_month 1 m + (if (m =? 2) && leapyear then 1 else 0).
Definition month_start (leapyear : bool) (m : Z) : Z :=
  days_before_month 1 m + (if (2 <? m) && leapyear then 1 else 0).

Definition month_check (leapyear : bool) (n : nat) : bool :=
  let n := Z.of_nat n in
  let '(m, p) := month_of n leapyear in
  (1 <=? m) && (m <=? 12) && (p =? month_start leapyear m) && (0 <=? n - p)
  && (n - p <? month_days leapyear m).

Lemma month_checked :
  forallb (month_check false) (seq 0 365) && forallb (month_check true) (seq 0 366) = true.
Proof. by_vm. Qed.

Lemma month_of_spec n (leapyear : bool) m p :
  0 <= n < 365 + (if leapyear then 1 else 0) -> month_of n leapyear = (m, p) ->
  1 <= m <= 12 /\ p = month_start leapyear m /\ 0 <= n - p < month_days leapyear m.
Proof.
  intros Hn E. pose proof month_checked as Hall. apply andb_true_iff in Hall as [Hf Ht].
  rewrite forallb_forall in Hf, Ht.
  assert (Hc : month_check leapyear (Z.to_nat n) = true).
  { destruct leapyear; [apply Ht|apply Hf]; apply in_seq; lia. }
  unfold month_check in Hc. rewrite Z2Nat.id in Hc by lia. rewrite E in Hc. bool_prop. lia.
Qed.

Lemma is_leap_1 : is_leap 1 = false.
Proof. reflexivity. Qed.

Lemma month_days_leap y m : month_days (is_leap y) m = days_in_month y m.
Proof.
  unfold month_days, days_in_month. rewrite is_leap_1.
  destruct m as [|[p|[p|p|]|]|]; try (cbn; lia). cbn. destruct (is_leap y); lia.
Qed.

Lemma month_start_leap y m : 1 <= m <= 12 -> month_start (is_leap y) m = days_before_month y m.
Proof.
  intros Hm. unfold month_start, days_before_month.
  assert (Hk : forall k, (k <= 11)%nat ->
    days_before_month_nat y k = days_before_month_nat 1 k
      + (if (2 <=? Z.of_nat k) && is_leap y then 1 else 0)).
  { intros k Hk. destruct (is_leap y) eqn:El;
      do 12 (destruct k as [|k]; [cbv -[is_leap]; rewrite ?is_leap_1, ?El; reflexivity|]); lia. }
  rewrite Hk by lia. replace (2 <=? Z.of_nat (Z.to_nat (m - 1))) with (2 <? m); [done|].
  apply eq_iff_eq_true. rewrite Z.ltb_lt, Z.leb_le. lia.
Qed.

Lemma is_leap_digits a b c d :
  0 <= b <= 3 -> 0 <= c <= 24 -> 0 <= d <= 3 ->
  is_leap (400 * a + 100 * b + 4 * c + d + 1)
  = (d =? 3) && (negb (c =? 24) || (b =? 3)).
Proof.
  intros Hb Hc Hd. unfold is_leap.
  replace ((400 * a + 100 * b + 4 * c + d + 1) mod 4) with ((d + 1) mod 4)
    by (symmetry; rewrite <- (Z.mod_add (d + 1) (100 * a + 25 * b + c)) by lia; f_equal; lia).
  replace ((400 * a + 100 * b + 4 * c + d + 1) mod 100) with ((4 * c + d + 1) mod 100)
    by (symmetry; rewrite <- (Z.mod_add (4 * c + d + 1) (4 * a + b)) by lia; f_equal; lia).
  replace ((400 * a + 100 * b + 4 * c + d + 1) mod 400) with ((100 * b + 4 * c + d + 1) mod 400)
    by (symmetry; rewrite <- (Z.mod_add (100 * b + 4 * c + d + 1) a) by lia; f_equal; lia).
  repeat match goal with |- context [?x =? ?y] => destruct (Z.eqb_spec x y) end; cbn;
    try reflexivity; exfalso; Z.div_mod_to_equations; lia.
Qed.

Lemma days_before_year_digits a b c d :
  0 <= b <= 3 -> 0 <= c <= 24 -> 0 <= d <= 3 ->
  days_before_year (400 * a + 100 * b + 4 * c + d + 1) = 146097 * a + 36524 * b + 1461 * c + 365 * d.
Proof.
  intros Hb Hc Hd. unfold days_before_year.
  replace (400 * a + 100 * b + 4 * c + d + 1 - 1) with (400 * a + 100 * b + 4 * c + d) by lia.
  replace ((400 * a + 100 * b + 4 * c + d) / 4) with (100 * a + 25 * b + c)
    by (Z.div_mod_to_equations; lia).
  replace ((400 * a + 100 * b + 4 * c + d) / 100) with (4 * a + b)
    by (Z.div_mod_to_equations; lia).
  replace ((400 * a + 100 * b + 4 * c + d) / 400) with a by (Z.div_mod_to_equations; lia).
  lia.
Qed.

(** The last day of a leap year. *)
Lemma new_years_eve y :
  is_leap y = true ->
  civil_ok (Civil y 12 31) /\ civil_ord (Civil y 12 31) = days_before_year (y + 1).
Proof.
  intros Hl. split; [by split; cbn|]. unfold civil_ord, ymd2ord; cbn [c_year c_month c_day].
  rewrite year_length, (days_before_month_nat_S y 11).
  change (days_before_month y 12) with (days_before_month_nat y 11).
  change (days_in_month y (Z.of_nat 12)) with 31. lia.
Qed.

(** [ord2civil] inverts [toordinal] from year 1 on. *)
Lemma ord2civil_spec ord :
  1 <= ord ->
  civil_ok (ord2civil ord) /\ civil_ord (ord2civil ord) = ord /\ 1 <= c_year (ord2civil ord).
Proof.
  intros Hord. unfold ord2civil.
  set (n := ord - 1). set (a := n / 146097). set (r0 := n mod 146097).
  set (b := r0 / 36524). set (r1 := r0 mod 36524). set (c := r1 / 1461). set (r2 := r1 mod 1461).
  set (d := r2 / 365). set (r3 := r2 mod 365).
  assert (Hn : n = 146097 * a + r0 /\ 0 <= r0 < 146097) by (subst a r0; Z.div_mod_to_equations; lia).
  assert (H0 : r0 = 36524 * b + r1 /\ 0 <= r1 < 36524) by (subst b r1; Z.div_mod_to_equations; lia).
  assert (H1 : r1 = 1461 * c + r2 /\ 0 <= r2 < 1461) by (subst c r2; Z.div_mod_to_equations; lia).
  assert (H2 : r2 = 365 * d + r3 /\ 0 <= r3 < 365) by (subst d r3; Z.div_mod_to_equations; lia).
  assert (Hord' : ord = n + 1) by (subst n; lia).
  clearbody n a r0 b r1 c r2 d r3. subst ord.
  assert (0 <= a /\ 0 <= b <= 4 /\ 0 <= c <= 24 /\ 0 <= d <= 4) as (Ha & Hb & Hc & Hd) by lia.
  destruct ((d =? 4) || (b =? 4)) eqn:E.
  - assert (Hleap : is_leap (a * 400 + 1 + b * 100 + c * 4 + d - 1) = true
      /\ days_before_year (a * 400 + 1 + b * 100 + c * 4 + d - 1 + 1) = n + 1).
    { apply orb_true_iff in E as [E|E]; apply Z.eqb_eq in E as ->.
      - assert (b <= 3 /\ c <= 23) as [Hb3 Hc3] by lia. split.
        + replace (a * 400 + 1 + b * 100 + c * 4 + 4 - 1) with (400 * a + 100 * b + 4 * c + 3 + 1) by lia.
          rewrite is_leap_digits by lia. destruct (Z.eqb_spec c 24); [lia|done].
        + replace (a * 400 + 1 + b * 100 + c * 4 + 4 - 1 + 1)
            with (400 * a + 100 * b + 4 * (c + 1) + 0 + 1) by lia.
          rewrite days_before_year_digits by lia. lia.
      - assert (c = 0 /\ d = 0) as [-> ->] by lia. split.
        + replace (a * 400 + 1 + 4 * 100 + 0 * 4 + 0 - 1) with (400 * a + 100 * 3 + 4 * 24 + 3 + 1) by lia.
          by rewrite is_leap_digits by lia.
        + replace (a * 400 + 1 + 4 * 100 + 0 * 4 + 0 - 1 + 1)
            with (400 * (a + 1) + 100 * 0 + 4 * 0 + 0 + 1) by lia.
          rewrite days_before_year_digits by lia. lia. }
    destruct Hleap as [Hl Hdby]. apply new_years_eve in Hl as [Hok Ho].
    split; [done|]. split; [by rewrite Ho|]. cbn. lia.
  - apply orb_false_iff in E as [E4 Eb]. apply Z.eqb_neq in E4, Eb.
    replace (a * 400 + 1 + b * 100 + c * 4 + d) with (400 * a + 100 * b + 4 * c + d + 1) by lia.
    set (y := 400 * a + 100 * b + 4 * c + d + 1).
    assert (Hy : days_before_year y = 146097 * a + 36524 * b + 1461 * c + 365 * d)
      by (apply days_before_year_digits; lia).
    rewrite <- (is_leap_digits a b c d) by lia. fold y.
    set (result := let '(m, p) := month_of r3 (is_leap y) in Civil y m (r3 - p + 1)).
    change (civil_ok result /\ civil_ord result = n + 1 /\ 1 <= c_year result). subst result.
    destruct (month_of r3 (is_leap y)) as [m p] eqn:Em.
    apply month_of_spec in Em as (Hm & -> & Hday); [|destruct (is_leap y); lia].
    rewrite month_days_leap in Hday. rewrite (month_start_leap y m Hm) in *.
    unfold civil_ok, civil_ord, ymd2ord; cbn. lia.
Qed.

(** ** Reading back *)

Definition max_ordinal : Z := 3652059.

(** A datetime Python can represent, with an offset of whole seconds. *)
Definition representable (d : datetime) : Prop :=
  1 <= date_of d <= max_ordinal
  /\ match dt_offset d with
     | None => True
     | Some o => Z.abs o < us_per_day /\ o mod us_per_second = 0
     end.

Lemma ord2civil_bounds ord :
  1 <= ord <= max_ordinal ->
  1 <= c_year (ord2civil ord) <= 9999 /\ 1 <= c_month (ord2civil ord) <= 12
  /\ 1 <= c_day (ord2civil ord) <= days_in_month (c_year (ord2civil ord)) (c_month (ord2civil ord))
  /\ ymd2ord (c_year (ord2civil ord)) (c_month (ord2civil ord)) (c_day (ord2civil ord)) = ord.
Proof.
  intros Hord. destruct (ord2civil_spec ord ltac:(lia)) as ([Hm Hd] & Ho & Hy).
  split; [|done]. split; [done|].
  destruct (Z.le_gt_cases (c_year (ord2civil ord)) 9999) as [|Hbig]; [done|exfalso].
  pose proof (days_before_year_mono 10000 (c_year (ord2civil ord)) ltac:(lia)) as Hmono.
  change (days_before_year 10000) with 3652059 in Hmono.
  pose proof (days_before_month_nat_mono (c_year (ord2civil ord)) 0
                (Z.to_nat (c_month (ord2civil ord) - 1)) ltac:(lia)) as Hz.
  change (days_before_month_nat (c_year (ord2civil ord)) 0) with 0 in Hz.
  unfold civil_ord, ymd2ord, days_before_month in Ho. unfold max_ordinal in Hord. lia.
Qed.

Ltac read_pads :=
  repeat first
    [ rewrite list_ascii_of_string_app
    | rewrite <- (assoc_L app)
    | progress cbn [String.list_ascii_of_string app]
    | rewrite read_num_pad by (cbn; lia)
    | progress cbn [mbind option_bind read_char]
    | rewrite decide_True by done ].

Lemma read_hms_iso_time t rest :
  0 <= t < us_per_day ->
  let s := t / us_per_second in
  read_hms (String.list_ascii_of_string (pad 2 (s / 3600)) ++ ":"%char
            :: String.list_ascii_of_string (pad 2 (s / 60 mod 60)) ++ ":"%char
            :: String.list_ascii_of_string (pad 2 (s mod 60)) ++ rest)%list
  = Some (s * us_per_second, rest).
Proof.
  intros Ht s.
  assert (Hs : 0 <= s < 86400).
  { unfold s, us_per_day, us_per_hour, us_per_minute in *. split; [apply Z.div_pos; lia|].
    apply Z.div_lt_upper_bound; lia. }
  clearbody s. unfold read_hms.
  assert (0 <= s / 3600 < 24 /\ 0 <= s / 60 mod 60 < 60 /\ 0 <= s mod 60 < 60
          /\ s = s / 3600 * 3600 + s / 60 mod 60 * 60 + s mod 60) as (H1 & H2 & H3 & E)
    by (Z.div_mod_to_equations; lia).
  read_pads. cbn.
  rewrite (proj2 (Z.ltb_lt _ _)), (proj2 (Z.ltb_lt _ _)), (proj2 (Z.ltb_lt _ _)) by lia. cbn.
  do 2 f_equal. lia.
Qed.

(** The reader behind the sign. *)
Definition read_signed (sign : Z) (l : list Ascii.ascii) : option (option Z) :=
  '(h, l) ← read_num 2 0 l;
  l ← read_char ":"%char l;
  '(m, l) ← read_num 2 0 l;
  match l with
  | [] => if (h <? 24) && (m <? 60) then Some (Some (sign * ((h * 60 + m) * us_per_minute))) else None
  | _ =>
      l ← read_char ":"%char l;
      '(s, l) ← read_num 2 0 l;
      match l with
      | [] => if (h <? 24) && (m <? 60) && (s <? 60)
              then Some (Some (sign * ((h * 3600 + m * 60 + s) * us_per_second))) else None
      | _ => None
      end
  end.

Lemma read_offset_signed (sign : bool) l :
  l <> [] ->
  read_offset ((if sign then "-"%char else "+"%char) :: l) = read_signed (if sign then -1 else 1) l.
Proof. destruct l, sign; done. Qed.

Lemma pad2_not_nil n rest : (String.list_ascii_of_string (pad 2 n) ++ rest)%list <> [].
Proof. discriminate. Qed.

Lemma read_offset_iso off :
  match off with
  | None => True
  | Some o => Z.abs o < us_per_day /\ o mod us_per_second = 0
  end ->
  read_offset (String.list_ascii_of_string (iso_offset off)) = Some off.
Proof.
  destruct off as [o|]; [|done]. intros [Hlt Hmod]. unfold iso_offset.
  set (a := Z.abs o / us_per_second).
  assert (Ha : 0 <= a < 86400 /\ Z.abs o = a * us_per_second).
  { unfold a, us_per_day, us_per_hour, us_per_minute, us_per_second in *.
    split; [split; [apply Z.div_pos; lia|apply Z.div_lt_upper_bound; lia]|].
    Z.div_mod_to_equations; lia. }
  destruct Ha as [Ha Habs]. clearbody a.
  assert (0 <= a / 3600 < 24 /\ 0 <= a / 60 mod 60 < 60 /\ 0 <= a mod 60 < 60
          /\ a = a / 3600 * 3600 + a / 60 mod 60 * 60 + a mod 60) as (H1 & H2 & H3 & E)
    by (Z.div_mod_to_equations; lia).
  transitivity (read_signed (if o <? 0 then -1 else 1)
    (String.list_ascii_of_string (pad 2 (a / 3600)) ++ ":"%char
     :: String.list_ascii_of_string (pad 2 (a / 60 mod 60))
        ++ (if a mod 60 =? 0 then []
            else ":"%char :: String.list_ascii_of_string (pad 2 (a mod 60)) ++ []))%list).
  { rewrite <- read_offset_signed by apply pad2_not_nil.
    destruct (o <? 0), (a mod 60 =? 0); read_pads; by rewrite ?app_nil_r. }
  unfold read_signed. destruct (a mod 60 =? 0) eqn:Em; read_pads; cbn;
    rewrite !(proj2 (Z.ltb_lt _ _)) by lia; cbn; do 2 f_equal;
    unfold us_per_minute, us_per_second in *; destruct (o <? 0) eqn:Eo; bool_prop; lia.
Qed.

(** Behind the time: an optional fraction and the offset. *)
Definition read_rest (day t : Z) (l : list Ascii.ascii) : option datetime :=
  match l with
  | "."%char :: l' =>
      '(us, l') ← read_num 6 0 l';
      off ← read_offset l';
      Some (DateTime (day + t + us) off)
  | _ => off ← read_offset l; Some (DateTime (day + t) off)
  end.

Lemma read_rest_iso day t us off :
  0 <= us < 10 ^ 6 ->
  read_offset (String.list_ascii_of_string (iso_offset off)) = Some off ->
  read_rest day t (String.list_ascii_of_string
                     ((if us =? 0 then "" else "." +:+ pad 6 us) +:+ iso_offset off))
  = Some (DateTime (day + t + us) off).
Proof.
  intros Hus Hoff. destruct (Z.eqb_spec us 0) as [->|Hne].
  - change ("" +:+ iso_offset off) with (iso_offset off). rewrite Z.add_0_r. unfold read_rest.
    destruct (String.list_ascii_of_string (iso_offset off)) as [|c l] eqn:El; [by rewrite Hoff|].
    destruct (decide (c = "."%char)) as [->|Hc].
    + by destruct l.
    + replace (match c with "."%char => _ | _ => _ end)
        with (off ← read_offset (c :: l); Some (DateTime (day + t) off)); [by rewrite Hoff|].
      destruct c as [[] [] [] [] [] [] [] []]; try reflexivity. by destruct Hc.
  - unfold read_rest. read_pads. cbn. rewrite Hoff. done.
Qed.

Lemma fromisoformat_isoformat d : representable d -> fromisoformat (isoformat d) = Some d.
Proof.
  intros [Hdate Hoff]. destruct (ord2civil_bounds _ Hdate) as (Hy & Hm & Hd & Hord).
  destruct d as [wall off]; unfold isoformat, iso_date, iso_time; cbn [dt_offset dt_wall] in *.
  set (day := date_of (DateTime wall off)) in *. set (c := ord2civil day) in *.
  set (t := time_of_day (DateTime wall off)).
  assert (Ht : 0 <= t < us_per_day) by (unfold t, time_of_day; apply Z.mod_pos_bound; reflexivity).
  assert (Hwall : wall = day * us_per_day + t).
  { unfold day, t, date_of, time_of_day; cbn. rewrite (Z.div_mod wall us_per_day) at 1 by done. lia. }
  assert (Hus : 0 <= t mod us_per_second < 10 ^ 6) by (apply Z.mod_pos_bound; reflexivity).
  pose proof (read_rest_iso (day * us_per_day) (t / us_per_second * us_per_second)
                (t mod us_per_second) off Hus (read_offset_iso off Hoff)) as Hrest.
  pose proof (days_in_month_bounds (c_year c) (c_month c)) as Hdim.
  rewrite list_ascii_of_string_app in Hrest. pose proof (read_hms_iso_time t) as Hhms.
  clearbody c t day. unfold fromisoformat. read_pads. rewrite !Z.mul_0_l, !Z.add_0_l.
  rewrite !(proj2 (Z.leb_le _ _)) by lia. cbn [andb]. rewrite Hhms by done. cbn [mbind option_bind].
  rewrite Hord. etransitivity; [exact Hrest|]. f_equal. f_equal.
  pose proof (Z.div_mod t us_per_second ltac:(done)). lia.
Qed.

(** [datetime.fromisoformat] of a date is its midnight. *)
Lemma fromisoformat_iso_date d :
  1 <= d <= max_ordinal -> fromisoformat (iso_date d) = Some (DateTime (d * us_per_day) None).
Proof.
  intros Hd. destruct (ord2civil_bounds _ Hd) as (Hy & Hm & Hday & Hord).
  unfold iso_date. set (c := ord2civil d) in *. clearbody c.
  pose proof (days_in_month_bounds (c_year c) (c_month c)) as Hdim.
  unfold fromisoformat.
  replace (pad 2 (c_day c)) with (pad 2 (c_day c) +:+ "")
    by (apply string_app_nil_r). read_pads. rewrite !Z.mul_0_l, !Z.add_0_l.
  rewrite !(proj2 (Z.leb_le _ _)) by lia. cbn [andb]. by rewrite Hord.
Qed.

End Iso.
