(* ===== verification/Models.v ===== *)
(** * Persisted rows ([backend/app/models.py])

    The ORM tables the modelled services read and write, as records with the
    columns those services use, and the table constraints of the schema as
    boolean predicates. *)
From S2P Require Import Prelude PyStr PyTime Float64 Domain Json.
Import PyStr PyTime Float64 Domain Json.
Open Scope string_scope.
Open Scope Z_scope.

Module Models.

(** Timestamps that one worker writes and compares with its own clock
    ([_now()]) are microseconds of that clock. *)
Definition clock_time := Z.

Record WorkflowRun := Run {
  r_id : string;
  r_as_of : datetime;
  r_data_cutoff : datetime;
  r_status : RunStatus;
  r_mode : string;
  r_started_at : clock_time;
  r_completed_at : option clock_time;
  r_duration_seconds : option float;
  r_error : option string;
  r_data_quality : jobject;
  r_workflow_steps : json;
  r_input_hash : string;
  r_market_universe_hash : string }.

Record WorkflowTask := Task {
  t_id : string;
  t_run_id : string;
  t_kind : string;
  t_status : TaskStatus;
  t_stage : string;
  t_idempotency_key : string;
  t_payload : json;
  t_payload_hash : string;
  t_attempt_count : Z;
  t_max_attempts : Z;
  t_available_at : clock_time;
  t_attempt_started_at : option clock_time;
  t_lease_owner : option string;
  t_lease_token : option string;
  t_lease_expires_at : option clock_time;
  t_timeout_seconds : Z;
  t_last_error : option string;
  t_created_at : clock_time;
  t_updated_at : clock_time;
  t_completed_at : option clock_time;
  t_version : Z }.

(** The check constraints [ck_workflow_task_attempts] and
    [ck_workflow_task_lease] of the task table. *)
Definition ck_workflow_task_attempts (t : WorkflowTask) : bool :=
  (0 <=? t_attempt_count t) && (1 <=? t_max_attempts t)
  && (t_attempt_count t <=? t_max_attempts t).

Definition isSome {A} (o : option A) : bool := match o with Some _ => true | None => false end.

Definition ck_workflow_task_lease (t : WorkflowTask) : bool :=
  if bool_decide (t_status t = RUNNING)
  then isSome (t_lease_owner t) && isSome (t_lease_token t)
       && isSome (t_lease_expires_at t) && isSome (t_attempt_started_at t)
  else negb (isSome (t_lease_owner t)) && negb (isSome (t_lease_token t))
       && negb (isSome (t_lease_expires_at t)).

(** One opinion or forecast draft of a committee result. *)
Record DraftSignal := Draft {
  ds_agent_id : string;
  ds_direction : string;
  ds_probabilities : gmap string float;
  ds_confidence : float;
  ds_abstain : bool;
  ds_dates : list string;
  ds_instants : list string }.

(** The final state of the committee graph that gets persisted. *)
Record CommitteeResult := Committee {
  cr_opinions : list DraftSignal;
  cr_forecasts : list DraftSignal;
  cr_workflow_steps : json;
  cr_data_quality : jobject }.

Record ResearchActivationEventV2 := ActivationEvent {
  ae_id : string;
  ae_program_hash : string;
  ae_target_id : string;
  ae_event_type : string;
  ae_occurred_at : datetime }.

Record EvaluationResult := EvalResult {
  ev_id : string;
  ev_forecast_id : string;
  ev_actual_return : float;
  ev_actual_label : string;
  ev_correct : bool;
  ev_brier_score : float;
  ev_evaluated_at : datetime;
  ev_price_source : string;
  ev_observed_at : datetime;
  ev_start_trade_date : date;
  ev_start_close : float;
  ev_start_source_url : string;
  ev_start_source_hash : string;
  ev_end_trade_date : date;
  ev_end_close : float;
  ev_end_source_url : string;
  ev_end_source_hash : string;
  ev_observation_hash : string }.

Record Forecast := ForecastRow {
  fc_id : string;
  fc_run_id : string;
  fc_index_code : string;
  fc_horizon : string;
  fc_base_trade_date : date;
  fc_target_date : date;
  fc_direction : string;
  fc_probability_up : float;
  fc_probability_neutral : float;
  fc_probability_down : float;
  fc_threshold : float;
  fc_confidence : float;
  fc_abstain : bool;
  fc_model_name : string;
  fc_model_version : string;
  fc_wiki_version : string;
  fc_input_hash : string }.

Record PriceObservation := PriceObs {
  po_mode : string;
  po_index_code : string;
  po_trade_date : date;
  po_close : float;
  po_source : string;
  po_source_url : string;
  po_source_hash : string;
  po_ingested_at : datetime }.

End Models.
