(* ===== verification/TaskQueue.v ===== *)
(** * The durable task queue ([backend/app/services/task_queue.py])

    A database-backed queue of workflow runs.  Workers claim tasks with
    compare-and-swap leases; a lease is a random token with an expiry, renewed
    by a heartbeat, fenced at every write of the worker that holds it, and
    recovered when it expires. *)
From S2P Require Import Prelude PyStr PyTime Float64 Domain Json Models.
Import PyStr PyTime Float64 Domain Json Models.
Open Scope string_scope.
Open Scope Z_scope.

(** ** Admission of new v1 runs ([services/v1_run_admission.py]) *)
Module Admission.

Definition CSI1000_D1_TARGET : string := "csi1000-absolute-d1".

(** [ORDER BY occurred_at DESC, id DESC LIMIT 1] *)
Definition event_after (a b : ResearchActivationEventV2) : bool :=
  dt_ltb (ae_occurred_at b) (ae_occurred_at a)
  || dt_eqb (ae_occurred_at b) (ae_occurred_at a)
     && bool_decide (String.compare (ae_id b) (ae_id a) = Lt).

Definition latest_event (events : list ResearchActivationEventV2)
    : option ResearchActivationEventV2 :=
  fold_left (fun best e =>
    match best with
    | None => Some e
    | Some b => if event_after e b then Some e else best
    end) events None.

(** [events] is [None] when the query itself fails. *)
Definition assert_v1_run_creation_allowed (program_hash : string)
    (events : option (list ResearchActivationEventV2)) : result unit :=
  match events with
  | None => raise V1RunAdmissionError
      "Cannot verify v2 D1 activation state; new legacy v1 runs are disabled fail-closed."
  | Some events =>
      let latest := latest_event
        (filter (fun e => ae_target_id e = CSI1000_D1_TARGET
                          /\ ae_program_hash e = program_hash) events) in
      raise_when
        (match latest with
         | Some e => (ae_event_type e =? "activated")%string
         | None => false
         end) V1RunAdmissionError
        "The focused v2 D1 target is activated; creation of new legacy five-index v1 runs has stopped. Historical v1 records remain readable."
  end.

End Admission.

Module TaskQueue.

Definition TASK_KIND : string := "committee_run".
Definition TASK_PAYLOAD_SCHEMA : string := "forecast-loop.workflow-task/v1".
Definition EXECUTION_MANIFEST_SCHEMA : string := "forecast-loop.execution-manifest/v1".

(** ** Configuration *)

Record Config := mkConfig {
  q_max_attempts : Z;
  q_lease_seconds : Z;
  q_timeout_seconds : Z;
  q_retry_delay_seconds : Z }.

Definition DEFAULT_CONFIG : Config := mkConfig 3 60 (30 * 60) 5.

(** [PersistentTaskQueue.__init__] *)
Definition init (cfg : Config) : result Config :=
  raise_when (q_max_attempts cfg <? 1) ValueError "max_attempts must be at least one" ;;
  raise_when (q_lease_seconds cfg <? 1) ValueError "lease_seconds must be at least one" ;;
  raise_when (q_timeout_seconds cfg <? q_lease_seconds cfg) ValueError
    "timeout_seconds must not be shorter than the lease" ;;
  raise_when (q_retry_delay_seconds cfg <? 0) ValueError
    "retry_delay_seconds must be non-negative" ;;
  Ok cfg.

(** ** The database *)

Record DB := mkDB {
  db_tasks : gmap string WorkflowTask;
  db_runs : gmap string WorkflowRun;
  db_activation : option (list ResearchActivationEventV2);
  db_results : gmap string (list CommitteeResult) }.

Definition with_tasks (db : DB) (ts : gmap string WorkflowTask) : DB :=
  mkDB ts (db_runs db) (db_activation db) (db_results db).
Definition with_runs (db : DB) (rs : gmap string WorkflowRun) : DB :=
  mkDB (db_tasks db) rs (db_activation db) (db_results db).

(** [UPDATE workflow_tasks ... WHERE id = .. AND p]: the new database and
    whether exactly one row changed. *)
Definition update_task (db : DB) (id : string) (p : WorkflowTask -> bool)
    (f : WorkflowTask -> WorkflowTask) : option DB :=
  match db_tasks db !! id with
  | Some t => if p t then Some (with_tasks db (<[id := f t]> (db_tasks db))) else None
  | None => None
  end.

Record ExecutionFence := Fence { ef_task_id : string; ef_lease_token : string }.

Record TaskLease := Lease {
  l_task_id : string;
  l_run_id : string;
  l_lease_token : string;
  l_worker_id : string;
  l_attempt_count : Z;
  l_max_attempts : Z;
  l_timeout_seconds : Z;
  l_payload : json;
  l_payload_hash : string }.

(** [_safe_error] *)
Definition safe_error (value : string) : string :=
  let message := collapse_spaces value in
  let message :=
    if truthy message then message
    else "task execution failed without an error message" in
  py_take 4000 message.

(** ** Validation of identifiers *)

Definition key_head (c : Ascii.ascii) : bool := is_alnum c.
Definition key_char (c : Ascii.ascii) : bool := is_alnum c || char_in "._:/+-" c.

(** The pattern [^[A-Za-z0-9][A-Za-z0-9._:/+\-]{0,254}$]. *)
Definition idempotency_pattern (s : string) : bool :=
  match String.list_ascii_of_string s with
  | c :: rest => key_head c && forallb key_char rest && (length rest <=? 254)%nat
  | [] => false
  end.

Definition validate_idempotency_key (value : string) : result string :=
  let key := py_strip value in
  raise_when (negb (idempotency_pattern key)) ValueError
    "idempotency key must be 1-255 safe ASCII characters (letters, digits, '.', '_', ':', '/', '+', '-')" ;;
  Ok key.

Definition default_idempotency_key (default_universe_hash : string) (as_of : datetime)
    (market_universe_hash : string) : string :=
  if (market_universe_hash =? default_universe_hash)%string
  then "live:" +:+ isoformat as_of
  else "live:" +:+ market_universe_hash +:+ ":" +:+ isoformat as_of.

Definition validate_worker_id (value : string) : result string :=
  let worker_id := py_strip value in
  raise_when (negb (truthy worker_id) || (120 <? py_len worker_id)) ValueError
    "worker_id must contain 1-120 characters" ;;
  Ok worker_id.

Definition validated_execution_manifest (value : option json) : result jobject :=
  match value with
  | Some (JObj manifest) =>
      raise_when (negb (get_is manifest "schema" EXECUTION_MANIFEST_SCHEMA))
        TaskPayloadIntegrityError "prepared task has an unsupported execution manifest" ;;
      Ok manifest
  | _ => raise TaskPayloadIntegrityError "prepared task is missing its execution manifest"
  end.

Section WithHash.
Context `{CanonicalHash}.

Definition payload_hash (payload : json) : string := canonical_hash payload.

Definition validate_replay (row : WorkflowTask) (run_id payload_hash : string) : result unit :=
  raise_when (negb (t_run_id row =? run_id)%string
              || negb (t_payload_hash row =? payload_hash)%string)
    TaskIdempotencyConflictError "idempotency key is already bound to another frozen run".

Definition payload_ok (row : WorkflowTask) : bool :=
  (t_kind row =? TASK_KIND)%string && (payload_hash (t_payload row) =? t_payload_hash row)%string.

Definition validate_payload (row : WorkflowTask) : result unit :=
  raise_when (negb (payload_ok row)) TaskPayloadIntegrityError
    ("task " +:+ t_id row +:+ " payload failed its integrity seal").

(** ** Enqueue *)

Record PreparedRun := Prepared {
  pr_row : WorkflowRun;
  pr_initial : jobject;
  pr_execution_manifest : json }.

Definition task_payload (p : PreparedRun) (manifest : jobject) : json :=
  JObj (list_to_map
    [("schema", JStr TASK_PAYLOAD_SCHEMA); ("run_id", JStr (r_id (pr_row p)));
     ("input_hash", JStr (r_input_hash (pr_row p))); ("initial", JObj (pr_initial p));
     ("execution_manifest", JObj manifest)]).

Definition find_by_key (db : DB) (key : string) : option WorkflowTask :=
  snd <$> find (fun '(_, t) => (t_idempotency_key t =? key)%string) (map_to_list (db_tasks db)).

Definition find_by_idempotency_key (db : DB) (idempotency_key : string)
    : result (option WorkflowTask) :=
  key ← validate_idempotency_key idempotency_key; Ok (find_by_key db key).

Definition active_live (r : WorkflowRun) : bool :=
  (r_mode r =? "live")%string && negb (bool_decide (r_status r = RUN_FAILED)).

(** The unique index [uq_active_live_run_as_of]. *)
Definition run_slot_taken (db : DB) (r : WorkflowRun) : bool :=
  active_live r &&
  existsb (fun '(_, r') =>
    active_live r' && (r_market_universe_hash r' =? r_market_universe_hash r)%string
    && dt_eqb (r_as_of r') (r_as_of r)) (map_to_list (db_runs db)).

Definition task_identity_taken (db : DB) (t : WorkflowTask) : bool :=
  isSome (db_tasks db !! t_id t) ||
  existsb (fun '(_, t') => (t_run_id t' =? t_run_id t)%string
                           || (t_idempotency_key t' =? t_idempotency_key t)%string)
    (map_to_list (db_tasks db)).

(** [session.commit()] of the pending run row (if added) and the task row;
    [None] is the [IntegrityError] of a violated unique constraint. *)
Definition commit_task (db : DB) (new_run : option WorkflowRun) (t : WorkflowTask) : option DB :=
  let run_conflict :=
    match new_run with
    | Some r => isSome (db_runs db !! r_id r) || run_slot_taken db r
    | None => negb (isSome (db_runs db !! t_run_id t))
    end in
  if run_conflict || task_identity_taken db t then None
  else
    let runs := match new_run with
                | Some r => <[r_id r := r]> (db_runs db)
                | None => db_runs db
                end in
    Some (mkDB (<[t_id t := t]> (db_tasks db)) runs (db_activation db) (db_results db)).

Definition new_task (cfg : Config) (id key : string) (p : PreparedRun) (payload : json)
    (now : clock_time) : WorkflowTask :=
  Task id (r_id (pr_row p)) TASK_KIND QUEUED "prepared" key payload (payload_hash payload)
    0 (q_max_attempts cfg) now None None None None (q_timeout_seconds cfg) None
    now now None 0.

(** [enqueue]: the queries of the session see [seen]; the commit meets [db],
    which other sessions may have advanced in between. *)
Definition enqueue (cfg : Config) (program_hash : string) (seen db : DB) (p : PreparedRun)
    (idempotency_key uuid : string) (now : clock_time) : result (WorkflowTask * bool * DB) :=
  key ← validate_idempotency_key idempotency_key;
  manifest ← validated_execution_manifest (Some (pr_execution_manifest p));
  let payload := task_payload p manifest in
  Admission.assert_v1_run_creation_allowed program_hash (db_activation seen) ;;
  match find_by_key seen key with
  | Some existing =>
      validate_replay existing (r_id (pr_row p)) (payload_hash payload) ;;
      Ok (existing, false, db)
  | None =>
      let persisted_run := db_runs seen !! r_id (pr_row p) in
      raise_when
        (match persisted_run with
         | Some r => negb (r_input_hash r =? r_input_hash (pr_row p))%string
                     || negb (bool_decide (r_status r = r_status (pr_row p)))
         | None => false
         end) TaskPayloadIntegrityError
        "prepared run conflicts with its persisted database row" ;;
      let new_run := match persisted_run with Some _ => None | None => Some (pr_row p) end in
      let task := new_task cfg uuid key p payload now in
      match commit_task db new_run task with
      | Some db' => Ok (task, true, db')
      | None =>
          match find_by_key db key with
          | None => raise IntegrityError "UNIQUE constraint failed"
          | Some raced =>
              validate_replay raced (r_id (pr_row p)) (payload_hash payload) ;;
              Ok (raced, false, db)
          end
      end
  end.

(** ** Effects on the run row *)

Definition run_after_attempt (terminal : bool) (error : string) (now : clock_time)
    (r : WorkflowRun) : WorkflowRun :=
  Run (r_id r) (r_as_of r) (r_data_cutoff r)
    (if terminal then RUN_FAILED else RUN_QUEUED) (r_mode r) (r_started_at r)
    (if terminal then Some now else None)
    (if terminal then r_duration_seconds r else None)
    (Some error) (r_data_quality r) (r_workflow_steps r) (r_input_hash r)
    (r_market_universe_hash r).

Definition update_run_after_attempt (db : DB) (run_id : string) (terminal : bool)
    (error : string) (now : clock_time) : DB :=
  match db_runs db !! run_id with
  | Some r =>
      if bool_decide (r_status r = RUN_COMPLETED) then db
      else with_runs db (<[run_id := run_after_attempt terminal error now r]> (db_runs db))
  | None => db
  end.

(** ** Claim *)

Definition claimable (now : clock_time) (t : WorkflowTask) : bool :=
  bool_decide (t_status t = QUEUED \/ t_status t = RETRY_WAIT)
  && (t_available_at t <=? now) && (t_attempt_count t <? t_max_attempts t).

Definition claim_values (owner token : string) (now expires_at : clock_time)
    (t : WorkflowTask) : WorkflowTask :=
  Task (t_id t) (t_run_id t) (t_kind t) RUNNING "executing" (t_idempotency_key t)
    (t_payload t) (t_payload_hash t) (t_attempt_count t + 1) (t_max_attempts t)
    (t_available_at t) (Some now) (Some owner) (Some token) (Some expires_at)
    (t_timeout_seconds t) (t_last_error t) (t_created_at t) now (t_completed_at t)
    (t_version t + 1).

(** The compare-and-swap of one candidate. *)
Definition claim_cas (cfg : Config) (db : DB) (task_id : string) (version : Z)
    (owner token : string) (now : clock_time) : option DB :=
  update_task db task_id
    (fun t => (t_version t =? version) && claimable now t)
    (claim_values owner token now (now + seconds (q_lease_seconds cfg))).

Definition lease_of (row : WorkflowTask) (token owner : string) : TaskLease :=
  Lease (t_id row) (t_run_id row) token owner (t_attempt_count row) (t_max_attempts row)
    (t_timeout_seconds row) (t_payload row) (t_payload_hash row).

(** Values that release the lease with a new status. *)
Definition release_values (status : TaskStatus) (available_at : clock_time)
    (error : option string) (now : clock_time) (completed_at : option clock_time)
    (t : WorkflowTask) : WorkflowTask :=
  Task (t_id t) (t_run_id t) (t_kind t) status (task_status_value status)
    (t_idempotency_key t) (t_payload t) (t_payload_hash t) (t_attempt_count t)
    (t_max_attempts t) available_at (t_attempt_started_at t) None None None
    (t_timeout_seconds t) error (t_created_at t) now completed_at (t_version t + 1).

(** [WHERE status = 'running' AND lease_token = .. AND lease_expires_at > now] *)
Definition holds_lease (token : string) (now : clock_time) (t : WorkflowTask) : bool :=
  bool_decide (t_status t = RUNNING) && bool_decide (t_lease_token t = Some token)
  && match t_lease_expires_at t with Some e => now <? e | None => false end.

(** [_terminal_fail_in_session] *)
Definition terminal_fail_in_session (db : DB) (lease : TaskLease) (error : string)
    (now : clock_time) : bool * DB :=
  let message := safe_error error in
  match update_task db (l_task_id lease) (holds_lease (l_lease_token lease) now)
          (release_values FAILED now (Some message) now (Some now)) with
  | Some db' => (true, update_run_after_attempt db' (l_run_id lease) true message now)
  | None => (false, db)
  end.

(** Candidates in claim order: [ORDER BY available_at, created_at LIMIT 20]. *)
Definition claim_order (a b : WorkflowTask) : Prop :=
  t_available_at a < t_available_at b
  \/ t_available_at a = t_available_at b /\ t_created_at a <= t_created_at b.

#[global] Instance claim_order_dec a b : Decision (claim_order a b).
Proof. unfold claim_order. apply _. Defined.

Definition claim_candidates (db : DB) (now : clock_time) : list (string * Z) :=
  (fun t => (t_id t, t_version t)) <$>
    take 20 (merge_sort claim_order
      (filter (fun t => claimable now t = true) (snd <$> map_to_list (db_tasks db)))).

(** The loop over the candidates; [uuid] yields the token of each try. *)
Fixpoint claim_loop (cfg : Config) (db : DB) (owner : string) (now : clock_time)
    (uuid : nat -> string) (i : nat) (candidates : list (string * Z))
    : option TaskLease * DB :=
  match candidates with
  | [] => (None, db)
  | (task_id, version) :: rest =>
      let token := uuid i in
      match claim_cas cfg db task_id version owner token now with
      | None => claim_loop cfg db owner now uuid (S i) rest
      | Some db1 =>
          match db_tasks db1 !! task_id with
          | None => (None, db1)
          | Some row =>
              let lease := lease_of row token owner in
              match validate_payload row with
              | Ok _ => (Some lease, db1)
              | Err exc =>
                  let '(_, db2) := terminal_fail_in_session db1 lease (exn_msg exc) now in
                  claim_loop cfg db2 owner now uuid (S i) rest
              end
          end
      end
  end.

(** ** Recovery of expired leases *)

Definition attempt_expired (row : WorkflowTask) (now : clock_time) : bool :=
  match t_lease_expires_at row, t_attempt_started_at row with
  | Some expires, Some started =>
      (expires <=? now) || (started + seconds (t_timeout_seconds row) <=? now)
  | _, _ => true
  end.

Definition recovery_message (row : WorkflowTask) : string :=
  "Worker lease expired or the execution attempt exceeded "
  +:+ py_str_Z (t_timeout_seconds row) +:+ " seconds.".

(** One iteration for the row [row] read earlier: compare-and-swap on its
    version and token, then the run row. *)
Definition recover_cas (cfg : Config) (db : DB) (row : WorkflowTask) (now : clock_time)
    : option DB :=
  let terminal := t_max_attempts row <=? t_attempt_count row in
  let next_status := if terminal then FAILED else RETRY_WAIT in
  let message := recovery_message row in
  match update_task db (t_id row)
          (fun t => bool_decide (t_status t = RUNNING) && (t_version t =? t_version row)
                    && bool_decide (t_lease_token t = t_lease_token row))
          (release_values next_status
             (if terminal then now else now + seconds (q_retry_delay_seconds cfg))
             (Some message) now (if terminal then Some now else None)) with
  | Some db' => Some (update_run_after_attempt db' (t_run_id row) terminal message now)
  | None => None
  end.

Definition created_order (a b : WorkflowTask) : Prop := t_created_at a <= t_created_at b.

#[global] Instance created_order_dec a b : Decision (created_order a b).
Proof. unfold created_order. apply _. Defined.

Definition running_tasks (db : DB) : list WorkflowTask :=
  merge_sort created_order
    (filter (fun t => t_status t = RUNNING) (snd <$> map_to_list (db_tasks db))).

Definition recover_step (cfg : Config) (now : clock_time) (acc : Z * DB) (row : WorkflowTask)
    : Z * DB :=
  let '(recovered, db) := acc in
  if attempt_expired row now then
    match recover_cas cfg db row now with
    | Some db' => (recovered + 1, db')
    | None => (recovered, db)
    end
  else (recovered, db).

Definition recover_expired (cfg : Config) (db : DB) (now : clock_time) : Z * DB :=
  fold_left (recover_step cfg now) (running_tasks db) (0, db).

(** [claim]: recover first (its own clock reading), then try the candidates. *)
Definition claim (cfg : Config) (db : DB) (worker_id : string) (now_recover now : clock_time)
    (uuid : nat -> string) : result (option TaskLease * DB) :=
  owner ← validate_worker_id worker_id;
  let '(_, db1) := recover_expired cfg db now_recover in
  Ok (claim_loop cfg db1 owner now uuid 0 (claim_candidates db1 now)).

(** ** Renewal *)

Definition renew_values (expires_at now : clock_time) (t : WorkflowTask) : WorkflowTask :=
  Task (t_id t) (t_run_id t) (t_kind t) (t_status t) (t_stage t) (t_idempotency_key t)
    (t_payload t) (t_payload_hash t) (t_attempt_count t) (t_max_attempts t)
    (t_available_at t) (t_attempt_started_at t) (t_lease_owner t) (t_lease_token t)
    (Some expires_at) (t_timeout_seconds t) (t_last_error t) (t_created_at t) now
    (t_completed_at t) (t_version t + 1).

Definition renew_deadline (row : WorkflowTask) (lease : TaskLease) : option clock_time :=
  match t_attempt_started_at row with
  | Some started =>
      if bool_decide (t_status row = RUNNING)
         && bool_decide (t_lease_token row = Some (l_lease_token lease))
      then Some (started + seconds (t_timeout_seconds row)) else None
  | None => None
  end.

(** [renew]: the row is read as [seen] before the compare-and-swap on [db]. *)
Definition renew (cfg : Config) (seen db : DB) (lease : TaskLease) (now : clock_time)
    : bool * DB :=
  match row ← db_tasks seen !! l_task_id lease; d ← renew_deadline row lease; Some (row, d) with
  | None => (false, db)
  | Some (row, deadline) =>
      if deadline <=? now then (false, db)
      else
        let expires_at := Z.min (now + seconds (q_lease_seconds cfg)) deadline in
        match update_task db (l_task_id lease)
                (fun t => holds_lease (l_lease_token lease) now t
                          && (t_version t =? t_version row))
                (renew_values expires_at now) with
        | Some db' => (true, db')
        | None => (false, db)
        end
  end.

(** ** Completion and failure *)

Definition complete (db : DB) (lease : TaskLease) (now : clock_time) : result (bool * DB) :=
  raise_when
    (match db_runs db !! l_run_id lease with
     | Some r => negb (bool_decide (r_status r = RUN_COMPLETED))
     | None => true
     end) TaskQueueError
    ("run " +:+ l_run_id lease +:+ " is not completed; refusing to complete task") ;;
  let already :=
    match db_tasks db !! l_task_id lease with
    | Some t => (t_run_id t =? l_run_id lease)%string && bool_decide (t_status t = COMPLETED)
    | None => false
    end in
  if already then Ok (true, db)
  else
    match update_task db (l_task_id lease) (holds_lease (l_lease_token lease) now)
            (fun t => release_values COMPLETED (t_available_at t) None now (Some now) t) with
    | Some db' => Ok (true, db')
    | None => Ok (false, db)
    end.

Definition retryable (lease : TaskLease) : bool := l_attempt_count lease <? l_max_attempts lease.

Definition fail (cfg : Config) (db : DB) (lease : TaskLease) (error : string)
    (now : clock_time) : option TaskStatus * DB :=
  let message := safe_error error in
  let next_status := if retryable lease then RETRY_WAIT else FAILED in
  match update_task db (l_task_id lease) (holds_lease (l_lease_token lease) now)
          (release_values next_status
             (if retryable lease then now + seconds (q_retry_delay_seconds cfg) else now)
             (Some message) now (if retryable lease then None else Some now)) with
  | Some db' =>
      (Some next_status,
       update_run_after_attempt db' (l_run_id lease) (negb (retryable lease)) message now)
  | None => (None, db)
  end.

Definition fail_terminal (db : DB) (lease : TaskLease) (error : string) (now : clock_time)
    : bool * DB := terminal_fail_in_session db lease error now.

(** ** Fences *)

Definition stale_message (fence : ExecutionFence) : string :=
  "task " +:+ ef_task_id fence +:+ " lease is stale or expired".

Definition deadline_passed (row : WorkflowTask) (now : clock_time) : bool :=
  match t_attempt_started_at row with
  | Some started => started + seconds (t_timeout_seconds row) <=? now
  | None => true
  end.

(** [assert_execution_fence] *)
Definition assert_execution_fence (db : DB) (fence : ExecutionFence) (now : clock_time)
    : result WorkflowTask :=
  match db_tasks db !! ef_task_id fence with
  | Some row =>
      if holds_lease (ef_lease_token fence) now row && negb (deadline_passed row now)
      then Ok row else raise StaleTaskLeaseError (stale_message fence)
  | None => raise StaleTaskLeaseError (stale_message fence)
  end.

Definition stage_values (stage : string) (now : clock_time) (t : WorkflowTask) : WorkflowTask :=
  Task (t_id t) (t_run_id t) (t_kind t) (t_status t) stage (t_idempotency_key t)
    (t_payload t) (t_payload_hash t) (t_attempt_count t) (t_max_attempts t)
    (t_available_at t) (t_attempt_started_at t) (t_lease_owner t) (t_lease_token t)
    (t_lease_expires_at t) (t_timeout_seconds t) (t_last_error t) (t_created_at t) now
    (t_completed_at t) (t_version t).

(** [fence_execution]: inside the caller's transaction; an exception rolls the
    whole transaction back. *)
Definition fence_execution (db : DB) (fence : ExecutionFence) (run_id stage : string)
    (now : clock_time) : result (WorkflowTask * DB) :=
  match update_task db (ef_task_id fence)
          (fun t => (t_run_id t =? run_id)%string && holds_lease (ef_lease_token fence) now t
                    && isSome (t_attempt_started_at t))
          (stage_values stage now) with
  | None => raise StaleTaskLeaseError (stale_message fence)
  | Some db' =>
      match db_tasks db' !! ef_task_id fence with
      | None => raise AssertionError ""
      | Some row =>
          raise_when (deadline_passed row now) StaleTaskLeaseError
            ("task " +:+ ef_task_id fence +:+ " attempt deadline has expired") ;;
          Ok (row, db')
      end
  end.

(** [finalize_execution_fence] reads the clock twice. *)
Definition finalize_execution_fence (db : DB) (fence : ExecutionFence) (run_id : string)
    (now now' : clock_time) : result (WorkflowTask * DB) :=
  '(row, db1) ← fence_execution db fence run_id "finalizing" now;
  match update_task db1 (ef_task_id fence)
          (fun t => (t_run_id t =? run_id)%string && bool_decide (t_status t = RUNNING)
                    && bool_decide (t_lease_token t = Some (ef_lease_token fence)))
          (fun t => release_values COMPLETED (t_available_at t) None now' (Some now') t) with
  | None => raise StaleTaskLeaseError
      ("task " +:+ ef_task_id fence +:+ " lease was replaced before finalization")
  | Some db2 => Ok (row, db2)
  end.

End WithHash.

End TaskQueue.
