(* ===== verification/Contracts.v ===== *)
(** * Agent contracts and signal envelopes ([backend/app/agent_contracts.py])

    The versioned declarations of what an Agent may submit and how it may take
    part, the host-sealed signal envelopes, and the check that an envelope stays
    within its Agent's declaration.  The models are immutable records; their
    field constraints and validators are functions that return the validated
    (and stripped) record or raise. *)
From Stdlib Require Import Ascii.
From S2P Require Import Prelude PyStr PyTime Float64 Domain Json.
Import PyStr PyTime Float64 Domain Json.
Open Scope string_scope.
Open Scope Z_scope.

Module Contracts.

Definition AGENT_SPEC_SCHEMA : string := "forecast-loop.agent-spec/v1".
Definition PARTICIPATION_POLICY_SCHEMA : string := "forecast-loop.participation-policy/v1".
Definition SIGNAL_ENVELOPE_SCHEMA : string := "forecast-loop.signal-envelope/v1".

Definition RESERVED_SOURCE_PAYLOAD_FIELDS : list string :=
  ["schema_version"; "signal_id"; "agent_id"; "agent_version"; "agent_spec_hash"; "mode";
   "target"; "submitted_at"; "accepted_at"; "submission_deadline"; "input_binding";
   "participation"; "provenance"; "direction"; "probabilities"; "direction_confidence";
   "rationale"; "counter_evidence"; "invalidation_conditions"; "citations";
   "blind_attestation"; "payload_schema"; "source_payload"; "content_hash"].

(** ** Enumerations *)

Inductive ProbabilityMode := PROB_NONE | PROB_CONFIDENCE | PROB_MULTICLASS.
Inductive ReasoningMode := REASONING_NONE | STRUCTURED.
Inductive EvidenceMode := EVIDENCE_NONE | DECLARED | FROZEN_CITATIONS.
Inductive ParticipationMode := PART_FORMAL | PART_SHADOW | PART_DISABLED.
Inductive InfluenceMode := INFL_INPUT | INFL_ADVISORY | INFL_DECISION | INFL_NONE.
Inductive EvaluationMetric :=
  | METRIC_DIRECTION | METRIC_MULTICLASS_BRIER | METRIC_CALIBRATION | METRIC_REASONING.

#[global] Instance ProbabilityMode_eq_dec : EqDecision ProbabilityMode.
Proof. solve_decision. Defined.
#[global] Instance ReasoningMode_eq_dec : EqDecision ReasoningMode.
Proof. solve_decision. Defined.
#[global] Instance EvidenceMode_eq_dec : EqDecision EvidenceMode.
Proof. solve_decision. Defined.
#[global] Instance ParticipationMode_eq_dec : EqDecision ParticipationMode.
Proof. solve_decision. Defined.
#[global] Instance InfluenceMode_eq_dec : EqDecision InfluenceMode.
Proof. solve_decision. Defined.
#[global] Instance EvaluationMetric_eq_dec : EqDecision EvaluationMetric.
Proof. solve_decision. Defined.
#[global] Instance AgentSourceType_eq_dec : EqDecision AgentSourceType.
Proof. solve_decision. Defined.
#[global] Instance AgentWorkflowRole_eq_dec : EqDecision AgentWorkflowRole.
Proof. solve_decision. Defined.

(** ** Declarations *)

Record AgentCapabilities := Capabilities {
  cap_direction : bool;
  cap_probability_mode : ProbabilityMode;
  cap_reasoning_mode : ReasoningMode;
  cap_evidence_mode : EvidenceMode;
  cap_supports_blind_submission : bool;
  cap_supports_input_binding : bool }.

Record ParticipationPolicy := Policy {
  pp_policy_id : string;
  pp_policy_version : string;
  pp_mode : ParticipationMode;
  pp_influence : InfluenceMode;
  pp_evaluation_metrics : list EvaluationMetric }.

#[global] Instance ParticipationPolicy_eq_dec : EqDecision ParticipationPolicy.
Proof. solve_decision. Defined.

Definition has_metric (m : EvaluationMetric) (p : ParticipationPolicy) : bool :=
  bool_decide (m ∈ pp_evaluation_metrics p).

(** [Field(min_length=lo, max_length=hi)] *)
Definition length_ok (lo hi : Z) (s : string) : bool := (lo <=? py_len s) && (py_len s <=? hi).

Definition field_check (b : bool) (name : string) : result unit :=
  raise_when (negb b) ValueError ("invalid field: " +:+ name).

Definition empty {A} (l : list A) : bool := match l with [] => true | _ => false end.

(** [ParticipationPolicy]: the fields, then [policy_is_internally_consistent]. *)
Definition validate_policy (p : ParticipationPolicy) : result unit :=
  field_check (length_ok 1 120 (pp_policy_id p)) "policy_id" ;;
  field_check (length_ok 1 32 (pp_policy_version p)) "policy_version" ;;
  raise_when (negb (bool_decide (NoDup (pp_evaluation_metrics p)))) ValueError
    "evaluation_metrics must not contain duplicates" ;;
  raise_when (bool_decide (pp_mode p = PART_DISABLED)
              && (negb (bool_decide (pp_influence p = INFL_NONE))
                  || negb (empty (pp_evaluation_metrics p)))) ValueError
    "disabled participation may not influence or be evaluated" ;;
  raise_when (bool_decide (pp_mode p = PART_SHADOW)
              && negb (bool_decide (pp_influence p = INFL_NONE))) ValueError
    "shadow participation may not influence a formal decision" ;;
  raise_when (bool_decide (pp_mode p = PART_FORMAL)
              && bool_decide (pp_influence p = INFL_NONE)) ValueError
    "formal participation requires an explicit influence lane" ;;
  raise_when (has_metric METRIC_CALIBRATION p && negb (has_metric METRIC_MULTICLASS_BRIER p))
    ValueError "calibration requires multiclass probability evaluation".

Record AgentSpecBody := SpecBody {
  sp_agent_id : string;
  sp_agent_version : string;
  sp_name : string;
  sp_role : string;
  sp_workflow_role : AgentWorkflowRole;
  sp_source_type : AgentSourceType;
  sp_capabilities : AgentCapabilities;
  sp_participation : ParticipationPolicy }.

Definition id_head (c : Ascii.ascii) : bool := is_lower c || is_digit c.
Definition id_char (c : Ascii.ascii) : bool := id_head c || char_in "_-" c.

(** The pattern [^[a-z0-9][a-z0-9_-]*$]. *)
Definition agent_id_pattern (s : string) : bool :=
  match String.list_ascii_of_string s with
  | c :: rest => id_head c && forallb id_char rest
  | [] => false
  end.

(** [capabilities_cover_the_declared_metrics] *)
Definition capabilities_cover_the_declared_metrics (s : AgentSpecBody) : result unit :=
  let c := sp_capabilities s in
  let p := sp_participation s in
  raise_when (negb (bool_decide (cap_probability_mode c = PROB_NONE)) && negb (cap_direction c))
    ValueError "probability capability requires direction capability" ;;
  raise_when (cap_supports_blind_submission c && negb (cap_direction c)) ValueError
    "blind submission capability requires direction capability" ;;
  raise_when (negb (bool_decide (pp_mode p = PART_DISABLED)) && negb (cap_supports_input_binding c))
    ValueError "active participation requires input binding capability" ;;
  raise_when (has_metric METRIC_DIRECTION p && negb (cap_direction c)) ValueError
    "direction evaluation requires direction capability" ;;
  raise_when ((has_metric METRIC_MULTICLASS_BRIER p || has_metric METRIC_CALIBRATION p)
              && negb (bool_decide (cap_probability_mode c = PROB_MULTICLASS))) ValueError
    "probability metrics require multiclass probability capability" ;;
  raise_when (has_metric METRIC_REASONING p
              && negb (bool_decide (cap_reasoning_mode c = STRUCTURED))) ValueError
    "reasoning evaluation requires structured reasoning capability".

Definition validate_spec_body (s : AgentSpecBody) : result unit :=
  field_check (length_ok 1 64 (sp_agent_id s) && agent_id_pattern (sp_agent_id s)) "agent_id" ;;
  field_check (length_ok 1 32 (sp_agent_version s)) "agent_version" ;;
  field_check (length_ok 1 120 (sp_name s)) "name" ;;
  field_check (length_ok 1 2000 (sp_role s)) "role" ;;
  validate_policy (sp_participation s) ;;
  capabilities_cover_the_declared_metrics s.

Record AgentSpec := Spec { as_body : AgentSpecBody; as_content_hash : string }.

#[global] Instance AgentCapabilities_eq_dec : EqDecision AgentCapabilities.
Proof. solve_decision. Defined.
#[global] Instance AgentSpecBody_eq_dec : EqDecision AgentSpecBody.
Proof. solve_decision. Defined.
#[global] Instance AgentSpec_eq_dec : EqDecision AgentSpec.
Proof. solve_decision. Defined.

(** [_non_placeholder_hash] after [Field(pattern=HASH_PATTERN)] *)
Definition check_hash (value label : string) : result unit :=
  field_check (is_sha256_hex value) label ;;
  raise_when (value =? zero_digest)%string ValueError (label +:+ " may not be a placeholder digest").

Definition check_hash_opt (value : option string) (label : string) : result unit :=
  match value with None => Ok tt | Some v => check_hash v label end.

(** ** Signals *)

Inductive SignalSide := SIDE_UP | SIDE_DOWN.

#[global] Instance SignalSide_eq_dec : EqDecision SignalSide.
Proof. solve_decision. Defined.

Definition side_direction (s : SignalSide) : Direction :=
  match s with SIDE_UP => UP | SIDE_DOWN => DOWN end.

(** [SignalProbabilityVector.as_dict] *)
Definition as_dict (p : Probs) : gmap string float :=
  {[ "up" := p_up p; "neutral" := p_neutral p; "down" := p_down p ]}.

Definition unit_interval (x : float) : bool :=
  is_finite x && fleb f0 x && fleb x f1.

(** [schemas.Probabilities] *)
Definition validate_probabilities_model (p : Probs) : result Probs :=
  field_check (unit_interval (p_up p) && unit_interval (p_neutral p) && unit_interval (p_down p))
    "probabilities" ;;
  raise_when (fltb (lit 1 1000000)
                (fabs (fsub (fadd (fadd (p_up p) (p_neutral p)) (p_down p)) f1))) ValueError
    "probabilities must sum to one" ;;
  Ok p.

Definition validate_probability_vector (p : Probs) : result unit :=
  field_check (unit_interval (p_up p) && unit_interval (p_neutral p) && unit_interval (p_down p))
    "probabilities" ;;
  raise_when (negb (isclose rel_tol_default (lit 1 1000000)
                      (fadd (fadd (p_up p) (p_neutral p)) (p_down p)) f1)) ValueError
    "probabilities must sum to one".

(** [tg_zone] is the [tzinfo] of [as_of]. *)
Record SignalTarget := Target {
  tg_index_code : string;
  tg_horizon : Horizon;
  tg_base_trade_date : date;
  tg_target_date : date;
  tg_as_of : datetime;
  tg_zone : zoneinfo;
  tg_data_cutoff : datetime }.

Definition aware_datetime (d : datetime) : result unit :=
  raise_when (negb (is_aware d)) ValueError "timestamps must include a timezone".

Definition validate_target (t : SignalTarget) : result unit :=
  field_check (length_ok 1 32 (tg_index_code t)) "index_code" ;;
  aware_datetime (tg_as_of t) ;;
  aware_datetime (tg_data_cutoff t) ;;
  raise_when (dt_ltb (tg_as_of t) (tg_data_cutoff t)) ValueError
    "data_cutoff may not be after as_of" ;;
  raise_when (tg_target_date t <=? tg_base_trade_date t) ValueError
    "target_date must be after base_trade_date".

Record SignalInputBinding := InputBinding {
  ib_run_id : string;
  ib_run_input_hash : string;
  ib_agent_spec_hash : string;
  ib_forecast_input_hash : option string;
  ib_evidence_snapshot_hash : option string;
  ib_parent_signal_hashes : list string }.

Definition validate_input_binding (b : SignalInputBinding) : result unit :=
  field_check (length_ok 1 36 (ib_run_id b)) "run_id" ;;
  check_hash (ib_run_input_hash b) "input binding hash" ;;
  check_hash (ib_agent_spec_hash b) "input binding hash" ;;
  check_hash_opt (ib_forecast_input_hash b) "input binding hash" ;;
  check_hash_opt (ib_evidence_snapshot_hash b) "input binding hash" ;;
  raise_when (negb (bool_decide (NoDup (ib_parent_signal_hashes b)))) ValueError
    "parent_signal_hashes must be unique" ;;
  mapM_result (fun v => check_hash v "parent signal hash") (ib_parent_signal_hashes b) ;;
  Ok tt.

Record SignalCitation := SigCitation {
  ci_source_id : string;
  ci_source_url : string;
  ci_content_hash : string;
  ci_observed_at : datetime }.

Definition validate_citation (c : SignalCitation) : result unit :=
  field_check (length_ok 1 160 (ci_source_id c)) "source_id" ;;
  field_check (length_ok 1 2000 (ci_source_url c)) "source_url" ;;
  check_hash (ci_content_hash c) "citation content_hash" ;;
  aware_datetime (ci_observed_at c).

Record SignalProvenance := Provenance {
  pv_source_type : AgentSourceType;
  pv_producer : string;
  pv_adapter : string;
  pv_adapter_version : string;
  pv_model_name : option string;
  pv_model_version : option string;
  pv_prompt_version : option string;
  pv_prompt_hash : option string;
  pv_code_version : option string;
  pv_code_hash : option string;
  pv_artifact_hashes : list (string * string) }.

Definition opt_length_ok (hi : Z) (s : option string) : bool :=
  match s with None => true | Some v => py_len v <=? hi end.

Definition validate_provenance (p : SignalProvenance) : result unit :=
  field_check (length_ok 1 160 (pv_producer p) && length_ok 1 160 (pv_adapter p)
               && length_ok 1 64 (pv_adapter_version p)) "producer" ;;
  field_check (opt_length_ok 160 (pv_model_name p) && opt_length_ok 160 (pv_model_version p)
               && opt_length_ok 160 (pv_prompt_version p) && opt_length_ok 160 (pv_code_version p))
    "versions" ;;
  check_hash_opt (pv_prompt_hash p) "provenance hash" ;;
  check_hash_opt (pv_code_hash p) "provenance hash" ;;
  mapM_result (fun '(name, v) =>
    raise_when (negb (truthy (py_strip name))) ValueError "artifact hash names may not be blank" ;;
    check_hash v "artifact hash") (pv_artifact_hashes p) ;;
  Ok tt.

Definition schema_char (c : Ascii.ascii) : bool := id_head c || char_in "._/-" c.

Definition schema_version_suffix (l : list Ascii.ascii) : bool :=
  match l with
  | "/"%char :: "v"%char :: d :: ds => in_range 49 57 d && forallb is_digit ds
  | _ => false
  end.

(** The pattern [^[a-z0-9][a-z0-9._/-]*/v[1-9][0-9]*$]: some split of the text
    into a prefix of the first class and a version suffix. *)
Definition payload_schema_pattern (s : string) : bool :=
  let l := String.list_ascii_of_string s in
  existsb (fun i =>
    match take i l with
    | c :: rest => id_head c && forallb schema_char rest && schema_version_suffix (drop i l)
    | [] => false
    end) (seq 1 (length l)).

Record SignalEnvelopeBody := EnvelopeBody {
  sg_signal_id : string;
  sg_agent_id : string;
  sg_agent_version : string;
  sg_mode : string;
  sg_target : SignalTarget;
  sg_submitted_at : datetime;
  sg_accepted_at : datetime;
  sg_submission_deadline : datetime;
  sg_input_binding : SignalInputBinding;
  sg_participation : ParticipationPolicy;
  sg_provenance : SignalProvenance;
  sg_direction : option SignalSide;
  sg_probabilities : option Probs;
  sg_direction_confidence : option float;
  sg_rationale : option string;
  sg_counter_evidence : list string;
  sg_invalidation_conditions : list string;
  sg_citations : list SignalCitation;
  sg_blind_attestation : option bool;
  sg_payload_schema : string;
  sg_source_payload : jobject }.

Record SignalEnvelope := Envelope { se_body : SignalEnvelopeBody; se_content_hash : string }.

(** [reasoning_items_are_nonempty] *)
Definition reasoning_items (values : list string) : result (list string) :=
  let stripped := map py_strip values in
  raise_when (existsb (fun item => negb (truthy item)) stripped) ValueError
    "reasoning items may not be blank" ;;
  Ok stripped.

Definition reserved_collision (payload : jobject) : bool :=
  existsb (fun k => match payload !! k with Some _ => true | None => false end)
    RESERVED_SOURCE_PAYLOAD_FIELDS.

(** The text fields as the validators leave them. *)
Definition with_text (b : SignalEnvelopeBody) (rationale : option string)
    (counter invalidation : list string) : SignalEnvelopeBody :=
  EnvelopeBody (sg_signal_id b) (sg_agent_id b) (sg_agent_version b) (sg_mode b) (sg_target b)
    (sg_submitted_at b) (sg_accepted_at b) (sg_submission_deadline b) (sg_input_binding b)
    (sg_participation b) (sg_provenance b) (sg_direction b) (sg_probabilities b)
    (sg_direction_confidence b) rationale counter invalidation (sg_citations b)
    (sg_blind_attestation b) (sg_payload_schema b) (sg_source_payload b).

Section WithRuntime.
Context `{PyRuntime}.

(** The declared confidence against the one the probabilities imply. *)
Definition confidence_conflicts (p : Probs) (confidence : float) : bool :=
  let derived := fdiv (fmax (p_up p) (p_down p)) (fadd (p_up p) (p_down p)) in
  negb (isclose rel_tol_default (lit 1 1000000000) confidence derived).

(** [common_signal_semantics_are_consistent] *)
Definition common_signal_semantics (b : SignalEnvelopeBody) : result unit :=
  let target := sg_target b in
  raise_when (dt_ltb (sg_accepted_at b) (sg_submitted_at b)) ValueError
    "accepted_at may not be before submitted_at" ;;
  raise_when (dt_ltb (sg_submitted_at b) (tg_data_cutoff target)) ValueError
    "submitted_at may not predate the frozen data_cutoff" ;;
  raise_when (dt_ltb (sg_submitted_at b) (tg_as_of target)) ValueError
    "submitted_at may not predate the forecast as_of" ;;
  raise_when (dt_leb (sg_submission_deadline b) (sg_accepted_at b)) ValueError
    "signals must be accepted before the deadline" ;;
  raise_when (tg_target_date target
              <=? date_of (astimezone (tg_zone target) (sg_submission_deadline b))) ValueError
    "submission_deadline must precede the target date" ;;
  raise_when (existsb (fun c => dt_ltb (tg_data_cutoff target) (ci_observed_at c)) (sg_citations b))
    ValueError "citations may not be observed after data_cutoff" ;;
  match sg_direction b, sg_probabilities b with
  | None, p =>
      raise_when (match p, sg_direction_confidence b with None, None => false | _, _ => true end)
        ValueError "probability or confidence requires a direction"
  | Some _, None => Ok tt
  | Some side, Some p =>
      expected ← predicted_direction (as_dict p);
      raise_when (negb (bool_decide (side_direction side = expected))) ValueError
        "direction must match the stronger up/down probability" ;;
      match sg_direction_confidence b with
      | None => Ok tt
      | Some c => raise_when (confidence_conflicts p c) ValueError
          "direction_confidence conflicts with probabilities"
      end
  end.

(** [SignalEnvelopeBody.model_validate] *)
Definition validate_envelope_body (b : SignalEnvelopeBody) : result SignalEnvelopeBody :=
  field_check (length_ok 1 64 (sg_signal_id b)) "signal_id" ;;
  field_check (length_ok 1 64 (sg_agent_id b)) "agent_id" ;;
  field_check (length_ok 1 32 (sg_agent_version b)) "agent_version" ;;
  field_check ((sg_mode b =? "demo")%string || (sg_mode b =? "live")%string) "mode" ;;
  validate_target (sg_target b) ;;
  aware_datetime (sg_submitted_at b) ;;
  aware_datetime (sg_accepted_at b) ;;
  aware_datetime (sg_submission_deadline b) ;;
  validate_input_binding (sg_input_binding b) ;;
  validate_policy (sg_participation b) ;;
  validate_provenance (sg_provenance b) ;;
  match sg_probabilities b with None => Ok tt | Some p => validate_probability_vector p end ;;
  field_check (match sg_direction_confidence b with
               | None => true
               | Some c => is_finite c && fleb (lit 1 2) c && fleb c f1
               end) "direction_confidence" ;;
  let rationale := py_strip <$> sg_rationale b in
  field_check (opt_length_ok 8000 rationale) "rationale" ;;
  counter ← reasoning_items (sg_counter_evidence b);
  invalidation ← reasoning_items (sg_invalidation_conditions b);
  mapM_result validate_citation (sg_citations b) ;;
  field_check (length_ok 4 160 (sg_payload_schema b) && payload_schema_pattern (sg_payload_schema b))
    "payload_schema" ;;
  raise_when (reserved_collision (sg_source_payload b)) ValueError
    "source_payload may not redefine shared fields" ;;
  let body := with_text b rationale counter invalidation in
  common_signal_semantics body ;;
  Ok body.

(** ** Seals.  [model_dump(mode="json")] is Pydantic's. *)
Context `{CanonicalHash} (dump_spec : AgentSpecBody -> json) (dump_signal : SignalEnvelopeBody -> json).

Definition spec_hash (s : AgentSpecBody) : string := canonical_hash (dump_spec s).
Definition signal_hash (b : SignalEnvelopeBody) : string := canonical_hash (dump_signal b).

Definition verify_agent_spec_hash (spec : AgentSpec) : result unit :=
  raise_when (negb (as_content_hash spec =? spec_hash (as_body spec))%string) ValueError
    "AgentSpec content_hash does not match canonical content".

Definition verify_signal_envelope_hash (signal : SignalEnvelope) : result unit :=
  raise_when (negb (se_content_hash signal =? signal_hash (se_body signal))%string) ValueError
    "SignalEnvelope content_hash does not match canonical content".

(** [AgentSpec.model_validate] and [SignalEnvelope.model_validate] *)
Definition validate_agent_spec (spec : AgentSpec) : result AgentSpec :=
  validate_spec_body (as_body spec) ;;
  check_hash (as_content_hash spec) "AgentSpec content_hash" ;;
  verify_agent_spec_hash spec ;;
  Ok spec.

Definition validate_signal_envelope (signal : SignalEnvelope) : result SignalEnvelope :=
  body ← validate_envelope_body (se_body signal);
  check_hash (se_content_hash signal) "SignalEnvelope content_hash" ;;
  verify_signal_envelope_hash (Envelope body (se_content_hash signal)) ;;
  Ok (Envelope body (se_content_hash signal)).

Definition seal_agent_spec (body : AgentSpecBody) : result AgentSpec :=
  validate_spec_body body ;;
  validate_agent_spec (Spec body (spec_hash body)).

Definition seal_signal_envelope (b : SignalEnvelopeBody) : result SignalEnvelope :=
  body ← validate_envelope_body b;
  validate_signal_envelope (Envelope body (signal_hash body)).

(** ** An envelope against its Agent's declaration *)

Definition some {A} (o : option A) : bool := match o with Some _ => true | None => false end.

Definition has_structured_reasoning (b : SignalEnvelopeBody) : bool :=
  truthy_opt (sg_rationale b) && negb (empty (sg_counter_evidence b))
  && negb (empty (sg_invalidation_conditions b)).

Definition has_any_reasoning (b : SignalEnvelopeBody) : bool :=
  truthy_opt (sg_rationale b) || negb (empty (sg_counter_evidence b))
  || negb (empty (sg_invalidation_conditions b)).

Definition check_identity (b : SignalEnvelopeBody) (spec : AgentSpec) : result unit :=
  let s := as_body spec in
  raise_when (negb (sg_agent_id b =? sp_agent_id s)%string
              || negb (sg_agent_version b =? sp_agent_version s)%string) ValueError
    "signal Agent identity does not match AgentSpec" ;;
  raise_when (negb (ib_agent_spec_hash (sg_input_binding b) =? as_content_hash spec)%string)
    ValueError "signal is not bound to this AgentSpec hash" ;;
  raise_when (negb (bool_decide (pv_source_type (sg_provenance b) = sp_source_type s))) ValueError
    "per-signal provenance source_type does not match AgentSpec" ;;
  raise_when (negb (bool_decide (sg_participation b = sp_participation s))) ValueError
    "signal participation policy does not match AgentSpec" ;;
  raise_when (bool_decide (pp_mode (sp_participation s) = PART_DISABLED)) ValueError
    "disabled Agent may not submit a signal".

Definition check_probability_fields (b : SignalEnvelopeBody) (mode : ProbabilityMode) : result unit :=
  match mode with
  | PROB_NONE =>
      raise_when (some (sg_probabilities b) || some (sg_direction_confidence b)) ValueError
        "AgentSpec does not permit probability fields"
  | PROB_CONFIDENCE =>
      raise_when (some (sg_probabilities b)) ValueError
        "confidence-only Agent may not submit multiclass probabilities" ;;
      raise_when (negb (some (sg_direction_confidence b))) ValueError
        "confidence-only Agent must submit direction_confidence"
  | PROB_MULTICLASS =>
      raise_when (negb (some (sg_probabilities b))) ValueError
        "multiclass Agent must submit complete probabilities"
  end.

Definition check_provenance (p : SignalProvenance) (source : AgentSourceType) : result unit :=
  raise_when (bool_decide (source = AI)
              && negb (truthy_opt (pv_model_name p) && truthy_opt (pv_model_version p)
                       && truthy_opt (pv_prompt_version p))) ValueError
    "AI provenance requires model and prompt versions" ;;
  raise_when (bool_decide (source = QUANT)
              && negb (truthy_opt (pv_code_version p) && truthy_opt (pv_code_hash p)
                       && negb (empty (pv_artifact_hashes p)))) ValueError
    "Quant provenance requires code and model artifact hashes" ;;
  raise_when (bool_decide (source = DETERMINISTIC)
              && negb (truthy_opt (pv_code_version p) && truthy_opt (pv_code_hash p))) ValueError
    "deterministic provenance requires code version and hash".

Definition validate_signal_against_spec (signal : SignalEnvelope) (spec : AgentSpec) : result unit :=
  verify_agent_spec_hash spec ;;
  verify_signal_envelope_hash signal ;;
  let b := se_body signal in
  let c := sp_capabilities (as_body spec) in
  check_identity b spec ;;
  raise_when (cap_direction c && negb (some (sg_direction b))) ValueError
    "AgentSpec requires a direction" ;;
  raise_when (negb (cap_direction c) && some (sg_direction b)) ValueError
    "AgentSpec does not permit a direction" ;;
  check_probability_fields b (cap_probability_mode c) ;;
  let structured := bool_decide (cap_reasoning_mode c = STRUCTURED) in
  raise_when (structured && negb (has_structured_reasoning b)) ValueError
    "structured reasoning requires rationale, counter evidence and invalidation conditions" ;;
  raise_when (negb structured && has_any_reasoning b) ValueError
    "AgentSpec does not permit structured reasoning fields" ;;
  raise_when (bool_decide (cap_evidence_mode c = EVIDENCE_NONE) && negb (empty (sg_citations b)))
    ValueError "AgentSpec does not permit evidence citations" ;;
  raise_when (bool_decide (cap_evidence_mode c = FROZEN_CITATIONS) && empty (sg_citations b))
    ValueError "AgentSpec requires frozen evidence citations" ;;
  raise_when (bool_decide (sg_blind_attestation b = Some true) && negb (cap_supports_blind_submission c))
    ValueError "AgentSpec does not support blind submission attestation" ;;
  raise_when (negb (cap_supports_input_binding c)) ValueError
    "AgentSpec cannot produce a run-bound SignalEnvelope" ;;
  check_provenance (sg_provenance b) (sp_source_type (as_body spec)).

(** ** The built-in registry *)

Definition build_spec (d : AgentDefinition) (c : AgentCapabilities) (p : ParticipationPolicy)
    : AgentSpecBody :=
  SpecBody (ag_id d) (ag_version d) (ag_name d) (ag_role d) (ag_workflow_role d)
    (ag_source_type d) c p.

Definition predictive_capabilities (mode : ProbabilityMode) (evidence : EvidenceMode)
    (blind : bool) : AgentCapabilities :=
  Capabilities true mode STRUCTURED evidence blind true.

Definition formal_policy (policy_id : string) (influence : InfluenceMode) (reasoning : bool)
    : ParticipationPolicy :=
  Policy policy_id "1.0.0" PART_FORMAL influence
    ([METRIC_DIRECTION; METRIC_MULTICLASS_BRIER; METRIC_CALIBRATION]
     ++ if reasoning then [METRIC_REASONING] else []).

Definition committee_members : list string :=
  ["macro_policy_agent"; "market_news_agent"; "ai_storage_industry_agent"; "strategy_agent"].

(** The declaration of one roster entry, before sealing. *)
Definition registry_body (d : AgentDefinition) : result AgentSpecBody :=
  let multiclass := predictive_capabilities PROB_MULTICLASS FROZEN_CITATIONS false in
  if bool_decide (ag_id d ∈ committee_members) then
    Ok (build_spec d multiclass (formal_policy "committee-static" INFL_INPUT true))
  else if (ag_id d =? "cio_agent")%string then
    Ok (build_spec d multiclass (formal_policy "committee-static" INFL_DECISION true))
  else if (ag_id d =? "risk_critic_agent")%string then
    Ok (build_spec d (Capabilities false PROB_NONE STRUCTURED FROZEN_CITATIONS false true)
          (Policy "committee-static" "1.0.0" PART_FORMAL INFL_ADVISORY []))
  else if (ag_id d =? "quant_agent")%string then
    Ok (SpecBody (ag_id d) "0.3.0" "量化研究员"
          "从已冻结的只读特征、参数、模型和输入快照产生可复验信号；不得访问交易、账户或上游写入路径。"
          (ag_workflow_role d) (ag_source_type d)
          (predictive_capabilities PROB_MULTICLASS EVIDENCE_NONE false)
          (Policy "quant-readonly-shadow" "1.0.0" PART_SHADOW INFL_NONE
             [METRIC_DIRECTION; METRIC_MULTICLASS_BRIER; METRIC_CALIBRATION; METRIC_REASONING]))
  else if (ag_id d =? "user_judgment_agent")%string then
    Ok (build_spec d (predictive_capabilities PROB_CONFIDENCE EVIDENCE_NONE true)
          (Policy "manual-shadow" "1.0.0" PART_SHADOW INFL_NONE [METRIC_DIRECTION; METRIC_REASONING]))
  else raise RuntimeError ("missing AgentSpec mapping for " +:+ ag_id d).

Definition registry : result (list AgentSpec) :=
  mapM_result (fun d => body ← registry_body d; seal_agent_spec body) DISPLAY_AGENTS.

(** [AGENT_SPEC_BY_ID[agent_id]] *)
Definition agent_spec (specs : list AgentSpec) (agent_id : string) : result AgentSpec :=
  match find (fun s => (sp_agent_id (as_body s) =? agent_id)%string) specs with
  | Some s => Ok s
  | None => raise KeyError ("unknown Agent: " +:+ agent_id)
  end.

End WithRuntime.

End Contracts.
