(* ===== verification/Execution.v ===== *)
(** * Executing a frozen run ([backend/app/workflow.py], [task_queue.run_once])

    [execute_prepared] runs a committee graph between two fenced database
    transactions: the start transaction checks the seals and marks the run
    running, the finish transaction completes the task and publishes the result
    at once.  [run_once] is one turn of a worker around it. *)
From S2P Require Import Prelude PyStr PyTime Float64 Domain Json Contracts Models TaskQueue.
Import PyStr PyTime Float64 Domain Json Models TaskQueue.
Open Scope string_scope.
Open Scope Z_scope.

Module Execution.

(** The committee graph (LangGraph and the model providers) and the Pydantic
    parsers are not part of the repository: they are arguments. *)
Record WorkflowRuntime := mkRuntime {
  wr_legacy_dual_horizon : bool;
  wr_forecast_horizons : list Horizon;
  wr_uses_configurable_universe : bool;
  wr_universe : json;
  wr_universe_hash : string;
  wr_execution_manifest : jobject;
  wr_parse_universe : json -> result json;
  wr_parse_believability : jobject -> result jobject;
  wr_graph_invoke : jobject -> string -> result CommitteeResult }.

Section WithRuntime.
Context `{PyRuntime} `{CanonicalHash}.
(** SHA-256 of a text. *)
Context (sha256 : string -> string).

(** ** Seals *)

Definition validate_market_universe_state (rt : WorkflowRuntime) (state : jobject) : result unit :=
  match state !! "market_universe" with
  | None | Some JNull =>
      raise_when (wr_uses_configurable_universe rt) RuntimeError
        "prepared run is missing its market universe seal"
  | Some raw =>
      frozen ← wr_parse_universe rt raw;
      raise_when (negb (bool_decide (frozen = wr_universe rt))) RuntimeError
        "prepared run market universe no longer matches the runtime configuration"
  end.

Definition json_horizon (j : json) : result Horizon :=
  match j with
  | JStr s => Horizon_of s
  | _ => raise ValueError "not a valid Horizon"
  end.

Definition validate_forecast_horizons_state (rt : WorkflowRuntime) (state : jobject) : result unit :=
  match state !! "forecast_horizons" with
  | None | Some JNull =>
      raise_when (negb (wr_legacy_dual_horizon rt)) RuntimeError
        "prepared run is missing its forecast horizon seal"
  | Some (JArr raw) =>
      match mapM_result json_horizon raw with
      | Err _ => raise RuntimeError "prepared run forecast horizon seal is invalid"
      | Ok frozen =>
          raise_when (negb (bool_decide (frozen = wr_forecast_horizons rt))) RuntimeError
            "prepared run forecast horizons no longer match the runtime contract"
      end
  | Some _ => raise RuntimeError "prepared run forecast horizon seal is invalid"
  end.

(** [services/believability.py] *)
Definition believability_run_binding_hash (run_id snapshot_hash : string) : string :=
  sha256 ("vericouncil.believability-run-binding/v1:" +:+ run_id +:+ ":" +:+ snapshot_hash).

Definition validate_believability_snapshot (rt : WorkflowRuntime) (value : jobject)
    : result jobject :=
  snapshot ← wr_parse_believability rt value;
  let computed := canonical_hash (JObj (delete "content_hash" snapshot)) in
  raise_when (negb (get_is snapshot "content_hash" computed)) ValueError
    "believability snapshot content hash is invalid" ;;
  Ok snapshot.

Definition same_text (a b : option json) : bool := bool_decide (a = b).

Definition validate_believability_seal (rt : WorkflowRuntime) (row : WorkflowRun)
    (initial : jobject) : result unit :=
  match get_obj (r_data_quality row) "believability_snapshot" with
  | None => raise RuntimeError "prepared run is missing its believability snapshot"
  | Some payload =>
      match validate_believability_snapshot rt payload with
      | Err e =>
          if bool_decide (exn_cls e = ValueError) then raise RuntimeError (exn_msg e) else Err e
      | Ok snapshot =>
          let content_hash := default "" (get_str snapshot "content_hash") in
          raise_when (negb (get_is initial "believability_snapshot_hash" content_hash)) RuntimeError
            "prepared run believability snapshot no longer matches the frozen state" ;;
          raise_when (negb (same_text (snapshot !! "policy_version")
                              (initial !! "believability_policy_version"))) RuntimeError
            "prepared run believability policy no longer matches the frozen state" ;;
          raise_when (negb (get_is initial "believability_snapshot_binding_hash"
                              (believability_run_binding_hash (r_id row) content_hash)))
            RuntimeError "prepared run believability snapshot is bound to another run" ;;
          raise_when (negb (get_is snapshot "mode" (r_mode row))
                      || get_true snapshot "applied_to_decision") RuntimeError
            "prepared run believability boundary is invalid"
      end
  end.

Definition input_hash_matches (row : WorkflowRun) (p : PreparedRun) : bool :=
  get_is (pr_initial p) "input_hash" (r_input_hash row)
  && (r_input_hash row =? r_input_hash (pr_row p))%string.

Definition expected_runtime (initial : jobject) : json :=
  JObj (list_to_map
    [("policy_version", default JNull (initial !! "believability_policy_version"));
     ("snapshot_hash", default JNull (initial !! "believability_snapshot_hash"));
     ("run_binding_hash", default JNull (initial !! "believability_snapshot_binding_hash"));
     ("mode", JStr "shadow_only"); ("applied_to_decision", JBool false)]).

Definition validate_result_believability_boundary (row : WorkflowRun) (result : CommitteeResult)
    (initial : jobject) : Prelude.result unit :=
  raise_when (isSome (r_data_quality row !! "believability")) RuntimeError
    "prepared run believability runtime seal was written before completion" ;;
  raise_when (isSome (cr_data_quality result !! "believability_snapshot")) RuntimeError
    "workflow result may not replace the database believability snapshot" ;;
  raise_when (negb (bool_decide
      (cr_data_quality result !! "believability" = Some (expected_runtime initial)))) RuntimeError
    "workflow result believability runtime seal does not match the frozen state".

(** ** Persisting the result *)

Definition check_dates (d : DraftSignal) : result unit :=
  raise_when (existsb (fun s => negb (isSome (fromisoformat s))) (ds_dates d ++ ds_instants d))
    ValueError "Invalid isoformat string".

(** [Probabilities.model_validate] of a dict: the three fields and no other. *)
Definition model_probabilities (d : gmap string float) : result Probs :=
  match d !! "up", d !! "neutral", d !! "down" with
  | Some up, Some neutral, Some down =>
      raise_when (negb (size d =? 3)%nat) ValueError "Extra inputs are not permitted" ;;
      Contracts.validate_probabilities_model (mkProbs up neutral down)
  | _, _, _ => raise ValueError "Field required"
  end.

Definition persist_opinion (d : DraftSignal) : result unit :=
  probabilities ← model_probabilities (ds_probabilities d);
  expected ← predicted_direction (Contracts.as_dict probabilities);
  raise_when (negb (ds_direction d =? direction_value expected)%string) ValueError
    ("new opinion direction must match the stronger up/down probability: " +:+ ds_agent_id d) ;;
  check_dates d.

Definition persist_forecast (d : DraftSignal) : result unit :=
  probabilities ← model_probabilities (ds_probabilities d);
  expected ← predicted_direction (Contracts.as_dict probabilities);
  raise_when (negb (ds_direction d =? direction_value expected)%string) ValueError
    "new forecast direction must match the stronger up/down probability" ;;
  expected_confidence ← directional_confidence (Contracts.as_dict probabilities);
  raise_when (fltb (lit 1 1000000000) (fabs (fsub (ds_confidence d) expected_confidence)))
    ValueError "new forecast confidence must use the directional definition" ;;
  raise_when (ds_abstain d) ValueError "new forecast must not abstain" ;;
  check_dates d.

(** [_persist_result]: every draft is checked before any row is added. *)
Definition persist_result (state : CommitteeResult) : result unit :=
  mapM_result persist_opinion (cr_opinions state) ;;
  mapM_result persist_forecast (cr_forecasts state) ;;
  Ok tt.

(** ** The transactions of [execute_prepared] *)

Definition duration (started completed : clock_time) : float :=
  fmax f0 (lit (completed - started) 1000000).

Definition failure_values (error : exn) (started_at completed_at : clock_time)
    (retryable : bool) (r : WorkflowRun) : WorkflowRun :=
  Run (r_id r) (r_as_of r) (r_data_cutoff r)
    (if retryable then RUN_QUEUED else RUN_FAILED) (r_mode r) started_at
    (if retryable then None else Some completed_at)
    (if retryable then None else Some (duration started_at completed_at))
    (Some (exn_msg error)) (r_data_quality r) (r_workflow_steps r) (r_input_hash r)
    (r_market_universe_hash r).

Definition running_values (started_at : clock_time) (r : WorkflowRun) : WorkflowRun :=
  Run (r_id r) (r_as_of r) (r_data_cutoff r) RUN_RUNNING (r_mode r) started_at
    (r_completed_at r) (r_duration_seconds r) (r_error r) (r_data_quality r)
    (r_workflow_steps r) (r_input_hash r) (r_market_universe_hash r).

(** [{**a, **b}] *)
Definition merge_dicts (a b : jobject) : jobject := b ∪ a.

Definition completed_values (started_at completed_at : clock_time) (result : CommitteeResult)
    (r : WorkflowRun) : WorkflowRun :=
  Run (r_id r) (r_as_of r) (r_data_cutoff r) RUN_COMPLETED (r_mode r) (r_started_at r)
    (Some completed_at) (Some (duration started_at completed_at)) None
    (merge_dicts (r_data_quality r) (cr_data_quality result)) (cr_workflow_steps result)
    (r_input_hash r) (r_market_universe_hash r).

Definition set_run (db : DB) (run_id : string) (r : WorkflowRun) : DB :=
  with_runs db (<[run_id := r]> (db_runs db)).

(** A fence is only taken when the run is executed for a task. *)
Definition fence_task_execution (db : DB) (fence : option ExecutionFence)
    (run_id stage : string) (now : clock_time) : result DB :=
  match fence with
  | None => Ok db
  | Some f => '(_, db') ← fence_execution db f run_id stage now; Ok db'
  end.

Definition finalize_task_execution (db : DB) (fence : option ExecutionFence)
    (run_id : string) (now now' : clock_time) : result DB :=
  match fence with
  | None => Ok db
  | Some f => '(_, db') ← finalize_execution_fence db f run_id now now'; Ok db'
  end.

Definition check_seals (rt : WorkflowRuntime) (row : WorkflowRun) (p : PreparedRun) : result unit :=
  validate_forecast_horizons_state rt (pr_initial p) ;;
  validate_market_universe_state rt (pr_initial p) ;;
  raise_when (negb (r_market_universe_hash row =? wr_universe_hash rt)%string) RuntimeError
    "prepared run market universe hash no longer matches the database seal" ;;
  validate_believability_seal rt row (pr_initial p) ;;
  raise_when (negb (input_hash_matches row p)) RuntimeError
    "prepared run input hash no longer matches the database seal".

Definition already_claimed (run_id : string) : string :=
  "run " +:+ run_id +:+ " was already claimed or finalized".

(** The first transaction.  A broken seal is recorded on the run row before the
    exception leaves; every other exception rolls back. *)
Definition exec_start (rt : WorkflowRuntime) (db : DB) (p : PreparedRun)
    (fence : option ExecutionFence) (recovering retryable : bool)
    (started_at now failed_at : clock_time) : result unit * DB :=
  let run_id := r_id (pr_row p) in
  match db_runs db !! run_id with
  | None => (raise RuntimeError ("prepared run disappeared: " +:+ run_id), db)
  | Some row =>
      match fence_task_execution db fence run_id "executing" now with
      | Err e => (Err e, db)
      | Ok db1 =>
          if negb (bool_decide (r_status row = r_status (pr_row p)))
          then (raise RuntimeError (already_claimed run_id), db)
          else
            match check_seals rt row p with
            | Err e => (Err e, set_run db1 run_id (failure_values e started_at failed_at retryable row))
            | Ok _ =>
                if recovering then (Ok tt, db1)
                else (Ok tt, set_run db1 run_id (running_values started_at row))
            end
      end
  end.

(** The publishing transaction. *)
Definition exec_finish (rt : WorkflowRuntime) (db : DB) (p : PreparedRun)
    (fence : option ExecutionFence) (result : CommitteeResult)
    (started_at completed_at now now' : clock_time) : Prelude.result DB :=
  let run_id := r_id (pr_row p) in
  match db_runs db !! run_id with
  | None => raise AssertionError ""
  | Some row =>
      db1 ← finalize_task_execution db fence run_id now now';
      raise_when (negb (bool_decide (r_status row = RUN_RUNNING))) RuntimeError
        ("run " +:+ run_id +:+ " changed status during workflow execution") ;;
      validate_believability_seal rt row (pr_initial p) ;;
      raise_when (negb (input_hash_matches row p)) RuntimeError
        "prepared run input hash changed during workflow execution" ;;
      validate_result_believability_boundary row result (pr_initial p) ;;
      persist_result result ;;
      let runs := <[run_id := completed_values started_at completed_at result row]> (db_runs db1) in
      Ok (mkDB (db_tasks db1) runs (db_activation db1)
            (<[run_id := (default [] (db_results db1 !! run_id) ++ [result])%list]> (db_results db1)))
  end.

(** The transaction that records a failed attempt and re-raises. *)
Definition exec_fail (db : DB) (p : PreparedRun) (fence : option ExecutionFence)
    (error : exn) (retryable : bool) (started_at completed_at now : clock_time)
    : result unit * DB :=
  let run_id := r_id (pr_row p) in
  match db_runs db !! run_id with
  | None => (raise AssertionError "", db)
  | Some row =>
      match fence_task_execution db fence run_id "failed_attempt" now with
      | Err e => (Err e, db)
      | Ok db1 =>
          if bool_decide (r_status row = RUN_RUNNING)
          then (Err error,
                set_run db1 run_id (failure_values error started_at completed_at retryable row))
          else (raise StaleRunExecutionError
                  ("run " +:+ run_id +:+ " execution fence is stale"), db)
      end
  end.

Definition is_stale (e : exn) : bool :=
  bool_decide (exn_cls e = StaleRunExecutionError \/ exn_cls e = StaleTaskLeaseError).

(** [execute_prepared] for the worker ([raise_errors=True], no run fence).
    [clock i] is the [i]-th reading of the clock and [env i] what the other
    processes do to the database before the [i]-th transaction. *)
Definition execute_prepared (rt : WorkflowRuntime) (clock : nat -> clock_time)
    (env : nat -> DB -> DB) (db : DB) (p : PreparedRun) (fence : option ExecutionFence)
    (allow_recovery retryable_failure : bool) (checkpoint_thread_id : option string)
    : result unit * DB :=
  let run_id := r_id (pr_row p) in
  let expected_status := r_status (pr_row p) in
  let recovering := allow_recovery && bool_decide (expected_status = RUN_RUNNING) in
  if negb (bool_decide (expected_status = RUN_QUEUED \/ expected_status = RUN_AWAITING_DRAFT))
     && negb recovering
  then (raise RuntimeError ("run " +:+ run_id +:+ " cannot execute from status "
                            +:+ run_status_value expected_status), db)
  else
    let started_at := clock 0%nat in
    match exec_start rt (env 0%nat db) p fence recovering retryable_failure started_at
            (clock 1%nat) (clock 2%nat) with
    | (Err e, db1) => (Err e, db1)
    | (Ok _, db1) =>
        let db2 := env 1%nat db1 in
        let attempt :=
          result ← wr_graph_invoke rt (pr_initial p) (default run_id checkpoint_thread_id);
          exec_finish rt db2 p fence result started_at (clock 3%nat) (clock 4%nat) (clock 5%nat) in
        match attempt with
        | Ok db3 => (Ok tt, db3)
        | Err e =>
            if is_stale e then (Err e, db2)
            else exec_fail (env 2%nat db2) p fence e retryable_failure started_at
                   (clock 6%nat) (clock 7%nat)
        end
    end.

(** ** One turn of a worker *)

Definition validate_payload_for_run (zone : zoneinfo) (payload : json) (run : WorkflowRun)
    : result jobject :=
  let mismatch := "task payload no longer matches run " +:+ r_id run in
  let initial_mismatch := "task initial state no longer matches run " +:+ r_id run in
  let dates := "task dates no longer match run " +:+ r_id run in
  match payload with
  | JObj payload =>
      raise_when (negb (get_is payload "schema" TASK_PAYLOAD_SCHEMA)
                  || negb (get_is payload "run_id" (r_id run))
                  || negb (get_is payload "input_hash" (r_input_hash run)))
        TaskPayloadIntegrityError mismatch ;;
      match get_obj payload "initial" with
      | None => raise TaskPayloadIntegrityError initial_mismatch
      | Some initial =>
          raise_when (negb (get_is initial "run_id" (r_id run))
                      || negb (get_is initial "input_hash" (r_input_hash run)))
            TaskPayloadIntegrityError initial_mismatch ;;
          match get_str initial "as_of" ≫= fromisoformat,
                get_str initial "data_cutoff" ≫= fromisoformat with
          | Some as_of, Some cutoff =>
              raise_when (negb (dt_eqb (aware zone as_of) (aware zone (r_as_of run)))
                          || negb (dt_eqb (aware zone cutoff) (aware zone (r_data_cutoff run))))
                TaskPayloadIntegrityError dates ;;
              Ok initial
          | _, _ => raise TaskPayloadIntegrityError dates
          end
      end
  | _ => raise TaskPayloadIntegrityError mismatch
  end.

Record TaskExecutionResult := ExecResult {
  er_task_id : string;
  er_run_id : string;
  er_status : TaskStatus;
  er_attempt_count : Z;
  er_error : option string }.

Definition current_task_outcome (db : DB) (task_id : string) (fallback : TaskStatus)
    : TaskStatus * option string :=
  match db_tasks db !! task_id with
  | None => (fallback, None)
  | Some row => (t_status row, t_last_error row)
  end.

(** The checks before execution: [None] when the run is already completed. *)
Definition preflight (zone : zoneinfo) (rt : WorkflowRuntime) (db : DB) (lease : TaskLease)
    : result (option PreparedRun) :=
  match db_runs db !! l_run_id lease with
  | None => raise TaskPayloadIntegrityError ("prepared run disappeared: " +:+ l_run_id lease)
  | Some run =>
      if bool_decide (r_status run = RUN_COMPLETED) then Ok None
      else
        initial ← validate_payload_for_run zone (l_payload lease) run;
        manifest ← validated_execution_manifest
          (match l_payload lease with JObj m => m !! "execution_manifest" | _ => None end);
        raise_when (negb (bool_decide (manifest = wr_execution_manifest rt)))
          TaskPayloadIntegrityError
          "worker execution settings do not match the prepared task manifest" ;;
        Ok (Some (Prepared run initial (JObj manifest)))
  end.

Definition lease_fence (lease : TaskLease) : ExecutionFence :=
  Fence (l_task_id lease) (l_lease_token lease).

Definition exec_result (lease : TaskLease) (s : TaskStatus) (e : option string)
    : TaskExecutionResult :=
  ExecResult (l_task_id lease) (l_run_id lease) s (l_attempt_count lease) e.

Definition truthy_or (a : option string) (b : string) : option string :=
  if truthy_opt a then a else Some b.

(** The error path shared by the handlers: recover, then report the row. *)
Definition recover_and_report (cfg : Config) (db : DB) (lease : TaskLease)
    (fallback : TaskStatus) (now : clock_time) : TaskStatus * option string * DB :=
  let '(_, db') := recover_expired cfg db now in
  (current_task_outcome db' (l_task_id lease) fallback, db').

(** What follows a successful claim. *)
Definition run_lease (cfg : Config) (zone : zoneinfo) (rt : WorkflowRuntime)
    (clock : nat -> clock_time) (env : nat -> DB -> DB) (db : DB) (lease : TaskLease)
    : result TaskExecutionResult * DB :=
  match preflight zone rt (env 0%nat db) lease with
  | Err exc =>
      let db := env 0%nat db in
      if negb (bool_decide (exn_cls exc = TaskPayloadIntegrityError)) then (Err exc, db)
      else
        match fail_terminal (env 5%nat db) lease (exn_msg exc) (clock 0%nat) with
        | (true, db') => (Ok (exec_result lease FAILED (Some (safe_error (exn_msg exc)))), db')
        | (false, db') =>
            let '(status, error, db'') :=
              recover_and_report cfg (env 6%nat db') lease FAILED (clock 1%nat) in
            (Ok (exec_result lease status error), db'')
        end
  | Ok None =>
      let db := env 5%nat (env 0%nat db) in
      match complete db lease (clock 0%nat) with
      | Ok (_, db') => (Ok (exec_result lease COMPLETED None), db')
      | Err e => (Err e, db)
      end
  | Ok (Some prepared) =>
      let '(outcome, db1) :=
        execute_prepared rt (fun i => clock (2 + i)%nat) (fun i => env (1 + i)%nat)
          (env 0%nat db) prepared (Some (lease_fence lease))
          (bool_decide (r_status (pr_row prepared) = RUN_RUNNING)) (retryable lease)
          (Some (l_run_id lease +:+ ":task:" +:+ l_task_id lease +:+ ":attempt:"
                 +:+ py_str_Z (l_attempt_count lease))) in
      let db1 := env 4%nat db1 in
      let '(completed, db2) :=
        match outcome with
        | Err e => (Err e, db1)
        | Ok _ =>
            match complete db1 lease (clock 10%nat) with
            | Err e => (Err e, db1)
            | Ok (true, db2) => (Ok tt, db2)
            | Ok (false, db2) =>
                (raise StaleTaskLeaseError
                   ("task " +:+ l_task_id lease +:+ " lost its lease before completion"), db2)
            end
        end in
      match completed with
      | Ok _ => (Ok (exec_result lease COMPLETED None), db2)
      | Err exc =>
          if bool_decide (exn_cls exc = StaleTaskLeaseError) then
            let '(status, error, db3) :=
              recover_and_report cfg (env 6%nat db2) lease RETRY_WAIT (clock 11%nat) in
            (Ok (exec_result lease status (truthy_or error (exn_msg exc))), db3)
          else
            match fail cfg (env 5%nat db2) lease (exn_msg exc) (clock 12%nat) with
            | (Some next_status, db3) =>
                (Ok (exec_result lease next_status (Some (safe_error (exn_msg exc)))), db3)
            | (None, db3) =>
                let '(status, error, db4) :=
                  recover_and_report cfg (env 6%nat db3) lease RETRY_WAIT (clock 13%nat) in
                (Ok (exec_result lease status error), db4)
            end
      end
  end.

Definition run_once (cfg : Config) (zone : zoneinfo) (rt : WorkflowRuntime)
    (clock : nat -> clock_time) (env : nat -> DB -> DB) (uuid : nat -> string) (db : DB)
    (worker_id : string) : result (option TaskExecutionResult) * DB :=
  match claim cfg db worker_id (clock 0%nat) (clock 1%nat) uuid with
  | Err e => (Err e, db)
  | Ok (None, db1) => (Ok None, db1)
  | Ok (Some lease, db1) =>
      match run_lease cfg zone rt (fun i => clock (2 + i)%nat) env db1 lease with
      | (Ok r, db2) => (Ok (Some r), db2)
      | (Err e, db2) => (Err e, db2)
      end
  end.

End WithRuntime.

End Execution.
