(* ===== verification/QueueTheory.v ===== *)
(** * Concurrency theory of the task queue

    The transactions of [TaskQueue] and [Execution] as an interleaved step
    relation over any number of workers, its invariant, and the theorems about
    leases, fencing, attempts and publication. *)
From S2P Require Import Prelude PyStr PyTime Float64 Domain Json Models TaskQueue Execution.
Import PyStr PyTime Float64 Domain Json Models TaskQueue Execution.
Open Scope string_scope.
Open Scope Z_scope.

Module QueueTheory.

(** ** Row-level facts *)

Lemma update_task_Some db id p f db' :
  update_task db id p f = Some db' <->
  exists t, db_tasks db !! id = Some t /\ p t = true
            /\ db' = with_tasks db (<[id := f t]> (db_tasks db)).
Proof.
  unfold update_task. destruct (db_tasks db !! id) as [t|] eqn:Ht.
  - destruct (p t) eqn:E; split.
    + intros [= <-]. eauto.
    + by intros (? & [= <-] & _ & ->).
    + done.
    + intros (? & [= <-] & ? & _). congruence.
  - split; [done|]. by intros (? & ? & _).
Qed.

Lemma holds_lease_spec token now t :
  holds_lease token now t = true <->
  t_status t = RUNNING /\ t_lease_token t = Some token
  /\ exists e, t_lease_expires_at t = Some e /\ now < e.
Proof.
  unfold holds_lease. rewrite !andb_true_iff, !bool_decide_eq_true.
  destruct (t_lease_expires_at t) as [e|]; rewrite ?Z.ltb_lt; split.
  - intros [[? ?] ?]. eauto.
  - intros (? & ? & ? & [= <-] & ?). done.
  - by intros [_ [=]].
  - by intros (_ & _ & ? & [=] & _).
Qed.

Lemma claimable_spec now t :
  claimable now t = true <->
  (t_status t = QUEUED \/ t_status t = RETRY_WAIT) /\ t_available_at t <= now
  /\ t_attempt_count t < t_max_attempts t.
Proof.
  unfold claimable. rewrite !andb_true_iff, bool_decide_eq_true, Z.leb_le, Z.ltb_lt. tauto.
Qed.

(** The columns no update touches. *)
Definition same_identity (t t' : WorkflowTask) : Prop :=
  t_id t' = t_id t /\ t_run_id t' = t_run_id t /\ t_kind t' = t_kind t
  /\ t_idempotency_key t' = t_idempotency_key t /\ t_payload t' = t_payload t
  /\ t_payload_hash t' = t_payload_hash t /\ t_max_attempts t' = t_max_attempts t
  /\ t_timeout_seconds t' = t_timeout_seconds t /\ t_created_at t' = t_created_at t.

Lemma same_identity_trans t1 t2 t3 :
  same_identity t1 t2 -> same_identity t2 t3 -> same_identity t1 t3.
Proof. unfold same_identity. intuition congruence. Qed.

(** One database update of a task row. *)
Inductive row_step (fresh : string -> clock_time -> clock_time -> Prop) : WorkflowTask -> WorkflowTask -> Prop :=
  | row_claim owner token now expires_at t :
      claimable now t = true -> fresh token now expires_at ->
      row_step fresh t (claim_values owner token now expires_at t)
  | row_release status available_at error now completed_at t :
      t_status t = RUNNING -> status <> RUNNING -> status <> QUEUED ->
      (status = RETRY_WAIT -> t_attempt_count t < t_max_attempts t) ->
      row_step fresh t (release_values status available_at error now completed_at t)
  | row_renew token started expires_at now t :
      holds_lease token now t = true ->
      t_attempt_started_at t = Some started ->
      expires_at <= started + seconds (t_timeout_seconds t) ->
      row_step fresh t (renew_values expires_at now t)
  | row_stage token stage now t :
      holds_lease token now t = true ->
      row_step fresh t (stage_values stage now t).

Lemma row_step_identity F t t' : row_step F t t' -> same_identity t t'.
Proof. by destruct 1; repeat split. Qed.

(** Later rows: the reflexive transitive closure of the observable order. *)
Definition evolves (t t' : WorkflowTask) : Prop :=
  same_identity t t'
  /\ t_version t <= t_version t' /\ t_attempt_count t <= t_attempt_count t'
  /\ (t_version t = t_version t' ->
      t_status t' = t_status t /\ t_attempt_count t' = t_attempt_count t
      /\ t_lease_token t' = t_lease_token t /\ t_lease_expires_at t' = t_lease_expires_at t
      /\ t_attempt_started_at t' = t_attempt_started_at t)
  /\ (t_status t = COMPLETED \/ t_status t = FAILED -> t_status t' = t_status t)
  /\ (t_status t' = QUEUED -> t_status t = QUEUED).

Lemma evolves_refl t : evolves t t.
Proof. by repeat split. Qed.

Lemma evolves_trans t1 t2 t3 : evolves t1 t2 -> evolves t2 t3 -> evolves t1 t3.
Proof.
  intros (I1 & V1 & A1 & S1 & T1 & Q1) (I2 & V2 & A2 & S2 & T2 & Q2).
  split; [by eapply same_identity_trans|]. split; [lia|]. split; [lia|]. split.
  - intros E. destruct S1 as (?&?&?&?&?); [lia|]. destruct S2 as (?&?&?&?&?); [lia|].
    repeat split; congruence.
  - split; [|tauto]. intros H. rewrite T2; [tauto|]. rewrite (T1 H). tauto.
Qed.

Lemma row_step_evolves F t t' : row_step F t t' -> evolves t t'.
Proof.
  intros Hs. split; [by eapply row_step_identity|].
  destruct Hs as [owner token now exp t Hc _|status av err now comp t Hr Hn Hq _
                 |token st exp now t Hl _ _|token stage now t Hl]; cbn.
  - apply claimable_spec in Hc as (Hc & _). intuition (try lia; try congruence).
  - intuition (try lia; try congruence).
  - apply holds_lease_spec in Hl as (Hl & _). intuition (try lia; try congruence).
  - apply holds_lease_spec in Hl as (Hl & _). intuition (try lia; try congruence).
Qed.

(** ** Worlds and steps *)

(** A world is the database with the leases issued so far, by token. *)
Record World := mkWorld { w_db : DB; w_leases : gmap string TaskLease }.

(** A row read earlier, when the task now stands at [t]. *)
Definition snapshot_of (db : DB) (row : WorkflowTask) : Prop :=
  exists t, db_tasks db !! t_id row = Some t /\ evolves row t.

Section Steps.
Context `{PyRuntime} `{CanonicalHash}.
Context (sha256 : string -> string) (cfg : Config) (program_hash : string).

Inductive step : World -> World -> Prop :=
  | step_enqueue w seen p key uuid now t db' :
      enqueue cfg program_hash seen (w_db w) p key uuid now = Ok (t, true, db') ->
      r_status (pr_row p) <> RUN_COMPLETED ->
      step w (mkWorld db' (w_leases w))
  | step_claim w task_id version owner token now db' row :
      claim_cas cfg (w_db w) task_id version owner token now = Some db' ->
      w_leases w !! token = None ->
      db_tasks db' !! task_id = Some row ->
      step w (mkWorld db' (<[token := lease_of row token owner]> (w_leases w)))
  | step_terminal_fail w lease error now db' :
      w_leases w !! l_lease_token lease = Some lease ->
      terminal_fail_in_session (w_db w) lease error now = (true, db') ->
      step w (mkWorld db' (w_leases w))
  | step_recover w row now db' :
      snapshot_of (w_db w) row -> attempt_expired row now = true ->
      recover_cas cfg (w_db w) row now = Some db' ->
      step w (mkWorld db' (w_leases w))
  | step_renew w seen lease now db' :
      w_leases w !! l_lease_token lease = Some lease ->
      (forall row, db_tasks seen !! l_task_id lease = Some row ->
         t_id row = l_task_id lease /\ snapshot_of (w_db w) row) ->
      renew cfg seen (w_db w) lease now = (true, db') ->
      step w (mkWorld db' (w_leases w))
  | step_complete w lease now db' :
      w_leases w !! l_lease_token lease = Some lease ->
      complete (w_db w) lease now = Ok (true, db') ->
      step w (mkWorld db' (w_leases w))
  | step_fail w lease error now status db' :
      w_leases w !! l_lease_token lease = Some lease ->
      fail cfg (w_db w) lease error now = (Some status, db') ->
      step w (mkWorld db' (w_leases w))
  | step_exec_start w rt p fence recovering retryable t0 t1 t2 r db' :
      r_status (pr_row p) <> RUN_COMPLETED ->
      exec_start sha256 rt (w_db w) p fence recovering retryable t0 t1 t2 = (r, db') ->
      step w (mkWorld db' (w_leases w))
  | step_exec_finish w rt p fence result t0 t1 t2 t3 db' :
      exec_finish sha256 rt (w_db w) p fence result t0 t1 t2 t3 = Ok db' ->
      step w (mkWorld db' (w_leases w))
  | step_exec_fail w p fence error retryable t0 t1 t2 r db' :
      exec_fail (w_db w) p fence error retryable t0 t1 t2 = (r, db') ->
      step w (mkWorld db' (w_leases w)).

(** ** The invariant *)

Record row_ok (leases : gmap string TaskLease) (runs : gmap string WorkflowRun)
    (id : string) (t : WorkflowTask) : Prop := {
  ok_id : t_id t = id;
  ok_attempts : ck_workflow_task_attempts t = true;
  ok_lease : ck_workflow_task_lease t = true;
  ok_waiting : t_status t = QUEUED \/ t_status t = RETRY_WAIT ->
               t_attempt_count t < t_max_attempts t;
  ok_token : forall token, t_lease_token t = Some token ->
             exists l, leases !! token = Some l /\ l_task_id l = id
                       /\ l_run_id l = t_run_id t /\ l_lease_token l = token
                       /\ l_attempt_count l = t_attempt_count t
                       /\ l_max_attempts l = t_max_attempts t;
  ok_completed : t_status t = COMPLETED ->
                 exists r, runs !! t_run_id t = Some r /\ r_status r = RUN_COMPLETED }.

Record Inv (w : World) : Prop := {
  inv_rows : forall id t, db_tasks (w_db w) !! id = Some t ->
             row_ok (w_leases w) (db_runs (w_db w)) id t;
  inv_unique : forall id1 id2 t1 t2,
             db_tasks (w_db w) !! id1 = Some t1 -> db_tasks (w_db w) !! id2 = Some t2 ->
             t_run_id t1 = t_run_id t2 \/ t_idempotency_key t1 = t_idempotency_key t2 ->
             id1 = id2;
  inv_runs : forall id r, db_runs (w_db w) !! id = Some r -> r_id r = id;
  inv_results : forall id l, db_results (w_db w) !! id = Some l -> l <> [] ->
             length l = 1%nat
             /\ exists r, db_runs (w_db w) !! id = Some r /\ r_status r = RUN_COMPLETED }.

(** Preservation, one row update at a time. *)
Lemma row_ok_claim leases runs id t owner token now exp :
  row_ok leases runs id t -> claimable now t = true -> leases !! token = None ->
  let t' := claim_values owner token now exp t in
  row_ok (<[token := lease_of t' token owner]> leases) runs id t'.
Proof.
  intros [Hid Hatt Hlease Hwait Htok Hcomp] Hc Hfresh t'.
  apply claimable_spec in Hc as (_ & _ & Hlt).
  unfold ck_workflow_task_attempts in Hatt. bool_prop.
  split; cbn; try done.
  - unfold ck_workflow_task_attempts; cbn. repeat (apply andb_true_iff; split); lia.
  - by intros [?|?].
  - intros tok [= <-]. rewrite lookup_insert_eq. eexists. by repeat split.
Qed.

Lemma row_ok_release leases runs id t status avail err now comp :
  row_ok leases runs id t -> status <> RUNNING -> status <> QUEUED ->
  (status = RETRY_WAIT -> t_attempt_count t < t_max_attempts t) ->
  (status = COMPLETED -> exists r, runs !! t_run_id t = Some r /\ r_status r = RUN_COMPLETED) ->
  row_ok leases runs id (release_values status avail err now comp t).
Proof.
  intros [Hid Hatt Hlease Hwait Htok Hcomp] Hr Hq Hw Hc. split; cbn; try done.
  - unfold ck_workflow_task_lease; cbn. by rewrite bool_decide_false.
  - intros [?|?]; [done|auto].
Qed.

Lemma row_ok_renew leases runs id t exp now :
  row_ok leases runs id t -> t_status t = RUNNING ->
  row_ok leases runs id (renew_values exp now t).
Proof.
  intros [Hid Hatt Hlease Hwait Htok Hcomp] Hr. split; cbn; try done.
  unfold ck_workflow_task_lease in *; cbn. rewrite Hr in *. cbn in *.
  destruct (t_lease_owner t), (t_lease_token t), (t_attempt_started_at t); cbn in *;
    rewrite ?andb_false_r in *; done.
Qed.

Lemma row_ok_stage leases runs id t stage now :
  row_ok leases runs id t -> row_ok leases runs id (stage_values stage now t).
Proof. intros [Hid Hatt Hlease Hwait Htok Hcomp]. by split. Qed.

Lemma row_ok_mono leases leases' runs runs' id t :
  leases ⊆ leases' ->
  (forall rid r, runs !! rid = Some r -> r_status r = RUN_COMPLETED ->
     exists r', runs' !! rid = Some r' /\ r_status r' = RUN_COMPLETED) ->
  row_ok leases runs id t -> row_ok leases' runs' id t.
Proof.
  intros Hl Hr [Hid Hatt Hlease Hwait Htok Hcomp]. split; try done.
  - intros tok Ht. destruct (Htok tok Ht) as (l & ? & ?). exists l. split; [|done].
    by eapply lookup_weaken.
  - intros Hc. destruct (Hcomp Hc) as (r & ? & ?). eauto.
Qed.

(** Runs only move forward: a completed run is never written again. *)
Definition runs_ok (rs rs' : gmap string WorkflowRun) : Prop :=
  (forall id r, rs !! id = Some r -> exists r', rs' !! id = Some r'
     /\ r_id r' = r_id r /\ (r_status r = RUN_COMPLETED -> r' = r))
  /\ (forall id r', rs' !! id = Some r' -> rs !! id = None -> r_id r' = id).

Lemma runs_ok_refl rs : runs_ok rs rs.
Proof. split; [eauto|]. intros; congruence. Qed.

Lemma runs_ok_set rs id r r' :
  rs !! id = Some r -> r_id r' = r_id r -> r_status r <> RUN_COMPLETED ->
  runs_ok rs (<[id := r']> rs).
Proof.
  intros Hr Hid Hs. split.
  - intros id' r1 H1. destruct (decide (id = id')) as [->|].
    + rewrite lookup_insert_eq. simplify_map_eq. exists r'. split; [done|]. by split.
    + rewrite lookup_insert_ne by done. eauto.
  - intros id' r1 H1 H2. destruct (decide (id = id')) as [->|]; [congruence|].
    rewrite lookup_insert_ne in H1 by done. congruence.
Qed.

Lemma runs_ok_update_run_after_attempt db id terminal e now :
  runs_ok (db_runs db) (db_runs (update_run_after_attempt db id terminal e now)).
Proof.
  unfold update_run_after_attempt. destruct (db_runs db !! id) as [r|] eqn:Hr;
    [|apply runs_ok_refl].
  case_bool_decide; [apply runs_ok_refl|]. cbn. by eapply runs_ok_set.
Qed.

Lemma update_run_after_attempt_other db id terminal e now :
  let db' := update_run_after_attempt db id terminal e now in
  db_tasks db' = db_tasks db /\ db_results db' = db_results db.
Proof.
  unfold update_run_after_attempt. destruct (db_runs db !! id); [|done].
  by case_bool_decide.
Qed.

Lemma inv_set_runs db db' leases :
  Inv (mkWorld db leases) -> db_tasks db' = db_tasks db -> db_results db' = db_results db ->
  runs_ok (db_runs db) (db_runs db') -> Inv (mkWorld db' leases).
Proof.
  intros [Hrows Huniq Hruns Hres] Ht Hr [Hok Hnew]. split; cbn in *.
  - intros id t Hid. rewrite Ht in Hid. eapply row_ok_mono; [done| |by apply Hrows].
    intros rid r H1 H2. destruct (Hok _ _ H1) as (r' & ? & _ & Heq). exists r'.
    by rewrite (Heq H2) in *.
  - intros id1 id2 t1 t2. rewrite Ht. apply Huniq.
  - intros id r' H'. destruct (db_runs db !! id) as [r|] eqn:E; [|by apply Hnew].
    destruct (Hok _ _ E) as (r1 & ? & ? & _). simplify_map_eq. rewrite <- (Hruns _ _ E). congruence.
  - intros id l Hl Hn. rewrite Hr in Hl. destruct (Hres id l Hl Hn) as (? & r & H1 & H2). split; [done|].
    destruct (Hok _ _ H1) as (r' & ? & _ & Heq). exists r'.
    by rewrite (Heq H2) in *.
Qed.

Lemma inv_set_task db leases leases' id t t' :
  Inv (mkWorld db leases) -> db_tasks db !! id = Some t -> same_identity t t' ->
  leases ⊆ leases' -> row_ok leases' (db_runs db) id t' ->
  Inv (mkWorld (with_tasks db (<[id := t']> (db_tasks db))) leases').
Proof.
  intros [Hrows Huniq Hruns Hres] Ht Hsame Hl Hrow. split; cbn in *; try done.
  - intros id' t1 H1. destruct (decide (id = id')) as [->|].
    + rewrite lookup_insert_eq in H1. by simplify_eq.
    + rewrite lookup_insert_ne in H1 by done.
      eapply row_ok_mono; [done| |by apply Hrows]. eauto.
  - assert (Hcol : forall i u, <[id := t']> (db_tasks db) !! i = Some u ->
        exists u0, db_tasks db !! i = Some u0 /\ t_run_id u = t_run_id u0
                   /\ t_idempotency_key u = t_idempotency_key u0).
    { intros i u Hu. destruct (decide (id = i)) as [->|].
      - rewrite lookup_insert_eq in Hu. simplify_eq. exists t. unfold same_identity in Hsame.
        intuition congruence.
      - rewrite lookup_insert_ne in Hu by done. eauto. }
    intros i1 i2 u1 u2 H1 H2 Heq.
    destruct (Hcol _ _ H1) as (v1 & ? & E1 & E1'), (Hcol _ _ H2) as (v2 & ? & E2 & E2').
    eapply Huniq; [done..|]. rewrite <- E1, <- E2, <- E1', <- E2'. done.
Qed.

(** The invariant, by the shape of the update. *)
Lemma inv_release db leases id t status avail err now comp :
  Inv (mkWorld db leases) -> db_tasks db !! id = Some t ->
  status <> RUNNING -> status <> QUEUED ->
  (status = RETRY_WAIT -> t_attempt_count t < t_max_attempts t) ->
  (status = COMPLETED ->
     exists r, db_runs db !! t_run_id t = Some r /\ r_status r = RUN_COMPLETED) ->
  Inv (mkWorld (with_tasks db (<[id := release_values status avail err now comp t]> (db_tasks db)))
         leases).
Proof.
  intros HI Ht ????. eapply inv_set_task; [done..| |by apply row_ok_release; [apply (inv_rows _ HI)|..]].
  done.
Qed.

Lemma inv_stage db leases id t stage now :
  Inv (mkWorld db leases) -> db_tasks db !! id = Some t ->
  Inv (mkWorld (with_tasks db (<[id := stage_values stage now t]> (db_tasks db))) leases).
Proof.
  intros HI Ht. eapply inv_set_task; [done..|by apply row_ok_stage, (inv_rows _ HI)].
Qed.

(** What a fence admits. *)
Lemma fence_execution_Ok db f run_id stage now row db' :
  fence_execution db f run_id stage now = Ok (row, db') ->
  exists t, db_tasks db !! ef_task_id f = Some t /\ t_run_id t = run_id
    /\ holds_lease (ef_lease_token f) now t = true
    /\ deadline_passed t now = false
    /\ row = stage_values stage now t
    /\ db' = with_tasks db (<[ef_task_id f := row]> (db_tasks db)).
Proof.
  unfold fence_execution. destruct (update_task _ _ _ _) as [db1|] eqn:E; [|done].
  apply update_task_Some in E as (t & Ht & Hp & ->). bool_prop. cbn.
  rewrite lookup_insert_eq. intros Hk. inv_ok Hk. injection Hk as <- <-.
  exists t. by repeat split.
Qed.

Lemma finalize_execution_fence_Ok db f run_id now now' row db' :
  finalize_execution_fence db f run_id now now' = Ok (row, db') ->
  exists t, db_tasks db !! ef_task_id f = Some t /\ t_run_id t = run_id
    /\ holds_lease (ef_lease_token f) now t = true
    /\ deadline_passed t now = false
    /\ db' = with_tasks db
         (<[ef_task_id f := release_values COMPLETED (t_available_at t) None now' (Some now')
                              (stage_values "finalizing" now t)]> (db_tasks db)).
Proof.
  unfold finalize_execution_fence. intros Hk. apply bind_Ok in Hk as ([row1 db1] & H1 & Hk).
  apply fence_execution_Ok in H1 as (t & Ht & Hrun & Hl & Hd & -> & ->).
  exists t. do 4 (split; [done|]).
  destruct (update_task _ _ _ _) as [db2|] eqn:E; [|done]. injection Hk as <- <-.
  apply update_task_Some in E as (t1 & Ht1 & _ & ->). cbn in Ht1.
  rewrite lookup_insert_eq in Ht1. injection Ht1 as <-. unfold with_tasks; cbn.
  by rewrite insert_insert_eq.
Qed.

(** ** What each operation does when it succeeds *)

Lemma claim_cas_Some db id version owner token now db' :
  claim_cas cfg db id version owner token now = Some db' ->
  exists t, db_tasks db !! id = Some t /\ t_version t = version /\ claimable now t = true
    /\ db' = with_tasks db
         (<[id := claim_values owner token now (now + seconds (q_lease_seconds cfg)) t]> (db_tasks db)).
Proof.
  unfold claim_cas. rewrite update_task_Some. intros (t & Ht & Hp & ->). bool_prop. eauto.
Qed.

Lemma terminal_fail_true db lease error now db' :
  terminal_fail_in_session db lease error now = (true, db') ->
  exists t, db_tasks db !! l_task_id lease = Some t
    /\ holds_lease (l_lease_token lease) now t = true
    /\ db' = update_run_after_attempt
         (with_tasks db (<[l_task_id lease :=
            release_values FAILED now (Some (safe_error error)) now (Some now) t]> (db_tasks db)))
         (l_run_id lease) true (safe_error error) now.
Proof.
  unfold terminal_fail_in_session. destruct (update_task _ _ _ _) eqn:E; [|done].
  apply update_task_Some in E as (t & Ht & Hp & ->). intros [= <-]. eauto.
Qed.

Lemma recover_cas_Some db row now db' :
  recover_cas cfg db row now = Some db' ->
  exists t, db_tasks db !! t_id row = Some t /\ t_status t = RUNNING
    /\ t_version t = t_version row /\ t_lease_token t = t_lease_token row
    /\ let terminal := t_max_attempts row <=? t_attempt_count row in
       db' = update_run_after_attempt
         (with_tasks db (<[t_id row :=
            release_values (if terminal then FAILED else RETRY_WAIT)
              (if terminal then now else now + seconds (q_retry_delay_seconds cfg))
              (Some (recovery_message row)) now (if terminal then Some now else None) t]> (db_tasks db)))
         (t_run_id row) terminal (recovery_message row) now.
Proof.
  unfold recover_cas. destruct (update_task _ _ _ _) eqn:E; [|done].
  apply update_task_Some in E as (t & Ht & Hp & ->). bool_prop. intros [= <-].
  exists t. by repeat split.
Qed.

Lemma renew_true seen db lease now db' :
  renew cfg seen db lease now = (true, db') ->
  exists row deadline t, db_tasks seen !! l_task_id lease = Some row
    /\ renew_deadline row lease = Some deadline /\ now < deadline
    /\ db_tasks db !! l_task_id lease = Some t
    /\ holds_lease (l_lease_token lease) now t = true /\ t_version t = t_version row
    /\ db' = with_tasks db (<[l_task_id lease :=
         renew_values (Z.min (now + seconds (q_lease_seconds cfg)) deadline) now t]> (db_tasks db)).
Proof.
  unfold renew. destruct (db_tasks seen !! _) as [row|] eqn:Hseen; cbn; [|done].
  destruct (renew_deadline row lease) as [d|] eqn:Hd; cbn; [|done].
  destruct (d <=? now) eqn:Hle; [done|].
  destruct (update_task _ _ _ _) eqn:E; [|done].
  apply update_task_Some in E as (t & Ht & Hp & ->). bool_prop. intros [= <-].
  exists row, d, t. by repeat split.
Qed.

Lemma complete_true db lease now db' :
  complete db lease now = Ok (true, db') ->
  (exists r, db_runs db !! l_run_id lease = Some r /\ r_status r = RUN_COMPLETED)
  /\ (db' = db
      \/ exists t, db_tasks db !! l_task_id lease = Some t
           /\ holds_lease (l_lease_token lease) now t = true
           /\ db' = with_tasks db (<[l_task_id lease :=
                release_values COMPLETED (t_available_at t) None now (Some now) t]> (db_tasks db))).
Proof.
  unfold complete. intros Hk. inv_ok Hk. split.
  - destruct (db_runs db !! _) as [r|]; [|done]. bool_prop. eauto.
  - destruct (match db_tasks db !! l_task_id lease with Some _ => _ | None => _ end);
      [injection Hk as <-; by left|].
    destruct (update_task _ _ _ _) eqn:E; [|done]. injection Hk as <-.
    apply update_task_Some in E as (t & Ht & Hp & ->). right. eauto.
Qed.

Lemma fail_Some db lease error now status db' :
  fail cfg db lease error now = (Some status, db') ->
  status = (if retryable lease then RETRY_WAIT else FAILED)
  /\ exists t, db_tasks db !! l_task_id lease = Some t
    /\ holds_lease (l_lease_token lease) now t = true
    /\ db' = update_run_after_attempt
         (with_tasks db (<[l_task_id lease :=
            release_values status
              (if retryable lease then now + seconds (q_retry_delay_seconds cfg) else now)
              (Some (safe_error error)) now (if retryable lease then None else Some now) t]> (db_tasks db)))
         (l_run_id lease) (negb (retryable lease)) (safe_error error) now.
Proof.
  unfold fail. destruct (update_task _ _ _ _) eqn:E; [|done].
  apply update_task_Some in E as (t & Ht & Hp & ->). intros [= <- <-]. eauto 6.
Qed.

Lemma enqueue_created seen db p key uuid now t db' :
  enqueue cfg program_hash seen db p key uuid now = Ok (t, true, db') ->
  exists key' payload new_run, t = new_task cfg uuid key' p payload now
    /\ (forall r, new_run = Some r -> r = pr_row p)
    /\ commit_task db new_run t = Some db'.
Proof.
  unfold enqueue. intros Hk. apply bind_Ok in Hk as (key' & _ & Hk).
  apply bind_Ok in Hk as (manifest & _ & Hk). apply bind_Ok in Hk as ([] & _ & Hk).
  destruct (find_by_key seen key') as [existing|] eqn:E.
  { apply bind_Ok in Hk as (? & _ & Hk). discriminate. }
  apply raise_when_bind_Ok in Hk as [_ Hk].
  destruct (commit_task _ _ _) as [db1|] eqn:Ec.
  - injection Hk as <- <-. do 3 eexists. split; [done|]. split; [|exact Ec].
    intros r. destruct (db_runs seen !! _); by intros [= <-].
  - destruct (find_by_key db key') as [raced|]; [|discriminate].
    apply bind_Ok in Hk as (? & _ & Hk). discriminate.
Qed.

Lemma commit_task_Some db new_run t db' :
  commit_task db new_run t = Some db' ->
  db_tasks db !! t_id t = None
  /\ (forall id t', db_tasks db !! id = Some t' ->
        t_run_id t' <> t_run_id t /\ t_idempotency_key t' <> t_idempotency_key t)
  /\ (forall r, new_run = Some r -> db_runs db !! r_id r = None /\ run_slot_taken db r = false)
  /\ db' = mkDB (<[t_id t := t]> (db_tasks db))
       (match new_run with Some r => <[r_id r := r]> (db_runs db) | None => db_runs db end)
       (db_activation db) (db_results db).
Proof.
  clear sha256 program_hash. unfold commit_task. destruct (_ || _) eqn:E; [done|]. intros [= <-].
  apply orb_false_iff in E as [Erun Et]. unfold task_identity_taken in Et. bool_prop.
  match goal with H : existsb _ _ = false |- _ => rename H into Hex end. split_and!.
  - destruct (db_tasks db !! t_id t); [done|done].
  - intros id t' Ht. apply elem_of_map_to_list in Ht.
    assert (~ Exists (fun '(_, t') => t_run_id t' = t_run_id t
             \/ t_idempotency_key t' = t_idempotency_key t) (map_to_list (db_tasks db))) as HN.
    { rewrite Exists_exists. intros ([id' t1] & Hin & Hor).
      apply not_true_iff_false in Hex. apply Hex, existsb_exists. exists (id', t1).
      split; [by apply list_elem_of_In|]. rewrite orb_true_iff, !String.eqb_eq. done. }
    split; intros Heq; apply HN, Exists_exists; exists (id, t'); tauto.
  - intros r ->. bool_prop. by destruct (db_runs db !! r_id r).
  - done.
Qed.

Lemma fence_task_execution_Ok db fence run_id stage now db' :
  fence_task_execution db fence run_id stage now = Ok db' ->
  (fence = None /\ db' = db)
  \/ exists f t, fence = Some f /\ db_tasks db !! ef_task_id f = Some t /\ t_run_id t = run_id
       /\ holds_lease (ef_lease_token f) now t = true /\ deadline_passed t now = false
       /\ db' = with_tasks db (<[ef_task_id f := stage_values stage now t]> (db_tasks db)).
Proof.
  unfold fence_task_execution. destruct fence as [f|]; [|intros [= <-]; by left].
  intros Hk. apply bind_Ok in Hk as ([row db1] & H1 & [= <-]).
  apply fence_execution_Ok in H1 as (t & ? & ? & ? & ? & -> & ->). right. eauto 10.
Qed.

Lemma finalize_task_execution_Ok db fence run_id now now' db' :
  finalize_task_execution db fence run_id now now' = Ok db' ->
  (fence = None /\ db' = db)
  \/ exists f t, fence = Some f /\ db_tasks db !! ef_task_id f = Some t /\ t_run_id t = run_id
       /\ holds_lease (ef_lease_token f) now t = true /\ deadline_passed t now = false
       /\ db' = with_tasks db (<[ef_task_id f :=
            release_values COMPLETED (t_available_at t) None now' (Some now') t]> (db_tasks db)).
Proof.
  unfold finalize_task_execution. destruct fence as [f|]; [|intros [= <-]; by left].
  intros Hk. apply bind_Ok in Hk as ([row db1] & H1 & [= <-]).
  apply finalize_execution_fence_Ok in H1 as (t & ? & ? & ? & ? & ->). right. eauto 10.
Qed.

Lemma exec_start_cases rt db p fence recovering retryable t0 t1 t2 r db' :
  exec_start sha256 rt db p fence recovering retryable t0 t1 t2 = (r, db') ->
  db' = db
  \/ exists row db1, db_runs db !! r_id (pr_row p) = Some row
       /\ fence_task_execution db fence (r_id (pr_row p)) "executing" t1 = Ok db1
       /\ r_status row = r_status (pr_row p)
       /\ (db' = db1 \/ exists row', r_id row' = r_id row
            /\ db' = set_run db1 (r_id (pr_row p)) row').
Proof.
  unfold exec_start. destruct (db_runs db !! _) as [row|] eqn:Hrow; [|intros [= _ <-]; by left].
  destruct (fence_task_execution _ _ _ _ _) as [db1|e] eqn:Hf; [|intros [= _ <-]; by left].
  case_bool_decide as Hst; cbn; [|intros [= _ <-]; by left].
  destruct (check_seals _ _ _ _) as [[]|e] eqn:Hs; [destruct recovering|];
    intros [= _ <-]; right; exists row, db1; (split_and!; try done);
    first [by left | right; eexists; split; [|reflexivity]; reflexivity].
Qed.

Lemma exec_finish_Ok rt db p fence result t0 t1 t2 t3 db' :
  exec_finish sha256 rt db p fence result t0 t1 t2 t3 = Ok db' ->
  let run_id := r_id (pr_row p) in
  exists row db1, db_runs db !! run_id = Some row /\ r_status row = RUN_RUNNING
    /\ finalize_task_execution db fence run_id t2 t3 = Ok db1
    /\ persist_result result = Ok tt
    /\ db' = mkDB (db_tasks db1)
         (<[run_id := completed_values t0 t1 result row]> (db_runs db1)) (db_activation db1)
         (<[run_id := (default [] (db_results db1 !! run_id) ++ [result])%list]> (db_results db1)).
Proof.
  unfold exec_finish. destruct (db_runs db !! _) as [row|]; [|done]. intros Hk.
  apply bind_Ok in Hk as (db1 & H1 & Hk). apply raise_when_bind_Ok in Hk as [Hst Hk].
  apply bind_Ok in Hk as ([] & _ & Hk). apply raise_when_bind_Ok in Hk as [_ Hk].
  apply bind_Ok in Hk as ([] & _ & Hk). apply bind_Ok in Hk as ([] & Hp & Hk).
  injection Hk as <-. bool_prop. exists row, db1. by repeat split.
Qed.

Lemma exec_fail_cases db p fence error retryable t0 t1 t2 r db' :
  exec_fail db p fence error retryable t0 t1 t2 = (r, db') ->
  db' = db
  \/ exists row row' db1, db_runs db !! r_id (pr_row p) = Some row
       /\ r_status row = RUN_RUNNING
       /\ fence_task_execution db fence (r_id (pr_row p)) "failed_attempt" t2 = Ok db1
       /\ r_id row' = r_id row /\ db' = set_run db1 (r_id (pr_row p)) row'.
Proof.
  unfold exec_fail. destruct (db_runs db !! _) as [row|] eqn:Hrow; [|intros [= _ <-]; by left].
  destruct (fence_task_execution _ _ _ _ _) as [db1|e] eqn:Hf; [|intros [= _ <-]; by left].
  case_bool_decide; intros [= _ <-]; [right|by left].
  exists row, (failure_values error t0 t1 retryable row), db1. by repeat split.
Qed.

(** ** The effect of a step on the task table *)

Definition new_row (t : WorkflowTask) : Prop :=
  t_status t = QUEUED /\ t_attempt_count t = 0 /\ t_max_attempts t = q_max_attempts cfg
  /\ t_timeout_seconds t = q_timeout_seconds cfg /\ t_lease_token t = None.

Inductive task_effect (fresh : string -> clock_time -> clock_time -> Prop) (ts : gmap string WorkflowTask)
    : gmap string WorkflowTask -> Prop :=
  | te_none : task_effect fresh ts ts
  | te_new id t : ts !! id = None -> new_row t ->
      task_effect fresh ts (<[id := t]> ts)
  | te_row id t t' : ts !! id = Some t -> row_step fresh t t' ->
      task_effect fresh ts (<[id := t']> ts).

Lemma task_effect_fence F db fence run_id stage now db' :
  fence_task_execution db fence run_id stage now = Ok db' ->
  task_effect F (db_tasks db) (db_tasks db').
Proof.
  intros [[_ ->]|(f & t & _ & Ht & _ & Hl & _ & ->)]%fence_task_execution_Ok; [constructor|].
  cbn. eapply te_row; [done|]. by econstructor.
Qed.

Lemma holds_lease_running token now t : holds_lease token now t = true -> t_status t = RUNNING.
Proof. rewrite holds_lease_spec. tauto. Qed.

(** The lease a worker holds agrees with the row it fences. *)
Lemma inv_lease w lease now t :
  Inv w -> w_leases w !! l_lease_token lease = Some lease ->
  db_tasks (w_db w) !! l_task_id lease = Some t ->
  holds_lease (l_lease_token lease) now t = true ->
  l_run_id lease = t_run_id t /\ l_attempt_count lease = t_attempt_count t
  /\ l_max_attempts lease = t_max_attempts t.
Proof.
  intros HI Hl Ht (_ & Htok & _)%holds_lease_spec.
  destruct (ok_token _ _ _ _ (inv_rows _ HI _ _ Ht) _ Htok) as (l & Hl' & _ & ? & _ & ? & ?).
  assert (l = lease) as -> by congruence. done.
Qed.

(** The row a recovering worker updates is the one it read. *)
Lemma snapshot_lease db row t :
  snapshot_of db row -> db_tasks db !! t_id row = Some t -> t_version t = t_version row ->
  t_run_id t = t_run_id row /\ t_attempt_count t = t_attempt_count row
  /\ t_max_attempts t = t_max_attempts row.
Proof.
  intros (t' & Ht' & (Hid & _ & _ & Hv & _)) Ht Heq. simplify_map_eq.
  unfold same_identity in Hid. destruct Hv as (_ & ? & _); [done|]. tauto.
Qed.

(** The deadline a renewal computes from its earlier reading of the row. *)
Lemma renew_deadline_snapshot db row lease t d :
  snapshot_of db row -> t_id row = l_task_id lease ->
  db_tasks db !! l_task_id lease = Some t -> t_version t = t_version row ->
  renew_deadline row lease = Some d ->
  exists started, t_attempt_started_at t = Some started
    /\ d = started + seconds (t_timeout_seconds t).
Proof.
  intros (t' & Ht' & (Hsame & _ & _ & Hv & _)) Hid Ht Heq. rewrite Hid in Ht'. simplify_map_eq.
  destruct Hv as (_ & _ & _ & _ & Hst); [done|].
  unfold renew_deadline. destruct (t_attempt_started_at row) as [st|]; [|done].
  case_match; [|done]. intros [= <-]. exists st. split; [done|].
  unfold same_identity in Hsame. intuition congruence.
Qed.

Lemma step_cases w w' :
  Inv w -> step w w' ->
  (exists id version owner token now db' row,
     claim_cas cfg (w_db w) id version owner token now = Some db'
     /\ w_leases w !! token = None /\ db_tasks db' !! id = Some row
     /\ w' = mkWorld db' (<[token := lease_of row token owner]> (w_leases w)))
  \/ (task_effect (fun _ _ _ => False) (db_tasks (w_db w)) (db_tasks (w_db w'))
      /\ w_leases w' = w_leases w).
Proof.
  intros HI Hs. destruct Hs as
    [w seen p key uuid now t db' He _ | w id v owner token now db' row Hc Hf Hrow
    | w lease error now db' Hl He | w row now db' Hsn _ He | w seen lease now db' Hl Hsn He
    | w lease now db' Hl He | w lease error now status db' Hl He
    | w rt p fence recovering retryable t0 t1 t2 r db' _ He
    | w rt p fence result t0 t1 t2 t3 db' He | w p fence error retryable t0 t1 t2 r db' He]; cbn;
    [|left; eauto 15|..]; (right; split; [|done]).
  - apply enqueue_created in He as (key' & payload & nr & -> & _ & Hc).
    apply commit_task_Some in Hc as (Hn & _ & _ & ->). by apply te_new.
  - apply terminal_fail_true in He as (t & Ht & Hh & ->).
    rewrite (proj1 (update_run_after_attempt_other _ _ _ _ _)). eapply te_row; [done|].
    constructor; [by eapply holds_lease_running|done..].
  - apply recover_cas_Some in He as (t & Ht & Hr & Hv & _ & ->).
    rewrite (proj1 (update_run_after_attempt_other _ _ _ _ _)).
    destruct (snapshot_lease _ _ _ Hsn Ht Hv) as (_ & ? & ?).
    eapply te_row; [done|]. constructor; [done|by case_match..|].
    destruct (_ <=? _) eqn:E; [done|]. bool_prop. lia.
  - apply renew_true in He as (row & d & t & Hseen & Hd & _ & Ht & Hh & Hv & ->).
    destruct (Hsn _ Hseen) as [Hid Hsnap].
    destruct (renew_deadline_snapshot _ _ _ _ _ Hsnap Hid Ht Hv Hd) as (started & ? & ?).
    eapply te_row; [done|]. eapply row_renew; [done..|lia].
  - apply complete_true in He as [_ [-> | (t & Ht & Hh & ->)]]; [constructor|].
    eapply te_row; [done|]. constructor; [by eapply holds_lease_running|done..].
  - apply fail_Some in He as (-> & t & Ht & Hh & ->).
    rewrite (proj1 (update_run_after_attempt_other _ _ _ _ _)).
    destruct (inv_lease _ _ _ _ HI Hl Ht Hh) as (_ & ? & ?).
    eapply te_row; [done|]. unfold retryable.
    constructor; [by eapply holds_lease_running|by case_match..|].
    destruct (_ <? _) eqn:E; [|done]. bool_prop. lia.
  - apply exec_start_cases in He as [->|(row & db1 & _ & Hf & _ & Hc)]; [constructor|].
    apply task_effect_fence with (F := fun _ _ _ => False) in Hf.
    by destruct Hc as [->|(? & _ & ->)].
  - apply exec_finish_Ok in He as (row & db1 & _ & _ & Hf & _ & ->).
    apply finalize_task_execution_Ok in Hf as [[_ ->]|(f & t & _ & Ht & _ & Hl & _ & ->)];
      [constructor|].
    eapply te_row; [done|]. constructor; [by eapply holds_lease_running|done..].
  - apply exec_fail_cases in He as [->|(row & row' & db1 & _ & _ & Hf & _ & ->)]; [constructor|].
    cbn. by eapply task_effect_fence in Hf.
Qed.

Lemma row_step_mono (F G : string -> clock_time -> clock_time -> Prop) t t' :
  (forall tok now exp, F tok now exp -> G tok now exp) -> row_step F t t' -> row_step G t t'.
Proof. intros HFG []; econstructor; eauto. Qed.

Lemma task_effect_mono (F G : string -> clock_time -> clock_time -> Prop) ts ts' :
  (forall tok now exp, F tok now exp -> G tok now exp) -> task_effect F ts ts' -> task_effect G ts ts'.
Proof.
  intros HFG [|id t Hn Hq|id t t' Ht Hr]; [constructor|by constructor|].
  eapply te_row; [done|]. by eapply row_step_mono.
Qed.

Lemma step_task_effect w w' :
  Inv w -> step w w' ->
  task_effect (fun tok now exp => w_leases w !! tok = None
                 /\ exp = now + seconds (q_lease_seconds cfg))
    (db_tasks (w_db w)) (db_tasks (w_db w')).
Proof.
  intros HI Hs. destruct (step_cases _ _ HI Hs) as
    [(id & v & owner & token & now & db' & row & Hc & Hf & _ & ->)|[He _]].
  - apply claim_cas_Some in Hc as (t & Ht & _ & Hcl & ->). cbn. eapply te_row; [done|].
    by constructor.
  - by eapply task_effect_mono; [|exact He].
Qed.

(** Publication: the results of a run are extended only while it is running. *)
Definition results_effect (rs rs' : gmap string WorkflowRun)
    (m m' : gmap string (list CommitteeResult)) : Prop :=
  m' = m \/ exists id r r' c, rs !! id = Some r /\ r_status r = RUN_RUNNING
    /\ rs' !! id = Some r' /\ r_status r' = RUN_COMPLETED
    /\ m' = <[id := (default [] (m !! id) ++ [c])%list]> m.

Lemma runs_ok_new rs id r : rs !! id = None -> r_id r = id -> runs_ok rs (<[id := r]> rs).
Proof.
  intros Hn Hid. split.
  - intros id' r' H1. rewrite lookup_insert_ne by congruence. eauto.
  - intros id' r' H1 H2. destruct (decide (id = id')) as [->|].
    + rewrite lookup_insert_eq in H1. congruence.
    + rewrite lookup_insert_ne in H1 by done. congruence.
Qed.

Lemma fence_task_execution_other db fence run_id stage now db' :
  fence_task_execution db fence run_id stage now = Ok db' ->
  db_runs db' = db_runs db /\ db_results db' = db_results db.
Proof.
  by intros [[_ ->]|(f & t & _ & Ht & _ & Hl & _ & ->)]%fence_task_execution_Ok.
Qed.

Lemma step_runs w w' :
  Inv w -> step w w' ->
  w_leases w ⊆ w_leases w' /\ runs_ok (db_runs (w_db w)) (db_runs (w_db w'))
  /\ results_effect (db_runs (w_db w)) (db_runs (w_db w'))
       (db_results (w_db w)) (db_results (w_db w')).
Proof.
  intros HI Hs. unfold results_effect. destruct Hs as
    [w seen p key uuid now t db' He _ | w id v owner token now db' row Hc Hf _
    | w lease error now db' Hl He | w row now db' Hsn _ He | w seen lease now db' Hl Hsn He
    | w lease now db' Hl He | w lease error now status db' Hl He
    | w rt p fence recovering retryable t0 t1 t2 r db' Hne He
    | w rt p fence result t0 t1 t2 t3 db' He | w p fence error retryable t0 t1 t2 r db' He];
    cbn; try (split; [done|]).
  - apply enqueue_created in He as (key' & payload & nr & -> & Hnr & Hc).
    apply commit_task_Some in Hc as (_ & _ & Hr & ->). cbn. split; [|by left].
    destruct nr as [r|]; [|apply runs_ok_refl].
    apply runs_ok_new; [|done]. by apply Hr.
  - split; [by apply insert_subseteq|].
    apply claim_cas_Some in Hc as (t & Ht & _ & Hcl & ->). split; [apply runs_ok_refl|by left].
  - apply terminal_fail_true in He as (t & Ht & Hh & ->).
    rewrite (proj2 (update_run_after_attempt_other _ _ _ _ _)). split; [|by left].
    apply (runs_ok_update_run_after_attempt (with_tasks _ _)).
  - apply recover_cas_Some in He as (t & Ht & Hr & Hv & _ & ->).
    rewrite (proj2 (update_run_after_attempt_other _ _ _ _ _)). split; [|by left].
    apply (runs_ok_update_run_after_attempt (with_tasks _ _)).
  - apply renew_true in He as (row & d & t & _ & _ & _ & Ht & Hh & _ & ->).
    split; [apply runs_ok_refl|by left].
  - apply complete_true in He as [_ [-> | (t & Ht & Hh & ->)]];
      (split; [apply runs_ok_refl|by left]).
  - apply fail_Some in He as (-> & t & Ht & Hh & ->).
    rewrite (proj2 (update_run_after_attempt_other _ _ _ _ _)). split; [|by left].
    apply (runs_ok_update_run_after_attempt (with_tasks _ _)).
  - apply exec_start_cases in He as [->|(row & db1 & Hrow & Hf & Hst & Hc)];
      [split; [apply runs_ok_refl|by left]|].
    apply fence_task_execution_other in Hf as [Hr1 Hr2].
    destruct Hc as [->|(row' & Hid & ->)]; cbn; rewrite Hr1, Hr2;
      (split; [|by left]); [apply runs_ok_refl|].
    eapply runs_ok_set; [done..|]. congruence.
  - apply exec_finish_Ok in He as (row & db1 & Hrow & Hst & Hf & _ & ->).
    assert (db_runs db1 = db_runs (w_db w) /\ db_results db1 = db_results (w_db w)) as [Hr1 Hr2].
    { by apply finalize_task_execution_Ok in Hf as [[_ ->]|(f & t & _ & Ht & _ & Hl & _ & ->)]. }
    cbn. rewrite Hr1, Hr2. split.
    + eapply runs_ok_set; [done..|]. congruence.
    + right. eexists _, row, _, result. split_and!; [done|done|apply lookup_insert_eq|done|done].
  - apply exec_fail_cases in He as [->|(row & row' & db1 & Hrow & Hst & Hf & Hid & ->)];
      [split; [apply runs_ok_refl|by left]|].
    apply fence_task_execution_other in Hf as [Hr1 Hr2]. cbn. rewrite Hr1, Hr2.
    split; [|by left]. eapply runs_ok_set; [done..|]. congruence.
Qed.

(** ** The invariant is inductive *)

Lemma inv_update_run db leases id terminal e now :
  Inv (mkWorld db leases) ->
  Inv (mkWorld (update_run_after_attempt db id terminal e now) leases).
Proof.
  intros HI. eapply inv_set_runs; [done| | |apply runs_ok_update_run_after_attempt];
    apply update_run_after_attempt_other.
Qed.

Lemma inv_fence db leases fence run_id stage now db' :
  Inv (mkWorld db leases) -> fence_task_execution db fence run_id stage now = Ok db' ->
  Inv (mkWorld db' leases).
Proof.
  intros HI [[_ ->]|(f & t & _ & Ht & _ & Hl & _ & ->)]%fence_task_execution_Ok; [done|].
  by apply inv_stage.
Qed.

Lemma inv_claim db leases id t owner token now exp row :
  Inv (mkWorld db leases) -> db_tasks db !! id = Some t -> claimable now t = true ->
  leases !! token = None -> row = claim_values owner token now exp t ->
  Inv (mkWorld (with_tasks db (<[id := row]> (db_tasks db)))
         (<[token := lease_of row token owner]> leases)).
Proof.
  intros HI Ht Hc Hf ->. eapply inv_set_task; [done..| |].
  - by apply insert_subseteq.
  - apply row_ok_claim; [|done|done]. apply (inv_rows _ HI _ _ Ht).
Qed.

Lemma inv_set_run db leases id r r' :
  Inv (mkWorld db leases) -> db_runs db !! id = Some r -> r_id r' = r_id r ->
  r_status r <> RUN_COMPLETED -> Inv (mkWorld (set_run db id r') leases).
Proof. intros HI Hr ??. eapply inv_set_runs; [done..|]. by eapply runs_ok_set. Qed.

(** Publishing the result of a running run. *)
Lemma inv_publish db leases id r r' c :
  Inv (mkWorld db leases) -> db_runs db !! id = Some r -> r_status r = RUN_RUNNING ->
  r_id r' = r_id r -> r_status r' = RUN_COMPLETED ->
  Inv (mkWorld (mkDB (db_tasks db) (<[id := r']> (db_runs db)) (db_activation db)
        (<[id := (default [] (db_results db !! id) ++ [c])%list]> (db_results db))) leases).
Proof.
  intros HI Hr Hst Hid Hc.
  assert (HI' : Inv (mkWorld (set_run db id r') leases)) by (eapply inv_set_run; eauto; congruence).
  destruct HI' as [Hrows Huniq Hruns Hres]. split; cbn in *; try done.
  intros id' l Hl Hn. destruct (decide (id = id')) as [->|].
  - rewrite lookup_insert_eq in Hl. injection Hl as <-.
    assert (default [] (db_results db !! id') = []) as ->.
    { destruct (db_results db !! id') as [l0|] eqn:E; [|done]. cbn.
      destruct (decide (l0 = [])) as [|Hn0]; [done|].
      destruct (inv_results _ HI _ _ E Hn0) as (_ & r0 & ? & ?). cbn in *. congruence. }
    split; [done|]. exists r'. rewrite lookup_insert_eq. done.
  - rewrite lookup_insert_ne in Hl by done. by apply Hres.
Qed.

Lemma inv_new db leases new_run t db' :
  Inv (mkWorld db leases) -> commit_task db new_run t = Some db' ->
  t_status t = QUEUED -> ck_workflow_task_attempts t = true ->
  t_attempt_count t < t_max_attempts t -> ck_workflow_task_lease t = true ->
  t_lease_token t = None -> Inv (mkWorld db' leases).
Proof.
  intros HI (Hn & Huq & Hr & ->)%commit_task_Some Hst Hatt Hlt Hck Htok.
  assert (HI' : Inv (mkWorld (with_runs db
      (match new_run with Some r => <[r_id r := r]> (db_runs db) | None => db_runs db end)) leases)).
  { eapply inv_set_runs; [done..|]. destruct new_run as [r|]; [|apply runs_ok_refl].
    destruct (Hr r eq_refl) as [? _]. by apply runs_ok_new. }
  clear Hr. destruct HI' as [Hrows Huniq Hruns Hres]. split; cbn in *; try done.
  - intros id' t1 H1. destruct (decide (t_id t = id')) as [<-|].
    + rewrite lookup_insert_eq in H1. injection H1 as <-. split; try done; congruence.
    + rewrite lookup_insert_ne in H1 by done. by apply Hrows.
  - intros id1 id2 t1 t2 H1 H2 Heq.
    apply lookup_insert_Some in H1 as [[<- <-]|[? H1]];
      apply lookup_insert_Some in H2 as [[<- <-]|[? H2]]; [done| | |by eapply Huniq].
    + destruct (Huq _ _ H2) as [??]. destruct Heq; congruence.
    + destruct (Huq _ _ H1) as [??]. destruct Heq; congruence.
Qed.

Lemma step_inv w w' : 1 <= q_max_attempts cfg -> Inv w -> step w w' -> Inv w'.
Proof.
  intros Hcfg HI Hs. destruct Hs as
    [w seen p key uuid now t db' He _ | w id v owner token now db' row Hc Hf Hrow
    | w lease error now db' Hl He | w row now db' Hsn _ He | w seen lease now db' Hl Hsn He
    | w lease now db' Hl He | w lease error now status db' Hl He
    | w rt p fence recovering retryable t0 t1 t2 r db' Hne He
    | w rt p fence result t0 t1 t2 t3 db' He | w p fence error retryable t0 t1 t2 r db' He];
    destruct w as [db leases]; cbn in *.
  - apply enqueue_created in He as (key' & payload & nr & -> & _ & Hc).
    eapply inv_new; [exact HI|exact Hc|..]; cbn; try done; [|lia].
    unfold ck_workflow_task_attempts; cbn. repeat (apply andb_true_iff; split); lia.
  - apply claim_cas_Some in Hc as (t & Ht & _ & Hcl & ->). cbn in Hrow.
    rewrite lookup_insert_eq in Hrow. injection Hrow as <-. by eapply inv_claim.
  - apply terminal_fail_true in He as (t & Ht & Hh & ->). by apply inv_update_run, inv_release.
  - apply recover_cas_Some in He as (t & Ht & Hr & Hv & _ & ->).
    destruct (snapshot_lease _ _ _ Hsn Ht Hv) as (_ & ? & ?).
    apply inv_update_run, inv_release; try done; try (by case_match).
    destruct (_ <=? _) eqn:E; [done|]. bool_prop. lia.
  - apply renew_true in He as (row & d & t & _ & _ & _ & Ht & Hh & _ & ->).
    eapply inv_set_task; [done..|]. apply row_ok_renew; [|by eapply holds_lease_running].
    apply (inv_rows _ HI _ _ Ht).
  - apply complete_true in He as [Hrun [-> | (t & Ht & Hh & ->)]]; [done|].
    apply inv_release; try done. intros _.
    by destruct (inv_lease _ _ _ _ HI Hl Ht Hh) as (<- & _ & _).
  - apply fail_Some in He as (-> & t & Ht & Hh & ->).
    destruct (inv_lease _ _ _ _ HI Hl Ht Hh) as (_ & ? & ?). unfold retryable.
    apply inv_update_run, inv_release; try done; try (by case_match). cbn in *.
    destruct (_ <? _) eqn:E; [|done]. bool_prop. lia.
  - apply exec_start_cases in He as [->|(row & db1 & Hrow & Hf & Hst & Hc)]; [done|].
    pose proof (inv_fence _ _ _ _ _ _ _ HI Hf) as HI1.
    apply fence_task_execution_other in Hf as [Hr1 Hr2].
    destruct Hc as [->|(row' & Hid & ->)]; [done|].
    eapply inv_set_run; [done|by rewrite Hr1|done|congruence].
  - apply exec_finish_Ok in He as (row & db1 & Hrow & Hst & Hf & _ & ->).
    assert (Hp : Inv (mkWorld (mkDB (db_tasks db)
        (<[r_id (pr_row p) := completed_values t0 t1 result row]> (db_runs db)) (db_activation db)
        (<[r_id (pr_row p) := (default [] (db_results db !! r_id (pr_row p)) ++ [result])%list]>
           (db_results db))) leases)) by (by eapply inv_publish).
    apply finalize_task_execution_Ok in Hf as [[_ ->]|(f & t & _ & Ht & Hrun & Hl & _ & ->)]; [done|].
    cbn. apply (inv_release _ _ _ _ COMPLETED (t_available_at t) None t3 (Some t3)) with (1 := Hp);
      try done. intros _. cbn. rewrite Hrun, lookup_insert_eq. eauto.
  - apply exec_fail_cases in He as [->|(row & row' & db1 & Hrow & Hst & Hf & Hid & ->)]; [done|].
    pose proof (inv_fence _ _ _ _ _ _ _ HI Hf) as HI1.
    apply fence_task_execution_other in Hf as [Hr1 Hr2].
    eapply inv_set_run; [done|by rewrite Hr1|done|congruence].
Qed.

(** ** Reachable worlds *)

Definition initial (w : World) : Prop :=
  db_tasks (w_db w) = ∅ /\ db_results (w_db w) = ∅ /\ w_leases w = ∅
  /\ forall id r, db_runs (w_db w) !! id = Some r -> r_id r = id.

Definition reachable (w : World) : Prop := exists w0, initial w0 /\ rtc step w0 w.

Lemma init_attempts : init cfg = Ok cfg -> 1 <= q_max_attempts cfg.
Proof. unfold init. intros Hk. inv_ok Hk. bool_prop. lia. Qed.

Lemma init_timeout : init cfg = Ok cfg ->
  1 <= q_lease_seconds cfg <= q_timeout_seconds cfg /\ 0 <= q_retry_delay_seconds cfg.
Proof. unfold init. intros Hk. inv_ok Hk. bool_prop. lia. Qed.

Lemma initial_inv w : initial w -> Inv w.
Proof.
  intros (Ht & Hr & Hl & Hruns). split; rewrite ?Ht, ?Hr; try done.
Qed.

(** An invariant of the initial worlds and of the steps holds of every
    reachable world and along every run from it. *)
Lemma reachable_rtc w w' : reachable w -> rtc step w w' -> reachable w'.
Proof. intros (w0 & ? & ?) ?. exists w0. split; [done|]. by etrans. Qed.

Lemma reachable_invariant (P : World -> Prop) :
  init cfg = Ok cfg -> (forall w, initial w -> P w) ->
  (forall w w', Inv w -> Inv w' -> P w -> step w w' -> P w') ->
  forall w, reachable w -> P w.
Proof.
  intros Hcfg Hi Hs w (w0 & Hinit & Hrtc).
  assert (Inv w0 /\ P w0) as HI by (split; [by apply initial_inv|auto]).
  clear Hinit. induction Hrtc as [w|w w1 w2 Hst _ IH]; [tauto|].
  assert (Inv w1) by (eapply step_inv; [by apply init_attempts|apply HI|done]).
  apply IH. split; [done|]. eapply Hs; [apply HI|done|apply HI|done].
Qed.

Lemma reachable_inv w : init cfg = Ok cfg -> reachable w -> Inv w.
Proof.
  intros Hcfg. apply (reachable_invariant Inv Hcfg); [apply initial_inv|auto].
Qed.

Lemma rtc_invariant (P : World -> Prop) w w' :
  init cfg = Ok cfg -> reachable w -> rtc step w w' ->
  (forall w1 w2, Inv w1 -> P w1 -> step w1 w2 -> P w2) -> P w -> P w'.
Proof.
  intros Hcfg Hr Hrtc Hs HP. apply (reachable_inv _ Hcfg) in Hr as HI. clear Hr.
  induction Hrtc as [w|w w1 w2 Hst _ IH]; [done|].
  apply IH; [by eapply Hs|]. eapply step_inv; [by apply init_attempts|done|done].
Qed.

(** Every task row evolves along a run. *)
Lemma step_evolves w w' id t :
  Inv w -> step w w' -> db_tasks (w_db w) !! id = Some t ->
  exists t', db_tasks (w_db w') !! id = Some t' /\ evolves t t'.
Proof.
  intros HI Hs Ht. destruct (step_task_effect _ _ HI Hs) as [|id' t' Hn|id' t1 t' H1 Hrow].
  - exists t. split; [done|apply evolves_refl].
  - exists t. rewrite lookup_insert_ne by congruence. split; [done|apply evolves_refl].
  - destruct (decide (id' = id)) as [->|].
    + rewrite lookup_insert_eq. exists t'. simplify_map_eq. split; [done|].
      by eapply row_step_evolves.
    + rewrite lookup_insert_ne by done. exists t. split; [done|apply evolves_refl].
Qed.

Lemma rtc_evolves w w' id t :
  init cfg = Ok cfg -> reachable w -> rtc step w w' -> db_tasks (w_db w) !! id = Some t ->
  exists t', db_tasks (w_db w') !! id = Some t' /\ evolves t t'.
Proof.
  intros Hcfg Hr Hrtc Ht.
  apply (rtc_invariant (fun w' => exists t', db_tasks (w_db w') !! id = Some t' /\ evolves t t')
           w w'); try done.
  - intros w1 w2 HI (t1 & H1 & He) Hs.
    destruct (step_evolves _ _ _ _ HI Hs H1) as (t2 & ? & ?). exists t2.
    split; [done|]. by eapply evolves_trans.
  - exists t. split; [done|apply evolves_refl].
Qed.

(** ** Fencing *)

(** The task of the lease is no longer held under its token. *)
Definition revoked (db : DB) (lease : TaskLease) : Prop :=
  forall t, db_tasks db !! l_task_id lease = Some t ->
  t_lease_token t <> Some (l_lease_token lease).

Lemma step_revoked w w' lease :
  Inv w -> w_leases w !! l_lease_token lease = Some lease /\ revoked (w_db w) lease ->
  step w w' -> w_leases w' !! l_lease_token lease = Some lease /\ revoked (w_db w') lease.
Proof.
  intros HI [Hl Hrev] Hs. split.
  { eapply lookup_weaken; [done|]. by apply step_runs. }
  unfold revoked in *.
  destruct (step_task_effect _ _ HI Hs) as [|id t Hn Hq|id t t' Ht Hrow]; [done|..];
    intros t1 [[Heq <-]|[? H1]]%lookup_insert_Some; try by apply Hrev.
  - destruct Hq as (_ & _ & _ & _ & ->). done.
  - rewrite Heq in Ht. specialize (Hrev _ Ht).
    destruct Hrow as [? ? ? ? ? _ [Hfr _]| | |]; cbn; try done. congruence.
Qed.

Lemma revoked_holds db lease t now :
  revoked db lease -> db_tasks db !! l_task_id lease = Some t ->
  holds_lease (l_lease_token lease) now t = false.
Proof.
  intros Hrev Ht. apply not_true_iff_false. rewrite holds_lease_spec.
  intros (_ & Htok & _). by apply (Hrev _ Ht).
Qed.

Lemma revoked_update db lease p f now :
  revoked db lease ->
  (forall t, p t = true -> holds_lease (l_lease_token lease) now t = true) ->
  update_task db (l_task_id lease) p f = None.
Proof.
  intros Hrev Hp. destruct (update_task _ _ _ _) eqn:E; [|done].
  apply update_task_Some in E as (t & Ht & Hpt & _).
  apply Hp in Hpt. by rewrite (revoked_holds _ _ _ _ Hrev Ht) in Hpt.
Qed.

(** Everything a worker can do with its lease, with the answer that means
    that the database refused it. *)
Definition refused (db : DB) (lease : TaskLease) : Prop :=
  forall now now' error seen run_id stage,
  renew cfg seen db lease now = (false, db)
  /\ fail cfg db lease error now = (None, db)
  /\ fail_terminal db lease error now = (false, db)
  /\ is_ok (assert_execution_fence db (lease_fence lease) now) = false
  /\ is_ok (fence_execution db (lease_fence lease) run_id stage now) = false
  /\ is_ok (finalize_execution_fence db (lease_fence lease) run_id now now') = false
  /\ (forall b db', complete db lease now = Ok (b, db') -> db' = db).

Lemma revoked_refused db lease : revoked db lease -> refused db lease.
Proof.
  intros Hrev now now' error seen run_id stage.
  assert (Hf : fence_execution db (lease_fence lease) run_id stage now
    = raise StaleTaskLeaseError (stale_message (lease_fence lease))).
  { unfold fence_execution, lease_fence. cbn.
    erewrite revoked_update; [done|done|]. cbn. intros t ?. bool_prop. eassumption. }
  assert (Hfin : forall now'', is_ok (finalize_execution_fence db (lease_fence lease) run_id now now'')
    = false).
  { intros now''. unfold finalize_execution_fence. unfold fence_execution, lease_fence. cbn.
    erewrite revoked_update; [done|done|]. cbn. intros t ?. bool_prop. eassumption. }
  split_and!.
  - unfold renew. destruct (_ ≫= _) as [[row d]|]; [|done]. destruct (_ <=? _); [done|].
    erewrite revoked_update; [done|done|]. cbn. intros t ?. bool_prop. eassumption.
  - unfold fail. by erewrite revoked_update.
  - unfold fail_terminal, terminal_fail_in_session. by erewrite revoked_update.
  - unfold assert_execution_fence. cbn. destruct (db_tasks db !! _) as [t|] eqn:Ht; [|done].
    by rewrite (revoked_holds _ _ _ _ Hrev Ht).
  - by rewrite Hf.
  - apply Hfin.
  - intros b db' Hk. unfold complete in Hk. inv_ok Hk.
    destruct (match db_tasks db !! l_task_id lease with Some _ => _ | None => _ end);
      [by injection Hk|].
    erewrite revoked_update in Hk; [by injection Hk|done..].
Qed.

(** ** Counting the attempts *)

(** The leases issued so far for a task. *)
Definition issued (w : World) (id : string) : nat :=
  size (filter (fun '(_, l) => l_task_id l = id) (w_leases w)).

Definition counted (w : World) : Prop :=
  (forall tok l, w_leases w !! tok = Some l -> isSome (db_tasks (w_db w) !! l_task_id l) = true)
  /\ forall id t, db_tasks (w_db w) !! id = Some t ->
       Z.of_nat (issued w id) = t_attempt_count t
       /\ t_max_attempts t = q_max_attempts cfg /\ t_timeout_seconds t = q_timeout_seconds cfg.

Lemma issued_none w id :
  (forall tok l, w_leases w !! tok = Some l -> isSome (db_tasks (w_db w) !! l_task_id l) = true) ->
  db_tasks (w_db w) !! id = None -> issued w id = 0%nat.
Proof.
  intros Hs Hn. apply map_size_empty_iff, map_empty. intros tok.
  apply map_lookup_filter_None. right. intros l Hl <-. apply Hs in Hl. by rewrite Hn in Hl.
Qed.

Lemma step_counted w w' : Inv w -> counted w -> step w w' -> counted w'.
Proof.
  intros HI [Hs Hc] Hst. split.
  - intros tok l Hl. destruct (step_cases _ _ HI Hst) as
      [(id & v & owner & token & now & db' & row & Hcas & Hf & Hrow & ->)|[He Hleases]].
    + cbn in *. apply claim_cas_Some in Hcas as (t & Ht & _ & Hcl & ->). cbn in *.
      rewrite lookup_insert_eq in Hrow. injection Hrow as <-.
      apply lookup_insert_Some in Hl as [[<- <-]|[_ Hl]]; cbn.
      * rewrite (ok_id _ _ _ _ (inv_rows _ HI _ _ Ht)). by rewrite lookup_insert_eq.
      * apply Hs in Hl. destruct (decide (id = l_task_id l)) as [->|].
        -- by rewrite lookup_insert_eq.
        -- by rewrite lookup_insert_ne.
    + rewrite Hleases in Hl. apply Hs in Hl.
      destruct (db_tasks (w_db w) !! _) as [t|] eqn:Ht; [|done].
      by destruct (step_evolves _ _ _ _ HI Hst Ht) as (? & -> & _).
  - intros id t' Ht'. destruct (step_cases _ _ HI Hst) as
      [(id1 & v & owner & token & now & db' & row & Hcas & Hf & Hrow & ->)|[He Hleases]].
    + cbn in *. apply claim_cas_Some in Hcas as (t & Ht & _ & Hcl & ->). cbn in *.
      rewrite lookup_insert_eq in Hrow. injection Hrow as <-.
      destruct (Hc _ _ Ht) as (Hcount & Hmax & Hto).
      apply lookup_insert_Some in Ht' as [[<- <-]|[Hne Ht']]; cbn.
      * split; [|done]. pose proof (ok_id _ _ _ _ (inv_rows _ HI _ _ Ht)) as Hid.
        unfold issued in *; cbn. rewrite map_filter_insert_True by done.
        rewrite map_size_insert_None by (apply map_lookup_filter_None; by left). lia.
      * destruct (Hc _ _ Ht') as (Hcount' & ? & ?). split; [|done]. rewrite <- Hcount'.
        pose proof (ok_id _ _ _ _ (inv_rows _ HI _ _ Ht)) as Hid.
        unfold issued; cbn. rewrite map_filter_insert_False by (cbn; congruence).
        by rewrite delete_id.
    + unfold issued. rewrite Hleases. change (size _) with (issued w id).
      destruct He as [|id1 t Hn Hq|id1 t t1 Ht Hrow]; [by apply Hc|..];
        apply lookup_insert_Some in Ht' as [[<- <-]|[Hne Ht']]; try by apply Hc.
      * destruct Hq as (_ & -> & -> & -> & _). by rewrite issued_none.
      * destruct (Hc _ _ Ht) as (Hcount & ? & ?). rewrite Hcount. by destruct Hrow.
Qed.

Lemma reachable_counted w : init cfg = Ok cfg -> reachable w -> counted w.
Proof.
  intros Hcfg. apply (reachable_invariant _ Hcfg).
  - intros w0 (Ht & _ & Hl & _). unfold counted. by rewrite Ht, Hl.
  - intros w0 w1 HI _ Hc Hs. by eapply step_counted.
Qed.

(** ** Deadlines *)

(** A lease expires before the attempt's own deadline. *)
Definition deadline_ok (t : WorkflowTask) : Prop :=
  t_status t = RUNNING ->
  exists started expires, t_attempt_started_at t = Some started
    /\ t_lease_expires_at t = Some expires /\ expires <= started + seconds (t_timeout_seconds t).

Lemma step_deadline w w' :
  init cfg = Ok cfg -> Inv w -> counted w -> step w w' ->
  (forall id t, db_tasks (w_db w) !! id = Some t -> deadline_ok t) ->
  forall id t, db_tasks (w_db w') !! id = Some t -> deadline_ok t.
Proof.
  intros Hcfg HI [_ Hc] Hs Hd. apply init_timeout in Hcfg.
  destruct (step_task_effect _ _ HI Hs) as [|id t Hn Hq|id t t' Ht Hrow]; [done|..];
    intros id' t1 [[<- <-]|[? H1]]%lookup_insert_Some; try by eapply Hd.
  - destruct Hq as (Hq & _). intros ?. congruence.
  - specialize (Hd _ _ Ht). destruct (Hc _ _ Ht) as (_ & _ & Hto).
    destruct Hrow as [owner token now exp t Hcl [_ ->]|st av err now comp t Hr Hn Hq _
                     |token st exp now t Hh Hst Hle|token stage now t Hh]; intros Hrun; cbn in *.
    + do 2 eexists. do 2 (split; [done|]). rewrite Hto.
      apply Z.add_le_mono_l, seconds_le. lia.
    + done.
    + eauto.
    + by apply Hd.
Qed.

Lemma reachable_deadline w :
  init cfg = Ok cfg -> reachable w ->
  forall id t, db_tasks (w_db w) !! id = Some t -> deadline_ok t.
Proof.
  intros Hcfg Hr.
  apply (reachable_invariant (fun w => counted w
    /\ forall id t, db_tasks (w_db w) !! id = Some t -> deadline_ok t) Hcfg) with (w := w); [..|done].
  - intros w0 (Ht & _ & Hl & _). split; [unfold counted|]; by rewrite Ht, ?Hl.
  - intros w0 w1 HI _ [Hc Hd] Hs. split; [by eapply step_counted|by eapply step_deadline].
Qed.

End Steps.

End QueueTheory.
