(* ===== verification/QueueSpec.v ===== *)
(** * Functional specification of the queue operations

    What recovery, claiming, enqueueing and a whole worker turn compute, and
    that they are sequences of the atomic steps of [QueueTheory]. *)
From S2P Require Import Prelude PyStr PyTime Float64 Domain Json Models TaskQueue Execution.
From S2P Require Import QueueTheory.
Import PyStr PyTime Float64 Domain Json Models TaskQueue Execution QueueTheory.
Open Scope string_scope.
Open Scope Z_scope.

Module QueueSpec.

(** The rows of a table sit under their identifiers. *)
Definition keyed (db : DB) : Prop := forall id t, db_tasks db !! id = Some t -> t_id t = id.

(** What recovery makes of an expired row and of its run. *)
Definition recovered_row (cfg : Config) (now : clock_time) (row : WorkflowTask) : WorkflowTask :=
  let terminal := t_max_attempts row <=? t_attempt_count row in
  release_values (if terminal then FAILED else RETRY_WAIT)
    (if terminal then now else now + seconds (q_retry_delay_seconds cfg))
    (Some (recovery_message row)) now (if terminal then Some now else None) row.

Definition recovers (now : clock_time) (row : WorkflowTask) : bool :=
  bool_decide (t_status row = RUNNING) && attempt_expired row now.

Definition recovered_run (row : WorkflowTask) (now : clock_time) (r : WorkflowRun) : WorkflowRun :=
  if bool_decide (r_status r = RUN_COMPLETED) then r
  else run_after_attempt (t_max_attempts row <=? t_attempt_count row) (recovery_message row) now r.

Lemma update_run_lookup db id terminal e now rid :
  db_runs (update_run_after_attempt db id terminal e now) !! rid =
  if decide (rid = id) then
    (fun r => if bool_decide (r_status r = RUN_COMPLETED) then r
              else run_after_attempt terminal e now r) <$> db_runs db !! rid
  else db_runs db !! rid.
Proof.
  unfold update_run_after_attempt. destruct (decide (rid = id)) as [->|Hne].
  - destruct (db_runs db !! id) as [r|] eqn:Hr; cbn; [|by rewrite Hr].
    case_bool_decide; [by rewrite Hr|]. cbn. by rewrite lookup_insert_eq.
  - destruct (db_runs db !! id) as [r|]; [|done]. case_bool_decide; [done|].
    cbn. by rewrite lookup_insert_ne.
Qed.

Lemma recover_cas_current cfg db row now :
  db_tasks db !! t_id row = Some row -> t_status row = RUNNING ->
  exists db', recover_cas cfg db row now = Some db'
    /\ db_tasks db' = <[t_id row := recovered_row cfg now row]> (db_tasks db)
    /\ (forall rid, db_runs db' !! rid = if decide (rid = t_run_id row)
          then recovered_run row now <$> db_runs db !! rid else db_runs db !! rid)
    /\ db_results db' = db_results db /\ db_activation db' = db_activation db.
Proof.
  intros Ht Hr. unfold recover_cas, update_task. rewrite Ht.
  rewrite !bool_decide_true, Z.eqb_refl by done. cbn. eexists; split; [done|].
  split_and!.
  - by rewrite (proj1 (update_run_after_attempt_other _ _ _ _ _)).
  - intros rid. rewrite update_run_lookup. done.
  - by rewrite (proj2 (update_run_after_attempt_other _ _ _ _ _)).
  - unfold update_run_after_attempt. cbn. destruct (db_runs db !! _); [|done].
    by case_bool_decide.
Qed.

Lemma recover_fold cfg now l n db n' db' :
  NoDup (t_id <$> l) ->
  (forall row, row ∈ l -> db_tasks db !! t_id row = Some row /\ t_status row = RUNNING) ->
  fold_left (recover_step cfg now) l (n, db) = (n', db') ->
  n' = n + Z.of_nat (length (filter (fun row => attempt_expired row now = true) l))
  /\ (forall row, row ∈ l -> db_tasks db' !! t_id row =
        Some (if attempt_expired row now then recovered_row cfg now row else row))
  /\ (forall id, id ∉ t_id <$> l -> db_tasks db' !! id = db_tasks db !! id)
  /\ (forall rid, rid ∉ t_run_id <$> filter (fun row => attempt_expired row now = true) l ->
        db_runs db' !! rid = db_runs db !! rid)
  /\ (NoDup (t_run_id <$> l) -> forall row, row ∈ l -> attempt_expired row now = true ->
        db_runs db' !! t_run_id row = recovered_run row now <$> db_runs db !! t_run_id row).
Proof.
  revert n db. induction l as [|row l IH]; intros n db Hnd Hl; cbn [fold_left].
  { intros [= <- <-]. split; [cbn; lia|]. split; [by intros ? ?%not_elem_of_nil|].
    split; [done|]. split; [done|]. by intros _ ? ?%not_elem_of_nil. }
  apply NoDup_cons in Hnd as [Hnin Hnd].
  destruct (Hl row) as [Ht Hr]; [by left|]. unfold recover_step at 2.
  destruct (attempt_expired row now) eqn:Hexp.
  - destruct (recover_cas_current cfg db row now Ht Hr) as (db1 & -> & Htasks & Hruns & _).
    intros Hf. apply IH in Hf as (Hn & Hin & Hout & Hro & Hri); [..|done|].
    2: { intros row' Hin. rewrite Htasks. destruct (Hl row') as [? ?]; [by right|].
         rewrite lookup_insert_ne; [done|]. intros Heq. apply Hnin. rewrite Heq.
         by apply list_elem_of_fmap_2. }
    rewrite filter_cons_True by done. cbn [length fmap list_fmap]. split; [lia|]. split_and!.
    + intros row' [->|Hin']%elem_of_cons; [|by apply Hin].
      rewrite Hout, Htasks by done. by rewrite lookup_insert_eq, Hexp.
    + intros id [Hne Hid]%not_elem_of_cons. rewrite Hout, Htasks by done.
      by rewrite lookup_insert_ne.
    + intros rid [Hne Hid]%not_elem_of_cons. rewrite Hro by done. rewrite Hruns.
      by destruct (decide _).
    + intros [Hnr Hndr]%NoDup_cons row' [->|Hin']%elem_of_cons Hexp'.
      * assert (t_run_id row ∉ t_run_id <$> filter (fun row => attempt_expired row now = true) l).
        { intros (x & Heq & [_ ?]%list_elem_of_filter)%list_elem_of_fmap.
          apply Hnr. rewrite Heq. by apply list_elem_of_fmap_2. }
        by rewrite Hro, Hruns, decide_True.
      * rewrite Hri, Hruns by done. rewrite decide_False; [done|]. intros Heq. apply Hnr.
        rewrite <- Heq. by apply list_elem_of_fmap_2.
  - intros Hf. apply IH in Hf as (Hn & Hin & Hout & Hro & Hri); [..|done|].
    2: { intros row' Hin. apply Hl. by right. }
    rewrite filter_cons_False by congruence. split; [done|]. split_and!.
    + intros row' [->|Hin']%elem_of_cons; [|by apply Hin]. rewrite Hout by done. by rewrite Hexp.
    + intros id [Hne Hid]%not_elem_of_cons. by apply Hout.
    + done.
    + intros [Hnr Hndr]%NoDup_cons row' [->|Hin']%elem_of_cons Hexp'; [congruence|by apply Hri].
Qed.

(** The rows of a table, each once. *)
Lemma rows_ids db : keyed db -> t_id <$> (snd <$> map_to_list (db_tasks db)) = fst <$> map_to_list (db_tasks db).
Proof.
  intros Hk. rewrite <- list_fmap_compose. apply list_fmap_ext.
  intros i [id t] Hi. cbn. apply Hk. apply elem_of_map_to_list. by eapply list_elem_of_lookup_2.
Qed.

Lemma rows_elem db t : keyed db ->
  t ∈ (snd <$> map_to_list (db_tasks db)) <-> db_tasks db !! t_id t = Some t.
Proof.
  intros Hk. rewrite list_elem_of_fmap. split.
  - intros ([id t'] & -> & Hin). apply elem_of_map_to_list in Hin. cbn.
    by rewrite (Hk _ _ Hin).
  - intros Ht. exists (t_id t, t). split; [done|]. by apply elem_of_map_to_list.
Qed.

Lemma running_elem db t : keyed db ->
  t ∈ running_tasks db <-> db_tasks db !! t_id t = Some t /\ t_status t = RUNNING.
Proof.
  intros Hk. unfold running_tasks. rewrite (merge_sort_Permutation created_order).
  rewrite list_elem_of_filter, rows_elem by done. tauto.
Qed.

(** Distinct keys of a table stay distinct under selection and sorting. *)
Lemma NoDup_rows {B} (f : WorkflowTask -> B) db (R : relation WorkflowTask)
    `{!RelDecision R} (P : WorkflowTask -> Prop) `{!forall t, Decision (P t)} :
  (forall id1 id2 t1 t2, db_tasks db !! id1 = Some t1 -> db_tasks db !! id2 = Some t2 ->
     f t1 = f t2 -> id1 = id2) ->
  NoDup (f <$> merge_sort R (filter P (snd <$> map_to_list (db_tasks db)))).
Proof.
  intros Hinj. rewrite (merge_sort_Permutation R).
  eapply sublist_NoDup; [|apply fmap_sublist, sublist_filter].
  rewrite <- list_fmap_compose. apply NoDup_fmap_2_strong; [|apply NoDup_map_to_list].
  intros [id1 t1] [id2 t2] H1%elem_of_map_to_list H2%elem_of_map_to_list Heq.
  assert (id1 = id2) as -> by eauto. congruence.
Qed.

Lemma NoDup_running_ids db : keyed db -> NoDup (t_id <$> running_tasks db).
Proof.
  intros Hk. apply NoDup_rows. intros id1 id2 t1 t2 H1 H2.
  by rewrite (Hk _ _ H1), (Hk _ _ H2).
Qed.

Lemma recover_expired_rows cfg db now n db' :
  keyed db -> recover_expired cfg db now = (n, db') ->
  db_tasks db' = (fun t => if recovers now t then recovered_row cfg now t else t) <$> db_tasks db.
Proof.
  intros Hk Hf. apply recover_fold in Hf as (_ & Hin & Hout & _); [|by apply NoDup_running_ids|].
  2: { intros row ?. by apply running_elem. }
  apply map_eq. intros id. rewrite lookup_fmap. unfold recovers.
  destruct (db_tasks db !! id) as [t|] eqn:Ht; cbn.
  - pose proof (Hk _ _ Ht) as <-. destruct (decide (t_status t = RUNNING)) as [Hr|Hr].
    + rewrite Hin by (by apply running_elem). by rewrite bool_decide_true.
    + rewrite bool_decide_false by done. cbn. rewrite Hout; [done|].
      intros (t' & Heq & (Ht' & ?)%running_elem)%list_elem_of_fmap; [|done].
      rewrite <- Heq in Ht'. congruence.
  - rewrite Hout; [done|].
    intros (t' & -> & (? & ?)%running_elem)%list_elem_of_fmap; [congruence|done].
Qed.

Lemma recover_expired_count cfg db now n db' :
  keyed db -> recover_expired cfg db now = (n, db') ->
  n = Z.of_nat (length (filter (fun t => recovers now t = true) (snd <$> map_to_list (db_tasks db)))).
Proof.
  intros Hk Hf. apply recover_fold in Hf as (-> & _); [|by apply NoDup_running_ids|].
  2: { intros row ?. by apply running_elem. }
  rewrite Z.add_0_l. unfold running_tasks. rewrite (merge_sort_Permutation created_order).
  rewrite list_filter_filter. do 2 f_equal. apply list_filter_iff. intros t. unfold recovers.
  rewrite andb_true_iff, bool_decide_eq_true. tauto.
Qed.

Lemma recover_expired_runs cfg db now n db' :
  keyed db -> recover_expired cfg db now = (n, db') ->
  (forall id1 id2 t1 t2, db_tasks db !! id1 = Some t1 -> db_tasks db !! id2 = Some t2 ->
     t_run_id t1 = t_run_id t2 -> id1 = id2) ->
  (forall id t, db_tasks db !! id = Some t -> recovers now t = true ->
     db_runs db' !! t_run_id t = recovered_run t now <$> db_runs db !! t_run_id t)
  /\ (forall rid, (forall id t, db_tasks db !! id = Some t -> recovers now t = true -> t_run_id t <> rid) ->
       db_runs db' !! rid = db_runs db !! rid).
Proof.
  intros Hk Hf Hu. apply recover_fold in Hf as (_ & _ & _ & Hro & Hri); [|by apply NoDup_running_ids|].
  2: { intros row ?. by apply running_elem. }
  unfold recovers. split.
  - intros id t Ht [Hr Hexp]%andb_true_iff. bool_prop. apply Hri; [by apply NoDup_rows| |done].
    apply running_elem; [done|]. by rewrite (Hk _ _ Ht).
  - intros rid Hno. apply Hro.
    intros (t & -> & [Hexp [Ht Hr]%running_elem]%list_elem_of_filter)%list_elem_of_fmap; [|done].
    apply (Hno _ _ Ht); [|done]. by rewrite bool_decide_true, Hexp.
Qed.

(** ** Refinement: recovery and claiming are sequences of atomic steps *)

Section Refinement.
Context `{PyRuntime} `{CanonicalHash}.
Context (sha256 : string -> string) (cfg : Config) (program_hash : string).
Context (Hcfg : init cfg = Ok cfg).

Local Abbreviation step := (step sha256 cfg program_hash).

Lemma inv_keyed w : Inv w -> keyed (w_db w).
Proof. intros HI id t Ht. apply (ok_id _ _ _ _ (inv_rows _ HI _ _ Ht)). Qed.

Lemma rtc_inv w w' : Inv w -> rtc step w w' -> Inv w'.
Proof.
  intros HI. induction 1 as [|w w1 w2 Hs _ IH]; [done|]. apply IH.
  eapply step_inv; [by apply init_attempts|done|done].
Qed.

Lemma recover_steps now l leases : forall n db,
  Inv (mkWorld db leases) -> (forall row, row ∈ l -> snapshot_of db row) ->
  rtc step (mkWorld db leases)
           (mkWorld (snd (fold_left (recover_step cfg now) l (n, db))) leases).
Proof.
  induction l as [|row l IH]; intros n db HI Hl; [done|]. cbn [fold_left].
  unfold recover_step at 2. destruct (attempt_expired row now) eqn:Hexp.
  2: { apply IH; [done|]. intros row' ?. apply Hl. by right. }
  destruct (recover_cas cfg db row now) as [db1|] eqn:Hc.
  2: { apply IH; [done|]. intros row' ?. apply Hl. by right. }
  assert (Hs : step (mkWorld db leases) (mkWorld db1 leases)).
  { eapply (step_recover _ _ _ (mkWorld db leases)); [|done|done]. apply Hl. by left. }
  eapply rtc_l; [exact Hs|]. apply IH.
  - eapply step_inv; [by apply init_attempts|done|done].
  - intros row' Hin. destruct (Hl row') as (t & Ht & He); [by right|].
    destruct (step_evolves _ _ _ _ _ _ _ HI Hs Ht) as (t' & Ht' & He').
    exists t'. split; [done|]. by eapply evolves_trans.
Qed.

Lemma recover_expired_steps now db leases :
  Inv (mkWorld db leases) ->
  rtc step (mkWorld db leases) (mkWorld (snd (recover_expired cfg db now)) leases).
Proof.
  intros HI. apply recover_steps; [done|]. intros row [Hr _]%running_elem.
  - exists row. split; [done|apply evolves_refl].
  - by apply inv_keyed in HI.
Qed.

Lemma claim_loop_steps owner now uuid cands :
  (forall i j : nat, uuid i = uuid j -> i = j) ->
  forall i db leases o db',
  Inv (mkWorld db leases) -> (forall k, (i <= k)%nat -> leases !! uuid k = None) ->
  claim_loop cfg db owner now uuid i cands = (o, db') ->
  exists leases', rtc step (mkWorld db leases) (mkWorld db' leases')
    /\ forall l, o = Some l -> leases' !! l_lease_token l = Some l.
Proof.
  intros Hinj. induction cands as [|[id v] cands IH]; intros i db leases o db' HI Hfresh; cbn.
  { intros [= <- <-]. by exists leases. }
  destruct (claim_cas cfg db id v owner (uuid i) now) as [db1|] eqn:Hc.
  2: { apply IH; [done|]. intros. apply Hfresh. lia. }
  pose proof (claim_cas_Some _ _ _ _ _ _ _ _ Hc) as (t & Ht & _ & Hcl & Hdb1).
  assert (exists row, db_tasks db1 !! id = Some row) as [row Hrow].
  { rewrite Hdb1. cbn. rewrite lookup_insert_eq. eauto. }
  rewrite Hrow.
  assert (Hs : step (mkWorld db leases)
      (mkWorld db1 (<[uuid i := lease_of row (uuid i) owner]> leases))).
  { eapply (step_claim _ _ _ (mkWorld db leases)); [exact Hc| |exact Hrow]. apply Hfresh. lia. }
  pose proof (step_inv _ _ _ _ _ (init_attempts _ Hcfg) HI Hs) as HI1.
  destruct (validate_payload row) as [[]|exc].
  { intros [= <- <-]. eexists. split; [by apply rtc_once|].
    intros l [= <-]. apply lookup_insert_eq. }
  destruct (terminal_fail_in_session db1 _ _ now) as [b db2] eqn:Hf.
  assert (Hf' : rtc step (mkWorld db1 (<[uuid i := lease_of row (uuid i) owner]> leases))
      (mkWorld db2 (<[uuid i := lease_of row (uuid i) owner]> leases))).
  { destruct b.
    - apply rtc_once. eapply (step_terminal_fail _ _ _ (mkWorld db1 _)); [|exact Hf].
      cbn. apply lookup_insert_eq.
    - unfold terminal_fail_in_session in Hf. destruct (update_task _ _ _ _); by simplify_eq. }
  intros Hk. eapply IH in Hk as (leases' & Hrtc & Hl).
  - exists leases'. split; [|done]. eapply rtc_l; [exact Hs|]. by etrans.
  - by eapply rtc_inv.
  - intros k Hle. rewrite lookup_insert_ne; [apply Hfresh; lia|].
    intros ?%Hinj. lia.
Qed.

Lemma claim_steps_aux db leases worker_id now1 now2 uuid o db' :
  Inv (mkWorld db leases) -> (forall i j : nat, uuid i = uuid j -> i = j) ->
  (forall k, leases !! uuid k = None) ->
  claim cfg db worker_id now1 now2 uuid = Ok (o, db') ->
  exists leases', rtc step (mkWorld db leases) (mkWorld db' leases')
    /\ forall l, o = Some l -> leases' !! l_lease_token l = Some l.
Proof.
  intros HI Hinj Hfresh Hk. unfold claim in Hk. apply bind_Ok in Hk as (owner & _ & Hk).
  destruct (recover_expired cfg db now1) as [n db1] eqn:Hr. injection Hk as Hk.
  pose proof (recover_expired_steps now1 _ _ HI) as Hrtc. rewrite Hr in Hrtc. cbn in Hrtc.
  eapply claim_loop_steps in Hk as (leases' & Hrtc' & Hl);
    [|done|by eapply rtc_inv|auto].
  exists leases'. split; [|done]. by etrans.
Qed.

End Refinement.

(** ** What a claim returns *)

Section Claiming.
Context `{CanonicalHash} (cfg : Config).

(** The row a successful claim leaves behind. *)
Definition claimed (now : clock_time) (owner : string) (lease : TaskLease) (row : WorkflowTask)
    : Prop :=
  (exists token, lease = lease_of row token owner /\ t_lease_token row = Some token)
  /\ t_status row = RUNNING /\ t_lease_owner row = Some owner /\ payload_ok row = true
  /\ t_attempt_started_at row = Some now
  /\ t_lease_expires_at row = Some (now + seconds (q_lease_seconds cfg))
  /\ t_attempt_count row <= t_max_attempts row.

Lemma validate_payload_Ok row u : validate_payload row = Ok u <-> payload_ok row = true.
Proof. unfold validate_payload. rewrite raise_when_Ok. by rewrite negb_false_iff. Qed.

Lemma claim_loop_claimed owner now uuid cands i db lease db' :
  keyed db -> claim_loop cfg db owner now uuid i cands = (Some lease, db') ->
  exists row, db_tasks db' !! l_task_id lease = Some row /\ claimed now owner lease row.
Proof.
  revert i db. induction cands as [|[id v] cands IH]; intros i db Hk; cbn; [done|].
  destruct (claim_cas cfg db id v owner (uuid i) now) as [db1|] eqn:Hc; [|by apply IH].
  pose proof (claim_cas_Some _ _ _ _ _ _ _ _ Hc) as (t & Ht & _ & Hcl & ->).
  cbn. rewrite lookup_insert_eq. apply claimable_spec in Hcl as (_ & _ & Hlt).
  pose proof (Hk _ _ Ht) as Hid.
  destruct (validate_payload _) as [[]|exc] eqn:Hv.
  - intros [= <- <-]. apply validate_payload_Ok in Hv. cbn. rewrite Hid, lookup_insert_eq.
    eexists. split; [done|]. split; [by eexists|]. cbn. split_and!; try done. lia.
  - destruct (terminal_fail_in_session _ _ _ _) as [b db2] eqn:Hf. apply IH.
    unfold terminal_fail_in_session in Hf.
    destruct (update_task _ _ _ _) as [db3|] eqn:Hu; injection Hf as _ <-.
    + apply update_task_Some in Hu as (t1 & Ht1 & _ & ->).
      intros id' t2. rewrite (proj1 (update_run_after_attempt_other _ _ _ _ _)). cbn in *.
      rewrite Hid, lookup_insert_eq in Ht1. injection Ht1 as <-.
      intros [[<- <-]|[? [[<- <-]|[? ?]]%lookup_insert_Some]]%lookup_insert_Some; cbn; eauto.
    + intros id' t2; cbn. intros [[<- <-]|[? ?]]%lookup_insert_Some; cbn; eauto.
Qed.

Lemma recover_keyed db now : keyed db -> keyed (snd (recover_expired cfg db now)).
Proof.
  intros Hk. destruct (recover_expired cfg db now) as [n db'] eqn:E.
  pose proof (recover_expired_rows _ _ _ _ _ Hk E) as Hr. cbn. intros id t.
  rewrite Hr, lookup_fmap. destruct (db_tasks db !! id) as [t0|] eqn:Ht; cbn; [|done].
  intros [= <-]. destruct (recovers now t0); cbn; by apply Hk.
Qed.

(** The candidates, in the order in which they are tried. *)
Definition candidates (db : DB) (now : clock_time) : list WorkflowTask :=
  merge_sort claim_order
    (filter (fun t => claimable now t = true) (snd <$> map_to_list (db_tasks db))).

#[local] Instance claim_order_trans : Transitive claim_order.
Proof. intros a b c. unfold claim_order. lia. Qed.
#[local] Instance claim_order_total : Total claim_order.
Proof. intros a b. unfold claim_order. lia. Qed.

Lemma candidates_elem db now t : keyed db ->
  t ∈ candidates db now <-> db_tasks db !! t_id t = Some t /\ claimable now t = true.
Proof.
  intros Hk. unfold candidates. rewrite (merge_sort_Permutation claim_order).
  rewrite list_elem_of_filter, rows_elem by done. tauto.
Qed.

(** The first candidate wins when its payload is intact. *)
Lemma claim_first db now owner uuid t :
  keyed db -> (forall id t, db_tasks db !! id = Some t -> payload_ok t = true) ->
  db_tasks db !! t_id t = Some t -> claimable now t = true ->
  exists lease db' t0,
    claim_loop cfg db owner now uuid 0 (claim_candidates db now) = (Some lease, db')
    /\ db_tasks db !! l_task_id lease = Some t0 /\ claimable now t0 = true
    /\ forall t', db_tasks db !! t_id t' = Some t' -> claimable now t' = true -> claim_order t0 t'.
Proof.
  intros Hk Hok Ht Hc. unfold claim_candidates. fold (candidates db now).
  assert (Hin : t ∈ candidates db now) by (by apply candidates_elem).
  pose proof (StronglySorted_merge_sort claim_order
    (filter (fun t => claimable now t = true) (snd <$> map_to_list (db_tasks db)))) as Hs.
  fold (candidates db now) in Hs.
  pose proof (fun t => proj1 (candidates_elem db now t Hk)) as Hel.
  pose proof (fun t => proj2 (candidates_elem db now t Hk)) as Hel'.
  destruct (candidates db now) as [|t0 ts]; [by apply not_elem_of_nil in Hin|].
  destruct (Hel t0) as [Ht0 Hc0]; [by left|]. cbn.
  unfold claim_cas, update_task. rewrite Ht0, Z.eqb_refl, Hc0. cbn. rewrite lookup_insert_eq.
  set (row := claim_values _ _ _ _ _).
  assert (validate_payload row = Ok tt) as -> by (apply validate_payload_Ok, (Hok _ _ Ht0)).
  do 3 eexists. split; [reflexivity|]. split; [exact Ht0|]. split; [done|].
  intros t' Ht' Hc'. inversion Hs as [|? ? _ Hall]; subst.
  assert (t' ∈ t0 :: ts) as [->|Hin']%elem_of_cons by auto.
  - unfold claim_order. lia.
  - rewrite Forall_forall in Hall. by apply Hall.
Qed.

End Claiming.



(** ** One turn of a worker never raises *)

Section Turn.
Context `{PyRuntime} `{CanonicalHash}.
Context (sha256 : string -> string) (cfg : Config) (zone : zoneinfo) (rt : WorkflowRuntime).

Lemma validate_payload_for_run_Err payload run e :
  validate_payload_for_run zone payload run = Err e -> exn_cls e = TaskPayloadIntegrityError.
Proof.
  unfold validate_payload_for_run. destruct payload as [| | | | | |m]; try (by intros [= <-]).
  rewrite bind_Err, raise_when_Err. intros [[_ ->]|(? & _ & H1)]; [done|].
  destruct (get_obj m "initial") as [initial|]; [|by injection H1 as <-].
  apply bind_Err in H1 as [[_ ->]%raise_when_Err|(? & _ & H1)]; [done|].
  destruct (_ ≫= _) as [a|]; [|by injection H1 as <-].
  destruct (_ ≫= _) as [b|]; [|by injection H1 as <-].
  by apply bind_Err in H1 as [[_ ->]%raise_when_Err|(? & _ & [=])].
Qed.

Lemma validated_manifest_Err v e :
  validated_execution_manifest v = Err e -> exn_cls e = TaskPayloadIntegrityError.
Proof.
  unfold validated_execution_manifest.
  destruct v as [[| | | | | |m]|]; try (by intros [= <-]).
  by intros [[_ ->]%raise_when_Err|(? & _ & [=])]%bind_Err.
Qed.

(** What [preflight] lets escape is handled; a completed run is completed. *)
Lemma preflight_Err db lease e :
  preflight zone rt db lease = Err e -> exn_cls e = TaskPayloadIntegrityError.
Proof.
  unfold preflight. destruct (db_runs db !! _) as [run|]; [|by intros [= <-]].
  case_bool_decide; [done|].
  intros [Hv|(i & _ & [Hv|(m & _ & [[_ ->]%raise_when_Err|(? & _ & [=])]%bind_Err)]%bind_Err)]%bind_Err;
    [by eapply validate_payload_for_run_Err|by eapply validated_manifest_Err|done].
Qed.

Lemma preflight_None db lease :
  preflight zone rt db lease = Ok None ->
  exists r, db_runs db !! l_run_id lease = Some r /\ r_status r = RUN_COMPLETED.
Proof.
  unfold preflight. destruct (db_runs db !! _) as [run|]; [|done].
  case_bool_decide; [by eauto|].
  intros Hk. apply bind_Ok in Hk as (i & _ & Hk). apply bind_Ok in Hk as (m & _ & Hk).
  by apply raise_when_bind_Ok in Hk as [_ [=]].
Qed.

Lemma complete_completed db lease now r :
  db_runs db !! l_run_id lease = Some r -> r_status r = RUN_COMPLETED ->
  exists b db', complete db lease now = Ok (b, db').
Proof.
  intros Hr Hs. unfold complete. rewrite Hr, bool_decide_true by done. cbn.
  destruct (match db_tasks db !! l_task_id lease with Some _ => _ | None => _ end); [eauto|].
  destruct (update_task _ _ _ _); eauto.
Qed.

Lemma run_lease_total clock env db lease :
  (forall i db, runs_ok (db_runs db) (db_runs (env i db))) ->
  exists r, fst (run_lease sha256 cfg zone rt clock env db lease) = Ok r.
Proof.
  intros Henv. unfold run_lease, recover_and_report.
  destruct (preflight _ _ _ _) as [[prepared|]|exc] eqn:Hp.
  - destruct (execute_prepared _ _ _ _ _ _ _ _ _ _) as [outcome db1].
    destruct (match outcome with Ok _ => _ | Err _ => _ end) as [[u|exc] db2]; [by eexists|].
    case_bool_decide.
    + destruct (recover_expired _ _ _), (current_task_outcome _ _ _). by eexists.
    + destruct (fail _ _ _ _ _) as [[?|] ?]; [by eexists|].
      destruct (recover_expired _ _ _), (current_task_outcome _ _ _). by eexists.
  - apply preflight_None in Hp as (r & Hr & Hs).
    destruct (proj1 (Henv 5%nat (env 0%nat db)) _ _ Hr) as (r' & Hr' & _ & Heq).
    rewrite (Heq Hs) in Hr'.
    destruct (complete_completed _ _ (clock 0%nat) _ Hr' Hs) as (b & db' & ->). by eexists.
  - apply preflight_Err in Hp. rewrite Hp. cbn.
    destruct (fail_terminal _ _ _ _) as [[] ?]; [by eexists|].
    destruct (recover_expired _ _ _), (current_task_outcome _ _ _). by eexists.
Qed.

End Turn.

(** ** Enqueueing *)

Section Enqueueing.
Context `{CanonicalHash} (cfg : Config) (program_hash : string).

Lemma find_by_key_Some db key t :
  find_by_key db key = Some t ->
  (exists id, db_tasks db !! id = Some t) /\ t_idempotency_key t = key.
Proof.
  unfold find_by_key. destruct (find _ _) as [[id t']|] eqn:E; cbn; [|done].
  intros [= ->]. apply find_some in E as [Hin Hk]. bool_prop. split; [|done].
  exists id. apply elem_of_map_to_list. by apply list_elem_of_In.
Qed.

Lemma find_by_key_unique db key id t :
  (forall id1 id2 t1 t2, db_tasks db !! id1 = Some t1 -> db_tasks db !! id2 = Some t2 ->
     t_idempotency_key t1 = t_idempotency_key t2 -> id1 = id2) ->
  db_tasks db !! id = Some t -> t_idempotency_key t = key -> find_by_key db key = Some t.
Proof.
  intros Hu Ht Hk. destruct (find_by_key db key) as [t'|] eqn:E.
  - apply find_by_key_Some in E as [[id' Ht'] Hk'].
    assert (id' = id) as -> by (eapply Hu; eauto; congruence). congruence.
  - unfold find_by_key in E. destruct (find _ _) as [[]|] eqn:E'; [done|].
    eapply (find_none _ _) with (x := (id, t)) in E'.
    + cbn in E'. bool_prop. done.
    + apply list_elem_of_In. by apply elem_of_map_to_list.
Qed.

Lemma enqueue_created_key seen db p key uuid now t db' :
  enqueue cfg program_hash seen db p key uuid now = Ok (t, true, db') ->
  exists key' manifest new_run, validate_idempotency_key key = Ok key'
    /\ validated_execution_manifest (Some (pr_execution_manifest p)) = Ok manifest
    /\ Admission.assert_v1_run_creation_allowed program_hash (db_activation seen) = Ok tt
    /\ t = new_task cfg uuid key' p (task_payload p manifest) now
    /\ commit_task db new_run t = Some db'.
Proof.
  unfold enqueue. intros Hk. apply bind_Ok in Hk as (key' & Hkey & Hk).
  apply bind_Ok in Hk as (manifest & Hm & Hk). apply bind_Ok in Hk as ([] & Ha & Hk).
  destruct (find_by_key seen key') as [existing|] eqn:E.
  { apply bind_Ok in Hk as (? & _ & Hk). discriminate. }
  apply raise_when_bind_Ok in Hk as [_ Hk].
  destruct (commit_task _ _ _) as [db1|] eqn:Ec.
  - injection Hk as <- <-. do 3 eexists. split_and!; eauto.
  - destruct (find_by_key db key') as [raced|]; [|discriminate].
    apply bind_Ok in Hk as (? & _ & Hk). discriminate.
Qed.

End Enqueueing.

End QueueSpec.
