(* ===== verification/QueueProps.v ===== *)
(** * Correctness of the task queue

    The theorems about leases, fencing, attempts, publication and recovery, for
    every interleaving of any number of workers, with concrete executions. *)
From S2P Require Import Prelude PyStr PyTime Float64 Domain Json Models TaskQueue Execution.
From S2P Require Import QueueTheory QueueSpec.
From Stdlib Require Import Ascii.
Import PyStr PyTime Float64 Domain Json Models TaskQueue Execution QueueTheory QueueSpec.
Open Scope string_scope.
Open Scope Z_scope.

Module QueueProps.

(** ** A concrete execution

    One run is enqueued, claimed by a worker that dies, recovered after its
    lease expired and claimed again by another worker. *)
Module Demo.

#[local] Instance demo_runtime : PyRuntime := {| runtime := Py312 |}.
#[local] Instance demo_hash : CanonicalHash :=
  {| canonical_hash := fun j =>
       match j with JObj m => default "" (get_str m "run_id") | _ => "" end |}.

Definition sha (s : string) : string := s.
Definition epoch : datetime := DateTime 63000000000000000 (Some 0).
Definition snapshot1 : jobject := list_to_map
  [("content_hash", JStr ""); ("policy_version", JStr "p1"); ("mode", JStr "live")].
Definition run1 : WorkflowRun :=
  Run "r1" epoch epoch RUN_QUEUED "live" 0 None None None
    {[ "believability_snapshot" := JObj snapshot1 ]} JNull "input" "universe".
Definition initial1 : jobject := list_to_map
  [("run_id", JStr "r1"); ("input_hash", JStr "input");
   ("believability_snapshot_hash", JStr ""); ("believability_policy_version", JStr "p1");
   ("believability_snapshot_binding_hash", JStr (believability_run_binding_hash sha "r1" ""))].
Definition prepared1 : PreparedRun :=
  Prepared run1 initial1 (JObj {[ "schema" := JStr EXECUTION_MANIFEST_SCHEMA ]}).
Definition cfg : Config := mkConfig 2 60 1800 5.

Definition db0 : DB := mkDB ∅ {[ "r1" := run1 ]} (Some []) ∅.
Definition db1 : DB :=
  match enqueue cfg "program" db0 db0 prepared1 "key" "t1" 0 with
  | Ok (_, _, db) => db | Err _ => db0 end.
Definition after_claim (db : DB) (version : Z) (owner token : string) (now : clock_time) : DB :=
  default db (claim_cas cfg db "t1" version owner token now).
Definition db2 : DB := after_claim db1 0 "A" "tokA" (seconds 1).
Definition row_at (db : DB) : WorkflowTask :=
  default (new_task cfg "" "" prepared1 JNull 0) (db_tasks db !! "t1").
Definition leaseA : TaskLease := lease_of (row_at db2) "tokA" "A".
Definition db3 : DB := default db2 (recover_cas cfg db2 (row_at db2) (seconds 90)).
Definition db4 : DB := after_claim db3 2 "B" "tokB" (seconds 100).
Definition leaseB : TaskLease := lease_of (row_at db4) "tokB" "B".

Definition w0 : World := mkWorld db0 ∅.
Definition w1 : World := mkWorld db1 ∅.
Definition w2 : World := mkWorld db2 {[ "tokA" := leaseA ]}.
Definition w3 : World := mkWorld db3 {[ "tokA" := leaseA ]}.
Definition w4 : World := mkWorld db4 (<[ "tokB" := leaseB ]> {[ "tokA" := leaseA ]}).

(** A committee that returns no opinions, only the boundary seal. *)
Definition result1 : CommitteeResult :=
  Committee [] [] JNull {[ "believability" := expected_runtime initial1 ]}.
Definition rt1 : WorkflowRuntime :=
  mkRuntime true [] false JNull "universe" ∅ Ok Ok (fun _ _ => Ok result1).
Definition prepared4 : PreparedRun :=
  Prepared (default run1 (db_runs db4 !! "r1")) initial1 (pr_execution_manifest prepared1).
Definition db5 : DB :=
  snd (exec_start sha rt1 db4 prepared4 (Some (lease_fence leaseB)) false true
         (seconds 101) (seconds 101) 0).
Definition db6 : DB :=
  match exec_finish sha rt1 db5 prepared4 (Some (lease_fence leaseB)) result1
          (seconds 101) (seconds 105) (seconds 105) (seconds 105) with
  | Ok db => db | Err _ => db5 end.
Definition w5 : World := mkWorld db5 (w_leases w4).
Definition w6 : World := mkWorld db6 (w_leases w4).

Lemma cfg_ok : init cfg = Ok cfg.
Proof. reflexivity. Qed.

Lemma initial0 : initial w0.
Proof.
  split; [done|]. split; [done|]. split; [done|]. cbn. intros id r.
  by intros [<- <-]%lookup_singleton_Some.
Qed.

Lemma step01 : step sha cfg "program" w0 w1.
Proof.
  eapply (step_enqueue _ _ _ w0 db0 prepared1 "key" "t1" 0 (row_at db1));
    [by_vm|done].
Qed.

Lemma step12 : step sha cfg "program" w1 w2.
Proof.
  eapply (step_claim _ _ _ w1 "t1" 0 "A" "tokA" (seconds 1) db2 (row_at db2));
    by_vm.
Qed.

Lemma step23 : step sha cfg "program" w2 w3.
Proof.
  eapply (step_recover _ _ _ w2 (row_at db2) (seconds 90) db3);
    [|by_vm..].
  exists (row_at db2). split; [by_vm|apply evolves_refl].
Qed.

Lemma step34 : step sha cfg "program" w3 w4.
Proof.
  eapply (step_claim _ _ _ w3 "t1" 2 "B" "tokB" (seconds 100) db4 (row_at db4));
    by_vm.
Qed.

Lemma reach2 : reachable sha cfg "program" w2.
Proof.
  exists w0. split; [apply initial0|].
  eapply rtc_l; [apply step01|]. apply rtc_once, step12.
Qed.

Lemma rtc24 : rtc (step sha cfg "program") w2 w4.
Proof. eapply rtc_l; [apply step23|]. apply rtc_once, step34. Qed.

Lemma reach4 : reachable sha cfg "program" w4.
Proof. eapply reachable_rtc; [apply reach2|apply rtc24]. Qed.

Lemma step45 : step sha cfg "program" w4 w5.
Proof.
  assert (Hst : r_status (pr_row prepared4) = RUN_QUEUED) by by_vm.
  eapply (step_exec_start _ _ _ w4 rt1 prepared4 (Some (lease_fence leaseB)) false true
            (seconds 101) (seconds 101) 0); [congruence|apply surjective_pairing].
Qed.

Lemma step56 : step sha cfg "program" w5 w6.
Proof.
  eapply (step_exec_finish _ _ _ w5 rt1 prepared4 (Some (lease_fence leaseB)) result1
            (seconds 101) (seconds 105) (seconds 105) (seconds 105)).
  change (w_db w5) with db5. unfold w6, db6.
  assert (Hok : is_ok (exec_finish sha rt1 db5 prepared4 (Some (lease_fence leaseB)) result1
            (seconds 101) (seconds 105) (seconds 105) (seconds 105)) = true) by by_vm.
  destruct (exec_finish _ _ _ _ _ _ _ _ _ _); [reflexivity|discriminate Hok].
Qed.

Lemma rtc46 : rtc (step sha cfg "program") w4 w6.
Proof. eapply rtc_l; [apply step45|]. apply rtc_once, step56. Qed.

Lemma reach6 : reachable sha cfg "program" w6.
Proof. eapply reachable_rtc; [apply reach4|apply rtc46]. Qed.

(** Tokens that are never reused. *)
Definition uuids (i : nat) : string := String.string_of_list_ascii (repeat "u"%char (S i)).

Lemma uuids_inj i j : uuids i = uuids j -> i = j.
Proof.
  unfold uuids. intros Heq. apply (f_equal String.list_ascii_of_string) in Heq.
  rewrite !String.list_ascii_of_string_of_list_ascii in Heq.
  apply (f_equal (@length Ascii.ascii)) in Heq. rewrite !repeat_length in Heq. lia.
Qed.

End Demo.

Section Properties.
Context `{PyRuntime} `{CanonicalHash}.
Context (sha256 : string -> string) (cfg : Config) (program_hash : string).

Local Abbreviation step := (step sha256 cfg program_hash).
Local Abbreviation reachable := (reachable sha256 cfg program_hash).

(** C3 In every state any interleaving of workers can reach, each task row
    satisfies the two check constraints of the table (attempts within bounds;
    lease columns set exactly while running), a waiting task has an attempt
    left, a completed task belongs to a completed run, and no two tasks share a
    run or an idempotency key. *)
Theorem reachable_schema (Hcfg : init cfg = Ok cfg) w :
  reachable w ->
  (forall id t, db_tasks (w_db w) !! id = Some t ->
     t_id t = id /\ ck_workflow_task_attempts t = true /\ ck_workflow_task_lease t = true
     /\ (t_status t = QUEUED \/ t_status t = RETRY_WAIT -> t_attempt_count t < t_max_attempts t)
     /\ (t_status t = COMPLETED ->
           exists r, db_runs (w_db w) !! t_run_id t = Some r /\ r_status r = RUN_COMPLETED))
  /\ (forall id1 id2 t1 t2, db_tasks (w_db w) !! id1 = Some t1 ->
        db_tasks (w_db w) !! id2 = Some t2 ->
        t_run_id t1 = t_run_id t2 \/ t_idempotency_key t1 = t_idempotency_key t2 -> id1 = id2).
Proof.
  intros HI%reachable_inv; [|done]. split; [|apply HI].
  intros id t [? ? ? ? ? ?]%(inv_rows _ HI). by split_and!.
Qed.

(** C1 A run's result is published at most once: whenever a result is in the
    database there is exactly one, its run is completed, and neither the result
    nor the run ever changes again, whatever the workers do. *)
Theorem published_once (Hcfg : init cfg = Ok cfg) w w' id l :
  reachable w -> rtc step w w' ->
  db_results (w_db w) !! id = Some l -> l <> [] ->
  length l = 1%nat /\ db_results (w_db w') !! id = Some l
  /\ exists r, db_runs (w_db w) !! id = Some r /\ r_status r = RUN_COMPLETED
       /\ db_runs (w_db w') !! id = Some r.
Proof.
  intros Hr Hrtc Hl Hn. pose proof (reachable_inv _ _ _ _ Hcfg Hr) as HI.
  destruct (inv_results _ HI _ _ Hl Hn) as (Hlen & r & Hrun & Hst). split; [done|].
  eapply (rtc_invariant _ _ _ (fun w => db_results (w_db w) !! id = Some l
    /\ db_runs (w_db w) !! id = Some r) w w') in Hrtc as [? ?]; [by eauto|done..| |done].
  intros w1 w2 HI1 [H1 H2] Hs. destruct (step_runs _ _ _ _ _ HI1 Hs) as (_ & [Hok _] & Hres).
  split.
  - destruct Hres as [->|(id' & r1 & r2 & c & Hr1 & Hrun1 & _ & _ & ->)]; [done|].
    rewrite lookup_insert_ne; [done|]. intros ->. congruence.
  - destruct (Hok _ _ H2) as (r' & ? & _ & Heq). by rewrite <- (Heq Hst).
Qed.

(** C2 Fencing: once the row of a task is no longer held under a lease's token,
    every operation of that lease (renew, fail, fail terminally, both fences,
    finalize, complete) is refused and leaves the database as it was, in every
    state any interleaving can reach from there. *)
Theorem revoked_lease_refused_forever (Hcfg : init cfg = Ok cfg) w w' lease :
  reachable w -> rtc step w w' ->
  w_leases w !! l_lease_token lease = Some lease -> revoked (w_db w) lease ->
  refused cfg (w_db w') lease.
Proof.
  intros Hr Hrtc Hl Hrev. apply revoked_refused.
  eapply (rtc_invariant _ _ _ (fun w => w_leases w !! l_lease_token lease = Some lease
    /\ revoked (w_db w) lease) w w') in Hrtc as [_ ?]; [done..| |done].
  intros w1 w2 HI HP Hs. by eapply step_revoked.
Qed.

(** Mutual exclusion: when the row of a task admits one lease, every other
    lease ever issued for that task is fenced out for good. *)
Theorem lease_exclusive (Hcfg : init cfg = Ok cfg) w w' l1 l2 t now :
  reachable w -> rtc step w w' ->
  w_leases w !! l_lease_token l1 = Some l1 -> l_task_id l1 = l_task_id l2 -> l_lease_token l1 <> l_lease_token l2 ->
  db_tasks (w_db w) !! l_task_id l2 = Some t -> holds_lease (l_lease_token l2) now t = true ->
  refused cfg (w_db w') l1.
Proof.
  intros Hr Hrtc H1 Htask Hne Ht (_ & Htok & _)%holds_lease_spec. apply revoked_refused.
  eapply (rtc_invariant _ _ _ (fun w => w_leases w !! l_lease_token l1 = Some l1
    /\ revoked (w_db w) l1) w w') in Hrtc as [_ ?]; [done..| |].
  - intros w1 w2 HI HP Hs. by eapply step_revoked.
  - split; [done|]. intros t'. rewrite Htask, Ht. intros [= <-]. congruence.
Qed.

(** Of the workers that read the same version of a task only one can claim
    it: after one compare-and-swap succeeded, every claim and every recovery
    based on that version fails, at any time and in any later state. *)
Theorem claim_wins_once (Hcfg : init cfg = Ok cfg) db leases id v owner token now db' row w' :
  reachable (mkWorld db leases) -> leases !! token = None ->
  claim_cas cfg db id v owner token now = Some db' -> db_tasks db' !! id = Some row ->
  rtc step (mkWorld db' (<[token := lease_of row token owner]> leases)) w' ->
  (forall owner' token' now', claim_cas cfg (w_db w') id v owner' token' now' = None)
  /\ (forall old now', t_id old = id -> t_version old = v -> recover_cas cfg (w_db w') old now' = None).
Proof.
  intros Hr Hf Hc Hrow Hrtc.
  assert (Hs : step (mkWorld db leases) (mkWorld db' (<[token := lease_of row token owner]> leases))).
  { eapply (step_claim _ _ _ (mkWorld db leases)); eauto. }
  apply claim_cas_Some in Hc as (t & Ht & Hv & _ & Hdb'). pose proof Hrow as Hrow'.
  rewrite Hdb' in Hrow. cbn in Hrow. rewrite lookup_insert_eq in Hrow. injection Hrow as Hrow.
  destruct (rtc_evolves _ _ _ _ _ _ _ Hcfg (reachable_rtc _ _ _ _ _ Hr (rtc_once _ _ Hs)) Hrtc Hrow')
    as (t' & Ht' & (_ & Hle & _)).
  assert (v < t_version t') by (rewrite <- Hrow in Hle; cbn in Hle; lia). split.
  - intros owner' token' now'. unfold claim_cas, update_task. rewrite Ht'.
    destruct (t_version t' =? v) eqn:E; [bool_prop; lia|done].
  - intros old now' Hid Hold. unfold recover_cas, update_task. rewrite Hid, Ht', Hold.
    destruct (t_version t' =? v) eqn:E; [bool_prop; lia|by rewrite andb_false_r].
Qed.

(** Attempts are bounded: a task's attempt counter is exactly the number of
    leases ever issued for it, and never exceeds the configured maximum, so a
    task is executed at most [max_attempts] times. *)
Theorem attempts_counted_and_bounded (Hcfg : init cfg = Ok cfg) w id t :
  reachable w -> db_tasks (w_db w) !! id = Some t ->
  Z.of_nat (issued w id) = t_attempt_count t /\ t_attempt_count t <= q_max_attempts cfg.
Proof.
  intros Hr Ht. destruct (reachable_counted _ _ _ w Hcfg Hr) as [_ Hc].
  destruct (Hc _ _ Ht) as (Hn & Hmax & _). split; [done|].
  pose proof (ok_attempts _ _ _ _ (inv_rows _ (reachable_inv _ _ _ _ Hcfg Hr) _ _ Ht)) as Ha.
  unfold ck_workflow_task_attempts in Ha. bool_prop. lia.
Qed.

(** No task row is ever lost or rewritten: along any run it keeps its
    identity, payload, seal and limits, its version and attempt counter never
    decrease, unchanged version means unchanged status and lease, and a
    completed or failed task stays so. *)
Theorem task_history (Hcfg : init cfg = Ok cfg) w w' id t :
  reachable w -> rtc step w w' -> db_tasks (w_db w) !! id = Some t ->
  exists t', db_tasks (w_db w') !! id = Some t' /\ evolves t t'.
Proof. intros. by eapply rtc_evolves. Qed.

(** A lease never outlives its attempt: in every reachable state a running
    task has a start and an expiry, and the expiry, however often it was renewed,
    is within [timeout_seconds] of the start. *)
Theorem lease_within_deadline (Hcfg : init cfg = Ok cfg) w id t :
  reachable w -> db_tasks (w_db w) !! id = Some t -> t_status t = RUNNING ->
  exists started expires, t_attempt_started_at t = Some started
    /\ t_lease_expires_at t = Some expires
    /\ expires <= started + seconds (q_timeout_seconds cfg).
Proof.
  intros Hr Ht Hrun.
  destruct (reachable_deadline _ _ _ w Hcfg Hr _ _ Ht Hrun) as (st & ex & ? & ? & Hle).
  destruct (reachable_counted _ _ _ w Hcfg Hr) as [_ Hc].
  destruct (Hc _ _ Ht) as (_ & _ & Hto). rewrite Hto in Hle. eauto.
Qed.

(** Refinement: a whole [claim] call (recovery of every expired lease, then
    the loop over the candidates with its integrity check) is a sequence of the
    atomic steps, and the lease it returns is registered. *)
Theorem claim_refines_steps (Hcfg : init cfg = Ok cfg) db leases worker_id now1 now2 uuid o db' :
  reachable (mkWorld db leases) ->
  (forall i j : nat, uuid i = uuid j -> i = j) -> (forall k, leases !! uuid k = None) ->
  claim cfg db worker_id now1 now2 uuid = Ok (o, db') ->
  exists leases', rtc step (mkWorld db leases) (mkWorld db' leases')
    /\ forall l, o = Some l -> leases' !! l_lease_token l = Some l.
Proof.
  intros Hr%reachable_inv; [|done]. by apply claim_steps_aux.
Qed.

(** What a claim returns: a lease on a row that is running for this worker
    under the lease's token, with an intact payload, an attempt within the limit,
    started now and expiring [lease_seconds] later. *)
Theorem claim_result (Hcfg : init cfg = Ok cfg) w worker_id now1 now2 uuid lease db' :
  reachable w ->
  claim cfg (w_db w) worker_id now1 now2 uuid = Ok (Some lease, db') ->
  exists owner row, validate_worker_id worker_id = Ok owner
    /\ db_tasks db' !! l_task_id lease = Some row /\ claimed cfg now2 owner lease row.
Proof.
  intros HI%reachable_inv Hk; [|done]. unfold claim in Hk.
  apply bind_Ok in Hk as (owner & Ho & Hk). exists owner.
  pose proof (recover_keyed cfg _ now1 (inv_keyed _ HI)) as Hkey.
  destruct (recover_expired cfg _ now1) as [n db1] eqn:Hr. injection Hk as Hk.
  destruct (claim_loop_claimed _ _ _ _ _ _ _ _ _ Hkey Hk) as (row & ? & ?). eauto.
Qed.

(** C17 Progress and order: when every payload is intact and some task can be
    claimed after recovery, [claim] returns a lease, and it is on a task that
    became available earliest (ties by creation). *)
Theorem claim_progress (Hcfg : init cfg = Ok cfg) w worker_id owner now1 now2 uuid t :
  reachable w -> validate_worker_id worker_id = Ok owner ->
  (forall id t, db_tasks (w_db w) !! id = Some t -> payload_ok t = true) ->
  let db1 := snd (recover_expired cfg (w_db w) now1) in
  db_tasks db1 !! t_id t = Some t -> claimable now2 t = true ->
  exists lease db' t0,
    claim cfg (w_db w) worker_id now1 now2 uuid = Ok (Some lease, db')
    /\ db_tasks db1 !! l_task_id lease = Some t0 /\ claimable now2 t0 = true
    /\ forall t', db_tasks db1 !! t_id t' = Some t' -> claimable now2 t' = true -> claim_order t0 t'.
Proof.
  intros HI%reachable_inv Ho Hok db1 Ht Hc; [|done]. apply inv_keyed in HI as Hk.
  pose proof (recover_keyed cfg _ now1 Hk) as Hkey. fold db1 in Hkey.
  assert (Hok1 : forall id t, db_tasks db1 !! id = Some t -> payload_ok t = true).
  { intros id t1. subst db1. destruct (recover_expired _ _ _) as [n db1] eqn:Hr. cbn.
    rewrite (recover_expired_rows _ _ _ _ _ Hk Hr), lookup_fmap.
    destruct (db_tasks (w_db w) !! id) as [t2|] eqn:Ht2; cbn; [|done]. intros [= <-].
    pose proof (Hok _ _ Ht2). by destruct (recovers now1 t2). }
  destruct (claim_first cfg db1 now2 owner uuid t Hkey Hok1 Ht Hc)
    as (lease & db' & t0 & Hl & ? & ? & ?).
  exists lease, db', t0. split; [|done]. unfold claim. rewrite Ho. cbn. subst db1.
  destruct (recover_expired _ _ _) as [n db1]. cbn in *. by rewrite Hl.
Qed.

(** What recovery does: exactly the running tasks whose lease or attempt
    expired are released, to [retry_wait] after the retry delay while attempts
    remain and to [failed] otherwise; their runs follow unless completed; every
    other row is untouched; the count is the number of tasks recovered. *)
Theorem recover_expired_spec (Hcfg : init cfg = Ok cfg) w now n db' :
  reachable w -> recover_expired cfg (w_db w) now = (n, db') ->
  db_tasks db' = (fun t => if recovers now t then recovered_row cfg now t else t) <$> db_tasks (w_db w)
  /\ n = Z.of_nat (length (filter (fun t => recovers now t = true) (snd <$> map_to_list (db_tasks (w_db w)))))
  /\ (forall id t, db_tasks (w_db w) !! id = Some t -> recovers now t = true ->
        db_runs db' !! t_run_id t = recovered_run t now <$> db_runs (w_db w) !! t_run_id t)
  /\ (forall rid, (forall id t, db_tasks (w_db w) !! id = Some t -> recovers now t = true ->
          t_run_id t <> rid) ->
        db_runs db' !! rid = db_runs (w_db w) !! rid).
Proof.
  intros HI%reachable_inv Hr; [|done]. apply inv_keyed in HI as Hk.
  split; [by eapply recover_expired_rows|]. split; [by eapply recover_expired_count|].
  eapply recover_expired_runs; [done|done|].
  intros id1 id2 t1 t2 ? ? ?. eapply (inv_unique _ HI); eauto.
Qed.


(** Idempotent submission: once a run is enqueued under a key, submitting the
    same frozen run again (any clock, any new identifier) returns the same task
    and changes nothing; submitting another run or payload under that key raises
    [TaskIdempotencyConflictError]. *)
Theorem enqueue_idempotent (Hcfg : init cfg = Ok cfg) db leases p key uuid now t db' :
  reachable (mkWorld db leases) -> r_status (pr_row p) <> RUN_COMPLETED ->
  enqueue cfg program_hash db db p key uuid now = Ok (t, true, db') ->
  (forall uuid' now', enqueue cfg program_hash db' db' p key uuid' now' = Ok (t, false, db'))
  /\ (forall p' manifest' uuid' now',
        validated_execution_manifest (Some (pr_execution_manifest p')) = Ok manifest' ->
        r_id (pr_row p') <> r_id (pr_row p)
        \/ payload_hash (task_payload p' manifest') <> t_payload_hash t ->
        exists m, enqueue cfg program_hash db' db' p' key uuid' now'
                  = raise TaskIdempotencyConflictError m).
Proof.
  intros Hr Hst He.
  assert (Hs : step (mkWorld db leases) (mkWorld db' leases)) by (by eapply (step_enqueue _ _ _ (mkWorld db leases))).
  pose proof (reachable_inv _ _ _ _ Hcfg (reachable_rtc _ _ _ _ _ Hr (rtc_once _ _ Hs))) as HI.
  apply enqueue_created_key in He as (key' & manifest & nr & Hkey & Hm & Ha & Hnew & Hc).
  apply commit_task_Some in Hc as (_ & _ & _ & Hdb').
  assert (Hfind : find_by_key db' key' = Some t).
  { apply (find_by_key_unique _ _ uuid).
    - intros id1 id2 t1 t2 ? ? ?. eapply (inv_unique _ HI); eauto.
    - rewrite Hdb', Hnew. cbn. by rewrite lookup_insert_eq.
    - by rewrite Hnew. }
  assert (Hact : db_activation db' = db_activation db) by (by rewrite Hdb'). split.
  - intros uuid' now'. unfold enqueue. rewrite Hkey. cbn -[task_payload validated_execution_manifest].
    rewrite Hm. cbn -[task_payload]. rewrite Hact, Ha. cbn -[task_payload]. rewrite Hfind.
    unfold validate_replay. rewrite Hnew. cbn -[task_payload]. by rewrite !String.eqb_refl.
  - intros p' manifest' uuid' now' Hm' Hne. eexists. unfold enqueue. rewrite Hkey.
    cbn -[task_payload validated_execution_manifest]. rewrite Hm'. cbn -[task_payload].
    rewrite Hact, Ha. cbn -[task_payload]. rewrite Hfind. unfold validate_replay.
    replace (_ || _) with true; [reflexivity|]. symmetry. apply orb_true_iff.
    rewrite !negb_true_iff, !String.eqb_neq. rewrite Hnew in *. cbn -[task_payload] in *.
    destruct Hne; [left|right]; congruence.
Qed.

End Properties.

(** ** The theorems on the concrete execution *)

Module Witnesses.
Import Demo.
#[local] Existing Instances demo_runtime demo_hash.

Lemma reachable_schema_witness :
  ck_workflow_task_lease (row_at db4) = true /\ t_id (row_at db4) = "t1".
Proof.
  destruct (reachable_schema sha cfg "program" cfg_ok w4 reach4) as [Hrows _].
  destruct (Hrows "t1" (row_at db4)) as (Hid & _ & Hck & _); [by_vm|].
  split; [exact Hck|exact Hid].
Defined.

Lemma published_once_witness :
  db_results db6 !! "r1" = Some [result1] /\ length [result1] = 1%nat.
Proof.
  destruct (published_once sha cfg "program" cfg_ok w6 w6 "r1" [result1] reach6 (rtc_refl _ _))
    as (Hlen & Hl & _); [by_vm|discriminate|].
  split; [exact Hl|exact Hlen].
Defined.

Lemma revoked_lease_refused_forever_witness : refused cfg db6 leaseA.
Proof.
  apply (revoked_lease_refused_forever sha cfg "program" cfg_ok w4 w6 leaseA reach4 rtc46).
  - by_vm.
  - assert (Hrow : db_tasks (w_db w4) !! l_task_id leaseA = Some (row_at db4)) by by_vm.
    assert (Htok : t_lease_token (row_at db4) = Some (l_lease_token leaseB)) by by_vm.
    intros t Ht. assert (t = row_at db4) as -> by congruence. rewrite Htok.
    assert (Hne : (l_lease_token leaseB =? l_lease_token leaseA)%string = false) by by_vm.
    apply String.eqb_neq in Hne. congruence.
Defined.

Lemma lease_exclusive_witness : refused cfg db6 leaseA.
Proof.
  apply (lease_exclusive sha cfg "program" cfg_ok w4 w6 leaseA leaseB (row_at db4) (seconds 110)
           reach4 rtc46); (by_vm || discriminate).
Defined.

Lemma claim_wins_once_witness :
  claim_cas cfg db4 "t1" 0 "C" "tokC" (seconds 200) = None.
Proof.
  destruct (claim_wins_once sha cfg "program" cfg_ok db1 ∅ "t1" 0 "A" "tokA" (seconds 1) db2
    (row_at db2) w4) as [Hc _]; [..|exact (Hc "C" "tokC" (seconds 200))].
  - exists w0. split; [apply initial0|apply rtc_once, step01].
  - reflexivity.
  - by_vm.
  - by_vm.
  - exact rtc24.
Defined.

Lemma attempts_counted_and_bounded_witness :
  Z.of_nat (issued w4 "t1") = 2 /\ 2 <= q_max_attempts cfg.
Proof.
  destruct (attempts_counted_and_bounded sha cfg "program" cfg_ok w4 "t1" (row_at db4) reach4)
    as [Hn Hle]; [by_vm|].
  split; [exact Hn|exact Hle].
Defined.

Lemma task_history_witness :
  exists t', db_tasks db6 !! "t1" = Some t' /\ evolves (row_at db4) t'.
Proof.
  apply (task_history sha cfg "program" cfg_ok w4 w6 "t1" (row_at db4) reach4 rtc46).
  by_vm.
Defined.

Lemma lease_within_deadline_witness :
  exists started expires, t_attempt_started_at (row_at db4) = Some started
    /\ t_lease_expires_at (row_at db4) = Some expires
    /\ expires <= started + seconds (q_timeout_seconds cfg).
Proof.
  apply (lease_within_deadline sha cfg "program" cfg_ok w4 "t1" (row_at db4) reach4);
    by_vm.
Defined.

Lemma claim_refines_steps_witness :
  exists leases', rtc (step sha cfg "program") w3
    (mkWorld (match claim cfg db3 "B" (seconds 95) (seconds 100) uuids with
              | Ok (_, db) => db | Err _ => db3 end) leases').
Proof.
  destruct (claim_refines_steps sha cfg "program" cfg_ok db3 (w_leases w3) "B" (seconds 95) (seconds 100)
    uuids (match claim cfg db3 "B" (seconds 95) (seconds 100) uuids with
           | Ok (o, _) => o | Err _ => None end)
    (match claim cfg db3 "B" (seconds 95) (seconds 100) uuids with
     | Ok (_, db) => db | Err _ => db3 end)) as (leases' & Hrtc & _).
  - eapply reachable_rtc; [apply reach2|apply rtc_once, step23].
  - exact uuids_inj.
  - intros k. apply lookup_singleton_None. destruct k; discriminate.
  - by_vm.
  - exists leases'. exact Hrtc.
Defined.

Lemma reach3 : reachable sha cfg "program" w3.
Proof. eapply reachable_rtc; [apply reach2|apply rtc_once, step23]. Qed.

Lemma claim_result_witness :
  exists row, db_tasks (match claim cfg db3 " B " (seconds 95) (seconds 100) uuids with
                        | Ok (_, db) => db | Err _ => db3 end) !! "t1" = Some row
              /\ t_lease_owner row = Some "B".
Proof.
  set (r := claim cfg db3 " B " (seconds 95) (seconds 100) uuids).
  destruct (claim_result sha cfg "program" cfg_ok w3 " B " (seconds 95) (seconds 100) uuids
    (match r with Ok (Some l, _) => l | _ => leaseA end)
    (match r with Ok (_, db) => db | Err _ => db3 end) reach3) as (owner & row & Ho & Hrow & Hc);
    [by_vm|].
  vm_compute in Ho. injection Ho as <-. exists row. split; [exact Hrow|apply Hc].
Defined.

Lemma claim_progress_witness :
  exists lease db', claim cfg db3 "B" (seconds 95) (seconds 100) uuids = Ok (Some lease, db').
Proof.
  destruct (claim_progress sha cfg "program" cfg_ok w3 "B" "B" (seconds 95) (seconds 100) uuids
    (row_at db3) reach3) as (lease & db' & t0 & Hc & _).
  - reflexivity.
  - intros id t Ht. change (w_db w3) with db3 in Ht.
    assert (Hdb : db_tasks db3 = {[ "t1" := row_at db3 ]}) by by_vm.
    rewrite Hdb in Ht. apply lookup_singleton_Some in Ht as [_ <-]. by_vm.
  - by_vm.
  - by_vm.
  - exists lease, db'. exact Hc.
Defined.

Lemma recover_expired_spec_witness : fst (recover_expired cfg db2 (seconds 90)) = 1.
Proof.
  destruct (recover_expired_spec sha cfg "program" cfg_ok w2 (seconds 90)
    (fst (recover_expired cfg db2 (seconds 90))) (snd (recover_expired cfg db2 (seconds 90))) reach2)
    as (_ & Hn & _); [by destruct (recover_expired _ _ _)|].
  rewrite Hn. by_vm.
Defined.


Lemma enqueue_idempotent_witness :
  enqueue cfg "program" db1 db1 prepared1 "key" "other" 77 = Ok (row_at db1, false, db1).
Proof.
  destruct (enqueue_idempotent sha cfg "program" cfg_ok db0 ∅ prepared1 "key" "t1" 0 (row_at db1) db1)
    as [Hr _].
  - exists w0. split; [apply initial0|apply rtc_refl].
  - discriminate.
  - by_vm.
  - apply Hr.
Defined.

End Witnesses.

End QueueProps.
