(* ===== verification/Facade.v ===== *)
(** * Capability-driven evaluation ([backend/app/services/evaluation_facade.py])

    Which metrics an Agent, or one exact signal, may be scored on, the lane a
    signal is routed to, and the scoring of a signal. *)
From S2P Require Import Prelude PyStr PyTime Float64 Domain Json Contracts.
Import PyStr PyTime Float64 Domain Json Contracts.
Open Scope string_scope.
Open Scope Z_scope.

Module Facade.

Record EvaluationPlan := Plan {
  pl_direction : bool;
  pl_multiclass_brier : bool;
  pl_calibration : bool;
  pl_reasoning : bool }.

Record SignalEvaluation := SigEval {
  sv_actual_label : Direction;
  sv_direction_correct : option bool;
  sv_brier_score : option float;
  sv_calibration_eligible : bool;
  sv_reasoning_review_eligible : bool }.

Record SignalRoute := Route {
  rt_lane : string;
  rt_formal_aggregation : bool;
  rt_shadow_benchmark : bool;
  rt_influence : InfluenceMode }.

Section WithRuntime.
Context `{PyRuntime} `{CanonicalHash}
  (dump_spec : AgentSpecBody -> json) (dump_signal : SignalEnvelopeBody -> json).

(** The plan for a declaration and, when given, one of its signals. *)
Definition plan_of (s : AgentSpecBody) (signal : option SignalEnvelopeBody) : EvaluationPlan :=
  let p := sp_participation s in
  let c := sp_capabilities s in
  let on_signal (f : SignalEnvelopeBody -> bool) :=
    match signal with None => true | Some b => f b end in
  let complete_probabilities :=
    bool_decide (cap_probability_mode c = PROB_MULTICLASS)
    && on_signal (fun b => some (sg_probabilities b)) in
  if bool_decide (pp_mode p = PART_DISABLED) then Plan false false false false
  else
    Plan
      (has_metric METRIC_DIRECTION p && cap_direction c && on_signal (fun b => some (sg_direction b)))
      (has_metric METRIC_MULTICLASS_BRIER p && complete_probabilities)
      (has_metric METRIC_CALIBRATION p && complete_probabilities)
      (has_metric METRIC_REASONING p && bool_decide (cap_reasoning_mode c = STRUCTURED)
       && on_signal (fun b => truthy_opt (sg_rationale b))).

Definition evaluation_plan (spec : AgentSpec) (signal : option SignalEnvelope)
    : result EvaluationPlan :=
  match signal with
  | None => Ok (plan_of (as_body spec) None)
  | Some s =>
      validate_signal_against_spec dump_spec dump_signal s spec ;;
      Ok (plan_of (as_body spec) (Some (se_body s)))
  end.

Definition lane_of (i : InfluenceMode) : result string :=
  match i with
  | INFL_INPUT => Ok "formal_input"
  | INFL_ADVISORY => Ok "formal_advisory"
  | INFL_DECISION => Ok "formal_decision"
  | INFL_NONE => raise ValueError "formal participation has no supported influence lane"
  end.

Definition route_signal (spec : AgentSpec) (signal : SignalEnvelope) : result SignalRoute :=
  validate_signal_against_spec dump_spec dump_signal signal spec ;;
  let policy := sg_participation (se_body signal) in
  match pp_mode policy with
  | PART_SHADOW => Ok (Route "shadow_benchmark" false true INFL_NONE)
  | PART_DISABLED => raise ValueError "disabled Agent may not be routed"
  | PART_FORMAL =>
      lane ← lane_of (pp_influence policy);
      Ok (Route lane true false (pp_influence policy))
  end.

Definition side_value (s : SignalSide) : string := direction_value (side_direction s).

Definition evaluate_signal (spec : AgentSpec) (signal : SignalEnvelope) (actual_label : string)
    : result SignalEvaluation :=
  plan ← evaluation_plan spec (Some signal);
  actual ← Direction_of actual_label;
  let b := se_body signal in
  let direction_correct :=
    if pl_direction plan && negb (bool_decide (actual = NEUTRAL))
    then Some (bool_decide (side_value <$> sg_direction b = Some (direction_value actual)))
    else None in
  brier ← (if pl_multiclass_brier plan then
             match sg_probabilities b with
             | None => raise ValueError "multiclass evaluation requires complete probabilities"
             | Some p => x ← multiclass_brier_score (as_dict p) (direction_value actual); Ok (Some x)
             end
           else Ok None);
  Ok (SigEval actual direction_correct brier (pl_calibration plan) (pl_reasoning plan)).

End WithRuntime.

End Facade.
