(* ===== verification/ContractProps.v ===== *)
(** * Correctness of the Agent contracts and of their evaluation plans

    Sealing, the built-in registry, and what an accepted signal guarantees to
    the evaluation and routing of [Facade]. *)
From Stdlib Require Import Ascii.
From S2P Require Import Prelude PyStr PyTime Float64 Domain Json Contracts Facade.
Import PyStr PyTime Float64 Domain Json Contracts Facade.
Open Scope string_scope.
Open Scope Z_scope.

Module ContractProps.

(** Rewrite a computation with the parts that are known to succeed. *)
Ltac replay :=
  repeat match goal with
  | H : ?x = Ok _ |- context [?x] => rewrite H; cbn [mbind result_bind]
  end.

Lemma reasoning_items_idemp l l' : reasoning_items l = Ok l' -> reasoning_items l' = Ok l'.
Proof.
  unfold reasoning_items. intros Hk. apply raise_when_bind_Ok in Hk as [Hb Hk].
  injection Hk as <-. apply raise_when_bind_Ok. rewrite map_map.
  assert (map (fun x => py_strip (py_strip x)) l = map py_strip l) as ->; [|done].
  apply map_ext. apply py_strip_idemp.
Qed.

Lemma with_text_twice b r c i r' c' i' :
  with_text (with_text b r c i) r' c' i' = with_text b r' c' i'.
Proof. done. Qed.

Section Seals.
Context `{PyRuntime} `{CanonicalHash}
  (dump_spec : AgentSpecBody -> json) (dump_signal : SignalEnvelopeBody -> json).

Lemma validate_envelope_body_idemp b body :
  validate_envelope_body b = Ok body -> validate_envelope_body body = Ok body.
Proof.
  unfold validate_envelope_body at 1. intros Hk.
  repeat (apply bind_Ok in Hk as (? & ? & Hk)). injection Hk as <-.
  repeat match goal with u : unit |- _ => destruct u end.
  unfold validate_envelope_body. cbn [with_text sg_signal_id sg_agent_id sg_agent_version sg_mode
    sg_target sg_submitted_at sg_accepted_at sg_submission_deadline sg_input_binding
    sg_participation sg_provenance sg_direction sg_probabilities sg_direction_confidence
    sg_rationale sg_counter_evidence sg_invalidation_conditions sg_citations
    sg_blind_attestation sg_payload_schema sg_source_payload].
  repeat match goal with
  | H : reasoning_items (_ b) = Ok _ |- _ => apply reasoning_items_idemp in H
  end.
  assert (Hr : py_strip <$> (py_strip <$> sg_rationale b) = py_strip <$> sg_rationale b).
  { destruct (sg_rationale b); [|done]. cbn. by rewrite py_strip_idemp. }
  rewrite Hr. replay. rewrite with_text_twice. replay. done.
Qed.

(** The instants of an accepted signal are ordered. *)
Lemma common_signal_semantics_Ok b :
  common_signal_semantics b = Ok tt ->
  dt_ltb (sg_accepted_at b) (sg_submitted_at b) = false
  /\ dt_ltb (sg_submitted_at b) (tg_as_of (sg_target b)) = false
  /\ dt_leb (sg_submission_deadline b) (sg_accepted_at b) = false
  /\ date_of (astimezone (tg_zone (sg_target b)) (sg_submission_deadline b)) < tg_target_date (sg_target b)
  /\ (forall c, c ∈ sg_citations b -> dt_ltb (tg_data_cutoff (sg_target b)) (ci_observed_at c) = false)
  /\ (forall p, sg_probabilities b = Some p -> exists side, sg_direction b = Some side
        /\ predicted_direction (as_dict p) = Ok (side_direction side)).
Proof.
  unfold common_signal_semantics. intros Hk.
  do 6 (apply raise_when_bind_Ok in Hk as [? Hk]).
  match goal with H : existsb _ _ = false |- _ => rename H into Hc end. bool_prop.
  split_and!; try done.
  - intros c Hin. apply not_true_iff_false. intros Hlt. apply not_true_iff_false in Hc.
    apply Hc, existsb_exists. exists c. split; [by apply list_elem_of_In|done].
  - intros p Hp. rewrite Hp in Hk. destruct (sg_direction b) as [side|]; [|done].
    apply bind_Ok in Hk as (expected & He & Hk). apply raise_when_bind_Ok in Hk as [Hd _].
    bool_prop. exists side. split; [done|]. congruence.
Qed.

Lemma validate_target_Ok t :
  validate_target t = Ok tt ->
  is_aware (tg_as_of t) = true /\ is_aware (tg_data_cutoff t) = true
  /\ dt_ltb (tg_as_of t) (tg_data_cutoff t) = false /\ tg_base_trade_date t < tg_target_date t.
Proof.
  unfold validate_target, aware_datetime. intros Hk.
  apply bind_Ok in Hk as ([] & _ & Hk). do 3 (apply raise_when_bind_Ok in Hk as [? Hk]).
  apply raise_when_Ok in Hk. bool_prop. by split_and!.
Qed.

Lemma validate_envelope_body_Ok b body :
  validate_envelope_body b = Ok body ->
  validate_target (sg_target body) = Ok tt /\ common_signal_semantics body = Ok tt
  /\ validate_policy (sg_participation body) = Ok tt
  /\ sg_direction body = sg_direction b /\ sg_probabilities body = sg_probabilities b.
Proof.
  unfold validate_envelope_body. intros Hk.
  repeat (apply bind_Ok in Hk as (? & ? & Hk)). injection Hk as <-.
  repeat match goal with u : unit |- _ => destruct u end. by split_and!.
Qed.

(** C40 No look-ahead: in every envelope the host accepts, the evidence cutoff,
    the forecast time, the submission, the acceptance and the deadline are in
    order, the deadline's local date precedes the target date, every citation
    was observed by the cutoff, and probabilities support the stated side. *)
Theorem accepted_envelope_no_lookahead signal e :
  validate_signal_envelope dump_signal signal = Ok e ->
  let b := se_body e in let t := sg_target b in
  instant (tg_data_cutoff t) <= instant (tg_as_of t) <= instant (sg_submitted_at b)
  /\ instant (sg_submitted_at b) <= instant (sg_accepted_at b) < instant (sg_submission_deadline b)
  /\ date_of (astimezone (tg_zone t) (sg_submission_deadline b)) < tg_target_date t
  /\ (forall c, c ∈ sg_citations b -> instant (ci_observed_at c) <= instant (tg_data_cutoff t))
  /\ (forall p, sg_probabilities b = Some p -> exists side, sg_direction b = Some side
        /\ predicted_direction (as_dict p) = Ok (side_direction side)).
Proof.
  unfold validate_signal_envelope. intros Hk.
  apply bind_Ok in Hk as (body & Hb & Hk). apply bind_Ok in Hk as (? & _ & Hk).
  apply bind_Ok in Hk as (? & _ & Hk). injection Hk as <-. cbn.
  apply validate_envelope_body_Ok in Hb as (Ht & Hs & _).
  apply validate_target_Ok in Ht as (_ & _ & Ht & _).
  apply common_signal_semantics_Ok in Hs as (H1 & H2 & H3 & H4 & H5 & H6).
  unfold dt_ltb, dt_leb in *. bool_prop. split_and!; try done.
  intros c Hc. apply H5 in Hc. by bool_prop.
Qed.

(** Sealing is total and stable: every envelope body that passes validation
    is sealed, and the sealed envelope passes validation unchanged, text
    stripping included. *)
Theorem seal_signal_round_trip b body :
  validate_envelope_body b = Ok body ->
  check_hash (signal_hash dump_signal body) "SignalEnvelope content_hash" = Ok tt ->
  let e := Envelope body (signal_hash dump_signal body) in
  seal_signal_envelope dump_signal b = Ok e /\ validate_signal_envelope dump_signal e = Ok e
  /\ seal_signal_envelope dump_signal body = Ok e.
Proof.
  intros Hb Hh. pose proof (validate_envelope_body_idemp _ _ Hb) as Hb'.
  assert (Hv : validate_signal_envelope dump_signal (Envelope body (signal_hash dump_signal body))
    = Ok (Envelope body (signal_hash dump_signal body))).
  { unfold validate_signal_envelope. cbn. rewrite Hb'. cbn -[check_hash]. rewrite Hh. cbn.
    unfold verify_signal_envelope_hash. cbn. by rewrite String.eqb_refl. }
  unfold seal_signal_envelope. rewrite Hb, Hb'. cbn. by rewrite Hv.
Qed.

(** ** Accepted signals and their plans *)

Lemma validated_signal spec signal :
  validate_signal_against_spec dump_spec dump_signal signal spec = Ok tt ->
  let b := se_body signal in let c := sp_capabilities (as_body spec) in
  sg_participation b = sp_participation (as_body spec)
  /\ pp_mode (sp_participation (as_body spec)) <> PART_DISABLED
  /\ some (sg_direction b) = cap_direction c
  /\ (cap_probability_mode c = PROB_MULTICLASS <-> some (sg_probabilities b) = true)
  /\ (cap_reasoning_mode c = STRUCTURED <-> truthy_opt (sg_rationale b) = true)
  /\ cap_supports_input_binding c = true.
Proof.
  unfold validate_signal_against_spec, check_identity. intros Hk.
  apply bind_Ok in Hk as ([] & _ & Hk). apply bind_Ok in Hk as ([] & _ & Hk).
  apply bind_Ok in Hk as ([] & Hid & Hk).
  do 4 (apply raise_when_bind_Ok in Hid as [? Hid]). apply raise_when_Ok in Hid.
  apply raise_when_bind_Ok in Hk as [Hd1 Hk]. apply raise_when_bind_Ok in Hk as [Hd2 Hk].
  apply bind_Ok in Hk as ([] & Hp & Hk).
  apply raise_when_bind_Ok in Hk as [Hr1 Hk]. apply raise_when_bind_Ok in Hk as [Hr2 Hk].
  apply raise_when_bind_Ok in Hk as [_ Hk]. apply raise_when_bind_Ok in Hk as [_ Hk].
  apply raise_when_bind_Ok in Hk as [_ Hk]. apply raise_when_bind_Ok in Hk as [Hib _].
  cbn. bool_prop. split_and!; try done.
  - destruct (cap_direction _), (sg_direction _); done.
  - unfold check_probability_fields in Hp. destruct (cap_probability_mode _).
    + apply raise_when_Ok in Hp. bool_prop. split; congruence.
    + apply raise_when_bind_Ok in Hp as [Hp _]. split; congruence.
    + apply raise_when_Ok in Hp. by bool_prop.
  - unfold has_structured_reasoning, has_any_reasoning in *.
    case_bool_decide as Hst; cbn in *; [|split; [done|]].
    + bool_prop. done.
    + bool_prop. congruence.
Qed.

Lemma plan_of_accepted_signal_eq spec signal :
  validate_signal_against_spec dump_spec dump_signal signal spec = Ok tt ->
  evaluation_plan dump_spec dump_signal spec (Some signal) = Ok (plan_of (as_body spec) None).
Proof.
  intros Hv. unfold evaluation_plan. rewrite Hv. cbn.
  apply validated_signal in Hv as (_ & _ & Hd & Hp & Hr & _). cbn in *.
  unfold plan_of. case_bool_decide; [done|]. rewrite Hd, !andb_true_r.
  do 2 f_equal.
  - by destruct (has_metric _ _), (cap_direction _).
  - f_equal. case_bool_decide as E; [|done]. by rewrite (proj1 Hp E).
  - f_equal. case_bool_decide as E; [|done]. by rewrite (proj1 Hp E).
  - case_bool_decide as E; [|by rewrite andb_false_r]. rewrite (proj1 Hr E). by rewrite andb_true_r.
Qed.

(** What an Agent declares is what its accepted signals deliver: the plan for
    an accepted signal is the plan of its declaration, so no declared metric is
    silently dropped for a signal. *)
Theorem plan_of_accepted_signal spec signal :
  validate_signal_against_spec dump_spec dump_signal signal spec = Ok tt ->
  evaluation_plan dump_spec dump_signal spec (Some signal)
  = evaluation_plan dump_spec dump_signal spec None.
Proof. intros Hv. rewrite plan_of_accepted_signal_eq by done. done. Qed.

(** Authority comes from the policy alone: an accepted signal is always
    routed; it takes part in formal aggregation exactly when its policy is
    formal, a shadow signal carries no influence, and a formal one always does. *)
Theorem route_accepted_signal spec signal :
  validate_signal_against_spec dump_spec dump_signal signal spec = Ok tt ->
  validate_policy (sp_participation (as_body spec)) = Ok tt ->
  exists r, route_signal dump_spec dump_signal spec signal = Ok r
    /\ rt_influence r = pp_influence (sp_participation (as_body spec))
    /\ rt_formal_aggregation r = bool_decide (pp_mode (sp_participation (as_body spec)) = PART_FORMAL)
    /\ rt_shadow_benchmark r = negb (rt_formal_aggregation r)
    /\ (rt_formal_aggregation r = true <-> rt_influence r <> INFL_NONE).
Proof.
  intros Hv Hp. unfold route_signal. rewrite Hv. cbn.
  apply validated_signal in Hv as (-> & Hne & _).
  unfold validate_policy in Hp. apply bind_Ok in Hp as ([] & _ & Hp).
  apply bind_Ok in Hp as ([] & _ & Hp). do 2 (apply raise_when_bind_Ok in Hp as [_ Hp]).
  apply raise_when_bind_Ok in Hp as [Hsh Hp]. apply raise_when_bind_Ok in Hp as [Hfo _].
  destruct (sp_participation (as_body spec)) as [? ? mode infl metrics]; cbn in *.
  destruct mode; [| |done].
  - rewrite bool_decide_true in Hfo by done. cbn in Hfo. bool_prop.
    destruct infl; try done; eexists; (split; [reflexivity|]); split_and!; done.
  - rewrite bool_decide_true in Hsh by done. cbn in Hsh. bool_prop. subst.
    eexists. split; [reflexivity|]. split_and!; cbn; (done || congruence).
Qed.

(** Scoring stays within the contract: an evaluated signal has a direction
    verdict exactly when the declaration has a direction metric and the outcome
    left the neutral band, the verdict is agreement with the outcome, and a
    Brier score exactly when multiclass scoring is declared. *)
Theorem evaluate_accepted_signal spec signal label e :
  evaluate_signal dump_spec dump_signal spec signal label = Ok e ->
  let plan := plan_of (as_body spec) None in
  Direction_of label = Ok (sv_actual_label e)
  /\ sv_direction_correct e
     = (if pl_direction plan && negb (bool_decide (sv_actual_label e = NEUTRAL))
        then Some (bool_decide (side_direction <$> sg_direction (se_body signal)
                                = Some (sv_actual_label e)))
        else None)
  /\ some (sv_brier_score e) = pl_multiclass_brier plan
  /\ sv_calibration_eligible e = pl_calibration plan
  /\ sv_reasoning_review_eligible e = pl_reasoning plan.
Proof.
  unfold evaluate_signal. intros Hk. apply bind_Ok in Hk as (plan & Hplan & Hk).
  assert (Hv : validate_signal_against_spec dump_spec dump_signal signal spec = Ok tt).
  { unfold evaluation_plan in Hplan. apply bind_Ok in Hplan as ([] & ? & _). done. }
  rewrite plan_of_accepted_signal_eq in Hplan by done. injection Hplan as <-.
  apply bind_Ok in Hk as (actual & -> & Hk). apply bind_Ok in Hk as (brier & Hb & Hk).
  injection Hk as <-. cbn. split; [done|]. split; [|split; [|done]].
  - destruct (pl_direction _ && _); [|done]. f_equal. apply bool_decide_ext. unfold side_value.
    destruct (sg_direction _) as [[]|], actual; cbn; split; (done || congruence).
  - destruct (pl_multiclass_brier _); [|by injection Hb as <-].
    destruct (sg_probabilities _); [|done]. apply bind_Ok in Hb as (x & _ & Hb).
    by injection Hb as <-.
Qed.

(** ** The built-in registry *)

Definition registered (d : AgentDefinition) (s : AgentSpecBody) : Prop :=
  registry_body d = Ok s /\ validate_spec_body s = Ok tt /\ sp_agent_id s = ag_id d.

Lemma registry_bodies d : d ∈ DISPLAY_AGENTS -> exists s, registered d s.
Proof.
  intros Hin. assert (Hall : forallb (fun d => match registry_body d with
      | Ok s => is_ok (validate_spec_body s) && (sp_agent_id s =? ag_id d)%string
      | Err _ => false end) DISPLAY_AGENTS = true) by by_vm.
  rewrite forallb_forall in Hall. specialize (Hall d). cbn beta in Hall.
  rewrite <- list_elem_of_In in Hall. specialize (Hall Hin).
  destruct (registry_body d) as [s|] eqn:E; [|done]. bool_prop. exists s.
  split; [done|]. split; [|done].
  by destruct (validate_spec_body s) as [[]|].
Qed.

(** The Agents with a decision or a shadow lane. *)
Definition lanes_ok (s : AgentSpecBody) : bool :=
  let p := sp_participation s in
  Bool.eqb (bool_decide (pp_influence p = INFL_DECISION)) (sp_agent_id s =? "cio_agent")%string
  && (negb (bool_decide (pp_influence p = INFL_DECISION)) || bool_decide (sp_source_type s = DETERMINISTIC))
  && Bool.eqb (bool_decide (pp_mode p = PART_SHADOW))
       (bool_decide (sp_source_type s = MANUAL \/ sp_source_type s = QUANT))
  && negb (bool_decide (pp_mode p = PART_DISABLED)).

Lemma seal_valid_spec s :
  validate_spec_body s = Ok tt -> check_hash (spec_hash dump_spec s) "AgentSpec content_hash" = Ok tt ->
  let spec := Spec s (spec_hash dump_spec s) in
  seal_agent_spec dump_spec s = Ok spec /\ validate_agent_spec dump_spec spec = Ok spec.
Proof.
  intros Hv Hh. assert (Hval : validate_agent_spec dump_spec (Spec s (spec_hash dump_spec s))
                     = Ok (Spec s (spec_hash dump_spec s))).
  { unfold validate_agent_spec, verify_agent_spec_hash. cbn [as_body as_content_hash].
    rewrite Hv. cbn [mbind result_bind]. rewrite Hh. cbn [mbind result_bind].
    by rewrite String.eqb_refl. }
  split; [|done]. unfold seal_agent_spec. by rewrite Hv.
Qed.

(** The built-in registry is complete and consistent: with digests that are
    well-formed, building it never raises, it declares exactly the roster in
    order, every declaration passes its own validation, the chief investment
    officer alone has decision authority and is deterministic, and exactly the
    manual and quantitative Agents are confined to the shadow lane. *)
Theorem registry_complete :
  (forall s, check_hash (spec_hash dump_spec s) "AgentSpec content_hash" = Ok tt) ->
  exists specs, registry dump_spec = Ok specs
    /\ (fun s => sp_agent_id (as_body s)) <$> specs = ag_id <$> DISPLAY_AGENTS
    /\ Forall (fun s => validate_agent_spec dump_spec s = Ok s /\ lanes_ok (as_body s) = true) specs.
Proof.
  intros Hh. unfold registry.
  assert (Hl : forall d s, registry_body d = Ok s -> d ∈ DISPLAY_AGENTS -> lanes_ok s = true).
  { intros d s Hd Hin. assert (Hall : forallb (fun d => match registry_body d with
      | Ok s => lanes_ok s | Err _ => false end) DISPLAY_AGENTS = true) by by_vm.
    rewrite forallb_forall in Hall. specialize (Hall d). cbn beta in Hall.
    rewrite <- list_elem_of_In, Hd in Hall. auto. }
  assert (Hgen : forall l, (forall d, d ∈ l -> d ∈ DISPLAY_AGENTS) ->
    exists specs, mapM_result (fun d => body ← registry_body d; seal_agent_spec dump_spec body) l = Ok specs
    /\ (fun s => sp_agent_id (as_body s)) <$> specs = ag_id <$> l
    /\ Forall (fun s => validate_agent_spec dump_spec s = Ok s /\ lanes_ok (as_body s) = true) specs).
  { induction l as [|d l IH]; intros Hin.
    - exists []. by split_and!.
    - destruct IH as (specs & Hs & Hids & Hall); [intros; apply Hin; by right|].
      destruct (registry_bodies d) as (s & Hb & Hv & Hid); [apply Hin; by left|].
      destruct (seal_valid_spec s) as [Hseal Hval]; [done|apply Hh|].
      exists (Spec s (spec_hash dump_spec s) :: specs). cbn [mapM_result].
      rewrite Hb. cbn [mbind result_bind]. rewrite Hseal. cbn [mbind result_bind]. rewrite Hs.
      split; [done|]. split; [cbn; by rewrite Hid, Hids|].
      constructor; [|done]. split; [done|]. eapply Hl; [done|]. apply Hin. by left. }
  apply Hgen. done.
Qed.

End Seals.

(** ** A concrete signal of the strategy Agent *)

Module Witnesses.

Definition digest : string := String.string_of_list_ascii (repeat "a"%char 64).
#[local] Instance demo_runtime : PyRuntime := {| runtime := Py312 |}.
#[local] Instance demo_hash : CanonicalHash := {| canonical_hash := fun _ => digest |}.

Definition dump1 (_ : AgentSpecBody) : json := JNull.
Definition dump2 (_ : SignalEnvelopeBody) : json := JNull.

Definition no_spec : AgentSpecBody :=
  SpecBody "" "" "" "" RESEARCH AI (Capabilities false PROB_NONE REASONING_NONE EVIDENCE_NONE false false)
    (Policy "" "" PART_DISABLED INFL_NONE []).
Definition strategy_definition : AgentDefinition :=
  default USER_JUDGMENT_AGENT (AGENT_BY_ID !! "strategy_agent").
Definition strategy_spec : AgentSpec :=
  Spec (match registry_body strategy_definition with Ok s => s | Err _ => no_spec end) digest.

Definition at_hour (day h : Z) : datetime := DateTime ((700000 + day) * us_per_day + h * us_per_hour) (Some 0).

Definition body : SignalEnvelopeBody :=
  EnvelopeBody "s1" "strategy_agent" "0.2.0" "live"
    (Target "000300.SH" D1 700000 700001 (at_hour 0 8) UTC (at_hour 0 7))
    (at_hour 0 9) (at_hour 0 10) (at_hour 0 12)
    (InputBinding "r1" digest digest None None [])
    (formal_policy "committee-static" INFL_INPUT true)
    (Provenance AI "p" "a" "1" (Some "m") (Some "1") (Some "1") None None None [])
    (Some SIDE_UP) (Some (mkProbs (lit 1 2) (lit 1 4) (lit 1 4))) None
    (Some " rationale ") ["counter"] [" invalid"]
    [SigCitation "c" "https://example.org" digest (at_hour 0 6)] None "x/v1" ∅.

Definition sealed : SignalEnvelope :=
  match seal_signal_envelope dump2 body with Ok e => e | Err _ => Envelope body "" end.

Lemma accepted_envelope_no_lookahead_witness :
  instant (tg_data_cutoff (sg_target (se_body sealed))) <= instant (sg_submitted_at (se_body sealed)).
Proof.
  destruct (accepted_envelope_no_lookahead dump2 sealed sealed) as (H1 & _); [by_vm|].
  lia.
Defined.

Lemma seal_signal_round_trip_witness :
  validate_signal_envelope dump2 sealed = Ok sealed.
Proof.
  destruct (seal_signal_round_trip dump2 body (se_body sealed)) as (_ & Hv & _); [by_vm|by_vm|].
  exact Hv.
Defined.

Lemma plan_of_accepted_signal_witness :
  evaluation_plan dump1 dump2 strategy_spec (Some sealed)
  = evaluation_plan dump1 dump2 strategy_spec None.
Proof. apply (plan_of_accepted_signal dump1 dump2 strategy_spec sealed). by_vm. Defined.

Lemma route_accepted_signal_witness :
  exists r, route_signal dump1 dump2 strategy_spec sealed = Ok r /\ rt_influence r = INFL_INPUT.
Proof.
  destruct (route_accepted_signal dump1 dump2 strategy_spec sealed) as (r & Hr & Hi & _); [by_vm|by_vm|].
  exists r. split; [exact Hr|]. rewrite Hi. by_vm.
Defined.

Definition evaluated : SignalEvaluation :=
  match evaluate_signal dump1 dump2 strategy_spec sealed "down" with
  | Ok e => e | Err _ => SigEval NEUTRAL None None false false end.

Lemma evaluate_accepted_signal_witness :
  some (sv_brier_score evaluated) = pl_multiclass_brier (plan_of (as_body strategy_spec) None)
  /\ sv_direction_correct evaluated = Some false.
Proof.
  destruct (evaluate_accepted_signal dump1 dump2 strategy_spec sealed "down" evaluated)
    as (_ & _ & Hb & _); [by_vm|].
  split; [exact Hb|by_vm].
Defined.

Lemma registry_complete_witness :
  exists specs, registry dump1 = Ok specs
    /\ (fun s => sp_agent_id (as_body s)) <$> specs = ag_id <$> DISPLAY_AGENTS.
Proof.
  destruct (registry_complete dump1) as (specs & Hs & Hids & _).
  - intros s. by_vm.
  - exists specs. split; [exact Hs|exact Hids].
Defined.

End Witnesses.

End ContractProps.
