(* ===== verification/Snapshot.v ===== *)
(** * Frozen evidence snapshots ([backend/app/services/snapshot.py])

    The trust boundary of a live run: source URLs from reviewed domains, digests
    that are not placeholders, and a snapshot whose calendar, market data and
    evidence were all visible at its cutoff. *)
From Stdlib Require Import Ascii.
From S2P Require Import Prelude PyStr PyTime Float64 Domain Json.
Import PyStr PyTime Float64 Domain Json.
Open Scope string_scope.
Open Scope Z_scope.

(** ** [urllib.parse.urlsplit], as far as the allowlist uses it *)
Module SourceUrl.

Record SplitUrl := Split {
  su_scheme : string;
  su_username : option string;
  su_password : option string;
  su_hostname : option string }.

(** The two checks of [urlsplit] that rest on the [ipaddress] module and on the
    Unicode database: each says whether the network location is accepted. *)
Class UrlChecks := { bracketed_ok : string -> bool; nfkc_ok : string -> bool }.

Definition chars := list Ascii.ascii.
Definition str (l : chars) : string := String.string_of_list_ascii l.

Definition eqc (a b : Ascii.ascii) : bool := bool_decide (a = b).

Definition is_c0_or_space (c : Ascii.ascii) : bool := in_range 0 32 c.
Definition is_unsafe (c : Ascii.ascii) : bool := in_range 9 10 c || eqc c (Ascii.ascii_of_nat 13).
Definition is_alpha (c : Ascii.ascii) : bool := is_upper c || is_lower c.
Definition is_scheme_char (c : Ascii.ascii) : bool := is_alnum c || char_in "+-." c.

(** The text before and after the first character that satisfies [p]; [None]
    when there is none. *)
Fixpoint cut_at (p : Ascii.ascii -> bool) (l : chars) : option (chars * chars) :=
  match l with
  | [] => None
  | c :: l' => if p c then Some ([], l')
               else match cut_at p l' with Some (a, b) => Some (c :: a, b) | None => None end
  end.

(** [s.rpartition('@')[2]] and the text before it. *)
Definition rcut_at (p : Ascii.ascii -> bool) (l : chars) : option (chars * chars) :=
  match cut_at p (reverse l) with
  | Some (a, b) => Some (reverse b, reverse a)
  | None => None
  end.

Definition split_scheme (url : chars) : string * chars :=
  match url, cut_at (fun c => eqc c ":"%char) url with
  | c0 :: _, Some (a, b) =>
      if is_alpha c0 && forallb is_scheme_char a && negb (bool_decide (a = []))
      then (py_lower (str a), b) else ("", url)
  | _, _ => ("", url)
  end.

(** [_splitnetloc] *)
Definition split_netloc (url : chars) : chars :=
  match url with
  | "/"%char :: "/"%char :: rest =>
      match cut_at (fun c => char_in "/?#" c) rest with Some (a, _) => a | None => rest end
  | _ => []
  end.

Definition has_char (c : Ascii.ascii) (l : chars) : bool := existsb (eqc c) l.

Definition user_info (netloc : chars) : option string * option string :=
  match rcut_at (eqc "@"%char) netloc with
  | None => (None, None)
  | Some (info, _) =>
      match cut_at (eqc ":"%char) info with
      | Some (u, p) => (Some (str u), Some (str p))
      | None => (Some (str info), None)
      end
  end.

Definition host_name (netloc : chars) : option string :=
  let hostinfo := match rcut_at (eqc "@"%char) netloc with Some (_, h) => h | None => netloc end in
  let upto p l := match cut_at p l with Some (a, _) => a | None => l end in
  let name := match cut_at (eqc "["%char) hostinfo with
              | Some (_, bracketed) => upto (eqc "]"%char) bracketed
              | None => upto (eqc ":"%char) hostinfo
              end in
  match name with
  | [] => None
  | _ => match cut_at (eqc "%"%char) name with
         | Some (a, zone) => Some (py_lower (str a) +:+ "%" +:+ str zone)
         | None => Some (py_lower (str name))
         end
  end.

Definition urlsplit `{UrlChecks} (url : string) : result SplitUrl :=
  let l := drop_while is_c0_or_space (String.list_ascii_of_string url) in
  let l := List.filter (fun c => negb (is_unsafe c)) l in
  let '(scheme, rest) := split_scheme l in
  let netloc := split_netloc rest in
  raise_when (negb (Bool.eqb (has_char "["%char netloc) (has_char "]"%char netloc)))
    ValueError "Invalid IPv6 URL" ;;
  raise_when (has_char "["%char netloc && negb (bracketed_ok (str netloc)))
    ValueError "Invalid IPv6 URL" ;;
  raise_when (negb (forallb (in_range 0 127) netloc) && negb (nfkc_ok (str netloc)))
    ValueError "netloc contains invalid characters under NFKC normalization" ;;
  let '(username, password) := user_info netloc in
  Ok (Split scheme username password (host_name netloc)).

(** [s.endswith(suffix)] and [s.rstrip(".")] *)
Definition py_endswith (s suffix : string) : bool :=
  let l := String.list_ascii_of_string s in
  let k := String.list_ascii_of_string suffix in
  (length k <=? length l)%nat && bool_decide (drop (length l - length k) l = k).

Definition rstrip_dots (s : string) : string :=
  str (reverse (drop_while (eqc "."%char) (reverse (String.list_ascii_of_string s)))).

End SourceUrl.

Module Snapshot.
Import SourceUrl.

Definition TRUSTED_SOURCE_DOMAINS : list string :=
  ["alphavantage.co"; "cls.cn"; "cnindex.com.cn"; "cninfo.com.cn"; "computeexpresslink.org";
   "csrc.gov.cn"; "csindex.com.cn"; "eastmoney.com"; "federalreserve.gov"; "gov.cn"; "hkex.com.hk";
   "hkexnews.hk"; "micron.com"; "nasdaq.com"; "nist.gov"; "nvidia.com"; "nyse.com"; "pbc.gov.cn";
   "reuters.com"; "safe.gov.cn"; "samsung.com"; "sec.gov"; "sina.com.cn"; "skhynix.com";
   "sse.com.cn"; "stats.gov.cn"; "stooq.com"; "szse.cn"; "tsmc.com"; "tushare.pro"; "yahoo.com"].

(** ** Data *)

Record EvidenceItem := Evidence {
  ei_id : string; ei_title : string; ei_summary : string; ei_quote : string;
  ei_source_url : string;
  ei_event_time : datetime; ei_published_at : datetime; ei_ingested_at : datetime;
  ei_entities : list string; ei_event_type : string; ei_content_hash : string }.

Record MarketDataProvenance := MarketData {
  md_trade_date : date; md_source_url : string; md_source_hash : string;
  md_observed_at : datetime; md_ingested_at : datetime }.

Record TradingCalendarProvenance := Calendar {
  tc_sessions : list date; tc_source_url : string; tc_source_hash : string;
  tc_observed_at : datetime; tc_ingested_at : datetime }.

(** Dictionaries are association lists, in insertion order. *)
Record FrozenEvidenceSnapshot := Frozen {
  fs_as_of : datetime;
  fs_data_cutoff : datetime;
  fs_created_at : datetime;
  fs_base_session : date;
  fs_trading_calendar : TradingCalendarProvenance;
  fs_volatility_20d : list (string * float);
  fs_market_data : list (string * MarketDataProvenance);
  fs_target_sessions : list date;
  fs_items : list EvidenceItem;
  fs_content_hash : string }.

Definition live_error {A} (m : string) : result A := raise LiveEvidenceRequiredError m.
Definition live_when (b : bool) (m : string) : result unit :=
  raise_when b LiveEvidenceRequiredError m.

(** ** Sources and digests *)

Definition trusted_host (hostname : string) : bool :=
  existsb (fun trusted => (hostname =? trusted)%string || py_endswith hostname ("." +:+ trusted))
    TRUSTED_SOURCE_DOMAINS.

Section Sources.
Context `{UrlChecks}.

Definition validate_source_url (url label : string) : result unit :=
  parsed ← urlsplit url;
  let hostname := rstrip_dots (py_lower (default "" (su_hostname parsed))) in
  live_when (negb (su_scheme parsed =? "https")%string || (hostname =? "")%string
             || negb (bool_decide (su_username parsed = None))
             || negb (bool_decide (su_password parsed = None)))
    (label +:+ " must use a valid HTTPS source URL") ;;
  live_when (negb (trusted_host hostname))
    (label +:+ " source domain is not in the trusted allowlist: " +:+ hostname).

(** [validate_trusted_source_url] *)
Definition validate_trusted_source_url (url label : string) : result unit :=
  validate_source_url url label.

Definition validate_hash (value label : string) : result unit :=
  live_when (negb (is_sha256_hex value)) (label +:+ " hash must be 64 lowercase hex characters") ;;
  live_when (value =? zero_digest)%string (label +:+ " hash cannot be a placeholder digest").

Definition require_aware (label : string) (value : datetime) : result unit :=
  live_when (negb (is_aware value)) (label +:+ " must be timezone-aware").

(** Sorted and without duplicates: [targets == sorted(set(targets))]. *)
Fixpoint increasing (l : list Z) : bool :=
  match l with
  | a :: ((b :: _) as l') => (a <? b) && increasing l'
  | _ => true
  end.

Definition validate_target_sessions (targets : list date) (as_of : datetime) : result unit :=
  live_when (negb (length targets =? 2)%nat) "Snapshot must freeze exactly two target sessions" ;;
  live_when (negb (increasing targets)) "Snapshot target sessions must be unique and increasing" ;;
  live_when (existsb (fun t => t <=? date_of as_of) targets)
    "Snapshot target sessions must be after as_of" ;;
  live_when (existsb (fun t => 5 <=? weekday t) targets)
    "Snapshot target sessions must be trading weekdays".

(** Observed, then ingested, both by the cutoff. *)
Definition visible (what : string) (observed ingested cutoff : datetime) : result unit :=
  live_when (dt_ltb ingested observed) (what +:+ " was ingested before it was observed") ;;
  live_when (dt_ltb cutoff observed || dt_ltb cutoff ingested)
    (what +:+ " was not visible at the frozen data cutoff").

Definition same_keys {A} (codes : list string) (d : list (string * A)) : bool :=
  bool_decide (list_to_set (C := gset string) (fst <$> d) = list_to_set codes).

Definition required_codes (instrument_codes : option (list string)) : list string :=
  match instrument_codes with
  | None | Some [] => idx_code <$> INDEXES
  | Some codes => codes
  end.

Definition bad_volatility (v : float) : bool :=
  negb (is_finite v) || fleb v f0 || fltb f1 v.

Definition validate_market_data (s : FrozenEvidenceSnapshot) (entry : string * MarketDataProvenance)
    : result unit :=
  let '(code, p) := entry in
  let label := "market data " +:+ code in
  live_when (negb (md_trade_date p =? fs_base_session s))
    (label +:+ " trade_date must equal the frozen base_session") ;;
  validate_source_url (md_source_url p) label ;;
  validate_hash (md_source_hash p) label ;;
  require_aware (label +:+ " observed_at") (md_observed_at p) ;;
  require_aware (label +:+ " ingested_at") (md_ingested_at p) ;;
  visible label (md_observed_at p) (md_ingested_at p) (fs_data_cutoff s).

(** The digest of one item; Pydantic's dump and SHA-256 over default-separator
    JSON are not part of the repository. *)
Context (evidence_item_hash : EvidenceItem -> string).

Definition validate_item (s : FrozenEvidenceSnapshot) (item : EvidenceItem) : result unit :=
  let label := "evidence " +:+ ei_id item in
  validate_source_url (ei_source_url item) label ;;
  validate_hash (ei_content_hash item) label ;;
  require_aware (label +:+ " event_time") (ei_event_time item) ;;
  require_aware (label +:+ " published_at") (ei_published_at item) ;;
  require_aware (label +:+ " ingested_at") (ei_ingested_at item) ;;
  live_when (negb (dt_leb (ei_event_time item) (ei_published_at item)
                   && dt_leb (ei_published_at item) (ei_ingested_at item)))
    (label +:+ " has inconsistent event/published/ingested times") ;;
  live_when (dt_ltb (fs_data_cutoff s) (ei_ingested_at item))
    (label +:+ " was not visible at the frozen data cutoff") ;;
  live_when (negb (ei_content_hash item =? evidence_item_hash item)%string)
    (label +:+ " content_hash does not match its canonical payload").

Definition validate_calendar (s : FrozenEvidenceSnapshot) : result unit :=
  let c := fs_trading_calendar s in
  validate_source_url (tc_source_url c) "trading calendar" ;;
  validate_hash (tc_source_hash c) "trading calendar" ;;
  require_aware "trading calendar observed_at" (tc_observed_at c) ;;
  require_aware "trading calendar ingested_at" (tc_ingested_at c) ;;
  visible "Trading calendar" (tc_observed_at c) (tc_ingested_at c) (fs_data_cutoff s) ;;
  live_when (negb (bool_decide (tc_sessions c = fs_base_session s :: fs_target_sessions s)))
    "Trading calendar sessions must exactly match base_session and D1/D2 targets".

Definition validate_clock (s : FrozenEvidenceSnapshot) (as_of : datetime) (zone : zoneinfo)
    : result unit :=
  require_aware "requested as_of" as_of ;;
  require_aware "snapshot.as_of" (fs_as_of s) ;;
  require_aware "snapshot.data_cutoff" (fs_data_cutoff s) ;;
  require_aware "snapshot.created_at" (fs_created_at s) ;;
  live_when (negb (dt_eqb (fs_as_of s) as_of))
    "Snapshot as_of does not exactly match the requested as_of time" ;;
  live_when (dt_ltb as_of (fs_data_cutoff s)) "Snapshot cutoff is newer than the requested as_of time" ;;
  live_when (dt_ltb (fs_created_at s) as_of) "Snapshot cannot be created before its as_of time" ;;
  live_when (negb (date_of (astimezone zone (fs_data_cutoff s)) =? date_of as_of))
    "Snapshot cutoff is stale: it must be from the requested as_of date" ;;
  live_when (negb (fs_base_session s =? date_of as_of) || (5 <=? weekday (fs_base_session s)))
    "Snapshot base_session must be the requested as_of trading weekday".

(** [validate_live_snapshot]; [zone] is the [tzinfo] of [as_of]. *)
Definition validate_live_snapshot (s : FrozenEvidenceSnapshot) (as_of : datetime) (zone : zoneinfo)
    (instrument_codes : option (list string)) : result unit :=
  validate_clock s as_of zone ;;
  validate_calendar s ;;
  let codes := required_codes instrument_codes in
  live_when (bool_decide (codes = [])) "Configured market universe has no instruments" ;;
  live_when (negb (same_keys codes (fs_volatility_20d s)))
    "Snapshot volatility keys do not match configured instruments" ;;
  live_when (existsb (fun '(_, v) => bad_volatility v) (fs_volatility_20d s))
    "Snapshot volatility values must be finite, greater than zero and at most one" ;;
  live_when (negb (same_keys codes (fs_market_data s)))
    "Snapshot market provenance keys do not match configured instruments" ;;
  mapM_result (validate_market_data s) (fs_market_data s) ;;
  validate_target_sessions (fs_target_sessions s) as_of ;;
  live_when (bool_decide (fs_items s = [])) "Live snapshot must contain at least one evidence item" ;;
  live_when (negb (bool_decide (NoDup (ei_id <$> fs_items s))))
    "Evidence item IDs must be unique within a snapshot" ;;
  mapM_result (validate_item s) (fs_items s) ;;
  Ok tt.

End Sources.

#[global] Instance EvidenceItem_eq_dec : EqDecision EvidenceItem.
Proof. solve_decision. Defined.

(** [validate_snapshot_content_hash] *)
Definition validate_snapshot_content_hash (snapshot_hash : FrozenEvidenceSnapshot -> string)
    (s : FrozenEvidenceSnapshot) : result unit :=
  live_when (negb (fs_content_hash s =? snapshot_hash s)%string)
    "Evidence snapshot content_hash does not match payload".

(** [_next_weekdays]: the loop, with fuel. *)
Fixpoint next_weekdays_loop (fuel : nat) (candidate : date) (targets : list date) (count : nat)
    : option (list date) :=
  if (length targets <? count)%nat then
    match fuel with
    | O => None
    | S fuel' =>
        let candidate := candidate + 1 in
        next_weekdays_loop fuel' candidate
          (if weekday candidate <? 5 then targets ++ [candidate] else targets) count
    end
  else Some targets.

Definition next_weekdays (start : date) (count : nat) : option (list date) :=
  next_weekdays_loop (3 * count) start [] count.

End Snapshot.
