(* ===== verification/SnapshotProps.v ===== *)
(** * Correctness of the snapshot trust boundary

    What an accepted live snapshot guarantees, which hosts the allowlist
    admits, and the session calendar of the demo. *)
From Stdlib Require Import Ascii.
From S2P Require Import Prelude PyStr PyTime Float64 Domain Json Snapshot.
Import PyStr PyTime Float64 Domain Json Snapshot SourceUrl Snapshot.
Open Scope string_scope.
Open Scope Z_scope.

Module SnapshotProps.

(** ** Hosts *)

Lemma py_endswith_spec s suffix :
  py_endswith s suffix = true <-> exists p, s = p +:+ suffix.
Proof.
  unfold py_endswith. rewrite andb_true_iff, Nat.leb_le, bool_decide_eq_true. split.
  - intros [Hle Heq].
    exists (String.string_of_list_ascii
      (take (length (String.list_ascii_of_string s) - length (String.list_ascii_of_string suffix))
         (String.list_ascii_of_string s))).
    rewrite <- (String.string_of_list_ascii_of_string s) at 1.
    rewrite <- (take_drop (length (String.list_ascii_of_string s)
      - length (String.list_ascii_of_string suffix)) (String.list_ascii_of_string s)) at 1.
    by rewrite string_of_list_ascii_app, Heq, String.string_of_list_ascii_of_string.
  - intros [p ->]. rewrite list_ascii_of_string_app, length_app. split; [lia|].
    rewrite drop_app_length'; [done|lia].
Qed.

(** The allowlist admits a host exactly when it is a reviewed domain or a
    subdomain of one: a lookalike that merely ends in the same letters is
    refused. *)
Theorem trusted_host_spec hostname :
  trusted_host hostname = true <->
  exists domain, domain ∈ TRUSTED_SOURCE_DOMAINS
    /\ (hostname = domain \/ exists sub, hostname = sub +:+ "." +:+ domain).
Proof.
  unfold trusted_host. rewrite existsb_exists. split.
  - intros (d & Hin & Hd). apply list_elem_of_In in Hin. exists d. split; [done|].
    apply orb_true_iff in Hd as [Hd|Hd]; [left; by apply String.eqb_eq|right].
    by apply py_endswith_spec in Hd.
  - intros (d & Hin & Hd). apply list_elem_of_In in Hin. exists d. split; [done|].
    apply orb_true_iff. rewrite String.eqb_eq, py_endswith_spec. done.
Qed.

(** ** Sessions *)

(** Days until the next weekday. *)
Definition gap (c : date) : nat :=
  if weekday (c + 1) <? 5 then 1 else if weekday (c + 2) <? 5 then 2 else 3.

Lemma gap_bounds c : (1 <= gap c <= 3)%nat.
Proof. unfold gap. repeat case_match; lia. Qed.

Lemma gap_next c : (weekday (c + 1) <? 5) = false -> gap c = S (gap (c + 1)).
Proof.
  intros H1. unfold gap. rewrite H1, <- !Z.add_assoc. change (1 + 1) with 2. change (1 + 2) with 3.
  destruct (weekday (c + 2) <? 5) eqn:E; [done|].
  assert ((weekday (c + 3) <? 5) = true) as ->; [|done]. unfold weekday in *. bool_prop.
  apply Z.ltb_lt. Z.div_mod_to_equations. lia.
Qed.

(** The sessions found so far: increasing, all the weekdays up to [c]. *)
Record sessions_ok (start c : date) (targets : list date) : Prop := {
  so_le : start <= c;
  so_sorted : StronglySorted Z.lt targets;
  so_elem : forall d, d ∈ targets <-> start < d <= c /\ weekday d < 5 }.

Lemma sessions_snoc start c targets :
  sessions_ok start c targets ->
  sessions_ok start (c + 1) (if weekday (c + 1) <? 5 then targets ++ [c + 1] else targets)%list.
Proof.
  intros [Hle Hs He]. destruct (weekday (c + 1) <? 5) eqn:E; bool_prop; split; try lia; try done.
  - apply StronglySorted_app_2; [|done|repeat constructor].
    intros x y Hx ->%list_elem_of_singleton. apply He in Hx. lia.
  - intros d. rewrite elem_of_app, list_elem_of_singleton, He. split.
    + intros [[? ?]| ->]; [split; [lia|done]|split; [lia|done]].
    + intros [Hd Hw]. destruct (decide (d = c + 1)) as [->|]; [by right|left]. split; [lia|done].
  - intros d. rewrite He. split; [intros [? ?]; split; [lia|done]|].
    intros [Hd Hw]. assert (d <> c + 1) by (intros ->; lia). split; [lia|done].
Qed.

Lemma next_weekdays_loop_total start count fuel : forall c targets,
  sessions_ok start c targets -> (length targets <= count)%nat ->
  (length targets < count -> gap c + 3 * (count - length targets - 1) <= fuel)%nat ->
  exists l c', next_weekdays_loop fuel c targets count = Some l /\ length l = count
    /\ sessions_ok start c' l.
Proof.
  induction fuel as [|fuel IH]; intros c targets Hok Hlen Hfuel; cbn [next_weekdays_loop];
    destruct (length targets <? count)%nat eqn:E; (apply Nat.ltb_lt in E || apply Nat.ltb_ge in E);
    try (exists targets, c; split; [done|]; split; [lia|done]).
  - pose proof (gap_bounds c). specialize (Hfuel E). lia.
  - specialize (Hfuel E). pose proof (gap_bounds (c + 1)) as Hg.
    apply IH; [by apply sessions_snoc|..].
    + destruct (weekday (c + 1) <? 5); rewrite ?length_app; cbn; lia.
    + destruct (weekday (c + 1) <? 5) eqn:Ew; [rewrite length_app; cbn; intros ?|intros _].
      * assert (gap c = 1)%nat by (unfold gap; by rewrite Ew). lia.
      * rewrite (gap_next c Ew) in Hfuel. lia.
Qed.

(** The session calendar terminates and is exact: it returns the asked number
    of dates, in increasing order, and they are precisely the weekdays after the
    start up to the last one returned. *)
Theorem next_weekdays_exact start count :
  exists l, next_weekdays start count = Some l /\ length l = count
    /\ StronglySorted Z.lt l
    /\ exists last, start <= last /\ forall d, d ∈ l <-> start < d <= last /\ weekday d < 5.
Proof.
  destruct (next_weekdays_loop_total start count (3 * count) start []) as (l & c & Hl & Hlen & [? ? ?]).
  - split; [lia|constructor|]. intros d. split; [by intros ?%not_elem_of_nil|lia].
  - cbn; lia.
  - pose proof (gap_bounds start). cbn. lia.
  - exists l. split; [done|]. split; [done|]. split; [done|]. by exists c.
Qed.

(** ** Accepted snapshots *)

Section Accepted.
Context `{UrlChecks} (evidence_item_hash : EvidenceItem -> string).

Lemma validate_source_url_Ok url label :
  validate_source_url url label = Ok tt ->
  exists p, urlsplit url = Ok p /\ su_scheme p = "https"
    /\ su_username p = None /\ su_password p = None
    /\ trusted_host (rstrip_dots (py_lower (default "" (su_hostname p)))) = true.
Proof.
  unfold validate_source_url, live_when. intros Hk. apply bind_Ok in Hk as (p & Hp & Hk).
  apply raise_when_bind_Ok in Hk as [H1 Hk]. apply raise_when_Ok in Hk. bool_prop. eauto 10.
Qed.

(** A source the boundary trusts. *)
Definition trusted_source (url : string) : Prop :=
  exists p, urlsplit url = Ok p /\ su_scheme p = "https" /\ su_username p = None
    /\ su_password p = None
    /\ trusted_host (rstrip_dots (py_lower (default "" (su_hostname p)))) = true.

Lemma visible_Ok what o i c :
  visible what o i c = Ok tt -> instant o <= instant i <= instant c.
Proof.
  unfold visible, live_when. intros Hk. apply raise_when_bind_Ok in Hk as [H1 Hk].
  apply raise_when_Ok in Hk. unfold dt_ltb in *. bool_prop. lia.
Qed.

Lemma validate_market_data_Ok s code p :
  validate_market_data s (code, p) = Ok tt ->
  md_trade_date p = fs_base_session s /\ trusted_source (md_source_url p)
  /\ instant (md_observed_at p) <= instant (md_ingested_at p) <= instant (fs_data_cutoff s).
Proof.
  unfold validate_market_data. intros Hk. apply raise_when_bind_Ok in Hk as [H1 Hk].
  apply bind_Ok in Hk as ([] & Hu & Hk). apply bind_Ok in Hk as ([] & _ & Hk).
  apply bind_Ok in Hk as ([] & _ & Hk). apply bind_Ok in Hk as ([] & _ & Hk).
  apply visible_Ok in Hk. apply validate_source_url_Ok in Hu. bool_prop. done.
Qed.

Lemma validate_item_Ok s i :
  validate_item evidence_item_hash s i = Ok tt ->
  trusted_source (ei_source_url i) /\ ei_content_hash i = evidence_item_hash i
  /\ instant (ei_event_time i) <= instant (ei_published_at i) <= instant (ei_ingested_at i)
  /\ instant (ei_ingested_at i) <= instant (fs_data_cutoff s).
Proof.
  unfold validate_item. intros Hk. apply bind_Ok in Hk as ([] & Hu & Hk).
  apply bind_Ok in Hk as ([] & _ & Hk). apply bind_Ok in Hk as ([] & _ & Hk).
  apply bind_Ok in Hk as ([] & _ & Hk). apply bind_Ok in Hk as ([] & _ & Hk).
  apply raise_when_bind_Ok in Hk as [H1 Hk]. apply raise_when_bind_Ok in Hk as [H2 Hk].
  apply raise_when_Ok in Hk. apply validate_source_url_Ok in Hu. bool_prop.
  unfold dt_leb, dt_ltb in *. bool_prop. split_and!; done.
Qed.

Lemma validate_calendar_Ok s :
  validate_calendar s = Ok tt ->
  let c := fs_trading_calendar s in
  trusted_source (tc_source_url c)
  /\ instant (tc_observed_at c) <= instant (tc_ingested_at c) <= instant (fs_data_cutoff s)
  /\ tc_sessions c = fs_base_session s :: fs_target_sessions s.
Proof.
  unfold validate_calendar. intros Hk. apply bind_Ok in Hk as ([] & Hu & Hk).
  apply bind_Ok in Hk as ([] & _ & Hk). apply bind_Ok in Hk as ([] & _ & Hk).
  apply bind_Ok in Hk as ([] & _ & Hk). apply bind_Ok in Hk as ([] & Hv & Hk).
  apply raise_when_Ok in Hk. apply visible_Ok in Hv. apply validate_source_url_Ok in Hu.
  bool_prop. done.
Qed.

Lemma validate_clock_Ok s as_of zone :
  validate_clock s as_of zone = Ok tt ->
  instant (fs_as_of s) = instant as_of /\ instant (fs_data_cutoff s) <= instant as_of
  /\ instant as_of <= instant (fs_created_at s)
  /\ fs_base_session s = date_of as_of /\ weekday (fs_base_session s) < 5.
Proof.
  unfold validate_clock, require_aware, live_when. intros Hk.
  do 8 (apply raise_when_bind_Ok in Hk as [? Hk]). apply raise_when_Ok in Hk.
  unfold dt_eqb, dt_ltb in *. bool_prop. done.
Qed.

Lemma validate_target_sessions_Ok targets as_of :
  validate_target_sessions targets as_of = Ok tt ->
  exists d1 d2, targets = [d1; d2] /\ date_of as_of < d1 < d2 /\ weekday d1 < 5 /\ weekday d2 < 5.
Proof.
  unfold validate_target_sessions, live_when. intros Hk.
  apply raise_when_bind_Ok in Hk as [Hl Hk]. apply raise_when_bind_Ok in Hk as [Hi Hk].
  apply raise_when_bind_Ok in Hk as [Ha Hk]. apply raise_when_Ok in Hk.
  apply negb_false_iff, Nat.eqb_eq in Hl. destruct targets as [|d1 [|d2 [|]]]; try done.
  cbn in *. bool_prop. exists d1, d2. split_and!; (done || lia).
Qed.

(** No future information: when a live snapshot is accepted, everything it
    carries (calendar, market data, evidence) was observed and ingested by its
    cutoff, the cutoff does not exceed the forecast time, its two targets are
    later trading weekdays named by the calendar, every source is a trusted
    HTTPS host without credentials, and every evidence item matches its seal. *)
Theorem live_snapshot_no_future s as_of zone codes :
  validate_live_snapshot evidence_item_hash s as_of zone codes = Ok tt ->
  (instant (fs_data_cutoff s) <= instant as_of <= instant (fs_created_at s))
  /\ (exists d1 d2, fs_target_sessions s = [d1; d2]
       /\ tc_sessions (fs_trading_calendar s) = [date_of as_of; d1; d2]
       /\ date_of as_of < d1 < d2 /\ weekday d1 < 5 /\ weekday d2 < 5)
  /\ instant (tc_ingested_at (fs_trading_calendar s)) <= instant (fs_data_cutoff s)
  /\ trusted_source (tc_source_url (fs_trading_calendar s))
  /\ (forall code p, (code, p) ∈ fs_market_data s ->
        md_trade_date p = date_of as_of /\ trusted_source (md_source_url p)
        /\ instant (md_observed_at p) <= instant (md_ingested_at p) <= instant (fs_data_cutoff s))
  /\ (forall i, i ∈ fs_items s ->
        trusted_source (ei_source_url i) /\ ei_content_hash i = evidence_item_hash i
        /\ instant (ei_event_time i) <= instant (ei_published_at i) <= instant (ei_ingested_at i)
        /\ instant (ei_ingested_at i) <= instant (fs_data_cutoff s)).
Proof.
  unfold validate_live_snapshot, live_when. intros Hk.
  apply bind_Ok in Hk as ([] & Hclock & Hk). apply bind_Ok in Hk as ([] & Hcal & Hk).
  do 4 (apply raise_when_bind_Ok in Hk as [_ Hk]).
  apply bind_Ok in Hk as (us & Hm & Hk). apply bind_Ok in Hk as ([] & Ht & Hk).
  do 2 (apply raise_when_bind_Ok in Hk as [_ Hk]).
  apply bind_Ok in Hk as (us' & Hi & _).
  apply validate_clock_Ok in Hclock as (_ & Hc1 & Hc2 & Hbase & _).
  apply validate_calendar_Ok in Hcal as (Hcu & Hcv & Hcs).
  apply validate_target_sessions_Ok in Ht as (d1 & d2 & Ht & [? ?] & ? & ?).
  split; [lia|]. split; [exists d1, d2; rewrite Hcs, Ht, Hbase; by split_and!|].
  split; [lia|]. split; [done|]. split.
  - intros code p Hin. destruct (mapM_result_elem _ _ _ _ Hm Hin) as [[] Hp].
    rewrite <- Hbase. by eapply validate_market_data_Ok.
  - intros i Hin. destruct (mapM_result_elem _ _ _ _ Hi Hin) as [[] Hp].
    by apply validate_item_Ok.
Qed.

End Accepted.

(** ** A concrete snapshot *)

Module Witnesses.

#[local] Instance strict_urls : UrlChecks := {| bracketed_ok := fun _ => false; nfkc_ok := fun _ => false |}.

Definition digest : string := String.string_of_list_ascii (repeat "a"%char 64).
Definition monday : date := 700001.
Definition hour (h : Z) : datetime := DateTime (monday * us_per_day + h * us_per_hour) (Some 0).
Definition source : string := "https://query.SSE.com.cn:443/data?x=1".

Definition snapshot1 : FrozenEvidenceSnapshot :=
  Frozen (hour 8) (hour 7) (hour 9) monday
    (Calendar [monday; monday + 1; monday + 2] source digest (hour 1) (hour 2))
    [("000300.SH", lit 1 100)]
    [("000300.SH", MarketData monday source digest (hour 3) (hour 4))]
    [monday + 1; monday + 2]
    [Evidence "e1" "t" "s" "q" source (hour 1) (hour 2) (hour 5) [] "news" digest] digest.

Lemma live_snapshot_no_future_witness :
  instant (fs_data_cutoff snapshot1) <= instant (hour 8) /\ trusted_source source.
Proof.
  destruct (live_snapshot_no_future (fun _ => digest) snapshot1 (hour 8) UTC (Some ["000300.SH"]))
    as ((H1 & _) & _ & _ & H2 & _); [by_vm|].
  split; [exact H1|exact H2].
Defined.

Example lookalike_refused : is_ok (validate_source_url "https://evil-sse.com.cn/" "x") = false.
Proof. by_vm. Qed.

Example credentials_refused : is_ok (validate_source_url "https://a@sse.com.cn/" "x") = false.
Proof. by_vm. Qed.

End Witnesses.

End SnapshotProps.
