(* ===== verification/Evaluation.v ===== *)
(** * Forecast evaluation and scorecards ([backend/app/services/evaluation.py])

    A matured forecast is scored once, from two source-bound closes that enter
    an append-only price ledger; a scorecard aggregates the scored opinions of
    one Agent identity. *)
From Stdlib Require Import Ascii.
From S2P Require Import Prelude PyStr PyTime Float64 Domain Json Models Contracts Facade Snapshot.
Import PyStr PyTime Float64 Domain Json Models Contracts Facade Snapshot SourceUrl Snapshot.
Open Scope string_scope.
Open Scope Z_scope.

Module Evaluation.

(** ** The ledger *)

Definition price_key : Type := string * string * Z.

Record Store := mkStore {
  es_prices : gmap price_key PriceObservation;
  es_results : gmap string EvaluationResult }.

Definition key_of (mode index_code : string) (d : date) : price_key := (mode, index_code, d).

Definition same_price (p : PriceObservation) (close : float) (source url hash : string) : bool :=
  isclose f0 (lit 1 10000000000) (po_close p) close
  && (po_source p =? source)%string && (po_source_url p =? url)%string
  && (po_source_hash p =? hash)%string.

(** [_record_price] *)
Definition record_price (st : Store) (mode index_code : string) (d : date) (close : float)
    (source url hash : string) (ingested_at : datetime) : result Store :=
  match es_prices st !! key_of mode index_code d with
  | Some existing =>
      raise_when (negb (same_price existing close source url hash)) PriceObservationConflictError
        ("immutable price observation conflict for " +:+ index_code +:+ " " +:+ iso_date d) ;;
      Ok st
  | None =>
      let p := PriceObs mode index_code d close source url hash ingested_at in
      Ok (mkStore (<[key_of mode index_code d := p]> (es_prices st)) (es_results st))
  end.

(** ** The market clock of a run *)

(** [int(text)] for ASCII digits. *)
Fixpoint digits_value (acc : Z) (after_digit : bool) (l : chars) : option Z :=
  match l with
  | [] => if after_digit then Some acc else None
  | c :: l' =>
      if is_digit c then digits_value (10 * acc + (Z.of_nat (nat_of_ascii c) - 48)) true l'
      else if eqc c "_"%char && after_digit then digits_value acc false l' else None
  end.

Definition py_int (s : string) : result Z :=
  let invalid := raise ValueError ("invalid literal for int() with base 10: " +:+ s) in
  match String.list_ascii_of_string (py_strip s) with
  | "-"%char :: l => match digits_value 0 false l with Some n => Ok (- n) | None => invalid end
  | "+"%char :: l => match digits_value 0 false l with Some n => Ok n | None => invalid end
  | l => match digits_value 0 false l with Some n => Ok n | None => invalid end
  end.

(** [time(hour, minute)] *)
Definition make_time (h m : Z) : result Z :=
  raise_when (negb ((0 <=? h) && (h <=? 23) && (0 <=? m) && (m <=? 59))) ValueError
    "hour or minute out of range" ;;
  Ok (time_of h m).

(** [hour_text, minute_text = s.split(":", maxsplit=1)] *)
Definition split_clock (s : string) : result (string * string) :=
  match cut_at (fun c => eqc c ":"%char) (String.list_ascii_of_string s) with
  | Some (a, b) => Ok (str a, str b)
  | None => raise ValueError "not enough values to unpack"
  end.

Definition clock_invalid {A} : result A :=
  raise ValueError "forecast market-universe clock metadata is invalid".

(** [try: ... except (ValueError, TypeError)] *)
Definition recast_clock_error {A} (r : result A) : result A :=
  match r with
  | Err e => if bool_decide (exn_cls e = ValueError \/ exn_cls e = TypeError)
             then clock_invalid else Err e
  | Ok a => Ok a
  end.

Section Clock.
(** The tz database ([ZoneInfo(name)]) and the seal of the default universe. *)
Context (zone_info : string -> result zoneinfo) (default_universe_hash : string).

Definition clock_text (run : WorkflowRun) : result (option json * option json) :=
  match r_data_quality run !! "market_universe" with
  | None | Some JNull =>
      raise_when (negb (r_market_universe_hash run =? default_universe_hash)%string) ValueError
        "forecast market-universe clock metadata is missing" ;;
      Ok (Some (JStr "Asia/Shanghai"), Some (JStr "15:00"))
  | Some (JObj u) =>
      raise_when (negb (get_is u "content_hash" (r_market_universe_hash run))) ValueError
        "forecast market-universe clock metadata is invalid" ;;
      Ok (u !! "timezone", u !! "session_close")
  | Some _ => clock_invalid
  end.

(** [_run_market_clock] *)
Definition run_market_clock (run : WorkflowRun) : result (zoneinfo * Z) :=
  texts ← clock_text run;
  match texts with
  | (Some (JStr timezone_name), Some (JStr session_close)) =>
      recast_clock_error (
        parts ← split_clock session_close;
        hour ← py_int parts.1;
        minute ← py_int parts.2;
        close ← make_time hour minute;
        zone ← zone_info timezone_name;
        Ok (zone, close))
  | _ => clock_invalid
  end.

(** ** Evaluating one forecast *)

Context `{PyRuntime} `{CanonicalHash} `{UrlChecks}.

Record Closes := mkCloses {
  cl_price_source : string;
  cl_observed_at : datetime;
  cl_start_trade_date : date;
  cl_start_close : float;
  cl_start_source_url : string;
  cl_start_source_hash : string;
  cl_end_trade_date : date;
  cl_end_close : float;
  cl_end_source_url : string;
  cl_end_source_hash : string }.

(** [_validate_source] *)
Definition validate_source (url hash : string) (trusted_sources_only : bool) : result unit :=
  raise_when (negb (py_startswith url "https://")) ValueError "price source URL must use https" ;;
  raise_when (negb (is_sha256_hex hash)) ValueError
    "price source hash must be a lowercase SHA-256 digest" ;;
  raise_when (hash =? zero_digest)%string ValueError
    "price source hash cannot be a placeholder digest" ;;
  if trusted_sources_only then validate_trusted_source_url url "evaluation price" else Ok tt.

Definition five_minutes : Z := minutes 5.

(** The wall-clock moment from which the forecast may be scored. *)
Definition maturity (f : Forecast) (zone : zoneinfo) (session_close : Z) : datetime :=
  attach zone (dt_add (combine (fc_target_date f) session_close zone) five_minutes).

Definition forecast_probabilities (f : Forecast) : gmap string float :=
  {[ "up" := fc_probability_up f; "neutral" := fc_probability_neutral f;
     "down" := fc_probability_down f ]}.

(** [_observation_hash] *)
Definition observation_hash (f : Forecast) (c : Closes) (price_source : string)
    (observed_at : datetime) : string :=
  let point d close url hash := JObj (list_to_map
    [("trade_date", JStr (iso_date d)); ("close_hex", JStr (float_hex close));
     ("source_url", JStr url); ("source_hash", JStr hash)]) in
  canonical_hash (JObj (list_to_map
    [("forecast_id", JStr (fc_id f)); ("index_code", JStr (fc_index_code f));
     ("horizon", JStr (fc_horizon f)); ("target_date", JStr (iso_date (fc_target_date f)));
     ("price_source", JStr price_source); ("observed_at", JStr (isoformat observed_at));
     ("start", point (cl_start_trade_date c) (cl_start_close c) (cl_start_source_url c)
                 (cl_start_source_hash c));
     ("end", point (cl_end_trade_date c) (cl_end_close c) (cl_end_source_url c)
                 (cl_end_source_hash c))])).

(** The guards before any computation; returns the observation and evaluation
    times in the market's zone. *)
Definition check_evaluable (st : Store) (run : WorkflowRun) (f : Forecast) (c : Closes)
    (now : datetime) (trusted_sources_only : bool) : result (datetime * datetime) :=
  raise_when (negb (r_mode run =? "live")%string) DemoForecastNotScoredError
    "Demo forecasts are illustrative and are never formally evaluated" ;;
  raise_when (isSome (es_results st !! fc_id f)) ForecastAlreadyEvaluatedError
    "forecast has already been evaluated" ;;
  raise_when (negb (bool_decide (r_status run = RUN_COMPLETED))) ValueError
    "only completed forecast runs can be evaluated" ;;
  clock ← run_market_clock run;
  let zone := clock.1 in
  let observed_at := aware zone (cl_observed_at c) in
  let current := aware zone now in
  let mature := maturity f zone clock.2 in
  raise_when (wall_ltb current mature) ForecastNotMatureError
    ("forecast does not mature until " +:+ isoformat mature) ;;
  raise_when (wall_ltb observed_at mature) ValueError
    "observation predates the target-session close" ;;
  raise_when (wall_ltb (dt_add current five_minutes) observed_at) ValueError
    "observation timestamp is in the future" ;;
  raise_when (negb (cl_start_trade_date c =? fc_base_trade_date f)) ValueError
    "start price date must equal the frozen base trading session" ;;
  raise_when (negb (cl_end_trade_date c =? fc_target_date f)) ValueError
    "end price date must equal the forecast target date" ;;
  raise_when (cl_end_trade_date c <=? cl_start_trade_date c) ValueError
    "start price must precede the target-session close" ;;
  raise_when (negb (truthy (py_strip (cl_price_source c)))) ValueError "price_source is required" ;;
  validate_source (cl_start_source_url c) (cl_start_source_hash c) trusted_sources_only ;;
  validate_source (cl_end_source_url c) (cl_end_source_hash c) trusted_sources_only ;;
  Ok (observed_at, current).

(** [evaluate_forecast]; an exception rolls the session back. *)
Definition evaluate_forecast (st : Store) (run : WorkflowRun) (f : Forecast) (c : Closes)
    (now : datetime) (uuid : string) (trusted_sources_only : bool)
    : result (EvaluationResult * Store) :=
  times ← check_evaluable st run f c now trusted_sources_only;
  let '(observed_at, current) := times in
  let source := py_strip (cl_price_source c) in
  actual_return ← realized_return (cl_start_close c) (cl_end_close c);
  label ← classify_return actual_return (fc_threshold f);
  brier ← multiclass_brier_score (forecast_probabilities f) (direction_value label);
  let result := EvalResult uuid (fc_id f) actual_return (direction_value label)
    (fc_direction f =? direction_value label)%string brier current source observed_at
    (cl_start_trade_date c) (cl_start_close c) (cl_start_source_url c) (cl_start_source_hash c)
    (cl_end_trade_date c) (cl_end_close c) (cl_end_source_url c) (cl_end_source_hash c)
    (observation_hash f c source observed_at) in
  st1 ← record_price st (r_mode run) (fc_index_code f) (cl_start_trade_date c) (cl_start_close c)
          source (cl_start_source_url c) (cl_start_source_hash c) current;
  st2 ← record_price st1 (r_mode run) (fc_index_code f) (cl_end_trade_date c) (cl_end_close c)
          source (cl_end_source_url c) (cl_end_source_hash c) current;
  Ok (result, mkStore (es_prices st2) (<[fc_id f := result]> (es_results st2))).

End Clock.

Example hex_of_one : float_hex f1 = "0x1.0000000000000p+0".
Proof. reflexivity. Qed.
Example hex_of_minus_tenth : float_hex (lit (-1) 10) = "-0x1.999999999999ap-4".
Proof. reflexivity. Qed.

(** ** Scorecards *)

(** One joined row: an opinion with its forecast, run, batch and evaluations. *)
Record ScoreRow := mkScoreRow {
  sr_opinion_id : string;
  sr_agent_id : string;
  sr_agent_version : string;
  sr_model_name : string;
  sr_index_code : string;
  sr_horizon : string;
  sr_direction : string;
  sr_target_date : date;
  sr_probabilities : gmap string float;
  sr_forecast_model_version : string;
  sr_run_mode : string;
  sr_run_status : RunStatus;
  sr_run_universe_hash : string;
  sr_run_as_of : datetime;
  sr_run_completed_at : option Z;
  sr_batch_status : string;
  sr_included : bool;
  sr_actual_label : string;
  sr_sign_correct : option bool;
  sr_material_direction_correct : option bool;
  sr_brier_score : option float }.

Record ScoreQuery := mkQuery {
  sq_index_code : option string;
  sq_horizon : string;
  sq_mode : string;
  sq_market_universe_hash : string;
  sq_model_name : option string;
  sq_forecast_model_version : option string;
  sq_latest_frozen_partition : bool }.

Record DirectionMetrics := mkMetrics {
  dm_label : Direction; dm_predicted : Z; dm_actual : Z; dm_true_positive : Z;
  dm_precision : option float; dm_recall : option float }.

Record CalibrationPoint := mkPoint {
  cp_bucket : Z; cp_predicted : float; cp_observed : float; cp_count : Z }.

Record Scorecard := mkScorecard {
  sc_sample_size : Z;
  sc_sample_sufficient : bool;
  sc_sign_sample_size : Z; sc_sign_correct : Z; sc_sign_accuracy : option float;
  sc_material_sample_size : Z; sc_material_correct : Z; sc_material_accuracy : option float;
  sc_average_brier : option float;
  sc_direction_metrics : list DirectionMetrics;
  sc_calibration : list CalibrationPoint;
  sc_expected_calibration_error : option float;
  sc_agent_version : string;
  sc_model_name : option string }.

Definition empty_direction_metrics : list DirectionMetrics :=
  (fun d => mkMetrics d 0 0 0 None None) <$> all_directions.

Definition empty_scorecard (agent_version : string) (model_name : option string) : Scorecard :=
  mkScorecard 0 false 0 0 None 0 0 None None empty_direction_metrics [] None agent_version model_name.

Definition opt_is (o : option string) (s : string) : bool :=
  match o with None => true | Some v => (s =? v)%string end.

(** The [WHERE] clause before the identity columns. *)
Definition scoreable (agent_id : string) (q : ScoreQuery) (r : ScoreRow) : bool :=
  (sr_agent_id r =? agent_id)%string && (sr_run_mode r =? sq_mode q)%string
  && bool_decide (sr_run_status r = RUN_COMPLETED)
  && (sr_run_universe_hash r =? sq_market_universe_hash q)%string
  && (sr_batch_status r =? "completed")%string && sr_included r
  && (sr_horizon r =? sq_horizon q)%string
  && ((sr_direction r =? "up")%string || (sr_direction r =? "down")%string)
  && match sq_index_code q with
     | Some c => negb (truthy c) || (sr_index_code r =? c)%string
     | None => true
     end.

(** [ORDER BY as_of DESC, completed_at DESC, id DESC LIMIT 1]; a missing
    completion time sorts last. *)
Definition newer (a b : ScoreRow) : bool :=
  let at_a := instant (sr_run_as_of a) in
  let at_b := instant (sr_run_as_of b) in
  let done r := match sr_run_completed_at r with Some t => (1, t) | None => (0, 0) end in
  (at_b <? at_a)
  || (at_a =? at_b)
     && (((done b).1 <? (done a).1)
         || ((done a).1 =? (done b).1)
            && (((done b).2 <? (done a).2)
                || ((done a).2 =? (done b).2)
                   && bool_decide (String.compare (sr_opinion_id b) (sr_opinion_id a) = Lt))).

Definition newest (rows : list ScoreRow) : option ScoreRow :=
  fold_left (fun best r => match best with
                           | None => Some r
                           | Some b => if newer r b then Some r else best
                           end) rows None.

(** The identity partition: agent version, model and forecast model; [None]
    when the latest partition of an empty set is asked for. *)
Definition partition (q : ScoreQuery) (agent_version : string) (rows : list ScoreRow)
    : option (string * option string * option string) :=
  if sq_latest_frozen_partition q then
    r ← newest rows;
    Some (sr_agent_version r, Some (sr_model_name r), Some (sr_forecast_model_version r))
  else Some (agent_version, sq_model_name q, sq_forecast_model_version q).

Definition in_partition (p : string * option string * option string) (r : ScoreRow) : bool :=
  let '(version, model, forecast_model) := p in
  (sr_agent_version r =? version)%string && opt_is model (sr_model_name r)
  && opt_is forecast_model (sr_forecast_model_version r).

Section Totals.
Context `{PyRuntime}.

Record Totals := mkTotals {
  tt_predicted : Direction -> Z;
  tt_actual : Direction -> Z;
  tt_true_positive : Direction -> Z;
  tt_bins : gmap Z (list (float * bool));
  tt_sign : list bool;
  tt_material : list bool;
  tt_brier : list float }.

Definition no_totals : Totals := mkTotals (fun _ => 0) (fun _ => 0) (fun _ => 0) ∅ [] [] [].

Definition bump (f : Direction -> Z) (d : Direction) : Direction -> Z :=
  fun x => if decide (x = d) then f x + 1 else f x.

Definition bucket_of (confidence : float) : Z := Z.min (ftrunc (fmul confidence (of_Z 10))) 9.

Definition opt_snoc {A} (l : list A) (o : option A) : list A :=
  match o with Some x => l ++ [x] | None => l end.

(** One iteration of the loop over the rows. *)
Definition score_row (plan : EvaluationPlan) (t : Totals) (r : ScoreRow) : result Totals :=
  predicted ← Direction_of (sr_direction r);
  actual ← Direction_of (sr_actual_label r);
  let hit := bool_decide (predicted = actual) in
  bins ← (if pl_calibration plan && negb (bool_decide (actual = NEUTRAL)) then
            confidence ← directional_confidence (sr_probabilities r);
            let b := bucket_of confidence in
            Ok (<[b := (default [] (tt_bins t !! b) ++ [(confidence, hit)])%list]> (tt_bins t))
          else Ok (tt_bins t));
  brier ← (if pl_multiclass_brier plan then
             match sr_brier_score r with
             | None => raise ValueError "multiclass Agent evaluation is missing its Brier score"
             | Some x => Ok (tt_brier t ++ [x])%list
             end
           else Ok (tt_brier t));
  Ok (mkTotals (bump (tt_predicted t) predicted) (bump (tt_actual t) actual)
        (if hit then bump (tt_true_positive t) actual else tt_true_positive t) bins
        (opt_snoc (tt_sign t) (sr_sign_correct r))
        (opt_snoc (tt_material t) (sr_material_direction_correct r)) brier).

Definition count_true (l : list bool) : Z := Z.of_nat (length (filter (fun b => b = true) l)).
Definition zlen {A} (l : list A) : Z := Z.of_nat (length l).

Definition ratio (n d : Z) : option float := if d =? 0 then None else Some (int_div n d).

Definition direction_metrics (t : Totals) : list DirectionMetrics :=
  (fun d => mkMetrics d (tt_predicted t d) (tt_actual t d) (tt_true_positive t d)
              (ratio (tt_true_positive t d) (tt_predicted t d))
              (ratio (tt_true_positive t d) (tt_actual t d))) <$> all_directions.

Definition bucket_order (a b : Z * list (float * bool)) : Prop := a.1 <= b.1.
#[global] Instance bucket_order_dec a b : Decision (bucket_order a b).
Proof. unfold bucket_order. apply _. Defined.

Definition calibration_points (bins : gmap Z (list (float * bool))) : list CalibrationPoint :=
  (fun '(b, values) =>
     mkPoint b (fdiv (py_sum (fst <$> values)) (of_Z (zlen values)))
       (int_div (count_true (snd <$> values)) (zlen values)) (zlen values))
    <$> merge_sort bucket_order (map_to_list bins).

Definition expected_calibration_error (points : list CalibrationPoint) : option float :=
  let total := foldr (fun p n => cp_count p + n) 0 points in
  if total =? 0 then None
  else Some (py_sum ((fun p => fmul (int_div (cp_count p) total)
                                    (fabs (fsub (cp_predicted p) (cp_observed p)))) <$> points)).

(** Distinct target dates: the independent prediction periods. *)
Definition prediction_dates (rows : list ScoreRow) : Z :=
  zlen (remove_dups (sr_target_date <$> rows)).

Definition scorecard_of (plan : EvaluationPlan) (rows : list ScoreRow) (agent_version : string)
    (model_name : option string) : result Scorecard :=
  t ← for_each (score_row plan) no_totals rows;
  let points := calibration_points (tt_bins t) in
  Ok (mkScorecard (zlen rows) (20 <=? prediction_dates rows)
        (zlen (tt_sign t)) (count_true (tt_sign t)) (ratio (count_true (tt_sign t)) (zlen (tt_sign t)))
        (zlen (tt_material t)) (count_true (tt_material t))
        (ratio (count_true (tt_material t)) (zlen (tt_material t)))
        (match tt_brier t with [] => None | l => Some (fdiv (py_sum l) (of_Z (zlen l))) end)
        (direction_metrics t) points (expected_calibration_error points)
        agent_version model_name).

(** [scorecard]; the note texts are not modelled. *)
Definition scorecard (specs : list AgentSpec) (table : list ScoreRow) (agent_id : string)
    (q : ScoreQuery) : result Scorecard :=
  match AGENT_BY_ID !! agent_id with
  | None => raise KeyError agent_id
  | Some agent =>
      spec ← agent_spec specs agent_id;
      let plan := plan_of (as_body spec) None in
      if negb (pl_direction plan) then Ok (empty_scorecard (ag_version agent) (sq_model_name q))
      else
        let candidates := List.filter (scoreable agent_id q) table in
        match partition q (ag_version agent) candidates with
        | None => Ok (empty_scorecard (ag_version agent) (sq_model_name q))
        | Some p =>
            let '(version, model, _) := p in
            match List.filter (in_partition p) candidates with
            | [] => Ok (empty_scorecard version model)
            | rows => scorecard_of plan rows version model
            end
        end
  end.

End Totals.

End Evaluation.
