(* ===== verification/EvaluationProps.v ===== *)
(** * Correctness of forecast evaluation and scorecards *)
From Stdlib Require Import Floats.SpecFloat Ascii.
From S2P Require Import Prelude PyStr PyTime Float64 Domain Json Models Contracts Facade Snapshot.
From S2P Require Import Evaluation.
Import PyStr PyTime Float64 Domain Json Models Contracts Facade Snapshot SourceUrl Snapshot Evaluation.
Open Scope string_scope.
Open Scope Z_scope.

Module EvaluationProps.

(** ** The ledger *)

Lemma same_price_refl mode code d close source url hash at_ :
  is_nan close = false ->
  same_price (PriceObs mode code d close source url hash at_) close source url hash = true.
Proof.
  intros Hn. unfold same_price, isclose. cbn. by rewrite feqb_refl, !String.eqb_refl.
Qed.

(** The ledger holds a close that agrees with the given one. *)
Definition priced (st : Store) (mode code : string) (d : date) (close : float)
    (source url hash : string) : Prop :=
  exists p, es_prices st !! key_of mode code d = Some p /\ same_price p close source url hash = true.

Lemma record_price_Ok st mode code d close source url hash at_ st' :
  is_nan close = false ->
  record_price st mode code d close source url hash at_ = Ok st' ->
  es_prices st ⊆ es_prices st' /\ es_results st' = es_results st
  /\ priced st' mode code d close source url hash.
Proof.
  intros Hn. unfold record_price, priced. destruct (es_prices st !! _) as [p|] eqn:Hp.
  - intros Hk. apply raise_when_bind_Ok in Hk as [Hs [= <-]]. bool_prop.
    split; [done|]. split; [done|]. by exists p.
  - intros [= <-]. cbn. split; [by apply insert_subseteq|]. split; [done|].
    eexists. rewrite lookup_insert_eq. split; [done|]. by apply same_price_refl.
Qed.

Lemma priced_mono st st' mode code d close source url hash :
  es_prices st ⊆ es_prices st' -> priced st mode code d close source url hash ->
  priced st' mode code d close source url hash.
Proof. intros Hsub (p & Hp & Hs). exists p. split; [by eapply lookup_weaken|done]. Qed.

Lemma finite_return_not_nan s e :
  is_finite (fsub (fdiv e s) f1) = true -> is_nan s = false /\ is_nan e = false.
Proof. destruct s, e; cbn; done. Qed.

Section Evaluate.
Context (zone_info : string -> result zoneinfo) (default_universe_hash : string).
Context `{PyRuntime} `{CanonicalHash} `{UrlChecks}.

Local Abbreviation evaluate := (evaluate_forecast zone_info default_universe_hash).

Lemma check_evaluable_Ok st run f c now tr observed current :
  check_evaluable zone_info default_universe_hash st run f c now tr = Ok (observed, current) ->
  r_mode run = "live" /\ es_results st !! fc_id f = None /\ r_status run = RUN_COMPLETED
  /\ cl_start_trade_date c = fc_base_trade_date f /\ cl_end_trade_date c = fc_target_date f
  /\ cl_start_trade_date c < cl_end_trade_date c
  /\ exists zone close, run_market_clock zone_info default_universe_hash run = Ok (zone, close)
       /\ observed = aware zone (cl_observed_at c) /\ current = aware zone now
       /\ dt_wall (maturity f zone close) <= dt_wall current
       /\ dt_wall (maturity f zone close) <= dt_wall observed <= dt_wall current + minutes 5.
Proof.
  unfold check_evaluable. intros Hk.
  do 3 (apply raise_when_bind_Ok in Hk as [? Hk]).
  apply bind_Ok in Hk as ([zone close] & Hclock & Hk). cbn -[minutes] in Hk.
  do 7 (apply raise_when_bind_Ok in Hk as [? Hk]).
  apply bind_Ok in Hk as (? & _ & Hk). apply bind_Ok in Hk as (? & _ & [= <- <-]).
  unfold wall_ltb in *. bool_prop.
  assert (es_results st !! fc_id f = None) by (destruct (es_results st !! fc_id f); done).
  split_and!; try done. exists zone, close. unfold five_minutes in *. cbn in *.
  split_and!; (done || lia).
Qed.

Lemma evaluate_Ok st run f c now uuid tr r st' :
  evaluate st run f c now uuid tr = Ok (r, st') ->
  exists observed current ret label brier st1 st2,
    check_evaluable zone_info default_universe_hash st run f c now tr = Ok (observed, current)
    /\ realized_return (cl_start_close c) (cl_end_close c) = Ok ret
    /\ classify_return ret (fc_threshold f) = Ok label
    /\ multiclass_brier_score (forecast_probabilities f) (direction_value label) = Ok brier
    /\ record_price st (r_mode run) (fc_index_code f) (cl_start_trade_date c) (cl_start_close c)
         (py_strip (cl_price_source c)) (cl_start_source_url c) (cl_start_source_hash c) current = Ok st1
    /\ record_price st1 (r_mode run) (fc_index_code f) (cl_end_trade_date c) (cl_end_close c)
         (py_strip (cl_price_source c)) (cl_end_source_url c) (cl_end_source_hash c) current = Ok st2
    /\ ev_forecast_id r = fc_id f /\ ev_actual_return r = ret
    /\ ev_actual_label r = direction_value label
    /\ ev_correct r = (fc_direction f =? direction_value label)%string
    /\ ev_brier_score r = brier /\ ev_observed_at r = observed /\ ev_evaluated_at r = current
    /\ ev_start_close r = cl_start_close c /\ ev_end_close r = cl_end_close c
    /\ st' = mkStore (es_prices st2) (<[fc_id f := r]> (es_results st2)).
Proof.
  unfold evaluate_forecast. intros Hk. apply bind_Ok in Hk as ([observed current] & Hc & Hk).
  apply bind_Ok in Hk as (ret & Hret & Hk). apply bind_Ok in Hk as (label & Hl & Hk).
  apply bind_Ok in Hk as (brier & Hb & Hk). apply bind_Ok in Hk as (st1 & E1 & Hk).
  apply bind_Ok in Hk as (st2 & E2 & [= <- <-]).
  exists observed, current, ret, label, brier, st1, st2. by split_and!.
Qed.

Lemma closes_not_nan s e t ret d :
  realized_return s e = Ok ret -> classify_return ret t = Ok d ->
  is_nan s = false /\ is_nan e = false.
Proof.
  unfold realized_return. intros Hr Hc. apply raise_when_bind_Ok in Hr as [_ [= <-]].
  apply classify_return_guards in Hc as [Hf _]. by apply finite_return_not_nan.
Qed.

Lemma evaluate_grows st run f c now uuid tr r st' :
  evaluate st run f c now uuid tr = Ok (r, st') ->
  es_prices st ⊆ es_prices st' /\ es_results st ⊆ es_results st'
  /\ es_results st' !! fc_id f = Some r
  /\ priced st' (r_mode run) (fc_index_code f) (cl_start_trade_date c) (cl_start_close c)
       (py_strip (cl_price_source c)) (cl_start_source_url c) (cl_start_source_hash c)
  /\ priced st' (r_mode run) (fc_index_code f) (cl_end_trade_date c) (cl_end_close c)
       (py_strip (cl_price_source c)) (cl_end_source_url c) (cl_end_source_hash c).
Proof.
  intros (ob & cur & ret & label & brier & st1 & st2 & Hc & Hret & Hl & _ & E1 & E2 & Hrest)%evaluate_Ok.
  destruct (closes_not_nan _ _ _ _ _ Hret Hl) as [Hn1 Hn2].
  apply record_price_Ok in E1 as (Hs1 & Hr1 & Hp1); [|done].
  apply record_price_Ok in E2 as (Hs2 & Hr2 & Hp2); [|done].
  apply check_evaluable_Ok in Hc as (_ & Hnone & _).
  destruct Hrest as (_ & _ & _ & _ & _ & _ & _ & _ & _ & ->). cbn. split_and!.
  - by etrans.
  - rewrite Hr2, Hr1. by apply insert_subseteq.
  - by rewrite lookup_insert_eq.
  - by eapply priced_mono; [|exact Hp1].
  - by eapply priced_mono; [|exact Hp2].
Qed.

(** C38 What an evaluation certifies: it exists only for a completed live run and
    a forecast not scored before, observed after the close of the target session
    and not in the future; its return and label are computed from the two stored
    closes of the frozen dates, its verdict compares the forecast's direction
    with that label, and its score is the Brier score of the forecast. *)
Theorem evaluation_sound st run f c now uuid tr r st' :
  evaluate st run f c now uuid tr = Ok (r, st') ->
  (r_mode run = "live" /\ r_status run = RUN_COMPLETED /\ es_results st !! fc_id f = None)
  /\ (cl_start_trade_date c = fc_base_trade_date f /\ cl_end_trade_date c = fc_target_date f
      /\ fc_base_trade_date f < fc_target_date f)
  /\ (exists zone close, run_market_clock zone_info default_universe_hash run = Ok (zone, close)
       /\ dt_wall (maturity f zone close) <= dt_wall (ev_observed_at r)
            <= dt_wall (ev_evaluated_at r) + minutes 5
       /\ dt_wall (maturity f zone close) <= dt_wall (ev_evaluated_at r))
  /\ (exists label, realized_return (ev_start_close r) (ev_end_close r) = Ok (ev_actual_return r)
       /\ classify_return (ev_actual_return r) (fc_threshold f) = Ok label
       /\ ev_actual_label r = direction_value label
       /\ ev_correct r = (fc_direction f =? direction_value label)%string
       /\ multiclass_brier_score (forecast_probabilities f) (direction_value label)
          = Ok (ev_brier_score r)).
Proof.
  intros (ob & cur & ret & label & brier & st1 & st2 & Hc & Hret & Hl & Hb & _ & _ & Hid & E1 & E2
          & E3 & E4 & E5 & E6 & E7 & E8 & _)%evaluate_Ok.
  apply check_evaluable_Ok in Hc as (Hm & Hn & Hs & Hd1 & Hd2 & Hlt & zone & close & Hcl & _ & _ & Hw1 & Hw2).
  subst. split; [done|]. split; [split_and!; (done || lia)|].
  split; [exists zone, close; split_and!; (done || lia)|].
  exists label. rewrite E7, E8. by split_and!.
Qed.

(** ** Histories: any sequence of evaluation attempts *)

Inductive attempt : Store -> Store -> Prop :=
  | attempt_evaluate st run f c now uuid tr r st' :
      evaluate st run f c now uuid tr = Ok (r, st') -> attempt st st'.

Lemma attempts_grow st st' :
  rtc attempt st st' -> es_prices st ⊆ es_prices st' /\ es_results st ⊆ es_results st'.
Proof.
  induction 1 as [|st st1 st2 Ha _ [IH1 IH2]]; [done|].
  destruct Ha as [st run f c now uuid tr r st' He]. apply evaluate_grows in He as (? & ? & _).
  split; by etrans.
Qed.

(** Scores and prices are immutable: whatever is evaluated afterwards, a
    recorded evaluation and every recorded price stay as they are, a second
    evaluation of the forecast is refused, and the price ledger still agrees
    with both closes the evaluation was computed from. *)
Theorem evaluation_immutable st run f c now uuid tr r st1 st2 :
  evaluate st run f c now uuid tr = Ok (r, st1) -> rtc attempt st1 st2 ->
  es_results st2 !! fc_id f = Some r /\ es_prices st ⊆ es_prices st2
  /\ priced st2 (r_mode run) (fc_index_code f) (cl_start_trade_date c) (cl_start_close c)
       (py_strip (cl_price_source c)) (cl_start_source_url c) (cl_start_source_hash c)
  /\ priced st2 (r_mode run) (fc_index_code f) (cl_end_trade_date c) (cl_end_close c)
       (py_strip (cl_price_source c)) (cl_end_source_url c) (cl_end_source_hash c)
  /\ forall c' now' uuid' tr', evaluate st2 run f c' now' uuid' tr'
       = raise ForecastAlreadyEvaluatedError "forecast has already been evaluated".
Proof.
  intros He Hrtc. pose proof He as He'.
  apply evaluate_grows in He as (Hp & Hr & Hres & Hp1 & Hp2).
  destruct (attempts_grow _ _ Hrtc) as [Hgp Hgr].
  assert (Hres2 : es_results st2 !! fc_id f = Some r) by (by eapply lookup_weaken).
  split_and!; [done|by etrans|by eapply priced_mono|by eapply priced_mono|].
  intros c' now' uuid' tr'.
  apply evaluate_Ok in He' as (ob & cur & ret & label & brier & s1 & s2 & Hc & _).
  apply check_evaluable_Ok in Hc as (Hlive & _).
  unfold evaluate_forecast, check_evaluable. rewrite Hlive, Hres2. done.
Qed.

End Evaluate.

(** ** Scorecards *)

Section Scorecards.
Context `{PyRuntime}.

Definition over_directions (f : Direction -> Z) : Z := f UP + f NEUTRAL + f DOWN.

Lemma bump_total f d : over_directions (bump f d) = over_directions f + 1.
Proof. unfold over_directions, bump. destruct d; repeat case_decide; (congruence || lia). Qed.

Lemma bump_eq f d : bump f d d = f d + 1.
Proof. unfold bump. by rewrite decide_True. Qed.

Lemma bump_ge f d x : f x <= bump f d x.
Proof. unfold bump. case_decide; lia. Qed.

Definition sum_Z (l : list Z) : Z := foldr Z.add 0 l.

Lemma sum_Z_perm l k : l ≡ₚ k -> sum_Z l = sum_Z k.
Proof. unfold sum_Z. induction 1; cbn in *; lia. Qed.

Lemma zlen_snoc {A} (l : list A) x : zlen (l ++ [x]) = zlen l + 1.
Proof. unfold zlen. rewrite length_app. cbn. lia. Qed.

Definition bins_total (m : gmap Z (list (float * bool))) : Z :=
  sum_Z ((fun kv => zlen kv.2) <$> map_to_list m).

Lemma bins_total_insert m b l :
  m !! b = None -> bins_total (<[b := l]> m) = zlen l + bins_total m.
Proof.
  intros Hb. unfold bins_total. by rewrite (sum_Z_perm _ _ (fmap_Permutation _ _ _ (map_to_list_insert m b l Hb))).
Qed.

Lemma bins_total_snoc m b x :
  bins_total (<[b := (default [] (m !! b) ++ [x])%list]> m) = bins_total m + 1.
Proof.
  destruct (m !! b) as [l|] eqn:Hb; cbn [default].
  - assert (Hm : <[b := l]> (delete b m) = m) by (by apply insert_delete_id).
    rewrite <- Hm at 2. rewrite <- (insert_delete_eq m b).
    rewrite !bins_total_insert by apply lookup_delete_eq. rewrite zlen_snoc. unfold id. lia.
  - rewrite bins_total_insert by done. cbn. unfold zlen; cbn. lia.
Qed.

(** What the loop has established after the rows seen so far. *)
Record counted (plan : EvaluationPlan) (rows : list ScoreRow) (t : Totals) : Prop := {
  ct_predicted : over_directions (tt_predicted t) = zlen rows;
  ct_actual : over_directions (tt_actual t) = zlen rows;
  ct_true : forall d, 0 <= tt_true_positive t d <= Z.min (tt_predicted t d) (tt_actual t d);
  ct_bins : pl_calibration plan = true ->
    bins_total (tt_bins t) = zlen (filter (fun r => sr_actual_label r <> "neutral") rows);
  ct_bin : forall b l, tt_bins t !! b = Some l -> b <= 9 /\ 1 <= zlen l;
  ct_sign : zlen (tt_sign t) <= zlen rows;
  ct_material : zlen (tt_material t) <= zlen rows;
  ct_brier : pl_multiclass_brier plan = true -> zlen (tt_brier t) = zlen rows }.

Lemma opt_snoc_len {A} (l : list A) o : zlen (opt_snoc l o) <= zlen l + 1.
Proof. destruct o; cbn; rewrite ?zlen_snoc; lia. Qed.

Lemma score_row_counted plan rows t r t' :
  counted plan rows t -> score_row plan t r = Ok t' -> counted plan (rows ++ [r]) t'.
Proof.
  intros [Hp Ha Ht Hbs Hb Hs Hm Hbr] Hk. unfold score_row in Hk.
  apply bind_Ok in Hk as (predicted & _ & Hk). apply bind_Ok in Hk as (actual & Hact & Hk).
  apply bind_Ok in Hk as (bins & Hbins & Hk). apply bind_Ok in Hk as (brier & Hbrier & [= <-]).
  apply Direction_of_Ok in Hact.
  assert (Hneutral : sr_actual_label r = "neutral" <-> actual = NEUTRAL).
  { rewrite Hact. destruct actual; cbn; split; (done || congruence). }
  split; cbn -[bump over_directions]; rewrite ?bump_total, ?zlen_snoc.
  - lia.
  - lia.
  - intros d. specialize (Ht d). pose proof (bump_ge (tt_predicted t) predicted d).
    pose proof (bump_ge (tt_actual t) actual d). 
    destruct (bool_decide (predicted = actual)) eqn:E; [|lia]. bool_prop. subst predicted.
    unfold bump in *. case_decide; lia.
  - intros Hcal. specialize (Hbs Hcal). rewrite Hcal in Hbins.
    rewrite filter_app. destruct (decide (sr_actual_label r = "neutral")) as [E|E].
    + rewrite filter_cons_False, app_nil_r by tauto. rewrite bool_decide_true in Hbins by tauto.
      cbn in Hbins. injection Hbins as <-. done.
    + rewrite filter_cons_True by done. cbn. rewrite bool_decide_false in Hbins by tauto. cbn in Hbins.
      apply bind_Ok in Hbins as (confidence & _ & [= <-]). rewrite bins_total_snoc, zlen_snoc. lia.
  - intros b l Hl. destruct (pl_calibration plan && _); [|injection Hbins as <-; by apply Hb].
    apply bind_Ok in Hbins as (confidence & _ & [= <-]).
    apply lookup_insert_Some in Hl as [[<- <-]|[_ Hl]]; [|by apply Hb].
    rewrite zlen_snoc. unfold zlen, bucket_of. lia.
  - pose proof (opt_snoc_len (tt_sign t) (sr_sign_correct r)). lia.
  - pose proof (opt_snoc_len (tt_material t) (sr_material_direction_correct r)). lia.
  - intros Hmb. rewrite Hmb in Hbrier. destruct (sr_brier_score r); [|done].
    injection Hbrier as <-. rewrite zlen_snoc, Hbr by done. done.
Qed.

Lemma totals_counted plan rows t :
  for_each (score_row plan) no_totals rows = Ok t -> counted plan rows t.
Proof.
  assert (Hgen : forall rows done t0, counted plan done t0 ->
    for_each (score_row plan) t0 rows = Ok t -> counted plan (done ++ rows) t).
  { clear. induction rows as [|r rows IH]; intros seen t0 Hc; cbn.
    - rewrite app_nil_r. by intros [= <-].
    - intros Hk. apply bind_Ok in Hk as (t1 & Hr & Hk).
      rewrite cons_middle, app_assoc. eapply IH; [|done]. by eapply score_row_counted. }
  apply (Hgen rows []). split; cbn; (done || lia).
Qed.

Lemma count_true_le l : 0 <= count_true l <= zlen l.
Proof. unfold count_true, zlen. pose proof (length_filter (fun b => b = true) l). lia. Qed.

Lemma calibration_points_total bins :
  foldr (fun p n => cp_count p + n) 0 (calibration_points bins) = bins_total bins.
Proof.
  unfold calibration_points, bins_total.
  assert (Hg : forall l : list (Z * list (float * bool)),
    foldr (fun p n => cp_count p + n) 0 ((fun '(b, values) =>
     mkPoint b (fdiv (py_sum (fst <$> values)) (of_Z (zlen values)))
       (int_div (count_true (snd <$> values)) (zlen values)) (zlen values)) <$> l)
    = sum_Z ((fun kv => zlen kv.2) <$> l)).
  { unfold sum_Z. induction l as [|[b v] l IH]; [done|]. cbn in *. by rewrite IH. }
  rewrite Hg. apply sum_Z_perm, fmap_Permutation, merge_sort_Permutation.
Qed.

Lemma calibration_point_elem bins p :
  p ∈ calibration_points bins -> exists l, bins !! cp_bucket p = Some l /\ cp_count p = zlen l.
Proof.
  unfold calibration_points. intros ([b l] & -> & Hin)%list_elem_of_fmap. cbn.
  rewrite (merge_sort_Permutation bucket_order) in Hin. apply elem_of_map_to_list in Hin. eauto.
Qed.

(** The accounting identities of a scorecard over the rows it was computed from. *)
Record accounts (plan : EvaluationPlan) (rows : list ScoreRow) (sc : Scorecard) : Prop := {
  ac_size : sc_sample_size sc = zlen rows;
  ac_predicted : sum_Z (dm_predicted <$> sc_direction_metrics sc) = zlen rows;
  ac_actual : sum_Z (dm_actual <$> sc_direction_metrics sc) = zlen rows;
  ac_true : Forall (fun m => 0 <= dm_true_positive m <= Z.min (dm_predicted m) (dm_actual m))
              (sc_direction_metrics sc);
  ac_sign : 0 <= sc_sign_correct sc <= sc_sign_sample_size sc /\ sc_sign_sample_size sc <= zlen rows;
  ac_material : 0 <= sc_material_correct sc <= sc_material_sample_size sc
                /\ sc_material_sample_size sc <= zlen rows;
  ac_calibration : pl_calibration plan = true ->
    sum_Z (cp_count <$> sc_calibration sc)
    = zlen (filter (fun r => sr_actual_label r <> "neutral") rows);
  ac_buckets : Forall (fun p => cp_bucket p <= 9 /\ 1 <= cp_count p) (sc_calibration sc);
  ac_sufficient : sc_sample_sufficient sc = (20 <=? prediction_dates rows) }.

Lemma scorecard_of_accounts plan rows version model sc :
  scorecard_of plan rows version model = Ok sc -> accounts plan rows sc.
Proof.
  unfold scorecard_of. intros Hk. apply bind_Ok in Hk as (t & Ht & [= <-]).
  apply totals_counted in Ht as [Hp Ha Htp Hbs Hb Hs Hm Hbr]. unfold over_directions in *.
  split; cbn -[zlen count_true]; try done; try lia.
  - repeat constructor; cbn; apply Htp.
  - pose proof (count_true_le (tt_sign t)). lia.
  - pose proof (count_true_le (tt_material t)). lia.
  - intros Hcal. rewrite <- Hbs, <- calibration_points_total by done.
    unfold sum_Z. induction (calibration_points (tt_bins t)) as [|p l IH]; [done|].
    cbn in *. by rewrite IH.
  - apply Forall_forall. intros p (l & Hl & ->)%calibration_point_elem. by apply Hb in Hl.
Qed.

Lemma empty_accounts plan version model : accounts plan [] (empty_scorecard version model).
Proof.
  split; try done; cbn; try (unfold zlen; cbn; lia). repeat constructor; cbn; lia.
Qed.

(** Scorecards account for every observation exactly once: a scorecard is
    computed from rows of one Agent version that all pass the selection; the
    predicted and the actual labels each add up to the sample, hits never exceed
    either, accuracies are over subsets of the sample, and the calibration bins
    partition precisely the rows that left the neutral band. *)
Theorem scorecard_accounts specs table agent_id q sc :
  scorecard specs table agent_id q = Ok sc ->
  exists spec rows, agent_spec specs agent_id = Ok spec
    /\ (forall r, r ∈ rows -> r ∈ table /\ scoreable agent_id q r = true
                            /\ sr_agent_version r = sc_agent_version sc)
    /\ accounts (plan_of (as_body spec) None) rows sc.
Proof.
  unfold scorecard. destruct (AGENT_BY_ID !! agent_id) as [agent|]; [|done].
  intros Hk. apply bind_Ok in Hk as (spec & Hspec & Hk). exists spec.
  assert (Hempty : forall version model, Ok (empty_scorecard version model) = Ok sc ->
    exists rows, agent_spec specs agent_id = Ok spec
    /\ (forall r, r ∈ rows -> r ∈ table /\ scoreable agent_id q r = true
                            /\ sr_agent_version r = sc_agent_version sc)
    /\ accounts (plan_of (as_body spec) None) rows sc).
  { intros version model [= <-]. exists []. split; [done|]. split; [by intros ? ?%not_elem_of_nil|].
    apply empty_accounts. }
  destruct (negb _); [by eapply Hempty|].
  destruct (partition _ _ _) as [[[version model] fm]|]; [|by eapply Hempty].
  destruct (List.filter (in_partition _) _) as [|r0 rows] eqn:Hf; [by eapply Hempty|].
  exists (r0 :: rows). split; [done|]. split.
  - intros r Hin. rewrite <- Hf, list_elem_of_In, !filter_In in Hin.
    destruct Hin as [[Hin Hsc] Hp]. rewrite <- list_elem_of_In in Hin. split; [done|]. split; [done|].
    unfold in_partition in Hp. bool_prop.
    unfold scorecard_of in Hk. apply bind_Ok in Hk as (t & _ & [= <-]). done.
  - by eapply scorecard_of_accounts.
Qed.

End Scorecards.

(** ** A concrete evaluation *)

Module Witnesses.

#[local] Instance demo_runtime : PyRuntime := {| runtime := Py312 |}.
#[local] Instance demo_hash : CanonicalHash := {| canonical_hash := fun _ => "" |}.
#[local] Instance demo_urls : UrlChecks := {| bracketed_ok := fun _ => false; nfkc_ok := fun _ => false |}.

Definition zone_of (_ : string) : result zoneinfo := Ok shanghai.
Definition digest : string := String.string_of_list_ascii (repeat "b"%char 64).
Definition at_hour (day h : Z) : datetime := DateTime (day * us_per_day + h * us_per_hour) None.

Definition run1 : WorkflowRun :=
  Run "r1" (at_hour 700001 16) (at_hour 700001 16) RUN_COMPLETED "live" 0 None None None ∅ JNull "i" "u".
Definition forecast1 : Forecast :=
  ForecastRow "f1" "r1" "000300.SH" "D1" 700001 700002 "up" (lit 1 2) (lit 1 4) (lit 1 4)
    (lit 5 1000) (lit 2 3) false "m" "1" "w" "i".
Definition closes1 : Closes :=
  mkCloses " exchange " (at_hour 700002 16) 700001 (of_Z 100) "https://www.sse.com.cn/a" digest
    700002 (of_Z 102) "https://www.sse.com.cn/b" digest.
Definition store0 : Store := mkStore ∅ ∅.
Definition now1 : datetime := at_hour 700002 17.
Definition outcome := evaluate_forecast zone_of "u" store0 run1 forecast1 closes1 now1 "e1" true.
Definition result1 : EvaluationResult :=
  match outcome with
  | Ok (r, _) => r
  | Err _ => EvalResult "" "" f0 "" false f0 now1 "" now1 0 f0 "" "" 0 f0 "" "" ""
  end.
Definition store1 : Store := match outcome with Ok (_, st) => st | Err _ => store0 end.

Lemma outcome_ok :
  evaluate_forecast zone_of "u" store0 run1 forecast1 closes1 now1 "e1" true = Ok (result1, store1).
Proof.
  assert (Hok : is_ok outcome = true) by by_vm.
  unfold result1, store1. fold outcome. by destruct outcome as [[r st]|].
Qed.

Lemma evaluation_sound_witness :
  exists label, classify_return (ev_actual_return result1) (lit 5 1000) = Ok label
    /\ ev_actual_label result1 = direction_value label.
Proof.
  destruct (evaluation_sound zone_of "u" store0 run1 forecast1 closes1 now1 "e1" true result1 store1
    outcome_ok) as (_ & _ & _ & label & _ & Hl & Hv & _).
  exists label. split; [exact Hl|exact Hv].
Defined.

Lemma evaluation_immutable_witness :
  es_results store1 !! "f1" = Some result1
  /\ evaluate_forecast zone_of "u" store1 run1 forecast1 closes1 now1 "e2" true
     = raise ForecastAlreadyEvaluatedError "forecast has already been evaluated".
Proof.
  destruct (evaluation_immutable zone_of "u" store0 run1 forecast1 closes1 now1 "e1" true result1
    store1 store1 outcome_ok (rtc_refl _ _)) as (Hr & _ & _ & _ & Hagain).
  split; [exact Hr|exact (Hagain closes1 now1 "e2" true)].
Defined.

Definition row (id label : string) (d : date) (sign : bool) : ScoreRow :=
  mkScoreRow id "strategy_agent" "0.2.0" "m" "000300.SH" "D1" "up" d
    {[ "up" := lit 1 2; "neutral" := lit 1 4; "down" := lit 1 4 ]} "1" "live" RUN_COMPLETED "u"
    now1 (Some 1) "completed" true label (Some sign) None (Some (lit 1 10)).
Definition table : list ScoreRow :=
  [row "o1" "up" 700002 true; row "o2" "down" 700003 false; row "o3" "neutral" 700004 true].
Definition query : ScoreQuery := mkQuery None "D1" "live" "u" None None true.
#[local] Instance seal_hash : CanonicalHash := {| canonical_hash := fun _ => digest |}.
Definition sealed_specs : list AgentSpec :=
  match registry (fun _ => JNull) with Ok l => l | Err _ => [] end.
Definition card : Scorecard :=
  match scorecard sealed_specs table "strategy_agent" query with
  | Ok c => c | Err _ => empty_scorecard "" None end.

Lemma scorecard_accounts_witness :
  sc_sample_size card = 3 /\ sum_Z (cp_count <$> sc_calibration card) = 2
  /\ exists plan rows, accounts plan rows card.
Proof.
  destruct (scorecard_accounts sealed_specs table "strategy_agent" query card)
    as (spec & rows & _ & _ & Hacc); [by_vm|].
  split; [by_vm|]. split; [by_vm|]. exists (plan_of (as_body spec) None), rows. exact Hacc.
Defined.

End Witnesses.

End EvaluationProps.
