(* ===== verification/MarketOutcome.v ===== *)
(** * Importing market outcomes ([backend/app/services/market_outcome.py])

    A sealed bundle of the five closes of one session evaluates every due live
    forecast in one transaction; forecasts that are already evaluated must agree
    with it.  An upstream failure is recorded once as a blocked batch. *)
From S2P Require Import Prelude PyStr PyTime Float64 Domain Json Models Contracts Facade Snapshot.
From S2P Require Import Evaluation.
Import PyStr PyTime Float64 Domain Json Models Contracts Facade Snapshot SourceUrl Snapshot Evaluation.
Open Scope string_scope.
Open Scope Z_scope.

Module MarketOutcome.

Definition REQUIRED_QUALITY_CHECKS : list string :=
  ["quality_policy_passed"; "target_session_published"; "target_calendar_open";
   "required_instruments_complete"; "outcome_metrics_complete"; "publication_freshness_passed"].

(** ** The bundle ([services/reflection_handoff.py], its input models) *)

Record MarketSnapshotItem := Item {
  mi_index_code : string;
  mi_index_name : string;
  mi_target_date : date;
  mi_base_trade_date : date;
  mi_base_close : float;
  mi_target_close : float;
  mi_actual_return : float;
  mi_source_url : string;
  mi_source_hash : string;
  mi_base_source_url : string;
  mi_base_source_hash : string;
  mi_target_source_url : string;
  mi_target_source_hash : string;
  mi_captured_at : datetime;
  mi_amount : option float;
  mi_advancers : option Z;
  mi_decliners : option Z;
  mi_unchanged : option Z;
  mi_limit_down_count : option Z;
  mi_breadth_down_ratio : option float;
  mi_sector_contributions : list jobject;
  mi_weight_contributions : list jobject;
  mi_historical_abs_return_percentile : option float;
  mi_history_sample_size : Z }.

Record MarketSnapshotDataQuality := Quality {
  mq_status : string;
  mq_source_id : string;
  mq_policy_version : string;
  mq_checked_at : datetime;
  mq_report_hash : string;
  mq_checks : gmap string bool;
  mq_warnings : list string }.

Record TradingCalendarEvidence := CalendarEvidence {
  mc_target_date : date;
  mc_calendar_id : string;
  mc_is_open : bool;
  mc_source_url : string;
  mc_source_hash : string;
  mc_observed_at : datetime }.

Record MarketSnapshotPublication := Publication {
  mp_source_id : string;
  mp_artifact_hashes : list (string * string) }.

Record MarketSnapshotBundle := MarketBundle {
  mb_protocol_version : string;
  mb_target_date : date;
  mb_horizon : Horizon;
  mb_captured_at : datetime;
  mb_data_quality : MarketSnapshotDataQuality;
  mb_trading_calendar : TradingCalendarEvidence;
  mb_publication : MarketSnapshotPublication;
  mb_items : list MarketSnapshotItem;
  mb_content_hash : string }.

Definition MARKET_SNAPSHOT_PROTOCOL_VERSION : string := "2.0.0".

Definition positive_number (x : float) : bool := is_finite x && fltb f0 x.
Definition opt_all {A} (p : A -> bool) (o : option A) : bool :=
  match o with Some v => p v | None => true end.

(** [MarketSnapshotItemInput] *)
Definition validate_market_item (i : MarketSnapshotItem) : result unit :=
  field_check (positive_number (mi_base_close i)) "base_close" ;;
  field_check (positive_number (mi_target_close i)) "target_close" ;;
  field_check (is_finite (mi_actual_return i)) "actual_return" ;;
  field_check (is_sha256_hex (mi_source_hash i)) "source_hash" ;;
  field_check (is_sha256_hex (mi_base_source_hash i)) "base_source_hash" ;;
  field_check (is_sha256_hex (mi_target_source_hash i)) "target_source_hash" ;;
  field_check (opt_all (fun x => is_finite x && fleb f0 x) (mi_amount i)) "amount" ;;
  field_check (opt_all (Z.leb 0) (mi_advancers i)) "advancers" ;;
  field_check (opt_all (Z.leb 0) (mi_decliners i)) "decliners" ;;
  field_check (opt_all (Z.leb 0) (mi_unchanged i)) "unchanged" ;;
  field_check (opt_all (Z.leb 0) (mi_limit_down_count i)) "limit_down_count" ;;
  field_check (opt_all unit_interval (mi_breadth_down_ratio i)) "breadth_down_ratio" ;;
  field_check (opt_all unit_interval (mi_historical_abs_return_percentile i))
    "historical_abs_return_percentile" ;;
  field_check ((0 <=? mi_history_sample_size i) && (mi_history_sample_size i <=? 1250))
    "history_sample_size" ;;
  raise_when (negb (is_aware (mi_captured_at i))) ValueError
    "market snapshot captured_at must be timezone-aware".

(** [MarketSnapshotDataQuality] *)
Definition validate_quality (q : MarketSnapshotDataQuality) : result unit :=
  field_check (mq_status q =? "passed")%string "status" ;;
  field_check (length_ok 1 120 (mq_source_id q)) "source_id" ;;
  field_check (length_ok 1 160 (mq_policy_version q)) "policy_version" ;;
  field_check (is_sha256_hex (mq_report_hash q)) "report_hash" ;;
  field_check (negb (bool_decide (mq_checks q = ∅))) "checks" ;;
  raise_when (negb (is_aware (mq_checked_at q))) ValueError
    "data-quality checked_at must be timezone-aware" ;;
  raise_when (negb (forallb snd (map_to_list (mq_checks q)))) ValueError
    "every market snapshot data-quality check must pass" ;;
  raise_when (mq_report_hash q =? zero_digest)%string ValueError
    "data-quality report hash cannot be a placeholder".

(** [TradingCalendarEvidenceInput] *)
Definition validate_calendar_evidence (c : TradingCalendarEvidence) : result unit :=
  field_check (length_ok 1 120 (mc_calendar_id c)) "calendar_id" ;;
  field_check (mc_is_open c) "is_open" ;;
  field_check (is_sha256_hex (mc_source_hash c)) "source_hash" ;;
  raise_when (negb (is_aware (mc_observed_at c))) ValueError
    "trading calendar observed_at must be timezone-aware".

Definition opaque_identifier (artifact_id : string) : bool :=
  truthy (py_strip artifact_id) && negb (py_contains "/" artifact_id)
  && negb (py_contains "\" artifact_id)
  && negb (artifact_id =? ".")%string && negb (artifact_id =? "..")%string.

(** [MarketSnapshotPublicationInput] *)
Definition validate_publication (p : MarketSnapshotPublication) : result unit :=
  field_check (length_ok 1 120 (mp_source_id p)) "source_id" ;;
  field_check (negb (empty (mp_artifact_hashes p))) "artifact_hashes" ;;
  raise_when (existsb (fun kv => negb (is_sha256_hex kv.2) || (kv.2 =? zero_digest)%string)
                (mp_artifact_hashes p)) ValueError
    "market snapshot publication hashes must be non-placeholder SHA-256" ;;
  raise_when (existsb (fun kv => negb (opaque_identifier kv.1)) (mp_artifact_hashes p)) ValueError
    "publication artifact IDs must be non-empty opaque identifiers".

(** All values are equal: [len({getattr(item, name) for item in items}) == 1]. *)
Definition uniform {A} (same : A -> A -> bool) (f : MarketSnapshotItem -> A)
    (items : list MarketSnapshotItem) : bool :=
  match items with [] => false | i :: rest => forallb (fun j => same (f i) (f j)) rest end.

Definition same_count (a b : option Z) : bool := bool_decide (a = b).
Definition same_ratio (a b : option float) : bool :=
  match a, b with Some x, Some y => feqb x y | None, None => true | _, _ => false end.

Definition require_uniform {A} (same : A -> A -> bool) (f : MarketSnapshotItem -> A) (name : string)
    (items : list MarketSnapshotItem) : result unit :=
  raise_when (negb (uniform same f items)) ValueError
    ("market-wide statistic " +:+ name +:+ " must match across all five indexes").

Definition item_codes (items : list MarketSnapshotItem) : gset string :=
  list_to_set (mi_index_code <$> items).

Definition five_codes : gset string := list_to_set (idx_code <$> INDEXES).

(** [MarketSnapshotBundleInput] *)
Definition validate_bundle (b : MarketSnapshotBundle) : result unit :=
  let items := mb_items b in
  field_check (mb_protocol_version b =? MARKET_SNAPSHOT_PROTOCOL_VERSION)%string "protocol_version" ;;
  validate_quality (mb_data_quality b) ;;
  validate_calendar_evidence (mb_trading_calendar b) ;;
  validate_publication (mb_publication b) ;;
  mapM_result validate_market_item items ;;
  field_check (length items =? 5)%nat "items" ;;
  field_check (is_sha256_hex (mb_content_hash b)) "content_hash" ;;
  raise_when (negb (is_aware (mb_captured_at b))) ValueError
    "market snapshot bundle time must be timezone-aware" ;;
  raise_when (negb (bool_decide (item_codes items = five_codes))) ValueError
    "market snapshot must contain the configured five indexes" ;;
  raise_when (negb (size (item_codes items) =? length items)%nat) ValueError
    "market snapshot index codes must be unique" ;;
  raise_when (existsb (fun i => negb (mi_target_date i =? mb_target_date b)) items) ValueError
    "market snapshot item target dates must match the bundle" ;;
  raise_when (negb (mc_target_date (mb_trading_calendar b) =? mb_target_date b)) ValueError
    "trading calendar target date must match the bundle" ;;
  raise_when (dt_ltb (mb_captured_at b) (mc_observed_at (mb_trading_calendar b))) ValueError
    "trading calendar must be observed before bundle capture" ;;
  raise_when (negb (mq_source_id (mb_data_quality b) =? mp_source_id (mb_publication b))%string)
    ValueError "data-quality and publication source IDs must match" ;;
  require_uniform same_count mi_advancers "advancers" items ;;
  require_uniform same_count mi_decliners "decliners" items ;;
  require_uniform same_count mi_unchanged "unchanged" items ;;
  require_uniform same_count mi_limit_down_count "limit_down_count" items ;;
  require_uniform same_ratio mi_breadth_down_ratio "breadth_down_ratio" items.

(** ** Loading *)

Definition tolerance : float := lit 1 10000000000.

Section Import.
(** The digest of the bundle's dump; the tz database; the default universe. *)
Context (bundle_hash : MarketSnapshotBundle -> string).
Context (zone_info : string -> result zoneinfo) (default_universe_hash : string).
Context `{PyRuntime} `{CanonicalHash} `{UrlChecks}.

Definition validate_price_source (code label url digest : string) : result unit :=
  validate_trusted_source_url url (code +:+ " " +:+ label +:+ " close") ;;
  raise_when (digest =? zero_digest)%string ValueError "price source hashes cannot be placeholders".

(** The checks of one item, against the capture time of the bundle. *)
Definition check_item (zone : zoneinfo) (captured_at : datetime) (i : MarketSnapshotItem) : result unit :=
  validate_trusted_source_url (mi_source_url i) (mi_index_code i +:+ " market snapshot") ;;
  raise_when (mi_source_hash i =? zero_digest)%string ValueError
    "market snapshot source hashes cannot be placeholders" ;;
  validate_price_source (mi_index_code i) "base" (mi_base_source_url i) (mi_base_source_hash i) ;;
  validate_price_source (mi_index_code i) "target" (mi_target_source_url i) (mi_target_source_hash i) ;;
  raise_when (negb (dt_wall (aware zone (mi_captured_at i)) =? dt_wall captured_at)) ValueError
    "market snapshot item capture time conflicts with bundle" ;;
  raise_when (mi_target_date i <=? mi_base_trade_date i) ValueError
    "market snapshot base date must precede target date" ;;
  let expected_return := fsub (fdiv (mi_target_close i) (mi_base_close i)) f1 in
  raise_when (negb (isclose f0 tolerance (mi_actual_return i) expected_return)) ValueError
    "market snapshot actual_return conflicts with closes".

(** [load_market_snapshot], of the parsed file. *)
Definition load_market_snapshot (b : MarketSnapshotBundle) (now : datetime) (zone : zoneinfo)
    : result MarketSnapshotBundle :=
  validate_bundle b ;;
  raise_when (negb (mb_content_hash b =? bundle_hash b)%string
              || (mb_content_hash b =? zero_digest)%string) ValueError
    "market snapshot content_hash is invalid" ;;
  raise_when (negb (mq_status (mb_data_quality b) =? "passed")%string) ValueError
    "market snapshot data quality did not pass" ;;
  raise_when (negb (mq_source_id (mb_data_quality b) =? mp_source_id (mb_publication b))%string)
    ValueError "market snapshot source IDs are inconsistent" ;;
  let missing := List.filter (fun c => negb (isSome (mq_checks (mb_data_quality b) !! c)))
                   REQUIRED_QUALITY_CHECKS in
  raise_when (negb (empty missing)) ValueError
    ("market snapshot omits required quality checks: "
     +:+ py_join ", " (merge_sort String.le missing)) ;;
  raise_when (negb (mc_is_open (mb_trading_calendar b))) ValueError
    "target session is not open in the frozen calendar" ;;
  raise_when (negb (mc_target_date (mb_trading_calendar b) =? mb_target_date b)) ValueError
    "calendar target does not match the market snapshot" ;;
  validate_trusted_source_url (mc_source_url (mb_trading_calendar b)) "market snapshot calendar" ;;
  raise_when (mc_source_hash (mb_trading_calendar b) =? zero_digest)%string ValueError
    "market snapshot calendar hash cannot be a placeholder" ;;
  let current := aware zone now in
  let captured_at := aware zone (mb_captured_at b) in
  raise_when (dt_ltb (dt_add current five_minutes) (mb_captured_at b)) ValueError
    "market snapshot capture time is in the future" ;;
  raise_when (wall_ltb captured_at (combine (mb_target_date b) (time_of 15 5) zone)) ValueError
    "market snapshot was captured before target-session maturity" ;;
  mapM_result (check_item zone captured_at) (mb_items b) ;;
  Ok b.

(** ** The database *)

Record EvaluationBatch := Batch {
  eb_id : string;
  eb_target_date : date;
  eb_horizon : string;
  eb_status : string;
  eb_evaluation_set_hash : string;
  eb_source_hash : string;
  eb_data_quality : jobject;
  eb_started_at : datetime;
  eb_completed_at : option datetime;
  eb_error : option string }.

Record OutcomeDb := mkOutcome {
  od_runs : gmap string WorkflowRun;
  od_forecasts : gmap string Forecast;
  od_evaluations : Store;
  od_batches : gmap string EvaluationBatch }.

Definition with_evaluations (db : OutcomeDb) (st : Store) : OutcomeDb :=
  mkOutcome (od_runs db) (od_forecasts db) st (od_batches db).
Definition add_batch (db : OutcomeDb) (batch : EvaluationBatch) : OutcomeDb :=
  mkOutcome (od_runs db) (od_forecasts db) (od_evaluations db)
    (<[eb_id batch := batch]> (od_batches db)).

Definition is_due (db : OutcomeDb) (target_date : date) (h : Horizon) (f : Forecast) : bool :=
  match od_runs db !! fc_run_id f with
  | None => false
  | Some run =>
      (r_mode run =? "live")%string && bool_decide (r_status run = RUN_COMPLETED)
      && (r_market_universe_hash run =? default_universe_hash)%string
      && (fc_target_date f =? target_date) && (fc_horizon f =? horizon_value h)%string
      && bool_decide (fc_index_code f ∈ idx_code <$> INDEXES)
  end.

(** [ORDER BY run_id, index_code] *)
Definition forecast_le (f g : Forecast) : Prop :=
  lex_le String.le String.le (fc_run_id f, fc_index_code f) (fc_run_id g, fc_index_code g).
#[local] Instance forecast_le_dec f g : Decision (forecast_le f g).
Proof. unfold forecast_le. apply _. Defined.

(** [pending_live_forecasts] *)
Definition pending_live_forecasts (db : OutcomeDb) (target_date : date) (h : Horizon) : list Forecast :=
  merge_sort forecast_le
    (List.filter (is_due db target_date h) (snd <$> map_to_list (od_forecasts db))).

(** ** Importing *)

(** The instruments of a run among the forecasts. *)
Definition codes_of_run (forecasts : list Forecast) (run_id : string) : gset string :=
  list_to_set (fc_index_code <$> List.filter (fun f => (fc_run_id f =? run_id)%string) forecasts).

(** [_validate_forecast_groups] *)
Definition validate_forecast_groups (forecasts : list Forecast) : result unit :=
  raise_when (existsb (fun f => negb (bool_decide (codes_of_run forecasts (fc_run_id f) = five_codes)))
                forecasts) ValueError
    "each due live run must contain all five index forecasts".

(** [_validate_item_matches_forecast] *)
Definition validate_item_matches_forecast (i : MarketSnapshotItem) (f : Forecast) : result unit :=
  raise_when (negb (mi_target_date i =? fc_target_date f)) ValueError
    "market snapshot target date conflicts with forecast" ;;
  raise_when (negb (mi_base_trade_date i =? fc_base_trade_date f)) ValueError
    "market snapshot base date conflicts with forecast".

Definition comparisons (e : EvaluationResult) (i : MarketSnapshotItem) (source_id : string)
    : list (bool * string) :=
  [(ev_start_trade_date e =? mi_base_trade_date i, "base date");
   (ev_end_trade_date e =? mi_target_date i, "target date");
   (isclose f0 tolerance (ev_start_close e) (mi_base_close i), "base close");
   (isclose f0 tolerance (ev_end_close e) (mi_target_close i), "target close");
   (ev_start_source_hash e =? mi_base_source_hash i, "base source hash")%string;
   (ev_end_source_hash e =? mi_target_source_hash i, "target source hash")%string;
   (ev_start_source_url e =? mi_base_source_url i, "base source URL")%string;
   (ev_end_source_url e =? mi_target_source_url i, "target source URL")%string;
   (ev_price_source e =? source_id, "price source")%string].

(** [_validate_existing_evaluation] *)
Definition validate_existing_evaluation (e : EvaluationResult) (i : MarketSnapshotItem)
    (source_id : string) : result unit :=
  let failed := snd <$> List.filter (fun c => negb c.1) (comparisons e i source_id) in
  raise_when (negb (empty failed)) ValueError
    ("existing immutable evaluation conflicts with snapshot: " +:+ py_join ", " failed).

(** [{item.index_code: item for item in bundle.items}[code]] *)
Definition item_by_code (b : MarketSnapshotBundle) (code : string) : result MarketSnapshotItem :=
  match last (List.filter (fun i => (mi_index_code i =? code)%string) (mb_items b)) with
  | Some i => Ok i
  | None => raise KeyError code
  end.

Definition closes_of (b : MarketSnapshotBundle) (i : MarketSnapshotItem) : Closes :=
  mkCloses (mp_source_id (mb_publication b)) (mb_captured_at b)
    (mi_base_trade_date i) (mi_base_close i) (mi_base_source_url i) (mi_base_source_hash i)
    (mi_target_date i) (mi_target_close i) (mi_target_source_url i) (mi_target_source_hash i).

(** The evaluations so far, and how many were new and existing. *)
Record ImportState := mkImport { im_store : Store; im_evaluated : Z; im_existing : Z }.

(** One turn of the loop; [before] are the evaluations loaded with the forecasts. *)
Definition import_forecast (db : OutcomeDb) (b : MarketSnapshotBundle) (current : datetime)
    (new_id : string -> string) (s : ImportState) (f : Forecast) : result ImportState :=
  item ← item_by_code b (fc_index_code f);
  validate_item_matches_forecast item f ;;
  match es_results (od_evaluations db) !! fc_id f with
  | Some e =>
      validate_existing_evaluation e item (mp_source_id (mb_publication b)) ;;
      Ok (mkImport (im_store s) (im_evaluated s) (im_existing s + 1))
  | None =>
      match od_runs db !! fc_run_id f with
      | None => raise ValueError "forecast run disappeared"
      | Some run =>
          '(_, st) ← evaluate_forecast zone_info default_universe_hash (im_store s) run f
                       (closes_of b item) current (new_id (fc_id f)) true;
          Ok (mkImport st (im_evaluated s + 1) (im_existing s))
      end
  end.

Record MarketImportResult := ImportResult {
  mr_status : string;
  mr_target_date : date;
  mr_horizon : Horizon;
  mr_source_run_ids : list string;
  mr_evaluated_forecasts : Z;
  mr_existing_forecasts : Z;
  mr_snapshot_hash : string }.

(** [import_market_snapshot]: an exception rolls everything back. *)
Definition import_market_snapshot (db : OutcomeDb) (b : MarketSnapshotBundle) (now : datetime)
    (zone : zoneinfo) (new_id : string -> string) : result (MarketImportResult * OutcomeDb) :=
  let current := aware zone now in
  bundle ← load_market_snapshot b current zone;
  let forecasts := pending_live_forecasts db (mb_target_date bundle) (mb_horizon bundle) in
  if empty forecasts then
    Ok (ImportResult "no_due_live_forecast" (mb_target_date bundle) (mb_horizon bundle) [] 0 0
          (mb_content_hash bundle), db)
  else
    validate_forecast_groups forecasts ;;
    s ← for_each (import_forecast db bundle current new_id) (mkImport (od_evaluations db) 0 0) forecasts;
    let run_ids := merge_sort String.le (elements (list_to_set (fc_run_id <$> forecasts) : gset string)) in
    Ok (ImportResult "completed" (mb_target_date bundle) (mb_horizon bundle) run_ids
          (im_evaluated s) (im_existing s) (mb_content_hash bundle),
        with_evaluations db (im_store s)).

(** ** A blocked upstream *)

Definition evaluation_set_hash (forecasts : list Forecast) : string :=
  canonical_hash (JArr ((fun f => JObj (list_to_map
    [("forecast_id", JStr (fc_id f)); ("run_id", JStr (fc_run_id f));
     ("input_hash", JStr (fc_input_hash f))])) <$> forecasts)).

Definition is_blocked (target_date : date) (h : Horizon) (set_hash : string) (e : EvaluationBatch) : bool :=
  (eb_target_date e =? target_date) && (eb_horizon e =? horizon_value h)%string
  && (eb_evaluation_set_hash e =? set_hash)%string && (eb_status e =? "blocked_upstream")%string.

(** [error.strip()[:4000] or reason_code] *)
Definition normalized_error (reason_code error : string) : string :=
  let stripped := py_take 4000 (py_strip error) in
  if truthy stripped then stripped else reason_code.

Definition blocked_batch (uuid : string) (target_date : date) (h : Horizon) (set_hash : string)
    (reason_code error : string) (current : datetime) : EvaluationBatch :=
  let source_hash := canonical_hash (JObj (list_to_map
    [("target_date", JStr (iso_date target_date)); ("horizon", JStr (horizon_value h));
     ("reason_code", JStr reason_code); ("error", JStr error)])) in
  Batch uuid target_date (horizon_value h) "blocked_upstream" set_hash source_hash
    (list_to_map [("status", JStr "blocked"); ("reason_code", JStr reason_code)])
    current (Some current) (Some error).

(** [record_blocked_upstream] *)
Definition record_blocked_upstream (db : OutcomeDb) (target_date : date) (h : Horizon)
    (reason_code error : string) (now : datetime) (zone : zoneinfo) (uuid : string)
    : option EvaluationBatch * OutcomeDb :=
  let forecasts := pending_live_forecasts db target_date h in
  if empty forecasts then (None, db)
  else
    let set_hash := evaluation_set_hash forecasts in
    match List.find (is_blocked target_date h set_hash) (snd <$> map_to_list (od_batches db)) with
    | Some existing => (Some existing, db)
    | None =>
        let batch := blocked_batch uuid target_date h set_hash reason_code
                       (normalized_error reason_code error) (aware zone now) in
        (Some batch, add_batch db batch)
    end.

End Import.

End MarketOutcome.
