(* ===== verification/MarketOutcomeProps.v ===== *)
(** * Correctness of the outcome import

    What an import certifies about the session and its evaluations, that
    importing the same bundle again changes nothing, and that a blocked upstream
    is recorded once. *)
From Stdlib Require Import Ascii.
From S2P Require Import Prelude PyStr PyTime Float64 Domain Json Models Contracts Facade Snapshot.
From S2P Require Import Evaluation EvaluationProps MarketOutcome.
Import PyStr PyTime Float64 Domain Json Models Contracts Facade Snapshot SourceUrl Snapshot Evaluation.
Import EvaluationProps MarketOutcome.
Open Scope string_scope.
Open Scope Z_scope.

Module MarketOutcomeProps.

(** An invariant over the processed prefix of a loop. *)
Lemma for_each_prefix {A S} (I : list A -> S -> Prop) (f : S -> A -> result S) l :
  (forall done x s s', x ∈ l -> I done s -> f s x = Ok s' -> I (done ++ [x])%list s') ->
  forall s s', I [] s -> for_each f s l = Ok s' -> I l s'.
Proof.
  intros Hstep s s' Hs.
  enough (forall k done s0, (forall x, x ∈ k -> x ∈ l) -> I done s0 ->
            for_each f s0 k = Ok s' -> I (done ++ k)%list s') as Hall by (by apply (Hall l [] s)).
  induction k as [|x k IH]; intros done s0 Hin Hd; cbn.
  - intros [= <-]. by rewrite app_nil_r.
  - rewrite bind_Ok. intros (s1 & Hx & Hk). rewrite cons_middle, (assoc_L app).
    apply (IH _ s1); [|by eapply Hstep; [apply Hin; left|..]|done]. intros y Hy. apply Hin. by right.
Qed.

Section Import.
Context (bundle_hash : MarketSnapshotBundle -> string).
Context (zone_info : string -> result zoneinfo) (default_universe_hash : string).
Context `{PyRuntime} `{CanonicalHash} `{UrlChecks}.

#[local] Abbreviation import :=
  (import_market_snapshot bundle_hash zone_info default_universe_hash).
#[local] Abbreviation load := (load_market_snapshot bundle_hash).
#[local] Abbreviation due db b := (pending_live_forecasts default_universe_hash db (mb_target_date b) (mb_horizon b)).
#[local] Abbreviation step := (import_forecast zone_info default_universe_hash).

(** ** Loading *)

Lemma load_Ok b now zone b' :
  load b now zone = Ok b' ->
  b' = b /\ validate_bundle b = Ok tt /\ mb_content_hash b = bundle_hash b
  /\ instant (mb_captured_at b) <= instant (aware zone now) + minutes 5
  /\ dt_wall (combine (mb_target_date b) (time_of 15 5) zone) <= dt_wall (aware zone (mb_captured_at b))
  /\ forall i, i ∈ mb_items b -> check_item zone (aware zone (mb_captured_at b)) i = Ok tt.
Proof.
  unfold load_market_snapshot. intros Hk. apply bind_Ok in Hk as ([] & Hb & Hk).
  do 6 apply raise_when_bind_Ok in Hk as [? Hk]. apply bind_Ok in Hk as (? & _ & Hk).
  do 3 apply raise_when_bind_Ok in Hk as [? Hk]. apply bind_Ok in Hk as (? & Hi & Hk). injection Hk as <-.
  unfold dt_ltb, wall_ltb in *. bool_prop. rewrite instant_add in *. unfold five_minutes in *.
  split_and!; try done. intros i Hin. destruct (mapM_result_elem _ _ _ _ Hi Hin) as ([] & ?). done.
Qed.

(** A bundle that could be loaded can be loaded later. *)
Lemma load_later b now now' zone b' :
  instant (aware zone now) <= instant (aware zone now') ->
  load b now zone = Ok b' -> load b now' zone = Ok b'.
Proof.
  intros Hlater. unfold load_market_snapshot. intros Hk. apply bind_Ok in Hk as ([] & -> & Hk).
  cbn [mbind result_bind]. do 6 (apply raise_when_bind_Ok in Hk as [-> Hk]). cbn [raise_when mbind result_bind].
  apply bind_Ok in Hk as ([] & -> & Hk). cbn [mbind result_bind].
  apply raise_when_bind_Ok in Hk as [-> Hk]. apply raise_when_bind_Ok in Hk as [Hf Hk].
  cbn [raise_when mbind result_bind].
  assert (dt_ltb (dt_add (aware zone now') five_minutes) (mb_captured_at b) = false) as ->; [|exact Hk].
  unfold dt_ltb in *. rewrite instant_add in *. apply Z.ltb_ge in Hf. apply Z.ltb_ge. lia.
Qed.

(** ** The loop *)

(** The evaluation of a forecast repeats the bundle's item of its index. *)
Definition agrees (b : MarketSnapshotBundle) (st : Store) (f : Forecast) : Prop :=
  exists e i, es_results st !! fc_id f = Some e
    /\ item_by_code b (fc_index_code f) = Ok i /\ validate_item_matches_forecast i f = Ok tt
    /\ validate_existing_evaluation e i (mp_source_id (mb_publication b)) = Ok tt.

Definition stripped_source (b : MarketSnapshotBundle) : Prop :=
  py_strip (mp_source_id (mb_publication b)) = mp_source_id (mb_publication b).

Lemma isclose_refl tol x : is_nan x = false -> isclose f0 tol x x = true.
Proof. intros Hn. unfold isclose. by rewrite feqb_refl. Qed.

(** A fresh evaluation agrees with the item it was made from. *)
Lemma fresh_agrees st run f b i now uuid r st' :
  stripped_source b ->
  evaluate_forecast zone_info default_universe_hash st run f (closes_of b i) now uuid true = Ok (r, st') ->
  validate_existing_evaluation r i (mp_source_id (mb_publication b)) = Ok tt.
Proof.
  intros Hsrc. unfold evaluate_forecast. intros Hk. apply bind_Ok in Hk as ([o c] & _ & Hk).
  apply bind_Ok in Hk as (ret & Hret & Hk). apply bind_Ok in Hk as (label & Hl & Hk).
  destruct (closes_not_nan _ _ _ _ _ Hret Hl) as [Hs Ht].
  apply bind_Ok in Hk as (? & _ & Hk). apply bind_Ok in Hk as (? & _ & Hk).
  apply bind_Ok in Hk as (? & _ & Hk). injection Hk as <- _.
  unfold validate_existing_evaluation, comparisons, closes_of. cbn -[isclose tolerance] in *.
  rewrite Hsrc, !Z.eqb_refl, !String.eqb_refl, !isclose_refl by done. done.
Qed.

Lemma record_price_results st mode code d close source url hash at_ st' :
  record_price st mode code d close source url hash at_ = Ok st' -> es_results st' = es_results st.
Proof.
  unfold record_price. destruct (es_prices st !! _); [intros [_ Hk]%raise_when_bind_Ok|intros Hk];
    by injection Hk as <-.
Qed.

Lemma evaluate_results st run f c now uuid tr r st' :
  evaluate_forecast zone_info default_universe_hash st run f c now uuid tr = Ok (r, st') ->
  es_results st' = <[fc_id f := r]> (es_results st).
Proof.
  intros (?&?&?&?&?&st1&st2&_&_&_&_&E1&E2&He)%evaluate_Ok.
  apply record_price_results in E1 as <-, E2 as <-. by destruct He as (_&_&_&_&_&_&_&_&_&->).
Qed.

(** What the loop has done after some of the forecasts. *)
Definition progress (db : OutcomeDb) (b : MarketSnapshotBundle) (seen : list Forecast) (s : ImportState) : Prop :=
  es_results (od_evaluations db) ⊆ es_results (im_store s)
  /\ es_prices (od_evaluations db) ⊆ es_prices (im_store s)
  /\ Forall (agrees b (im_store s)) seen
  /\ im_evaluated s + im_existing s = Z.of_nat (length seen)
  /\ (forall k, is_Some (es_results (im_store s) !! k) ->
       is_Some (es_results (od_evaluations db) !! k) \/ exists f, f ∈ seen /\ fc_id f = k)
  /\ im_evaluated s = Z.of_nat (length (List.filter
       (fun f => negb (isSome (es_results (od_evaluations db) !! fc_id f))) seen)).

Lemma agrees_mono b st st' f : es_results st ⊆ es_results st' -> agrees b st f -> agrees b st' f.
Proof. intros Hsub (e & i & He & Hrest). exists e, i. split; [by eapply lookup_weaken|done]. Qed.

Lemma import_step db b now new_id seen f s s' :
  stripped_source b -> progress db b seen s -> step db b now new_id s f = Ok s' ->
  progress db b (seen ++ [f]) s'.
Proof.
  intros Hsrc (Hr & Hp & Hall & Hcount & Honly & Hev). unfold import_forecast. intros Hk.
  apply bind_Ok in Hk as (i & Hi & Hk). apply bind_Ok in Hk as ([] & Hm & Hk).
  unfold progress. rewrite List.filter_app, !length_app, Forall_app, Forall_singleton. cbn [List.filter length].
  destruct (es_results (od_evaluations db) !! fc_id f) as [e|] eqn:Ee; cbn [isSome negb length].
  - apply bind_Ok in Hk as ([] & Hc & Hk). injection Hk as <-. cbn [im_store im_evaluated im_existing].
    split_and!; try done; [|lia| |lia].
    + exists e, i. split; [by eapply lookup_weaken|done].
    + intros k [Hk|(g & Hg & Hgk)]%Honly; [by left|right]. exists g. rewrite elem_of_app. tauto.
  - destruct (od_runs db !! fc_run_id f) as [run|]; [|done].
    apply bind_Ok in Hk as ([r st] & He & Hk). injection Hk as <-. cbn [im_store im_evaluated im_existing].
    pose proof (evaluate_grows _ _ _ _ _ _ _ _ _ _ _ He) as (Hp' & Hr' & Hf & _).
    pose proof (fresh_agrees _ _ _ _ _ _ _ _ _ Hsrc He) as Hfresh.
    split_and!; [by etrans|by etrans| | |lia| |lia].
    + eapply Forall_impl; [exact Hall|]. intros g. by apply agrees_mono.
    + by exists r, i.
    + intros k Hk. rewrite (evaluate_results _ _ _ _ _ _ _ _ _ He) in Hk.
      destruct (decide (fc_id f = k)) as [<-|Hne].
      * right. exists f. rewrite elem_of_app, list_elem_of_singleton. tauto.
      * rewrite lookup_insert_ne in Hk by done. apply Honly in Hk as [Hk|(g & Hg & Hgk)]; [by left|right].
        exists g. rewrite elem_of_app. tauto.
Qed.

Lemma import_Ok db b now zone new_id r db' :
  stripped_source b -> import db b now zone new_id = Ok (r, db') ->
  load b (aware zone now) zone = Ok b /\ exists s,
    progress db b (due db b) s /\ db' = with_evaluations db (im_store s)
    /\ (due db b <> [] -> validate_forecast_groups (due db b) = Ok tt)
    /\ r = ImportResult (if empty (due db b) then "no_due_live_forecast" else "completed")
             (mb_target_date b) (mb_horizon b)
             (merge_sort String.le (elements (list_to_set (fc_run_id <$> due db b) : gset string)))
             (im_evaluated s) (im_existing s) (mb_content_hash b).
Proof.
  intros Hsrc. unfold import_market_snapshot. intros Hk. apply bind_Ok in Hk as (b' & Hl & Hk).
  pose proof (load_Ok _ _ _ _ Hl) as (-> & _). split; [done|].
  assert (progress db b [] (mkImport (od_evaluations db) 0 0)) as H0'
    by (split_and!; [done|done|constructor|done|by left|done]).
  destruct (due db b) as [|f fs] eqn:Ed; cbn [empty] in *.
  - injection Hk as <- <-. exists (mkImport (od_evaluations db) 0 0). rewrite ?Ed.
    split_and!; [done| |done|done]. by destruct db.
  - apply bind_Ok in Hk as ([] & Hg & Hk). apply bind_Ok in Hk as (s & Hs & Hk). injection Hk as <- <-.
    exists s. split_and!; [|done|done|done].
    refine (for_each_prefix (progress db b) _ _ _ _ _ H0' Hs). intros. by eapply import_step.
Qed.

(** A loop over agreeing forecasts only counts them. *)
Lemma agreeing_loop db b now new_id fs : forall x,
  Forall (agrees b (od_evaluations db)) fs ->
  for_each (step db b now new_id) (mkImport (od_evaluations db) 0 x) fs
  = Ok (mkImport (od_evaluations db) 0 (x + Z.of_nat (length fs))).
Proof.
  induction fs as [|f fs IH]; intros x Hall; [by rewrite Z.add_0_r|].
  apply Forall_cons in Hall as [(e & i & He & Hi & Hm & Hc) Hall].
  assert (step db b now new_id (mkImport (od_evaluations db) 0 x) f
          = Ok (mkImport (od_evaluations db) 0 (x + 1))) as Hf.
  { unfold import_forecast. rewrite Hi. cbn [mbind result_bind]. rewrite Hm.
    cbn [mbind result_bind]. by rewrite He, Hc. }
  cbn [for_each]. rewrite Hf. cbn [mbind result_bind].
  rewrite IH by done. cbn [length]. do 2 f_equal. lia.
Qed.

(** ** Properties *)

(** Importing is idempotent: once a bundle is imported, importing it again at
    any later time succeeds, evaluates nothing, finds every due forecast already
    evaluated in agreement with it, and leaves the database as it is. *)
Theorem import_idempotent db b now now' zone new_id new_id' r db' :
  stripped_source b -> instant (aware zone now) <= instant (aware zone now') ->
  import db b now zone new_id = Ok (r, db') ->
  import db' b now' zone new_id'
  = Ok (ImportResult (mr_status r) (mr_target_date r) (mr_horizon r) (mr_source_run_ids r) 0
          (mr_evaluated_forecasts r + mr_existing_forecasts r) (mr_snapshot_hash r), db').
Proof.
  intros Hsrc Hlater (Hl & s & (_ & _ & Hall & Hcount & _) & -> & Hg & ->)%import_Ok; [|done].
  assert (load b (aware zone now') zone = Ok b) as Hl'.
  { eapply load_later, Hl.
    by rewrite (instant_aware_of_aware zone (aware zone now)), (instant_aware_of_aware zone (aware zone now'))
      by apply is_aware_aware. }
  unfold import_market_snapshot. rewrite Hl'. cbn [mbind result_bind].
  change (due (with_evaluations db (im_store s)) b) with (due db b).
  cbn [mr_status mr_target_date mr_horizon mr_source_run_ids mr_evaluated_forecasts
       mr_existing_forecasts mr_snapshot_hash]. rewrite Hcount.
  destruct (due db b) as [|f fs] eqn:Ed; [done|]. cbn [empty].
  rewrite Hg by done. cbn [mbind result_bind].
  pose proof (agreeing_loop (with_evaluations db (im_store s)) b (aware zone now') new_id' (f :: fs) 0) as Hloop.
  rewrite Hloop by done. done.
Qed.


(** *** Blocked batches *)

Lemma find_insert_blocked (m : gmap string EvaluationBatch) p batch :
  p batch = true -> List.find p (snd <$> map_to_list m) = None -> m !! eb_id batch = None ->
  List.find p (snd <$> map_to_list (<[eb_id batch := batch]> m)) = Some batch.
Proof.
  intros Hb Hnone Hfresh.
  destruct (List.find p (snd <$> map_to_list (<[eb_id batch := batch]> m))) as [e|] eqn:He.
  - apply List.find_some in He as [Hin Hp]. apply list_elem_of_In, list_elem_of_fmap in Hin as ([k e'] & -> & Hin).
    apply elem_of_map_to_list, lookup_insert_Some in Hin as [[_ ->]|[_ Hin]]; [done|].
    exfalso. apply (List.find_none _ _) with (x := e') in Hnone; [cbn in Hp; by rewrite Hnone in Hp|].
    apply list_elem_of_In, list_elem_of_fmap. exists (k, e'). by rewrite elem_of_map_to_list.
  - exfalso. apply (List.find_none _ _) with (x := batch) in He; [by rewrite He in Hb|].
    apply list_elem_of_In, list_elem_of_fmap. exists (eb_id batch, batch).
    by rewrite elem_of_map_to_list, lookup_insert_eq.
Qed.

#[local] Abbreviation due_on db d h := (pending_live_forecasts default_universe_hash db d h).
#[local] Abbreviation record_blocked := (record_blocked_upstream default_universe_hash).

Definition blocked_in (db : OutcomeDb) (d : date) (h : Horizon) : option EvaluationBatch :=
  List.find (is_blocked d h (evaluation_set_hash (due_on db d h))) (snd <$> map_to_list (od_batches db)).

Lemma blocked_existing db d h e reason error now zone uuid :
  due_on db d h <> [] -> blocked_in db d h = Some e ->
  record_blocked db d h reason error now zone uuid = (Some e, db).
Proof.
  unfold blocked_in, record_blocked_upstream. destruct (due_on db d h) as [|f fs]; [done|].
  intros _ He. cbn [empty]. by rewrite He.
Qed.

Lemma blocked_new db d h reason error now zone uuid :
  due_on db d h <> [] -> blocked_in db d h = None -> od_batches db !! uuid = None ->
  exists e, record_blocked db d h reason error now zone uuid = (Some e, add_batch db e)
    /\ is_blocked d h (evaluation_set_hash (due_on db d h)) e = true
    /\ od_batches db !! eb_id e = None /\ blocked_in (add_batch db e) d h = Some e.
Proof.
  intros Hdue He Hfresh.
  exists (blocked_batch uuid d h (evaluation_set_hash (due_on db d h)) reason (normalized_error reason error) (aware zone now)).
  assert (forall set_hash err at_, is_blocked d h set_hash (blocked_batch uuid d h set_hash reason err at_) = true) as Hb.
  { intros. unfold is_blocked, blocked_batch. cbn -[horizon_value]. by rewrite Z.eqb_refl, !String.eqb_refl. }
  split_and!; [|apply Hb|done|].
  - unfold blocked_in, record_blocked_upstream in *. destruct (due_on db d h) as [|f fs]; [done|].
    cbn [empty]. by rewrite He.
  - unfold blocked_in. change (due_on (add_batch db _) d h) with (due_on db d h).
    apply find_insert_blocked; [apply Hb|exact He|done].
Qed.

(** A blocked upstream is recorded once: nothing is recorded when no live
    forecast is due; otherwise the call returns a blocked batch of exactly the due
    forecasts, changes neither runs, forecasts nor evaluations, and repeating it,
    with any reason, error, time and identifier, returns the same batch and
    changes nothing. *)
Theorem blocked_recorded_once db d h reason error now zone uuid out db' :
  od_batches db !! uuid = None ->
  record_blocked_upstream default_universe_hash db d h reason error now zone uuid = (out, db') ->
  let forecasts := pending_live_forecasts default_universe_hash db d h in
  (forecasts = [] -> out = None /\ db' = db)
  /\ (forecasts <> [] -> exists batch, out = Some batch
        /\ is_blocked d h (evaluation_set_hash forecasts) batch = true
        /\ od_batches db ⊆ od_batches db' /\ od_evaluations db' = od_evaluations db
        /\ od_runs db' = od_runs db /\ od_forecasts db' = od_forecasts db
        /\ forall reason' error' now' uuid',
             record_blocked_upstream default_universe_hash db' d h reason' error' now' zone uuid'
             = (Some batch, db')).
Proof.
  intros Hfresh Hk forecasts. subst forecasts. destruct (due_on db d h) as [|f fs] eqn:Edue.
  { unfold record_blocked_upstream in Hk. rewrite Edue in Hk. injection Hk as <- <-. by split. }
  split; [done|]. intros _. rewrite <- Edue.
  assert (due_on db d h <> []) as Hdue by (by rewrite Edue).
  destruct (blocked_in db d h) as [e|] eqn:He.
  - rewrite (blocked_existing _ _ _ e) in Hk by done. injection Hk as <- <-. exists e.
    split_and!; try done; [by apply List.find_some in He as [_ ?]|]. intros. by apply blocked_existing.
  - destruct (blocked_new db d h reason error now zone uuid Hdue He Hfresh) as (e & Ek & Hb & Hid & Hin).
    rewrite Ek in Hk. injection Hk as <- <-. exists e.
    split_and!; try done; [by apply insert_subseteq|]. intros. by apply blocked_existing.
Qed.

End Import.

(** ** Concrete inputs *)

Module Witnesses.

#[local] Instance python : PyRuntime := {| runtime := Py312 |}.
#[local] Instance short_hash : CanonicalHash := {| canonical_hash := fun _ => "" |}.
#[local] Instance strict_urls : UrlChecks := {| bracketed_ok := fun _ => false; nfkc_ok := fun _ => false |}.

Definition zone_of (_ : string) : result zoneinfo := Ok shanghai.
Definition digest : string := String.string_of_list_ascii (repeat "b"%char 64).
Definition source : string := "https://www.sse.com.cn/a".
Definition day0 : date := 700001.
Definition day1 : date := 700002.
Definition at_hour (h : Z) : datetime :=
  DateTime (day1 * us_per_day + h * us_per_hour) (Some (8 * us_per_hour)).

Definition run1 : WorkflowRun :=
  Run "r1" (at_hour 0) (at_hour 0) RUN_COMPLETED "live" 0 None None None ∅ JNull "i" "u".
Definition forecast_on (code : string) : Forecast :=
  ForecastRow ("f-" +:+ code) "r1" code "D1" day0 day1 "up" (lit 1 2) (lit 1 4) (lit 1 4)
    (lit 5 1000) (lit 2 3) false "m" "1" "w" "i".
Definition codes : list string := idx_code <$> INDEXES.
Definition db0 : OutcomeDb :=
  mkOutcome {[ "r1" := run1 ]} (list_to_map ((fun c => ("f-" +:+ c, forecast_on c)) <$> codes))
    (mkStore ∅ ∅) ∅.

Definition item_on (code : string) : MarketSnapshotItem :=
  Item code "index" day1 day0 (of_Z 100) (of_Z 102) (lit 2 100) source digest source digest source
    digest (at_hour 16) None None None None None None [] [] None 0.
Definition bundle : MarketSnapshotBundle :=
  MarketBundle "2.0.0" day1 D1 (at_hour 16)
    (Quality "passed" "exchange" "1" (at_hour 16) digest
       (list_to_map ((fun c => (c, true)) <$> REQUIRED_QUALITY_CHECKS)) [])
    (CalendarEvidence day1 "cn" true source digest (at_hour 15))
    (Publication "exchange" [("close", digest)]) (item_on <$> codes) digest.

Definition importing : result (MarketImportResult * OutcomeDb) :=
  import_market_snapshot (fun _ => digest) zone_of "u" db0 bundle (at_hour 17) shanghai (fun f => f).
Definition from_ok {A} (d : A) (r : result A) : A := match r with Ok a => a | Err _ => d end.
Definition nothing : MarketImportResult * OutcomeDb := (ImportResult "" 0 D1 [] 0 0 "", db0).
Definition imported : MarketImportResult * OutcomeDb := from_ok nothing importing.

Lemma imports :
  import_market_snapshot (fun _ => digest) zone_of "u" db0 bundle (at_hour 17) shanghai (fun f => f)
  = Ok (imported.1, imported.2).
Proof.
  fold importing. unfold imported, from_ok. enough (is_ok importing = true) by (by destruct importing as [[]|]). by_vm.
Qed.

Lemma import_idempotent_witness :
  import_market_snapshot (fun _ => digest) zone_of "u" imported.2 bundle (at_hour 18) shanghai (fun f => f)
  = Ok (ImportResult (mr_status imported.1) (mr_target_date imported.1) (mr_horizon imported.1)
          (mr_source_run_ids imported.1) 0
          (mr_evaluated_forecasts imported.1 + mr_existing_forecasts imported.1)
          (mr_snapshot_hash imported.1), imported.2).
Proof.
  refine (import_idempotent (fun _ => digest) zone_of "u" db0 bundle (at_hour 17) (at_hour 18) shanghai
            (fun f => f) (fun f => f) imported.1 imported.2 _ _ imports); [unfold stripped_source; by_vm|].
  unfold at_hour. cbn [aware is_aware astimezone instant dt_wall dt_offset default]. by vm_compute.
Defined.


Example five_evaluated : mr_evaluated_forecasts imported.1 = 5.
Proof. by_vm. Qed.

Definition blocked : option EvaluationBatch * OutcomeDb :=
  record_blocked_upstream "u" db0 day1 D1 "late" "" (at_hour 17) shanghai "b1".

Lemma blocked_recorded_once_witness :
  record_blocked_upstream "u" blocked.2 day1 D1 "again" "no data" (at_hour 18) shanghai "b2"
  = (blocked.1, blocked.2).
Proof.
  destruct (blocked_recorded_once "u" db0 day1 D1 "late" "" (at_hour 17) shanghai "b1" blocked.1 blocked.2)
    as [_ Hdue]; [by_vm|exact (surjective_pairing blocked)|].
  destruct Hdue as (batch & Hb & _ & _ & _ & _ & _ & Hagain).
  - intros Hnone. assert (empty (pending_live_forecasts "u" db0 day1 D1) = false) as He by by_vm.
    by rewrite Hnone in He.
  - rewrite Hb. exact (Hagain "again" "no data" (at_hour 18) "b2").
Defined.

(** A source identifier with surrounding spaces: [evaluate_forecast] stores it
    stripped, [_validate_existing_evaluation] compares it unstripped, so the
    import succeeds and importing the same bundle again is refused. *)
Definition padded : MarketSnapshotBundle :=
  MarketBundle "2.0.0" day1 D1 (at_hour 16)
    (Quality "passed" " exchange " "1" (at_hour 16) digest
       (list_to_map ((fun c => (c, true)) <$> REQUIRED_QUALITY_CHECKS)) [])
    (CalendarEvidence day1 "cn" true source digest (at_hour 15))
    (Publication " exchange " [("close", digest)]) (item_on <$> codes) digest.
Definition importing_padded (db : OutcomeDb) : result (MarketImportResult * OutcomeDb) :=
  import_market_snapshot (fun _ => digest) zone_of "u" db padded (at_hour 17) shanghai (fun f => f).

Lemma padded_source_conflicts :
  match importing_padded db0 with
  | Ok (_, db) => importing_padded db
                  = raise ValueError "existing immutable evaluation conflicts with snapshot: price source"
  | Err _ => False
  end.
Proof. by vm_compute. Qed.

End Witnesses.

End MarketOutcomeProps.
