(* ===== verification/Reflection.v ===== *)
(** * Reflection review gate and lesson policy
      ([backend/app/services/reflection_governance.py])

    Completed live reflections are reviewed by a human, once and for good.  The
    gate orders the current reflection heads and opens only on their approved
    leading prefix; the lesson policy turns counted evidence into blockers. *)
From S2P Require Import Prelude PyStr PyTime Float64 Json.
Import PyStr PyTime Float64 Json.
Open Scope string_scope.
Open Scope Z_scope.

Module Reflection.

Definition MIN_INDEPENDENT_EPISODES : Z := 5.
Definition MIN_REPLAY_TARGET_DATES : Z := 20.
Definition LESSON_REVALIDATION_EPISODES : Z := 20.
Definition LESSON_HALF_LIFE_SESSIONS : Z := 60.
Definition LESSON_POLICY_VERSION : string := "1.0.0".
Definition IMMEDIATE_EXTREME_TYPES : list string := ["data_coverage"; "risk_check"; "workflow"].

(** ** Rows *)

Record ReflectionRun := Reflection {
  rf_id : string;
  rf_source_run_id : string;
  rf_horizon : string;
  rf_target_date : date;
  rf_schema_version : string;
  rf_evaluation_set_hash : string;
  rf_status : string;
  rf_supersedes_id : option string;
  rf_created_at : datetime;
  rf_completed_at : option datetime;
  rf_output_hash : option string;
  rf_receipt_hash : option string }.

Record ReflectionHumanReview := HumanReview {
  hr_id : string;
  hr_reflection_run_id : string;
  hr_decision : string;
  hr_reviewer : string;
  hr_notes : string;
  hr_notes_hash : string;
  hr_reviewed_at : datetime }.

(** The columns of a workflow run the gate reads, with the completion time as
    stored. *)
Record SourceRun := Source {
  sr_mode : string;
  sr_status : string;
  sr_completed_at : option datetime;
  sr_market_universe_hash : string }.

(** Reviews are unique by reflection; a [ReflectionRun] has one source run. *)
Record Db := mkDb {
  db_runs : gmap string SourceRun;
  db_reflections : gmap string ReflectionRun;
  db_reviews : gmap string ReflectionHumanReview }.

(** A datetime with the zone it carries. *)
Record moment := Moment { m_at : datetime; m_zone : zoneinfo }.

(** [_sort_instant] *)
Definition sort_instant (value : datetime) (cutoff : option moment) : datetime :=
  let zone := match cutoff with Some c => m_zone c | None => UTC end in
  astimezone UTC (if is_aware value then value else attach zone value).

(** [_within_cutoff] *)
Definition within_cutoff (value : datetime) (cutoff : option moment) : bool :=
  match cutoff with
  | None => true
  | Some c => dt_leb (sort_instant value cutoff) (m_at c)
  end.

(** ** Human review *)

(** SHA-256 of a text in UTF-8. *)
Class TextHash := { text_hash : string -> string }.

Section Review.
Context `{TextHash}.

(** The guards of [record_reflection_human_review]; they return the reviewer. *)
Definition check_review (db : Db) (reflection_id decision reviewer notes : string)
    (reviewed_at : moment) : result string :=
  raise_when (negb (bool_decide (decision ∈ ["approved"; "rejected"]))) ValueError
    "review decision must be approved or rejected" ;;
  raise_when (negb (is_aware (m_at reviewed_at))) ValueError
    "reviewed_at must be timezone-aware" ;;
  let reviewer := py_strip reviewer in
  raise_when (negb (truthy reviewer) || (120 <? py_len reviewer)) ValueError
    "reviewer must contain 1-120 characters" ;;
  raise_when (20000 <? py_len notes) ValueError "review notes are too long" ;;
  match db_reflections db !! reflection_id with
  | None => raise ValueError "reflection was not found"
  | Some reflection =>
      let live := match db_runs db !! rf_source_run_id reflection with
                  | Some run => (sr_mode run =? "live")%string
                  | None => false
                  end in
      raise_when (negb (rf_status reflection =? "completed")%string || negb live) ValueError
        "only completed live reflections may be human-reviewed" ;;
      raise_when (match rf_completed_at reflection with
                  | None => true
                  | Some completed =>
                      dt_ltb (m_at reviewed_at) (sort_instant completed (Some reviewed_at))
                  end) ValueError
        "reviewed_at cannot be earlier than reflection completion" ;;
      Ok reviewer
  end.

(** [record_reflection_human_review]: the reads see [db]; [new_id] is the
    [uuid4] of the call. *)
Definition record_reflection_human_review (new_id : string) (db : Db)
    (reflection_id decision reviewer notes : string) (reviewed_at : moment)
    : result (ReflectionHumanReview * Db) :=
  reviewer ← check_review db reflection_id decision reviewer notes reviewed_at;
  let notes_hash := text_hash notes in
  match db_reviews db !! reflection_id with
  | Some existing =>
      raise_when (negb ((hr_decision existing =? decision)%string
                        && (hr_reviewer existing =? reviewer)%string
                        && (hr_notes_hash existing =? notes_hash)%string)) ValueError
        "reflection already has a different immutable human review" ;;
      Ok (existing, db)
  | None =>
      let row := HumanReview new_id reflection_id decision reviewer notes notes_hash
                   (m_at reviewed_at) in
      Ok (row, mkDb (db_runs db) (db_reflections db) (<[reflection_id := row]> (db_reviews db)))
  end.

End Review.

(** ** The gate *)

(** One joined row: a reflection, the completion of its source run, and the
    review visible at the cutoff. *)
Record GateRow := Gate {
  g_reflection : ReflectionRun;
  g_completed_at : datetime;
  g_source_completed_at : datetime;
  g_review : option ReflectionHumanReview }.

Definition row_id (r : GateRow) : string := rf_id (g_reflection r).

Definition visible_review (db : Db) (cutoff : option moment) (id : string)
    : option ReflectionHumanReview :=
  rv ← db_reviews db !! id;
  if within_cutoff (hr_reviewed_at rv) cutoff then Some rv else None.

(** The [WHERE] clause on the source run. *)
Definition live_source (universe : option string) (run : SourceRun) : bool :=
  (sr_mode run =? "live")%string && (sr_status run =? "completed")%string
  && match universe with Some h => (sr_market_universe_hash run =? h)%string | None => true end.

(** The join, the filter and the loop body for one reflection. *)
Definition gate_row (db : Db) (cutoff : option moment) (universe : option string)
    (rf : ReflectionRun) : option GateRow :=
  run ← db_runs db !! rf_source_run_id rf;
  if (rf_status rf =? "completed")%string && live_source universe run then
    completed ← rf_completed_at rf;
    source_completed ← sr_completed_at run;
    if within_cutoff completed cutoff && within_cutoff source_completed cutoff
       && negb (match cutoff with
                | Some c => date_of (m_at c) <? rf_target_date rf
                | None => false
                end)
    then Some (Gate rf completed source_completed (visible_review db cutoff (rf_id rf)))
    else None
  else None.

Definition gate_rows (db : Db) (cutoff : option moment) (universe : option string)
    : list GateRow :=
  omap (gate_row db cutoff universe) (snd <$> map_to_list (db_reflections db)).

(** The sort key of the heads. *)
Definition head_key (cutoff : option moment) (r : GateRow) : Z * (string * (Z * string)) :=
  let rf := g_reflection r in
  (rf_target_date rf,
   (rf_horizon rf, (instant (sort_instant (rf_created_at rf) cutoff), rf_id rf))).

Definition head_key_le : relation (Z * (string * (Z * string))) :=
  lex_le Z.le (lex_le String.le (lex_le Z.le String.le)).

Definition head_le (cutoff : option moment) (a b : GateRow) : Prop :=
  head_key_le (head_key cutoff a) (head_key cutoff b).

#[global] Instance head_le_dec cutoff a b : Decision (head_le cutoff a b).
Proof. unfold head_le, head_key_le. apply _. Defined.

(** The rows no visible completed row supersedes, in gate order. *)
Definition current_heads (cutoff : option moment) (rows : list GateRow) : list GateRow :=
  let superseded_ids : gset string :=
    list_to_set (omap (fun r => rf_supersedes_id (g_reflection r)) rows) in
  merge_sort (head_le cutoff) (filter (fun r => row_id r ∉ superseded_ids) rows).

Definition lineage := (string * string * Z * string)%type.

Definition lineage_key (r : GateRow) : lineage :=
  let rf := g_reflection r in
  (rf_source_run_id rf, rf_horizon rf, rf_target_date rf, rf_evaluation_set_hash rf).

(** [current_by_lineage.setdefault(key, []).append(row)] *)
Definition add_to_lineage (m : gmap lineage (list GateRow)) (r : GateRow)
    : gmap lineage (list GateRow) :=
  <[lineage_key r := (default [] (m !! lineage_key r) ++ [r])%list]> m.

Definition lineage_conflict_ids (current : list GateRow) : list string :=
  let by_lineage := foldl add_to_lineage ∅ current in
  merge_sort String.le
    (concat ((fun heads => if bool_decide (1 < length heads)%nat then row_id <$> heads else [])
               <$> (snd <$> map_to_list by_lineage))).

Definition is_approved (r : GateRow) : bool :=
  match g_review r with
  | Some rv => (hr_decision rv =? "approved")%string
  | None => false
  end.

Definition approved_current (conflicts : list string) (current : list GateRow) : gset string :=
  match conflicts with
  | [] => list_to_set (row_id <$> filter (fun r => is_approved r = true) current)
  | _ => ∅
  end.

(** The [for ... break] loop. *)
Fixpoint leading (approved : gset string) (ids : list string) : list string :=
  match ids with
  | [] => []
  | id :: ids' => if decide (id ∈ approved) then id :: leading approved ids' else []
  end.

Definition opt_json (o : option string) : json :=
  match o with Some s => JStr s | None => JNull end.

Definition evidence_row (cutoff : option moment) (r : GateRow) : json :=
  let rf := g_reflection r in
  let at_utc d := JStr (isoformat (sort_instant d cutoff)) in
  let review {A} (f : ReflectionHumanReview -> A) := f <$> g_review r in
  JObj (list_to_map
    [("reflection_id", JStr (rf_id rf));
     ("target_date", JStr (iso_date (rf_target_date rf)));
     ("horizon", JStr (rf_horizon rf));
     ("created_at", at_utc (rf_created_at rf));
     ("completed_at", at_utc (g_completed_at r));
     ("supersedes_id", opt_json (rf_supersedes_id rf));
     ("schema_version", JStr (rf_schema_version rf));
     ("source_run_id", JStr (rf_source_run_id rf));
     ("evaluation_set_hash", JStr (rf_evaluation_set_hash rf));
     ("output_hash", opt_json (rf_output_hash rf));
     ("receipt_hash", opt_json (rf_receipt_hash rf));
     ("source_run_completed_at", at_utc (g_source_completed_at r));
     ("review_id", opt_json (review hr_id));
     ("review_decision", opt_json (review hr_decision));
     ("reviewer", opt_json (review hr_reviewer));
     ("reviewed_at", match g_review r with Some rv => at_utc (hr_reviewed_at rv) | None => JNull end);
     ("review_notes_hash", opt_json (review hr_notes_hash))]).

Record ReflectionReviewGateState := GateState {
  current_reflection_ids : list string;
  approved_current_ids : list string;
  approved_prefix_ids : list string;
  conflict_ids : list string;
  completed_target_dates : list date;
  evidence_hash : string }.

Definition sorted_dates (dates : list date) : list date :=
  merge_sort Z.le (elements (list_to_set dates : gset Z)).

Section GateState.
Context `{CanonicalHash}.

Definition gate_state_of (cutoff : option moment) (rows : list GateRow)
    : ReflectionReviewGateState :=
  let current := current_heads cutoff rows in
  let conflicts := lineage_conflict_ids current in
  let approved := approved_current conflicts current in
  GateState (row_id <$> current)
    (filter (fun id => id ∈ approved) (row_id <$> current))
    (leading approved (row_id <$> current)) conflicts
    (sorted_dates ((fun r => rf_target_date (g_reflection r)) <$> current))
    (canonical_hash (JObj (list_to_map
       [("current_heads", JArr (evidence_row cutoff <$> current));
        ("lineage_conflict_ids", JArr (JStr <$> conflicts))]))).

(** [reflection_review_gate_state] *)
Definition reflection_review_gate_state (db : Db) (cutoff : option moment)
    (universe : option string) : result ReflectionReviewGateState :=
  raise_when (match cutoff with Some c => negb (is_aware (m_at c)) | None => false end)
    ValueError "reflection review gate cutoff must be timezone-aware" ;;
  Ok (gate_state_of cutoff (gate_rows db cutoff universe)).

(** [approved_reflection_review_count] *)
Definition approved_reflection_review_count (db : Db) (cutoff : option moment)
    (universe : option string) : result Z :=
  g ← reflection_review_gate_state db cutoff universe;
  Ok (Z.of_nat (length (approved_prefix_ids g))).

End GateState.

(** The target date of a completed reflection on a completed live run. *)
Definition live_target_date (db : Db) (universe : string) (rf : ReflectionRun) : option Z :=
  run ← db_runs db !! rf_source_run_id rf;
  if (rf_status rf =? "completed")%string && live_source (Some universe) run
  then Some (rf_target_date rf) else None.

Definition live_target_dates (db : Db) (universe : string) : list Z :=
  omap (live_target_date db universe) (snd <$> map_to_list (db_reflections db)).

(** [completed_live_target_date_count]; the universe is the default one. *)
Definition completed_live_target_date_count (db : Db) (default_universe : string)
    (include_target_date : option date) : Z :=
  let dates : gset Z := list_to_set (live_target_dates db default_universe) in
  Z.of_nat (size (match include_target_date with Some d => dates ∪ {[ d ]} | None => dates end)).

(** ** Lesson policy *)

Record LessonPolicyAssessment := Assessment {
  la_evidence_threshold_met : bool;
  la_wiki_review_ready : bool;
  la_automatic_promotion_allowed : bool;
  la_blockers : list string;
  la_immediate_extreme_checklist : bool }.

Record LessonEvidence := mkEvidence {
  le_independent_episode_count : Z;
  le_replay_target_dates : Z;
  le_average_brier_improvement : option float;
  le_calibration_improvement : option float;
  le_important_subgroups_non_degrading : option bool;
  le_completed_shadow_target_dates : Z;
  le_required_shadow_target_dates : Z }.

(** [value is None or value <= 0] *)
Definition not_positive (o : option float) : bool :=
  match o with Some x => fleb x f0 | None => true end.

Definition blocker (b : bool) (name : string) : list string := if b then [name] else [].

(** [assess_lesson_policy] *)
Definition assess_lesson_policy (proposal_type overall_severity : string) (e : LessonEvidence)
    : LessonPolicyAssessment :=
  let is_extreme := bool_decide (overall_severity ∈ ["extreme"; "systemic_extreme_down"]) in
  let immediate := is_extreme && bool_decide (proposal_type ∈ IMMEDIATE_EXTREME_TYPES) in
  let blockers :=
    (blocker (le_completed_shadow_target_dates e <? le_required_shadow_target_dates e)
       "shadow_target_dates_below_minimum"
     ++ (if immediate then []
         else blocker (le_independent_episode_count e <? MIN_INDEPENDENT_EPISODES)
                "independent_episodes_below_5"
              ++ blocker (le_replay_target_dates e <? MIN_REPLAY_TARGET_DATES)
                   "replay_target_dates_below_20"
              ++ blocker (not_positive (le_average_brier_improvement e))
                   "average_brier_not_improved"
              ++ blocker (not_positive (le_calibration_improvement e))
                   "calibration_not_improved"
              ++ blocker (negb (bool_decide (le_important_subgroups_non_degrading e = Some true)))
                   "important_subgroup_regression_not_cleared"))%list in
  let evidence_blockers :=
    filter (fun b => b <> "shadow_target_dates_below_minimum") blockers in
  Assessment (bool_decide (evidence_blockers = [])) (bool_decide (blockers = [])) false
    blockers immediate.

(** [LessonPolicyAssessment.as_dict] *)
Definition assessment_dict (a : LessonPolicyAssessment) : jobject :=
  list_to_map
    [("policy_version", JStr LESSON_POLICY_VERSION);
     ("evidence_threshold_met", JBool (la_evidence_threshold_met a));
     ("wiki_review_ready", JBool (la_wiki_review_ready a));
     ("automatic_promotion_allowed", JBool (la_automatic_promotion_allowed a));
     ("blockers", JArr (JStr <$> la_blockers a));
     ("immediate_extreme_checklist", JBool (la_immediate_extreme_checklist a));
     ("requirements", JObj (list_to_map
        [("independent_episode_count", JInt MIN_INDEPENDENT_EPISODES);
         ("replay_target_dates", JInt MIN_REPLAY_TARGET_DATES);
         ("average_brier_improvement", JStr "positive");
         ("calibration_improvement", JStr "positive");
         ("important_subgroups_non_degrading", JBool true);
         ("human_wiki_review", JBool true)]))].

End Reflection.
