(* ===== verification/ReflectionProps.v ===== *)
(** * Correctness of the reflection review gate and the lesson policy *)
From Stdlib Require Import Floats.SpecFloat.
From S2P Require Import Prelude PyStr PyTime Float64 Json Reflection.
Import PyStr PyTime Float64 Json Reflection.
Open Scope string_scope.
Open Scope Z_scope.

Module ReflectionProps.

(** The maps are keyed by the identifiers in their rows. *)
Definition keyed (db : Db) : Prop :=
  map_Forall (fun k rf => rf_id rf = k) (db_reflections db)
  /\ map_Forall (fun k rv => hr_reflection_run_id rv = k) (db_reviews db).

(** ** Reviews do not move heads *)

(** Attach a review to the row of one reflection. *)
Definition refresh (id : string) (rv : ReflectionHumanReview) (r : GateRow) : GateRow :=
  if decide (row_id r = id)
  then Gate (g_reflection r) (g_completed_at r) (g_source_completed_at r) (Some rv) else r.

Lemma refresh_reflection id rv r : g_reflection (refresh id rv r) = g_reflection r.
Proof. unfold refresh. by destruct (decide _). Qed.

Lemma row_id_refresh id rv r : row_id (refresh id rv r) = row_id r.
Proof. unfold row_id. by rewrite refresh_reflection. Qed.

Lemma row_ids_refresh id rv (rows : list GateRow) : row_id <$> (refresh id rv <$> rows) = row_id <$> rows.
Proof. rewrite <- list_fmap_compose. apply list_fmap_ext. intros ? r _. apply row_id_refresh. Qed.

Lemma head_le_refresh cutoff id rv a b :
  head_le cutoff (refresh id rv a) (refresh id rv b) <-> head_le cutoff a b.
Proof. unfold head_le, head_key. by rewrite !refresh_reflection. Qed.

Lemma lineage_key_refresh id rv r : lineage_key (refresh id rv r) = lineage_key r.
Proof. unfold lineage_key. by rewrite refresh_reflection. Qed.

Lemma current_heads_refresh cutoff id rv (rows : list GateRow) :
  current_heads cutoff (refresh id rv <$> rows) = refresh id rv <$> current_heads cutoff rows.
Proof.
  unfold current_heads. rewrite <- (merge_sort_map _ _ (head_le_refresh cutoff id rv)). f_equal.
  replace (omap (fun r => rf_supersedes_id (g_reflection r)) (refresh id rv <$> rows))
    with (omap (fun r => rf_supersedes_id (g_reflection r)) rows).
  - apply filter_map. intros r. by rewrite row_id_refresh.
  - induction rows as [|r rows IH]; cbn; [done|]. rewrite refresh_reflection, IH. done.
Qed.

Lemma by_lineage_refresh id rv (l : list GateRow) m :
  foldl add_to_lineage (fmap (M:=list) (refresh id rv) <$> m) (refresh id rv <$> l)
  = fmap (M:=list) (refresh id rv) <$> foldl add_to_lineage m l.
Proof.
  revert m; induction l as [|r l IH]; intros m; cbn; [done|]. rewrite <- IH. f_equal.
  unfold add_to_lineage. rewrite lineage_key_refresh, fmap_insert, lookup_fmap, fmap_app. cbn.
  by destruct (m !! lineage_key r).
Qed.

Lemma lineage_conflict_ids_refresh id rv (l : list GateRow) :
  lineage_conflict_ids (refresh id rv <$> l) = lineage_conflict_ids l.
Proof.
  unfold lineage_conflict_ids. f_equal. f_equal.
  pose proof (by_lineage_refresh id rv l ∅) as E. rewrite fmap_empty in E. rewrite E.
  rewrite map_to_list_fmap. generalize (map_to_list (foldl add_to_lineage ∅ l)) as k.
  induction k as [|[key heads] k IH]; cbn; [done|]. rewrite IH. f_equal.
  rewrite length_fmap. by destruct (bool_decide _); rewrite ?row_ids_refresh.
Qed.

(** A reflection enters the gate when it and its live source run were completed,
    its target date reached, by the cutoff. *)
Definition visible (db : Db) (cutoff : option moment) (universe : option string)
    (rf : ReflectionRun) (run : SourceRun) (completed source_completed : datetime) : Prop :=
  db_runs db !! rf_source_run_id rf = Some run
  /\ rf_status rf = "completed" /\ live_source universe run = true
  /\ rf_completed_at rf = Some completed /\ sr_completed_at run = Some source_completed
  /\ within_cutoff completed cutoff = true /\ within_cutoff source_completed cutoff = true
  /\ (forall c, cutoff = Some c -> rf_target_date rf <= date_of (m_at c)).

Lemma gate_row_Some db cutoff universe rf r :
  gate_row db cutoff universe rf = Some r <->
  exists run completed source_completed,
    visible db cutoff universe rf run completed source_completed
    /\ r = Gate rf completed source_completed (visible_review db cutoff (rf_id rf)).
Proof.
  unfold gate_row, visible. split.
  - intros Hr. destruct (db_runs db !! _) as [run|]; [|done]. cbn in Hr.
    destruct (_ && live_source _ _) eqn:Hs; [|done].
    destruct (rf_completed_at rf) as [c|]; [|done]. cbn in Hr.
    destruct (sr_completed_at run) as [sc|] eqn:Esc; [|done]. cbn in Hr.
    destruct (_ && negb _) eqn:Hw; [|done]. injection Hr as <-.
    exists run, c, sc. bool_prop. split; [|done].
    repeat (split; [done|]). intros m ->. by apply Z.ltb_ge.
  - intros (run & c & sc & (-> & -> & Hl & -> & Hsc & Hc & Hs & Ht) & ->). cbn.
    rewrite Hl. cbn. rewrite Hsc. cbn. rewrite Hc, Hs. cbn.
    destruct cutoff as [m|]; cbn; [|done]. specialize (Ht m eq_refl).
    apply Z.ltb_ge in Ht as ->. done.
Qed.

(** ** The leading prefix *)

Lemma leading_split approved ids :
  exists blocked, ids = (leading approved ids ++ blocked)%list
    /\ Forall (fun id => id ∈ approved) (leading approved ids)
    /\ match blocked with [] => True | id :: _ => id ∉ approved end.
Proof.
  induction ids as [|id ids (blocked & E & Hall & Hb)]; cbn; [by exists []|].
  destruct (decide (id ∈ approved)) as [H|H].
  - exists blocked. split; [cbn; by rewrite <- E|]. split; [by constructor|done].
  - exists (id :: ids). by split; [|split; [constructor|]].
Qed.

Lemma leading_mono approved approved' ids :
  approved ⊆ approved' -> leading approved ids `prefix_of` leading approved' ids.
Proof.
  intros Hsub. induction ids as [|id ids IH]; cbn; [done|].
  destruct (decide (id ∈ approved)) as [H|H]; [|apply prefix_nil].
  rewrite decide_True by auto. by apply prefix_cons.
Qed.

Lemma leading_elem approved ids id : id ∈ leading approved ids -> id ∈ approved.
Proof.
  destruct (leading_split approved ids) as (? & _ & Hall & _). rewrite Forall_forall in Hall. auto.
Qed.

(** Sets that agree before and at the first unapproved element have the same
    leading prefix. *)
Lemma leading_agree approved approved' ids blocked :
  ids = (leading approved ids ++ blocked)%list ->
  (forall id, id ∈ approved -> id ∈ approved') ->
  match blocked with [] => True | id :: _ => id ∉ approved' end ->
  leading approved' ids = leading approved ids.
Proof.
  intros E Hsub Hb. revert blocked E Hb. induction ids as [|id ids IH]; cbn; [done|].
  intros blocked. destruct (decide (id ∈ approved)) as [H|H]; cbn.
  - intros [= E] Hb. rewrite decide_True by auto. f_equal. by eapply IH.
  - intros <- Hb. by rewrite decide_False.
Qed.

(** ** Recording a review *)

Section Record.
Context `{TextHash} `{CanonicalHash} (new_id : string).

Local Abbreviation record_review := (record_reflection_human_review new_id).
Local Abbreviation gate := reflection_review_gate_state.

Definition put_review (db : Db) (id : string) (rv : ReflectionHumanReview) : Db :=
  mkDb (db_runs db) (db_reflections db) (<[id := rv]> (db_reviews db)).

(** A successful call returns the stored review of the reflection; the database
    is unchanged or has exactly that review more. *)
Lemma record_review_Ok db id decision reviewer notes at_ rv db' :
  record_review db id decision reviewer notes at_ = Ok (rv, db') ->
  hr_decision rv = decision /\ hr_reviewer rv = py_strip reviewer
  /\ hr_notes_hash rv = text_hash notes /\ db_reviews db' !! id = Some rv
  /\ ((db' = db /\ db_reviews db !! id = Some rv)
      \/ (db' = put_review db id rv /\ db_reviews db !! id = None
          /\ hr_notes rv = notes /\ hr_reviewed_at rv = m_at at_)).
Proof.
  unfold record_reflection_human_review, check_review. intros Hrun.
  apply bind_Ok in Hrun as (who & Hwho & Hrun).
  assert (who = py_strip reviewer) as ->.
  { inv_ok Hwho. destruct (db_reflections db !! id); [|done]. inv_ok Hwho. congruence. }
  destruct (db_reviews db !! id) as [old|] eqn:Hold.
  - inv_ok Hrun. injection Hrun as <- <-. bool_prop. subst. auto 10.
  - injection Hrun as <- <-. unfold put_review; cbn. rewrite lookup_insert_eq. auto 10.
Qed.

Lemma check_review_Ok db id decision reviewer notes at_ who :
  check_review db id decision reviewer notes at_ = Ok who ->
  (decision = "approved" \/ decision = "rejected") /\ who = py_strip reviewer
  /\ exists rf run completed, db_reflections db !! id = Some rf
       /\ db_runs db !! rf_source_run_id rf = Some run /\ sr_mode run = "live"
       /\ rf_status rf = "completed" /\ rf_completed_at rf = Some completed
       /\ instant (sort_instant completed (Some at_)) <= instant (m_at at_).
Proof.
  unfold check_review. intros Hk. inv_ok Hk. destruct (db_reflections db !! id) as [rf|]; [|done].
  inv_ok Hk. injection Hk as <-. bool_prop.
  destruct (db_runs db !! rf_source_run_id rf) as [run|] eqn:Hrun; [|done].
  destruct (rf_completed_at rf) as [c|] eqn:Hc; [|done]. bool_prop.
  split; [set_solver|]. split; [done|]. exists rf, run, c. repeat (split; [done|]).
  by apply Z.ltb_ge.
Qed.

Lemma visible_review_put db cutoff id rv id' :
  visible_review (put_review db id rv) cutoff id'
  = if decide (id' = id)
    then (if within_cutoff (hr_reviewed_at rv) cutoff then Some rv else None)
    else visible_review db cutoff id'.
Proof.
  unfold visible_review, put_review; cbn. destruct (decide (id' = id)) as [->|Hne].
  - by rewrite lookup_insert_eq.
  - by rewrite lookup_insert_ne.
Qed.

(** What a new review does to the rows of the gate. *)
Lemma gate_row_put db cutoff universe id rv rf :
  db_reviews db !! id = None ->
  gate_row (put_review db id rv) cutoff universe rf
  = (if within_cutoff (hr_reviewed_at rv) cutoff then refresh id rv else fun r => r)
      <$> gate_row db cutoff universe rf.
Proof.
  intros Hnone. unfold gate_row. change (db_runs (put_review db id rv)) with (db_runs db).
  destruct (db_runs db !! _) as [run|]; cbn; [|done]. destruct (_ && _); cbn; [|done].
  destruct (rf_completed_at rf) as [c|]; cbn; [|done].
  destruct (sr_completed_at run) as [sc|]; cbn; [|done]. destruct (_ && _ && _); cbn; [|done].
  rewrite visible_review_put. unfold refresh, row_id; cbn.
  destruct (decide (rf_id rf = id)) as [<-|Hne]; cycle 1.
  { destruct (within_cutoff _ _); cbn; [by rewrite decide_False by done|done]. }
  unfold visible_review. rewrite Hnone. cbn.
  destruct (within_cutoff _ _); cbn; [by rewrite decide_True by done|done].
Qed.

Lemma gate_rows_put db cutoff universe id rv :
  db_reviews db !! id = None ->
  gate_rows (put_review db id rv) cutoff universe
  = (if within_cutoff (hr_reviewed_at rv) cutoff then refresh id rv else fun r => r)
      <$> gate_rows db cutoff universe.
Proof.
  intros Hnone. unfold gate_rows, put_review at 2; cbn.
  rewrite list_fmap_omap. apply list_omap_ext. apply Forall_Forall2_diag, Forall_forall.
  intros rf _. by rewrite gate_row_put.
Qed.

Lemma gate_rows_review db cutoff universe r :
  r ∈ gate_rows db cutoff universe -> g_review r = visible_review db cutoff (row_id r).
Proof.
  unfold gate_rows. intros (rf & _ & Hrf)%list_elem_of_omap.
  by apply gate_row_Some in Hrf as (? & ? & ? & _ & ->).
Qed.

Lemma current_heads_elem_iff cutoff rows r :
  r ∈ current_heads cutoff rows <->
  r ∈ rows /\ ~ exists r', r' ∈ rows /\ rf_supersedes_id (g_reflection r') = Some (row_id r).
Proof.
  unfold current_heads. rewrite merge_sort_Permutation, list_elem_of_filter, elem_of_list_to_set.
  rewrite list_elem_of_omap. tauto.
Qed.

Lemma current_heads_elem cutoff rows r : r ∈ current_heads cutoff rows -> r ∈ rows.
Proof. by intros [? _]%current_heads_elem_iff. Qed.

Lemma elem_of_approved conflicts current id :
  id ∈ approved_current conflicts current <->
  conflicts = [] /\ exists r, r ∈ current /\ row_id r = id /\ is_approved r = true.
Proof.
  unfold approved_current. destruct conflicts as [|c l]; [|set_solver].
  rewrite elem_of_list_to_set, list_elem_of_fmap. setoid_rewrite list_elem_of_filter. naive_solver.
Qed.

(** The approvals before and after a new review. *)
Lemma approved_put db cutoff universe id rv conflicts id' :
  db_reviews db !! id = None ->
  let current := current_heads cutoff (gate_rows db cutoff universe) in
  id' ∈ approved_current conflicts (refresh id rv <$> current) <->
  id' ∈ approved_current conflicts current
  \/ (id' = id /\ conflicts = [] /\ hr_decision rv = "approved" /\ id ∈ row_id <$> current).
Proof.
  intros Hnone current. rewrite !elem_of_approved, list_elem_of_fmap.
  setoid_rewrite list_elem_of_fmap.
  assert (Hno : forall r, r ∈ current -> row_id r = id -> is_approved r = false).
  { intros r Hr <-. unfold is_approved. apply current_heads_elem, gate_rows_review in Hr as ->.
    unfold visible_review. by rewrite Hnone. }
  assert (Hyes : forall r, row_id r = id -> is_approved (refresh id rv r) = true <->
                           hr_decision rv = "approved").
  { intros r Hr. unfold refresh. rewrite decide_True by done. unfold is_approved; cbn.
    apply String.eqb_eq. }
  assert (Hne : forall r, row_id r <> id -> refresh id rv r = r).
  { intros r Hr. unfold refresh. by rewrite decide_False. }
  split.
  - intros (Hc & ? & (r & -> & Hr) & <- & Ha). rewrite row_id_refresh.
    destruct (decide (row_id r = id)) as [E|E].
    + right. rewrite Hyes in Ha by done. eauto 10.
    + left. rewrite Hne in Ha by done. eauto 10.
  - intros [(Hc & r & Hr & <- & Ha)|(-> & Hc & Hd & r & Hid & Hr)]; (split; [done|]).
    + assert (row_id r <> id) by (intros E; rewrite Hno in Ha; done).
      exists r. split; [|done]. exists r. by rewrite Hne.
    + exists (refresh id rv r). rewrite row_id_refresh. split; [eauto|]. split; [done|]. by apply Hyes.
Qed.

Lemma leading_prefix approved ids pre rest :
  ids = (pre ++ rest)%list -> Forall (fun id => id ∈ approved) pre ->
  pre `prefix_of` leading approved ids.
Proof.
  intros ->. induction 1 as [|id pre Hid _ IH]; cbn; [apply prefix_nil|].
  rewrite decide_True by done. by apply prefix_cons.
Qed.

(** A review opens the gate only at its front.  Recording one never
    removes an approved reflection from the leading prefix; it leaves the
    prefix as it was unless the reviewed reflection is the first one blocked;
    and approving that one (within the cutoff, no lineage conflict) extends
    it. *)
Theorem review_opens_front db id decision reviewer notes at_ rv db' cutoff universe g :
  record_review db id decision reviewer notes at_ = Ok (rv, db') ->
  gate db cutoff universe = Ok g ->
  exists g' blocked,
    gate db' cutoff universe = Ok g'
    /\ current_reflection_ids g' = current_reflection_ids g
    /\ conflict_ids g' = conflict_ids g
    /\ current_reflection_ids g = (approved_prefix_ids g ++ blocked)%list
    /\ approved_prefix_ids g `prefix_of` approved_prefix_ids g'
    /\ (head blocked <> Some id -> approved_prefix_ids g' = approved_prefix_ids g)
    /\ (head blocked = Some id -> decision = "approved" ->
        within_cutoff (hr_reviewed_at rv) cutoff = true -> conflict_ids g = [] ->
        (approved_prefix_ids g ++ [id])%list `prefix_of` approved_prefix_ids g').
Proof.
  intros Hrun Hg. apply record_review_Ok in Hrun as (<- & _ & _ & Hin & Hcase).
  unfold reflection_review_gate_state in *. apply raise_when_bind_Ok in Hg as [-> [= <-]]. cbn.
  pose (current := current_heads cutoff (gate_rows db cutoff universe)).
  pose (conflicts := lineage_conflict_ids current).
  destruct (leading_split (approved_current conflicts current) (row_id <$> current))
    as (blocked & Esplit & Hall & Hstop).
  eexists _, blocked. split; [done|].
  destruct Hcase as [[-> Hold]|(-> & Hnone & _)].
  - repeat (split; [done|]).
    intros Hhead Hd Hw Hc. destruct blocked as [|b blocked]; [done|]. injection Hhead as ->.
    destruct Hstop. apply elem_of_approved. split; [done|].
    assert (id ∈ row_id <$> current) as (r & -> & Hr)%list_elem_of_fmap
      by (rewrite Esplit; set_solver).
    exists r. split; [done|]. split; [done|]. unfold is_approved.
    rewrite (gate_rows_review db cutoff universe r) by by eapply current_heads_elem.
    unfold visible_review. rewrite Hold. cbn. rewrite Hw. by apply String.eqb_eq.
  - cbn. rewrite gate_rows_put by done. destruct (within_cutoff (hr_reviewed_at rv) cutoff) eqn:Hw.
    2: { rewrite list_fmap_id. repeat (split; [done|]). by intros. }
    rewrite current_heads_refresh, lineage_conflict_ids_refresh, row_ids_refresh.
    fold current conflicts. split; [done|]. split; [done|]. split; [exact Esplit|].
    assert (Hput := fun x => approved_put db cutoff universe id rv conflicts x Hnone).
    cbn zeta in Hput. fold current in Hput.
    revert Hput. generalize (approved_current conflicts (refresh id rv <$> current)) as approved'.
    intros approved' Hput. split; [|split].
    + apply leading_mono. intros x Hx. apply Hput. by left.
    + intros Hhead. eapply leading_agree; [exact Esplit|intros x Hx; apply Hput; by left|].
      destruct blocked as [|b blocked]; [done|]. rewrite Hput.
      intros [Hb|[-> _]]; [done|]. by destruct Hhead.
    + intros Hhead Hd _ Hc. destruct blocked as [|b blocked]; [done|]. injection Hhead as ->.
      rewrite cons_middle, (assoc_L app) in Esplit. eapply leading_prefix; [exact Esplit|].
      apply Forall_app. split.
      * eapply Forall_impl; [exact Hall|]. intros x Hx. apply Hput. by left.
      * apply Forall_singleton, Hput. right. repeat (split; [done|]). rewrite Esplit. set_solver.
Qed.

End Record.

(** ** Lineage conflicts *)

Lemma add_to_lineage_lookup l : forall m k,
  foldl add_to_lineage m l !! k
  = match filter (fun r => lineage_key r = k) l with
    | [] => m !! k
    | rows => Some (default [] (m !! k) ++ rows)%list
    end.
Proof.
  induction l as [|r l IH]; intros m k; cbn [foldl]; [done|]. rewrite IH, filter_cons.
  unfold add_to_lineage. destruct (decide (lineage_key r = k)) as [<-|Hk].
  - rewrite lookup_insert_eq. cbn. destruct (filter _ l); cbn; [done|].
    by rewrite <- (assoc_L app).
  - by rewrite lookup_insert_ne.
Qed.

Lemma NoDup_keys {A B} `{EqDecision B} (f : A -> B) (l : list A) :
  NoDup (f <$> l) <-> forall k, (length (filter (fun x => f x = k) l) <= 1)%nat.
Proof.
  induction l as [|x l IH].
  { split; [by intros _ k; cbn; lia|constructor]. }
  rewrite fmap_cons, NoDup_cons, IH. split.
  - intros [Hx Hl] k. rewrite filter_cons. destruct (decide (f x = k)) as [<-|]; [|done]. cbn.
    destruct (filter _ l) as [|y ys] eqn:E; cbn; [lia|]. destruct Hx.
    assert (y ∈ filter (fun y => f y = f x) l) as [Hy Hin]%list_elem_of_filter
      by (rewrite E; by left).
    apply list_elem_of_fmap. by exists y.
  - intros Hall. split.
    + intros (y & Hy & Hin)%list_elem_of_fmap. specialize (Hall (f x)).
      rewrite filter_cons, decide_True in Hall by done. cbn in Hall.
      assert (Hf : y ∈ filter (fun y => f y = f x) l) by by apply list_elem_of_filter.
      destruct (filter _ l); [by apply not_elem_of_nil in Hf|cbn in Hall; lia].
    + intros k. specialize (Hall k). rewrite filter_cons in Hall.
      destruct (decide _); cbn in Hall; lia.
Qed.

Lemma concat_nil_iff {A} (l : list (list A)) : concat l = [] <-> Forall (fun x => x = []) l.
Proof.
  induction l as [|x l IH]; cbn; [by split|]. rewrite Forall_cons, <- IH.
  destruct x; cbn; intuition congruence.
Qed.

Lemma no_conflict_iff current :
  lineage_conflict_ids current = [] <-> NoDup (lineage_key <$> current).
Proof.
  rewrite NoDup_keys. unfold lineage_conflict_ids. split.
  - intros Hnil k. set (ids := concat _) in Hnil.
    assert (Hids : ids = []).
    { apply Permutation_nil. rewrite <- (merge_sort_Permutation String.le ids). by rewrite Hnil. }
    apply concat_nil_iff in Hids. rewrite !Forall_fmap, Forall_forall in Hids.
    destruct (filter (fun r => lineage_key r = k) current) as [|r rs] eqn:E; cbn; [lia|].
    assert (Hk : foldl add_to_lineage ∅ current !! k = Some (r :: rs))
      by (rewrite add_to_lineage_lookup, E; by rewrite lookup_empty).
    apply elem_of_map_to_list in Hk. specialize (Hids _ Hk). cbn in Hids.
    case_bool_decide; [done|cbn in *; lia].
  - intros Hall.
    enough (forall l : list (list string), Forall (fun x => x = []) l ->
              merge_sort String.le (concat l) = []) as Henough.
    2: { intros l ->%concat_nil_iff. done. }
    apply Henough. rewrite !Forall_fmap. apply Forall_forall.
    intros [k heads] Hin%elem_of_map_to_list. cbn. specialize (Hall k).
    rewrite add_to_lineage_lookup, lookup_empty in Hin.
    destruct (filter (fun r => lineage_key r = k) current); [done|].
    injection Hin as <-. cbn in *. by rewrite bool_decide_false by lia.
Qed.

(** ** What the gate computes *)

Section Gate.
Context `{CanonicalHash}.

Local Abbreviation gate := reflection_review_gate_state.

Definition in_gate (db : Db) (cutoff : option moment) (universe : option string)
    (rf : ReflectionRun) : Prop :=
  db_reflections db !! rf_id rf = Some rf
  /\ exists run c sc, visible db cutoff universe rf run c sc.

Definition approved_by (db : Db) (cutoff : option moment) (id : string) : Prop :=
  exists rv, db_reviews db !! id = Some rv /\ hr_decision rv = "approved"
    /\ within_cutoff (hr_reviewed_at rv) cutoff = true.

Lemma gate_rows_elem db cutoff universe rf :
  keyed db ->
  (exists r, r ∈ gate_rows db cutoff universe /\ g_reflection r = rf)
  <-> in_gate db cutoff universe rf.
Proof.
  intros [Hk _]. unfold gate_rows, in_gate. setoid_rewrite list_elem_of_omap.
  setoid_rewrite gate_row_Some. setoid_rewrite list_elem_of_fmap. split.
  - intros (r & (rf' & ([k x] & -> & Hin%elem_of_map_to_list) & run & c & sc & Hv & ->) & <-).
    cbn in *. assert (rf_id x = k) as -> by apply (Hk _ _ Hin). eauto.
  - intros (Hin & run & c & sc & Hv). exists (Gate rf c sc (visible_review db cutoff (rf_id rf))). split; [|done].
    exists rf. split; [|by exists run, c, sc]. exists (rf_id rf, rf).
    by rewrite elem_of_map_to_list.
Qed.

Lemma is_approved_by db cutoff universe r :
  r ∈ gate_rows db cutoff universe -> is_approved r = true <-> approved_by db cutoff (row_id r).
Proof.
  intros Hr. unfold is_approved, approved_by. rewrite (gate_rows_review _ _ _ _ Hr).
  unfold visible_review. destruct (db_reviews db !! row_id r) as [rv|]; cbn; cycle 1.
  { split; [done|]. by intros (? & ? & _). }
  destruct (within_cutoff _ _) eqn:Hw; rewrite ?String.eqb_eq; split; try done.
  - intros Hd. by exists rv.
  - by intros (? & [= <-] & ? & _).
  - intros (? & [= <-] & _ & ?). congruence.
Qed.

Lemma heads_sorted cutoff rows :
  StronglySorted (fun a b => rf_target_date (g_reflection a) <= rf_target_date (g_reflection b))
    (current_heads cutoff rows).
Proof.
  assert (Hs : StronglySorted (head_le cutoff) (current_heads cutoff rows)).
  { apply StronglySorted_merge_sort; unfold head_le, head_key_le.
    - intros a b c. apply (transitivity (R := head_key_le)).
    - intros a b. apply (total head_key_le). }
  induction Hs as [|r l _ IH Hall]; constructor; [done|].
  eapply Forall_impl; [exact Hall|]. intros b [[? _]|[? _]]; cbn in *; lia.
Qed.

Lemma heads_elem db cutoff universe rf :
  keyed db ->
  rf ∈ g_reflection <$> current_heads cutoff (gate_rows db cutoff universe) <->
  in_gate db cutoff universe rf
  /\ forall rf', in_gate db cutoff universe rf' -> rf_supersedes_id rf' <> Some (rf_id rf).
Proof.
  intros Hk. rewrite list_elem_of_fmap. setoid_rewrite current_heads_elem_iff.
  rewrite <- (gate_rows_elem db cutoff universe rf Hk).
  setoid_rewrite <- (fun rf' => gate_rows_elem db cutoff universe rf' Hk). split.
  - intros (r & -> & Hr & Hno). split; [eauto|]. intros rf' (r' & Hr' & <-) Hsup.
    apply Hno. by exists r'.
  - intros ((r & Hr & <-) & Hno). exists r. split; [done|]. split; [done|].
    intros (r' & Hr' & Hsup). by apply (Hno (g_reflection r')); [exists r'|].
Qed.

(** C31 What the gate computes.  Its heads are exactly the completed live
    reflections that no such reflection supersedes, ordered by target date; a
    conflict is reported exactly when two of them share a lineage, and then
    nothing is approved; the approved prefix is the longest leading run of
    approved heads: everything in it has an approval, and the first head
    behind it has none unless there is a conflict. *)
Theorem gate_spec db cutoff universe g :
  keyed db -> gate db cutoff universe = Ok g ->
  exists heads blocked,
    current_reflection_ids g = (fun r => rf_id (g_reflection r)) <$> heads
    /\ (forall rf, rf ∈ g_reflection <$> heads <->
          in_gate db cutoff universe rf
          /\ forall rf', in_gate db cutoff universe rf' -> rf_supersedes_id rf' <> Some (rf_id rf))
    /\ StronglySorted (fun a b => rf_target_date (g_reflection a) <= rf_target_date (g_reflection b)) heads
    /\ (conflict_ids g = [] <-> NoDup (lineage_key <$> heads))
    /\ (conflict_ids g <> [] -> approved_prefix_ids g = [])
    /\ current_reflection_ids g = (approved_prefix_ids g ++ blocked)%list
    /\ (forall id, id ∈ approved_prefix_ids g -> approved_by db cutoff id)
    /\ (forall id, head blocked = Some id -> conflict_ids g <> [] \/ ~ approved_by db cutoff id).
Proof.
  intros Hk Hg. unfold reflection_review_gate_state in Hg.
  apply raise_when_bind_Ok in Hg as [_ [= <-]]. cbn.
  set (current := current_heads cutoff (gate_rows db cutoff universe)).
  set (conflicts := lineage_conflict_ids current).
  destruct (leading_split (approved_current conflicts current) (row_id <$> current))
    as (blocked & Esplit & _ & Hstop).
  exists current, blocked. split; [done|]. split; [|split; [|split; [|split; [|split; [|split]]]]].
  - intros rf. by apply heads_elem.
  - apply heads_sorted.
  - apply no_conflict_iff.
  - unfold approved_current. destruct conflicts; [done|]. intros _. by destruct (row_id <$> current).
  - exact Esplit.
  - intros id Hid%leading_elem%elem_of_approved. destruct Hid as (_ & r & Hr & <- & Ha).
    by apply (is_approved_by db cutoff universe), Ha; eapply current_heads_elem.
  - intros id Hhead. destruct blocked as [|b blocked]; [done|]. injection Hhead as ->.
    destruct conflicts eqn:Ec; [right|by left]. intros Ha. destruct Hstop.
    apply elem_of_approved. split; [done|].
    assert (id ∈ row_id <$> current) as (r & -> & Hr)%list_elem_of_fmap
      by (rewrite Esplit; set_solver).
    exists r. split; [done|]. split; [done|].
    by apply (is_approved_by db cutoff universe); [eapply current_heads_elem|].
Qed.

(** *** The gate as of a cutoff *)

Lemma heads_perm cutoff rows1 rows2 :
  rows1 ≡ₚ rows2 -> NoDup (row_id <$> rows1) ->
  current_heads cutoff rows1 = current_heads cutoff rows2.
Proof.
  intros Hp Hnd. apply (StronglySorted_unique_strong (head_le cutoff)).
  - intros a b [Ha _]%current_heads_elem_iff [Hb _]%current_heads_elem_iff Hab Hba.
    rewrite <- Hp in Hb.
    assert (head_key cutoff a = head_key cutoff b) as Hkey by by apply (anti_symm head_key_le).
    apply list_elem_of_lookup in Ha as [i Hi], Hb as [j Hj].
    assert (i = j) as <-; [|congruence]. apply (NoDup_lookup _ i j (row_id a) Hnd).
    + by rewrite list_lookup_fmap, Hi.
    + rewrite list_lookup_fmap, Hj. cbn. unfold row_id. by injection Hkey as _ _ _ ->.
  - apply StronglySorted_merge_sort; unfold head_le, head_key_le;
      [intros ???; apply (transitivity (R := head_key_le))|intros ??; apply (total head_key_le)].
  - apply StronglySorted_merge_sort; unfold head_le, head_key_le;
      [intros ???; apply (transitivity (R := head_key_le))|intros ??; apply (total head_key_le)].
  - unfold current_heads. rewrite !merge_sort_Permutation, Hp. apply reflexive_eq.
    apply list_filter_iff. intros r. by rewrite Hp.
Qed.

Lemma omap_row_ids (f : ReflectionRun -> option GateRow) (l : list ReflectionRun) :
  (forall rf r, f rf = Some r -> row_id r = rf_id rf) ->
  row_id <$> omap f l `sublist_of` rf_id <$> l.
Proof.
  intros Hf. induction l as [|rf l IH]; cbn; [done|]. destruct (f rf) as [r|] eqn:E; cbn.
  - rewrite (Hf _ _ E). by apply sublist_skip.
  - by apply sublist_cons.
Qed.

Lemma gate_rows_NoDup db cutoff universe :
  keyed db -> NoDup (row_id <$> gate_rows db cutoff universe).
Proof.
  intros [Hk _]. unfold gate_rows. eapply sublist_NoDup; [|apply omap_row_ids].
  2: { by intros rf r (? & ? & ? & _ & ->)%gate_row_Some. }
  replace (rf_id <$> (map_to_list (db_reflections db)).*2)
    with ((map_to_list (db_reflections db)).*1); [apply NoDup_fst_map_to_list|].
  rewrite <- list_fmap_compose. apply list_fmap_ext. intros i [k x] Hi. cbn.
  symmetry. apply (Hk k x). apply elem_of_map_to_list. by eapply list_elem_of_lookup_2.
Qed.

(** Entries a filter removes do not matter to a function that ignores them. *)
Lemma omap_map_filter {A B} (P : string * A -> Prop) `{forall x, Decision (P x)}
    (f : A -> option B) (m : gmap string A) :
  (forall k x, ~ P (k, x) -> f x = None) ->
  omap f (map_to_list m).*2 ≡ₚ omap f (map_to_list (filter P m)).*2.
Proof.
  intros Hf. induction m as [|k x m Hk IH] using map_ind; [done|].
  rewrite (map_to_list_insert m k x) by done. destruct (decide (P (k, x))) as [Hx|Hx].
  - rewrite map_filter_insert_True by done.
    rewrite map_to_list_insert by (apply map_lookup_filter_None; by left).
    cbn. destruct (f x); by rewrite IH.
  - rewrite map_filter_insert_False by done.
    rewrite delete_id by done. cbn. by rewrite (Hf _ _ Hx).
Qed.

(** The rows that were there at the cutoff. *)
Definition by_then (cutoff : option moment) (o : option datetime) : Prop :=
  match o with Some t => within_cutoff t cutoff = true | None => False end.

#[global] Instance by_then_dec cutoff o : Decision (by_then cutoff o).
Proof. destruct o; cbn; apply _. Defined.

Definition as_of (cutoff : option moment) (db : Db) : Db :=
  mkDb (filter (fun x => by_then cutoff (sr_completed_at x.2)) (db_runs db))
       (filter (fun x => by_then cutoff (rf_completed_at x.2)) (db_reflections db))
       (filter (fun x => by_then cutoff (Some (hr_reviewed_at x.2))) (db_reviews db)).

Lemma keyed_as_of cutoff db : keyed db -> keyed (as_of cutoff db).
Proof.
  intros [Hr Hv]. split; intros k x [Hx _]%map_lookup_filter_Some; [by apply Hr|by apply Hv].
Qed.

Lemma visible_review_as_of cutoff db id :
  visible_review (as_of cutoff db) cutoff id = visible_review db cutoff id.
Proof.
  unfold visible_review; cbn. destruct (db_reviews db !! id) as [rv|] eqn:Hrv; cbn.
  - destruct (within_cutoff (hr_reviewed_at rv) cutoff) eqn:Hw.
    + rewrite (proj2 (map_lookup_filter_Some _ _ id rv)) by done. cbn. by rewrite Hw.
    + rewrite (proj2 (map_lookup_filter_None _ _ id)); [done|]. right. intros rv'. cbn. congruence.
  - by rewrite (proj2 (map_lookup_filter_None _ _ id)) by by left.
Qed.

Lemma gate_row_as_of cutoff db universe rf :
  gate_row (as_of cutoff db) cutoff universe rf = gate_row db cutoff universe rf.
Proof.
  apply option_eq. intros r. rewrite !gate_row_Some. unfold visible.
  rewrite visible_review_as_of. cbn. setoid_rewrite map_lookup_filter_Some. cbn.
  split; intros (run & c & sc & Hv & ->); exists run, c, sc; (split; [|done]).
  - destruct Hv as ([? _] & ?). by split.
  - destruct Hv as (? & ? & ? & ? & Hsc & ? & Hw & ?). rewrite Hsc. by repeat split.
Qed.

Lemma gate_as_of cutoff db universe :
  keyed db -> gate (as_of cutoff db) cutoff universe = gate db cutoff universe.
Proof.
  intros Hk. unfold reflection_review_gate_state, gate_state_of.
  enough (current_heads cutoff (gate_rows (as_of cutoff db) cutoff universe)
          = current_heads cutoff (gate_rows db cutoff universe)) as -> by done.
  symmetry. apply heads_perm; [|by apply gate_rows_NoDup]. unfold gate_rows.
  rewrite (list_omap_ext (gate_row (as_of cutoff db) cutoff universe) (gate_row db cutoff universe)
             _ (map_to_list (db_reflections (as_of cutoff db))).*2)
    by (apply Forall_Forall2_diag, Forall_forall; intros; apply gate_row_as_of).
  apply omap_map_filter. intros k rf Hno. cbn in Hno. apply eq_None_not_Some. intros [r Hr].
  apply gate_row_Some in Hr as (run & c & sc & (_ & _ & _ & Hc & _ & Hw & _) & _).
  rewrite Hc in Hno. by destruct Hno.
Qed.

(** The gate at a cutoff sees nothing that came after it: two databases
    with the same rows up to the cutoff have the same gate state, evidence hash
    included, whatever was completed, superseded or reviewed later, and in
    whatever order the rows are read. *)
Theorem gate_no_lookahead cutoff db1 db2 universe :
  keyed db1 -> keyed db2 -> as_of cutoff db1 = as_of cutoff db2 ->
  gate db1 cutoff universe = gate db2 cutoff universe.
Proof.
  intros H1 H2 E. rewrite <- (gate_as_of cutoff db1), <- (gate_as_of cutoff db2) by done.
  by rewrite E.
Qed.

End Gate.

(** ** Reviews are immutable *)

(** A human review is recorded once and never changes: a successful call
    keeps every review already there and the reflections and runs untouched,
    the review it returns is the stored one and says what was submitted, was
    given no earlier than the completion of a completed live reflection when it
    is new; repeating the call returns the same review and changes nothing, and
    a different decision, reviewer or note is refused from then on. *)
Theorem review_immutable `{TextHash} new_id db id decision reviewer notes at_ rv db' :
  record_reflection_human_review new_id db id decision reviewer notes at_ = Ok (rv, db') ->
  db_reviews db ⊆ db_reviews db' /\ db_reflections db' = db_reflections db
  /\ db_runs db' = db_runs db /\ db_reviews db' !! id = Some rv
  /\ hr_decision rv = decision /\ hr_reviewer rv = py_strip reviewer
  /\ (decision = "approved" \/ decision = "rejected")
  /\ (exists rf run completed, db_reflections db !! id = Some rf
       /\ db_runs db !! rf_source_run_id rf = Some run /\ sr_mode run = "live"
       /\ rf_status rf = "completed" /\ rf_completed_at rf = Some completed
       /\ instant (sort_instant completed (Some at_)) <= instant (m_at at_))
  /\ (forall new_id2,
        record_reflection_human_review new_id2 db' id decision reviewer notes at_ = Ok (rv, db'))
  /\ (forall new_id2 decision2 reviewer2 notes2 at2 r,
        record_reflection_human_review new_id2 db' id decision2 reviewer2 notes2 at2 = Ok r ->
        decision2 = decision /\ py_strip reviewer2 = py_strip reviewer
        /\ text_hash notes2 = text_hash notes /\ r = (rv, db')).
Proof.
  intros Hrun. pose proof (record_review_Ok new_id _ _ _ _ _ _ _ _ Hrun)
    as (Hd & Hw & Hh & Hin & Hcase).
  assert (Hdb : db_reflections db' = db_reflections db /\ db_runs db' = db_runs db
                /\ db_reviews db ⊆ db_reviews db').
  { destruct Hcase as [[-> _]|(-> & Hnone & _)]; [done|]. repeat (split; [done|]).
    by apply insert_subseteq. }
  destruct Hdb as (Erf & Eruns & Hsub). repeat (split; [done|]).
  assert (Hguards := Hrun). unfold record_reflection_human_review in Hguards.
  apply bind_Ok in Hguards as (who & Hwho & _).
  assert (Hwho' : check_review db' id decision reviewer notes at_ = Ok who)
    by (unfold check_review in *; by rewrite Erf, Eruns).
  apply check_review_Ok in Hwho as (Hdec & -> & Hrf).
  split; [done|]. split; [done|]. split.
  - intros new_id2. unfold record_reflection_human_review. rewrite Hwho'. cbn. rewrite Hin.
    by rewrite Hd, Hw, Hh, !String.eqb_refl.
  - intros new_id2 d2 w2 n2 at2 [rv2 db2] Hrun2.
    apply record_review_Ok in Hrun2 as (<- & Hw2 & Hh2 & _ & [[-> Hin2]|(_ & Hnone & _)]);
      [|congruence].
    rewrite Hin in Hin2. injection Hin2 as <-. by rewrite <- Hw2, <- Hh2.
Qed.

(** ** The lesson policy *)

Definition ordinary_evidence (e : LessonEvidence) : Prop :=
  MIN_INDEPENDENT_EPISODES <= le_independent_episode_count e
  /\ MIN_REPLAY_TARGET_DATES <= le_replay_target_dates e
  /\ (exists x, le_average_brier_improvement e = Some x /\ fleb x f0 = false)
  /\ (exists x, le_calibration_improvement e = Some x /\ fleb x f0 = false)
  /\ le_important_subgroups_non_degrading e = Some true.

Definition ordinary_blockers (e : LessonEvidence) : list bool :=
  [le_independent_episode_count e <? MIN_INDEPENDENT_EPISODES;
   le_replay_target_dates e <? MIN_REPLAY_TARGET_DATES;
   not_positive (le_average_brier_improvement e); not_positive (le_calibration_improvement e);
   negb (bool_decide (le_important_subgroups_non_degrading e = Some true))].

Lemma not_positive_false o : not_positive o = false <-> exists x, o = Some x /\ fleb x f0 = false.
Proof. destruct o as [x|]; cbn; split; [by eauto|by intros (? & [= ->] & ?)|done|by intros (? & ? & ?)]. Qed.

Lemma ordinary_evidence_iff e : ordinary_evidence e <-> ordinary_blockers e = [false; false; false; false; false].
Proof.
  unfold ordinary_evidence, ordinary_blockers. rewrite <- !not_positive_false.
  transitivity ((le_independent_episode_count e <? MIN_INDEPENDENT_EPISODES) = false
    /\ (le_replay_target_dates e <? MIN_REPLAY_TARGET_DATES) = false
    /\ not_positive (le_average_brier_improvement e) = false
    /\ not_positive (le_calibration_improvement e) = false
    /\ negb (bool_decide (le_important_subgroups_non_degrading e = Some true)) = false).
  - by rewrite !Z.ltb_ge, negb_false_iff, bool_decide_eq_true.
  - split; [by intros (-> & -> & -> & -> & ->)|by intros [= -> -> -> -> ->]].
Qed.

(** The policy is the written thresholds: a lesson meets the evidence
    threshold exactly when it is an extreme-event checklist or has five
    episodes, twenty replay dates, positive Brier and calibration improvement
    and no degraded subgroup; it is ready for review exactly when the shadow
    run is long enough too, that is when no blocker is listed; and it is never
    promoted automatically. *)
Theorem assess_lesson_policy_spec proposal_type severity e :
  let a := assess_lesson_policy proposal_type severity e in
  (la_immediate_extreme_checklist a = true <->
     (severity = "extreme" \/ severity = "systemic_extreme_down")
     /\ proposal_type ∈ IMMEDIATE_EXTREME_TYPES)
  /\ (la_evidence_threshold_met a = true <->
       la_immediate_extreme_checklist a = true \/ ordinary_evidence e)
  /\ (la_wiki_review_ready a = true <->
       la_evidence_threshold_met a = true
       /\ le_required_shadow_target_dates e <= le_completed_shadow_target_dates e)
  /\ (la_wiki_review_ready a = true <-> la_blockers a = [])
  /\ la_automatic_promotion_allowed a = false.
Proof.
  cbn zeta. rewrite ordinary_evidence_iff.
  assert (Hshadow : le_required_shadow_target_dates e <= le_completed_shadow_target_dates e <->
    (le_completed_shadow_target_dates e <? le_required_shadow_target_dates e) = false)
    by (by rewrite Z.ltb_ge).
  rewrite Hshadow. unfold assess_lesson_policy. cbn [la_immediate_extreme_checklist].
  split; [rewrite andb_true_iff, !bool_decide_eq_true; set_solver|].
  generalize (bool_decide (severity ∈ ["extreme"; "systemic_extreme_down"])
              && bool_decide (proposal_type ∈ IMMEDIATE_EXTREME_TYPES)) as immediate.
  generalize (le_completed_shadow_target_dates e <? le_required_shadow_target_dates e) as b0.
  unfold ordinary_blockers. generalize (le_independent_episode_count e <? MIN_INDEPENDENT_EPISODES)
    (le_replay_target_dates e <? MIN_REPLAY_TARGET_DATES)
    (not_positive (le_average_brier_improvement e)) (not_positive (le_calibration_improvement e))
    (negb (bool_decide (le_important_subgroups_non_degrading e = Some true))).
  intros b1 b2 b3 b4 b5 b0 immediate.
  destruct immediate, b0, b1, b2, b3, b4, b5; vm_compute; intuition discriminate.
Qed.

(** ** A concrete gate

    Three reflections of July 2026: the first is approved, the second was
    superseded by the third, which is still unreviewed. *)
Module Witnesses.

#[local] Instance sample_text_hash : TextHash := {| text_hash := fun s => "sha256:" +:+ s |}.
#[local] Instance sample_hash : CanonicalHash := {| canonical_hash := fun _ => "digest" |}.

Definition at_day (d : Z) : datetime := DateTime (ymd2ord 2026 7 d * us_per_day) (Some 0).
Definition moment_at (d : Z) : moment := Moment (at_day d) UTC.

Definition sample_reflection (id : string) (day : Z) (supersedes : option string) (evaluations : string) :=
  Reflection id "run" "D1" (ymd2ord 2026 7 day) "1.0.0" evaluations "completed" supersedes
    (at_day day) (Some (at_day (day + 1))) None None.

Definition sample_review : ReflectionHumanReview :=
  HumanReview "review-1" "r1" "approved" "ada" "" "sha256:" (at_day 12).

Definition sample_db : Db :=
  mkDb {[ "run" := Source "live" "completed" (Some (at_day 5)) "universe" ]}
    (list_to_map [("r1", sample_reflection "r1" 10 None "e1");
                  ("r2", sample_reflection "r2" 11 None "e2");
                  ("r3", sample_reflection "r3" 11 (Some "r2") "e3")])
    {[ "r1" := sample_review ]}.

Definition sample_cutoff : option moment := Some (moment_at 20).
Definition sample_gate : ReflectionReviewGateState :=
  gate_state_of sample_cutoff (gate_rows sample_db sample_cutoff (Some "universe")).

Lemma sample_ids : current_reflection_ids sample_gate = ["r1"; "r3"].
Proof. by_vm. Qed.
Lemma sample_prefix : approved_prefix_ids sample_gate = ["r1"].
Proof. by_vm. Qed.
Lemma sample_conflicts : conflict_ids sample_gate = [].
Proof. by_vm. Qed.

Lemma keyed_sample : keyed sample_db.
Proof.
  assert (Hb : forallb (fun '(k, rf) => (rf_id rf =? k)%string) (map_to_list (db_reflections sample_db))
               && forallb (fun '(k, rv) => (hr_reflection_run_id rv =? k)%string)
                    (map_to_list (db_reviews sample_db)) = true) by by_vm.
  bool_prop. split; intros k x Hx%elem_of_map_to_list.
  - match goal with H : forallb _ (map_to_list (db_reflections _)) = true |- _ =>
      rewrite forallb_forall in H; apply list_elem_of_In in Hx; apply H in Hx end.
    by apply String.eqb_eq.
  - match goal with H : forallb _ (map_to_list (db_reviews _)) = true |- _ =>
      rewrite forallb_forall in H; apply list_elem_of_In in Hx; apply H in Hx end.
    by apply String.eqb_eq.
Qed.

Lemma gate_spec_witness :
  exists heads blocked,
    current_reflection_ids sample_gate = (fun r => rf_id (g_reflection r)) <$> heads
    /\ current_reflection_ids sample_gate = (approved_prefix_ids sample_gate ++ blocked)%list
    /\ head blocked = Some "r3".
Proof.
  destruct (gate_spec sample_db sample_cutoff (Some "universe") sample_gate keyed_sample eq_refl)
    as (heads & blocked & Hids & _ & _ & _ & _ & Hsplit & _).
  exists heads, blocked. split; [exact Hids|]. split; [exact Hsplit|].
  rewrite sample_ids, sample_prefix in Hsplit. by injection Hsplit as <-.
Defined.

Definition approve_r3 := record_reflection_human_review "review-2" sample_db "r3" "approved" " ada "
  "looks right" (moment_at 13).

Definition r3_review : ReflectionHumanReview :=
  HumanReview "review-2" "r3" "approved" "ada" "looks right" "sha256:looks right" (at_day 13).

Lemma approve_r3_value : approve_r3 = Ok (r3_review, put_review sample_db "r3" r3_review).
Proof. by_vm. Qed.

Lemma review_opens_front_witness :
  exists g', reflection_review_gate_state (put_review sample_db "r3" r3_review) sample_cutoff
               (Some "universe") = Ok g'
    /\ ["r1"; "r3"] `prefix_of` approved_prefix_ids g'.
Proof.
  destruct (review_opens_front "review-2" sample_db "r3" "approved" " ada " "looks right"
              (moment_at 13) _ _ sample_cutoff (Some "universe") sample_gate approve_r3_value eq_refl)
    as (g' & blocked & Hg' & _ & _ & Hsplit & _ & _ & Hopen).
  exists g'. split; [exact Hg'|].
  rewrite sample_ids, sample_prefix in Hsplit. injection Hsplit as <-.
  rewrite sample_prefix in Hopen. apply Hopen; [done|done|by_vm|exact sample_conflicts].
Defined.

(** The approval of the third reflection comes after a cutoff of the 12th. *)
Lemma gate_no_lookahead_witness :
  let cutoff := Some (moment_at 12) in
  reflection_review_gate_state sample_db cutoff (Some "universe")
  = reflection_review_gate_state (put_review sample_db "r3" r3_review) cutoff (Some "universe").
Proof.
  apply gate_no_lookahead; [exact keyed_sample| |].
  - split; [apply keyed_sample|]. apply map_Forall_insert_2; [done|apply keyed_sample].
  - by_vm.
Defined.

Lemma review_immutable_witness :
  record_reflection_human_review "review-3" (put_review sample_db "r3" r3_review) "r3" "approved"
    " ada " "looks right" (moment_at 13) = Ok (r3_review, put_review sample_db "r3" r3_review).
Proof.
  destruct (review_immutable "review-2" sample_db "r3" "approved" " ada " "looks right"
              (moment_at 13) _ _ approve_r3_value) as (_ & _ & _ & _ & _ & _ & _ & _ & Hagain & _).
  exact (Hagain "review-3").
Defined.

End Witnesses.

End ReflectionProps.
