(* ===== verification/Believability.v ===== *)
(** * Believability evidence ([backend/app/services/believability.py])

    A run freezes the historical evidence about its Agents as it was at the data
    cutoff: scored opinions with their latest correction, and human-approved
    reflection findings.  The snapshot is sealed; no weight is computed or
    applied. *)
From S2P Require Import Prelude PyStr PyTime Float64 Domain Json Models Contracts Reflection.
From S2P Require Import MarketOutcome.
Import PyStr PyTime Float64 Domain Json Models Contracts Reflection.
Open Scope string_scope.
Open Scope Z_scope.

Module Believability.

Definition BELIEVABILITY_SCHEMA_ID : string := "vericouncil.believability-shadow/v1".
Definition BELIEVABILITY_POLICY_VERSION : string := "1.0.0-shadow".

Record BelievabilityAgentScope := Scope {
  bs_agent_id : string;
  bs_agent_version : string;
  bs_model_name : string;
  bs_role_domain : string;
  bs_stage : string;
  bs_current_stage_weight_metadata : float }.

(** ** The tables *)

(** The columns the two queries read. *)
Record OpinionRow := OpinionR {
  ao_id : string;
  ao_run_id : string;
  ao_agent_id : string;
  ao_agent_version : string;
  ao_model_name : string;
  ao_index_code : string;
  ao_horizon : string;
  ao_target_date : date;
  ao_direction : string }.

Record OpinionEvaluationRow := OpinionEvaluationR {
  oe_id : string;
  oe_batch_id : string;
  oe_opinion_id : string;
  oe_result_id : string;
  oe_sign_correct : option bool;
  oe_material_direction_correct : option bool;
  oe_brier_score : option float;
  oe_included : bool;
  oe_evaluated_at : datetime }.

Record RunRow := RunR {
  ru_mode : string;
  ru_status : string;
  ru_as_of : datetime;
  ru_completed_at : option datetime;
  ru_market_universe_hash : string }.

Record FindingRow := FindingR {
  fi_id : string;
  fi_reflection_run_id : string;
  fi_scope_type : string;
  fi_subject_id : string;
  fi_index_code : option string;
  fi_horizon : string;
  fi_verdict : string;
  fi_primary_error_type : string;
  fi_availability_class : string;
  fi_causal_status : string;
  fi_evidence_ids : list string;
  fi_created_at : datetime }.

Record Db := mkBelDb {
  bd_opinions : gmap string OpinionRow;
  bd_evaluations : gmap string OpinionEvaluationRow;
  bd_batches : gmap string MarketOutcome.EvaluationBatch;
  bd_results : gmap string EvaluationResult;
  bd_runs : gmap string RunRow;
  bd_reflections : gmap string ReflectionRun;
  bd_reviews : gmap string ReflectionHumanReview;
  bd_findings : gmap string FindingRow }.

(** The tables of the review gate. *)
Definition source_of (r : RunRow) : SourceRun :=
  Source (ru_mode r) (ru_status r) (ru_completed_at r) (ru_market_universe_hash r).
Definition gate_db (db : Db) : Reflection.Db :=
  Reflection.mkDb (source_of <$> bd_runs db) (bd_reflections db) (bd_reviews db).

(** ** Times *)

(** [_instant]: the value in the zone of the cutoff; its comparisons are between
    wall clocks of that zone. *)
Definition local_instant (value : datetime) (cutoff : moment) : datetime := aware (m_zone cutoff) value.

(** [_at_or_before] *)
Definition at_or_before (value : option datetime) (cutoff : moment) : bool :=
  match value with
  | Some v => negb (wall_ltb (m_at cutoff) (local_instant v cutoff))
  | None => false
  end.

(** [a > b] of two aware datetimes. *)
Definition moment_gtb (a b : moment) : bool :=
  if (zone_name (m_zone a) =? zone_name (m_zone b))%string then wall_ltb (m_at b) (m_at a)
  else dt_ltb (m_at b) (m_at a).

Record Query := mkBelQuery {
  bq_cutoff : moment;
  bq_scopes : list BelievabilityAgentScope;
  bq_index_codes : list string;
  bq_horizons : list string;
  bq_market_universe_hash : string }.

(** [{scope.agent_id: scope for scope in agent_scopes}.get(agent_id)] *)
Definition scope_of (q : Query) (agent_id : string) : option BelievabilityAgentScope :=
  last (List.filter (fun s => (bs_agent_id s =? agent_id)%string) (bq_scopes q)).

Definition in_scope (q : Query) (o : OpinionRow) : bool :=
  match scope_of q (ao_agent_id o) with
  | Some s => (ao_agent_version o =? bs_agent_version s)%string
              && (ao_model_name o =? bs_model_name s)%string
  | None => false
  end.

Definition live_run (q : Query) (r : RunRow) : bool :=
  (ru_mode r =? "live")%string && (ru_status r =? "completed")%string
  && (ru_market_universe_hash r =? bq_market_universe_hash q)%string.

(** ** Performance evidence *)

(** One joined row. *)
Record PerformanceRow := PerformanceR {
  pr_opinion : OpinionRow;
  pr_evaluation : OpinionEvaluationRow;
  pr_batch : MarketOutcome.EvaluationBatch;
  pr_result : EvaluationResult;
  pr_run : RunRow }.

Definition join_performance (db : Db) (e : OpinionEvaluationRow) : option PerformanceRow :=
  o ← bd_opinions db !! oe_opinion_id e;
  b ← bd_batches db !! oe_batch_id e;
  r ← bd_results db !! oe_result_id e;
  run ← bd_runs db !! ao_run_id o;
  Some (PerformanceR o e b r run).

(** The [WHERE] clause. *)
Definition scored (q : Query) (r : PerformanceRow) : bool :=
  let o := pr_opinion r in
  bool_decide (ao_agent_id o ∈ bs_agent_id <$> bq_scopes q)
  && bool_decide (ao_index_code o ∈ bq_index_codes q)
  && bool_decide (ao_horizon o ∈ bq_horizons q)
  && bool_decide (ao_direction o ∈ ["up"; "down"])
  && (ao_target_date o <=? date_of (m_at (bq_cutoff q)))
  && oe_included (pr_evaluation r)
  && (MarketOutcome.eb_status (pr_batch r) =? "completed")%string
  && live_run q (pr_run r).

(** The guards of the loop. *)
Definition visible_by_cutoff (q : Query) (r : PerformanceRow) : bool :=
  let c := bq_cutoff q in
  in_scope q (pr_opinion r)
  && at_or_before (Some (oe_evaluated_at (pr_evaluation r))) c
  && at_or_before (Some (ev_evaluated_at (pr_result r))) c
  && at_or_before (MarketOutcome.eb_completed_at (pr_batch r)) c
  && at_or_before (Some (ru_as_of (pr_run r))) c
  && at_or_before (ru_completed_at (pr_run r)) c.

Definition priority : Type := Z * (Z * (string * (string * string))).

(** [_performance_priority] *)
Definition performance_priority (c : moment) (r : PerformanceRow) : priority :=
  (dt_wall (local_instant (oe_evaluated_at (pr_evaluation r)) c),
   (match MarketOutcome.eb_completed_at (pr_batch r) with
    | Some t => dt_wall (local_instant t c) | None => 0 end,
    (MarketOutcome.eb_evaluation_set_hash (pr_batch r),
     (MarketOutcome.eb_id (pr_batch r), oe_id (pr_evaluation r))))).

Definition priority_le : relation priority :=
  lex_le Z.le (lex_le Z.le (lex_le String.le (lex_le String.le String.le))).
#[global] Instance priority_le_dec : RelDecision priority_le.
Proof. unfold priority_le. apply _. Defined.

Definition opinion_id (r : PerformanceRow) : string := ao_id (pr_opinion r).

(** One turn of the loop over the visible rows. *)
Definition keep_latest (c : moment) (latest : gmap string PerformanceRow) (r : PerformanceRow)
    : gmap string PerformanceRow :=
  match latest !! opinion_id r with
  | Some existing =>
      if decide (priority_le (performance_priority c r) (performance_priority c existing))
      then latest else <[opinion_id r := r]> latest
  | None => <[opinion_id r := r]> latest
  end.

Definition performance_rows (db : Db) (q : Query) : list PerformanceRow :=
  List.filter (fun r => scored q r && visible_by_cutoff q r)
    (omap (join_performance db) (snd <$> map_to_list (bd_evaluations db))).

Definition latest_by_opinion (c : moment) (rows : list PerformanceRow) : gmap string PerformanceRow :=
  foldl (keep_latest c) ∅ rows.

(** The frozen evidence of one scored opinion. *)
Record PerformanceEvidence := mkPerformance {
  pe_agent_id : string;
  pe_index_code : string;
  pe_horizon : string;
  pe_opinion_id : string;
  pe_opinion_evaluation_id : string;
  pe_batch_id : string;
  pe_evaluation_set_hash : string;
  pe_observation_hash : string;
  pe_target_date : string;
  pe_brier_score : float;
  pe_sign_correct : option bool;
  pe_material_direction_correct : option bool;
  pe_evaluated_at : string;
  pe_result_evaluated_at : string;
  pe_batch_completed_at : string;
  pe_run_completed_at : string }.

Definition local_text (c : moment) (value : option datetime) : string :=
  match value with Some v => isoformat (local_instant v c) | None => "" end.

Definition performance_of (c : moment) (r : PerformanceRow) : result PerformanceEvidence :=
  let o := pr_opinion r in let e := pr_evaluation r in
  match oe_brier_score e with
  | None => raise TypeError "float() argument must be a string or a real number, not 'NoneType'"
  | Some brier =>
      Ok (mkPerformance (ao_agent_id o) (ao_index_code o) (ao_horizon o) (ao_id o) (oe_id e)
            (MarketOutcome.eb_id (pr_batch r)) (MarketOutcome.eb_evaluation_set_hash (pr_batch r))
            (ev_observation_hash (pr_result r)) (iso_date (ao_target_date o)) brier
            (oe_sign_correct e) (oe_material_direction_correct e)
            (local_text c (Some (oe_evaluated_at e))) (local_text c (Some (ev_evaluated_at (pr_result r))))
            (local_text c (MarketOutcome.eb_completed_at (pr_batch r)))
            (local_text c (ru_completed_at (pr_run r))))
  end.

Definition performance_key (e : PerformanceEvidence) : string * string * string :=
  (pe_agent_id e, pe_index_code e, pe_horizon e).

Definition performance_le (a b : PerformanceEvidence) : Prop :=
  lex_le String.le String.le (pe_target_date a, pe_opinion_id a) (pe_target_date b, pe_opinion_id b).
#[global] Instance performance_le_dec a b : Decision (performance_le a b).
Proof. unfold performance_le. apply _. Defined.

(** [_performance_evidence]: the evidence of every scope. *)
Definition performance_evidence (db : Db) (q : Query) : result (list PerformanceEvidence) :=
  mapM_result (performance_of (bq_cutoff q))
    (snd <$> map_to_list (latest_by_opinion (bq_cutoff q) (performance_rows db q))).

(** [grouped.get(key, [])]: one group, sorted. *)
Definition performance_for (all : list PerformanceEvidence) (key : string * string * string)
    : list PerformanceEvidence :=
  merge_sort performance_le (filter (fun e => performance_key e = key) all).

Definition distinct (l : list string) : Z := Z.of_nat (size (list_to_set l : gset string)).

(** ** Reasoning evidence *)

Record ReasoningRow := ReasoningR {
  rr_finding : FindingRow;
  rr_reflection : ReflectionRun;
  rr_review : ReflectionHumanReview;
  rr_run : RunRow;
  rr_opinion : OpinionRow }.

(** The opinions a finding is about. *)
Definition finding_opinion (rf : ReflectionRun) (f : FindingRow) (o : OpinionRow) : bool :=
  (ao_run_id o =? rf_source_run_id rf)%string && (ao_agent_id o =? fi_subject_id f)%string
  && bool_decide (fi_index_code f = Some (ao_index_code o)) && (ao_horizon o =? fi_horizon f)%string.

Definition join_reasoning (db : Db) (f : FindingRow) : list ReasoningRow :=
  default [] (
    rf ← bd_reflections db !! fi_reflection_run_id f;
    review ← bd_reviews db !! rf_id rf;
    run ← bd_runs db !! rf_source_run_id rf;
    Some (ReasoningR f rf review run
            <$> List.filter (finding_opinion rf f) (snd <$> map_to_list (bd_opinions db)))).

(** The [WHERE] clause. *)
Definition approved_finding (q : Query) (approved : list string) (r : ReasoningRow) : bool :=
  let f := rr_finding r in
  (fi_scope_type f =? "agent")%string
  && bool_decide (fi_subject_id f ∈ bs_agent_id <$> bq_scopes q)
  && bool_decide (default "" (fi_index_code f) ∈ bq_index_codes q)
  && bool_decide (fi_horizon f ∈ bq_horizons q)
  && bool_decide (rf_id (rr_reflection r) ∈ approved)
  && (hr_decision (rr_review r) =? "approved")%string
  && live_run q (rr_run r).

Definition reasoning_visible (q : Query) (r : ReasoningRow) : bool :=
  in_scope q (rr_opinion r) && at_or_before (Some (fi_created_at (rr_finding r))) (bq_cutoff q).

Record ReasoningEvidence := mkReasoning {
  re_agent_id : string;
  re_index_code : string;
  re_horizon : string;
  re_finding_id : string;
  re_reflection_run_id : string;
  re_target_date : string;
  re_verdict : string;
  re_primary_error_type : string;
  re_availability_class : string;
  re_causal_status : string;
  re_evidence_ids : list string;
  re_reflection_output_hash : option string;
  re_human_review_notes_hash : string }.

Definition reasoning_of (r : ReasoningRow) : ReasoningEvidence :=
  let f := rr_finding r in
  mkReasoning (fi_subject_id f) (default "" (fi_index_code f)) (fi_horizon f) (fi_id f)
    (fi_reflection_run_id f) (iso_date (rf_target_date (rr_reflection r))) (fi_verdict f)
    (fi_primary_error_type f) (fi_availability_class f) (fi_causal_status f)
    (merge_sort String.le (fi_evidence_ids f)) (rf_output_hash (rr_reflection r))
    (hr_notes_hash (rr_review r)).

(** The first visible row of each finding. *)
Definition keep_first (found : gmap string ReasoningEvidence) (r : ReasoningRow)
    : gmap string ReasoningEvidence :=
  match found !! fi_id (rr_finding r) with
  | Some _ => found
  | None => <[fi_id (rr_finding r) := reasoning_of r]> found
  end.

Definition reasoning_rows (db : Db) (q : Query) (approved : list string) : list ReasoningRow :=
  List.filter (fun r => approved_finding q approved r && reasoning_visible q r)
    ((snd <$> map_to_list (bd_findings db)) ≫= join_reasoning db).

Definition reasoning_key (e : ReasoningEvidence) : string * string * string :=
  (re_agent_id e, re_index_code e, re_horizon e).

Definition reasoning_le (a b : ReasoningEvidence) : Prop :=
  lex_le String.le (lex_le String.le String.le)
    (re_target_date a, (re_reflection_run_id a, re_finding_id a))
    (re_target_date b, (re_reflection_run_id b, re_finding_id b)).
#[global] Instance reasoning_le_dec a b : Decision (reasoning_le a b).
Proof. unfold reasoning_le. apply _. Defined.

Definition reasoning_for (all : list ReasoningEvidence) (key : string * string * string)
    : list ReasoningEvidence :=
  merge_sort reasoning_le (filter (fun e => reasoning_key e = key) all).

Section Snapshot.
Context `{PyRuntime} `{CanonicalHash}.

(** What [_reasoning_proxy_evidence] returns. *)
Record Reasoning := mkReasoningResult {
  rs_evidence : list ReasoningEvidence;
  rs_reflection_dates : list string;
  rs_approved_ids : list string;
  rs_gate_hash : string;
  rs_conflicts : list string }.

Definition no_reasoning : Reasoning := mkReasoningResult [] [] [] (canonical_hash (JArr [])) [].

(** [_reasoning_proxy_evidence] *)
Definition reasoning_proxy_evidence (db : Db) (q : Query) : result Reasoning :=
  if empty (bq_scopes q) then Ok no_reasoning
  else
    gate ← reflection_review_gate_state (gate_db db) (Some (bq_cutoff q)) (Some (bq_market_universe_hash q));
    let approved := approved_current_ids gate in
    let evidence :=
      if empty approved then []
      else snd <$> map_to_list (foldl keep_first ∅ (reasoning_rows db q approved)) in
    Ok (mkReasoningResult evidence (iso_date <$> completed_target_dates gate)
          (approved_prefix_ids gate) (evidence_hash gate) (conflict_ids gate)).

(** ** Profiles *)

Record BelievabilityDomainEvidence := Domain {
  bp_agent_id : string;
  bp_agent_version : string;
  bp_model_name : string;
  bp_role_domain : string;
  bp_stage : string;
  bp_index_code : string;
  bp_horizon : string;
  bp_evaluation_sample_size : Z;
  bp_independent_evaluation_target_dates : Z;
  bp_average_brier : option float;
  bp_sign_sample_size : Z;
  bp_sign_accuracy : option float;
  bp_material_sample_size : Z;
  bp_material_accuracy : option float;
  bp_performance_evidence_hash : string;
  bp_approved_reflection_count : Z;
  bp_independent_reasoning_target_dates : Z;
  bp_human_reviewed_right_reason_proxy_count : Z;
  bp_right_reason_verified_count : Z;
  bp_right_reason_supported_count : Z;
  bp_lucky_correct_count : Z;
  bp_wrong_count : Z;
  bp_reasoning_or_weighting_failure_count : Z;
  bp_unresolved_count : Z;
  bp_reasoning_proxy_evidence_hash : string;
  bp_evidence_status : string;
  bp_current_stage_weight_metadata : float;
  bp_applied_stage_multiplier : float }.

Definition opt_bool (o : option bool) : json := match o with Some b => JBool b | None => JNull end.
Definition opt_float (o : option float) : json := match o with Some x => JFloat x | None => JNull end.

Definition performance_json (e : PerformanceEvidence) : json :=
  JObj (list_to_map
    [("opinion_id", JStr (pe_opinion_id e)); ("opinion_evaluation_id", JStr (pe_opinion_evaluation_id e));
     ("batch_id", JStr (pe_batch_id e)); ("evaluation_set_hash", JStr (pe_evaluation_set_hash e));
     ("observation_hash", JStr (pe_observation_hash e)); ("target_date", JStr (pe_target_date e));
     ("brier_score", JFloat (pe_brier_score e)); ("sign_correct", opt_bool (pe_sign_correct e));
     ("material_direction_correct", opt_bool (pe_material_direction_correct e));
     ("evaluated_at", JStr (pe_evaluated_at e)); ("result_evaluated_at", JStr (pe_result_evaluated_at e));
     ("batch_completed_at", JStr (pe_batch_completed_at e));
     ("run_completed_at", JStr (pe_run_completed_at e))]).

Definition reasoning_json (e : ReasoningEvidence) : json :=
  JObj (list_to_map
    [("finding_id", JStr (re_finding_id e)); ("reflection_run_id", JStr (re_reflection_run_id e));
     ("target_date", JStr (re_target_date e)); ("verdict", JStr (re_verdict e));
     ("primary_error_type", JStr (re_primary_error_type e));
     ("availability_class", JStr (re_availability_class e));
     ("causal_status", JStr (re_causal_status e)); ("evidence_ids", JArr (JStr <$> re_evidence_ids e));
     ("reflection_output_hash", opt_json (re_reflection_output_hash e));
     ("human_review_notes_hash", JStr (re_human_review_notes_hash e))]).

Definition count {A} (p : A -> bool) (l : list A) : Z := Z.of_nat (length (List.filter p l)).

(** [sum(values) / len(values) if values else None] of booleans. *)
Definition share (values : list bool) : option float :=
  if empty values then None
  else Some (int_div (count id values) (Z.of_nat (length values))).

Definition right_reason (status : string) (e : ReasoningEvidence) : bool :=
  (re_verdict e =? "right_reason")%string && (re_causal_status e =? status)%string.

Definition evidence_status (mode phase : string) (dates reasoning_dates minimum_dates minimum_reviews : Z)
    : string :=
  if (mode =? "demo")%string then "demo_excluded"
  else if dates <? minimum_dates then "insufficient_history"
  else if reasoning_dates <? minimum_reviews then "insufficient_reasoning_proxy"
  else if (phase =? "governance_review_required")%string then "governance_review_required"
  else "shadow_observation".

(** The constraints of [BelievabilityDomainEvidence] its counts do not meet by
    construction. *)
Definition validate_profile (p : BelievabilityDomainEvidence) : result BelievabilityDomainEvidence :=
  field_check (bool_decide (bp_horizon p ∈ ["D1"; "D2"])) "horizon" ;;
  field_check (bool_decide (bp_role_domain p ∈ ["research"; "strategy"])) "role_domain" ;;
  field_check (bool_decide (bp_stage p ∈ ["research_to_strategy"; "strategy_to_cio"])) "stage" ;;
  field_check (match bp_average_brier p with Some x => fleb f0 x | None => true end) "average_brier" ;;
  field_check (is_sha256_hex (bp_performance_evidence_hash p)) "performance_evidence_hash" ;;
  field_check (is_sha256_hex (bp_reasoning_proxy_evidence_hash p)) "reasoning_proxy_evidence_hash" ;;
  field_check (fleb f0 (bp_current_stage_weight_metadata p)) "current_stage_weight_metadata" ;;
  Ok p.

(** [_build_profile] *)
Definition build_profile (mode phase : string) (scope : BelievabilityAgentScope)
    (index_code horizon : string) (performance : list PerformanceEvidence)
    (reasoning : list ReasoningEvidence) (minimum_dates minimum_reviews : Z)
    : result BelievabilityDomainEvidence :=
  let briers := pe_brier_score <$> performance in
  let signs := omap pe_sign_correct performance in
  let materials := omap pe_material_direction_correct performance in
  let verified := count (right_reason "verified") reasoning in
  let supported := count (right_reason "supported") reasoning in
  let dates := distinct (pe_target_date <$> performance) in
  let reasoning_dates := distinct (re_target_date <$> reasoning) in
  validate_profile
    (Domain (bs_agent_id scope) (bs_agent_version scope) (bs_model_name scope) (bs_role_domain scope)
       (bs_stage scope) index_code horizon
       (Z.of_nat (length performance)) dates
       (if empty briers then None
        else Some (fdiv (py_sum briers) (of_Z (Z.of_nat (length briers)))))
       (Z.of_nat (length signs)) (share signs) (Z.of_nat (length materials)) (share materials)
       (canonical_hash (JArr (performance_json <$> performance)))
       (distinct (re_reflection_run_id <$> reasoning)) reasoning_dates (verified + supported) verified
       supported
       (count (fun e => (re_verdict e =? "lucky_correct")%string) reasoning)
       (count (fun e => (re_verdict e =? "wrong")%string) reasoning)
       (count (fun e => (re_primary_error_type e =? "reasoning_or_weighting_failure")%string) reasoning)
       (count (fun e => (re_verdict e =? "unresolved")%string || (re_causal_status e =? "unresolved")%string)
          reasoning)
       (canonical_hash (JArr (reasoning_json <$> reasoning)))
       (evidence_status mode phase dates reasoning_dates minimum_dates minimum_reviews)
       (bs_current_stage_weight_metadata scope) f1).

(** ** The snapshot *)

Record BelievabilityGate := mkGate {
  bg_evaluation_dates : Z;
  bg_reflection_dates : Z;
  bg_approved_prefix : Z;
  bg_required_dates : Z;
  bg_required_reviews : Z;
  bg_gate_hash : string;
  bg_blockers : list string }.

(** The fields that are constants of the schema are left out of the record. *)
Record BelievabilitySnapshot := mkSnapshot {
  bn_mode : string;
  bn_as_of : datetime;
  bn_data_cutoff : datetime;
  bn_phase : string;
  bn_gate : BelievabilityGate;
  bn_profiles : list BelievabilityDomainEvidence;
  bn_content_hash : string }.

Definition LIMITATIONS : list string :=
  ["no_dynamic_weight_is_computed_or_applied";
   "approved_reflection_findings_are_an_outcome_attribution_proxy_not_a_full_reasoning_rubric";
   "codex_file_model_name_is_a_handoff_identity_not_verified_base_model_attestation";
   "human_reviewed_at_is_a_declared_record_time_not_an_external_trusted_timestamp";
   "risk_critic_and_unavailable_quant_are_outside_directional_believability";
   "activation_requires_a_separate_versioned_replay_and_human_policy_event"].

Definition profile_json (p : BelievabilityDomainEvidence) : json :=
  JObj (list_to_map
    [("agent_id", JStr (bp_agent_id p)); ("agent_version", JStr (bp_agent_version p));
     ("model_name", JStr (bp_model_name p)); ("role_domain", JStr (bp_role_domain p));
     ("stage", JStr (bp_stage p)); ("index_code", JStr (bp_index_code p)); ("horizon", JStr (bp_horizon p));
     ("evaluation_sample_size", JInt (bp_evaluation_sample_size p));
     ("independent_evaluation_target_dates", JInt (bp_independent_evaluation_target_dates p));
     ("average_brier", opt_float (bp_average_brier p));
     ("sign_sample_size", JInt (bp_sign_sample_size p)); ("sign_accuracy", opt_float (bp_sign_accuracy p));
     ("material_sample_size", JInt (bp_material_sample_size p));
     ("material_accuracy", opt_float (bp_material_accuracy p));
     ("performance_evidence_hash", JStr (bp_performance_evidence_hash p));
     ("approved_reflection_count", JInt (bp_approved_reflection_count p));
     ("independent_reasoning_target_dates", JInt (bp_independent_reasoning_target_dates p));
     ("human_reviewed_right_reason_proxy_count", JInt (bp_human_reviewed_right_reason_proxy_count p));
     ("right_reason_verified_count", JInt (bp_right_reason_verified_count p));
     ("right_reason_supported_count", JInt (bp_right_reason_supported_count p));
     ("lucky_correct_count", JInt (bp_lucky_correct_count p)); ("wrong_count", JInt (bp_wrong_count p));
     ("reasoning_or_weighting_failure_count", JInt (bp_reasoning_or_weighting_failure_count p));
     ("unresolved_count", JInt (bp_unresolved_count p));
     ("reasoning_proxy_evidence_hash", JStr (bp_reasoning_proxy_evidence_hash p));
     ("evidence_status", JStr (bp_evidence_status p));
     ("current_stage_weight_metadata", JFloat (bp_current_stage_weight_metadata p));
     ("proposed_stage_multiplier", JNull);
     ("applied_stage_multiplier", JFloat (bp_applied_stage_multiplier p))]).

Definition gate_json (g : BelievabilityGate) : json :=
  JObj (list_to_map
    [("completed_live_evaluation_target_dates", JInt (bg_evaluation_dates g));
     ("completed_live_reflection_target_dates", JInt (bg_reflection_dates g));
     ("approved_initial_reflection_prefix", JInt (bg_approved_prefix g));
     ("required_live_target_dates", JInt (bg_required_dates g));
     ("required_approved_reflections", JInt (bg_required_reviews g));
     ("reflection_gate_evidence_hash", JStr (bg_gate_hash g));
     ("blockers", JArr (JStr <$> bg_blockers g))]).

(** The payload the seal covers, with the given texts of the two times. *)
Definition unsigned_json (as_of data_cutoff : string) (s : BelievabilitySnapshot) : json :=
  JObj (list_to_map
    [("schema_id", JStr BELIEVABILITY_SCHEMA_ID); ("policy_version", JStr BELIEVABILITY_POLICY_VERSION);
     ("mode", JStr (bn_mode s)); ("as_of", JStr as_of); ("data_cutoff", JStr data_cutoff);
     ("phase", JStr (bn_phase s)); ("applied_to_decision", JBool false);
     ("activation_supported", JBool false);
     ("reasoning_axis", JStr "human_reviewed_right_reason_proxy");
     ("gate", gate_json (bn_gate s)); ("profiles", JArr (profile_json <$> bn_profiles s));
     ("limitations", JArr (JStr <$> LIMITATIONS))]).

Definition with_hash (s : BelievabilitySnapshot) (hash : string) : BelievabilitySnapshot :=
  mkSnapshot (bn_mode s) (bn_as_of s) (bn_data_cutoff s) (bn_phase s) (bn_gate s) (bn_profiles s) hash.

Definition scope_le (a b : BelievabilityAgentScope) : Prop := String.le (bs_agent_id a) (bs_agent_id b).
#[global] Instance scope_le_dec a b : Decision (scope_le a b).
Proof. unfold scope_le. apply _. Defined.

(** The two sources of evidence; none in the demo. *)
Definition gather (db : Db) (mode : string) (q : Query)
    : result (list PerformanceEvidence * Reasoning) :=
  if (mode =? "live")%string then
    performance ← (if empty (bq_scopes q) then Ok [] else performance_evidence db q);
    reasoning ← reasoning_proxy_evidence db q;
    Ok (performance, reasoning)
  else Ok ([], no_reasoning).

(** The loops over scopes, index codes and horizons. *)
Definition exact_keys (q : Query) : list (string * string * string) :=
  scope ← bq_scopes q; code ← bq_index_codes q;
  (fun h => (bs_agent_id scope, code, h)) <$> bq_horizons q.

Definition performance_dates (all : list PerformanceEvidence) (key : string * string * string) : Z :=
  distinct (pe_target_date <$> performance_for all key).
Definition reasoning_dates (all : list ReasoningEvidence) (key : string * string * string) : Z :=
  distinct (re_target_date <$> reasoning_for all key).

Definition blockers_of (q : Query) (performance : list PerformanceEvidence) (r : Reasoning)
    (minimum_dates minimum_reviews : Z) : list string :=
  ((if distinct (rs_reflection_dates r) <? minimum_dates
    then ["live_reflection_target_dates_below_minimum"] else [])
   ++ (if distinct (rs_approved_ids r) <? minimum_reviews
       then ["approved_initial_reflection_prefix_below_minimum"] else [])
   ++ (if empty (rs_conflicts r) then [] else ["reflection_lineage_conflict"])
   ++ (if existsb (fun key => performance_dates performance key <? minimum_dates) (exact_keys q)
       then ["exact_identity_history_below_minimum"] else [])
   ++ (if existsb (fun key => reasoning_dates (rs_evidence r) key <? minimum_reviews) (exact_keys q)
       then ["exact_identity_reasoning_proxy_below_minimum"] else []))%list.

Definition phase_of (mode : string) (blockers : list string) : string :=
  if (mode =? "demo")%string then "demo_excluded"
  else if empty blockers then "governance_review_required" else "shadow".

(** The profiles of every scope, index code and horizon, in sorted order. *)
Definition profile_keys (q : Query) : list (BelievabilityAgentScope * (string * string)) :=
  scope ← merge_sort scope_le (bq_scopes q); code ← merge_sort String.le (bq_index_codes q);
  (fun h => (scope, (code, h))) <$> merge_sort String.le (bq_horizons q).

Definition check_query (q : Query) (as_of : moment) (minimum_dates minimum_reviews : Z) : result unit :=
  raise_when (negb (is_aware (m_at as_of))) ValueError "as_of must be timezone-aware" ;;
  raise_when (negb (is_aware (m_at (bq_cutoff q)))) ValueError "data_cutoff must be timezone-aware" ;;
  raise_when (moment_gtb (bq_cutoff q) as_of) ValueError
    "believability data_cutoff must not be later than as_of" ;;
  raise_when (minimum_dates <? 20) ValueError
    "believability shadow period cannot be shorter than 20 dates" ;;
  raise_when (minimum_reviews <? 10) ValueError
    "believability review gate cannot be lower than 10 reflections" ;;
  raise_when (negb (size (list_to_set (bs_agent_id <$> bq_scopes q) : gset string)
                    =? length (bq_scopes q))%nat) ValueError
    "believability agent scopes must have unique agent IDs".

(** [build_believability_snapshot] *)
Definition build_believability_snapshot (db : Db) (mode : string) (q : Query) (as_of : moment)
    (minimum_dates minimum_reviews : Z) : result BelievabilitySnapshot :=
  check_query q as_of minimum_dates minimum_reviews ;;
  '(performance, reasoning) ← gather db mode q;
  let found := blockers_of q performance reasoning minimum_dates minimum_reviews in
  let phase := phase_of mode found in
  let blockers := if (mode =? "demo")%string then ["demo_never_enters_formal_believability"] else found in
  profiles ← mapM_result (fun '(scope, (code, h)) =>
    let key := (bs_agent_id scope, code, h) in
    build_profile mode phase scope code h (performance_for performance key)
      (reasoning_for (rs_evidence reasoning) key) minimum_dates minimum_reviews) (profile_keys q);
  field_check (bool_decide (mode ∈ ["demo"; "live"])) "mode" ;;
  field_check (is_sha256_hex (rs_gate_hash reasoning)) "reflection_gate_evidence_hash" ;;
  let unsealed := mkSnapshot mode (m_at as_of) (m_at (bq_cutoff q)) phase
    (mkGate (distinct (pe_target_date <$> performance)) (distinct (rs_reflection_dates reasoning))
       (distinct (rs_approved_ids reasoning)) minimum_dates minimum_reviews (rs_gate_hash reasoning)
       blockers) profiles "" in
  let hash := canonical_hash (unsigned_json (isoformat (m_at as_of)) (isoformat (m_at (bq_cutoff q))) unsealed) in
  field_check (is_sha256_hex hash) "content_hash" ;;
  Ok (with_hash unsealed hash).

End Snapshot.

End Believability.
