(* ===== verification/BelievabilityProps.v ===== *)
(** * Correctness of the believability evidence *)
From Stdlib Require Import Floats.SpecFloat.
From S2P Require Import Prelude PyStr PyTime Float64 Domain Json Models Contracts Reflection ReflectionProps.
From S2P Require Import MarketOutcome Believability.
Import PyStr PyTime Float64 Domain Json Models Contracts Reflection Believability.
Import ReflectionProps(by_then, gate_as_of, visible, elem_of_approved, current_heads_elem, is_approved_by, gate_rows_elem).
Open Scope string_scope.
Open Scope Z_scope.

Module BelievabilityProps.

#[global] Instance priority_le_order : PartialOrder priority_le.
Proof. unfold priority_le. apply _. Qed.
#[global] Instance priority_le_total : Total priority_le.
Proof. unfold priority_le. apply _. Qed.

(** ** The latest correction of each opinion *)

(** The row kept for an opinion is a read row no other row of the opinion beats. *)
Definition latest_in (c : moment) (rows : list PerformanceRow) (r : PerformanceRow) : Prop :=
  r ∈ rows /\ forall r', r' ∈ rows -> opinion_id r' = opinion_id r ->
    priority_le (performance_priority c r') (performance_priority c r).

Lemma keep_latest_other c m r id :
  id <> opinion_id r -> keep_latest c m r !! id = m !! id.
Proof.
  intros Hid. unfold keep_latest. destruct (m !! opinion_id r); [case_decide|]; try done;
    by rewrite lookup_insert_ne.
Qed.

Lemma latest_snoc c rows r :
  latest_by_opinion c (rows ++ [r])%list = keep_latest c (latest_by_opinion c rows) r.
Proof. unfold latest_by_opinion. by rewrite foldl_snoc. Qed.

Lemma latest_spec c rows id :
  match latest_by_opinion c rows !! id with
  | Some r => opinion_id r = id /\ latest_in c rows r
  | None => forall r, r ∈ rows -> opinion_id r <> id
  end.
Proof.
  induction rows as [|x rows IH] using rev_ind.
  { change (latest_by_opinion c [] !! id) with ((∅ : gmap string PerformanceRow) !! id).
    rewrite lookup_empty. by intros r ?%not_elem_of_nil. }
  rewrite latest_snoc. destruct (decide (id = opinion_id x)) as [->|Hne]; cycle 1.
  { rewrite keep_latest_other by done.
    destruct (latest_by_opinion c rows !! id) as [r|]; unfold latest_in in *; set_solver. }
  unfold keep_latest. destruct (latest_by_opinion c rows !! opinion_id x) as [old|] eqn:Hold.
  - destruct IH as (Hid & Hin & Hmax). case_decide as Hle.
    + rewrite Hold. split; [done|]. split; [set_solver|].
      intros r' [Hr'| ->%list_elem_of_singleton]%elem_of_app E; [by apply Hmax|done].
    + rewrite lookup_insert_eq. split; [done|]. split; [set_solver|].
      intros r' [Hr'| ->%list_elem_of_singleton]%elem_of_app E; [|done].
      etrans; [apply Hmax; [done|congruence]|].
      destruct (total priority_le (performance_priority c old) (performance_priority c x)); done.
  - rewrite lookup_insert_eq. split; [done|]. split; [set_solver|].
    intros r' [Hr'| ->%list_elem_of_singleton]%elem_of_app E; [by destruct (IH r')|done].
Qed.

(** Where rows are told apart by the last component of their priority, the row
    kept is the only candidate. *)
Definition distinct_rows (rows : list PerformanceRow) : Prop :=
  forall a b, a ∈ rows -> b ∈ rows -> oe_id (pr_evaluation a) = oe_id (pr_evaluation b) -> a = b.

Lemma latest_unique c rows a b :
  distinct_rows rows -> latest_in c rows a -> latest_in c rows b -> opinion_id a = opinion_id b -> a = b.
Proof.
  intros Hd [Ha Hma] [Hb Hmb] E. apply Hd; [done|done|].
  assert (performance_priority c a = performance_priority c b) as Hp.
  { apply (anti_symm priority_le); [by apply Hmb|by apply Hma]. }
  by injection Hp.
Qed.

Lemma latest_lookup c rows id r :
  distinct_rows rows ->
  latest_by_opinion c rows !! id = Some r <-> opinion_id r = id /\ latest_in c rows r.
Proof.
  intros Hd. pose proof (latest_spec c rows id) as Hs.
  destruct (latest_by_opinion c rows !! id) as [r'|].
  - destruct Hs as [Hid Hl]. split; [by intros [= <-]|]. intros [Hid' Hl'].
    f_equal. apply (latest_unique c rows); [done|done|done|congruence].
  - split; [done|]. intros [Hid [Hin _]]. by destruct (Hs r).
Qed.

Lemma latest_members c rows1 rows2 :
  distinct_rows rows1 -> (forall r, r ∈ rows1 <-> r ∈ rows2) ->
  latest_by_opinion c rows1 = latest_by_opinion c rows2.
Proof.
  intros Hd Hiff. apply map_eq. intros id. apply option_eq. intros r.
  rewrite !latest_lookup; [|intros a b; rewrite <- !Hiff; apply Hd|done].
  unfold latest_in. by setoid_rewrite Hiff.
Qed.

(** *** The joined rows *)

(** The tables are keyed by the identifiers in their rows. *)
Definition keyed (db : Db) : Prop :=
  ReflectionProps.keyed (gate_db db)
  /\ map_Forall (fun k e => oe_id e = k) (bd_evaluations db)
  /\ map_Forall (fun k f => fi_id f = k) (bd_findings db).

Definition joins (db : Db) (r : PerformanceRow) : Prop :=
  let e := pr_evaluation r in
  bd_opinions db !! oe_opinion_id e = Some (pr_opinion r)
  /\ bd_batches db !! oe_batch_id e = Some (pr_batch r)
  /\ bd_results db !! oe_result_id e = Some (pr_result r)
  /\ bd_runs db !! ao_run_id (pr_opinion r) = Some (pr_run r).

Lemma join_performance_Some db e r :
  join_performance db e = Some r <-> pr_evaluation r = e /\ joins db r.
Proof.
  unfold join_performance, joins. split.
  - destruct (bd_opinions db !! _) as [o|] eqn:Ho; [|done]. cbn.
    destruct (bd_batches db !! _) as [b|] eqn:Hb; [|done]. cbn.
    destruct (bd_results db !! _) as [x|] eqn:Hx; [|done]. cbn.
    destruct (bd_runs db !! _) as [run|] eqn:Hr; [|done]. cbn. by intros [= <-].
  - destruct r as [o e' b x run]; cbn. intros (<- & -> & -> & -> & Hr). cbn. by rewrite Hr.
Qed.

Lemma performance_rows_elem db q r :
  keyed db ->
  r ∈ performance_rows db q <->
  bd_evaluations db !! oe_id (pr_evaluation r) = Some (pr_evaluation r) /\ joins db r
  /\ scored q r = true /\ visible_by_cutoff q r = true.
Proof.
  intros (_ & Hk & _). unfold performance_rows.
  rewrite list_elem_of_In, filter_In, <- list_elem_of_In, andb_true_iff, list_elem_of_omap.
  setoid_rewrite join_performance_Some. setoid_rewrite list_elem_of_fmap. split.
  - intros ((e & ([k e'] & -> & Hin%elem_of_map_to_list) & Hev & Hj) & Hs & Hv). cbn in *. subst.
    by rewrite (Hk _ _ Hin).
  - intros (Hin & Hj & Hs & Hv). split; [|done]. exists (pr_evaluation r). split; [|done].
    exists (oe_id (pr_evaluation r), pr_evaluation r). by rewrite elem_of_map_to_list.
Qed.

Lemma performance_rows_distinct db q : keyed db -> distinct_rows (performance_rows db q).
Proof.
  intros Hk a b. rewrite !performance_rows_elem by done.
  intros (Ha & Hja & _) (Hb & Hjb & _) E. rewrite E in Ha. rewrite Ha in Hb. injection Hb as Hev.
  destruct a, b; unfold joins in *; cbn in *; subst.
  destruct Hja as (Ho & Hb & Hr & Hu), Hjb as (Ho' & Hb' & Hr' & Hu').
  rewrite Ho in Ho'. injection Ho' as ->. congruence.
Qed.

Lemma latest_exists c rows r :
  r ∈ rows -> exists r', latest_in c rows r' /\ opinion_id r' = opinion_id r.
Proof.
  intros Hr. pose proof (latest_spec c rows (opinion_id r)) as Hs.
  destruct (latest_by_opinion c rows !! opinion_id r) as [r'|].
  - exists r'. tauto.
  - by destruct (Hs r).
Qed.

Lemma performance_of_opinion c r ev : performance_of c r = Ok ev -> pe_opinion_id ev = opinion_id r.
Proof. unfold performance_of. destruct (oe_brier_score _); [by intros [= <-]|done]. Qed.

(** Each scored opinion counts once, with its latest correction.  The
    evidence holds at most one item per opinion; an item is in it exactly when
    it renders a row that a keyed evaluation, its batch, its result, its opinion
    and its completed live run join to, that every time of it places at or
    before the cutoff, and that no other such row of the opinion beats (by
    evaluation time, then batch time, then the three identifiers); and every
    such opinion has an item. *)
Theorem latest_correction db q l :
  keyed db -> performance_evidence db q = Ok l ->
  let c := bq_cutoff q in
  let counted r := bd_evaluations db !! oe_id (pr_evaluation r) = Some (pr_evaluation r)
                   /\ joins db r /\ scored q r = true /\ visible_by_cutoff q r = true in
  NoDup (pe_opinion_id <$> l)
  /\ (forall ev, ev ∈ l <->
        exists r, counted r /\ performance_of c r = Ok ev
          /\ forall r', counted r' -> opinion_id r' = opinion_id r ->
               priority_le (performance_priority c r') (performance_priority c r))
  /\ (forall r, counted r -> opinion_id r ∈ pe_opinion_id <$> l).
Proof.
  intros Hk Hl. cbv zeta. setoid_rewrite <- (fun r => performance_rows_elem db q r Hk).
  pose proof (performance_rows_distinct db q Hk) as Hd. revert Hl Hd.
  unfold performance_evidence. generalize (performance_rows db q) as rows.
  generalize (bq_cutoff q) as c. intros c rows Hl Hd. apply mapM_result_Ok in Hl.
  assert (Hids : pe_opinion_id <$> l = (map_to_list (latest_by_opinion c rows)).*1).
  { assert (Hkeys : opinion_id <$> (map_to_list (latest_by_opinion c rows)).*2
                    = (map_to_list (latest_by_opinion c rows)).*1).
    { rewrite <- list_fmap_compose. apply list_fmap_ext. intros i [k r] Hi%list_elem_of_lookup_2. cbn.
      apply elem_of_map_to_list, latest_lookup in Hi; tauto. }
    rewrite <- Hkeys. clear Hkeys. induction Hl as [|r ev rs l Hr _ IH]; [done|]. cbn. rewrite IH.
    by rewrite (performance_of_opinion _ _ _ Hr). }
  rewrite Hids. split; [apply NoDup_fst_map_to_list|]. split.
  - intros ev. split.
    + intros (i & Hi)%list_elem_of_lookup. eapply Forall2_lookup_r in Hl as (r & Hr & Hev); [|exact Hi].
      apply list_elem_of_lookup_2, list_elem_of_fmap in Hr as ([k r'] & -> & Hin).
      apply elem_of_map_to_list, latest_lookup in Hin as [_ [? ?]]; [|done]. by exists r'.
    + intros (r & Hin & Hev & Hmax).
      assert (Hr : r ∈ (map_to_list (latest_by_opinion c rows)).*2).
      { apply list_elem_of_fmap. exists (opinion_id r, r). split; [done|].
        by apply elem_of_map_to_list, latest_lookup. }
      apply list_elem_of_lookup in Hr as (i & Hi).
      eapply Forall2_lookup_l in Hl as (ev' & Hi' & Hev'); [|exact Hi].
      rewrite Hev in Hev'. injection Hev' as <-. by eapply list_elem_of_lookup_2.
  - intros r (r' & Hr' & E)%(latest_exists c). rewrite <- E. apply list_elem_of_fmap.
    exists (opinion_id r', r'). split; [done|]. by apply elem_of_map_to_list, latest_lookup.
Qed.

(** ** The findings *)

Definition counted_finding (rows : list ReasoningRow) (id : string) (e : ReasoningEvidence) : Prop :=
  exists r, r ∈ rows /\ fi_id (rr_finding r) = id /\ reasoning_of r = e.

(** Where the rows of a finding all render alike, the first one does not matter. *)
Definition alike (rows : list ReasoningRow) : Prop :=
  forall a b, a ∈ rows -> b ∈ rows -> fi_id (rr_finding a) = fi_id (rr_finding b) ->
    reasoning_of a = reasoning_of b.

Lemma keep_first_spec rows id :
  match foldl keep_first ∅ rows !! id with
  | Some e => counted_finding rows id e
  | None => forall r, r ∈ rows -> fi_id (rr_finding r) <> id
  end.
Proof.
  induction rows as [|x rows IH] using rev_ind.
  { change (foldl keep_first ∅ [] !! id) with ((∅ : gmap string ReasoningEvidence) !! id).
    rewrite lookup_empty. by intros r ?%not_elem_of_nil. }
  rewrite foldl_snoc. revert IH. generalize (foldl keep_first ∅ rows) as m. intros m IH.
  unfold keep_first, counted_finding in *.
  destruct (m !! fi_id (rr_finding x)) as [e|] eqn:Hx.
  - destruct (m !! id) eqn:Hid; [set_solver|].
    intros r [Hr| ->%list_elem_of_singleton]%elem_of_app; [by apply IH|congruence].
  - destruct (decide (id = fi_id (rr_finding x))) as [->|Hne].
    + rewrite lookup_insert_eq. exists x. set_solver.
    + rewrite lookup_insert_ne by done. destruct (m !! id); set_solver.
Qed.

Lemma keep_first_members rows1 rows2 :
  alike rows1 -> (forall r, r ∈ rows1 <-> r ∈ rows2) ->
  foldl keep_first ∅ rows1 = foldl keep_first ∅ rows2.
Proof.
  intros Ha Hiff. apply map_eq. intros id.
  pose proof (keep_first_spec rows1 id) as H1. pose proof (keep_first_spec rows2 id) as H2.
  destruct (foldl keep_first ∅ rows1 !! id) as [e1|], (foldl keep_first ∅ rows2 !! id) as [e2|]; [|..|done].
  - destruct H1 as (a & Ha1 & Hid & <-), H2 as (b & Hb & Hid' & <-). f_equal.
    apply Ha; [done|by apply Hiff|congruence].
  - destruct H1 as (a & Ha1 & Hid & _). by destruct (H2 a); [apply Hiff|].
  - destruct H2 as (a & Ha1 & Hid & _). by destruct (H1 a); [apply Hiff|].
Qed.

(** ** No look-ahead *)

Definition kept_run (c : moment) (run : RunRow) : Prop :=
  at_or_before (ru_completed_at run) c = true \/ by_then (Some c) (ru_completed_at run).

Definition kept_opinion (c : moment) (db : Db) (o : OpinionRow) : Prop :=
  match bd_runs db !! ao_run_id o with Some run => kept_run c run | None => False end.
#[global] Instance kept_opinion_dec c db o : Decision (kept_opinion c db o).
Proof. unfold kept_opinion, kept_run. destruct (bd_runs db !! _); apply _. Defined.
#[global] Instance kept_run_dec c run : Decision (kept_run c run).
Proof. unfold kept_run. apply _. Defined.

(** The database as it was at the cutoff: opinions count with their run. *)
Definition as_of (c : moment) (db : Db) : Db :=
  mkBelDb
    (filter (fun x => kept_opinion c db x.2) (bd_opinions db))
    (filter (fun x => at_or_before (Some (oe_evaluated_at x.2)) c = true) (bd_evaluations db))
    (filter (fun x => at_or_before (MarketOutcome.eb_completed_at x.2) c = true) (bd_batches db))
    (filter (fun x => at_or_before (Some (ev_evaluated_at x.2)) c = true) (bd_results db))
    (filter (fun x => kept_run c x.2) (bd_runs db))
    (filter (fun x => by_then (Some c) (rf_completed_at x.2)) (bd_reflections db))
    (filter (fun x => by_then (Some c) (Some (hr_reviewed_at x.2))) (bd_reviews db))
    (filter (fun x => at_or_before (Some (fi_created_at x.2)) c = true) (bd_findings db)).

Lemma keyed_at c db : keyed db -> keyed (as_of c db).
Proof.
  intros ([Hf Hv] & He & Hi). repeat split; intros k x [Hx _]%map_lookup_filter_Some; eauto.
Qed.

Lemma kept_opinion_run c db o run :
  bd_runs db !! ao_run_id o = Some run -> kept_run c run -> kept_opinion c db o.
Proof. unfold kept_opinion. by intros ->. Qed.

Lemma performance_rows_as_of db q r :
  keyed db -> r ∈ performance_rows (as_of (bq_cutoff q) db) q <-> r ∈ performance_rows db q.
Proof.
  intros Hk. rewrite !performance_rows_elem by (try apply keyed_at; done). unfold joins; cbn.
  setoid_rewrite map_lookup_filter_Some. cbn. split.
  - intros ([? _] & ([? _] & [? _] & [? _] & [? _]) & ?). done.
  - intros (? & (? & ? & ? & Hrun) & ? & Hv). pose proof Hv as Hw. unfold visible_by_cutoff in Hw.
    bool_prop. assert (kept_run (bq_cutoff q) (pr_run r)) by by left.
    split_and!; try done. by eapply kept_opinion_run.
Qed.

Lemma performance_as_of db q :
  keyed db -> performance_evidence (as_of (bq_cutoff q) db) q = performance_evidence db q.
Proof.
  intros Hk. unfold performance_evidence. do 3 f_equal. symmetry. apply latest_members.
  - by apply performance_rows_distinct.
  - intros r. symmetry. by apply performance_rows_as_of.
Qed.

Definition reasons (db : Db) (r : ReasoningRow) : Prop :=
  let f := rr_finding r in let rf := rr_reflection r in
  bd_findings db !! fi_id f = Some f
  /\ bd_reflections db !! fi_reflection_run_id f = Some rf
  /\ bd_reviews db !! rf_id rf = Some (rr_review r)
  /\ bd_runs db !! rf_source_run_id rf = Some (rr_run r)
  /\ finding_opinion rf f (rr_opinion r) = true
  /\ exists k, bd_opinions db !! k = Some (rr_opinion r).

Lemma join_reasoning_elem db f r :
  bd_findings db !! fi_id f = Some f -> r ∈ join_reasoning db f <-> rr_finding r = f /\ reasons db r.
Proof.
  intros Hf. unfold join_reasoning, reasons. split.
  - destruct (bd_reflections db !! _) as [rf|] eqn:Hrf; cbn; [|by intros ?%not_elem_of_nil].
    destruct (bd_reviews db !! _) as [rv|] eqn:Hrv; cbn; [|by intros ?%not_elem_of_nil].
    destruct (bd_runs db !! _) as [run|] eqn:Hrun; cbn; [|by intros ?%not_elem_of_nil].
    intros (o & -> & Ho)%list_elem_of_fmap. cbn.
    rewrite list_elem_of_In, filter_In, <- list_elem_of_In in Ho.
    destruct Ho as [([k o'] & -> & Hin%elem_of_map_to_list)%list_elem_of_fmap Hop]. eauto 10.
  - destruct r as [f' rf rv run o]; cbn. intros (-> & _ & -> & Hrv & Hrun & Hop & k & Ho). cbn.
    rewrite Hrv. cbn. rewrite Hrun. cbn. apply list_elem_of_fmap. exists o. split; [done|].
    rewrite list_elem_of_In, filter_In, <- list_elem_of_In. split; [|done].
    apply list_elem_of_fmap. exists (k, o). by rewrite elem_of_map_to_list.
Qed.

Lemma reasoning_rows_elem db q approved r :
  keyed db ->
  r ∈ reasoning_rows db q approved <->
  reasons db r /\ approved_finding q approved r = true /\ reasoning_visible q r = true.
Proof.
  intros (_ & _ & Hk). unfold reasoning_rows.
  rewrite list_elem_of_In, filter_In, <- list_elem_of_In, andb_true_iff, list_elem_of_bind.
  enough ((exists y, r ∈ join_reasoning db y /\ y ∈ (map_to_list (bd_findings db)).*2) <-> reasons db r)
    as -> by done. split.
  - intros (f & Hj & ([k f'] & -> & Hin%elem_of_map_to_list)%list_elem_of_fmap). cbn in *.
    apply join_reasoning_elem in Hj as [_ ?]; [done|]. by rewrite (Hk _ _ Hin).
  - intros Hr. pose proof Hr as (Hf & _). exists (rr_finding r).
    split; [by apply join_reasoning_elem|]. apply list_elem_of_fmap.
    exists (fi_id (rr_finding r), rr_finding r). by rewrite elem_of_map_to_list.
Qed.

Lemma reasoning_rows_alike db q approved : keyed db -> alike (reasoning_rows db q approved).
Proof.
  intros Hk a b. rewrite !reasoning_rows_elem by done.
  intros ((Hfa & Hra & Hva & _) & _) ((Hfb & Hrb & Hvb & _) & _) E.
  rewrite E, Hfb in Hfa. injection Hfa as Ef. rewrite <- Ef, Hrb in Hra. injection Hra as Er.
  rewrite <- Er, Hvb in Hva. injection Hva as Ev. unfold reasoning_of. by rewrite <- Ef, <- Er, <- Ev.
Qed.

Section Gathered.
Context `{CanonicalHash}.

Lemma gate_db_as_of c db universe :
  keyed db ->
  reflection_review_gate_state (gate_db (as_of c db)) (Some c) universe
  = reflection_review_gate_state (gate_db db) (Some c) universe.
Proof.
  intros Hk. pose proof (keyed_at c db Hk) as [Hk' _]. destruct Hk as [Hk _].
  rewrite <- (gate_as_of (Some c) (gate_db (as_of c db))), <- (gate_as_of (Some c) (gate_db db)) by done.
  f_equal. unfold ReflectionProps.as_of; cbn. f_equal.
  - apply map_eq. intros k. apply option_eq. intros s.
    rewrite !map_lookup_filter_Some, !lookup_fmap, !fmap_Some. setoid_rewrite map_lookup_filter_Some. cbn.
    split; intros [(run & ? & ->) Hb]; (split; [|done]); exists run; [tauto|].
    split; [|done]. split; [done|by right].
  - rewrite map_filter_filter. apply map_filter_ext. intros k x _; cbn. tauto.
  - rewrite map_filter_filter. apply map_filter_ext. intros k x _; cbn. tauto.
Qed.

(** An approved reflection was there, with its review and its run. *)
Lemma approved_kept db c universe g rf :
  keyed db -> reflection_review_gate_state (gate_db db) (Some c) universe = Ok g ->
  rf_id rf ∈ approved_current_ids g -> bd_reflections db !! rf_id rf = Some rf ->
  by_then (Some c) (rf_completed_at rf)
  /\ (exists run, bd_runs db !! rf_source_run_id rf = Some run /\ by_then (Some c) (ru_completed_at run))
  /\ exists rv, bd_reviews db !! rf_id rf = Some rv /\ by_then (Some c) (Some (hr_reviewed_at rv)).
Proof.
  intros [Hk _] Hg Hin Hrf. unfold reflection_review_gate_state in Hg.
  apply raise_when_bind_Ok in Hg as [_ [= <-]]. cbn in Hin.
  apply list_elem_of_filter in Hin as [(_ & r & Hr & Hid & Hap)%elem_of_approved _].
  apply current_heads_elem in Hr.
  apply (is_approved_by _ _ _ _ Hr) in Hap as (rv & Hrv & _ & Hw). rewrite Hid in Hrv.
  destruct (proj1 (gate_rows_elem _ (Some c) universe (g_reflection r) Hk)) as [Hrf' (run & t & st & Hvis)];
    [by exists r|]. unfold row_id in Hid. rewrite Hid in Hrf'. cbn in Hrf'.
  rewrite Hrf in Hrf'. injection Hrf' as ->.
  destruct Hvis as (Hrun & _ & _ & Ht & Hst & Hwt & Hws & _).
  cbn in Hrun. rewrite lookup_fmap, fmap_Some in Hrun. destruct Hrun as (run' & Hrun & ->).
  cbn in Hst. split; [by rewrite Ht|]. split; [|by exists rv]. exists run'. by rewrite Hst.
Qed.

Lemma reasoning_rows_as_of db q universe g r :
  keyed db -> reflection_review_gate_state (gate_db db) (Some (bq_cutoff q)) universe = Ok g ->
  r ∈ reasoning_rows (as_of (bq_cutoff q) db) q (approved_current_ids g)
  <-> r ∈ reasoning_rows db q (approved_current_ids g).
Proof.
  intros Hk Hg. rewrite !reasoning_rows_elem by (try apply keyed_at; done). unfold reasons; cbn.
  setoid_rewrite map_lookup_filter_Some. cbn. split.
  - intros (([? _] & [? _] & [? _] & [? _] & ? & k & [? _]) & ?). split; [|done]. eauto 10.
  - intros ((Hf & Hrf & Hrv & Hrun & Hop & k & Ho) & Ha & Hv). split; [|done].
    assert (Hin : rf_id (rr_reflection r) ∈ approved_current_ids g) by (unfold approved_finding in Ha; by bool_prop).
    assert (Hid : rf_id (rr_reflection r) = fi_reflection_run_id (rr_finding r)) by apply Hk, Hrf.
    rewrite <- Hid in Hrf.
    destruct (approved_kept db (bq_cutoff q) universe g _ Hk Hg Hin Hrf) as (Hc & (run & Hrun' & Hb) & rv & Hrv' & Hw).
    rewrite Hrun in Hrun'. injection Hrun' as <-. rewrite Hrv in Hrv'. injection Hrv' as <-.
    rewrite <- Hid. assert (kept_run (bq_cutoff q) (rr_run r)) by by right.
    unfold reasoning_visible in Hv. bool_prop. split_and!; try done. exists k. split; [done|].
    unfold finding_opinion in Hop. bool_prop. eapply kept_opinion_run; [|done]. congruence.
Qed.

Lemma reasoning_as_of db q :
  keyed db -> reasoning_proxy_evidence (as_of (bq_cutoff q) db) q = reasoning_proxy_evidence db q.
Proof.
  intros Hk. unfold reasoning_proxy_evidence. destruct (empty (bq_scopes q)); [done|].
  rewrite gate_db_as_of by done.
  destruct (reflection_review_gate_state (gate_db db) _ _) as [g|] eqn:Hg; [|done]. cbn.
  destruct (empty (approved_current_ids g)); [done|]. do 4 f_equal. symmetry. apply keep_first_members.
  - by apply reasoning_rows_alike.
  - intros r. symmetry. by eapply reasoning_rows_as_of.
Qed.

Context `{PyRuntime}.
Local Abbreviation build := build_believability_snapshot.

(** C35 The snapshot uses nothing from after the data cutoff: two databases with
    the same rows up to the cutoff (runs, evaluations, results, batches,
    reflections, reviews and findings by their times, opinions by their run)
    give the same snapshot, or the same error, whatever was corrected, reviewed
    or written later. *)
Theorem believability_no_lookahead db1 db2 mode q at_ minimum_dates minimum_reviews :
  keyed db1 -> keyed db2 -> as_of (bq_cutoff q) db1 = as_of (bq_cutoff q) db2 ->
  build db1 mode q at_ minimum_dates minimum_reviews
  = build db2 mode q at_ minimum_dates minimum_reviews.
Proof.
  intros H1 H2 E. unfold build_believability_snapshot. do 2 f_equal. unfold gather.
  rewrite <- (performance_as_of db1), <- (performance_as_of db2) by done.
  rewrite <- (reasoning_as_of db1), <- (reasoning_as_of db2) by done. by rewrite E.
Qed.

(** ** Shadow evidence only *)

Lemma build_Ok db mode q at_ md mr s :
  build db mode q at_ md mr = Ok s ->
  exists performance r,
    check_query q at_ md mr = Ok tt /\ gather db mode q = Ok (performance, r)
    /\ (mode = "demo" \/ mode = "live")
    /\ let found := blockers_of q performance r md mr in
       bn_mode s = mode /\ bn_phase s = phase_of mode found
       /\ bn_gate s = mkGate (distinct (pe_target_date <$> performance)) (distinct (rs_reflection_dates r))
            (distinct (rs_approved_ids r)) md mr (rs_gate_hash r)
            (if (mode =? "demo")%string then ["demo_never_enters_formal_believability"] else found)
       /\ mapM_result (fun '(scope, (code, h)) =>
            build_profile mode (phase_of mode found) scope code h
              (performance_for performance (bs_agent_id scope, code, h))
              (reasoning_for (rs_evidence r) (bs_agent_id scope, code, h)) md mr) (profile_keys q)
          = Ok (bn_profiles s)
       /\ bn_content_hash s
          = canonical_hash (unsigned_json (isoformat (bn_as_of s)) (isoformat (bn_data_cutoff s)) s).
Proof.
  unfold build_believability_snapshot. intros Hb. inv_ok Hb. destruct v, v0 as [performance r].
  inv_ok Hb. injection Hb as <-. apply raise_when_Ok, negb_false_iff, bool_decide_eq_true in Hok2.
  exists performance, r. split_and!; try done. set_solver.
Qed.

Definition key_of (k : BelievabilityAgentScope * (string * string)) : string * string * string :=
  (bs_agent_id k.1, k.2.1, k.2.2).
Definition profile_key (p : BelievabilityDomainEvidence) : string * string * string :=
  (bp_agent_id p, bp_index_code p, bp_horizon p).

Lemma exact_keys_elem q key : key ∈ exact_keys q <-> key ∈ key_of <$> profile_keys q.
Proof.
  unfold exact_keys, profile_keys. rewrite list_elem_of_fmap.
  setoid_rewrite list_elem_of_bind. setoid_rewrite list_elem_of_bind.
  setoid_rewrite list_elem_of_fmap. setoid_rewrite merge_sort_Permutation. split.
  - intros (sc & (code & (h & -> & Hh) & Hc) & Hs). by exists (sc, (code, h)); eauto 10.
  - intros (k & -> & sc & (code & (h & -> & Hh) & Hc) & Hs). eauto 10.
Qed.

Lemma build_profile_Ok mode phase scope code h performance reasoning md mr p :
  build_profile mode phase scope code h performance reasoning md mr = Ok p ->
  profile_key p = (bs_agent_id scope, code, h)
  /\ bp_evaluation_sample_size p = Z.of_nat (length performance)
  /\ bp_approved_reflection_count p = distinct (re_reflection_run_id <$> reasoning)
  /\ bp_independent_evaluation_target_dates p = distinct (pe_target_date <$> performance)
  /\ bp_independent_reasoning_target_dates p = distinct (re_target_date <$> reasoning)
  /\ bp_evidence_status p
     = evidence_status mode phase (distinct (pe_target_date <$> performance))
         (distinct (re_target_date <$> reasoning)) md mr
  /\ bp_applied_stage_multiplier p = f1.
Proof. unfold build_profile, validate_profile. intros Hp. inv_ok Hp. by injection Hp as <-. Qed.

(** The profiles, one for each key, made of the evidence of the key. *)
Lemma profiles_spec mode phase performance r md mr keys ps :
  mapM_result (fun '(scope, (code, h)) =>
    build_profile mode phase scope code h (performance_for performance (bs_agent_id scope, code, h))
      (reasoning_for (rs_evidence r) (bs_agent_id scope, code, h)) md mr) keys = Ok ps ->
  profile_key <$> ps = key_of <$> keys
  /\ forall p, p ∈ ps ->
     bp_evaluation_sample_size p = Z.of_nat (length (performance_for performance (profile_key p)))
     /\ bp_approved_reflection_count p
        = distinct (re_reflection_run_id <$> reasoning_for (rs_evidence r) (profile_key p))
     /\ bp_independent_evaluation_target_dates p = performance_dates performance (profile_key p)
     /\ bp_independent_reasoning_target_dates p = reasoning_dates (rs_evidence r) (profile_key p)
     /\ bp_evidence_status p
        = evidence_status mode phase (performance_dates performance (profile_key p))
            (reasoning_dates (rs_evidence r) (profile_key p)) md mr
     /\ bp_applied_stage_multiplier p = f1.
Proof.
  intros Hps%mapM_result_Ok. induction Hps as [|[scope [code h]] p keys ps Hp _ [IHk IHp]].
  { split; [done|]. by intros p ?%not_elem_of_nil. }
  apply build_profile_Ok in Hp as (Hk & Hp). split; [by cbn; rewrite Hk, IHk|].
  intros p' [->|Hin]%elem_of_cons; [|by apply IHp]. by rewrite Hk.
Qed.

Lemma phase_governance mode found :
  mode = "demo" \/ mode = "live" ->
  phase_of mode found = "governance_review_required" <-> mode = "live" /\ found = [].
Proof. intros [->| ->]; cbn; [by split; [|intros [? _]]|]. destruct found; cbn; split; try done; by intros [_ ?]. Qed.

Lemma if_nil {A} (b : bool) (x : A) : (if b then [x] else []) = [] <-> b = false.
Proof. by destruct b. Qed.

Lemma empty_nil {A} (l : list A) : (if empty l then [] else ["reflection_lineage_conflict"]) = [] <-> l = [].
Proof. by destruct l. Qed.

Lemma blockers_nil q performance r md mr :
  blockers_of q performance r md mr = [] <->
  md <= distinct (rs_reflection_dates r) /\ mr <= distinct (rs_approved_ids r) /\ rs_conflicts r = []
  /\ forall key, key ∈ exact_keys q ->
       md <= performance_dates performance key /\ mr <= reasoning_dates (rs_evidence r) key.
Proof.
  unfold blockers_of.
  rewrite !app_nil, !if_nil, empty_nil, !existsb_false, !Z.ltb_ge.
  setoid_rewrite Z.ltb_ge. naive_solver.
Qed.

Lemma gather_demo db q performance r :
  gather db "demo" q = Ok (performance, r) -> performance = [] /\ r = no_reasoning.
Proof. by intros [= <- <-]. Qed.

Lemma gather_conflicts db q performance r :
  gather db "live" q = Ok (performance, r) ->
  rs_conflicts r = [] <->
  forall g, bq_scopes q <> [] ->
    reflection_review_gate_state (gate_db db) (Some (bq_cutoff q)) (Some (bq_market_universe_hash q)) = Ok g ->
    conflict_ids g = [].
Proof.
  unfold gather. cbn. intros Hg. inv_ok Hg. injection Hg as _ ->.
  unfold reasoning_proxy_evidence in *. destruct (bq_scopes q) as [|sc l]; cbn in *.
  { injection Hok0 as <-. split; [by intros _ g []|done]. }
  destruct (reflection_review_gate_state _ _ _) as [g|]; [|done]. cbn in Hok0. injection Hok0 as <-. cbn.
  split; [by intros E g' _ [= <-]|by intros E; apply E].
Qed.

Lemma status_governance mode phase dates reviews md mr :
  evidence_status mode phase dates reviews md mr = "governance_review_required" ->
  phase = "governance_review_required".
Proof.
  unfold evidence_status. destruct (mode =? _)%string; [done|]. destruct (dates <? _); [done|].
  destruct (reviews <? _); [done|]. by destruct (String.eqb_spec phase "governance_review_required").
Qed.

(** The snapshot is evidence and nothing else.  Its thresholds are at least
    twenty dates and ten reviews; it has one profile for each agent, index and
    horizon, with the multiplier one; in the demo every profile is excluded and
    empty; the phase asks for a governance review exactly in a live run whose
    reflection dates and approved prefix reach the thresholds, with no lineage
    conflict, and whose every profile reaches them too; and the content hash is
    that of the sealed payload. *)
Theorem believability_shadow db mode q at_ md mr s :
  build db mode q at_ md mr = Ok s ->
  20 <= md /\ 10 <= mr
  /\ profile_key <$> bn_profiles s = key_of <$> profile_keys q
  /\ (forall p, p ∈ bn_profiles s -> bp_applied_stage_multiplier p = f1
        /\ (bp_evidence_status p = "governance_review_required" ->
             bn_phase s = "governance_review_required"))
  /\ (bn_mode s = "demo" -> bn_phase s = "demo_excluded" /\ forall p, p ∈ bn_profiles s ->
        bp_evidence_status p = "demo_excluded" /\ bp_evaluation_sample_size p = 0
        /\ bp_approved_reflection_count p = 0)
  /\ (bn_phase s = "governance_review_required" <->
        bn_mode s = "live"
        /\ md <= bg_reflection_dates (bn_gate s) /\ mr <= bg_approved_prefix (bn_gate s)
        /\ (forall g, bq_scopes q <> [] ->
              reflection_review_gate_state (gate_db db) (Some (bq_cutoff q))
                (Some (bq_market_universe_hash q)) = Ok g -> conflict_ids g = [])
        /\ forall p, p ∈ bn_profiles s ->
             md <= bp_independent_evaluation_target_dates p
             /\ mr <= bp_independent_reasoning_target_dates p)
  /\ bn_content_hash s
     = canonical_hash (unsigned_json (isoformat (bn_as_of s)) (isoformat (bn_data_cutoff s)) s).
Proof.
  intros (performance & r & Hq & Hg & Hmode & Hm & Hph & Hgate & Hps & Hhash)%build_Ok.
  apply profiles_spec in Hps as [Hkeys Hps]. rewrite Hm, Hph, Hgate. cbn.
  unfold check_query in Hq. inv_ok Hq. apply raise_when_Ok in Hq.
  apply Z.ltb_ge in Hok2, Hok3. split; [done|]. split; [done|]. split; [done|]. split; [|split; [|split; [|done]]].
  - intros p Hp. destruct (Hps p Hp) as (_ & _ & _ & _ & Hst & Happ). split; [done|].
    rewrite Hst. apply status_governance.
  - intros ->. split; [done|]. intros p Hp. apply gather_demo in Hg as [-> ->].
    destruct (Hps p Hp) as (-> & -> & _ & _ & -> & _). done.
  - rewrite phase_governance by done.
    assert (Hall : (forall key, key ∈ exact_keys q -> md <= performance_dates performance key
                     /\ mr <= reasoning_dates (rs_evidence r) key)
                   <-> forall p, p ∈ bn_profiles s -> md <= bp_independent_evaluation_target_dates p
                     /\ mr <= bp_independent_reasoning_target_dates p).
    { setoid_rewrite exact_keys_elem. rewrite <- Hkeys. split.
      - intros Hx p Hp. destruct (Hps p Hp) as (_ & _ & -> & -> & _). apply Hx. by apply list_elem_of_fmap_2.
      - intros Hx key (p & -> & Hp)%list_elem_of_fmap.
        destruct (Hps p Hp) as (_ & _ & Hd & Hr & _). rewrite <- Hd, <- Hr. by apply Hx. }
    rewrite <- Hall, blockers_nil. destruct Hmode as [->| ->]; [by split; intros [? _]|].
    rewrite (gather_conflicts _ _ _ _ Hg). done.
Qed.

End Gathered.

(** ** A concrete history

    One agent whose opinion of July 2026 was scored, corrected before the cutoff
    of the 20th and corrected again after it; a finding on an approved reflection;
    a second approval after the cutoff. *)
Module Witnesses.

#[local] Instance sample_runtime : PyRuntime := {| runtime := Py312 |}.
Definition digest : string := String.string_of_list_ascii (repeat (Ascii.ascii_of_nat 97) 64).
#[local] Instance sample_hash : CanonicalHash := {| canonical_hash := fun _ => digest |}.

Import ReflectionProps.Witnesses(at_day, moment_at, sample_reflection, sample_review).

Definition opinion : OpinionRow :=
  OpinionR "o1" "run" "agent" "1.0.0" "model" "000001.SH" "D1" (ymd2ord 2026 7 10) "up".
Definition scored_on (id batch : string) (day : Z) : OpinionEvaluationRow :=
  OpinionEvaluationR id batch "o1" "x1" (Some true) None (Some f0) true (at_day day).
Definition batch_on (id : string) (day : Z) : MarketOutcome.EvaluationBatch :=
  MarketOutcome.Batch id (ymd2ord 2026 7 10) "D1" "completed" id id ∅ (at_day day) (Some (at_day day)) None.
Definition outcome : EvaluationResult :=
  EvalResult "x1" "fc" f0 "up" true f0 (at_day 11) "s" (at_day 11) (ymd2ord 2026 7 9) f1 "u" "h"
    (ymd2ord 2026 7 10) f1 "u" "h" "observed".
Definition finding : FindingRow :=
  FindingR "f1" "r1" "agent" "agent" (Some "000001.SH") "D1" "right_reason" "none" "available" "verified"
    ["e2"; "e1"] (at_day 11).

Definition sample_db : Db :=
  mkBelDb {[ "o1" := opinion ]}
    (list_to_map [("e1", scored_on "e1" "b1" 12); ("e2", scored_on "e2" "b2" 15)])
    (list_to_map [("b1", batch_on "b1" 12); ("b2", batch_on "b2" 15)])
    {[ "x1" := outcome ]}
    {[ "run" := RunR "live" "completed" (at_day 4) (Some (at_day 5)) "universe" ]}
    (list_to_map [("r1", sample_reflection "r1" 10 None "e1"); ("r3", sample_reflection "r3" 11 None "e3")])
    {[ "r1" := sample_review ]} {[ "f1" := finding ]}.

(** The same history with what came after the cutoff. *)
Definition later_db : Db :=
  mkBelDb (bd_opinions sample_db)
    (<["e3" := scored_on "e3" "b3" 22]> (bd_evaluations sample_db))
    (<["b3" := batch_on "b3" 22]> (bd_batches sample_db))
    (bd_results sample_db) (bd_runs sample_db) (bd_reflections sample_db)
    (<["r3" := HumanReview "review-3" "r3" "approved" "ada" "" "h" (at_day 21)]> (bd_reviews sample_db))
    (bd_findings sample_db).

Definition query : Query :=
  mkBelQuery (moment_at 20) [Scope "agent" "1.0.0" "model" "research" "research_to_strategy" f1]
    ["000001.SH"] ["D1"] "universe".

Lemma keyed_dec (db : Db) :
  forallb (fun '(k, rf) => (rf_id rf =? k)%string) (map_to_list (bd_reflections db)) = true ->
  forallb (fun '(k, rv) => (hr_reflection_run_id rv =? k)%string) (map_to_list (bd_reviews db)) = true ->
  forallb (fun '(k, e) => (oe_id e =? k)%string) (map_to_list (bd_evaluations db)) = true ->
  forallb (fun '(k, f) => (fi_id f =? k)%string) (map_to_list (bd_findings db)) = true ->
  keyed db.
Proof.
  rewrite !forallb_forall. intros Hrf Hrv He Hf.
  repeat split; intros k x Hx%elem_of_map_to_list%list_elem_of_In; apply String.eqb_eq;
    [by apply (Hrf (k, x))|by apply (Hrv (k, x))|by apply (He (k, x))|by apply (Hf (k, x))].
Qed.

Lemma keyed_history : keyed sample_db.
Proof. by apply keyed_dec; by_vm. Qed.
Lemma keyed_later : keyed later_db.
Proof. by apply keyed_dec; by_vm. Qed.

Definition evidence : list PerformanceEvidence :=
  match performance_evidence later_db query with Ok l => l | Err _ => [] end.

Lemma latest_correction_witness :
  pe_opinion_evaluation_id <$> evidence = ["e2"] /\ NoDup (pe_opinion_id <$> evidence).
Proof.
  split; [by_vm|]. destruct (latest_correction later_db query evidence keyed_later) as (Hn & _ & _); [by_vm|].
  exact Hn.
Defined.

Lemma believability_no_lookahead_witness :
  build_believability_snapshot sample_db "live" query (moment_at 20) 20 10
  = build_believability_snapshot later_db "live" query (moment_at 20) 20 10.
Proof. apply believability_no_lookahead; [exact keyed_history|exact keyed_later|by_vm]. Defined.

Definition snapshot : BelievabilitySnapshot :=
  match build_believability_snapshot later_db "live" query (moment_at 20) 20 10 with
  | Ok s => s
  | Err _ => mkSnapshot "" (at_day 1) (at_day 1) "" (mkGate 0 0 0 0 0 "" []) [] ""
  end.

Lemma believability_shadow_witness :
  bn_phase snapshot = "shadow"
  /\ (bp_evaluation_sample_size <$> bn_profiles snapshot) = [1]
  /\ (bp_right_reason_verified_count <$> bn_profiles snapshot) = [1]
  /\ bp_applied_stage_multiplier <$> bn_profiles snapshot = [f1]
  /\ profile_key <$> bn_profiles snapshot = [("agent", "000001.SH", "D1")].
Proof.
  split; [by_vm|]. split; [by_vm|]. split; [by_vm|]. split; [by_vm|].
  assert (Hb : build_believability_snapshot later_db "live" query (moment_at 20) 20 10 = Ok snapshot) by by_vm.
  destruct (believability_shadow later_db "live" query (moment_at 20) 20 10 snapshot Hb) as (_ & _ & Hk & _).
  rewrite Hk. by_vm.
Defined.

End Witnesses.

End BelievabilityProps.
