(* ===== verification/Replay.v ===== *)
(** * Replay observations and their metrics
      ([backend/app/services/lesson_lifecycle.py], first half)

    A lesson proposes a transform of the committee's probabilities.  A replay
    bundle scores it on frozen outcomes: every observation is checked against
    the database and against the registered transform, and Brier score,
    calibration error and subgroup deltas are computed from all of them. *)
From S2P Require Import Prelude PyStr PyTime Float64 Domain Json Contracts Evaluation Reflection.
Import PyStr PyTime Float64 Domain Json Contracts.
Open Scope string_scope.
Open Scope Z_scope.

Module Replay.

(** ** Bundles *)

Record ReplayObservation := Observation {
  ob_target_date : date;
  ob_index_code : string;
  ob_horizon : Horizon;
  ob_actual_label : Direction;
  ob_forecast_id : string;
  ob_forecast_diagnostic_id : string;
  ob_outcome_snapshot_hash : string;
  ob_market_snapshot_hash : string;
  ob_baseline : Probs;
  ob_candidate : Probs;
  ob_important_subgroups : list string }.

(** [ClassLogitBias] has one bias per label. *)
Record CandidateTransform := Transform { ct_temperature : float; ct_class_logit_bias : Probs }.

(** The bundle without its observations; the literal fields are constants. *)
Record ReplayManifest := Manifest {
  mf_lesson_id : string;
  mf_candidate_rule_version : string;
  mf_wiki_version : string;
  mf_threshold_policy_version : string;
  mf_candidate_transform : CandidateTransform;
  mf_replay_input_manifest_hash : string;
  mf_baseline_artifact_hash : string;
  mf_candidate_artifact_hash : string }.

Record LessonReplayBundle := Bundle {
  rb_manifest : ReplayManifest;
  rb_observations : list ReplayObservation }.

#[global] Instance Probs_eq_dec : EqDecision Probs.
Proof. solve_decision. Defined.
#[global] Instance ReplayObservation_eq_dec : EqDecision ReplayObservation.
Proof. solve_decision. Defined.
#[global] Instance CandidateTransform_eq_dec : EqDecision CandidateTransform.
Proof. solve_decision. Defined.
#[global] Instance ReplayManifest_eq_dec : EqDecision ReplayManifest.
Proof. solve_decision. Defined.

(** [identity] and [_observation_identity] *)
Definition identity : Type := string * (string * string).

Definition observation_identity (o : ReplayObservation) : identity :=
  (iso_date (ob_target_date o), (ob_index_code o, horizon_value (ob_horizon o))).

Definition identity_le : relation identity := lex_le String.le (lex_le String.le String.le).

Definition observation_le (a b : ReplayObservation) : Prop :=
  identity_le (observation_identity a) (observation_identity b).

#[global] Instance observation_le_dec a b : Decision (observation_le a b).
Proof. unfold observation_le, identity_le. apply _. Defined.

Definition sort_observations : list ReplayObservation -> list ReplayObservation :=
  merge_sort observation_le.

(** ** Validation of an untrusted bundle *)

Section Validate.

(** [ReplayProbabilities] *)
Definition validate_replay_probabilities (p : Probs) : result unit :=
  field_check (unit_interval (p_up p) && unit_interval (p_neutral p) && unit_interval (p_down p))
    "probabilities" ;;
  raise_when (fltb (lit 1 1000000000)
                (fabs (fsub (fadd (fadd (p_up p) (p_neutral p)) (p_down p)) f1))) ValueError
    "replay probabilities must sum to 1".

(** [validate_subgroups]: the labels as stored. *)
Definition validate_subgroups (values : list string) : result (list string) :=
  let normalized := py_strip <$> values in
  raise_when (existsb (fun v => negb (truthy v) || (80 <? py_len v)) normalized) ValueError
    "important subgroup labels must contain 1-80 characters" ;;
  raise_when (negb (bool_decide (NoDup normalized))) ValueError
    "important subgroup labels must be unique" ;;
  Ok (merge_sort String.le normalized).

(** The pattern [^[A-Za-z0-9][A-Za-z0-9_.-]{0,23}$]. *)
Definition index_code_pattern (s : string) : bool :=
  match String.list_ascii_of_string s with
  | c :: l => is_alnum c && forallb (fun c => is_alnum c || char_in "_.-" c) l
              && (length l <=? 23)%nat
  | [] => false
  end.

Definition validate_observation (o : ReplayObservation) : result ReplayObservation :=
  field_check (index_code_pattern (ob_index_code o)) "index_code" ;;
  field_check (length_ok 1 36 (ob_forecast_id o)) "forecast_id" ;;
  field_check (length_ok 1 36 (ob_forecast_diagnostic_id o)) "forecast_diagnostic_id" ;;
  field_check (is_sha256_hex (ob_outcome_snapshot_hash o)) "outcome_snapshot_hash" ;;
  field_check (is_sha256_hex (ob_market_snapshot_hash o)) "market_snapshot_hash" ;;
  validate_replay_probabilities (ob_baseline o) ;;
  validate_replay_probabilities (ob_candidate o) ;;
  field_check (length (ob_important_subgroups o) <=? 20)%nat "important_subgroups" ;;
  groups ← validate_subgroups (ob_important_subgroups o);
  Ok (Observation (ob_target_date o) (ob_index_code o) (ob_horizon o) (ob_actual_label o)
        (ob_forecast_id o) (ob_forecast_diagnostic_id o) (ob_outcome_snapshot_hash o)
        (ob_market_snapshot_hash o) (ob_baseline o) (ob_candidate o) groups).

Definition bias_ok (x : float) : bool := fleb (of_Z (-10)) x && fleb x (of_Z 10).

Definition validate_transform (t : CandidateTransform) : result unit :=
  field_check (fltb f0 (ct_temperature t) && fleb (ct_temperature t) (of_Z 10)) "temperature" ;;
  field_check (bias_ok (p_up (ct_class_logit_bias t)) && bias_ok (p_neutral (ct_class_logit_bias t))
               && bias_ok (p_down (ct_class_logit_bias t))) "class_logit_bias".

(** [parse_replay_bundle]: field constraints and validators of the models. *)
Definition parse_replay_bundle (b : LessonReplayBundle) : result LessonReplayBundle :=
  let m := rb_manifest b in
  field_check (length_ok 1 36 (mf_lesson_id m)) "lesson_id" ;;
  field_check (length_ok 1 120 (mf_candidate_rule_version m)) "candidate_rule_version" ;;
  field_check (length_ok 1 120 (mf_wiki_version m)) "wiki_version" ;;
  field_check (length_ok 1 120 (mf_threshold_policy_version m)) "threshold_policy_version" ;;
  validate_transform (mf_candidate_transform m) ;;
  field_check (is_sha256_hex (mf_replay_input_manifest_hash m)) "replay_input_manifest_hash" ;;
  field_check (is_sha256_hex (mf_baseline_artifact_hash m)) "baseline_artifact_hash" ;;
  field_check (is_sha256_hex (mf_candidate_artifact_hash m)) "candidate_artifact_hash" ;;
  field_check ((1 <=? Z.of_nat (length (rb_observations b)))
               && (Z.of_nat (length (rb_observations b)) <=? 25000)) "observations" ;;
  observations ← mapM_result validate_observation (rb_observations b);
  raise_when (negb (bool_decide (NoDup (observation_identity <$> observations)))) ValueError
    "replay observation identities must be unique by target_date/index_code/horizon" ;;
  Ok (Bundle m observations).

End Validate.

(** ** JSON forms *)

Definition dump_probs (p : Probs) : json :=
  JObj (list_to_map [("up", JFloat (p_up p)); ("neutral", JFloat (p_neutral p));
                     ("down", JFloat (p_down p))]).

Definition dump_transform (t : CandidateTransform) : json :=
  JObj (list_to_map
    [("transform_type", JStr "temperature_class_bias_v1");
     ("temperature", JFloat (ct_temperature t));
     ("class_logit_bias", dump_probs (ct_class_logit_bias t))]).

(** [observation.model_dump(mode="json")] *)
Definition dump_observation (o : ReplayObservation) : json :=
  JObj (list_to_map
    [("target_date", JStr (iso_date (ob_target_date o)));
     ("index_code", JStr (ob_index_code o));
     ("horizon", JStr (horizon_value (ob_horizon o)));
     ("actual_label", JStr (direction_value (ob_actual_label o)));
     ("forecast_id", JStr (ob_forecast_id o));
     ("forecast_diagnostic_id", JStr (ob_forecast_diagnostic_id o));
     ("outcome_snapshot_hash", JStr (ob_outcome_snapshot_hash o));
     ("market_snapshot_hash", JStr (ob_market_snapshot_hash o));
     ("baseline_probabilities", dump_probs (ob_baseline o));
     ("candidate_probabilities", dump_probs (ob_candidate o));
     ("important_subgroups", JArr (JStr <$> ob_important_subgroups o))]).

Definition manifest_dict (m : ReplayManifest) : jobject :=
  list_to_map
    [("protocol_version", JStr "1.0.0");
     ("lesson_id", JStr (mf_lesson_id m));
     ("baseline_rule_version", JStr "forecast-probabilities-v1");
     ("candidate_rule_version", JStr (mf_candidate_rule_version m));
     ("wiki_version", JStr (mf_wiki_version m));
     ("threshold_policy_version", JStr (mf_threshold_policy_version m));
     ("replay_generator", JStr "deterministic_rule_engine");
     ("candidate_transform", dump_transform (mf_candidate_transform m));
     ("replay_input_manifest_hash", JStr (mf_replay_input_manifest_hash m));
     ("baseline_artifact_hash", JStr (mf_baseline_artifact_hash m));
     ("candidate_artifact_hash", JStr (mf_candidate_artifact_hash m))].

(** [_normalized_bundle] *)
Definition normalized_bundle (m : ReplayManifest) (observations : list ReplayObservation) : json :=
  JObj (<["observations" := JArr (dump_observation <$> sort_observations observations)]>
          (manifest_dict m)).

Section Hashes.
Context `{CanonicalHash}.

Definition bundle_hash (m : ReplayManifest) (observations : list ReplayObservation) : string :=
  canonical_hash (normalized_bundle m observations).

Definition baseline_artifact_hash : string :=
  canonical_hash (JObj (list_to_map
    [("baseline_rule_version", JStr "forecast-probabilities-v1");
     ("source", JStr "completed-live Forecast.probability_up/probability_neutral/probability_down")])).

Definition candidate_artifact_hash (m : ReplayManifest) : string :=
  canonical_hash (JObj (list_to_map
    [("candidate_rule_version", JStr (mf_candidate_rule_version m));
     ("candidate_transform", dump_transform (mf_candidate_transform m))])).

(** [build_replay_manifest_hashes] on the fields of a manifest: replay input,
    baseline and candidate hash. *)
Definition build_replay_manifest_hashes (m : ReplayManifest) : string * string * string :=
  let baseline := baseline_artifact_hash in
  let candidate := candidate_artifact_hash m in
  (canonical_hash (JObj (list_to_map
     [("protocol_version", JStr "1.0.0");
      ("lesson_id", JStr (mf_lesson_id m));
      ("baseline_rule_version", JStr "forecast-probabilities-v1");
      ("candidate_rule_version", JStr (mf_candidate_rule_version m));
      ("wiki_version", JStr (mf_wiki_version m));
      ("threshold_policy_version", JStr (mf_threshold_policy_version m));
      ("replay_generator", JStr "deterministic_rule_engine");
      ("baseline_artifact_hash", JStr baseline);
      ("candidate_artifact_hash", JStr candidate)])),
   baseline, candidate).

End Hashes.

(** ** Frozen outcomes *)

Record MarketSessionSnapshot := MarketSnapshot {
  ms_target_date : date; ms_actual_return : float; ms_content_hash : string }.

(** A forecast diagnostic joined with its batch, forecast, run, evaluation and
    market session snapshot. *)
Record ForecastDiagnostic := Diagnostic {
  fd_policy_version : string;
  fd_forecast_id : string;
  fd_evaluation_forecast_id : string;
  fd_batch_status : string;
  fd_run_mode : string;
  fd_run_status : string;
  fd_index_code : string;
  fd_horizon : string;
  fd_target_date : date;
  fd_batch_horizon : string;
  fd_batch_target_date : date;
  fd_actual_label : string;
  fd_actual_return : float;
  fd_observation_hash : string;
  fd_snapshot : option MarketSessionSnapshot;
  fd_probabilities : Probs;
  fd_wiki_version : string }.

Definition conflict (b : bool) (label : string) : result unit :=
  raise_when (negb b) ValueError ("replay " +:+ label +:+ " conflicts with frozen database outcome").

Definition abs_close (a b : float) : bool := isclose f0 (lit 1 1000000000000) a b.

Definition probs_close (p q : Probs) : bool :=
  abs_close (p_up p) (p_up q) && abs_close (p_neutral p) (p_neutral q)
  && abs_close (p_down p) (p_down q).

(** [_validate_observation_against_frozen_outcome] *)
Definition validate_against_frozen_outcome (frozen : gmap string ForecastDiagnostic)
    (o : ReplayObservation) : result ForecastDiagnostic :=
  match frozen !! ob_forecast_diagnostic_id o with
  | None => raise ValueError "replay forecast diagnostic was not found"
  | Some d =>
      raise_when (negb (fd_evaluation_forecast_id d =? fd_forecast_id d)%string) ValueError
        "replay diagnostic evaluation does not belong to its forecast" ;;
      raise_when (negb (fd_batch_status d =? "completed")%string) ValueError
        "replay diagnostic must belong to a completed evaluation batch" ;;
      raise_when (negb (fd_run_mode d =? "live")%string || negb (fd_run_status d =? "completed")%string)
        ValueError "replay diagnostic must come from a completed Live forecast" ;;
      conflict (fd_forecast_id d =? ob_forecast_id o)%string "forecast_id" ;;
      conflict (fd_index_code d =? ob_index_code o)%string "index_code" ;;
      conflict (fd_horizon d =? horizon_value (ob_horizon o))%string "horizon" ;;
      conflict (iso_date (fd_target_date d) =? iso_date (ob_target_date o))%string "target_date" ;;
      conflict (fd_batch_horizon d =? horizon_value (ob_horizon o))%string "batch horizon" ;;
      conflict (iso_date (fd_batch_target_date d) =? iso_date (ob_target_date o))%string
        "batch target_date" ;;
      conflict (fd_actual_label d =? direction_value (ob_actual_label o))%string "actual_label" ;;
      conflict (fd_observation_hash d =? ob_outcome_snapshot_hash o)%string "outcome_snapshot_hash" ;;
      match fd_snapshot d with
      | None => raise ValueError "replay market session snapshot was not found"
      | Some s =>
          raise_when (negb (ms_target_date s =? fd_target_date d)) ValueError
            "replay market snapshot target date is inconsistent" ;;
          raise_when (negb (abs_close (ms_actual_return s) (fd_actual_return d))) ValueError
            "replay market snapshot return conflicts with evaluation" ;;
          conflict (ms_content_hash s =? ob_market_snapshot_hash o)%string "market_snapshot_hash" ;;
          raise_when (negb (probs_close (ob_baseline o) (fd_probabilities d))) ValueError
            "replay baseline probabilities conflict with frozen forecast" ;;
          Ok d
      end
  end.

(** ** The registered transform *)

(** [math.log] of a positive and [math.exp] of a non-positive float. *)
Class LibM := { m_log : float -> float; m_exp : float -> float }.

Section Artifacts.
Context `{PyRuntime} `{CanonicalHash} `{LibM}.

(** [_apply_candidate_transform] *)
Definition apply_candidate_transform (baseline : Probs) (t : CandidateTransform) : Probs :=
  let logit d :=
    fadd (fdiv (m_log (fmax (prob baseline d) (lit 1 (10 ^ 15)))) (ct_temperature t))
         (prob (ct_class_logit_bias t) d) in
  let maximum := fmax (fmax (logit UP) (logit NEUTRAL)) (logit DOWN) in
  let exponential d := m_exp (fsub (logit d) maximum) in
  let total := py_sum (exponential <$> all_directions) in
  Probs_of (fun d => fdiv (exponential d) total).

Definition check_artifact (b : bool) (field_name : string) : result unit :=
  raise_when (negb b) ValueError
    ("replay " +:+ field_name +:+ " does not match its frozen manifest").

(** One iteration of the loop of [_validate_bundle_artifacts]. *)
Definition validate_artifact (m : ReplayManifest) (od : ReplayObservation * ForecastDiagnostic)
    : result unit :=
  let '(o, d) := od in
  raise_when (negb (fd_policy_version d =? mf_threshold_policy_version m)%string) ValueError
    "replay threshold policy version conflicts with ForecastDiagnostic" ;;
  raise_when (negb (fd_wiki_version d =? mf_wiki_version m)%string) ValueError
    "replay Wiki version conflicts with frozen forecast" ;;
  raise_when (negb (probs_close (apply_candidate_transform (ob_baseline o)
                                   (mf_candidate_transform m)) (ob_candidate o))) ValueError
    "replay candidate probabilities are not the registered deterministic transform".

(** [_validate_bundle_artifacts] *)
Definition validate_bundle_artifacts (m : ReplayManifest) (observations : list ReplayObservation)
    (diagnostics : list ForecastDiagnostic) : result unit :=
  let '(input_hash, baseline, candidate) := build_replay_manifest_hashes m in
  check_artifact (mf_replay_input_manifest_hash m =? input_hash)%string "replay_input_manifest_hash" ;;
  check_artifact (mf_baseline_artifact_hash m =? baseline)%string "baseline_artifact_hash" ;;
  check_artifact (mf_candidate_artifact_hash m =? candidate)%string "candidate_artifact_hash" ;;
  for_each (fun _ => validate_artifact m) tt (zip observations diagnostics).

(** ** Metrics *)

(** [_brier] *)
Definition brier (p : Probs) (actual : Direction) : float := brier_of p actual.

(** [_mean] *)
Definition mean (values : list float) : float :=
  fround12 (fdiv (py_sum values) (of_Z (Z.of_nat (length values)))).

Definition bin_index (probability : float) : nat :=
  Z.to_nat (Z.min (ftrunc (fmul probability (of_Z 10))) 9).

(** [bins[bin_index].append(entry)] *)
Definition add_to_bin (bins : list (list (float * float))) (entry : float * float)
    : list (list (float * float)) :=
  alter (fun entries => entries ++ [entry])%list (bin_index entry.1) bins.

(** The calibration error of one class. *)
Definition class_ece (probabilities : ReplayObservation -> Probs) (label : Direction)
    (observations : list ReplayObservation) : float :=
  let total := Z.of_nat (length observations) in
  let entry o := (prob (probabilities o) label,
                  indicator (bool_decide (ob_actual_label o = label))) in
  let bins := fold_left add_to_bin (entry <$> observations) (repeat [] 10) in
  fold_left (fun score entries =>
    match entries with
    | [] => score
    | _ => fadd score (fmul (int_div (Z.of_nat (length entries)) total)
                         (fabs (fsub (mean (fst <$> entries)) (mean (snd <$> entries)))))
    end) bins f0.

(** [_classwise_ece] *)
Definition classwise_ece (probabilities : ReplayObservation -> Probs)
    (observations : list ReplayObservation) : float :=
  mean ((fun label => class_ece probabilities label observations) <$> all_directions).

(** The subgroups an observation belongs to; a Python set. *)
Definition groups_of (o : ReplayObservation) : gset string :=
  list_to_set
    (("index:" +:+ ob_index_code o) :: ("horizon:" +:+ horizon_value (ob_horizon o))
     :: ((fun tag => "tag:" +:+ tag) <$> ob_important_subgroups o)).

Record SubgroupMetrics := mkSubgroup {
  sm_observation_count : Z;
  sm_baseline_average_brier : float;
  sm_candidate_average_brier : float;
  sm_average_brier_improvement : float;
  sm_non_degrading : bool }.

Definition scored (o : ReplayObservation) : float * float :=
  (brier (ob_baseline o) (ob_actual_label o), brier (ob_candidate o) (ob_actual_label o)).

Definition subgroup_metrics (members : list ReplayObservation) : SubgroupMetrics :=
  let group_baseline := mean (fst <$> (scored <$> members)) in
  let group_candidate := mean (snd <$> (scored <$> members)) in
  mkSubgroup (Z.of_nat (length members)) group_baseline group_candidate
    (fround12 (fsub group_baseline group_candidate))
    (fleb group_candidate (fadd group_baseline (lit 1 1000000000000))).

(** [subgroup_indexes.setdefault(group, []).append(index)] for every group *)
Definition add_to_groups (m : gmap string (list ReplayObservation)) (o : ReplayObservation)
    : gmap string (list ReplayObservation) :=
  set_fold (fun group m => <[group := (default [] (m !! group) ++ [o])%list]> m) m (groups_of o).

Record ReplayMetrics := mkReplayMetrics {
  rm_observation_count : Z;
  rm_distinct_target_dates : Z;
  rm_target_dates_hash : string;
  rm_replay_set_hash : string;
  rm_baseline_average_brier : float;
  rm_candidate_average_brier : float;
  rm_average_brier_improvement : float;
  rm_baseline_calibration_ece : float;
  rm_candidate_calibration_ece : float;
  rm_calibration_improvement : float;
  rm_important_subgroups_non_degrading : bool;
  rm_important_subgroups : gmap string SubgroupMetrics;
  rm_first_target_date : string;
  rm_last_target_date : string }.

(** [sorted({item["target_date"] for item in normalized})] *)
Definition distinct_dates (observations : list ReplayObservation) : list string :=
  merge_sort String.le
    (elements (list_to_set ((fun o => iso_date (ob_target_date o)) <$> observations) : gset string)).

(** [compute_replay_metrics] *)
Definition compute_replay_metrics (observations : list ReplayObservation) : result ReplayMetrics :=
  raise_when (match observations with [] => true | _ => false end) ValueError
    "at least one replay observation is required" ;;
  let normalized := sort_observations observations in
  let baseline_brier := mean (fst <$> (scored <$> normalized)) in
  let candidate_brier := mean (snd <$> (scored <$> normalized)) in
  let baseline_ece := classwise_ece ob_baseline normalized in
  let candidate_ece := classwise_ece ob_candidate normalized in
  let subgroups := subgroup_metrics <$> fold_left add_to_groups normalized ∅ in
  let dates := distinct_dates normalized in
  Ok (mkReplayMetrics (Z.of_nat (length normalized)) (Z.of_nat (length dates))
        (canonical_hash (JArr (JStr <$> dates)))
        (canonical_hash (JArr (dump_observation <$> normalized)))
        baseline_brier candidate_brier (fround12 (fsub baseline_brier candidate_brier))
        baseline_ece candidate_ece (fround12 (fsub baseline_ece candidate_ece))
        (forallb (fun g => sm_non_degrading g.2) (map_to_list subgroups)) subgroups
        (default "" (head dates)) (default "" (last dates))).

End Artifacts.

Definition dump_subgroup (g : SubgroupMetrics) : json :=
  JObj (list_to_map
    [("observation_count", JInt (sm_observation_count g));
     ("baseline_average_brier", JFloat (sm_baseline_average_brier g));
     ("candidate_average_brier", JFloat (sm_candidate_average_brier g));
     ("average_brier_improvement", JFloat (sm_average_brier_improvement g));
     ("non_degrading", JBool (sm_non_degrading g))]).

(** The dict [compute_replay_metrics] returns. *)
Definition metrics_dict (m : ReplayMetrics) : jobject :=
  list_to_map
    [("metric_version", JStr "three-class-brier-classwise-ece-v1");
     ("observation_count", JInt (rm_observation_count m));
     ("distinct_target_dates", JInt (rm_distinct_target_dates m));
     ("target_dates_hash", JStr (rm_target_dates_hash m));
     ("replay_set_hash", JStr (rm_replay_set_hash m));
     ("baseline_average_brier", JFloat (rm_baseline_average_brier m));
     ("candidate_average_brier", JFloat (rm_candidate_average_brier m));
     ("average_brier_improvement", JFloat (rm_average_brier_improvement m));
     ("baseline_calibration_ece", JFloat (rm_baseline_calibration_ece m));
     ("candidate_calibration_ece", JFloat (rm_candidate_calibration_ece m));
     ("calibration_improvement", JFloat (rm_calibration_improvement m));
     ("important_subgroups_non_degrading", JBool (rm_important_subgroups_non_degrading m));
     ("important_subgroups", JObj (dump_subgroup <$> rm_important_subgroups m));
     ("first_target_date", JStr (rm_first_target_date m));
     ("last_target_date", JStr (rm_last_target_date m))].

End Replay.
