(* ===== verification/Lesson.v ===== *)
(** * Lesson lifecycle ([backend/app/services/lesson_lifecycle.py])

    A lesson proposal is a candidate until a human approves it on frozen replay
    evidence; an active lesson is revalidated when due, and challenged, retired
    or superseded; every change appends an event, and the audit recomputes the
    whole chain. *)
From S2P Require Import Prelude PyStr PyTime Float64 Domain Json Contracts Evaluation Reflection Replay.
Import PyStr PyTime Float64 Domain Json Reflection Replay.
Open Scope string_scope.
Open Scope Z_scope.

Module Lesson.

(** ** Rows *)

Inductive LessonStatus := CANDIDATE | ACTIVE | CHALLENGED | RETIRED | SUPERSEDED.
Inductive EventType :=
  | EV_REPLAY_RECORDED | EV_APPROVED | EV_REVALIDATED | EV_CHALLENGED | EV_RETIRED | EV_SUPERSEDED.

#[global] Instance LessonStatus_eq_dec : EqDecision LessonStatus.
Proof. solve_decision. Defined.
#[global] Instance EventType_eq_dec : EqDecision EventType.
Proof. solve_decision. Defined.

Definition status_value (s : LessonStatus) : string :=
  match s with
  | CANDIDATE => "candidate" | ACTIVE => "active" | CHALLENGED => "challenged"
  | RETIRED => "retired" | SUPERSEDED => "superseded"
  end.

Definition event_type_value (t : EventType) : string :=
  match t with
  | EV_REPLAY_RECORDED => "replay_recorded" | EV_APPROVED => "approved"
  | EV_REVALIDATED => "revalidated" | EV_CHALLENGED => "challenged"
  | EV_RETIRED => "retired" | EV_SUPERSEDED => "superseded"
  end.

Record LessonProposal := mkLesson {
  lp_id : string;
  lp_episode_key : string;
  lp_cluster_key : string;
  lp_status : LessonStatus;
  lp_proposal_type : string;
  lp_independent_episode_count : Z;
  lp_replay_target_dates : Z;
  lp_replay_metrics : jobject;
  lp_half_life_sessions : Z;
  lp_created_at : datetime;
  lp_reviewed_at : option datetime;
  lp_supersedes_id : option string }.

(** An episode with the evaluation set of its first reflection. *)
Record LessonEpisode := Episode {
  ep_evidence_set_hash : string;
  ep_first_reflection_set_hash : string }.

Record LessonReplayBatch := Batch {
  ba_id : string;
  ba_lesson_id : string;
  ba_content_hash : string;
  ba_manifest : ReplayManifest;
  ba_observations : list ReplayObservation;
  ba_observation_count : Z;
  ba_distinct_target_dates : Z;
  ba_aggregate_metrics : jobject;
  ba_submitted_by : string;
  ba_created_at : datetime }.

Record LessonLifecycleEvent := Event {
  ev_id : string;
  ev_lesson_id : string;
  ev_sequence_number : Z;
  ev_type : EventType;
  ev_key : string;
  ev_from : LessonStatus;
  ev_to : LessonStatus;
  ev_actor : string;
  ev_reason : string;
  ev_payload : jobject;
  ev_payload_hash : string;
  ev_occurred_at : datetime;
  ev_occurred_at_canonical : string }.

(** Episodes are keyed by cluster and episode key; batches and events are in
    insertion order. *)
Record Ledger := mkLedger {
  ld_lessons : gmap string LessonProposal;
  ld_batches : list LessonReplayBatch;
  ld_events : list LessonLifecycleEvent;
  ld_episodes : gmap (string * string) LessonEpisode }.

Definition put_lesson (l : Ledger) (lesson : LessonProposal) : Ledger :=
  mkLedger (<[lp_id lesson := lesson]> (ld_lessons l)) (ld_batches l) (ld_events l) (ld_episodes l).
Definition add_batch (l : Ledger) (b : LessonReplayBatch) : Ledger :=
  mkLedger (ld_lessons l) (ld_batches l ++ [b]) (ld_events l) (ld_episodes l).
Definition add_event (l : Ledger) (e : LessonLifecycleEvent) : Ledger :=
  mkLedger (ld_lessons l) (ld_batches l) (ld_events l ++ [e]) (ld_episodes l).

Definition batches_of (l : Ledger) (lesson_id : string) : list LessonReplayBatch :=
  filter (fun b => ba_lesson_id b = lesson_id) (ld_batches l).
Definition events_of (l : Ledger) (lesson_id : string) : list LessonLifecycleEvent :=
  filter (fun e => ev_lesson_id e = lesson_id) (ld_events l).

(** [status in {"active", "challenged"}] *)
Definition is_head (s : LessonStatus) : bool := bool_decide (s = ACTIVE \/ s = CHALLENGED).

(** ** Python on JSON values *)

Definition get (m : jobject) (k : string) : json := default JNull (m !! k).

(** [{**base, **update}] *)
Definition updated (base update : jobject) : jobject := update ∪ base.

Definition json_truthy (j : json) : bool :=
  match j with
  | JNull => false
  | JBool b => b
  | JInt n => negb (n =? 0)
  | JFloat x => negb (feqb x f0)
  | JStr s => truthy s
  | JArr l => match l with [] => false | _ => true end
  | JObj m => negb (bool_decide (m = ∅))
  end.

(** [int(j)] *)
Definition json_int (j : json) : result Z :=
  match j with
  | JInt n => Ok n
  | JBool b => Ok (if b then 1 else 0)
  | JFloat x =>
      raise_when (is_nan x) ValueError "cannot convert float NaN to integer" ;;
      raise_when (is_inf x) OverflowError "cannot convert float infinity to integer" ;;
      Ok (ftrunc x)
  | JStr s => Evaluation.py_int s
  | _ => raise TypeError "int() argument must be a string, a bytes-like object or a real number"
  end.

(** [j <= 0] *)
Definition json_le_zero (j : json) : result bool :=
  match j with
  | JInt n => Ok (n <=? 0)
  | JFloat x => Ok (fleb x f0)
  | JBool b => Ok (negb b)
  | _ => raise TypeError "'<=' not supported"
  end.

(** A number or [None], as [assess_lesson_policy] compares it with zero. *)
Definition json_number (j : json) : result (option float) :=
  match j with
  | JNull => Ok None
  | JFloat x => Ok (Some x)
  | JInt n => Ok (Some (of_Z n))
  | JBool b => Ok (Some (of_Z (if b then 1 else 0)))
  | _ => raise TypeError "'<=' not supported"
  end.

Definition json_bool (j : json) : option bool := match j with JBool b => Some b | _ => None end.

(** ** Guards *)

Definition validate_actor_and_time (actor : string) (occurred_at : moment) : result unit :=
  let actor := py_strip actor in
  raise_when (negb (truthy actor) || (120 <? py_len actor)) ValueError
    "operator identity must contain 1-120 characters" ;;
  raise_when (negb (is_aware (m_at occurred_at))) ValueError
    "lifecycle timestamps must be timezone-aware".

Definition validate_reason (reason : string) : result unit :=
  raise_when (negb (truthy (py_strip reason)) || (20000 <? py_len reason)) ValueError
    "review notes must contain 1-20000 characters".

Definition find_lesson (l : Ledger) (lesson_id : string) : result LessonProposal :=
  match ld_lessons l !! lesson_id with
  | Some lesson => Ok lesson
  | None => raise ValueError "lesson proposal was not found"
  end.

(** ** Events *)

Definition event_by_key (l : Ledger) (lesson_id key : string) : option LessonLifecycleEvent :=
  head (filter (fun e => ev_key e = key) (events_of l lesson_id)).

Definition max_sequence (events : list LessonLifecycleEvent) : Z :=
  foldr Z.max 0 (ev_sequence_number <$> events).

(** [_event_envelope] *)
Definition event_envelope (e : LessonLifecycleEvent) : json :=
  JObj (list_to_map
    [("id", JStr (ev_id e)); ("lesson_proposal_id", JStr (ev_lesson_id e));
     ("sequence_number", JInt (ev_sequence_number e));
     ("event_type", JStr (event_type_value (ev_type e))); ("event_key", JStr (ev_key e));
     ("from_status", JStr (status_value (ev_from e))); ("to_status", JStr (status_value (ev_to e)));
     ("actor", JStr (ev_actor e)); ("reason", JStr (ev_reason e));
     ("payload", JObj (ev_payload e)); ("occurred_at", JStr (ev_occurred_at_canonical e))]).

(** What an event says, before it is numbered and hashed. *)
Record EventDraft := mkDraft {
  dr_lesson_id : string;
  dr_type : EventType;
  dr_key : string;
  dr_from : LessonStatus;
  dr_to : LessonStatus;
  dr_actor : string;
  dr_reason : string;
  dr_payload : jobject;
  dr_occurred_at : datetime }.

Section Events.
Context `{CanonicalHash}.

Definition seal_event (e : LessonLifecycleEvent) : LessonLifecycleEvent :=
  Event (ev_id e) (ev_lesson_id e) (ev_sequence_number e) (ev_type e) (ev_key e) (ev_from e)
    (ev_to e) (ev_actor e) (ev_reason e) (ev_payload e) (canonical_hash (event_envelope e))
    (ev_occurred_at e) (ev_occurred_at_canonical e).

(** [_append_event]; [new_id] is its [uuid4]. *)
Definition append_event (new_id : string) (l : Ledger) (d : EventDraft)
    : result (LessonLifecycleEvent * Ledger) :=
  raise_when (160 <? py_len (dr_key d)) ValueError "lesson lifecycle event key is too long" ;;
  match event_by_key l (dr_lesson_id d) (dr_key d) with
  | Some existing => Ok (existing, l)
  | None =>
      let sequence_number := max_sequence (events_of l (dr_lesson_id d)) + 1 in
      let event := seal_event (Event new_id (dr_lesson_id d) sequence_number (dr_type d) (dr_key d)
        (dr_from d) (dr_to d) (py_strip (dr_actor d)) (dr_reason d) (dr_payload d) ""
        (dr_occurred_at d) (isoformat (dr_occurred_at d))) in
      Ok (event, add_event l event)
  end.

End Events.

(** ** Review dates *)

(** [_add_calendar_month] *)
Definition add_calendar_month (value : datetime) : result datetime :=
  let c := ord2civil (date_of value) in
  let year := c_year c + c_month c / 12 in
  let month := c_month c mod 12 + 1 in
  let day := Z.min (c_day c) (days_in_month year month) in
  raise_when (9999 <? year) ValueError "year must be in 1..9999" ;;
  Ok (DateTime (ymd2ord year month day * us_per_day + time_of_day value) (dt_offset value)).

(** The same on a datetime that carries a zone, whose offset follows the date. *)
Definition add_calendar_month_in (value : moment) : result datetime :=
  next ← add_calendar_month (m_at value);
  Ok (attach (m_zone value) next).

(** [lesson_revalidation_due_reasons] *)
Definition lesson_revalidation_due_reasons (lesson : LessonProposal) (as_of : moment)
    : result (list string) :=
  raise_when (negb (is_aware (m_at as_of))) ValueError "as_of must be timezone-aware" ;;
  if negb (is_head (lp_status lesson)) then Ok []
  else
    let metrics := lp_replay_metrics lesson in
    let last_raw := if json_truthy (get metrics "last_revalidated_at")
                    then get metrics "last_revalidated_at" else get metrics "activated_at" in
    match last_raw with
    | JStr text =>
        match fromisoformat text with
        | None => raise ValueError "Invalid isoformat string"
        | Some last_at =>
            raise_when (negb (is_aware last_at)) ValueError
              "lesson validation timestamp must be timezone-aware" ;;
            last_count ← json_int (default (default (JInt 0) (metrics !! "activated_replay_target_dates"))
                                     (metrics !! "last_revalidated_target_dates"));
            let added := lp_replay_target_dates lesson - last_count in
            monthly ← add_calendar_month last_at;
            Ok (blocker (dt_leb monthly (m_at as_of)) "monthly"
                ++ blocker (LESSON_REVALIDATION_EPISODES <=? added) "new_20_target_dates"
                ++ blocker (lp_half_life_sessions lesson <=? added) "half_life_60_sessions")%list
        end
    | _ => raise ValueError "active lesson is missing its last validation timestamp"
    end.

Record DueLessonReview := mkDue {
  du_lesson_id : string; du_status : LessonStatus; du_reasons : list string;
  du_latest_replay_hash : json }.

(** How the database orders the timestamps it stores. *)
Class TimestampOrder := { stored_key : datetime -> Z }.

Definition lesson_order `{TimestampOrder} (a b : LessonProposal) : Prop :=
  lex_le Z.le String.le (stored_key (lp_created_at a), lp_id a) (stored_key (lp_created_at b), lp_id b).
#[global] Instance lesson_order_dec `{TimestampOrder} a b : Decision (lesson_order a b).
Proof. unfold lesson_order. apply _. Defined.

Definition batch_order `{TimestampOrder} (a b : LessonReplayBatch) : Prop :=
  lex_le Z.le String.le (stored_key (ba_created_at a), ba_id a) (stored_key (ba_created_at b), ba_id b).
#[global] Instance batch_order_dec `{TimestampOrder} a b : Decision (batch_order a b).
Proof. unfold batch_order. apply _. Defined.

Definition event_order (a b : LessonLifecycleEvent) : Prop :=
  ev_sequence_number a <= ev_sequence_number b.
#[global] Instance event_order_dec a b : Decision (event_order a b).
Proof. unfold event_order. apply _. Defined.

(** [due_lesson_reviews] *)
Definition due_lesson_reviews `{TimestampOrder} (l : Ledger) (as_of : moment)
    : result (list DueLessonReview) :=
  let heads := filter (fun p => is_head (lp_status p) = true)
                 (snd <$> map_to_list (ld_lessons l)) in
  for_each (fun due row =>
    reasons ← lesson_revalidation_due_reasons row as_of;
    Ok (match reasons with
        | [] => due
        | _ => due ++ [mkDue (lp_id row) (lp_status row) reasons
                         (get (lp_replay_metrics row) "replay_set_hash")]
        end)%list) [] (merge_sort lesson_order heads).

(** ** Operations *)

Section Operations.
Context `{PyRuntime} `{CanonicalHash} `{LibM} `{TimestampOrder}.

(** What the services read beside the ledger: the frozen outcomes and the
    reflections, with the hash of the default universe. *)
Context (frozen : gmap string ForecastDiagnostic) (reflections : Reflection.Db)
  (default_universe : string).

Definition completed_shadow_target_dates : Z :=
  completed_live_target_date_count reflections default_universe None.

(** [_assess_current_policy] *)
Definition assess_current_policy (lesson : LessonProposal) (independent_episode_count : Z)
    (aggregate_metrics : jobject) (required_shadow_target_dates : Z) : result jobject :=
  let immediate := get_true (lp_replay_metrics lesson) "immediate_extreme_checklist" in
  target_dates ← json_int (default (JInt 0) (aggregate_metrics !! "distinct_target_dates"));
  brier ← json_number (get aggregate_metrics "average_brier_improvement");
  calibration ← json_number (get aggregate_metrics "calibration_improvement");
  Ok (assessment_dict
        (assess_lesson_policy (lp_proposal_type lesson)
           (if immediate then "extreme" else "directional")
           (mkEvidence independent_episode_count target_dates brier calibration
              (json_bool (get aggregate_metrics "important_subgroups_non_degrading"))
              completed_shadow_target_dates required_shadow_target_dates))).

(** *** Proposals ([backend/app/services/reflection_handoff.py]) *)

Definition episode_count (l : Ledger) (cluster_key : string) : Z :=
  Z.of_nat (size (filter (fun x => x.1.1 = cluster_key) (ld_episodes l))).

Record LessonProposalDraft := ProposalDraft { pd_recurrence_key : string; pd_lesson_type : string }.

(** What a finalized reflection says about its lessons. *)
Record ReflectionRequest := mkRequest {
  rq_target_date : date;
  rq_evaluation_set_hash : string;
  rq_overall_severity : string }.

(** The latest proposal of the cluster first. *)
Definition newest_first (a b : LessonProposal) : Prop :=
  stored_key (lp_created_at b) <= stored_key (lp_created_at a).
#[local] Instance newest_first_dec a b : Decision (newest_first a b).
Proof. unfold newest_first. apply _. Defined.

Definition historical_lessons (l : Ledger) (cluster_key : string) : list LessonProposal :=
  filter (fun p => lp_cluster_key p = cluster_key) (snd <$> map_to_list (ld_lessons l)).

Definition prior_replay_metrics (historical : list LessonProposal) : jobject :=
  default ∅ (head (filter (fun m => m <> ∅)
                     (lp_replay_metrics <$> merge_sort newest_first historical))).

(** The episode of a cluster on a target date is recorded once. *)
Definition ensure_episode (l : Ledger) (request : ReflectionRequest) (cluster_key : string) : Ledger :=
  let key := (cluster_key, iso_date (rq_target_date request)) in
  match ld_episodes l !! key with
  | Some _ => l
  | None =>
      mkLedger (ld_lessons l) (ld_batches l) (ld_events l)
        (<[key := Episode (rq_evaluation_set_hash request) (rq_evaluation_set_hash request)]>
           (ld_episodes l))
  end.

(** [max(values, default=0)] *)
Definition max_or_zero (values : list Z) : Z :=
  match values with [] => 0 | v :: vs => foldr Z.max v vs end.

(** One iteration of the loop over the lessons of [_persist_findings_and_lessons];
    [new_id] is its [uuid4]. *)
Definition persist_lesson (new_id : string) (request : ReflectionRequest) (finalized_at : moment)
    (required_shadow_target_dates : Z) (l : Ledger) (lesson : LessonProposalDraft) : result Ledger :=
  let cluster_key := pd_recurrence_key lesson in
  let l := ensure_episode l request cluster_key in
  let historical := historical_lessons l cluster_key in
  let independent_episode_count := episode_count l cluster_key in
  let replay_target_dates := max_or_zero (lp_replay_target_dates <$> historical) in
  let prior := prior_replay_metrics historical in
  brier ← json_number (get prior "average_brier_improvement");
  calibration ← json_number (get prior "calibration_improvement");
  let assessment :=
    assess_lesson_policy (pd_lesson_type lesson) (rq_overall_severity request)
      (mkEvidence independent_episode_count replay_target_dates brier calibration
         (json_bool (get prior "important_subgroups_non_degrading"))
         (completed_live_target_date_count reflections default_universe
            (Some (rq_target_date request)))
         required_shadow_target_dates) in
  let replay_metrics :=
    updated (assessment_dict assessment) (list_to_map
      [("average_brier_improvement", get prior "average_brier_improvement");
       ("calibration_improvement", get prior "calibration_improvement");
       ("important_subgroups_non_degrading", get prior "important_subgroups_non_degrading");
       ("revalidation_due_after_independent_episode_count",
          JInt (independent_episode_count + LESSON_REVALIDATION_EPISODES));
       ("revalidation_due_after_sessions", JInt LESSON_HALF_LIFE_SESSIONS)]) in
  Ok (put_lesson l
        (mkLesson new_id (iso_date (rq_target_date request)) cluster_key CANDIDATE
           (pd_lesson_type lesson) independent_episode_count replay_target_dates replay_metrics
           LESSON_HALF_LIFE_SESSIONS (m_at finalized_at) None None)).

(** *** [record_lesson_replay] *)

(** The lesson after the projection is refreshed. *)
Definition refresh_projection (l : Ledger) (lesson : LessonProposal) (aggregate : ReplayMetrics)
    (recorded_at : moment) (required_shadow_target_dates : Z) : result LessonProposal :=
  let independent_episode_count :=
    Z.max (lp_independent_episode_count lesson) (episode_count l (lp_cluster_key lesson)) in
  let aggregate_metrics := metrics_dict aggregate in
  assessment ← assess_current_policy lesson independent_episode_count aggregate_metrics
                 required_shadow_target_dates;
  let projection :=
    updated (updated (updated (lp_replay_metrics lesson) aggregate_metrics) assessment)
      (list_to_map
        [("completed_shadow_target_dates", JInt completed_shadow_target_dates);
         ("revalidation_due_after_independent_episode_count",
            JInt (independent_episode_count + LESSON_REVALIDATION_EPISODES));
         ("revalidation_due_after_sessions", JInt (lp_half_life_sessions lesson));
         ("automatic_wiki_promotion", JBool false);
         ("wiki_promotion_status", JStr "not_promoted")]) in
  let with_metrics metrics :=
    mkLesson (lp_id lesson) (lp_episode_key lesson) (lp_cluster_key lesson) (lp_status lesson)
      (lp_proposal_type lesson) independent_episode_count (rm_distinct_target_dates aggregate)
      metrics (lp_half_life_sessions lesson) (lp_created_at lesson) (lp_reviewed_at lesson)
      (lp_supersedes_id lesson) in
  if is_head (lp_status lesson) then
    due_reasons ← lesson_revalidation_due_reasons (with_metrics projection) recorded_at;
    Ok (with_metrics (updated projection (list_to_map
          [("revalidation_due", JBool (match due_reasons with [] => false | _ => true end));
           ("revalidation_due_reasons", JArr (JStr <$> due_reasons))])))
  else Ok (with_metrics projection).

Definition count_dates (observations : list ReplayObservation) : Z :=
  Z.of_nat (length (distinct_dates observations)).

Definition replay_event_key (content_hash : string) : string := "replay:" +:+ content_hash.

Record ReplayRecordResult := RecordResult {
  rr_batch : LessonReplayBatch; rr_event : LessonLifecycleEvent; rr_idempotent : bool }.

Definition prior_observations (l : Ledger) (lesson_id : string) : list ReplayObservation :=
  batches_of l lesson_id ≫= ba_observations.

(** The checks of a bundle that is not yet recorded. *)
Definition check_new_replay (l : Ledger) (lesson : LessonProposal) (bundle : LessonReplayBundle)
    : result unit :=
  raise_when (existsb (fun b => negb (bool_decide (ba_manifest b = rb_manifest bundle)))
                (batches_of l (lp_id lesson))) ValueError
    "replay manifest changed; create a successor Lesson instead of mixing rule, Wiki, threshold, or protocol versions" ;;
  let prior : gset identity :=
    list_to_set (observation_identity <$> prior_observations l (lp_id lesson)) in
  raise_when (existsb (fun o => bool_decide (observation_identity o ∈ prior))
                (rb_observations bundle)) ValueError
    "replay observations were already recorded".

Definition record_lesson_replay (batch_id event_id : string) (l : Ledger)
    (bundle : LessonReplayBundle) (submitted_by : string) (recorded_at : moment)
    (required_shadow_target_dates : Z) : result (ReplayRecordResult * Ledger) :=
  let manifest := rb_manifest bundle in
  let observations := rb_observations bundle in
  validate_actor_and_time submitted_by recorded_at ;;
  lesson ← find_lesson l (mf_lesson_id manifest);
  raise_when (bool_decide (lp_status lesson = RETIRED \/ lp_status lesson = SUPERSEDED)) ValueError
    "retired or superseded lessons cannot accept replay observations" ;;
  diagnostics ← mapM_result (validate_against_frozen_outcome frozen) observations;
  validate_bundle_artifacts manifest observations diagnostics ;;
  let content_hash := bundle_hash manifest observations in
  match head (filter (fun b => ba_content_hash b = content_hash) (batches_of l (lp_id lesson))) with
  | Some batch =>
      match event_by_key l (lp_id lesson) (replay_event_key content_hash) with
      | None => raise RuntimeError "replay batch exists without its immutable lifecycle event"
      | Some event => Ok (RecordResult batch event true, l)
      end
  | None =>
      check_new_replay l lesson bundle ;;
      aggregate ← compute_replay_metrics
                    (sort_observations (prior_observations l (lp_id lesson) ++ observations)%list);
      lesson' ← refresh_projection l lesson aggregate recorded_at required_shadow_target_dates;
      let batch := Batch batch_id (lp_id lesson) content_hash manifest observations
        (Z.of_nat (length observations)) (count_dates observations) (metrics_dict aggregate)
        (py_strip submitted_by) (m_at recorded_at) in
      '(event, l') ← append_event event_id (add_batch (put_lesson l lesson') batch)
        (mkDraft (lp_id lesson) EV_REPLAY_RECORDED (replay_event_key content_hash)
           (lp_status lesson) (lp_status lesson) submitted_by
           "deterministic replay observations recorded"
           (list_to_map
             [("batch_id", JStr batch_id); ("batch_content_hash", JStr content_hash);
              ("manifest", JObj (manifest_dict manifest));
              ("batch_observation_count", JInt (Z.of_nat (length observations)));
              ("aggregate_replay_set_hash", JStr (rm_replay_set_hash aggregate));
              ("aggregate_metrics", JObj (metrics_dict aggregate))])
           (m_at recorded_at));
      Ok (RecordResult batch event false, l')
  end.

(** *** [approve_lesson] *)

Record LessonTransitionResult := Transition {
  tr_lesson : LessonProposal; tr_event : LessonLifecycleEvent; tr_idempotent : bool }.

Fixpoint join_texts (l : list json) : result string :=
  match l with
  | [] => Ok ""
  | [JStr s] => Ok s
  | JStr s :: l' => t ← join_texts l'; Ok (s +:+ ", " +:+ t)
  | _ => raise TypeError "sequence item: expected str instance"
  end.

(** The text appended to the refusal. *)
Definition blocker_text (metrics : jobject) : result string :=
  let blockers := default (JArr []) (metrics !! "blockers") in
  if negb (json_truthy blockers) then Ok ""
  else match blockers with
       | JArr l => t ← join_texts l; Ok (": " +:+ t)
       | _ => raise TypeError "can only join an iterable"
       end.

(** [_validate_activation_eligibility] *)
Definition validate_activation_eligibility (l : Ledger) (lesson : LessonProposal) : result unit :=
  let metrics := lp_replay_metrics lesson in
  raise_when (negb (bool_decide (metrics !! "automatic_promotion_allowed" = Some (JBool false))))
    ValueError "lesson policy must explicitly prohibit automatic promotion" ;;
  (if get_true metrics "wiki_review_ready" then Ok tt
   else text ← blocker_text metrics;
        raise ValueError ("lesson is not eligible for human activation" +:+ text)) ;;
  if get_true metrics "immediate_extreme_checklist" then
    raise_when (negb (bool_decide (lp_proposal_type lesson ∈ IMMEDIATE_EXTREME_TYPES))) ValueError
      "an extreme singleton may only be a checklist proposal"
  else
    raise_when (length (batches_of l (lp_id lesson)) =? 0)%nat ValueError
      "ordinary lesson requires its own frozen replay batch" ;;
    raise_when (lp_independent_episode_count lesson <? MIN_INDEPENDENT_EPISODES) ValueError
      "ordinary lesson needs at least 5 independent episodes" ;;
    raise_when (lp_replay_target_dates lesson <? MIN_REPLAY_TARGET_DATES) ValueError
      "ordinary lesson needs at least 20 replay target dates" ;;
    no_brier ← json_le_zero (default (JInt 0) (metrics !! "average_brier_improvement"));
    raise_when no_brier ValueError "ordinary lesson must improve average Brier" ;;
    no_calibration ← json_le_zero (default (JInt 0) (metrics !! "calibration_improvement"));
    raise_when no_calibration ValueError "ordinary lesson must improve calibration" ;;
    raise_when (negb (get_true metrics "important_subgroups_non_degrading")) ValueError
      "ordinary lesson regresses an important subgroup".

(** The other active or challenged lessons of the cluster. *)
Definition active_heads (l : Ledger) (lesson : LessonProposal) : list LessonProposal :=
  filter (fun p => lp_cluster_key p = lp_cluster_key lesson /\ lp_id p <> lp_id lesson
                   /\ is_head (lp_status p) = true)
    (snd <$> map_to_list (ld_lessons l)).

(** The head an approval replaces. *)
Definition superseded_head (heads : list LessonProposal) (supersedes_id : option string)
    : result (option LessonProposal) :=
  match heads with
  | [] =>
      raise_when (bool_decide (supersedes_id <> None)) ValueError
        "supersedes must point to the current active cluster head" ;;
      Ok None
  | [superseded] =>
      raise_when (negb (bool_decide (supersedes_id = Some (lp_id superseded)))) ValueError
        "an active cluster head exists; approval must explicitly supersede it" ;;
      Ok (Some superseded)
  | _ => raise ValueError "lesson cluster has multiple active heads and must be repaired"
  end.

(** A lesson with a new status, review time, predecessor and metrics. *)
Definition moved (lesson : LessonProposal) (status : LessonStatus) (reviewed_at : datetime)
    (supersedes_id : option string) (metrics : jobject) : LessonProposal :=
  mkLesson (lp_id lesson) (lp_episode_key lesson) (lp_cluster_key lesson) status
    (lp_proposal_type lesson) (lp_independent_episode_count lesson) (lp_replay_target_dates lesson)
    metrics (lp_half_life_sessions lesson) (lp_created_at lesson) (Some reviewed_at) supersedes_id.

Definition superseded_lesson (superseded : LessonProposal) (successor_id : string)
    (approved_at : moment) : LessonProposal :=
  moved superseded SUPERSEDED (m_at approved_at) (lp_supersedes_id superseded)
    (updated (lp_replay_metrics superseded) (list_to_map
      [("superseded_by_id", JStr successor_id);
       ("superseded_at", JStr (isoformat (m_at approved_at)));
       ("revalidation_due", JBool false);
       ("revalidation_due_reasons", JArr []);
       ("automatic_wiki_promotion", JBool false);
       ("wiki_promotion_status", JStr "not_promoted")])).

Definition activated_lesson (lesson : LessonProposal) (reviewer : string) (approved_at : moment)
    (next_month : datetime) (supersedes_id : option string) : LessonProposal :=
  let dates := lp_replay_target_dates lesson in
  moved lesson ACTIVE (m_at approved_at) supersedes_id
    (updated (lp_replay_metrics lesson) (list_to_map
      [("activated_at", JStr (isoformat (m_at approved_at)));
       ("activated_replay_target_dates", JInt dates);
       ("last_revalidated_at", JStr (isoformat (m_at approved_at)));
       ("last_revalidated_target_dates", JInt dates);
       ("last_revalidated_replay_set_hash", get (lp_replay_metrics lesson) "replay_set_hash");
       ("next_monthly_revalidation_at", JStr (isoformat next_month));
       ("next_replay_revalidation_target_dates", JInt (dates + LESSON_REVALIDATION_EPISODES));
       ("consecutive_failed_revalidations", JInt 0);
       ("revalidation_due", JBool false);
       ("revalidation_due_reasons", JArr []);
       ("human_activation_reviewer", JStr (py_strip reviewer));
       ("automatic_wiki_promotion", JBool false);
       ("wiki_promotion_status", JStr "not_promoted")])).

Definition approve_event_key (lesson_id reviewer notes : string) (supersedes_id : option string)
    : string :=
  "approve:" +:+ canonical_hash (JObj (list_to_map
    [("lesson_id", JStr lesson_id); ("reviewer", JStr (py_strip reviewer));
     ("notes", JStr notes); ("supersedes_id", opt_json supersedes_id)])).

(** The event of the superseded head. *)
Definition append_superseded (event_id : string) (l : Ledger) (superseded : option LessonProposal)
    (successor_id approval_event_id reviewer notes : string) (approved_at : moment)
    : result Ledger :=
  match superseded with
  | None => Ok l
  | Some old =>
      '(_, l') ← append_event event_id l
        (mkDraft (lp_id old) EV_SUPERSEDED ("superseded-by:" +:+ successor_id) (lp_status old)
           SUPERSEDED reviewer notes
           (list_to_map [("successor_id", JStr successor_id);
                         ("successor_approval_event_id", JStr approval_event_id);
                         ("wiki_promotion_performed", JBool false)])
           (m_at approved_at));
      Ok l'
  end.

Definition approve_lesson (event_id superseded_event_id : string) (l : Ledger)
    (lesson_id reviewer notes : string) (approved_at : moment) (supersedes_id : option string)
    : result (LessonTransitionResult * Ledger) :=
  validate_actor_and_time reviewer approved_at ;;
  validate_reason notes ;;
  lesson ← find_lesson l lesson_id;
  let event_key := approve_event_key lesson_id reviewer notes supersedes_id in
  match event_by_key l lesson_id event_key with
  | Some existing => Ok (Transition lesson existing true, l)
  | None =>
      raise_when (negb (bool_decide (lp_status lesson = CANDIDATE))) ValueError
        "only a candidate lesson may be approved" ;;
      validate_activation_eligibility l lesson ;;
      superseded ← superseded_head (active_heads l lesson) supersedes_id;
      next_month ← add_calendar_month_in approved_at;
      let l1 := match superseded with
                | Some old => put_lesson l (superseded_lesson old lesson_id approved_at)
                | None => l
                end in
      let lesson' := activated_lesson lesson reviewer approved_at next_month
                       (lp_id <$> superseded) in
      '(event, l2) ← append_event event_id (put_lesson l1 lesson')
        (mkDraft lesson_id EV_APPROVED event_key CANDIDATE ACTIVE reviewer notes
           (list_to_map
             [("supersedes_id", opt_json (lp_id <$> superseded));
              ("replay_set_hash", get (lp_replay_metrics lesson') "replay_set_hash");
              ("policy_version", get (lp_replay_metrics lesson') "policy_version");
              ("wiki_promotion_performed", JBool false)])
           (m_at approved_at));
      l3 ← append_superseded superseded_event_id l2 superseded lesson_id (ev_id event)
             reviewer notes approved_at;
      Ok (Transition lesson' event false, l3)
  end.

(** *** [revalidate_lesson] *)

Definition checklist_keys : list string :=
  ["policy_version"; "evidence_threshold_met"; "wiki_review_ready"; "automatic_promotion_allowed";
   "blockers"; "immediate_extreme_checklist"; "requirements"].

Definition has_fresh_replay (lesson : LessonProposal) (last_target_dates : Z) : bool :=
  let metrics := lp_replay_metrics lesson in
  (last_target_dates <? lp_replay_target_dates lesson)
  && match get metrics "replay_set_hash" with
     | JStr h => negb (bool_decide (JStr h = get metrics "last_revalidated_replay_set_hash"))
     | _ => false
     end.

Definition no_new_evidence (assessment : jobject) : jobject :=
  let blockers := match assessment !! "blockers" with Some (JArr l) => l | _ => [] end in
  updated assessment (list_to_map
    [("wiki_review_ready", JBool false);
     ("blockers", JArr (blockers ++ [JStr "no_new_replay_evidence_since_last_validation"]))]).

(** Whether the review passes, and the assessment it records. *)
Definition revalidation_assessment (lesson : LessonProposal) (required_shadow_target_dates : Z)
    (checklist_valid : option bool) : result (bool * jobject) :=
  let metrics := lp_replay_metrics lesson in
  if get_true metrics "immediate_extreme_checklist" then
    match checklist_valid with
    | None => raise ValueError "extreme-event checklist revalidation requires checklist_valid"
    | Some passed => Ok (passed, list_to_map ((fun k => (k, get metrics k)) <$> checklist_keys))
    end
  else
    assessment ← assess_current_policy lesson (lp_independent_episode_count lesson) metrics
                   required_shadow_target_dates;
    last_target_dates ← json_int (default (JInt 0) (metrics !! "last_revalidated_target_dates"));
    let assessment := if has_fresh_replay lesson last_target_dates then assessment
                      else no_new_evidence assessment in
    Ok (get_true assessment "wiki_review_ready", assessment).

(** The next status, failure count and event type. *)
Definition revalidation_outcome (previous : LessonStatus) (prior_failures : Z) (passed : bool)
    : LessonStatus * Z * EventType :=
  if passed then (ACTIVE, 0, EV_REVALIDATED)
  else
    let failures := prior_failures + 1 in
    if bool_decide (previous = CHALLENGED) || (2 <=? failures)
    then (RETIRED, failures, EV_RETIRED)
    else (CHALLENGED, failures, EV_CHALLENGED).

Definition revalidate_event_key (lesson : LessonProposal) (reviewer notes : string)
    (reviewed_at : moment) (checklist_valid : option bool) : string :=
  "revalidate:" +:+ canonical_hash (JObj (list_to_map
    [("lesson_id", JStr (lp_id lesson)); ("reviewer", JStr (py_strip reviewer));
     ("notes", JStr notes); ("reviewed_at", JStr (isoformat (m_at reviewed_at)));
     ("replay_set_hash", get (lp_replay_metrics lesson) "replay_set_hash");
     ("checklist_valid", match checklist_valid with Some b => JBool b | None => JNull end)])).

(** The metrics after a review. *)
Definition reviewed_metrics (lesson : LessonProposal) (assessment : jobject) (passed : bool)
    (failures : Z) (next_status : LessonStatus) (due_reasons : list string) (reviewed_at : moment)
    : result jobject :=
  let metrics := lp_replay_metrics lesson in
  let projection :=
    updated (updated metrics assessment) (list_to_map
      [("last_revalidated_at", JStr (isoformat (m_at reviewed_at)));
       ("last_revalidated_target_dates", JInt (lp_replay_target_dates lesson));
       ("last_revalidated_replay_set_hash", get metrics "replay_set_hash");
       ("last_revalidation_result", JStr (if passed then "passed" else "failed"));
       ("last_revalidation_due_reasons", JArr (JStr <$> due_reasons));
       ("consecutive_failed_revalidations", JInt failures);
       ("automatic_wiki_promotion", JBool false);
       ("wiki_promotion_status", JStr "not_promoted")]) in
  if bool_decide (next_status = RETIRED) then
    Ok (updated projection (list_to_map
      [("retired_at", JStr (isoformat (m_at reviewed_at)));
       ("revalidation_due", JBool false);
       ("revalidation_due_reasons", JArr []);
       ("next_monthly_revalidation_at", JNull);
       ("next_replay_revalidation_target_dates", JNull)]))
  else
    next_month ← add_calendar_month_in reviewed_at;
    Ok (updated projection (list_to_map
      [("next_monthly_revalidation_at", JStr (isoformat next_month));
       ("next_replay_revalidation_target_dates",
          JInt (lp_replay_target_dates lesson + LESSON_REVALIDATION_EPISODES));
       ("revalidation_due", JBool false);
       ("revalidation_due_reasons", JArr [])])).

Definition revalidate_lesson (event_id : string) (l : Ledger) (lesson_id reviewer notes : string)
    (reviewed_at : moment) (required_shadow_target_dates : Z) (checklist_valid : option bool)
    : result (LessonTransitionResult * Ledger) :=
  validate_actor_and_time reviewer reviewed_at ;;
  validate_reason notes ;;
  lesson ← find_lesson l lesson_id;
  let event_key := revalidate_event_key lesson reviewer notes reviewed_at checklist_valid in
  match event_by_key l lesson_id event_key with
  | Some existing => Ok (Transition lesson existing true, l)
  | None =>
      raise_when (negb (is_head (lp_status lesson))) ValueError
        "only an active or challenged lesson may be revalidated" ;;
      due_reasons ← lesson_revalidation_due_reasons lesson reviewed_at;
      raise_when (bool_decide (due_reasons = [])) ValueError "lesson revalidation is not due" ;;
      '(passed, assessment) ← revalidation_assessment lesson required_shadow_target_dates
                                checklist_valid;
      prior_failures ← json_int (default (JInt 0)
                         (lp_replay_metrics lesson !! "consecutive_failed_revalidations"));
      let '(next_status, failures, event_type) :=
        revalidation_outcome (lp_status lesson) prior_failures passed in
      metrics ← reviewed_metrics lesson assessment passed failures next_status due_reasons reviewed_at;
      let lesson' := moved lesson next_status (m_at reviewed_at) (lp_supersedes_id lesson) metrics in
      '(event, l') ← append_event event_id (put_lesson l lesson')
        (mkDraft lesson_id event_type event_key (lp_status lesson) next_status reviewer notes
           (list_to_map
             [("passed", JBool passed);
              ("due_reasons", JArr (JStr <$> due_reasons));
              ("checklist_valid", match checklist_valid with Some b => JBool b | None => JNull end);
              ("consecutive_failed_revalidations", JInt failures);
              ("replay_set_hash", get (lp_replay_metrics lesson) "replay_set_hash");
              ("policy_assessment", JObj assessment);
              ("wiki_promotion_performed", JBool false)])
           (m_at reviewed_at));
      Ok (Transition lesson' event false, l')
  end.

(** *** [verify_lesson_audit] *)

(** What the audit has accumulated over the batches. *)
Record BatchAudit := mkBatchAudit {
  au_manifest : option ReplayManifest;
  au_observations : list ReplayObservation;
  au_identities : gset identity;
  au_event_keys : gset string;
  au_latest_metrics : option jobject }.

Definition audit_error {A} (m : string) : result A := raise ValueError m.
Definition audit_when (b : bool) (m : string) : result unit := raise_when b ValueError m.

(** The checks of one batch that do not involve the others. *)
Definition audit_batch_content (b : LessonReplayBatch) : result unit :=
  audit_when (negb (ba_observation_count b =? Z.of_nat (length (ba_observations b))))
    "replay batch observation count failed audit" ;;
  audit_when (negb (ba_distinct_target_dates b =? count_dates (ba_observations b)))
    "replay batch target-date count failed audit" ;;
  audit_when (negb (bundle_hash (ba_manifest b) (ba_observations b) =? ba_content_hash b)%string)
    "replay batch content hash failed audit" ;;
  bundle ← parse_replay_bundle (Bundle (ba_manifest b) (sort_observations (ba_observations b)));
  diagnostics ← mapM_result (validate_against_frozen_outcome frozen) (rb_observations bundle);
  validate_bundle_artifacts (rb_manifest bundle) (rb_observations bundle) diagnostics ;;
  audit_when (negb (bool_decide (NoDup (observation_identity <$> ba_observations b))))
    "duplicate observations exist inside a replay batch".

(** One iteration of the loop over the batches. *)
Definition audit_batch (lesson_id : string) (a : BatchAudit) (b : LessonReplayBatch)
    : result BatchAudit :=
  audit_when (negb (mf_lesson_id (ba_manifest b) =? lesson_id)%string)
    "replay manifest lesson identity failed audit" ;;
  let manifest := default (ba_manifest b) (au_manifest a) in
  audit_when (negb (bool_decide (ba_manifest b = manifest)))
    "replay manifests differ inside one Lesson" ;;
  audit_batch_content b ;;
  let identities : gset identity := list_to_set (observation_identity <$> ba_observations b) in
  audit_when (negb (bool_decide (au_identities a ## identities)))
    "replay observation identity was counted more than once" ;;
  let observations := sort_observations (au_observations a ++ ba_observations b)%list in
  expected ← compute_replay_metrics observations;
  audit_when (negb (bool_decide (ba_aggregate_metrics b = metrics_dict expected)))
    "replay aggregate metrics failed deterministic audit" ;;
  Ok (mkBatchAudit (Some manifest) observations (au_identities a ∪ identities)
        ({[ replay_event_key (ba_content_hash b) ]} ∪ au_event_keys a)
        (Some (ba_aggregate_metrics b))).

Definition no_batches : BatchAudit := mkBatchAudit None [] ∅ ∅ None.

(** [_validate_event_transition] *)
Definition allowed (t : EventType) (from to : LessonStatus) : bool :=
  match t, from, to with
  | EV_REPLAY_RECORDED, CANDIDATE, CANDIDATE
  | EV_REPLAY_RECORDED, ACTIVE, ACTIVE
  | EV_REPLAY_RECORDED, CHALLENGED, CHALLENGED
  | EV_APPROVED, CANDIDATE, ACTIVE
  | EV_REVALIDATED, ACTIVE, ACTIVE
  | EV_REVALIDATED, CHALLENGED, ACTIVE
  | EV_CHALLENGED, ACTIVE, CHALLENGED
  | EV_RETIRED, CHALLENGED, RETIRED
  | EV_SUPERSEDED, ACTIVE, SUPERSEDED
  | EV_SUPERSEDED, CHALLENGED, SUPERSEDED => true
  | _, _, _ => false
  end.

Record EventAudit := mkEventAudit {
  ae_sequence : Z;
  ae_status : LessonStatus;
  ae_replay_keys : gset string }.

Definition remove_prefix (p s : string) : string :=
  if String.prefix p s then String.substring (String.length p) (String.length s - String.length p) s
  else s.

(** One iteration of the loop over the events. *)
Definition audit_event (a : EventAudit) (e : LessonLifecycleEvent) : result EventAudit :=
  audit_when (negb (ev_sequence_number e =? ae_sequence a))
    "Lesson lifecycle event sequence is not contiguous" ;;
  match fromisoformat (ev_occurred_at_canonical e) with
  | None => audit_error "Invalid isoformat string"
  | Some at_ =>
      audit_when (negb (dt_wall (ev_occurred_at e) =? dt_wall at_))
        "Lesson lifecycle event timestamp failed audit"
  end ;;
  audit_when (negb (canonical_hash (event_envelope e) =? ev_payload_hash e)%string)
    "Lesson lifecycle event envelope hash failed audit" ;;
  audit_when (negb (bool_decide (ev_from e = ae_status a)))
    "Lesson lifecycle status chain failed audit" ;;
  audit_when (negb (allowed (ev_type e) (ev_from e) (ev_to e)))
    "illegal Lesson lifecycle event transition" ;;
  keys ← (if bool_decide (ev_type e = EV_REPLAY_RECORDED) then
            audit_when (negb (bool_decide (get (ev_payload e) "batch_content_hash"
                                           = JStr (remove_prefix "replay:" (ev_key e)))))
              "replay lifecycle event does not match its batch hash" ;;
            Ok ({[ ev_key e ]} ∪ ae_replay_keys a)
          else Ok (ae_replay_keys a));
  Ok (mkEventAudit (ae_sequence a + 1) (ev_to e) keys).

Definition no_events : EventAudit := mkEventAudit 1 CANDIDATE ∅.

(** The projection of the latest batch in the lesson's row. *)
Definition audit_projection (lesson : LessonProposal) (latest : option jobject) : result unit :=
  match latest with
  | Some metrics =>
      audit_when (existsb (fun kv => negb (bool_decide (get (lp_replay_metrics lesson) kv.1 = kv.2)))
                    (map_to_list metrics)) "Lesson replay metric projection failed audit" ;;
      audit_when (negb (bool_decide (metrics !! "distinct_target_dates"
                                     = Some (JInt (lp_replay_target_dates lesson)))))
        "Lesson replay target-date projection failed audit"
  | None =>
      audit_when (negb (bool_decide (lp_status lesson = CANDIDATE))
                  && negb (get_true (lp_replay_metrics lesson) "immediate_extreme_checklist"))
        "non-checklist activated Lesson has no replay batch"
  end.

(** [_verify_lineage] *)
Definition verify_lineage (l : Ledger) (lesson : LessonProposal) : result unit :=
  match lp_supersedes_id lesson with
  | None => Ok tt
  | Some predecessor_id =>
      match ld_lessons l !! predecessor_id with
      | None => audit_error "Lesson predecessor lineage failed audit"
      | Some predecessor =>
          audit_when (negb (bool_decide (lp_status predecessor = SUPERSEDED)))
            "Lesson predecessor lineage failed audit" ;;
          audit_when (negb (get_is (lp_replay_metrics predecessor) "superseded_by_id" (lp_id lesson)))
            "Lesson predecessor backlink failed audit"
      end
  end ;;
  if bool_decide (lp_status lesson = SUPERSEDED) then
    let successor := match get (lp_replay_metrics lesson) "superseded_by_id" with
                     | JStr id => ld_lessons l !! id | _ => None end in
    audit_when (match successor with
                | Some s => negb (bool_decide (lp_supersedes_id s = Some (lp_id lesson)))
                | None => true
                end) "Lesson successor lineage failed audit"
  else Ok tt.

Record LessonAuditReport := mkReport {
  ar_lesson_id : string; ar_status : LessonStatus; ar_replay_batch_count : Z;
  ar_lifecycle_event_count : Z; ar_latest_replay_hash : option string; ar_audit_root_hash : string }.

Definition audit_root_hash (lesson : LessonProposal) (batches : list LessonReplayBatch)
    (events : list LessonLifecycleEvent) : string :=
  canonical_hash (JObj (list_to_map
    [("lesson_id", JStr (lp_id lesson)); ("status", JStr (status_value (lp_status lesson)));
     ("replay_batch_hashes", JArr ((fun b => JStr (ba_content_hash b)) <$> batches));
     ("event_envelope_hashes", JArr ((fun e => JStr (ev_payload_hash e)) <$> events));
     ("replay_metrics", JObj (lp_replay_metrics lesson));
     ("supersedes_id", opt_json (lp_supersedes_id lesson))])).

Definition verify_lesson_audit (l : Ledger) (lesson_id : string) : result LessonAuditReport :=
  lesson ← find_lesson l lesson_id;
  let batches := merge_sort batch_order (batches_of l (lp_id lesson)) in
  let events := merge_sort event_order (events_of l (lp_id lesson)) in
  audited ← for_each (audit_batch (lp_id lesson)) no_batches batches;
  chain ← for_each audit_event no_events events;
  audit_when (negb (bool_decide (ae_replay_keys chain = au_event_keys audited)))
    "replay batches and lifecycle events are not one-to-one" ;;
  audit_when (negb (bool_decide (lp_status lesson = ae_status chain)))
    "Lesson status projection failed lifecycle audit" ;;
  audit_projection lesson (au_latest_metrics audited) ;;
  match ld_episodes l !! (lp_cluster_key lesson, lp_episode_key lesson) with
  | None => audit_error "Lesson independent episode record is missing"
  | Some episode =>
      audit_when (negb (ep_evidence_set_hash episode =? ep_first_reflection_set_hash episode)%string)
        "Lesson episode evidence-set identity failed audit"
  end ;;
  let heads := filter (fun p => lp_cluster_key p = lp_cluster_key lesson
                                /\ is_head (lp_status p) = true)
                 (snd <$> map_to_list (ld_lessons l)) in
  audit_when (1 <? Z.of_nat (length heads)) "Lesson recurrence cluster has multiple active heads" ;;
  verify_lineage l lesson ;;
  Ok (mkReport (lp_id lesson) (lp_status lesson) (Z.of_nat (length batches))
        (Z.of_nat (length events)) (ba_content_hash <$> last batches)
        (audit_root_hash lesson batches events)).

End Operations.

End Lesson.
