(* ===== verification/LessonTheory.v ===== *)
(** * The audit of a lesson, batch by batch and event by event

    What a successful audit of a list of batches and a chain of events says,
    that appending a valid one extends the audit by one step, and what the
    services write into the dicts the audit compares. *)
From S2P Require Import Prelude PyStr PyTime Float64 Domain Json Iso Contracts Evaluation Reflection.
From S2P Require Import Replay Lesson.
Import PyStr PyTime Float64 Domain Json Iso Contracts Reflection Replay Lesson.
Open Scope string_scope.
Open Scope Z_scope.

Module LessonTheory.

(** Unlike [injection], leaves the values as they are. *)
Lemma Ok_inj {A} (a b : A) : Ok a = Ok b -> a = b.
Proof. congruence. Qed.

(** ** Sorting observations *)

Lemma sort_observations_perm l : sort_observations l ≡ₚ l.
Proof. apply merge_sort_Permutation. Qed.

Lemma sort_observations_sorted l : StronglySorted observation_le (sort_observations l).
Proof.
  apply StronglySorted_merge_sort; unfold observation_le.
  - intros a b c. apply (transitivity (R := identity_le)).
  - intros a b. apply (total identity_le).
Qed.

Lemma NoDup_fmap_inj {A B} (f : A -> B) (l : list A) x y :
  NoDup (f <$> l) -> x ∈ l -> y ∈ l -> f x = f y -> x = y.
Proof.
  intros Hnd [i Hi]%list_elem_of_lookup [j Hj]%list_elem_of_lookup E.
  assert (i = j) as <-; [|congruence].
  apply (NoDup_lookup _ i j (f x) Hnd); rewrite list_lookup_fmap; [by rewrite Hi|by rewrite Hj, E].
Qed.

(** Observations with distinct identities have one sorted order. *)
Lemma sort_observations_unique l1 l2 :
  l1 ≡ₚ l2 -> NoDup (observation_identity <$> l1) -> sort_observations l1 = sort_observations l2.
Proof.
  intros Hp Hnd. apply (StronglySorted_unique_strong observation_le).
  - intros a b Ha Hb Hab Hba. rewrite sort_observations_perm in Ha, Hb. rewrite <- Hp in Hb.
    apply (NoDup_fmap_inj _ _ _ _ Hnd Ha Hb). by apply (anti_symm identity_le).
  - apply sort_observations_sorted.
  - apply sort_observations_sorted.
  - by rewrite !sort_observations_perm.
Qed.

Lemma sort_observations_idemp l :
  NoDup (observation_identity <$> l) -> sort_observations (sort_observations l) = sort_observations l.
Proof.
  intros Hnd. symmetry. apply sort_observations_unique; [|done]. by rewrite sort_observations_perm.
Qed.

Lemma sort_observations_app l1 l2 :
  NoDup (observation_identity <$> (l1 ++ l2)%list) ->
  sort_observations (sort_observations l1 ++ l2)%list = sort_observations (l1 ++ l2)%list.
Proof.
  intros Hnd. symmetry. apply sort_observations_unique; [|done]. by rewrite sort_observations_perm.
Qed.

(** A list that is strictly sorted by a key is its own sort. *)
Lemma merge_sort_strict {A} (R : relation A) `{forall x y, Decision (R x y)} (key : A -> Z) (l : list A) :
  (forall a b, R a b -> key a <= key b) -> (forall a b, key a < key b -> R a b) ->
  Transitive R -> Total R ->
  StronglySorted (fun a b => key a < key b) l -> merge_sort R l = l.
Proof.
  intros Hkey Hstrict Htrans Htotal Hs.
  assert (Hnd : NoDup (key <$> l)).
  { induction Hs as [|a l _ IH Hall]; cbn; constructor; [|done].
    intros (b & Hb & Hin)%list_elem_of_fmap. rewrite Forall_forall in Hall.
    specialize (Hall b Hin). lia. }
  apply (StronglySorted_unique_strong R).
  - intros a b Ha Hb Hab Hba. rewrite merge_sort_Permutation in Ha.
    apply (NoDup_fmap_inj _ _ _ _ Hnd Ha Hb). apply Hkey in Hab, Hba. lia.
  - by apply StronglySorted_merge_sort.
  - clear Hnd. induction Hs; constructor; [done|]. eapply Forall_impl; [done|]. cbn. auto.
  - apply merge_sort_Permutation.
Qed.

(** ** Dicts *)

Lemma updated_lookup_update base update k v :
  update !! k = Some v -> updated base update !! k = Some v.
Proof. apply lookup_union_Some_l. Qed.

Lemma updated_lookup_base base update k :
  update !! k = None -> updated base update !! k = base !! k.
Proof. apply lookup_union_r. Qed.

Lemma keys_of_list (pairs : list (string * json)) k :
  bool_decide (k ∈ pairs.*1) = false -> (list_to_map pairs : jobject) !! k = None.
Proof. intros Hk%bool_decide_eq_false. by apply not_elem_of_list_to_map_1. Qed.

Definition metric_keys : list string :=
  ["metric_version"; "observation_count"; "distinct_target_dates"; "target_dates_hash";
   "replay_set_hash"; "baseline_average_brier"; "candidate_average_brier";
   "average_brier_improvement"; "baseline_calibration_ece"; "candidate_calibration_ece";
   "calibration_improvement"; "important_subgroups_non_degrading"; "important_subgroups";
   "first_target_date"; "last_target_date"].

Lemma metrics_dict_keys m k v : metrics_dict m !! k = Some v -> k ∈ metric_keys.
Proof.
  intros Hk%elem_of_list_to_map_2%(list_elem_of_fmap_2 fst _ _). exact Hk.
Qed.

(** A dict whose keys are not those of the metrics leaves them alone. *)
Lemma updated_metrics base (pairs : list (string * json)) k :
  k ∈ metric_keys ->
  forallb (fun k => negb (bool_decide (k ∈ pairs.*1))) metric_keys = true ->
  updated base (list_to_map pairs) !! k = base !! k.
Proof.
  intros Hk Hall. apply updated_lookup_base, keys_of_list.
  rewrite forallb_forall in Hall. apply negb_true_iff, Hall. by apply list_elem_of_In.
Qed.

(** Reduces the fields of a written lesson. *)
Ltac lesson_fields :=
  cbn [lp_id lp_cluster_key lp_episode_key lp_status lp_supersedes_id lp_replay_target_dates
       lp_replay_metrics lp_proposal_type lp_independent_episode_count moved].

(** ** The audit of the batches *)

Section Audit.
Context `{PyRuntime} `{CanonicalHash} `{LibM} `{TimestampOrder}.
Context {frozen : gmap string ForecastDiagnostic} {reflections : Reflection.Db}
  {default_universe : string}.

Local Abbreviation audit_batches id bs := (for_each (audit_batch frozen id) no_batches bs).
Local Abbreviation audit_events es := (for_each audit_event no_events es).

Lemma audit_when_Ok b m u : audit_when b m = Ok u <-> b = false.
Proof. apply raise_when_Ok. Qed.

Lemma audit_when_bind_Ok {A} b m (k : result A) a :
  (audit_when b m ;; k) = Ok a <-> b = false /\ k = Ok a.
Proof. apply raise_when_bind_Ok. Qed.

(** What a successful audit of one batch says. *)
Lemma audit_batch_Ok id a b a' :
  audit_batch frozen id a b = Ok a' <->
  mf_lesson_id (ba_manifest b) = id /\ ba_manifest b = default (ba_manifest b) (au_manifest a)
  /\ audit_batch_content frozen b = Ok tt
  /\ au_identities a ## list_to_set (observation_identity <$> ba_observations b)
  /\ exists m, compute_replay_metrics
                 (sort_observations (au_observations a ++ ba_observations b)%list) = Ok m
     /\ ba_aggregate_metrics b = metrics_dict m
     /\ a' = mkBatchAudit (Some (default (ba_manifest b) (au_manifest a)))
               (sort_observations (au_observations a ++ ba_observations b)%list)
               (au_identities a ∪ list_to_set (observation_identity <$> ba_observations b))
               ({[ replay_event_key (ba_content_hash b) ]} ∪ au_event_keys a)
               (Some (ba_aggregate_metrics b)).
Proof.
  unfold audit_batch. rewrite !audit_when_bind_Ok, bind_Ok, negb_false_iff, String.eqb_eq.
  setoid_rewrite audit_when_bind_Ok. setoid_rewrite bind_Ok. setoid_rewrite audit_when_bind_Ok.
  rewrite negb_false_iff, bool_decide_eq_true. split.
  - intros (Hid & Hm & [] & Hc & Hd & m & Hmet & Heq & [= <-]).
    apply negb_false_iff, bool_decide_eq_true in Hd, Heq. eauto 10.
  - intros (Hid & Hm & Hc & Hd & m & Hmet & Heq & ->). split; [done|]. split; [done|].
    exists tt. split; [done|]. split; [by apply negb_false_iff, bool_decide_eq_true|].
    exists m. split; [done|]. split; [by apply negb_false_iff, bool_decide_eq_true|done].
Qed.

Lemma audit_content_NoDup b :
  audit_batch_content frozen b = Ok tt -> NoDup (observation_identity <$> ba_observations b).
Proof.
  unfold audit_batch_content. intros Hc. rewrite !audit_when_bind_Ok in Hc.
  destruct Hc as (_ & _ & _ & Hc). inv_ok Hc. apply audit_when_Ok in Hc.
  by apply negb_false_iff, bool_decide_eq_true in Hc.
Qed.

(** What the accumulated audit of a list of batches holds. *)
Lemma audit_batches_spec id bs a :
  audit_batches id bs = Ok a ->
  NoDup (observation_identity <$> (bs ≫= ba_observations))
  /\ au_observations a = sort_observations (bs ≫= ba_observations)
  /\ au_identities a = list_to_set (observation_identity <$> (bs ≫= ba_observations))
  /\ au_event_keys a = list_to_set ((fun b => replay_event_key (ba_content_hash b)) <$> bs)
  /\ au_latest_metrics a = ba_aggregate_metrics <$> last bs
  /\ (bs = [] -> au_manifest a = None)
  /\ (forall b, b ∈ bs -> au_manifest a = Some (ba_manifest b)).
Proof.
  revert a. induction bs as [|b bs IH] using rev_ind; intros a.
  { intros [= <-]. cbn. split; [constructor|]. repeat (split; [done|]).
    by intros b Hb%not_elem_of_nil. }
  rewrite for_each_app, bind_Ok. intros (a0 & Ha0 & Hb). cbn in Hb.
  destruct (audit_batch frozen id a0 b) as [a1|] eqn:E; [|done]. injection Hb as <-.
  apply audit_batch_Ok in E as (Hid & Hm & Hc & Hd & m & Hmet & Hagg & ->). cbn.
  destruct (IH _ Ha0) as (Hnd & Hobs & Hids & Hkeys & Hlast & Hnone & Hman).
  apply audit_content_NoDup in Hc.
  assert (Happ : (bs ++ [b])%list ≫= ba_observations = ((bs ≫= ba_observations) ++ ba_observations b)%list).
  { rewrite bind_app. cbn. by rewrite app_nil_r. }
  rewrite Happ. assert (Hnd' : NoDup (observation_identity <$> ((bs ≫= ba_observations) ++ ba_observations b)%list)).
  { rewrite fmap_app. apply NoDup_app. split; [done|]. split; [|done].
    intros x Hx Hx'. apply (Hd x); [rewrite Hids|]; by apply elem_of_list_to_set. }
  split; [done|]. split; [by rewrite Hobs, sort_observations_app|].
  split; [by rewrite Hids, fmap_app, list_to_set_app_L|].
  split; [by rewrite Hkeys, fmap_app, list_to_set_app_L, (comm_L (∪)); cbn; rewrite union_empty_r_L|].
  split; [by rewrite last_snoc|]. split; [by intros [_ ?]%app_nil|].
  intros b' [Hin|Hin]%elem_of_app.
  - pose proof (Hman b' Hin) as Hb'. by rewrite Hb'.
  - apply list_elem_of_singleton in Hin as ->. by rewrite <- Hm.
Qed.

(** ** The audit of the events *)

Lemma audit_event_Ok a e a' :
  audit_event a e = Ok a' <->
  ev_sequence_number e = ae_sequence a
  /\ (exists at_, fromisoformat (ev_occurred_at_canonical e) = Some at_
        /\ dt_wall (ev_occurred_at e) = dt_wall at_)
  /\ canonical_hash (event_envelope e) = ev_payload_hash e
  /\ ev_from e = ae_status a /\ allowed (ev_type e) (ev_from e) (ev_to e) = true
  /\ (ev_type e = EV_REPLAY_RECORDED ->
      get (ev_payload e) "batch_content_hash" = JStr (remove_prefix "replay:" (ev_key e)))
  /\ a' = mkEventAudit (ae_sequence a + 1) (ev_to e)
            (if bool_decide (ev_type e = EV_REPLAY_RECORDED)
             then {[ ev_key e ]} ∪ ae_replay_keys a else ae_replay_keys a).
Proof.
  unfold audit_event. split.
  - intros Hk. apply audit_when_bind_Ok in Hk as [Hs Hk]. apply bind_Ok in Hk as ([] & Ht & Hk).
    repeat (apply audit_when_bind_Ok in Hk as [? Hk]). apply bind_Ok in Hk as (keys & Hr & [= <-]).
    destruct (fromisoformat _) as [at_|]; [|done]. apply audit_when_Ok in Ht. bool_prop.
    repeat (split; [by eauto|]).
    destruct (bool_decide_reflect (ev_type e = EV_REPLAY_RECORDED)) as [E|E].
    + apply audit_when_bind_Ok in Hr as [Hr [= <-]]. bool_prop. by split.
    + injection Hr as <-. by split.
  - intros (-> & (at_ & -> & ->) & -> & -> & -> & Hr & ->).
    rewrite !Z.eqb_refl, String.eqb_refl. cbn. rewrite (bool_decide_true (ae_status a = ae_status a)) by done. cbn.
    destruct (bool_decide_reflect (ev_type e = EV_REPLAY_RECORDED)) as [E|E]; [|done].
    rewrite Hr by done. by rewrite bool_decide_true.
Qed.

Lemma max_sequence_app es e :
  0 <= ev_sequence_number e ->
  max_sequence (es ++ [e])%list = Z.max (max_sequence es) (ev_sequence_number e).
Proof.
  intros He. unfold max_sequence. rewrite fmap_app. cbn. induction es as [|x es IH]; cbn; [lia|].
  rewrite IH. lia.
Qed.

(** The events of an audited chain are numbered from 1 without a gap, and the
    chain never continues behind a final status. *)
Lemma audit_events_spec es c :
  audit_events es = Ok c ->
  ae_sequence c = Z.of_nat (length es) + 1 /\ max_sequence es = Z.of_nat (length es)
  /\ StronglySorted (fun a b => ev_sequence_number a < ev_sequence_number b) es
  /\ (forall e, e ∈ es -> ev_sequence_number e <= Z.of_nat (length es))
  /\ (forall k, k ∈ ae_replay_keys c <->
        exists e, e ∈ es /\ ev_type e = EV_REPLAY_RECORDED /\ ev_key e = k)
  /\ (forall e, e ∈ es -> ev_type e = EV_SUPERSEDED -> ae_status c = SUPERSEDED).
Proof.
  revert c. induction es as [|e es IH] using rev_ind; intros c.
  { intros [= <-]. cbn. split; [done|]. split; [done|]. split; [constructor|].
    split; [by intros e He%not_elem_of_nil|]. split; [|by intros e He%not_elem_of_nil].
    intros k. split; [by intros Hk%not_elem_of_empty|]. by intros (e & He%not_elem_of_nil & _). }
  rewrite for_each_app, bind_Ok. intros (c0 & Hc0 & He). cbn in He.
  destruct (audit_event c0 e) as [c1|] eqn:E; [|done]. injection He as <-.
  apply audit_event_Ok in E as (Hs & _ & _ & Hf & Ha & _ & ->). cbn.
  destruct (IH _ Hc0) as (Hseq & Hmax & Hsort & Hle & Hkeys & Hsup).
  rewrite length_app. cbn. split; [lia|]. split; [rewrite max_sequence_app by lia; lia|].
  split.
  { apply StronglySorted_app_2; [|done|by repeat constructor].
    intros x y Hx Hy%list_elem_of_singleton. subst y. specialize (Hle x Hx). lia. }
  split.
  { intros x [Hx|Hx%list_elem_of_singleton]%elem_of_app; [specialize (Hle x Hx)|subst]; lia. }
  split.
  - intros k. destruct (bool_decide_reflect (ev_type e = EV_REPLAY_RECORDED)) as [Hr|Hr].
    + rewrite elem_of_union, elem_of_singleton, Hkeys. setoid_rewrite elem_of_app.
      setoid_rewrite list_elem_of_singleton. split.
      * intros [->|(x & Hx & ?)]; eauto 10.
      * intros (x & [Hx| ->] & Ht & <-); [right; eauto|by left].
    + rewrite Hkeys. setoid_rewrite elem_of_app. setoid_rewrite list_elem_of_singleton. split.
      * intros (x & Hx & ?); eauto 10.
      * intros (x & [Hx| ->] & Ht & <-); [eauto|done].
  - intros x [Hx|Hx%list_elem_of_singleton]%elem_of_app Ht.
    + specialize (Hsup x Hx Ht). rewrite <- Hf in Hsup. rewrite Hsup in Ha. by destruct (ev_type e).
    + subst x. rewrite Ht in Ha. by destruct (ev_from e), (ev_to e).
Qed.

(** ** Appending an event *)

Definition numbered (new_id : string) (l : Ledger) (d : EventDraft) : LessonLifecycleEvent :=
  seal_event (Event new_id (dr_lesson_id d) (max_sequence (events_of l (dr_lesson_id d)) + 1)
    (dr_type d) (dr_key d) (dr_from d) (dr_to d) (py_strip (dr_actor d)) (dr_reason d)
    (dr_payload d) "" (dr_occurred_at d) (isoformat (dr_occurred_at d))).

Lemma append_event_new new_id l d e l' :
  event_by_key l (dr_lesson_id d) (dr_key d) = None ->
  append_event new_id l d = Ok (e, l') -> e = numbered new_id l d /\ l' = add_event l e.
Proof.
  unfold append_event. intros Hnone Hk. apply raise_when_bind_Ok in Hk as [_ Hk].
  rewrite Hnone in Hk. by injection Hk as <- <-.
Qed.

Lemma events_of_add l e id :
  events_of (add_event l e) id
  = (events_of l id ++ if decide (ev_lesson_id e = id) then [e] else [])%list.
Proof. unfold events_of; cbn. by rewrite filter_app. Qed.

Lemma batches_of_add l b id :
  batches_of (add_batch l b) id
  = (batches_of l id ++ if decide (ba_lesson_id b = id) then [b] else [])%list.
Proof. unfold batches_of; cbn. by rewrite filter_app. Qed.

(** An allowed event extends an audited chain. *)
Lemma audit_append new_id l d c :
  audit_events (events_of l (dr_lesson_id d)) = Ok c ->
  dr_from d = ae_status c -> allowed (dr_type d) (dr_from d) (dr_to d) = true ->
  representable (dr_occurred_at d) ->
  (dr_type d = EV_REPLAY_RECORDED ->
     get (dr_payload d) "batch_content_hash" = JStr (remove_prefix "replay:" (dr_key d))) ->
  audit_events (events_of l (dr_lesson_id d) ++ [numbered new_id l d])%list
  = Ok (mkEventAudit (ae_sequence c + 1) (dr_to d)
          (if bool_decide (dr_type d = EV_REPLAY_RECORDED)
           then {[ dr_key d ]} ∪ ae_replay_keys c else ae_replay_keys c)).
Proof.
  intros Hc Hf Ha Ht Hp. rewrite for_each_app, Hc. cbn.
  destruct (audit_events_spec _ _ Hc) as (Hseq & Hmax & _).
  assert (E : audit_event c (numbered new_id l d)
    = Ok (mkEventAudit (ae_sequence c + 1) (dr_to d)
          (if bool_decide (dr_type d = EV_REPLAY_RECORDED)
           then {[ dr_key d ]} ∪ ae_replay_keys c else ae_replay_keys c))); [|by rewrite E].
  apply audit_event_Ok. cbn. split; [lia|].
  split; [|by repeat (split; [done|])].
  exists (dr_occurred_at d). split; [by apply fromisoformat_isoformat|done].
Qed.

(** ** Lookups in the written dicts *)

Lemma default_get m k v : m !! k = Some v -> get m k = v.
Proof. intros Hk. unfold get. by rewrite Hk. Qed.

Definition failure_key : string := "consecutive_failed_revalidations".
Definition assessment_keys : list string :=
  ["policy_version"; "evidence_threshold_met"; "wiki_review_ready"; "automatic_promotion_allowed";
   "blockers"; "immediate_extreme_checklist"; "requirements"].

Definition none_of (ks : list string) (m : jobject) : Prop := forall k, k ∈ ks -> m !! k = None.

Lemma none_of_list ks (pairs : list (string * json)) :
  forallb (fun k => negb (bool_decide (k ∈ pairs.*1))) ks = true ->
  none_of ks (list_to_map pairs).
Proof.
  intros Hall k Hk. apply keys_of_list. rewrite forallb_forall in Hall.
  apply negb_true_iff, Hall. by apply list_elem_of_In.
Qed.

Lemma none_of_updated ks m1 m2 : none_of ks m1 -> none_of ks m2 -> none_of ks (updated m1 m2).
Proof. intros H1' H2' k Hk. rewrite updated_lookup_base by auto. auto. Qed.

(** Keys kept by the writes of the services. *)
Definition kept_keys : list string := failure_key :: metric_keys.

Lemma assessment_dict_none a : none_of kept_keys (assessment_dict a).
Proof. by apply none_of_list. Qed.

Lemma no_new_evidence_none a : none_of kept_keys a -> none_of kept_keys (no_new_evidence a).
Proof. intros Ha. apply none_of_updated; [done|]. by apply none_of_list. Qed.

Lemma assess_current_policy_Ok lesson n metrics req a :
  assess_current_policy reflections default_universe lesson n metrics req = Ok a ->
  exists e, a = assessment_dict (assess_lesson_policy (lp_proposal_type lesson)
    (if get_true (lp_replay_metrics lesson) "immediate_extreme_checklist"
     then "extreme" else "directional") e)
    /\ le_independent_episode_count e = n
    /\ le_required_shadow_target_dates e = req
    /\ le_completed_shadow_target_dates e
       = completed_shadow_target_dates reflections default_universe
    /\ json_int (default (JInt 0) (metrics !! "distinct_target_dates")) = Ok (le_replay_target_dates e)
    /\ json_number (get metrics "average_brier_improvement") = Ok (le_average_brier_improvement e)
    /\ json_number (get metrics "calibration_improvement") = Ok (le_calibration_improvement e)
    /\ le_important_subgroups_non_degrading e
       = json_bool (get metrics "important_subgroups_non_degrading").
Proof.
  unfold assess_current_policy. intros Hk. inv_ok Hk. injection Hk as <-. eexists.
  split; [reflexivity|]. cbn. auto 10.
Qed.

(** What a recorded replay writes into the lesson. *)
Lemma refresh_projection_Ok l p m at_ req p' :
  refresh_projection reflections default_universe l p m at_ req = Ok p' ->
  lp_id p' = lp_id p /\ lp_cluster_key p' = lp_cluster_key p
  /\ lp_episode_key p' = lp_episode_key p /\ lp_status p' = lp_status p
  /\ lp_supersedes_id p' = lp_supersedes_id p
  /\ lp_replay_target_dates p' = rm_distinct_target_dates m
  /\ lp_replay_metrics p' !! failure_key = lp_replay_metrics p !! failure_key
  /\ (forall k v, metrics_dict m !! k = Some v -> lp_replay_metrics p' !! k = Some v).
Proof.
  unfold refresh_projection. intros Hk. apply bind_Ok in Hk as (a & Ha & Hk).
  apply assess_current_policy_Ok in Ha as (e & -> & _).
  set (a := assessment_dict _) in Hk.
  assert (Hkept : none_of kept_keys a) by apply assessment_dict_none. clearbody a.
  pose (kept (q : jobject) := q !! failure_key = lp_replay_metrics p !! failure_key
    /\ (forall k v, metrics_dict m !! k = Some v -> q !! k = Some v)).
  assert (Hupd : forall q extra, kept q -> none_of kept_keys extra -> kept (updated q extra)).
  { intros q extra [Hf Hm] Hextra. split.
    - rewrite updated_lookup_base; [done|]. apply Hextra. by left.
    - intros k v Hv. rewrite updated_lookup_base; [by apply Hm|]. apply Hextra. right.
      by eapply metrics_dict_keys. }
  assert (Hbase : kept (updated (lp_replay_metrics p) (metrics_dict m))).
  { split; [|intros k v; apply updated_lookup_update]. apply updated_lookup_base.
    by apply keys_of_list. }
  destruct (is_head (lp_status p)).
  - apply bind_Ok in Hk as (reasons & _ & <-%Ok_inj). lesson_fields. repeat (split; [done|]).
    apply Hupd; [|by apply none_of_list]. apply Hupd; [|by apply none_of_list]. by apply Hupd.
  - apply Ok_inj in Hk as <-. lesson_fields. repeat (split; [done|]).
    apply Hupd; [|by apply none_of_list]. by apply Hupd.
Qed.

(** ** A validated bundle stays valid when it is read back in order *)

Lemma existsb_perm {A} (f : A -> bool) l1 l2 : l1 ≡ₚ l2 -> existsb f l1 = existsb f l2.
Proof.
  induction 1 as [|x l1 l2 _ IH|x y l|l1 l2 l3 _ IH1 _ IH2]; cbn; [done|by rewrite IH| |congruence].
  by destruct (f x), (f y).
Qed.

Lemma validate_subgroups_idemp values groups :
  validate_subgroups values = Ok groups -> validate_subgroups groups = Ok groups.
Proof.
  unfold validate_subgroups. intros Hk. inv_ok Hk. apply Ok_inj in Hk.
  set (normalized := py_strip <$> values) in *.
  assert (Hp : groups ≡ₚ normalized) by (subst groups; apply merge_sort_Permutation).
  assert (Hstrip : py_strip <$> groups = groups).
  { rewrite <- (list_fmap_id groups) at 2. apply list_fmap_ext. intros i x Hx.
    apply list_elem_of_lookup_2 in Hx. rewrite Hp in Hx.
    apply list_elem_of_fmap in Hx as (y & -> & _). apply py_strip_idemp. }
  rewrite Hstrip, (existsb_perm _ _ _ Hp), Hok. cbn.
  apply negb_false_iff, bool_decide_eq_true in Hok0.
  rewrite bool_decide_true by by rewrite Hp. cbn. f_equal. subst groups.
  apply (Sorted_unique String.le); [apply Sorted_merge_sort, _|apply Sorted_merge_sort, _|].
  apply merge_sort_Permutation.
Qed.

Lemma validate_observation_idemp o o' :
  validate_observation o = Ok o' -> validate_observation o' = Ok o'.
Proof.
  unfold validate_observation, field_check. intros Hk.
  repeat (apply raise_when_bind_Ok in Hk as [? Hk]).
  apply bind_Ok in Hk as ([] & Hb & Hk). apply bind_Ok in Hk as ([] & Hc & Hk).
  apply raise_when_bind_Ok in Hk as [Hlen Hk].
  apply bind_Ok in Hk as (groups & Hg & <-%Ok_inj). cbn.
  repeat match goal with E : ?b = false |- context [raise_when ?b] => rewrite E; clear E end.
  cbn. rewrite Hb, Hc. cbn. assert (length groups = length (ob_important_subgroups o)) as ->.
  { unfold validate_subgroups in Hg. inv_ok Hg. apply Ok_inj in Hg as <-.
    by rewrite merge_sort_Permutation, length_fmap. }
  rewrite Hlen. cbn. by rewrite (validate_subgroups_idemp _ _ Hg).
Qed.

Lemma parse_sorted raw m obs :
  parse_replay_bundle raw = Ok (Bundle m obs) ->
  NoDup (observation_identity <$> obs)
  /\ parse_replay_bundle (Bundle m (sort_observations obs)) = Ok (Bundle m (sort_observations obs)).
Proof.
  unfold parse_replay_bundle, field_check. intros Hk.
  repeat (apply raise_when_bind_Ok in Hk as [? Hk]).
  apply bind_Ok in Hk as ([] & Ht & Hk). repeat (apply raise_when_bind_Ok in Hk as [? Hk]).
  apply bind_Ok in Hk as (obs' & Hobs & Hk). apply raise_when_bind_Ok in Hk as [Hnd Hk].
  apply Ok_inj in Hk. injection Hk as <- ->. cbn. pose proof (sort_observations_perm obs) as Hp.
  assert (Hlen : length (rb_observations raw) = length (sort_observations obs)).
  { rewrite Hp. apply mapM_result_Ok in Hobs. by eapply Forall2_length. }
  rewrite <- Hlen.
  repeat match goal with E : ?b = false |- context [raise_when ?b] => rewrite E end.
  cbn. rewrite Ht. cbn.
  repeat match goal with E : ?b = false |- context [raise_when ?b] => rewrite E end. cbn.
  apply negb_false_iff, bool_decide_eq_true in Hnd. split; [done|].
  assert (mapM_result validate_observation (sort_observations obs) = Ok (sort_observations obs)) as ->.
  { apply mapM_result_Ok, Forall_Forall2_diag, Forall_forall. intros o Ho. rewrite Hp in Ho.
    apply mapM_result_Ok in Hobs. apply list_elem_of_lookup in Ho as [i Hi].
    eapply Forall2_lookup_r in Hobs as (o0 & _ & Ho0); [|exact Hi].
    by eapply validate_observation_idemp. }
  cbn. by rewrite bool_decide_true by by rewrite Hp.
Qed.

Lemma validated_iff {A B} (f : A -> result B) (g : A * B -> result unit) (l : list A) :
  (exists ds, mapM_result f l = Ok ds /\ for_each (fun _ => g) tt (zip l ds) = Ok tt)
  <-> Forall (fun x => exists d, f x = Ok d /\ g (x, d) = Ok tt) l.
Proof.
  induction l as [|x l IH]; cbn.
  { split; [constructor|]. intros _. by exists []. }
  rewrite Forall_cons, <- IH. split.
  - intros (ds & Hds & Hg). apply bind_Ok in Hds as (d & Hd & Hds).
    apply bind_Ok in Hds as (ds' & Hds & <-%Ok_inj). cbn in Hg.
    apply bind_Ok in Hg as ([] & Hg & Hgs). eauto 10.
  - intros [(d & Hd & Hg) (ds & Hds & Hgs)]. exists (d :: ds). rewrite Hd. cbn. rewrite Hds. cbn.
    by rewrite Hg.
Qed.

Lemma validate_bundle_artifacts_iff m obs ds :
  validate_bundle_artifacts m obs ds = Ok tt <->
  build_replay_manifest_hashes m
  = (mf_replay_input_manifest_hash m, mf_baseline_artifact_hash m, mf_candidate_artifact_hash m)
  /\ for_each (fun _ => validate_artifact m) tt (zip obs ds) = Ok tt.
Proof.
  unfold validate_bundle_artifacts, check_artifact.
  destruct (build_replay_manifest_hashes m) as [[h1 h2] h3]. rewrite !raise_when_bind_Ok.
  rewrite !negb_false_iff, !String.eqb_eq. split; [by intros (-> & -> & -> & ?)|].
  by intros [[= -> -> ->] ?].
Qed.

(** Every observation is backed by a frozen outcome and carries the registered
    transform of its baseline. *)
Definition backed (m : ReplayManifest) (o : ReplayObservation) : Prop :=
  exists d, validate_against_frozen_outcome frozen o = Ok d /\ validate_artifact m (o, d) = Ok tt.

(** Parsing normalizes the subgroups of an observation and nothing else. *)
Lemma parse_backed raw m obs manifest :
  parse_replay_bundle raw = Ok (Bundle m obs) ->
  m = rb_manifest raw /\ (Forall (backed manifest) obs -> Forall (backed manifest) (rb_observations raw)).
Proof.
  unfold parse_replay_bundle, field_check. intros Hk.
  repeat (apply raise_when_bind_Ok in Hk as [? Hk]).
  apply bind_Ok in Hk as ([] & Ht & Hk). repeat (apply raise_when_bind_Ok in Hk as [? Hk]).
  apply bind_Ok in Hk as (obs' & Hobs & Hk). apply raise_when_bind_Ok in Hk as [_ Hk].
  apply Ok_inj in Hk. injection Hk as <- ->. split; [done|].
  apply mapM_result_Ok in Hobs. clear -Hobs. intros Hall.
  induction Hobs as [|o o' os os' Ho _ IH]; [constructor|].
  apply Forall_cons in Hall as [Hb Hall]. constructor; [|by apply IH].
  unfold validate_observation, field_check in Ho. repeat (apply raise_when_bind_Ok in Ho as [? Ho]).
  apply bind_Ok in Ho as ([] & _ & Ho). apply bind_Ok in Ho as ([] & _ & Ho).
  apply raise_when_bind_Ok in Ho as [_ Ho]. apply bind_Ok in Ho as (groups & _ & <-%Ok_inj).
  exact Hb.
Qed.

(** An audited batch is backed. *)
Lemma audit_content_backed b :
  audit_batch_content frozen b = Ok tt -> Forall (backed (ba_manifest b)) (ba_observations b).
Proof.
  unfold audit_batch_content. intros Hc. rewrite !audit_when_bind_Ok in Hc.
  destruct Hc as (_ & _ & _ & Hc). apply bind_Ok in Hc as ([m obs] & Hp & Hc).
  apply bind_Ok in Hc as (ds & Hds & Hc). apply bind_Ok in Hc as ([] & Hart & _).
  cbn [rb_manifest rb_observations] in *.
  destruct (parse_backed _ _ _ (ba_manifest b) Hp) as [-> Hback]. cbn [rb_manifest rb_observations] in *.
  rewrite <- (sort_observations_perm (ba_observations b)). apply Hback.
  apply validate_bundle_artifacts_iff in Hart as [_ Hart]. apply validated_iff. eauto.
Qed.

(** What the audit of a nonempty list of batches says about its evidence. *)
Lemma audited_evidence id bs a :
  audit_batches id bs = Ok a -> bs <> [] ->
  exists m, compute_replay_metrics (sort_observations (bs ≫= ba_observations)) = Ok m
    /\ au_latest_metrics a = Some (metrics_dict m)
    /\ forall b, b ∈ bs -> Forall (backed (ba_manifest b)) (ba_observations b).
Proof.
  revert a. induction bs as [|b bs IH] using rev_ind; intros a Ha Hne; [done|].
  pose proof (audit_batches_spec _ _ _ Ha) as (_ & Hobs & _).
  rewrite for_each_app, bind_Ok in Ha. destruct Ha as (a0 & Ha0 & Hb). cbn in Hb.
  destruct (audit_batch frozen id a0 b) as [a1|] eqn:E; [|done]. apply Ok_inj in Hb as <-.
  apply audit_batch_Ok in E as (_ & _ & Hc & _ & m & Hmet & Hagg & ->). cbn in Hobs.
  exists m. rewrite <- Hobs. split; [done|]. split; [exact (f_equal Some Hagg)|].
  intros b' [Hin|Hin%list_elem_of_singleton]%elem_of_app; [|subst; by apply audit_content_backed].
  destruct bs as [|b0 bs]; [by apply not_elem_of_nil in Hin|].
  destruct (IH _ Ha0) as (_ & _ & _ & Hall); [done|]. by apply Hall.
Qed.

(** The content of a recorded batch passes the audit. *)
Lemma recorded_content raw bid id m obs ds metrics by_ at_ :
  parse_replay_bundle raw = Ok (Bundle m obs) ->
  mapM_result (validate_against_frozen_outcome frozen) obs = Ok ds ->
  validate_bundle_artifacts m obs ds = Ok tt ->
  audit_batch_content frozen
    (Batch bid id (bundle_hash m obs) m obs (Z.of_nat (length obs)) (count_dates obs) metrics by_ at_)
  = Ok tt.
Proof.
  intros Hparse Hds Hart. apply parse_sorted in Hparse as [Hnd Hparse].
  unfold audit_batch_content; cbn [ba_observation_count ba_distinct_target_dates ba_content_hash
    ba_manifest ba_observations].
  rewrite !Z.eqb_refl, String.eqb_refl. unfold audit_when, raise_when.
  cbn [mbind result_bind negb]. rewrite Hparse. cbn [mbind result_bind rb_observations rb_manifest].
  apply validate_bundle_artifacts_iff in Hart as [Hh Hart].
  assert (Hall : Forall (backed m) obs) by (apply validated_iff; eauto).
  rewrite <- (sort_observations_perm obs) in Hall.
  apply validated_iff in Hall as (ds' & -> & Hart'). cbn [mbind result_bind].
  assert (validate_bundle_artifacts m (sort_observations obs) ds' = Ok tt) as ->
    by by apply validate_bundle_artifacts_iff.
  cbn [mbind result_bind]. by rewrite bool_decide_true.
Qed.

End Audit.

Arguments backed {_ _} frozen m o.

End LessonTheory.
