(* ===== verification/LessonInv.v ===== *)
(** * The invariant of the lesson ledger

    The services of a ledger as one step relation, and the invariant that the
    audit of every lesson succeeds, that a cluster has at most one head, and
    that the lineage links agree. *)
From S2P Require Import Prelude PyStr PyTime Float64 Domain Json Iso Contracts Evaluation Reflection.
From S2P Require Import Replay Lesson LessonTheory.
Import PyStr PyTime Float64 Domain Json Iso Contracts Reflection Replay Lesson LessonTheory.
Open Scope string_scope.
Open Scope Z_scope.

Module LessonInv.

Section Ledger.
Context `{PyRuntime} `{CanonicalHash} `{LibM} `{TimestampOrder}.
Context (frozen : gmap string ForecastDiagnostic) (reflections : Reflection.Db)
  (default_universe : string).

Local Abbreviation audit_batches id bs := (for_each (audit_batch frozen id) no_batches bs).
Local Abbreviation audit_events es := (for_each audit_event no_events es).

(** ** The invariant *)

(** Event keys of the kinds the services search for say what the event is. *)
Definition key_kind (e : LessonLifecycleEvent) : Prop :=
  (String.prefix "replay:" (ev_key e) = true -> ev_type e = EV_REPLAY_RECORDED)
  /\ (String.prefix "superseded-by:" (ev_key e) = true -> ev_type e = EV_SUPERSEDED).

(** An active lesson has no failed review behind it, a challenged one has one. *)
Definition failures_ok (p : LessonProposal) : Prop :=
  match lp_status p with
  | ACTIVE => lp_replay_metrics p !! failure_key = Some (JInt 0)
  | CHALLENGED => lp_replay_metrics p !! failure_key = Some (JInt 1)
  | _ => True
  end.

(** The batches and events of a lesson pass its audit, in the order they were
    appended. *)
Definition lesson_ok (bs : list LessonReplayBatch) (es : list LessonLifecycleEvent)
    (p : LessonProposal) : Prop :=
  exists a c,
    audit_batches (lp_id p) bs = Ok a /\ audit_events es = Ok c
    /\ ae_replay_keys c = au_event_keys a /\ ae_status c = lp_status p
    /\ audit_projection p (au_latest_metrics a) = Ok tt
    /\ StronglySorted (fun b1 b2 => stored_key (ba_created_at b1) < stored_key (ba_created_at b2)) bs
    /\ Forall key_kind es /\ failures_ok p.

Definition lineage_ok (lessons : gmap string LessonProposal) (p : LessonProposal) : Prop :=
  (forall q, lp_supersedes_id p = Some q ->
     exists pred, lessons !! q = Some pred /\ lp_status pred = SUPERSEDED
       /\ lp_replay_metrics pred !! "superseded_by_id" = Some (JStr (lp_id p)))
  /\ (lp_status p = SUPERSEDED ->
     exists id succ, lp_replay_metrics p !! "superseded_by_id" = Some (JStr id)
       /\ lessons !! id = Some succ /\ lp_supersedes_id succ = Some (lp_id p))
  /\ (lp_status p = CANDIDATE -> lp_supersedes_id p = None).

Definition episode_ok (l : Ledger) (p : LessonProposal) : Prop :=
  is_Some (ld_episodes l !! (lp_cluster_key p, lp_episode_key p)).

Definition episodes_hashed (l : Ledger) : Prop :=
  forall key ep, ld_episodes l !! key = Some ep ->
    ep_evidence_set_hash ep = ep_first_reflection_set_hash ep.

Record ledger_ok (l : Ledger) : Prop := mkLedgerOk {
  lk_keyed : forall k p, ld_lessons l !! k = Some p -> lp_id p = k;
  lk_batches : forall b, b ∈ ld_batches l -> is_Some (ld_lessons l !! ba_lesson_id b);
  lk_events : forall e, e ∈ ld_events l -> is_Some (ld_lessons l !! ev_lesson_id e);
  lk_heads : forall k1 k2 p1 p2,
    ld_lessons l !! k1 = Some p1 -> ld_lessons l !! k2 = Some p2 ->
    is_head (lp_status p1) = true -> is_head (lp_status p2) = true ->
    lp_cluster_key p1 = lp_cluster_key p2 -> k1 = k2;
  lk_lineage : forall k p, ld_lessons l !! k = Some p -> lineage_ok (ld_lessons l) p;
  lk_hashed : episodes_hashed l;
  lk_episode : forall k p, ld_lessons l !! k = Some p -> episode_ok l p;
  lk_lessons : forall k p, ld_lessons l !! k = Some p ->
    lesson_ok (batches_of l k) (events_of l k) p }.

Lemma event_by_key_None l id key :
  event_by_key l id key = None <-> forall e, e ∈ events_of l id -> ev_key e <> key.
Proof.
  unfold event_by_key. split.
  - intros Hn e He Hk. assert (Hin : e ∈ filter (fun e => ev_key e = key) (events_of l id))
      by by apply list_elem_of_filter.
    destruct (filter _ (events_of l id)); [by apply not_elem_of_nil in Hin|done].
  - intros Hall. destruct (filter _ (events_of l id)) as [|e es] eqn:E; [done|].
    assert (Hin : e ∈ filter (fun e => ev_key e = key) (events_of l id)) by (rewrite E; by left).
    apply list_elem_of_filter in Hin as [Hk Hin]. by apply Hall in Hin.
Qed.

Lemma projection_iff p metrics :
  audit_projection p (Some metrics) = Ok tt <->
  (forall k v, metrics !! k = Some v -> get (lp_replay_metrics p) k = v)
  /\ metrics !! "distinct_target_dates" = Some (JInt (lp_replay_target_dates p)).
Proof.
  unfold audit_projection. rewrite audit_when_bind_Ok, audit_when_Ok, negb_false_iff, bool_decide_eq_true.
  f_equiv. split.
  - intros Hex k v Hkv. apply elem_of_map_to_list in Hkv.
    destruct (bool_decide_reflect (get (lp_replay_metrics p) k = v)) as [|Hn]; [done|].
    assert (Ht : existsb (fun kv => negb (bool_decide (get (lp_replay_metrics p) kv.1 = kv.2)))
                   (map_to_list metrics) = true); [|congruence].
    apply existsb_exists. exists (k, v). split; [by apply list_elem_of_In|]. cbn.
    by rewrite bool_decide_false.
  - intros Hall. apply not_true_iff_false. intros (kv & Hin & Hkv)%existsb_exists.
    apply list_elem_of_In in Hin. destruct kv as [k v]. apply elem_of_map_to_list, Hall in Hin.
    cbn in Hkv. by rewrite bool_decide_true in Hkv.
Qed.

(** A change of status that keeps the metric keys keeps the projection. *)
Lemma projection_kept bs id a p p' :
  audit_batches id bs = Ok a ->
  audit_projection p (au_latest_metrics a) = Ok tt ->
  lp_replay_target_dates p' = lp_replay_target_dates p ->
  (forall k, k ∈ metric_keys -> lp_replay_metrics p' !! k = lp_replay_metrics p !! k) ->
  (bs = [] -> lp_status p' <> CANDIDATE ->
     get_true (lp_replay_metrics p') "immediate_extreme_checklist" = true) ->
  audit_projection p' (au_latest_metrics a) = Ok tt.
Proof.
  intros Ha Hp Hd Hm Hnone. destruct (audit_batches_spec _ _ _ Ha) as (_ & _ & _ & _ & Hlast & _ & _).
  destruct bs as [|b0 bs0] eqn:Ebs.
  - rewrite Hlast. cbn. apply audit_when_Ok. apply andb_false_iff. rewrite !negb_false_iff.
    destruct (decide (lp_status p' = CANDIDATE)) as [E|E]; [left; by apply bool_decide_eq_true|].
    right. by apply Hnone.
  - destruct (audited_evidence _ _ _ Ha) as (m & _ & Em & _); [done|].
    rewrite Em in *. apply projection_iff in Hp as [Hp1 Hp2]. apply projection_iff.
    rewrite Hd. split; [|done]. intros k v Hkv. unfold get.
    rewrite Hm by by eapply metrics_dict_keys. by apply Hp1.
Qed.

(** ** Replacing one lesson *)

(** What a change of the lesson [id] from [p] to [p'] has to respect. *)
Record replaces (l l' : Ledger) (id : string) (p p' : LessonProposal) : Prop := mkReplaces {
  rp_old : ld_lessons l !! id = Some p;
  rp_lessons : ld_lessons l' = <[id := p']> (ld_lessons l);
  rp_episodes : ld_episodes l' = ld_episodes l;
  rp_batches : forall b, b ∈ ld_batches l' -> b ∈ ld_batches l \/ ba_lesson_id b = id;
  rp_events : forall e, e ∈ ld_events l' -> e ∈ ld_events l \/ ev_lesson_id e = id;
  rp_others : forall k, k <> id ->
    batches_of l' k = batches_of l k /\ events_of l' k = events_of l k;
  rp_id : lp_id p' = lp_id p;
  rp_cluster : lp_cluster_key p' = lp_cluster_key p;
  rp_episode : lp_episode_key p' = lp_episode_key p }.

Lemma replaces_lookup l l' id p p' k q :
  replaces l l' id p p' -> ld_lessons l' !! k = Some q ->
  (k = id /\ q = p') \/ (k <> id /\ ld_lessons l !! k = Some q).
Proof.
  intros Hr. rewrite (rp_lessons _ _ _ _ _ Hr). destruct (decide (k = id)) as [->|Hk].
  - rewrite lookup_insert_eq. intros [= <-]. by left.
  - rewrite lookup_insert_ne by done. by right.
Qed.

(** The parts of the invariant that concern lessons one by one. *)
Record ledger_core (l : Ledger) : Prop := mkLedgerCore {
  lc_keyed : forall k p, ld_lessons l !! k = Some p -> lp_id p = k;
  lc_batches : forall b, b ∈ ld_batches l -> is_Some (ld_lessons l !! ba_lesson_id b);
  lc_events : forall e, e ∈ ld_events l -> is_Some (ld_lessons l !! ev_lesson_id e);
  lc_hashed : episodes_hashed l;
  lc_episode : forall k p, ld_lessons l !! k = Some p -> episode_ok l p;
  lc_lessons : forall k p, ld_lessons l !! k = Some p ->
    lesson_ok (batches_of l k) (events_of l k) p }.

Lemma ledger_ok_core l : ledger_ok l -> ledger_core l.
Proof. intros []. by split. Qed.

Lemma replaces_core l l' id p p' :
  ledger_core l -> replaces l l' id p p' -> lesson_ok (batches_of l' id) (events_of l' id) p' ->
  ledger_core l'.
Proof.
  intros Hl Hr Hok. assert (Hsome : forall k, is_Some (ld_lessons l !! k) -> is_Some (ld_lessons l' !! k)).
  { intros k Hk. rewrite (rp_lessons _ _ _ _ _ Hr). apply lookup_insert_is_Some'. by right. }
  assert (Hid : is_Some (ld_lessons l !! id)) by (rewrite (rp_old _ _ _ _ _ Hr); eauto).
  split.
  - intros k q Hq. apply (replaces_lookup _ _ _ _ _ _ _ Hr) in Hq as [[-> ->]|[_ Hq]].
    + rewrite (rp_id _ _ _ _ _ Hr). apply (lc_keyed l Hl), (rp_old _ _ _ _ _ Hr).
    + by apply (lc_keyed l Hl).
  - intros b Hb. apply Hsome. apply (rp_batches _ _ _ _ _ Hr) in Hb as [Hb| ->]; [|done].
    by apply (lc_batches l Hl).
  - intros e He. apply Hsome. apply (rp_events _ _ _ _ _ Hr) in He as [He| ->]; [|done].
    by apply (lc_events l Hl).
  - unfold episodes_hashed. rewrite (rp_episodes _ _ _ _ _ Hr). apply (lc_hashed l Hl).
  - intros k q Hq. unfold episode_ok. rewrite (rp_episodes _ _ _ _ _ Hr).
    apply (replaces_lookup _ _ _ _ _ _ _ Hr) in Hq as [[-> ->]|[_ Hq]].
    + rewrite (rp_cluster _ _ _ _ _ Hr), (rp_episode _ _ _ _ _ Hr).
      apply (lc_episode l Hl id), (rp_old _ _ _ _ _ Hr).
    + by apply (lc_episode l Hl k).
  - intros k q Hq. apply (replaces_lookup _ _ _ _ _ _ _ Hr) in Hq as [[-> ->]|[Hk Hq]]; [done|].
    destruct (rp_others _ _ _ _ _ Hr k Hk) as [-> ->]. by apply (lc_lessons l Hl).
Qed.

(** A lesson that is not superseded moves without touching the lineage of the
    others, and takes no head that it or nobody else had. *)
Lemma replaces_ok l l' id p p' :
  ledger_ok l -> replaces l l' id p p' -> lesson_ok (batches_of l' id) (events_of l' id) p' ->
  lp_supersedes_id p' = lp_supersedes_id p ->
  lp_status p <> SUPERSEDED -> lp_status p' <> SUPERSEDED ->
  (lp_status p' = CANDIDATE -> lp_status p = CANDIDATE) ->
  (is_head (lp_status p') = true -> is_head (lp_status p) = true
    \/ forall k q, ld_lessons l !! k = Some q -> k <> id ->
         lp_cluster_key q = lp_cluster_key p -> is_head (lp_status q) = false) ->
  ledger_ok l'.
Proof.
  intros Hl Hr Hok Hsup Hns Hns' Hcand Hhead.
  destruct (replaces_core _ _ _ _ _ (ledger_ok_core l Hl) Hr Hok) as [Hk Hb He Hhash Hep Hles].
  assert (Hold := rp_old _ _ _ _ _ Hr). split; try done.
  - assert (Hone : forall k q, ld_lessons l !! k = Some q -> k <> id ->
      is_head (lp_status q) = true -> is_head (lp_status p') = true ->
      lp_cluster_key q = lp_cluster_key p -> False).
    { intros k q Hq Hne Hhq Hhp Hc. destruct (Hhead Hhp) as [Hp|Hno].
      - apply Hne. by eapply (lk_heads l Hl k id).
      - rewrite (Hno k q) in Hhq by done. done. }
    intros k1 k2 p1 p2 Hp1 Hp2 H1h H2h Hc.
    apply (replaces_lookup _ _ _ _ _ _ _ Hr) in Hp1 as [[-> ->]|[Hk1 Hp1]],
      Hp2 as [[-> ->]|[Hk2 Hp2]]; [done| | |by eapply (lk_heads l Hl)];
      rewrite (rp_cluster _ _ _ _ _ Hr) in Hc; exfalso; eauto.
  - intros k q Hq.
    assert (Hlin : lineage_ok (ld_lessons l) q \/ (k = id /\ q = p')).
    { apply (replaces_lookup _ _ _ _ _ _ _ Hr) in Hq as [|[_ Hq]]; [by right|left].
      by apply (lk_lineage l Hl k). }
    assert (Hkeep : forall pred r, ld_lessons l !! pred = Some r -> lp_status r = SUPERSEDED ->
              ld_lessons l' !! pred = Some r).
    { intros pred r Hpred Hs. rewrite (rp_lessons _ _ _ _ _ Hr), lookup_insert_ne; [done|].
      intros <-. congruence. }
    destruct Hlin as [(Hpred & Hsucc & Hc)|[-> ->]].
    + split; [|split; [|done]].
      * intros r Hrs. destruct (Hpred r Hrs) as (pr & Hpr & Hst & Hback). eauto.
      * intros Hs. destruct (Hsucc Hs) as (sid & succ & Hm & Hsid & Hback). exists sid.
        destruct (decide (sid = id)) as [->|Hne].
        -- exists p'. rewrite Hold in Hsid. injection Hsid as <-.
           rewrite (rp_lessons _ _ _ _ _ Hr), lookup_insert_eq, Hsup. done.
        -- exists succ. by rewrite (rp_lessons _ _ _ _ _ Hr), lookup_insert_ne.
    + destruct (lk_lineage l Hl id p Hold) as (Hpred & _ & Hc). unfold lineage_ok.
      rewrite (rp_id _ _ _ _ _ Hr), Hsup. split; [|split; [done|auto]].
      intros r Hrs. destruct (Hpred r Hrs) as (pr & Hpr & Hst & Hback). eauto.
Qed.

(** ** Recording a replay *)

Definition replay_draft (p : LessonProposal) (bid : string) (m : ReplayManifest)
    (obs : list ReplayObservation) (aggregate : ReplayMetrics) (by_ : string) (at_ : datetime)
    : EventDraft :=
  mkDraft (lp_id p) EV_REPLAY_RECORDED (replay_event_key (bundle_hash m obs)) (lp_status p)
    (lp_status p) by_ "deterministic replay observations recorded"
    (list_to_map
      [("batch_id", JStr bid); ("batch_content_hash", JStr (bundle_hash m obs));
       ("manifest", JObj (manifest_dict m));
       ("batch_observation_count", JInt (Z.of_nat (length obs)));
       ("aggregate_replay_set_hash", JStr (rm_replay_set_hash aggregate));
       ("aggregate_metrics", JObj (metrics_dict aggregate))]) at_.

Definition recorded_batch (p : LessonProposal) (bid : string) (m : ReplayManifest)
    (obs : list ReplayObservation) (aggregate : ReplayMetrics) (by_ : string) (at_ : datetime)
    : LessonReplayBatch :=
  Batch bid (lp_id p) (bundle_hash m obs) m obs (Z.of_nat (length obs)) (count_dates obs)
    (metrics_dict aggregate) (py_strip by_) at_.

(** A successful call changed nothing or appended one batch and one event. *)
Lemma record_effect bid eid l m obs by_ at_ req r l' :
  record_lesson_replay frozen reflections default_universe bid eid l (Bundle m obs) by_ at_ req
    = Ok (r, l') ->
  (l' = l /\ rr_idempotent r = true)
  \/ exists p p' ds aggregate,
    ld_lessons l !! mf_lesson_id m = Some p
    /\ lp_status p <> RETIRED /\ lp_status p <> SUPERSEDED
    /\ mapM_result (validate_against_frozen_outcome frozen) obs = Ok ds
    /\ validate_bundle_artifacts m obs ds = Ok tt
    /\ (forall b, b ∈ batches_of l (lp_id p) -> ba_content_hash b <> bundle_hash m obs)
    /\ check_new_replay l p (Bundle m obs) = Ok tt
    /\ compute_replay_metrics
         (sort_observations (prior_observations l (lp_id p) ++ obs)%list) = Ok aggregate
    /\ refresh_projection reflections default_universe l p aggregate at_ req = Ok p'
    /\ append_event eid
         (add_batch (put_lesson l p') (recorded_batch p bid m obs aggregate by_ (m_at at_)))
         (replay_draft p bid m obs aggregate by_ (m_at at_)) = Ok (rr_event r, l')
    /\ rr_idempotent r = false
    /\ rr_batch r = recorded_batch p bid m obs aggregate by_ (m_at at_).
Proof.
  unfold record_lesson_replay; cbn [rb_manifest rb_observations]. intros Hk.
  apply bind_Ok in Hk as ([] & _ & Hk). apply bind_Ok in Hk as (p & Hp & Hk).
  apply raise_when_bind_Ok in Hk as [Hst Hk]. apply bind_Ok in Hk as (ds & Hds & Hk).
  apply bind_Ok in Hk as ([] & Hart & Hk).
  destruct (head _) as [b|] eqn:Ehead.
  - left. destruct (event_by_key l _ _); [|done]. apply Ok_inj in Hk. by injection Hk as <- <-.
  - right. apply bind_Ok in Hk as ([] & Hnew & Hk). apply bind_Ok in Hk as (aggregate & Hagg & Hk).
    apply bind_Ok in Hk as (p' & Hp' & Hk). apply bind_Ok in Hk as ([e l''] & Happ & Hk).
    apply Ok_inj in Hk. injection Hk as <- ->. exists p, p', ds, aggregate.
    unfold find_lesson in Hp. destruct (ld_lessons l !! mf_lesson_id m); [|done].
    apply Ok_inj in Hp as ->. apply bool_decide_eq_false in Hst.
    split; [done|]. split; [by intros ?; apply Hst; left|].
    split; [by intros ?; apply Hst; right|]. split; [done|]. split; [done|]. split; [|done].
    intros b Hb Hh.
    assert (Hin : b ∈ filter (fun b => ba_content_hash b = bundle_hash m obs)
                    (batches_of l (lp_id p))) by by apply list_elem_of_filter.
    destruct (filter _ _); [by apply not_elem_of_nil in Hin|done].
Qed.

Lemma string_app_inj p s1 s2 : p +:+ s1 = p +:+ s2 -> s1 = s2.
Proof. induction p as [|c p IH]; cbn; [done|]. intros E. injection E. apply IH. Qed.

Lemma prefix_app p s : String.prefix p (p +:+ s) = true.
Proof.
  induction p as [|c p IH]; [by destruct s|].
  change (String.prefix (String c p) (String c (p +:+ s)) = true). cbn.
  by destruct (Ascii.ascii_dec c c).
Qed.

Lemma remove_replay_prefix s : remove_prefix "replay:" ("replay:" +:+ s) = s.
Proof.
  unfold remove_prefix. rewrite prefix_app.
  change (String.substring 0 (String.length s - 0) s = s). rewrite Nat.sub_0_r.
  induction s as [|c s IH]; cbn; [done|]. by rewrite IH.
Qed.

(** No event carries the key of a replay that is not recorded. *)
Lemma replay_key_fresh l id p h :
  lesson_ok (batches_of l id) (events_of l id) p ->
  (forall b, b ∈ batches_of l id -> ba_content_hash b <> h) ->
  event_by_key l id (replay_event_key h) = None.
Proof.
  intros (a & c & Ha & Hc & Hkeys & _ & _ & _ & Hkind & _) Hno.
  apply event_by_key_None. intros e He Hk. rewrite Forall_forall in Hkind.
  destruct (Hkind e He) as [Hr _]. rewrite Hk in Hr.
  assert (Hin : replay_event_key h ∈ ae_replay_keys c).
  { apply (audit_events_spec _ _ Hc). exists e. split; [done|]. split; [|done]. by apply Hr, prefix_app. }
  rewrite Hkeys in Hin. destruct (audit_batches_spec _ _ _ Ha) as (_ & _ & _ & Hbk & _).
  rewrite Hbk, elem_of_list_to_set in Hin. apply list_elem_of_fmap in Hin as (b & Hb & Hin).
  apply string_app_inj in Hb. by apply (Hno b).
Qed.

Lemma check_new_replay_Ok l p m obs :
  check_new_replay l p (Bundle m obs) = Ok tt ->
  (forall b, b ∈ batches_of l (lp_id p) -> ba_manifest b = m)
  /\ (forall o o', o ∈ obs -> o' ∈ prior_observations l (lp_id p) ->
        observation_identity o <> observation_identity o').
Proof.
  unfold check_new_replay; cbn. intros Hk. apply raise_when_bind_Ok in Hk as [Hm Ho].
  apply raise_when_Ok in Ho. split.
  - intros b Hb. destruct (decide (ba_manifest b = m)) as [|Hn]; [done|].
    assert (existsb (fun b => negb (bool_decide (ba_manifest b = m))) (batches_of l (lp_id p)) = true);
      [|congruence].
    apply existsb_exists. exists b. split; [by apply list_elem_of_In|]. by rewrite bool_decide_false.
  - intros o o' Hin Hin' E. apply not_true_iff_false in Ho. apply Ho, existsb_exists. exists o.
    split; [by apply list_elem_of_In|]. apply bool_decide_eq_true, elem_of_list_to_set.
    rewrite E. by apply list_elem_of_fmap_2.
Qed.

(** The audit of the batches accepts the new one. *)
Lemma audit_recorded id l p a raw bid m obs ds aggregate by_ at_ :
  lp_id p = id -> audit_batches id (batches_of l id) = Ok a -> mf_lesson_id m = id ->
  parse_replay_bundle raw = Ok (Bundle m obs) ->
  mapM_result (validate_against_frozen_outcome frozen) obs = Ok ds ->
  validate_bundle_artifacts m obs ds = Ok tt ->
  check_new_replay l p (Bundle m obs) = Ok tt ->
  compute_replay_metrics (sort_observations (prior_observations l id ++ obs)%list) = Ok aggregate ->
  audit_batches id (batches_of l id ++ [recorded_batch p bid m obs aggregate by_ at_])%list
  = Ok (mkBatchAudit (Some m) (sort_observations (prior_observations l id ++ obs)%list)
          (au_identities a ∪ list_to_set (observation_identity <$> obs))
          ({[ replay_event_key (bundle_hash m obs) ]} ∪ au_event_keys a)
          (Some (metrics_dict aggregate))).
Proof.
  intros Hid Ha Hmid Hparse Hds Hart Hnew Hagg. rewrite for_each_app, Ha. cbn [mbind result_bind for_each].
  destruct (audit_batches_spec _ _ _ Ha) as (Hnd & Hobs & Hids & _ & _ & Hnone & Hman).
  apply check_new_replay_Ok in Hnew as [Hsame Hdis]. rewrite Hid in *.
  destruct (parse_sorted _ _ _ Hparse) as [Hnd' _].
  assert (Hnd2 : NoDup (observation_identity <$> (prior_observations l id ++ obs)%list)).
  { rewrite fmap_app. apply NoDup_app. split; [done|]. split; [|done].
    intros x (o' & -> & Ho')%list_elem_of_fmap (o & E & Ho)%list_elem_of_fmap.
    by apply (Hdis o o'). }
  assert (Hm : default m (au_manifest a) = m).
  { destruct (batches_of l id) as [|b bs] eqn:E; [by rewrite Hnone|].
    rewrite (Hman b) by left. cbn. apply Hsame. by left. }
  assert (Hsort : sort_observations (au_observations a ++ obs)%list
                  = sort_observations (prior_observations l id ++ obs)%list)
    by (rewrite Hobs; by apply sort_observations_app).
  match goal with |- (x ← ?step; _) = _ => enough (step = Ok (mkBatchAudit (Some m)
    (sort_observations (prior_observations l id ++ obs)%list)
    (au_identities a ∪ list_to_set (observation_identity <$> obs))
    ({[ replay_event_key (bundle_hash m obs) ]} ∪ au_event_keys a)
    (Some (metrics_dict aggregate)))) as -> by done end.
  apply audit_batch_Ok. cbn [recorded_batch ba_manifest ba_observations ba_content_hash ba_aggregate_metrics].
  split; [done|]. rewrite Hm, Hsort. split; [done|].
  split; [by eapply recorded_content|]. split.
  - rewrite Hids. intros x Hx%elem_of_list_to_set Hx'%elem_of_list_to_set.
    apply list_elem_of_fmap in Hx as (o' & -> & Ho'), Hx' as (o & E & Ho). by apply (Hdis o o').
  - by exists aggregate.
Qed.

Lemma lookup_decide_app {A} (P : Prop) `{Decision P} (l : list A) (x : A) :
  P -> (l ++ if decide P then [x] else [])%list = (l ++ [x])%list.
Proof. intros HP. by rewrite decide_True. Qed.

(** Appending one event, and perhaps one batch, of the replaced lesson. *)
Lemma replaces_append l id p p' (ob : option LessonReplayBatch) (e : LessonLifecycleEvent) :
  ld_lessons l !! id = Some p -> lp_id p' = id -> lp_id p = id ->
  lp_cluster_key p' = lp_cluster_key p -> lp_episode_key p' = lp_episode_key p ->
  ev_lesson_id e = id -> (forall b, ob = Some b -> ba_lesson_id b = id) ->
  let l' := add_event (match ob with Some b => add_batch (put_lesson l p') b | None => put_lesson l p' end) e in
  replaces l l' id p p'
  /\ batches_of l' id = (batches_of l id ++ match ob with Some b => [b] | None => [] end)%list
  /\ events_of l' id = (events_of l id ++ [e])%list.
Proof.
  intros Hp Hid' Hid Hc Hep He Hb l'.
  assert (Hes : forall k, events_of l' k = (events_of l k ++ if decide (ev_lesson_id e = k) then [e] else [])%list).
  { intros k. unfold l'. rewrite events_of_add. by destruct ob. }
  assert (Hbs : forall k, batches_of l' k
    = (batches_of l k ++ match ob with Some b => if decide (ba_lesson_id b = k) then [b] else [] | None => [] end)%list).
  { intros k. unfold l'. destruct ob as [b|]; [|by rewrite app_nil_r].
    change (batches_of (add_batch (put_lesson l p') b) k
      = (batches_of l k ++ if decide (ba_lesson_id b = k) then [b] else [])%list).
    by rewrite batches_of_add. }
  split; [|split].
  - split; try done.
    + unfold l', put_lesson. rewrite <- Hid'. by destruct ob.
    + unfold l'. by destruct ob.
    + intros b Hin. unfold l' in Hin. destruct ob as [b0|]; cbn in Hin; [|by left].
      apply elem_of_app in Hin as [Hin|Hin%list_elem_of_singleton]; [by left|right; subst; auto].
    + intros e' Hin. unfold l' in Hin.
      assert (Hin' : e' ∈ (ld_events l ++ [e])%list) by by destruct ob.
      apply elem_of_app in Hin' as [Hin'|Hin'%list_elem_of_singleton]; [by left|right; by subst].
    + intros k Hk. rewrite Hes, Hbs, He, (decide_False (P := id = k)) by congruence.
      rewrite app_nil_r. split; [|done]. destruct ob as [b|]; [|by rewrite app_nil_r].
      rewrite (Hb b eq_refl), decide_False by congruence. by rewrite app_nil_r.
    + congruence.
  - rewrite Hbs. destruct ob as [b|]; [|done]. by rewrite (Hb b eq_refl), decide_True.
  - by rewrite Hes, He, decide_True.
Qed.

Lemma key_kind_replay eid l p bid m obs aggregate by_ at_ :
  key_kind (numbered eid l (replay_draft p bid m obs aggregate by_ at_)).
Proof. split; [done|]. cbn. unfold replay_event_key. by destruct (bundle_hash m obs). Qed.

Lemma metrics_dict_lookup_dates m :
  metrics_dict m !! "distinct_target_dates" = Some (JInt (rm_distinct_target_dates m)).
Proof. reflexivity. Qed.

(** Recording a replay keeps the invariant. *)
Lemma record_preserved raw bid eid l m obs by_ at_ req r l' :
  ledger_ok l -> parse_replay_bundle raw = Ok (Bundle m obs) -> representable (m_at at_) ->
  Forall (fun b => stored_key (ba_created_at b) < stored_key (m_at at_)) (batches_of l (mf_lesson_id m)) ->
  record_lesson_replay frozen reflections default_universe bid eid l (Bundle m obs) by_ at_ req
    = Ok (r, l') ->
  ledger_ok l'.
Proof.
  intros Hl Hparse Hat Hlater Hrun.
  apply record_effect in Hrun as [[-> _]|(p & p' & ds & agg & Hp & Hnr & Hns & Hds & Hart & Hfresh & Hnew & Hagg & Hproj & Happ & _)];
    [done|].
  set (id := mf_lesson_id m) in *. assert (Hid : lp_id p = id) by by apply (lk_keyed l Hl).
  rewrite Hid in *. destruct (lk_lessons l Hl id p Hp) as (a & c & Ha & Hc & Hkeys & Hst & Hpj & Hsort & Hkind & Hfail).
  rewrite Hid in Ha.
  apply refresh_projection_Ok in Hproj as (Hid' & Hcl & Hep & Hst' & Hsup & Hdates & Hfk & Hmk).
  set (b := recorded_batch p bid m obs agg by_ (m_at at_)) in *.
  set (d := replay_draft p bid m obs agg by_ (m_at at_)) in *.
  assert (Hnone : event_by_key (add_batch (put_lesson l p') b) (dr_lesson_id d) (dr_key d) = None).
  { change (event_by_key l (lp_id p) (replay_event_key (bundle_hash m obs)) = None). rewrite Hid.
    eapply replay_key_fresh; [by apply (lk_lessons l Hl)|done]. }
  apply append_event_new in Happ as [He ->]; [|done].
  assert (Hde : ev_lesson_id (rr_event r) = id) by (rewrite He; exact Hid).
  destruct (replaces_append l id p p' (Some b) (rr_event r)) as (Hrep & Hbs & Hes);
    [done|congruence|done|done|done|done|by intros ? [= <-]|].
  eapply replaces_ok; [exact Hl|exact Hrep| |done|done|congruence|congruence|left; congruence].
  rewrite Hbs, Hes. rewrite He. change (numbered eid (add_batch (put_lesson l p') b) d) with (numbered eid l d).
  eexists _, _. split; [rewrite Hid', Hid; by eapply audit_recorded|].
  assert (Hdl : dr_lesson_id d = id) by exact Hid. rewrite <- Hdl in Hc |- *. split.
  { apply audit_append; [exact Hc|by rewrite Hst| |done|].
    - cbn. by destruct (lp_status p).
    - intros _. cbn. by rewrite remove_replay_prefix. }
  cbn [ae_replay_keys ae_status au_event_keys au_latest_metrics]. rewrite bool_decide_true by done.
  split; [by rewrite Hkeys|]. split; [by rewrite Hst'|]. split.
  { apply projection_iff. rewrite metrics_dict_lookup_dates, Hdates. split; [|done].
    intros k v Hkv. by apply default_get, Hmk. }
  split; [|split].
  - rewrite Hdl. apply StronglySorted_app_2; [|done|by repeat constructor].
    intros x y Hx Hy%list_elem_of_singleton. subst y. rewrite Forall_forall in Hlater. by apply Hlater.
  - apply Forall_app. split; [by rewrite Hdl|]. apply Forall_singleton, key_kind_replay.
  - unfold failures_ok in *. rewrite Hst', Hfk. done.
Qed.

(** ** Reviewing a lesson *)

Definition review_draft (p : LessonProposal) (t : EventType) (to : LessonStatus)
    (reviewer notes : string) (at_ : moment) (checklist_valid : option bool) (payload : jobject)
    : EventDraft :=
  mkDraft (lp_id p) t (revalidate_event_key p reviewer notes at_ checklist_valid) (lp_status p) to
    reviewer notes payload (m_at at_).

(** A successful review changed nothing or moved the lesson and appended one
    event. *)
Lemma revalidate_effect eid l id reviewer notes at_ req checklist_valid r l' :
  (forall k p, ld_lessons l !! k = Some p -> lp_id p = k) ->
  revalidate_lesson reflections default_universe eid l id reviewer notes at_ req checklist_valid
    = Ok (r, l') ->
  (l' = l /\ tr_idempotent r = true)
  \/ exists p reasons passed assessment prior ns failures t metrics payload,
    ld_lessons l !! id = Some p /\ is_head (lp_status p) = true
    /\ lesson_revalidation_due_reasons p at_ = Ok reasons /\ reasons <> []
    /\ revalidation_assessment reflections default_universe p req checklist_valid
       = Ok (passed, assessment)
    /\ json_int (default (JInt 0) (lp_replay_metrics p !! failure_key)) = Ok prior
    /\ revalidation_outcome (lp_status p) prior passed = (ns, failures, t)
    /\ reviewed_metrics p assessment passed failures ns reasons at_ = Ok metrics
    /\ tr_lesson r = moved p ns (m_at at_) (lp_supersedes_id p) metrics
    /\ tr_idempotent r = false
    /\ (let d := review_draft p t ns reviewer notes at_ checklist_valid payload in
        event_by_key l id (dr_key d) = None
        /\ append_event eid (put_lesson l (tr_lesson r)) d = Ok (tr_event r, l')).
Proof.
  intros Hkeyed Hk. unfold revalidate_lesson in Hk.
  apply bind_Ok in Hk as ([] & _ & Hk). apply bind_Ok in Hk as ([] & _ & Hk).
  apply bind_Ok in Hk as (p & Hp & Hk). unfold find_lesson in Hp.
  destruct (ld_lessons l !! id) as [p0|] eqn:Hlk; [|done]. apply Ok_inj in Hp as ->.
  assert (Hid := Hkeyed _ _ Hlk). destruct (event_by_key l id _) as [e|] eqn:Hnone.
  { left. apply Ok_inj in Hk. by injection Hk as <- <-. }
  right. apply raise_when_bind_Ok in Hk as [Hhead Hk]. apply bind_Ok in Hk as (reasons & Hr & Hk).
  apply raise_when_bind_Ok in Hk as [Hne Hk]. apply bind_Ok in Hk as ([passed a] & Ha & Hk).
  apply bind_Ok in Hk as (prior & Hprior & Hk).
  destruct (revalidation_outcome _ _ _) as [[ns failures] t] eqn:Hout.
  apply bind_Ok in Hk as (metrics & Hmet & Hk). apply bind_Ok in Hk as ([e l''] & Happ & Hk).
  apply Ok_inj in Hk. injection Hk as <- ->. apply bool_decide_eq_false in Hne.
  match type of Happ with append_event _ _ (mkDraft _ _ _ _ _ _ _ ?payload _) = _ =>
    exists p, reasons, passed, a, prior, ns, failures, t, metrics, payload end.
  cbn [tr_lesson tr_idempotent tr_event].
  repeat (split; [by auto using negb_false_iff|]). split; [by apply negb_false_iff|].
  repeat (split; [done|]). unfold review_draft. rewrite Hid. exact Happ.
Qed.

Lemma get_true_iff m k : get_true m k = true <-> m !! k = Some (JBool true).
Proof. apply bool_decide_eq_true. Qed.

Lemma revalidation_assessment_Ok p req cv passed a :
  revalidation_assessment reflections default_universe p req cv = Ok (passed, a) ->
  none_of kept_keys a
  /\ (get_true (lp_replay_metrics p) "immediate_extreme_checklist" = true ->
      a !! "immediate_extreme_checklist" = Some (JBool true)).
Proof.
  unfold revalidation_assessment. destruct (get_true _ _) eqn:Him.
  - destruct cv as [b|]; [|done]. intros E%Ok_inj. apply pair_equal_spec in E as [_ <-]. split; [by apply none_of_list|].
    intros _. apply get_true_iff in Him.
    transitivity (Some (get (lp_replay_metrics p) "immediate_extreme_checklist")); [reflexivity|].
    f_equal. by apply default_get.
  - intros Hk. apply bind_Ok in Hk as (a0 & Ha0 & Hk). apply bind_Ok in Hk as (n & _ & Hk%Ok_inj).
    apply pair_equal_spec in Hk as [_ <-]. apply assess_current_policy_Ok in Ha0 as (e & -> & _). split; [|done].
    destruct (has_fresh_replay _ _); [|apply no_new_evidence_none]; apply assessment_dict_none.
Qed.

(** What a review writes into the metrics. *)
Lemma reviewed_metrics_Ok p a passed failures ns reasons at_ metrics :
  reviewed_metrics p a passed failures ns reasons at_ = Ok metrics ->
  none_of kept_keys a ->
  metrics !! failure_key = Some (JInt failures)
  /\ (forall k, k ∈ metric_keys -> metrics !! k = lp_replay_metrics p !! k)
  /\ (a !! "immediate_extreme_checklist" = Some (JBool true) ->
      metrics !! "immediate_extreme_checklist" = Some (JBool true)).
Proof.
  unfold reviewed_metrics. intros Hk Ha.
  pose (good (q : jobject) := q !! failure_key = Some (JInt failures)
    /\ (forall k, k ∈ metric_keys -> q !! k = lp_replay_metrics p !! k)
    /\ (a !! "immediate_extreme_checklist" = Some (JBool true) ->
        q !! "immediate_extreme_checklist" = Some (JBool true))).
  change (good metrics).
  assert (Hupd : forall q extra, good q -> none_of ("immediate_extreme_checklist" :: kept_keys) extra ->
            good (updated q extra)).
  { intros q extra (Hf & Hm & Hi) Hextra. split; [|split].
    - rewrite updated_lookup_base; [done|]. apply Hextra. right. by left.
    - intros k Hin. rewrite updated_lookup_base; [by apply Hm|]. apply Hextra. by right; right.
    - intros Hai. rewrite updated_lookup_base; [by apply Hi|]. apply Hextra. by left. }
  match type of Hk with (if _ then Ok (updated ?q _) else _) = _ => assert (Hbase : good q) end.
  { split; [|split].
    - by apply updated_lookup_update.
    - intros k Hin. rewrite updated_metrics by done. apply updated_lookup_base, Ha. by right.
    - intros Hai. rewrite updated_lookup_base by by apply keys_of_list. by apply updated_lookup_update. }
  destruct (bool_decide (ns = RETIRED)).
  - apply Ok_inj in Hk as <-. apply Hupd; [exact Hbase|by apply none_of_list].
  - apply bind_Ok in Hk as (next & _ & <-%Ok_inj). apply Hupd; [exact Hbase|by apply none_of_list].
Qed.

(** Under the invariant a review has three outcomes. *)
Lemma outcome_cases p prior passed ns failures t :
  failures_ok p -> is_head (lp_status p) = true ->
  json_int (default (JInt 0) (lp_replay_metrics p !! failure_key)) = Ok prior ->
  revalidation_outcome (lp_status p) prior passed = (ns, failures, t) ->
  allowed t (lp_status p) ns = true /\ t <> EV_REPLAY_RECORDED /\ t <> EV_SUPERSEDED
  /\ ns <> SUPERSEDED /\ ns <> CANDIDATE
  /\ (ns = ACTIVE -> failures = 0) /\ (ns = CHALLENGED -> failures = 1)
  /\ (passed = true <-> ns = ACTIVE)
  /\ (passed = false -> (lp_status p = ACTIVE -> ns = CHALLENGED) /\ (lp_status p = CHALLENGED -> ns = RETIRED)).
Proof.
  unfold failures_ok, revalidation_outcome, is_head. intros Hf Hh Hprior Hout.
  apply bool_decide_eq_true in Hh.
  destruct (lp_status p); try (by destruct Hh as [Hh|Hh]); rewrite Hf in Hprior;
    injection Hprior as <-; destruct passed; cbn in Hout; injection Hout as <- <- <-; cbn;
    repeat split; done.
Qed.

(** A review keeps the invariant. *)
Lemma revalidate_preserved eid l id reviewer notes at_ req cv r l' :
  ledger_ok l -> representable (m_at at_) ->
  revalidate_lesson reflections default_universe eid l id reviewer notes at_ req cv = Ok (r, l') ->
  ledger_ok l'.
Proof.
  intros Hl Hat Hrun. apply revalidate_effect in Hrun as [[-> _]|Heff]; [done| |by apply lk_keyed].
  destruct Heff as (p & reasons & passed & a & prior & ns & failures & t & metrics & payload & Hp & Hhead & _ & _ & Hassess & Hprior & Hout & Hmet & Hles & _ & Hnone & Happ).
  assert (Hid : lp_id p = id) by by apply (lk_keyed l Hl).
  destruct (lk_lessons l Hl id p Hp) as (au & c & Ha & Hc & Hkeys & Hst & Hpj & Hsort & Hkind & Hfail).
  set (d := review_draft p t ns reviewer notes at_ cv payload) in *.
  assert (Hdl : dr_lesson_id d = id) by exact Hid.
  destruct (outcome_cases _ _ _ _ _ _ Hfail Hhead Hprior Hout) as (Hallow & Htr & Hts & Hns & Hnc & Hfa & Hfc & _ & _).
  destruct (revalidation_assessment_Ok _ _ _ _ _ Hassess) as [Hak Hai].
  destruct (reviewed_metrics_Ok _ _ _ _ _ _ _ _ Hmet Hak) as (Hmf & Hmk & Hmi).
  rewrite <- Hdl in Hnone at 1.
  apply append_event_new in Happ as [He ->]; [|exact Hnone].
  destruct (replaces_append l id p (tr_lesson r) None (tr_event r)) as (Hrep & Hbs & Hes);
    [done|by rewrite Hles|done|by rewrite Hles|by rewrite Hles|by rewrite He|done|].
  assert (Hpst : lp_status p <> SUPERSEDED /\ lp_status p <> CANDIDATE)
    by (split; intros E; rewrite E in Hhead; done).
  eapply replaces_ok; [exact Hl|exact Hrep| |by rewrite Hles|by apply Hpst|by rewrite Hles|by rewrite Hles|by left].
  rewrite Hbs, Hes, app_nil_r, He.
  change (numbered eid (put_lesson l (tr_lesson r)) d) with (numbered eid l d).
  eexists _, _. split; [rewrite Hles; exact Ha|]. rewrite <- Hdl in Hc |- *. split.
  { apply audit_append; [exact Hc|by rewrite Hst|done|done|done]. }
  cbn [ae_replay_keys ae_status]. rewrite bool_decide_false by done.
  split; [done|]. split; [by rewrite Hles|]. split.
  { eapply projection_kept; [exact Ha|exact Hpj|by rewrite Hles|by rewrite Hles|].
    intros Hbs0 _. rewrite Hles. apply get_true_iff, Hmi, Hai.
    destruct (audit_batches_spec _ _ _ Ha) as (_ & _ & _ & _ & Hlast & _).
    rewrite Hlast, Hbs0 in Hpj. cbn in Hpj. apply audit_when_Ok in Hpj.
    apply andb_false_iff in Hpj as [Hpj|Hpj]; apply negb_false_iff in Hpj; [|done].
    apply bool_decide_eq_true in Hpj. by apply Hpst in Hpj. }
  rewrite Hdl. split; [done|]. split.
  - apply Forall_app. split; [done|]. apply Forall_singleton. by split.
  - unfold failures_ok. rewrite Hles. lesson_fields. rewrite Hmf.
    destruct ns; try done; [by rewrite Hfa|by rewrite Hfc].
Qed.

(** ** Approving a lesson *)

Lemma active_heads_elem l p q :
  q ∈ active_heads l p <->
  exists k, ld_lessons l !! k = Some q /\ lp_cluster_key q = lp_cluster_key p
    /\ lp_id q <> lp_id p /\ is_head (lp_status q) = true.
Proof.
  unfold active_heads. rewrite list_elem_of_filter, list_elem_of_fmap. split.
  - intros ((Hc & Hid & Hh) & [k x] & -> & Hk%elem_of_map_to_list). eauto.
  - intros (k & Hk & Hc & Hid & Hh). split; [done|]. exists (k, q). by rewrite elem_of_map_to_list.
Qed.

Lemma superseded_head_Ok heads sid sup :
  superseded_head heads sid = Ok sup ->
  match sup with Some q => heads = [q] /\ sid = Some (lp_id q) | None => heads = [] /\ sid = None end.
Proof.
  destruct heads as [|q [|? ?]]; cbn; [| |done].
  - intros Hk. apply raise_when_bind_Ok in Hk as [Hn [= <-]]. apply bool_decide_eq_false in Hn.
    split; [done|]. by destruct sid; [destruct Hn|].
  - intros Hk. apply raise_when_bind_Ok in Hk as [Hn [= <-]]. bool_prop. done.
Qed.

Definition approve_draft (lesson_id reviewer notes : string) (at_ : moment)
    (supersedes_id : option string) (payload : jobject) : EventDraft :=
  mkDraft lesson_id EV_APPROVED (approve_event_key lesson_id reviewer notes supersedes_id)
    CANDIDATE ACTIVE reviewer notes payload (m_at at_).

Definition put_superseded (l : Ledger) (sup : option LessonProposal) (successor : string)
    (at_ : moment) : Ledger :=
  match sup with Some old => put_lesson l (superseded_lesson old successor at_) | None => l end.

Lemma approve_effect eid eid2 l id reviewer notes at_ sid r l' :
  approve_lesson eid eid2 l id reviewer notes at_ sid = Ok (r, l') ->
  (l' = l /\ tr_idempotent r = true)
  \/ exists p sup next payload l2,
    ld_lessons l !! id = Some p /\ lp_status p = CANDIDATE
    /\ validate_activation_eligibility l p = Ok tt
    /\ superseded_head (active_heads l p) sid = Ok sup
    /\ add_calendar_month_in at_ = Ok next
    /\ tr_lesson r = activated_lesson p reviewer at_ next (lp_id <$> sup)
    /\ tr_idempotent r = false
    /\ event_by_key l id (approve_event_key id reviewer notes sid) = None
    /\ append_event eid (put_lesson (put_superseded l sup id at_) (tr_lesson r))
         (approve_draft id reviewer notes at_ sid payload) = Ok (tr_event r, l2)
    /\ append_superseded eid2 l2 sup id (ev_id (tr_event r)) reviewer notes at_ = Ok l'.
Proof.
  unfold approve_lesson. intros Hk.
  apply bind_Ok in Hk as ([] & _ & Hk). apply bind_Ok in Hk as ([] & _ & Hk).
  apply bind_Ok in Hk as (p & Hp & Hk). unfold find_lesson in Hp.
  destruct (ld_lessons l !! id) as [p0|] eqn:Hlk; [|done]. apply Ok_inj in Hp as ->.
  destruct (event_by_key l id _) as [e|] eqn:Hnone.
  { left. apply Ok_inj in Hk. by injection Hk as <- <-. }
  right. apply raise_when_bind_Ok in Hk as [Hc Hk]. apply bind_Ok in Hk as ([] & Hel & Hk).
  apply bind_Ok in Hk as (sup & Hsup & Hk). apply bind_Ok in Hk as (next & Hnext & Hk).
  apply bind_Ok in Hk as ([e l2] & Happ & Hk). apply bind_Ok in Hk as (l3 & Happ2 & Hk).
  apply Ok_inj in Hk. injection Hk as <- ->. bool_prop.
  match type of Happ with append_event _ _ (mkDraft _ _ _ _ _ _ _ ?payload _) = _ =>
    exists p, sup, next, payload, l2 end.
  cbn [tr_lesson tr_idempotent tr_event]. repeat (split; [done|]). exact Happ2.
Qed.

Lemma put_superseded_events l sup id at_ : ld_events (put_superseded l sup id at_) = ld_events l.
Proof. by destruct sup. Qed.

Lemma put_superseded_batches l sup id at_ : ld_batches (put_superseded l sup id at_) = ld_batches l.
Proof. by destruct sup. Qed.

Lemma numbered_ext eid l1 l2 d :
  events_of l1 (dr_lesson_id d) = events_of l2 (dr_lesson_id d) -> numbered eid l1 d = numbered eid l2 d.
Proof. intros E. unfold numbered. by rewrite E. Qed.

Definition approval_kept (q : jobject) (base : jobject) : Prop :=
  (forall k, k ∈ metric_keys -> q !! k = base !! k)
  /\ q !! "immediate_extreme_checklist" = base !! "immediate_extreme_checklist".

Lemma activated_metrics p reviewer at_ next sup :
  let q := lp_replay_metrics (activated_lesson p reviewer at_ next sup) in
  q !! failure_key = Some (JInt 0) /\ approval_kept q (lp_replay_metrics p).
Proof.
  unfold activated_lesson; lesson_fields. split; [by apply updated_lookup_update|].
  split; [|by apply updated_lookup_base, keys_of_list]. intros k Hk. by apply updated_metrics.
Qed.

Lemma superseded_metrics p succ at_ :
  let q := lp_replay_metrics (superseded_lesson p succ at_) in
  q !! "superseded_by_id" = Some (JStr succ) /\ approval_kept q (lp_replay_metrics p).
Proof.
  unfold superseded_lesson; lesson_fields. split; [by apply updated_lookup_update|].
  split; [|by apply updated_lookup_base, keys_of_list]. intros k Hk. by apply updated_metrics.
Qed.

(** An eligible lesson has batches or is an immediate checklist. *)
Lemma eligible_batches l p :
  validate_activation_eligibility l p = Ok tt ->
  batches_of l (lp_id p) = [] ->
  get_true (lp_replay_metrics p) "immediate_extreme_checklist" = true.
Proof.
  unfold validate_activation_eligibility. intros Hk Hnil.
  apply raise_when_bind_Ok in Hk as [_ Hk]. apply bind_Ok in Hk as ([] & _ & Hk).
  destruct (get_true _ "immediate_extreme_checklist"); [done|].
  apply raise_when_bind_Ok in Hk as [Hk _]. by rewrite Hnil in Hk.
Qed.

(** The moved lesson passes its audit with the event appended. *)
Lemma moved_ok l id p p' eid d :
  lesson_ok (batches_of l id) (events_of l id) p ->
  lp_id p' = lp_id p -> dr_lesson_id d = id ->
  lp_replay_target_dates p' = lp_replay_target_dates p ->
  approval_kept (lp_replay_metrics p') (lp_replay_metrics p) ->
  (batches_of l id = [] -> get_true (lp_replay_metrics p) "immediate_extreme_checklist" = true) ->
  dr_from d = lp_status p -> dr_to d = lp_status p' ->
  allowed (dr_type d) (dr_from d) (dr_to d) = true -> dr_type d <> EV_REPLAY_RECORDED ->
  representable (dr_occurred_at d) -> key_kind (numbered eid l d) -> failures_ok p' ->
  lesson_ok (batches_of l id) (events_of l id ++ [numbered eid l d])%list p'.
Proof.
  intros (a & c & Ha & Hc & Hkeys & Hst & Hpj & Hsort & Hkind & _) Hid Hd Hdates [Hm Him] Hnone
    Hfrom Hto Hallow Htype Hat Hkk Hfail.
  eexists _, _. split; [rewrite Hid; exact Ha|]. rewrite <- Hd in Hc |- *. split.
  { apply audit_append; [exact Hc|by rewrite Hst|done|done|done]. }
  cbn [ae_replay_keys ae_status]. rewrite bool_decide_false by done. rewrite Hd.
  split; [done|]. split; [done|]. split.
  { eapply projection_kept; [exact Ha|exact Hpj|done|done|]. intros Hbs _.
    apply get_true_iff. etransitivity; [exact Him|].
    by apply get_true_iff, Hnone. }
  split; [done|]. split; [|done]. apply Forall_app. split; [done|]. by apply Forall_singleton.
Qed.

Lemma approve_key_kind eid l id reviewer notes at_ sid payload :
  key_kind (numbered eid l (approve_draft id reviewer notes at_ sid payload)).
Proof. by split. Qed.

(** The approved lesson with its event, before its predecessor is considered. *)
Lemma activated_ok l id p reviewer notes at_ next sup eid sid payload :
  lesson_ok (batches_of l id) (events_of l id) p -> lp_id p = id -> lp_status p = CANDIDATE ->
  validate_activation_eligibility l p = Ok tt -> representable (m_at at_) ->
  lesson_ok (batches_of l id)
    (events_of l id ++ [numbered eid l (approve_draft id reviewer notes at_ sid payload)])%list
    (activated_lesson p reviewer at_ next sup).
Proof.
  intros Hok Hid Hst Hel Hat. destruct (activated_metrics p reviewer at_ next sup) as [Hf Hkept].
  apply (moved_ok l id p); try done.
  - intros Hnil. eapply eligible_batches; [exact Hel|by rewrite Hid].
Qed.

Lemma approve_alone_preserved l id p reviewer notes at_ next eid sid payload e l' :
  ledger_ok l -> ld_lessons l !! id = Some p -> lp_status p = CANDIDATE ->
  validate_activation_eligibility l p = Ok tt -> active_heads l p = [] ->
  representable (m_at at_) ->
  event_by_key l id (approve_event_key id reviewer notes sid) = None ->
  append_event eid (put_lesson l (activated_lesson p reviewer at_ next None))
    (approve_draft id reviewer notes at_ sid payload) = Ok (e, l') ->
  ledger_ok l'.
Proof.
  intros Hl Hp Hst Hel Hheads Hat Hnone Happ. assert (Hid : lp_id p = id) by by apply (lk_keyed l Hl).
  apply append_event_new in Happ as [He ->]; [|exact Hnone].
  destruct (replaces_append l id p (activated_lesson p reviewer at_ next None) None e) as (Hrep & Hbs & Hes);
    [done..|by rewrite He|done|].
  eapply replaces_ok; [exact Hl|exact Hrep| | |by rewrite Hst|done|done|].
  - rewrite Hbs, Hes, app_nil_r, He, (numbered_ext eid _ l) by done.
    apply activated_ok; try done. by apply (lk_lessons l Hl).
  - destruct (lk_lineage l Hl id p Hp) as (_ & _ & Hc). by rewrite Hc.
  - intros _. right. intros k q Hq Hne Hc. apply not_true_iff_false. intros Hh.
    assert (Hin : q ∈ active_heads l p); [|rewrite Hheads in Hin; by apply not_elem_of_nil in Hin].
    apply active_heads_elem. exists k. split; [done|]. split; [done|]. split; [|done].
    rewrite (lk_keyed l Hl k q Hq), Hid. done.
Qed.

Definition superseded_draft (old : LessonProposal) (successor approval reviewer notes : string)
    (at_ : moment) : EventDraft :=
  mkDraft (lp_id old) EV_SUPERSEDED ("superseded-by:" +:+ successor) (lp_status old) SUPERSEDED
    reviewer notes
    (list_to_map [("successor_id", JStr successor);
                  ("successor_approval_event_id", JStr approval);
                  ("wiki_promotion_performed", JBool false)]) (m_at at_).

(** A head has no event that says it was superseded. *)
Lemma superseded_key_fresh l id p succ :
  lesson_ok (batches_of l id) (events_of l id) p -> is_head (lp_status p) = true ->
  event_by_key l id ("superseded-by:" +:+ succ) = None.
Proof.
  intros (a & c & _ & Hc & _ & Hst & _ & _ & Hkind & _) Hh.
  apply event_by_key_None. intros e He Hk. rewrite Forall_forall in Hkind.
  destruct (Hkind e He) as [_ Hs]. rewrite Hk in Hs.
  destruct (audit_events_spec _ _ Hc) as (_ & _ & _ & _ & _ & Hsup).
  rewrite (Hsup e He) in Hst by by apply Hs, prefix_app. by rewrite <- Hst in Hh.
Qed.

Lemma superseded_ok l k q succ approval reviewer notes at_ eid :
  lesson_ok (batches_of l k) (events_of l k) q -> lp_id q = k -> is_head (lp_status q) = true ->
  representable (m_at at_) ->
  lesson_ok (batches_of l k)
    (events_of l k ++ [numbered eid l (superseded_draft q succ approval reviewer notes at_)])%list
    (superseded_lesson q succ at_).
Proof.
  intros Hok Hid Hh Hat. destruct (superseded_metrics q succ at_) as [_ Hkept].
  apply (moved_ok l k q); try done.
  - intros Hnil. destruct Hok as (a & c & Ha & _ & _ & _ & Hpj & _).
    destruct (audit_batches_spec _ _ _ Ha) as (_ & _ & _ & _ & Hlast & _).
    rewrite Hlast, Hnil in Hpj. cbn in Hpj. apply audit_when_Ok, andb_false_iff in Hpj.
    destruct Hpj as [Hpj|Hpj]; apply negb_false_iff in Hpj; [|done].
    apply bool_decide_eq_true in Hpj. by rewrite Hpj in Hh.
  - cbn. by destruct (lp_status q).
Qed.

Lemma supersede_heads l lessons id kq p q p' q' :
  ledger_ok l -> ld_lessons l !! id = Some p -> ld_lessons l !! kq = Some q -> kq <> id ->
  lp_id p = id -> active_heads l p = [q] -> lp_cluster_key p' = lp_cluster_key p ->
  lp_status q' = SUPERSEDED -> lessons = <[id := p']> (<[kq := q']> (ld_lessons l)) ->
  forall k1 k2 p1 p2, lessons !! k1 = Some p1 -> lessons !! k2 = Some p2 ->
    is_head (lp_status p1) = true -> is_head (lp_status p2) = true ->
    lp_cluster_key p1 = lp_cluster_key p2 -> k1 = k2.
Proof.
  intros Hl Hp Hq Hne Hid Hheads Hc Hs ->.
  assert (Hother : forall k x, <[id := p']> (<[kq := q']> (ld_lessons l)) !! k = Some x ->
    is_head (lp_status x) = true ->
    (k = id /\ x = p') \/ (k <> id /\ k <> kq /\ ld_lessons l !! k = Some x)).
  { intros k x. destruct (decide (k = id)) as [->|Hk]; [rewrite lookup_insert_eq; intros [= <-]; by left|].
    rewrite lookup_insert_ne by done. destruct (decide (k = kq)) as [->|Hk'].
    - rewrite lookup_insert_eq. intros [= <-]. by rewrite Hs.
    - rewrite lookup_insert_ne by done. intros; right; auto. }
  assert (Hno : forall k x, k <> id -> k <> kq -> ld_lessons l !! k = Some x ->
    is_head (lp_status x) = true -> lp_cluster_key x = lp_cluster_key p -> False).
  { intros k x Hk Hk' Hx Hh Hxc. assert (Hin : x ∈ active_heads l p).
    { apply active_heads_elem. exists k. split; [done|]. split; [done|]. split; [|done].
      rewrite (lk_keyed l Hl k x Hx), Hid. done. }
    rewrite Hheads in Hin. apply list_elem_of_singleton in Hin as ->.
    apply Hk'. rewrite <- (lk_keyed l Hl k q Hx). by apply (lk_keyed l Hl). }
  intros k1 k2 p1 p2 H1' H2' Hh1 Hh2 Hcc.
  apply Hother in H1' as [[-> ->]|(? & ? & H1')]; [|..|done]; [|apply Hother in H2' as [[-> ->]|(? & ? & H2')]; [|..|done]].
  - apply Hother in H2' as [[-> ->]|(? & ? & H2')]; [done|exfalso; rewrite Hc in Hcc; eauto|done].
  - exfalso. rewrite Hc in Hcc. eauto.
  - by eapply (lk_heads l Hl).
Qed.

Lemma supersede_lineage l id kq p q reviewer at_ next :
  ledger_ok l -> ld_lessons l !! id = Some p -> ld_lessons l !! kq = Some q -> kq <> id ->
  lp_id p = id -> lp_id q = kq -> lp_status p = CANDIDATE -> is_head (lp_status q) = true ->
  let lessons := <[id := activated_lesson p reviewer at_ next (Some (lp_id q))]>
                   (<[kq := superseded_lesson q id at_]> (ld_lessons l)) in
  forall k x, lessons !! k = Some x -> lineage_ok lessons x.
Proof.
  intros Hl Hp Hq Hne Hid Hqid Hst Hqh lessons.
  assert (Hkq : lessons !! kq = Some (superseded_lesson q id at_))
    by (unfold lessons; by rewrite lookup_insert_ne, lookup_insert_eq).
  assert (Hkp : lessons !! id = Some (activated_lesson p reviewer at_ next (Some (lp_id q))))
    by (unfold lessons; by rewrite lookup_insert_eq).
  assert (Hrest : forall k, k <> id -> k <> kq -> lessons !! k = ld_lessons l !! k)
    by (intros; unfold lessons; by rewrite !lookup_insert_ne).
  assert (Hpred : forall r x, ld_lessons l !! r = Some x -> lp_status x = SUPERSEDED -> lessons !! r = Some x).
  { intros r x Hx Hs. rewrite Hrest; [done|congruence|].
    intros ->. rewrite Hq in Hx. injection Hx as <-. by rewrite Hs in Hqh. }
  assert (Hcand := proj2 (proj2 (lk_lineage l Hl id p Hp)) Hst).
  intros k x Hx. destruct (decide (k = id)) as [->|Hk]; [|destruct (decide (k = kq)) as [->|Hk']].
  - rewrite Hkp in Hx. injection Hx as <-. split; [|by split].
    intros r [= <-]. rewrite Hqid. exists (superseded_lesson q id at_). split; [done|]. split; [done|].
    transitivity (Some (JStr id)); [apply superseded_metrics|].
    change (Some (JStr id) = Some (JStr (lp_id p))). by rewrite Hid.
  - rewrite Hkq in Hx. injection Hx as <-. split; [|split; [|done]].
    + intros r Hr. destruct (proj1 (lk_lineage l Hl kq q Hq) r Hr) as (pr & Hpr & Hs & Hback). eauto.
    + intros _. exists id, (activated_lesson p reviewer at_ next (Some (lp_id q))).
      split; [apply superseded_metrics|]. by split.
  - rewrite Hrest in Hx by done. destruct (lk_lineage l Hl k x Hx) as (H1' & H2' & H3').
    split; [|split; [|done]].
    + intros r Hr. destruct (H1' r Hr) as (pr & Hpr & Hs & Hback). eauto.
    + intros Hs. destruct (H2' Hs) as (sid & succ & Hm & Hsid & Hback). exists sid.
      destruct (decide (sid = id)) as [->|Hsne]; [|destruct (decide (sid = kq)) as [->|Hsne']].
      * rewrite Hp in Hsid. injection Hsid as <-. congruence.
      * rewrite Hq in Hsid. injection Hsid as <-. by exists (superseded_lesson q id at_).
      * exists succ. by rewrite Hrest.
Qed.

(** Approving a successor: the old head steps down and the new one links to it. *)
Lemma supersede_preserved l id p q kq reviewer notes at_ next eid eid2 sid payload e l2 l' :
  ledger_ok l -> ld_lessons l !! id = Some p -> lp_status p = CANDIDATE ->
  validate_activation_eligibility l p = Ok tt -> active_heads l p = [q] ->
  ld_lessons l !! kq = Some q -> representable (m_at at_) ->
  event_by_key l id (approve_event_key id reviewer notes sid) = None ->
  append_event eid (put_lesson (put_lesson l (superseded_lesson q id at_))
                      (activated_lesson p reviewer at_ next (Some (lp_id q))))
    (approve_draft id reviewer notes at_ sid payload) = Ok (e, l2) ->
  append_superseded eid2 l2 (Some q) id (ev_id e) reviewer notes at_ = Ok l' ->
  ledger_ok l'.
Proof.
  intros Hl Hp Hst Hel Hheads Hq Hat Hnone Happ Happ2.
  assert (Hid : lp_id p = id) by by apply (lk_keyed l Hl).
  assert (Hqid : lp_id q = kq) by by apply (lk_keyed l Hl).
  assert (Hqin : q ∈ active_heads l p) by (rewrite Hheads; by left).
  apply active_heads_elem in Hqin as (k' & Hk' & Hqc & Hqne & Hqh).
  assert (k' = kq) as -> by (rewrite <- Hqid; symmetry; by apply (lk_keyed l Hl)). clear Hk'.
  assert (Hne : kq <> id) by congruence.
  set (q' := superseded_lesson q id at_) in *.
  set (p' := activated_lesson p reviewer at_ next (Some (lp_id q))) in *.
  apply append_event_new in Happ as [He ->]; [|exact Hnone].
  set (d1 := approve_draft id reviewer notes at_ sid payload) in *.
  assert (Heid : ev_lesson_id e = id) by by rewrite He.
  set (l2 := add_event (put_lesson (put_lesson l q') p') e) in *.
  cbn [append_superseded] in Happ2. apply bind_Ok in Happ2 as ([e2 l3] & Happ2 & <-%Ok_inj).
  assert (Hev2 : events_of l2 kq = events_of l kq).
  { unfold l2. rewrite events_of_add, Heid, decide_False by congruence. by rewrite app_nil_r. }
  apply append_event_new in Happ2 as [He2 ->].
  2: { cbn [dr_lesson_id dr_key]. rewrite Hqid. unfold event_by_key. rewrite Hev2.
       eapply (superseded_key_fresh l kq q); [by apply (lk_lessons l Hl)|done]. }
  set (d2 := superseded_draft q id (ev_id e) reviewer notes at_).
  assert (He2id : ev_lesson_id e2 = kq) by by rewrite He2.
  (* the old head steps down *)
  destruct (replaces_append l kq q q' None (numbered eid2 l d2)) as (Hrep1 & Hbs1 & Hes1); [done..|].
  set (lq := add_event (put_lesson l q') (numbered eid2 l d2)) in *.
  assert (Hcore1 : ledger_core lq).
  { eapply replaces_core; [by apply ledger_ok_core|exact Hrep1|]. rewrite Hbs1, Hes1, app_nil_r.
    apply superseded_ok; try done. by apply (lk_lessons l Hl). }
  (* the new one takes its place *)
  assert (Hee2 : e2 = numbered eid2 l d2).
  { rewrite He2. apply numbered_ext.
    change (events_of l2 (lp_id q) = events_of l (lp_id q)). by rewrite Hqid. }
  assert (Hes2 : forall k, events_of (add_event l2 e2) k
    = (events_of l k ++ (if decide (id = k) then [e] else []) ++ (if decide (kq = k) then [e2] else []))%list).
  { intros k. rewrite events_of_add. unfold l2. rewrite events_of_add, Heid, He2id.
    by rewrite <- (assoc_L app). }
  assert (Hrep2 : replaces lq (add_event l2 e2) id p p').
  { split; try done.
    - change (<[lp_id q := q']> (ld_lessons l) !! id = Some p). by rewrite Hqid, lookup_insert_ne.
    - change (<[lp_id p := p']> (<[lp_id q := q']> (ld_lessons l))
              = <[id := p']> (<[lp_id q := q']> (ld_lessons l))). by rewrite Hid.
    - by left.
    - intros x Hx. unfold l2, lq in *; cbn in *. rewrite <- Hee2.
      rewrite !elem_of_app, !list_elem_of_singleton in *. destruct Hx as [[Hx| ->]| ->]; auto.
    - intros k Hk. split; [done|]. rewrite Hes2, decide_False by done. unfold lq.
      rewrite events_of_add, <- Hee2, He2id. done. }
  assert (Hcore2 : ledger_core (add_event l2 e2)).
  { eapply replaces_core; [exact Hcore1|exact Hrep2|].
    rewrite Hes2, decide_True, decide_False, app_nil_r by done.
    rewrite He, (numbered_ext eid _ l) by done. change (batches_of (add_event l2 e2) id) with (batches_of l id).
    apply activated_ok; try done. by apply (lk_lessons l Hl). }
  assert (Hles : ld_lessons (add_event l2 e2) = <[id := p']> (<[kq := q']> (ld_lessons l))).
  { change (<[lp_id p := p']> (<[lp_id q := q']> (ld_lessons l))
            = <[id := p']> (<[kq := q']> (ld_lessons l))). by rewrite Hid, Hqid. }
  destruct Hcore2 as [Hk Hb Hev Hhash Hep Hok]. split; try done.
  - by apply (supersede_heads l _ id kq p q p' q' Hl Hp Hq Hne Hid Hheads).
  - rewrite Hles. by apply (supersede_lineage l id kq p q reviewer at_ next Hl Hp Hq Hne Hid Hqid Hst).
Qed.

Lemma approve_preserved eid eid2 l id reviewer notes at_ sid r l' :
  ledger_ok l -> representable (m_at at_) ->
  approve_lesson eid eid2 l id reviewer notes at_ sid = Ok (r, l') -> ledger_ok l'.
Proof.
  intros Hl Hat Hrun. apply approve_effect in Hrun as [[-> _]|Heff]; [done|].
  destruct Heff as (p & sup & next & payload & l2 & Hp & Hst & Hel & Hsup & _ & Hles & _ & Hnone & Happ & Happ2).
  apply superseded_head_Ok in Hsup. rewrite Hles in Happ. destruct sup as [q|].
  - destruct Hsup as [Hheads _]. assert (Hq : q ∈ active_heads l p) by (rewrite Hheads; by left).
    apply active_heads_elem in Hq as (kq & Hq & _).
    by eapply (supersede_preserved l id p q kq reviewer notes at_ next eid eid2 sid payload).
  - destruct Hsup as [Hheads _]. apply Ok_inj in Happ2 as <-. by eapply approve_alone_preserved.
Qed.

(** ** Steps *)

(** What happens to the ledger: a proposal arrives, a parsed bundle is
    recorded, a human approves or reviews.  Operator times are representable,
    and a lesson's replays are recorded one after the other. *)
Inductive step : Ledger -> Ledger -> Prop :=
  | step_propose new_id request at_ req draft l l' :
      ld_lessons l !! new_id = None ->
      persist_lesson reflections default_universe new_id request at_ req l draft = Ok l' ->
      step l l'
  | step_record raw bundle bid eid l by_ at_ req r l' :
      parse_replay_bundle raw = Ok bundle -> representable (m_at at_) ->
      Forall (fun b => stored_key (ba_created_at b) < stored_key (m_at at_))
        (batches_of l (mf_lesson_id (rb_manifest bundle))) ->
      record_lesson_replay frozen reflections default_universe bid eid l bundle by_ at_ req
        = Ok (r, l') ->
      step l l'
  | step_approve eid eid2 l id reviewer notes at_ sid r l' :
      representable (m_at at_) ->
      approve_lesson eid eid2 l id reviewer notes at_ sid = Ok (r, l') -> step l l'
  | step_revalidate eid l id reviewer notes at_ req cv r l' :
      representable (m_at at_) ->
      revalidate_lesson reflections default_universe eid l id reviewer notes at_ req cv = Ok (r, l') ->
      step l l'.

Definition empty_ledger : Ledger := mkLedger ∅ [] [] ∅.

Definition reachable : Ledger -> Prop := rtc step empty_ledger.

Lemma empty_ok : ledger_ok empty_ledger.
Proof.
  split; cbn; try (by intros k p Hk); try (by intros x Hx%not_elem_of_nil).
Qed.

Lemma no_events_of l id : ledger_ok l -> ld_lessons l !! id = None -> events_of l id = [].
Proof.
  intros Hl Hnone. unfold events_of. destruct (filter _ (ld_events l)) as [|e es] eqn:E; [done|].
  assert (Hin : e ∈ filter (fun e => ev_lesson_id e = id) (ld_events l)) by (rewrite E; by left).
  apply list_elem_of_filter in Hin as [<- Hin]. apply (lk_events l Hl) in Hin as [? Hs]. congruence.
Qed.

Lemma no_batches_of l id : ledger_ok l -> ld_lessons l !! id = None -> batches_of l id = [].
Proof.
  intros Hl Hnone. unfold batches_of. destruct (filter _ (ld_batches l)) as [|e es] eqn:E; [done|].
  assert (Hin : e ∈ filter (fun e => ba_lesson_id e = id) (ld_batches l)) by (rewrite E; by left).
  apply list_elem_of_filter in Hin as [<- Hin]. apply (lk_batches l Hl) in Hin as [? Hs]. congruence.
Qed.

Lemma new_lesson_ok p : lp_status p = CANDIDATE -> lesson_ok [] [] p.
Proof.
  intros Hst. exists no_batches, no_events. split; [done|]. split; [done|]. split; [done|].
  split; [done|]. split; [cbn; by rewrite Hst|]. split; [constructor|]. split; [constructor|].
  unfold failures_ok. by rewrite Hst.
Qed.

(** What a proposal adds: a candidate and, the first time, its episode. *)
Lemma persist_lesson_Ok new_id request at_ req l draft l' :
  persist_lesson reflections default_universe new_id request at_ req l draft = Ok l' ->
  exists p l1, l1 = ensure_episode l request (pd_recurrence_key draft) /\ l' = put_lesson l1 p
    /\ lp_id p = new_id /\ lp_status p = CANDIDATE /\ lp_supersedes_id p = None
    /\ lp_cluster_key p = pd_recurrence_key draft
    /\ lp_episode_key p = iso_date (rq_target_date request).
Proof.
  unfold persist_lesson. intros Hk. apply bind_Ok in Hk as (brier & _ & Hk).
  apply bind_Ok in Hk as (cal & _ & <-%Ok_inj). do 2 eexists. by split.
Qed.

Lemma ensure_episode_spec l request key l1 :
  l1 = ensure_episode l request key ->
  ld_lessons l1 = ld_lessons l /\ ld_batches l1 = ld_batches l /\ ld_events l1 = ld_events l
  /\ is_Some (ld_episodes l1 !! (key, iso_date (rq_target_date request)))
  /\ (forall x ep, ld_episodes l !! x = Some ep -> ld_episodes l1 !! x = Some ep)
  /\ (episodes_hashed l -> episodes_hashed l1).
Proof.
  intros ->. unfold ensure_episode, episodes_hashed.
  destruct (ld_episodes l !! _) eqn:E; cbn; [by rewrite E; eauto 10|].
  do 3 (split; [done|]). split; [by rewrite lookup_insert_eq|]. split.
  - intros x ep Hx. rewrite lookup_insert_ne; [done|]. congruence.
  - intros Hall x ep [[<- <-]|[_ Hx]]%lookup_insert_Some; [done|eauto].
Qed.

Lemma propose_preserved new_id request at_ req l draft l' :
  ledger_ok l -> ld_lessons l !! new_id = None ->
  persist_lesson reflections default_universe new_id request at_ req l draft = Ok l' ->
  ledger_ok l'.
Proof.
  intros Hl Hnone (p & l1 & Hl1 & -> & <- & Hst & Hsup & Hck & Hek)%persist_lesson_Ok.
  apply ensure_episode_spec in Hl1 as (Hles & Hb & He & Hep & Hepk & Hhash).
  assert (Hcase : forall k x, ld_lessons (put_lesson l1 p) !! k = Some x ->
    (k = lp_id p /\ x = p) \/ (k <> lp_id p /\ ld_lessons l !! k = Some x)).
  { intros k x. cbn. rewrite Hles. intros [[<- <-]|[? Hx]]%lookup_insert_Some; [by left|by right]. }
  assert (Hkeep : forall k x, ld_lessons l !! k = Some x -> ld_lessons (put_lesson l1 p) !! k = Some x).
  { intros k x Hx. cbn. rewrite Hles, lookup_insert_ne; [done|]. congruence. }
  split.
  - intros k x [[-> ->]|[_ Hx]]%Hcase; [done|by apply (lk_keyed l Hl)].
  - cbn. rewrite Hb. intros b Hin. apply (lk_batches l Hl) in Hin as [x Hx]. eauto.
  - cbn. rewrite He. intros e Hin. apply (lk_events l Hl) in Hin as [x Hx]. eauto.
  - assert (Hnew : is_head (lp_status p) = false) by by rewrite Hst.
    intros k1 k2 p1 p2 [[-> ->]|[_ Hp1]]%Hcase [[-> ->]|[_ Hp2]]%Hcase Hh1 Hh2; [congruence..|].
    by apply (lk_heads l Hl k1 k2 p1 p2).
  - intros k x [[-> ->]|[_ Hx]]%Hcase.
    + split; [by rewrite Hsup|]. split; [by rewrite Hst|done].
    + destruct (lk_lineage l Hl k x Hx) as (H1' & H2' & H3'). split; [|split; [|done]].
      * intros q Hq. destruct (H1' q Hq) as (pr & Hpr & ?). eauto.
      * intros Hs. destruct (H2' Hs) as (sid & succ & ? & Hsid & ?). eauto 10.
  - apply Hhash, (lk_hashed l Hl).
  - intros k x [[-> ->]|[_ Hx]]%Hcase; unfold episode_ok.
    + by rewrite Hck, Hek.
    + destruct (lk_episode l Hl k x Hx) as [e Hex]. exists e. by apply Hepk.
  - intros k x Hx.
    assert (batches_of (put_lesson l1 p) k = batches_of l k) as -> by (unfold batches_of; cbn; by rewrite Hb).
    assert (events_of (put_lesson l1 p) k = events_of l k) as -> by (unfold events_of; cbn; by rewrite He).
    apply Hcase in Hx as [[-> ->]|[_ Hx]]; [|by apply (lk_lessons l Hl)].
    rewrite (no_batches_of l), (no_events_of l) by done. by apply new_lesson_ok.
Qed.

End Ledger.

End LessonInv.
