(* ===== verification/LessonProps.v ===== *)
(** * What the lesson ledger guarantees

    Theorems about every ledger the services can produce: the audit accepts
    it, its history only grows, a lesson is activated on evidence only, and a
    failing lesson is retired at its second strike. *)
From S2P Require Import Prelude PyStr PyTime Float64 Domain Json Iso Contracts Evaluation Reflection.
From S2P Require Import Replay Lesson LessonTheory LessonInv.
Import PyStr PyTime Float64 Domain Json Iso Contracts Reflection Replay Lesson LessonTheory LessonInv.
Open Scope string_scope.
Open Scope Z_scope.

Module LessonProps.

Section Ledger.
Context `{PyRuntime} `{CanonicalHash} `{LibM} `{TimestampOrder}.
Context (frozen : gmap string ForecastDiagnostic) (reflections : Reflection.Db)
  (default_universe : string).

Local Abbreviation reachable := (reachable frozen reflections default_universe).
Local Abbreviation step := (step frozen reflections default_universe).
Local Abbreviation ledger_ok := (ledger_ok frozen).
Local Abbreviation lesson_ok := (lesson_ok frozen).

Lemma step_ok l l' : ledger_ok l -> step l l' -> ledger_ok l'.
Proof.
  intros Hl Hs. destruct Hs as [new_id request at_ req draft l l' Hn Hrun
    |raw [m obs] bid eid l by_ at_ req r l' Hp Hat Hlate Hrun
    |eid eid2 l id reviewer notes at_ sid r l' Hat Hrun
    |eid l id reviewer notes at_ req cv r l' Hat Hrun].
  - by eapply propose_preserved.
  - by eapply record_preserved.
  - by eapply approve_preserved.
  - by eapply revalidate_preserved.
Qed.

Lemma reachable_ok l : reachable l -> ledger_ok l.
Proof.
  intros Hr. refine (rtc_ind_r (fun l => ledger_ok l) empty_ledger _ _ l Hr); [apply empty_ok|].
  intros y z _ Hs Hy. by eapply step_ok.
Qed.

(** ** The audit *)

Lemma batches_sorted (bs : list LessonReplayBatch) :
  StronglySorted (fun b1 b2 => stored_key (ba_created_at b1) < stored_key (ba_created_at b2)) bs ->
  merge_sort batch_order bs = bs.
Proof.
  apply (merge_sort_strict batch_order (fun b => stored_key (ba_created_at b))); unfold batch_order.
  - intros a b. unfold lex_le; cbn. lia.
  - intros a b Hab. left. cbn. lia.
  - intros a b c. apply (transitivity (R := lex_le Z.le String.le)).
  - intros a b. apply (total (lex_le Z.le String.le)).
Qed.

Lemma events_sorted (es : list LessonLifecycleEvent) :
  StronglySorted (fun a b => ev_sequence_number a < ev_sequence_number b) es ->
  merge_sort event_order es = es.
Proof.
  apply (merge_sort_strict event_order ev_sequence_number); unfold event_order.
  - done.
  - lia.
  - intros a b c. lia.
  - intros a b. lia.
Qed.

Lemma at_most_one {A} (l : list A) :
  NoDup l -> (forall x y, x ∈ l -> y ∈ l -> x = y) -> (length l <= 1)%nat.
Proof.
  intros Hnd Hall. destruct l as [|x [|y l]]; cbn; [lia|lia|].
  apply NoDup_cons in Hnd as [Hx _]. destruct Hx. rewrite (Hall x y); set_solver.
Qed.

Lemma cluster_heads l (p : LessonProposal) :
  ledger_ok l ->
  (length (filter (fun q => lp_cluster_key q = lp_cluster_key p /\ is_head (lp_status q) = true)
             (snd <$> map_to_list (ld_lessons l))) <= 1)%nat.
Proof.
  intros Hl. erewrite (filter_map _ (fun kq : string * LessonProposal =>
    lp_cluster_key kq.2 = lp_cluster_key p /\ is_head (lp_status kq.2) = true)) by done.
  rewrite length_fmap. apply at_most_one.
  - apply NoDup_filter, NoDup_map_to_list.
  - intros [k1 q1] [k2 q2] [[Hc1 Hh1] Hq1%elem_of_map_to_list]%list_elem_of_filter
      [[Hc2 Hh2] Hq2%elem_of_map_to_list]%list_elem_of_filter; cbn in *.
    assert (k1 = k2) as <- by (eapply (lk_heads frozen l Hl); eauto; congruence). congruence.
Qed.

Lemma lineage_verifies l p : lineage_ok (ld_lessons l) p -> verify_lineage l p = Ok tt.
Proof.
  intros (Hpred & Hsucc & _). unfold verify_lineage.
  assert (match lp_supersedes_id p with None => Ok tt | Some predecessor_id =>
      match ld_lessons l !! predecessor_id with
      | None => audit_error "Lesson predecessor lineage failed audit"
      | Some predecessor =>
          audit_when (negb (bool_decide (lp_status predecessor = SUPERSEDED)))
            "Lesson predecessor lineage failed audit" ;;
          audit_when (negb (get_is (lp_replay_metrics predecessor) "superseded_by_id" (lp_id p)))
            "Lesson predecessor backlink failed audit" end end = Ok tt) as ->.
  { destruct (lp_supersedes_id p) as [q|]; [|done].
    destruct (Hpred q eq_refl) as (pred & -> & -> & Hback). cbn.
    assert (get_is (lp_replay_metrics pred) "superseded_by_id" (lp_id p) = true) as ->; [|done].
    by apply bool_decide_true. }
  cbn. case_bool_decide as Hs; [|done]. destruct (Hsucc Hs) as (id & succ & Hm & Hid & Hback).
  by rewrite (default_get _ _ _ Hm), Hid, bool_decide_true.
Qed.

(** The audit of one lesson, from the invariant. *)
Lemma audit_ok l id p :
  ledger_ok l -> ld_lessons l !! id = Some p ->
  verify_lesson_audit frozen l id
  = Ok (mkReport id (lp_status p) (Z.of_nat (length (batches_of l id)))
          (Z.of_nat (length (events_of l id))) (ba_content_hash <$> last (batches_of l id))
          (audit_root_hash p (batches_of l id) (events_of l id))).
Proof.
  intros Hl Hp. assert (Hid : lp_id p = id) by by apply (lk_keyed frozen l Hl).
  destruct (lk_lessons frozen l Hl id p Hp) as (a & c & Ha & Hc & Hkeys & Hst & Hproj & Hsort & _ & _).
  unfold verify_lesson_audit, find_lesson. rewrite Hp. cbn [mbind result_bind]. rewrite Hid in *.
  rewrite batches_sorted by done. rewrite events_sorted by by apply audit_events_spec in Hc as (_ & _ & ? & _).
  rewrite Ha, Hc. cbn [mbind result_bind]. rewrite Hkeys, Hst, !bool_decide_true by done.
  cbn [negb audit_when raise_when mbind result_bind]. rewrite Hproj. cbn [mbind result_bind].
  destruct (lk_episode frozen l Hl id p Hp) as [ep Hep]. rewrite Hep.
  rewrite (lk_hashed frozen l Hl _ _ Hep), String.eqb_refl. cbn [negb audit_when raise_when mbind result_bind].
  pose proof (cluster_heads l p Hl) as Hone.
  match goal with |- context [(1 <? ?n)] => assert ((1 <? n) = false) as -> by (apply Z.ltb_ge; lia) end.
  cbn [audit_when raise_when mbind result_bind].
  by rewrite (lineage_verifies l p (lk_lineage frozen l Hl id p Hp)).
Qed.

(** ** History *)

(** The row of a lesson changes only together with one new event of its own
    that is allowed to move it that way. *)
Definition moves (l l' : Ledger) (p p' : LessonProposal) : Prop :=
  lp_id p' = lp_id p /\ lp_cluster_key p' = lp_cluster_key p
  /\ lp_episode_key p' = lp_episode_key p
  /\ ((p' = p /\ events_of l' (lp_id p) = events_of l (lp_id p)) \/ exists e,
        events_of l' (lp_id p) = (events_of l (lp_id p) ++ [e])%list
        /\ ev_from e = lp_status p /\ ev_to e = lp_status p'
        /\ allowed (ev_type e) (ev_from e) (ev_to e) = true).

Lemma moves_same l l' p : events_of l' (lp_id p) = events_of l (lp_id p) -> moves l l' p p.
Proof. intros He. repeat (split; [done|]). by left. Qed.

(** Nothing is rewritten: batches and events are appended, lessons move. *)
Definition history (l l' : Ledger) : Prop :=
  (exists bs, ld_batches l' = (ld_batches l ++ bs)%list)
  /\ (exists es, ld_events l' = (ld_events l ++ es)%list)
  /\ (forall id p, ld_lessons l !! id = Some p ->
        exists p', ld_lessons l' !! id = Some p' /\ moves l l' p p').

Lemma history_same l : history l l.
Proof.
  split; [exists []; by rewrite app_nil_r|]. split; [exists []; by rewrite app_nil_r|].
  intros id p Hp. exists p. split; [done|by apply moves_same].
Qed.

(** Two changes, none of which touches a lesson of the other. *)
Lemma history_trans l l1 l2 :
  history l l1 -> history l1 l2 ->
  (forall id p p1 p2, ld_lessons l !! id = Some p -> ld_lessons l1 !! id = Some p1 ->
     ld_lessons l2 !! id = Some p2 ->
     (p1 = p /\ events_of l1 (lp_id p) = events_of l (lp_id p))
     \/ (p2 = p1 /\ events_of l2 (lp_id p) = events_of l1 (lp_id p))) ->
  history l l2.
Proof.
  intros ([b1 Hb1] & [e1 He1] & Hm1) ([b2 Hb2] & [e2 He2] & Hm2) Hor.
  split; [exists (b1 ++ b2)%list; by rewrite Hb2, Hb1, (assoc_L app)|].
  split; [exists (e1 ++ e2)%list; by rewrite He2, He1, (assoc_L app)|].
  intros id p Hp. destruct (Hm1 id p Hp) as (p1 & Hp1 & Hi1 & Hc1 & Hep1 & Hmv1).
  destruct (Hm2 id p1 Hp1) as (p2 & Hp2 & Hi2 & Hc2 & Hep2 & Hmv2).
  exists p2. split; [done|]. split; [congruence|]. split; [congruence|]. split; [congruence|].
  rewrite Hi1 in Hmv2. destruct (Hor id p p1 p2 Hp Hp1 Hp2) as [[-> He]|[-> He]].
  - by rewrite <- He.
  - by rewrite He.
Qed.

Definition keyed (l : Ledger) : Prop := forall k p, ld_lessons l !! k = Some p -> lp_id p = k.

Lemma ok_keyed l : ledger_ok l -> keyed l.
Proof. exact (lk_keyed frozen l). Qed.

(** One lesson moves, with its event. *)
Lemma history_one l id p p' ob e :
  keyed l -> ld_lessons l !! id = Some p -> lp_id p' = lp_id p ->
  lp_cluster_key p' = lp_cluster_key p -> lp_episode_key p' = lp_episode_key p ->
  ev_lesson_id e = id -> (forall b, ob = Some b -> ba_lesson_id b = id) ->
  ev_from e = lp_status p -> ev_to e = lp_status p' ->
  allowed (ev_type e) (lp_status p) (lp_status p') = true ->
  history l (add_event (match ob with Some b => add_batch (put_lesson l p') b
                                 | None => put_lesson l p' end) e).
Proof.
  intros Hl Hp Hid' Hc Hep He Hb Hf Ht Ha.
  assert (Hid : lp_id p = id) by by apply Hl.
  destruct (replaces_append l id p p' ob e) as (Hr & _ & Hes); [done|congruence|done..|].
  split; [|split].
  - destruct ob as [b|]; [by exists [b]|exists []; by rewrite app_nil_r].
  - exists [e]. by destruct ob.
  - intros k q Hq. rewrite (rp_lessons _ _ _ _ _ Hr). destruct (decide (k = id)) as [->|Hk].
    + rewrite lookup_insert_eq. exists p'. split; [done|]. rewrite Hp in Hq. injection Hq as <-.
      split; [done|]. split; [done|]. split; [done|]. right. exists e.
      rewrite Hid. split; [exact Hes|]. rewrite Hf, Ht. done.
    + rewrite lookup_insert_ne by done. exists q. split; [done|]. apply moves_same.
      rewrite (Hl k q Hq). by apply (rp_others _ _ _ _ _ Hr k).
Qed.

Lemma history_propose new_id request at_ req l draft l' :
  ledger_ok l -> ld_lessons l !! new_id = None ->
  persist_lesson reflections default_universe new_id request at_ req l draft = Ok l' ->
  history l l'.
Proof.
  intros Hl Hnone (p & l1 & Hl1 & -> & <- & _)%persist_lesson_Ok.
  apply ensure_episode_spec in Hl1 as (Hles & Hb & He & _).
  split; [exists []; cbn; by rewrite Hb, app_nil_r|].
  split; [exists []; cbn; by rewrite He, app_nil_r|].
  intros id q Hq. exists q. split.
  - cbn. rewrite Hles, lookup_insert_ne; congruence.
  - apply moves_same. unfold events_of; cbn. by rewrite He.
Qed.

Lemma history_record raw bid eid l m obs by_ at_ req r l' :
  ledger_ok l -> parse_replay_bundle raw = Ok (Bundle m obs) ->
  record_lesson_replay frozen reflections default_universe bid eid l (Bundle m obs) by_ at_ req
    = Ok (r, l') ->
  history l l'.
Proof.
  intros Hl Hparse Hrun. apply record_effect in Hrun as [[-> _]|Heff]; [apply history_same|].
  destruct Heff as (p & p' & ds & agg & Hp & Hnr & Hns & _ & _ & Hfresh & _ & _ & Hproj & Happ & _).
  apply refresh_projection_Ok in Hproj as (Hid' & Hc & Hep & Hst & _).
  assert (Hid : lp_id p = mf_lesson_id m) by by apply (lk_keyed frozen l Hl).
  apply append_event_new in Happ as [He ->].
  2: { change (event_by_key l (lp_id p) (replay_event_key (bundle_hash m obs)) = None). rewrite Hid in *.
       eapply replay_key_fresh; [by apply (lk_lessons frozen l Hl)|done]. }
  apply (history_one l (mf_lesson_id m) p p' (Some (recorded_batch p bid m obs agg by_ (m_at at_))));
    try done; try by apply ok_keyed.
  - by rewrite He.
  - by intros b [= <-].
  - by rewrite He.
  - rewrite He. by rewrite Hst.
  - rewrite He, Hst. cbn. by destruct (lp_status p).
Qed.

Lemma history_revalidate eid l id reviewer notes at_ req cv r l' :
  ledger_ok l ->
  revalidate_lesson reflections default_universe eid l id reviewer notes at_ req cv = Ok (r, l') ->
  history l l'.
Proof.
  intros Hl Hrun. apply revalidate_effect in Hrun as [[-> _]|Heff];
    [apply history_same| |by apply (lk_keyed frozen)].
  destruct Heff as (p & reasons & passed & a & prior & ns & failures & t & metrics & payload & Hp & Hhead
    & _ & _ & _ & Hprior & Hout & _ & Hles & _ & Hnone & Happ).
  assert (Hid : lp_id p = id) by by apply (lk_keyed frozen l Hl).
  destruct (lk_lessons frozen l Hl id p Hp) as (_ & _ & _ & _ & _ & _ & _ & _ & _ & Hfail).
  destruct (outcome_cases _ _ _ _ _ _ Hfail Hhead Hprior Hout) as (Hal & _).
  apply append_event_new in Happ as [He ->]; [|by rewrite <- Hid in Hnone].
  rewrite Hles in *. apply (history_one l id p _ None); try done; try by rewrite He.
  by apply ok_keyed.
Qed.

(** The old head steps down behind the approval of its successor. *)
Lemma history_supersede l id kq p q p' at_ e d eid2 e2 l' :
  ledger_ok l -> ld_lessons l !! id = Some p -> ld_lessons l !! kq = Some q -> kq <> id ->
  is_head (lp_status q) = true -> lp_id p' = id -> ev_lesson_id e = id ->
  dr_lesson_id d = lp_id q -> dr_type d = EV_SUPERSEDED -> dr_key d = "superseded-by:" +:+ id ->
  dr_from d = lp_status q -> dr_to d = SUPERSEDED ->
  history l (add_event (put_lesson l p') e) ->
  append_event eid2 (add_event (put_lesson (put_lesson l (superseded_lesson q id at_)) p') e) d
    = Ok (e2, l') ->
  history l l'.
Proof.
  intros Hl Hp Hq Hne Hqh Hid' Heid Hdl Hdt Hdk Hdf Hdto Hone Happ.
  assert (Hqid : lp_id q = kq) by by apply (lk_keyed frozen l Hl).
  set (q' := superseded_lesson q id at_) in *.
  set (l1 := add_event (put_lesson l p') e) in *.
  set (lq := add_event (put_lesson (put_lesson l q') p') e) in *.
  assert (Hev : forall k, k <> id -> events_of l1 k = events_of l k).
  { intros k Hk. unfold l1. rewrite events_of_add, Heid, decide_False by done. by rewrite app_nil_r. }
  apply append_event_new in Happ as [He2 ->].
  2: { rewrite Hdk, Hdl, Hqid. unfold event_by_key. change (events_of lq kq) with (events_of l1 kq).
       rewrite Hev by done. eapply (superseded_key_fresh frozen l kq q); [by apply (lk_lessons frozen l Hl)|done]. }
  assert (add_event lq e2 = add_event (put_lesson l1 q') e2) as ->.
  { unfold lq, l1, put_lesson, add_event; cbn. rewrite insert_insert_ne; [done|].
    change (lp_id q') with (lp_id q). congruence. }
  assert (Hq1 : ld_lessons l1 !! kq = Some q) by (unfold l1; cbn; by rewrite lookup_insert_ne by congruence).
  eapply (history_trans l l1); [exact Hone| |].
  - apply (history_one l1 kq q q' None); try done; rewrite ?He2; cbn; try congruence.
    + intros k x. unfold l1; cbn. intros [[<- <-]|[_ Hx]]%lookup_insert_Some; [done|by apply (lk_keyed frozen l Hl)].
    + rewrite Hdt. by destruct (lp_status q).
  - intros k x x1 x2 Hx Hx1 Hx2. destruct (decide (k = id)) as [->|Hk].
    + right. cbn in Hx2. change (lp_id q') with (lp_id q) in Hx2. rewrite Hqid in Hx2.
      rewrite lookup_insert_ne in Hx2 by done. unfold l1 in Hx1; cbn in Hx1. split; [congruence|].
      assert (lp_id x = id) as -> by by apply (lk_keyed frozen l Hl).
      rewrite events_of_add, He2. cbn. rewrite Hdl, Hqid, decide_False by done. by rewrite app_nil_r.
    + left. unfold l1 in Hx1; cbn in Hx1. rewrite Hid' in Hx1. rewrite lookup_insert_ne in Hx1 by done.
      split; [congruence|]. apply Hev. rewrite (lk_keyed frozen l Hl k x Hx). done.
Qed.

Lemma history_approve eid eid2 l id reviewer notes at_ sid r l' :
  ledger_ok l -> representable (m_at at_) ->
  approve_lesson eid eid2 l id reviewer notes at_ sid = Ok (r, l') -> history l l'.
Proof.
  intros Hl Hat Hrun. apply approve_effect in Hrun as [[-> _]|Heff]; [apply history_same|].
  destruct Heff as (p & sup & next & payload & l2 & Hp & Hst & Hel & Hsup & _ & Hles & _ & Hnone & Happ & Happ2).
  assert (Hid : lp_id p = id) by by apply (lk_keyed frozen l Hl).
  apply superseded_head_Ok in Hsup. rewrite Hles in Happ.
  apply append_event_new in Happ as [He ->]; [|by destruct sup].
  assert (Hone : history l (add_event (put_lesson l (activated_lesson p reviewer at_ next
                                                        (lp_id <$> sup))) (tr_event r))).
  { apply (history_one l id p _ None); try done; try by rewrite He.
    - by apply ok_keyed.
    - by rewrite He, Hst. }
  destruct sup as [q|]; [|by apply Ok_inj in Happ2 as <-]. destruct Hsup as [Hheads _].
  cbn [append_superseded] in Happ2. apply bind_Ok in Happ2 as ([e2 l3] & Happ2 & <-%Ok_inj).
  assert (Hq : q ∈ active_heads l p) by (rewrite Hheads; by left).
  apply active_heads_elem in Hq as (kq & Hq & _ & Hne & Hqh).
  assert (Hqid : lp_id q = kq) by by apply (lk_keyed frozen l Hl).
  eapply (history_supersede l id kq p q (activated_lesson p reviewer at_ next (Some (lp_id q)))
            at_ (tr_event r)); cycle 13; [exact Happ2|try done..].
  - congruence.
  - by rewrite He.
Qed.

Lemma step_history l l' : ledger_ok l -> step l l' -> history l l'.
Proof.
  intros Hl Hs. destruct Hs as [new_id request at_ req draft l l' Hn Hrun
    |raw [m obs] bid eid l by_ at_ req r l' Hp Hat Hlate Hrun
    |eid eid2 l id reviewer notes at_ sid r l' Hat Hrun
    |eid l id reviewer notes at_ req cv r l' Hat Hrun].
  - by eapply history_propose.
  - by eapply history_record.
  - by eapply history_approve.
  - by eapply history_revalidate.
Qed.

(** ** The evidence behind a lesson *)

(** The projection in the row of a lesson with batches is recomputed from
    observations that are backed by frozen outcomes. *)
Lemma lesson_evidence l id p :
  ledger_ok l -> ld_lessons l !! id = Some p -> batches_of l id <> [] ->
  exists m,
    compute_replay_metrics (sort_observations (prior_observations l id)) = Ok m
    /\ NoDup (observation_identity <$> prior_observations l id)
    /\ (forall b, b ∈ batches_of l id -> Forall (backed frozen (ba_manifest b)) (ba_observations b))
    /\ lp_replay_target_dates p = rm_distinct_target_dates m
    /\ (forall k v, metrics_dict m !! k = Some v -> get (lp_replay_metrics p) k = v).
Proof.
  intros Hl Hp Hne.
  destruct (lk_lessons frozen l Hl id p Hp) as (a & c & Ha & _ & _ & _ & Hproj & _).
  destruct (audited_evidence _ _ _ Ha Hne) as (m & Hm & Hlast & Hback).
  destruct (audit_batches_spec _ _ _ Ha) as (Hnd & _).
  rewrite Hlast in Hproj. apply projection_iff in Hproj as [Hget Hdates].
  exists m. do 3 (split; [done|]). split; [|done].
  rewrite metrics_dict_lookup_dates in Hdates. congruence.
Qed.

(** What eligibility asks of an ordinary lesson. *)
Lemma eligible_ordinary l p :
  validate_activation_eligibility l p = Ok tt ->
  get_true (lp_replay_metrics p) "immediate_extreme_checklist" = false ->
  get_true (lp_replay_metrics p) "wiki_review_ready" = true
  /\ batches_of l (lp_id p) <> []
  /\ MIN_INDEPENDENT_EPISODES <= lp_independent_episode_count p
  /\ MIN_REPLAY_TARGET_DATES <= lp_replay_target_dates p
  /\ json_le_zero (default (JInt 0) (lp_replay_metrics p !! "average_brier_improvement")) = Ok false
  /\ json_le_zero (default (JInt 0) (lp_replay_metrics p !! "calibration_improvement")) = Ok false
  /\ get_true (lp_replay_metrics p) "important_subgroups_non_degrading" = true.
Proof.
  unfold validate_activation_eligibility. intros Hk Him. rewrite Him in Hk.
  apply raise_when_bind_Ok in Hk as [_ Hk]. apply bind_Ok in Hk as ([] & Hr & Hk).
  apply raise_when_bind_Ok in Hk as [Hb Hk]. apply raise_when_bind_Ok in Hk as [He Hk].
  apply raise_when_bind_Ok in Hk as [Hd Hk]. apply bind_Ok in Hk as ([] & Hbr & Hk).
  { by apply raise_when_bind_Ok in Hk as [? _]. }
  apply raise_when_bind_Ok in Hk as [_ Hk]. apply bind_Ok in Hk as ([] & Hca & Hk).
  { by apply raise_when_bind_Ok in Hk as [? _]. }
  apply raise_when_bind_Ok in Hk as [_ Hk]. apply raise_when_Ok, negb_false_iff in Hk.
  split.
  { destruct (get_true _ "wiki_review_ready"); [done|]. by apply bind_Ok in Hr as (? & _ & ?). }
  split; [intros E; by rewrite E in Hb|]. split; [lia|]. split; [lia|]. done.
Qed.

(** An entry of the projection that the audit recomputes. *)
Lemma projected p m k v :
  (forall k v, metrics_dict m !! k = Some v -> get (lp_replay_metrics p) k = v) ->
  v <> JNull -> metrics_dict m !! k = Some v -> lp_replay_metrics p !! k = Some v.
Proof.
  intros Hall Hv Hk. specialize (Hall k v Hk). unfold get in Hall.
  destruct (lp_replay_metrics p !! k) as [j|]; cbn in Hall; congruence.
Qed.

(** An ordinary review passes on fresh replay evidence only. *)
Lemma passed_on_fresh_replay p req cv a :
  revalidation_assessment reflections default_universe p req cv = Ok (true, a) ->
  get_true (lp_replay_metrics p) "immediate_extreme_checklist" = false ->
  exists n, json_int (default (JInt 0) (lp_replay_metrics p !! "last_revalidated_target_dates")) = Ok n
    /\ has_fresh_replay p n = true.
Proof.
  unfold revalidation_assessment. intros Hk Him. rewrite Him in Hk.
  apply bind_Ok in Hk as (a0 & _ & Hk). apply bind_Ok in Hk as (n & Hn & Hk%Ok_inj).
  apply pair_equal_spec in Hk as [Hp _]. exists n. split; [done|].
  destruct (has_fresh_replay p n); [done|].
  apply get_true_iff in Hp. unfold no_new_evidence in Hp.
  rewrite (updated_lookup_update _ _ _ (JBool false)) in Hp by done. congruence.
Qed.

(** A lesson whose review is recorded in its metrics. *)
Lemma due_after_review q text last as_of monthly :
  is_head (lp_status q) = true ->
  lp_replay_metrics q !! "last_revalidated_at" = Some (JStr text) -> text <> "" ->
  fromisoformat text = Some last -> is_aware last = true ->
  lp_replay_metrics q !! "last_revalidated_target_dates" = Some (JInt (lp_replay_target_dates q)) ->
  0 < lp_half_life_sessions q ->
  is_aware (m_at as_of) = true -> add_calendar_month last = Ok monthly ->
  lesson_revalidation_due_reasons q as_of = Ok (blocker (dt_leb monthly (m_at as_of)) "monthly").
Proof.
  intros Hh Htext Hne Hlast Haw Hcount Hhalf Has Hm. unfold lesson_revalidation_due_reasons.
  rewrite Has, Hh. cbn [negb raise_when mbind result_bind].
  rewrite (default_get _ _ _ Htext).
  assert (json_truthy (JStr text) = true) as -> by (cbn; by destruct text).
  rewrite Hlast, Haw. cbn [negb raise_when mbind result_bind].
  assert (json_int (default (default (JInt 0) (lp_replay_metrics q !! "activated_replay_target_dates"))
            (lp_replay_metrics q !! "last_revalidated_target_dates")) = Ok (lp_replay_target_dates q)) as ->.
  { assert (default (default (JInt 0) (lp_replay_metrics q !! "activated_replay_target_dates"))
      (lp_replay_metrics q !! "last_revalidated_target_dates") = JInt (lp_replay_target_dates q)) as ->; [|done].
    transitivity (default (default (JInt 0) (lp_replay_metrics q !! "activated_replay_target_dates"))
      (Some (JInt (lp_replay_target_dates q)))); [by f_equal|done]. }
  cbn [mbind result_bind]. rewrite Hm. cbn [mbind result_bind].
  replace (LESSON_REVALIDATION_EPISODES <=? lp_replay_target_dates q - lp_replay_target_dates q) with false
    by (symmetry; apply Z.leb_gt; unfold LESSON_REVALIDATION_EPISODES; lia).
  replace (lp_half_life_sessions q <=? lp_replay_target_dates q - lp_replay_target_dates q) with false
    by (symmetry; apply Z.leb_gt; lia).
  by rewrite !app_nil_r.
Qed.

Lemma actor_aware reviewer at_ : validate_actor_and_time reviewer at_ = Ok tt -> is_aware (m_at at_) = true.
Proof.
  unfold validate_actor_and_time. intros Hk. apply raise_when_bind_Ok in Hk as [_ Hk].
  by apply raise_when_Ok, negb_false_iff in Hk.
Qed.

(** The clock a review restarts. *)
Lemma reviewed_clock p a passed failures ns reasons at_ metrics :
  reviewed_metrics p a passed failures ns reasons at_ = Ok metrics -> is_head ns = true ->
  exists monthly, add_calendar_month (m_at at_) = Ok monthly
    /\ metrics !! "last_revalidated_at" = Some (JStr (isoformat (m_at at_)))
    /\ metrics !! "last_revalidated_target_dates" = Some (JInt (lp_replay_target_dates p)).
Proof.
  unfold reviewed_metrics. intros Hk Hh. rewrite bool_decide_false in Hk by by intros ->.
  apply bind_Ok in Hk as (next & Hnext & <-%Ok_inj). apply bind_Ok in Hnext as (monthly & Hm & _).
  exists monthly. split; [done|].
  split; rewrite updated_lookup_base by (by apply keys_of_list); by apply updated_lookup_update.
Qed.

(** The outcome of a review, under the invariant. *)
Lemma outcome_values p prior passed ns failures t :
  failures_ok p -> is_head (lp_status p) = true ->
  json_int (default (JInt 0) (lp_replay_metrics p !! failure_key)) = Ok prior ->
  revalidation_outcome (lp_status p) prior passed = (ns, failures, t) ->
  ns = (if passed then ACTIVE else if bool_decide (lp_status p = ACTIVE) then CHALLENGED else RETIRED)
  /\ failures = (if passed then 0 else if bool_decide (lp_status p = ACTIVE) then 1 else 2).
Proof.
  unfold failures_ok, revalidation_outcome, is_head. intros Hf Hh Hprior Hout.
  apply bool_decide_eq_true in Hh.
  destruct (lp_status p); try (by destruct Hh as [Hh|Hh]); rewrite Hf in Hprior;
    injection Hprior as <-; destruct passed; cbn in Hout; by injection Hout as <- <- <-.
Qed.

(** *** Submitting a bundle again *)

Lemma head_filter_snoc {A} (P : A -> Prop) `{forall x, Decision (P x)} (l : list A) x :
  (forall y, y ∈ l -> ~ P y) -> P x -> head (filter P (l ++ [x])%list) = Some x.
Proof.
  intros Hno Hx. rewrite filter_app. assert (filter P l = []) as ->.
  { induction l as [|y l IH]; [done|]. rewrite filter_cons_False by (apply Hno; by left).
    apply IH. intros z Hz. apply Hno. by right. }
  by rewrite filter_cons_True.
Qed.

Lemma head_filter_elem {A} (P : A -> Prop) `{forall x, Decision (P x)} (l : list A) x :
  head (filter P l) = Some x -> x ∈ l.
Proof.
  intros Hh. assert (Hin : x ∈ filter P l); [|by apply list_elem_of_filter in Hin as [_ ?]].
  destruct (filter P l) as [|y ys]; [done|]. injection Hh as ->. by left.
Qed.

(** The guards of a bundle that pass do not depend on the ledger, except for
    the status of its lesson. *)
Lemma record_again bid eid l bundle by_ at_ req p ds b e :
  validate_actor_and_time by_ at_ = Ok tt ->
  ld_lessons l !! mf_lesson_id (rb_manifest bundle) = Some p ->
  lp_status p <> RETIRED -> lp_status p <> SUPERSEDED ->
  mapM_result (validate_against_frozen_outcome frozen) (rb_observations bundle) = Ok ds ->
  validate_bundle_artifacts (rb_manifest bundle) (rb_observations bundle) ds = Ok tt ->
  head (filter (fun b => ba_content_hash b = bundle_hash (rb_manifest bundle) (rb_observations bundle))
          (batches_of l (lp_id p))) = Some b ->
  event_by_key l (lp_id p)
    (replay_event_key (bundle_hash (rb_manifest bundle) (rb_observations bundle))) = Some e ->
  record_lesson_replay frozen reflections default_universe bid eid l bundle by_ at_ req
  = Ok (RecordResult b e true, l).
Proof.
  intros Hv Hp Hr Hs Hds Hart Hb He. unfold record_lesson_replay, find_lesson.
  rewrite Hv, Hp. cbn [mbind result_bind]. rewrite bool_decide_false by tauto.
  cbn [raise_when mbind result_bind]. rewrite Hds. cbn [mbind result_bind]. rewrite Hart.
  cbn [mbind result_bind]. by rewrite Hb, He.
Qed.

(** What the ledger holds after a bundle is recorded. *)
Lemma record_recorded raw bid eid l m obs by_ at_ req r l' :
  ledger_ok l -> parse_replay_bundle raw = Ok (Bundle m obs) -> rr_idempotent r = false ->
  record_lesson_replay frozen reflections default_universe bid eid l (Bundle m obs) by_ at_ req
    = Ok (r, l') ->
  exists p ds, ld_lessons l' !! mf_lesson_id m = Some p
    /\ lp_status p <> RETIRED /\ lp_status p <> SUPERSEDED
    /\ mapM_result (validate_against_frozen_outcome frozen) obs = Ok ds
    /\ validate_bundle_artifacts m obs ds = Ok tt
    /\ lp_id p = mf_lesson_id m
    /\ ba_manifest (rr_batch r) = m /\ ba_observations (rr_batch r) = obs
    /\ head (filter (fun b => ba_content_hash b = bundle_hash m obs) (batches_of l' (lp_id p)))
       = Some (rr_batch r)
    /\ event_by_key l' (lp_id p) (replay_event_key (bundle_hash m obs)) = Some (rr_event r).
Proof.
  intros Hl Hparse Hidem Hrun. apply record_effect in Hrun as [[_ Ht]|Heff]; [congruence|].
  destruct Heff as (p & p' & ds & agg & Hp & Hnr & Hns & Hds & Hart & Hfresh & _ & _ & Hproj & Happ & _ & Hbatch).
  apply refresh_projection_Ok in Hproj as (Hid' & Hc & Hep & Hst & _).
  assert (Hid : lp_id p = mf_lesson_id m) by by apply (lk_keyed frozen l Hl).
  assert (Hnone : event_by_key l (lp_id p) (replay_event_key (bundle_hash m obs)) = None).
  { rewrite Hid in *. eapply replay_key_fresh; [by apply (lk_lessons frozen l Hl)|done]. }
  apply append_event_new in Happ as [He ->]; [|exact Hnone].
  destruct (replaces_append l (mf_lesson_id m) p p'
    (Some (recorded_batch p bid m obs agg by_ (m_at at_))) (rr_event r)) as (Hrep & Hbs & Hes);
    [done|congruence|done|done|done|by rewrite He|by intros ? [= <-]|].
  exists p', ds. cbn [ld_lessons add_event add_batch put_lesson].
  rewrite Hst, Hid', Hid. split; [by rewrite lookup_insert_eq|].
  do 4 (split; [done|]). split; [done|]. rewrite Hbatch. do 2 (split; [done|]).
  split.
  - rewrite Hbs. apply (head_filter_snoc (fun b => ba_content_hash b = bundle_hash m obs)); [|done].
    rewrite <- Hid. exact Hfresh.
  - unfold event_by_key. rewrite Hes. apply (head_filter_snoc (fun e => ev_key e = replay_event_key (bundle_hash m obs))).
    + rewrite <- Hid. by apply event_by_key_None.
    + by rewrite He.
Qed.


(** C30 History is append-only: no step of any service removes or rewrites a
    batch or an event, and the row of a lesson changes only with one new event
    that records its old and new status and is an allowed transition; so a
    retired or superseded lesson never changes again. *)
Theorem ledger_history l l' :
  reachable l -> step l l' ->
  (exists bs, ld_batches l' = (ld_batches l ++ bs)%list)
  /\ (exists es, ld_events l' = (ld_events l ++ es)%list)
  /\ (forall id p, ld_lessons l !! id = Some p ->
        exists p', ld_lessons l' !! id = Some p' /\ moves l l' p p'
          /\ (lp_status p = RETIRED \/ lp_status p = SUPERSEDED -> p' = p)).
Proof.
  intros Hl%reachable_ok Hs. apply step_history in Hs as (Hb & He & Hm); [|done].
  split; [done|]. split; [done|]. intros id p Hp. destruct (Hm id p Hp) as (p' & Hp' & Hmv).
  exists p'. split; [done|]. split; [done|]. intros Hfinal.
  destruct Hmv as (_ & _ & _ & [[-> _]|(e & _ & Hf & _ & Ha)]); [done|].
  rewrite Hf in Ha. by destruct (ev_type e), Hfinal as [E|E]; rewrite E in Ha.
Qed.

(** C29 A lesson becomes active on evidence only: an ordinary candidate that
    is approved has at least five independent episodes and at least twenty
    target dates of replay, whose every observation is backed by a frozen
    outcome and counted once, and the metrics recomputed from these
    observations show a positive Brier and calibration improvement and no
    degraded subgroup. *)
Theorem activation_on_evidence eid eid2 l id reviewer notes at_ sid r l' p :
  reachable l ->
  approve_lesson eid eid2 l id reviewer notes at_ sid = Ok (r, l') -> tr_idempotent r = false ->
  ld_lessons l !! id = Some p ->
  get_true (lp_replay_metrics p) "immediate_extreme_checklist" = false ->
  lp_status p = CANDIDATE /\ lp_status (tr_lesson r) = ACTIVE
  /\ MIN_INDEPENDENT_EPISODES <= lp_independent_episode_count p
  /\ (forall b, b ∈ batches_of l id -> Forall (backed frozen (ba_manifest b)) (ba_observations b))
  /\ NoDup (observation_identity <$> prior_observations l id)
  /\ exists m,
      compute_replay_metrics (sort_observations (prior_observations l id)) = Ok m
      /\ MIN_REPLAY_TARGET_DATES <= rm_distinct_target_dates m
      /\ fleb (rm_average_brier_improvement m) f0 = false
      /\ fleb (rm_calibration_improvement m) f0 = false
      /\ rm_important_subgroups_non_degrading m = true.
Proof.
  intros Hl%reachable_ok Hrun Hidem Hp Him.
  apply approve_effect in Hrun as [[_ Ht]|(p0 & sup & next & payload & l2 & Hp0 & Hst & Hel & _ & _ & Hles & _)];
    [congruence|]. rewrite Hp in Hp0. injection Hp0 as <-.
  assert (Hid : lp_id p = id) by by apply (lk_keyed frozen l Hl).
  apply eligible_ordinary in Hel as (_ & Hb & Hep & Hd & Hbr & Hca & Hsub); [|done]. rewrite Hid in Hb.
  destruct (lesson_evidence l id p Hl Hp Hb) as (m & Hm & Hnd & Hback & Hdates & Hget).
  split; [done|]. split; [by rewrite Hles|]. split; [done|]. split; [done|]. split; [done|].
  exists m. split; [done|]. split; [by rewrite <- Hdates|].
  rewrite (projected p m _ (JFloat (rm_average_brier_improvement m)) Hget) in Hbr by done.
  rewrite (projected p m _ (JFloat (rm_calibration_improvement m)) Hget) in Hca by done.
  apply get_true_iff in Hsub.
  pose proof (projected p m "important_subgroups_non_degrading"
    (JBool (rm_important_subgroups_non_degrading m)) Hget ltac:(done) eq_refl) as Hs.
  cbn in Hbr, Hca. split; [congruence|]. split; [congruence|].
  assert (Some (JBool (rm_important_subgroups_non_degrading m)) = Some (JBool true)); [|congruence].
  etransitivity; [symmetry; exact Hs|exact Hsub].
Qed.

(** Two strikes: a review that is due passes or fails; a passing lesson is
    active with its failures cleared, an active lesson that fails is challenged,
    and a challenged one that fails is retired.  An ordinary lesson passes only
    on replay evidence that is new since its last review. *)
Theorem two_strikes eid l id reviewer notes at_ req cv r l' :
  reachable l ->
  revalidate_lesson reflections default_universe eid l id reviewer notes at_ req cv = Ok (r, l') ->
  tr_idempotent r = false ->
  exists p reasons passed a,
    ld_lessons l !! id = Some p /\ is_head (lp_status p) = true
    /\ lesson_revalidation_due_reasons p at_ = Ok reasons /\ reasons <> []
    /\ revalidation_assessment reflections default_universe p req cv = Ok (passed, a)
    /\ lp_status (tr_lesson r)
       = (if passed then ACTIVE else if bool_decide (lp_status p = ACTIVE) then CHALLENGED else RETIRED)
    /\ lp_replay_metrics (tr_lesson r) !! failure_key
       = Some (JInt (if passed then 0 else if bool_decide (lp_status p = ACTIVE) then 1 else 2))
    /\ (get_true (lp_replay_metrics p) "immediate_extreme_checklist" = false -> passed = true ->
        exists n, json_int (default (JInt 0) (lp_replay_metrics p !! "last_revalidated_target_dates")) = Ok n
          /\ has_fresh_replay p n = true).
Proof.
  intros Hl%reachable_ok Hrun Hidem.
  apply revalidate_effect in Hrun as [[_ Ht]|Heff]; [congruence| |by apply ok_keyed].
  destruct Heff as (p & reasons & passed & a & prior & ns & failures & t & metrics & payload & Hp & Hhead
    & Hdue & Hne & Hassess & Hprior & Hout & Hmet & Hles & _ & _).
  destruct (lk_lessons frozen l Hl id p Hp) as (_ & _ & _ & _ & _ & _ & _ & _ & _ & Hfail).
  destruct (revalidation_assessment_Ok _ _ _ _ _ _ _ Hassess) as [Hnone _].
  destruct (reviewed_metrics_Ok _ _ _ _ _ _ _ _ Hmet Hnone) as (Hfk & _ & _).
  destruct (outcome_values _ _ _ _ _ _ Hfail Hhead Hprior Hout) as [-> ->].
  exists p, reasons, passed, a. do 5 (split; [done|]). rewrite Hles; lesson_fields.
  split; [done|]. split; [exact Hfk|]. intros Him ->. by eapply passed_on_fresh_replay.
Qed.

(** A human decision restarts the clock: right after an approval, or a
    review that leaves the lesson in force, nothing but the calendar makes it
    due again, from one calendar month after the decision on, with the day
    clipped to the shorter month. *)
Theorem due_a_month_later eid eid2 l id reviewer notes at_ sid req cv r l' as_of :
  approve_lesson eid eid2 l id reviewer notes at_ sid = Ok (r, l')
  \/ revalidate_lesson reflections default_universe eid l id reviewer notes at_ req cv = Ok (r, l') ->
  reachable l -> tr_idempotent r = false -> is_head (lp_status (tr_lesson r)) = true ->
  0 < lp_half_life_sessions (tr_lesson r) -> representable (m_at at_) -> is_aware (m_at as_of) = true ->
  exists monthly, add_calendar_month (m_at at_) = Ok monthly
    /\ lesson_revalidation_due_reasons (tr_lesson r) as_of
       = Ok (blocker (dt_leb monthly (m_at as_of)) "monthly").
Proof.
  intros Hrun Hl%reachable_ok Hidem Hhead Hhalf Hat Has.
  assert (Haw : is_aware (m_at at_) = true).
  { destruct Hrun as [Hk|Hk]; apply bind_Ok in Hk as ([] & Hk%actor_aware & _); exact Hk. }
  assert (Hcal : exists monthly, add_calendar_month (m_at at_) = Ok monthly
    /\ lp_replay_metrics (tr_lesson r) !! "last_revalidated_at" = Some (JStr (isoformat (m_at at_)))
    /\ lp_replay_metrics (tr_lesson r) !! "last_revalidated_target_dates"
       = Some (JInt (lp_replay_target_dates (tr_lesson r)))).
  { destruct Hrun as [Hrun|Hrun].
    - apply approve_effect in Hrun as [[_ Ht]|(p & sup & next & payload & l2 & _ & _ & _ & _ & Hnext & Hles & _)];
        [congruence|]. unfold add_calendar_month_in in Hnext. apply bind_Ok in Hnext as (monthly & Hm & _).
      exists monthly. split; [done|]. rewrite Hles. unfold activated_lesson; lesson_fields.
      by split; apply updated_lookup_update.
    - apply revalidate_effect in Hrun as [[_ Ht]|Heff]; [congruence| |by apply ok_keyed].
      destruct Heff as (p & reasons & passed & a & prior & ns & failures & t & metrics & payload & Hp & _
        & _ & _ & _ & _ & _ & Hmet & Hles & _).
      rewrite Hles in Hhead |- *; lesson_fields. by eapply reviewed_clock. }
  destruct Hcal as (monthly & Hm & Hlast & Hcount). exists monthly. split; [done|].
  apply (due_after_review _ (isoformat (m_at at_)) (m_at at_)); try done.
  by apply fromisoformat_isoformat.
Qed.

(** A bundle counts once: submitting a recorded bundle again changes
    nothing and returns the recorded batch and event, whoever submits it and
    when; another bundle for the lesson is refused when it repeats one recorded
    observation or changes the manifest. *)
Theorem replay_recorded_once raw bid eid l m obs by_ at_ req r l' :
  reachable l -> parse_replay_bundle raw = Ok (Bundle m obs) ->
  record_lesson_replay frozen reflections default_universe bid eid l (Bundle m obs) by_ at_ req
    = Ok (r, l') ->
  rr_idempotent r = false ->
  (forall bid eid by_ at_ req, validate_actor_and_time by_ at_ = Ok tt ->
     record_lesson_replay frozen reflections default_universe bid eid l' (Bundle m obs) by_ at_ req
     = Ok (RecordResult (rr_batch r) (rr_event r) true, l'))
  /\ (forall bid eid m' obs' by_ at_ req r2 l2, mf_lesson_id m' = mf_lesson_id m ->
     record_lesson_replay frozen reflections default_universe bid eid l' (Bundle m' obs') by_ at_ req
       = Ok (r2, l2) ->
     rr_idempotent r2 = false ->
     m' = m /\ forall o o', o ∈ obs -> o' ∈ obs' -> observation_identity o <> observation_identity o').
Proof.
  intros Hl%reachable_ok Hparse Hrun Hidem.
  apply (record_recorded raw) in Hrun as (p & ds & Hp & Hr & Hs & Hds & Hart & Hid & Hm & Hobs & Hb & He); [|done..].
  split.
  - intros bid2 eid2 by2 at2 req2 Hv. by eapply record_again.
  - intros bid2 eid2 m' obs' by2 at2 req2 r2 l2 Hmid Hrun2 Hidem2.
    apply record_effect in Hrun2 as [[_ Ht]|(p2 & _ & _ & _ & Hp2 & _ & _ & _ & _ & _ & Hnew & _)]; [congruence|].
    assert (p2 = p) as -> by congruence.
    apply check_new_replay_Ok in Hnew as [Hman Hfresh]. apply head_filter_elem in Hb.
    split; [by rewrite <- (Hman _ Hb), Hm|]. intros o o' Ho Ho' E. apply (Hfresh o' o); [done| |done].
    unfold prior_observations. apply list_elem_of_bind. exists (rr_batch r). by rewrite Hobs.
Qed.

End Ledger.
(** ** A concrete ledger

    Five reflections propose the same lesson, the last proposal is replayed on
    twenty frozen outcomes, approved, and challenged by a review a month later
    that finds no new replay. *)
Module Witnesses.

Definition digest : string :=
  "aaaaaaaaaaaaaaaaaaaaaaaaaaaaaaaaaaaaaaaaaaaaaaaaaaaaaaaaaaaaaaaa".

#[local] Instance sample_runtime : PyRuntime := {| runtime := Py312 |}.
#[local] Instance sample_hash : CanonicalHash := {| canonical_hash := fun _ => digest |}.
#[local] Instance sample_libm : LibM :=
  {| m_log := fun x => x; m_exp := fun x => if fltb x f0 then lit 1 10 else f1 |}.
#[local] Instance sample_order : TimestampOrder := {| stored_key := dt_wall |}.

Definition no_reflections : Reflection.Db := mkDb ∅ ∅ ∅.

Definition day (n : Z) : date := ymd2ord 2026 1 1 + n.
Definition noon (n : Z) : moment := Moment (DateTime (day n * us_per_day) (Some 0)) UTC.

Definition request (n : Z) : ReflectionRequest := mkRequest (day n) digest "directional".
Definition draft : LessonProposalDraft := ProposalDraft "momentum" "reasoning".

Definition transform : CandidateTransform := Transform f1 (mkProbs f1 f0 f0).
Definition baseline : Probs := mkProbs (lit 5 10) (lit 2 10) (lit 3 10).

Definition manifest : ReplayManifest :=
  Manifest "l4" "rule-2" "wiki-1" "threshold-1" transform digest digest digest.

Definition observation (n : Z) : ReplayObservation :=
  Observation (day n) "000001" D1 UP ("f" +:+ pad 2 n) ("d" +:+ pad 2 n) digest digest baseline
    (apply_candidate_transform baseline transform) [].

Definition diagnostic (n : Z) : ForecastDiagnostic :=
  Diagnostic "threshold-1" ("f" +:+ pad 2 n) ("f" +:+ pad 2 n) "completed" "live" "completed"
    "000001" (horizon_value D1) (day n) (horizon_value D1) (day n) (direction_value UP) (lit 1 100)
    digest (Some (MarketSnapshot (day n) (lit 1 100) digest)) baseline "wiki-1".

Definition twenty : list Z := seqZ 0 20.
Definition frozen : gmap string ForecastDiagnostic :=
  list_to_map ((fun n => ("d" +:+ pad 2 n, diagnostic n)) <$> twenty).
Definition bundle : LessonReplayBundle := Bundle manifest (observation <$> twenty).

(** The value of a call that succeeds. *)
Definition from_ok {A} (d : A) (r : result A) : A := match r with Ok a => a | Err _ => d end.

Lemma ok_from {A} (d : A) r : is_ok r = true -> r = Ok (from_ok d r).
Proof. by destruct r. Qed.

Definition proposed (l : Ledger) (n : Z) : result Ledger :=
  persist_lesson no_reflections "universe" ("l" +:+ pad 1 n) (request n) (noon n) 0 l draft.
Definition candidates : Ledger := from_ok empty_ledger (for_each proposed empty_ledger (seqZ 0 5)).

Definition recording : result (ReplayRecordResult * Ledger) :=
  record_lesson_replay frozen no_reflections "universe" "b1" "e1" candidates bundle "ops" (noon 30) 0.

Definition no_lesson : LessonProposal :=
  mkLesson "" "" "" CANDIDATE "" 0 0 ∅ 60 (m_at (noon 0)) None None.
Definition no_event : LessonLifecycleEvent :=
  Event "" "" 0 EV_APPROVED "" CANDIDATE CANDIDATE "" "" ∅ "" (m_at (noon 0)) "".
Definition no_batch : LessonReplayBatch := Batch "" "" "" manifest [] 0 0 ∅ "" (m_at (noon 0)).

Definition recorded : ReplayRecordResult * Ledger :=
  from_ok (RecordResult no_batch no_event false, empty_ledger) recording.

Definition no_transition : LessonTransitionResult * Ledger :=
  (Transition no_lesson no_event false, empty_ledger).

Definition approval : result (LessonTransitionResult * Ledger) :=
  approve_lesson "e2" "e3" recorded.2 "l4" "ada" "evidence reviewed" (noon 31) None.
Definition approved : LessonTransitionResult * Ledger := from_ok no_transition approval.

Definition review : result (LessonTransitionResult * Ledger) :=
  revalidate_lesson no_reflections "universe" "e4" approved.2 "l4" "ada" "no new replay" (noon 62) 0 None.
Definition reviewed : LessonTransitionResult * Ledger := from_ok no_transition review.

Definition lesson_in (l : Ledger) (id : string) : LessonProposal :=
  default no_lesson (ld_lessons l !! id).

Lemma found l id : bool_decide (is_Some (ld_lessons l !! id)) = true ->
  ld_lessons l !! id = Some (lesson_in l id).
Proof. unfold lesson_in. intros [p Hp]%bool_decide_eq_true. by rewrite Hp. Qed.

Lemma representable_noon n : (1 <=? day n) && (day n <=? max_ordinal) = true -> representable (m_at (noon n)).
Proof.
  intros Hd. bool_prop. unfold representable.
  assert (date_of (m_at (noon n)) = day n) as -> by (apply Z.div_mul; done).
  by repeat split.
Qed.

(** Proposals under fresh identifiers, one after the other. *)
Fixpoint fresh_steps (l : Ledger) (ns : list Z) : bool :=
  match ns with
  | [] => true
  | n :: ns => bool_decide (ld_lessons l !! ("l" +:+ pad 1 n) = None) && is_ok (proposed l n)
               && fresh_steps (from_ok empty_ledger (proposed l n)) ns
  end.

Lemma proposed_reachable l ns l' :
  reachable frozen no_reflections "universe" l -> fresh_steps l ns = true ->
  for_each proposed l ns = Ok l' -> reachable frozen no_reflections "universe" l'.
Proof.
  revert l. induction ns as [|n ns IH]; intros l Hl Hf Hr; cbn in *; [by injection Hr as <-|].
  apply andb_true_iff in Hf as [Hf Hrest]. apply andb_true_iff in Hf as [Hn Hok].
  apply ok_from with (d := empty_ledger) in Hok. rewrite Hok in Hr. cbn in Hr.
  apply IH in Hr; [done| |done]. eapply rtc_r; [exact Hl|].
  eapply step_propose; [by apply bool_decide_eq_true in Hn|exact Hok].
Qed.

Lemma candidates_reachable : reachable frozen no_reflections "universe" candidates.
Proof.
  apply (proposed_reachable empty_ledger (seqZ 0 5)); [apply rtc_refl|by_vm|].
  apply ok_from. by_vm.
Qed.

Lemma recording_ok : recording = Ok recorded.
Proof. apply ok_from. by_vm. Qed.
Lemma approval_ok : approval = Ok approved.
Proof. apply ok_from. by_vm. Qed.
Lemma review_ok : review = Ok reviewed.
Proof. apply ok_from. by_vm. Qed.

Lemma parsed_bundle : exists obs, parse_replay_bundle bundle = Ok (Bundle manifest obs) /\ obs = observation <$> twenty.
Proof.
  assert (Hb : match parse_replay_bundle bundle with
    | Ok (Bundle m obs) => bool_decide (m = manifest /\ obs = observation <$> twenty)
    | Err _ => false end = true) by by_vm.
  destruct (parse_replay_bundle bundle) as [[m obs]|]; [|done].
  apply bool_decide_eq_true in Hb as [-> ->]. by eexists.
Qed.

Lemma recorded_reachable : reachable frozen no_reflections "universe" recorded.2.
Proof.
  eapply rtc_r; [exact candidates_reachable|]. destruct parsed_bundle as (obs & Hp & ->).
  eapply (step_record _ _ _ bundle bundle "b1" "e1" candidates "ops" (noon 30) 0 recorded.1).
  - exact Hp.
  - apply representable_noon. by_vm.
  - match goal with |- Forall _ ?bs => assert (bs = []) as -> by by_vm end. constructor.
  - rewrite <- surjective_pairing. exact recording_ok.
Qed.

Lemma approved_reachable : reachable frozen no_reflections "universe" approved.2.
Proof.
  eapply rtc_r; [exact recorded_reachable|].
  eapply (step_approve _ _ _ "e2" "e3" recorded.2 "l4" "ada" "evidence reviewed" (noon 31) None approved.1).
  - apply representable_noon. by_vm.
  - rewrite <- surjective_pairing. exact approval_ok.
Qed.

Lemma review_step : step frozen no_reflections "universe" approved.2 reviewed.2.
Proof.
  eapply (step_revalidate _ _ _ "e4" approved.2 "l4" "ada" "no new replay" (noon 62) 0 None reviewed.1).
  - apply representable_noon. by_vm.
  - rewrite <- surjective_pairing. exact review_ok.
Qed.

Lemma reviewed_reachable : reachable frozen no_reflections "universe" reviewed.2.
Proof. eapply rtc_r; [exact approved_reachable|exact review_step]. Qed.

Lemma reviewed_found : ld_lessons reviewed.2 !! "l4" = Some (lesson_in reviewed.2 "l4").
Proof. apply found. by_vm. Qed.
Lemma candidate_found : ld_lessons recorded.2 !! "l4" = Some (lesson_in recorded.2 "l4").
Proof. apply found. by_vm. Qed.
Lemma candidate_ordinary :
  get_true (lp_replay_metrics (lesson_in recorded.2 "l4")) "immediate_extreme_checklist" = false.
Proof. by_vm. Qed.
Lemma fresh_recording : rr_idempotent recorded.1 = false.
Proof. by_vm. Qed.
Lemma fresh_approval : tr_idempotent approved.1 = false.
Proof. by_vm. Qed.
Lemma fresh_review : tr_idempotent reviewed.1 = false.
Proof. by_vm. Qed.
Lemma approved_head : is_head (lp_status (tr_lesson approved.1)) = true.
Proof. by_vm. Qed.
Lemma approved_half_life : (0 <? lp_half_life_sessions (tr_lesson approved.1)) = true.
Proof. by_vm. Qed.

Lemma approval_pair :
  approve_lesson "e2" "e3" recorded.2 "l4" "ada" "evidence reviewed" (noon 31) None
  = Ok (approved.1, approved.2).
Proof. rewrite <- surjective_pairing. exact approval_ok. Qed.

Lemma review_pair :
  revalidate_lesson no_reflections "universe" "e4" approved.2 "l4" "ada" "no new replay" (noon 62) 0 None
  = Ok (reviewed.1, reviewed.2).
Proof. rewrite <- surjective_pairing. exact review_ok. Qed.

Lemma recording_pair :
  record_lesson_replay frozen no_reflections "universe" "b1" "e1" candidates
    (Bundle manifest (observation <$> twenty)) "ops" (noon 30) 0 = Ok (recorded.1, recorded.2).
Proof. rewrite <- surjective_pairing. exact recording_ok. Qed.


Lemma ledger_history_witness :
  exists es, ld_events reviewed.2 = (ld_events approved.2 ++ es)%list.
Proof.
  exact (proj1 (proj2 (ledger_history frozen no_reflections "universe" approved.2 reviewed.2
    approved_reachable review_step))).
Defined.

Lemma activation_on_evidence_witness :
  MIN_INDEPENDENT_EPISODES <= lp_independent_episode_count (lesson_in recorded.2 "l4").
Proof.
  destruct (activation_on_evidence frozen no_reflections "universe" "e2" "e3" recorded.2 "l4" "ada"
    "evidence reviewed" (noon 31) None approved.1 approved.2 (lesson_in recorded.2 "l4")
    recorded_reachable approval_pair fresh_approval candidate_found candidate_ordinary)
    as (_ & _ & Hep & _). exact Hep.
Defined.

Lemma two_strikes_witness :
  exists p reasons, ld_lessons approved.2 !! "l4" = Some p
    /\ lesson_revalidation_due_reasons p (noon 62) = Ok reasons /\ reasons <> [].
Proof.
  destruct (two_strikes frozen no_reflections "universe" "e4" approved.2 "l4" "ada" "no new replay"
    (noon 62) 0 None reviewed.1 reviewed.2 approved_reachable review_pair fresh_review)
    as (p & reasons & _ & _ & Hp & _ & Hdue & Hne & _).
  exists p, reasons. exact (conj Hp (conj Hdue Hne)).
Defined.

Lemma due_a_month_later_witness :
  exists monthly, add_calendar_month (m_at (noon 31)) = Ok monthly.
Proof.
  destruct (due_a_month_later frozen no_reflections "universe" "e2" "e3" recorded.2 "l4" "ada"
    "evidence reviewed" (noon 31) None 0 None approved.1 approved.2 (noon 40)
    (or_introl approval_pair) recorded_reachable fresh_approval approved_head
    (proj1 (Z.ltb_lt _ _) approved_half_life) (representable_noon 31 eq_refl) eq_refl)
    as (monthly & Hm & _). by exists monthly.
Defined.

Lemma replay_recorded_once_witness :
  record_lesson_replay frozen no_reflections "universe" "b2" "e5" recorded.2
    (Bundle manifest (observation <$> twenty)) "another operator" (noon 33) 5
  = Ok (RecordResult (rr_batch recorded.1) (rr_event recorded.1) true, recorded.2).
Proof.
  destruct parsed_bundle as (obs & Hp & ->).
  destruct (replay_recorded_once frozen no_reflections "universe" bundle "b1" "e1" candidates manifest
    (observation <$> twenty) "ops" (noon 30) 0 recorded.1 recorded.2 candidates_reachable Hp
    recording_pair fresh_recording) as [Hagain _].
  apply Hagain. by_vm.
Defined.

End Witnesses.

End LessonProps.
