(* ===== verification/Wiki.v ===== *)
(** * The frozen Wiki of a run ([backend/app/services/wiki.py])

    A run reads the Wiki once and works on that copy: an agent is given one
    entry, its drafts are cited against a section of it, and a citation is valid
    only when it repeats what the frozen entry says. *)
From S2P Require Import Prelude PyStr PyTime.
Import PyStr PyTime.
Open Scope string_scope.
Open Scope Z_scope.

Module Wiki.

(** [str.upper] of a text that need not be ASCII, from the Unicode tables. *)
Class Uppercase := { py_upper : string -> string }.

Record WikiSection := Section_ { ws_slug : string; ws_title : string; ws_excerpt : string }.

(** The fields that are only shown to readers are left out. *)
Record WikiEntryRead := WikiEntry {
  we_id : string;
  we_title : string;
  we_version : string;
  we_published_at : option datetime;
  we_status : string;
  we_tags : list string;
  we_source_urls : list string;
  we_sections : list WikiSection;
  we_content_hash : string }.

(** [schemas.Citation] *)
Record Citation := mkCitation {
  wc_wiki_entry_id : string;
  wc_wiki_title : string;
  wc_wiki_version : string;
  wc_section : string;
  wc_quote : string;
  wc_wiki_quote : option string;
  wc_content_hash : string;
  wc_source_urls : list string;
  wc_evidence_item_id : option string;
  wc_source_url : option string;
  wc_evidence_content_hash : option string;
  wc_event_time : option datetime;
  wc_published_at : option datetime;
  wc_ingested_at : option datetime }.

(** [FrozenWikiCatalog] *)
Definition FrozenWikiCatalog : Type := list WikiEntryRead.

Definition has_status (status : string) (e : WikiEntryRead) : bool :=
  (py_lower (we_status e) =? status)%string.

(** [_runtime_documents] *)
Definition runtime_documents (documents : list WikiEntryRead) (allow_demo_fallback : bool)
    : result (list WikiEntryRead) :=
  match List.filter (has_status "active") documents with
  | (_ :: _) as active => Ok active
  | [] =>
      match List.filter (has_status "demo-only") documents with
      | (_ :: _) as demo =>
          if allow_demo_fallback then Ok demo
          else raise RuntimeError "Wiki catalog has no active entries available for runtime use"
      | [] => raise RuntimeError "Wiki catalog has no active entries available for runtime use"
      end
  end.

(** [get] *)
Definition get_entry (catalog : FrozenWikiCatalog) (entry_id : string) : option WikiEntryRead :=
  List.find (fun e => (we_id e =? entry_id)%string) catalog.

Definition PINNED_AGENT_ENTRY_IDS : list (string * string) :=
  [("strategy_agent", "VC-WIKI-MARKET-STRATEGY")].

Definition index_tokens : list (string * string) :=
  [("000300.SH", "INDEX-CSI300"); ("000905.SH", "INDEX-CSI500"); ("000852.SH", "INDEX-CSI1000");
   ("399006.SZ", "INDEX-CHINEXT"); ("000688.SH", "INDEX-STAR50")].

Definition agent_keywords : list (string * list string) :=
  [("macro_policy_agent", ["MACRO"; "POLICY"; "宏观"]);
   ("market_news_agent", ["MARKET"; "INDEX"; "资讯"; "指数"]);
   ("ai_storage_industry_agent", ["AI"; "STORAGE"; "存储"]);
   ("strategy_agent", ["STRATEGY"; "ALLOCATION"; "策略"; "配置"]);
   ("risk_critic_agent", ["RISK"; "EVIDENCE"; "风险"; "证据"]);
   ("quant_agent", ["PREDICTION"; "LABEL"; "预测"]);
   ("cio_agent", ["EVIDENCE"; "DECISION"; "投委会"])].

(** A lookup in a dict literal. *)
Definition assoc {A} (pairs : list (string * A)) (k : string) : option A :=
  snd <$> List.find (fun kv => (kv.1 =? k)%string) pairs.

Section Selection.
Context `{Uppercase}.

(** [" ".join([entry.id, entry.title, *entry.tags]).upper()] *)
Definition searchable (e : WikiEntryRead) : string :=
  py_upper (py_join " " (we_id e :: we_title e :: we_tags e)).

Definition matches_keywords (keywords : list string) (e : WikiEntryRead) : bool :=
  existsb (fun keyword => py_contains (py_upper keyword) (searchable e)) keywords.

(** The one entry a fresh installation has. *)
Definition is_demo_methodology (e : WikiEntryRead) : bool :=
  (we_id e =? "VC-WIKI-DEMO-METHODOLOGY")%string && has_status "demo-only" e.

(** The search without a configured entry. *)
Definition search_entry (documents : list WikiEntryRead) (agent_id : string)
    (index_code : option string) : result WikiEntryRead :=
  let by_token :=
    token ← (if (agent_id =? "market_news_agent")%string
             then code ← index_code; assoc index_tokens code else None);
    List.find (fun e => py_contains token (py_upper (we_id e))) documents in
  match by_token with
  | Some e => Ok e
  | None =>
      match List.find (matches_keywords (default [] (assoc agent_keywords agent_id))) documents with
      | Some e => Ok e
      | None => match documents with e :: _ => Ok e | [] => raise IndexError "list index out of range" end
      end
  end.

(** [select_for_agent] *)
Definition select_for_agent (catalog : FrozenWikiCatalog) (agent_id : string)
    (index_code preferred_entry_id : option string) : result WikiEntryRead :=
  documents ← runtime_documents catalog true;
  let by_id id := List.find (fun e => (we_id e =? id)%string) documents in
  match preferred_entry_id with
  | Some preferred =>
      match by_id preferred with
      | Some e => Ok e
      | None => raise RuntimeError ("configured active Wiki entry " +:+ preferred
                                    +:+ " is unavailable for " +:+ agent_id)
      end
  | None =>
      match assoc PINNED_AGENT_ENTRY_IDS agent_id with
      | Some pinned =>
          match by_id pinned, documents with
          | Some e, _ => Ok e
          | None, [e] =>
              if is_demo_methodology e then Ok e
              else raise RuntimeError ("required active Wiki entry " +:+ pinned
                                       +:+ " is unavailable for " +:+ agent_id)
          | None, _ => raise RuntimeError ("required active Wiki entry " +:+ pinned
                                           +:+ " is unavailable for " +:+ agent_id)
          end
      | None => search_entry documents agent_id index_code
      end
  end.

(** [{item.slug: item for item in entry.sections}.get(slug)]: the last one wins. *)
Definition section_by_slug (e : WikiEntryRead) (slug : string) : option WikiSection :=
  last (List.filter (fun s => (ws_slug s =? slug)%string) (we_sections e)).

(** [citation] *)
Definition citation (catalog : FrozenWikiCatalog) (agent_id : string)
    (section index_code preferred_entry_id : option string) : result Citation :=
  entry ← select_for_agent catalog agent_id index_code preferred_entry_id;
  chosen ← (match section_by_slug entry (default "" section), we_sections entry with
            | Some s, _ => Ok s
            | None, s :: _ => Ok s
            | None, [] => raise IndexError "list index out of range"
            end);
  Ok (mkCitation (we_id entry) (we_title entry) (we_version entry) (ws_slug chosen)
        (ws_excerpt chosen) (Some (ws_excerpt chosen)) (we_content_hash entry)
        (we_source_urls entry) None None None None None None).

End Selection.

(** The quote of the Wiki behind a citation. *)
Definition frozen_wiki_quote (c : Citation) : string :=
  let own := match wc_evidence_item_id c with Some _ => "" | None => wc_quote c end in
  match wc_wiki_quote c with
  | Some q => if truthy q then q else own
  | None => own
  end.

(** [citation_is_valid] *)
Definition citation_is_valid (catalog : FrozenWikiCatalog) (c : Citation) : bool :=
  match get_entry catalog (wc_wiki_entry_id c) with
  | None => false
  | Some entry =>
      match section_by_slug entry (wc_section c) with
      | None => false
      | Some s =>
          (we_title entry =? wc_wiki_title c)%string
          && (we_version entry =? wc_wiki_version c)%string
          && (we_content_hash entry =? wc_content_hash c)%string
          && bool_decide (wc_source_urls c = we_source_urls entry)
          && (frozen_wiki_quote c =? ws_excerpt s)%string
      end
  end.

(** [FrozenWikiCatalog.freeze] *)
Definition visible_at (cutoff : datetime) (e : WikiEntryRead) : bool :=
  match we_published_at e with Some p => dt_leb p cutoff | None => false end.

Definition freeze (catalog : FrozenWikiCatalog) (allow_demo_fallback : bool)
    (cutoff : option datetime) : result FrozenWikiCatalog :=
  raise_when (negb allow_demo_fallback && existsb (fun e => negb (has_status "active" e)) catalog)
    RuntimeError "Wiki catalog has no active entries available for runtime use" ;;
  match cutoff with
  | None => Ok catalog
  | Some c =>
      raise_when (negb (is_aware c)) RuntimeError "Wiki cutoff must be timezone-aware" ;;
      match List.filter (visible_at c) catalog with
      | [] => raise RuntimeError
                ("Live Wiki entries are unpublished or newer than the evidence cutoff: "
                 +:+ py_join ", " (merge_sort String.le (we_id <$> catalog)))
      | visible => Ok visible
      end
  end.

(** ** Lemmas *)

Lemma find_Some {A} (p : A -> bool) l x : List.find p l = Some x -> x ∈ l /\ p x = true.
Proof. intros Hf. apply List.find_some in Hf as [Hin Hp]. split; [by apply list_elem_of_In|done]. Qed.

Lemma section_by_slug_Some e slug s :
  section_by_slug e slug = Some s -> s ∈ we_sections e /\ ws_slug s = slug.
Proof.
  unfold section_by_slug. intros Hl%last_Some_elem_of. apply list_elem_of_In, List.filter_In in Hl as [Hin Hs].
  split; [by apply list_elem_of_In|]. by apply String.eqb_eq.
Qed.

(** What a valid citation repeats. *)
Lemma citation_is_valid_spec catalog c :
  citation_is_valid catalog c = true <->
  exists e s, get_entry catalog (wc_wiki_entry_id c) = Some e
    /\ section_by_slug e (wc_section c) = Some s
    /\ we_title e = wc_wiki_title c /\ we_version e = wc_wiki_version c
    /\ we_content_hash e = wc_content_hash c /\ wc_source_urls c = we_source_urls e
    /\ frozen_wiki_quote c = ws_excerpt s.
Proof.
  unfold citation_is_valid. split.
  - destruct (get_entry _ _) as [e|]; [|done]. destruct (section_by_slug _ _) as [s|] eqn:Es; [|done].
    rewrite !andb_true_iff, !String.eqb_eq, bool_decide_eq_true.
    intros ((((Ht & Hv) & Hh) & Hu) & Hq). exists e, s. by repeat split.
  - intros (e & s & -> & -> & -> & -> & -> & -> & ->).
    by rewrite !String.eqb_refl, bool_decide_true.
Qed.

(** A frozen catalog repeats no entry and shows nothing published later. *)
Lemma freeze_Ok catalog allow cutoff catalog' :
  freeze catalog allow (Some cutoff) = Ok catalog' ->
  catalog' <> [] /\ forall e, e ∈ catalog' ->
    e ∈ catalog /\ exists p, we_published_at e = Some p /\ dt_leb p cutoff = true.
Proof.
  unfold freeze. intros Hk. apply raise_when_bind_Ok in Hk as [_ Hk].
  apply raise_when_bind_Ok in Hk as [_ Hk].
  destruct (List.filter (visible_at cutoff) catalog) as [|e0 es] eqn:E; [done|].
  injection Hk as <-. split; [done|]. intros e He. rewrite <- E in He.
  apply list_elem_of_In, List.filter_In in He as [Hin Hv]. split; [by apply list_elem_of_In|].
  unfold visible_at in Hv. destruct (we_published_at e) as [p|]; [by exists p|done].
Qed.

End Wiki.
