(* ===== verification/Committee.v ===== *)
(** * The committee graph ([backend/app/workflow.py], its nodes)

    Three research agents, a strategist and a risk critic give opinions on every
    instrument and horizon; the citations are validated against the frozen
    evidence and Wiki; and the deterministic officer turns the strategist's
    probabilities into the forecasts.  The language models are a parameter. *)
From S2P Require Import Prelude PyStr PyTime Float64 Domain Json Models Contracts Snapshot Wiki.
Import PyStr PyTime Float64 Domain Json Contracts Snapshot Wiki.
Open Scope string_scope.
Open Scope Z_scope.

Module Committee.

Definition RESEARCH_AGENT_IDS : list string :=
  ["macro_policy_agent"; "market_news_agent"; "ai_storage_industry_agent"].
Definition EFFECTIVE_RESEARCH_AGENT_IDS : list string :=
  ["macro_policy_agent"; "market_news_agent"; "ai_storage_industry_agent"].
Definition STRATEGY_AGENT_ID : string := "strategy_agent".
Definition RISK_CRITIC_AGENT_ID : string := "risk_critic_agent".
Definition CIO_AGENT_ID : string := "cio_agent".
Definition CRITIC_INPUT_AGENT_IDS : list string :=
  EFFECTIVE_RESEARCH_AGENT_IDS ++ [STRATEGY_AGENT_ID].
Definition DYNAMIC_EVIDENCE_AGENT_IDS : list string :=
  EFFECTIVE_RESEARCH_AGENT_IDS ++ [STRATEGY_AGENT_ID].
Definition DIRECTIONAL_MASS_HAIRCUT : float := lit 15 100.

(** ** Drafts, opinions and forecasts *)

(** [schemas.AgentDraft] *)
Record AgentDraft := mkDraft {
  dr_direction : Direction;
  dr_probabilities : Probs;
  dr_summary : string;
  dr_evidence : list string;
  dr_counter_evidence : list string;
  dr_invalidation_conditions : list string;
  dr_evidence_item_ids : list string;
  dr_wiki_entry_id : string;
  dr_wiki_section : string }.

Record StrategyContext := mkContext {
  sc_market_regime : string;
  sc_style_bias : string;
  sc_relative_rank : Z;
  sc_rank_tied : bool;
  sc_allocation_score : float }.

(** An opinion; of [raw_response] what the nodes read. *)
Record AgentOpinion := Opinion {
  op_id : string;
  op_run_id : string;
  op_agent_id : string;
  op_agent_name : string;
  op_role : string;
  op_agent_version : string;
  op_model_name : string;
  op_status : string;
  op_index_code : string;
  op_horizon : Horizon;
  op_target_date : date;
  op_direction : Direction;
  op_probabilities : Probs;
  op_summary : string;
  op_evidence : list string;
  op_counter_evidence : list string;
  op_invalidation_conditions : list string;
  op_citations : list Citation;
  op_contribution : string;
  op_weight : float;
  op_evidence_item_ids : list string;
  op_provider : string;
  op_strategy_context : option StrategyContext }.

Record ForecastDraft := mkForecast {
  fo_id : string;
  fo_run_id : string;
  fo_index_code : string;
  fo_index_name : string;
  fo_horizon : Horizon;
  fo_base_trade_date : date;
  fo_target_date : date;
  fo_as_of : datetime;
  fo_data_cutoff : datetime;
  fo_direction : Direction;
  fo_probabilities : Probs;
  fo_threshold : float;
  fo_confidence : float;
  fo_rationale : string;
  fo_counter_evidence : list string;
  fo_invalidation_conditions : list string;
  fo_citations : list Citation;
  fo_abstain : bool;
  fo_model_name : string;
  fo_model_version : string;
  fo_wiki_version : string;
  fo_input_hash : string;
  fo_created_at : datetime }.

(** The state of a run; [steps] are the identifiers and labels of the finished
    nodes, without their clock times. *)
Record CommitteeState := mkState {
  cs_run_id : string;
  cs_as_of : datetime;
  cs_data_cutoff : datetime;
  cs_input_hash : string;
  cs_opinions : list AgentOpinion;
  cs_forecasts : list ForecastDraft;
  cs_workflow_steps : list (string * string);
  cs_data_quality : jobject;
  cs_snapshot : FrozenEvidenceSnapshot;
  cs_wiki : FrozenWikiCatalog;
  cs_believability_policy_version : string;
  cs_believability_snapshot_hash : string;
  cs_believability_binding_hash : string;
  cs_external_inputs : list string }.

(** What a node returns: additions to the two accumulated channels, and new
    values of the others. *)
Record Update := mkUpdate {
  up_opinions : list AgentOpinion;
  up_forecasts : option (list ForecastDraft);
  up_data_quality : option jobject;
  up_step : string * string }.

Definition apply_update (st : CommitteeState) (u : Update) : CommitteeState :=
  mkState (cs_run_id st) (cs_as_of st) (cs_data_cutoff st) (cs_input_hash st)
    (cs_opinions st ++ up_opinions u) (default (cs_forecasts st) (up_forecasts u))
    (cs_workflow_steps st ++ [up_step u]) (default (cs_data_quality st) (up_data_quality u))
    (cs_snapshot st) (cs_wiki st) (cs_believability_policy_version st)
    (cs_believability_snapshot_hash st) (cs_believability_binding_hash st)
    (cs_external_inputs st).

(** ** What a provider is shown *)

(** An evidence source of an opinion: item, URL and content hash. *)
Definition EvidenceSource : Type := string * option string * option string.

Record ResearchView := mkResearchView {
  rv_agent_id : string;
  rv_index_code : option string;
  rv_direction : Direction;
  rv_probabilities : Probs;
  rv_summary : string;
  rv_arguments : option (list string * list string);
  rv_evidence_item_ids : list string;
  rv_evidence_sources : list EvidenceSource }.

Record CriticView := mkCriticView {
  cv_agent_id : string;
  cv_direction : Direction;
  cv_probabilities : Probs;
  cv_summary : string;
  cv_evidence : list string;
  cv_counter_evidence : list string }.

(** [ResearchProvider]; its drafts are unvalidated. *)
Record ResearchProvider := mkProvider {
  pv_name : string;
  pv_model_name_for_agent : option (string -> string);
  pv_research : string -> IndexDefinition -> Horizon -> datetime -> FrozenWikiCatalog ->
    FrozenEvidenceSnapshot -> result AgentDraft;
  pv_strategize : IndexDefinition -> Horizon -> datetime -> datetime -> float ->
    FrozenWikiCatalog -> list ResearchView -> list ResearchView -> result AgentDraft;
  pv_criticize : IndexDefinition -> Horizon -> datetime -> FrozenWikiCatalog ->
    list CriticView -> result AgentDraft }.

(** The frozen configuration of a workflow. *)
Record Workflow := mkWorkflow {
  wf_provider : ResearchProvider;
  wf_use_demo_provider : bool;
  wf_llm_model : string;
  wf_instruments : list IndexDefinition;
  wf_forecast_horizons : list Horizon;
  wf_workflow_version : string;
  wf_universe_summary : jobject }.

(** How Python formats floats: [:.0%], [:.1%] and [:+.3f]. *)
Class FloatFormat := {
  percent0 : float -> string; percent1 : float -> string; signed3 : float -> string }.

Definition _target_date (s : FrozenEvidenceSnapshot) (h : Horizon) : result date :=
  match fs_target_sessions s with
  | [d1; d2] => Ok (match h with D1 => d1 | D2 => d2 end)
  | _ => raise ValueError "evidence snapshot does not contain D1/D2 target sessions"
  end.

(** [{item.id: item for item in snapshot.items}.get(id)] *)
Definition evidence_by_id (s : FrozenEvidenceSnapshot) (id : string) : option EvidenceItem :=
  last (List.filter (fun i => (ei_id i =? id)%string) (fs_items s)).

(** [d[key]] *)
Definition dict_item {A} (pairs : list (string * A)) (key : string) : result A :=
  match dict_get pairs key with Some v => Ok v | None => raise KeyError key end.

Definition agent_by_id (id : string) : result AgentDefinition :=
  match AGENT_BY_ID !! id with Some a => Ok a | None => raise KeyError id end.

(** The pairs of the two nested loops. *)
Definition targets (wf : Workflow) : list (IndexDefinition * Horizon) :=
  index ← wf_instruments wf; (fun h => (index, h)) <$> wf_forecast_horizons wf.

(** The opinions on an index and horizon, by some of the agents. *)
Definition is_input (agents : list string) (code : string) (h : Horizon) (o : AgentOpinion) : bool :=
  (op_index_code o =? code)%string && bool_decide (op_horizon o = h)
  && bool_decide (op_agent_id o ∈ agents).

Definition inputs_of (st : CommitteeState) (agents : list string) (code : string) (h : Horizon)
    : list AgentOpinion := List.filter (is_input agents code h) (cs_opinions st).

Definition received (l : list AgentOpinion) : gset string := list_to_set (op_agent_id <$> l).

Section Nodes.
Context `{PyRuntime} `{Uppercase} `{FloatFormat}.
(** SHA-256 of a text, [uuid4] of the opinions and forecasts, the clock. *)
Context (sha256 : string -> string) (new_id : string -> string -> Horizon -> string)
  (now : datetime).

(** The validators of [schemas.AgentDraft]. *)
Definition validate_draft (d : AgentDraft) : result AgentDraft :=
  validate_probabilities_model (dr_probabilities d) ;;
  field_check (1 <=? py_len (dr_summary d)) "summary" ;;
  field_check (1 <=? Z.of_nat (length (dr_evidence d))) "evidence" ;;
  raise_when (existsb (fun item => negb (truthy (py_strip item))) (dr_evidence d)) ValueError
    "evidence items may not be empty" ;;
  expected ← predicted_direction (as_dict (dr_probabilities d));
  raise_when (negb (bool_decide (dr_direction d = expected))) ValueError
    ("direction must be the stronger up/down probability (" +:+ direction_value expected +:+ ")") ;;
  raise_when (negb (bool_decide (NoDup (dr_evidence_item_ids d)))) ValueError
    "evidence_item_ids must be unique" ;;
  Ok d.

(** [_validate_draft_wiki] *)
Definition validate_draft_wiki (d : AgentDraft) (wiki : FrozenWikiCatalog)
    (agent_id index_code : string) (preferred : option string) : result unit :=
  entry ← select_for_agent wiki agent_id (Some index_code) preferred;
  raise_when (negb (dr_wiki_entry_id d =? we_id entry)%string) ValueError
    (agent_id +:+ " referenced an unavailable Wiki entry") ;;
  raise_when (negb (bool_decide (dr_wiki_section d ∈ ws_slug <$> we_sections entry))) ValueError
    (agent_id +:+ " referenced an unavailable Wiki section").

Definition bind_citation (c : Citation) (i : EvidenceItem) : Citation :=
  mkCitation (wc_wiki_entry_id c) (wc_wiki_title c) (wc_wiki_version c) (wc_section c)
    (ei_quote i) (wc_wiki_quote c) (wc_content_hash c) (wc_source_urls c) (Some (ei_id i))
    (Some (ei_source_url i)) (Some (ei_content_hash i)) (Some (ei_event_time i))
    (Some (ei_published_at i)) (Some (ei_ingested_at i)).

(** [_bind_evidence_citations] *)
Definition bind_evidence_citations (d : AgentDraft) (wiki_citation : Citation)
    (s : FrozenEvidenceSnapshot) (index_code : string) (require_dynamic : bool)
    : result (list Citation) :=
  raise_when (require_dynamic && empty (dr_evidence_item_ids d)) ValueError
    "live research opinions must cite frozen evidence_item_ids" ;;
  if empty (dr_evidence_item_ids d) then Ok [wiki_citation]
  else
    mapM_result (fun evidence_id =>
      match evidence_by_id s evidence_id with
      | None => raise ValueError ("model referenced unavailable frozen evidence " +:+ evidence_id)
      | Some item =>
          raise_when (negb (empty (ei_entities item))
                      && negb (bool_decide (index_code ∈ ei_entities item))) ValueError
            ("frozen evidence " +:+ evidence_id +:+ " is not scoped to index " +:+ index_code) ;;
          Ok (bind_citation wiki_citation item)
      end) (dr_evidence_item_ids d).

(** [_citation_matches_evidence] *)
Definition same_instant (a : option datetime) (b : datetime) : bool :=
  match a with Some t => dt_eqb t b | None => false end.

Definition citation_matches_evidence (c : Citation) (i : EvidenceItem) : bool :=
  bool_decide (wc_evidence_item_id c = Some (ei_id i))
  && bool_decide (wc_source_url c = Some (ei_source_url i))
  && bool_decide (wc_evidence_content_hash c = Some (ei_content_hash i))
  && same_instant (wc_event_time c) (ei_event_time i)
  && same_instant (wc_published_at c) (ei_published_at i)
  && same_instant (wc_ingested_at c) (ei_ingested_at i)
  && (wc_quote c =? ei_quote i)%string.

(** [_model_name_for_agent] *)
Definition model_name_for_agent (wf : Workflow) (agent_id : string) : string :=
  if (agent_id =? "quant_agent")%string then "unavailable-no-quant-signal-v1"
  else if (agent_id =? CIO_AGENT_ID)%string
  then "deterministic-committee-aggregation-v" +:+ wf_workflow_version wf
  else match pv_model_name_for_agent (wf_provider wf) with
       | Some resolver => resolver agent_id
       | None => if wf_use_demo_provider wf then pv_name (wf_provider wf) else wf_llm_model wf
       end.

Definition role_of (index : IndexDefinition) (agent : AgentDefinition) : string :=
  let brief := default "" (agent_brief_for index (ag_id agent)) in
  if truthy brief then brief else ag_role agent.

(** The opinion a draft becomes. *)
Definition opinion_of (wf : Workflow) (st : CommitteeState) (agent : AgentDefinition)
    (index : IndexDefinition) (h : Horizon) (d : AgentDraft) (target : date)
    (citations : list Citation) (contribution : string) (weight : float) : AgentOpinion :=
  Opinion (new_id (ag_id agent) (idx_code index) h) (cs_run_id st) (ag_id agent) (ag_name agent)
    (role_of index agent) (ag_version agent) (model_name_for_agent wf (ag_id agent))
    (ag_status agent) (idx_code index) h target (dr_direction d) (dr_probabilities d)
    (dr_summary d) (dr_evidence d) (dr_counter_evidence d) (dr_invalidation_conditions d)
    citations contribution weight (dr_evidence_item_ids d) (pv_name (wf_provider wf)) None.

(** ** Research *)

Definition research_opinion (wf : Workflow) (st : CommitteeState) (agent : AgentDefinition)
    (target : IndexDefinition * Horizon) : result AgentOpinion :=
  let '(index, h) := target in
  let preferred := wiki_entry_id_for index (ag_id agent) in
  raw ← pv_research (wf_provider wf) (ag_id agent) index h (cs_as_of st) (cs_wiki st) (cs_snapshot st);
  draft ← validate_draft raw;
  validate_draft_wiki draft (cs_wiki st) (ag_id agent) (idx_code index) preferred ;;
  wiki_citation ← citation (cs_wiki st) (ag_id agent) (Some (dr_wiki_section draft))
                    (Some (idx_code index)) preferred;
  citations ← bind_evidence_citations draft wiki_citation (cs_snapshot st) (idx_code index)
                (negb (wf_use_demo_provider wf)
                 && bool_decide (ag_id agent ∈ EFFECTIVE_RESEARCH_AGENT_IDS));
  target_date ← _target_date (cs_snapshot st) h;
  Ok (opinion_of wf st agent index h draft target_date citations "提供策略研究输入" (ag_weight agent)).

Definition research_node (wf : Workflow) (agent_id : string) (st : CommitteeState) : result Update :=
  agent ← agent_by_id agent_id;
  additions ← mapM_result (research_opinion wf st agent) (targets wf);
  Ok (mkUpdate additions None None (agent_id, ag_name agent)).

(** ** Strategy *)

Definition evidence_sources (o : AgentOpinion) : list EvidenceSource :=
  omap (fun c => id ← wc_evidence_item_id c;
                 if truthy id then Some (id, wc_source_url c, wc_evidence_content_hash c) else None)
    (op_citations o).

Definition safe_view (o : AgentOpinion) : ResearchView :=
  mkResearchView (op_agent_id o) None (op_direction o) (op_probabilities o) (op_summary o)
    (Some (op_evidence o, op_counter_evidence o)) (op_evidence_item_ids o) (evidence_sources o).

Definition peer_view (o : AgentOpinion) : ResearchView :=
  mkResearchView (op_agent_id o) (Some (op_index_code o)) (op_direction o) (op_probabilities o)
    (op_summary o) None (op_evidence_item_ids o) (evidence_sources o).

(** The research of the horizon on the other instruments. *)
Definition peers_of (st : CommitteeState) (code : string) (h : Horizon) : list AgentOpinion :=
  List.filter (fun o => bool_decide (op_horizon o = h) && negb (op_index_code o =? code)%string
                        && bool_decide (op_agent_id o ∈ EFFECTIVE_RESEARCH_AGENT_IDS))
    (cs_opinions st).

Definition expected_peers (wf : Workflow) (code : string) : gset (string * string) :=
  list_to_set
    (peer ← List.filter (fun i => negb (idx_code i =? code)%string) (wf_instruments wf);
     (fun agent_id => (idx_code peer, agent_id)) <$> EFFECTIVE_RESEARCH_AGENT_IDS).

Definition peer_identities (l : list AgentOpinion) : gset (string * string) :=
  list_to_set ((fun o => (op_index_code o, op_agent_id o)) <$> l).

Definition check_research_inputs (wf : Workflow) (code : string) (h : Horizon)
    (research peers : list AgentOpinion) : result unit :=
  raise_when (negb (length research =? length EFFECTIVE_RESEARCH_AGENT_IDS)%nat
              || negb (bool_decide (received research = list_to_set EFFECTIVE_RESEARCH_AGENT_IDS)))
    ValueError ("strategy agent received incomplete inputs for " +:+ code +:+ "/" +:+ horizon_value h) ;;
  raise_when (negb (length peers =? size (expected_peers wf code))%nat
              || negb (bool_decide (peer_identities peers = expected_peers wf code)))
    ValueError ("strategy agent received incomplete peer inputs for " +:+ horizon_value h).

Definition check_strategy_draft (wf : Workflow) (d : AgentDraft) (entry : WikiEntryRead)
    (research : list AgentOpinion) : result unit :=
  raise_when (negb (dr_wiki_entry_id d =? we_id entry)%string) ValueError
    "strategy agent referenced an unavailable Wiki entry" ;;
  raise_when (negb (bool_decide (dr_wiki_section d ∈ ws_slug <$> we_sections entry))) ValueError
    "strategy agent referenced an unavailable Wiki section" ;;
  raise_when (negb (wf_use_demo_provider wf) && empty (dr_evidence_item_ids d)) ValueError
    "live strategy opinions must cite upstream evidence_item_ids" ;;
  raise_when (negb (forallb (fun id => bool_decide (id ∈ research ≫= op_evidence_item_ids))
                      (dr_evidence_item_ids d))) ValueError
    "strategy agent referenced evidence outside its research inputs".

Definition strategy_opinion (wf : Workflow) (st : CommitteeState) (agent : AgentDefinition)
    (target : IndexDefinition * Horizon) : result AgentOpinion :=
  let '(index, h) := target in
  let code := idx_code index in
  let preferred := wiki_entry_id_for index (ag_id agent) in
  let research := inputs_of st EFFECTIVE_RESEARCH_AGENT_IDS code h in
  let peers := peers_of st code h in
  check_research_inputs wf code h research peers ;;
  volatility ← dict_item (fs_volatility_20d (cs_snapshot st)) code;
  raw ← pv_strategize (wf_provider wf) index h (cs_as_of st) (fs_data_cutoff (cs_snapshot st))
          volatility (cs_wiki st) (safe_view <$> research) (peer_view <$> peers);
  draft ← validate_draft raw;
  entry ← select_for_agent (cs_wiki st) (ag_id agent) (Some code) preferred;
  check_strategy_draft wf draft entry research ;;
  wiki_citation ← citation (cs_wiki st) (ag_id agent) (Some (dr_wiki_section draft)) (Some code)
                    preferred;
  citations ← bind_evidence_citations draft wiki_citation (cs_snapshot st) code
                (negb (wf_use_demo_provider wf));
  target_date ← _target_date (cs_snapshot st) h;
  Ok (opinion_of wf st agent index h draft target_date citations
        "综合基础研究，作为 CIO 的唯一方向输入" (ag_weight agent)).

(** *** [_annotate_strategy_context] *)

(** [d[key] = value] on an insertion-ordered dict. *)
Fixpoint upsert {A} (key : string) (value : A) (d : list (string * A)) : list (string * A) :=
  match d with
  | [] => [(key, value)]
  | (k, v) :: d' => if (k =? key)%string then (k, value) :: d' else (k, v) :: upsert key value d'
  end.

Definition dict_of {A} (pairs : list (string * A)) : list (string * A) :=
  fold_left (fun d kv => upsert kv.1 kv.2 d) pairs [].

Definition index_position (instruments : list IndexDefinition) : list (string * Z) :=
  dict_of (imap (fun position i => (idx_code i, Z.of_nat position)) instruments).

(** [a < b] on the sort keys [(-score, tie)]. *)
Definition key_ltb {T} (tie_ltb : T -> T -> bool) (a b : float * T) : bool :=
  if feqb (fopp a.1) (fopp b.1) then tie_ltb a.2 b.2 else fltb (fopp a.1) (fopp b.1).

(** A stable sort that only asks whether one key is less than another. *)
Definition not_after {T} (tie_ltb : T -> T -> bool) (a b : string * (float * T)) : Prop :=
  key_ltb tie_ltb b.2 a.2 = false.
#[local] Instance not_after_dec {T} tie_ltb a b : Decision (@not_after T tie_ltb a b).
Proof. unfold not_after. apply _. Defined.

Definition rank_codes (scores : list (string * float)) (positions : list (string * Z)) : list string :=
  fst <$> merge_sort (not_after Z.ltb)
            ((fun cs => (cs.1, (cs.2, default 0 (dict_get positions cs.1)))) <$> scores).

Record RankState := mkRank {
  ra_ranks : list (string * Z); ra_group : option float; ra_current : Z; ra_position : Z }.

Definition assign_rank (score : string -> float) (a : RankState) (code : string) : RankState :=
  let position := ra_position a + 1 in
  let fresh := match ra_group a with
               | None => true
               | Some g => fltb (lit 1 1000000) (fabs (fsub (score code) g))
               end in
  let current := if fresh then position else ra_current a in
  mkRank (ra_ranks a ++ [(code, current)]) (if fresh then Some (score code) else ra_group a)
    current position.

Definition score_of (scores : list (string * float)) (code : string) : float :=
  default f0 (dict_get scores code).

Definition ranks_of (scores : list (string * float)) (ranked : list string) : list (string * Z) :=
  ra_ranks (fold_left (assign_rank (score_of scores)) ranked (mkRank [] None 1 0)).

Definition average (values : list float) : float :=
  fdiv (py_sum values) (of_Z (Z.of_nat (length values))).

Definition market_regime (scores : list (string * float)) : string :=
  let mean_score := average (snd <$> scores) in
  if fltb (lit 5 100) mean_score then "risk_on"
  else if fltb mean_score (fopp (lit 5 100)) then "risk_off" else "balanced".

Definition bucket_values (buckets : list (string * string)) (scores : list (string * float))
    : list (string * list float) :=
  fold_left (fun d cs =>
    let bucket := default "" (dict_get buckets cs.1) in
    if (bucket =? "balanced")%string then d
    else upsert bucket (default [] (dict_get d bucket) ++ [cs.2])%list d) scores [].

Definition string_ltb (a b : string) : bool := bool_decide (String.compare a b = Lt).

Definition style_bias (buckets : list (string * string)) (scores : list (string * float)) : string :=
  let style_scores := (fun bv => (bv.1, average bv.2)) <$> bucket_values buckets scores in
  let ordered := merge_sort (not_after string_ltb) ((fun bs => (bs.1, (bs.2, bs.1))) <$> style_scores) in
  match ordered with
  | [(bucket, _)] => bucket
  | (first, (s1, _)) :: (_, (s2, _)) :: _ =>
      if fleb (lit 3 100) (fsub s1 s2) then first else "balanced"
  | [] => "balanced"
  end.

Definition scope_label (instruments : list IndexDefinition) : string :=
  if bool_decide ((idx_code <$> instruments) = (idx_code <$> INDEXES)) then "五指数"
  else py_str_Z (Z.of_nat (length instruments)) +:+ " 个标的".

(** The opinion with its rank. *)
Definition annotated (o : AgentOpinion) (label : string) (total : Z) (c : StrategyContext)
    (score : float) : AgentOpinion :=
  Opinion (op_id o) (op_run_id o) (op_agent_id o) (op_agent_name o) (op_role o)
    (op_agent_version o) (op_model_name o) (op_status o) (op_index_code o) (op_horizon o)
    (op_target_date o) (op_direction o) (op_probabilities o)
    (op_summary o +:+ " " +:+ label +:+ "相对配置排序" +:+ (if sc_rank_tied c then "并列" else "")
     +:+ "第 " +:+ py_str_Z (sc_relative_rank c) +:+ "/" +:+ py_str_Z total +:+ "，配置分数为 "
     +:+ signed3 score +:+ "。")
    (op_evidence o) (op_counter_evidence o) (op_invalidation_conditions o) (op_citations o)
    (op_contribution o) (op_weight o) (op_evidence_item_ids o) (op_provider o) (Some c).

(** The scores of a horizon, checked to cover every instrument once. *)
Definition horizon_scores (instruments : list IndexDefinition) (h : Horizon)
    (rows : list AgentOpinion) : result (list (string * float)) :=
  let by_index := dict_of ((fun o => (op_index_code o, o)) <$> rows) in
  raise_when (negb (length rows =? length instruments)%nat) ValueError
    ("strategy context requires " +:+ py_str_Z (Z.of_nat (length instruments))
     +:+ " instruments for " +:+ horizon_value h) ;;
  raise_when (negb (bool_decide ((list_to_set (fst <$> by_index) : gset string)
                                 = list_to_set (idx_code <$> instruments)))) ValueError
    ("strategy context has duplicate or missing instruments for " +:+ horizon_value h) ;;
  Ok ((fun co => (co.1, fsub (p_up (op_probabilities co.2)) (p_down (op_probabilities co.2))))
        <$> by_index).

Definition is_tied (ranks : list (string * Z)) (rank : Z) : bool :=
  1 <? Z.of_nat (length (List.filter (fun cr => cr.2 =? rank) ranks)).

Definition annotate_horizon (instruments : list IndexDefinition) (opinions : list AgentOpinion)
    (h : Horizon) : result (list AgentOpinion) :=
  scores ← horizon_scores instruments h
             (List.filter (fun o => bool_decide (op_horizon o = h)) opinions);
  raise_when (empty scores) ZeroDivisionError "division by zero" ;;
  let ranked := rank_codes scores (index_position instruments) in
  let ranks := ranks_of scores ranked in
  let buckets := dict_of ((fun i => (idx_code i, idx_strategy_bucket i)) <$> instruments) in
  let context o :=
    let score := score_of scores (op_index_code o) in
    let rank := default 0 (dict_get ranks (op_index_code o)) in
    annotated o (scope_label instruments) (Z.of_nat (length instruments))
      (mkContext (market_regime scores) (style_bias buckets scores) rank (is_tied ranks rank)
         (fround 6 score)) score in
  Ok ((fun o => if bool_decide (op_horizon o = h) then context o else o) <$> opinions).

Definition annotate_strategy_context (opinions : list AgentOpinion)
    (instruments : list IndexDefinition) (horizons : list Horizon) : result (list AgentOpinion) :=
  for_each (annotate_horizon instruments) opinions horizons.

Definition strategy_node (wf : Workflow) (st : CommitteeState) : result Update :=
  agent ← agent_by_id STRATEGY_AGENT_ID;
  additions ← mapM_result (strategy_opinion wf st agent) (targets wf);
  additions ← annotate_strategy_context additions (wf_instruments wf) (wf_forecast_horizons wf);
  Ok (mkUpdate additions None None (ag_id agent, ag_name agent)).

(** ** Risk critic *)

Definition critic_view (o : AgentOpinion) : CriticView :=
  mkCriticView (op_agent_id o) (op_direction o) (op_probabilities o) (op_summary o)
    (op_evidence o) (op_counter_evidence o).

Definition critic_opinion (wf : Workflow) (st : CommitteeState) (agent : AgentDefinition)
    (target : IndexDefinition * Horizon) : result AgentOpinion :=
  let '(index, h) := target in
  let code := idx_code index in
  let preferred := wiki_entry_id_for index (ag_id agent) in
  let research := inputs_of st CRITIC_INPUT_AGENT_IDS code h in
  raise_when (negb (length research =? length CRITIC_INPUT_AGENT_IDS)%nat) ValueError
    ("critic received incomplete inputs for " +:+ code +:+ "/" +:+ horizon_value h) ;;
  raw ← pv_criticize (wf_provider wf) index h (cs_as_of st) (cs_wiki st) (critic_view <$> research);
  draft ← validate_draft raw;
  validate_draft_wiki draft (cs_wiki st) (ag_id agent) code preferred ;;
  raise_when (negb (empty (dr_evidence_item_ids draft))) ValueError
    "risk critic may only challenge frozen inputs and must not introduce new evidence_item_ids" ;;
  wiki_citation ← citation (cs_wiki st) (ag_id agent) (Some (dr_wiki_section draft)) (Some code)
                    preferred;
  target_date ← _target_date (cs_snapshot st) h;
  Ok (opinion_of wf st agent index h draft target_date [wiki_citation]
        "不做方向投票；用于反证并提高小波动结果概率" f0).

Definition critic_node (wf : Workflow) (st : CommitteeState) : result Update :=
  agent ← agent_by_id RISK_CRITIC_AGENT_ID;
  additions ← mapM_result (critic_opinion wf st agent) (targets wf);
  Ok (mkUpdate additions None None (ag_id agent, ag_name agent)).

(** ** Validation of the citations *)

(** The checks of one citation; returns the evidence it binds. *)
Definition validate_citation (st : CommitteeState) (c : Citation) : result (option string) :=
  raise_when (negb (citation_is_valid (cs_wiki st) c)) ValueError
    ("invalid Wiki citation " +:+ wc_wiki_entry_id c +:+ "@" +:+ wc_wiki_version c) ;;
  (match wc_evidence_item_id c with
   | Some id =>
       raise_when (match evidence_by_id (cs_snapshot st) id with
                   | Some item => negb (citation_matches_evidence c item)
                   | None => true
                   end) ValueError ("invalid frozen evidence citation " +:+ id)
   | None =>
       raise_when (negb (bool_decide (wc_source_url c = None /\ wc_evidence_content_hash c = None
                                      /\ wc_event_time c = None /\ wc_published_at c = None
                                      /\ wc_ingested_at c = None))) ValueError
         "partial dynamic citation is missing evidence_item_id"
   end) ;;
  raise_when (match wc_published_at c with
              | Some p => dt_ltb (cs_data_cutoff st) p | None => false end) ValueError
    "citation is newer than the frozen data cutoff" ;;
  Ok (wc_evidence_item_id c).

(** The checks of one opinion; returns its citations' evidence. *)
Definition validate_opinion (wf : Workflow) (st : CommitteeState) (o : AgentOpinion)
    : result (list (option string)) :=
  raise_when (empty (op_citations o)) ValueError (op_agent_id o +:+ " produced an uncited opinion") ;;
  bound ← mapM_result (validate_citation st) (op_citations o);
  let bound_ids : gset string := list_to_set (omap id bound) in
  raise_when (negb (wf_use_demo_provider wf)
              && bool_decide (op_agent_id o ∈ DYNAMIC_EVIDENCE_AGENT_IDS)
              && (bool_decide (bound_ids = ∅)
                  || negb (bool_decide (bound_ids = list_to_set (op_evidence_item_ids o))))) ValueError
    (op_agent_id o +:+ " evidence IDs were not structurally bound") ;;
  Ok bound.

Definition validate_evidence (wf : Workflow) (st : CommitteeState) : result Update :=
  bound ← mapM_result (validate_opinion wf st) (cs_opinions st);
  let checked := concat bound in
  let available : gset string := list_to_set (ei_id <$> fs_items (cs_snapshot st)) in
  let quality : jobject :=
    list_to_map
      [("citations_validated", JInt (Z.of_nat (length checked)));
       ("dynamic_citations_validated", JInt (Z.of_nat (length (omap id checked))));
       ("frozen_evidence_ids_available", JInt (Z.of_nat (size available)))]
    ∪ cs_data_quality st in
  Ok (mkUpdate [] None (Some quality) ("evidence_validator", "证据与时间截面校验")).

(** ** The chief investment officer *)

(** [_apply_symmetric_haircut] *)
Definition apply_symmetric_haircut (p : Probs) (haircut : float) : result Probs :=
  raise_when (negb (fleb f0 haircut && fleb haircut f1)) ValueError
    "haircut must be between zero and one" ;;
  let up := fmul (fsub f1 haircut) (p_up p) in
  let down := fmul (fsub f1 haircut) (p_down p) in
  validate_probabilities_model (mkProbs up (fsub (fsub f1 up) down) down).

Definition citation_key (c : Citation) : string * (string * (string * option string)) :=
  (wc_wiki_entry_id c, (wc_wiki_version c, (wc_section c, wc_evidence_item_id c))).

(** [unique[key] = citation]: the first position, the last value. *)
Fixpoint add_citation (unique : list Citation) (c : Citation) : list Citation :=
  match unique with
  | [] => [c]
  | c' :: rest => if bool_decide (citation_key c' = citation_key c) then c :: rest
                  else c' :: add_citation rest c
  end.

(** [_deduplicate_citations] *)
Definition deduplicate_citations (citations : list Citation) : list Citation :=
  fold_left add_citation citations [].

Definition add_string (unique : list string) (s : string) : list string :=
  if truthy s && negb (bool_decide (s ∈ unique)) then (unique ++ [s])%list else unique.

(** [_deduplicate_strings] *)
Definition deduplicate_strings (values : list string) : list string :=
  fold_left add_string values [].

(** [next(opinion for opinion in opinions if ...)] *)
Definition first_by (st : CommitteeState) (agent_id code : string) (h : Horizon)
    : option AgentOpinion := head (inputs_of st [agent_id] code h).

Definition quant_context (st : CommitteeState) : string :=
  if bool_decide ("quant_agent" ∈ cs_external_inputs st)
  then "Quant 已作为只读 shadow 输入，正式决策权重为0" else "Quant 待接入且权重为0".

Definition rationale_of (wf : Workflow) (st : CommitteeState) (index : IndexDefinition)
    (h : Horizon) (context : option StrategyContext) (direction : Direction) (confidence : float)
    (parsed : Probs) : string :=
  let total := py_str_Z (Z.of_nat (length (wf_instruments wf))) in
  let tied := match context with Some c => sc_rank_tied c | None => false end in
  let rank := match context with Some c => py_str_Z (sc_relative_rank c) | None => "未记录" end in
  "策略研究员综合三位有效研究 Agent，形成 " +:+ idx_name index +:+ horizon_value h
  +:+ " 的唯一方向输入（" +:+ total +:+ " 个标的配置排序" +:+ (if tied then "并列" else "") +:+ "第"
  +:+ rank +:+ "/" +:+ total +:+ "）；" +:+ quant_context st
  +:+ "，Risk Critic 不投方向票；CIO 将上下行结果概率各缩减 " +:+ percent0 DIRECTIONAL_MASS_HAIRCUT
  +:+ "，移入小波动结果桶。强制二元方向为" +:+ direction_value direction
  +:+ "（排除小波动结果后的方向置信度 " +:+ percent1 confidence +:+ "，小波动概率 "
  +:+ percent1 (p_neutral parsed) +:+ "）。".

Definition wiki_version_of (citations : list Citation) : string :=
  py_take 16 (sha256 (py_join "|"
    ((fun c => wc_wiki_entry_id c +:+ "@" +:+ wc_wiki_version c) <$> citations))).

(** The inputs of one decision: research, strategy and critic. *)
Definition decision_inputs (st : CommitteeState) (code : string) (h : Horizon)
    : result (list AgentOpinion * AgentOpinion * AgentOpinion) :=
  let research := inputs_of st EFFECTIVE_RESEARCH_AGENT_IDS code h in
  raise_when (negb (length research =? length EFFECTIVE_RESEARCH_AGENT_IDS)%nat) ValueError
    ("incomplete research set for " +:+ code +:+ "/" +:+ horizon_value h) ;;
  match first_by st STRATEGY_AGENT_ID code h with
  | None => raise ValueError ("missing strategy opinion for " +:+ code +:+ "/" +:+ horizon_value h)
  | Some strategy =>
      match first_by st RISK_CRITIC_AGENT_ID code h with
      | None => raise StopIteration ""
      | Some risk => Ok (research, strategy, risk)
      end
  end.

(** The decision on one instrument and horizon: its forecast and its opinion. *)
Definition cio_decision (wf : Workflow) (st : CommitteeState) (cio : AgentDefinition)
    (target : IndexDefinition * Horizon) : result (ForecastDraft * AgentOpinion) :=
  let '(index, h) := target in
  let code := idx_code index in
  let s := cs_snapshot st in
  '(research, strategy, risk) ← decision_inputs st code h;
  strategy_probabilities ← validate_probabilities_model (op_probabilities strategy);
  parsed ← apply_symmetric_haircut strategy_probabilities DIRECTIONAL_MASS_HAIRCUT;
  direction ← predicted_direction (as_dict parsed);
  confidence ← directional_confidence (as_dict parsed);
  let citations := deduplicate_citations ((research ++ [strategy])%list ≫= op_citations) in
  let counter := deduplicate_strings ((research ++ [strategy; risk])%list ≫= op_counter_evidence) in
  let invalidation :=
    deduplicate_strings ((research ++ [strategy; risk])%list ≫= op_invalidation_conditions) in
  let rationale := rationale_of wf st index h (op_strategy_context strategy) direction confidence parsed in
  volatility ← dict_item (fs_volatility_20d s) code;
  threshold ← neutral_threshold volatility h;
  target_date ← _target_date s h;
  Ok (mkForecast (new_id "forecast" code h) (cs_run_id st) code (idx_name index) h
        (fs_base_session s) target_date (cs_as_of st) (cs_data_cutoff st) direction parsed
        threshold confidence rationale counter invalidation citations false
        (model_name_for_agent wf CIO_AGENT_ID) (wf_workflow_version wf) (wiki_version_of citations)
        (cs_input_hash st) now,
      Opinion (new_id (ag_id cio) code h) (cs_run_id st) (ag_id cio) (ag_name cio) (ag_role cio)
        (ag_version cio) (model_name_for_agent wf CIO_AGENT_ID) (ag_status cio) code h target_date
        direction parsed rationale (op_summary strategy :: (op_summary <$> research)) counter
        invalidation citations "形成最终投委会判断" f0 [] "deterministic-committee-aggregation" None).

Definition cio_node (wf : Workflow) (st : CommitteeState) : result Update :=
  cio ← agent_by_id CIO_AGENT_ID;
  decisions ← mapM_result (cio_decision wf st cio) (targets wf);
  Ok (mkUpdate (snd <$> decisions) (Some (fst <$> decisions)) None (CIO_AGENT_ID, ag_name cio)).

(** ** The graph *)

(** [_freeze_snapshot] *)
Definition freeze_snapshot (wf : Workflow) (st : CommitteeState) : result Update :=
  let s := cs_snapshot st in
  let demo := wf_use_demo_provider wf in
  let quality : jobject :=
    list_to_map
      [("status", JStr (if demo then "demo" else "ready"));
       ("market_data", JStr (if demo then "demo-volatility" else "provided"));
       ("wiki_entries", JInt (Z.of_nat (length (cs_wiki st))));
       ("wiki_has_sources",
          JInt (Z.of_nat (length (List.filter (fun e => negb (empty (we_source_urls e))) (cs_wiki st)))));
       ("future_information_check", JStr "passed");
       ("evidence_items", JInt (Z.of_nat (length (fs_items s))));
       ("evidence_snapshot_hash", JStr (fs_content_hash s));
       ("market_provenance_count", JInt (Z.of_nat (length (fs_market_data s))));
       ("market_universe", JObj (wf_universe_summary wf));
       ("trading_calendar_source", JStr (tc_source_url (fs_trading_calendar s)));
       ("trading_calendar_hash", JStr (tc_source_hash (fs_trading_calendar s)));
       ("trading_calendar_sessions",
          JArr ((fun d => JStr (iso_date d)) <$> tc_sessions (fs_trading_calendar s)));
       ("believability", JObj (list_to_map
          [("policy_version", JStr (cs_believability_policy_version st));
           ("snapshot_hash", JStr (cs_believability_snapshot_hash st));
           ("run_binding_hash", JStr (cs_believability_binding_hash st));
           ("mode", JStr "shadow_only"); ("applied_to_decision", JBool false)]));
       ("warning", if demo then JStr "离线演示不包含实时行情与资讯，不可用于投资决策。" else JNull)]
    ∪ cs_data_quality st in
  Ok (mkUpdate [] None (Some quality) ("freeze_snapshot", "冻结行情、资讯与 Wiki 版本")).

(** One node after the other. *)
Definition run_node (node : CommitteeState -> result Update) (st : CommitteeState)
    : result CommitteeState := u ← node st; Ok (apply_update st u).

(** The research agents run in one step on the same state; their additions are
    merged in [order]. *)
Definition research_step (wf : Workflow) (order : list string) (st : CommitteeState)
    : result CommitteeState :=
  updates ← mapM_result (fun agent_id => research_node wf agent_id st) order;
  Ok (fold_left apply_update updates st).

(** [_build_graph]: the nodes along its edges. *)
Definition run_graph (wf : Workflow) (order : list string) (st : CommitteeState)
    : result CommitteeState :=
  st ← run_node (freeze_snapshot wf) st;
  st ← research_step wf order st;
  st ← run_node (strategy_node wf) st;
  st ← run_node (critic_node wf) st;
  st ← run_node (validate_evidence wf) st;
  run_node (cio_node wf) st.

End Nodes.

(** What [_persist_result] reads of the final state. *)
Definition opinion_draft (o : AgentOpinion) : Models.DraftSignal :=
  Models.Draft (op_agent_id o) (direction_value (op_direction o)) (as_dict (op_probabilities o)) f0 false
    [iso_date (op_target_date o)] [].

Definition forecast_draft (f : ForecastDraft) : Models.DraftSignal :=
  Models.Draft CIO_AGENT_ID (direction_value (fo_direction f)) (as_dict (fo_probabilities f))
    (fo_confidence f) (fo_abstain f)
    [iso_date (fo_base_trade_date f); iso_date (fo_target_date f)]
    [isoformat (fo_as_of f); isoformat (fo_data_cutoff f); isoformat (fo_created_at f)].

Definition result_of (st : CommitteeState) : Models.CommitteeResult :=
  Models.Committee (opinion_draft <$> cs_opinions st) (forecast_draft <$> cs_forecasts st)
    (JArr ((fun s => JObj (list_to_map [("id", JStr s.1); ("label", JStr s.2);
                                        ("status", JStr "completed")])) <$> cs_workflow_steps st))
    (cs_data_quality st).

End Committee.
