(* ===== verification/CommitteeProps.v ===== *)
(** * Correctness of the committee graph

    What a finished graph has: one opinion of every agent and one forecast for
    every instrument and horizon, forecasts that are functions of the
    strategist's probabilities only, citations that repeat frozen content, and a
    result that the executor can persist. *)
From Stdlib Require Import Ascii.
From S2P Require Import Prelude PyStr PyTime Float64 Rounding Domain Json Iso Models Execution.
From S2P Require Import Contracts Snapshot Wiki Committee.
Import PyStr PyTime Float64 Rounding Domain Json Iso Contracts Snapshot Wiki Committee.
Open Scope string_scope.
Open Scope Z_scope.

Module CommitteeProps.

(** ** Agents *)

Lemma Forall2_elem_r {A B} (R : A -> B -> Prop) l k y :
  Forall2 R l k -> y ∈ k -> exists x, x ∈ l /\ R x y.
Proof.
  intros Hall (i & Hi)%list_elem_of_lookup. destruct (Forall2_lookup_r _ _ _ _ _ Hall Hi) as (x & Hx & HR).
  exists x. split; [|done]. by apply list_elem_of_lookup_2 in Hx.
Qed.

Lemma agent_by_id_id id a : agent_by_id id = Ok a -> ag_id a = id.
Proof.
  unfold agent_by_id. destruct (AGENT_BY_ID !! id) as [a'|] eqn:Ea; [|done].
  intros [= <-]. unfold AGENT_BY_ID in Ea. apply elem_of_list_to_map_2 in Ea.
  apply list_elem_of_fmap in Ea as (a & [= -> ->] & _). done.
Qed.

Section Nodes.
Context `{PyRuntime} `{Uppercase} `{FloatFormat}.
Context (sha256 : string -> string) (new_id : string -> string -> Horizon -> string)
  (now : datetime).

#[local] Abbreviation run_graph := (run_graph sha256 new_id now).
#[local] Abbreviation cio_node := (cio_node sha256 new_id now).

(** ** Drafts *)

(** An opinion whose direction is the stronger side of its probabilities. *)
Definition coherent (o : AgentOpinion) : Prop :=
  validate_probabilities_model (op_probabilities o) = Ok (op_probabilities o)
  /\ predicted_direction (as_dict (op_probabilities o)) = Ok (op_direction o).

Lemma validate_probabilities_model_Ok p q :
  validate_probabilities_model p = Ok q ->
  q = p /\ unit_interval (p_up p) = true /\ unit_interval (p_neutral p) = true
  /\ unit_interval (p_down p) = true.
Proof.
  unfold validate_probabilities_model, field_check. intros Hk. inv_ok Hk.
  injection Hk as <-. bool_prop. done.
Qed.

Lemma validate_probabilities_model_same p q :
  validate_probabilities_model p = Ok q -> validate_probabilities_model p = Ok p.
Proof. intros Hk. pose proof Hk as (-> & _)%validate_probabilities_model_Ok. done. Qed.

Lemma validate_draft_Ok d d' :
  validate_draft d = Ok d' ->
  d' = d /\ (validate_probabilities_model (dr_probabilities d) = Ok (dr_probabilities d)
             /\ predicted_direction (as_dict (dr_probabilities d)) = Ok (dr_direction d)).
Proof.
  unfold validate_draft, field_check. intros Hk. inv_ok Hk. injection Hk as <-.
  split; [done|]. split; [by eapply validate_probabilities_model_same|]. bool_prop. by subst.
Qed.

(** ** What the nodes add *)

(** The opinion of an agent on a target, made from a draft of the provider. *)
Definition answers (s : FrozenEvidenceSnapshot) (agent_id : string)
    (target : IndexDefinition * Horizon) (o : AgentOpinion) : Prop :=
  op_agent_id o = agent_id /\ op_index_code o = idx_code target.1 /\ op_horizon o = target.2
  /\ coherent o /\ _target_date s target.2 = Ok (op_target_date o).

(** Coherent, on a session of the snapshot. *)
Definition consistent (s : FrozenEvidenceSnapshot) (o : AgentOpinion) : Prop :=
  coherent o /\ exists h, _target_date s h = Ok (op_target_date o).

(** [P] holds of every draft the provider returns. *)
Record drafted (wf : Workflow) (P : Probs -> Prop) : Prop := {
  dr_research : forall agent index h as_of wiki snapshot d,
    pv_research (wf_provider wf) agent index h as_of wiki snapshot = Ok d -> P (dr_probabilities d);
  dr_strategize : forall index h as_of cutoff v wiki research peers d,
    pv_strategize (wf_provider wf) index h as_of cutoff v wiki research peers = Ok d ->
    P (dr_probabilities d);
  dr_criticize : forall index h as_of wiki inputs d,
    pv_criticize (wf_provider wf) index h as_of wiki inputs = Ok d -> P (dr_probabilities d) }.

Lemma drafted_any wf : drafted wf (fun _ => True).
Proof. done. Qed.

(** The opinion of a draft with [P]. *)
Definition voiced (s : FrozenEvidenceSnapshot) (P : Probs -> Prop) (agent_id : string) (target : IndexDefinition * Horizon)
    (o : AgentOpinion) : Prop := answers s agent_id target o /\ P (op_probabilities o).

Ltac voiced_tac :=
  match goal with |- _ -> ?lhs = Ok _ -> _ =>
    intros [? ? ?] Hk; inv_ok Hk; injection Hk as <-;
    match goal with Hd : validate_draft _ = Ok _ |- _ => apply validate_draft_Ok in Hd as [-> [? ?]] end;
    (split; [unfold answers, coherent; by split_and!|]); cbn [opinion_of op_probabilities]; by eauto
  end.

Lemma research_opinion_Ok wf st agent t o P :
  drafted wf P -> research_opinion new_id wf st agent t = Ok o -> voiced (cs_snapshot st) P (ag_id agent) t o.
Proof. destruct t as [index h]. unfold research_opinion. voiced_tac. Qed.

Lemma strategy_opinion_Ok wf st agent t o P :
  drafted wf P -> strategy_opinion new_id wf st agent t = Ok o -> voiced (cs_snapshot st) P (ag_id agent) t o.
Proof. destruct t as [index h]. unfold strategy_opinion. voiced_tac. Qed.

Lemma critic_opinion_Ok wf st agent t o P :
  drafted wf P -> critic_opinion new_id wf st agent t = Ok o -> voiced (cs_snapshot st) P (ag_id agent) t o.
Proof. destruct t as [index h]. unfold critic_opinion. voiced_tac. Qed.

(** *** The strategist's annotation only touches summary and context *)

Definition core (o : AgentOpinion) :=
  (op_agent_id o, op_index_code o, op_horizon o, op_direction o, op_probabilities o,
   (op_target_date o, op_counter_evidence o, op_invalidation_conditions o, op_citations o,
    op_evidence_item_ids o)).

Lemma annotate_horizon_core instruments ops h ops' :
  annotate_horizon instruments ops h = Ok ops' -> core <$> ops' = core <$> ops.
Proof.
  unfold annotate_horizon. intros Hk. inv_ok Hk. injection Hk as <-.
  rewrite <- list_fmap_compose. apply list_fmap_ext. intros _ o _. cbn. by case_match.
Qed.

Lemma annotate_core instruments horizons ops ops' :
  annotate_strategy_context ops instruments horizons = Ok ops' -> core <$> ops' = core <$> ops.
Proof.
  apply (for_each_invariant (fun l => core <$> l = core <$> ops)); [|done].
  intros l h l' _ Hl Hk. by rewrite (annotate_horizon_core _ _ _ _ Hk).
Qed.

Lemma core_voiced s P a t o o' : core o = core o' -> voiced s P a t o -> voiced s P a t o'.
Proof. unfold voiced, answers, coherent. intros [= -> -> -> -> -> -> _]. done. Qed.

(** ** The nodes *)

Ltac node_tac :=
  match goal with |- _ -> _ = Ok _ -> _ =>
    intros HP Hk; inv_ok Hk; injection Hk as <-; (split; [|done]); cbn;
    match goal with Ha : agent_by_id _ = Ok _ |- _ => apply agent_by_id_id in Ha as <- end;
    match goal with Hm : mapM_result _ _ = Ok _ |- _ => apply mapM_result_Ok in Hm end
  end.

Lemma research_node_Ok wf a st u P :
  drafted wf P -> research_node new_id wf a st = Ok u ->
  Forall2 (voiced (cs_snapshot st) P a) (targets wf) (up_opinions u) /\ up_forecasts u = None.
Proof.
  unfold research_node. node_tac. eapply Forall2_impl; [done|].
  intros t o. by apply research_opinion_Ok.
Qed.

Lemma strategy_node_Ok wf st u P :
  drafted wf P -> strategy_node new_id wf st = Ok u ->
  Forall2 (voiced (cs_snapshot st) P STRATEGY_AGENT_ID) (targets wf) (up_opinions u) /\ up_forecasts u = None.
Proof.
  unfold strategy_node. node_tac.
  match goal with Hm : Forall2 _ _ ?l, Ha : annotate_strategy_context ?l _ _ = Ok ?l' |- _ =>
    apply annotate_core in Ha; rename l' into noted; rename Ha into Hcore; revert noted Hcore;
    induction Hm as [|t o ts os Ho _ IH] end;
    intros [|o' os'] [=]; constructor; [|by apply IH].
  assert (core o = core o') as Eo by (unfold core; congruence).
  eapply core_voiced; [exact Eo|]. by apply (strategy_opinion_Ok _ _ _ _ _ _ HP) in Ho.
Qed.

Lemma critic_node_Ok wf st u P :
  drafted wf P -> critic_node new_id wf st = Ok u ->
  Forall2 (voiced (cs_snapshot st) P RISK_CRITIC_AGENT_ID) (targets wf) (up_opinions u) /\ up_forecasts u = None.
Proof.
  unfold critic_node. node_tac. eapply Forall2_impl; [done|].
  intros t o. by apply critic_opinion_Ok.
Qed.

(** The forecast of a target: the officer's functions of one strategist opinion. *)
Record decided (st : CommitteeState) (t : IndexDefinition * Horizon) (f : ForecastDraft) : Prop := {
  de_run : fo_run_id f = cs_run_id st;
  de_code : fo_index_code f = idx_code t.1;
  de_horizon : fo_horizon f = t.2;
  de_base : fo_base_trade_date f = fs_base_session (cs_snapshot st);
  de_target : _target_date (cs_snapshot st) t.2 = Ok (fo_target_date f);
  de_as_of : fo_as_of f = cs_as_of st;
  de_cutoff : fo_data_cutoff f = cs_data_cutoff st;
  de_created : fo_created_at f = now;
  de_valid : validate_probabilities_model (fo_probabilities f) = Ok (fo_probabilities f);
  de_direction : predicted_direction (as_dict (fo_probabilities f)) = Ok (fo_direction f);
  de_confidence : directional_confidence (as_dict (fo_probabilities f)) = Ok (fo_confidence f);
  de_threshold : exists v, dict_get (fs_volatility_20d (cs_snapshot st)) (idx_code t.1) = Some v
                  /\ neutral_threshold v t.2 = Ok (fo_threshold f);
  de_abstain : fo_abstain f = false;
  de_strategy : exists o, first_by st STRATEGY_AGENT_ID (idx_code t.1) t.2 = Some o
    /\ apply_symmetric_haircut (op_probabilities o) DIRECTIONAL_MASS_HAIRCUT = Ok (fo_probabilities f) }.

Lemma haircut_valid p haircut q :
  apply_symmetric_haircut p haircut = Ok q -> validate_probabilities_model q = Ok q.
Proof.
  unfold apply_symmetric_haircut. intros [_ Hq]%raise_when_bind_Ok.
  pose proof Hq as (-> & _)%validate_probabilities_model_Ok. done.
Qed.

Lemma decision_inputs_Ok st code h research strategy risk :
  decision_inputs st code h = Ok (research, strategy, risk) ->
  research = inputs_of st EFFECTIVE_RESEARCH_AGENT_IDS code h
  /\ first_by st STRATEGY_AGENT_ID code h = Some strategy
  /\ first_by st RISK_CRITIC_AGENT_ID code h = Some risk.
Proof.
  unfold decision_inputs. intros Hk. apply raise_when_bind_Ok in Hk as [_ Hk].
  destruct (first_by st STRATEGY_AGENT_ID code h); [|done].
  destruct (first_by st RISK_CRITIC_AGENT_ID code h); [|done]. by injection Hk as -> -> ->.
Qed.

Lemma cio_decision_Ok wf st cio t f o :
  cio_decision sha256 new_id now wf st cio t = Ok (f, o) ->
  decided st t f /\ answers (cs_snapshot st) (ag_id cio) t o /\ op_target_date o = fo_target_date f.
Proof.
  destruct t as [index h]. unfold cio_decision. intros Hk.
  apply bind_Ok in Hk as ([[research strategy] risk] & Hin & Hk).
  apply decision_inputs_Ok in Hin as (_ & Hs & _).
  inv_ok Hk. injection Hk as <- <-.
  match goal with Hv : validate_probabilities_model _ = Ok _ |- _ =>
    apply validate_probabilities_model_Ok in Hv as (-> & _) end.
  match goal with Hc : apply_symmetric_haircut _ _ = Ok _ |- _ => pose proof (haircut_valid _ _ _ Hc) end.
  split; [|unfold answers, coherent; by split_and!]. unfold dict_item in *.
  destruct (dict_get _ _) as [vol|] eqn:Ev; [|done].
  match goal with Hv : Ok vol = Ok _ |- _ => injection Hv as <- end.
  split; cbn; try done; eauto.
Qed.

Lemma cio_node_Ok wf st u :
  cio_node wf st = Ok u ->
  exists forecasts, up_forecasts u = Some forecasts
    /\ Forall2 (decided st) (targets wf) forecasts
    /\ Forall2 (answers (cs_snapshot st) CIO_AGENT_ID) (targets wf) (up_opinions u)
    /\ Forall2 (fun f o => op_target_date o = fo_target_date f) forecasts (up_opinions u).
Proof.
  unfold cio_node. intros Hk. inv_ok Hk. injection Hk as <-. cbn.
  match goal with Ha : agent_by_id _ = Ok _ |- _ => apply agent_by_id_id in Ha as <- end.
  match goal with Hm : mapM_result _ _ = Ok _ |- _ =>
    apply mapM_result_Ok in Hm; rename Hm into Hall end.
  eexists. split; [done|].
  induction Hall as [|t [f o] ts os Ho _ (IH1 & IH2 & IH3)]; [done|].
  apply cio_decision_Ok in Ho as (Hd & Ha & Ht).
  split; [by constructor|]. split; by constructor.
Qed.

(** ** The graph *)

(** The channels no node writes. *)
Definition fixed (st : CommitteeState) :=
  (cs_run_id st, cs_as_of st, cs_data_cutoff st, cs_snapshot st, cs_wiki st).

Lemma fixed_snapshot st st' : fixed st = fixed st' -> cs_snapshot st = cs_snapshot st'.
Proof. unfold fixed. rewrite !pair_equal_spec. tauto. Qed.

Lemma run_node_Ok node st st' :
  run_node node st = Ok st' -> exists u, node st = Ok u /\ st' = apply_update st u.
Proof. unfold run_node. intros Hk. inv_ok Hk. injection Hk as <-. eauto. Qed.

Lemma freeze_snapshot_Ok wf st u :
  freeze_snapshot wf st = Ok u -> up_opinions u = [] /\ up_forecasts u = None.
Proof. by intros [= <-]. Qed.

Lemma validate_evidence_Ok wf st u :
  validate_evidence wf st = Ok u ->
  up_opinions u = [] /\ up_forecasts u = None
  /\ forall o, o ∈ cs_opinions st -> exists bound, validate_opinion wf st o = Ok bound.
Proof.
  unfold validate_evidence. intros Hk. inv_ok Hk. injection Hk as <-. split; [done|]. split; [done|].
  intros o Ho. by eapply mapM_result_elem.
Qed.

(** The research agents' additions, in the order they are merged. *)
Lemma merge_updates us : forall st,
  Forall (fun u => up_forecasts u = None) us ->
  fixed (fold_left apply_update us st) = fixed st
  /\ cs_forecasts (fold_left apply_update us st) = cs_forecasts st
  /\ cs_opinions (fold_left apply_update us st) = (cs_opinions st ++ (us ≫= up_opinions))%list.
Proof.
  induction us as [|u us IH]; intros st Hus; cbn; [by rewrite app_nil_r|].
  apply Forall_cons in Hus as [Hu Hus]. destruct (IH (apply_update st u) Hus) as (-> & -> & ->).
  split; [done|]. cbn. rewrite Hu. split; [done|]. by rewrite <- (assoc_L app).
Qed.

Lemma research_step_Ok wf order st st' P :
  drafted wf P -> research_step new_id wf order st = Ok st' ->
  exists researched, Forall2 (fun a ops => Forall2 (voiced (cs_snapshot st) P a) (targets wf) ops) order researched
    /\ fixed st' = fixed st /\ cs_forecasts st' = cs_forecasts st
    /\ cs_opinions st' = (cs_opinions st ++ concat researched)%list.
Proof.
  unfold research_step. intros HP Hk. apply bind_Ok in Hk as (us & Hus & Hk). injection Hk as <-.
  apply mapM_result_Ok in Hus. exists (up_opinions <$> us).
  assert (Forall (fun u => up_forecasts u = None) us) as Hnone.
  { clear -Hus HP. induction Hus as [|a u l us Hu _ IH]; constructor; [|done].
    by apply (research_node_Ok _ _ _ _ _ HP) in Hu as [_ ?]. }
  destruct (merge_updates us st Hnone) as (Hf & Hc & Ho). split; [|split; [done|split; [done|]]].
  - clear -Hus HP. induction Hus as [|a u l us Hu _ IH]; constructor; [|done].
    by apply (research_node_Ok _ _ _ _ _ HP) in Hu as [? _].
  - rewrite Ho. f_equal. clear. induction us as [|u us IH]; [done|]. cbn. by f_equal.
Qed.

(** What a finished graph went through: the state its officer decided on, the
    state its validator accepted, and the additions of every node. *)
Definition finished (wf : Workflow) (P : Probs -> Prop) (order : list string)
    (st st' : CommitteeState) : Prop :=
  exists researched strategized criticized stV stC u,
    Forall2 (fun a ops => Forall2 (voiced (cs_snapshot st) P a) (targets wf) ops) order researched
    /\ Forall2 (voiced (cs_snapshot st) P STRATEGY_AGENT_ID) (targets wf) strategized
    /\ Forall2 (voiced (cs_snapshot st) P RISK_CRITIC_AGENT_ID) (targets wf) criticized
    /\ cs_opinions stC = (cs_opinions st ++ concat researched ++ strategized ++ criticized)%list
    /\ cs_opinions stV = cs_opinions stC
    /\ fixed stV = fixed st /\ fixed stC = fixed st
    /\ (forall o, o ∈ cs_opinions stV -> exists bound, validate_opinion wf stV o = Ok bound)
    /\ cio_node wf stC = Ok u /\ st' = apply_update stC u.

Lemma run_graph_Ok wf P order st st' :
  drafted wf P -> run_graph wf order st = Ok st' -> finished wf P order st st'.
Proof.
  unfold Committee.run_graph. intros HP Hk.
  apply bind_Ok in Hk as (st1 & K1 & Hk). apply bind_Ok in Hk as (st2 & K2 & Hk).
  apply bind_Ok in Hk as (st3 & K3 & Hk). apply bind_Ok in Hk as (st4 & K4 & Hk).
  apply bind_Ok in Hk as (st5 & K5 & Hk).
  apply run_node_Ok in K1 as (u1 & Hu1 & E1), K3 as (u3 & Hu3 & E3), K4 as (u4 & Hu4 & E4),
    K5 as (u5 & Hu5 & E5), Hk as (u6 & Hu6 & E6).
  apply freeze_snapshot_Ok in Hu1 as [Hn1 _].
  apply (research_step_Ok _ _ _ _ _ HP) in K2 as (researched & Hr & Hf2 & _ & Ho2).
  apply (strategy_node_Ok _ _ _ _ HP) in Hu3 as [Hs _]. apply (critic_node_Ok _ _ _ _ HP) in Hu4 as [Hc _].
  apply validate_evidence_Ok in Hu5 as (Hn5 & _ & Hv).
  assert (cs_opinions st5 = cs_opinions st4) as E54 by (rewrite E5; cbn; by rewrite Hn5, app_nil_r).
  assert (fixed st4 = fixed st) as Hfix by (rewrite E4, E3; change (fixed st2 = fixed st); by rewrite Hf2, E1).
  assert (fixed st2 = fixed st) as Hfix2 by (rewrite Hf2, E1; done).
  assert (fixed st3 = fixed st) as Hfix3 by (rewrite E3; exact Hfix2).
  rewrite (fixed_snapshot _ _ Hfix2) in Hs. rewrite (fixed_snapshot _ _ Hfix3) in Hc.
  replace (cs_snapshot st1) with (cs_snapshot st) in Hr by (by rewrite E1).
  exists researched, (up_opinions u3), (up_opinions u4), st4, st5, u6.
  split_and!; try done.
  - rewrite E54, E4, E3. cbn. rewrite Ho2, E1. cbn. by rewrite Hn1, app_nil_r, <- !(assoc_L app).
  - by rewrite E5.
Qed.

(** *** Reading the final state *)

(** Opinions of other agents do not matter to [first_by]. *)
Lemma first_by_app s st st' a b ts more code h :
  cs_opinions st' = (cs_opinions st ++ more)%list -> Forall2 (answers s b) ts more -> a <> b ->
  first_by st' a code h = first_by st a code h.
Proof.
  intros Ho Hm Hab. unfold first_by, inputs_of. rewrite Ho, List.filter_app.
  assert (List.filter (is_input [a] code h) more = []) as ->; [|by rewrite app_nil_r].
  clear Ho. induction Hm as [|t o ts more Hto _ IH]; [done|]. cbn. rewrite IH.
  destruct Hto as (Ha & _). unfold is_input. rewrite Ha.
  rewrite (bool_decide_false (b ∈ [a])); [by rewrite andb_false_r|].
  intros ->%list_elem_of_singleton. done.
Qed.

Lemma decided_fixed st st' t f :
  fixed st' = fixed st ->
  first_by st' STRATEGY_AGENT_ID (idx_code t.1) t.2 = first_by st STRATEGY_AGENT_ID (idx_code t.1) t.2 ->
  decided st t f -> decided st' t f.
Proof.
  unfold fixed. rewrite !pair_equal_spec. intros ((((Er & Ea) & Ec) & Es) & _) Ef [].
  split; rewrite ?Er, ?Ea, ?Ec, ?Es, ?Ef; done.
Qed.

(** The keys of a batch of opinions. *)
Definition key_of (o : AgentOpinion) : string * (string * Horizon) :=
  (op_agent_id o, (op_index_code o, op_horizon o)).

Definition keys_for (wf : Workflow) (a : string) : list (string * (string * Horizon)) :=
  (fun t => (a, (idx_code t.1, t.2))) <$> targets wf.

Lemma answers_keys s wf a ops :
  Forall2 (answers s a) (targets wf) ops -> key_of <$> ops = keys_for wf a.
Proof.
  unfold keys_for. induction 1 as [|t o ts ops (Ha & Hc & Hh & _) _ IH]; [done|].
  rewrite !fmap_cons, IH. unfold key_of. by rewrite Ha, Hc, Hh.
Qed.

Lemma finished_forecasts wf P order st st' :
  finished wf P order st st' ->
  Forall2 (decided st') (targets wf) (cs_forecasts st') /\ fixed st' = fixed st.
Proof.
  intros (rs & ss & cs & stV & stC & u & _ & _ & _ & _ & _ & _ & Hfix & _ & Hcio & ->).
  apply cio_node_Ok in Hcio as (fs & Hfs & Hd & Ha & _). split; [|done].
  cbn. rewrite Hfs. cbn. eapply Forall2_impl; [exact Hd|]. intros t f Htf.
  eapply decided_fixed; [..|exact Htf]; [done|]. by eapply first_by_app.
Qed.

Lemma answers_consistent s a ts ops :
  Forall2 (answers s a) ts ops -> Forall (consistent s) ops.
Proof.
  induction 1 as [|t o ts ops (_ & _ & _ & ? & ?) _ IH]; constructor; [|done].
  split; [done|by eexists].
Qed.

Lemma voiced_answers s P a ts ops :
  Forall2 (voiced s P a) ts ops -> Forall2 (answers s a) ts ops /\ Forall (fun o => P (op_probabilities o)) ops.
Proof. induction 1 as [|t o ts ops [? ?] _ [? ?]]; split; by constructor. Qed.

(** The opinions before the decision: by key, coherent, and with [P]. *)
Lemma pooled_opinions s wf P order researched strategized criticized :
  Forall2 (fun a ops => Forall2 (voiced s P a) (targets wf) ops) order researched ->
  Forall2 (voiced s P STRATEGY_AGENT_ID) (targets wf) strategized ->
  Forall2 (voiced s P RISK_CRITIC_AGENT_ID) (targets wf) criticized ->
  let pooled := (concat researched ++ strategized ++ criticized)%list in
  key_of <$> pooled
  = (a ← (order ++ [STRATEGY_AGENT_ID; RISK_CRITIC_AGENT_ID])%list; keys_for wf a)
  /\ Forall (consistent s) pooled /\ Forall (fun o => P (op_probabilities o)) pooled.
Proof.
  intros Hr [Hs HsP]%voiced_answers [Hc HcP]%voiced_answers pooled. unfold pooled.
  induction Hr as [|a ops l rs Ha _ IH]; cbn.
  - rewrite fmap_app, (answers_keys _ _ _ _ Hs), (answers_keys _ _ _ _ Hc), app_nil_r.
    rewrite !Forall_app. eauto 7 using answers_consistent.
  - apply voiced_answers in Ha as [Ha HaP]. destruct IH as (IH1 & IH2 & IH3).
    rewrite <- (assoc_L app), fmap_app, IH1, (answers_keys _ _ _ _ Ha), !Forall_app.
    rewrite !Forall_app in IH2, IH3. eauto 8 using answers_consistent.
Qed.

Lemma finished_opinions wf P order st st' :
  finished wf P order st st' -> cs_opinions st = [] ->
  key_of <$> cs_opinions st'
  = (a ← (order ++ [STRATEGY_AGENT_ID; RISK_CRITIC_AGENT_ID; CIO_AGENT_ID])%list; keys_for wf a)
  /\ Forall (consistent (cs_snapshot st)) (cs_opinions st')
  /\ forall code h o, first_by st' STRATEGY_AGENT_ID code h = Some o ->
       coherent o /\ P (op_probabilities o).
Proof.
  intros (rs & ss & cs & stV & stC & u & Hr & Hs & Hc & Ho & _ & _ & Hfix & _ & Hcio & ->) Hnil.
  destruct (pooled_opinions _ _ _ _ _ _ _ Hr Hs Hc) as (Hk & Hcoh & HP).
  apply cio_node_Ok in Hcio as (fs & _ & _ & Ha & _). rewrite (fixed_snapshot _ _ Hfix) in Ha.
  rewrite Hnil in Ho. cbn in Ho.
  cbn. rewrite <- Ho in Hk, Hcoh, HP. split_and!.
  - rewrite fmap_app, Hk, (answers_keys _ _ _ _ Ha), !bind_app. cbn. by rewrite <- !(assoc_L app), app_nil_r.
  - apply Forall_app. eauto using answers_consistent.
  - intros code h o. erewrite first_by_app; [|done|exact Ha|done].
    unfold first_by. intros Hin%head_Some_elem_of.
    apply list_elem_of_In, List.filter_In in Hin as [Hin%list_elem_of_In _].
    rewrite Forall_forall in Hcoh, HP. split; [by apply Hcoh|auto].
Qed.

(** ** Properties *)

(** C24 A finished committee is complete and consistent: from an empty state every
    agent has exactly one opinion on every instrument and horizon, in the order
    of the graph, each with the direction of its own probabilities; and there is
    exactly one forecast for every instrument and horizon, never abstaining,
    whose direction, confidence and threshold are the domain's functions of its
    probabilities and of the frozen volatility. *)
Theorem committee_complete wf order st st' :
  cs_opinions st = [] -> run_graph wf order st = Ok st' ->
  key_of <$> cs_opinions st'
  = (a ← (order ++ [STRATEGY_AGENT_ID; RISK_CRITIC_AGENT_ID; CIO_AGENT_ID])%list; keys_for wf a)
  /\ Forall (consistent (cs_snapshot st)) (cs_opinions st')
  /\ Forall2 (decided st') (targets wf) (cs_forecasts st') /\ fixed st' = fixed st.
Proof.
  intros Hnil Hk. apply (run_graph_Ok _ _ _ _ _ (drafted_any wf)) in Hk as Hf.
  destruct (finished_opinions _ _ _ _ _ Hf Hnil) as (? & ? & _).
  destruct (finished_forecasts _ _ _ _ _ Hf). done.
Qed.

(** *** The haircut *)

(** Up and down are doubles a machine can hold. *)
Definition machine_probabilities (p : Probs) : Prop :=
  canonical (p_up p) = true /\ canonical (p_down p) = true.

Lemma validate_probabilities_as_dict p v :
  validate_probabilities (as_dict p) = Ok v -> v = p.
Proof. intros (-> & _)%validate_probabilities_Ok. by destruct p. Qed.

(** The factor [1 - DIRECTIONAL_MASS_HAIRCUT] is a normal double. *)
Lemma haircut_factor :
  exists m e, fsub f1 DIRECTIONAL_MASS_HAIRCUT = SpecFloat.S754_finite false m e
              /\ Z.pos (SpecFloat.digits2_pos m) = 53.
Proof. eexists _, _. split; by vm_compute. Qed.

Lemma haircut_mono x y :
  canonical x = true -> canonical y = true -> nonneg x = true -> nonneg y = true ->
  fleb x y = true ->
  fleb (fmul (fsub f1 DIRECTIONAL_MASS_HAIRCUT) x) (fmul (fsub f1 DIRECTIONAL_MASS_HAIRCUT) y) = true.
Proof. intros. destruct haircut_factor as (m & e & -> & Hm). by apply fmul_mono. Qed.

(** The predicted direction compares up and down. *)
Lemma predicted_direction_as_dict p d :
  predicted_direction (as_dict p) = Ok d ->
  d = (if fltb (p_down p) (p_up p) then UP else DOWN) /\ feqb (p_up p) (p_down p) = false
  /\ nonneg (p_up p) = true /\ nonneg (p_down p) = true.
Proof.
  unfold predicted_direction. intros Hk. inv_ok Hk. injection Hk as <-.
  match goal with Hv : validate_probabilities _ = Ok _ |- _ => pose proof Hv as Hr;
    apply validate_probabilities_as_dict in Hv as -> end.
  apply validate_probabilities_Ok in Hr as (_ & Hr & _).
  assert (forall x, (is_finite x = true /\ fltb x f0 = false /\ fltb f1 x = false) -> nonneg x = true) as Hn
    by (intros [[]|[]| |[] ??] (? & ? & ?); done).
  split; [done|]. split; [|split; [apply Hn, (Hr UP)|apply Hn, (Hr DOWN)]].
  destruct (feqb (p_up p) (p_down p)) eqn:E; [|done].
  match goal with Hc : isclose _ _ _ _ = false |- _ => unfold isclose in Hc; by rewrite E in Hc end.
Qed.

Lemma haircut_direction p q d d' :
  machine_probabilities p ->
  predicted_direction (as_dict p) = Ok d ->
  apply_symmetric_haircut p DIRECTIONAL_MASS_HAIRCUT = Ok q ->
  predicted_direction (as_dict q) = Ok d' -> d' = d.
Proof.
  intros [Cu Cd] (-> & _ & Nu & Nd)%predicted_direction_as_dict.
  unfold apply_symmetric_haircut. intros [_ Hq]%raise_when_bind_Ok.
  apply validate_probabilities_model_Ok in Hq as (-> & _).
  intros (-> & Htie & Nu' & Nd')%predicted_direction_as_dict. cbn [p_up p_down] in *.
  assert (forall x, nonneg x = true -> is_nan x = false) as Hnan by (by intros []).
  destruct (fltb (p_down p) (p_up p)) eqn:E.
  - assert (fleb (p_down p) (p_up p) = true) as Hle by (by rewrite fleb_spec, E).
    apply haircut_mono in Hle; [|done..]. rewrite fleb_spec, (feqb_sym _ (fmul _ (p_up p))), Htie, orb_false_r in Hle.
    by rewrite Hle.
  - rewrite fltb_false_fleb in E by auto. apply negb_false_iff in E.
    apply haircut_mono in E; [|done..]. by rewrite fltb_false_fleb, E by auto.
Qed.

(** C23 The officer never changes sides: the direction of every forecast of a
    finished committee is the direction of the strategist's opinion it is made
    from.  The haircut scales the two directional masses by one factor, and the
    rounding of the two products cannot exchange them; a pair that rounds into a
    tie is refused, not decided. *)
Theorem cio_keeps_direction wf order st st' :
  drafted wf machine_probabilities -> cs_opinions st = [] -> run_graph wf order st = Ok st' ->
  Forall2 (fun t f => exists o, first_by st' STRATEGY_AGENT_ID (idx_code t.1) t.2 = Some o
                     /\ op_direction o = fo_direction f)
    (targets wf) (cs_forecasts st').
Proof.
  intros HP Hnil Hf%(run_graph_Ok _ _ _ _ _ HP).
  destruct (finished_opinions _ _ _ _ _ Hf Hnil) as (_ & _ & Ho).
  destruct (finished_forecasts _ _ _ _ _ Hf) as [Hd _].
  eapply Forall2_impl; [exact Hd|]. intros t f []. destruct de_strategy0 as (o & Hfirst & Hcut).
  exists o. split; [done|]. destruct (Ho _ _ _ Hfirst) as [[_ Hcoh] Hm]. symmetry.
  by eapply haircut_direction.
Qed.

(** *** The critic *)

Definition with_opinions (st : CommitteeState) (ops : list AgentOpinion) : CommitteeState :=
  mkState (cs_run_id st) (cs_as_of st) (cs_data_cutoff st) (cs_input_hash st) ops (cs_forecasts st)
    (cs_workflow_steps st) (cs_data_quality st) (cs_snapshot st) (cs_wiki st)
    (cs_believability_policy_version st) (cs_believability_snapshot_hash st)
    (cs_believability_binding_hash st) (cs_external_inputs st).

(** The same opinion, or two opinions of the critic on one target with the same
    counter-evidence and invalidation conditions. *)
Definition same_challenge (o o' : AgentOpinion) : Prop :=
  (op_agent_id o <> RISK_CRITIC_AGENT_ID /\ o' = o)
  \/ (op_agent_id o = RISK_CRITIC_AGENT_ID /\ op_agent_id o' = RISK_CRITIC_AGENT_ID
      /\ op_index_code o' = op_index_code o /\ op_horizon o' = op_horizon o
      /\ op_counter_evidence o' = op_counter_evidence o
      /\ op_invalidation_conditions o' = op_invalidation_conditions o).

Lemma same_challenge_input agents code h o o' :
  same_challenge o o' -> is_input agents code h o' = is_input agents code h o.
Proof. intros [[_ ->]|(Ha & Ha' & Hc & Hh & _)]; [done|]. unfold is_input. by rewrite Ha, Ha', Hc, Hh. Qed.

Lemma same_challenge_filter agents code h ops ops' :
  Forall2 same_challenge ops ops' ->
  Forall2 same_challenge (List.filter (is_input agents code h) ops)
    (List.filter (is_input agents code h) ops').
Proof.
  induction 1 as [|o o' ops ops' Ho _ IH]; cbn; [constructor|].
  rewrite (same_challenge_input _ _ _ _ _ Ho). case_match; [by constructor|done].
Qed.

Lemma same_inputs st ops' agents code h :
  Forall2 same_challenge (cs_opinions st) ops' -> RISK_CRITIC_AGENT_ID ∉ agents ->
  inputs_of (with_opinions st ops') agents code h = inputs_of st agents code h.
Proof.
  intros Hall Hn. unfold inputs_of. cbn.
  apply (same_challenge_filter agents code h) in Hall.
  assert (Forall (fun o => op_agent_id o ∈ agents)
            (List.filter (is_input agents code h) (cs_opinions st))) as Hin.
  { apply Forall_forall. intros o [_ Ho]%list_elem_of_In%List.filter_In. unfold is_input in Ho. by bool_prop. }
  revert Hin. induction Hall as [|o o' l l' Ho _ IH]; [done|]. intros [Ha Hl]%Forall_cons.
  rewrite IH by done. destruct Ho as [[_ ->]|(Hc & _)]; [done|]. by rewrite Hc in Ha.
Qed.

Lemma same_critic st ops' code h :
  Forall2 same_challenge (cs_opinions st) ops' ->
  match first_by st RISK_CRITIC_AGENT_ID code h, first_by (with_opinions st ops') RISK_CRITIC_AGENT_ID code h with
  | Some o, Some o' => op_counter_evidence o' = op_counter_evidence o
                       /\ op_invalidation_conditions o' = op_invalidation_conditions o
  | None, None => True
  | _, _ => False
  end.
Proof.
  intros Hall. unfold first_by, inputs_of. cbn.
  apply (same_challenge_filter [RISK_CRITIC_AGENT_ID] code h) in Hall.
  destruct Hall as [|o o' l l' Ho _]; [done|]. cbn. by destruct Ho as [[_ ->]|(_ & _ & _ & _ & -> & ->)].
Qed.

Lemma mapM_result_ext {A B} (f g : A -> result B) l :
  (forall x, f x = g x) -> mapM_result f l = mapM_result g l.
Proof. intros Hfg. induction l as [|x l IH]; [done|]. cbn. by rewrite Hfg, IH. Qed.

(** C26 The critic has no vote: replacing the direction, the probabilities, the
    summary, the evidence and the citations of any of its opinions changes
    nothing of the decision, its errors included.  Only its counter-evidence and
    its invalidation conditions are passed on. *)
Theorem critic_has_no_vote wf st ops' :
  Forall2 same_challenge (cs_opinions st) ops' ->
  cio_node wf (with_opinions st ops') = cio_node wf st.
Proof.
  intros Hall. unfold Committee.cio_node. destruct (agent_by_id CIO_AGENT_ID) as [cio|]; [|done].
  cbn [mbind result_bind]. rewrite (mapM_result_ext _ (cio_decision sha256 new_id now wf st cio)); [done|].
  intros [index h]. unfold cio_decision, decision_inputs. cbn zeta.
  pose proof (same_inputs st ops' EFFECTIVE_RESEARCH_AGENT_IDS (idx_code index) h Hall) as ->; [|by apply (bool_decide_unpack _)].
  pose proof (same_critic st ops' (idx_code index) h Hall) as Hcritic.
  assert (first_by (with_opinions st ops') STRATEGY_AGENT_ID (idx_code index) h
          = first_by st STRATEGY_AGENT_ID (idx_code index) h) as ->
    by (unfold first_by; rewrite same_inputs; [done|done|by apply (bool_decide_unpack _)]).
  destruct (negb _); [done|]. cbn [raise_when mbind result_bind].
  destruct (first_by st STRATEGY_AGENT_ID _ _) as [strategy|]; [|done].
  destruct (first_by st RISK_CRITIC_AGENT_ID _ _) as [risk|], (first_by (with_opinions st ops') _ _ _) as [risk'|];
    [|done..]. destruct Hcritic as [Hc Hi].
  cbn [mbind result_bind]. rewrite !bind_app. cbn [mbind list_bind]. by rewrite Hc, Hi.
Qed.

(** *** The citations *)

(** A citation that repeats the frozen Wiki and, when it names evidence, the
    frozen item, published by the cutoff. *)
Definition sound_citation (st : CommitteeState) (c : Citation) : Prop :=
  citation_is_valid (cs_wiki st) c = true
  /\ match wc_evidence_item_id c with
     | Some id => exists item, evidence_by_id (cs_snapshot st) id = Some item
                    /\ citation_matches_evidence c item = true
     | None => wc_source_url c = None /\ wc_evidence_content_hash c = None
               /\ wc_event_time c = None /\ wc_published_at c = None /\ wc_ingested_at c = None
     end
  /\ forall p, wc_published_at c = Some p -> instant p <= instant (cs_data_cutoff st).

Lemma validate_citation_Ok st c b :
  validate_citation st c = Ok b -> b = wc_evidence_item_id c /\ sound_citation st c.
Proof.
  unfold validate_citation. intros Hk. apply raise_when_bind_Ok in Hk as [Hw Hk].
  apply bind_Ok in Hk as ([] & Hb & Hk). apply raise_when_bind_Ok in Hk as [Hp Hk].
  injection Hk as <-. split; [done|]. apply negb_false_iff in Hw. split; [done|]. split.
  - destruct (wc_evidence_item_id c) as [id|]; apply raise_when_Ok in Hb; [|by bool_prop].
    destruct (evidence_by_id _ _) as [item|]; [|done]. bool_prop. by exists item.
  - intros p Ep. rewrite Ep in Hp. unfold dt_ltb in Hp. bool_prop. lia.
Qed.

(** The evidence an opinion's citations bind. *)
Definition bound_ids (o : AgentOpinion) : gset string :=
  list_to_set (omap wc_evidence_item_id (op_citations o)).

Definition sound_opinion (wf : Workflow) (st : CommitteeState) (o : AgentOpinion) : Prop :=
  op_citations o <> [] /\ Forall (sound_citation st) (op_citations o)
  /\ (wf_use_demo_provider wf = false -> op_agent_id o ∈ DYNAMIC_EVIDENCE_AGENT_IDS ->
      bound_ids o <> ∅ /\ bound_ids o = list_to_set (op_evidence_item_ids o)).

Lemma validate_opinion_Ok wf st o bound :
  validate_opinion wf st o = Ok bound -> sound_opinion wf st o.
Proof.
  unfold validate_opinion. intros [He Hk]%raise_when_bind_Ok. apply bind_Ok in Hk as (b & Hb & Hk).
  apply raise_when_bind_Ok in Hk as [Hd _]. apply mapM_result_Ok in Hb.
  assert (omap id b = omap wc_evidence_item_id (op_citations o)
          /\ Forall (sound_citation st) (op_citations o)) as [Eb Hs].
  { clear He Hd. induction Hb as [|c i cs bs Hc _ [IH1 IH2]]; [done|].
    apply validate_citation_Ok in Hc as [-> Hc]. split; [|by constructor]. cbn. by rewrite IH1. }
  split; [by destruct (op_citations o)|]. split; [done|]. intros Hlive Hin.
  unfold bound_ids. rewrite <- Eb. rewrite Hlive, bool_decide_true in Hd by done. cbn in Hd. bool_prop. done.
Qed.

Lemma add_citation_elem c d unique : c ∈ add_citation unique d -> c ∈ unique \/ c = d.
Proof.
  induction unique as [|c' unique IH]; cbn; [intros ->%list_elem_of_singleton; by right|].
  case_bool_decide; intros [->|Hin]%elem_of_cons; rewrite ?elem_of_cons; tauto.
Qed.

(** Deduplication invents no citation. *)
Lemma deduplicate_citations_elem c l : c ∈ deduplicate_citations l -> c ∈ l.
Proof.
  unfold deduplicate_citations. enough (forall u, c ∈ fold_left add_citation l u -> c ∈ u \/ c ∈ l) as Hall.
  { intros [Hn|?]%Hall; [by apply not_elem_of_nil in Hn|done]. }
  induction l as [|d l IH]; cbn; [by left|]. intros u [Hin|Hin]%IH; [|rewrite elem_of_cons; tauto].
  apply add_citation_elem in Hin. rewrite elem_of_cons. tauto.
Qed.


(** The officer's citations are those of the pooled opinions. *)
Definition pooled_citations (st : CommitteeState) (l : list Citation) : Prop :=
  forall c, c ∈ l -> exists o, o ∈ cs_opinions st /\ c ∈ op_citations o.

Lemma inputs_of_elem st agents code h o : o ∈ inputs_of st agents code h -> o ∈ cs_opinions st.
Proof. intros [Ho _]%list_elem_of_In%List.filter_In. by apply list_elem_of_In. Qed.

Lemma cio_decision_citations wf st cio t f o :
  cio_decision sha256 new_id now wf st cio t = Ok (f, o) ->
  pooled_citations st (fo_citations f) /\ op_citations o = fo_citations f.
Proof.
  destruct t as [index h]. unfold cio_decision. intros Hk.
  apply bind_Ok in Hk as ([[research strategy] risk] & Hin & Hk).
  apply decision_inputs_Ok in Hin as (-> & Hs & _).
  inv_ok Hk. injection Hk as <- <-. split; [|done].
  intros c Hc%deduplicate_citations_elem. apply list_elem_of_bind in Hc as (o & Hc & Ho).
  exists o. split; [|done]. apply elem_of_app in Ho as [Ho| ->%list_elem_of_singleton].
  - by eapply inputs_of_elem.
  - eapply inputs_of_elem, head_Some_elem_of, Hs.
Qed.

Lemma cio_node_citations wf st u :
  cio_node wf st = Ok u ->
  (forall f, f ∈ default [] (up_forecasts u) -> pooled_citations st (fo_citations f))
  /\ forall o, o ∈ up_opinions u -> pooled_citations st (op_citations o).
Proof.
  unfold Committee.cio_node. intros Hk. apply bind_Ok in Hk as (cio & _ & Hk).
  apply bind_Ok in Hk as (ds & Hds & Hk). injection Hk as <-. cbn. apply mapM_result_Ok in Hds.
  split; intros x ([f o] & -> & Hin)%list_elem_of_fmap; cbn;
    apply (Forall2_elem_r _ _ _ _ Hds) in Hin as (t & _ & Ht);
    apply cio_decision_citations in Ht as [Hc Ho]; by rewrite ?Ho.
Qed.

Lemma sound_citation_fixed st st' c :
  fixed st' = fixed st -> sound_citation st c -> sound_citation st' c.
Proof.
  unfold fixed, sound_citation. rewrite !pair_equal_spec. by intros ((((_ & _) & ->) & ->) & ->).
Qed.

(** C25 Everything a finished committee says is cited to frozen content: every
    opinion and every forecast carries only citations that repeat an entry of the
    frozen Wiki and, when they name evidence, an item of the frozen snapshot, by
    URL, hash, times and quote, published by the data cutoff; the opinions have at
    least one; and in a live run the research and the strategist bind exactly the
    evidence they declare. *)
Theorem committee_cites_frozen_evidence wf order st st' :
  cs_opinions st = [] -> run_graph wf order st = Ok st' ->
  (forall o, o ∈ cs_opinions st' ->
     Forall (sound_citation st') (op_citations o)
     /\ (op_agent_id o <> CIO_AGENT_ID -> sound_opinion wf st' o))
  /\ forall f, f ∈ cs_forecasts st' -> Forall (sound_citation st') (fo_citations f).
Proof.
  intros Hnil Hf%(run_graph_Ok _ _ _ _ _ (drafted_any wf)).
  destruct Hf as (rs & ss & cs & stV & stC & u & _ & _ & _ & _ & HoV & HfV & HfC & Hv & Hcio & ->).
  assert (forall o, o ∈ cs_opinions stC -> sound_opinion wf (apply_update stC u) o) as Hs.
  { intros o Ho. rewrite <- HoV in Ho. destruct (Hv o Ho) as (b & Hb%validate_opinion_Ok).
    destruct Hb as (? & Hc & ?). split_and!; [done| |done]. eapply Forall_impl; [exact Hc|].
    intros c. apply sound_citation_fixed. change (fixed stC = fixed stV). by rewrite HfV. }
  assert (forall l, pooled_citations stC l -> Forall (sound_citation (apply_update stC u)) l) as Hp.
  { intros l Hl. apply Forall_forall. intros c (o & Ho & Hc)%Hl.
    destruct (Hs o Ho) as (_ & Hall & _). rewrite Forall_forall in Hall. by apply Hall. }
  pose proof (cio_node_citations _ _ _ Hcio) as [Hcf Hco].
  apply cio_node_Ok in Hcio as (fs & Hfs & _ & Ha & _). split.
  - intros o [Ho|Ho]%elem_of_app.
    + split; [by apply Hs|]. intros _. by apply Hs.
    + split; [by apply Hp, Hco|]. intros Hne.
      apply (Forall2_elem_r _ _ _ _ Ha) in Ho as (t & _ & Ho & _). done.
  - intros f Hin. cbn in Hin. rewrite Hfs in Hin, Hcf. by apply Hp, Hcf.
Qed.

(** *** Persisting *)

Definition representable_date (d : date) : Prop := 1 <= d <= max_ordinal.

(** The dates of a run are dates Python has. *)
Definition representable_run (st : CommitteeState) : Prop :=
  representable (cs_as_of st) /\ representable (cs_data_cutoff st) /\ representable now
  /\ representable_date (fs_base_session (cs_snapshot st))
  /\ Forall representable_date (fs_target_sessions (cs_snapshot st)).

Lemma target_date_representable s h d :
  Forall representable_date (fs_target_sessions s) -> _target_date s h = Ok d -> representable_date d.
Proof.
  unfold _target_date. destruct (fs_target_sessions s) as [|d1 [|d2 [|]]]; try done.
  rewrite !Forall_cons. intros (H1' & H2' & _) [= <-]. by destruct h.
Qed.


(** A float is within any positive distance of itself. *)
Lemma fsub_self x : fltb (lit 1 1000000000) (fabs (fsub x x)) = false.
Proof.
  destruct x as [[]|[]| |s m e]; [by vm_compute..|].
  unfold fsub. cbn [SpecFloat.SFsub]. by rewrite Z.sub_diag.
Qed.

Definition readable (s : string) : Prop := Models.isSome (fromisoformat s) = true.

Lemma readable_date d : representable_date d -> readable (iso_date d).
Proof. intros Hd. unfold readable. by rewrite fromisoformat_iso_date. Qed.

Lemma readable_instant d : representable d -> readable (isoformat d).
Proof. intros Hd. unfold readable. by rewrite fromisoformat_isoformat. Qed.

Lemma check_dates_Ok d :
  Forall readable (Models.ds_dates d ++ Models.ds_instants d) -> Execution.check_dates d = Ok tt.
Proof.
  unfold Execution.check_dates. intros Hall. apply raise_when_Ok, not_true_iff_false.
  intros (s & Hin%list_elem_of_In & Hs)%existsb_exists. rewrite Forall_forall in Hall.
  unfold readable in Hall. by rewrite (Hall s Hin) in Hs.
Qed.

Lemma model_probabilities_as_dict p q :
  validate_probabilities_model p = Ok q -> Execution.model_probabilities (as_dict p) = Ok q.
Proof. by destruct p. Qed.

Lemma persist_opinion_Ok s o :
  Forall representable_date (fs_target_sessions s) -> consistent s o ->
  Execution.persist_opinion (opinion_draft o) = Ok tt.
Proof.
  intros Hs [[Hv Hc] (h & Hd)]. unfold Execution.persist_opinion. rewrite check_dates_Ok.
  - change (Models.ds_probabilities _) with (as_dict (op_probabilities o)).
    rewrite (model_probabilities_as_dict _ _ Hv). cbn [mbind result_bind].
    rewrite Hc. cbn [mbind result_bind]. by rewrite String.eqb_refl.
  - repeat constructor. by eapply readable_date, target_date_representable.
Qed.

Lemma persist_forecast_Ok st t f :
  representable_run st -> decided st t f ->
  Execution.persist_forecast (forecast_draft f) = Ok tt.
Proof.
  intros (Ra & Rc & Rn & Rb & Rt) []. unfold Execution.persist_forecast. rewrite check_dates_Ok.
  - change (Models.ds_probabilities _) with (as_dict (fo_probabilities f)).
    rewrite (model_probabilities_as_dict _ _ de_valid0). cbn [mbind result_bind].
    rewrite de_direction0. cbn [mbind result_bind]. rewrite String.eqb_refl.
    cbn [negb raise_when mbind result_bind]. rewrite de_confidence0. cbn [mbind result_bind].
    change (Models.ds_confidence _) with (fo_confidence f). rewrite fsub_self.
    change (Models.ds_abstain _) with (fo_abstain f). by rewrite de_abstain0.
  - unfold forecast_draft. cbn [Models.ds_dates Models.ds_instants app].
    rewrite de_base0, de_as_of0, de_cutoff0, de_created0.
    repeat constructor; [by apply readable_date| |by apply readable_instant..].
    by eapply readable_date, target_date_representable.
Qed.

(** C27 The graph meets the executor's contract: the final state of a graph that
    started without opinions is persisted, whatever the language models said.
    Every opinion and forecast passes the checks of [_persist_result], which
    recomputes directions and confidences and parses the timestamps back. *)
Theorem committee_persists wf order st st' :
  representable_run st -> cs_opinions st = [] -> run_graph wf order st = Ok st' ->
  Execution.persist_result (result_of st') = Ok tt.
Proof.
  intros Hrep Hnil Hf%(run_graph_Ok _ _ _ _ _ (drafted_any wf)).
  destruct (finished_opinions _ _ _ _ _ Hf Hnil) as (_ & Ho & _).
  destruct (finished_forecasts _ _ _ _ _ Hf) as [Hd Hfix].
  assert (representable_run st') as Hrep'.
  { revert Hrep. unfold representable_run. revert Hfix. unfold fixed. rewrite !pair_equal_spec.
    by intros ((((_ & ->) & ->) & ->) & _). }
  assert (exists k, mapM_result Execution.persist_opinion (opinion_draft <$> cs_opinions st') = Ok k) as (k & Hk).
  { apply mapM_result_exists, Forall_forall, Forall_fmap. eapply Forall_impl; [exact Ho|]. intros o Hc. exists tt.
    eapply persist_opinion_Ok; [|exact Hc]. apply Hrep. }
  assert (exists k, mapM_result Execution.persist_forecast (forecast_draft <$> cs_forecasts st') = Ok k) as (k' & Hk').
  { apply mapM_result_exists, Forall_forall, Forall_fmap, Forall_forall. intros f Hin.
    destruct (Forall2_elem_r _ _ _ _ Hd Hin) as (t & _ & Ht). exists tt. by eapply persist_forecast_Ok. }
  unfold Execution.persist_result, result_of. cbn. by rewrite Hk, Hk'.
Qed.

End Nodes.

(** ** Concrete inputs *)

Module Witnesses.

#[local] Instance python : PyRuntime := {| runtime := Py312 |}.
#[local] Instance ascii_only : Uppercase := {| py_upper := fun s => s |}.
#[local] Instance terse : FloatFormat :=
  {| percent0 := fun _ => "15%"; percent1 := fun _ => "67%"; signed3 := fun _ => "+0.25" |}.

Definition digest : string := String.string_of_list_ascii (repeat "a"%char 64).
Definition monday : date := 700001.
Definition hour (h : Z) : datetime := DateTime (monday * us_per_day + h * us_per_hour) (Some 0).
Definition source : string := "https://query.sse.com.cn/data".

Definition index1 : IndexDefinition := index "000300.SH" "CSI300".
Definition index2 : IndexDefinition := index "000905.SH" "CSI500".

Definition item : EvidenceItem :=
  Evidence "e1" "t" "s" "q" source (hour 1) (hour 2) (hour 5) [] "news" digest.

Definition snapshot : FrozenEvidenceSnapshot :=
  Frozen (hour 8) (hour 7) (hour 9) monday
    (Calendar [monday; monday + 1; monday + 2] source digest (hour 1) (hour 2))
    [("000300.SH", lit 1 100); ("000905.SH", lit 2 100)] [] [monday + 1; monday + 2] [item] digest.

Definition wiki : FrozenWikiCatalog :=
  [WikiEntry "VC-WIKI-MARKET-STRATEGY" "Strategy" "1" (Some (hour 0)) "active" [] [source]
     [Section_ "s1" "Section" "excerpt"] digest].

Definition bullish (evidence : list string) : AgentDraft :=
  mkDraft UP (mkProbs (lit 1 2) (lit 1 4) (lit 1 4)) "summary" ["argument"] ["doubt"] ["stop"]
    evidence "VC-WIKI-MARKET-STRATEGY" "s1".

Definition provider : ResearchProvider :=
  mkProvider "fixed" None (fun _ _ _ _ _ _ => Ok (bullish ["e1"]))
    (fun _ _ _ _ _ _ _ _ => Ok (bullish ["e1"])) (fun _ _ _ _ _ => Ok (bullish [])).

Definition workflow : Workflow :=
  mkWorkflow provider false "model" [index1; index2] [D1; D2] "1.0" ∅.

Definition start : CommitteeState :=
  mkState "run-1" (hour 8) (hour 7) digest [] [] [] ∅ snapshot wiki "" "" "" [].

Definition name_of (a code : string) (h : Horizon) : string := a +:+ code +:+ horizon_value h.
Definition running : result CommitteeState :=
  run_graph (fun s => s) name_of (hour 9) workflow RESEARCH_AGENT_IDS start.
Definition final : CommitteeState := match running with Ok st => st | Err _ => start end.

Lemma runs :
  run_graph (fun s => s) name_of (hour 9) workflow RESEARCH_AGENT_IDS start = Ok final.
Proof. fold running. unfold final. enough (is_ok running = true) by (by destruct running). by_vm. Qed.

Lemma committee_complete_witness :
  Forall2 (decided (hour 9) final) (targets workflow) (cs_forecasts final)
  /\ Forall (consistent snapshot) (cs_opinions final).
Proof.
  destruct (committee_complete (fun s => s) name_of (hour 9) workflow RESEARCH_AGENT_IDS start final eq_refl runs)
    as (_ & Hc & Hd & _).
  exact (conj Hd Hc).
Defined.

Lemma cio_keeps_direction_witness :
  Forall2 (fun t f => exists o, first_by final STRATEGY_AGENT_ID (idx_code t.1) t.2 = Some o
                     /\ op_direction o = fo_direction f)
    (targets workflow) (cs_forecasts final).
Proof.
  refine (cio_keeps_direction (fun s => s) name_of (hour 9) workflow RESEARCH_AGENT_IDS start final _ eq_refl runs).
  split; intros *; intros [= <-]; split; by_vm.
Defined.

(** The critic turns against the committee. *)
Definition dissent (o : AgentOpinion) : AgentOpinion :=
  if decide (op_agent_id o = RISK_CRITIC_AGENT_ID) then
    Opinion (op_id o) (op_run_id o) (op_agent_id o) (op_agent_name o) (op_role o)
      (op_agent_version o) (op_model_name o) (op_status o) (op_index_code o) (op_horizon o)
      (op_target_date o) DOWN (mkProbs f0 f0 f1) "sell" [] (op_counter_evidence o)
      (op_invalidation_conditions o) [] (op_contribution o) (op_weight o) [] (op_provider o) None
  else o.

Lemma critic_has_no_vote_witness :
  cio_node (fun s => s) name_of (hour 9) workflow (with_opinions final (dissent <$> cs_opinions final))
  = cio_node (fun s => s) name_of (hour 9) workflow final.
Proof.
  apply critic_has_no_vote. apply Forall2_fmap_r, Forall_Forall2_diag, Forall_true. intros o.
  change (same_challenge o (dissent o)). unfold dissent, same_challenge. case_decide; [right; split_and!; done|by left].
Defined.

Lemma committee_cites_frozen_evidence_witness :
  Forall (fun f => Forall (sound_citation final) (fo_citations f)) (cs_forecasts final).
Proof.
  apply Forall_forall.
  exact (proj2 (committee_cites_frozen_evidence (fun s => s) name_of (hour 9) workflow RESEARCH_AGENT_IDS
                  start final eq_refl runs)).
Defined.

Lemma committee_persists_witness : Execution.persist_result (result_of final) = Ok tt.
Proof.
  refine (committee_persists (fun s => s) name_of (hour 9) workflow RESEARCH_AGENT_IDS start final _ eq_refl runs).
  assert (forall h, 0 <= h < 24 -> representable (hour h)) as Hr.
  { intros h Hh. split; [|by cbn]. unfold date_of, hour, max_ordinal, monday. cbn [dt_wall].
    unfold us_per_day, us_per_hour, us_per_minute, us_per_second. Z.div_mod_to_equations. lia. }
  split_and!; [apply Hr; cbn; lia..|by vm_compute|]. repeat constructor; by vm_compute.
Defined.

End Witnesses.

End CommitteeProps.
