(* ===== verification/Judgment.v ===== *)
(** * User judgments ([backend/app/services/user_judgment.py],
      [backend/app/services/user_judgment_markdown.py])

    A person seals one directional judgment per forecast before the target
    session opens; the sealed page and the content hash make it tamper-evident.
    After the close the official outcome is bound to every eligible judgment and
    a scorecard counts them. *)
From Stdlib Require Import Ascii.
From S2P Require Import Prelude PyStr PyTime Float64 Domain Json Models Contracts Evaluation Reflection.
From S2P Require Import MarketOutcome Committee.
Import PyStr PyTime Float64 Domain Json Models Contracts.
Import Reflection(TextHash, text_hash, opt_json).
Import MarketOutcome(EvaluationBatch, eb_id, eb_status, eb_target_date, eb_horizon, eb_source_hash).
Import MarketOutcome(eb_evaluation_set_hash).
Import Evaluation(run_market_clock).
Open Scope string_scope.
Open Scope Z_scope.

Module Judgment.

Definition MAX_WIKI_BYTES : Z := 64 * 1024.
Definition USER_JUDGMENT_SCHEMA_V1 : string := "vericouncil.user-judgment/v1".
Definition USER_JUDGMENT_SCHEMA_V2 : string := "forecast-loop.user-judgment/v2".
Definition USER_JUDGMENT_POLICY_V1 : string := "user-judgment/v1".
Definition USER_JUDGMENT_POLICY_V2 : string := "user-judgment/v2".
Definition USER_JUDGMENT_POLICY_V3 : string := "user-judgment/v3".
Definition USER_JUDGMENT_POLICY_VERSION : string := USER_JUDGMENT_POLICY_V3.
Definition USER_JUDGMENT_EVALUATION_POLICY_VERSION : string := "user-judgment-evaluation/v1".
Definition USER_JUDGMENT_MODEL_NAME : string := "human-self-report-v1".
Definition SUPPORTED_USER_JUDGMENT_POLICY_VERSIONS : list string :=
  [USER_JUDGMENT_POLICY_V1; USER_JUDGMENT_POLICY_V2; USER_JUDGMENT_POLICY_V3].

(** ** Rows *)

Record UserJudgment := mkJudgment {
  uj_id : string;
  uj_actor_id : string;
  uj_agent_id : string;
  uj_agent_version : string;
  uj_agent_spec_hash : option string;
  uj_forecast_id : option string;
  uj_run_id : string;
  uj_mode : string;
  uj_index_code : string;
  uj_horizon : string;
  uj_target_date : date;
  uj_direction : string;
  uj_confidence : float;
  uj_rationale : string;
  uj_counter_evidence : string;
  uj_invalidation_condition : string;
  uj_blind_attestation : bool;
  uj_submitted_at : datetime;
  uj_submission_deadline : option datetime;
  uj_formal_score_eligible : bool;
  uj_run_input_hash : string;
  uj_forecast_input_hash : option string;
  uj_policy_version : string;
  uj_content_hash : string;
  uj_wiki_path : string;
  uj_wiki_artifact_hash : string }.

(** The check constraints on direction, confidence, mode and eligibility. *)
Definition ck_user_judgment (j : UserJudgment) : bool :=
  bool_decide (uj_direction j ∈ ["up"; "down"])
  && fleb (lit 1 2) (uj_confidence j) && fleb (uj_confidence j) f1
  && bool_decide (uj_mode j ∈ ["demo"; "live"])
  && (negb (uj_formal_score_eligible j)
      || (uj_mode j =? "live")%string && uj_blind_attestation j
         && match uj_submission_deadline j with
            | Some d => wall_ltb (uj_submitted_at j) d
            | None => false
            end).

Record UserJudgmentEvaluation := mkJudgmentEvaluation {
  ue_id : string;
  ue_user_judgment_id : string;
  ue_batch_id : string;
  ue_evaluation_result_id : string;
  ue_actual_return : float;
  ue_actual_label : string;
  ue_sign_correct : option bool;
  ue_material_direction_correct : option bool;
  ue_observation_hash : string;
  ue_policy_version : string;
  ue_evaluated_at : datetime;
  ue_content_hash : string }.

(** A run with its completion time as stored. *)
Record StoredRun := mkStoredRun {
  st_run : WorkflowRun;
  st_completed_at : option datetime }.

(** Tables by primary key; evaluations by their unique judgment. *)
Record Db := mkJudgmentDb {
  jd_runs : gmap string StoredRun;
  jd_forecasts : gmap string Forecast;
  jd_judgments : gmap string UserJudgment;
  jd_evaluations : gmap string UserJudgmentEvaluation;
  jd_results : gmap string EvaluationResult;
  jd_batches : gmap string EvaluationBatch;
  jd_specs : gmap string AgentSpec }.

Definition rows {A} (m : gmap string A) : list A := snd <$> map_to_list m.

(** [forecast.evaluation] *)
Definition evaluation_of (db : Db) (forecast_id : string) : option EvaluationResult :=
  find (fun e => (ev_forecast_id e =? forecast_id)%string) (rows (jd_results db)).

(** An attribute of [None]. *)
Definition the {A} (o : option A) (attribute : string) : result A :=
  match o with
  | Some a => Ok a
  | None => raise AttributeError ("'NoneType' object has no attribute '" +:+ attribute +:+ "'")
  end.

(** [forecast.run] *)
Definition run_of (db : Db) (f : Forecast) : result StoredRun :=
  the (jd_runs db !! fc_run_id f) "mode".

(** ** The page *)

Record Payload := mkPayload {
  jp_schema : string;
  jp_id : string;
  jp_actor_id : string;
  jp_agent_id : string;
  jp_agent_version : string;
  jp_forecast_id : option string;
  jp_run_id : string;
  jp_mode : string;
  jp_index_code : string;
  jp_horizon : string;
  jp_target_date : string;
  jp_direction : string;
  jp_confidence : float;
  jp_rationale : string;
  jp_counter_evidence : string;
  jp_invalidation_condition : string;
  jp_blind_attestation : bool;
  jp_submitted_at : string;
  jp_submission_deadline : option string;
  jp_formal_score_eligible : bool;
  jp_run_input_hash : string;
  jp_forecast_input_hash : option string;
  jp_policy_version : string;
  jp_wiki_path : string }.

Definition payload_json (p : Payload) : json :=
  JObj (list_to_map
    [("schema", JStr (jp_schema p)); ("id", JStr (jp_id p)); ("actor_id", JStr (jp_actor_id p));
     ("agent_id", JStr (jp_agent_id p)); ("agent_version", JStr (jp_agent_version p));
     ("forecast_id", opt_json (jp_forecast_id p)); ("run_id", JStr (jp_run_id p));
     ("mode", JStr (jp_mode p)); ("index_code", JStr (jp_index_code p));
     ("horizon", JStr (jp_horizon p)); ("target_date", JStr (jp_target_date p));
     ("direction", JStr (jp_direction p)); ("confidence_hex", JStr (float_hex (jp_confidence p)));
     ("rationale", JStr (jp_rationale p)); ("counter_evidence", JStr (jp_counter_evidence p));
     ("invalidation_condition", JStr (jp_invalidation_condition p));
     ("blind_attestation", JBool (jp_blind_attestation p));
     ("submitted_at", JStr (jp_submitted_at p));
     ("submission_deadline", opt_json (jp_submission_deadline p));
     ("formal_score_eligible", JBool (jp_formal_score_eligible p));
     ("run_input_hash", JStr (jp_run_input_hash p));
     ("forecast_input_hash", opt_json (jp_forecast_input_hash p));
     ("policy_version", JStr (jp_policy_version p)); ("wiki_path", JStr (jp_wiki_path p))]).

Definition user_judgment_schema_for_policy (policy_version : string) : result string :=
  if (policy_version =? USER_JUDGMENT_POLICY_V1)%string then Ok USER_JUDGMENT_SCHEMA_V1
  else if bool_decide (policy_version ∈ [USER_JUDGMENT_POLICY_V2; USER_JUDGMENT_POLICY_V3])
  then Ok USER_JUDGMENT_SCHEMA_V2
  else raise UserJudgmentWikiError "Unsupported User Judgment policy version".

Definition payload_of (row : UserJudgment) (submitted_at : string) (deadline : option string)
    : result Payload :=
  schema ← user_judgment_schema_for_policy (uj_policy_version row);
  Ok (mkPayload schema (uj_id row) (uj_actor_id row) (uj_agent_id row) (uj_agent_version row)
        (uj_forecast_id row) (uj_run_id row) (uj_mode row) (uj_index_code row) (uj_horizon row)
        (iso_date (uj_target_date row)) (uj_direction row) (uj_confidence row) (uj_rationale row)
        (uj_counter_evidence row) (uj_invalidation_condition row) (uj_blind_attestation row)
        submitted_at deadline (uj_formal_score_eligible row) (uj_run_input_hash row)
        (uj_forecast_input_hash row) (uj_policy_version row) (uj_wiki_path row)).

(** [_payload_from_row] *)
Definition payload_from_row (row : UserJudgment) (zone : zoneinfo) : result Payload :=
  payload_of row (isoformat (aware zone (uj_submitted_at row)))
    ((fun d => isoformat (aware zone d)) <$> uj_submission_deadline row).

(** [json.dumps(text, ensure_ascii=False)]: the escapes of quotes, backslashes
    and control characters. *)
Definition quote : string := String (ascii_of_nat 34) EmptyString.
Definition backslash : string := String (ascii_of_nat 92) EmptyString.
Definition hex_digit (n : nat) : ascii := ascii_of_nat (if (n <? 10)%nat then 48 + n else 87 + n).

Definition escape (c : ascii) : string :=
  let n := nat_of_ascii c in
  if (n =? 34)%nat then backslash +:+ quote
  else if (n =? 92)%nat then backslash +:+ backslash
  else if (n =? 10)%nat then backslash +:+ "n"
  else if (n =? 13)%nat then backslash +:+ "r"
  else if (n =? 9)%nat then backslash +:+ "t"
  else if (n =? 8)%nat then backslash +:+ "b"
  else if (n =? 12)%nat then backslash +:+ "f"
  else if (n <? 32)%nat
  then backslash +:+ "u00" +:+ String (hex_digit (n / 16)) (String (hex_digit (n mod 16)) EmptyString)
  else String c EmptyString.

Definition yaml_string (s : string) : string :=
  quote +:+ py_concat (escape <$> String.list_ascii_of_string s) +:+ quote.

(** [str(value)] of an optional text. *)
Definition text_of (o : option string) : string := default "None" o.
Definition lower_bool (b : bool) : string := if b then "true" else "false".
Definition newline : string := String (ascii_of_nat 10) EmptyString.

Section Pages.
Context `{Committee.FloatFormat}.

Definition frontmatter (p : Payload) (content_hash schema : string) : list string :=
  ["---";
   "schema: " +:+ schema;
   "id: " +:+ yaml_string (jp_id p);
   "actor_id: " +:+ yaml_string (jp_actor_id p);
   "agent_id: " +:+ yaml_string (jp_agent_id p);
   "agent_version: " +:+ yaml_string (jp_agent_version p);
   "forecast_id: " +:+ yaml_string (text_of (jp_forecast_id p));
   "run_id: " +:+ yaml_string (jp_run_id p);
   "mode: " +:+ yaml_string (jp_mode p);
   "index_code: " +:+ yaml_string (jp_index_code p);
   "horizon: " +:+ yaml_string (jp_horizon p);
   "target_date: " +:+ yaml_string (jp_target_date p);
   "direction: " +:+ yaml_string (jp_direction p);
   "confidence_hex: " +:+ yaml_string (float_hex (jp_confidence p));
   "blind_attestation: " +:+ lower_bool (jp_blind_attestation p);
   "formal_score_eligible: " +:+ lower_bool (jp_formal_score_eligible p);
   "submitted_at: " +:+ yaml_string (jp_submitted_at p);
   match jp_submission_deadline p with
   | Some d => "submission_deadline: " +:+ yaml_string d
   | None => "submission_deadline: null"
   end;
   "policy_version: " +:+ yaml_string (jp_policy_version p);
   "run_input_hash: " +:+ yaml_string (jp_run_input_hash p);
   "forecast_input_hash: " +:+ yaml_string (text_of (jp_forecast_input_hash p));
   "content_hash: " +:+ yaml_string content_hash;
   "---"].

Definition body (p : Payload) (content_hash brand : string) : list string :=
  let label := if (jp_direction p =? "up")%string then "上涨" else "下跌" in
  ["";
   "# " +:+ jp_target_date p +:+ " · " +:+ jp_index_code p +:+ " · " +:+ jp_horizon p;
   "";
   "> 个人判断存档：这是不可覆盖的事前观点日志，不是 " +:+ brand +:+ " 正式、";
   "> 可被预测 Agent 引用的常青知识条目。";
   "";
   "<!-- section:prediction -->";
   "## 预测";
   "";
   "- 方向：**" +:+ label +:+ "** (`" +:+ jp_direction p +:+ "`)";
   "- 主观置信度：**" +:+ Committee.percent0 (jp_confidence p) +:+ "**";
   if jp_blind_attestation p then "- 独立性声明：提交者声明尚未查看本次委员会结论。"
   else "- 独立性声明：未声明盲判；该记录不进入正式影子成绩。";
   "";
   "<!-- section:rationale -->";
   "## 核心理由";
   "";
   jp_rationale p;
   "";
   "<!-- section:counter-evidence -->";
   "## 最强反方证据";
   "";
   jp_counter_evidence p;
   "";
   "<!-- section:invalidation -->";
   "## 失效条件";
   "";
   jp_invalidation_condition p;
   "";
   "<!-- section:audit -->";
   "## 审计封条";
   "";
   "- User Judgment hash: `" +:+ content_hash +:+ "`";
   "- Run input hash: `" +:+ jp_run_input_hash p +:+ "`";
   "- Forecast input hash: `" +:+ text_of (jp_forecast_input_hash p) +:+ "`";
   ""].

(** [_render_user_judgment_markdown] *)
Definition render_page (p : Payload) (content_hash schema brand : string) : result string :=
  raise_when (negb (jp_schema p =? schema)%string) UserJudgmentWikiError
    "User Judgment schema does not match its policy version" ;;
  Ok (py_join newline (frontmatter p content_hash schema ++ body p content_hash brand)%list).

Definition render_user_judgment_markdown (p : Payload) (content_hash : string) : result string :=
  if (jp_policy_version p =? USER_JUDGMENT_POLICY_V1)%string
  then render_page p content_hash USER_JUDGMENT_SCHEMA_V1 "VeriCouncil"
  else if bool_decide (jp_policy_version p ∈ [USER_JUDGMENT_POLICY_V2; USER_JUDGMENT_POLICY_V3])
  then render_page p content_hash USER_JUDGMENT_SCHEMA_V2 "forecast-loop"
  else raise UserJudgmentWikiError "Unsupported User Judgment Markdown policy version".

End Pages.

(** ** The directory of pages

    The files under the Wiki root, by relative path; the checks of links and
    permissions are the operating system's. *)
Abbreviation Pages := (gmap string string).

(** The components of a path, empty ones included. *)
Fixpoint split_slash (s : string) : list string :=
  match s with
  | EmptyString => [EmptyString]
  | String c s' =>
      match split_slash s' with
      | [] => [EmptyString]
      | part :: rest => if Ascii.eqb c "/"%char then EmptyString :: part :: rest
                        else String c part :: rest
      end
  end.

(** [PurePath(relative_path).parts] of a relative path. *)
Definition path_parts (relative_path : string) : list string :=
  List.filter (fun p => negb (p =? "")%string && negb (p =? ".")%string) (split_slash relative_path).

(** [_safe_target]: the normal form of the path. *)
Definition safe_target (relative_path : string) : result string :=
  let parts := path_parts relative_path in
  raise_when (py_startswith relative_path "/" || match parts with [] => true | _ => false end
              || bool_decide (".." ∈ parts)) UserJudgmentWikiError
    "User Judgment Wiki path escapes its root" ;;
  Ok (py_join "/" parts).

Section Files.
Context `{TextHash}.

Definition publish_user_judgment_markdown (pages : Pages) (relative_path content : string)
    : result (string * Pages) :=
  raise_when (MAX_WIKI_BYTES <? Z.of_nat (String.length content)) UserJudgmentWikiError
    "User Judgment Wiki page exceeds the size limit" ;;
  target ← safe_target relative_path;
  raise_when (isSome (pages !! target)) UserJudgmentWikiError
    "User Judgment Wiki page already exists" ;;
  Ok (text_hash content, <[target := content]> pages).

Definition load_verified_user_judgment_markdown (pages : Pages)
    (relative_path expected_hash expected_content : string) : result string :=
  target ← safe_target relative_path;
  match pages !! target with
  | None => raise UserJudgmentWikiError "User Judgment Wiki page is missing"
  | Some content =>
      raise_when (MAX_WIKI_BYTES <? Z.of_nat (String.length content)) UserJudgmentWikiError
        "User Judgment Wiki page exceeds the size limit" ;;
      raise_when (negb (text_hash content =? expected_hash)%string) UserJudgmentWikiError
        "User Judgment Wiki artifact hash mismatch" ;;
      raise_when (negb (content =? expected_content)%string) UserJudgmentWikiError
        "User Judgment Wiki canonical content mismatch" ;;
      Ok content
  end.

Definition remove_user_judgment_markdown (pages : Pages) (relative_path : string) : Pages :=
  match safe_target relative_path with
  | Ok target => delete target pages
  | Err _ => pages
  end.

End Files.

(** ** Verification *)

(** [_comparable_datetime], [_datetime_precedes] *)
Definition comparable_datetime (d : datetime) : Z := if is_aware d then instant d else dt_wall d.
Definition datetime_precedes (a b : datetime) : bool := comparable_datetime a <? comparable_datetime b.

(** The labels of [expected], in sorted order, with their comparison. *)
Definition binding_mismatches (j : UserJudgment) (f : Forecast) (run : WorkflowRun) : list string :=
  fst <$> List.filter (fun x => negb (snd x))
    [("forecast_id", bool_decide (uj_forecast_id j = Some (fc_id f)));
     ("forecast_input_hash", bool_decide (uj_forecast_input_hash j = Some (fc_input_hash f)));
     ("horizon", (uj_horizon j =? fc_horizon f)%string);
     ("index_code", (uj_index_code j =? fc_index_code f)%string);
     ("mode", (uj_mode j =? r_mode run)%string);
     ("run_id", (uj_run_id j =? fc_run_id f)%string);
     ("run_input_hash", (uj_run_input_hash j =? r_input_hash run)%string);
     ("target_date", uj_target_date j =? fc_target_date f)].

Definition no_mismatch (labels : list string) : bool := match labels with [] => true | _ => false end.

(** The direction of a nonzero return. *)
Definition actual_direction (actual_return : float) : string :=
  if fltb f0 actual_return then "up" else "down".

(** [sign_correct] as both sides derive it. *)
Definition sign_result (direction : string) (actual_return : float) : option bool :=
  if feqb actual_return f0 then None
  else Some (direction =? actual_direction actual_return)%string.

(** [_validate_judgment_forecast_binding] *)
Definition validate_judgment_forecast_binding (db : Db) (j : UserJudgment) (f : Forecast)
    : result unit :=
  stored ← run_of db f;
  let mismatches := binding_mismatches j f (st_run stored) in
  raise_when (negb (no_mismatch mismatches)) UserJudgmentWikiError
    ("User Judgment forecast binding mismatch: " +:+ py_join ", " mismatches) ;;
  raise_when (negb (uj_agent_id j =? ag_id USER_JUDGMENT_AGENT)%string) UserJudgmentWikiError
    "User Judgment agent identity mismatch" ;;
  raise_when (negb (truthy (uj_agent_version j))) UserJudgmentWikiError
    "User Judgment agent version is missing" ;;
  raise_when (negb (bool_decide (uj_policy_version j ∈ SUPPORTED_USER_JUDGMENT_POLICY_VERSIONS)))
    UserJudgmentWikiError "Unsupported User Judgment policy version" ;;
  raise_when (negb (bool_decide (uj_direction j ∈ ["up"; "down"]))) UserJudgmentWikiError
    "User Judgment direction is invalid" ;;
  (if (uj_mode j =? "live")%string then
     match uj_submission_deadline j with
     | None => raise UserJudgmentWikiError "Live User Judgment submission deadline is missing"
     | Some deadline =>
         raise_when (negb (datetime_precedes (uj_submitted_at j) deadline)) UserJudgmentWikiError
           "Live User Judgment was not sealed before its deadline"
     end
   else Ok tt) ;;
  raise_when (uj_formal_score_eligible j
              && (negb (uj_mode j =? "live")%string || negb (uj_blind_attestation j)
                  || negb (isSome (uj_submission_deadline j)))) UserJudgmentWikiError
    "User Judgment formal-score eligibility is inconsistent".

(** [_utc_iso]: the offset of a UTC time prints as [+00:00]. *)
Definition utc_of (d : datetime) : datetime := astimezone UTC (if is_aware d then d else attach UTC d).
Definition utc_iso (d : datetime) : string :=
  iso_date (date_of (utc_of d)) +:+ "T" +:+ iso_time (time_of_day (utc_of d)) +:+ "Z".

(** [_user_judgment_evaluation_payload] *)
Definition evaluation_payload (row : UserJudgmentEvaluation) (j : UserJudgment)
    (batch : EvaluationBatch) (evaluation : EvaluationResult) : json :=
  let optional (o : option bool) := match o with Some b => JBool b | None => JNull end in
  JObj (list_to_map
    [("schema", JStr "vericouncil.user-judgment-evaluation/v1"); ("id", JStr (ue_id row));
     ("user_judgment_id", JStr (uj_id j)); ("user_judgment_content_hash", JStr (uj_content_hash j));
     ("forecast_id", opt_json (uj_forecast_id j)); ("run_id", JStr (uj_run_id j));
     ("run_input_hash", JStr (uj_run_input_hash j));
     ("forecast_input_hash", opt_json (uj_forecast_input_hash j));
     ("batch_id", JStr (eb_id batch));
     ("batch_evaluation_set_hash", JStr (eb_evaluation_set_hash batch));
     ("batch_source_hash", JStr (eb_source_hash batch));
     ("evaluation_result_id", JStr (ev_id evaluation));
     ("actual_return_hex", JStr (float_hex (ue_actual_return row)));
     ("actual_label", JStr (ue_actual_label row)); ("sign_correct", optional (ue_sign_correct row));
     ("material_direction_correct", optional (ue_material_direction_correct row));
     ("observation_hash", JStr (ue_observation_hash row));
     ("policy_version", JStr (ue_policy_version row));
     ("evaluated_at", JStr (utc_iso (ue_evaluated_at row)))]).

(** ** Requests *)

Definition text_between (s : string) (low high : Z) : bool :=
  let n := py_len (py_strip s) in (low <=? n) && (n <=? high).

Record UserJudgmentCreate := mkRequest {
  rq_forecast_id : string;
  rq_direction : string;
  rq_confidence : float;
  rq_rationale : string;
  rq_counter_evidence : string;
  rq_invalidation_condition : string;
  rq_blind_attestation : bool }.

(** [_same_request] *)
Definition same_request (row : UserJudgment) (r : UserJudgmentCreate) : bool :=
  (uj_direction row =? rq_direction r)%string
  && (float_hex (uj_confidence row) =? float_hex (rq_confidence r))%string
  && (uj_rationale row =? rq_rationale r)%string
  && (uj_counter_evidence row =? rq_counter_evidence r)%string
  && (uj_invalidation_condition row =? rq_invalidation_condition r)%string
  && Bool.eqb (uj_blind_attestation row) (rq_blind_attestation r).

(** [_validate_request] *)
Definition validate_request (r : UserJudgmentCreate) : result unit :=
  raise_when (negb (bool_decide (rq_direction r ∈ ["up"; "down"]))) ValueError
    "User Judgment direction must be up or down" ;;
  raise_when (negb (is_finite (rq_confidence r))
              || negb (fleb (lit 1 2) (rq_confidence r) && fleb (rq_confidence r) f1)) ValueError
    "User Judgment confidence must be between 0.5 and 1.0" ;;
  raise_when (negb (text_between (rq_rationale r) 20 4000)) ValueError
    "User Judgment rationale must contain 20-4000 characters" ;;
  raise_when (negb (text_between (rq_counter_evidence r) 10 2000)) ValueError
    "User Judgment counter_evidence must contain 10-2000 characters" ;;
  raise_when (negb (text_between (rq_invalidation_condition r) 10 2000)) ValueError
    "User Judgment invalidation_condition must contain 10-2000 characters".

Definition is_control (c : ascii) : bool := (nat_of_ascii c <? 32)%nat.

(** [_validate_actor_id] *)
Definition validate_actor_id (value : string) : result string :=
  let actor := py_strip value in
  raise_when (negb (truthy actor) || (120 <? py_len actor)) ValueError
    "User Judgment actor_id must contain 1-120 characters" ;;
  raise_when (existsb is_control (String.list_ascii_of_string actor)) ValueError
    "User Judgment actor_id contains control characters" ;;
  Ok actor.

Section Service.
Context `{CanonicalHash} `{TextHash} `{Committee.FloatFormat}.
(** The tz database, the seal of the default universe, [str.isalnum], how the
    database returns a stored time, the dump of a spec and the registry. *)
Context (zone_info : string -> result zoneinfo) (default_universe_hash : string).
Context (alnum : string -> bool) (dump_spec : AgentSpecBody -> json) (registered : list AgentSpec).

Local Abbreviation clock := (run_market_clock zone_info default_universe_hash).

(** [forecast_market_zone] *)
Definition forecast_market_zone (db : Db) (f : Forecast) : result zoneinfo :=
  stored ← run_of db f; c ← clock (st_run stored); Ok c.1.

(** [verify_user_judgment_record] *)
Definition verify_user_judgment_record (db : Db) (j : UserJudgment) : result Payload :=
  f ← the (id ← uj_forecast_id j; jd_forecasts db !! id) "run";
  validate_judgment_forecast_binding db j f ;;
  zone ← forecast_market_zone db f;
  payload ← payload_from_row j zone;
  raise_when (negb (canonical_hash (payload_json payload) =? uj_content_hash j)%string)
    UserJudgmentWikiError "User Judgment content hash mismatch" ;;
  Ok payload.

(** What the caller expects of an existing evaluation. *)
Record Expected := mkExpected {
  ex_batch : EvaluationBatch;
  ex_evaluation : EvaluationResult;
  ex_sign_correct : option bool;
  ex_material_correct : option bool }.

Definition check_expected (row : UserJudgmentEvaluation) (e : Expected) : result unit :=
  raise_when (negb (eb_id (ex_batch e) =? ue_batch_id row)%string) UserJudgmentConflictError
    "User Judgment evaluation already binds a different batch" ;;
  raise_when (negb ((ev_id (ex_evaluation e) =? ue_evaluation_result_id row)%string
                    && (float_hex (ev_actual_return (ex_evaluation e))
                        =? float_hex (ue_actual_return row))%string
                    && (ev_actual_label (ex_evaluation e) =? ue_actual_label row)%string
                    && (ev_observation_hash (ex_evaluation e) =? ue_observation_hash row)%string))
    UserJudgmentConflictError "User Judgment evaluation already binds a different outcome" ;;
  raise_when (negb (bool_decide (ex_sign_correct e = ue_sign_correct row)
                    && bool_decide (ex_material_correct e = ue_material_direction_correct row)))
    UserJudgmentConflictError "User Judgment evaluation already stores different derived results".

(** [_verify_user_judgment_evaluation] *)
Definition verify_user_judgment_evaluation (db : Db) (row : UserJudgmentEvaluation)
    (j : UserJudgment) (expected : option Expected) : result json :=
  batch ← the (jd_batches db !! ue_batch_id row) "status";
  evaluation ← the (jd_results db !! ue_evaluation_result_id row) "forecast_id";
  raise_when (negb (ue_user_judgment_id row =? uj_id j)%string) UserJudgmentWikiError
    "User Judgment evaluation judgment binding mismatch" ;;
  raise_when (negb (bool_decide (uj_forecast_id j = Some (ev_forecast_id evaluation))))
    UserJudgmentWikiError "User Judgment evaluation forecast binding mismatch" ;;
  raise_when (negb ((eb_status batch =? "completed")%string && (eb_target_date batch =? uj_target_date j)
                    && (eb_horizon batch =? uj_horizon j)%string)) UserJudgmentWikiError
    "User Judgment evaluation batch binding mismatch" ;;
  raise_when (negb ((ue_batch_id row =? eb_id batch)%string
                    && (ue_evaluation_result_id row =? ev_id evaluation)%string
                    && (float_hex (ue_actual_return row)
                        =? float_hex (ev_actual_return evaluation))%string
                    && (ue_actual_label row =? ev_actual_label evaluation)%string
                    && (ue_observation_hash row =? ev_observation_hash evaluation)%string
                    && (ue_policy_version row =? USER_JUDGMENT_EVALUATION_POLICY_VERSION)%string))
    UserJudgmentWikiError "User Judgment evaluation source values mismatch" ;;
  raise_when (negb (bool_decide (ue_sign_correct row = sign_result (uj_direction j) (ue_actual_return row))))
    UserJudgmentWikiError "User Judgment evaluation sign result mismatch" ;;
  raise_when (isSome (ue_material_direction_correct row)
              && negb (bool_decide (ue_material_direction_correct row = ue_sign_correct row)))
    UserJudgmentWikiError "User Judgment evaluation material result mismatch" ;;
  let payload := evaluation_payload row j batch evaluation in
  raise_when (negb (canonical_hash payload =? ue_content_hash row)%string) UserJudgmentWikiError
    "User Judgment evaluation content hash mismatch" ;;
  match expected with Some e => check_expected row e | None => Ok tt end ;;
  Ok payload.

(** [verify_user_judgment] *)
Definition verify_user_judgment (db : Db) (pages : Pages) (j : UserJudgment) : result string :=
  payload ← verify_user_judgment_record db j;
  expected ← render_user_judgment_markdown payload (uj_content_hash j);
  markdown ← load_verified_user_judgment_markdown pages (uj_wiki_path j) (uj_wiki_artifact_hash j) expected;
  match jd_evaluations db !! uj_id j with
  | Some row => verify_user_judgment_evaluation db row j None ;; Ok markdown
  | None => Ok markdown
  end.

(** ** Sealing *)

(** [persist_agent_spec] (services/signal_contract.py); the projected columns of
    the row are left out. *)
Definition persist_agent_spec (db : Db) (spec : AgentSpec) : result Db :=
  verify_agent_spec_hash dump_spec spec ;;
  match jd_specs db !! as_content_hash spec with
  | Some existing =>
      verify_agent_spec_hash dump_spec existing ;;
      raise_when (negb (bool_decide (existing = spec))) SignalEnvelopeConflictError
        "AgentSpec hash is already bound to different canonical content" ;;
      Ok db
  | None =>
      Ok (mkJudgmentDb (jd_runs db) (jd_forecasts db) (jd_judgments db) (jd_evaluations db)
            (jd_results db) (jd_batches db) (<[as_content_hash spec := spec]> (jd_specs db)))
  end.

Definition with_judgments (db : Db) (m : gmap string UserJudgment) : Db :=
  mkJudgmentDb (jd_runs db) (jd_forecasts db) m (jd_evaluations db) (jd_results db) (jd_batches db)
    (jd_specs db).

Definition same_slot (actor forecast_id : string) (j : UserJudgment) : bool :=
  bool_decide (uj_forecast_id j = Some forecast_id) && (uj_actor_id j =? actor)%string.

(** The judgment of an actor on a forecast. *)
Definition judgment_of (db : Db) (actor forecast_id : string) : option UserJudgment :=
  find (same_slot actor forecast_id) (rows (jd_judgments db)).

(** The unique constraints of the table: primary key, actor and forecast,
    content hash. *)
Definition insert_judgment (db : Db) (row stored : UserJudgment) : result Db :=
  raise_when (isSome (jd_judgments db !! uj_id row)
              || existsb (fun j => (negb (bool_decide (uj_forecast_id j = None))
                                    && bool_decide (uj_forecast_id j = uj_forecast_id row)
                                    && (uj_actor_id j =? uj_actor_id row)%string)
                                   || (uj_content_hash j =? uj_content_hash row)%string)
                   (rows (jd_judgments db))) IntegrityError "UNIQUE constraint failed: user_judgments" ;;
  Ok (with_judgments db (<[uj_id row := stored]> (jd_judgments db))).

(** [user_judgment_submission_deadline] *)
Definition user_judgment_submission_deadline (db : Db) (f : Forecast) (market_open : Z)
    : result (option datetime) :=
  stored ← run_of db f;
  if (r_mode (st_run stored) =? "demo")%string then Ok None
  else match st_completed_at stored with
       | None => Ok None
       | Some _ =>
           zone ← forecast_market_zone db f;
           Ok (Some (combine (fc_target_date f) market_open zone))
       end.

(** The window of a submission at [current]. *)
Definition check_window (stored : StoredRun) (evaluated : bool) (zone : zoneinfo) (current : datetime)
    (deadline : option datetime) : result unit :=
  let run := st_run stored in
  raise_when (negb (bool_decide (r_status run = RUN_COMPLETED)) || negb (isSome (st_completed_at stored)))
    UserJudgmentClosedError "Only a completed committee run can receive a user judgment" ;;
  raise_when (match st_completed_at stored with
              | Some t => wall_ltb current (aware zone t)
              | None => false
              end) UserJudgmentClosedError "User judgment time cannot predate committee completion" ;;
  if (r_mode run =? "live")%string then
    raise_when evaluated UserJudgmentClosedError
      "The forecast already has an outcome and cannot receive a judgment" ;;
    raise_when (match deadline with
                | None => true
                | Some d => negb (wall_ltb current d)
                end) UserJudgmentClosedError "The user judgment window has closed"
  else raise_when (negb (r_mode run =? "demo")%string) ValueError
         ("unsupported forecast mode: " +:+ r_mode run).

(** [_wiki_relative_path] *)
Definition dash_strip (l : list string) : list string :=
  let drop := list_find (fun c => c <> "-") in
  let from l := match drop l with Some (i, _) => skipn i l | None => [] end in
  reverse (from (reverse (from l))).

Definition wiki_relative_path (judgment_id target_date index_code horizon : string) : string :=
  let safe_index :=
    py_concat (dash_strip ((fun c => if alnum c then c else "-") <$> py_chars index_code)) in
  "decisions/" +:+ target_date +:+ "/"
  +:+ target_date +:+ "-" +:+ horizon +:+ "-" +:+ safe_index +:+ "-" +:+ judgment_id +:+ ".md".

(** The row and its payload, before the page is written. *)
Definition draft (new_id actor : string) (f : Forecast) (run : WorkflowRun) (r : UserJudgmentCreate)
    (current : datetime) (deadline : option datetime) : UserJudgment :=
  mkJudgment new_id actor (ag_id USER_JUDGMENT_AGENT) (ag_version USER_JUDGMENT_AGENT) None
    (Some (fc_id f)) (r_id run) (r_mode run) (fc_index_code f) (fc_horizon f) (fc_target_date f)
    (rq_direction r) (rq_confidence r) (rq_rationale r) (rq_counter_evidence r)
    (rq_invalidation_condition r) (rq_blind_attestation r) current deadline
    ((r_mode run =? "live")%string && rq_blind_attestation r) (r_input_hash run)
    (Some (fc_input_hash f)) USER_JUDGMENT_POLICY_VERSION ""
    (wiki_relative_path new_id (iso_date (fc_target_date f)) (fc_index_code f) (fc_horizon f)) "".

Definition sealed (row : UserJudgment) (spec_hash : option string) (content_hash artifact_hash : string)
    : UserJudgment :=
  mkJudgment (uj_id row) (uj_actor_id row) (uj_agent_id row) (uj_agent_version row) spec_hash
    (uj_forecast_id row) (uj_run_id row) (uj_mode row) (uj_index_code row) (uj_horizon row)
    (uj_target_date row) (uj_direction row) (uj_confidence row) (uj_rationale row)
    (uj_counter_evidence row) (uj_invalidation_condition row) (uj_blind_attestation row)
    (uj_submitted_at row) (uj_submission_deadline row) (uj_formal_score_eligible row)
    (uj_run_input_hash row) (uj_forecast_input_hash row) (uj_policy_version row) content_hash
    (uj_wiki_path row) artifact_hash.

(** The database returns the times of a row in its own form. *)
Definition stored_row (stored : datetime -> datetime) (row : UserJudgment) : UserJudgment :=
  mkJudgment (uj_id row) (uj_actor_id row) (uj_agent_id row) (uj_agent_version row)
    (uj_agent_spec_hash row) (uj_forecast_id row) (uj_run_id row) (uj_mode row) (uj_index_code row)
    (uj_horizon row) (uj_target_date row) (uj_direction row) (uj_confidence row) (uj_rationale row)
    (uj_counter_evidence row) (uj_invalidation_condition row) (uj_blind_attestation row)
    (stored (uj_submitted_at row)) (stored <$> uj_submission_deadline row)
    (uj_formal_score_eligible row) (uj_run_input_hash row) (uj_forecast_input_hash row)
    (uj_policy_version row) (uj_content_hash row) (uj_wiki_path row) (uj_wiki_artifact_hash row).
Context (stored : datetime -> datetime).

(** What the call reads first: the actor, the forecast of the mode and universe,
    its run and zone. *)
Record Admitted_request := mkAdmitted {
  am_actor : string;
  am_forecast : Forecast;
  am_run : StoredRun;
  am_zone : zoneinfo }.

Definition admit_request (db : Db) (r : UserJudgmentCreate) (actor_id timezone expected_mode universe : string)
    : result Admitted_request :=
  zone_info timezone ;;
  actor ← validate_actor_id actor_id;
  raise_when (negb (bool_decide (expected_mode ∈ ["demo"; "live"]))) ValueError
    ("unsupported expected forecast mode: " +:+ expected_mode) ;;
  match (f ← jd_forecasts db !! rq_forecast_id r; run ← jd_runs db !! fc_run_id f; Some (f, run)) with
  | None => raise UserJudgmentNotFoundError "Forecast not found"
  | Some (f, run) =>
      raise_when (negb ((r_mode (st_run run) =? expected_mode)%string
                        && (r_market_universe_hash (st_run run) =? universe)%string))
        UserJudgmentNotFoundError "Forecast not found" ;;
      zone ← forecast_market_zone db f;
      Ok (mkAdmitted actor f run zone)
  end.

(** The checks of a new judgment; they return its row and its payload. *)
Definition prepare (db : Db) (a : Admitted_request) (r : UserJudgmentCreate) (new_id : string)
    (market_open : Z) (current : datetime) : result (UserJudgment * Payload) :=
  validate_request r ;;
  deadline ← user_judgment_submission_deadline db (am_forecast a) market_open;
  check_window (am_run a) (isSome (evaluation_of db (fc_id (am_forecast a)))) (am_zone a) current deadline ;;
  let row := draft new_id (am_actor a) (am_forecast a) (st_run (am_run a)) r current deadline in
  payload ← payload_of row (isoformat current) (isoformat <$> deadline);
  Ok (row, payload).

(** An existing judgment answers the identical request. *)
Definition replay_existing (db : Db) (pages : Pages) (j : UserJudgment) (r : UserJudgmentCreate)
    (message : string) : result (UserJudgment * bool * Db) :=
  if same_request j r then verify_user_judgment db pages j ;; Ok (j, false, db)
  else raise UserJudgmentConflictError message.

(** The transaction that inserts the row, on the database of the commit. *)
Definition commit_judgment (db : Db) (spec : AgentSpec) (row : UserJudgment) : result Db :=
  db1 ← persist_agent_spec db spec; insert_judgment db1 row (stored_row stored row).

(** [create_user_judgment]: reads see [db], the commit sees [now_db]; [new_id] is
    the [uuid4] of the call. *)
Definition create_user_judgment (new_id : string) (db now_db : Db) (pages : Pages)
    (r : UserJudgmentCreate) (actor_id timezone expected_mode universe : string) (market_open : Z)
    (now : datetime) : result (UserJudgment * bool * Db) * Pages :=
  match admit_request db r actor_id timezone expected_mode universe with
  | Err e => (Err e, pages)
  | Ok a =>
      let current := aware (am_zone a) now in
      match judgment_of db (am_actor a) (fc_id (am_forecast a)) with
      | Some existing =>
          (replay_existing db pages existing r
             "This user already sealed a different judgment for the forecast", pages)
      | None =>
          match ('(row, payload) ← prepare db a r new_id market_open current;
                 let content_hash := canonical_hash (payload_json payload) in
                 markdown ← render_user_judgment_markdown payload content_hash;
                 '(artifact_hash, pages1) ← publish_user_judgment_markdown pages (uj_wiki_path row) markdown;
                 Ok (row, content_hash, artifact_hash, pages1)) with
          | Err e => (Err e, pages)
          | Ok (row, content_hash, artifact_hash, pages1) =>
              let removed := remove_user_judgment_markdown pages1 (uj_wiki_path row) in
              match agent_spec registered (ag_id USER_JUDGMENT_AGENT) with
              | Err e => (Err e, pages1)
              | Ok spec =>
                  if negb (sp_agent_version (as_body spec) =? ag_version USER_JUDGMENT_AGENT)%string
                  then (raise UserJudgmentConflictError
                          "User Judgment AgentSpec version does not match the agent", removed)
                  else
                    let row := sealed row (Some (as_content_hash spec)) content_hash artifact_hash in
                    match commit_judgment now_db spec row with
                    | Ok db' => (Ok (row, true, db'), pages1)
                    | Err e =>
                        (if bool_decide (exn_cls e = IntegrityError) then
                           match judgment_of now_db (am_actor a) (fc_id (am_forecast a)) with
                           | Some concurrent =>
                               replay_existing now_db removed concurrent r
                                 "A user judgment already exists for this forecast"
                           | None => raise UserJudgmentConflictError
                                       "A user judgment already exists for this forecast"
                           end
                         else Err e, removed)
                    end
              end
          end
      end
  end.

(** [user_judgment_submission_status] *)
Definition user_judgment_submission_status (db : Db) (f : Forecast) (actor_id : string) (market_open : Z)
    (now : datetime) : result (bool * string * option datetime * option UserJudgment) :=
  run ← run_of db f;
  zone ← forecast_market_zone db f;
  let current := aware zone now in
  let existing := find (fun j => same_slot actor_id (fc_id f) j && (uj_mode j =? r_mode (st_run run))%string)
                    (rows (jd_judgments db)) in
  deadline ← user_judgment_submission_deadline db f market_open;
  Ok (match existing with
      | Some j => (false, "这条目标已经封签，原记录不可覆盖。", deadline, Some j)
      | None =>
          if negb (bool_decide (r_status (st_run run) = RUN_COMPLETED))
          then (false, "委员会运行尚未完成。", deadline, None)
          else if (r_mode (st_run run) =? "demo")%string
          then (true, "Demo 可用于练习封签，但不会进入正式成绩。", None, None)
          else if isSome (evaluation_of db (fc_id f))
          then (false, "目标结果已经揭晓，禁止事后补录。", deadline, None)
          else if match deadline with None => true | Some d => negb (wall_ltb current d) end
          then (false, "事前判断窗口已经关闭。", deadline, None)
          else (true, "声明盲判后可进入用户影子成绩；未声明仍可存档但不计分。", deadline, None)
      end).

(** ** Scoring *)

Definition judgment_le (a b : UserJudgment) : Prop := String.le (uj_id a) (uj_id b).
#[global] Instance judgment_le_dec a b : Decision (judgment_le a b).
Proof. unfold judgment_le. apply _. Defined.

(** The eligible judgments of a forecast, by identifier. *)
Definition eligible (db : Db) (forecast_id : string) : list UserJudgment :=
  merge_sort judgment_le
    (List.filter (fun j => bool_decide (uj_forecast_id j = Some forecast_id) && uj_formal_score_eligible j)
       (rows (jd_judgments db))).

Definition with_evaluations (db : Db) (m : gmap string UserJudgmentEvaluation) : Db :=
  mkJudgmentDb (jd_runs db) (jd_forecasts db) (jd_judgments db) m (jd_results db) (jd_batches db)
    (jd_specs db).

(** [session.flush]: the primary key, the judgment and the content hash are
    unique, the label is one of three. *)
Definition insert_evaluation (db : Db) (row : UserJudgmentEvaluation) : result Db :=
  raise_when (isSome (jd_evaluations db !! ue_user_judgment_id row)
              || existsb (fun e => (ue_id e =? ue_id row)%string
                                   || (ue_content_hash e =? ue_content_hash row)%string)
                   (rows (jd_evaluations db))
              || negb (bool_decide (ue_actual_label row ∈ ["up"; "neutral"; "down"]))) IntegrityError
    "constraint failed: user_judgment_evaluations" ;;
  Ok (with_evaluations db (<[ue_user_judgment_id row := row]> (jd_evaluations db))).

(** The derived results of a judgment. *)
Definition expected_of (batch : EvaluationBatch) (evaluation : EvaluationResult) (material_outcome : bool)
    (j : UserJudgment) : Expected :=
  let sign := sign_result (uj_direction j) (ev_actual_return evaluation) in
  mkExpected batch evaluation sign (if material_outcome then sign else None).

(** A new evaluation row, sealed. *)
Definition new_evaluation (new_id : string) (e : Expected) (j : UserJudgment) (now : datetime)
    : UserJudgmentEvaluation :=
  let row hash := mkJudgmentEvaluation new_id (uj_id j) (eb_id (ex_batch e)) (ev_id (ex_evaluation e))
    (ev_actual_return (ex_evaluation e)) (ev_actual_label (ex_evaluation e)) (ex_sign_correct e)
    (ex_material_correct e) (ev_observation_hash (ex_evaluation e))
    USER_JUDGMENT_EVALUATION_POLICY_VERSION (utc_of now) hash in
  row (canonical_hash (evaluation_payload (row "") j (ex_batch e) (ex_evaluation e))).

(** The loop body; [new_id] gives the [uuid4] of each new row. *)
Definition materialize_one (batch : EvaluationBatch) (f : Forecast) (evaluation : EvaluationResult)
    (material_outcome : bool) (now : datetime) (new_id : string -> string)
    (s : Db * list UserJudgmentEvaluation) (j : UserJudgment)
    : result (Db * list UserJudgmentEvaluation) :=
  let '(db, done) := s in
  validate_judgment_forecast_binding db j f ;;
  let expected := expected_of batch evaluation material_outcome j in
  match jd_evaluations db !! uj_id j with
  | Some row => verify_user_judgment_evaluation db row j (Some expected) ;; Ok (db, done ++ [row])%list
  | None =>
      let row := new_evaluation (new_id (uj_id j)) expected j now in
      db' ← insert_evaluation db row;
      Ok (db', done ++ [row])%list
  end.

(** [materialize_user_judgment_evaluation] *)
Definition materialize_user_judgment_evaluation (db : Db) (batch : EvaluationBatch) (f : Forecast)
    (evaluation : EvaluationResult) (material_outcome : bool) (now : datetime) (new_id : string -> string)
    : result (Db * list UserJudgmentEvaluation) :=
  for_each (materialize_one batch f evaluation material_outcome now new_id) (db, [])
    (eligible db (fc_id f)).

(** ** Scorecard *)

Definition scored_row (db : Db) (actor_id horizon universe : string) (index_code : option string)
    (e : UserJudgmentEvaluation) : option (UserJudgment * UserJudgmentEvaluation) :=
  j ← jd_judgments db !! ue_user_judgment_id e;
  run ← jd_runs db !! uj_run_id j;
  if (uj_actor_id j =? actor_id)%string && (uj_agent_id j =? ag_id USER_JUDGMENT_AGENT)%string
     && (uj_agent_version j =? ag_version USER_JUDGMENT_AGENT)%string && (uj_mode j =? "live")%string
     && uj_formal_score_eligible j && (uj_horizon j =? horizon)%string
     && (r_mode (st_run run) =? "live")%string
     && bool_decide (r_status (st_run run) = RUN_COMPLETED)
     && (r_market_universe_hash (st_run run) =? universe)%string
     && match index_code with Some c => (uj_index_code j =? c)%string | None => true end
  then Some (j, e) else None.

Definition scored_rows (db : Db) (actor_id horizon universe : string) (index_code : option string)
    : list (UserJudgment * UserJudgmentEvaluation) :=
  omap (scored_row db actor_id horizon universe index_code) (rows (jd_evaluations db)).

Record Counters := mkCounters {
  ct_predicted : Direction -> Z;
  ct_actual : Direction -> Z;
  ct_true_positive : Direction -> Z }.

Definition count_row (c : Counters) (x : UserJudgment * UserJudgmentEvaluation) : result Counters :=
  predicted ← Direction_of (uj_direction x.1);
  actual ← Direction_of (ue_actual_label x.2);
  Ok (mkCounters (Evaluation.bump (ct_predicted c) predicted) (Evaluation.bump (ct_actual c) actual)
        (if bool_decide (predicted = actual) then Evaluation.bump (ct_true_positive c) actual
         else ct_true_positive c)).

Definition metrics_of (c : Counters) : list Evaluation.DirectionMetrics :=
  (fun d => Evaluation.mkMetrics d (ct_predicted c d) (ct_actual c d) (ct_true_positive c d)
              (Evaluation.ratio (ct_true_positive c d) (ct_predicted c d))
              (Evaluation.ratio (ct_true_positive c d) (ct_actual c d))) <$> all_directions.

(** [user_judgment_scorecard]; the note and the accuracy field that repeats the
    sign accuracy are left out. *)
Definition user_judgment_scorecard (db : Db) (actor_id horizon universe : string)
    (index_code : option string) : result Evaluation.Scorecard :=
  let selected := scored_rows db actor_id horizon universe index_code in
  let version := ag_version USER_JUDGMENT_AGENT in
  match selected with
  | [] => Ok (Evaluation.empty_scorecard version (Some USER_JUDGMENT_MODEL_NAME))
  | _ =>
      for_each (fun _ x => verify_user_judgment_record db x.1 ;;
                           verify_user_judgment_evaluation db x.2 x.1 None ;; Ok tt) tt selected ;;
      counters ← for_each count_row (mkCounters (fun _ => 0) (fun _ => 0) (fun _ => 0)) selected;
      let signs := omap (fun x => ue_sign_correct x.2) selected in
      let materials := omap (fun x => ue_material_direction_correct x.2) selected in
      Ok (Evaluation.mkScorecard (Evaluation.zlen selected)
            (20 <=? Evaluation.zlen (remove_dups ((fun x => uj_target_date x.1) <$> selected)))
            (Evaluation.zlen signs) (Evaluation.count_true signs)
            (Evaluation.ratio (Evaluation.count_true signs) (Evaluation.zlen signs))
            (Evaluation.zlen materials) (Evaluation.count_true materials)
            (Evaluation.ratio (Evaluation.count_true materials) (Evaluation.zlen materials))
            None (metrics_of counters) [] None version (Some USER_JUDGMENT_MODEL_NAME))
  end.

End Service.

End Judgment.
