(* ===== verification/JudgmentProps.v ===== *)
(** * Correctness of user judgments *)
From Stdlib Require Import Floats.SpecFloat.
From S2P Require Import Prelude PyStr PyTime Float64 Domain Json Models Contracts Evaluation Reflection.
From S2P Require Import MarketOutcome MarketOutcomeProps Committee Judgment.
Import PyStr PyTime Float64 Domain Json Models Contracts Judgment.
Import Reflection(TextHash, text_hash, opt_json).
Import MarketOutcome(EvaluationBatch, eb_id, eb_status, eb_target_date, eb_horizon, eb_source_hash).
Import Evaluation(run_market_clock).
Open Scope string_scope.
Open Scope Z_scope.

Module JudgmentProps.

(** ** Rows of a table *)

Lemma table_elem {A} (m : gmap string A) x : x ∈ rows m <-> exists k, m !! k = Some x.
Proof.
  unfold rows. rewrite list_elem_of_fmap. split.
  - intros ([k y] & -> & Hin%elem_of_map_to_list). by exists k.
  - intros [k Hk]. exists (k, x). by rewrite elem_of_map_to_list.
Qed.

Lemma find_absent {A} (p : A -> bool) l : find p l = None <-> forall x, x ∈ l -> p x = false.
Proof.
  split.
  - intros Hn x Hx%list_elem_of_In. by eapply find_none.
  - induction l as [|y l IH]; [done|]. cbn. intros Hall. rewrite (Hall y) by by left.
    apply IH. intros x Hx. apply Hall. by right.
Qed.

(** A search succeeds with the only row that satisfies it. *)
Lemma find_unique {A} (p : A -> bool) l x :
  x ∈ l -> p x = true -> (forall y, y ∈ l -> p y = true -> y = x) -> find p l = Some x.
Proof.
  intros Hin Hp Hu. destruct (find p l) as [y|] eqn:E.
  - apply find_elem in E as [Hy Hpy]. by rewrite (Hu y Hy Hpy).
  - rewrite (proj1 (find_absent p l) E x Hin) in Hp. done.
Qed.

Lemma for_each_cons {A S} (g : S -> A -> result S) s x l :
  for_each g s (x :: l) = (s' ← g s x; for_each g s' l).
Proof. done. Qed.

Lemma the_Ok {A} (o : option A) attribute a : the o attribute = Ok a <-> o = Some a.
Proof. unfold the, raise. destruct o; split; congruence. Qed.

(** ** The page store *)

Section Store.
Context `{TextHash}.

Lemma publish_Ok pages path content hash pages' :
  publish_user_judgment_markdown pages path content = Ok (hash, pages') <->
  exists target, safe_target path = Ok target /\ Z.of_nat (String.length content) <= MAX_WIKI_BYTES
    /\ pages !! target = None /\ hash = text_hash content /\ pages' = <[target := content]> pages.
Proof.
  unfold publish_user_judgment_markdown. rewrite raise_when_bind_Ok, bind_Ok, Z.ltb_ge. split.
  - intros (Hs & t & Ht & Hr). apply raise_when_bind_Ok in Hr as [Hn [= <- <-]].
    exists t. by destruct (pages !! t) eqn:E.
  - intros (t & Ht & Hs & Hn & -> & ->). split; [done|]. exists t. split; [done|]. by rewrite Hn.
Qed.

Lemma publish_load pages path content hash pages' :
  publish_user_judgment_markdown pages path content = Ok (hash, pages') ->
  load_verified_user_judgment_markdown pages' path hash content = Ok content.
Proof.
  intros (t & Ht & Hs & Hn & -> & ->)%publish_Ok. unfold load_verified_user_judgment_markdown.
  rewrite Ht. cbn. rewrite lookup_insert_eq. apply Z.ltb_ge in Hs. rewrite Hs.
  by rewrite !String.eqb_refl.
Qed.

Lemma publish_remove pages path content hash pages' :
  publish_user_judgment_markdown pages path content = Ok (hash, pages') ->
  remove_user_judgment_markdown pages' path = pages.
Proof.
  intros (t & Ht & Hs & Hn & -> & ->)%publish_Ok. unfold remove_user_judgment_markdown.
  rewrite Ht. by apply delete_insert_id.
Qed.

End Store.

(** ** Sealing *)

Section Sealing.
Context `{CanonicalHash} `{TextHash} `{Committee.FloatFormat}.
Context (zone_info : string -> result zoneinfo) (default_universe_hash : string).
Context (alnum : string -> bool) (dump_spec : AgentSpecBody -> json) (registered : list AgentSpec).
Context (stored : datetime -> datetime).

Local Abbreviation clock := (run_market_clock zone_info default_universe_hash).
Local Abbreviation zone_of := (forecast_market_zone zone_info default_universe_hash).
Local Abbreviation admit_req := (admit_request zone_info default_universe_hash).
Local Abbreviation prepare_row := (prepare zone_info default_universe_hash alnum).
Local Abbreviation verify := (verify_user_judgment zone_info default_universe_hash).
Local Abbreviation create :=
  (create_user_judgment zone_info default_universe_hash alnum dump_spec registered stored).
Local Abbreviation commit := (commit_judgment dump_spec stored).

(** Runs and forecasts carry their keys. *)
Definition keyed (db : Db) : Prop :=
  map_Forall (fun k run => r_id (st_run run) = k) (jd_runs db)
  /\ map_Forall (fun k f => fc_id f = k) (jd_forecasts db).

(** The forecast of a request, in its mode and universe. *)
Definition addressed (db : Db) (r : UserJudgmentCreate) (mode universe : string) (f : Forecast)
    (run : StoredRun) (zone : zoneinfo) : Prop :=
  jd_forecasts db !! rq_forecast_id r = Some f /\ jd_runs db !! fc_run_id f = Some run
  /\ r_mode (st_run run) = mode /\ r_market_universe_hash (st_run run) = universe
  /\ exists close, clock (st_run run) = Ok (zone, close).

Lemma zone_of_Ok db f run zone :
  jd_runs db !! fc_run_id f = Some run ->
  zone_of db f = Ok zone <-> exists close, clock (st_run run) = Ok (zone, close).
Proof.
  intros Hr. unfold forecast_market_zone, run_of. rewrite Hr. cbn.
  destruct (clock (st_run run)) as [[z c]|]; cbn; split; try done.
  - intros [= <-]. by exists c.
  - by intros [c' [= <- <-]].
  - by intros [c' ?].
Qed.

Lemma admit_Ok db r actor_id timezone mode universe a :
  admit_req db r actor_id timezone mode universe = Ok a <->
  (exists z, zone_info timezone = Ok z) /\ validate_actor_id actor_id = Ok (am_actor a)
  /\ (mode = "demo" \/ mode = "live")
  /\ addressed db r mode universe (am_forecast a) (am_run a) (am_zone a).
Proof.
  unfold admit_request, addressed. rewrite bind_Ok. split.
  - intros (z & Hz & Ha). rewrite bind_Ok in Ha. destruct Ha as (actor & Hact & Ha).
    apply raise_when_bind_Ok in Ha as [Hm Ha]. apply negb_false_iff, bool_decide_eq_true in Hm.
    destruct (jd_forecasts db !! _) as [f|] eqn:Hf; [|done]. cbn in Ha.
    destruct (jd_runs db !! _) as [run|] eqn:Hr; [|done]. cbn in Ha.
    apply raise_when_bind_Ok in Ha as [Hmu Ha]. bool_prop.
    rewrite bind_Ok in Ha. destruct Ha as (zone & Hzone & [= <-]). cbn.
    apply (zone_of_Ok _ _ _ _ Hr) in Hzone.
    split; [by exists z|]. split; [done|]. split; [set_solver|]. done.
  - intros ([z Hz] & Hact & Hm & Hf & Hr & Hmode & Hu & Hclock). exists z. split; [done|].
    rewrite Hact. cbn. rewrite bool_decide_eq_true_2 by set_solver. cbn.
    rewrite Hf. cbn. rewrite Hr. cbn. rewrite Hmode, Hu, !String.eqb_refl. cbn.
    rewrite (proj2 (zone_of_Ok _ _ _ _ Hr) Hclock). cbn. by destruct a.
Qed.

(** A new seal: the parts of the call that made it. *)
Definition seals (db now_db : Db) (pages : Pages) (r : UserJudgmentCreate) (new_id : string)
    (market_open : Z) (now : datetime) (a : Admitted_request) (row0 : UserJudgment) (payload : Payload)
    (markdown artifact : string) (spec : AgentSpec) (row : UserJudgment) (db' : Db) (pages' : Pages) : Prop :=
  let hash := canonical_hash (payload_json payload) in
  judgment_of db (am_actor a) (fc_id (am_forecast a)) = None
  /\ prepare_row db a r new_id market_open (aware (am_zone a) now) = Ok (row0, payload)
  /\ render_user_judgment_markdown payload hash = Ok markdown
  /\ publish_user_judgment_markdown pages (uj_wiki_path row0) markdown = Ok (artifact, pages')
  /\ agent_spec registered (ag_id USER_JUDGMENT_AGENT) = Ok spec
  /\ row = sealed row0 (Some (as_content_hash spec)) hash artifact
  /\ commit now_db spec row = Ok db'.

Lemma replay_Ok db pages j r message x :
  replay_existing zone_info default_universe_hash db pages j r message = Ok x ->
  x = (j, false, db) /\ same_request j r = true /\ exists page, verify db pages j = Ok page.
Proof.
  unfold replay_existing. destruct (same_request j r); [|done].
  rewrite bind_Ok. intros (page & Hp & [= <-]). eauto.
Qed.

Lemma create_new new_id db now_db pages r actor_id timezone mode universe market_open now row db' pages' :
  create new_id db now_db pages r actor_id timezone mode universe market_open now
    = (Ok (row, true, db'), pages') ->
  exists a row0 payload markdown artifact spec,
    admit_req db r actor_id timezone mode universe = Ok a
    /\ seals db now_db pages r new_id market_open now a row0 payload markdown artifact spec row db' pages'.
Proof.
  unfold create_user_judgment. destruct (admit_req _ _ _ _ _ _) as [a|]; [|done].
  destruct (judgment_of db _ _) as [existing|] eqn:Hex.
  { intros [= Hr _]. by apply replay_Ok in Hr as [[=] _]. }
  match goal with |- context [match ?x with Ok _ => _ | Err _ => (Err _, pages) end] =>
    destruct x as [[[[row0 hash] artifact] pages1]|] eqn:Hd; [|done] end.
  inv_ok Hd. destruct v as [row1 payload]. inv_ok Hd. destruct v0 as [art p1].
  injection Hd as <- <- <- <-.
  destruct (agent_spec registered _) as [spec|] eqn:Hspec; [|done].
  destruct (negb _); [done|]. destruct (commit_judgment _ _ _ _ _) as [db1|e] eqn:Hc.
  - intros [= <- <- <-]. exists a, row1, payload, v, art, spec. done.
  - destruct (bool_decide _); [|done]. destruct (judgment_of now_db _ _) as [j|]; [|done].
    intros [= Hr _]. by apply replay_Ok in Hr as [[=] _].
Qed.

(** A failed call leaves nothing behind: whenever no new judgment is sealed,
    be it an error before the page is written, a lost race at the commit, an
    audit failure or the replay of an identical request, the directory of pages
    is exactly as before, and a replay returns the database it read or, after a
    lost race, the one of the commit. *)
Theorem failed_judgment_leaves_nothing new_id db now_db pages r actor_id timezone mode universe
    market_open now res pages' spec :
  agent_spec registered (ag_id USER_JUDGMENT_AGENT) = Ok spec ->
  create new_id db now_db pages r actor_id timezone mode universe market_open now = (res, pages') ->
  (exists row db', res = Ok (row, true, db'))
  \/ pages' = pages
     /\ forall row fresh db', res = Ok (row, fresh, db') ->
          fresh = false /\ same_request row r = true /\ (db' = db \/ db' = now_db)
          /\ exists page, verify db' pages row = Ok page.
Proof.
  intros Hspec. unfold create_user_judgment. rewrite Hspec.
  destruct (admit_req _ _ _ _ _ _) as [a|]; [|intros [= <- <-]; by right].
  destruct (judgment_of db _ _) as [existing|].
  { intros [= <- <-]. right. split; [done|]. intros row fresh db' Hr.
    apply replay_Ok in Hr as ([= -> -> ->] & ? & ?). auto. }
  match goal with |- context [match ?x with Ok _ => _ | Err _ => (Err _, pages) end] =>
    destruct x as [[[[row0 hash] artifact] pages1]|] eqn:Hd; [|intros [= <- <-]; by right] end.
  inv_ok Hd. destruct v as [row1 payload]. inv_ok Hd. destruct v0 as [art p1].
  injection Hd as <- <- <- <-.
  match goal with Hp : publish_user_judgment_markdown _ _ _ = _ |- _ => apply publish_remove in Hp as -> end.
  destruct (negb _); [intros [= <- <-]; by right|].
  destruct (commit_judgment _ _ _ _ _) as [db1|e]; [intros [= <- <-]; left; eauto|].
  destruct (bool_decide _); [|intros [= <- <-]; by right].
  destruct (judgment_of now_db _ _) as [j|]; intros [= <- <-]; right; [|done].
  split; [done|]. intros row fresh db' Hr. apply replay_Ok in Hr as ([= -> -> ->] & ? & ?). auto.
Qed.

Lemma prepare_Ok db a r new_id market_open current row0 payload :
  prepare_row db a r new_id market_open current = Ok (row0, payload) ->
  exists deadline,
    validate_request r = Ok tt
    /\ user_judgment_submission_deadline zone_info default_universe_hash db (am_forecast a) market_open
       = Ok deadline
    /\ check_window (am_run a) (isSome (evaluation_of db (fc_id (am_forecast a)))) (am_zone a) current deadline
       = Ok tt
    /\ row0 = draft alnum new_id (am_actor a) (am_forecast a) (st_run (am_run a)) r current deadline
    /\ payload_of row0 (isoformat current) (isoformat <$> deadline) = Ok payload.
Proof.
  unfold prepare. intros Hp. inv_ok Hp. destruct v, v1. injection Hp as <- <-. exists v0. done.
Qed.

Lemma check_window_Ok run evaluated zone current deadline :
  check_window run evaluated zone current deadline = Ok tt ->
  r_status (st_run run) = RUN_COMPLETED
  /\ (exists t, st_completed_at run = Some t /\ wall_ltb current (aware zone t) = false)
  /\ (r_mode (st_run run) = "live" -> evaluated = false
       /\ exists d, deadline = Some d /\ wall_ltb current d = true)
  /\ (r_mode (st_run run) = "live" \/ r_mode (st_run run) = "demo").
Proof.
  unfold check_window. intros Hw. inv_ok Hw. bool_prop. split; [done|].
  destruct (st_completed_at run) as [t|]; [|done]. split; [by exists t|].
  destruct (String.eqb_spec (r_mode (st_run run)) "live") as [Hm|Hm].
  - inv_ok Hw. apply raise_when_Ok in Hw. split; [|by left]. intros _. split; [done|].
    destruct deadline as [d|]; [|done]. apply negb_false_iff in Hw. eauto.
  - apply raise_when_Ok, negb_false_iff, String.eqb_eq in Hw. split; [done|by right].
Qed.

(** Only the judgment and its specification enter the database. *)
Lemma commit_Ok db spec row db' :
  commit db spec row = Ok db' ->
  jd_judgments db !! uj_id row = None
  /\ (forall j f, j ∈ rows (jd_judgments db) -> uj_forecast_id row = Some f ->
        same_slot (uj_actor_id row) f j = false)
  /\ jd_judgments db' = <[uj_id row := stored_row stored row]> (jd_judgments db)
  /\ jd_runs db' = jd_runs db /\ jd_forecasts db' = jd_forecasts db
  /\ jd_evaluations db' = jd_evaluations db /\ jd_results db' = jd_results db
  /\ jd_batches db' = jd_batches db /\ jd_specs db ⊆ jd_specs db'.
Proof.
  unfold commit_judgment, insert_judgment. rewrite bind_Ok. intros (db1 & Hp & Hi).
  apply raise_when_bind_Ok in Hi as [Hu [= <-]]. apply orb_false_iff in Hu as [Hid Hslot].
  assert (Hdb : jd_judgments db1 = jd_judgments db /\ jd_runs db1 = jd_runs db
    /\ jd_forecasts db1 = jd_forecasts db /\ jd_evaluations db1 = jd_evaluations db
    /\ jd_results db1 = jd_results db /\ jd_batches db1 = jd_batches db /\ jd_specs db ⊆ jd_specs db1).
  { unfold persist_agent_spec in Hp. inv_ok Hp.
    destruct (jd_specs db !! _) as [x|] eqn:Hx; [inv_ok Hp|]; injection Hp as <-; split_and!; try done.
    by apply insert_subseteq. }
  destruct Hdb as (Hj & Hr & Hf & He & Hs & Hb & Hsp). rewrite Hj in *. cbn. split.
  - by destruct (jd_judgments db !! uj_id row).
  - split; [|done]. intros j f Hin Hf'. apply (proj1 (existsb_false _ _) Hslot) in Hin.
    apply orb_false_iff in Hin as [Hin _]. rewrite Hf' in Hin. unfold same_slot.
    destruct (bool_decide_reflect (uj_forecast_id j = Some f)) as [E|]; [|done].
    rewrite E in Hin. by repeat (case_bool_decide; try done).
Qed.

Lemma deadline_Ok db f market_open d run :
  jd_runs db !! fc_run_id f = Some run -> r_mode (st_run run) = "live" ->
  user_judgment_submission_deadline zone_info default_universe_hash db f market_open = Ok (Some d) ->
  exists zone, zone_of db f = Ok zone /\ d = combine (fc_target_date f) market_open zone.
Proof.
  intros Hr Hm. unfold user_judgment_submission_deadline, run_of. rewrite Hr. cbn. rewrite Hm. cbn.
  destruct (st_completed_at run); [|done]. rewrite bind_Ok. intros (zone & Hz & [= <-]). eauto.
Qed.

Lemma demo_deadline db f market_open d run :
  jd_runs db !! fc_run_id f = Some run -> r_mode (st_run run) = "demo" ->
  user_judgment_submission_deadline zone_info default_universe_hash db f market_open = Ok d -> d = None.
Proof.
  intros Hr Hm. unfold user_judgment_submission_deadline, run_of. rewrite Hr. cbn. rewrite Hm. cbn.
  by intros [= <-].
Qed.

Lemma validate_request_Ok r :
  validate_request r = Ok tt ->
  (rq_direction r = "up" \/ rq_direction r = "down")
  /\ fleb (lit 1 2) (rq_confidence r) = true /\ fleb (rq_confidence r) f1 = true.
Proof.
  unfold validate_request. intros Hr. inv_ok Hr. clear Hr.
  apply negb_false_iff, bool_decide_eq_true in Hok. apply orb_false_iff in Hok0 as [_ Hc].
  apply negb_false_iff, andb_true_iff in Hc as [? ?]. split; [set_solver|done].
Qed.

Lemma draft_bound new_id actor f run r current deadline :
  r_id run = fc_run_id f ->
  binding_mismatches (draft alnum new_id actor f run r current deadline) f run = [].
Proof.
  intros Hid. unfold binding_mismatches; cbn.
  rewrite Hid, !bool_decide_eq_true_2, !String.eqb_refl, Z.eqb_refl by done. done.
Qed.

Lemma draft_same_request new_id actor f run r current deadline spec_hash hash artifact :
  same_request (sealed (draft alnum new_id actor f run r current deadline) spec_hash hash artifact) r = true.
Proof. unfold same_request; cbn. by rewrite !String.eqb_refl, eqb_reflx. Qed.

Lemma draft_constraints new_id actor f run r current deadline spec_hash hash artifact :
  validate_request r = Ok tt -> (r_mode run = "live" \/ r_mode run = "demo") ->
  (r_mode run = "live" -> exists d, deadline = Some d /\ wall_ltb current d = true) ->
  ck_user_judgment (sealed (draft alnum new_id actor f run r current deadline) spec_hash hash artifact)
  = true.
Proof.
  intros (Hdir & Hlow & Hhigh)%validate_request_Ok Hm Hl.
  unfold ck_user_judgment, sealed, draft.
  cbn [uj_direction uj_confidence uj_mode uj_formal_score_eligible uj_blind_attestation
       uj_submission_deadline uj_submitted_at].
  rewrite Hlow, Hhigh, !bool_decide_eq_true_2 by set_solver. cbn.
  destruct Hm as [Hm|Hm]; rewrite Hm in *; cbn; [|done]. destruct (Hl eq_refl) as (d & -> & ->).
  by destruct (rq_blind_attestation r).
Qed.

(** The stored row is the judgment of its slot. *)
Lemma committed_slot db db' row f :
  uj_forecast_id row = Some f ->
  (forall j, j ∈ rows (jd_judgments db) -> same_slot (uj_actor_id row) f j = false) ->
  jd_judgments db' = <[uj_id row := stored_row stored row]> (jd_judgments db) ->
  judgment_of db' (uj_actor_id row) f = Some (stored_row stored row).
Proof.
  intros Hf Hother Hj. unfold judgment_of. rewrite Hj. apply find_unique.
  - apply table_elem. exists (uj_id row). by rewrite lookup_insert_eq.
  - unfold same_slot; cbn. by rewrite bool_decide_eq_true_2, String.eqb_refl.
  - intros j [k Hk]%table_elem Hs. destruct (decide (k = uj_id row)) as [->|Hne].
    + rewrite lookup_insert_eq in Hk. congruence.
    + rewrite lookup_insert_ne in Hk by done.
      rewrite (Hother j) in Hs; [done|]. apply table_elem. by exists k.
Qed.

(** C36 A new judgment is sealed in time and bound to its forecast.  It comes
    from the call's actor, on the forecast of the expected mode and universe, no
    earlier than the completion of a completed run; in a live run it comes
    strictly before the market of the target date opens, and before any outcome;
    it is eligible for the score exactly in a live run with the declaration of
    independence; it satisfies the constraints of its table and is the only
    judgment of the actor on the forecast; nothing else but its specification
    enters the database. *)
Theorem judgment_sealed_in_time new_id db now_db pages r actor_id timezone mode universe market_open now
    row db' pages' :
  keyed db ->
  create new_id db now_db pages r actor_id timezone mode universe market_open now
    = (Ok (row, true, db'), pages') ->
  exists f run zone,
    addressed db r mode universe f run zone
    /\ validate_actor_id actor_id = Ok (uj_actor_id row)
    /\ uj_id row = new_id /\ uj_submitted_at row = aware zone now
    /\ r_status (st_run run) = RUN_COMPLETED
    /\ (exists t, st_completed_at run = Some t /\ wall_ltb (aware zone now) (aware zone t) = false)
    /\ (mode = "live" ->
         evaluation_of db (fc_id f) = None
         /\ wall_ltb (aware zone now) (combine (fc_target_date f) market_open zone) = true
         /\ uj_submission_deadline row = Some (combine (fc_target_date f) market_open zone))
    /\ (mode = "demo" -> uj_submission_deadline row = None)
    /\ uj_formal_score_eligible row = ((mode =? "live")%string && rq_blind_attestation r)
    /\ binding_mismatches row f (st_run run) = []
    /\ same_request row r = true /\ ck_user_judgment row = true
    /\ jd_judgments now_db !! new_id = None
    /\ jd_judgments db' = <[new_id := stored_row stored row]> (jd_judgments now_db)
    /\ judgment_of db' (uj_actor_id row) (fc_id f) = Some (stored_row stored row)
    /\ jd_runs db' = jd_runs now_db /\ jd_forecasts db' = jd_forecasts now_db
    /\ jd_evaluations db' = jd_evaluations now_db /\ jd_results db' = jd_results now_db
    /\ jd_batches db' = jd_batches now_db.
Proof.
  intros Hk (a & row0 & payload & markdown & artifact & spec & Ha & Hs)%create_new.
  destruct Hs as (_ & Hp & _ & _ & _ & -> & Hc).
  apply admit_Ok in Ha as (_ & Hact & _ & Haddr). pose proof Haddr as (Hf & Hr & Hm & Hu & Hclock).
  apply prepare_Ok in Hp as (deadline & Hreq & Hd & Hw & -> & Hpay).
  apply check_window_Ok in Hw as (Hst & Hcomp & Hlive & Hmodes).
  apply commit_Ok in Hc as (Hid & Hslot & Hj & Hrows).
  assert (Hrid : r_id (st_run (am_run a)) = fc_run_id (am_forecast a)) by apply (proj1 Hk _ _ Hr).
  assert (Hl : mode = "live" -> deadline = Some (combine (fc_target_date (am_forecast a)) market_open (am_zone a))
    /\ wall_ltb (aware (am_zone a) now) (combine (fc_target_date (am_forecast a)) market_open (am_zone a)) = true
    /\ evaluation_of db (fc_id (am_forecast a)) = None).
  { intros ->. destruct (Hlive Hm) as (He & d & -> & Hbefore).
    destruct (deadline_Ok _ _ _ _ _ Hr Hm Hd) as (zone & Hz & ->).
    assert (zone = am_zone a) as ->.
    { apply (zone_of_Ok _ _ _ _ Hr) in Hz as [c1 Hc1]. destruct Hclock as [c2 Hc2]. congruence. }
    split; [done|]. split; [done|]. by destruct (evaluation_of db _). }
  destruct Hrows as (Hruns & Hfs & Hev & Hres & Hbat & _).
  exists (am_forecast a), (am_run a), (am_zone a).
  split; [done|]. split; [done|]. split; [done|]. split; [done|]. split; [done|]. split; [done|].
  split; [by intros Hx; destruct (Hl Hx) as (-> & ? & ?)|].
  split; [intros Hx; by apply (demo_deadline _ _ _ _ _ Hr (eq_trans Hm Hx) Hd)|].
  split; [cbn; by rewrite Hm|]. split; [by apply (draft_bound new_id (am_actor a) _ _ r)|].
  split; [apply draft_same_request|].
  split; [apply draft_constraints; [done|done|intros Hx; destruct (Hlive Hx) as (_ & Hd'); done]|].
  split; [done|]. split; [done|]. split; [|done].
  by apply (committed_slot now_db); [|intros j Hin; apply Hslot|].
Qed.

(** The database gives the two times of a row back: read in the zone they are
    the times that were stored, and their order is kept. *)
Definition reads_back (zone : zoneinfo) (row : UserJudgment) : Prop :=
  aware zone (stored (uj_submitted_at row)) = uj_submitted_at row
  /\ forall d, uj_submission_deadline row = Some d ->
       aware zone (stored d) = d /\ datetime_precedes (stored (uj_submitted_at row)) (stored d) = true.

Lemma binding_Ok db j f run :
  jd_runs db !! fc_run_id f = Some run ->
  binding_mismatches j f (st_run run) = [] -> uj_agent_id j = ag_id USER_JUDGMENT_AGENT ->
  uj_agent_version j = ag_version USER_JUDGMENT_AGENT -> uj_policy_version j = USER_JUDGMENT_POLICY_VERSION ->
  (uj_direction j = "up" \/ uj_direction j = "down") ->
  (uj_mode j = "live" -> exists d, uj_submission_deadline j = Some d
                         /\ datetime_precedes (uj_submitted_at j) d = true) ->
  (uj_formal_score_eligible j = true -> uj_mode j = "live" /\ uj_blind_attestation j = true) ->
  validate_judgment_forecast_binding db j f = Ok tt.
Proof.
  intros Hr Hm Ha Hv Hp Hd Hl He. unfold validate_judgment_forecast_binding, run_of.
  rewrite Hr. cbn [the mbind result_bind]. rewrite Hm, Ha, Hv, Hp, String.eqb_refl.
  rewrite (bool_decide_eq_true_2 (uj_direction j ∈ _)) by set_solver. cbn.
  destruct (String.eqb_spec (uj_mode j) "live") as [Em|Em].
  - destruct (Hl Em) as (d & -> & ->). cbn.
    destruct (uj_formal_score_eligible j); cbn; [|done]. by destruct (He eq_refl) as [_ ->].
  - cbn. destruct (uj_formal_score_eligible j); [|done]. by destruct (He eq_refl).
Qed.

Lemma verify_record_intro db j id f zone payload :
  uj_forecast_id j = Some id -> jd_forecasts db !! id = Some f ->
  validate_judgment_forecast_binding db j f = Ok tt -> zone_of db f = Ok zone ->
  payload_from_row j zone = Ok payload -> canonical_hash (payload_json payload) = uj_content_hash j ->
  verify_user_judgment_record zone_info default_universe_hash db j = Ok payload.
Proof.
  intros Hid Hf Hb Hz Hp Hh. unfold verify_user_judgment_record. rewrite Hid. cbn. rewrite Hf. cbn.
  rewrite Hb. cbn. rewrite Hz. cbn. rewrite Hp. cbn. by rewrite Hh, String.eqb_refl.
Qed.

Lemma verify_intro db pages j payload page :
  verify_user_judgment_record zone_info default_universe_hash db j = Ok payload ->
  render_user_judgment_markdown payload (uj_content_hash j) = Ok page ->
  load_verified_user_judgment_markdown pages (uj_wiki_path j) (uj_wiki_artifact_hash j) page = Ok page ->
  jd_evaluations db !! uj_id j = None -> verify db pages j = Ok page.
Proof.
  intros Hp Hr Hl He. unfold verify_user_judgment. rewrite Hp. cbn. rewrite Hr. cbn. rewrite Hl. cbn.
  by rewrite He.
Qed.

Lemma binding_stored row f run : binding_mismatches (stored_row stored row) f run = binding_mismatches row f run.
Proof. done. Qed.

Lemma payload_stored row zone :
  reads_back zone row ->
  payload_from_row (stored_row stored row) zone
  = payload_of row (isoformat (uj_submitted_at row)) (isoformat <$> uj_submission_deadline row).
Proof.
  intros [Hs Hd]. unfold payload_from_row, payload_of; cbn. rewrite Hs.
  destruct (uj_submission_deadline row) as [d|]; cbn; [|done]. by destruct (Hd d eq_refl) as [-> _].
Qed.

(** A freshly sealed row verifies on any database that holds its forecast and
    run. *)
Lemma seal_verifies db pages r new_id market_open now a row0 payload markdown artifact spec row db1 db' pages' :
  seals db db1 pages r new_id market_open now a row0 payload markdown artifact spec row db' pages' ->
  keyed db -> jd_forecasts db !! fc_id (am_forecast a) = Some (am_forecast a) ->
  jd_runs db !! fc_run_id (am_forecast a) = Some (am_run a) ->
  (exists close, clock (st_run (am_run a)) = Ok (am_zone a, close)) ->
  jd_forecasts db' = jd_forecasts db -> jd_runs db' = jd_runs db -> jd_evaluations db' !! uj_id row = None ->
  reads_back (am_zone a) row ->
  verify db' pages' (stored_row stored row) = Ok markdown.
Proof.
  intros (_ & Hp & Hren & Hpub & _ & -> & _) Hk Hf Hr Hclock Hfs Hrs Hev Hback.
  apply prepare_Ok in Hp as (deadline & Hreq & _ & Hw & -> & Hpay).
  apply check_window_Ok in Hw as (_ & _ & Hlive & _).
  assert (Hr' : jd_runs db' !! fc_run_id (am_forecast a) = Some (am_run a)) by by rewrite Hrs.
  eapply verify_intro; [|exact Hren|by eapply publish_load|done].
  apply (verify_record_intro _ _ (fc_id (am_forecast a)) (am_forecast a) (am_zone a)); [done|by rewrite Hfs| | | |done].
  - apply (binding_Ok _ _ _ (am_run a)); [done| |done|done|done| | |].
    + rewrite binding_stored. apply (draft_bound new_id (am_actor a) _ _ r), (proj1 Hk _ _ Hr).
    + by apply validate_request_Ok in Hreq as (Hdir & _).
    + cbn. intros Hm. destruct (Hlive Hm) as (_ & d & -> & _). exists (stored d). split; [done|].
      by apply (proj2 Hback d).
    + cbn. intros [Hm Hb]%andb_true_iff. split; [by apply String.eqb_eq|done].
  - by apply (zone_of_Ok _ _ (am_run a)).
  - by rewrite payload_stored.
Qed.


End Sealing.

(** ** Scoring *)

Section Scoring.
Context `{CanonicalHash}.
Context (batch : EvaluationBatch) (f : Forecast) (evaluation : EvaluationResult) (material_outcome : bool).

(** What an evaluation row certifies of a judgment. *)
Definition scores (j : UserJudgment) (row : UserJudgmentEvaluation) : Prop :=
  let sign := sign_result (uj_direction j) (ev_actual_return evaluation) in
  ue_user_judgment_id row = uj_id j /\ ue_batch_id row = eb_id batch
  /\ ue_evaluation_result_id row = ev_id evaluation
  /\ float_hex (ue_actual_return row) = float_hex (ev_actual_return evaluation)
  /\ ue_actual_label row = ev_actual_label evaluation
  /\ ue_observation_hash row = ev_observation_hash evaluation
  /\ ue_sign_correct row = sign
  /\ ue_material_direction_correct row = (if material_outcome then sign else None).

(** The batch and the outcome are stored, and are those of the forecast. *)
Definition official (db : Db) : Prop :=
  jd_batches db !! eb_id batch = Some batch /\ jd_results db !! ev_id evaluation = Some evaluation
  /\ ev_forecast_id evaluation = fc_id f /\ eb_status batch = "completed"
  /\ eb_target_date batch = fc_target_date f /\ eb_horizon batch = fc_horizon f.

Local Abbreviation expected := (expected_of batch evaluation material_outcome).
Local Abbreviation verified db row j :=
  (exists payload, verify_user_judgment_evaluation db row j (Some (expected j)) = Ok payload).

Lemma verified_scores db row j : verified db row j -> scores j row.
Proof.
  intros [payload Hv]. unfold verify_user_judgment_evaluation in Hv. inv_ok Hv.
  match goal with Hx : check_expected _ _ = _ |- _ => unfold check_expected in Hx; inv_ok Hx end.
  unfold scores. cbn in *. bool_prop.
  repeat match goal with Hx : raise_when _ _ _ = Ok _ |- _ => apply raise_when_Ok in Hx end.
  bool_prop. split_and!; congruence.
Qed.

Lemma verified_ext db1 db2 row j expected_ :
  jd_batches db1 = jd_batches db2 -> jd_results db1 = jd_results db2 ->
  verify_user_judgment_evaluation db1 row j expected_ = verify_user_judgment_evaluation db2 row j expected_.
Proof. intros Hb Hr. unfold verify_user_judgment_evaluation. by rewrite Hb, Hr. Qed.

Lemma binding_ext db1 db2 j :
  jd_runs db1 = jd_runs db2 ->
  validate_judgment_forecast_binding db1 j f = validate_judgment_forecast_binding db2 j f.
Proof. intros Hr. unfold validate_judgment_forecast_binding, run_of. by rewrite Hr. Qed.

Lemma no_mismatch_fields j run :
  binding_mismatches j f run = [] ->
  uj_forecast_id j = Some (fc_id f) /\ uj_horizon j = fc_horizon f /\ uj_target_date j = fc_target_date f.
Proof.
  unfold binding_mismatches. intros Hm.
  destruct (bool_decide_reflect (uj_forecast_id j = Some (fc_id f))); [|done].
  destruct (bool_decide (uj_forecast_input_hash j = _)); [|done].
  destruct (String.eqb_spec (uj_horizon j) (fc_horizon f)); [|done].
  destruct (uj_index_code j =? _)%string; [|done]. destruct (uj_mode j =? _)%string; [|done].
  destruct (uj_run_id j =? _)%string; [|done]. destruct (uj_run_input_hash j =? _)%string; [|done].
  destruct (Z.eqb_spec (uj_target_date j) (fc_target_date f)); done.
Qed.

Lemma binding_fields db j :
  validate_judgment_forecast_binding db j f = Ok tt ->
  uj_forecast_id j = Some (fc_id f) /\ uj_horizon j = fc_horizon f /\ uj_target_date j = fc_target_date f.
Proof.
  unfold validate_judgment_forecast_binding. intros Hb. inv_ok Hb.
  destruct (binding_mismatches j f _) eqn:E; [|done]. by eapply no_mismatch_fields.
Qed.

Lemma scores_expected j row : scores j row -> check_expected row (expected j) = Ok tt.
Proof.
  intros (_ & Hb & He & Hr & Hl & Ho & Hs & Hm). unfold check_expected; cbn.
  rewrite Hb, He, Hr, Hl, Ho, Hs, Hm, !String.eqb_refl, !bool_decide_eq_true_2 by done. done.
Qed.

Lemma verify_evaluation_intro db j row :
  official db -> validate_judgment_forecast_binding db j f = Ok tt -> scores j row ->
  ue_actual_return row = ev_actual_return evaluation ->
  ue_policy_version row = USER_JUDGMENT_EVALUATION_POLICY_VERSION ->
  ue_content_hash row = canonical_hash (evaluation_payload row j batch evaluation) -> verified db row j.
Proof.
  intros (Hb & He & Hf & Hst & Ht & Hh) (Ef & Eh & Et)%binding_fields Hsc Hret Hp Hhash.
  pose proof (scores_expected j row Hsc) as Hexp.
  destruct Hsc as (Hj & Hb' & He' & Hr & Hl & Ho & Hs & Hm).
  exists (evaluation_payload row j batch evaluation). unfold verify_user_judgment_evaluation.
  rewrite Hb', He', Hb, He. cbn [the mbind result_bind]. rewrite Hexp, Hj, Hf, Hst, Ht, Hh, Ef, Eh, Et.
  rewrite Hr, Hl, Ho, Hp, Hret, Hs, Hm, Hhash, !String.eqb_refl, Z.eqb_refl. cbn.
  generalize (sign_result (uj_direction j) (ev_actual_return evaluation)) as sign. intros sign.
  rewrite (bool_decide_eq_true_2 (Some (fc_id f) = _)), (bool_decide_eq_true_2 (sign = sign)) by done. cbn.
  destruct material_outcome; [|done]. by rewrite bool_decide_eq_true_2, andb_false_r.
Qed.

(** A new row verifies. *)
Lemma new_verified db new_id j now :
  official db -> validate_judgment_forecast_binding db j f = Ok tt ->
  verified db (new_evaluation new_id (expected j) j now) j.
Proof. intros Hoff Hb. by apply verify_evaluation_intro. Qed.

Local Abbreviation one now new_id := (materialize_one batch f evaluation material_outcome now new_id).

Lemma materialize_step now new_id db rows_ j db' rows' :
  official db -> one now new_id (db, rows_) j = Ok (db', rows') ->
  exists row, rows' = (rows_ ++ [row])%list /\ jd_evaluations db' !! uj_id j = Some row
    /\ validate_judgment_forecast_binding db j f = Ok tt
    /\ verified db row j /\ db' = with_evaluations db (jd_evaluations db')
    /\ jd_evaluations db ⊆ jd_evaluations db'
    /\ forall k e, jd_evaluations db' !! k = Some e -> jd_evaluations db !! k = Some e \/ k = uj_id j.
Proof.
  intros Hoff. unfold materialize_one. intros Hs. inv_ok Hs. destruct v.
  destruct (jd_evaluations db !! uj_id j) as [row|] eqn:Hrow.
  - inv_ok Hs. injection Hs as <- <-. exists row. split_and!; try done; [by eexists|by destruct db|auto].
  - inv_ok Hs. injection Hs as <- <-. unfold insert_evaluation in Hok0. inv_ok Hok0. injection Hok0 as <-.
    eexists. split; [done|]. cbn. split; [by rewrite lookup_insert_eq|]. split; [done|].
    split; [by apply new_verified|]. split; [done|]. split; [by apply insert_subseteq|].
    intros k e. destruct (decide (k = uj_id j)) as [->|Hne]; [by right|]. rewrite lookup_insert_ne by done. auto.
Qed.

Lemma official_ext db m : official (with_evaluations db m) <-> official db.
Proof. done. Qed.

Lemma materialize_loop now new_id js : forall db rows_ db' rows',
  official db -> for_each (one now new_id) (db, rows_) js = Ok (db', rows') ->
  exists new, rows' = (rows_ ++ new)%list
    /\ db' = with_evaluations db (jd_evaluations db') /\ jd_evaluations db ⊆ jd_evaluations db'
    /\ (forall k e, jd_evaluations db' !! k = Some e -> jd_evaluations db !! k = Some e \/ k ∈ uj_id <$> js)
    /\ Forall2 (fun j row => jd_evaluations db' !! uj_id j = Some row
                  /\ validate_judgment_forecast_binding db j f = Ok tt /\ verified db row j) js new.
Proof.
  induction js as [|j js IH]; intros db rows_ db' rows' Hoff; cbn.
  { intros [= <- <-]. exists []. rewrite app_nil_r. split_and!; try done; [by destruct db|auto]. }
  rewrite bind_Ok. intros ([db1 rows1] & H1 & H2).
  apply materialize_step in H1 as (row & -> & Hrow & Hb & Hv & Hdb1 & Hsub & Hnew); [|done].
  rewrite Hdb1 in H2. apply IH in H2 as (new & -> & Hdb' & Hsub' & Hnew' & Hall); [|done]. cbn in *.
  exists (row :: new). split; [by rewrite <- app_assoc|]. split; [done|]. split; [by etrans|]. split.
  - intros k e Hk. destruct (Hnew' k e Hk) as [Hk'|Hk']; [|right; by right].
    destruct (Hnew k e Hk') as [?| ->]; [by left|right; by left].
  - constructor; [|exact Hall]. split; [by eapply lookup_weaken|done].
Qed.

Lemma materialize_again now new_id db js rows_ : forall done_,
  Forall2 (fun j row => jd_evaluations db !! uj_id j = Some row
             /\ validate_judgment_forecast_binding db j f = Ok tt /\ verified db row j) js rows_ ->
  for_each (one now new_id) (db, done_) js = Ok (db, (done_ ++ rows_)%list).
Proof.
  intros done_ Hall. revert done_. induction Hall as [|j row js rows_ (Hrow & Hb & payload & Hv) _ IH]; intros done_.
  { cbn. by rewrite app_nil_r. }
  assert (Hone : one now new_id (db, done_) j = Ok (db, (done_ ++ [row])%list)).
  { unfold materialize_one. rewrite Hb. cbn [mbind result_bind]. by rewrite Hrow, Hv. }
  rewrite for_each_cons, Hone. cbn [mbind result_bind]. by rewrite IH, <- app_assoc.
Qed.

Lemma first_existing now new_id db js j js' row x :
  js = j :: js' -> jd_evaluations db !! uj_id j = Some row ->
  for_each (one now new_id) (db, []) js = Ok x -> scores j row.
Proof.
  intros -> Hrow. cbn. rewrite bind_Ok. intros (s & Hs & _). unfold materialize_one in Hs. inv_ok Hs.
  rewrite Hrow in Hs. inv_ok Hs. apply (verified_scores db). by eexists.
Qed.

End Scoring.

(** Every eligible judgment is scored once, by the official outcome.  After a
    batch has been materialized each eligible judgment of the forecast has the
    returned row, which binds the batch and the outcome and derives its verdicts
    from the direction and the return; no other table changes, no evaluation is
    lost or replaced and none appears for another judgment.  Materializing again,
    at any later time, returns the same rows and changes nothing; another batch
    or another outcome is never accepted. *)
Theorem judgments_scored_once `{CanonicalHash} db batch f evaluation material now new_id db' rows_ :
  official batch f evaluation db ->
  materialize_user_judgment_evaluation db batch f evaluation material now new_id = Ok (db', rows_) ->
  let js := eligible db (fc_id f) in
  db' = with_evaluations db (jd_evaluations db') /\ jd_evaluations db ⊆ jd_evaluations db'
  /\ (forall k e, jd_evaluations db' !! k = Some e -> jd_evaluations db !! k = Some e \/ k ∈ uj_id <$> js)
  /\ Forall2 (fun j row => jd_evaluations db' !! uj_id j = Some row
                /\ scores batch evaluation material j row) js rows_
  /\ (forall now' new_id',
        materialize_user_judgment_evaluation db' batch f evaluation material now' new_id' = Ok (db', rows_))
  /\ forall batch' evaluation' material' now' new_id' x,
       js <> [] ->
       materialize_user_judgment_evaluation db' batch' f evaluation' material' now' new_id' = Ok x ->
       eb_id batch' = eb_id batch /\ ev_id evaluation' = ev_id evaluation
       /\ ev_actual_label evaluation' = ev_actual_label evaluation
       /\ float_hex (ev_actual_return evaluation') = float_hex (ev_actual_return evaluation)
       /\ ev_observation_hash evaluation' = ev_observation_hash evaluation.
Proof.
  intros Hoff Hm. cbv zeta. unfold materialize_user_judgment_evaluation in *.
  apply materialize_loop in Hm as (new & -> & Hdb & Hsub & Hnew & Hall); [|done]. rewrite app_nil_l.
  assert (Hjs : eligible db' (fc_id f) = eligible db (fc_id f)) by by rewrite Hdb. rewrite Hjs.
  split; [done|]. split; [done|]. split; [done|]. split; [|split].
  - eapply Forall2_impl; [exact Hall|]. intros j row (Hrow & _ & Hv). split; [done|].
    eapply verified_scores, Hv.
  - intros now' new_id'. apply (materialize_again _ _ _ _ now' new_id' db' _ _ []).
    eapply Forall2_impl; [exact Hall|]. intros j row (Hrow & Hb & payload & Hv). split; [done|].
    rewrite (binding_ext f db' db) by by rewrite Hdb. split; [done|]. exists payload.
    by rewrite (verified_ext db' db) by by rewrite Hdb.
  - intros batch' evaluation' material' now' new_id' x Hne Hx.
    destruct Hall as [|j row js' rows' (Hrow & _ & Hv) _]; [done|].
    eapply first_existing in Hx; [|done|exact Hrow]. apply verified_scores in Hv.
    destruct Hv as (_ & Hb1 & He1 & Hr1 & Hl1 & Ho1 & _), Hx as (_ & Hb2 & He2 & Hr2 & Hl2 & Ho2 & _).
    split_and!; congruence.
Qed.

(** ** A concrete judgment

    Sealed at eight in the morning of the target day, on a database that returns
    times without their zone, and scored after the close. *)
Module Witnesses.

Import MarketOutcomeProps.Witnesses(day1, at_hour, run1, forecast_on, zone_of, digest, from_ok).

#[local] Instance sample_hash : CanonicalHash := {| canonical_hash := fun _ => digest |}.
#[local] Instance sample_text_hash : TextHash := {| text_hash := fun _ => "page" |}.
#[local] Instance terse : Committee.FloatFormat :=
  {| Committee.percent0 := fun _ => "60%"; Committee.percent1 := fun _ => ""; Committee.signed3 := fun _ => "" |}.

Definition dump (_ : AgentSpecBody) : json := JNull.
Definition letters (c : string) : bool := bool_decide (c ∈ ["0"; "1"; "2"; "3"; "S"; "H"]).
Definition specs : list AgentSpec := from_ok [] (registry dump).
Definition naive (d : datetime) : datetime := DateTime (dt_wall d) None.

Definition the_forecast : Forecast := forecast_on "000001.SH".
Definition sealed_run : StoredRun := mkStoredRun run1 (Some (naive (at_hour 6))).
Definition db0 : Db :=
  mkJudgmentDb {[ "r1" := sealed_run ]} {[ fc_id the_forecast := the_forecast ]} ∅ ∅ ∅ ∅ ∅.
Definition request : UserJudgmentCreate :=
  mkRequest (fc_id the_forecast) "up" (lit 6 10) "volume and breadth both improved" "rates may surprise"
    "breaks the low of the week" true.
Definition opening : Z := time_of 9 30.

Local Abbreviation create_at new_id db pages r now :=
  (create_user_judgment zone_of "u" letters dump specs naive new_id db db pages r " ada " "Asia/Shanghai"
     "live" "u" opening now).

Definition created : result (UserJudgment * bool * Db) * Pages := create_at "j1" db0 ∅ request (at_hour 8).
Definition nobody : UserJudgment :=
  draft letters "" "" the_forecast run1 request (at_hour 0) None.
Definition row : UserJudgment := (from_ok (nobody, true, db0) created.1).1.1.
Definition db1 : Db := (from_ok (nobody, true, db0) created.1).2.
Definition pages1 : Pages := created.2.

Lemma creates :
  create_user_judgment zone_of "u" letters dump specs naive "j1" db0 db0 ∅ request " ada " "Asia/Shanghai"
    "live" "u" opening (at_hour 8) = (Ok (row, true, db1), pages1).
Proof. by_vm. Qed.

Lemma keyed_db0 : keyed db0.
Proof. split; apply map_Forall_singleton; done. Qed.

Lemma addressed_db0 : addressed zone_of "u" db0 request "live" "u" the_forecast sealed_run shanghai.
Proof. split_and!; [by_vm|by_vm|done|done|]. exists (time_of 15 0). by_vm. Qed.

Lemma judgment_sealed_in_time_witness :
  uj_actor_id row = "ada" /\ uj_formal_score_eligible row = true
  /\ uj_submission_deadline row = Some (combine day1 opening shanghai).
Proof.
  destruct (judgment_sealed_in_time zone_of "u" letters dump specs naive "j1" db0 db0 ∅ request " ada "
              "Asia/Shanghai" "live" "u" opening (at_hour 8) row db1 pages1 keyed_db0 creates)
    as (f & run & zone & Haddr & _ & _ & _ & _ & _ & Hlive & _).
  split; [by_vm|]. split; [by_vm|]. destruct (Hlive eq_refl) as (_ & _ & Hd). rewrite Hd.
  destruct Haddr as (Hf & Hr & _ & _ & [c Hc]), addressed_db0 as (Hf' & Hr' & _ & _ & [c' Hc']).
  rewrite Hf in Hf'. injection Hf' as ->. rewrite Hr in Hr'. injection Hr' as ->.
  rewrite Hc in Hc'. injection Hc' as -> _. done.
Defined.

Lemma reads_back_row : reads_back naive shanghai row.
Proof.
  split; [by_vm|]. assert (Hd : uj_submission_deadline row = Some (combine day1 opening shanghai)) by by_vm.
  intros d. rewrite Hd. intros [= <-]. split; by_vm.
Qed.

Definition other_request : UserJudgmentCreate :=
  mkRequest (fc_id the_forecast) "down" (lit 6 10) "volume and breadth both improved" "rates may surprise"
    "breaks the low of the week" true.


(** After the opening no judgment is accepted, and no page is left. *)
Lemma failed_judgment_leaves_nothing_witness :
  (create_at "j1" db0 ∅ request (at_hour 10)).2 = ∅.
Proof.
  destruct (failed_judgment_leaves_nothing zone_of "u" letters dump specs naive "j1" db0 db0 ∅ request " ada "
              "Asia/Shanghai" "live" "u" opening (at_hour 10)
              (create_at "j1" db0 ∅ request (at_hour 10)).1 (create_at "j1" db0 ∅ request (at_hour 10)).2
              (from_ok (Spec (SpecBody "" "" "" "" SHADOW MANUAL (Capabilities true PROB_NONE STRUCTURED EVIDENCE_NONE true true)
                 (Policy "" "" PART_SHADOW INFL_NONE [])) "")
                 (agent_spec specs (ag_id USER_JUDGMENT_AGENT))))
    as [(x & y & Hx)|[Hp _]]; [by_vm|apply surjective_pairing| |exact Hp].
  exfalso. assert (Hn : is_ok (create_at "j1" db0 ∅ request (at_hour 10)).1 = false) by by_vm.
  by rewrite Hx in Hn.
Defined.

Definition outcome : EvaluationResult :=
  EvalResult "x1" (fc_id the_forecast) (lit 2 100) "up" true f0 (at_hour 16) "s" (at_hour 16) day1 f1 "u" "h"
    day1 f1 "u" "h" "observed".
Definition batch : EvaluationBatch :=
  MarketOutcome.Batch "b1" day1 "D1" "completed" "set" "source" ∅ (at_hour 16) (Some (at_hour 16)) None.
Definition db2 : Db :=
  mkJudgmentDb (jd_runs db1) (jd_forecasts db1) (jd_judgments db1) ∅ {[ "x1" := outcome ]} {[ "b1" := batch ]}
    (jd_specs db1).
Definition scoring : result (Db * list UserJudgmentEvaluation) :=
  materialize_user_judgment_evaluation db2 batch the_forecast outcome true (at_hour 16) (fun _ => "e1").
Definition db3 : Db := (from_ok (db2, []) scoring).1.
Definition scored_rows_ : list UserJudgmentEvaluation := (from_ok (db2, []) scoring).2.

Lemma judgments_scored_once_witness :
  ue_sign_correct <$> scored_rows_ = [Some true]
  /\ materialize_user_judgment_evaluation db3 batch the_forecast outcome true (at_hour 20) (fun _ => "e2")
     = Ok (db3, scored_rows_).
Proof.
  split; [by_vm|].
  assert (Hs : materialize_user_judgment_evaluation db2 batch the_forecast outcome true (at_hour 16)
                 (fun _ => "e1") = Ok (db3, scored_rows_)) by by_vm.
  assert (Hoff : official batch the_forecast outcome db2) by (split_and!; by_vm).
  destruct (judgments_scored_once db2 batch the_forecast outcome true (at_hour 16) (fun _ => "e1") db3
              scored_rows_ Hoff Hs) as (_ & _ & _ & _ & Hagain & _).
  exact (Hagain (at_hour 20) (fun _ => "e2")).
Defined.

End Witnesses.

End JudgmentProps.
