(* ===== verification/Handoff.v ===== *)
(** * File handoff between the committee and an external task
      ([backend/app/services/handoff.py], its contracts and checks;
      [workflow_runtime_versions] of [backend/app/workflow.py])

    A prepared run is frozen in [input.json]: one assignment per agent,
    instrument and horizon.  The external task fills one draft per assignment;
    the drafts are accepted only as the exact matrix that was asked for, and a
    provider replays them through the committee graph.  A receipt closes each
    attempt. *)
From S2P Require Import Prelude PyStr PyTime Float64 Domain Json Contracts Snapshot Wiki Committee.
Import PyStr PyTime Float64 Domain Json Contracts Snapshot Wiki Committee.
Open Scope string_scope.
Open Scope Z_scope.

Module Handoff.

(** ** Protocol versions *)

(** [HandoffProtocolVersion] and [HandoffProviderName] *)
Inductive Protocol := PROTOCOL_1 | PROTOCOL_2 | PROTOCOL_3.
Inductive ProviderName := CODEX_FILE_1 | CODEX_FILE_2 | CODEX_FILE_3.
Inductive RuntimeMode := runtime_current | runtime_legacy_dual_horizon.

#[global] Instance protocol_eq_dec : EqDecision Protocol.
Proof. solve_decision. Defined.
#[global] Instance provider_eq_dec : EqDecision ProviderName.
Proof. solve_decision. Defined.

Definition HANDOFF_PROTOCOL_VERSION : Protocol := PROTOCOL_3.
Definition HANDOFF_WINDOW : Z := 8 * us_per_hour.
Definition MAX_JSON_BYTES : Z := 25 * 1024 * 1024.
Definition DRAFT_AGENT_IDS : list string :=
  EFFECTIVE_RESEARCH_AGENT_IDS ++ [STRATEGY_AGENT_ID; RISK_CRITIC_AGENT_ID].

Definition protocol_value (v : Protocol) : string :=
  match v with PROTOCOL_1 => "1.0.0" | PROTOCOL_2 => "2.0.0" | PROTOCOL_3 => "3.0.0" end.

Definition provider_value (p : ProviderName) : string :=
  match p with
  | CODEX_FILE_1 => "codex-file-handoff-v1"
  | CODEX_FILE_2 => "codex-file-handoff-v2"
  | CODEX_FILE_3 => "codex-file-handoff-v3"
  end.

(** [_provider_for_protocol] *)
Definition provider_for_protocol (v : Protocol) : ProviderName :=
  match v with PROTOCOL_1 => CODEX_FILE_1 | PROTOCOL_2 => CODEX_FILE_2 | PROTOCOL_3 => CODEX_FILE_3 end.

(** [_runtime_mode_for_protocol] *)
Definition runtime_mode_for_protocol (v : Protocol) : RuntimeMode :=
  match v with PROTOCOL_1 | PROTOCOL_2 => runtime_legacy_dual_horizon | PROTOCOL_3 => runtime_current end.

(** [_forecast_horizons_for_protocol] *)
Definition forecast_horizons_for_protocol (v : Protocol) : list Horizon :=
  match runtime_mode_for_protocol v with runtime_current => [D1] | runtime_legacy_dual_horizon => [D1; D2] end.

(** [workflow_runtime_versions]: the workflow and decision schema versions. *)
Definition workflow_runtime_versions (uses_configurable_universe : bool) (mode : RuntimeMode)
    : string * string :=
  match mode, uses_configurable_universe with
  | runtime_current, true => ("0.6.0", "0.7.0")
  | runtime_current, false => ("0.5.0", "0.6.0")
  | runtime_legacy_dual_horizon, true => ("0.4.0", "0.5.0")
  | runtime_legacy_dual_horizon, false => ("0.3.0", "0.4.0")
  end.

(** ** The frozen request *)

Inductive AssignmentRole := research | strategy | critic.

#[global] Instance role_eq_dec : EqDecision AssignmentRole.
Proof. solve_decision. Defined.

Record HandoffAssignment := mkAssignment {
  ha_agent_id : string;
  ha_index_code : string;
  ha_index_name : string;
  ha_horizon : Horizon;
  ha_target_date : string;
  ha_role : AssignmentRole;
  ha_agent_brief : option string;
  ha_wiki_entry_id : string;
  ha_wiki_title : string;
  ha_wiki_version : string;
  ha_wiki_content_hash : string;
  ha_wiki_sections : list string;
  ha_allowed_evidence_item_ids : list string }.

Definition Identity : Type := string * string * string.

(** [HandoffAssignment.identity] *)
Definition assignment_identity (a : HandoffAssignment) : Identity :=
  (ha_agent_id a, ha_index_code a, horizon_value (ha_horizon a)).

(** [run_id] is a UUID, kept as its canonical text. *)
Record HandoffRequest := mkRequest {
  hr_protocol_version : Protocol;
  hr_run_id : string;
  hr_mode : string;
  hr_provider : ProviderName;
  hr_prepared_at : datetime;
  hr_finalize_deadline : datetime;
  hr_input_hash : string;
  hr_workflow_version : string;
  hr_decision_schema_version : string;
  hr_initial_state : gmap string json;
  hr_assignments : list HandoffAssignment;
  hr_request_hash : string }.

Definition brief_ok (brief : option string) : bool :=
  match brief with Some b => length_ok 1 2000 b | None => true end.

(** The constraints of the fields of [HandoffAssignment]. *)
Definition validate_assignment (a : HandoffAssignment) : result unit :=
  field_check (brief_ok (ha_agent_brief a)) "agent_brief" ;;
  field_check (is_sha256_hex (ha_wiki_content_hash a)) "wiki_content_hash" ;;
  field_check (1 <=? Z.of_nat (length (ha_wiki_sections a))) "wiki_sections".

(** [_validate_handoff_runtime_versions] *)
Definition validate_handoff_runtime_versions (v : Protocol) (initial_state : gmap string json)
    (workflow_version decision_schema_version : string) : result unit :=
  let mode := runtime_mode_for_protocol v in
  let frozen := initial_state !! "forecast_horizons" in
  match mode with
  | runtime_current =>
      raise_when (negb (bool_decide (frozen = Some (JArr [JStr "D1"])))) ValueError
        "v3 handoff must freeze the D1 forecast horizon"
  | runtime_legacy_dual_horizon =>
      raise_when (negb (bool_decide (frozen ∈ [None; Some JNull; Some (JArr [JStr "D1"; JStr "D2"])])))
        ValueError "v1/v2 handoff forecast horizon seal must remain D1/D2"
  end ;;
  let uses_universe := bool_decide (is_Some (initial_state !! "market_universe")) in
  raise_when (negb (bool_decide ((workflow_version, decision_schema_version)
                                 = workflow_runtime_versions uses_universe mode))) ValueError
    ("handoff runtime versions changed after prepare; "
     +:+ "restore the prepared workflow and decision schema versions").

Definition check_aware (d : datetime) (message : string) : result unit :=
  raise_when (negb (is_aware d)) ValueError message.

(** The constraints and validators of [HandoffRequest]. *)
Definition check_request (r : HandoffRequest) : result unit :=
  field_check ((hr_mode r =? "demo")%string || (hr_mode r =? "live")%string) "mode" ;;
  check_aware (hr_prepared_at r) "handoff timestamps must be timezone-aware" ;;
  check_aware (hr_finalize_deadline r) "handoff timestamps must be timezone-aware" ;;
  field_check (is_sha256_hex (hr_input_hash r)) "input_hash" ;;
  field_check ((1 <=? Z.of_nat (length (hr_assignments r)))
               && (Z.of_nat (length (hr_assignments r)) <=? 1000)) "assignments" ;;
  mapM_result validate_assignment (hr_assignments r) ;;
  field_check (is_sha256_hex (hr_request_hash r)) "request_hash" ;;
  raise_when (dt_leb (hr_finalize_deadline r) (hr_prepared_at r)) ValueError
    "finalize_deadline must be later than prepared_at" ;;
  raise_when (negb (bool_decide (NoDup (assignment_identity <$> hr_assignments r)))) ValueError
    "handoff assignments must have unique identities" ;;
  raise_when (negb (bool_decide (hr_provider r = provider_for_protocol (hr_protocol_version r)))) ValueError
    "handoff protocol_version and provider must use the same version" ;;
  raise_when (negb (bool_decide (hr_protocol_version r = PROTOCOL_1))
              && existsb (fun a => bool_decide (ha_agent_brief a = None)) (hr_assignments r)) ValueError
    "v2/v3 handoff assignments must freeze an agent_brief" ;;
  validate_handoff_runtime_versions (hr_protocol_version r) (hr_initial_state r)
    (hr_workflow_version r) (hr_decision_schema_version r).

(** ** Drafts *)

(** [HandoffGeneratorIdentity]; its [surface] is the literal ["codex"]. *)
Record HandoffGeneratorIdentity := mkGenerator {
  hg_task_id : option string;
  hg_model : option string }.

Record HandoffDraftRecord := mkDraftRecord {
  hd_agent_id : string;
  hd_index_code : string;
  hd_horizon : Horizon;
  hd_agent_brief : option string;
  hd_draft : AgentDraft }.

(** [HandoffDraftRecord.identity] *)
Definition record_identity (r : HandoffDraftRecord) : Identity :=
  (hd_agent_id r, hd_index_code r, horizon_value (hd_horizon r)).

Record HandoffDraftBundle := mkBundle {
  hb_protocol_version : Protocol;
  hb_run_id : string;
  hb_input_hash : string;
  hb_request_hash : string;
  hb_generated_at : datetime;
  hb_generated_by : HandoffGeneratorIdentity;
  hb_drafts : list HandoffDraftRecord }.

Definition generator_ok (g : HandoffGeneratorIdentity) : result unit :=
  field_check (opt_length_ok 200 (hg_task_id g)) "task_id" ;;
  field_check (opt_length_ok 200 (hg_model g)) "model".

Section Drafts.
Context `{PyRuntime}.

Definition validate_record (r : HandoffDraftRecord) : result unit :=
  field_check (brief_ok (hd_agent_brief r)) "agent_brief" ;;
  validate_draft (hd_draft r) ;;
  Ok tt.

(** The constraints and validators of [HandoffDraftBundle]. *)
Definition check_bundle (b : HandoffDraftBundle) : result unit :=
  field_check (is_sha256_hex (hb_input_hash b)) "input_hash" ;;
  field_check (is_sha256_hex (hb_request_hash b)) "request_hash" ;;
  check_aware (hb_generated_at b) "generated_at must be timezone-aware" ;;
  generator_ok (hb_generated_by b) ;;
  field_check ((1 <=? Z.of_nat (length (hb_drafts b)))
               && (Z.of_nat (length (hb_drafts b)) <=? 1000)) "drafts" ;;
  mapM_result validate_record (hb_drafts b) ;;
  raise_when (negb (bool_decide (NoDup (record_identity <$> hb_drafts b)))) ValueError
    "draft identities must be unique".

End Drafts.

(** ** Receipts *)

Inductive ReceiptStatus := completed | failed.

#[global] Instance status_eq_dec : EqDecision ReceiptStatus.
Proof. solve_decision. Defined.

Definition status_value (s : ReceiptStatus) : string :=
  match s with completed => "completed" | failed => "failed" end.

(** The attempt metadata keeps apart a field that was not set ([None]) and one
    set to null ([Some None]): [model_fields_set]. *)
Record HandoffReceipt := mkReceipt {
  rc_protocol_version : Protocol;
  rc_run_id : string;
  rc_status : ReceiptStatus;
  rc_finalized_at : datetime;
  rc_provider : ProviderName;
  rc_input_hash : string;
  rc_request_hash : string;
  rc_request_raw_hash : string;
  rc_drafts_hash : string;
  rc_drafts_raw_hash : string;
  rc_output_hash : option string;
  rc_opinion_count : Z;
  rc_forecast_count : Z;
  rc_generated_by : HandoffGeneratorIdentity;
  rc_error : option string;
  rc_attempt_number : option (option Z);
  rc_previous_receipt_hash : option (option string);
  rc_receipt_hash : string }.

Definition opt_hash_ok (h : option string) : bool :=
  match h with Some h => is_sha256_hex h | None => true end.

(** [attempt_metadata_matches_protocol] *)
Definition attempt_metadata_matches_protocol (r : HandoffReceipt) : result unit :=
  raise_when (negb (bool_decide (rc_provider r = provider_for_protocol (rc_protocol_version r)))) ValueError
    "handoff receipt protocol_version and provider must use the same version" ;;
  match rc_protocol_version r with
  | PROTOCOL_1 | PROTOCOL_2 =>
      raise_when (bool_decide (is_Some (rc_attempt_number r))
                  || bool_decide (is_Some (rc_previous_receipt_hash r))) ValueError
        "v1/v2 handoff receipts must omit v3 attempt metadata"
  | PROTOCOL_3 =>
      match rc_attempt_number r with
      | Some (Some n) =>
          raise_when ((n =? 1) && bool_decide (is_Some (rc_previous_receipt_hash r))) ValueError
            "first v3 handoff attempt must omit previous_receipt_hash" ;;
          raise_when ((1 <? n) && negb (bool_decide (is_Some (mjoin (rc_previous_receipt_hash r))))) ValueError
            "retried v3 handoff attempts require previous_receipt_hash"
      | _ => raise ValueError "v3 handoff receipts require a positive attempt_number"
      end
  end.

(** The constraints and validators of [HandoffReceipt]. *)
Definition check_receipt (r : HandoffReceipt) : result unit :=
  check_aware (rc_finalized_at r) "finalized_at must be timezone-aware" ;;
  field_check (is_sha256_hex (rc_input_hash r)) "input_hash" ;;
  field_check (is_sha256_hex (rc_request_hash r)) "request_hash" ;;
  field_check (is_sha256_hex (rc_request_raw_hash r)) "request_raw_hash" ;;
  field_check (is_sha256_hex (rc_drafts_hash r)) "drafts_hash" ;;
  field_check (is_sha256_hex (rc_drafts_raw_hash r)) "drafts_raw_hash" ;;
  field_check (opt_hash_ok (rc_output_hash r)) "output_hash" ;;
  field_check (0 <=? rc_opinion_count r) "opinion_count" ;;
  field_check (0 <=? rc_forecast_count r) "forecast_count" ;;
  generator_ok (rc_generated_by r) ;;
  field_check (match rc_attempt_number r with Some (Some n) => 1 <=? n | _ => true end) "attempt_number" ;;
  field_check (opt_hash_ok (mjoin (rc_previous_receipt_hash r))) "previous_receipt_hash" ;;
  field_check (is_sha256_hex (rc_receipt_hash r)) "receipt_hash" ;;
  attempt_metadata_matches_protocol r.

(** ** Acceptance of the drafts *)

(** [{key(x): value(x) for x in l}]: the last entry of a key wins. *)
Definition dict_by {A B} (key : A -> Identity) (value : A -> B) (l : list A) : gmap Identity B :=
  fold_left (fun m x => <[key x := value x]> m) l ∅.

Definition by_identity : list HandoffAssignment -> gmap Identity HandoffAssignment :=
  dict_by assignment_identity id.

(** [str] of an identity tuple. *)
Definition identity_text (i : Identity) : string :=
  "('" +:+ i.1.1 +:+ "', '" +:+ i.1.2 +:+ "', '" +:+ i.2 +:+ "')".

Definition PLACEHOLDERS : list string := ["todo"; "placeholder"; "待填写"; "在此填写"].

(** [_reject_placeholders]; only ASCII letters matter for these markers. *)
Definition reject_placeholders (r : HandoffDraftRecord) : result unit :=
  let d := hd_draft r in
  let values := dr_summary d :: dr_evidence d ++ dr_counter_evidence d ++ dr_invalidation_conditions d in
  raise_when (existsb (fun v => existsb (fun marker => py_contains marker (py_lower v)) PLACEHOLDERS) values)
    ValueError (identity_text (record_identity r) +:+ " still contains template placeholders").

Definition subset_of (l allowed : list string) : bool :=
  forallb (fun id => bool_decide (id ∈ allowed)) l.

(** The checks of one record against its assignment. *)
Definition validate_bundle_record (request : HandoffRequest) (m : gmap Identity HandoffAssignment)
    (r : HandoffDraftRecord) : result unit :=
  let i := record_identity r in
  match m !! i with
  | None => raise KeyError (identity_text i)
  | Some a =>
      let d := hd_draft r in
      raise_when (negb (bool_decide (hd_agent_brief r = ha_agent_brief a))) ValueError
        (identity_text i +:+ " changed the assigned agent brief") ;;
      raise_when (negb (dr_wiki_entry_id d =? ha_wiki_entry_id a)%string) ValueError
        (identity_text i +:+ " changed the assigned Wiki entry") ;;
      raise_when (negb (bool_decide (dr_wiki_section d ∈ ha_wiki_sections a))) ValueError
        (identity_text i +:+ " referenced an unavailable Wiki section") ;;
      raise_when (negb (subset_of (dr_evidence_item_ids d) (ha_allowed_evidence_item_ids a))) ValueError
        (identity_text i +:+ " introduced evidence outside the snapshot") ;;
      raise_when ((hr_mode request =? "live")%string && negb (bool_decide (ha_role a = critic))
                  && empty (dr_evidence_item_ids d)) ValueError
        ("live " +:+ identity_text i +:+ " must cite frozen evidence IDs") ;;
      raise_when (bool_decide (ha_role a = critic) && negb (empty (dr_evidence_item_ids d))) ValueError
        "risk critic cannot introduce evidence_item_ids" ;;
      reject_placeholders r
  end.

(** [_validate_bundle] *)
Definition validate_bundle (bundle : HandoffDraftBundle) (request : HandoffRequest)
    (finalized_at : datetime) (assignments : list HandoffAssignment) : result unit :=
  raise_when (negb (hb_run_id bundle =? hr_run_id request)%string) ValueError
    "drafts.json run_id does not match input.json" ;;
  raise_when (negb (bool_decide (hb_protocol_version bundle = hr_protocol_version request))) ValueError
    "drafts.json protocol_version does not match input.json" ;;
  raise_when (negb (hb_input_hash bundle =? hr_input_hash request)%string) ValueError
    "drafts.json input_hash does not match the frozen run" ;;
  raise_when (negb (hb_request_hash bundle =? hr_request_hash request)%string) ValueError
    "drafts.json request_hash does not match input.json" ;;
  raise_when (dt_ltb (hb_generated_at bundle) (hr_prepared_at request)) ValueError
    "drafts.json was generated before the handoff was prepared" ;;
  raise_when (dt_ltb (hr_finalize_deadline request) (hb_generated_at bundle)) ValueError
    "drafts.json was generated after the finalize deadline" ;;
  raise_when (dt_ltb (dt_add finalized_at (5 * us_per_minute)) (hb_generated_at bundle)) ValueError
    "drafts.json generated_at is implausibly in the future" ;;
  let m := by_identity assignments in
  let actual : gset Identity := list_to_set (record_identity <$> hb_drafts bundle) in
  raise_when (negb (bool_decide (actual = dom m))) ValueError "draft identity matrix is incomplete" ;;
  mapM_result (validate_bundle_record request m) (hb_drafts bundle) ;;
  Ok tt.

(** [_validate_attempt_chronology]; a transition is given by its parsed
    [transitioned_at], or the error of parsing it. *)
Definition validate_attempt_chronology (bundle : HandoffDraftBundle) (request : HandoffRequest)
    (finalized_at : datetime) (attempt_number : Z) (retry_transitions : list (result datetime))
    : result unit :=
  if negb (bool_decide (hr_protocol_version request = HANDOFF_PROTOCOL_VERSION)) then Ok tt
  else
    raise_when (dt_ltb finalized_at (hr_prepared_at request)) ValueError
      "handoff attempt finalized before the handoff was prepared" ;;
    if attempt_number =? 1 then Ok tt
    else
      raise_when (negb (Z.of_nat (length retry_transitions) =? attempt_number - 1)) ValueError
        "handoff retry transition history is not contiguous" ;;
      latest ← match last retry_transitions with
               | Some t => t
               | None => raise IndexError "list index out of range"
               end;
      raise_when (dt_ltb (hb_generated_at bundle) latest) ValueError
        "drafts.json was generated before the current retry transition" ;;
      raise_when (dt_ltb finalized_at latest) ValueError
        "handoff attempt finalized before the current retry transition".

(** ** The provider that replays accepted drafts *)

(** [FileHandoffProvider._drafts] *)
Definition draft_table (records : list HandoffDraftRecord) : gmap Identity AgentDraft :=
  dict_by record_identity hd_draft records.

(** [FileHandoffProvider._get] *)
Definition get_draft (drafts : gmap Identity AgentDraft) (agent_id index_code : string) (h : Horizon)
    : result AgentDraft :=
  let identity := (agent_id, index_code, horizon_value h) in
  match drafts !! identity with
  | Some d => Ok d
  | None => raise RuntimeError ("missing handoff draft for " +:+ identity_text identity)
  end.

(** [FileHandoffProvider] *)
Definition FileHandoffProvider (records : list HandoffDraftRecord) (name : ProviderName)
    : ResearchProvider :=
  let drafts := draft_table records in
  mkProvider (provider_value name) (Some (fun _ => provider_value name))
    (fun agent_id index h _ _ _ => get_draft drafts agent_id (idx_code index) h)
    (fun index h _ _ _ _ _ _ => get_draft drafts STRATEGY_AGENT_ID (idx_code index) h)
    (fun index h _ _ _ => get_draft drafts RISK_CRITIC_AGENT_ID (idx_code index) h).

(** ** The assignments of a run *)

Definition assignment_role (agent_id : string) : AssignmentRole :=
  if bool_decide (agent_id ∈ EFFECTIVE_RESEARCH_AGENT_IDS) then research
  else if (agent_id =? STRATEGY_AGENT_ID)%string then strategy
  else critic.

(** The items on all instruments and those on this one. *)
Definition relevant_evidence (s : FrozenEvidenceSnapshot) (code : string) : list string :=
  ei_id <$> List.filter (fun i => empty (ei_entities i) || bool_decide (code ∈ ei_entities i)) (fs_items s).

Definition list_item {A} (l : list A) (n : nat) : result A :=
  match l !! n with Some x => Ok x | None => raise IndexError "list index out of range" end.

Section Expected.
Context `{Uppercase}.
Context (snapshot : FrozenEvidenceSnapshot) (wiki : FrozenWikiCatalog)
  (instruments : list IndexDefinition) (version : Protocol).

Definition assignment_brief (agent_id : string) (index : IndexDefinition) : result (option string) :=
  match version with
  | PROTOCOL_1 => Ok None
  | _ =>
      match agent_brief_for index agent_id with
      | Some brief => if truthy brief then Ok (Some brief)
                      else a ← agent_by_id agent_id; Ok (Some (ag_role a))
      | None => a ← agent_by_id agent_id; Ok (Some (ag_role a))
      end
  end.

Definition assignment_of (dates : date * date) (agent_id : string) (index : IndexDefinition)
    (entry : WikiEntryRead) (h : Horizon) : result HandoffAssignment :=
  brief ← assignment_brief agent_id index;
  let role := assignment_role agent_id in
  let a := mkAssignment agent_id (idx_code index) (idx_name index) h
             (iso_date (match h with D1 => dates.1 | D2 => dates.2 end)) role brief
             (we_id entry) (we_title entry) (we_version entry) (we_content_hash entry)
             (ws_slug <$> we_sections entry)
             (if bool_decide (role = critic) then [] else relevant_evidence snapshot (idx_code index)) in
  validate_assignment a ;;
  Ok a.

Definition assignments_for (dates : date * date) (target : string * IndexDefinition)
    : result (list HandoffAssignment) :=
  let '(agent_id, index) := target in
  entry ← select_for_agent wiki agent_id (Some (idx_code index)) (wiki_entry_id_for index agent_id);
  mapM_result (assignment_of dates agent_id index entry) (forecast_horizons_for_protocol version).

(** The pairs of the two outer loops. *)
Definition assignment_targets : list (string * IndexDefinition) :=
  agent_id ← DRAFT_AGENT_IDS; (fun index => (agent_id, index)) <$> instruments.

(** [_expected_assignments] *)
Definition expected_assignments : result (list HandoffAssignment) :=
  d1 ← list_item (fs_target_sessions snapshot) 0;
  d2 ← list_item (fs_target_sessions snapshot) 1;
  groups ← mapM_result (assignments_for (d1, d2)) assignment_targets;
  let assignments := concat groups in
  let expected_count :=
    (length DRAFT_AGENT_IDS * length instruments * length (forecast_horizons_for_protocol version))%nat in
  raise_when (negb (length assignments =? expected_count)%nat) RuntimeError
    ("expected " +:+ py_str_Z (Z.of_nat expected_count) +:+ " Codex assignments, got "
     +:+ py_str_Z (Z.of_nat (length assignments))) ;;
  Ok assignments.

End Expected.

(** ** Building a receipt *)

Section Receipts.
Context `{CanonicalHash}.
(** [receipt.model_dump(mode="json", exclude={"receipt_hash"})]: Pydantic's
    dump, which does not see the excluded field. *)
Context (dump_receipt : HandoffReceipt -> json).

Definition with_receipt_hash (r : HandoffReceipt) (hash : string) : HandoffReceipt :=
  mkReceipt (rc_protocol_version r) (rc_run_id r) (rc_status r) (rc_finalized_at r) (rc_provider r)
    (rc_input_hash r) (rc_request_hash r) (rc_request_raw_hash r) (rc_drafts_hash r)
    (rc_drafts_raw_hash r) (rc_output_hash r) (rc_opinion_count r) (rc_forecast_count r)
    (rc_generated_by r) (rc_error r) (rc_attempt_number r) (rc_previous_receipt_hash r) hash.

Definition receipt_digest (r : HandoffReceipt) : string :=
  canonical_hash (dump_receipt (with_receipt_hash r "")).

Record ReceiptOutcome := mkOutcome {
  ro_status : ReceiptStatus;
  ro_output_hash : option string;
  ro_opinion_count : Z;
  ro_forecast_count : Z;
  ro_error : option string }.

(** [_build_receipt] *)
Definition build_receipt (request : HandoffRequest) (bundle : HandoffDraftBundle)
    (outcome : ReceiptOutcome) (request_raw_hash drafts_hash drafts_raw_hash : string)
    (finalized_at : datetime) (attempt_number : option Z) (previous : option string)
    : result HandoffReceipt :=
  metadata ←
    (if bool_decide (hr_protocol_version request = HANDOFF_PROTOCOL_VERSION) then
       Ok (Some attempt_number,
           if negb (bool_decide (attempt_number = Some 1)) || bool_decide (is_Some previous)
           then Some previous else None)
     else
       raise_when (bool_decide (is_Some attempt_number) || bool_decide (is_Some previous)) ValueError
         "legacy handoff receipts may not use v3 attempt metadata" ;;
       Ok (None, None));
  let unsigned :=
    mkReceipt (hr_protocol_version request) (hr_run_id request) (ro_status outcome) finalized_at
      (hr_provider request) (hr_input_hash request) (hr_request_hash request) request_raw_hash
      drafts_hash drafts_raw_hash (ro_output_hash outcome) (ro_opinion_count outcome)
      (ro_forecast_count outcome) (hb_generated_by bundle) (ro_error outcome)
      metadata.1 metadata.2 zero_digest in
  check_receipt unsigned ;;
  Ok (with_receipt_hash unsigned (receipt_digest unsigned)).

(** [_failed_receipt] *)
Definition failed_receipt (request : HandoffRequest) (bundle : HandoffDraftBundle)
    (request_raw_hash drafts_hash drafts_raw_hash : string) (finalized_at : datetime)
    (error : string) (attempt_number : option Z) (previous : option string) : result HandoffReceipt :=
  build_receipt request bundle (mkOutcome failed None 0 0 (Some error)) request_raw_hash drafts_hash
    drafts_raw_hash finalized_at attempt_number previous.

(** [_verify_receipt_hash] *)
Definition verify_receipt_hash (r : HandoffReceipt) : result unit :=
  raise_when (negb (rc_receipt_hash r =? receipt_digest r)%string) ValueError
    "handoff receipt hash is invalid".

End Receipts.

(** ** The files of the external task *)

Definition opt_str (s : option string) : json := match s with Some s => JStr s | None => JNull end.

Definition obj (l : list (string * json)) : json := JObj (list_to_map l).

(** The open draft of one assignment; [wiki_sections[0]] raises on an empty list. *)
Definition draft_slot (a : HandoffAssignment) : result json :=
  section ← list_item (ha_wiki_sections a) 0;
  let draft := obj
    [("direction", JStr "REPLACE_WITH_up_OR_down");
     ("probabilities", obj [("up", JStr "REPLACE_WITH_NUMBER_0_TO_1");
                            ("neutral", JStr "REPLACE_WITH_NUMBER_0_TO_1");
                            ("down", JStr "REPLACE_WITH_NUMBER_0_TO_1")]);
     ("summary", JStr "REPLACE_WITH_FROZEN_INPUT_SYNTHESIS");
     ("evidence", JArr [JStr "REPLACE_WITH_AT_LEAST_ONE_EVIDENCE_STATEMENT"]);
     ("counter_evidence", JArr [JStr "REPLACE_WITH_COUNTER_EVIDENCE"]);
     ("invalidation_conditions", JArr [JStr "REPLACE_WITH_INVALIDATION_CONDITION"]);
     ("evidence_item_ids", JArr (JStr <$> ha_allowed_evidence_item_ids a));
     ("wiki_entry_id", JStr (ha_wiki_entry_id a));
     ("wiki_section", JStr section)] in
  Ok (obj ([("agent_id", JStr (ha_agent_id a));
            ("index_code", JStr (ha_index_code a));
            ("horizon", JStr (horizon_value (ha_horizon a)))]
           ++ match ha_agent_brief a with Some brief => [("agent_brief", JStr brief)] | None => [] end
           ++ [("draft", draft)])%list).

(** [build_handoff_draft_template] *)
Definition build_handoff_draft_template (r : HandoffRequest) : result json :=
  drafts ← mapM_result draft_slot (hr_assignments r);
  Ok (obj
    [("protocol_version", JStr (protocol_value (hr_protocol_version r)));
     ("run_id", JStr (hr_run_id r));
     ("input_hash", JStr (hr_input_hash r));
     ("request_hash", JStr (hr_request_hash r));
     ("generated_at", JStr "REPLACE_WITH_TIMEZONE_AWARE_ISO8601");
     ("generated_by", obj [("surface", JStr "codex"); ("task_id", JNull); ("model", JNull)]);
     ("drafts", JArr drafts)]).

Definition lines (l : list string) : string :=
  py_concat ((fun line => line +:+ String (Ascii.ascii_of_nat 10) EmptyString) <$> l).

Definition role_count (role : AssignmentRole) (r : HandoffRequest) : string :=
  py_str_Z (Z.of_nat (length (List.filter (fun a => bool_decide (ha_role a = role)) (hr_assignments r)))).

(** [_render_handoff_instructions_v1] *)
Definition render_handoff_instructions_v1 (r : HandoffRequest) : string :=
  lines
    ["# VeriCouncil Codex 文件交接任务";
     "";
     "任务 ID：`" +:+ hr_run_id r +:+ "`";
     "";
     "最终提交截止：`" +:+ isoformat (hr_finalize_deadline r) +:+ "`";
     "";
     "1. 只读取本目录的 `input.json` 与 `drafts.template.json`。";
     "   不得联网补充事实，也不得修改冻结证据、Wiki、指数、周期或身份矩阵。";
     "2. 将模板复制为 `drafts.json`，填写全部 50 个 `draft`：30 份研究、";
     "   10 份策略、10 份风险反证；不要创建 Quant 或 CIO 草稿。";
     "3. 每份草稿必须符合 `AgentDraft`。`direction` 只能是 `up`/`down`，";
     "   且必须对应 `probabilities.up` 与 `probabilities.down` 中更大的一侧；";
     "   三项概率之和为 1，涨跌两项不得相等。";
     "4. Wiki 字段与 `evidence_item_ids` 只能从对应 assignment 中选择。";
     "   Live 模式下研究与策略草稿必须引用冻结证据；风险反证官不得新增 evidence ID。";
     "5. `generated_at` 必须是带时区的 ISO 8601 时间；`generated_by` 仅用于审计，不会被当作可信模型身份。";
     "6. 保存 `drafts.json` 后，由操作员运行 finalize。不要改数据库、`input.json` 或任何服务端文件。";
     "";
     "最终入库仍会执行确定性 schema、哈希、时间截面、证据、Wiki、方向与唯一性校验；";
     "CIO 结论由 VeriCouncil 本地聚合器生成。"].

(** [_render_handoff_instructions_v2] *)
Definition render_handoff_instructions_v2 (r : HandoffRequest) : string :=
  lines
    ["# forecast-loop Codex 文件交接任务";
     "";
     "任务 ID：`" +:+ hr_run_id r +:+ "`";
     "";
     "最终提交截止：`" +:+ isoformat (hr_finalize_deadline r) +:+ "`";
     "";
     "1. 只读取本目录的 `input.json` 与 `drafts.template.json`。";
     "   不得联网补充事实，也不得修改冻结证据、Wiki、指数、周期或身份矩阵。";
     "2. 将模板复制为 `drafts.json`，填写全部 " +:+ py_str_Z (Z.of_nat (length (hr_assignments r))) +:+ " 个 `draft`：";
     "   " +:+ role_count research r +:+ " 份研究、" +:+ role_count strategy r +:+ " 份策略、" +:+ role_count critic r +:+ " 份风险反证；";
     "   不要创建 Quant 或 CIO 草稿。";
     "3. 每份草稿必须符合 `AgentDraft`。`direction` 只能是 `up`/`down`，";
     "   且必须对应 `probabilities.up` 与 `probabilities.down` 中更大的一侧；";
     "   三项概率之和为 1，涨跌两项不得相等。";
     "4. 每份草稿必须严格履行对应 assignment 冻结的 `agent_brief`，并原样保留模板中的";
     "   `agent_brief`。Wiki 字段与 `evidence_item_ids` 只能从对应 assignment 中选择。";
     "   Live 模式下研究与策略草稿必须引用冻结证据；风险反证官不得新增 evidence ID。";
     "5. `generated_at` 必须是带时区的 ISO 8601 时间；`generated_by` 仅用于审计，不会被当作可信模型身份。";
     "6. 保存 `drafts.json` 后，由操作员运行 finalize。不要改数据库、`input.json` 或任何服务端文件。";
     "";
     "最终入库仍会执行确定性 schema、哈希、时间截面、证据、Wiki、方向与唯一性校验；";
     "CIO 结论由 forecast-loop 本地聚合器生成。"].

(** [render_handoff_instructions] *)
Definition render_handoff_instructions (r : HandoffRequest) : string :=
  match hr_protocol_version r with
  | PROTOCOL_1 => render_handoff_instructions_v1 r
  | _ => render_handoff_instructions_v2 r
  end.

End Handoff.
