(* ===== verification/JobManifest.v ===== *)
(** * Job manifests and scheduler renderers
      ([backend/app/jobs/manifest.py], [backend/app/jobs/renderers.py])

    A manifest declares a scheduled workflow: argv commands of the public CLI,
    one untrusted draft step with its writable paths, and a five-field cron
    schedule.  The renderers turn the schedule into launchd and systemd units. *)
From Stdlib Require Import Ascii.
From S2P Require Import Prelude PyStr PyTime Json Contracts.
Import PyStr PyTime Json Contracts.
Open Scope string_scope.
Open Scope Z_scope.

Module JobManifest.

Definition MAX_MANIFEST_BYTES : Z := 256 * 1024.
Definition MAX_SCHEDULE_EXPANSIONS : Z := 512.
Definition PUBLIC_CLI_EXECUTABLES : list string := ["forecast-loop"; "signalrace"; "vericouncil"].
Definition SHELL_EXECUTABLES : list string :=
  ["bash"; "cmd"; "dash"; "fish"; "ksh"; "powershell"; "pwsh"; "sh"; "zsh"].

(** ** Text helpers *)

(** [s.split(c)] on a one-byte separator. *)
Fixpoint split_on (sep : ascii) (s : string) : list string :=
  match s with
  | EmptyString => [EmptyString]
  | String c s' =>
      match split_on sep s' with
      | [] => [EmptyString]
      | part :: rest => if Ascii.eqb c sep then EmptyString :: part :: rest
                        else String c part :: rest
      end
  end.

Definition is_control (c : ascii) : bool :=
  let n := nat_of_ascii c in (n <? 32)%nat || (n =? 127)%nat.

Definition has_control (s : string) : bool := existsb is_control (String.list_ascii_of_string s).

Definition has_byte (c : ascii) (s : string) : bool :=
  existsb (Ascii.eqb c) (String.list_ascii_of_string s).

Definition padded (s : string) : bool := (s =? "")%string || negb (s =? py_strip s)%string.

(** [s.endswith(suffix)] *)
Definition ends_with (s suffix : string) : bool :=
  (String.length suffix <=? String.length s)%nat
  && (String.substring (String.length s - String.length suffix) (String.length suffix) s =? suffix)%string.

(** [[A-Za-z0-9][A-Za-z0-9._-]{0,127}]: a portable executable or path segment. *)
Definition portable_byte (c : ascii) : bool := is_alnum c || char_in "._-" c.
Definition portable_name (s : string) : bool :=
  match s with
  | EmptyString => false
  | String c s' => is_alnum c && all_bytes portable_byte s' && (String.length s' <=? 127)%nat
  end.

Definition lower_alnum (c : ascii) : bool := is_lower c || is_digit c.

(** [[a-z0-9](?:[a-z0-9._-]{0,62}[a-z0-9])?] *)
Definition is_slug (s : string) : bool :=
  let l := String.list_ascii_of_string s in
  match l, last l with
  | c :: _, Some d =>
      lower_alnum c && lower_alnum d && forallb (fun c => lower_alnum c || char_in "._-" c) l
      && (length l <=? 64)%nat
  | _, _ => false
  end.

(** [[A-Za-z0-9._+-]+(?:/[A-Za-z0-9._+-]+)*] *)
Definition timezone_pattern (s : string) : bool :=
  forallb (fun part => negb (part =? "")%string
                       && all_bytes (fun c => is_alnum c || char_in "._+-" c) part)
    (split_on "/"%char s).

(** ** Commands *)

Definition check_entry (item : string) : result unit :=
  raise_when (padded item) ValueError "command argv entries must be non-empty and unpadded" ;;
  raise_when (4096 <? py_len item) ValueError
    "command argv entries may contain at most 4096 characters" ;;
  raise_when (has_control item) ValueError
    "command argv entries may not contain control characters".

(** [validate_command_argv] *)
Definition validate_command_argv (argv : list string) : result (list string) :=
  match argv with
  | [] => raise ValueError "command must contain an executable"
  | executable :: _ =>
      raise_when (64 <? Z.of_nat (length argv)) ValueError
        "command may contain at most 64 argv entries" ;;
      mapM_result check_entry argv ;;
      raise_when (negb (portable_name executable)) ValueError
        "command executable must be a portable PATH name without directory separators" ;;
      raise_when (bool_decide (py_lower executable ∈ SHELL_EXECUTABLES)) ValueError
        "shell executables are not allowed; declare an argv-native command" ;;
      Ok argv
  end.

Inductive Action := prepare | finalize.

Definition action_value (a : Action) : string :=
  match a with prepare => "prepare" | finalize => "finalize" end.

Definition JOB_DIR : string := "{job_dir}".

Definition allowed_options (a : Action) : list string :=
  match a with
  | prepare => ["--mode"; "--as-of"; "--snapshot"; "--output-root"]
  | finalize => ["--mode"; "--snapshot"; "--output-root"]
  end.

(** The loop over the option/value pairs, with the options seen so far. *)
Fixpoint check_options (a : Action) (seen : gset string) (arguments : list string)
    : result (gset string) :=
  match arguments with
  | option :: value :: rest =>
      let label := action_value a +:+ ".command" in
      raise_when (negb (bool_decide (option ∈ allowed_options a))) ValueError
        (label +:+ " option is not allowed: " +:+ option) ;;
      raise_when (bool_decide (option ∈ seen)) ValueError
        (label +:+ " option may appear only once: " +:+ option) ;;
      raise_when (py_startswith value "-" || py_contains "{" value || py_contains "}" value) ValueError
        (label +:+ " has an unsafe value for " +:+ option) ;;
      raise_when ((option =? "--mode")%string && negb (bool_decide (value ∈ ["demo"; "live"]))) ValueError
        (label +:+ " --mode must be demo or live") ;;
      check_options a ({[option]} ∪ seen) rest
  | _ => Ok seen
  end.

(** The arguments after [forecast <action>], without the job directory that
    finalize must end with. *)
Definition option_arguments (a : Action) (arguments : list string) : result (list string) :=
  match a with
  | finalize =>
      raise_when (negb (bool_decide (last arguments = Some JOB_DIR))) ValueError
        "finalize.command must end with the dispatcher-provided {job_dir}" ;;
      Ok (removelast arguments)
  | prepare =>
      raise_when (bool_decide (JOB_DIR ∈ arguments)) ValueError
        "prepare.command may not contain {job_dir}" ;;
      Ok arguments
  end.

(** [_validate_forecast_command] *)
Definition validate_forecast_command (command : list string) (a : Action) : result unit :=
  raise_when (negb (bool_decide (default "" (head command) ∈ PUBLIC_CLI_EXECUTABLES))
              || negb (bool_decide (take 2 (drop 1 command) = ["forecast"; action_value a]))) ValueError
    (action_value a +:+ ".command must start with: forecast-loop forecast " +:+ action_value a
     +:+ " (legacy signalrace and vericouncil are also accepted)") ;;
  arguments ← option_arguments a (drop 3 command);
  raise_when (negb (Nat.even (length arguments))) ValueError
    (action_value a +:+ ".command options must be flag/value pairs") ;;
  seen ← check_options a ∅ arguments;
  raise_when (negb (bool_decide ("--mode" ∈ seen))) ValueError
    (action_value a +:+ ".command must declare --mode explicitly").

(** ** Paths *)

Definition wildcard_byte (s : string) : bool :=
  has_byte "*"%char s || has_byte "?"%char s || has_byte "["%char s || has_byte "]"%char s.

Definition check_part (field_name : string) (allow_wildcard_parts : bool) (part : string) : result unit :=
  if allow_wildcard_parts && (part =? "*")%string then Ok tt
  else
    raise_when (wildcard_byte part) ValueError
      (field_name +:+ " wildcards, when allowed, must occupy a complete path segment") ;;
    raise_when (negb (portable_name part)) ValueError
      (field_name +:+ " contains an unsupported path segment").

(** [_safe_relative_parts] *)
Definition safe_relative_parts (value field_name : string) (allow_wildcard_parts : bool)
    : result (list string) :=
  raise_when (padded value) ValueError (field_name +:+ " must be a non-empty, unpadded relative path") ;;
  raise_when (1024 <? py_len value) ValueError (field_name +:+ " may contain at most 1024 characters") ;;
  raise_when (has_byte "\"%char value || py_startswith value "/" || ends_with value "/") ValueError
    (field_name +:+ " must be a portable relative POSIX path") ;;
  let parts := split_on "/"%char value in
  raise_when (existsb (fun p => bool_decide (p ∈ [""; "."; ".."])) parts) ValueError
    (field_name +:+ " may not contain empty, dot, or parent segments") ;;
  mapM_result (check_part field_name allow_wildcard_parts) parts ;;
  Ok parts.

(** [_validate_prompt_path] *)
Definition validate_prompt_path (value : string) : result string :=
  parts ← safe_relative_parts value "draft.prompt" false;
  raise_when ((length parts <? 2)%nat || negb (bool_decide (head parts = Some "prompts"))) ValueError
    "draft.prompt must be a Markdown file below prompts/" ;;
  raise_when (negb (ends_with (default "" (last parts)) ".md")) ValueError
    "draft.prompt must reference a .md file" ;;
  Ok value.

(** [_validate_writable_path] *)
Definition validate_writable_path (value : string) : result string :=
  parts ← safe_relative_parts value "draft.writable" true;
  raise_when ((length parts <? 3)%nat || negb (bool_decide (head parts = Some "data"))) ValueError
    "draft.writable entries must be below data/" ;;
  raise_when (negb (bool_decide (last parts = Some "drafts.json"))) ValueError
    "Codex draft access may target drafts.json files only" ;;
  Ok value.

(** ** The draft step *)

Inductive Effort := low | medium | high | xhigh | max | ultra.

#[global] Instance effort_eq_dec : EqDecision Effort.
Proof. solve_decision. Defined.

Record DraftStep := mkDraftStep {
  ds_runner : string;
  ds_model : option string;
  ds_reasoning_effort : option Effort;
  ds_prompt : string;
  ds_writable : list string }.

(** [model_is_bounded] *)
Definition model_is_bounded (model : option string) : result unit :=
  match model with
  | None => Ok tt
  | Some m =>
      raise_when (padded m || (128 <? py_len m)) ValueError
        "draft.model must be a non-empty model identifier" ;;
      raise_when (has_control m) ValueError "draft.model may not contain control characters"
  end.

(** [writable_paths_are_scoped] *)
Definition writable_paths_are_scoped (paths : list string) : result (list string) :=
  raise_when (empty paths) ValueError "draft.writable must contain at least one path" ;;
  raise_when (16 <? Z.of_nat (length paths)) ValueError "draft.writable may contain at most 16 paths" ;;
  validated ← mapM_result validate_writable_path paths;
  raise_when (negb (bool_decide (NoDup validated))) ValueError "draft.writable entries must be unique" ;;
  Ok validated.

(** The validators of [DraftStep]. *)
Definition validate_draft_step (d : DraftStep) : result unit :=
  raise_when (negb (is_slug (ds_runner d))) ValueError
    "draft.runner must be a lowercase portable slug" ;;
  model_is_bounded (ds_model d) ;;
  validate_prompt_path (ds_prompt d) ;;
  writable_paths_are_scoped (ds_writable d) ;;
  Ok tt.

(** ** Cron schedules *)

(** A field is [None] when it does not restrict the time. *)
Abbreviation CronField := (option (list Z)).

Record CronExpression := mkCron {
  cr_minutes : CronField;
  cr_hours : CronField;
  cr_days : CronField;
  cr_months : CronField;
  cr_weekdays : CronField }.

(** [s.isdigit()] and [int(s)], for texts over the bytes a field may contain. *)
Definition isdigit (s : string) : bool := truthy s && all_bytes is_digit s.
Definition int_of (s : string) : Z :=
  fold_left (fun acc c => 10 * acc + (Z.of_nat (nat_of_ascii c) - 48)) (String.list_ascii_of_string s) 0.

(** [range(start, end + 1, step)] *)
Definition py_range (start stop step : Z) : list Z :=
  (fun k => start + step * k) <$> seqZ 0 ((stop - start) / step + 1).

(** [_split_cron_step] *)
Definition split_cron_step (item label : string) : result (string * Z) :=
  match split_on "/"%char item with
  | [base] =>
      raise_when (base =? "")%string ValueError ("schedule " +:+ label +:+ " step is invalid") ;;
      Ok (base, 1)
  | [base; step] =>
      raise_when (base =? "")%string ValueError ("schedule " +:+ label +:+ " step is invalid") ;;
      raise_when (negb (isdigit step) || (int_of step <? 1)) ValueError
        ("schedule " +:+ label +:+ " step must be a positive integer") ;;
      Ok (base, int_of step)
  | _ => raise ValueError ("schedule " +:+ label +:+ " step is invalid")
  end.

(** The bounds an item denotes. *)
Definition item_bounds (base : string) (step minimum maximum : Z) (label : string) : result (Z * Z) :=
  if (base =? "*")%string then Ok (minimum, maximum)
  else if has_byte "-"%char base then
    match split_on "-"%char base with
    | [a; b] =>
        raise_when (negb (isdigit a && isdigit b)) ValueError
          ("schedule " +:+ label +:+ " range is invalid") ;;
        Ok (int_of a, int_of b)
    | _ => raise ValueError ("schedule " +:+ label +:+ " range is invalid")
    end
  else if isdigit base && (step =? 1) then Ok (int_of base, int_of base)
  else raise ValueError ("schedule " +:+ label +:+ " steps require '*' or an explicit numeric range").

(** One comma-separated item: the values it adds. *)
Definition cron_item (minimum maximum : Z) (label item : string) : result (list Z) :=
  raise_when (item =? "")%string ValueError
    ("schedule " +:+ label +:+ " field contains an empty list item") ;;
  base_step ← split_cron_step item label;
  bounds ← item_bounds base_step.1 base_step.2 minimum maximum label;
  let '(start, stop) := bounds in
  raise_when ((start <? minimum) || (maximum <? stop) || (stop <? start)) ValueError
    ("schedule " +:+ label +:+ " values must be within " +:+ py_str_Z minimum +:+ ".."
     +:+ py_str_Z maximum) ;;
  Ok (py_range start stop base_step.2).

Definition field_byte (c : ascii) : bool := char_in "0123456789,-*/" c.

(** [_parse_cron_field] *)
Definition parse_cron_field (token : string) (minimum maximum : Z) (label : string)
    (normalize_weekday : bool) : result CronField :=
  if (token =? "*")%string then Ok None
  else
    raise_when ((token =? "")%string || negb (all_bytes field_byte token)) ValueError
      ("schedule " +:+ label +:+ " field contains unsupported syntax") ;;
    items ← mapM_result (cron_item minimum maximum label) (split_on ","%char token);
    let values : gset Z := list_to_set (concat items) in
    let values := if normalize_weekday then set_map (fun v => if v =? 7 then 0 else v) values else values in
    let full_range : gset Z :=
      list_to_set (if normalize_weekday then seqZ 0 7 else seqZ minimum (maximum - minimum + 1)) in
    if bool_decide (values = full_range) then Ok None
    else Ok (Some (merge_sort Z.le (elements values))).

Definition cron_fields (c : CronExpression) : list CronField :=
  [cr_minutes c; cr_hours c; cr_days c; cr_months c; cr_weekdays c].

(** [CronExpression.expansion_count] *)
Definition expansion_count (c : CronExpression) : Z :=
  fold_left (fun count f => count * match f with Some l => Z.of_nat (length l) | None => 1 end)
    (cron_fields c) 1.

(** [CronExpression.parse] *)
Definition parse_cron (expression : string) : result CronExpression :=
  raise_when (negb (expression =? py_strip expression)%string || (128 <? py_len expression)) ValueError
    "schedule must be unpadded and at most 128 characters" ;;
  match py_split expression with
  | [f0; f1; f2; f3; f4] =>
      minutes ← parse_cron_field f0 0 59 "minute" false;
      hours ← parse_cron_field f1 0 23 "hour" false;
      days ← parse_cron_field f2 1 31 "day" false;
      months ← parse_cron_field f3 1 12 "month" false;
      weekdays ← parse_cron_field f4 0 7 "weekday" true;
      raise_when (bool_decide (is_Some days) && bool_decide (is_Some weekdays)) ValueError
        "schedule may restrict day-of-month or weekday, but not both" ;;
      let parsed := mkCron minutes hours days months weekdays in
      raise_when (MAX_SCHEDULE_EXPANSIONS <? expansion_count parsed) ValueError
        "schedule expands to more than 512 calendar entries" ;;
      Ok parsed
  | _ => raise ValueError "schedule must contain exactly five cron fields"
  end.

(** [itertools.product] *)
Fixpoint product {A} (pools : list (list A)) : list (list A) :=
  match pools with
  | [] => [[]]
  | pool :: rest => x ← pool; (cons x) <$> product rest
  end.

(** [CronExpression.combinations]: entries of minute, hour, day, month, weekday. *)
Definition combinations (c : CronExpression) : list (list (option Z)) :=
  product ((fun f => match f with Some l => Some <$> l | None => [None] end) <$> cron_fields c).

(** ** The manifest *)

Record JobManifest := mkManifest {
  jm_name : string;
  jm_schedule : string;
  jm_timezone : string;
  jm_profile : string;
  jm_prepare : list string;
  jm_draft : DraftStep;
  jm_finalize : list string }.

Section Manifest.
(** Whether [ZoneInfo(name)] finds the zone in the installed database. *)
Context (zone_installed : string -> bool).

Definition validate_timezone (value : string) : result unit :=
  raise_when (negb (timezone_pattern value) || py_contains ".." value) ValueError
    "timezone must be a portable IANA timezone name" ;;
  raise_when (negb (zone_installed value)) ValueError "timezone must be an installed IANA timezone".

(** The validators of [CommandStep] and [JobManifest]. *)
Definition validate_job_manifest (m : JobManifest) : result JobManifest :=
  raise_when (negb (is_slug (jm_name m)) || negb (is_slug (jm_profile m))) ValueError
    "name and profile must be lowercase portable slugs" ;;
  parse_cron (jm_schedule m) ;;
  validate_timezone (jm_timezone m) ;;
  validate_command_argv (jm_prepare m) ;;
  validate_forecast_command (jm_prepare m) prepare ;;
  validate_draft_step (jm_draft m) ;;
  validate_command_argv (jm_finalize m) ;;
  validate_forecast_command (jm_finalize m) finalize ;;
  Ok m.

(** [JobManifest.cron] *)
Definition cron (m : JobManifest) : result CronExpression := parse_cron (jm_schedule m).

(** [path.suffix] of a file name: from its last dot, unless that is its first
    or last character. *)
Fixpoint last_dot (s : string) : option string :=
  match s with
  | EmptyString => None
  | String c s' =>
      match last_dot s' with
      | Some suffix => Some suffix
      | None => if Ascii.eqb c "."%char then Some s else None
      end
  end.

Definition path_suffix (name : string) : string :=
  match name with
  | EmptyString => ""
  | String _ rest =>
      match last_dot rest with
      | Some suffix => if (suffix =? ".")%string then "" else suffix
      | None => ""
      end
  end.

(** Strict decoding of a UTF-8 JSON text ([bytes.decode], [json.loads] with the
    duplicate-key hook) and Pydantic's reading of the fields of a manifest. *)
Context (json_loads : string -> option json) (read_manifest : gmap string json -> option JobManifest).

(** [load_job_manifest] of a regular file. *)
Definition load_job_manifest (name raw : string) : result JobManifest :=
  raise_when (negb (py_lower (path_suffix name) =? ".json")%string) JobManifestLoadError
    "job manifests must use the .json extension" ;;
  raise_when (MAX_MANIFEST_BYTES <? Z.of_nat (String.length raw)) JobManifestLoadError
    "job manifest exceeds the 262144-byte limit" ;;
  match json_loads raw with
  | None => raise JobManifestLoadError "job manifest is not valid JSON"
  | Some (JObj payload) =>
      match read_manifest payload with
      | None => raise ValueError "validation error for JobManifest"
      | Some m => validate_job_manifest m
      end
  | Some _ => raise JobManifestLoadError "job manifest JSON root must be an object"
  end.

(** ** launchd *)

(** [_LAUNCHD_WEEKDAY] *)
Definition LAUNCHD_WEEKDAY (weekday : Z) : option Z :=
  if (0 <=? weekday) && (weekday <=? 6) then Some (weekday + 1) else None.

(** [_SYSTEMD_WEEKDAY] *)
Definition SYSTEMD_WEEKDAY (weekday : Z) : option string :=
  if weekday <? 0 then None
  else ["Sun"; "Mon"; "Tue"; "Wed"; "Thu"; "Fri"; "Sat"] !! Z.to_nat weekday.

Definition key_item {A} (o : option A) (key : Z) : result A :=
  match o with Some a => Ok a | None => raise KeyError (py_str_Z key) end.

(** The payload handed to [plistlib.dumps]. *)
Record LaunchdPayload := mkLaunchd {
  lp_label : string;
  lp_program_arguments : list string;
  lp_tz : string;
  lp_start_calendar_interval : list (list (string * Z));
  lp_process_type : string;
  lp_low_priority_io : bool;
  lp_throttle_interval : Z }.

Definition interval_entry (key : string) (v : option Z) : list (string * Z) :=
  match v with Some v => [(key, v)] | None => [] end.

(** One combination as a calendar interval. *)
Definition launchd_interval (combination : list (option Z)) : result (list (string * Z)) :=
  match combination with
  | [minute; hour; day; month; weekday] =>
      weekday ← match weekday with
                | None => Ok None
                | Some w => d ← key_item (LAUNCHD_WEEKDAY w) w; Ok (Some d)
                end;
      Ok (interval_entry "Minute" minute ++ interval_entry "Hour" hour ++ interval_entry "Day" day
          ++ interval_entry "Month" month ++ interval_entry "Weekday" weekday)%list
  | _ => raise ValueError "not enough values to unpack"
  end.

(** [render_launchd_plist], up to [plistlib.dumps]. *)
Definition render_launchd_plist (m : JobManifest) (invocation : list string) (host_timezone : string)
    : result LaunchdPayload :=
  raise_when (negb (zone_installed host_timezone)) ValueError
    "host_timezone must be an installed IANA timezone" ;;
  raise_when (negb (host_timezone =? jm_timezone m)%string) ValueError
    "launchd host timezone must exactly match the job manifest timezone" ;;
  argv ← validate_command_argv invocation;
  c ← cron m;
  intervals ← mapM_result launchd_interval (combinations c);
  Ok (mkLaunchd ("org.vericouncil.job." +:+ jm_name m) ("/usr/bin/env" :: argv) (jm_timezone m)
        intervals "Background" true 60).

(** ** systemd *)

(** [s.replace(c, by)] of a one-byte text. *)
Definition replace_byte (c : ascii) (by_text s : string) : string :=
  py_concat ((fun d => if Ascii.eqb d c then by_text else String d EmptyString)
             <$> String.list_ascii_of_string s).

Definition quote_char : ascii := ascii_of_nat 34.
Definition backslash_char : ascii := ascii_of_nat 92.
Definition byte_text (c : ascii) : string := String c EmptyString.

(** [_systemd_quote] *)
Definition systemd_quote (value : string) : string :=
  let s := replace_byte "%"%char "%%" value in
  let s := replace_byte backslash_char (String backslash_char (byte_text backslash_char)) s in
  let s := replace_byte quote_char (String backslash_char (byte_text quote_char)) s in
  byte_text quote_char +:+ s +:+ byte_text quote_char.

(** [f"{n:02d}"] of a value from a cron field, or [*]. *)
Definition two_digits (v : option Z) : string :=
  match v with
  | Some n => if n <? 10 then "0" +:+ py_str_Z n else py_str_Z n
  | None => "*"
  end.

Definition systemd_calendar (timezone : string) (combination : list (option Z)) : result string :=
  match combination with
  | [minute; hour; day; month; weekday] =>
      weekday_text ← match weekday with
                     | None => Ok ""
                     | Some w => name ← key_item (SYSTEMD_WEEKDAY w) w; Ok (name +:+ " ")
                     end;
      Ok (weekday_text +:+ "*-" +:+ two_digits month +:+ "-" +:+ two_digits day +:+ " "
          +:+ two_digits hour +:+ ":" +:+ two_digits minute +:+ ":00 " +:+ timezone)
  | _ => raise ValueError "not enough values to unpack"
  end.

(** [_systemd_calendars] *)
Definition systemd_calendars (m : JobManifest) : result (list string) :=
  c ← cron m;
  mapM_result (systemd_calendar (jm_timezone m)) (combinations c).

Record SystemdUnits := mkUnits {
  su_service_name : string;
  su_timer_name : string;
  su_service : string;
  su_timer : string }.

Definition newline : string := byte_text (ascii_of_nat 10).

Definition service_lines (m : JobManifest) (argv : list string) : list string :=
  ["[Unit]";
   "Description=forecast-loop job " +:+ jm_name m;
   "";
   "[Service]";
   "Type=oneshot";
   "Environment=" +:+ systemd_quote ("TZ=" +:+ jm_timezone m);
   "ExecStart=" +:+ py_join " " (":/usr/bin/env" :: (systemd_quote <$> argv));
   "UMask=0077";
   "NoNewPrivileges=true";
   "PrivateTmp=true";
   ""].

Definition timer_lines (m : JobManifest) (service_name : string) (calendars : list string) : list string :=
  (["[Unit]"; "Description=Schedule forecast-loop job " +:+ jm_name m; ""; "[Timer]";
    "Unit=" +:+ service_name]
   ++ ((fun calendar => "OnCalendar=" +:+ calendar) <$> calendars)
   ++ ["Persistent=true"; "AccuracySec=1min"; ""; "[Install]"; "WantedBy=timers.target"; ""])%list.

(** [render_systemd_units] *)
Definition render_systemd_units (m : JobManifest) (invocation : list string) : result SystemdUnits :=
  argv ← validate_command_argv invocation;
  calendars ← systemd_calendars m;
  let stem := "vericouncil-job-" +:+ jm_name m in
  let service_name := stem +:+ ".service" in
  Ok (mkUnits service_name (stem +:+ ".timer") (py_join newline (service_lines m argv))
        (py_join newline (timer_lines m service_name calendars))).

End Manifest.

End JobManifest.
