(* ===== verification/JobExecution.v ===== *)
(** * Append-only execution of a job ([backend/app/jobs/execution.py])

    Each execution is a directory of sealed revisions, numbered from zero and
    chained by their hashes; an operator opens it, acknowledges the prepared
    handoff, the finished draft and the final receipt.  The directory is only
    ever added to: a revision file is published whole or not at all, and two
    writers of the same number are decided by the file system. *)
From Stdlib Require Import Ascii.
From S2P Require Import Prelude PyStr PyTime Float64 Domain Json Contracts Committee Handoff JobManifest.
Import PyStr PyTime Float64 Domain Json Contracts Handoff JobManifest.
Open Scope string_scope.
Open Scope Z_scope.

Module JobExecution.

Definition MAX_STATE_BYTES : Z := 1024 * 1024.
Definition MAX_PROMPT_BYTES : Z := 1024 * 1024.
Definition JOB_EXECUTION_SCHEMA : string := "vericouncil.job-execution/v1".

(** ** States *)

Inductive ExecutionPhase := prepare_pending | awaiting_draft | finalize_pending | run_completed | run_failed.

#[global] Instance phase_eq_dec : EqDecision ExecutionPhase.
Proof. solve_decision. Defined.

Definition phase_value (p : ExecutionPhase) : string :=
  match p with
  | prepare_pending => "prepare_pending"
  | awaiting_draft => "awaiting_draft"
  | finalize_pending => "finalize_pending"
  | run_completed => "completed"
  | run_failed => "failed"
  end.

(** The phase that a receipt status names. *)
Definition phase_of_status (s : ReceiptStatus) : ExecutionPhase :=
  match s with completed => run_completed | failed => run_failed end.

Definition terminal (p : ExecutionPhase) : bool :=
  match p with run_completed | run_failed => true | _ => false end.

(** The optional fields of a state, in the order of [sealed_fields]. *)
Definition PREPARED_FIELDS : list string :=
  ["job_id"; "input_hash"; "request_hash"; "request_raw_hash"; "instructions_raw_hash";
   "template_hash"; "template_raw_hash"].
Definition DRAFTED_FIELDS : list string := ["drafts_hash"; "drafts_raw_hash"].
Definition FINALIZED_FIELDS : list string := ["receipt_status"; "receipt_hash"; "receipt_raw_hash"].
Definition SEALED_FIELDS : list string := PREPARED_FIELDS ++ DRAFTED_FIELDS ++ FINALIZED_FIELDS.

(** The twelve optional fields are a map from the name of a field to its value;
    a field that is [None] has no entry. *)
Record JobExecutionState := mkExecution {
  js_execution_id : string;
  js_manifest_name : string;
  js_manifest_hash : string;
  js_prompt_hash : string;
  js_idempotency_key : string;
  js_phase : ExecutionPhase;
  js_revision : Z;
  js_previous_state_hash : option string;
  js_created_at : datetime;
  js_updated_at : datetime;
  js_seals : gmap string string;
  js_state_hash : string }.

Definition with_state_hash (s : JobExecutionState) (hash : string) : JobExecutionState :=
  mkExecution (js_execution_id s) (js_manifest_name s) (js_manifest_hash s) (js_prompt_hash s)
    (js_idempotency_key s) (js_phase s) (js_revision s) (js_previous_state_hash s)
    (js_created_at s) (js_updated_at s) (js_seals s) hash.

(** [[A-Za-z0-9][A-Za-z0-9._:@+-]{0,127}] *)
Definition idempotency_key_pattern (s : string) : bool :=
  match s with
  | EmptyString => false
  | String c s' => is_alnum c && all_bytes (fun c => is_alnum c || char_in "._:@+-" c) s'
                   && (String.length s' <=? 127)%nat
  end.

(** The texts [str(UUID(value))] can be: a value is accepted when it is one. *)
Definition canonical_uuid (s : string) : bool :=
  match split_on "-"%char s with
  | [a; b; c; d; e] =>
      forallb (all_bytes is_hex) [a; b; c; d; e]
      && bool_decide ((String.length <$> [a; b; c; d; e]) = [8; 4; 4; 4; 12]%nat)
  | _ => false
  end.

Definition present (s : JobExecutionState) (field : string) : bool :=
  bool_decide (is_Some (js_seals s !! field)).

Definition any_present (s : JobExecutionState) (fields : list string) : bool := existsb (present s) fields.
Definition any_missing (s : JobExecutionState) (fields : list string) : bool :=
  existsb (fun f => negb (present s f)) fields.

(** [phase_has_exact_seals] *)
Definition phase_has_exact_seals (s : JobExecutionState) : result unit :=
  match js_phase s with
  | prepare_pending =>
      raise_when (any_present s SEALED_FIELDS) ValueError
        "prepare_pending state may not contain later-stage seals"
  | _ => raise_when (any_missing s PREPARED_FIELDS) ValueError
           "prepared execution state is missing handoff seals"
  end ;;
  match js_phase s with
  | prepare_pending => Ok tt
  | awaiting_draft => raise_when (any_present s (DRAFTED_FIELDS ++ FINALIZED_FIELDS)) ValueError
                        "awaiting_draft state may not contain later-stage seals"
  | _ => raise_when (any_missing s DRAFTED_FIELDS) ValueError "finalize state is missing draft seals"
  end ;;
  match js_phase s with
  | finalize_pending => raise_when (any_present s FINALIZED_FIELDS) ValueError
                          "finalize_pending state may not contain receipt seals"
  | run_completed | run_failed =>
      raise_when (any_missing s FINALIZED_FIELDS) ValueError "terminal state is missing receipt seals" ;;
      raise_when (negb (bool_decide (js_seals s !! "receipt_status" = Some (phase_value (js_phase s)))))
        ValueError "terminal phase must match receipt_status"
  | _ => Ok tt
  end ;;
  raise_when ((js_revision s =? 0) && bool_decide (is_Some (js_previous_state_hash s))) ValueError
    "initial revision may not have previous_state_hash" ;;
  raise_when ((0 <? js_revision s) && bool_decide (js_previous_state_hash s = None)) ValueError
    "non-initial revision requires previous_state_hash" ;;
  raise_when (dt_ltb (js_updated_at s) (js_created_at s)) ValueError
    "updated_at may not precede created_at".

(** The pattern of an optional field. *)
Definition seal_ok (field value : string) : bool :=
  if (field =? "job_id")%string then canonical_uuid value
  else if (field =? "receipt_status")%string then bool_decide (value ∈ ["completed"; "failed"])
  else bool_decide (field ∈ SEALED_FIELDS) && is_sha256_hex value.

(** The constraints and validators of [JobExecutionState]. *)
Definition validate_state (s : JobExecutionState) : result JobExecutionState :=
  field_check (is_sha256_hex (js_execution_id s)) "execution_id" ;;
  field_check (is_sha256_hex (js_manifest_hash s)) "manifest_hash" ;;
  field_check (is_sha256_hex (js_prompt_hash s)) "prompt_hash" ;;
  raise_when (negb (idempotency_key_pattern (js_idempotency_key s))) ValueError
    "idempotency_key must be a portable 1-128 character identifier" ;;
  field_check (0 <=? js_revision s) "revision" ;;
  field_check (opt_hash_ok (js_previous_state_hash s)) "previous_state_hash" ;;
  check_aware (js_created_at s) "execution timestamps must be timezone-aware" ;;
  check_aware (js_updated_at s) "execution timestamps must be timezone-aware" ;;
  field_check (forallb (fun kv => seal_ok kv.1 kv.2) (map_to_list (js_seals s))) "sealed fields" ;;
  field_check (is_sha256_hex (js_state_hash s)) "state_hash" ;;
  phase_has_exact_seals s ;;
  Ok s.

(** ** Text forms

    The standard library's JSON and SHA-256, Pydantic's reading and dumping of
    the models (of a state and of a request without their own hash), and the
    facts of the machine the code asks for. *)
Class Documents := {
  json_loads : string -> option json;
  json_dumps : json -> string;
  text_sha256 : string -> string;
  read_manifest : gmap string json -> option JobManifest;
  dump_manifest : JobManifest -> json;
  read_state : json -> option JobExecutionState;
  dump_state : JobExecutionState -> json;
  dump_unsealed_state : JobExecutionState -> json;
  read_request : json -> option HandoffRequest;
  dump_unsealed_request : HandoffRequest -> json;
  read_bundle : json -> option HandoffDraftBundle;
  dump_bundle : HandoffDraftBundle -> json;
  read_receipt : json -> option HandoffReceipt;
  dump_unsealed_receipt : HandoffReceipt -> json;
  zone_installed : string -> bool;
  expanduser : string -> string }.

(** Directories: [files] are the entries other than [revisions]. *)
Abbreviation Files := (gmap string string).

Record ExecutionDirectory := mkDirectory {
  ed_files : gmap string string;
  ed_revisions : gmap string string }.

(** What the store reads and writes: executions by id below [state_root],
    handoff directories by name below [handoff_root], and the files of the
    project by relative path. *)
Record World := mkWorld {
  w_executions : gmap string ExecutionDirectory;
  w_handoffs : gmap string (gmap string string);
  w_project : gmap string string }.

(** Resolved absolute paths, as their components. *)
Record Roots := mkRoots {
  project_root : list string;
  handoff_root : list string;
  state_root : list string }.

Definition failure {A} (m : string) : result A := raise JobExecutionError m.
Definition fail_when (b : bool) (m : string) : result unit := raise_when b JobExecutionError m.
Definition conflict {A} (m : string) : result A := raise JobExecutionConflictError m.

(** ** Reading files *)

Definition secure_read_bytes (files : gmap string string) (name : string) (maximum : Z) : result string :=
  match files !! name with
  | None => failure ("could not open " +:+ name)
  | Some raw =>
      let size := Z.of_nat (String.length raw) in
      fail_when ((size <=? 0) || (maximum <? size)) (name +:+ " has an invalid size") ;;
      Ok raw
  end.

(** Whether [bytes.decode("utf-8")] succeeds. *)
Definition byte_between (lo hi : nat) (c : ascii) : bool := in_range lo hi c.

Fixpoint utf8_valid (l : list ascii) : bool :=
  match l with
  | [] => true
  | a :: l1 =>
      if byte_between 0 127 a then utf8_valid l1
      else match l1 with
      | [] => false
      | b :: l2 =>
          if byte_between 194 223 a then is_continuation b && utf8_valid l2
          else match l2 with
          | [] => false
          | c :: l3 =>
              if byte_between 224 239 a then
                is_continuation b && is_continuation c
                && (if byte_between 224 224 a then byte_between 160 191 b else true)
                && (if byte_between 237 237 a then byte_between 128 159 b else true)
                && utf8_valid l3
              else match l3 with
              | [] => false
              | d :: l4 =>
                  byte_between 240 244 a
                  && is_continuation b && is_continuation c && is_continuation d
                  && (if byte_between 240 240 a then byte_between 144 191 b else true)
                  && (if byte_between 244 244 a then byte_between 128 143 b else true)
                  && utf8_valid l4
              end
          end
      end
  end.

(** ** Paths *)

(** The components of a path without the empty and [.] ones. *)
Definition parts_of (path : string) : list string :=
  List.filter (fun p => negb (p =? "")%string && negb (p =? ".")%string) (split_on "/"%char path).

(** [..] removes the component before it; there are no links. *)
Definition resolve_parts (parts : list string) : list string :=
  fold_left (fun acc p => if (p =? "..")%string then removelast acc else (acc ++ [p])%list) parts [].

Definition path_text (parts : list string) : string := "/" +:+ py_join "/" parts.

(** [path.relative_to(root)] *)
Fixpoint relative_to (path root : list string) : option (list string) :=
  match root, path with
  | [], _ => Some path
  | r :: root', p :: path' => if (p =? r)%string then relative_to path' root' else None
  | _ :: _, [] => None
  end.

(** [_contains] *)
Definition contains (parent child : list string) : bool :=
  bool_decide (is_Some (relative_to child parent)).

(** [JobExecutionStore.__init__], on resolved directories. *)
Definition open_store (r : Roots) : result Roots :=
  fail_when (contains (state_root r) (handoff_root r) || contains (handoff_root r) (state_root r))
    "state_root and handoff_root must be separate non-nested directories" ;;
  Ok r.

Fixpoint remove_prefixes (prefix s : string) (fuel : nat) : string :=
  match fuel, s with
  | S n, String c s' =>
      if String.prefix prefix s
      then remove_prefixes prefix (String.substring (String.length prefix) (String.length s) s) n
      else String c (remove_prefixes prefix s' n)
  | _, _ => s
  end.

(** [s.replace(text, "")] *)
Definition remove_all (text s : string) : string := remove_prefixes text s (String.length s).

Definition strip_braces (s : string) : string :=
  let brace c := Ascii.eqb c "{"%char || Ascii.eqb c "}"%char in
  String.string_of_list_ascii
    (reverse (drop_while brace (reverse (drop_while brace (String.list_ascii_of_string s))))).

Definition is_hex_any (c : ascii) : bool := is_hex c || in_range 65 70 c.

(** The digits [int(s, 16)] reads: single underscores may stand between them. *)
Fixpoint hex_digits (l : list ascii) : bool :=
  match l with
  | [] => false
  | [c] => is_hex_any c
  | c :: ((u :: l') as rest) =>
      is_hex_any c && (if Ascii.eqb u "_"%char then hex_digits l' else hex_digits rest)
  end.

Definition int16_reads (s : string) : bool :=
  let l := String.list_ascii_of_string (py_strip s) in
  let l := match l with c :: l' => if char_in "+-" c then l' else l | [] => l end in
  match l with
  | c :: x :: rest =>
      if Ascii.eqb c "0"%char && char_in "xX" x
      then hex_digits (match rest with u :: rest' => if Ascii.eqb u "_"%char then rest' else rest | [] => rest end)
      else hex_digits l
  | _ => hex_digits l
  end.

(** Whether [UUID(value)] succeeds. *)
Definition uuid_reads (value : string) : bool :=
  let hex := remove_all "-" (strip_braces (remove_all "uuid:" (remove_all "urn:" value))) in
  (py_len hex =? 32) && int16_reads hex.

(** [_require_manifest_write_scope] *)
Definition part_matches (expected actual : string) : bool :=
  (expected =? "*")%string || (expected =? actual)%string.

Fixpoint parts_match (pattern candidate : list string) : bool :=
  match pattern, candidate with
  | [], [] => true
  | e :: pattern', a :: candidate' => part_matches e a && parts_match pattern' candidate'
  | _, _ => false
  end.

Definition require_manifest_write_scope (project draft_path : list string) (declared : list string)
    : result unit :=
  match relative_to draft_path project with
  | None => failure "handoff draft path is outside project_root and manifest write scope"
  | Some candidate =>
      fail_when (negb (existsb (fun pattern => parts_match (split_on "/"%char pattern) candidate) declared))
        "handoff draft path is not allowed by manifest draft.writable"
  end.

(** ** Commands of the manifest *)

(** [command.index(option)] *)
Fixpoint index_of (x : string) (l : list string) : option nat :=
  match l with
  | [] => None
  | y :: l' => if (y =? x)%string then Some 0%nat else S <$> index_of x l'
  end.

(** [_command_option] *)
Definition command_option (command : list string) (option_name : string) : result (option string) :=
  match index_of option_name command with
  | None => Ok None
  | Some position => value ← list_item command (S position); Ok (Some value)
  end.

(** [_manifest_mode] *)
Definition manifest_mode (m : JobManifest) (stage : Action) : result string :=
  value ← command_option (match stage with prepare => jm_prepare m | finalize => jm_finalize m end) "--mode";
  match value with
  | Some mode => fail_when (negb (bool_decide (mode ∈ ["demo"; "live"]))) "manifest mode is invalid" ;; Ok mode
  | None => failure "manifest mode is invalid"
  end.

Section Store.
Context `{CanonicalHash} `{Documents} `{PyRuntime}.
Context (roots : Roots).

(** ** Documents *)

(** [_secure_read_json]: the bytes and the document. *)
Definition secure_read_json (files : gmap string string) (name : string) (maximum : Z)
    : result (string * json) :=
  raw ← secure_read_bytes files name maximum;
  match json_loads raw with
  | None => failure (name +:+ " must be strict UTF-8 JSON")
  | Some payload => Ok (raw, payload)
  end.

(** [Model.model_validate(payload)]: the reading of the fields, then the validators. *)
Definition model_validate {A} (read : json -> option A) (check : A -> result unit) (payload : json)
    : result A :=
  match read payload with
  | None => raise ValueError "validation error"
  | Some a => check a ;; Ok a
  end.

(** [_json_bytes] *)
Definition json_bytes (j : json) : string := json_dumps j +:+ newline.

Definition state_digest (s : JobExecutionState) : string :=
  canonical_hash (dump_unsealed_state (with_state_hash s "")).

(** [_seal_state] *)
Definition seal_state (s : JobExecutionState) : JobExecutionState := with_state_hash s (state_digest s).

Definition request_digest (r : HandoffRequest) : string :=
  canonical_hash (dump_unsealed_request
    (mkRequest (hr_protocol_version r) (hr_run_id r) (hr_mode r) (hr_provider r) (hr_prepared_at r)
       (hr_finalize_deadline r) (hr_input_hash r) (hr_workflow_version r)
       (hr_decision_schema_version r) (hr_initial_state r) (hr_assignments r) "")).

(** [_load_bound_manifest]: every error of loading is reported as one. *)
Definition load_bound_manifest (d : ExecutionDirectory) : result (JobManifest * string) :=
  match ed_files d !! "manifest.json" with
  | None => failure "could not load bound manifest: no such file"
  | Some raw =>
      match load_job_manifest zone_installed json_loads read_manifest "manifest.json" raw with
      | Err e => failure ("could not load bound manifest: " +:+ exn_msg e)
      | Ok m => Ok (m, canonical_hash (dump_manifest m))
      end
  end.

(** [_execution_directory] *)
Definition execution_directory (w : World) (execution_id : string) : result ExecutionDirectory :=
  fail_when (negb (is_sha256_hex execution_id)) "execution_id must be a 64-character lowercase hash" ;;
  match w_executions w !! execution_id with
  | None => failure "execution does not exist"
  | Some d => Ok d
  end.

(** [_manifest] *)
Definition bound_manifest (w : World) (execution_id : string) : result JobManifest :=
  d ← execution_directory w execution_id;
  loaded ← load_bound_manifest d;
  Ok loaded.1.

(** ** The revision chain *)

Definition allowed_next (p : ExecutionPhase) : list ExecutionPhase :=
  match p with
  | prepare_pending => [awaiting_draft]
  | awaiting_draft => [finalize_pending]
  | finalize_pending => [run_completed; run_failed]
  | run_completed | run_failed => []
  end.

(** A sealed field of [previous] that [state] changes or drops. *)
Definition changes_seal (previous s : JobExecutionState) (field : string) : bool :=
  match js_seals previous !! field with
  | Some old => negb (bool_decide (js_seals s !! field = Some old))
  | None => false
  end.

(** The part of [_verify_state_revision] that compares with the revision before. *)
Definition verify_successor (previous s : JobExecutionState) : result unit :=
  fail_when (negb (js_revision s =? js_revision previous + 1))
    "execution revision number is not contiguous" ;;
  fail_when (negb (bool_decide (js_previous_state_hash s = Some (js_state_hash previous))))
    "execution state hash chain is invalid" ;;
  fail_when (negb (js_execution_id s =? js_execution_id previous)%string
             || negb (js_manifest_name s =? js_manifest_name previous)%string
             || negb (js_manifest_hash s =? js_manifest_hash previous)%string
             || negb (js_prompt_hash s =? js_prompt_hash previous)%string
             || negb (js_idempotency_key s =? js_idempotency_key previous)%string
             || negb (dt_eqb (js_created_at s) (js_created_at previous)))
    "immutable execution identity changed between revisions" ;;
  fail_when (dt_ltb (js_updated_at s) (js_updated_at previous))
    "execution revision time moved backwards" ;;
  fail_when (negb (bool_decide (js_phase s ∈ allowed_next (js_phase previous))))
    ("invalid execution phase transition: " +:+ phase_value (js_phase previous) +:+ " -> "
     +:+ phase_value (js_phase s)) ;;
  fail_when (existsb (changes_seal previous s) SEALED_FIELDS) "sealed execution field changed".

(** [_verify_state_revision] *)
Definition verify_state_revision (s : JobExecutionState) (previous : option JobExecutionState)
    (execution_id : string) (manifest : JobManifest) (manifest_hash : string) : result unit :=
  fail_when (negb (js_execution_id s =? execution_id)%string)
    "state execution_id does not match its directory" ;;
  fail_when (negb (js_manifest_name s =? jm_name manifest)%string
             || negb (js_manifest_hash s =? manifest_hash)%string) "state manifest seal is invalid" ;;
  fail_when (negb (js_state_hash s =? state_digest s)%string)
    "state revision canonical hash is invalid" ;;
  match previous with
  | None =>
      fail_when (negb (js_revision s =? 0) || negb (bool_decide (js_phase s = prepare_pending)))
        "execution must start at prepare_pending revision zero"
  | Some previous => verify_successor previous s
  end.

(** The name [f"{revision:06d}.json"]. *)
Definition revision_name (revision : Z) : string := pad 6 revision +:+ ".json".

(** One file of the loop of [resume]: the name must be the expected one. *)
Definition resume_file (d : ExecutionDirectory) (execution_id : string)
    (bound : JobManifest * string) (acc : option JobExecutionState * Z) (name : string)
    : result (option JobExecutionState * Z) :=
  let '(previous, expected_revision) := acc in
  fail_when (negb ((expected_revision <? 1000000) && (name =? revision_name expected_revision)%string))
    "execution revisions are not contiguous regular files" ;;
  document ← secure_read_json (ed_revisions d) name MAX_STATE_BYTES;
  s ← match read_state document.2 with
      | None => raise ValueError "validation error"
      | Some s => validate_state s
      end;
  verify_state_revision s previous execution_id bound.1 bound.2 ;;
  Ok (Some s, expected_revision + 1).

(** The entries of a directory, sorted by name. *)
Definition sorted_names (files : gmap string string) : list string :=
  merge_sort String.le (elements (dom files)).

(** [_verify_trusted_receipt] *)
Definition verify_trusted_receipt (d : ExecutionDirectory) (s : JobExecutionState) : result unit :=
  document ← secure_read_json (ed_files d) "receipt.json" MAX_JSON_BYTES;
  receipt ← model_validate read_receipt check_receipt document.2;
  fail_when (negb (bool_decide (js_seals s !! "receipt_raw_hash" = Some (text_sha256 document.1)))
             || negb (bool_decide (js_seals s !! "receipt_hash" = Some (rc_receipt_hash receipt)))
             || negb (bool_decide (js_seals s !! "receipt_status"
                                   = Some (status_value (rc_status receipt)))))
    "trusted execution receipt does not match terminal state".

Definition ALLOWED_ENTRIES : list string := ["manifest.json"; "receipt.json"].

(** [resume] of a directory that exists. *)
Definition resume_directory (d : ExecutionDirectory) (execution_id : string) : result JobExecutionState :=
  bound ← load_bound_manifest d;
  fail_when (negb (forallb (fun name => bool_decide (name ∈ ALLOWED_ENTRIES)) (elements (dom (ed_files d)))))
    "execution directory contains unexpected entries" ;;
  let names := sorted_names (ed_revisions d) in
  fail_when (empty names) "execution has no state revisions" ;;
  last_state ← for_each (resume_file d execution_id bound) (None, 0) names;
  match last_state.1 with
  | None => failure "execution has no state revisions"
  | Some s =>
      (if terminal (js_phase s) then verify_trusted_receipt d s else Ok tt) ;;
      Ok s
  end.

(** [resume] *)
Definition resume (w : World) (execution_id : string) : result JobExecutionState :=
  d ← execution_directory w execution_id;
  resume_directory d execution_id.

(** ** Bindings *)

(** [_require_matching_fields] *)
Fixpoint require_matching_fields (s : JobExecutionState) (expected : list (string * string)) : result unit :=
  match expected with
  | [] => Ok tt
  | (field, value) :: rest =>
      (if bool_decide (js_seals s !! field = Some value) then Ok tt
       else conflict ("execution is already bound to a different " +:+ field)) ;;
      require_matching_fields s rest
  end.

(** [_is_same_logical_transition] *)
Definition phase_rank (p : ExecutionPhase) : Z :=
  match p with
  | prepare_pending => 0
  | awaiting_draft => 1
  | finalize_pending => 2
  | run_completed | run_failed => 3
  end.

Definition is_same_logical_transition (winner : JobExecutionState) (requested : ExecutionPhase)
    (updates : list (string * string)) : bool :=
  if phase_rank (js_phase winner) <? phase_rank requested then false
  else if terminal requested && negb (bool_decide (js_phase winner = requested)) then false
  else forallb (fun kv => bool_decide (js_seals winner !! kv.1 = Some kv.2)) updates.

(** [_require_same_execution] *)
Definition require_same_execution (s : JobExecutionState) (manifest_hash prompt_hash key : string)
    : result unit :=
  if negb (js_manifest_hash s =? manifest_hash)%string || negb (js_prompt_hash s =? prompt_hash)%string
     || negb (js_idempotency_key s =? key)%string
  then conflict "idempotency key is already bound to a different manifest or prompt"
  else Ok tt.

(** [_timestamp]; [clock] is [datetime.now(UTC)]. *)
Definition timestamp (now : option datetime) (clock : datetime) : result datetime :=
  let t := default clock now in
  fail_when (negb (is_aware t)) "execution time must be timezone-aware" ;;
  Ok (astimezone UTC t).

Definition null_byte : string := byte_text (ascii_of_nat 0).

(** [_execution_id] *)
Definition execution_id_of (manifest_name key : string) : string :=
  text_sha256 (JOB_EXECUTION_SCHEMA +:+ null_byte +:+ manifest_name +:+ null_byte +:+ key).

(** ** Appending *)

Definition put_execution (w : World) (execution_id : string) (d : ExecutionDirectory) : World :=
  mkWorld (<[execution_id := d]> (w_executions w)) (w_handoffs w) (w_project w).

Definition put_revision (d : ExecutionDirectory) (name raw : string) : ExecutionDirectory :=
  mkDirectory (ed_files d) (<[name := raw]> (ed_revisions d)).

Definition put_file (d : ExecutionDirectory) (name raw : string) : ExecutionDirectory :=
  mkDirectory (<[name := raw]> (ed_files d)) (ed_revisions d).

Definition seals_of (updates : list (string * string)) : gmap string string := list_to_map updates.

(** The unsealed next revision. *)
Definition next_state (current : JobExecutionState) (phase : ExecutionPhase) (at_ : datetime)
    (updates : list (string * string)) : JobExecutionState :=
  mkExecution (js_execution_id current) (js_manifest_name current) (js_manifest_hash current)
    (js_prompt_hash current) (js_idempotency_key current) phase (js_revision current + 1)
    (Some (js_state_hash current)) (js_created_at current) at_
    (seals_of updates ∪ js_seals current) zero_digest.

(** [_append] on the store [w]; [current] was read before, perhaps by an older
    look at the store.  [_write_atomic_exclusive] makes the file appear whole,
    or raises when it exists. *)
Definition append (w : World) (current : JobExecutionState) (phase : ExecutionPhase)
    (now : option datetime) (clock : datetime) (updates : list (string * string))
    : result JobExecutionState * World :=
  let prepared :=
    at_ ← timestamp now clock;
    fail_when (dt_ltb at_ (js_updated_at current)) "state transition time may not move backwards" ;;
    unsigned ← validate_state (next_state current phase at_ updates);
    d ← execution_directory w (js_execution_id current);
    Ok (seal_state unsigned, d) in
  match prepared with
  | Err e => (Err e, w)
  | Ok (s, d) =>
      let name := revision_name (js_revision s) in
      match ed_revisions d !! name with
      | Some _ =>
          (winner ← resume w (js_execution_id current);
           if is_same_logical_transition winner phase updates then Ok winner
           else conflict "another writer completed an incompatible execution transition", w)
      | None =>
          let w' := put_execution w (js_execution_id current)
                      (put_revision d name (json_bytes (dump_state s))) in
          (resume w' (js_execution_id current), w')
      end
  end.

(** ** The handoff *)

(** [_load_handoff_request]: the request and the hash of its bytes. *)
Definition load_handoff_request (files : gmap string string) : result (HandoffRequest * string) :=
  document ← secure_read_json files "input.json" MAX_JSON_BYTES;
  request ← model_validate read_request check_request document.2;
  fail_when (negb (hr_request_hash request =? request_digest request)%string)
    "handoff input canonical request hash is invalid" ;;
  Ok (request, text_sha256 document.1).

(** [_load_and_validate_draft_inputs] *)
Definition load_and_validate_draft_inputs (files : gmap string string) (request : HandoffRequest)
    : result (list (string * string)) :=
  instructions ← secure_read_bytes files "INSTRUCTIONS.md" MAX_PROMPT_BYTES;
  fail_when (negb (utf8_valid (String.list_ascii_of_string instructions)))
    "INSTRUCTIONS.md must be UTF-8" ;;
  fail_when (negb (instructions =? render_handoff_instructions request)%string)
    "INSTRUCTIONS.md does not match the frozen handoff request" ;;
  document ← secure_read_json files "drafts.template.json" MAX_JSON_BYTES;
  template ← build_handoff_draft_template request;
  fail_when (negb (bool_decide (document.2 = template)))
    "drafts.template.json does not match the frozen handoff request" ;;
  Ok [("instructions_raw_hash", text_sha256 instructions);
      ("template_hash", canonical_hash document.2);
      ("template_raw_hash", text_sha256 document.1)].

(** [_resolve_handoff_directory]: the name of the directory and its files. *)
Definition resolve_handoff_directory (w : World) (value : string)
    : result (string * gmap string string) :=
  let path := expanduser value in
  let parts := parts_of path in
  let absolute := py_startswith path "/" in
  fail_when (negb absolute && (1 <? length parts)%nat)
    "relative handoff directory must be a bare UUID" ;;
  let candidate := if absolute then parts else (handoff_root roots ++ parts)%list in
  let name := default "" (last (if absolute then parts else parts)) in
  fail_when (negb (uuid_reads name)) "handoff directory name must be a UUID" ;;
  fail_when (negb (bool_decide (resolve_parts (removelast candidate) = handoff_root roots)))
    "handoff directory must be a direct child of handoff_root" ;;
  match w_handoffs w !! name with
  | None => failure "handoff directory does not exist"
  | Some files => Ok (name, files)
  end.

(** [_verify_bound_request] *)
Definition verify_bound_request (w : World) (s : JobExecutionState)
    : result (string * gmap string string * HandoffRequest) :=
  match js_seals s !! "job_id" with
  | None => failure "execution is not bound to a handoff"
  | Some job_id =>
      directory ← resolve_handoff_directory w job_id;
      loaded ← load_handoff_request directory.2;
      let request := loaded.1 in
      require_matching_fields s
        [("job_id", hr_run_id request); ("input_hash", hr_input_hash request);
         ("request_hash", hr_request_hash request); ("request_raw_hash", loaded.2)] ;;
      Ok (directory, request)
  end.

(** The new bindings an operation asks to append, or the state it found bound
    already. *)
Inductive Acknowledgement :=
  | Bound (s : JobExecutionState)
  | Append (current : JobExecutionState) (phase : ExecutionPhase) (updates : list (string * string)).

(** What follows the reading: the store may have moved on ([w']). *)
Definition acknowledge (ack : result Acknowledgement) (w' : World) (now : option datetime)
    (clock : datetime) : result JobExecutionState * World :=
  match ack with
  | Err e => (Err e, w')
  | Ok (Bound s) => (Ok s, w')
  | Ok (Append current phase updates) => append w' current phase now clock updates
  end.

(** ** prepare *)

Definition read_prepared (w : World) (execution_id job_dir : string) : result Acknowledgement :=
  s ← resume w execution_id;
  manifest ← bound_manifest w execution_id;
  directory ← resolve_handoff_directory w job_dir;
  loaded ← load_handoff_request directory.2;
  let request := loaded.1 in
  fail_when (negb (hr_run_id request =? directory.1)%string)
    "handoff input run_id does not match its directory" ;;
  mode ← manifest_mode manifest prepare;
  fail_when (negb (hr_mode request =? mode)%string)
    "handoff mode does not match manifest prepare mode" ;;
  draft_input_seals ← load_and_validate_draft_inputs directory.2 request;
  let seals := (("job_id", directory.1) :: ("input_hash", hr_input_hash request)
                :: ("request_hash", hr_request_hash request) :: ("request_raw_hash", loaded.2)
                :: draft_input_seals) in
  if bool_decide (js_phase s = prepare_pending) then Ok (Append s awaiting_draft seals)
  else require_matching_fields s seals ;; Ok (Bound s).

(** [record_prepared]; [env] is what others do to the store in between. *)
Definition record_prepared (env : nat -> World -> World) (w : World) (execution_id job_dir : string)
    (now : option datetime) (clock : datetime) : result JobExecutionState * World :=
  acknowledge (read_prepared w execution_id job_dir) (env 0%nat w) now clock.

(** ** The instruction for the external task *)

Record ExternalDraftInstruction := mkInstruction {
  di_execution_id : string;
  di_manifest_name : string;
  di_manifest_hash : string;
  di_prompt_hash : string;
  di_idempotency_key : string;
  di_seals : list (string * string);
  di_runner : string;
  di_model : option string;
  di_reasoning_effort : option Effort;
  di_prompt_path : string;
  di_job_dir : string;
  di_input_path : string;
  di_instructions_path : string;
  di_template_path : string;
  di_draft_path : string;
  di_allowed_write_paths : list string }.

(** [_required_seal] *)
Definition required_seal (s : JobExecutionState) (label : string) : result (string * string) :=
  match js_seals s !! label with
  | None => failure ("prepared execution is missing " +:+ label)
  | Some v => Ok (label, v)
  end.

(** [_resolve_project_file] and the reading of the prompt it guards: the bytes
    and the resolved path. *)
Definition resolve_project_file (w : World) (relative label : string) (maximum : Z)
    : result (string * list string) :=
  match w_project w !! relative with
  | None => failure (label +:+ " does not exist")
  | Some raw =>
      let size := Z.of_nat (String.length raw) in
      fail_when ((size <=? 0) || (maximum <? size)) (label +:+ " must be a bounded regular file") ;;
      Ok (raw, (project_root roots ++ split_on "/"%char relative)%list)
  end.

(** The validators of [ExternalDraftInstruction]. *)
Definition validate_instruction (i : ExternalDraftInstruction) : result ExternalDraftInstruction :=
  raise_when (negb (idempotency_key_pattern (di_idempotency_key i))) ValueError
    "instruction idempotency_key is invalid" ;;
  raise_when (negb (bool_decide (di_allowed_write_paths i = [di_draft_path i]))) ValueError
    "external draft instruction may allow only draft_path" ;;
  Ok i.

(** [draft_instruction] *)
Definition draft_instruction (w : World) (execution_id : string) : result ExternalDraftInstruction :=
  s ← resume w execution_id;
  fail_when (negb (bool_decide (js_phase s = awaiting_draft)))
    "draft instruction is available only while awaiting_draft" ;;
  manifest ← bound_manifest w execution_id;
  bound ← verify_bound_request w s;
  let '(directory, request) := bound in
  draft_input_seals ← load_and_validate_draft_inputs directory.2 request;
  require_matching_fields s draft_input_seals ;;
  prompt ← resolve_project_file w (ds_prompt (jm_draft manifest)) "draft prompt" MAX_PROMPT_BYTES;
  fail_when (negb (text_sha256 prompt.1 =? js_prompt_hash s)%string)
    "draft prompt changed after execution began" ;;
  let job_dir := (handoff_root roots ++ [directory.1])%list in
  let draft_path := (job_dir ++ ["drafts.json"])%list in
  require_manifest_write_scope (project_root roots) draft_path (ds_writable (jm_draft manifest)) ;;
  seals ← mapM_result (required_seal s)
    ["input_hash"; "request_hash"; "request_raw_hash"; "instructions_raw_hash"; "template_hash";
     "template_raw_hash"];
  let within name := path_text (job_dir ++ [name])%list in
  validate_instruction
    (mkInstruction (js_execution_id s) (js_manifest_name s) (js_manifest_hash s) (js_prompt_hash s)
       (js_idempotency_key s) seals (ds_runner (jm_draft manifest)) (ds_model (jm_draft manifest))
       (ds_reasoning_effort (jm_draft manifest)) (path_text prompt.2) (path_text job_dir)
       (within "input.json") (within "INSTRUCTIONS.md") (within "drafts.template.json")
       (path_text draft_path) [path_text draft_path]).

(** ** draft *)

Definition read_draft_ready (w : World) (execution_id : string) : result Acknowledgement :=
  s ← resume w execution_id;
  fail_when (bool_decide (js_phase s = prepare_pending))
    "prepare must be acknowledged before the draft" ;;
  bound ← verify_bound_request w s;
  let '(directory, request) := bound in
  draft_input_seals ← load_and_validate_draft_inputs directory.2 request;
  require_matching_fields s draft_input_seals ;;
  document ← secure_read_json directory.2 "drafts.json" MAX_JSON_BYTES;
  bundle ← model_validate read_bundle check_bundle document.2;
  fail_when (negb (bool_decide (js_seals s !! "job_id" = Some (hb_run_id bundle))))
    "draft run_id does not match the prepared handoff" ;;
  fail_when (negb (hb_input_hash bundle =? hr_input_hash request)%string)
    "draft input_hash does not match the prepared handoff" ;;
  fail_when (negb (hb_request_hash bundle =? hr_request_hash request)%string)
    "draft request_hash does not match the prepared handoff" ;;
  let seals := [("drafts_hash", canonical_hash (dump_bundle bundle));
                ("drafts_raw_hash", text_sha256 document.1)] in
  if bool_decide (js_phase s = awaiting_draft) then Ok (Append s finalize_pending seals)
  else require_matching_fields s seals ;; Ok (Bound s).

(** [record_draft_ready] *)
Definition record_draft_ready (env : nat -> World -> World) (w : World) (execution_id : string)
    (now : option datetime) (clock : datetime) : result JobExecutionState * World :=
  acknowledge (read_draft_ready w execution_id) (env 0%nat w) now clock.

(** ** finalize *)

(** The targets of a request. *)
Definition target_count (request : HandoffRequest) : Z :=
  let targets : gset (string * string) :=
    list_to_set ((fun a => (ha_index_code a, horizon_value (ha_horizon a))) <$> hr_assignments request) in
  Z.of_nat (size targets).

(** [_validate_receipt_terminal_invariants] *)
Definition validate_receipt_terminal_invariants (receipt : HandoffReceipt) (request : HandoffRequest)
    : result unit :=
  fail_when (negb (bool_decide (rc_protocol_version receipt = hr_protocol_version request))
             || negb (bool_decide (rc_provider receipt = hr_provider request)))
    "handoff receipt protocol and provider do not match the prepared handoff" ;;
  let targets := target_count request in
  fail_when (negb (dt_leb (hr_prepared_at request) (rc_finalized_at receipt)
                   && dt_leb (rc_finalized_at receipt) (hr_finalize_deadline request)))
    "handoff receipt finalized_at is outside the prepared handoff window" ;;
  match rc_status receipt with
  | completed =>
      fail_when (bool_decide (rc_output_hash receipt = None))
        "completed handoff receipt requires output_hash" ;;
      fail_when (bool_decide (is_Some (rc_error receipt)))
        "completed handoff receipt may not contain an error" ;;
      fail_when (negb (bool_decide ((rc_opinion_count receipt, rc_forecast_count receipt)
                                    = (Z.of_nat (length (hr_assignments request)) + targets, targets))))
        "completed handoff receipt has unexpected output counts"
  | failed =>
      fail_when (bool_decide (is_Some (rc_output_hash receipt)))
        "failed handoff receipt may not contain output_hash" ;;
      fail_when (negb (bool_decide ((rc_opinion_count receipt, rc_forecast_count receipt) = (0, 0))))
        "failed handoff receipt output counts must be zero" ;;
      fail_when (negb (truthy (py_strip (default "" (rc_error receipt)))))
        "failed handoff receipt requires a non-empty error"
  end.

Definition receipt_seals (receipt : HandoffReceipt) (raw : string) : list (string * string) :=
  [("receipt_status", status_value (rc_status receipt)); ("receipt_hash", rc_receipt_hash receipt);
   ("receipt_raw_hash", text_sha256 raw)].

(** The receipt of the handoff directory against the state. *)
Definition read_receipt_file (files : gmap string string) (request : HandoffRequest)
    (s : JobExecutionState) : result (HandoffReceipt * string) :=
  document ← secure_read_json files "receipt.json" MAX_JSON_BYTES;
  receipt ← model_validate read_receipt check_receipt document.2;
  fail_when (negb (rc_receipt_hash receipt =? receipt_digest dump_unsealed_receipt receipt)%string)
    "handoff receipt canonical hash is invalid" ;;
  fail_when (negb (bool_decide (js_seals s !! "job_id" = Some (rc_run_id receipt))))
    "handoff receipt run_id does not match execution" ;;
  fail_when (negb (forallb (fun kv => bool_decide (js_seals s !! kv.1 = Some kv.2))
                     [("input_hash", rc_input_hash receipt); ("request_hash", rc_request_hash receipt);
                      ("request_raw_hash", rc_request_raw_hash receipt);
                      ("drafts_hash", rc_drafts_hash receipt);
                      ("drafts_raw_hash", rc_drafts_raw_hash receipt)]))
    "handoff receipt seals do not match execution state" ;;
  validate_receipt_terminal_invariants receipt request ;;
  Ok (receipt, document.1).

(** [_write_or_verify_exact] of the trusted copy of the receipt. *)
Definition write_or_verify_exact (w : World) (execution_id payload : string)
    : result unit * World :=
  match execution_directory w execution_id with
  | Err e => (Err e, w)
  | Ok d =>
      match ed_files d !! "receipt.json" with
      | None => (Ok tt, put_execution w execution_id (put_file d "receipt.json" payload))
      | Some _ =>
          (existing ← secure_read_json (ed_files d) "receipt.json" MAX_JSON_BYTES;
           if (existing.1 =? payload)%string then Ok tt
           else conflict "trusted receipt already exists with different bytes", w)
      end
  end.

(** What [record_finalized] does from the state that [record_draft_ready]
    returned on. *)
Definition finalize_from (env : nat -> World -> World) (w : World) (execution_id : string)
    (files : gmap string string) (request : HandoffRequest) (s : JobExecutionState)
    (now : option datetime) (clock : datetime) : result JobExecutionState * World :=
  match read_receipt_file files request s with
  | Err e => (Err e, w)
  | Ok (receipt, raw) =>
      let '(written, w1) := write_or_verify_exact (env 1%nat w) execution_id raw in
      match written with
      | Err e => (Err e, w1)
      | Ok _ =>
          let seals := receipt_seals receipt raw in
          let w2 := env 2%nat w1 in
          if terminal (js_phase s) then
            (require_matching_fields s seals ;;
             d ← execution_directory w2 execution_id;
             verify_trusted_receipt d s ;;
             Ok s, w2)
          else append w2 s (phase_of_status (rc_status receipt)) now clock seals
      end
  end.

(** [record_finalized] *)
Definition record_finalized (env : nat -> World -> World) (w : World) (execution_id : string)
    (now : option datetime) (clock : datetime) : result JobExecutionState * World :=
  let bound :=
    s ← resume w execution_id;
    fail_when (bool_decide (js_phase s ∈ [prepare_pending; awaiting_draft]))
      "draft must be acknowledged before finalize" ;;
    verify_bound_request w s in
  match bound with
  | Err e => (Err e, w)
  | Ok (directory, request) =>
      let '(ready, w0) := record_draft_ready env w execution_id None clock in
      match ready with
      | Err e => (Err e, w0)
      | Ok s => finalize_from env w0 execution_id directory.2 request s now clock
      end
  end.

(** ** begin *)

(** [_validate_manifest_runtime_binding] *)
Definition check_output_root (stage : Action) (command : list string) : result unit :=
  output_root ← command_option command "--output-root";
  match output_root with
  | None => Ok tt
  | Some value =>
      let path := expanduser value in
      let candidate := if py_startswith path "/" then parts_of path
                       else (project_root roots ++ parts_of path)%list in
      fail_when (negb (bool_decide (resolve_parts candidate = handoff_root roots)))
        ("manifest " +:+ action_value stage +:+ " --output-root must match handoff_root")
  end.

Definition validate_manifest_runtime_binding (m : JobManifest) : result unit :=
  prepare_mode ← manifest_mode m prepare;
  finalize_mode ← manifest_mode m finalize;
  fail_when (negb (prepare_mode =? finalize_mode)%string)
    "manifest prepare and finalize modes must match" ;;
  check_output_root prepare (jm_prepare m) ;;
  check_output_root finalize (jm_finalize m) ;;
  require_manifest_write_scope (project_root roots)
    (handoff_root roots ++ ["00000000-0000-0000-0000-000000000000"; "drafts.json"])%list
    (ds_writable (jm_draft m)).

(** What [begin] computes before it looks at the state root. *)
Record Opening := mkOpening {
  og_timestamp : datetime;
  og_manifest_hash : string;
  og_prompt_hash : string }.

Definition opening (w : World) (m : JobManifest) (key : string) (now : option datetime)
    (clock : datetime) : result Opening :=
  fail_when (negb (idempotency_key_pattern key))
    "idempotency_key must match [A-Za-z0-9][A-Za-z0-9._:@+-]{0,127}" ;;
  validate_manifest_runtime_binding m ;;
  at_ ← timestamp now clock;
  prompt ← resolve_project_file w (ds_prompt (jm_draft m)) "draft prompt" MAX_PROMPT_BYTES;
  Ok (mkOpening at_ (canonical_hash (dump_manifest m)) (text_sha256 prompt.1)).

Definition initial_state (m : JobManifest) (key : string) (o : Opening) : JobExecutionState :=
  mkExecution (execution_id_of (jm_name m) key) (jm_name m) (og_manifest_hash o) (og_prompt_hash o)
    key prepare_pending 0 None (og_timestamp o) (og_timestamp o) ∅ zero_digest.

(** The directory that is built aside. *)
Definition initial_directory (m : JobManifest) (first : JobExecutionState) : ExecutionDirectory :=
  mkDirectory {["manifest.json" := json_bytes (dump_manifest m)]}
    {[revision_name 0 := json_bytes (dump_state first)]}.

(** [os.rename] of the finished directory: it fails, without harm, when another
    process was first. *)
Definition publish_directory (w : World) (id : string) (d : ExecutionDirectory) : World :=
  match w_executions w !! id with
  | Some _ => w
  | None => put_execution w id d
  end.

(** [begin] *)
Definition begin_ (env : nat -> World -> World) (w : World) (m : JobManifest) (key : string)
    (now : option datetime) (clock : datetime) : result JobExecutionState * World :=
  match opening w m key now clock with
  | Err e => (Err e, w)
  | Ok o =>
      let id := execution_id_of (jm_name m) key in
      let resumed w' :=
        s ← resume w' id;
        require_same_execution s (og_manifest_hash o) (og_prompt_hash o) key ;;
        Ok s in
      match w_executions w !! id with
      | Some _ => (resumed w, w)
      | None =>
          match validate_state (initial_state m key o) with
          | Err e => (Err e, w)
          | Ok unsigned =>
              let w' := publish_directory (env 0%nat w) id (initial_directory m (seal_state unsigned)) in
              (resumed w', w')
          end
      end
  end.

End Store.

End JobExecution.
