(* ===== verification/JobTheory.v ===== *)
(** * Lemmas on job executions

    The directory of an execution read as a chain of sealed states: what
    [resume] accepts, how the chain grows, and what the operations read. *)
From Stdlib Require Import Ascii.
From S2P Require Import Prelude PyStr PyTime Float64 Domain Json Contracts Committee Handoff JobManifest JobExecution.
Import PyStr PyTime Float64 Domain Json Contracts Handoff JobManifest JobExecution.
Open Scope string_scope.
Open Scope Z_scope.

Module JobTheory.

Lemma fail_when_Ok b m u : fail_when b m = Ok u <-> b = false.
Proof. apply raise_when_Ok. Qed.

Lemma fail_when_bind_Ok {A} b m (k : result A) a : (fail_when b m ;; k) = Ok a <-> b = false /\ k = Ok a.
Proof. apply raise_when_bind_Ok. Qed.

Lemma field_check_Ok b m u : field_check b m = Ok u <-> b = true.
Proof. unfold field_check. rewrite raise_when_Ok. by destruct b. Qed.

Lemma check_aware_Ok d m u : check_aware d m = Ok u <-> is_aware d = true.
Proof. unfold check_aware. rewrite raise_when_Ok. by destruct (is_aware d). Qed.

(** ** Numbered files *)

(** The names of the first [n] revisions. *)
Definition names (n : nat) : list string := (fun i => revision_name (Z.of_nat i)) <$> seq 0 n.

Lemma names_S n : names (S n) = (names n ++ [revision_name (Z.of_nat n)])%list.
Proof. unfold names. by rewrite seq_S, fmap_app. Qed.

Lemma length_names n : length (names n) = n.
Proof. unfold names. by rewrite length_fmap, length_seq. Qed.

Lemma names_sorted n : (n <= 5)%nat -> StronglySorted String.le (names n) /\ NoDup (names n).
Proof.
  intros Hn. destruct n as [|[|[|[|[|[|n]]]]]]; [..|lia];
    (split; [repeat constructor; by vm_compute|by apply (bool_decide_unpack _); vm_compute]).
Qed.

Lemma sorted_names_permutation m : sorted_names m ≡ₚ elements (dom m).
Proof. apply merge_sort_Permutation. Qed.

Lemma sorted_names_elem m name : name ∈ sorted_names m <-> name ∈ dom m.
Proof. by rewrite sorted_names_permutation, elem_of_elements. Qed.

Lemma sorted_names_of m n :
  (n <= 5)%nat -> dom m = list_to_set (names n) -> sorted_names m = names n.
Proof.
  intros Hn Hdom. destruct (names_sorted n Hn) as [Hs Hnd].
  apply (StronglySorted_unique String.le).
  - apply (StronglySorted_merge_sort _).
  - done.
  - rewrite sorted_names_permutation. rewrite Hdom. by apply elements_list_to_set.
Qed.

Lemma names_inj n k : (n < 10)%nat -> (k < 10)%nat ->
  revision_name (Z.of_nat n) = revision_name (Z.of_nat k) -> n = k.
Proof.
  intros Hn Hk Heq. assert (forallb (fun n => forallb (fun k =>
    negb (revision_name (Z.of_nat n) =? revision_name (Z.of_nat k))%string || (n =? k)%nat) (seq 0 10))
    (seq 0 10) = true) as Hall by by_vm.
  rewrite forallb_forall in Hall. specialize (Hall n ltac:(apply in_seq; lia)).
  rewrite forallb_forall in Hall. specialize (Hall k ltac:(apply in_seq; lia)).
  rewrite Heq, String.eqb_refl in Hall. by apply Nat.eqb_eq.
Qed.

(** ** What [resume] reads *)

Section Reading.
Context `{CanonicalHash} `{Documents}.

(** A file that holds a well-formed state. *)
Definition reads (files : gmap string string) (name : string) (s : JobExecutionState) : Prop :=
  exists document, secure_read_json files name MAX_STATE_BYTES = Ok document
    /\ read_state document.2 = Some s /\ validate_state s = Ok s.

Lemma validate_state_same s t : validate_state s = Ok t -> t = s.
Proof. unfold validate_state. intros Hs. inv_ok Hs. by injection Hs. Qed.

Lemma reads_unique files name s t : reads files name s -> reads files name t -> s = t.
Proof. intros (d & Hd & Hs & _) (d' & Hd' & Ht & _). congruence. Qed.

Lemma reads_mono files files' name s : files ⊆ files' -> reads files name s -> reads files' name s.
Proof.
  intros Hsub (d & Hd & Hs). exists d. split; [|done]. revert Hd.
  unfold secure_read_json, secure_read_bytes. destruct (files !! name) as [raw|] eqn:E; [|done].
  by rewrite (lookup_weaken _ _ _ _ E Hsub).
Qed.

Lemma reads_present files name s : reads files name s -> is_Some (files !! name).
Proof.
  intros (d & Hd & _). revert Hd. unfold secure_read_json, secure_read_bytes.
  destruct (files !! name); [by eexists|done].
Qed.

(** The states of a chain, each verified against the one before. *)
Fixpoint verified (execution_id : string) (bound : JobManifest * string)
    (previous : option JobExecutionState) (h : list JobExecutionState) : Prop :=
  match h with
  | [] => True
  | s :: h' => verify_state_revision s previous execution_id bound.1 bound.2 = Ok tt
               /\ verified execution_id bound (Some s) h'
  end.

Definition last_or (previous : option JobExecutionState) (h : list JobExecutionState)
    : option JobExecutionState :=
  match last h with Some s => Some s | None => previous end.

Lemma last_or_cons previous s h : last_or previous (s :: h) = last_or (Some s) h.
Proof. unfold last_or. rewrite last_cons. by destruct (last h). Qed.

Lemma verified_snoc id bound previous h s :
  verified id bound previous (h ++ [s])
  <-> verified id bound previous h
      /\ verify_state_revision s (last_or previous h) id bound.1 bound.2 = Ok tt.
Proof.
  revert previous. induction h as [|a h IH]; intros previous; cbn [verified app].
  - unfold last_or. cbn. tauto.
  - rewrite IH, last_or_cons. tauto.
Qed.

(** One step of the loop of [resume]. *)
Lemma resume_file_Ok d id bound previous k name acc :
  resume_file d id bound (previous, k) name = Ok acc
  <-> exists s, acc = (Some s, k + 1) /\ k < 1000000 /\ name = revision_name k
        /\ reads (ed_revisions d) name s
        /\ verify_state_revision s previous id bound.1 bound.2 = Ok tt.
Proof.
  unfold resume_file, reads. split.
  - intros Hr. rewrite fail_when_bind_Ok in Hr. destruct Hr as [Hn Hr]. bool_prop.
    rewrite bind_Ok in Hr. destruct Hr as (doc & Hd & Hr). rewrite bind_Ok in Hr.
    destruct Hr as (s & Hs & Hr). rewrite bind_Ok in Hr. destruct Hr as ([] & Hv & [= <-]).
    destruct (read_state doc.2) as [t|] eqn:Et; [|done].
    pose proof (validate_state_same _ _ Hs) as ->. exists t. split; [done|]. split; [done|].
    split; [done|]. split; [|done]. by exists doc.
  - intros (s & -> & Hk & -> & (doc & Hd & Hs & Hv) & Hok).
    rewrite (proj2 (Z.ltb_lt _ _) Hk), String.eqb_refl. cbn [negb andb fail_when raise_when mbind result_bind].
    rewrite Hd. cbn [mbind result_bind]. rewrite Hs, Hv. cbn [mbind result_bind]. by rewrite Hok.
Qed.

Lemma loop_Ok d id bound l : forall previous k acc,
  for_each (resume_file d id bound) (previous, k) l = Ok acc ->
  exists h, acc = (last_or previous h, k + Z.of_nat (length h))
    /\ l = (fun i => revision_name (k + Z.of_nat i)) <$> seq 0 (length h)
    /\ Forall2 (reads (ed_revisions d)) l h /\ verified id bound previous h.
Proof.
  induction l as [|name l IH]; intros previous k acc Hl; cbn [for_each] in Hl.
  - injection Hl as <-. exists []. cbn. rewrite Z.add_0_r. done.
  - rewrite bind_Ok in Hl. destruct Hl as (acc' & Hf & Hl).
    apply resume_file_Ok in Hf as (s & -> & Hk & -> & Hr & Hv).
    apply IH in Hl as (h & -> & -> & Hread & Hver). exists (s :: h). rewrite last_or_cons.
    split; [f_equal; cbn; lia|]. split; [|split; [by constructor|done]].
    cbn [length seq]. rewrite fmap_cons, Z.add_0_r. f_equal. rewrite <- fmap_S_seq, <- list_fmap_compose.
    apply list_fmap_ext. intros i x _. cbn. f_equal. lia.
Qed.

Lemma loop_run d id bound h : forall previous k,
  k + Z.of_nat (length h) <= 1000000 ->
  Forall2 (reads (ed_revisions d)) ((fun i => revision_name (k + Z.of_nat i)) <$> seq 0 (length h)) h ->
  verified id bound previous h ->
  for_each (resume_file d id bound) (previous, k) ((fun i => revision_name (k + Z.of_nat i)) <$> seq 0 (length h))
  = Ok (last_or previous h, k + Z.of_nat (length h)).
Proof.
  induction h as [|s h IH]; intros previous k Hk Hread Hver.
  - cbn. by rewrite Z.add_0_r.
  - cbn [length seq] in *. rewrite fmap_cons in *. rewrite Z.add_0_r in *.
    inversion Hread as [|? ? ? ? Hr Hread']; subst. destruct Hver as [Hv Hver].
    assert (((fun i => revision_name (k + Z.of_nat i)) <$> seq 1 (length h))
            = (fun i => revision_name (k + 1 + Z.of_nat i)) <$> seq 0 (length h)) as Hshift.
    { rewrite <- fmap_S_seq, <- list_fmap_compose. apply list_fmap_ext. intros i x _. cbn. f_equal. lia. }
    rewrite Hshift in *. cbn [for_each].
    rewrite (proj2 (resume_file_Ok d id bound previous k _ (Some s, k + 1))).
    + cbn [mbind result_bind]. rewrite IH; [|lia|done|done]. rewrite last_or_cons. do 2 f_equal. lia.
    + exists s. split; [done|]. split; [lia|]. done.
Qed.

(** ** Successive states *)

(** [s] is a legal revision after [p]: what [_verify_state_revision] compares. *)
Record succeeds (p s : JobExecutionState) : Prop := Succeeds {
  sc_revision : js_revision s = js_revision p + 1;
  sc_link : js_previous_state_hash s = Some (js_state_hash p);
  sc_identity : js_execution_id s = js_execution_id p /\ js_manifest_name s = js_manifest_name p
    /\ js_manifest_hash s = js_manifest_hash p /\ js_prompt_hash s = js_prompt_hash p
    /\ js_idempotency_key s = js_idempotency_key p;
  sc_created : instant (js_created_at s) = instant (js_created_at p);
  sc_time : instant (js_updated_at p) <= instant (js_updated_at s);
  sc_phase : js_phase s ∈ allowed_next (js_phase p);
  sc_seals : js_seals p ⊆ js_seals s }.

(** Every entry of a valid state is one of the twelve fields. *)
Lemma seal_ok_field field value : seal_ok field value = true -> field ∈ SEALED_FIELDS.
Proof.
  unfold seal_ok. destruct (field =? "job_id")%string eqn:E1; bool_prop; [intros _; subst; by left|].
  destruct (field =? "receipt_status")%string eqn:E2; bool_prop; [intros _; subst|].
  - apply list_elem_of_In. cbn. tauto.
  - intros Hs. by bool_prop.
Qed.

Lemma validate_state_seals s :
  validate_state s = Ok s -> forall field value, js_seals s !! field = Some value -> seal_ok field value = true.
Proof.
  intros Hs field value Hf. unfold validate_state in Hs. do 8 (apply bind_Ok in Hs as (? & _ & Hs)).
  apply bind_Ok in Hs as (? & Hall & _). apply field_check_Ok in Hall.
  rewrite forallb_forall in Hall. apply (Hall (field, value)), list_elem_of_In, elem_of_map_to_list. done.
Qed.

Lemma changes_seal_spec p s :
  validate_state p = Ok p -> existsb (changes_seal p s) SEALED_FIELDS = false <-> js_seals p ⊆ js_seals s.
Proof.
  intros Hp. rewrite map_subseteq_spec. split.
  - intros Hno field v Hf.
    assert (changes_seal p s field = false) as Hc.
    { apply not_true_iff_false. intros Hc. apply not_true_iff_false in Hno. apply Hno, existsb_exists.
      exists field. split; [|done]. apply list_elem_of_In. eapply seal_ok_field, validate_state_seals; done. }
    unfold changes_seal in Hc. rewrite Hf in Hc. by bool_prop.
  - intros Hsub. apply not_true_iff_false. intros (field & _ & Hc)%existsb_exists.
    unfold changes_seal in Hc. destruct (js_seals p !! field) as [v|] eqn:E; [|done].
    apply Hsub in E. by bool_prop.
Qed.

Lemma verify_successor_Ok p s :
  validate_state p = Ok p -> verify_successor p s = Ok tt <-> succeeds p s.
Proof.
  intros Hp. unfold verify_successor. split.
  - intros Hv. rewrite !fail_when_bind_Ok, fail_when_Ok in Hv.
    destruct Hv as (H1 & H2 & H3 & H4 & H5 & H6). apply (changes_seal_spec p s Hp) in H6.
    unfold dt_eqb, dt_ltb in *. bool_prop. by split.
  - intros [H1 H2 (H3 & H4 & H5 & H6 & H7) H8 H9 H10 H11].
    rewrite !fail_when_bind_Ok, fail_when_Ok. apply (changes_seal_spec p s Hp) in H11.
    rewrite H1, H2, H3, H4, H5, H6, H7, Z.eqb_refl, !String.eqb_refl, !bool_decide_true by done.
    unfold dt_eqb, dt_ltb. rewrite H8, Z.eqb_refl. split_and!; try done. by apply Z.ltb_ge.
Qed.

Lemma allowed_next_rank p q : q ∈ allowed_next p -> phase_rank q = phase_rank p + 1.
Proof. destruct p, q; cbn; intros Hin; repeat (apply elem_of_cons in Hin as [Hin|Hin]; try done);
  by apply not_elem_of_nil in Hin. Qed.

(** *** The shape of a verified chain *)

Definition chained (p s : JobExecutionState) : Prop := succeeds p s.

Lemma verified_head id bound s :
  verify_state_revision s None id bound.1 bound.2 = Ok tt <->
  js_execution_id s = id /\ js_manifest_name s = jm_name bound.1 /\ js_manifest_hash s = bound.2
  /\ js_state_hash s = state_digest s /\ js_revision s = 0 /\ js_phase s = prepare_pending.
Proof.
  unfold verify_state_revision. rewrite !fail_when_bind_Ok, fail_when_Ok.
  rewrite !orb_false_iff, !negb_false_iff, !String.eqb_eq, Z.eqb_eq, bool_decide_eq_true. tauto.
Qed.

Lemma verified_next id bound p s :
  validate_state p = Ok p ->
  verify_state_revision s (Some p) id bound.1 bound.2 = Ok tt <->
  js_execution_id s = id /\ js_manifest_name s = jm_name bound.1 /\ js_manifest_hash s = bound.2
  /\ js_state_hash s = state_digest s /\ succeeds p s.
Proof.
  intros Hp. unfold verify_state_revision. rewrite !fail_when_bind_Ok, (verify_successor_Ok p s Hp).
  rewrite !orb_false_iff, !negb_false_iff, !String.eqb_eq. tauto.
Qed.

(** A verified history: its first state opens the execution, each state
    succeeds the one before it, and every hash is right. *)
Record history (id : string) (bound : JobManifest * string) (h : list JobExecutionState) : Prop := History {
  hi_bound : forall s, s ∈ h -> js_execution_id s = id /\ js_manifest_name s = jm_name bound.1
    /\ js_manifest_hash s = bound.2 /\ js_state_hash s = state_digest s;
  hi_first : forall s, h !! 0%nat = Some s -> js_revision s = 0 /\ js_phase s = prepare_pending;
  hi_next : forall i p s, h !! i = Some p -> h !! S i = Some s -> succeeds p s }.

Definition all_valid (h : list JobExecutionState) : Prop := forall s, s ∈ h -> validate_state s = Ok s.

Lemma last_or_snoc previous h s : last_or previous (h ++ [s]) = Some s.
Proof. unfold last_or. by rewrite last_snoc. Qed.

Lemma verified_history id bound h :
  all_valid h -> verified id bound None h <-> history id bound h.
Proof.
  induction h as [|s h IH] using rev_ind; intros Hvalid.
  - split; [|done]. intros _. split; by (set_solver || (intros; by simplify_list_eq)).
  - assert (all_valid h) as Hvh by (intros x Hx; apply Hvalid; set_solver).
    rewrite verified_snoc, (IH Hvh). destruct h as [|p h _] using rev_ind; [clear IH|].
    + unfold last_or. cbn [last]. rewrite verified_head. split.
      * intros (_ & Hs). split.
        -- intros x ->%list_elem_of_singleton. tauto.
        -- intros x [= <-]. tauto.
        -- intros [|i] ? ? ? [=].
      * intros [H1 H2 _]. specialize (H1 s ltac:(set_solver)). specialize (H2 s eq_refl).
        split; [|tauto]. split; by (set_solver || (intros; by simplify_list_eq)).
    + rewrite last_or_snoc, (verified_next _ _ p s) by (apply Hvalid; set_solver). split.
      * intros [[H1 H2 H3] (B1 & B2 & B3 & B4 & Hs)]. split.
        -- intros x [Hx| ->%list_elem_of_singleton]%elem_of_app; [by apply H1|done].
        -- intros x Hx. apply H2. by rewrite <- Hx; destruct h.
        -- intros i a b Ha Hb. apply lookup_app_Some in Hb as [Hb|[Hlen Hb]].
           { eapply H3; [|done]. rewrite lookup_app_l in Ha; [done|]. apply lookup_lt_Some in Hb. lia. }
           apply list_lookup_singleton_Some in Hb as [Hi <-]. rewrite length_app in *. cbn in *.
           assert (i = length h) as -> by lia. rewrite <- app_assoc in Ha. cbn in Ha.
           rewrite list_lookup_middle in Ha by done. by injection Ha as ->.
      * intros [H1 H2 H3]. destruct (H1 s ltac:(set_solver)) as (B1 & B2 & B3 & B4). split.
        -- split.
           ++ intros x Hx. apply H1. set_solver.
           ++ intros x Hx. apply H2. by rewrite <- Hx; destruct h.
           ++ intros i a b Ha Hb. eapply H3; rewrite lookup_app_l; try done; by eapply lookup_lt_Some.
        -- split_and!; try done. apply (H3 (length h)); rewrite <- app_assoc; cbn.
           ++ by rewrite list_lookup_middle.
           ++ rewrite lookup_app_r by lia. by replace (S (length h) - length h)%nat with 1%nat by lia.
Qed.

(** The revision number and the rank of the phase count the states before. *)
Lemma history_rank id bound h i s :
  history id bound h -> h !! i = Some s ->
  js_revision s = Z.of_nat i /\ phase_rank (js_phase s) = Z.of_nat i.
Proof.
  intros [_ Hfirst Hn]. revert s. induction i as [|i IH]; intros s Hs.
  - by destruct (Hfirst s Hs) as [-> ->].
  - assert (is_Some (h !! i)) as [p Hp] by (apply lookup_lt_is_Some; apply lookup_lt_Some in Hs; lia).
    destruct (IH p Hp) as [Hr Hk]. destruct (Hn i p s Hp Hs). apply allowed_next_rank in sc_phase0. lia.
Qed.

Lemma phase_rank_bounds p : 0 <= phase_rank p <= 3.
Proof. destruct p; cbn; lia. Qed.

Lemma history_length id bound h : history id bound h -> (length h <= 4)%nat.
Proof.
  intros Hh. destruct (decide (length h <= 4)%nat) as [|Hlen]; [done|].
  assert (is_Some (h !! 4%nat)) as [s Hs] by (apply lookup_lt_is_Some; lia).
  destruct (history_rank id bound h 4 s Hh Hs). pose proof (phase_rank_bounds (js_phase s)). lia.
Qed.

(** ** Directories *)

(** What a directory that [resume] accepts is: bound to a manifest, with nothing
    unexpected in it, its revision files numbered without a gap and holding a
    history, and with the trusted receipt of a terminal state. *)
Record valid_directory (d : ExecutionDirectory) (id : string) (bound : JobManifest * string)
    (h : list JobExecutionState) : Prop := Valid {
  vd_bound : load_bound_manifest d = Ok bound;
  vd_entries : dom (ed_files d) ⊆ list_to_set ALLOWED_ENTRIES;
  vd_names : dom (ed_revisions d) = list_to_set (names (length h));
  vd_nonempty : h <> [];
  vd_reads : Forall2 (reads (ed_revisions d)) (names (length h)) h;
  vd_history : history id bound h;
  vd_receipt : forall s, last h = Some s -> terminal (js_phase s) = true ->
    verify_trusted_receipt d s = Ok tt }.

Lemma reads_valid files l h : Forall2 (reads files) l h -> all_valid h.
Proof.
  intros Hf s Hs. apply list_elem_of_lookup in Hs as [i Hi].
  apply (Forall2_lookup_r _ _ _ _ _ Hf) in Hi as (name & _ & (doc & _ & _ & Hv)). done.
Qed.

Lemma entries_spec d :
  forallb (fun name => bool_decide (name ∈ ALLOWED_ENTRIES)) (elements (dom (ed_files d))) = true
  <-> dom (ed_files d) ⊆ list_to_set ALLOWED_ENTRIES.
Proof.
  rewrite forallb_forall. setoid_rewrite bool_decide_eq_true. setoid_rewrite <- list_elem_of_In.
  setoid_rewrite elem_of_elements. rewrite elem_of_subseteq. setoid_rewrite elem_of_list_to_set. done.
Qed.

Lemma names_from_zero n :
  ((fun i => revision_name (0 + Z.of_nat i)) <$> seq 0 n) = names n.
Proof. done. Qed.

Lemma resume_directory_Ok d id s :
  resume_directory d id = Ok s <-> exists bound h, valid_directory d id bound h /\ last h = Some s.
Proof.
  unfold resume_directory. split.
  - intros Hr. apply bind_Ok in Hr as (bound & Hb & Hr). rewrite !fail_when_bind_Ok in Hr.
    destruct Hr as (He & Hne & Hr). apply negb_false_iff, entries_spec in He.
    apply bind_Ok in Hr as (acc & Hl & Hr). apply loop_Ok in Hl as (h & -> & Hn & Hread & Hver).
    rewrite names_from_zero in Hn. rewrite Hn in Hread, Hne. cbn [fst] in Hr.
    pose proof (reads_valid _ _ _ Hread) as Hall. apply (verified_history _ _ _ Hall) in Hver.
    unfold last_or in Hr. destruct (last h) as [t|] eqn:Elast; [|done].
    apply bind_Ok in Hr as ([] & Ht & [= <-]). exists bound, h. split; [|done]. split; try done.
    + apply set_eq. intros name. rewrite elem_of_list_to_set, <- Hn. symmetry. apply sorted_names_elem.
    + intros ->. done.
    + intros u Hu Hterm. rewrite Elast in Hu. injection Hu as <-. by rewrite Hterm in Ht.
  - intros (bound & h & [H1 H2 H3 H4 H5 H6 H7] & Hlast). rewrite H1. cbn [mbind result_bind].
    apply entries_spec in H2. rewrite H2. cbn [negb fail_when raise_when mbind result_bind].
    pose proof (history_length _ _ _ H6) as Hlen.
    rewrite (sorted_names_of _ (length h)) by (done || lia).
    assert (empty (names (length h)) = false) as -> by (destruct h; [done|by cbn]).
    cbn [fail_when raise_when mbind result_bind]. rewrite <- (names_from_zero (length h)) in H5 |- *.
    rewrite loop_run; [|lia|done|apply verified_history; [by eapply reads_valid|done]].
    cbn [mbind result_bind fst]. unfold last_or. rewrite Hlast. specialize (H7 s Hlast).
    destruct (terminal (js_phase s)); [by rewrite H7|done].
Qed.

(** The history of a directory is determined by its files. *)
Lemma valid_directory_unique d id bound h bound' h' :
  valid_directory d id bound h -> valid_directory d id bound' h' -> bound' = bound /\ h' = h.
Proof.
  intros H1 H2. split; [pose proof (vd_bound _ _ _ _ H1); pose proof (vd_bound _ _ _ _ H2); congruence|].
  assert (length h' = length h) as Hlen.
  { pose proof (history_length _ _ _ (vd_history _ _ _ _ H1)).
    pose proof (history_length _ _ _ (vd_history _ _ _ _ H2)).
    assert (names (length h') = names (length h)) as Hn.
    { pose proof (sorted_names_of _ (length h) ltac:(lia) (vd_names _ _ _ _ H1)).
      pose proof (sorted_names_of _ (length h') ltac:(lia) (vd_names _ _ _ _ H2)). congruence. }
    by rewrite <- (length_names (length h')), Hn, length_names. }
  pose proof (vd_reads _ _ _ _ H1) as R1. pose proof (vd_reads _ _ _ _ H2) as R2. rewrite Hlen in R2.
  revert R1 R2. generalize (names (length h)). clear. intros l R1. revert h'.
  induction R1 as [|n s l h Hs _ IH]; intros h' R2; inversion R2; subst; [done|].
  f_equal; [by eapply reads_unique|by apply IH].
Qed.

(** Directories only grow: files are added, none is changed or removed. *)
Definition grown (d d' : ExecutionDirectory) : Prop :=
  ed_files d ⊆ ed_files d' /\ ed_revisions d ⊆ ed_revisions d'.

#[global] Instance grown_preorder : PreOrder grown.
Proof. split; [by intros d|intros d1 d2 d3 [? ?] [? ?]; split; by etrans]. Qed.

Lemma load_bound_grown d d' bound :
  ed_files d ⊆ ed_files d' -> load_bound_manifest d = Ok bound -> load_bound_manifest d' = Ok bound.
Proof.
  unfold load_bound_manifest. intros Hsub. destruct (ed_files d !! "manifest.json") as [raw|] eqn:E; [|done].
  by rewrite (lookup_weaken _ _ _ _ E Hsub).
Qed.

Lemma verify_trusted_grown d d' s :
  ed_files d ⊆ ed_files d' -> verify_trusted_receipt d s = Ok tt -> verify_trusted_receipt d' s = Ok tt.
Proof.
  intros Hsub. unfold verify_trusted_receipt, secure_read_json, secure_read_bytes.
  destruct (ed_files d !! "receipt.json") as [raw|] eqn:E; [|done].
  by rewrite (lookup_weaken _ _ _ _ E Hsub).
Qed.

Lemma names_prefix n k : (n <= k)%nat -> names n `prefix_of` names k.
Proof.
  intros Hle. exists ((fun i => revision_name (Z.of_nat i)) <$> seq n (k - n)).
  unfold names. rewrite <- fmap_app, <- seq_app. do 2 f_equal. lia.
Qed.

Lemma names_nodup_length n k :
  (n <= 5)%nat -> (k <= 5)%nat -> list_to_set (C:=gset string) (names n) ⊆ list_to_set (names k) -> (n <= k)%nat.
Proof.
  intros Hn Hk Hsub. destruct (names_sorted n Hn) as [_ Hnd].
  assert (names n ⊆ names k) as Hin by (intros x; specialize (Hsub x); set_solver).
  pose proof (submseteq_length _ _ (NoDup_submseteq _ _ Hnd Hin)) as Hlen. by rewrite !length_names in Hlen.
Qed.

(** A grown directory has a history that continues the old one. *)
Lemma grown_history d d' id bound h bound' h' :
  valid_directory d id bound h -> valid_directory d' id bound' h' -> grown d d' ->
  bound' = bound /\ h `prefix_of` h'.
Proof.
  intros H1 H2 [Hf Hr]. split.
  { pose proof (load_bound_grown _ _ _ Hf (vd_bound _ _ _ _ H1)). pose proof (vd_bound _ _ _ _ H2). congruence. }
  pose proof (history_length _ _ _ (vd_history _ _ _ _ H1)).
  pose proof (history_length _ _ _ (vd_history _ _ _ _ H2)).
  assert (length h <= length h')%nat as Hlen.
  { apply names_nodup_length; [lia..|]. rewrite <- (vd_names _ _ _ _ H1), <- (vd_names _ _ _ _ H2).
    by apply subseteq_dom. }
  assert (take (length h) h' = h) as <-; [|by exists (drop (length h) h'); rewrite take_drop].
  apply list_eq. intros i. destruct (decide (i < length h)%nat) as [Hi|Hi].
  - rewrite lookup_take_lt by done.
    destruct (lookup_lt_is_Some_2 h i Hi) as [s Hs]. destruct (lookup_lt_is_Some_2 h' i ltac:(lia)) as [t Ht].
    rewrite Hs, Ht. f_equal.
    destruct (Forall2_lookup_r _ _ _ _ _ (vd_reads _ _ _ _ H1) Hs) as (n1 & En1 & R1).
    destruct (Forall2_lookup_r _ _ _ _ _ (vd_reads _ _ _ _ H2) Ht) as (n2 & En2 & R2).
    pose proof (prefix_lookup_Some _ _ _ _ En1 (names_prefix _ _ Hlen)) as En. assert (n1 = n2) as -> by congruence.
    eapply reads_unique; [exact R2|]. by eapply reads_mono.
  - rewrite lookup_take_ge, lookup_ge_None_2 by lia. done.
Qed.

End Reading.

(** ** Appending *)

(** What is written is read back: from the JSON text of a valid state, and of a
    validated manifest, the same model is read; a digest is a SHA-256 text. *)
Class DocumentLaws `{CanonicalHash} `{Documents} := {
  digest_hex : forall j, is_sha256_hex (canonical_hash j) = true;
  state_text : forall s, validate_state s = Ok s -> is_slug (js_manifest_name s) = true ->
    exists j, json_loads (json_bytes (dump_state s)) = Some j /\ read_state j = Some s;
  manifest_text : forall m, validate_job_manifest zone_installed m = Ok m ->
    exists p, json_loads (json_bytes (dump_manifest m)) = Some (JObj p) /\ read_manifest p = Some m }.

Definition text_size (raw : string) : Z := Z.of_nat (String.length raw).

Section Appending.
Context `{CanonicalHash} `{Documents} `{!DocumentLaws}.

Lemma validate_sealed s : validate_state s = Ok s -> validate_state (seal_state s) = Ok (seal_state s).
Proof.
  intros Hv. unfold validate_state in Hv |- *.
  change (js_execution_id (seal_state s)) with (js_execution_id s).
  change (js_manifest_hash (seal_state s)) with (js_manifest_hash s).
  change (js_prompt_hash (seal_state s)) with (js_prompt_hash s).
  change (js_idempotency_key (seal_state s)) with (js_idempotency_key s).
  change (js_revision (seal_state s)) with (js_revision s).
  change (js_previous_state_hash (seal_state s)) with (js_previous_state_hash s).
  change (js_created_at (seal_state s)) with (js_created_at s).
  change (js_updated_at (seal_state s)) with (js_updated_at s).
  change (js_seals (seal_state s)) with (js_seals s).
  do 9 (apply bind_Ok in Hv as ([] & ?E & Hv)). apply bind_Ok in Hv as ([] & _ & Hv).
  apply bind_Ok in Hv as ([] & Hp & _).
  rewrite E, E0, E1, E2, E3, E4, E5, E6, E7. cbn [mbind result_bind].
  change (phase_has_exact_seals (seal_state s)) with (phase_has_exact_seals s). rewrite Hp.
  change (js_state_hash (seal_state s)) with (state_digest s). unfold field_check, state_digest.
  by rewrite digest_hex.
Qed.

Lemma digest_sealed s : js_state_hash (seal_state s) = state_digest (seal_state s).
Proof. done. Qed.

Lemma secure_read_put files name raw maximum :
  0 < text_size raw <= maximum ->
  secure_read_json (<[name := raw]> files) name maximum
  = match json_loads raw with
    | Some j => Ok (raw, j)
    | None => failure (name +:+ " must be strict UTF-8 JSON")
    end.
Proof.
  unfold text_size. intros Hsize. unfold secure_read_json, secure_read_bytes. rewrite lookup_insert_eq.
  assert ((Z.of_nat (String.length raw) <=? 0) || (maximum <? Z.of_nat (String.length raw)) = false) as ->
    by (apply orb_false_iff; split; [apply Z.leb_gt|apply Z.ltb_ge]; lia).
  cbn [fail_when raise_when mbind result_bind]. by destruct (json_loads raw).
Qed.

Lemma json_bytes_nonempty j : 0 < text_size (json_bytes j).
Proof.
  unfold json_bytes, text_size. induction (json_dumps j) as [|c s IH]; [by cbn|].
  change (String c s +:+ newline) with (String c (s +:+ newline)). cbn [String.length]. lia.
Qed.

Lemma reads_put files name s :
  validate_state s = Ok s -> is_slug (js_manifest_name s) = true ->
  text_size (json_bytes (dump_state s)) <= MAX_STATE_BYTES ->
  reads (<[name := json_bytes (dump_state s)]> files) name s.
Proof.
  intros Hv Hslug Hsize. destruct (state_text s Hv Hslug) as (j & Hj & Hr).
  pose proof (json_bytes_nonempty (dump_state s)).
  exists (json_bytes (dump_state s), j). rewrite secure_read_put by done. by rewrite Hj.
Qed.

Lemma load_manifest_valid name raw m :
  load_job_manifest zone_installed json_loads read_manifest name raw = Ok m ->
  validate_job_manifest zone_installed m = Ok m.
Proof.
  unfold load_job_manifest. intros Hl. rewrite !raise_when_bind_Ok in Hl. destruct Hl as (_ & _ & Hl).
  destruct (json_loads raw) as [[| | | | | |payload]|]; try done.
  destruct (read_manifest payload) as [m'|]; [|done].
  assert (m = m') as ->; [|done]. unfold validate_job_manifest in Hl. inv_ok Hl. by injection Hl.
Qed.

Lemma load_bound_valid d bound :
  load_bound_manifest d = Ok bound -> validate_job_manifest zone_installed bound.1 = Ok bound.1.
Proof.
  unfold load_bound_manifest. destruct (ed_files d !! "manifest.json") as [raw|]; [|done].
  destruct (load_job_manifest zone_installed json_loads read_manifest "manifest.json" raw) as [m|e] eqn:E; [|done].
  intros [= <-]. by eapply load_manifest_valid.
Qed.

Lemma validated_slug m : validate_job_manifest zone_installed m = Ok m -> is_slug (jm_name m) = true.
Proof.
  unfold validate_job_manifest. rewrite raise_when_bind_Ok. intros [Hs _]. by bool_prop.
Qed.

(** The bytes of a receipt bind a state through three of its seals. *)
Lemma verify_trusted_seals d s t :
  (forall f, f ∈ FINALIZED_FIELDS -> js_seals s !! f = js_seals t !! f) ->
  verify_trusted_receipt d s = verify_trusted_receipt d t.
Proof.
  intros Hf. unfold verify_trusted_receipt.
  by rewrite !Hf by (apply list_elem_of_In; cbn; tauto).
Qed.

(** Updates that leave the fields bound so far alone. *)
Definition fresh_updates (s : JobExecutionState) (updates : list (string * string)) : Prop :=
  forall f v, seals_of updates !! f = Some v -> js_seals s !! f = None.

Lemma fresh_union s updates : fresh_updates s updates -> js_seals s ⊆ seals_of updates ∪ js_seals s.
Proof.
  intros Hf. apply map_union_subseteq_r. apply map_disjoint_spec. intros f v v' Hu Hs.
  apply Hf in Hu. congruence.
Qed.

Lemma history_valid_elem d id bound h s : valid_directory d id bound h -> s ∈ h -> validate_state s = Ok s.
Proof. intros Hd. apply (reads_valid _ _ _ (vd_reads _ _ _ _ Hd)). Qed.

Lemma names_elem n i : (i < n)%nat -> revision_name (Z.of_nat i) ∈ names n.
Proof.
  intros Hi. unfold names. apply list_elem_of_fmap. exists i. split; [done|]. apply elem_of_seq. lia.
Qed.

Lemma names_elem_inv n i : (n <= 5)%nat -> (i <= 5)%nat -> revision_name (Z.of_nat i) ∈ names n -> (i < n)%nat.
Proof.
  intros Hn Hi (k & Hk & Hin)%list_elem_of_fmap. apply elem_of_seq in Hin.
  apply names_inj in Hk; lia.
Qed.

(** The number after a state's is free only if the state is the last one. *)
Lemma free_is_last d id bound h current :
  valid_directory d id bound h -> current ∈ h ->
  ed_revisions d !! revision_name (js_revision current + 1) = None -> last h = Some current.
Proof.
  intros Hd [i Hi]%list_elem_of_lookup Hfree.
  destruct (history_rank _ _ _ _ _ (vd_history _ _ _ _ Hd) Hi) as [Hrev _].
  pose proof (history_length _ _ _ (vd_history _ _ _ _ Hd)). pose proof (lookup_lt_Some _ _ _ Hi).
  assert (length h = S i) as Hlen.
  { destruct (decide (S i < length h)%nat) as [Hlt|]; [|lia]. exfalso.
    apply not_elem_of_dom in Hfree. apply Hfree. rewrite (vd_names _ _ _ _ Hd), elem_of_list_to_set.
    rewrite Hrev. replace (Z.of_nat i + 1) with (Z.of_nat (S i)) by lia. by apply names_elem. }
  by rewrite last_lookup, Hlen.
Qed.

Lemma Forall2_reads_grow files files' l h :
  files ⊆ files' -> Forall2 (reads files) l h -> Forall2 (reads files') l h.
Proof. intros Hsub Hf. eapply Forall2_impl; [exact Hf|]. intros. by eapply reads_mono. Qed.

(** The next revision of a directory is a valid one. *)
Lemma append_valid d id bound h current phase at_ updates s :
  valid_directory d id bound h -> last h = Some current ->
  ed_revisions d !! revision_name (js_revision current + 1) = None ->
  phase ∈ allowed_next (js_phase current) -> fresh_updates current updates ->
  dt_ltb at_ (js_updated_at current) = false ->
  validate_state (next_state current phase at_ updates) = Ok s ->
  (terminal phase = true -> verify_trusted_receipt d s = Ok tt) ->
  let s' := seal_state s in
  text_size (json_bytes (dump_state s')) <= MAX_STATE_BYTES ->
  valid_directory (put_revision d (revision_name (js_revision s')) (json_bytes (dump_state s'))) id bound (h ++ [s']).
Proof.
  intros Hd Hlast Hfree Hphase Hfresh Htime Hv Hterm s' Hsize.
  pose proof (validate_state_same _ _ Hv) as ->.
  pose proof (last_Some_elem_of _ _ Hlast) as Hin.
  destruct (hi_bound _ _ _ (vd_history _ _ _ _ Hd) current Hin) as (B1 & B2 & B3 & B4).
  pose proof (validate_sealed _ Hv) as Hv'. fold s' in Hv'.
  assert (is_slug (js_manifest_name s') = true) as Hslug.
  { change (js_manifest_name s') with (js_manifest_name current). rewrite B2.
    by apply validated_slug, (load_bound_valid d), (vd_bound _ _ _ _ Hd). }
  assert (js_revision s' = Z.of_nat (length h)) as Hrev.
  { apply last_Some in Hlast as [h0 ->].
    destruct (history_rank _ _ _ (length h0) current (vd_history _ _ _ _ Hd)) as [Hr _].
    - by apply list_lookup_middle.
    - change (js_revision s') with (js_revision current + 1). rewrite Hr, length_app. cbn. lia. }
  assert (succeeds current s') as Hsucc.
  { split; try done; [unfold dt_ltb in Htime; by bool_prop|by apply fresh_union]. }
  assert (ed_revisions d ⊆ <[revision_name (js_revision s') := json_bytes (dump_state s')]> (ed_revisions d)) as Hsub.
  { apply insert_subseteq. done. }
  split.
  - apply (load_bound_grown d); [done|]. apply (vd_bound _ _ _ _ Hd).
  - apply (vd_entries _ _ _ _ Hd).
  - cbn [ed_revisions put_revision]. rewrite dom_insert_L, (vd_names _ _ _ _ Hd), length_app. cbn [length].
    rewrite Nat.add_1_r, names_S, Hrev, list_to_set_app_L. cbn [list_to_set]. set_solver.
  - by destruct h.
  - rewrite length_app. cbn [length]. rewrite Nat.add_1_r, names_S. apply Forall2_app.
    + cbn [ed_revisions put_revision]. by eapply Forall2_reads_grow, (vd_reads _ _ _ _ Hd).
    + constructor; [|constructor]. cbn [ed_revisions put_revision]. rewrite Hrev. by apply reads_put.
  - apply verified_history; [intros x [Hx| ->%list_elem_of_singleton]%elem_of_app; [by eapply history_valid_elem|done]|].
    apply verified_snoc. split.
    + apply verified_history, (vd_history _ _ _ _ Hd). intros x Hx. by eapply history_valid_elem.
    + unfold last_or. rewrite Hlast. apply verified_next; [by eapply history_valid_elem|]. done.
  - intros u Hu Ht. rewrite last_snoc in Hu. injection Hu as <-.
    rewrite (verify_trusted_seals _ s' (next_state current phase at_ updates)) by done.
    apply (verify_trusted_grown d); [done|]. by apply Hterm.
Qed.

End Appending.

(** ** The store as a whole *)

Section Stores.
Context `{CanonicalHash} `{Documents} `{!DocumentLaws}.

(** Every execution of the store can be resumed. *)
Definition resumable (w : World) : Prop :=
  forall id d, w_executions w !! id = Some d -> exists bound h, valid_directory d id bound h.

(** The executions of [w] are still there in [w'], with all their files. *)
Definition grows (w w' : World) : Prop :=
  forall id d, w_executions w !! id = Some d -> exists d', w_executions w' !! id = Some d' /\ grown d d'.

#[global] Instance grows_preorder : PreOrder grows.
Proof.
  split; [by intros w id d Hd; exists d|]. intros w1 w2 w3 H12 H23 id d Hd.
  destruct (H12 id d Hd) as (d' & Hd' & Hg). destruct (H23 id d' Hd') as (d'' & Hd'' & Hg').
  exists d''. split; [done|by etrans].
Qed.

(** The texts written so far are within the limits that reading enforces. *)
Definition sized (w : World) : Prop :=
  forall id d, w_executions w !! id = Some d ->
    (forall name raw, ed_revisions d !! name = Some raw -> text_size raw <= MAX_STATE_BYTES)
    /\ (forall raw, ed_files d !! "manifest.json" = Some raw -> text_size raw <= MAX_MANIFEST_BYTES).

Lemma sized_grows w w' : grows w w' -> sized w' -> sized w.
Proof.
  intros Hg Hs id d Hd. destruct (Hg id d Hd) as (d' & Hd' & [Hf Hr]). destruct (Hs id d' Hd') as [S1 S2].
  split; [intros name raw Hn; eapply S1|intros raw Hn; eapply S2]; by eapply lookup_weaken.
Qed.

(** What every process owes the others. *)
Definition keeps (w w' : World) : Prop := grows w w' /\ (resumable w -> sized w' -> resumable w').

#[global] Instance keeps_preorder : PreOrder keeps.
Proof.
  split; [by intros w|]. intros w1 w2 w3 [G12 R12] [G23 R23]. split; [by etrans|].
  intros Hw Hs. apply R23; [|done]. apply R12; [done|]. by eapply sized_grows.
Qed.

Lemma put_grows w id d d' :
  w_executions w !! id = Some d -> grown d d' -> grows w (put_execution w id d').
Proof.
  intros Hd Hg id' d1 Hd1. cbn [put_execution w_executions]. destruct (decide (id' = id)) as [->|Hne].
  - rewrite lookup_insert_eq. exists d'. split; [done|]. by simplify_eq.
  - rewrite lookup_insert_ne by done. by exists d1.
Qed.

Lemma put_resumable w id d' bound h :
  resumable w -> valid_directory d' id bound h -> resumable (put_execution w id d').
Proof.
  intros Hw Hv id' d1. cbn [put_execution w_executions].
  intros [[<- <-]|[Hne Hd1]]%lookup_insert_Some; [by exists bound, h|by apply Hw].
Qed.

Lemma resume_Ok w id s :
  resume w id = Ok s <-> is_sha256_hex id = true /\
    exists d bound h, w_executions w !! id = Some d /\ valid_directory d id bound h /\ last h = Some s.
Proof.
  unfold resume, execution_directory. rewrite bind_Ok. split.
  - intros (d & Hd & Hr). rewrite fail_when_bind_Ok in Hd. destruct Hd as [Hid Hd]. apply negb_false_iff in Hid.
    split; [done|]. destruct (w_executions w !! id) as [d'|] eqn:E; [|done]. injection Hd as ->.
    apply resume_directory_Ok in Hr as (bound & h & Hv & Hl). exists d, bound, h. done.
  - intros (Hid & d & bound & h & E & Hv & Hl). exists d. rewrite Hid, E. split; [done|].
    apply resume_directory_Ok. eauto.
Qed.

Lemma resume_id w id s : resume w id = Ok s -> js_execution_id s = id.
Proof.
  intros (_ & d & bound & h & _ & Hv & Hl)%resume_Ok.
  by apply (hi_bound _ _ _ (vd_history _ _ _ _ Hv)), last_Some_elem_of.
Qed.

Lemma resume_valid w id s : resume w id = Ok s -> validate_state s = Ok s.
Proof.
  intros (_ & d & bound & h & _ & Hv & Hl)%resume_Ok.
  eapply history_valid_elem; [done|by apply last_Some_elem_of].
Qed.

(** A state read earlier is in the history there is now. *)
Lemma grows_history w0 w id s :
  resume w0 id = Ok s -> grows w0 w -> resumable w ->
  exists d bound h, w_executions w !! id = Some d /\ valid_directory d id bound h /\ s ∈ h.
Proof.
  intros (_ & d0 & bound0 & h0 & E0 & Hv0 & Hl)%resume_Ok Hg Hw.
  destruct (Hg id d0 E0) as (d & E & Hgd). destruct (Hw id d E) as (bound & h & Hv).
  destruct (grown_history _ _ _ _ _ _ _ Hv0 Hv Hgd) as [_ [k ->]].
  exists d, bound, (h0 ++ k)%list. split; [done|]. split; [done|].
  apply elem_of_app. left. by apply last_Some_elem_of.
Qed.

(** Later states of a history keep the seals of earlier ones. *)
Lemma history_seals id bound h i k s t :
  history id bound h -> (i <= k)%nat -> h !! i = Some s -> h !! k = Some t ->
  js_seals s ⊆ js_seals t /\ instant (js_updated_at s) <= instant (js_updated_at t)
  /\ js_execution_id t = js_execution_id s /\ js_manifest_name t = js_manifest_name s
  /\ js_manifest_hash t = js_manifest_hash s /\ js_prompt_hash t = js_prompt_hash s
  /\ js_idempotency_key t = js_idempotency_key s
  /\ instant (js_created_at t) = instant (js_created_at s).
Proof.
  intros Hh Hle. revert t. induction Hle as [|k Hle IH]; intros t Hs Ht.
  - simplify_eq. split_and!; done.
  - assert (is_Some (h !! k)) as [p Hp] by (apply lookup_lt_is_Some; apply lookup_lt_Some in Ht; lia).
    destruct (IH p Hs Hp) as (I1 & I2 & I3 & I4 & I5 & I6 & I7 & I8).
    destruct (hi_next _ _ _ Hh k p t Hp Ht) as [_ _ (S1 & S2 & S3 & S4 & S5) S6 S7 _ S8].
    split; [by etrans|]. split; [by etrans|]. split_and!; congruence.
Qed.

Lemma last_seals id bound h s t :
  history id bound h -> s ∈ h -> last h = Some t -> js_seals s ⊆ js_seals t.
Proof.
  intros Hh [i Hi]%list_elem_of_lookup Hl. rewrite last_lookup in Hl.
  apply (history_seals id bound h i (pred (length h)) s t Hh); [|done..].
  apply lookup_lt_Some in Hi. lia.
Qed.

(** Resuming later gives a state that continues the one seen before. *)
Lemma resume_continues w w' id s t :
  resume w id = Ok s -> grows w w' -> resume w' id = Ok t ->
  js_seals s ⊆ js_seals t /\ js_prompt_hash t = js_prompt_hash s /\ js_manifest_hash t = js_manifest_hash s
  /\ js_idempotency_key t = js_idempotency_key s /\ phase_rank (js_phase s) <= phase_rank (js_phase t).
Proof.
  intros (_ & d & bound & h & E & Hv & Hl)%resume_Ok Hg (_ & d' & bound' & h' & E' & Hv' & Hl')%resume_Ok.
  destruct (Hg id d E) as (d1 & E1 & Hgd). assert (d1 = d') as -> by congruence.
  destruct (grown_history _ _ _ _ _ _ _ Hv Hv' Hgd) as [_ [k ->]].
  rewrite last_lookup in Hl, Hl'.
  assert ((h ++ k)%list !! pred (length h) = Some s) as Hs.
  { rewrite lookup_app_l; [done|]. by apply lookup_lt_Some in Hl. }
  assert (pred (length h) <= pred (length (h ++ k)))%nat as Hle by (rewrite length_app; lia).
  destruct (history_seals _ _ _ _ _ _ _ (vd_history _ _ _ _ Hv') Hle Hs Hl') as (S1 & _ & _ & _ & S2 & S3 & S4 & _).
  destruct (history_rank _ _ _ _ _ (vd_history _ _ _ _ Hv') Hs) as [_ ->].
  destruct (history_rank _ _ _ _ _ (vd_history _ _ _ _ Hv') Hl') as [_ ->].
  split_and!; (done || lia).
Qed.

End Stores.

End JobTheory.
