(* ===== verification/JobSteps.v ===== *)
(** * The operations on job executions, step by step

    What each acknowledgement reads and binds, and that every operation of the
    store, whatever others do in between, only adds files and leaves every
    execution resumable. *)
From Stdlib Require Import Ascii.
From S2P Require Import Prelude PyStr PyTime Float64 Domain Json Contracts Committee Handoff JobManifest JobExecution.
From S2P Require Import JobTheory.
Import PyStr PyTime Float64 Domain Json Contracts Handoff JobManifest JobExecution JobTheory.
Open Scope string_scope.
Open Scope Z_scope.

Module JobSteps.

(** ** What the operations read *)

Section Operations.
Context `{CanonicalHash} `{Documents} `{!DocumentLaws} `{PyRuntime}.

Lemma require_matching_Ok s l u :
  require_matching_fields s l = Ok u <-> forall f v, (f, v) ∈ l -> js_seals s !! f = Some v.
Proof.
  destruct u. induction l as [|[f v] l IH]; cbn [require_matching_fields].
  - split; [|done]. intros _ f v Hin. by apply not_elem_of_nil in Hin.
  - case_bool_decide as Hf; cbn [mbind result_bind].
    + rewrite IH. split.
      * intros Hl f' v' [[= -> ->]|Hin]%elem_of_cons; eauto.
      * intros Hl f' v' Hin. apply Hl. by right.
    + split; [done|]. intros Hl. destruct Hf. apply Hl. by left.
Qed.

Lemma seals_of_Some updates f v :
  NoDup updates.*1 -> seals_of updates !! f = Some v <-> (f, v) ∈ updates.
Proof. intros Hnd. unfold seals_of. by rewrite elem_of_list_to_map. Qed.

Lemma resume_present w id s : resume w id = Ok s -> is_Some (w_executions w !! id).
Proof. intros (_ & d & _ & _ & E & _)%resume_Ok. by eexists. Qed.

Lemma put_revision_grown d name raw : ed_revisions d !! name = None -> grown d (put_revision d name raw).
Proof. intros Hn. split; [done|by apply insert_subseteq]. Qed.

Lemma append_grows w current phase now clock updates r w' :
  append w current phase now clock updates = (r, w') -> grows w w'.
Proof.
  unfold append. set (prepared := at_ ← timestamp now clock; _).
  destruct prepared as [[s d]|e] eqn:Eprep; subst prepared; [|by intros [= _ <-]].
  apply bind_Ok in Eprep as (? & _ & Eprep). rewrite fail_when_bind_Ok in Eprep.
  destruct Eprep as [_ Eprep]. apply bind_Ok in Eprep as (? & _ & Eprep).
  apply bind_Ok in Eprep as (d' & Ed & [= _ <-]).
  unfold execution_directory in Ed. rewrite fail_when_bind_Ok in Ed. destruct Ed as [_ Ed].
  destruct (w_executions w !! js_execution_id current) as [d1|] eqn:E; [|done]. injection Ed as ->.
  destruct (ed_revisions d' !! revision_name (js_revision s)) as [raw|] eqn:Efree; intros [= _ <-]; [done|].
  eapply put_grows; [done|by apply put_revision_grown].
Qed.

(** The state a writer based its transition on is still in the history; its
    write either adds the one next revision or changes nothing. *)
Lemma append_keeps w0 w id current phase now clock updates r w' :
  resume w0 id = Ok current -> grows w0 w -> resumable w ->
  phase ∈ allowed_next (js_phase current) -> fresh_updates current updates -> NoDup updates.*1 ->
  (terminal phase = true -> forall d s, w_executions w !! id = Some d ->
    (forall f v, (f, v) ∈ updates -> js_seals s !! f = Some v) -> verify_trusted_receipt d s = Ok tt) ->
  append w current phase now clock updates = (r, w') -> sized w' ->
  resumable w'
  /\ forall s, r = Ok s -> resume w' id = Ok s
       /\ (forall f v, (f, v) ∈ updates -> js_seals s !! f = Some v)
       /\ phase_rank phase <= phase_rank (js_phase s) /\ (terminal phase = true -> js_phase s = phase).
Proof.
  intros Hcur Hg Hw Hphase Hfresh Hnd Hterm. pose proof (resume_id _ _ _ Hcur) as Hid.
  destruct (grows_history _ _ _ _ Hcur Hg Hw) as (d & bound & h & E & Hv & Hin).
  assert (is_sha256_hex id = true) as Hhex by (by apply resume_Ok in Hcur as [? _]).
  unfold append. set (prepared := at_ ← timestamp now clock; _).
  destruct prepared as [[s d1]|e] eqn:Eprep; subst prepared.
  2: { by intros [= <- <-]. }
  apply bind_Ok in Eprep as (at_ & _ & Eprep). rewrite fail_when_bind_Ok in Eprep.
  destruct Eprep as [Htime Eprep]. apply bind_Ok in Eprep as (unsigned & Hu & Eprep).
  apply bind_Ok in Eprep as (d' & Ed & [= <- <-]).
  unfold execution_directory in Ed. rewrite fail_when_bind_Ok, Hid, E in Ed. destruct Ed as [_ [= <-]].
  pose proof (validate_state_same _ _ Hu) as Hsame.
  destruct (ed_revisions d !! revision_name (js_revision (seal_state unsigned))) as [raw|] eqn:Efree.
  - intros [= <- <-] _. split; [done|]. intros s Hs. rewrite Hid in Hs.
    apply bind_Ok in Hs as (winner & Hwin & Hs).
    destruct (is_same_logical_transition winner phase updates) eqn:Esame; [|done]. injection Hs as <-.
    unfold is_same_logical_transition in Esame.
    destruct (phase_rank (js_phase winner) <? phase_rank phase) eqn:Er; [done|].
    destruct (terminal phase && negb (bool_decide (js_phase winner = phase))) eqn:Et; [done|].
    split; [done|]. split; [|split; [by apply Z.ltb_ge|]].
    + intros f v Hf. rewrite forallb_forall in Esame. apply list_elem_of_In in Hf.
      specialize (Esame _ Hf). by bool_prop.
    + intros Ht. rewrite Ht in Et. cbn in Et. by bool_prop.
  - rewrite Hid. intros [= <- <-] Hsized. subst unsigned.
    pose proof (free_is_last _ _ _ _ _ Hv Hin Efree) as Hlast.
    set (s := next_state current phase at_ updates) in *.
    assert (forall f v, (f, v) ∈ updates -> js_seals s !! f = Some v) as Hseals.
    { intros f v Hf. apply lookup_union_Some_l. by apply seals_of_Some. }
    set (d' := put_revision d _ _) in *.
    assert (valid_directory d' id bound (h ++ [seal_state s])) as Hv'.
    { apply (append_valid d id bound h current phase at_ updates s Hv Hlast Efree Hphase Hfresh
        Htime Hu (fun Ht => Hterm Ht d s E Hseals)).
      destruct (Hsized id d') as [Hsize _]; [cbn; by rewrite lookup_insert_eq|].
      eapply Hsize. cbn [ed_revisions put_revision d']. by rewrite lookup_insert_eq. }
    split; [by eapply put_resumable|].
    intros t Ht. assert (resume (put_execution w id d') id = Ok (seal_state s)) as Hres.
    { apply resume_Ok. split; [done|]. exists d', bound, (h ++ [seal_state s])%list.
      cbn [put_execution w_executions]. by rewrite lookup_insert_eq, last_snoc. }
    assert (t = seal_state s) as -> by congruence. split; [done|]. split; [done|]. split; [done|done].
Qed.

(** *** The fields a phase leaves open *)

Lemma validated_phase s : validate_state s = Ok s -> phase_has_exact_seals s = Ok tt.
Proof.
  unfold validate_state. intros Hs. do 10 (apply bind_Ok in Hs as (? & _ & Hs)).
  by apply bind_Ok in Hs as ([] & Hs & _).
Qed.

Lemma any_present_false s fields f :
  any_present s fields = false -> f ∈ fields -> js_seals s !! f = None.
Proof.
  unfold any_present. intros Hno Hin. apply not_true_iff_false in Hno.
  destruct (js_seals s !! f) eqn:E; [|done]. destruct Hno. apply existsb_exists.
  exists f. split; [by apply list_elem_of_In|]. unfold present. rewrite E. by apply bool_decide_eq_true.
Qed.

Lemma prepare_pending_open s :
  validate_state s = Ok s -> js_phase s = prepare_pending -> js_seals s = ∅.
Proof.
  intros Hv Hp. pose proof (validated_phase _ Hv) as Hs. unfold phase_has_exact_seals in Hs.
  rewrite Hp, raise_when_bind_Ok in Hs. destruct Hs as [Hs _]. apply map_empty. intros f.
  destruct (js_seals s !! f) as [v|] eqn:E; [|done].
  pose proof (seal_ok_field _ _ (validate_state_seals _ Hv _ _ E)) as Hf.
  by rewrite (any_present_false _ _ _ Hs Hf) in E.
Qed.

Lemma awaiting_open s f :
  validate_state s = Ok s -> js_phase s = awaiting_draft -> f ∈ (DRAFTED_FIELDS ++ FINALIZED_FIELDS)%list ->
  js_seals s !! f = None.
Proof.
  intros Hv Hp. pose proof (validated_phase _ Hv) as Hs. unfold phase_has_exact_seals in Hs.
  rewrite Hp, !raise_when_bind_Ok in Hs. destruct Hs as (_ & Hs & _). by apply any_present_false.
Qed.

Lemma finalize_open s f :
  validate_state s = Ok s -> js_phase s = finalize_pending -> f ∈ FINALIZED_FIELDS -> js_seals s !! f = None.
Proof.
  intros Hv Hp. pose proof (validated_phase _ Hv) as Hs. unfold phase_has_exact_seals in Hs.
  rewrite Hp, !raise_when_bind_Ok in Hs. destruct Hs as (_ & _ & Hs & _). by apply any_present_false.
Qed.

(** An acknowledgement read from a store: bound already, or the one next
    transition with fields that are still open. *)
Definition acknowledges (w : World) (id : string) (phase : ExecutionPhase) (a : Acknowledgement) : Prop :=
  match a with
  | Bound s => resume w id = Ok s /\ phase_rank phase <= phase_rank (js_phase s)
  | Append s p updates => resume w id = Ok s /\ p = phase /\ p ∈ allowed_next (js_phase s)
      /\ fresh_updates s updates /\ NoDup updates.*1
  end.

Lemma draft_inputs_Ok files request l :
  load_and_validate_draft_inputs files request = Ok l ->
  exists instructions template raw,
    l = [("instructions_raw_hash", text_sha256 instructions); ("template_hash", canonical_hash template);
         ("template_raw_hash", text_sha256 raw)]
    /\ instructions = render_handoff_instructions request
    /\ build_handoff_draft_template request = Ok template.
Proof.
  unfold load_and_validate_draft_inputs. intros Hl. apply bind_Ok in Hl as (ins & _ & Hl).
  rewrite !fail_when_bind_Ok in Hl. destruct Hl as (_ & Hins & Hl). apply bind_Ok in Hl as (doc & _ & Hl).
  apply bind_Ok in Hl as (template & Ht & Hl). rewrite fail_when_bind_Ok in Hl. destruct Hl as [Heq [= <-]].
  bool_prop. exists ins, doc.2, doc.1. split; [done|]. split; [done|congruence].
Qed.

(** What an acknowledgement of the prepared handoff binds. *)
Lemma read_prepared_Ok roots w id job_dir a :
  read_prepared roots w id job_dir = Ok a ->
  exists s directory loaded inputs,
    resume w id = Ok s /\ resolve_handoff_directory roots w job_dir = Ok directory
    /\ load_handoff_request directory.2 = Ok loaded
    /\ load_and_validate_draft_inputs directory.2 loaded.1 = Ok inputs
    /\ let seals := ("job_id", directory.1) :: ("input_hash", hr_input_hash loaded.1)
                      :: ("request_hash", hr_request_hash loaded.1) :: ("request_raw_hash", loaded.2) :: inputs in
       (js_phase s = prepare_pending /\ a = Append s awaiting_draft seals
        \/ js_phase s <> prepare_pending /\ a = Bound s
           /\ forall f v, (f, v) ∈ seals -> js_seals s !! f = Some v).
Proof.
  unfold read_prepared. intros Hr. apply bind_Ok in Hr as (s & Hs & Hr). apply bind_Ok in Hr as (m & _ & Hr).
  apply bind_Ok in Hr as (dir & Hd & Hr). apply bind_Ok in Hr as (loaded & Hl & Hr).
  rewrite fail_when_bind_Ok in Hr. destruct Hr as [_ Hr]. apply bind_Ok in Hr as (mode & _ & Hr).
  rewrite fail_when_bind_Ok in Hr. destruct Hr as [_ Hr]. apply bind_Ok in Hr as (inputs & Hi & Hr).
  exists s, dir, loaded, inputs. split_and!; try done. case_bool_decide as Hp.
  - injection Hr as <-. by left.
  - apply bind_Ok in Hr as ([] & Hm & [= <-]). right. rewrite require_matching_Ok in Hm. done.
Qed.

Lemma read_prepared_acknowledges roots w id job_dir a :
  read_prepared roots w id job_dir = Ok a -> acknowledges w id awaiting_draft a.
Proof.
  intros (s & dir & loaded & inputs & Hs & _ & _ & Hi & [[Hp ->]|(Hp & -> & _)])%read_prepared_Ok; cbn.
  - split; [done|]. split; [done|]. rewrite Hp. split; [by left|].
    apply draft_inputs_Ok in Hi as (? & ? & ? & -> & _). split.
    + intros f v _. by rewrite (prepare_pending_open s (resume_valid _ _ _ Hs) Hp).
    + by apply (bool_decide_unpack _).
  - split; [done|]. by destruct (js_phase s).
Qed.

Lemma read_draft_acknowledges roots w id a :
  read_draft_ready roots w id = Ok a -> acknowledges w id finalize_pending a.
Proof.
  unfold read_draft_ready. intros Hr. apply bind_Ok in Hr as (s & Hs & Hr). rewrite fail_when_bind_Ok in Hr.
  destruct Hr as [Hpp Hr]. apply bind_Ok in Hr as ([dir request] & _ & Hr). apply bind_Ok in Hr as (inputs & _ & Hr).
  apply bind_Ok in Hr as ([] & _ & Hr). apply bind_Ok in Hr as (doc & _ & Hr).
  apply bind_Ok in Hr as (bundle & _ & Hr). rewrite !fail_when_bind_Ok in Hr. destruct Hr as (_ & _ & _ & Hr).
  case_bool_decide as Hp; [injection Hr as <-|apply bind_Ok in Hr as ([] & _ & [= <-])]; cbn.
  - split; [done|]. split; [done|]. rewrite Hp. split; [by left|]. split.
    + intros f v Hf. apply (awaiting_open s f (resume_valid _ _ _ Hs) Hp).
      unfold seals_of in Hf. apply elem_of_list_to_map_2 in Hf.
      apply elem_of_app. left. apply list_elem_of_In. apply list_elem_of_In in Hf. cbn in Hf |- *.
      destruct Hf as [[= <- _]|[[= <- _]|[]]]; tauto.
    + by apply (bool_decide_unpack _).
  - split; [done|]. bool_prop. destruct (js_phase s); done.
Qed.

Lemma acknowledge_grows ack w now clock r w' : acknowledge ack w now clock = (r, w') -> grows w w'.
Proof.
  destruct ack as [[s|s p updates]|e]; cbn [acknowledge]; [by intros [= _ <-]|apply append_grows|by intros [= _ <-]].
Qed.

Lemma acknowledge_resumable w0 w id phase ack now clock r w' :
  (forall a, ack = Ok a -> acknowledges w0 id phase a) -> terminal phase = false ->
  grows w0 w -> resumable w -> acknowledge ack w now clock = (r, w') -> sized w' -> resumable w'.
Proof.
  intros Hack Hterm Hg Hw. destruct ack as [[s|s p updates]|e]; cbn [acknowledge].
  - by intros [= <- <-].
  - destruct (Hack _ eq_refl) as (Hs & -> & Hp & Hf & Hnd). intros Ha Hsized.
    eapply append_keeps in Ha as [Hk _]; try done. by rewrite Hterm.
  - by intros [= <- <-].
Qed.

(** *** The trusted receipt *)

Lemma secure_read_json_Ok files name maximum document :
  secure_read_json files name maximum = Ok document <->
  files !! name = Some document.1 /\ json_loads document.1 = Some document.2
  /\ 0 < Z.of_nat (String.length document.1) <= maximum.
Proof.
  destruct document as [raw j]. unfold secure_read_json, secure_read_bytes. cbn [fst snd].
  destruct (files !! name) as [raw'|]; [|split; [done|by intros [? _]]].
  rewrite bind_Ok. setoid_rewrite fail_when_bind_Ok. setoid_rewrite orb_false_iff.
  setoid_rewrite Z.leb_gt. setoid_rewrite Z.ltb_ge. split.
  - intros (r & ([? ?] & [= <-]) & Hj). destruct (json_loads raw') as [j'|] eqn:Ej; [|done].
    injection Hj as <- <-. done.
  - intros ([= ->] & Hj & ? & ?). exists raw. split; [done|]. by rewrite Hj.
Qed.

Lemma write_or_verify_keeps w id payload u w' :
  write_or_verify_exact w id payload = (u, w') -> keeps w w'.
Proof.
  unfold write_or_verify_exact, execution_directory.
  destruct (is_sha256_hex id) eqn:Hid; cbn [negb fail_when raise_when raise mbind result_bind].
  2: { by intros [= _ <-]. }
  destruct (w_executions w !! id) as [d|] eqn:E; [|by intros [= _ <-]].
  destruct (ed_files d !! "receipt.json") as [raw|] eqn:Er; intros [= _ <-]; [done|].
  assert (ed_files d ⊆ <["receipt.json" := payload]> (ed_files d)) as Hsub by by apply insert_subseteq.
  split; [by eapply put_grows|]. intros Hw _. destruct (Hw id d E) as (bound & h & [V1 V2 V3 V4 V5 V6 V7]).
  apply (put_resumable w id _ bound h); [done|]. split; try done.
  - by eapply load_bound_grown.
  - cbn [put_file ed_files]. rewrite dom_insert. apply union_subseteq. split; [|done].
    apply singleton_subseteq_l, elem_of_list_to_set. right. by left.
  - intros s Hs Ht. eapply verify_trusted_grown; [exact Hsub|eauto].
Qed.

(** After the write the trusted copy has exactly these bytes. *)
Lemma write_or_verify_bytes w id payload w' :
  write_or_verify_exact w id payload = (Ok tt, w') ->
  exists d, w_executions w' !! id = Some d /\ ed_files d !! "receipt.json" = Some payload.
Proof.
  unfold write_or_verify_exact, execution_directory.
  destruct (is_sha256_hex id); cbn [negb fail_when raise_when raise mbind result_bind]; [|done].
  destruct (w_executions w !! id) as [d|] eqn:E; [|done].
  destruct (ed_files d !! "receipt.json") as [raw|] eqn:Er.
  - intros [= Hr <-]. apply bind_Ok in Hr as (doc & Hd & Heq). apply secure_read_json_Ok in Hd as (Hd & _).
    destruct (doc.1 =? payload)%string eqn:Ep; [|done]. bool_prop. subst. eauto.
  - intros [= <-]. exists (put_file d "receipt.json" payload). cbn. by rewrite !lookup_insert_eq.
Qed.

Lemma model_validate_Ok {A} (read : json -> option A) check j a :
  model_validate read check j = Ok a <-> read j = Some a /\ check a = Ok tt.
Proof.
  unfold model_validate. destruct (read j) as [a'|]; [|split; [done|by intros [? _]]].
  rewrite bind_Ok. split; [intros ([] & Hc & [= <-])|intros ([= ->] & Hc); exists tt]; done.
Qed.

(** What the receipt of the handoff directory must be. *)
Lemma read_receipt_file_Ok files request s receipt raw :
  read_receipt_file files request s = Ok (receipt, raw) ->
  (exists j, secure_read_json files "receipt.json" MAX_JSON_BYTES = Ok (raw, j)
             /\ read_receipt j = Some receipt /\ check_receipt receipt = Ok tt)
  /\ rc_receipt_hash receipt = receipt_digest dump_unsealed_receipt receipt
  /\ js_seals s !! "job_id" = Some (rc_run_id receipt)
  /\ (forall f v, (f, v) ∈ [("input_hash", rc_input_hash receipt); ("request_hash", rc_request_hash receipt);
                            ("request_raw_hash", rc_request_raw_hash receipt);
                            ("drafts_hash", rc_drafts_hash receipt);
                            ("drafts_raw_hash", rc_drafts_raw_hash receipt)] -> js_seals s !! f = Some v)
  /\ validate_receipt_terminal_invariants receipt request = Ok tt.
Proof.
  unfold read_receipt_file. intros Hr. apply bind_Ok in Hr as ([raw' j] & Hd & Hr).
  apply bind_Ok in Hr as (rc & Hm & Hr). rewrite !fail_when_bind_Ok in Hr. destruct Hr as (R1 & R2 & R3 & Hr).
  apply bind_Ok in Hr as ([] & Hv & [= <- <-]). apply model_validate_Ok in Hm as [Hm Hc].
  split; [by exists j|]. bool_prop. split; [done|]. split; [done|]. split; [|done].
  intros f v Hin. rewrite forallb_forall in R3. apply list_elem_of_In in Hin. specialize (R3 _ Hin). by bool_prop.
Qed.

Lemma verify_trusted_bytes d raw j receipt s maximum :
  ed_files d !! "receipt.json" = Some raw -> json_loads raw = Some j -> maximum = MAX_JSON_BYTES ->
  0 < Z.of_nat (String.length raw) <= maximum ->
  read_receipt j = Some receipt -> check_receipt receipt = Ok tt ->
  (forall f v, (f, v) ∈ receipt_seals receipt raw -> js_seals s !! f = Some v) ->
  verify_trusted_receipt d s = Ok tt.
Proof.
  intros Hf Hj -> Hsize Hr Hc Hs. unfold verify_trusted_receipt.
  rewrite (proj2 (secure_read_json_Ok (ed_files d) "receipt.json" MAX_JSON_BYTES (raw, j))) by done.
  cbn [mbind result_bind fst snd]. rewrite (proj2 (model_validate_Ok _ _ _ receipt)) by done.
  cbn [mbind result_bind]. apply fail_when_Ok.
  rewrite (Hs "receipt_raw_hash" (text_sha256 raw)), (Hs "receipt_hash" (rc_receipt_hash receipt)),
    (Hs "receipt_status" (status_value (rc_status receipt)))
    by (apply list_elem_of_In; cbn; tauto).
  by rewrite !bool_decide_true.
Qed.

(** *** Interference *)

(** What others do in between keeps the executions, as every operation does. *)
Definition fair (env : nat -> World -> World) : Prop := forall n w, keeps w (env n w).

Lemma receipt_seals_fresh receipt raw s :
  validate_state s = Ok s -> js_phase s = finalize_pending ->
  fresh_updates s (receipt_seals receipt raw) /\ NoDup (receipt_seals receipt raw).*1.
Proof.
  intros Hv Hp. split; [|by apply (bool_decide_unpack _)].
  intros f v Hf. apply (finalize_open s f Hv Hp).
  apply elem_of_list_to_map_2, list_elem_of_In in Hf. apply list_elem_of_In. cbn in Hf |- *.
  destruct Hf as [[= <- _]|[[= <- _]|[[= <- _]|[]]]]; tauto.
Qed.

Lemma phase_of_status_allowed s st :
  js_phase s = finalize_pending -> phase_of_status st ∈ allowed_next (js_phase s).
Proof. intros ->. destruct st; cbn; set_solver. Qed.

Lemma finalize_from_keeps env w0 w id files request s now clock r w' :
  fair env -> resume w0 id = Ok s -> grows w0 w -> 2 <= phase_rank (js_phase s) ->
  finalize_from env w id files request s now clock = (r, w') -> keeps w w'.
Proof.
  intros Henv Hs Hg0 Hrank Hf. unfold finalize_from in Hf.
  destruct (read_receipt_file files request s) as [[receipt raw]|e] eqn:Er; [|by injection Hf as <- <-].
  destruct (write_or_verify_exact (env 1%nat w) id raw) as [written w1] eqn:Ew.
  assert (keeps w w1) as K1 by (etrans; [apply Henv|by eapply write_or_verify_keeps]).
  destruct written as [[]|e]; [|by injection Hf as <- <-].
  assert (keeps w (env 2%nat w1)) as K2 by (etrans; [exact K1|apply Henv]).
  destruct (terminal (js_phase s)) eqn:Et; [by injection Hf as <- <-|].
  assert (js_phase s = finalize_pending) as Hfp by (destruct (js_phase s); cbn in *; (done || lia)).
  apply read_receipt_file_Ok in Er as ((j & Hd & Hrd & Hc) & _). apply secure_read_json_Ok in Hd as (_ & Hj & Hsize).
  destruct (write_or_verify_bytes _ _ _ _ Ew) as (d1 & E1 & Eraw).
  pose proof (append_grows _ _ _ _ _ _ _ _ Hf) as Hg'. split; [etrans; [apply K2|exact Hg']|]. intros Hw Hsized.
  assert (resumable (env 2%nat w1)) as Hw2 by (apply K2; [done|by eapply sized_grows]).
  eapply append_keeps in Hf as [Hw' _]; [exact Hw'|exact Hs|etrans; [exact Hg0|apply K2]|done|..|exact Hsized].
  - by apply phase_of_status_allowed.
  - by apply receipt_seals_fresh; [eapply resume_valid|].
  - by eapply receipt_seals_fresh; [eapply resume_valid|].
  - intros _ d t E Hseals. destruct (proj1 (Henv 2%nat w1) id d1 E1) as (d2 & E2 & [Hfiles _]).
    assert (d2 = d) as -> by congruence. eapply verify_trusted_bytes; try done. by eapply lookup_weaken.
Qed.

Lemma append_keeps_sealed w0 w id current phase now clock updates r w' s :
  resume w0 id = Ok current -> grows w0 w -> resumable w ->
  phase ∈ allowed_next (js_phase current) -> fresh_updates current updates -> NoDup updates.*1 ->
  terminal phase = false -> append w current phase now clock updates = (r, w') -> sized w' -> r = Ok s ->
  resume w' id = Ok s /\ (forall f v, (f, v) ∈ updates -> js_seals s !! f = Some v)
  /\ phase_rank phase <= phase_rank (js_phase s).
Proof.
  intros Hc Hg Hw Hp Hf Hnd Ht Ha Hsized ->. eapply append_keeps in Ha as [_ Hr]; try done; [|by rewrite Ht].
  destruct (Hr _ eq_refl) as (? & ? & ? & _). done.
Qed.

(** The state an acknowledgement answers with was in the store by then. *)
Lemma acknowledge_answer w0 w id phase ack now clock s w' :
  (forall a, ack = Ok a -> acknowledges w0 id phase a) -> terminal phase = false ->
  grows w0 w -> resumable w -> acknowledge ack w now clock = (Ok s, w') -> sized w' ->
  exists w1, resume w1 id = Ok s /\ grows w1 w' /\ phase_rank phase <= phase_rank (js_phase s).
Proof.
  intros Hack Hterm Hg Hw. destruct ack as [[t|t p updates]|e]; cbn [acknowledge]; [| |done].
  - intros [= <- <-] _. destruct (Hack _ eq_refl) as [Ht Hr]. by exists w0.
  - destruct (Hack _ eq_refl) as (Hs & -> & Hp & Hf & Hnd). intros Ha Hsized.
    destruct (append_keeps_sealed _ _ _ _ _ _ _ _ _ _ _ Hs Hg Hw Hp Hf Hnd Hterm Ha Hsized eq_refl) as (Hr & _ & Hk).
    exists w'. by split_and!.
Qed.

Lemma record_prepared_keeps roots env w id job_dir now clock r w' :
  fair env -> record_prepared roots env w id job_dir now clock = (r, w') -> keeps w w'.
Proof.
  intros Henv Ha. destruct (Henv 0%nat w) as [Hg1 Hr1]. unfold record_prepared in Ha.
  pose proof (acknowledge_grows _ _ _ _ _ _ Ha) as Hg. split; [by etrans|]. intros Hw Hsized.
  eapply (acknowledge_resumable w _ id awaiting_draft); try done; [by apply read_prepared_acknowledges|].
  apply Hr1; [done|]. by eapply sized_grows.
Qed.

Lemma record_draft_keeps roots env w id now clock r w' :
  fair env -> record_draft_ready roots env w id now clock = (r, w') -> keeps w w'.
Proof.
  intros Henv Ha. destruct (Henv 0%nat w) as [Hg1 Hr1]. unfold record_draft_ready in Ha.
  pose proof (acknowledge_grows _ _ _ _ _ _ Ha) as Hg. split; [by etrans|]. intros Hw Hsized.
  eapply (acknowledge_resumable w _ id finalize_pending); try done; [by apply read_draft_acknowledges|].
  apply Hr1; [done|]. by eapply sized_grows.
Qed.

Lemma initial_valid m key o s :
  validate_job_manifest zone_installed m = Ok m ->
  og_manifest_hash o = canonical_hash (dump_manifest m) ->
  validate_state (initial_state m key o) = Ok s ->
  text_size (json_bytes (dump_manifest m)) <= MAX_MANIFEST_BYTES ->
  text_size (json_bytes (dump_state (seal_state s))) <= MAX_STATE_BYTES ->
  valid_directory (initial_directory m (seal_state s)) (execution_id_of (jm_name m) key)
    (m, canonical_hash (dump_manifest m)) [seal_state s].
Proof.
  intros Hm Ho Hs Hsm Hss. pose proof (validate_state_same _ _ Hs) as ->. pose proof (validate_sealed _ Hs) as Hv.
  split.
  - unfold load_bound_manifest. cbn [ed_files initial_directory]. rewrite lookup_singleton_eq.
    destruct (manifest_text m Hm) as (p & Hp & Hread). unfold load_job_manifest, text_size in *.
    rewrite (proj2 (raise_when_bind_Ok _ _ _ _ m)); [done|]. split; [done|].
    rewrite (proj2 (raise_when_bind_Ok _ _ _ _ m)); [done|]. split; [by apply Z.ltb_ge|].
    by rewrite Hp, Hread.
  - cbn [ed_files initial_directory]. rewrite dom_singleton_L. set_solver.
  - cbn [ed_revisions initial_directory]. rewrite dom_singleton_L. by cbn; set_solver.
  - done.
  - constructor; [|constructor]. cbn [ed_revisions initial_directory]. rewrite <- insert_empty. apply reads_put; [done|by apply validated_slug|done].
  - split.
    + intros x ->%list_elem_of_singleton. split_and!; done.
    + intros x [= <-]. done.
    + intros [|i] ? ? ? [=].
  - intros t [= <-]. done.
Qed.

Lemma finalize_from_grows env w id files request s now clock r w' :
  fair env -> finalize_from env w id files request s now clock = (r, w') -> grows w w'.
Proof.
  intros Henv Hf. unfold finalize_from in Hf.
  destruct (read_receipt_file files request s) as [[receipt raw]|e]; [|by injection Hf as <- <-].
  destruct (write_or_verify_exact (env 1%nat w) id raw) as [written w1] eqn:Ew.
  assert (keeps w w1) as [G1 _] by (etrans; [apply Henv|by eapply write_or_verify_keeps]).
  destruct written as [[]|e]; [|by injection Hf as <- <-].
  assert (grows w (env 2%nat w1)) as G2 by (etrans; [exact G1|apply Henv]).
  destruct (terminal (js_phase s)); [by injection Hf as <- <-|].
  etrans; [exact G2|by eapply append_grows].
Qed.

Lemma record_finalized_keeps roots env w id now clock r w' :
  fair env -> record_finalized roots env w id now clock = (r, w') -> keeps w w'.
Proof.
  intros Henv Ha. unfold record_finalized in Ha. set (bound := s ← resume w id; _) in Ha.
  destruct bound as [[dir request]|e]; [|by injection Ha as <- <-].
  destruct (record_draft_ready roots env w id None clock) as [ready w0] eqn:Er.
  pose proof (record_draft_keeps _ _ _ _ _ _ _ _ Henv Er) as K0.
  destruct ready as [s|e]; [|by injection Ha as <- <-].
  pose proof (finalize_from_grows _ _ _ _ _ _ _ _ _ _ Henv Ha) as Hg.
  split; [etrans; [apply K0|exact Hg]|]. intros Hw Hsized.
  assert (sized w0) as Hs0 by by eapply sized_grows.
  assert (resumable w0) as Hw0 by by apply K0.
  unfold record_draft_ready in Er. destruct (Henv 0%nat w) as [Hge Hre].
  assert (resumable (env 0%nat w)) as Hwe.
  { apply Hre; [done|]. eapply sized_grows; [by eapply acknowledge_grows|done]. }
  destruct (acknowledge_answer w (env 0%nat w) id finalize_pending (read_draft_ready roots w id) None clock s w0)
    as (w1 & Hs & Hg1 & Hrank); try done; [by intros a; apply read_draft_acknowledges|].
  by apply (finalize_from_keeps env w1 w0 id _ request s now clock r w' Henv Hs Hg1 Hrank Ha).
Qed.

Lemma begin_keeps roots env w m key now clock r w' :
  fair env -> validate_job_manifest zone_installed m = Ok m ->
  begin_ roots env w m key now clock = (r, w') -> keeps w w'.
Proof.
  intros Henv Hm Hb. unfold begin_ in Hb.
  destruct (opening roots w m key now clock) as [o|e] eqn:Eo; [|by injection Hb as <- <-].
  assert (og_manifest_hash o = canonical_hash (dump_manifest m)) as Ho.
  { unfold opening in Eo. rewrite fail_when_bind_Ok in Eo. destruct Eo as [_ Eo].
    apply bind_Ok in Eo as (? & _ & Eo). apply bind_Ok in Eo as (? & _ & Eo).
    apply bind_Ok in Eo as (? & _ & [= <-]). done. }
  cbv zeta in Hb. set (id := execution_id_of (jm_name m) key) in *.
  destruct (w_executions w !! id) as [d|] eqn:E; [by injection Hb as <- <-|].
  destruct (validate_state (initial_state m key o)) as [s|e] eqn:Es; [|by injection Hb as <- <-].
  injection Hb as _ <-. etrans; [apply (Henv 0%nat)|]. set (w1 := env 0%nat w) in *.
  unfold publish_directory. destruct (w_executions w1 !! id) as [d1|] eqn:E1; [done|]. split.
  - intros id' d' Hd'. exists d'. split; [|done]. cbn [put_execution w_executions].
    rewrite lookup_insert_ne; [done|]. intros <-. by rewrite E1 in Hd'.
  - intros Hw Hsized. destruct (Hsized id (initial_directory m (seal_state s))) as [S1 S2];
      [cbn; by rewrite lookup_insert_eq|].
    eapply put_resumable; [done|]. apply (initial_valid m key o); try done.
    + apply S2. cbn [ed_files initial_directory]. by rewrite lookup_singleton_eq.
    + eapply S1. cbn [ed_revisions initial_directory]. by rewrite lookup_singleton_eq.
Qed.

(** *** What finalize relies on *)

Lemma receipt_invariants_Ok receipt request :
  validate_receipt_terminal_invariants receipt request = Ok tt ->
  instant (hr_prepared_at request) <= instant (rc_finalized_at receipt) <= instant (hr_finalize_deadline request)
  /\ match rc_status receipt with
     | completed => is_Some (rc_output_hash receipt) /\ rc_error receipt = None
         /\ rc_forecast_count receipt = target_count request
         /\ rc_opinion_count receipt = Z.of_nat (length (hr_assignments request)) + target_count request
     | failed => rc_output_hash receipt = None /\ rc_forecast_count receipt = 0
         /\ rc_opinion_count receipt = 0 /\ is_Some (rc_error receipt)
     end.
Proof.
  unfold validate_receipt_terminal_invariants. rewrite !fail_when_bind_Ok. intros (_ & Hwin & Hv).
  unfold dt_leb in Hwin. bool_prop. split; [lia|].
  destruct (rc_status receipt); rewrite !fail_when_bind_Ok, fail_when_Ok in Hv; destruct Hv as (V1 & V2 & V3); bool_prop.
  - injection V3 as -> ->. split; [by apply not_eq_None_Some|]. split; [by apply eq_None_not_Some|done].
  - injection V2 as -> ->. split; [by apply eq_None_not_Some|]. split_and!; try done.
    destruct (rc_error receipt); [by eexists|done].
Qed.

Lemma verify_bound_request_Ok roots w s directory request :
  verify_bound_request roots w s = Ok (directory, request) ->
  exists job_id raw_hash, js_seals s !! "job_id" = Some job_id
    /\ resolve_handoff_directory roots w job_id = Ok directory
    /\ load_handoff_request directory.2 = Ok (request, raw_hash)
    /\ job_id = hr_run_id request /\ js_seals s !! "input_hash" = Some (hr_input_hash request)
    /\ js_seals s !! "request_hash" = Some (hr_request_hash request)
    /\ js_seals s !! "request_raw_hash" = Some raw_hash.
Proof.
  unfold verify_bound_request. destruct (js_seals s !! "job_id") as [job_id|] eqn:E; [|done].
  intros Hv. apply bind_Ok in Hv as (dir & Hd & Hv). apply bind_Ok in Hv as ([rq raw_hash] & Hl & Hv).
  apply bind_Ok in Hv as ([] & Hm & [= <- <-]). rewrite require_matching_Ok in Hm. cbn [fst snd] in Hm.
  exists job_id, raw_hash. split; [done|]. split; [done|]. split; [done|].
  assert (Some job_id = Some (hr_run_id rq)) as [= ->] by (rewrite <- E; apply Hm; by left).
  split; [done|]. split_and!; apply Hm, list_elem_of_In; cbn; tauto.
Qed.

Lemma read_draft_bound roots w id s a :
  read_draft_ready roots w id = Ok a -> resume w id = Ok s -> js_phase s <> awaiting_draft -> a = Bound s.
Proof.
  unfold read_draft_ready. intros Hr Hs Hp. rewrite Hs in Hr. cbn [mbind result_bind] in Hr.
  rewrite fail_when_bind_Ok in Hr. destruct Hr as [_ Hr].
  apply bind_Ok in Hr as ([dir request] & _ & Hr). apply bind_Ok in Hr as (inputs & _ & Hr).
  apply bind_Ok in Hr as ([] & _ & Hr). apply bind_Ok in Hr as (doc & _ & Hr).
  apply bind_Ok in Hr as (bundle & _ & Hr). rewrite !fail_when_bind_Ok in Hr. destruct Hr as (_ & _ & _ & Hr).
  rewrite bool_decide_false in Hr by done. by apply bind_Ok in Hr as ([] & _ & [= <-]).
Qed.

(** No interference. *)
Definition alone : nat -> World -> World := fun _ w => w.

(** A call of finalize on a pending execution, taken apart. *)
Lemma record_finalized_alone roots w id t now clock s w' :
  resume w id = Ok t -> js_phase t = finalize_pending ->
  record_finalized roots alone w id now clock = (Ok s, w') ->
  exists directory request receipt raw w1,
    verify_bound_request roots w t = Ok (directory, request)
    /\ read_receipt_file directory.2 request t = Ok (receipt, raw)
    /\ write_or_verify_exact w id raw = (Ok tt, w1)
    /\ append w1 t (phase_of_status (rc_status receipt)) now clock (receipt_seals receipt raw) = (Ok s, w').
Proof.
  intros Ht Hphase Hr. unfold record_finalized in Hr. rewrite Ht in Hr. cbn [mbind result_bind] in Hr.
  rewrite Hphase in Hr. rewrite bool_decide_false in Hr by set_solver.
  cbn [fail_when raise_when mbind result_bind] in Hr.
  destruct (verify_bound_request roots w t) as [[directory request]|e] eqn:Ev; [|done].
  unfold record_draft_ready, alone in Hr.
  destruct (read_draft_ready roots w id) as [a|e] eqn:Ed; [|done].
  rewrite (read_draft_bound _ _ _ _ _ Ed Ht) in Hr by (rewrite Hphase; done). cbn [acknowledge] in Hr.
  unfold finalize_from in Hr. destruct (read_receipt_file directory.2 request t) as [[receipt raw]|e] eqn:Er; [|done].
  destruct (write_or_verify_exact w id raw) as [[[]|e] w1] eqn:Ew; [|done].
  rewrite Hphase in Hr. cbn [terminal] in Hr. exists directory, request, receipt, raw, w1. done.
Qed.

(** ** Steps of the store *)

Context (roots : Roots).

(** Any operation, called by anyone, with what the others do in between; and
    whatever happens outside the state root. *)
Inductive operation (env : nat -> World -> World) (w : World) : World -> Prop :=
  | op_begin m key now clock r w' :
      validate_job_manifest zone_installed m = Ok m ->
      begin_ roots env w m key now clock = (r, w') -> operation env w w'
  | op_prepared id job_dir now clock r w' :
      record_prepared roots env w id job_dir now clock = (r, w') -> operation env w w'
  | op_draft id now clock r w' :
      record_draft_ready roots env w id now clock = (r, w') -> operation env w w'
  | op_finalized id now clock r w' :
      record_finalized roots env w id now clock = (r, w') -> operation env w w'
  | op_outside w' : w_executions w' = w_executions w -> operation env w w'.

Lemma operation_keeps env w w' : fair env -> operation env w w' -> keeps w w'.
Proof.
  intros Henv []; [by eapply begin_keeps|by eapply record_prepared_keeps|by eapply record_draft_keeps
    |by eapply record_finalized_keeps|].
  split; [intros id d Hd; exists d; split; [congruence|done]|].
  intros Hw _ id d Hd. apply Hw. congruence.
Qed.

Definition step (w w' : World) : Prop := exists env, fair env /\ operation env w w'.

Lemma steps_keep w w' : rtc step w w' -> keeps w w'.
Proof.
  induction 1 as [|w w1 w2 (env & Henv & Hop) _ IH]; [done|]. etrans; [by eapply operation_keeps|done].
Qed.

End Operations.

End JobSteps.
