(* ===== verification/JobDemo.v ===== *)
(** * A concrete machine for job executions

    Texts that are printed and read back field by field, a checksum in place of
    SHA-256, and one handoff taken through its four phases; it satisfies
    [DocumentLaws], so the theorems on job executions can be applied to it. *)
From Stdlib Require Import Ascii.
From S2P Require Import Prelude PyStr PyTime Float64 Domain Json Contracts Committee Handoff JobManifest JobExecution.
From S2P Require Import JobTheory JobSteps.
Import PyStr PyTime Float64 Domain Json Contracts Handoff JobManifest JobExecution JobTheory JobSteps.
Open Scope string_scope.
Open Scope Z_scope.

Module JobDemo.

(** ** Fields as one text *)

(** Each byte of a field is written after an [a]; a [z] ends the field. *)
Fixpoint put_field (s rest : string) : string :=
  match s with
  | EmptyString => String "z"%char rest
  | String c s' => String "a"%char (String c (put_field s' rest))
  end.

Definition join (l : list string) : string := foldr put_field "" l.

Fixpoint get_fields (t : string) : list string :=
  match t with
  | String m t' =>
      if Ascii.eqb m "z"%char then "" :: get_fields t'
      else if Ascii.eqb m "a"%char then
        match t' with
        | String c r => match get_fields r with f :: l => String c f :: l | [] => [] end
        | EmptyString => []
        end
      else []
  | EmptyString => []
  end.

Lemma get_put s rest : get_fields (put_field s rest) = s :: get_fields rest.
Proof. induction s as [|c s IH]; [done|]. cbn [put_field get_fields Ascii.eqb]. cbn. by rewrite IH. Qed.

Lemma get_join l : get_fields (join l) = l.
Proof. induction l as [|s l IH]; [done|]. cbn [join foldr]. rewrite get_put. by f_equal. Qed.

Lemma join_tail l tail : join l +:+ tail = foldr put_field tail l.
Proof.
  induction l as [|s l IH]; [done|]. cbn [join foldr]. rewrite <- IH. fold (join l). generalize (join l). intros r.
  clear. induction s as [|c s IH]; [done|]. cbn [put_field].
  change (String "a" (String c (put_field s r)) +:+ tail) with (String "a" (String c (put_field s r +:+ tail))).
  by rewrite IH.
Qed.

Lemma get_join_line l : get_fields (join l +:+ newline) = l.
Proof. rewrite join_tail. induction l as [|s l IH]; [done|]. cbn [foldr]. rewrite get_put. by f_equal. Qed.

(** Numbers, and optional texts. *)
Fixpoint pos_text (p : positive) : string :=
  match p with
  | xH => ""
  | xO p => String "0"%char (pos_text p)
  | xI p => String "1"%char (pos_text p)
  end.

Fixpoint text_pos (s : string) : positive :=
  match s with
  | String c s' => if Ascii.eqb c "0"%char then xO (text_pos s') else xI (text_pos s')
  | EmptyString => xH
  end.

Lemma text_pos_text p : text_pos (pos_text p) = p.
Proof. induction p as [p IH|p IH|]; cbn; by rewrite ?IH. Qed.

Definition z_text (z : Z) : string :=
  match z with Z0 => "z" | Zpos p => String "p"%char (pos_text p) | Zneg p => String "n"%char (pos_text p) end.

Definition text_z (s : string) : Z :=
  match s with
  | String c s' => if Ascii.eqb c "p"%char then Zpos (text_pos s')
                   else if Ascii.eqb c "n"%char then Zneg (text_pos s') else 0
  | EmptyString => 0
  end.

Lemma text_z_text z : text_z (z_text z) = z.
Proof. destruct z; cbn; by rewrite ?text_pos_text. Qed.

Definition opt_text (o : option string) : string := match o with Some s => String "s"%char s | None => "" end.
Definition text_opt (s : string) : option string := match s with String _ s' => Some s' | EmptyString => None end.

Lemma text_opt_text o : text_opt (opt_text o) = o.
Proof. by destruct o. Qed.

(** ** States and manifests as lists of texts *)

Definition phase_of_text (s : string) : ExecutionPhase :=
  if (s =? "prepare_pending")%string then prepare_pending
  else if (s =? "awaiting_draft")%string then awaiting_draft
  else if (s =? "finalize_pending")%string then finalize_pending
  else if (s =? "completed")%string then run_completed else run_failed.

Lemma phase_of_value p : phase_of_text (phase_value p) = p.
Proof. by destruct p. Qed.

Definition time_text (d : datetime) : string :=
  join [z_text (dt_wall d); opt_text (z_text <$> dt_offset d)].
Definition text_time (s : string) : datetime :=
  match get_fields s with [w; o] => DateTime (text_z w) (text_z <$> text_opt o) | _ => DateTime 0 None end.

Lemma text_time_text d : text_time (time_text d) = d.
Proof.
  unfold text_time, time_text. rewrite get_join, text_z_text, text_opt_text. destruct d as [w [o|]]; cbn; [|done].
  by rewrite text_z_text.
Qed.

Fixpoint pairs (l : list string) : list (string * string) :=
  match l with k :: v :: l' => (k, v) :: pairs l' | _ => [] end.
Definition unpairs (l : list (string * string)) : list string := l ≫= (fun kv => [kv.1; kv.2]).

Lemma pairs_unpairs l : pairs (unpairs l) = l.
Proof. induction l as [|[k v] l IH]; [done|]. unfold unpairs in *. cbn. by rewrite IH. Qed.

Definition state_texts (s : JobExecutionState) : list string :=
  [js_execution_id s; js_manifest_name s; js_manifest_hash s; js_prompt_hash s; js_idempotency_key s;
   phase_value (js_phase s); z_text (js_revision s); opt_text (js_previous_state_hash s);
   time_text (js_created_at s); time_text (js_updated_at s); join (unpairs (map_to_list (js_seals s)));
   js_state_hash s].

Definition texts_state (l : list string) : option JobExecutionState :=
  match l with
  | [a; b; c; d; e; f; g; h; i; j; k; m] =>
      Some (mkExecution a b c d e (phase_of_text f) (text_z g) (text_opt h) (text_time i) (text_time j)
              (list_to_map (pairs (get_fields k))) m)
  | _ => None
  end.

Lemma texts_state_texts s : texts_state (state_texts s) = Some s.
Proof.
  destruct s. unfold texts_state, state_texts.
  cbn [js_execution_id js_manifest_name js_manifest_hash js_prompt_hash js_idempotency_key js_phase js_revision
    js_previous_state_hash js_created_at js_updated_at js_seals js_state_hash].
  by rewrite phase_of_value, text_z_text, text_opt_text, !text_time_text, get_join, pairs_unpairs, list_to_map_to_list.
Qed.

Definition effort_text (e : Effort) : string :=
  match e with low => "low" | medium => "medium" | high => "high" | xhigh => "xhigh" | max => "max" | ultra => "ultra" end.
Definition text_effort (s : string) : Effort :=
  if (s =? "low")%string then low else if (s =? "medium")%string then medium
  else if (s =? "high")%string then high else if (s =? "xhigh")%string then xhigh
  else if (s =? "max")%string then max else ultra.

Definition manifest_texts (m : JobManifest) : list string :=
  [jm_name m; jm_schedule m; jm_timezone m; jm_profile m; join (jm_prepare m); join (jm_finalize m);
   ds_runner (jm_draft m); opt_text (ds_model (jm_draft m));
   opt_text (effort_text <$> ds_reasoning_effort (jm_draft m)); ds_prompt (jm_draft m);
   join (ds_writable (jm_draft m))].

Definition texts_manifest (l : list string) : option JobManifest :=
  match l with
  | [a; b; c; d; e; f; g; h; i; j; k] =>
      Some (mkManifest a b c d (get_fields e)
              (mkDraftStep g (text_opt h) (text_effort <$> text_opt i) j (get_fields k)) (get_fields f))
  | _ => None
  end.

Lemma texts_manifest_texts m : texts_manifest (manifest_texts m) = Some m.
Proof.
  destruct m as [? ? ? ? ? [? ? [e|] ? ?] ?]; unfold texts_manifest, manifest_texts;
    cbn [jm_name jm_schedule jm_timezone jm_profile jm_prepare jm_finalize jm_draft ds_runner ds_model
      ds_reasoning_effort ds_prompt ds_writable fmap option_fmap option_map];
    rewrite !get_join, text_opt_text; [by destruct e|done].
Qed.

(** ** A checksum of sixty-four digits *)

Definition modulus : Z := 2305843009213693951.
Definition lower (n : Z) : Z := if modulus <=? n then n - modulus else n.

Definition checksum (s : string) : Z :=
  fold_left (fun acc c => lower (lower (Z.succ_double acc + Z.of_N (N_of_ascii c)))) (String.list_ascii_of_string s) 7.

(** The last bits of a number, as digits. *)
Fixpoint bits (k : nat) (p : positive) : string :=
  match k with
  | O => ""
  | S k => match p with
           | xH => String "1"%char (bits k 1)
           | xO q => String "0"%char (bits k q)
           | xI q => String "1"%char (bits k q)
           end
  end.

Definition digits (s : string) : string := bits 64 (Z.to_pos (checksum s)).

Lemma digits_hex s : is_sha256_hex (digits s) = true.
Proof.
  unfold is_sha256_hex, digits. generalize (Z.to_pos (checksum s)). intros p.
  assert (String.length (bits 64 p) = 64%nat /\ all_bytes is_hex (bits 64 p) = true) as [-> ->]; [|done].
  generalize 64%nat. intros k. revert p. induction k as [|k IH]; intros p; [done|].
  unfold all_bytes in *. destruct p as [p|p|]; cbn [bits String.length String.list_ascii_of_string forallb];
    [destruct (IH p) as [-> ->]|destruct (IH p) as [-> ->]|destruct (IH 1%positive) as [-> ->]]; done.
Qed.

(** ** The scenario *)

#[export] Instance python : PyRuntime := {| runtime := Py312 |}.

(** Minutes of one day in July 2026, UTC. *)
Definition day : date := ymd2ord 2026 7 24.
Definition minute_of_day (n : Z) : datetime := DateTime (day * us_per_day + n * us_per_minute) (Some 0).

Definition run_id : string := "6f1c2a34-0b5d-4e6f-8a7b-9c0d1e2f3a4b".

Definition assignment (agent_id : string) (role : AssignmentRole) (evidence : list string) : HandoffAssignment :=
  mkAssignment agent_id "000300.SH" "沪深300" D1 "2026-07-27" role (Some "brief") "VC-WIKI-1" "title" "1"
    zero_digest ["s1"] evidence.

Definition assignments : list HandoffAssignment :=
  [assignment "macro_policy_agent" research ["e1"]; assignment "risk_critic_agent" critic []].

Definition request_of (hash : string) : HandoffRequest :=
  mkRequest PROTOCOL_3 run_id "demo" CODEX_FILE_3 (minute_of_day 600) (minute_of_day 1080) zero_digest
    "0.5.0" "0.6.0" {["forecast_horizons" := JArr [JStr "D1"]]} assignments hash.

Definition request_hash : string := digits "request".
Definition request : HandoffRequest := request_of request_hash.

Definition template : json :=
  match build_handoff_draft_template request with Ok j => j | Err _ => JNull end.

Definition record_of (agent_id : string) (evidence : list string) : HandoffDraftRecord :=
  mkDraftRecord agent_id "000300.SH" D1 (Some "brief")
    (Committee.mkDraft UP (mkProbs (lit 1 2) (lit 1 4) (lit 1 4)) "summary" ["argument"] ["doubt"] ["stop"] evidence "VC-WIKI-1" "s1").

Definition records : list HandoffDraftRecord :=
  [record_of "macro_policy_agent" ["e1"]; record_of "risk_critic_agent" []].

Definition bundle : HandoffDraftBundle :=
  mkBundle PROTOCOL_3 run_id zero_digest request_hash (minute_of_day 700) (mkGenerator None None) records.

Definition drafts_hash : string := digits "bundle".

Definition receipt : HandoffReceipt :=
  mkReceipt PROTOCOL_3 run_id completed (minute_of_day 720) CODEX_FILE_3 zero_digest request_hash
    (digits "request-text") drafts_hash (digits "drafts-text") (Some zero_digest) 3 1 (mkGenerator None None) None
    (Some (Some 1)) None (digits "receipt").

(** The documents of the scenario have a fixed text each; states and manifests
    are printed in full. *)
Definition loads (raw : string) : option json :=
  if (raw =? "template-text")%string then Some template
  else match raw with
       | String "M" rest => Some (JObj {["m" := JStr rest]})
       | _ => Some (JStr raw)
       end.

Definition dumps (j : json) : string :=
  match j with
  | JStr s => s
  | JObj m => match m !! "m" with Some (JStr s) => "M" +:+ s | _ => "" end
  | _ => ""
  end.

Definition read_text {A} (text : string) (a : A) (j : json) : option A :=
  match j with JStr s => if (s =? text)%string then Some a else None | _ => None end.

#[export] Instance documents : Documents := {|
  json_loads := loads;
  json_dumps := dumps;
  text_sha256 := digits;
  read_manifest p := match p !! "m" with
    | Some (JStr s) => texts_manifest (get_fields s)
    | _ => None end;
  dump_manifest m := JObj {["m" := JStr (join (manifest_texts m))]};
  read_state j := match j with JStr s => texts_state (get_fields s) | _ => None end;
  dump_state s := JStr (join (state_texts s));
  dump_unsealed_state s := JStr (join (state_texts s));
  read_request := read_text "request-text" request;
  dump_unsealed_request _ := JStr "request";
  read_bundle := read_text "drafts-text" bundle;
  dump_bundle _ := JStr "bundle";
  read_receipt := read_text "receipt-text" receipt;
  dump_unsealed_receipt _ := JStr "receipt";
  zone_installed z := (z =? "Asia/Shanghai")%string;
  expanduser p := p |}.

#[export] Instance canonical : CanonicalHash :=
  {| canonical_hash j := digits (match j with JStr s => s | JObj m => dumps (JObj m) | _ => "" end) |}.

#[export] Instance document_laws : DocumentLaws.
Proof.
  split.
  - intros j. apply digits_hex.
  - intros s _ _. unfold json_bytes. cbn [json_dumps documents dump_state dumps].
    set (t := join (state_texts s)).
    assert (loads (t +:+ newline) = Some (JStr (t +:+ newline))) as Hl.
    { unfold loads, t, state_texts. cbn [join foldr]. by destruct (js_execution_id s). }
    exists (JStr (t +:+ newline)). split; [exact Hl|]. cbn [read_state documents]. unfold t.
    rewrite get_join_line. apply texts_state_texts.
  - intros m _. exists {["m" := JStr (join (manifest_texts m) +:+ newline)]}. split; [done|].
    cbn [read_manifest documents]. rewrite lookup_singleton_eq, get_join_line. apply texts_manifest_texts.
Qed.

Definition roots : Roots :=
  mkRoots ["srv"; "app"] ["srv"; "app"; "data"; "handoffs"] ["srv"; "app"; "data"; "job-state"].

Definition manifest : JobManifest :=
  mkManifest "daily-forecast" "15 9 * * 1-5" "Asia/Shanghai" "formal"
    ["forecast-loop"; "forecast"; "prepare"; "--mode"; "demo"]
    (mkDraftStep "codex" (Some "example-model") (Some high) "prompts/daily-forecast.md" ["data/handoffs/*/drafts.json"])
    ["forecast-loop"; "forecast"; "finalize"; "--mode"; "demo"; "{job_dir}"].

Definition instructions : string := render_handoff_instructions request.

Definition handoff : gmap string string :=
  list_to_map [("input.json", "request-text"); ("INSTRUCTIONS.md", instructions);
               ("drafts.template.json", "template-text"); ("drafts.json", "drafts-text");
               ("receipt.json", "receipt-text")].

Definition w0 : World := mkWorld ∅ {[run_id := handoff]} {["prompts/daily-forecast.md" := "prompt"]}.

Definition key : string := "2026-07-24".
Definition id : string := execution_id_of "daily-forecast" key.

Definition state_of (r : result JobExecutionState * World) : JobExecutionState :=
  match r.1 with Ok s => s | Err _ => initial_state manifest key (mkOpening (minute_of_day 0) "" "") end.

Definition begun := begin_ roots alone w0 manifest key (Some (minute_of_day 590)) (minute_of_day 0).
Definition w1 : World := begun.2.
Definition prepared := record_prepared roots alone w1 id run_id (Some (minute_of_day 610)) (minute_of_day 0).
Definition w2 : World := prepared.2.
Definition drafted := record_draft_ready roots alone w2 id (Some (minute_of_day 705)) (minute_of_day 0).
Definition w3 : World := drafted.2.
Definition finalized := record_finalized roots alone w3 id (Some (minute_of_day 730)) (minute_of_day 0).
Definition w4 : World := finalized.2.

(** ** Facts of the scenario *)

Lemma run_Ok (r : result JobExecutionState * World) : is_ok r.1 = true -> r = (Ok (state_of r), r.2).
Proof. destruct r as [[s|e] w]; by intros ?. Qed.

Lemma begun_Ok :
  begin_ roots alone w0 manifest key (Some (minute_of_day 590)) (minute_of_day 0)
  = (Ok (state_of begun), w1).
Proof. fold begun. apply run_Ok. by_vm. Qed.
Lemma prepared_Ok :
  record_prepared roots alone w1 id run_id (Some (minute_of_day 610)) (minute_of_day 0)
  = (Ok (state_of prepared), w2).
Proof. fold prepared. apply run_Ok. by_vm. Qed.
Lemma drafted_Ok :
  record_draft_ready roots alone w2 id (Some (minute_of_day 705)) (minute_of_day 0)
  = (Ok (state_of drafted), w3).
Proof. fold drafted. apply run_Ok. by_vm. Qed.
Lemma finalized_Ok :
  record_finalized roots alone w3 id (Some (minute_of_day 730)) (minute_of_day 0)
  = (Ok (state_of finalized), w4).
Proof. fold finalized. apply run_Ok. by_vm. Qed.

#[global] Opaque begun prepared drafted finalized w1 w2 w3 w4 id.

Lemma manifest_valid : validate_job_manifest zone_installed manifest = Ok manifest.
Proof. by_vm. Qed.

Definition small (maximum : Z) (kv : string * string) : bool := text_size kv.2 <=? maximum.

Definition sized_directory (d : ExecutionDirectory) : bool :=
  forallb (small MAX_STATE_BYTES) (map_to_list (ed_revisions d))
  && forallb (fun kv => negb (kv.1 =? "manifest.json")%string || small MAX_MANIFEST_BYTES kv)
       (map_to_list (ed_files d)).

Lemma sized_check w : forallb (fun kv => sized_directory kv.2) (map_to_list (w_executions w)) = true -> sized w.
Proof.
  rewrite forallb_forall. intros Hall i d Hd. specialize (Hall (i, d)).
  rewrite <- list_elem_of_In, elem_of_map_to_list in Hall. specialize (Hall Hd). unfold sized_directory in Hall.
  apply andb_true_iff in Hall as [H1 H2]. rewrite forallb_forall in H1, H2. split.
  - intros name raw Hn. specialize (H1 (name, raw)). rewrite <- list_elem_of_In, elem_of_map_to_list in H1.
    specialize (H1 Hn). by apply Z.leb_le.
  - intros raw Hn. specialize (H2 ("manifest.json", raw)). rewrite <- list_elem_of_In, elem_of_map_to_list in H2.
    specialize (H2 Hn). by apply Z.leb_le.
Qed.

Lemma sized_4 : sized w4.
Proof. apply sized_check. by_vm. Qed.

Lemma alone_fair : fair alone.
Proof. by intros n w. Qed.

Lemma steps_1_4 : rtc (step roots) w1 w4.
Proof.
  eapply rtc_l; [exists alone; split; [apply alone_fair|eapply op_prepared, prepared_Ok]|].
  eapply rtc_l; [exists alone; split; [apply alone_fair|eapply op_draft, drafted_Ok]|].
  apply rtc_once. exists alone. split; [apply alone_fair|eapply op_finalized, finalized_Ok].
Qed.

Lemma steps_2_4 : rtc (step roots) w2 w4.
Proof.
  eapply rtc_l; [exists alone; split; [apply alone_fair|eapply op_draft, drafted_Ok]|].
  apply rtc_once. exists alone. split; [apply alone_fair|eapply op_finalized, finalized_Ok].
Qed.

Lemma resumable_1 : resumable w1.
Proof.
  destruct (begin_keeps _ _ _ _ _ _ _ _ _ alone_fair manifest_valid begun_Ok) as [_ Hr]. apply Hr; [done|].
  exact (sized_grows _ _ (proj1 (steps_keep roots _ _ steps_1_4)) sized_4).
Qed.

Lemma resumable_4 : resumable w4.
Proof. exact (proj2 (steps_keep roots _ _ steps_1_4) resumable_1 sized_4). Qed.

Lemma resumable_3 : resumable w3.
Proof.
  destruct (record_prepared_keeps _ _ _ _ _ _ _ _ _ alone_fair prepared_Ok) as [_ R2].
  destruct (record_draft_keeps _ _ _ _ _ _ _ _ alone_fair drafted_Ok) as [G3 R3].
  destruct (record_finalized_keeps _ _ _ _ _ _ _ _ alone_fair finalized_Ok) as [G4 _].
  pose proof (sized_grows _ _ G4 sized_4) as S3.
  exact (R3 (R2 resumable_1 (sized_grows _ _ G3 S3)) S3).
Qed.

(** The state of the execution in a store. *)
Definition state_at (w : World) : JobExecutionState := state_of (resume w id, w).

Lemma resume_at w : is_ok (resume w id) = true -> resume w id = Ok (state_at w).
Proof. unfold state_at. by destruct (resume w id). Qed.

Lemma resume_1 : resume w1 id = Ok (state_at w1).
Proof. apply resume_at. by_vm. Qed.
Lemma resume_2 : resume w2 id = Ok (state_at w2).
Proof. apply resume_at. by_vm. Qed.
Lemma resume_3 : resume w3 id = Ok (state_at w3).
Proof. apply resume_at. by_vm. Qed.

End JobDemo.
