(* ===== verification/JobProps.v ===== *)
(** * Theorems on job executions

    The executions of a store only grow and stay resumable; what [resume]
    accepts; one handoff, one draft and one receipt per execution; the one path
    the external task may write. *)
From Stdlib Require Import Ascii.
From S2P Require Import Prelude PyStr PyTime Float64 Domain Json Contracts Committee Handoff JobManifest JobExecution.
From S2P Require Import JobTheory JobSteps JobDemo.
Import PyStr PyTime Float64 Domain Json Contracts Handoff JobManifest JobExecution JobTheory JobSteps.
Open Scope string_scope.
Open Scope Z_scope.

Module JobProps.

Section Claims.
Context `{CanonicalHash} `{Documents} `{!DocumentLaws} `{PyRuntime}.
Context (roots : Roots).


(** (the history behind a resumed state): the directory holds one to four
    revision files, named [000000.json] upwards without a gap and nothing else;
    the n-th holds revision n in the n-th phase, hashes correctly, points to the
    hash of the one before, and carries only fields that the last one still
    has. *)
Theorem resume_sound w id s :
  resume w id = Ok s ->
  exists d h, w_executions w !! id = Some d /\ last h = Some s /\ (length h <= 4)%nat
    /\ dom (ed_revisions d) = list_to_set (names (length h))
    /\ forall i t, h !! i = Some t ->
         js_revision t = Z.of_nat i /\ phase_rank (js_phase t) = Z.of_nat i
         /\ js_execution_id t = id /\ js_state_hash t = state_digest t
         /\ js_previous_state_hash t = (match i with O => None | S k => js_state_hash <$> (h !! k) end)
         /\ js_manifest_hash t = js_manifest_hash s /\ js_prompt_hash t = js_prompt_hash s
         /\ js_seals t ⊆ js_seals s /\ instant (js_updated_at t) <= instant (js_updated_at s).
Proof.
  intros (_ & d & bound & h & E & Hv & Hl)%resume_Ok. pose proof (vd_history _ _ _ _ Hv) as Hh.
  exists d, h. split; [done|]. split; [done|]. split; [by eapply history_length|].
  split; [apply (vd_names _ _ _ _ Hv)|]. intros i t Ht.
  destruct (history_rank _ _ _ _ _ Hh Ht) as [Hr Hk].
  destruct (hi_bound _ _ _ Hh t (list_elem_of_lookup_2 _ _ _ Ht)) as (B1 & _ & _ & B4).
  rewrite last_lookup in Hl. assert (i <= pred (length h))%nat as Hi by (apply lookup_lt_Some in Ht; lia).
  destruct (history_seals _ _ _ _ _ _ _ Hh Hi Ht Hl) as (S1 & S2 & _ & _ & S3 & S4 & _ & _).
  split_and!; try done. destruct i as [|i].
  - pose proof (validated_phase t (history_valid_elem _ _ _ _ _ Hv (list_elem_of_lookup_2 _ _ _ Ht))) as Hp.
    destruct (hi_first _ _ _ Hh t Ht) as [R0 P0]. unfold phase_has_exact_seals in Hp.
    rewrite P0, R0 in Hp. cbn [mbind result_bind] in Hp. rewrite !raise_when_bind_Ok in Hp.
    destruct Hp as (_ & Hp & _). cbn in Hp. bool_prop. by apply eq_None_not_Some.
  - assert (is_Some (h !! i)) as [p Hp] by (apply lookup_lt_is_Some; apply lookup_lt_Some in Ht; lia).
    rewrite Hp. apply (sc_link _ _ (hi_next _ _ _ Hh i p t Hp Ht)).
Qed.

(** C20 (tamper evidence): the hash of the last state binds the whole history:
    two accepted directories whose last states have the same hash hold the same
    states, unless two of their states are a collision of the digest. *)
Theorem history_tamper_evident d d' id id' bound bound' h h' s s' :
  valid_directory d id bound h -> valid_directory d' id' bound' h' ->
  last h = Some s -> last h' = Some s' -> js_state_hash s = js_state_hash s' ->
  (forall t t', t ∈ h -> t' ∈ h' -> state_digest t = state_digest t' ->
     with_state_hash t "" = with_state_hash t' "") ->
  h = h' /\ id = id'.
Proof.
  intros Hv Hv' Hl Hl' Hhash Hcol.
  assert (forall t t', t ∈ h -> t' ∈ h' -> js_state_hash t = js_state_hash t' -> t = t') as Hsame.
  { intros t t' Ht Ht' Heq. pose proof (Hcol t t' Ht Ht') as Hc.
    destruct (hi_bound _ _ _ (vd_history _ _ _ _ Hv) t Ht) as (_ & _ & _ & B).
    destruct (hi_bound _ _ _ (vd_history _ _ _ _ Hv') t' Ht') as (_ & _ & _ & B').
    rewrite <- B, <- B' in Hc. specialize (Hc Heq). destruct t, t'. cbn in *. by simplify_eq. }
  assert (s = s') as <- by (apply Hsame; [by apply last_Some_elem_of..|done]).
  split; [|destruct (hi_bound _ _ _ (vd_history _ _ _ _ Hv) s) as (<- & _);
           [by apply last_Some_elem_of|];
           destruct (hi_bound _ _ _ (vd_history _ _ _ _ Hv') s) as (<- & _);
           [by apply last_Some_elem_of|done]].
  rewrite last_lookup in Hl, Hl'.
  destruct (history_rank _ _ _ _ _ (vd_history _ _ _ _ Hv) Hl) as [Hr _].
  destruct (history_rank _ _ _ _ _ (vd_history _ _ _ _ Hv') Hl') as [Hr' _].
  assert (length h = length h') as Hlen by (destruct h, h'; cbn in *; (done || lia)).
  assert (forall k t t', (k < length h)%nat -> h !! (pred (length h) - k)%nat = Some t ->
    h' !! (pred (length h) - k)%nat = Some t' -> t = t') as Hback.
  { intros k. induction k as [|k IH]; intros t t' Hk Ht Ht'.
    - rewrite Nat.sub_0_r in Ht, Ht'. rewrite <- Hlen in Hl'. congruence.
    - destruct (lookup_lt_is_Some_2 h (pred (length h) - k)%nat ltac:(lia)) as [n Hn].
      destruct (lookup_lt_is_Some_2 h' (pred (length h) - k)%nat ltac:(lia)) as [n' Hn'].
      pose proof (IH n n' ltac:(lia) Hn Hn') as <-.
      replace (pred (length h) - k)%nat with (S (pred (length h) - S k)) in Hn, Hn' by lia.
      pose proof (sc_link _ _ (hi_next _ _ _ (vd_history _ _ _ _ Hv) _ _ _ Ht Hn)) as L.
      pose proof (sc_link _ _ (hi_next _ _ _ (vd_history _ _ _ _ Hv') _ _ _ Ht' Hn')) as L'.
      apply Hsame; [by eapply list_elem_of_lookup_2..|]. rewrite L in L'. by injection L'. }
  apply list_eq. intros i. destruct (decide (i < length h)%nat) as [Hi|Hi].
  - destruct (lookup_lt_is_Some_2 h i Hi) as [t Ht]. destruct (lookup_lt_is_Some_2 h' i ltac:(lia)) as [t' Ht'].
    rewrite Ht, Ht'. f_equal. apply (Hback (pred (length h) - i)%nat); [lia|..];
      by replace (pred (length h) - (pred (length h) - i))%nat with i by lia.
  - rewrite !lookup_ge_None_2 by lia. done.
Qed.

(** One handoff: once a prepared handoff is bound, an acknowledgement of a
    handoff at any later time, by anyone, writes nothing: it answers with a
    state that has the same seals, if the directory and the bytes of its
    [input.json] are the bound ones, and raises a conflict if the directory is a
    different well-formed handoff. *)
Theorem handoff_bound_once env w0 w id job_dir now clock s r w' :
  resume w0 id = Ok s -> js_phase s <> prepare_pending -> grows w0 w -> resumable w ->
  record_prepared roots env w id job_dir now clock = (r, w') ->
  w' = env 0%nat w
  /\ (forall t, r = Ok t -> resume w id = Ok t
        /\ forall f, f ∈ PREPARED_FIELDS -> js_seals t !! f = js_seals s !! f)
  /\ (forall t directory loaded, r = Ok t ->
        resolve_handoff_directory roots w job_dir = Ok directory ->
        load_handoff_request directory.2 = Ok loaded ->
        js_seals s !! "job_id" = Some directory.1 /\ js_seals s !! "request_raw_hash" = Some loaded.2).
Proof.
  intros Hs Hphase Hg Hw Hr. unfold record_prepared in Hr.
  assert (forall a, read_prepared roots w id job_dir = Ok a -> exists t, a = Bound t /\ resume w id = Ok t
    /\ js_seals s ⊆ js_seals t /\ exists directory loaded inputs,
      resolve_handoff_directory roots w job_dir = Ok directory /\ load_handoff_request directory.2 = Ok loaded
      /\ load_and_validate_draft_inputs directory.2 loaded.1 = Ok inputs
      /\ forall f v, (f, v) ∈ ("job_id", directory.1) :: ("input_hash", hr_input_hash loaded.1)
           :: ("request_hash", hr_request_hash loaded.1) :: ("request_raw_hash", loaded.2) :: inputs ->
           js_seals t !! f = Some v) as Hread.
  { intros a (t & dir & loaded & inputs & Ht & Hd & Hl & Hi & Ha)%read_prepared_Ok.
    destruct (resume_continues _ _ _ _ _ Hs Hg Ht) as (Hsub & _ & _ & _ & Hrank).
    destruct Ha as [[Hp _]|(_ & -> & Hm)].
    - exfalso. rewrite Hp in Hrank. destruct (js_phase s); cbn in *; (done || lia).
    - exists t. split_and!; try done. by exists dir, loaded, inputs. }
  destruct (read_prepared roots w id job_dir) as [a|e]; [|injection Hr as <- <-; done].
  destruct (Hread a eq_refl) as (t & -> & Ht & Hsub & dir & loaded & inputs & Hd & Hl & Hi & Hm).
  injection Hr as <- <-. split; [done|].
  assert (forall f v, f ∈ PREPARED_FIELDS -> js_seals t !! f = Some v -> js_seals s !! f = Some v) as Hback.
  { intros f v Hf Hv. assert (is_Some (js_seals s !! f)) as [v' Hv'].
    { pose proof (validated_phase s (resume_valid _ _ _ Hs)) as Hp. unfold phase_has_exact_seals in Hp.
      assert (any_missing s PREPARED_FIELDS = false) as Hmiss
        by (destruct (js_phase s); [done|..]; rewrite raise_when_bind_Ok in Hp; by destruct Hp).
      apply not_true_iff_false in Hmiss. destruct (js_seals s !! f) as [x|] eqn:E; [by eexists|].
      destruct Hmiss. apply existsb_exists. exists f. split; [by apply list_elem_of_In|].
      unfold present. by rewrite E. }
    pose proof (lookup_weaken _ _ _ _ Hv' Hsub). congruence. }
  split.
  - intros t' [= <-]. split; [done|]. intros f Hf. destruct (js_seals t !! f) as [v|] eqn:E; [by rewrite (Hback f v Hf E)|].
    destruct (js_seals s !! f) as [v|] eqn:E'; [|done]. pose proof (lookup_weaken _ _ _ _ E' Hsub). congruence.
  - intros t' dir' loaded' [= <-] Hd' Hl'. assert (dir' = dir) as -> by congruence. assert (loaded' = loaded) as -> by congruence.
    split; (apply Hback; [apply list_elem_of_In; cbn; tauto|]; apply Hm, list_elem_of_In; cbn; tauto).
Qed.

(** C21 (the receipt): when finalize completes an execution, the receipt it read
    is canonically sealed, belongs to the bound handoff, seals the very bytes
    the execution sealed for the request and the drafts, was finalized inside
    the handoff window, and reports one opinion per assignment plus one per
    target and one forecast per target if it is completed, none if it failed;
    and its bytes are the trusted copy. *)
Theorem finalized_receipt_sound w id now clock s w' :
  resumable w -> record_finalized roots alone w id now clock = (Ok s, w') -> sized w' ->
  (exists t, resume w id = Ok t /\ js_phase t = finalize_pending) ->
  exists receipt raw request directory d,
    resolve_handoff_directory roots w (default "" (js_seals s !! "job_id")) = Ok directory
    /\ (exists raw_hash, load_handoff_request directory.2 = Ok (request, raw_hash)
          /\ js_seals s !! "request_raw_hash" = Some raw_hash)
    /\ directory.2 !! "receipt.json" = Some raw
    /\ w_executions w' !! id = Some d /\ ed_files d !! "receipt.json" = Some raw
    /\ rc_receipt_hash receipt = receipt_digest dump_unsealed_receipt receipt
    /\ js_phase s = phase_of_status (rc_status receipt)
    /\ js_seals s !! "job_id" = Some (rc_run_id receipt)
    /\ js_seals s !! "request_raw_hash" = Some (rc_request_raw_hash receipt)
    /\ js_seals s !! "drafts_raw_hash" = Some (rc_drafts_raw_hash receipt)
    /\ js_seals s !! "receipt_raw_hash" = Some (text_sha256 raw)
    /\ instant (hr_prepared_at request) <= instant (rc_finalized_at receipt) <= instant (hr_finalize_deadline request)
    /\ match rc_status receipt with
       | completed => is_Some (rc_output_hash receipt) /\ rc_error receipt = None
           /\ rc_forecast_count receipt = target_count request
           /\ rc_opinion_count receipt = Z.of_nat (length (hr_assignments request)) + target_count request
       | failed => rc_output_hash receipt = None /\ rc_forecast_count receipt = 0
           /\ rc_opinion_count receipt = 0 /\ is_Some (rc_error receipt)
       end.
Proof.
  intros Hw Hr Hsized (t & Ht & Hphase).
  destruct (record_finalized_alone _ _ _ _ _ _ _ _ Ht Hphase Hr)
    as (directory & request & receipt & raw & w1 & Hv & Hf & Hwr & Ha).
  destruct (verify_bound_request_Ok _ _ _ _ _ Hv) as (job_id & raw_hash & B1 & B2 & B3 & B4 & B5 & B6 & B7).
  destruct (read_receipt_file_Ok _ _ _ _ _ Hf) as ((j & Hd & Hrd & Hc) & R1 & R2 & R3 & R4).
  destruct (receipt_invariants_Ok _ _ R4) as [Hwindow Hcounts].
  apply secure_read_json_Ok in Hd as (Hraw & Hj & Hsize). cbn [fst snd] in *.
  destruct (write_or_verify_keeps _ _ _ _ _ Hwr) as [Hg1 Hr1].
  destruct (write_or_verify_bytes _ _ _ _ Hwr) as (d1 & E1 & Eraw).
  pose proof (append_grows _ _ _ _ _ _ _ _ Ha) as Hg2. destruct (Hg2 id d1 E1) as (d & E & [Hfiles _]).
  assert (resumable w1) as Hw1 by (apply Hr1; [done|by eapply sized_grows]).
  assert (resume w' id = Ok s /\ (forall f v, (f, v) ∈ receipt_seals receipt raw -> js_seals s !! f = Some v)
          /\ js_phase s = phase_of_status (rc_status receipt)) as (Hs & Hseals & Hps).
  { eapply append_keeps in Ha as [_ Ha]; [|exact Ht|exact Hg1|exact Hw1|..|exact Hsized].
    - destruct (Ha s eq_refl) as (? & ? & _ & Hterm). split_and!; try done. apply Hterm. by destruct (rc_status receipt).
    - by apply phase_of_status_allowed.
    - by apply receipt_seals_fresh; [eapply resume_valid|].
    - by eapply receipt_seals_fresh; [eapply resume_valid|].
    - intros _ d2 u E2 Hseals. assert (d2 = d1) as -> by congruence. by eapply verify_trusted_bytes. }
  assert (grows w w') as Hg by (etrans; done).
  destruct (resume_continues _ _ _ _ _ Ht Hg Hs) as (Hsub & _).
  exists receipt, raw, request, directory, d.
  rewrite (lookup_weaken _ _ _ _ B1 Hsub). cbn [default]. split; [done|].
  split; [exists raw_hash; split; [done|by eapply lookup_weaken]|]. split; [done|]. split; [done|].
  split; [by eapply lookup_weaken|]. split; [done|]. split; [done|].
  split; [rewrite <- B1; exact R2|].
  split; [eapply lookup_weaken, Hsub; apply R3, list_elem_of_In; cbn; tauto|].
  split; [eapply lookup_weaken, Hsub; apply R3, list_elem_of_In; cbn; tauto|].
  split; [apply Hseals, list_elem_of_In; cbn; tauto|]. done.
Qed.

Lemma require_same_Ok s manifest_hash prompt_hash key u :
  require_same_execution s manifest_hash prompt_hash key = Ok u <->
  js_manifest_hash s = manifest_hash /\ js_prompt_hash s = prompt_hash /\ js_idempotency_key s = key.
Proof.
  unfold require_same_execution. destruct u.
  destruct (js_manifest_hash s =? manifest_hash)%string eqn:E1, (js_prompt_hash s =? prompt_hash)%string eqn:E2,
    (js_idempotency_key s =? key)%string eqn:E3; cbn; bool_prop; split; (done || (intros (? & ? & ?); congruence)).
Qed.

(** (opening once): the execution a key opened is the one every later begin
    with that key finds: it writes nothing and answers with the current state
    if the manifest and the prompt are unchanged, and raises a conflict if either
    differs from what was sealed. *)
Theorem begin_idempotent env w0 w m key now clock s r w' o :
  resume w0 (execution_id_of (jm_name m) key) = Ok s -> grows w0 w -> resumable w ->
  opening roots w m key now clock = Ok o ->
  begin_ roots env w m key now clock = (r, w') ->
  w' = w
  /\ (og_manifest_hash o = js_manifest_hash s -> og_prompt_hash o = js_prompt_hash s ->
      key = js_idempotency_key s -> exists t, r = Ok t /\ resume w (execution_id_of (jm_name m) key) = Ok t)
  /\ (og_manifest_hash o <> js_manifest_hash s \/ og_prompt_hash o <> js_prompt_hash s ->
      exists message, r = Err (Exn JobExecutionConflictError message)).
Proof.
  intros Hs Hg Hw Ho Hb. unfold begin_ in Hb. rewrite Ho in Hb. cbv zeta in Hb.
  set (id := execution_id_of (jm_name m) key) in *.
  destruct (proj1 (resume_Ok _ _ _) Hs) as (Hid & d0 & _ & _ & E0 & _).
  destruct (Hg id d0 E0) as (d & E & _). rewrite E in Hb. injection Hb as <- <-. split; [done|].
  destruct (Hw id d E) as (bound & h & Hv).
  destruct (last h) as [t|] eqn:El; [|by apply last_None in El; destruct (vd_nonempty _ _ _ _ Hv)].
  assert (resume w id = Ok t) as Ht by (apply resume_Ok; eauto 8).
  destruct (resume_continues _ _ _ _ _ Hs Hg Ht) as (_ & C2 & C3 & C4 & _).
  rewrite Ht. cbn [mbind result_bind]. split.
  - intros Hm Hp Hk. exists t. rewrite (proj2 (require_same_Ok t _ _ _ tt)); [done|]. split_and!; congruence.
  - intros Hne. unfold require_same_execution.
    destruct (negb (js_manifest_hash t =? og_manifest_hash o)%string || negb (js_prompt_hash t =? og_prompt_hash o)%string
      || negb (js_idempotency_key t =? key)%string) eqn:Ex; [by eexists|]. exfalso. bool_prop. destruct Hne; congruence.
Qed.

(** ** The instruction *)

Lemma relative_to_Some path root rest : relative_to path root = Some rest <-> path = (root ++ rest)%list.
Proof.
  revert path. induction root as [|r root IH]; intros [|p path]; cbn; try (split; congruence).
  destruct (p =? r)%string eqn:E; bool_prop.
  - subst. rewrite IH. split; congruence.
  - split; [done|]. by intros [= ->].
Qed.

Lemma contains_spec parent child : contains parent child = true <-> parent `prefix_of` child.
Proof.
  unfold contains. rewrite bool_decide_eq_true. split.
  - intros [rest Hr]. exists rest. by apply relative_to_Some.
  - intros [rest Hr]. exists rest. by apply relative_to_Some.
Qed.

Lemma parts_match_Forall2 pattern candidate :
  parts_match pattern candidate = true -> Forall2 (fun e a => part_matches e a = true) pattern candidate.
Proof.
  revert candidate. induction pattern as [|e pattern IH]; intros [|a candidate]; cbn; try done.
  intros Hm. bool_prop. constructor; [done|by apply IH].
Qed.

(** A declared path lies below [data/] and ends in [drafts.json]. *)
Lemma writable_shape m pattern :
  validate_job_manifest zone_installed m = Ok m -> pattern ∈ ds_writable (jm_draft m) ->
  let parts := split_on "/"%char pattern in
  (3 <= length parts)%nat /\ head parts = Some "data" /\ last parts = Some "drafts.json".
Proof.
  intros Hm Hin. unfold validate_job_manifest in Hm. rewrite raise_when_bind_Ok in Hm. destruct Hm as [_ Hm].
  do 4 (apply bind_Ok in Hm as (? & _ & Hm)). apply bind_Ok in Hm as (? & Hd & _).
  unfold validate_draft_step in Hd. rewrite raise_when_bind_Ok in Hd. destruct Hd as [_ Hd].
  do 2 (apply bind_Ok in Hd as (? & _ & Hd)). apply bind_Ok in Hd as (? & Hd & _).
  unfold writable_paths_are_scoped in Hd. rewrite !raise_when_bind_Ok in Hd. destruct Hd as (_ & _ & Hd).
  apply bind_Ok in Hd as (? & Hd & _). destruct (mapM_result_elem _ _ _ _ Hd Hin) as [y Hy].
  unfold validate_writable_path in Hy. apply bind_Ok in Hy as (parts & Hp & Hy).
  unfold safe_relative_parts in Hp. rewrite !raise_when_bind_Ok in Hp. destruct Hp as (_ & _ & _ & _ & Hp).
  apply bind_Ok in Hp as (? & _ & [= <-]). rewrite !raise_when_bind_Ok in Hy. destruct Hy as (H1' & H2' & _).
  bool_prop. apply Nat.ltb_ge in H3. done.
Qed.

Lemma matched_shape pattern candidate :
  Forall2 (fun e a => part_matches e a = true) pattern candidate ->
  head pattern = Some "data" -> last pattern = Some "drafts.json" ->
  head candidate = Some "data" /\ last candidate = Some "drafts.json".
Proof.
  intros Hm Hh Hl. split.
  - destruct Hm as [|e a pattern candidate Ha _]; [done|]. injection Hh as ->.
    unfold part_matches in Ha. apply orb_true_iff in Ha as [Ha|Ha]; bool_prop; [done|by subst].
  - rewrite last_lookup in Hl |- *. rewrite <- (Forall2_length _ _ _ Hm).
    destruct (Forall2_lookup_l _ _ _ _ _ Hm Hl) as (a & -> & Ha).
    unfold part_matches in Ha. apply orb_true_iff in Ha as [Ha|Ha]; bool_prop; [done|by subst].
Qed.

(** (one writable path): an instruction for the external task opens exactly
    one path: the [drafts.json] of the handoff the execution is bound to.  It
    lies below [data/] of the project, matches a path the manifest declares,
    and never lies in the private state root; and the prompt the task reads
    still has the bytes that were sealed. *)
Theorem draft_write_scope w id i :
  open_store roots = Ok roots -> draft_instruction roots w id = Ok i ->
  exists s m name prompt below,
    resume w id = Ok s /\ js_phase s = awaiting_draft /\ bound_manifest w id = Ok m
    /\ di_allowed_write_paths i = [path_text (handoff_root roots ++ [name; "drafts.json"])]
    /\ (handoff_root roots ++ [name; "drafts.json"] = project_root roots ++ below)%list
    /\ head below = Some "data" /\ last below = Some "drafts.json"
    /\ (exists pattern, pattern ∈ ds_writable (jm_draft m) /\ parts_match (split_on "/"%char pattern) below = true)
    /\ contains (state_root roots) (handoff_root roots ++ [name; "drafts.json"]) = false
    /\ (exists files job_id, js_seals s !! "job_id" = Some job_id
          /\ resolve_handoff_directory roots w job_id = Ok (name, files))
    /\ w_project w !! ds_prompt (jm_draft m) = Some prompt /\ text_sha256 prompt = js_prompt_hash s.
Proof.
  intros Hopen Hi. unfold draft_instruction in Hi. apply bind_Ok in Hi as (s & Hs & Hi).
  rewrite fail_when_bind_Ok in Hi. destruct Hi as [Hp Hi]. apply bind_Ok in Hi as (m & Hm & Hi).
  apply bind_Ok in Hi as ([[name files] request] & Hv & Hi). apply bind_Ok in Hi as (inputs & _ & Hi).
  apply bind_Ok in Hi as ([] & _ & Hi). apply bind_Ok in Hi as ([prompt where_] & Hf & Hi).
  rewrite fail_when_bind_Ok in Hi. destruct Hi as [Hph Hi]. apply bind_Ok in Hi as ([] & Hscope & Hi).
  apply bind_Ok in Hi as (seals & _ & Hi). unfold validate_instruction in Hi.
  rewrite !raise_when_bind_Ok in Hi. destruct Hi as (_ & _ & [= <-]). cbn [di_allowed_write_paths fst] in *.
  rewrite <- app_assoc in *. cbn [app] in *.
  unfold require_manifest_write_scope in Hscope.
  destruct (relative_to _ (project_root roots)) as [below|] eqn:Eb; [|done].
  apply relative_to_Some in Eb. rewrite fail_when_Ok in Hscope. apply negb_false_iff, existsb_exists in Hscope.
  destruct Hscope as (pattern & Hin%list_elem_of_In & Hmatch).
  destruct (verify_bound_request_Ok _ _ _ _ _ Hv) as (job_id & raw_hash & B1 & B2 & _).
  assert (validate_job_manifest zone_installed m = Ok m) as Hvm.
  { unfold bound_manifest in Hm. apply bind_Ok in Hm as (d & _ & Hm). apply bind_Ok in Hm as (bound & Hm & [= <-]).
    by eapply load_bound_valid. }
  destruct (writable_shape m pattern Hvm Hin) as (_ & Hh & Hl).
  destruct (matched_shape _ _ (parts_match_Forall2 _ _ Hmatch) Hh Hl) as [Hh' Hl'].
  unfold resolve_project_file in Hf. destruct (w_project w !! ds_prompt (jm_draft m)) as [raw|] eqn:Ep; [|done].
  rewrite fail_when_bind_Ok in Hf. destruct Hf as [_ [= -> _]]. bool_prop.
  exists s, m, name, prompt, below. split_and!; try done; [by exists pattern| |by exists files, job_id].
  unfold open_store in Hopen. rewrite fail_when_bind_Ok in Hopen. destruct Hopen as [Hopen _]. bool_prop.
  apply not_true_iff_false. intros Hc%contains_spec.
  destruct (prefix_weak_total (state_root roots) (handoff_root roots) _ Hc (prefix_app_r _ _ _ (reflexivity _)))
    as [Hx|Hx]; apply contains_spec in Hx; congruence.
Qed.

End Claims.

(** ** Witnesses *)

Module Witnesses.
Import JobDemo.


Lemma resume_sound_witness :
  exists d h, w_executions w3 !! id = Some d /\ last h = Some (state_at w3) /\ (length h <= 4)%nat.
Proof.
  destruct (resume_sound w3 id (state_at w3) resume_3) as (d & h & Hd & Hl & Hlen & _).
  exact (ex_intro _ d (ex_intro _ h (conj Hd (conj Hl Hlen)))).
Defined.

Definition opened : Opening :=
  mkOpening (minute_of_day 590) (canonical_hash (dump_manifest manifest)) (digits "prompt").
Definition first : JobExecutionState := seal_state (initial_state manifest key opened).

Lemma history_tamper_evident_witness : [first] = [first] /\ js_execution_id first = js_execution_id first.
Proof.
  assert (valid_directory (initial_directory manifest first) (execution_id_of (jm_name manifest) key)
            (manifest, canonical_hash (dump_manifest manifest)) [first]) as Hv.
  { apply (initial_valid manifest key opened); [exact manifest_valid|done|by_vm|apply Z.leb_le; by_vm..]. }
  apply (history_tamper_evident _ _ _ _ _ _ _ _ first first Hv Hv eq_refl eq_refl eq_refl).
  intros t t' ->%list_elem_of_singleton ->%list_elem_of_singleton _. reflexivity.
Defined.

Lemma handoff_bound_once_witness :
  exists t, resume w3 id = Ok t
    /\ forall f, f ∈ PREPARED_FIELDS -> js_seals t !! f = js_seals (state_at w2) !! f.
Proof.
  set (again := record_prepared roots alone w3 id run_id (Some (minute_of_day 800)) (minute_of_day 0)).
  destruct (steps_keep roots _ _ (rtc_refl _ w3)) as [_ _].
  destruct (handoff_bound_once roots alone w2 w3 id run_id (Some (minute_of_day 800)) (minute_of_day 0)
    (state_at w2) again.1 again.2 resume_2) as (_ & Ht & _).
  - apply (bool_decide_unpack _). vm_compute. exact I.
  - exact (proj1 (record_draft_keeps _ _ _ _ _ _ _ _ alone_fair drafted_Ok)).
  - exact resumable_3.
  - unfold again. apply surjective_pairing.
  - destruct again.1 as [t|e] eqn:E; [exact (ex_intro _ t (Ht t eq_refl))|].
    enough (is_ok again.1 = true) by (by rewrite E in *). by_vm.
Defined.

Lemma finalized_receipt_sound_witness :
  exists receipt raw, js_phase (state_of finalized) = phase_of_status (rc_status receipt)
    /\ js_seals (state_of finalized) !! "receipt_raw_hash" = Some (text_sha256 raw).
Proof.
  destruct (finalized_receipt_sound roots w3 id (Some (minute_of_day 730)) (minute_of_day 0)
    (state_of finalized) w4 resumable_3 finalized_Ok sized_4)
    as (receipt & raw & _ & _ & _ & _ & _ & _ & _ & _ & _ & Hp & _ & _ & _ & Hr & _).
  - exists (state_at w3). split; [exact resume_3|]. apply (bool_decide_unpack _). vm_compute. exact I.
  - exact (ex_intro _ receipt (ex_intro _ raw (conj Hp Hr))).
Defined.

Lemma begin_idempotent_witness :
  exists t, (begin_ roots alone w4 manifest key None (minute_of_day 900)).1 = Ok t.
Proof.
  destruct (opening roots w4 manifest key None (minute_of_day 900)) as [o|e] eqn:Eo;
    [|enough (is_ok (opening roots w4 manifest key None (minute_of_day 900)) = true) by (by rewrite Eo in *); by_vm].
  destruct (begin_idempotent roots alone w1 w4 manifest key None (minute_of_day 900) (state_at w1) _ _ o
    resume_1 (proj1 (steps_keep roots _ _ steps_1_4)) resumable_4 Eo (surjective_pairing _)) as (_ & Ht & _).
  assert (opening roots w4 manifest key None (minute_of_day 900)
    = Ok (mkOpening (minute_of_day 900) (js_manifest_hash (state_at w1)) (js_prompt_hash (state_at w1)))) as Eo' by by_vm.
  assert (o = mkOpening (minute_of_day 900) (js_manifest_hash (state_at w1)) (js_prompt_hash (state_at w1))) as ->
    by congruence.
  destruct (Ht eq_refl eq_refl) as (t & Hr & _); [by_vm|]. exact (ex_intro _ t Hr).
Defined.

Lemma draft_write_scope_witness :
  exists below, head below = Some "data" /\ last below = Some "drafts.json".
Proof.
  destruct (draft_instruction roots w2 id) as [i|e] eqn:Ei;
    [|enough (is_ok (draft_instruction roots w2 id) = true) by (by rewrite Ei in *); by_vm].
  destruct (draft_write_scope roots w2 id i eq_refl Ei) as (_ & _ & _ & _ & below & _ & _ & _ & _ & _ & Hh & Hl & _).
  exact (ex_intro _ below (conj Hh Hl)).
Defined.

End Witnesses.

End JobProps.
