(* ===== verification/JobManifestProps.v ===== *)
(** * Theorems on job manifests and their schedules

    The cron grammar that is accepted and what a field denotes; the calendar
    entries a schedule expands to; the units a renderer writes read back as the
    invocation; what a validated manifest promises to the executor. *)
From Stdlib Require Import Ascii.
From S2P Require Import Prelude PyStr PyTime Json Contracts Handoff JobManifest JobExecution.
Import PyStr PyTime Json Contracts JobManifest JobExecution.
Open Scope string_scope.
Open Scope Z_scope.

Module JobManifestProps.

(** ** Splitting and joining *)

Lemma has_byte_cons c d s : has_byte c (String d s) = Ascii.eqb c d || has_byte c s.
Proof. done. Qed.

Lemma has_byte_cons_false c d s : has_byte c (String d s) = false -> d <> c /\ has_byte c s = false.
Proof.
  rewrite has_byte_cons. destruct (Ascii.eqb_spec c d) as [|Hne]; [done|]. intros Hs. split; [|done].
  intros ->. by apply Hne.
Qed.

Lemma string_app_empty_r s : s +:+ "" = s.
Proof. induction s as [|c s IH]; [done|]. change (String c (s +:+ "") = String c s). by rewrite IH. Qed.

Lemma has_byte_app c s t : has_byte c (s +:+ t) = has_byte c s || has_byte c t.
Proof.
  induction s as [|d s IH]; [done|]. change (String d s +:+ t) with (String d (s +:+ t)).
  by rewrite !has_byte_cons, IH, orb_assoc.
Qed.

Lemma all_bytes_no_byte p c s : all_bytes p s = true -> p c = false -> has_byte c s = false.
Proof.
  unfold all_bytes. induction s as [|d s IH]; [done|]. cbn [String.list_ascii_of_string forallb].
  intros Ha Hc. bool_prop. rewrite has_byte_cons, IH by done.
  destruct (Ascii.eqb_spec c d); [congruence|done].
Qed.

Lemma split_on_nonempty sep s : split_on sep s <> [].
Proof. destruct s as [|c s]; cbn; [done|]. destruct (split_on sep s); [done|]. by destruct (Ascii.eqb c sep). Qed.

Lemma split_on_no_sep sep s : has_byte sep s = false -> split_on sep s = [s].
Proof.
  induction s as [|c s IH]; [done|]. intros [Hc Hs]%has_byte_cons_false. cbn. rewrite IH by done.
  by destruct (Ascii.eqb_spec c sep).
Qed.

Lemma split_on_app sep a b :
  has_byte sep a = false -> split_on sep (a +:+ String sep b) = a :: split_on sep b.
Proof.
  induction a as [|c a IH].
  - intros _. pose proof (split_on_nonempty sep b). change ("" +:+ String sep b) with (String sep b).
    cbn [split_on]. destruct (split_on sep b); [done|]. by rewrite Ascii.eqb_refl.
  - intros [Hc Ha]%has_byte_cons_false.
    change (String c a +:+ String sep b) with (String c (a +:+ String sep b)). cbn. rewrite IH by done.
    by destruct (Ascii.eqb_spec c sep).
Qed.

Lemma split_on_join sep l :
  l <> [] -> Forall (fun p => has_byte sep p = false) l -> split_on sep (py_join (byte_text sep) l) = l.
Proof.
  intros Hne. induction 1 as [|p l Hp Hl IH]; [done|]. destruct l as [|q l]; [by apply split_on_no_sep|].
  change (py_join _ (p :: q :: l)) with (p +:+ String sep (py_join (byte_text sep) (q :: l))).
  rewrite split_on_app by done. by rewrite IH.
Qed.

Lemma join_split_on sep s : py_join (byte_text sep) (split_on sep s) = s.
Proof.
  induction s as [|c s IH]; [done|]. cbn. pose proof (split_on_nonempty sep s).
  destruct (split_on sep s) as [|p l]; [done|]. destruct (Ascii.eqb_spec c sep) as [->|].
  - change (String sep (py_join (byte_text sep) (p :: l)) = String sep s). by rewrite IH.
  - rewrite <- IH. by destruct l.
Qed.

Lemma split_on_parts sep s : Forall (fun p => has_byte sep p = false) (split_on sep s).
Proof.
  induction s as [|c s IH]; cbn; [by repeat constructor|].
  destruct (split_on sep s) as [|p l]; [by repeat constructor|]. apply Forall_cons in IH as [Hp Hl].
  destruct (Ascii.eqb_spec c sep) as [->|Hc]; [by repeat constructor|].
  constructor; [|done]. rewrite has_byte_cons, Hp. by destruct (Ascii.eqb_spec sep c) as [->|].
Qed.

Lemma split_on_two sep s a b :
  split_on sep s = [a; b] ->
  s = a +:+ String sep b /\ has_byte sep a = false /\ has_byte sep b = false.
Proof.
  intros E. pose proof (join_split_on sep s) as Hj. pose proof (split_on_parts sep s) as Hp.
  rewrite E in Hj, Hp. apply Forall_cons in Hp as [Ha Hp]. apply Forall_cons in Hp as [Hb _]. by subst s.
Qed.

Lemma split_on_one sep s a : split_on sep s = [a] -> s = a /\ has_byte sep a = false.
Proof.
  intros E. pose proof (join_split_on sep s) as Hj. pose proof (split_on_parts sep s) as Hp.
  rewrite E in Hj, Hp. apply Forall_cons in Hp as [Ha _]. by subst s.
Qed.

(** ** The cron grammar *)

(** An item of a cron field as it is written: digits are texts. *)
Inductive Item :=
  | Every (step : option string)
  | Value (n : string) (step : option string)
  | Range (a b : string) (step : option string).

Definition spell_step (step : option string) : string :=
  match step with None => "" | Some k => "/" +:+ k end.

Definition item_base (i : Item) : string :=
  match i with Every _ => "*" | Value n _ => n | Range a b _ => a +:+ "-" +:+ b end.
Definition item_step (i : Item) : option string :=
  match i with Every s | Value _ s | Range _ _ s => s end.
Definition spell (i : Item) : string := item_base i +:+ spell_step (item_step i).

Definition step_value (step : option string) : Z := match step with None => 1 | Some k => int_of k end.

Definition step_ok (step : option string) : Prop :=
  match step with None => True | Some k => isdigit k = true /\ 1 <= int_of k end.

(** The first and last value of an item in a field from [lo] to [hi]. *)
Definition item_first (lo : Z) (i : Item) : Z :=
  match i with Every _ => lo | Value n _ | Range n _ _ => int_of n end.
Definition item_last (hi : Z) (i : Item) : Z :=
  match i with Every _ => hi | Value n _ | Range _ n _ => int_of n end.

Definition item_ok (lo hi : Z) (i : Item) : Prop :=
  step_ok (item_step i) /\ lo <= item_first lo i <= item_last hi i /\ item_last hi i <= hi
  /\ match i with
     | Every _ => True
     | Value n s => isdigit n = true /\ step_value s = 1
     | Range a b _ => isdigit a = true /\ isdigit b = true
     end.

(** What an item denotes: every [step]-th value from its first to its last. *)
Definition denotes (lo hi : Z) (i : Item) (v : Z) : Prop :=
  item_first lo i <= v <= item_last hi i /\ (step_value (item_step i) | v - item_first lo i).

Definition spells (items : list Item) (token : string) : Prop :=
  items <> [] /\ token = py_join "," (spell <$> items).

Lemma isdigit_no_byte c s : isdigit s = true -> is_digit c = false -> has_byte c s = false.
Proof. unfold isdigit. intros Hs Hc. bool_prop. by eapply all_bytes_no_byte. Qed.

Lemma isdigit_nonempty s : isdigit s = true -> s <> "".
Proof. by intros Hs ->. Qed.

Lemma py_range_elem start stop step v :
  1 <= step -> start <= stop ->
  v ∈ py_range start stop step <-> start <= v <= stop /\ (step | v - start).
Proof.
  intros Hs Hb. unfold py_range. rewrite list_elem_of_fmap. setoid_rewrite elem_of_seqZ. split.
  - intros (k & -> & Hk). pose proof (Z.mul_div_le (stop - start) step). split; [nia|].
    exists k. lia.
  - intros [Hv [k Hk]]. exists k. split; [lia|]. split; [nia|].
    assert (k <= (stop - start) / step); [|lia]. apply Z.div_le_lower_bound; nia.
Qed.

Definition item_values (lo hi : Z) (i : Item) : list Z :=
  py_range (item_first lo i) (item_last hi i) (step_value (item_step i)).

Lemma step_value_pos s : step_ok s -> 1 <= step_value s.
Proof. destruct s; cbn; [tauto|lia]. Qed.

Lemma item_values_elem lo hi i v :
  item_ok lo hi i -> v ∈ item_values lo hi i <-> denotes lo hi i v.
Proof. intros (Hs & [_ Hb] & _). apply py_range_elem; [by apply step_value_pos|done]. Qed.

(** The text of an item splits into its base and its step. *)
Lemma item_base_no_slash lo hi i : item_ok lo hi i -> has_byte "/"%char (item_base i) = false.
Proof.
  intros (_ & _ & _ & Hi). destruct i as [|n|a b]; cbn [item_base]; [done| |]; destruct Hi as [Ha Hb].
  - by apply isdigit_no_byte.
  - by rewrite !has_byte_app, (isdigit_no_byte _ a), (isdigit_no_byte _ b) by done.
Qed.

Lemma item_base_nonempty lo hi i : item_ok lo hi i -> (item_base i =? "")%string = false.
Proof.
  intros (_ & _ & _ & Hi). apply String.eqb_neq. destruct i as [|n|a b]; cbn [item_base]; [done| |].
  - apply isdigit_nonempty, Hi.
  - destruct a; [by destruct Hi|done].
Qed.

Lemma split_cron_step_Ok item label base step :
  split_cron_step item label = Ok (base, step) <->
  exists s, item = base +:+ spell_step s /\ base <> "" /\ has_byte "/"%char base = false
    /\ step_ok s /\ step = step_value s.
Proof.
  unfold split_cron_step. split.
  - intros Hs. destruct (split_on "/"%char item) as [|x [|y [|z l]]] eqn:E; try done.
    + rewrite raise_when_bind_Ok in Hs. destruct Hs as [Hx [= -> <-]]. bool_prop.
      apply split_on_one in E as [-> Hb]. exists None. cbn. by rewrite string_app_empty_r.
    + rewrite !raise_when_bind_Ok in Hs. destruct Hs as (Hx & Hy & [= -> <-]). bool_prop.
      apply split_on_two in E as (-> & Hb & _). exists (Some y). cbn. done.
  - intros (s & -> & Hb & Hn & Hok & ->). apply String.eqb_neq in Hb. destruct s as [k|]; cbn [spell_step].
    + destruct Hok as [Hd Hk]. change ("/" +:+ k) with (String "/" k).
      rewrite split_on_app, split_on_no_sep by (try done; by apply isdigit_no_byte). rewrite Hb, Hd. cbn.
      by rewrite (proj2 (Z.ltb_ge _ _)).
    + rewrite string_app_empty_r, split_on_no_sep by done. by rewrite Hb.
Qed.

(** The accepted items are exactly the well-formed ones. *)
Lemma cron_item_Ok lo hi label item l :
  lo <= hi ->
  cron_item lo hi label item = Ok l <->
  exists i, item = spell i /\ item_ok lo hi i /\ l = item_values lo hi i.
Proof.
  intros Hlo. unfold cron_item. split.
  - rewrite raise_when_bind_Ok. intros [_ Hc]. apply bind_Ok in Hc as ([base step] & Hs & Hc). cbn [fst snd] in Hc.
    apply bind_Ok in Hc as ([start stop] & Hb & Hc). rewrite raise_when_bind_Ok in Hc.
    destruct Hc as [Hr [= <-]]. bool_prop. apply split_cron_step_Ok in Hs as (s & -> & Hne & Hns & Hok & ->).
    unfold item_bounds in Hb. destruct (base =? "*")%string eqn:Es; [bool_prop; subst|].
    { injection Hb as <- <-. exists (Every s). unfold item_ok, item_values. cbn. split_and!; try done; lia. }
    destruct (has_byte "-" base) eqn:Ed.
    + destruct (split_on "-" base) as [|a [|b [|]]] eqn:E; try done.
      rewrite raise_when_bind_Ok in Hb. destruct Hb as [Hd [= <- <-]]. bool_prop.
      apply split_on_two in E as (-> & _ & _). exists (Range a b s). unfold item_ok, item_values, spell. cbn.
      split_and!; try done; lia.
    + destruct (isdigit base && (step_value s =? 1)) eqn:E; [|done]. injection Hb as <- <-. bool_prop.
      exists (Value base s). unfold item_ok, item_values, spell. cbn. split_and!; try done; lia.
  - intros (i & -> & Hi & ->). pose proof (item_base_nonempty _ _ _ Hi) as Hne.
    pose proof (item_base_no_slash _ _ _ Hi) as Hns. pose proof Hi as (Hok & [Hf Hl] & Hh & Hshape).
    rewrite raise_when_bind_Ok. split.
    { unfold spell. destruct (item_base i) eqn:E; [by rewrite String.eqb_refl in Hne|done]. }
    apply bind_Ok. exists (item_base i, step_value (item_step i)). split.
    { apply split_cron_step_Ok. exists (item_step i). apply String.eqb_neq in Hne. done. }
    cbn [fst snd]. apply bind_Ok. exists (item_first lo i, item_last hi i). split.
    + unfold item_bounds. destruct i as [s|n s|a b s]; cbn [item_base item_step item_first item_last]; [done| |].
      * destruct Hshape as [Hd H1]. destruct (String.eqb_spec n "*") as [->|_]; [done|].
        rewrite (isdigit_no_byte "-"%char), Hd, H1 by done. done.
      * destruct Hshape as [Ha Hb']. change ("-" +:+ b) with (String "-"%char b). destruct (String.eqb_spec (a +:+ String "-" b) "*") as [E|_].
        { destruct a as [|c a]; [done|]. injection E as -> E. by destruct a. }
        rewrite has_byte_app, has_byte_cons, orb_true_r.
        rewrite split_on_app, split_on_no_sep by by apply isdigit_no_byte. by rewrite Ha, Hb'.
    + rewrite raise_when_bind_Ok. split; [|done].
      rewrite !orb_false_iff, !Z.ltb_ge. lia.
Qed.

(** ** Fields *)

Lemma all_bytes_app p s t : all_bytes p (s +:+ t) = all_bytes p s && all_bytes p t.
Proof.
  unfold all_bytes. induction s as [|c s IH]; [done|].
  change (String c s +:+ t) with (String c (s +:+ t)). cbn. by rewrite IH, andb_assoc.
Qed.

Lemma isdigit_bytes (p : ascii -> bool) s :
  isdigit s = true -> (forall c, is_digit c = true -> p c = true) -> all_bytes p s = true.
Proof.
  unfold isdigit. intros Hs Hp. bool_prop. unfold all_bytes in *. rewrite forallb_forall in *. auto.
Qed.

Lemma digit_field_byte c : is_digit c = true -> field_byte c = true.
Proof. destruct c as [[] [] [] [] [] [] [] []]; cbn; done. Qed.

Lemma digits_field_bytes s : isdigit s = true -> all_bytes field_byte s = true.
Proof. intros Hs. apply isdigit_bytes; [done|exact digit_field_byte]. Qed.

Lemma spell_bytes lo hi i : item_ok lo hi i -> all_bytes field_byte (spell i) = true.
Proof.
  intros (Hs & _ & _ & Hi). unfold spell. rewrite all_bytes_app. apply andb_true_iff. split.
  - destruct i as [|n|a b]; cbn [item_base]; [done| |]; destruct Hi as [Ha Hb].
    + by apply digits_field_bytes.
    + by rewrite !all_bytes_app, (digits_field_bytes a), (digits_field_bytes b).
  - destruct (item_step i) as [k|]; [|done]. cbn [spell_step]. destruct Hs as [Hk _].
    by rewrite all_bytes_app, (digits_field_bytes k).
Qed.

Lemma spell_no_comma lo hi i : item_ok lo hi i -> has_byte ","%char (spell i) = false.
Proof.
  intros (Hs & _ & _ & Hi). unfold spell. rewrite has_byte_app. apply orb_false_iff. split.
  - destruct i as [|n|a b]; cbn [item_base]; [done| |]; destruct Hi as [Ha Hb].
    + by apply isdigit_no_byte.
    + by rewrite !has_byte_app, (isdigit_no_byte _ a), (isdigit_no_byte _ b).
  - destruct (item_step i) as [k|]; [|done]. cbn [spell_step]. destruct Hs as [Hk _].
    by rewrite has_byte_app, (isdigit_no_byte _ k).
Qed.

Lemma spelled_split lo hi items token :
  spells items token -> Forall (item_ok lo hi) items -> split_on ","%char token = spell <$> items.
Proof.
  intros [Hne ->] Hok. apply split_on_join; [by destruct items|].
  apply Forall_fmap. eapply Forall_impl; [exact Hok|]. intros i Hi. by eapply spell_no_comma.
Qed.

Lemma spelled_bytes lo hi items token :
  spells items token -> Forall (item_ok lo hi) items ->
  (token =? "")%string || negb (all_bytes field_byte token) = false.
Proof.
  intros [Hne ->] Hok. apply orb_false_iff. split.
  - destruct Hok as [|i items Hi Hok]; [done|]. pose proof (item_base_nonempty _ _ _ Hi) as Hb.
    assert (spell i <> "") as Hs.
    { unfold spell. destruct (item_base i); [by rewrite String.eqb_refl in Hb|done]. }
    rewrite fmap_cons. destruct (spell i); [done|]. by destruct (spell <$> items).
  - apply negb_false_iff. clear Hne. induction Hok as [|i items Hi Hok IH]; [done|].
    rewrite fmap_cons. destruct items as [|j items]; [by eapply spell_bytes|].
    change (all_bytes field_byte (spell i +:+ ("," +:+ py_join "," (spell <$> j :: items))) = true).
    rewrite !all_bytes_app, IH, (spell_bytes lo hi i) by done. done.
Qed.

(** The items of an accepted token. *)
Lemma cron_items_Ok lo hi label texts values :
  lo <= hi -> mapM_result (cron_item lo hi label) texts = Ok values <->
  exists items, texts = spell <$> items /\ Forall (item_ok lo hi) items /\ values = item_values lo hi <$> items.
Proof.
  intros Hlo. rewrite mapM_result_Ok. split.
  - induction 1 as [|t v texts values Ht _ (items & -> & Hok & ->)].
    + exists []. done.
    + apply (cron_item_Ok lo hi label t v Hlo) in Ht as (i & -> & Hi & ->). exists (i :: items).
      split; [done|]. by split; [constructor|].
  - intros (items & -> & Hok & ->). induction Hok as [|i items Hi Hok IH]; constructor; [|done].
    apply cron_item_Ok; eauto.
Qed.

Definition weekday_value (normalize : bool) (v : Z) : Z := if normalize && (v =? 7) then 0 else v.

(** The values a field can take: 7 is another name of 0 for a weekday. *)
Definition in_field (lo hi : Z) (normalize : bool) (v : Z) : Prop :=
  if normalize then 0 <= v < 7 else lo <= v <= hi.

Definition field_values (lo hi : Z) (normalize : bool) (items : list Item) (v : Z) : Prop :=
  exists i u, i ∈ items /\ denotes lo hi i u /\ v = weekday_value normalize u.

Lemma field_values_in lo hi normalize items v :
  Forall (item_ok lo hi) items -> (normalize = true -> lo = 0 /\ hi = 7) ->
  field_values lo hi normalize items v -> in_field lo hi normalize v.
Proof.
  intros Hok Hn (i & u & Hi & [Hu _] & ->). rewrite Forall_forall in Hok.
  destruct (Hok i Hi) as (_ & [Hf _] & Hl & _). unfold weekday_value, in_field. destruct normalize; cbn; [|lia].
  destruct (Hn eq_refl) as [-> ->]. destruct (Z.eqb_spec u 7); lia.
Qed.

(** The set the parser builds. *)
Definition parsed_values (normalize : bool) (l : list (list Z)) : gset Z :=
  let values : gset Z := list_to_set (concat l) in
  if normalize then set_map (fun v => if v =? 7 then 0 else v) values else values.

Lemma parsed_values_elem lo hi normalize items v :
  Forall (item_ok lo hi) items ->
  v ∈ parsed_values normalize (item_values lo hi <$> items) <-> field_values lo hi normalize items v.
Proof.
  intros Hok. rewrite Forall_forall in Hok.
  assert (forall u, u ∈ (list_to_set (concat (item_values lo hi <$> items)) : gset Z)
                    <-> exists i, i ∈ items /\ denotes lo hi i u) as Hc.
  { intros u. rewrite elem_of_list_to_set, list_elem_of_In, in_concat. split.
    - intros (l & Hl & Hu). apply list_elem_of_In, list_elem_of_fmap in Hl as (i & -> & Hi).
      exists i. split; [done|]. apply item_values_elem; [auto|]. by apply list_elem_of_In.
    - intros (i & Hi & Hd). exists (item_values lo hi i). split.
      + apply list_elem_of_In, list_elem_of_fmap. eauto.
      + apply list_elem_of_In, item_values_elem; auto. }
  unfold parsed_values, field_values, weekday_value. destruct normalize; cbn.
  - rewrite elem_of_map. setoid_rewrite Hc. naive_solver.
  - rewrite Hc. naive_solver.
Qed.

Definition full_values (lo hi : Z) (normalize : bool) : gset Z :=
  list_to_set (if normalize then seqZ 0 7 else seqZ lo (hi - lo + 1)).

Lemma full_values_elem lo hi normalize v : v ∈ full_values lo hi normalize <-> in_field lo hi normalize v.
Proof. unfold full_values, in_field. rewrite elem_of_list_to_set. destruct normalize; rewrite elem_of_seqZ; lia. Qed.

Lemma parse_cron_field_eq token lo hi label normalize :
  parse_cron_field token lo hi label normalize
  = if (token =? "*")%string then Ok None
    else
      raise_when ((token =? "")%string || negb (all_bytes field_byte token)) ValueError
        ("schedule " +:+ label +:+ " field contains unsupported syntax") ;;
      items ← mapM_result (cron_item lo hi label) (split_on ","%char token);
      if bool_decide (parsed_values normalize items = full_values lo hi normalize) then Ok None
      else Ok (Some (merge_sort Z.le (elements (parsed_values normalize items)))).
Proof. done. Qed.

Lemma sorted_elements (X : gset Z) :
  StronglySorted Z.lt (merge_sort Z.le (elements X)) /\ forall v, v ∈ merge_sort Z.le (elements X) <-> v ∈ X.
Proof.
  assert (merge_sort Z.le (elements X) ≡ₚ elements X) as Hp by apply merge_sort_Permutation.
  split; [|intros v; by rewrite Hp, elem_of_elements].
  assert (StronglySorted Z.le (merge_sort Z.le (elements X))) as Hs by (apply (StronglySorted_merge_sort _); lia).
  assert (NoDup (merge_sort Z.le (elements X))) as Hnd by (rewrite Hp; apply NoDup_elements).
  clear Hp. induction Hs as [|a l Hs IH Ha]; [constructor|]. apply NoDup_cons in Hnd as [Hn Hnd]. constructor; [auto|].
  rewrite Forall_forall in Ha |- *. intros b Hb. specialize (Ha b Hb).
  assert (a <> b) by (by intros ->). lia.
Qed.

(** (the cron grammar): a field is accepted exactly when it is a comma
    separated list of [*], numbers and ranges with positive steps inside the
    field's bounds; and what is parsed is what the items denote: the strictly
    sorted values, or no restriction exactly when they cover the field, where
    weekday 7 is another name of 0. *)
Theorem cron_field_grammar token lo hi label normalize :
  lo <= hi -> (normalize = true -> lo = 0 /\ hi = 7) ->
  ((exists f, parse_cron_field token lo hi label normalize = Ok f)
    <-> exists items, spells items token /\ Forall (item_ok lo hi) items)
  /\ forall f items,
      parse_cron_field token lo hi label normalize = Ok f -> spells items token -> Forall (item_ok lo hi) items ->
      match f with
      | None => forall v, in_field lo hi normalize v <-> field_values lo hi normalize items v
      | Some l => StronglySorted Z.lt l /\ (forall v, v ∈ l <-> field_values lo hi normalize items v)
                  /\ exists v, in_field lo hi normalize v /\ ~ field_values lo hi normalize items v
      end.
Proof.
  intros Hlo Hn. rewrite parse_cron_field_eq. split; [split|].
  - intros [f Hf]. destruct (String.eqb_spec token "*") as [->|_].
    + exists [Every None]. split; [done|]. repeat constructor; cbn; lia.
    + rewrite raise_when_bind_Ok in Hf. destruct Hf as [_ Hf]. apply bind_Ok in Hf as (values & Hv & _).
      apply cron_items_Ok in Hv as (items & Hs & Hok & _); [|done]. exists items. split; [|done]. split.
      * intros ->. by apply (split_on_nonempty "," token).
      * rewrite <- Hs. symmetry. apply (join_split_on ","%char).
  - intros (items & Hs & Hok). destruct (token =? "*")%string; [eauto|].
    rewrite (spelled_bytes _ _ _ _ Hs Hok), (spelled_split _ _ _ _ Hs Hok). cbn [raise_when].
    rewrite (proj2 (cron_items_Ok lo hi label (spell <$> items) (item_values lo hi <$> items) Hlo)) by eauto.
    cbn. case_bool_decide; eauto.
  - intros f items Hf Hs Hok. pose proof (spelled_split _ _ _ _ Hs Hok) as Hsplit.
    assert (mapM_result (cron_item lo hi label) (spell <$> items) = Ok (item_values lo hi <$> items)) as Hm
      by (apply cron_items_Ok; eauto).
    assert (parsed_values normalize (item_values lo hi <$> items) = full_values lo hi normalize ->
            forall v, in_field lo hi normalize v <-> field_values lo hi normalize items v) as Hfull.
    { intros E v. by rewrite <- parsed_values_elem, E, full_values_elem. }
    destruct (String.eqb_spec token "*") as [->|_].
    + injection Hf as <-. intros v. split; [|by apply field_values_in].
      assert (cron_item lo hi label "*" = Ok (py_range lo hi 1)) as H1.
      { cbn. by rewrite !(proj2 (Z.ltb_ge _ _)). }
      change (["*"] = spell <$> items) in Hsplit. rewrite <- Hsplit in Hm.
      cbn [mapM_result] in Hm. rewrite H1 in Hm. cbn in Hm. injection Hm as Hm.
      destruct items as [|i [|]]; try done. injection Hm as Hm. apply Forall_cons in Hok as [Hok _].
      intros Hv. assert (lo <= v <= hi /\ weekday_value normalize v = v) as [Hr Hw].
      { unfold in_field, weekday_value in *. destruct normalize; [destruct (Hn eq_refl) as [-> ->]|done]. cbn.
        destruct (Z.eqb_spec v 7); lia. }
      exists i, v. split; [by apply list_elem_of_singleton|]. split; [|done].
      apply (item_values_elem lo hi i v Hok). rewrite <- Hm. apply py_range_elem; [lia|lia|]. split; [lia|].
      apply Z.divide_1_l.
    + rewrite raise_when_bind_Ok, Hsplit, Hm in Hf. destruct Hf as [_ Hf]. cbn in Hf.
      case_bool_decide as E; injection Hf as <-; [by apply Hfull|].
      destruct (sorted_elements (parsed_values normalize (item_values lo hi <$> items))) as [S1 S2].
      split; [done|]. split; [intros v; by rewrite S2, parsed_values_elem|].
      destruct (set_choose_or_empty (full_values lo hi normalize ∖ parsed_values normalize (item_values lo hi <$> items)))
        as [[v Hv]|He].
      * apply elem_of_difference in Hv as [Hv1 Hv2]. exists v. rewrite full_values_elem in Hv1.
        by rewrite parsed_values_elem in Hv2.
      * destruct E. apply set_eq. intros v. split.
        -- rewrite parsed_values_elem, full_values_elem by done. by apply field_values_in.
        -- intros Hv. destruct (decide (v ∈ parsed_values normalize (item_values lo hi <$> items))); [done|]. set_solver.
Qed.

Lemma cron_field_grammar_witness :
  let items := [Range "9" "17" (Some "4"); Value "30" None] in
  parse_cron_field "9-17/4,30" 0 59 "minute" false = Ok (Some [9; 13; 17; 30])
  /\ forall v, v ∈ [9; 13; 17; 30] <-> field_values 0 59 false items v.
Proof.
  intros items. assert (0 <= 59) as Hlo by lia.
  assert (parse_cron_field "9-17/4,30" 0 59 "minute" false = Ok (Some [9; 13; 17; 30])) as Hp by by_vm.
  destruct (cron_field_grammar "9-17/4,30" 0 59 "minute" false Hlo ltac:(done)) as [_ Hv].
  assert (Forall (item_ok 0 59) items) as Hok by (repeat constructor; vm_compute; congruence).
  destruct (Hv (Some [9; 13; 17; 30]) items Hp ltac:(by split) Hok) as (_ & Hd & _). exact (conj Hp Hd).
Defined.

(** ** Schedules *)

(** A minute of the calendar; Sunday is weekday 0. *)
Record Instant := mkInstant { in_minute : Z; in_hour : Z; in_day : Z; in_month : Z; in_weekday : Z }.

Definition instant_fields (t : Instant) : list Z :=
  [in_minute t; in_hour t; in_day t; in_month t; in_weekday t].

Definition field_admits (f : CronField) (v : Z) : Prop :=
  match f with None => True | Some l => v ∈ l end.

(** The schedule fires at [t]. *)
Definition cron_admits (c : CronExpression) (t : Instant) : Prop :=
  Forall2 field_admits (cron_fields c) (instant_fields t).

Definition fits (v : option Z) (x : Z) : Prop := match v with None => True | Some y => x = y end.

(** A calendar entry covers [t]. *)
Definition entry_admits (e : list (option Z)) (t : Instant) : Prop := Forall2 fits e (instant_fields t).

Definition pool (f : CronField) : list (option Z) := match f with Some l => Some <$> l | None => [None] end.

Lemma combinations_pools c : combinations c = product (pool <$> cron_fields c).
Proof. done. Qed.

Lemma pool_fits f v : (exists o, o ∈ pool f /\ fits o v) <-> field_admits f v.
Proof.
  destruct f as [l|]; cbn.
  - setoid_rewrite list_elem_of_fmap. split; [|intros Hv; exists (Some v); split; [by exists v|done]].
    intros (o & (y & -> & Hy) & Hv). by rewrite Hv.
  - split; [done|]. intros _. exists None. by rewrite list_elem_of_singleton.
Qed.

Lemma pool_unique f o o' v : o ∈ pool f -> o' ∈ pool f -> fits o v -> fits o' v -> o = o'.
Proof.
  destruct f as [l|]; cbn; rewrite ?list_elem_of_fmap, ?list_elem_of_singleton.
  - intros (y & -> & _) (y' & -> & _). cbn. congruence.
  - congruence.
Qed.

(** The fields of a schedule have no repeated values and some value. *)
Definition field_ok (f : CronField) : Prop :=
  match f with None => True | Some l => NoDup l /\ l <> [] end.

Lemma pool_NoDup f : field_ok f -> NoDup (pool f).
Proof.
  destruct f as [l|]; cbn; [|intros _; apply NoDup_singleton]. intros [Hl _]. apply NoDup_fmap_2; [|done].
  by intros x y [= ->].
Qed.

Lemma product_elem {A} (pools : list (list A)) e : e ∈ product pools <-> Forall2 (fun x p => x ∈ p) e pools.
Proof.
  revert e. induction pools as [|p pools IH]; intros e; cbn [product].
  - rewrite list_elem_of_singleton. split; [by intros ->|by inversion 1].
  - rewrite list_elem_of_bind. setoid_rewrite list_elem_of_fmap. setoid_rewrite IH. split.
    + intros (x & (e' & -> & He) & Hx). by constructor.
    + inversion 1; subst. eauto.
Qed.

Lemma product_NoDup {A} (pools : list (list A)) : Forall NoDup pools -> NoDup (product pools).
Proof.
  induction 1 as [|p pools Hp _ IH]; cbn [product]; [apply NoDup_singleton|].
  induction Hp as [|x p Hx Hp IHp]; cbn; [constructor|]. apply NoDup_app. split_and!.
  - apply NoDup_fmap_2; [by intros ? ? [= ->]|done].
  - intros e (e' & -> & _)%list_elem_of_fmap Hin. apply list_elem_of_bind in Hin as (y & Hy & Hin).
    apply list_elem_of_fmap in Hy as (e'' & [= <- <-] & _). done.
  - done.
Qed.

Lemma product_length {A} (pools : list (list A)) :
  length (product pools) = foldr (fun p n => length p * n)%nat 1%nat pools.
Proof.
  induction pools as [|p pools IH]; [done|]. cbn [product foldr]. rewrite <- IH. clear IH.
  induction p as [|x p IH]; [done|]. cbn. rewrite length_app, length_fmap. by rewrite <- IH.
Qed.

Lemma expansion_count_length c : Z.of_nat (length (combinations c)) = expansion_count c.
Proof.
  assert (forall f, Z.of_nat (length (pool f)) = match f with Some l => Z.of_nat (length l) | None => 1 end) as Hp.
  { intros [l|]; cbn; [by rewrite length_fmap|done]. }
  rewrite combinations_pools, product_length. unfold expansion_count, cron_fields. cbn [fmap list_fmap foldr fold_left].
  rewrite !Nat2Z.inj_mul, !Hp. change (Z.of_nat 1) with 1. ring.
Qed.

(** The entries of a schedule cover its times, each by exactly one entry. *)
Lemma entries_cover c t :
  cron_admits c t <-> exists e, e ∈ combinations c /\ entry_admits e t.
Proof.
  unfold cron_admits, entry_admits. rewrite combinations_pools. setoid_rewrite product_elem.
  generalize (cron_fields c) (instant_fields t). intros fs vs. split.
  - induction 1 as [|f v fs vs Hf _ (e & He1 & He2)]; [by exists []|].
    apply pool_fits in Hf as (o & Ho & Hv). exists (o :: e). by split; constructor.
  - intros (e & He1 & He2). revert e He1 vs He2. induction fs as [|f fs IH]; intros e He1 vs He2.
    + inversion He1; subst. inversion He2; subst. constructor.
    + inversion He1; subst. inversion He2; subst. constructor; [|by eapply IH]. apply pool_fits. eauto.
Qed.

Lemma entries_exclusive c t e e' :
  e ∈ combinations c -> e' ∈ combinations c -> entry_admits e t -> entry_admits e' t -> e = e'.
Proof.
  unfold entry_admits. rewrite combinations_pools, !product_elem. generalize (instant_fields t).
  generalize (cron_fields c). intros fs vs He. revert e' vs.
  remember (pool <$> fs) as ps eqn:Eps. revert fs Eps.
  induction He as [|o p e ps Ho He IH]; intros fs Eps e' vs He' Hv Hv'.
  - by inversion He'.
  - destruct fs as [|f fs]; [done|]. injection Eps as -> ->. inversion He'; subst. inversion Hv; subst.
    inversion Hv'; subst. f_equal; [by eapply pool_unique|by eapply IH].
Qed.

(** ** What a parsed schedule promises *)

Lemma spelled_items token lo hi label normalize f :
  lo <= hi -> parse_cron_field token lo hi label normalize = Ok f ->
  exists items, f = None \/ exists l, f = Some l /\ Forall (item_ok lo hi) items /\ items <> []
    /\ l = merge_sort Z.le (elements (parsed_values normalize (item_values lo hi <$> items))).
Proof.
  intros Hlo. rewrite parse_cron_field_eq. destruct (token =? "*")%string; [intros [= <-]; exists []; eauto|].
  rewrite raise_when_bind_Ok. intros [_ Hf]. apply bind_Ok in Hf as (values & Hv & Hf).
  apply cron_items_Ok in Hv as (items & Hs & Hok & ->); [|done]. exists items.
  case_bool_decide; injection Hf as <-; [eauto|]. right. eexists. split_and!; try done.
  intros ->. by apply (split_on_nonempty "," token).
Qed.

(** Every field of a parsed schedule is sorted, not empty and in its bounds. *)
Definition field_sound (lo hi : Z) (f : CronField) : Prop :=
  match f with None => True | Some l => StronglySorted Z.lt l /\ l <> [] /\ Forall (fun v => lo <= v <= hi) l end.

Lemma parse_cron_field_sound token lo hi label normalize f :
  lo <= hi -> (normalize = true -> lo = 0 /\ hi = 7) ->
  parse_cron_field token lo hi label normalize = Ok f ->
  field_sound lo (if normalize then 6 else hi) f.
Proof.
  intros Hlo Hn Hf. destruct (spelled_items _ _ _ _ _ _ Hlo Hf) as (items & [->|(l & -> & Hok & Hne & ->)]); [done|].
  destruct (sorted_elements (parsed_values normalize (item_values lo hi <$> items))) as [S1 S2].
  split; [done|]. split.
  - destruct items as [|i items]; [done|]. intros E.
    assert (exists u, denotes lo hi i u) as [u Hu].
    { apply Forall_cons in Hok as [(_ & Hb & _) _]. exists (item_first lo i). split; [lia|].
      rewrite Z.sub_diag. apply Z.divide_0_r. }
    assert (weekday_value normalize u ∈ merge_sort Z.le (elements (parsed_values normalize (item_values lo hi <$> i :: items)))) as Hin.
    { apply S2, parsed_values_elem; [done|]. exists i, u. split; [left|done]. }
    rewrite E in Hin. by apply not_elem_of_nil in Hin.
  - rewrite Forall_forall. intros v Hv%S2. rewrite parsed_values_elem in Hv by done.
    apply field_values_in in Hv; [|done..]. unfold in_field in Hv. destruct normalize; [|done].
    destruct (Hn eq_refl) as [-> _]. lia.
Qed.

Record cron_sound (c : CronExpression) : Prop := {
  cs_minutes : field_sound 0 59 (cr_minutes c);
  cs_hours : field_sound 0 23 (cr_hours c);
  cs_days : field_sound 1 31 (cr_days c);
  cs_months : field_sound 1 12 (cr_months c);
  cs_weekdays : field_sound 0 6 (cr_weekdays c);
  cs_exclusive : cr_days c = None \/ cr_weekdays c = None;
  cs_bound : expansion_count c <= MAX_SCHEDULE_EXPANSIONS }.

Lemma parse_cron_sound expression c : parse_cron expression = Ok c -> cron_sound c.
Proof.
  unfold parse_cron. rewrite raise_when_bind_Ok. intros [_ Hc].
  destruct (py_split expression) as [|f0 [|f1 [|f2 [|f3 [|f4 [|]]]]]]; try done.
  apply bind_Ok in Hc as (mi & H0 & Hc). apply bind_Ok in Hc as (ho & H1 & Hc). apply bind_Ok in Hc as (da & H2 & Hc).
  apply bind_Ok in Hc as (mo & H3 & Hc). apply bind_Ok in Hc as (we & H4 & Hc).
  rewrite !raise_when_bind_Ok in Hc. destruct Hc as (Hx & Hb & [= <-]). split; cbn.
  - by apply (parse_cron_field_sound f0 0 59 "minute" false); [lia..|].
  - by apply (parse_cron_field_sound f1 0 23 "hour" false); [lia..|].
  - by apply (parse_cron_field_sound f2 1 31 "day" false); [lia..|].
  - by apply (parse_cron_field_sound f3 1 12 "month" false); [lia..|].
  - by apply (parse_cron_field_sound f4 0 7 "weekday" true); [lia..|].
  - destruct da, we; auto; done.
  - by apply Z.ltb_ge in Hb.
Qed.

Lemma field_sound_ok lo hi f : field_sound lo hi f -> field_ok f.
Proof.
  destruct f as [l|]; [|done]. intros (Hs & Hne & _). split; [|done].
  induction Hs as [|a l Hs IH Ha]; constructor.
  - rewrite Forall_forall in Ha. intros Hin. apply Ha in Hin. lia.
  - destruct (decide (l = [])) as [->|]; [constructor|auto].
Qed.

Lemma cron_sound_fields c : cron_sound c -> Forall field_ok (cron_fields c).
Proof.
  intros []. unfold cron_fields.
  repeat (constructor; [by eapply field_sound_ok|]). constructor.
Qed.

Lemma expansion_count_pos c : cron_sound c -> 1 <= expansion_count c.
Proof.
  intros Hc%cron_sound_fields. rewrite <- expansion_count_length.
  assert (combinations c <> []); [|destruct (combinations c); cbn; [done|lia]].
  rewrite combinations_pools. revert Hc. generalize (cron_fields c). intros fs Hc.
  assert (exists e, e ∈ product (pool <$> fs)) as [e He]; [|intros E; rewrite E in He; by apply not_elem_of_nil in He].
  setoid_rewrite product_elem. induction Hc as [|f fs Hf _ (e & He)]; [by exists []|].
  assert (exists o, o ∈ pool f) as [o Ho].
  { destruct f as [[|v l]|]; [by destruct Hf|exists (Some v)|exists None]; cbn; left. }
  exists (o :: e). by constructor.
Qed.

(** ** Manifests *)

Section Claims.
Context (zone_installed : string -> bool).

Record manifest_sound (m : JobManifest) : Prop := {
  ms_slug : is_slug (jm_name m) = true;
  ms_zone : timezone_pattern (jm_timezone m) = true;
  ms_installed : zone_installed (jm_timezone m) = true;
  ms_cron : exists c, cron m = Ok c /\ cron_sound c;
  ms_prepare : validate_command_argv (jm_prepare m) = Ok (jm_prepare m)
               /\ validate_forecast_command (jm_prepare m) prepare = Ok tt;
  ms_finalize : validate_command_argv (jm_finalize m) = Ok (jm_finalize m)
                /\ validate_forecast_command (jm_finalize m) finalize = Ok tt }.

Lemma validate_argv_eq argv argv' : validate_command_argv argv = Ok argv' -> argv' = argv.
Proof.
  unfold validate_command_argv. destruct argv as [|e argv]; [done|]. rewrite raise_when_bind_Ok.
  intros [_ Ha]. apply bind_Ok in Ha as (? & _ & Ha). rewrite !raise_when_bind_Ok in Ha.
  by destruct Ha as (_ & _ & [= <-]).
Qed.

Lemma validated_sound m : validate_job_manifest zone_installed m = Ok m -> manifest_sound m.
Proof.
  unfold validate_job_manifest. rewrite raise_when_bind_Ok. intros [Hs Hm]. bool_prop.
  apply bind_Ok in Hm as (c & Hc & Hm). apply bind_Ok in Hm as ([] & Hz & Hm).
  unfold validate_timezone in Hz. rewrite raise_when_bind_Ok, raise_when_Ok in Hz. destruct Hz as [Hz Hi]. bool_prop.
  apply bind_Ok in Hm as (argv & Hp1 & Hm). apply bind_Ok in Hm as ([] & Hp2 & Hm).
  apply bind_Ok in Hm as (? & _ & Hm). apply bind_Ok in Hm as (argv' & Hf1 & Hm).
  apply bind_Ok in Hm as ([] & Hf2 & _).
  rewrite (validate_argv_eq _ _ Hp1) in Hp1. rewrite (validate_argv_eq _ _ Hf1) in Hf1.
  split; try done. exists c. split; [done|]. by eapply parse_cron_sound.
Qed.

(** *** Commands *)

Lemma check_options_spec a seen arguments all :
  Nat.even (length arguments) = true -> check_options a seen arguments = Ok all -> "--mode" ∈ all -> "--mode" ∉ seen ->
  exists i mode, index_of "--mode" arguments = Some i /\ arguments !! S i = Some mode /\ mode ∈ ["demo"; "live"].
Proof.
  remember (length arguments) as n eqn:En. revert arguments seen En. induction (lt_wf n) as [n _ IH].
  intros arguments seen En Hev Hc Hin Hnot. subst n.
  destruct arguments as [|o [|v rest]]; [by injection Hc as <-|done|].
  cbn [check_options] in Hc. rewrite !raise_when_bind_Ok in Hc. destruct Hc as (_ & _ & Hv & Hm & Hc).
  cbn [index_of]. destruct (String.eqb_spec o "--mode") as [->|Hne].
  - exists 0%nat, v. split_and!; [done|done|]. bool_prop. apply andb_false_iff in Hm as [Hm|Hm]; bool_prop; done.
  - destruct (IH (length rest)) with rest ({[o]} ∪ seen) as (i & mode & Hi & Hl & Hd); try done; cbn; [lia|set_solver|].
    destruct (String.eqb_spec v "--mode") as [->|_]; [done|].
    exists (S (S i)), mode. rewrite Hi. done.
Qed.

Lemma index_of_app x l k i : index_of x l = Some i -> index_of x (l ++ k)%list = Some i.
Proof.
  revert i. induction l as [|y l IH]; intros i; cbn; [done|]. destruct (y =? x)%string; [done|].
  destruct (index_of x l) as [j|]; [|done]. intros [= <-]. by rewrite (IH j).
Qed.

Definition mode_prefix : list string := (PUBLIC_CLI_EXECUTABLES ++ ["forecast"; "prepare"; "finalize"])%list.

Lemma index_of_mode_prefix p l : Forall (fun x => x ∈ mode_prefix) p ->
  index_of "--mode" (p ++ l)%list = (fun i => length p + i)%nat <$> index_of "--mode" l.
Proof.
  induction 1 as [|x p Hx _ IH]; [cbn; by destruct (index_of "--mode" l)|]. cbn [app index_of].
  destruct (String.eqb_spec x "--mode") as [->|_].
  - apply (bool_decide_eq_false_1 ("--mode" ∈ mode_prefix)) in Hx; [done|by vm_compute].
  - rewrite IH. by destruct (index_of "--mode" l).
Qed.

Lemma take_drop_three {A} (l : list A) x t :
  head l = Some x -> take 2 (drop 1 l) = t -> l = ((x :: t) ++ drop 3 l)%list.
Proof. destruct l as [|y [|z [|w l]]]; intros Hx <-; by simplify_eq/=. Qed.

Lemma validate_forecast_mode command a :
  validate_forecast_command command a = Ok tt ->
  default "" (head command) ∈ PUBLIC_CLI_EXECUTABLES
  /\ (a = finalize -> last command = Some JOB_DIR)
  /\ exists mode, command_option command "--mode" = Ok (Some mode) /\ mode ∈ ["demo"; "live"].
Proof.
  unfold validate_forecast_command. rewrite raise_when_bind_Ok. intros [Hx H]. bool_prop.
  apply bind_Ok in H as (arguments & Ha & H). rewrite raise_when_bind_Ok in H. destruct H as [Hev H]. bool_prop.
  apply bind_Ok in H as (seen & Hs & H). apply raise_when_Ok in H. bool_prop.
  destruct (head command) as [x|] eqn:Eh; [|by apply (bool_decide_eq_false_1 ("" ∈ PUBLIC_CLI_EXECUTABLES)) in H0].
  pose proof (take_drop_three command x _ Eh H1) as Ec.
  destruct (check_options_spec _ _ _ _ Hev Hs H ltac:(set_solver)) as (i & mode & Hi & Hl & Hd).
  assert (exists k, drop 3 command = (arguments ++ k)%list /\ (a = finalize -> k = [JOB_DIR])) as (k & Ek & Hk).
  { unfold option_arguments in Ha. destruct a; rewrite raise_when_bind_Ok in Ha; destruct Ha as [Hj [= <-]].
    - exists []. by rewrite app_nil_r.
    - bool_prop. exists [JOB_DIR]. split; [|done]. apply last_Some in Hj as [l ->]. by rewrite removelast_last. }
  split; [done|]. rewrite Ec, Ek. split.
  - intros Ea. rewrite (Hk Ea), app_assoc. apply last_snoc.
  - exists mode. split; [|done]. unfold command_option.
    assert (Forall (fun y => y ∈ mode_prefix) (x :: ["forecast"; action_value a])) as Hp.
    { rewrite !Forall_cons. split_and!; [apply elem_of_app; by left|set_solver|destruct a; set_solver|constructor]. }
    rewrite index_of_mode_prefix, (index_of_app _ _ k i Hi) by done. cbn [fmap option_fmap option_map length Nat.add].
    unfold Handoff.Handoff.list_item. cbn [app lookup list_lookup]. by rewrite (lookup_app_l_Some _ _ _ _ Hl).
Qed.

(** What a validated manifest promises: both commands run a public entry
    point of the tool, never a shell, with an explicit mode that is demo or
    live; finalize ends with the directory the dispatcher provides; and the
    schedule parses. *)
Theorem validated_manifest_sound m :
  validate_job_manifest zone_installed m = Ok m ->
  (forall stage, exists mode, manifest_mode m stage = Ok mode /\ mode ∈ ["demo"; "live"])
  /\ (forall command, command ∈ [jm_prepare m; jm_finalize m] ->
        exists executable, head command = Some executable /\ executable ∈ PUBLIC_CLI_EXECUTABLES
          /\ py_lower executable ∉ SHELL_EXECUTABLES
          /\ Forall (fun item => has_control item = false) command)
  /\ last (jm_finalize m) = Some JOB_DIR
  /\ exists c, cron m = Ok c /\ 1 <= expansion_count c <= MAX_SCHEDULE_EXPANSIONS
       /\ (cr_days c = None \/ cr_weekdays c = None).
Proof.
  intros [_ _ _ (c & Hc & Hs) [Hp1 Hp2] [Hf1 Hf2]]%validated_sound.
  destruct (validate_forecast_mode _ _ Hp2) as (Xp & _ & mp & Mp & Dp).
  destruct (validate_forecast_mode _ _ Hf2) as (Xf & Lf & mf & Mf & Df).
  split; [|split; [|split; [by apply Lf|]]].
  - assert (forall mode, mode ∈ ["demo"; "live"] -> bool_decide (mode ∈ ["demo"; "live"]) = true) as Hb
      by (intros mode Hd; by apply bool_decide_eq_true).
    intros []; unfold manifest_mode; [exists mp; rewrite Mp|exists mf; rewrite Mf]; cbn; by rewrite Hb.
  - assert (forall command, validate_command_argv command = Ok command ->
      default "" (head command) ∈ PUBLIC_CLI_EXECUTABLES ->
      exists executable, head command = Some executable /\ executable ∈ PUBLIC_CLI_EXECUTABLES
          /\ py_lower executable ∉ SHELL_EXECUTABLES
          /\ Forall (fun item => has_control item = false) command) as Hall.
    { intros command Hv Hx. unfold validate_command_argv in Hv. destruct command as [|e command]; [done|].
      rewrite raise_when_bind_Ok in Hv. destruct Hv as [_ Hv]. apply bind_Ok in Hv as (us & Hi & Hv).
      rewrite !raise_when_bind_Ok in Hv. destruct Hv as (_ & Hsh & _). bool_prop.
      exists e. split_and!; [done..|]. rewrite Forall_forall. intros item Hin.
      destruct (mapM_result_elem _ _ _ _ Hi Hin) as [[] Hy]. unfold check_entry in Hy.
      rewrite !raise_when_bind_Ok, raise_when_Ok in Hy. tauto. }
    intros command Hin. rewrite !elem_of_cons, elem_of_nil in Hin. destruct Hin as [->|[->|[]]]; by apply Hall.
  - exists c. split; [done|]. pose proof (expansion_count_pos c Hs). by destruct Hs.
Qed.

(** *** Rendered schedules *)

Lemma weekday_entry c e o : cron_sound c -> e ∈ combinations c -> e !! 4%nat = Some (Some o) -> 0 <= o <= 6.
Proof.
  intros [_ _ _ _ Hw _ _] He Ho. rewrite combinations_pools in He. apply product_elem in He.
  destruct (Forall2_lookup_l _ _ _ _ _ He Ho) as (p & Hp & Hin). injection Hp as <-.
  destruct (cr_weekdays c) as [l|]; [|by apply list_elem_of_singleton in Hin].
  apply list_elem_of_fmap in Hin as (v & [= <-] & Hv). destruct Hw as (_ & _ & Hb).
  rewrite Forall_forall in Hb. by apply Hb.
Qed.

Lemma entry_shape c e : e ∈ combinations c -> exists mi ho da mo we, e = [mi; ho; da; mo; we].
Proof.
  rewrite combinations_pools. intros He%product_elem%Forall2_length. cbn in He.
  do 5 (destruct e as [|? e]; [done|]). destruct e; [eauto 8|done].
Qed.

(** The calendar interval of an entry, as the renderer writes it. *)
Definition interval_of (e : list (option Z)) : list (string * Z) :=
  match e with
  | [mi; ho; da; mo; we] =>
      (interval_entry "Minute" mi ++ interval_entry "Hour" ho ++ interval_entry "Day" da
       ++ interval_entry "Month" mo ++ interval_entry "Weekday" ((fun w => w + 1) <$> we))%list
  | _ => []
  end.

Lemma launchd_interval_eq c e : cron_sound c -> e ∈ combinations c -> launchd_interval e = Ok (interval_of e).
Proof.
  intros Hc He. destruct (entry_shape c e He) as (mi & ho & da & mo & we & ->). cbn [launchd_interval interval_of].
  destruct we as [w|]; [|done]. pose proof (weekday_entry c _ w Hc He eq_refl) as Hw.
  unfold LAUNCHD_WEEKDAY. rewrite (proj2 (Z.leb_le 0 w)), (proj2 (Z.leb_le w 6)) by lia. done.
Qed.

Lemma systemd_calendar_Ok c zone e : cron_sound c -> e ∈ combinations c -> exists text, systemd_calendar zone e = Ok text.
Proof.
  intros Hc He. destruct (entry_shape c e He) as (mi & ho & da & mo & we & ->). cbn [systemd_calendar].
  destruct we as [w|]; [|eauto]. pose proof (weekday_entry c _ w Hc He eq_refl) as Hw.
  unfold SYSTEMD_WEEKDAY. rewrite (proj2 (Z.ltb_ge w 0)) by lia.
  destruct (lookup_lt_is_Some_2 ["Sun"; "Mon"; "Tue"; "Wed"; "Thu"; "Fri"; "Sat"] (Z.to_nat w)) as [d Hd];
    [cbn; lia|]. rewrite Hd. cbn. eauto.
Qed.

Lemma systemd_calendars_Ok m c :
  cron m = Ok c -> cron_sound c ->
  exists l, systemd_calendars m = Ok l /\ length l = length (combinations c)
    /\ Forall (fun text => exists e, e ∈ combinations c /\ systemd_calendar (jm_timezone m) e = Ok text) l.
Proof.
  intros Hc Hs. unfold systemd_calendars. rewrite Hc. cbn [mbind result_bind].
  destruct (mapM_result_exists (systemd_calendar (jm_timezone m)) (combinations c)) as [l Hm].
  { intros e He. by eapply systemd_calendar_Ok. }
  exists l. split; [done|]. apply mapM_result_Ok in Hm as Hl. split; [symmetry; by eapply Forall2_length|].
  rewrite Forall_forall. intros text (i & Hi)%list_elem_of_lookup.
  destruct (Forall2_lookup_r _ _ _ _ _ Hl Hi) as (e & He & Ht). exists e. split; [by eapply list_elem_of_lookup_2|done].
Qed.


(** *** launchd *)

(** The day launchd takes a [Weekday] number for: 0 and 7 are both Sunday. *)
Context (launchd_day : Z -> Z) (launchd_day_spec : forall n, 0 <= n <= 7 -> launchd_day n = n mod 7).

(** Whether a calendar interval covers [t]. *)
Definition launchd_key_admits (t : Instant) (entry : string * Z) : Prop :=
  let '(key, v) := entry in
  if (key =? "Minute")%string then v = in_minute t
  else if (key =? "Hour")%string then v = in_hour t
  else if (key =? "Day")%string then v = in_day t
  else if (key =? "Month")%string then v = in_month t
  else launchd_day v = in_weekday t.

Definition launchd_admits (interval : list (string * Z)) (t : Instant) : Prop :=
  Forall (launchd_key_admits t) interval.

(** The day before, for a schedule that names weekdays. *)
Definition previous_weekday (c : CronExpression) (t : Instant) : Instant :=
  match cr_weekdays c with
  | None => t
  | Some _ => mkInstant (in_minute t) (in_hour t) (in_day t) (in_month t) ((in_weekday t - 1) mod 7)
  end.

Lemma interval_entry_admits t key v :
  Forall (launchd_key_admits t) (interval_entry key v)
  <-> match v with None => True | Some v => launchd_key_admits t (key, v) end.
Proof. destruct v as [v|]; cbn [interval_entry]; [apply Forall_singleton|by split]. Qed.

Lemma weekday_shift w d : 0 <= w <= 6 -> 0 <= d <= 6 -> (launchd_day (w + 1) = d <-> (d - 1) mod 7 = w).
Proof.
  intros Hw Hd. rewrite launchd_day_spec by lia. assert (w = 0 \/ w = 1 \/ w = 2 \/ w = 3 \/ w = 4 \/ w = 5 \/ w = 6) as Hc by lia.
  assert (d = 0 \/ d = 1 \/ d = 2 \/ d = 3 \/ d = 4 \/ d = 5 \/ d = 6) as Hc' by lia.
  destruct Hc as [-> | [-> | [-> | [-> | [-> | [-> | ->]]]]]];
    destruct Hc' as [-> | [-> | [-> | [-> | [-> | [-> | ->]]]]]]; vm_compute; split; congruence.
Qed.

Lemma interval_admits c e t :
  cron_sound c -> e ∈ combinations c -> 0 <= in_weekday t <= 6 ->
  launchd_admits (interval_of e) t <-> entry_admits e (previous_weekday c t).
Proof.
  intros Hc He Ht. destruct (entry_shape c e He) as (mi & ho & da & mo & we & ->).
  assert (forall w, we = Some w -> 0 <= w <= 6 /\ is_Some (cr_weekdays c)) as Hw.
  { intros w ->. split; [by eapply (weekday_entry c _ w Hc He)|].
    rewrite combinations_pools in He. apply product_elem in He.
    destruct (Forall2_lookup_l _ _ _ 4%nat (Some w) He eq_refl) as (p & Hp & Hin). injection Hp as <-.
    destruct (cr_weekdays c); [eauto|by apply list_elem_of_singleton in Hin]. }
  unfold launchd_admits, entry_admits, interval_of, instant_fields, previous_weekday.
  rewrite !Forall_app, !interval_entry_admits, !Forall2_cons.
  assert (forall (v : option Z) (x : Z), match v with None => True | Some y => y = x end <-> fits v x) as Hf
    by (intros [v|] x; cbn; [split; congruence|done]).
  destruct (cr_weekdays c) as [l|] eqn:El; cbn [in_minute in_hour in_day in_month in_weekday].
  - assert (match (fun w => w + 1) <$> we with None => True | Some v => launchd_key_admits t ("Weekday", v) end
            <-> fits we ((in_weekday t - 1) mod 7)) as ->.
    { destruct we as [w|]; [|done]. cbn. apply weekday_shift; [by apply Hw|done]. }
    cbn [launchd_key_admits String.eqb Ascii.eqb]. rewrite <- !Hf.
    destruct mi, ho, da, mo; cbn; intuition constructor.
  - destruct we as [w|]; [destruct (Hw w eq_refl) as [_ [? ?]]; done|]. rewrite <- !Hf.
    destruct mi, ho, da, mo; cbn; intuition constructor.
Qed.


(** *** Reading the unit back *)

(** A quoted word after its opening quote: backslash escapes the next character
    and a doubled percent is a percent; the word and what follows its closing
    quote. *)
Fixpoint read_quoted (s : string) : option (string * string) :=
  let keep c r := match r with Some (w, rest) => Some (String c w, rest) | None => None end in
  match s with
  | EmptyString => None
  | String c s' =>
      if Ascii.eqb c quote_char then Some ("", s')
      else if Ascii.eqb c backslash_char then
        match s' with String d s'' => keep d (read_quoted s'') | EmptyString => None end
      else if Ascii.eqb c "%"%char then
        match s' with
        | String d s'' => if Ascii.eqb d "%"%char then keep c (read_quoted s'') else None
        | EmptyString => None
        end
      else keep c (read_quoted s')
  end.

(** A command line of at most [n] quoted words. *)
Fixpoint read_words (n : nat) (s : string) : option (list string) :=
  match n, s with
  | S n, String c s' =>
      if negb (Ascii.eqb c quote_char) then None
      else match read_quoted s' with
           | Some (w, EmptyString) => Some [w]
           | Some (w, String d s'') => if Ascii.eqb d " "%char then (cons w) <$> read_words n s'' else None
           | None => None
           end
  | _, _ => None
  end.

(** What the three replacements make of one character. *)
Definition escape_byte (c : ascii) : string :=
  if Ascii.eqb c "%"%char then "%%"
  else if Ascii.eqb c backslash_char then String backslash_char (byte_text backslash_char)
  else if Ascii.eqb c quote_char then String backslash_char (byte_text quote_char)
  else byte_text c.

Fixpoint escape (s : string) : string :=
  match s with EmptyString => EmptyString | String c s' => escape_byte c +:+ escape s' end.

Lemma string_app_assoc (a b c : string) : (a +:+ b) +:+ c = a +:+ (b +:+ c).
Proof.
  induction a as [|x a IH]; [done|]. change (String x ((a +:+ b) +:+ c) = String x (a +:+ (b +:+ c))). by rewrite IH.
Qed.

Lemma replace_byte_cons c by_text d s :
  replace_byte c by_text (String d s) = (if Ascii.eqb d c then by_text else byte_text d) +:+ replace_byte c by_text s.
Proof. done. Qed.

Lemma replace_byte_app c by_text s t :
  replace_byte c by_text (s +:+ t) = replace_byte c by_text s +:+ replace_byte c by_text t.
Proof.
  induction s as [|d s IH]; [done|]. change (String d s +:+ t) with (String d (s +:+ t)).
  by rewrite !replace_byte_cons, IH, string_app_assoc.
Qed.

Lemma systemd_quote_escape s : systemd_quote s = byte_text quote_char +:+ (escape s +:+ byte_text quote_char).
Proof.
  unfold systemd_quote. f_equal. f_equal. induction s as [|c s IH]; [done|].
  rewrite replace_byte_cons, !replace_byte_app, IH. cbn [escape]. f_equal. clear IH.
  unfold escape_byte. destruct (Ascii.eqb c "%") eqn:E1; [done|]. change (byte_text c) with (String c "").
  rewrite replace_byte_cons. change (replace_byte ?d ?r "") with "". rewrite string_app_empty_r.
  destruct (Ascii.eqb c backslash_char) eqn:E2; [done|]. change (byte_text c) with (String c "").
  rewrite (replace_byte_cons quote_char). change (replace_byte ?d ?r "") with "". by rewrite string_app_empty_r.
Qed.

Lemma read_quoted_escape s rest :
  read_quoted (escape s +:+ String quote_char rest) = Some (s, rest).
Proof.
  induction s as [|c s IH]; [done|]. cbn [escape]. rewrite string_app_assoc. unfold escape_byte.
  destruct (Ascii.eqb_spec c "%") as [->|H1].
  { change ("%%" +:+ ?t) with (String "%" (String "%" t)). cbn. by rewrite IH. }
  destruct (Ascii.eqb_spec c backslash_char) as [->|H2].
  { change (String backslash_char (byte_text backslash_char) +:+ ?t) with (String backslash_char (String backslash_char t)).
    cbn -[backslash_char]. by rewrite IH. }
  destruct (Ascii.eqb_spec c quote_char) as [->|H3].
  { change (String backslash_char (byte_text quote_char) +:+ ?t) with (String backslash_char (String quote_char t)).
    cbn -[backslash_char quote_char]. by rewrite IH. }
  change (byte_text c +:+ ?t) with (String c t). cbn [read_quoted].
  destruct (Ascii.eqb_spec c quote_char); [done|]. destruct (Ascii.eqb_spec c backslash_char); [done|].
  destruct (Ascii.eqb_spec c "%"); [done|]. by rewrite IH.
Qed.

Lemma read_words_quoted argv n :
  argv <> [] -> (length argv <= n)%nat -> read_words n (py_join " " (systemd_quote <$> argv)) = Some argv.
Proof.
  revert n. induction argv as [|a argv IH]; [done|]. intros [|n] _ Hn; [cbn in Hn; lia|].
  assert (forall rest, systemd_quote a +:+ rest = String quote_char (escape a +:+ String quote_char rest)) as Hq.
  { intros rest. rewrite systemd_quote_escape. by rewrite !string_app_assoc. }
  destruct argv as [|b argv].
  - cbn [fmap list_fmap py_join]. rewrite <- (string_app_empty_r (systemd_quote a)), Hq. cbn [read_words].
    by rewrite Ascii.eqb_refl, read_quoted_escape.
  - change (py_join " " (systemd_quote <$> a :: b :: argv))
      with (systemd_quote a +:+ String " " (py_join " " (systemd_quote <$> b :: argv))).
    rewrite Hq. cbn [read_words]. rewrite Ascii.eqb_refl, read_quoted_escape. cbn [negb Ascii.eqb Bool.eqb].
    rewrite IH by (try done; cbn in Hn |- *; lia). done.
Qed.

(** *** No text of a manifest or an invocation starts a line *)

Definition NL : ascii := ascii_of_nat 10.

Lemma has_byte_concat c l : has_byte c (py_concat l) = existsb (has_byte c) l.
Proof.
  induction l as [|s l IH]; [done|]. change (py_concat (s :: l)) with (s +:+ py_concat l).
  by rewrite has_byte_app, IH.
Qed.

Lemma one_line_join sep l :
  has_byte NL sep = false -> Forall (fun s => has_byte NL s = false) l -> has_byte NL (py_join sep l) = false.
Proof.
  intros Hsep. induction 1 as [|s l Hs Hl IH]; [done|]. destruct l as [|t l]; [done|].
  change (py_join sep (s :: t :: l)) with (s +:+ (sep +:+ py_join sep (t :: l))).
  by rewrite !has_byte_app, Hs, Hsep, IH.
Qed.

Lemma one_line_escape s : has_byte NL s = false -> has_byte NL (escape s) = false.
Proof.
  induction s as [|c s IH]; [done|]. intros [Hc Hs]%has_byte_cons_false. cbn [escape].
  rewrite has_byte_app, IH, orb_false_r by done. unfold escape_byte. repeat (case_match; [done|]).
  cbn. destruct (Ascii.eqb_spec NL c); [congruence|done].
Qed.

Lemma one_line_quote s : has_byte NL s = false -> has_byte NL (systemd_quote s) = false.
Proof. intros Hs. rewrite systemd_quote_escape, !has_byte_app, one_line_escape by done. done. Qed.

Lemma one_line_no_control s : has_control s = false -> has_byte NL s = false.
Proof.
  unfold has_control, has_byte. rewrite !existsb_false. intros Hs c Hc. specialize (Hs c Hc).
  destruct (Ascii.eqb_spec NL c) as [<-|]; [done|done].
Qed.

Lemma one_line_slug s : is_slug s = true -> has_byte NL s = false.
Proof.
  unfold is_slug, has_byte. intros Hs. apply existsb_false. intros c Hc. destruct (Ascii.eqb_spec NL c) as [<-|]; [|done].
  destruct (String.list_ascii_of_string s) as [|x l] eqn:E; [done|]. destruct (last (x :: l)); [|done].
  rewrite <- E in *. apply andb_true_iff in Hs as [[_ Hs]%andb_true_iff _].
  rewrite forallb_forall in Hs. apply list_elem_of_In in Hc. by specialize (Hs NL Hc).
Qed.

Lemma one_line_zone s : timezone_pattern s = true -> has_byte NL s = false.
Proof.
  intros Hs. rewrite <- (join_split_on "/"%char s). apply (one_line_join "/"); [done|].
  unfold timezone_pattern in Hs. rewrite forallb_forall in Hs. rewrite Forall_forall. intros part Hin.
  apply list_elem_of_In in Hin. specialize (Hs part Hin). bool_prop. by eapply all_bytes_no_byte.
Qed.

Lemma one_line_two_digits v : (forall n, v = Some n -> 0 <= n <= 59) -> has_byte NL (two_digits v) = false.
Proof.
  destruct v as [n|]; [|done]. intros Hn. specialize (Hn n eq_refl).
  assert (forallb (fun k => negb (has_byte NL (two_digits (Some k)))) (seqZ 0 60) = true) as Hall by by_vm.
  rewrite forallb_forall in Hall. apply negb_true_iff, Hall, list_elem_of_In, elem_of_seqZ. lia.
Qed.

Lemma entry_bounds c e : cron_sound c -> e ∈ combinations c -> Forall (fun v => forall n, v = Some n -> 0 <= n <= 59) e.
Proof.
  intros [Hmi Hho Hda Hmo Hwe _ _] He. rewrite combinations_pools in He. apply product_elem in He.
  assert (Forall (fun f => forall o, o ∈ pool f -> forall n, o = Some n -> 0 <= n <= 59) (cron_fields c)) as Hb.
  { assert (forall lo hi f, 0 <= lo -> hi <= 59 -> field_sound lo hi f ->
      forall o, o ∈ pool f -> forall n, o = Some n -> 0 <= n <= 59) as Hf.
    { intros lo hi [l|] Hlo Hhi Hs o Ho n ->; cbn in Ho; [|by apply list_elem_of_singleton in Ho].
      apply list_elem_of_fmap in Ho as (v & [= <-] & Hv). destruct Hs as (_ & _ & Hs). rewrite Forall_forall in Hs.
      specialize (Hs _ Hv). lia. }
    unfold cron_fields. repeat (constructor; [eapply Hf; [| |done]; lia|]). constructor. }
  revert He Hb. generalize (cron_fields c). intros fs He. remember (pool <$> fs) as ps eqn:Eps. revert fs Eps.
  induction He as [|o p e ps Ho He IH]; intros fs Eps Hb; [constructor|].
  destruct fs as [|f fs]; [done|]. injection Eps as -> ->. apply Forall_cons in Hb as [Hf Hb].
  constructor; [by apply Hf|by eapply IH].
Qed.

Lemma one_line_calendar c zone e text :
  cron_sound c -> e ∈ combinations c -> has_byte NL zone = false -> systemd_calendar zone e = Ok text ->
  has_byte NL text = false.
Proof.
  intros Hc He Hz Ht. pose proof (entry_bounds c e Hc He) as Hb.
  destruct (entry_shape c e He) as (mi & ho & da & mo & we & ->).
  do 4 (apply Forall_cons in Hb as [? Hb]). cbn [systemd_calendar] in Ht.
  apply bind_Ok in Ht as (day & Hd & [= <-]).
  assert (has_byte NL day = false) as Hday.
  { destruct we as [w|]; [|by injection Hd as <-]. apply bind_Ok in Hd as (name & Hn & [= <-]).
    unfold SYSTEMD_WEEKDAY in Hn. destruct (w <? 0); [done|].
    destruct (_ !! _) as [d|] eqn:E; [|done]. injection Hn as ->. apply list_elem_of_lookup_2 in E.
    rewrite has_byte_app, orb_false_r. rewrite !elem_of_cons, elem_of_nil in E.
    by repeat (destruct E as [->|E]; [done|]). }
  rewrite !has_byte_app, Hday, Hz, !one_line_two_digits by done. done.
Qed.

Lemma unit_lines text l :
  text = py_join newline l -> l <> [] -> Forall (fun s => has_byte NL s = false) l -> split_on NL text = l.
Proof. intros ->. apply (split_on_join NL). Qed.

(** C33 (the units say what the manifest says): no text of a validated manifest
    or of a valid invocation can start a line of the units, so a unit splits
    into exactly the lines of its template; the command line of the service
    reads back as the invocation, and its environment as the time zone. *)
Theorem systemd_units_read_back m argv u :
  validate_job_manifest zone_installed m = Ok m -> render_systemd_units m argv = Ok u ->
  (exists calendars, split_on NL (su_timer u) = timer_lines m (su_service_name u) calendars)
  /\ split_on NL (su_service u) = service_lines m argv
  /\ read_words 64 (py_join " " (systemd_quote <$> argv)) = Some argv
  /\ read_words 1 (systemd_quote ("TZ=" +:+ jm_timezone m)) = Some ["TZ=" +:+ jm_timezone m].
Proof.
  intros [Hslug Hzone _ (c & Hc & Hs) _ _]%validated_sound Hu. apply one_line_slug in Hslug. apply one_line_zone in Hzone.
  unfold render_systemd_units in Hu. apply bind_Ok in Hu as (argv' & Ha & Hu).
  pose proof (validate_argv_eq _ _ Ha) as ->.
  destruct (systemd_calendars_Ok m c Hc Hs) as (calendars & Hl & _ & Hcal).
  rewrite Hl in Hu. injection Hu as <-. cbn [su_timer su_service su_service_name].
  assert (argv <> [] /\ (length argv <= 64)%nat /\ Forall (fun s => has_byte NL s = false) argv) as (Hne & Hlen & Hargv).
  { unfold validate_command_argv in Ha. destruct argv as [|e argv]; [done|]. split; [done|].
    rewrite raise_when_bind_Ok in Ha. destruct Ha as [Hn Ha]. apply bind_Ok in Ha as (us & Hi & _).
    bool_prop. split; [lia|]. rewrite Forall_forall. intros item Hin.
    destruct (mapM_result_elem _ _ _ _ Hi Hin) as [[] Hy]. unfold check_entry in Hy.
    rewrite !raise_when_bind_Ok, raise_when_Ok in Hy. destruct Hy as (_ & _ & Hy). by apply one_line_no_control. }
  split_and!.
  - exists calendars. apply unit_lines; [done|done|]. unfold timer_lines. rewrite !Forall_app, Forall_fmap. split_and!.
    + repeat (constructor; [rewrite ?has_byte_app, ?Hslug; done|]). constructor.
    + eapply Forall_impl; [exact Hcal|]. intros text (e & He & Ht). cbn [compose].
      unfold compose. rewrite has_byte_app. by eapply one_line_calendar.
    + by repeat constructor.
  - apply unit_lines; [done|done|]. unfold service_lines.
    assert (has_byte NL (py_join " " (":/usr/bin/env" :: (systemd_quote <$> argv))) = false) as Hexec.
    { apply one_line_join; [done|]. constructor; [done|]. apply Forall_fmap.
      eapply Forall_impl; [exact Hargv|]. intros s. apply one_line_quote. }
    assert (has_byte NL (systemd_quote ("TZ=" +:+ jm_timezone m)) = false) as Htz
      by (apply one_line_quote; rewrite has_byte_app; done).
    repeat (constructor; [rewrite ?has_byte_app, ?Hslug, ?Hexec, ?Htz; done|]). constructor.
  - by apply read_words_quoted.
  - apply (read_words_quoted [_]); [done|cbn; lia].
Qed.

End Claims.

(** ** Witnesses *)

Module Witnesses.

Definition installed (zone : string) : bool := (zone =? "Asia/Shanghai")%string.

Definition weekly : JobManifest :=
  mkManifest "daily-forecast" "30 9 * * 1-5" "Asia/Shanghai" "default"
    ["forecast-loop"; "forecast"; "prepare"; "--mode"; "live"]
    (mkDraftStep "codex" None (Some high) "prompts/daily.md" ["data/handoffs/*/drafts.json"])
    ["forecast-loop"; "forecast"; "finalize"; "--mode"; "live"; JOB_DIR].

Definition invocation : list string := ["forecast-loop"; "job"; "run"; "100%"].

Lemma weekly_valid : validate_job_manifest installed weekly = Ok weekly.
Proof. by_vm. Qed.

Definition weekly_cron : CronExpression := mkCron (Some [30]) (Some [9]) None None (Some [1; 2; 3; 4; 5]).

Lemma weekly_cron_eq : cron weekly = Ok weekly_cron.
Proof. by_vm. Qed.

Lemma validated_manifest_sound_witness :
  exists mode, manifest_mode weekly prepare = Ok mode /\ mode ∈ ["demo"; "live"].
Proof. exact (proj1 (validated_manifest_sound installed weekly weekly_valid) prepare). Defined.


Definition payload : LaunchdPayload :=
  mkLaunchd "org.vericouncil.job.daily-forecast" ("/usr/bin/env" :: invocation) "Asia/Shanghai"
    ((fun d => [("Minute", 30); ("Hour", 9); ("Weekday", d)]) <$> [2; 3; 4; 5; 6]) "Background" true 60.

(** On a Saturday at 9:30 the Monday to Friday schedule fires under launchd. *)
Definition saturday : Instant := mkInstant 30 9 4 5 6.


Lemma systemd_units_read_back_witness :
  exists u, render_systemd_units weekly invocation = Ok u /\ split_on NL (su_service u) = service_lines weekly invocation.
Proof.
  destruct (render_systemd_units weekly invocation) as [u|e] eqn:Eu.
  - exact (ex_intro _ u (conj eq_refl (proj1 (proj2 (systemd_units_read_back installed weekly invocation u weekly_valid Eu))))).
  - enough (is_ok (render_systemd_units weekly invocation) = true) by (by rewrite Eu in *). by_vm.
Defined.

End Witnesses.

End JobManifestProps.
