(* ===== verification/HandoffProps.v ===== *)
(** * Theorems on the file handoff

    The drafts that are accepted are exactly the matrix that was asked for; the
    provider that replays them satisfies the research nodes of the committee;
    a receipt is sealed and says which attempt it closes. *)
From S2P Require Import Prelude PyStr PyTime Float64 Domain Json Contracts Snapshot Wiki Committee CommitteeProps Handoff.
Import PyStr PyTime Float64 Domain Json Contracts Snapshot Wiki Committee CommitteeProps Handoff.
Open Scope string_scope.
Open Scope Z_scope.

Module HandoffProps.

(** ** Tables keyed by identity *)

Lemma dict_by_snoc {A B} (key : A -> Identity) (value : A -> B) l x :
  dict_by key value (l ++ [x]) = <[key x := value x]> (dict_by key value l).
Proof. unfold dict_by. by rewrite fold_left_app. Qed.

Lemma dict_by_Some {A B} (key : A -> Identity) (value : A -> B) l i v :
  dict_by key value l !! i = Some v -> exists x, x ∈ l /\ key x = i /\ value x = v.
Proof.
  induction l as [|x l IH] using rev_ind; [done|]. rewrite dict_by_snoc.
  intros [[Hi Hv]|[Hi Hv]]%lookup_insert_Some.
  - exists x. rewrite elem_of_app, list_elem_of_singleton. auto.
  - destruct (IH Hv) as (y & Hy & He). exists y. rewrite elem_of_app. auto.
Qed.

Lemma dict_by_dom {A B} (key : A -> Identity) (value : A -> B) l :
  dom (dict_by key value l) = list_to_set (key <$> l).
Proof.
  induction l as [|x l IH] using rev_ind; [done|].
  rewrite dict_by_snoc, dom_insert_L, fmap_app, list_to_set_app_L, IH. set_solver.
Qed.

Lemma dict_by_unique {A B} (key : A -> Identity) (value : A -> B) l x :
  NoDup (key <$> l) -> x ∈ l -> dict_by key value l !! key x = Some (value x).
Proof.
  induction l as [|y l IH] using rev_ind; [by intros _ ?%not_elem_of_nil|]. rewrite fmap_app, NoDup_app, dict_by_snoc.
  intros (Hl & Hd & _) [Hx| ->%list_elem_of_singleton]%elem_of_app; [|by rewrite lookup_insert_eq].
  rewrite lookup_insert_ne; [by apply IH|]. intros He. apply (Hd (key x)); [by apply list_elem_of_fmap_2|].
  cbn. rewrite He. by apply list_elem_of_singleton.
Qed.

Section Matrix.
Context `{Uppercase} `{PyRuntime}.
Context (snapshot : FrozenEvidenceSnapshot) (wiki : FrozenWikiCatalog)
  (instruments : list IndexDefinition) (version : Protocol).

(** The identities of the matrix, in the order of the loops. *)
Definition identities_of (target : string * IndexDefinition) : list Identity :=
  (fun h => (target.1, idx_code target.2, horizon_value h)) <$> forecast_horizons_for_protocol version.

Definition expected_identities : list Identity := assignment_targets instruments ≫= identities_of.

Lemma horizon_value_inj h h' : horizon_value h = horizon_value h' -> h = h'.
Proof. by destruct h, h'. Qed.

Lemma horizons_NoDup : NoDup (forecast_horizons_for_protocol version).
Proof. apply (bool_decide_unpack _). by destruct version. Qed.

Lemma draft_agents_NoDup : NoDup DRAFT_AGENT_IDS.
Proof. apply (bool_decide_unpack _). by vm_compute. Qed.

Lemma targets_NoDup : NoDup (idx_code <$> instruments) -> NoDup (assignment_targets instruments).
Proof.
  intros Hnd. apply NoDup_bind; [|intros a _; apply NoDup_fmap_2|exact draft_agents_NoDup].
  - intros a a' t _ _ (i & -> & _)%list_elem_of_fmap (i' & [= -> _] & _)%list_elem_of_fmap. done.
  - by intros i i' [= ->].
  - by eapply NoDup_fmap_1.
Qed.

Lemma target_elem t : t ∈ assignment_targets instruments <-> t.1 ∈ DRAFT_AGENT_IDS /\ t.2 ∈ instruments.
Proof.
  unfold assignment_targets. rewrite list_elem_of_bind. destruct t as [a i]. cbn. split.
  - intros (b & Hi & Hb). apply list_elem_of_fmap in Hi as (j & [= -> ->] & Hj). done.
  - intros [Ha Hi]. exists a. split; [by apply list_elem_of_fmap_2|done].
Qed.

Lemma expected_identities_NoDup : NoDup (idx_code <$> instruments) -> NoDup expected_identities.
Proof.
  intros Hnd. apply NoDup_bind; [|intros t _; apply NoDup_fmap_2|by apply targets_NoDup].
  - intros [a i] [a' i'] x [_ Hi]%target_elem [_ Hi']%target_elem.
    intros (h & -> & _)%list_elem_of_fmap (h' & [= <- Hc _] & _)%list_elem_of_fmap. cbn in *. f_equal.
    apply list_elem_of_lookup in Hi as [n Hn], Hi' as [n' Hn'].
    assert (n = n') as ->; [|congruence]. eapply (NoDup_lookup _ n n' (idx_code i) Hnd); rewrite list_lookup_fmap.
    + by rewrite Hn.
    + by rewrite Hn', Hc.
  - intros h h' [= Hh]. by apply horizon_value_inj.
  - exact horizons_NoDup.
Qed.

(** What the assignment of an identity says. *)
Definition assigned (agent_id : string) (index : IndexDefinition) (h : Horizon) (a : HandoffAssignment) : Prop :=
  assignment_identity a = (agent_id, idx_code index, horizon_value h)
  /\ ha_role a = assignment_role agent_id
  /\ assignment_brief version agent_id index = Ok (ha_agent_brief a)
  /\ ha_allowed_evidence_item_ids a
     = (if bool_decide (assignment_role agent_id = critic) then [] else relevant_evidence snapshot (idx_code index))
  /\ exists entry, select_for_agent wiki agent_id (Some (idx_code index)) (wiki_entry_id_for index agent_id) = Ok entry
       /\ ha_wiki_entry_id a = we_id entry /\ ha_wiki_sections a = ws_slug <$> we_sections entry.

Lemma assignments_for_Ok dates t l :
  assignments_for snapshot wiki version dates t = Ok l ->
  Forall2 (fun h a => assigned t.1 t.2 h a) (forecast_horizons_for_protocol version) l.
Proof.
  destruct t as [agent_id index]. intros Hl. apply bind_Ok in Hl as (entry & He & Hl). cbn [fst snd].
  apply mapM_result_Ok in Hl. eapply Forall2_impl; [exact Hl|]. intros h a Ha.
  apply bind_Ok in Ha as (brief & Hb & Ha). apply bind_Ok in Ha as ([] & _ & [= <-]).
  unfold assigned. cbn. split_and!; try done. by exists entry.
Qed.

(** The assignments of a run are one per identity of the matrix. *)
Lemma expected_assignments_Ok assignments :
  expected_assignments snapshot wiki instruments version = Ok assignments ->
  assignment_identity <$> assignments = expected_identities
  /\ Forall (fun a => exists agent_id index h, agent_id ∈ DRAFT_AGENT_IDS /\ index ∈ instruments
               /\ h ∈ forecast_horizons_for_protocol version /\ assigned agent_id index h a) assignments.
Proof.
  intros Ha. apply bind_Ok in Ha as (d1 & _ & Ha). apply bind_Ok in Ha as (d2 & _ & Ha).
  apply bind_Ok in Ha as (groups & Hg & Ha). rewrite raise_when_bind_Ok in Ha. destruct Ha as [_ [= <-]].
  apply mapM_result_Ok in Hg. unfold expected_identities.
  assert (Forall (fun t => t.1 ∈ DRAFT_AGENT_IDS /\ t.2 ∈ instruments) (assignment_targets instruments)) as Hts
    by (rewrite Forall_forall; intros t; apply target_elem).
  revert Hg Hts. generalize (assignment_targets instruments) as ts. intros ts Hg Hts.
  induction Hg as [|t l ts groups Hl Hg IH]; [done|]. apply Forall_cons in Hts as [[Ht1 Ht2] Hts].
  destruct (IH Hts) as [IH1 IH2]. apply assignments_for_Ok in Hl. cbn [concat]. rewrite fmap_app, IH1, bind_cons.
  split; [f_equal|apply Forall_app; split; [|done]].
  - unfold identities_of. clear -Hl. induction Hl as [|h a hs l [Ha _] _ IH]; [done|]. by rewrite !fmap_cons, Ha, IH.
  - rewrite Forall_forall. intros a (i & Hi)%list_elem_of_lookup.
    destruct (Forall2_lookup_r _ _ _ _ _ Hl Hi) as (h & Hh & Has). exists t.1, t.2, h.
    split_and!; try done. by eapply list_elem_of_lookup_2.
Qed.

(** ** Accepted bundles *)

Context (bundle : HandoffDraftBundle) (request : HandoffRequest) (finalized_at : datetime)
  (assignments : list HandoffAssignment).
Context (Hcodes : NoDup (idx_code <$> instruments))
  (Hexpected : expected_assignments snapshot wiki instruments version = Ok assignments)
  (Hbundle : check_bundle bundle = Ok tt)
  (Haccepted : validate_bundle bundle request finalized_at assignments = Ok tt).

Lemma bundle_checked :
  NoDup (record_identity <$> hb_drafts bundle)
  /\ Forall (fun r => validate_draft (hd_draft r) = Ok (hd_draft r)) (hb_drafts bundle).
Proof.
  unfold check_bundle, check_aware, generator_ok, field_check in Hbundle. pose proof Hbundle as Hb.
  do 3 (rewrite raise_when_bind_Ok in Hb; destruct Hb as [_ Hb]).
  apply bind_Ok in Hb as ([] & _ & Hb). rewrite raise_when_bind_Ok in Hb. destruct Hb as [_ Hb].
  apply bind_Ok in Hb as (us & Hr & Hb). apply raise_when_Ok in Hb. bool_prop. split; [done|].
  rewrite Forall_forall. intros r Hin. destruct (mapM_result_elem _ _ _ _ Hr Hin) as [[] Hv].
  unfold validate_record in Hv. apply bind_Ok in Hv as ([] & _ & Hv). apply bind_Ok in Hv as (d & Hd & _).
  pose proof (validate_draft_Ok _ _ Hd) as [-> _]. done.
Qed.

Lemma bundle_accepted :
  dt_ltb (hb_generated_at bundle) (hr_prepared_at request) = false
  /\ dt_ltb (hr_finalize_deadline request) (hb_generated_at bundle) = false
  /\ list_to_set (record_identity <$> hb_drafts bundle) = dom (by_identity assignments)
  /\ Forall (fun r => validate_bundle_record request (by_identity assignments) r = Ok tt) (hb_drafts bundle).
Proof.
  unfold validate_bundle in Haccepted. pose proof Haccepted as Hb. rewrite !raise_when_bind_Ok in Hb.
  destruct Hb as (_ & _ & _ & _ & Hp & Hd & _ & Hm & Hb). apply bind_Ok in Hb as (us & Hr & _). bool_prop.
  split_and!; try done. rewrite Forall_forall. intros r Hin.
  by destruct (mapM_result_elem _ _ _ _ Hr Hin) as [[] Hv].
Qed.

(** The drafts are the matrix, each identity once. *)
Lemma accepted_identities : record_identity <$> hb_drafts bundle ≡ₚ expected_identities.
Proof.
  destruct bundle_checked as [Hnd _]. destruct bundle_accepted as (_ & _ & Hdom & _).
  destruct (expected_assignments_Ok _ Hexpected) as [He _].
  apply NoDup_Permutation; [done|by apply expected_identities_NoDup|]. intros i.
  rewrite <- (elem_of_list_to_set (C := gset Identity)), Hdom. unfold by_identity.
  by rewrite dict_by_dom, He, elem_of_list_to_set.
Qed.

(** A draft that satisfies its assignment. *)
Record satisfies (agent_id : string) (index : IndexDefinition) (h : Horizon) (r : HandoffDraftRecord) : Prop := {
  sf_identity : record_identity r = (agent_id, idx_code index, horizon_value h);
  sf_valid : validate_draft (hd_draft r) = Ok (hd_draft r);
  sf_brief : assignment_brief version agent_id index = Ok (hd_agent_brief r);
  sf_wiki : exists entry,
    select_for_agent wiki agent_id (Some (idx_code index)) (wiki_entry_id_for index agent_id) = Ok entry
    /\ dr_wiki_entry_id (hd_draft r) = we_id entry
    /\ dr_wiki_section (hd_draft r) ∈ ws_slug <$> we_sections entry;
  sf_evidence : if bool_decide (assignment_role agent_id = critic) then dr_evidence_item_ids (hd_draft r) = []
    else (forall id, id ∈ dr_evidence_item_ids (hd_draft r) -> id ∈ relevant_evidence snapshot (idx_code index))
         /\ (hr_mode request = "live" -> dr_evidence_item_ids (hd_draft r) <> []) }.

Lemma role_at_index agent_id index index' h a :
  NoDup (idx_code <$> instruments) -> index ∈ instruments -> index' ∈ instruments ->
  assigned agent_id index' h a -> idx_code index' = idx_code index -> index' = index.
Proof.
  intros Hnd Hi Hi' _ Hc. apply list_elem_of_lookup in Hi as [n Hn], Hi' as [n' Hn'].
  assert (n' = n) as ->; [|congruence]. eapply (NoDup_lookup _ n' n (idx_code index) Hnd); rewrite list_lookup_fmap.
  - by rewrite Hn', <- Hc.
  - by rewrite Hn.
Qed.

Lemma accepted_satisfies r agent_id index h :
  r ∈ hb_drafts bundle -> index ∈ instruments -> record_identity r = (agent_id, idx_code index, horizon_value h) ->
  satisfies agent_id index h r.
Proof.
  intros Hr Hindex Hid. destruct bundle_checked as [_ Hvalid]. destruct bundle_accepted as (_ & _ & _ & Hrec).
  rewrite Forall_forall in Hvalid, Hrec. specialize (Hvalid r Hr). specialize (Hrec r Hr).
  unfold validate_bundle_record in Hrec. destruct (by_identity assignments !! record_identity r) as [a|] eqn:Ea; [|done].
  apply dict_by_Some in Ea as (a' & Ha & Hia & Heq). cbn in Heq. subst a'.
  destruct (expected_assignments_Ok _ Hexpected) as [_ Hall]. rewrite Forall_forall in Hall.
  destruct (Hall a Ha) as (agent' & index' & h' & _ & Hi' & _ & Has). pose proof Has as (Hia' & Hrole & Hbrief & Hev & entry & He & Hw & Hsec).
  rewrite Hia, Hid in Hia'. injection Hia' as <- Hcode Hh. apply horizon_value_inj in Hh as <-.
  assert (index' = index) as -> by (eapply (role_at_index agent_id index index' h a); eauto). clear Hcode.
  rewrite !raise_when_bind_Ok in Hrec. destruct Hrec as (B1 & B2 & B3 & B4 & B5 & B6 & _). bool_prop.
  split; [done|done| |exists entry|].
  - by rewrite B1.
  - split; [done|]. split; [congruence|]. by rewrite <- Hsec.
  - rewrite Hrole in B5, B6. case_bool_decide as Hc.
    + by destruct (dr_evidence_item_ids (hd_draft r)).
    + rewrite Hev in B4. split.
      * intros id Hin. unfold subset_of in B4. rewrite forallb_forall in B4. apply list_elem_of_In in Hin.
        specialize (B4 id Hin). by apply bool_decide_eq_true in B4.
      * intros Hlive Hnil. rewrite Hlive, Hnil in B5. done.
Qed.

(** The replayed draft of an identity of the matrix. *)
Lemma replayed agent_id index h :
  agent_id ∈ DRAFT_AGENT_IDS -> index ∈ instruments -> h ∈ forecast_horizons_for_protocol version ->
  exists r, r ∈ hb_drafts bundle /\ satisfies agent_id index h r
    /\ get_draft (draft_table (hb_drafts bundle)) agent_id (idx_code index) h = Ok (hd_draft r).
Proof.
  intros Ha Hi Hh. assert ((agent_id, idx_code index, horizon_value h) ∈ expected_identities) as Hin.
  { apply list_elem_of_bind. exists (agent_id, index). split; [|by apply target_elem].
    apply list_elem_of_fmap. by exists h. }
  rewrite <- accepted_identities in Hin. apply list_elem_of_fmap in Hin as (r & Hr & Hin).
  exists r. split; [done|]. split; [by apply accepted_satisfies|].
  unfold get_draft, draft_table. rewrite Hr, dict_by_unique; [done| |done]. apply bundle_checked.
Qed.

(** C22 (the accepted matrix): a bundle that passes was generated inside the
    window of the request and holds exactly one draft per agent, instrument and
    horizon; each one is a valid draft with the assigned brief, Wiki entry and a
    section of it, and cites only evidence of its instrument: none for the risk
    critic, and some for the others in a live run.  The provider replays it for
    that identity. *)
Theorem accepted_matrix :
  dt_ltb (hb_generated_at bundle) (hr_prepared_at request) = false
  /\ dt_ltb (hr_finalize_deadline request) (hb_generated_at bundle) = false
  /\ record_identity <$> hb_drafts bundle ≡ₚ expected_identities
  /\ NoDup expected_identities
  /\ forall agent_id index h,
      agent_id ∈ DRAFT_AGENT_IDS -> index ∈ instruments -> h ∈ forecast_horizons_for_protocol version ->
      exists r, r ∈ hb_drafts bundle /\ satisfies agent_id index h r
        /\ get_draft (draft_table (hb_drafts bundle)) agent_id (idx_code index) h = Ok (hd_draft r).
Proof.
  destruct bundle_accepted as (Hp & Hd & _ & _). split_and!; [done|done|apply accepted_identities| |].
  - by apply expected_identities_NoDup.
  - intros. by apply replayed.
Qed.

(** ** The committee on the replayed drafts *)

Context `{FloatFormat} (new_id : string -> string -> Horizon -> string) (name : ProviderName)
  (wf : Workflow) (st : CommitteeState).

(** The run of the committee that replays the drafts. *)
Record replays : Prop := {
  rp_provider : wf_provider wf = FileHandoffProvider (hb_drafts bundle) name;
  rp_instruments : wf_instruments wf = instruments;
  rp_horizons : wf_forecast_horizons wf = forecast_horizons_for_protocol version;
  rp_mode : wf_use_demo_provider wf = false -> hr_mode request = "live";
  rp_wiki : cs_wiki st = wiki;
  rp_snapshot : cs_snapshot st = snapshot;
  rp_sessions : exists d1 d2, fs_target_sessions snapshot = [d1; d2];
  rp_items : NoDup (ei_id <$> fs_items snapshot) }.

Lemma evidence_found code id :
  NoDup (ei_id <$> fs_items snapshot) -> id ∈ relevant_evidence snapshot code ->
  exists item, evidence_by_id snapshot id = Some item
    /\ negb (empty (ei_entities item)) && negb (bool_decide (code ∈ ei_entities item)) = false.
Proof.
  intros Hnd Hin. unfold relevant_evidence in Hin. apply list_elem_of_fmap in Hin as (item & -> & Hin).
  apply list_elem_of_In, List.filter_In in Hin as [Hin Hf]. exists item. split.
  - unfold evidence_by_id. assert (List.filter (fun i => (ei_id i =? ei_id item)%string) (fs_items snapshot) = [item]) as ->; [|done].
    apply list_elem_of_In in Hin. revert Hnd Hin. generalize (fs_items snapshot) as l.
    induction l as [|x l IH]; intros Hnd Hin; [by apply not_elem_of_nil in Hin|].
    apply NoDup_cons in Hnd as [Hx Hnd]. cbn [List.filter]. apply elem_of_cons in Hin as [<-|Hin].
    + rewrite String.eqb_refl. f_equal. clear IH. induction l as [|y l IH]; [done|]. cbn [List.filter].
      apply not_elem_of_cons in Hx as [Hxy Hx]. apply NoDup_cons in Hnd as [_ Hnd].
      destruct (String.eqb_spec (ei_id y) (ei_id item)); [congruence|by apply IH].
    + destruct (String.eqb_spec (ei_id x) (ei_id item)) as [E|]; [|by apply IH].
      destruct Hx. rewrite E. by apply list_elem_of_fmap_2.
  - by destruct (empty (ei_entities item)), (bool_decide (code ∈ ei_entities item)).
Qed.

Lemma citation_Ok agent_id code preferred entry section :
  select_for_agent wiki agent_id (Some code) preferred = Ok entry -> section ∈ ws_slug <$> we_sections entry ->
  exists c, citation wiki agent_id (Some section) (Some code) preferred = Ok c.
Proof.
  intros He (s & -> & Hs)%list_elem_of_fmap. unfold citation. rewrite He. cbn [mbind result_bind].
  destruct (section_by_slug entry _) as [c|]; [cbn; eauto|]. destruct (we_sections entry) as [|c l]; [|cbn; eauto].
  by apply not_elem_of_nil in Hs.
Qed.

Lemma effective_agents agent_id :
  agent_id ∈ EFFECTIVE_RESEARCH_AGENT_IDS ->
  agent_id ∈ DRAFT_AGENT_IDS /\ assignment_role agent_id = research
  /\ exists agent, agent_by_id agent_id = Ok agent /\ ag_id agent = agent_id.
Proof.
  intros Ha. split; [apply elem_of_app; by left|]. split; [unfold assignment_role; by rewrite bool_decide_true|].
  assert (forallb (fun a => match AGENT_BY_ID !! a with Some d => (ag_id d =? a)%string | None => false end)
            EFFECTIVE_RESEARCH_AGENT_IDS = true) as Hall by by_vm.
  rewrite forallb_forall in Hall. apply list_elem_of_In in Ha. specialize (Hall _ Ha).
  unfold agent_by_id. destruct (AGENT_BY_ID !! agent_id) as [d|]; [|done]. bool_prop. by exists d.
Qed.

Lemma research_opinion_replayed agent_id agent index h :
  replays -> agent_id ∈ EFFECTIVE_RESEARCH_AGENT_IDS -> ag_id agent = agent_id -> index ∈ instruments ->
  h ∈ forecast_horizons_for_protocol version ->
  exists o, research_opinion new_id wf st agent (index, h) = Ok o.
Proof.
  intros [Hp _ _ Hmode Hw Hs (d1 & d2 & Hsess) Hnd] Ha Hag Hi Hh.
  destruct (effective_agents _ Ha) as (Hda & Hrole & _).
  destruct (replayed agent_id index h Hda Hi Hh) as (r & _ & [_ Hv _ (entry & He & Hwe & Hws) Hev] & Hget).
  rewrite Hrole in Hev. cbn in Hev. destruct Hev as [Hall Hlive].
  unfold research_opinion. rewrite Hp, Hag, Hw, Hs. cbn [pv_research FileHandoffProvider]. rewrite Hget.
  cbn [mbind result_bind]. rewrite Hv. cbn [mbind result_bind]. unfold validate_draft_wiki. rewrite He.
  cbn [mbind result_bind]. rewrite Hwe, String.eqb_refl, (bool_decide_true _ Hws). cbn [raise_when negb mbind result_bind].
  destruct (citation_Ok agent_id _ _ entry _ He Hws) as [c Hc]. rewrite Hc. cbn [mbind result_bind].
  assert (exists l, bind_evidence_citations (hd_draft r) c snapshot (idx_code index)
            (negb (wf_use_demo_provider wf) && bool_decide (agent_id ∈ EFFECTIVE_RESEARCH_AGENT_IDS)) = Ok l) as [l Hl].
  { unfold bind_evidence_citations. rewrite (bool_decide_true _ Ha), andb_true_r.
    destruct (dr_evidence_item_ids (hd_draft r)) as [|id ids] eqn:Eids.
    - destruct (wf_use_demo_provider wf); [by eexists|]. by destruct Hlive; [apply Hmode|].
    - rewrite andb_false_r. cbn [raise_when mbind result_bind empty]. apply mapM_result_exists. intros x Hx.
      destruct (evidence_found _ _ Hnd (Hall x Hx)) as (item & Hf & Hscope). rewrite Hf, Hscope. cbn. eauto. }
  rewrite Hl. cbn [mbind result_bind]. unfold _target_date. rewrite Hsess. cbn. eauto.
Qed.

(** (replayed research never fails): with an accepted bundle, every research
    node of the committee that replays it succeeds: no draft is missing, and
    each passes the checks of its draft, Wiki section and evidence again. *)
Theorem replayed_research_succeeds agent_id :
  replays -> agent_id ∈ EFFECTIVE_RESEARCH_AGENT_IDS ->
  exists agent u, agent_by_id agent_id = Ok agent
    /\ research_node new_id wf agent_id st = Ok u
    /\ length (up_opinions u) = (length instruments * length (forecast_horizons_for_protocol version))%nat.
Proof.
  intros Hr Ha. destruct (effective_agents _ Ha) as (_ & _ & agent & Hag & Hid).
  destruct (mapM_result_exists (research_opinion new_id wf st agent) (targets wf)) as [l Hl].
  { intros [index h] Hin. unfold targets in Hin. pose proof Hr as [_ Hi Hh _ _ _ _ _]. rewrite Hi, Hh in Hin.
    apply list_elem_of_bind in Hin as (i & Hin & Hii). apply list_elem_of_fmap in Hin as (h' & [= -> ->] & Hh').
    by eapply research_opinion_replayed. }
  exists agent. eexists. split; [done|]. unfold research_node. rewrite Hag. cbn [mbind result_bind]. rewrite Hl.
  cbn [mbind result_bind]. split; [reflexivity|]. cbn. apply mapM_result_Ok, Forall2_length in Hl. rewrite <- Hl.
  unfold targets. destruct Hr as [_ -> -> _ _ _ _ _]. clear. induction instruments as [|i l IH]; [done|].
  rewrite bind_cons, length_app, length_fmap, IH. done.
Qed.

End Matrix.

(** ** Receipts *)

Section Receipts.
Context `{CanonicalHash} (dump_receipt : HandoffReceipt -> json).

Lemma receipt_digest_hash r hash :
  receipt_digest dump_receipt (with_receipt_hash r hash) = receipt_digest dump_receipt r.
Proof. done. Qed.

(** The attempt a receipt closes. *)
Definition attempt_closed (request : HandoffRequest) (attempt_number : option Z) (previous : option string)
    (r : HandoffReceipt) : Prop :=
  if bool_decide (hr_protocol_version request = HANDOFF_PROTOCOL_VERSION) then
    exists n, attempt_number = Some n /\ 1 <= n /\ rc_attempt_number r = Some (Some n)
      /\ (if n =? 1 then previous = None /\ rc_previous_receipt_hash r = None
          else exists h, previous = Some h /\ is_sha256_hex h = true /\ rc_previous_receipt_hash r = Some (Some h))
  else attempt_number = None /\ previous = None /\ rc_attempt_number r = None /\ rc_previous_receipt_hash r = None.

Lemma metadata_closed request n previous r :
  rc_protocol_version r = hr_protocol_version request ->
  hr_protocol_version request = HANDOFF_PROTOCOL_VERSION ->
  rc_attempt_number r = Some n ->
  rc_previous_receipt_hash r
  = (if negb (bool_decide (n = Some 1)) || bool_decide (is_Some previous) then Some previous else None) ->
  (match n with Some k => 1 <=? k | None => true end) = true ->
  opt_hash_ok (mjoin (rc_previous_receipt_hash r)) = true ->
  attempt_metadata_matches_protocol r = Ok tt ->
  attempt_closed request n previous r.
Proof.
  intros Hv Hp Hn Hprev Hpos Hhash Hm. unfold attempt_metadata_matches_protocol in Hm.
  rewrite raise_when_bind_Ok, Hv, Hp, Hn in Hm. destruct Hm as [_ Hm]. unfold HANDOFF_PROTOCOL_VERSION in Hm.
  destruct n as [k|]; [|done]. rewrite raise_when_bind_Ok, raise_when_Ok in Hm. destruct Hm as [H1 H2]. bool_prop.
  unfold attempt_closed. rewrite Hp, bool_decide_true by done. exists k. split_and!; [done|done|done|].
  destruct (Z.eqb_spec k 1) as [->|Hk].
  - cbn in H1. bool_prop. destruct previous as [h|].
    + rewrite Hprev in H1. cbn in H1. by destruct H1.
    + rewrite Hprev. by split.
  - rewrite (proj2 (Z.ltb_lt 1 k)) in H2 by lia. rewrite bool_decide_false in Hprev by congruence. cbn in Hprev.
    rewrite Hprev in H2, Hhash |- *. destruct previous as [h|]; [|done]. by exists h.
Qed.

(** (receipts): a receipt that is built verifies against its hash, repeats
    the identity and the hashes of its request and drafts, names the provider
    of its protocol, and says which attempt it closes: the first has no
    predecessor, a later one the hash of the receipt before it, and older
    protocols number no attempts. *)
Theorem receipt_sealed request bundle outcome raw_hash drafts_hash drafts_raw_hash finalized_at
    attempt_number previous r :
  build_receipt dump_receipt request bundle outcome raw_hash drafts_hash drafts_raw_hash finalized_at
    attempt_number previous = Ok r ->
  verify_receipt_hash dump_receipt r = Ok tt
  /\ (rc_run_id r, rc_input_hash r, rc_request_hash r, rc_request_raw_hash r, rc_drafts_hash r, rc_drafts_raw_hash r)
     = (hr_run_id request, hr_input_hash request, hr_request_hash request, raw_hash, drafts_hash, drafts_raw_hash)
  /\ (rc_status r, rc_output_hash r, rc_opinion_count r, rc_forecast_count r, rc_error r)
     = (ro_status outcome, ro_output_hash outcome, ro_opinion_count outcome, ro_forecast_count outcome, ro_error outcome)
  /\ rc_provider r = provider_for_protocol (hr_protocol_version request)
  /\ is_aware (rc_finalized_at r) = true
  /\ Forall (fun hash => is_sha256_hex hash = true)
       [rc_input_hash r; rc_request_hash r; rc_request_raw_hash r; rc_drafts_hash r; rc_drafts_raw_hash r]
  /\ attempt_closed request attempt_number previous r.
Proof.
  unfold build_receipt. intros Hb. apply bind_Ok in Hb as ([number before] & Hmeta & Hb).
  apply bind_Ok in Hb as ([] & Hc & [= <-]). unfold check_receipt, check_aware, generator_ok, field_check in Hc. cbn [fst snd] in Hc.
  do 9 (rewrite raise_when_bind_Ok in Hc; let Hx := fresh "C" in destruct Hc as [Hx Hc]).
  apply bind_Ok in Hc as ([] & _ & Hc). do 3 (rewrite raise_when_bind_Ok in Hc; let Hx := fresh "C" in destruct Hc as [Hx Hc]).
  cbn [rc_finalized_at rc_input_hash rc_request_hash rc_request_raw_hash rc_drafts_hash rc_drafts_raw_hash
       rc_attempt_number rc_previous_receipt_hash] in *. bool_prop. split_and!; try done.
  - unfold verify_receipt_hash. apply raise_when_Ok, negb_false_iff, String.eqb_eq. done.
  - cbn. pose proof Hc as Hp. unfold attempt_metadata_matches_protocol in Hp.
    rewrite raise_when_bind_Ok in Hp. destruct Hp as [Hp _]. by bool_prop.
  - by rewrite !Forall_cons.
  - destruct (decide (hr_protocol_version request = HANDOFF_PROTOCOL_VERSION)) as [E|E].
    + rewrite bool_decide_true in Hmeta by done. injection Hmeta as <- <-.
      eapply metadata_closed; [reflexivity|exact E|reflexivity|reflexivity|done|done|exact Hc].
    + rewrite bool_decide_false in Hmeta by done. rewrite raise_when_bind_Ok in Hmeta.
      destruct Hmeta as [Hno [= <- <-]]. bool_prop. unfold attempt_closed. rewrite bool_decide_false by done.
      destruct attempt_number, previous; try (by destruct Hno); try done; exfalso; eauto.
Qed.

End Receipts.

(** ** Witnesses *)

Module Witnesses.
Import CommitteeProps.Witnesses.

#[local] Instance python : PyRuntime := {| runtime := Py312 |}.
#[local] Instance ascii_only : Uppercase := {| py_upper := fun s => s |}.
#[local] Instance terse : FloatFormat :=
  {| percent0 := fun _ => "15%"; percent1 := fun _ => "67%"; signed3 := fun _ => "+0.25" |}.
#[local] Instance constant_hash : CanonicalHash := {| canonical_hash := fun _ => digest |}.

Definition assignments : list HandoffAssignment :=
  match expected_assignments snapshot wiki [index1; index2] PROTOCOL_3 with Ok l => l | Err _ => [] end.

(** Each assignment answered with the evidence it allows. *)
Definition answer (a : HandoffAssignment) : HandoffDraftRecord :=
  mkDraftRecord (ha_agent_id a) (ha_index_code a) (ha_horizon a) (ha_agent_brief a)
    (bullish (ha_allowed_evidence_item_ids a)).

Definition request : HandoffRequest :=
  mkRequest PROTOCOL_3 "run-1" "live" CODEX_FILE_3 (hour 9) (hour 17) digest "0.5.0" "0.6.0" ∅ assignments digest.

Definition bundle : HandoffDraftBundle :=
  mkBundle PROTOCOL_3 "run-1" digest digest (hour 10) (mkGenerator None None) (answer <$> assignments).

Definition codes_NoDup : NoDup (idx_code <$> [index1; index2]).
Proof. apply (bool_decide_unpack _). by vm_compute. Qed.

Lemma expected : expected_assignments snapshot wiki [index1; index2] PROTOCOL_3 = Ok assignments.
Proof. by_vm. Qed.

Lemma checked : check_bundle bundle = Ok tt.
Proof. by_vm. Qed.

Lemma accepted : validate_bundle bundle request (hour 11) assignments = Ok tt.
Proof. by_vm. Qed.

Definition replaying : Workflow :=
  mkWorkflow (FileHandoffProvider (hb_drafts bundle) CODEX_FILE_3) false "model" [index1; index2] [D1] "0.5.0" ∅.

Lemma replaying_replays : replays snapshot wiki [index1; index2] PROTOCOL_3 bundle request CODEX_FILE_3 replaying start.
Proof.
  split; try done; [by exists (monday + 1), (monday + 2)|]. apply (bool_decide_unpack _). by vm_compute.
Qed.

Lemma accepted_matrix_witness :
  exists r, r ∈ hb_drafts bundle
    /\ get_draft (draft_table (hb_drafts bundle)) STRATEGY_AGENT_ID (idx_code index2) D1 = Ok (hd_draft r).
Proof.
  destruct (accepted_matrix snapshot wiki [index1; index2] PROTOCOL_3 bundle request (hour 11) assignments
              codes_NoDup expected checked accepted) as (_ & _ & _ & _ & Hall).
  destruct (Hall STRATEGY_AGENT_ID index2 D1) as (r & Hr & _ & Hg);
    [apply (bool_decide_unpack _); by vm_compute|right; left|left|].
  exact (ex_intro _ r (conj Hr Hg)).
Defined.

Lemma replayed_research_succeeds_witness :
  exists u, research_node name_of replaying "market_news_agent" start = Ok u /\ length (up_opinions u) = 2%nat.
Proof.
  destruct (replayed_research_succeeds snapshot wiki [index1; index2] PROTOCOL_3 bundle request (hour 11) assignments
              codes_NoDup expected checked accepted name_of CODEX_FILE_3 replaying start "market_news_agent"
              replaying_replays) as (agent & u & _ & Hu & Hl).
  - apply (bool_decide_unpack _). by vm_compute.
  - exact (ex_intro _ u (conj Hu Hl)).
Defined.

Definition outcome : ReceiptOutcome := mkOutcome failed None 0 0 (Some "ValueError: draft identity matrix is incomplete").

Lemma receipt_sealed_witness :
  exists r, build_receipt (fun _ => JNull) request bundle outcome digest digest digest (hour 11) (Some 2) (Some digest) = Ok r
    /\ verify_receipt_hash (fun _ => JNull) r = Ok tt.
Proof.
  destruct (build_receipt (fun _ => JNull) request bundle outcome digest digest digest (hour 11) (Some 2) (Some digest))
    as [r|e] eqn:Er.
  - exact (ex_intro _ r (conj eq_refl (proj1 (receipt_sealed _ _ _ _ _ _ _ _ _ _ _ Er)))).
  - enough (is_ok (build_receipt (fun _ => JNull) request bundle outcome digest digest digest (hour 11) (Some 2) (Some digest)) = true)
      by (by rewrite Er in *). by_vm.
Defined.

End Witnesses.

End HandoffProps.
