(* ===== verification/ResearchV2.v ===== *)
(** * Contracts of the focused v2 research loop ([backend/app/research_v2.py])

    The frozen research program, the evidence snapshot with its exchange
    calendar, the signals of the agents, the sealed request and draft bundle,
    the outcome observations, and the deterministic mathematics on them:
    sample volatility, neutral band, outcome label, Brier score, baselines. *)
From Stdlib Require Import Floats.SpecFloat.
From S2P Require Import Prelude PyStr PyTime Float64 Domain Json Contracts Wiki.
Import PyStr PyTime Float64 Json Contracts.
Open Scope string_scope.
Open Scope Z_scope.

Module ResearchV2.

Abbreviation Direction := Domain.Direction.
Abbreviation UP := Domain.UP.
Abbreviation NEUTRAL := Domain.NEUTRAL.
Abbreviation DOWN := Domain.DOWN.
Abbreviation direction_value := Domain.direction_value.
Abbreviation all_directions := Domain.all_directions.
Abbreviation Probs := Domain.Probs.
Abbreviation prob := Domain.prob.

Definition CSI1000 : string := "000852.SH".
Definition CSI300 : string := "000300.SH".
Definition CSI1000_D1_TARGET : string := "csi1000-absolute-d1".
Definition CSI1000_RELATIVE_W1_TARGET : string := "csi1000-vs-csi300-relative-w1".
Definition CSI1000_D20_RESEARCH_TARGET : string := "csi1000-absolute-d20".

Inductive V2Horizon := D1 | W1 | D20.

#[global] Instance v2horizon_eq_dec : EqDecision V2Horizon.
Proof. solve_decision. Defined.

Definition v2horizon_value (h : V2Horizon) : string := match h with D1 => "D1" | W1 => "W1" | D20 => "D20" end.

(** [V2Horizon.session_count] *)
Definition session_count (h : V2Horizon) : Z := match h with D1 => 1 | W1 => 5 | D20 => 20 end.

Inductive SignalKindV2 := NATURAL_VIEW | D1_IMPACT | STRATEGY_FORECAST | RISK_CRITIQUE | DECISION_FORECAST.

#[global] Instance signal_kind_eq_dec : EqDecision SignalKindV2.
Proof. solve_decision. Defined.

Definition kind_value (k : SignalKindV2) : string :=
  match k with
  | NATURAL_VIEW => "natural_view" | D1_IMPACT => "d1_impact" | STRATEGY_FORECAST => "strategy_forecast"
  | RISK_CRITIQUE => "risk_critique" | DECISION_FORECAST => "decision_forecast"
  end.

Inductive Impact := positive | no_impact | negative.
Inductive Level := no_level | low | medium | high.
Inductive Lane := formal | shadow.
Inductive OutcomeKind := absolute_return | relative_return.
Inductive InstrumentRole := primary | benchmark.

#[global] Instance impact_eq_dec : EqDecision Impact.
Proof. solve_decision. Defined.
#[global] Instance level_eq_dec : EqDecision Level.
Proof. solve_decision. Defined.
#[global] Instance lane_eq_dec : EqDecision Lane.
Proof. solve_decision. Defined.
#[global] Instance role_eq_dec : EqDecision InstrumentRole.
Proof. solve_decision. Defined.

Definition level_value (l : Level) : string :=
  match l with no_level => "none" | low => "low" | medium => "medium" | high => "high" end.

(** [Field(ge=0, le=1, allow_inf_nan=False)] *)
Definition unit_interval (x : float) : bool := is_finite x && fleb f0 x && fleb x f1.

(** [Field(ge=0, allow_inf_nan=False)] *)
Definition non_negative (x : float) : bool := is_finite x && fleb f0 x.

(** The constraints and the validator of [ProbabilitiesV2]; its values are the
    probabilities of the three classes. *)
Definition validate_probabilities_v2 (p : Probs) : result Probs :=
  field_check (unit_interval (Domain.p_up p)) "up" ;;
  field_check (unit_interval (Domain.p_neutral p)) "neutral" ;;
  field_check (unit_interval (Domain.p_down p)) "down" ;;
  raise_when (negb (isclose rel_tol_default (lit 1 1000000)
                      (fadd (fadd (Domain.p_up p) (Domain.p_neutral p)) (Domain.p_down p)) f1))
    ValueError "probabilities must sum to one" ;;
  Ok p.

Definition as_list (p : Probs) : list float := prob p <$> all_directions.

(** ** The research program *)

Record ResearchInstrumentV2 := mkInstrument {
  ri_code : string; ri_name : string; ri_role : InstrumentRole; ri_data_required : bool }.

Record ResearchTargetV2 := mkTarget {
  rt_target_id : string;
  rt_label : string;
  rt_outcome_kind : OutcomeKind;
  rt_horizon : V2Horizon;
  rt_lane : Lane;
  rt_primary_instrument : string;
  rt_comparison_instrument : option string }.

Record ResearchScopeV2 := mkScope {
  rs_target_id : string; rs_label : string; rs_horizon : V2Horizon; rs_instrument : string }.

Record ResearchProgramBodyV2 := mkProgram {
  rp_program_id : string;
  rp_version : string;
  rp_instruments : list ResearchInstrumentV2;
  rp_decision_targets : list ResearchTargetV2;
  rp_research_scopes : list ResearchScopeV2 }.

(** [ResearchTargetV2.validate_comparison] *)
Definition validate_comparison (t : ResearchTargetV2) : result unit :=
  match rt_outcome_kind t with
  | relative_return =>
      raise_when (negb (truthy_opt (rt_comparison_instrument t))) ValueError
        "relative target requires comparison_instrument"
  | absolute_return =>
      raise_when (bool_decide (is_Some (rt_comparison_instrument t))) ValueError
        "absolute target cannot declare comparison_instrument"
  end.

(** [{key(x): value(x) for x in l}] *)
Definition dict_of {A B} (key : A -> string) (value : A -> B) (l : list A) : gmap string B :=
  fold_left (fun m x => <[key x := value x]> m) l ∅.

(** [validate_focused_program] *)
Definition validate_focused_program (p : ResearchProgramBodyV2) : result unit :=
  raise_when (negb (bool_decide (dict_of ri_code ri_role (rp_instruments p)
                                 = {[CSI1000 := primary; CSI300 := benchmark]}))) ValueError
    "v2 research program requires CSI1000 primary and CSI300 benchmark" ;;
  let targets := dict_of rt_target_id id (rp_decision_targets p) in
  match targets !! CSI1000_D1_TARGET, targets !! CSI1000_RELATIVE_W1_TARGET with
  | Some d1, Some w1 =>
      raise_when (negb (bool_decide (dom targets = {[CSI1000_D1_TARGET; CSI1000_RELATIVE_W1_TARGET]})))
        ValueError "v2 research program requires exactly the D1 and W1 targets" ;;
      raise_when (negb (bool_decide (rt_horizon d1 = D1)) || negb (bool_decide (rt_lane d1 = formal))
                  || negb (rt_primary_instrument d1 =? CSI1000)%string
                  || negb (bool_decide (rt_horizon w1 = W1)) || negb (bool_decide (rt_lane w1 = shadow))
                  || negb (rt_primary_instrument w1 =? CSI1000)%string
                  || negb (bool_decide (rt_comparison_instrument w1 = Some CSI300))) ValueError
        "v2 target semantics are fixed" ;;
      raise_when (negb (bool_decide (dom (dict_of rs_target_id id (rp_research_scopes p))
                                     = {[CSI1000_D20_RESEARCH_TARGET]}))) ValueError
        "v2 research program requires the CSI1000 D20 macro scope"
  | _, _ => raise ValueError "v2 research program requires exactly the D1 and W1 targets"
  end.

(** The validators of a program and of its targets. *)
Definition validate_program (p : ResearchProgramBodyV2) : result ResearchProgramBodyV2 :=
  mapM_result validate_comparison (rp_decision_targets p) ;;
  validate_focused_program p ;;
  Ok p.

Definition DEFAULT_PROGRAM_BODY : ResearchProgramBodyV2 :=
  mkProgram "csi1000-focused-loop" "2.0.0"
    [mkInstrument CSI1000 "中证1000" primary true; mkInstrument CSI300 "沪深300" benchmark true]
    [mkTarget CSI1000_D1_TARGET "中证1000下一交易日" absolute_return D1 formal CSI1000 None;
     mkTarget CSI1000_RELATIVE_W1_TARGET "中证1000相对沪深300未来5个交易日" relative_return W1 shadow CSI1000
       (Some CSI300)]
    [mkScope CSI1000_D20_RESEARCH_TARGET "中证1000未来20个交易日宏观状态" D20 CSI1000].

(** ** Sample volatility

    [statistics.stdev] of floats is exact until its last step: the sums are
    fractions, and the square root of the variance is rounded once. *)

Definition ratio : Type := Z * Z.

(** [x.as_integer_ratio()], not reduced. *)
Definition exact_ratio (x : float) : ratio :=
  match x with
  | S754_finite s m e =>
      let n := if s then Z.neg m else Z.pos m in
      if 0 <=? e then (n * 2 ^ e, 1) else (n, 2 ^ (- e))
  | _ => (0, 1)
  end.

Definition ratio_add (a b : ratio) : ratio := (a.1 * b.2 + b.1 * a.2, a.2 * b.2).
Definition ratio_sum (l : list ratio) : ratio := fold_left ratio_add l (0, 1).

(** [Fraction(n, d)] of a positive [d]. *)
Definition reduce (a : ratio) : ratio := let g := Z.gcd a.1 a.2 in (a.1 / g, a.2 / g).

Definition bit_length (n : Z) : Z := if 0 <? n then Z.log2 n + 1 else 0.

(** [_integer_sqrt_of_frac_rto] *)
Definition integer_sqrt_of_frac_rto (n m : Z) : Z :=
  let a := Z.sqrt (n / m) in
  Z.lor a (if a * a * m =? n then 0 else 1).

(** [_float_sqrt_of_frac] *)
Definition float_sqrt_of_frac (n m : Z) : float :=
  let q := (bit_length n - bit_length m - 109) / 2 in
  if 0 <=? q
  then int_div (Z.shiftl (integer_sqrt_of_frac_rto n (Z.shiftl m (2 * q))) q) 1
  else int_div (integer_sqrt_of_frac_rto (Z.shiftl n (-2 * q)) m) (Z.shiftl 1 (- q)).

(** The variance of at least two values. *)
Definition variance (l : list float) : ratio :=
  let rs := exact_ratio <$> l in
  let n := Z.of_nat (length l) in
  let sx := ratio_sum rs in
  let sxx := ratio_sum ((fun r => (r.1 * r.1, r.2 * r.2)) <$> rs) in
  let ss := (n * sxx.1 * (sx.2 * sx.2) - sx.1 * sx.1 * sxx.2, n * (sxx.2 * (sx.2 * sx.2))) in
  reduce (ss.1, ss.2 * (n - 1)).

(** [statistics.stdev] *)
Definition stdev (l : list float) : result float :=
  raise_when (Z.of_nat (length l) <? 2) ValueError "stdev requires at least two data points" ;;
  raise_when (negb (forallb is_finite l)) AttributeError "'float' object has no attribute 'numerator'" ;;
  let v := variance l in
  Ok (float_sqrt_of_frac v.1 v.2).

(** [l[-k:]] *)
Definition last_n {A} (k : nat) (l : list A) : list A := drop (length l - k) l.

(** ** The evidence snapshot *)

Record SourceStampV2 := mkStamp {
  ss_source_url : string; ss_source_hash : string; ss_observed_at : datetime; ss_ingested_at : datetime }.

Record TradingCalendarStampV2 := mkCalendarStamp {
  tc_stamp : SourceStampV2; tc_base_session : date; tc_sessions : list date }.

Record DailyReturnV2 := mkReturn { dr_trade_date : date; dr_daily_return : float; dr_source : SourceStampV2 }.

Record InstrumentEvidenceV2 := mkEvidence {
  ie_code : string; ie_volatility_20d : float; ie_returns : list DailyReturnV2 }.

Record EvidenceItemV2 := mkItem {
  it_item_id : string;
  it_title : string;
  it_summary : string;
  it_published_at : datetime;
  it_ingested_at : datetime;
  it_source_url : string;
  it_source_hash : string;
  it_entities : list string }.

Record EvidenceSnapshotBodyV2 := mkSnapshot {
  es_program_hash : string;
  es_as_of : datetime;
  es_data_cutoff : datetime;
  es_created_at : datetime;
  es_base_session : date;
  es_future_sessions : list date;
  es_calendar_source : TradingCalendarStampV2;
  es_instruments : gmap string InstrumentEvidenceV2;
  es_items : list EvidenceItemV2 }.

(** A body with the digest that seals it. *)
Record Sealed (A : Type) := mkSealed { body : A; content_hash : string }.
Arguments mkSealed {A}.
Arguments body {A}.
Arguments content_hash {A}.

Definition aware_time (d : datetime) (message : string) : result unit :=
  raise_when (negb (is_aware d)) ValueError message.

Definition validate_stamp (s : SourceStampV2) : result unit :=
  field_check (1 <=? py_len (ss_source_url s)) "source_url" ;;
  field_check (is_sha256_hex (ss_source_hash s)) "source_hash" ;;
  aware_time (ss_observed_at s) "source timestamps must be timezone-aware" ;;
  aware_time (ss_ingested_at s) "source timestamps must be timezone-aware".

(** Strictly increasing dates: sorted without repetition. *)
Fixpoint increasing (l : list date) : bool :=
  match l with
  | a :: ((b :: _) as rest) => (a <? b) && increasing rest
  | _ => true
  end.


(** ** Signals of the agents *)

Record AgentSignalDraftV2 := mkDraft {
  sd_signal_kind : SignalKindV2;
  sd_target_id : string;
  sd_natural_horizon : V2Horizon;
  sd_decision_horizon : option V2Horizon;
  sd_direction : option Direction;
  sd_probabilities : option Probs;
  sd_impact : option Impact;
  sd_importance : option Level;
  sd_risk_severity : option Level;
  sd_state_available : bool;
  sd_abstain : bool;
  sd_rationale : string;
  sd_transmission_chain : list string;
  sd_counter_evidence : list string;
  sd_invalidation_conditions : list string;
  sd_evidence_item_ids : list string;
  sd_wiki_entry_id : string;
  sd_wiki_version : string;
  sd_wiki_section : string;
  sd_wiki_content_hash : string }.

Definition probabilistic (k : SignalKindV2) : bool :=
  match k with NATURAL_VIEW | STRATEGY_FORECAST | DECISION_FORECAST => true | _ => false end.

(** [max(values)] *)
Definition py_max (x : float) (l : list float) : float := fold_left fmax l x.

(** The classes whose probability is close to the maximum. *)
Definition winners (p : Probs) : list Direction :=
  let maximum := py_max (Domain.p_up p) [Domain.p_neutral p; Domain.p_down p] in
  List.filter (fun d => isclose rel_tol_default f0 (prob p d) maximum) all_directions.

(** [validate_kind_payload] *)
Definition validate_probabilistic (d : AgentSignalDraftV2) : result unit :=
  match sd_probabilities d, sd_direction d with
  | Some p, Some direction =>
      match winners p with
      | [expected] =>
          raise_when (negb (bool_decide (direction = expected))) ValueError
            "direction must match the maximum-probability class" ;;
          raise_when (bool_decide (is_Some (sd_impact d)) || bool_decide (is_Some (sd_importance d)))
            ValueError "probabilistic signal cannot contain impact fields" ;;
          raise_when (bool_decide (is_Some (sd_risk_severity d))) ValueError
            "probabilistic signal cannot contain risk severity" ;;
          raise_when (sd_abstain d) ValueError "probabilistic signals must provide a complete forecast"
      | _ => raise ValueError "the predicted class must have a unique maximum probability"
      end
  | _, _ => raise ValueError "probabilistic signal requires probabilities and direction"
  end.

Definition validate_d1_impact (d : AgentSignalDraftV2) : result unit :=
  raise_when (bool_decide (is_Some (sd_probabilities d)) || bool_decide (is_Some (sd_direction d)))
    ValueError "D1 impact is not a market probability forecast" ;;
  raise_when (bool_decide (is_Some (sd_risk_severity d))) ValueError
    "D1 impact cannot contain risk severity" ;;
  match sd_impact d, sd_importance d with
  | Some impact, Some importance =>
      let none := bool_decide (impact = no_impact) in
      let unimportant := bool_decide (importance = no_level) in
      raise_when (negb (sd_state_available d) && (negb (sd_abstain d) || negb none || negb unimportant))
        ValueError "missing natural state must produce an explicit no-impact abstention" ;;
      raise_when (sd_abstain d && (negb none || negb unimportant)) ValueError
        "an abstaining D1 impact must be explicitly no-impact" ;;
      raise_when (negb (Bool.eqb none unimportant)) ValueError
        "no-impact and no-importance must be declared together" ;;
      raise_when (empty (sd_transmission_chain d) && negb (sd_abstain d)) ValueError
        "non-abstaining D1 impact requires a transmission chain"
  | _, _ => raise ValueError "D1 impact requires impact and importance"
  end.

Definition validate_risk_critique (d : AgentSignalDraftV2) : result unit :=
  raise_when (bool_decide (is_Some (sd_probabilities d)) || bool_decide (is_Some (sd_direction d))
              || bool_decide (is_Some (sd_impact d)) || bool_decide (is_Some (sd_importance d)))
    ValueError "risk critique cannot contain a direction vote" ;;
  raise_when (bool_decide (sd_risk_severity d = None)) ValueError "risk critique requires risk_severity" ;;
  raise_when (empty (sd_counter_evidence d) || empty (sd_invalidation_conditions d)) ValueError
    "risk critique requires counter evidence and invalidation conditions".

Definition validate_kind_payload (d : AgentSignalDraftV2) : result unit :=
  match sd_signal_kind d with
  | NATURAL_VIEW | STRATEGY_FORECAST | DECISION_FORECAST => validate_probabilistic d
  | D1_IMPACT => validate_d1_impact d
  | RISK_CRITIQUE => validate_risk_critique d
  end.

Definition at_most (n : Z) {A} (l : list A) : bool := Z.of_nat (length l) <=? n.

(** The constraints and the validator of [AgentSignalDraftV2]. *)
Definition validate_draft_v2 (d : AgentSignalDraftV2) : result AgentSignalDraftV2 :=
  match sd_probabilities d with
  | Some p => validate_probabilities_v2 p ;; Ok tt
  | None => Ok tt
  end ;;
  field_check (length_ok 1 8000 (sd_rationale d)) "rationale" ;;
  field_check (at_most 20 (sd_transmission_chain d)) "transmission_chain" ;;
  field_check (at_most 20 (sd_counter_evidence d)) "counter_evidence" ;;
  field_check (at_most 20 (sd_invalidation_conditions d)) "invalidation_conditions" ;;
  field_check (at_most 100 (sd_evidence_item_ids d)) "evidence_item_ids" ;;
  field_check (is_sha256_hex (sd_wiki_content_hash d)) "wiki_content_hash" ;;
  validate_kind_payload d ;;
  Ok d.

Inductive GenerationReason := daily | scheduled | bootstrap | external_shadow.

Record AgentSignalBodyV2 := mkSignal {
  sg_signal_id : string;
  sg_run_id : string;
  sg_agent_id : string;
  sg_agent_version : string;
  sg_model_name : string;
  sg_prompt_version : string;
  sg_target_id : string;
  sg_signal_kind : SignalKindV2;
  sg_natural_horizon : V2Horizon;
  sg_decision_horizon : option V2Horizon;
  sg_generation_reason : GenerationReason;
  sg_anchor_date : date;
  sg_target_date : date;
  sg_evidence_cutoff : datetime;
  sg_program_hash : string;
  sg_input_hash : string;
  sg_threshold : option float;
  sg_baseline_probabilities : option Probs;
  sg_draft : AgentSignalDraftV2;
  sg_created_at : datetime }.

(** ** The frozen request *)

Inductive Producer := codex | deterministic.

#[global] Instance producer_eq_dec : EqDecision Producer.
Proof. solve_decision. Defined.

Record HandoffAssignmentV3 := mkAssignment {
  as_assignment_id : string;
  as_agent_id : string;
  as_agent_version : string;
  as_model_name : string;
  as_prompt_version : string;
  as_producer : Producer;
  as_signal_kind : SignalKindV2;
  as_target_id : string;
  as_natural_horizon : V2Horizon;
  as_decision_horizon : option V2Horizon;
  as_generation_reason : GenerationReason;
  as_anchor_date : date;
  as_target_date : date;
  as_state_available : bool;
  as_prior_signal_id : option string;
  as_context_signal_ids : list string;
  as_depends_on_assignment_ids : list string;
  as_baseline_probabilities : option Probs;
  as_allowed_evidence_item_ids : list string;
  as_wiki_entry_id : string;
  as_wiki_version : string;
  as_wiki_section : string;
  as_wiki_content_hash : string;
  as_role : string }.

(** The frozen Wiki is kept as its entries. *)
Record CodexHandoffBodyV3 := mkHandoff {
  ch_run_id : string;
  ch_program : Sealed ResearchProgramBodyV2;
  ch_snapshot : Sealed EvidenceSnapshotBodyV2;
  ch_frozen_wiki : Wiki.FrozenWikiCatalog;
  ch_context_signals : list (Sealed AgentSignalBodyV2);
  ch_prepared_at : datetime;
  ch_input_hash : string;
  ch_trace_id : option string;
  ch_assignments : list HandoffAssignmentV3 }.

Record CodexDraftBundleV3 := mkDraftBundle {
  cb_run_id : string;
  cb_request_hash : string;
  cb_generated_at : datetime;
  cb_generated_by : gmap string string;
  cb_drafts : list (string * AgentSignalDraftV2) }.

(** ** Reasoning reviews and reflections *)

Record ReasoningReviewBodyV2 := mkReviewInput {
  rv_signal_id : string;
  rv_agent_id : string;
  rv_target_id : string;
  rv_signal_kind : SignalKindV2;
  rv_natural_horizon : V2Horizon;
  rv_decision_horizon : option V2Horizon;
  rv_anchor_date : date;
  rv_target_date : date;
  rv_evidence_cutoff : datetime;
  rv_rationale : string;
  rv_transmission_chain : list string;
  rv_counter_evidence : list string;
  rv_invalidation_conditions : list string;
  rv_probabilities : option Probs;
  rv_impact : option Impact;
  rv_importance : option Level;
  rv_risk_severity : option Level;
  rv_state_available : bool;
  rv_abstain : bool;
  rv_evidence_item_ids : list string;
  rv_wiki_entry_id : string;
  rv_wiki_version : string;
  rv_wiki_section : string;
  rv_wiki_content_hash : string }.

Record ReasoningRubricDraftV2 := mkRubric {
  rb_evidence_relevance : Z;
  rb_causal_chain : Z;
  rb_target_horizon_mapping : Z;
  rb_counter_evidence_and_invalidation : Z;
  rb_probability_uncertainty_consistency : Z;
  rb_advisory : string }.

Definition dimensions (r : ReasoningRubricDraftV2) : list Z :=
  [rb_evidence_relevance r; rb_causal_chain r; rb_target_horizon_mapping r;
   rb_counter_evidence_and_invalidation r; rb_probability_uncertainty_consistency r].

(** [total_score] and [has_zero_dimension] *)
Definition total_score (r : ReasoningRubricDraftV2) : Z := fold_left Z.add (dimensions r) 0.
Definition has_zero_dimension (r : ReasoningRubricDraftV2) : bool := bool_decide (0 ∈ dimensions r).

(** The constraints of the rubric; its model and effort are literals. *)
Definition validate_rubric (r : ReasoningRubricDraftV2) : result unit :=
  field_check (forallb (fun x => (0 <=? x) && (x <=? 2)) (dimensions r)) "dimension" ;;
  field_check (length_ok 1 4000 (rb_advisory r)) "advisory".

Inductive Verdict := right_reason | lucky_correct | wrong | noise | unresolved.

Record ReflectionDraftBodyV2 := mkReflection {
  rf_forecast_id : string;
  rf_forecast_hash : string;
  rf_evaluation_id : string;
  rf_evaluation_hash : string;
  rf_target_id : string;
  rf_anchor_date : date;
  rf_target_date : date;
  rf_actual_label : Direction;
  rf_verdict : Verdict;
  rf_findings : list json }.

(** ** Outcomes *)

Inductive Mode := demo | live.

#[global] Instance mode_eq_dec : EqDecision Mode.
Proof. solve_decision. Defined.

Record OutcomePriceSourceStampV2 := mkPriceSource {
  op_instrument : string; op_start_trade_date : date; op_end_trade_date : date; op_stamp : SourceStampV2 }.

Record OutcomeCalendarSourceStampV2 := mkCalendarSource {
  oc_sessions : list date; oc_stamp : SourceStampV2 }.

Record OutcomeObservationBodyV2 := mkObservation {
  oo_program_hash : string;
  oo_mode : Mode;
  oo_target_id : string;
  oo_anchor_date : date;
  oo_target_date : date;
  oo_primary_start_close : float;
  oo_primary_end_close : float;
  oo_comparison_start_close : option float;
  oo_comparison_end_close : option float;
  oo_observed_at : datetime;
  oo_primary_source : option OutcomePriceSourceStampV2;
  oo_comparison_source : option OutcomePriceSourceStampV2;
  oo_calendar_source : option OutcomeCalendarSourceStampV2;
  oo_source_hashes : gmap string string }.

Section Sealing.
Context `{CanonicalHash}.

(** Pydantic's JSON dumps of the sealed contracts, without their own hash. *)
Class ContractDumps := {
  dump_program : ResearchProgramBodyV2 -> json;
  dump_snapshot : EvidenceSnapshotBodyV2 -> json;
  dump_signal : AgentSignalBodyV2 -> json;
  dump_request : CodexHandoffBodyV3 -> json;
  dump_review_input : ReasoningReviewBodyV2 -> json;
  dump_reflection : ReflectionDraftBodyV2 -> json;
  dump_outcome : OutcomeObservationBodyV2 -> json }.

Definition calendar_payload (base_session : date) (sessions : list date) : json :=
  JObj {["schema_version" := JStr "forecast-loop.trading-calendar-payload/v2";
         "base_session" := JStr (iso_date base_session);
         "sessions" := JArr ((fun d => JStr (iso_date d)) <$> sessions)]}.

(** [validate_session_payload] *)
Definition validate_calendar (c : TradingCalendarStampV2) : result unit :=
  validate_stamp (tc_stamp c) ;;
  field_check (20 <=? Z.of_nat (length (tc_sessions c))) "sessions" ;;
  raise_when (negb (increasing (tc_sessions c))
              || existsb (fun s => s <=? tc_base_session c) (tc_sessions c)) ValueError
    "trading calendar sessions must be unique exchange sessions after base_session" ;;
  raise_when (negb (ss_source_hash (tc_stamp c)
                    =? canonical_hash (calendar_payload (tc_base_session c) (tc_sessions c)))%string)
    ValueError "calendar source_hash does not bind the frozen sessions".

Definition validate_return (r : DailyReturnV2) : result unit :=
  field_check (is_finite (dr_daily_return r)) "daily_return" ;;
  validate_stamp (dr_source r).

(** [ordered_unique_history] *)
Definition validate_instrument (i : InstrumentEvidenceV2) : result unit :=
  field_check (non_negative (ie_volatility_20d i)) "volatility_20d" ;;
  field_check (20 <=? Z.of_nat (length (ie_returns i))) "returns" ;;
  mapM_result validate_return (ie_returns i) ;;
  raise_when (negb (increasing (dr_trade_date <$> ie_returns i))) ValueError
    "return history must be strictly ordered and unique" ;;
  recomputed ← stdev (dr_daily_return <$> last_n 20 (ie_returns i));
  raise_when (negb (isclose (lit 1 1000000000) (lit 1 1000000000000) (ie_volatility_20d i) recomputed))
    ValueError ("volatility_20d must equal the sample volatility recomputed from "
                +:+ "the frozen trailing 20 daily returns").

Definition validate_item (i : EvidenceItemV2) : result unit :=
  field_check (is_sha256_hex (it_source_hash i)) "source_hash" ;;
  aware_time (it_published_at i) "evidence item timestamps must be timezone-aware" ;;
  aware_time (it_ingested_at i) "evidence item timestamps must be timezone-aware".

Definition return_dates (i : InstrumentEvidenceV2) : list date := dr_trade_date <$> ie_returns i.

(** The checks of one instrument against the snapshot. *)
Definition instrument_in_bounds (base_session : date) (cutoff : datetime) (i : InstrumentEvidenceV2)
    : result unit :=
  raise_when (negb (bool_decide (last (return_dates i) = Some base_session))) ValueError
    "return history must end on base_session" ;;
  raise_when (existsb (fun r => dt_ltb cutoff (ss_observed_at (dr_source r))
                                || dt_ltb cutoff (ss_ingested_at (dr_source r))) (ie_returns i))
    ValueError "return history crossed the evidence cutoff".

Context `{ContractDumps}.

(** [DEFAULT_RESEARCH_PROGRAM_V2.content_hash] *)
Definition PROGRAM_HASH : string := canonical_hash (dump_program DEFAULT_PROGRAM_BODY).

(** [validate_snapshot_boundary] *)
Definition validate_snapshot_boundary (s : EvidenceSnapshotBodyV2) : result unit :=
  raise_when (negb (es_program_hash s =? PROGRAM_HASH)%string) ValueError
    "snapshot program_hash does not match the v2 research program" ;;
  match es_instruments s !! CSI1000, es_instruments s !! CSI300 with
  | Some csi1000, Some csi300 =>
      raise_when (negb (bool_decide (dom (es_instruments s) = {[CSI1000; CSI300]}))) ValueError
        "snapshot must contain exactly CSI1000 and CSI300" ;;
      raise_when (negb (ie_code csi1000 =? CSI1000)%string || negb (ie_code csi300 =? CSI300)%string)
        ValueError "instrument evidence key/code mismatch" ;;
      raise_when (negb (increasing (es_future_sessions s))
                  || existsb (fun d => d <=? es_base_session s) (es_future_sessions s)) ValueError
        "future sessions must be unique exchange sessions after base_session" ;;
      raise_when (negb (tc_base_session (es_calendar_source s) =? es_base_session s)
                  || negb (bool_decide (tc_sessions (es_calendar_source s) = es_future_sessions s)))
        ValueError "future sessions must exactly match the frozen calendar payload" ;;
      raise_when (dt_ltb (es_as_of s) (es_data_cutoff s) || dt_ltb (es_created_at s) (es_data_cutoff s))
        ValueError "snapshot time ordering is invalid" ;;
      raise_when (dt_ltb (es_data_cutoff s) (ss_observed_at (tc_stamp (es_calendar_source s)))) ValueError
        "calendar was observed after the evidence cutoff" ;;
      raise_when (dt_ltb (es_data_cutoff s) (ss_ingested_at (tc_stamp (es_calendar_source s)))) ValueError
        "calendar was ingested after the evidence cutoff" ;;
      raise_when (negb (bool_decide (return_dates csi1000 = return_dates csi300))) ValueError
        "CSI1000 and CSI300 return histories must align by session" ;;
      mapM_result (instrument_in_bounds (es_base_session s) (es_data_cutoff s)) [csi1000; csi300] ;;
      raise_when (existsb (fun i => dt_ltb (es_data_cutoff s) (it_published_at i)
                                    || dt_ltb (es_data_cutoff s) (it_ingested_at i)) (es_items s))
        ValueError "evidence item is later than the evidence cutoff"
  | _, _ => raise ValueError "snapshot must contain exactly CSI1000 and CSI300"
  end.

(** The constraints and validators of [EvidenceSnapshotBodyV2]. *)
Definition validate_snapshot_body (s : EvidenceSnapshotBodyV2) : result EvidenceSnapshotBodyV2 :=
  field_check (is_sha256_hex (es_program_hash s)) "program_hash" ;;
  aware_time (es_as_of s) "snapshot timestamps must be timezone-aware" ;;
  aware_time (es_data_cutoff s) "snapshot timestamps must be timezone-aware" ;;
  aware_time (es_created_at s) "snapshot timestamps must be timezone-aware" ;;
  field_check (20 <=? Z.of_nat (length (es_future_sessions s))) "future_sessions" ;;
  validate_calendar (es_calendar_source s) ;;
  mapM_result (fun kv => validate_instrument kv.2) (map_to_list (es_instruments s)) ;;
  mapM_result validate_item (es_items s) ;;
  validate_snapshot_boundary s ;;
  Ok s.

(** [EvidenceSnapshotV2] *)
Definition validate_snapshot (s : Sealed EvidenceSnapshotBodyV2) : result (Sealed EvidenceSnapshotBodyV2) :=
  field_check (is_sha256_hex (content_hash s)) "content_hash" ;;
  validate_snapshot_body (body s) ;;
  raise_when (negb (content_hash s =? canonical_hash (dump_snapshot (body s)))%string) ValueError
    "evidence snapshot content_hash mismatch" ;;
  Ok s.

(** [seal_evidence_snapshot] *)
Definition seal_evidence_snapshot (b : EvidenceSnapshotBodyV2) : result (Sealed EvidenceSnapshotBodyV2) :=
  validate_snapshot (mkSealed b (canonical_hash (dump_snapshot b))).

(** ** Sealed signals, requests and reviews *)

(** [validate_identity_and_seal] *)
Definition signal_identity (b : AgentSignalBodyV2) : string * SignalKindV2 * V2Horizon * option V2Horizon :=
  (sg_target_id b, sg_signal_kind b, sg_natural_horizon b, sg_decision_horizon b).

Definition draft_identity (d : AgentSignalDraftV2) : string * SignalKindV2 * V2Horizon * option V2Horizon :=
  (sd_target_id d, sd_signal_kind d, sd_natural_horizon d, sd_decision_horizon d).

Definition opt_probabilities_ok (p : option Probs) : result unit :=
  match p with Some p => validate_probabilities_v2 p ;; Ok tt | None => Ok tt end.

(** The constraints and validators of [AgentSignalEnvelopeV2]. *)
Definition validate_signal (s : Sealed AgentSignalBodyV2) : result (Sealed AgentSignalBodyV2) :=
  let b := body s in
  field_check (is_sha256_hex (sg_program_hash b)) "program_hash" ;;
  field_check (is_sha256_hex (sg_input_hash b)) "input_hash" ;;
  field_check (match sg_threshold b with Some t => non_negative t | None => true end) "threshold" ;;
  opt_probabilities_ok (sg_baseline_probabilities b) ;;
  validate_draft_v2 (sg_draft b) ;;
  field_check (is_sha256_hex (content_hash s)) "content_hash" ;;
  raise_when (negb (sg_program_hash b =? PROGRAM_HASH)%string) ValueError "signal program hash mismatch" ;;
  raise_when (negb (bool_decide (signal_identity b = draft_identity (sg_draft b)))) ValueError
    "signal envelope/draft identity mismatch" ;;
  raise_when (sg_target_date b <=? sg_anchor_date b) ValueError "signal target_date must follow anchor_date" ;;
  raise_when (negb (content_hash s =? canonical_hash (dump_signal b))%string) ValueError
    "agent signal content_hash mismatch" ;;
  Ok s.

Definition subset_of (l allowed : list string) : bool := forallb (fun x => bool_decide (x ∈ allowed)) l.

(** The references of one assignment. *)
Definition validate_references (context_ids identities : list string) (a : HandoffAssignmentV3)
    : result unit :=
  raise_when (negb (subset_of (as_context_signal_ids a) context_ids)) ValueError
    "assignment references an unavailable context signal" ;;
  raise_when (negb (subset_of (as_depends_on_assignment_ids a) identities)) ValueError
    "assignment dependency is unavailable" ;;
  raise_when (bool_decide (as_assignment_id a ∈ as_depends_on_assignment_ids a)) ValueError
    "assignment cannot depend on itself".

Definition validate_assignment (a : HandoffAssignmentV3) : result unit :=
  opt_probabilities_ok (as_baseline_probabilities a) ;;
  field_check (is_sha256_hex (as_wiki_content_hash a)) "wiki_content_hash".

Definition is_trace_id (s : string) : bool := (String.length s =? 32)%nat && all_bytes is_hex s.

(** [CodexHandoffRequestV3]: the constraints and [validate_request_hash].  The
    program is any program the model accepts; its own hash is not recomputed. *)
Definition validate_request (r : Sealed CodexHandoffBodyV3) : result (Sealed CodexHandoffBodyV3) :=
  let b := body r in
  validate_program (body (ch_program b)) ;;
  field_check (is_sha256_hex (content_hash (ch_program b))) "content_hash" ;;
  validate_snapshot (ch_snapshot b) ;;
  field_check (1 <=? Z.of_nat (length (ch_frozen_wiki b))) "frozen_wiki" ;;
  mapM_result validate_signal (ch_context_signals b) ;;
  field_check (is_sha256_hex (ch_input_hash b)) "input_hash" ;;
  field_check (match ch_trace_id b with Some t => is_trace_id t | None => true end) "trace_id" ;;
  mapM_result validate_assignment (ch_assignments b) ;;
  field_check (1 <=? Z.of_nat (length (ch_assignments b))) "assignments" ;;
  field_check (is_sha256_hex (content_hash r)) "request_hash" ;;
  let identities := as_assignment_id <$> ch_assignments b in
  raise_when (negb (bool_decide (NoDup identities))) ValueError "handoff assignment IDs must be unique" ;;
  let context_ids := (fun s => sg_signal_id (body s)) <$> ch_context_signals b in
  raise_when (negb (bool_decide (NoDup context_ids))) ValueError "handoff context signal IDs must be unique" ;;
  mapM_result (validate_references context_ids identities) (ch_assignments b) ;;
  raise_when (negb (content_hash r =? canonical_hash (dump_request b))%string) ValueError
    "handoff request hash mismatch" ;;
  Ok r.

(** [unique_assignments] and the constraints of [CodexDraftBundleV3]. *)
Definition validate_draft_bundle (b : CodexDraftBundleV3) : result CodexDraftBundleV3 :=
  field_check (is_sha256_hex (cb_request_hash b)) "request_hash" ;;
  field_check (1 <=? Z.of_nat (length (cb_drafts b))) "drafts" ;;
  mapM_result (fun r => validate_draft_v2 r.2) (cb_drafts b) ;;
  raise_when (negb (bool_decide (NoDup (cb_drafts b).*1))) ValueError "draft assignment IDs must be unique" ;;
  raise_when (negb (bool_decide (cb_generated_by b !! "surface" = Some "codex"))) ValueError
    "prediction drafts must identify the Codex surface" ;;
  raise_when (negb (bool_decide (cb_generated_by b !! "model" = Some "gpt-5.6-sol"))) ValueError
    "prediction drafts must use the frozen model" ;;
  raise_when (negb (bool_decide (cb_generated_by b !! "reasoning_effort" = Some "high"))) ValueError
    "prediction drafts must use the frozen effort" ;;
  Ok b.

(** The payload of [reasoning_review_input]. *)
Definition review_body (b : AgentSignalBodyV2) : ReasoningReviewBodyV2 :=
  let d := sg_draft b in
  mkReviewInput (sg_signal_id b) (sg_agent_id b) (sg_target_id b) (sg_signal_kind b) (sg_natural_horizon b)
    (sg_decision_horizon b) (sg_anchor_date b) (sg_target_date b) (sg_evidence_cutoff b) (sd_rationale d)
    (sd_transmission_chain d) (sd_counter_evidence d) (sd_invalidation_conditions d) (sd_probabilities d)
    (sd_impact d) (sd_importance d) (sd_risk_severity d) (sd_state_available d) (sd_abstain d)
    (sd_evidence_item_ids d) (sd_wiki_entry_id d) (sd_wiki_version d) (sd_wiki_section d)
    (sd_wiki_content_hash d).

(** [ReasoningReviewInputV2] *)
Definition validate_review_input (r : Sealed ReasoningReviewBodyV2) : result (Sealed ReasoningReviewBodyV2) :=
  opt_probabilities_ok (rv_probabilities (body r)) ;;
  field_check (is_sha256_hex (rv_wiki_content_hash (body r))) "wiki_content_hash" ;;
  field_check (is_sha256_hex (content_hash r)) "review_input_hash" ;;
  raise_when (negb (content_hash r =? canonical_hash (dump_review_input (body r)))%string) ValueError
    "reasoning review input hash mismatch" ;;
  Ok r.

(** [reasoning_review_input] *)
Definition reasoning_review_input (s : Sealed AgentSignalBodyV2) : result (Sealed ReasoningReviewBodyV2) :=
  let b := review_body (body s) in
  validate_review_input (mkSealed b (canonical_hash (dump_review_input b))).

(** [ReflectionDraftBodyV2] and its seal. *)
Definition validate_reflection_body (b : ReflectionDraftBodyV2) : result unit :=
  field_check (1 <=? py_len (rf_forecast_id b)) "forecast_id" ;;
  field_check (is_sha256_hex (rf_forecast_hash b)) "forecast_hash" ;;
  field_check (1 <=? py_len (rf_evaluation_id b)) "evaluation_id" ;;
  field_check (is_sha256_hex (rf_evaluation_hash b)) "evaluation_hash" ;;
  field_check (bool_decide (rf_target_id b ∈ [CSI1000_D1_TARGET; CSI1000_RELATIVE_W1_TARGET])) "target_id" ;;
  field_check (at_most 100 (rf_findings b)) "findings" ;;
  raise_when (rf_target_date b <=? rf_anchor_date b) ValueError "reflection target_date must follow anchor_date".

Definition validate_reflection (r : Sealed ReflectionDraftBodyV2) : result (Sealed ReflectionDraftBodyV2) :=
  validate_reflection_body (body r) ;;
  field_check (is_sha256_hex (content_hash r)) "content_hash" ;;
  raise_when (negb (content_hash r =? canonical_hash (dump_reflection (body r)))%string) ValueError
    "reflection content_hash mismatch" ;;
  Ok r.

Definition seal_reflection_draft_v2 (b : ReflectionDraftBodyV2) : result (Sealed ReflectionDraftBodyV2) :=
  validate_reflection (mkSealed b (canonical_hash (dump_reflection b))).

(** ** Sealed outcomes *)

Definition validate_source_order (p : OutcomePriceSourceStampV2) : result unit :=
  field_check (bool_decide (op_instrument p ∈ [CSI1000; CSI300])) "instrument" ;;
  validate_stamp (op_stamp p) ;;
  raise_when (op_end_trade_date p <=? op_start_trade_date p) ValueError
    "outcome price source dates must be strictly ordered" ;;
  raise_when (dt_ltb (ss_ingested_at (op_stamp p)) (ss_observed_at (op_stamp p))) ValueError
    "outcome price source was ingested before it was observed".

Definition validate_calendar_order (c : OutcomeCalendarSourceStampV2) : result unit :=
  field_check ((2 <=? Z.of_nat (length (oc_sessions c))) && at_most 21 (oc_sessions c)) "sessions" ;;
  validate_stamp (oc_stamp c) ;;
  raise_when (negb (increasing (oc_sessions c))) ValueError
    "outcome calendar sessions must be ordered and unique" ;;
  raise_when (dt_ltb (ss_ingested_at (oc_stamp c)) (ss_observed_at (oc_stamp c))) ValueError
    "outcome calendar was ingested before it was observed".

Definition opt_check {A} (check : A -> result unit) (o : option A) : result unit :=
  match o with Some a => check a | None => Ok tt end.

Definition positive_price (x : float) : bool := is_finite x && fltb f0 x.

(** A price source bound to the episode. *)
Definition bound_to_episode (o : OutcomeObservationBodyV2) (instrument : string)
    (p : OutcomePriceSourceStampV2) : bool :=
  (op_instrument p =? instrument)%string && (op_start_trade_date p =? oo_anchor_date o)
  && (op_end_trade_date p =? oo_target_date o).

(** [expected_sessions] *)
Definition expected_sessions (target_id : string) : result nat :=
  if (target_id =? CSI1000_D1_TARGET)%string then Ok 2%nat
  else if (target_id =? CSI1000_RELATIVE_W1_TARGET)%string then Ok 6%nat
  else if (target_id =? CSI1000_D20_RESEARCH_TARGET)%string then Ok 21%nat
  else raise KeyError target_id.

(** [_validate_live_provenance] *)
Definition validate_live_provenance (o : OutcomeObservationBodyV2) : result unit :=
  match oo_primary_source o, oo_calendar_source o with
  | Some p, Some calendar =>
      raise_when (negb (bound_to_episode o CSI1000 p)) ValueError
        "live primary source is not bound to the outcome episode" ;;
      expected ← expected_sessions (oo_target_id o);
      raise_when (negb (length (oc_sessions calendar) =? expected)%nat
                  || negb (bool_decide (head (oc_sessions calendar) = Some (oo_anchor_date o)))
                  || negb (bool_decide (last (oc_sessions calendar) = Some (oo_target_date o)))) ValueError
        "live outcome calendar is not bound to the target horizon and episode" ;;
      (if (oo_target_id o =? CSI1000_RELATIVE_W1_TARGET)%string
       then raise_when (negb (match oo_comparison_source o with
                              | Some c => bound_to_episode o CSI300 c
                              | None => false
                              end)) ValueError
              "live benchmark source is not bound to the outcome episode"
       else raise_when (bool_decide (is_Some (oo_comparison_source o))) ValueError
              "absolute live outcomes cannot contain a benchmark source stamp") ;;
      let comparison := option_list (op_stamp <$> oo_comparison_source o) in
      raise_when (existsb (fun s => dt_ltb (oo_observed_at o) (ss_ingested_at s))
                    (op_stamp p :: oc_stamp calendar :: comparison)) ValueError
        "live outcome source stamp crossed observed_at" ;;
      let required : gmap string string :=
        <["calendar" := ss_source_hash (oc_stamp calendar)]> {[CSI1000 := ss_source_hash (op_stamp p)]} in
      let required := match oo_comparison_source o with
                      | Some c => <[CSI300 := ss_source_hash (op_stamp c)]> required
                      | None => required
                      end in
      raise_when (negb (bool_decide (oo_source_hashes o = required))) ValueError
        "live outcome source_hashes do not match the bound stamps"
  | _, _ => raise ValueError "live outcome requires primary and calendar source stamps"
  end.

(** [validate_observation] *)
Definition validate_observation_rules (o : OutcomeObservationBodyV2) : result unit :=
  raise_when (negb (oo_program_hash o =? PROGRAM_HASH)%string) ValueError "outcome program hash mismatch" ;;
  raise_when (negb (bool_decide (oo_target_id o ∈ [CSI1000_D1_TARGET; CSI1000_RELATIVE_W1_TARGET;
                                                    CSI1000_D20_RESEARCH_TARGET]))) ValueError
    "outcome target is not part of the v2 program" ;;
  raise_when (oo_target_date o <=? oo_anchor_date o) ValueError "outcome target_date must follow anchor_date" ;;
  let relative := (oo_target_id o =? CSI1000_RELATIVE_W1_TARGET)%string in
  raise_when (relative && (bool_decide (oo_comparison_start_close o = None)
                           || bool_decide (oo_comparison_end_close o = None))) ValueError
    "relative outcome requires benchmark closes" ;;
  raise_when (negb relative && (bool_decide (is_Some (oo_comparison_start_close o))
                                || bool_decide (is_Some (oo_comparison_end_close o)))) ValueError
    "absolute outcomes cannot contain benchmark closes" ;;
  raise_when (bool_decide (oo_source_hashes o = ∅)
              || existsb (fun kv => negb (is_sha256_hex kv.2)) (map_to_list (oo_source_hashes o))) ValueError
    "outcome source hashes must be lowercase SHA-256 values" ;;
  match oo_mode o with live => validate_live_provenance o | demo => Ok tt end.

(** The constraints and validators of [OutcomeObservationBodyV2]. *)
Definition validate_outcome_body (o : OutcomeObservationBodyV2) : result OutcomeObservationBodyV2 :=
  field_check (is_sha256_hex (oo_program_hash o)) "program_hash" ;;
  field_check (positive_price (oo_primary_start_close o)) "primary_start_close" ;;
  field_check (positive_price (oo_primary_end_close o)) "primary_end_close" ;;
  field_check (match oo_comparison_start_close o with Some x => positive_price x | None => true end)
    "comparison_start_close" ;;
  field_check (match oo_comparison_end_close o with Some x => positive_price x | None => true end)
    "comparison_end_close" ;;
  aware_time (oo_observed_at o) "outcome observed_at must be timezone-aware" ;;
  opt_check validate_source_order (oo_primary_source o) ;;
  opt_check validate_source_order (oo_comparison_source o) ;;
  opt_check validate_calendar_order (oo_calendar_source o) ;;
  validate_observation_rules o ;;
  Ok o.

(** [OutcomeObservationV2] *)
Definition validate_outcome (o : Sealed OutcomeObservationBodyV2) : result (Sealed OutcomeObservationBodyV2) :=
  validate_outcome_body (body o) ;;
  field_check (is_sha256_hex (content_hash o)) "content_hash" ;;
  raise_when (negb (content_hash o =? canonical_hash (dump_outcome (body o)))%string) ValueError
    "outcome observation content_hash mismatch" ;;
  Ok o.

(** [seal_outcome_observation] *)
Definition seal_outcome_observation (b : OutcomeObservationBodyV2) : result (Sealed OutcomeObservationBodyV2) :=
  b ← validate_outcome_body b;
  validate_outcome (mkSealed b (canonical_hash (dump_outcome b))).

End Sealing.

(** ** Targets, thresholds and scores *)

(** [target_date] *)
Definition target_date (s : EvidenceSnapshotBodyV2) (h : V2Horizon) : result date :=
  match es_future_sessions s !! Z.to_nat (session_count h - 1) with
  | Some d => Ok d
  | None => raise IndexError "list index out of range"
  end.

(** [absolute_threshold] *)
Definition absolute_threshold (volatility_20d : float) (h : V2Horizon) : result float :=
  raise_when (negb (is_finite volatility_20d) || fltb volatility_20d f0) ValueError
    "volatility must be finite and non-negative" ;;
  Ok (fmul (fmul (lit 1 4) volatility_20d) (fsqrt (of_Z (session_count h)))).

(** [{row.trade_date: row.daily_return for row in returns}] *)
Definition returns_by_date (i : InstrumentEvidenceV2) : gmap date float :=
  fold_left (fun m r => <[dr_trade_date r := dr_daily_return r]> m) (ie_returns i) ∅.

Definition instrument (s : EvidenceSnapshotBodyV2) (code : string) : result InstrumentEvidenceV2 :=
  match es_instruments s !! code with Some i => Ok i | None => raise KeyError code end.

(** [relative_volatility_20d] *)
Definition relative_volatility_20d (s : EvidenceSnapshotBodyV2) : result float :=
  csi1000 ← instrument s CSI1000;
  csi300 ← instrument s CSI300;
  let primary := returns_by_date csi1000 in
  let benchmark := returns_by_date csi300 in
  let shared := last_n 20 (merge_sort Z.le (elements (dom primary ∩ dom benchmark))) in
  raise_when ((length shared <? 20)%nat) ValueError
    "relative volatility requires 20 aligned return observations" ;;
  stdev ((fun d => fsub (default f0 (primary !! d)) (default f0 (benchmark !! d))) <$> shared).

(** [threshold_for_target] *)
Definition threshold_for_target (s : EvidenceSnapshotBodyV2) (target_id : string) : result float :=
  if (target_id =? CSI1000_D1_TARGET)%string then
    i ← instrument s CSI1000; absolute_threshold (ie_volatility_20d i) D1
  else if (target_id =? CSI1000_RELATIVE_W1_TARGET)%string then
    v ← relative_volatility_20d s; absolute_threshold v W1
  else if (target_id =? CSI1000_D20_RESEARCH_TARGET)%string then
    i ← instrument s CSI1000; absolute_threshold (ie_volatility_20d i) D20
  else raise KeyError target_id.

(** [classify_outcome] *)
Definition classify_outcome (value threshold : float) : result Direction :=
  raise_when (negb (is_finite value) || negb (is_finite threshold) || fltb threshold f0) ValueError
    "outcome and threshold must be finite" ;;
  Ok (if fltb threshold value then UP else if fltb value (fopp threshold) then DOWN else NEUTRAL).

Definition price_change (start_close end_close : float) : float := fsub (fdiv end_close start_close) f1.

(** [realized_outcome] *)
Definition realized_outcome (o : OutcomeObservationBodyV2) : result float :=
  let primary := price_change (oo_primary_start_close o) (oo_primary_end_close o) in
  if negb (oo_target_id o =? CSI1000_RELATIVE_W1_TARGET)%string then Ok primary
  else match oo_comparison_start_close o, oo_comparison_end_close o with
       | Some start_close, Some end_close => Ok (fsub primary (price_change start_close end_close))
       | _, _ => raise AssertionError ""
       end.

(** [multiclass_brier] of a label that is one of the three classes. *)
Definition multiclass_brier `{PyRuntime} (p : Probs) (actual : Direction) : float :=
  fdiv (py_sum ((fun d => fsquare (fsub (prob p d) (if bool_decide (actual = d) then f1 else f0)))
                  <$> all_directions))
    (lit 3 1).

Definition count_label (labels : list Direction) (d : Direction) : Z :=
  1 + Z.of_nat (length (List.filter (fun l => bool_decide (l = d)) labels)).

(** [smoothed_baseline] *)
Definition smoothed_baseline (labels : list Direction) : result Probs :=
  let total := Z.of_nat (length labels) + 3 in
  validate_probabilities_v2 (Domain.Probs_of (fun d => int_div (count_label labels d) total)).

(** ** Review checks *)

(** [deterministic_review_checks] *)
Definition deterministic_review_checks (d : AgentSignalDraftV2) : gmap string bool :=
  list_to_map
    [("has_citable_identity", truthy (sd_wiki_entry_id d) && truthy (sd_wiki_section d));
     ("has_rationale", truthy (py_strip (sd_rationale d)));
     ("has_counter_evidence", negb (empty (sd_counter_evidence d)));
     ("has_invalidation_condition", negb (empty (sd_invalidation_conditions d)));
     ("has_transmission_chain_when_applicable",
      negb (bool_decide (sd_signal_kind d = D1_IMPACT)) || sd_abstain d || negb (empty (sd_transmission_chain d)));
     ("probabilities_are_structurally_valid",
      if probabilistic (sd_signal_kind d) then bool_decide (is_Some (sd_probabilities d)) else true)].

Definition hex_value (c : Ascii.ascii) : Z :=
  let n := Z.of_nat (Ascii.nat_of_ascii c) in if n <=? 57 then n - 48 else n - 87.

(** [int(s, 16)] of lowercase hexadecimal digits *)
Definition int_of_hex (s : string) : Z :=
  fold_left (fun acc c => 16 * acc + hex_value c) (String.list_ascii_of_string s) 0.

(** [deterministic_human_sample] of a SHA-256 digest *)
Definition deterministic_human_sample (review_input_hash : string) : result bool :=
  raise_when (negb (py_len review_input_hash =? 64)) ValueError "review_input_hash must be SHA-256" ;;
  Ok (int_of_hex review_input_hash mod 10 =? 0).

(** [requires_human_review] *)
Definition requires_human_review (review_input_hash : string) (checks : gmap string bool)
    (rubric : ReasoningRubricDraftV2) : result bool :=
  sampled ← deterministic_human_sample review_input_hash;
  Ok (sampled || negb (forallb snd (map_to_list checks)) || (total_score rubric <? 7)
      || has_zero_dimension rubric).

End ResearchV2.
