(* ===== verification/ResearchRows.v ===== *)
(** * The tables of the v2 research loop ([backend/app/models.py])

    One record per table of the v2 workflow, the database as the list of the
    rows of each table, unique constraints, and the queries that several
    operations share. *)
From S2P Require Import Prelude PyStr PyTime Float64 Domain Json Contracts ResearchV2.
Import PyStr PyTime Float64 Json Contracts ResearchV2.
Open Scope string_scope.
Open Scope list_scope.
Open Scope Z_scope.

Module ResearchRows.

Definition research_error {A} (m : string) : result A := raise ResearchV2Error m.
Definition research_when (b : bool) (m : string) : result unit := raise_when b ResearchV2Error m.

(** ** Rows

    A row keeps the columns that the code reads; the envelope of a signal keeps
    the others. *)

Inductive RunState := run_awaiting_draft | run_completed | run_failed.

#[global] Instance run_state_eq_dec : EqDecision RunState.
Proof. solve_decision. Defined.

Definition run_state_value (s : RunState) : string :=
  match s with run_awaiting_draft => "awaiting_draft" | run_completed => "completed" | run_failed => "failed" end.

Definition mode_value (m : Mode) : string := match m with demo => "demo" | live => "live" end.
Definition lane_value (l : Lane) : string := match l with formal => "formal" | shadow => "shadow" end.
Definition reason_value (r : GenerationReason) : string :=
  match r with
  | daily => "daily" | scheduled => "scheduled" | bootstrap => "bootstrap" | external_shadow => "external_shadow"
  end.

Record ReceiptV2 := mkReceipt {
  rc_run_id : string;
  rc_program_hash : string;
  rc_snapshot_hash : string;
  rc_input_hash : string;
  rc_request_hash : string;
  rc_drafts_raw_hash : string;
  rc_signal_ids : list string;
  rc_forecast_ids : list string;
  rc_completed_at : datetime }.

#[global] Instance receipt_eq_dec : EqDecision ReceiptV2.
Proof. solve_decision. Defined.

#[global] Instance sealed_eq_dec {A} `{EqDecision A} : EqDecision (Sealed A).
Proof. solve_decision. Defined.

#[global] Instance verdict_eq_dec : EqDecision Verdict.
Proof. solve_decision. Defined.

#[global] Instance reflection_body_eq_dec : EqDecision ReflectionDraftBodyV2.
Proof. solve_decision. Defined.

Record ResearchRunV2 := mkRun {
  rr_id : string;
  rr_program_hash : string;
  rr_snapshot_hash : string;
  rr_input_hash : string;
  rr_request_hash : option string;
  rr_mode : Mode;
  rr_status : RunState;
  rr_anchor_date : date;
  rr_prepared_at : datetime;
  rr_completed_at : option datetime;
  rr_receipt : option (Sealed ReceiptV2) }.

Record AgentSignalV2Record := mkSignalRow {
  sr_id : string;
  sr_run_id : string;
  sr_agent_id : string;
  sr_agent_version : string;
  sr_model_name : string;
  sr_target_id : string;
  sr_signal_kind : SignalKindV2;
  sr_natural_horizon : V2Horizon;
  sr_decision_horizon : option V2Horizon;
  sr_anchor_date : date;
  sr_target_date : date;
  sr_program_hash : string;
  sr_threshold : option float;
  sr_content_hash : string;
  sr_envelope : Sealed AgentSignalBodyV2;
  sr_created_at : datetime }.

Record ForecastV2 := mkForecast {
  fv_id : string;
  fv_run_id : string;
  fv_source_signal_id : string;
  fv_program_hash : string;
  fv_target_id : string;
  fv_horizon : V2Horizon;
  fv_configured_lane : Lane;
  fv_effective_lane : Lane;
  fv_anchor_date : date;
  fv_target_date : date;
  fv_probabilities : Probs;
  fv_threshold : option float;
  fv_baseline_probabilities : Probs;
  fv_rationale : string;
  fv_counter_evidence : list string;
  fv_invalidation_conditions : list string;
  fv_input_hash : string;
  fv_content_hash : string;
  fv_created_at : datetime }.

Record OutcomeObservationV2Record := mkOutcomeRow {
  or_id : string;
  or_program_hash : string;
  or_mode : Mode;
  or_target_id : string;
  or_anchor_date : date;
  or_target_date : date;
  or_actual_value : float;
  or_actual_label : Direction;
  or_threshold : float;
  or_observed_at : datetime;
  or_content_hash : string;
  or_observation : Sealed OutcomeObservationBodyV2 }.

Record SignalEvaluationV2 := mkSignalEvaluation {
  se_id : string;
  se_signal_id : string;
  se_observation_id : string;
  se_actual_label : Direction;
  se_brier_score : float;
  se_baseline_brier_score : float;
  se_direction_correct : bool;
  se_evaluated_at : datetime;
  se_content_hash : string }.

Record ForecastEvaluationV2 := mkForecastEvaluation {
  fe_id : string;
  fe_forecast_id : string;
  fe_signal_evaluation_id : string;
  fe_actual_value : float;
  fe_actual_label : Direction;
  fe_brier_score : float;
  fe_baseline_brier_score : float;
  fe_direction_correct : bool;
  fe_evaluated_at : datetime;
  fe_content_hash : string }.

Inductive HumanDecision := approved | rejected.

#[global] Instance human_decision_eq_dec : EqDecision HumanDecision.
Proof. solve_decision. Defined.

Definition decision_value (d : HumanDecision) : string :=
  match d with approved => "approved" | rejected => "rejected" end.

(** A human event: [ReasoningReviewHumanEventV2] names a review,
    [ReflectionReviewEventV2] a reflection. *)
Record HumanEvent := mkHumanEvent {
  he_id : string;
  he_subject_id : string;
  he_decision : HumanDecision;
  he_reviewer : string;
  he_notes : string;
  he_occurred_at : datetime;
  he_content_hash : string }.

Record ReasoningReviewV2 := mkReasoningReview {
  rw_id : string;
  rw_signal_id : string;
  rw_review_input_hash : string;
  rw_deterministic_checks : gmap string bool;
  rw_rubric : ReasoningRubricDraftV2;
  rw_total_score : Z;
  rw_human_review_required : bool;
  rw_human_review_status : string;
  rw_created_at : datetime;
  rw_content_hash : string }.

Record ReflectionV2 := mkReflectionRow {
  rl_id : string;
  rl_forecast_id : string;
  rl_forecast_hash : string;
  rl_evaluation_id : string;
  rl_evaluation_hash : string;
  rl_target_id : string;
  rl_anchor_date : date;
  rl_target_date : date;
  rl_actual_label : Direction;
  rl_verdict : Verdict;
  rl_findings : list json;
  rl_envelope : Sealed ReflectionDraftBodyV2;
  rl_created_at : datetime;
  rl_content_hash : string }.

Inductive ActivationType := activated | retired.

#[global] Instance activation_type_eq_dec : EqDecision ActivationType.
Proof. solve_decision. Defined.

Record ActivationEvidence := mkActivationEvidence {
  ae_forward_target_dates : Z;
  ae_approved_reflections : Z;
  ae_earliest_10 : list (date * string * string * string);
  ae_agent_eval_report_hash : string }.

Record ResearchActivationEventV2 := mkActivation {
  av_id : string;
  av_program_hash : string;
  av_target_id : string;
  av_event_type : ActivationType;
  av_evidence : ActivationEvidence;
  av_actor : string;
  av_occurred_at : datetime;
  av_previous_event_hash : option string;
  av_content_hash : string }.

(** The tables, each in the order its rows were added: a select without an
    [ORDER BY] returns them in this order. *)
Record ResearchDB := mkResearchDB {
  db_runs : list ResearchRunV2;
  db_signals : list AgentSignalV2Record;
  db_forecasts : list ForecastV2;
  db_observations : list OutcomeObservationV2Record;
  db_signal_evaluations : list SignalEvaluationV2;
  db_forecast_evaluations : list ForecastEvaluationV2;
  db_reasoning_reviews : list ReasoningReviewV2;
  db_reasoning_events : list HumanEvent;
  db_reflections : list ReflectionV2;
  db_reflection_events : list HumanEvent;
  db_activations : list ResearchActivationEventV2 }.

Definition empty_db : ResearchDB := mkResearchDB [] [] [] [] [] [] [] [] [] [] [].

Definition set_runs (l : list ResearchRunV2) (db : ResearchDB) : ResearchDB :=
  mkResearchDB l (db_signals db) (db_forecasts db) (db_observations db) (db_signal_evaluations db)
    (db_forecast_evaluations db) (db_reasoning_reviews db) (db_reasoning_events db) (db_reflections db)
    (db_reflection_events db) (db_activations db).
Definition set_signals (l : list AgentSignalV2Record) (db : ResearchDB) : ResearchDB :=
  mkResearchDB (db_runs db) l (db_forecasts db) (db_observations db) (db_signal_evaluations db)
    (db_forecast_evaluations db) (db_reasoning_reviews db) (db_reasoning_events db) (db_reflections db)
    (db_reflection_events db) (db_activations db).
Definition set_forecasts (l : list ForecastV2) (db : ResearchDB) : ResearchDB :=
  mkResearchDB (db_runs db) (db_signals db) l (db_observations db) (db_signal_evaluations db)
    (db_forecast_evaluations db) (db_reasoning_reviews db) (db_reasoning_events db) (db_reflections db)
    (db_reflection_events db) (db_activations db).
Definition set_observations (l : list OutcomeObservationV2Record) (db : ResearchDB) : ResearchDB :=
  mkResearchDB (db_runs db) (db_signals db) (db_forecasts db) l (db_signal_evaluations db)
    (db_forecast_evaluations db) (db_reasoning_reviews db) (db_reasoning_events db) (db_reflections db)
    (db_reflection_events db) (db_activations db).
Definition set_signal_evaluations (l : list SignalEvaluationV2) (db : ResearchDB) : ResearchDB :=
  mkResearchDB (db_runs db) (db_signals db) (db_forecasts db) (db_observations db) l
    (db_forecast_evaluations db) (db_reasoning_reviews db) (db_reasoning_events db) (db_reflections db)
    (db_reflection_events db) (db_activations db).
Definition set_forecast_evaluations (l : list ForecastEvaluationV2) (db : ResearchDB) : ResearchDB :=
  mkResearchDB (db_runs db) (db_signals db) (db_forecasts db) (db_observations db)
    (db_signal_evaluations db) l (db_reasoning_reviews db) (db_reasoning_events db) (db_reflections db)
    (db_reflection_events db) (db_activations db).
Definition set_reasoning_reviews (l : list ReasoningReviewV2) (db : ResearchDB) : ResearchDB :=
  mkResearchDB (db_runs db) (db_signals db) (db_forecasts db) (db_observations db)
    (db_signal_evaluations db) (db_forecast_evaluations db) l (db_reasoning_events db) (db_reflections db)
    (db_reflection_events db) (db_activations db).
Definition set_reasoning_events (l : list HumanEvent) (db : ResearchDB) : ResearchDB :=
  mkResearchDB (db_runs db) (db_signals db) (db_forecasts db) (db_observations db)
    (db_signal_evaluations db) (db_forecast_evaluations db) (db_reasoning_reviews db) l (db_reflections db)
    (db_reflection_events db) (db_activations db).
Definition set_reflections (l : list ReflectionV2) (db : ResearchDB) : ResearchDB :=
  mkResearchDB (db_runs db) (db_signals db) (db_forecasts db) (db_observations db)
    (db_signal_evaluations db) (db_forecast_evaluations db) (db_reasoning_reviews db)
    (db_reasoning_events db) l (db_reflection_events db) (db_activations db).
Definition set_reflection_events (l : list HumanEvent) (db : ResearchDB) : ResearchDB :=
  mkResearchDB (db_runs db) (db_signals db) (db_forecasts db) (db_observations db)
    (db_signal_evaluations db) (db_forecast_evaluations db) (db_reasoning_reviews db)
    (db_reasoning_events db) (db_reflections db) l (db_activations db).
Definition set_activations (l : list ResearchActivationEventV2) (db : ResearchDB) : ResearchDB :=
  mkResearchDB (db_runs db) (db_signals db) (db_forecasts db) (db_observations db)
    (db_signal_evaluations db) (db_forecast_evaluations db) (db_reasoning_reviews db)
    (db_reasoning_events db) (db_reflections db) (db_reflection_events db) l.

(** ** Queries *)

(** [ORDER BY] a decidable order; equal rows keep their place. *)
Definition by_bool {A} (before : A -> A -> bool) : relation A := fun a b => before a b = true.
#[global] Instance by_bool_dec {A} (before : A -> A -> bool) : RelDecision (by_bool before).
Proof. intros a b. unfold by_bool. apply _. Defined.

Definition order_by {A} (before : A -> A -> bool) (l : list A) : list A := merge_sort (by_bool before) l.

(** How the database orders two stored timestamps. *)
Class SqlTime := { sql_leb : datetime -> datetime -> bool }.

Definition run_of (db : ResearchDB) (run_id : string) : option ResearchRunV2 :=
  List.find (fun r => (rr_id r =? run_id)%string) (db_runs db).

(** The join of a row with its run: the run has the mode. *)
Definition in_mode (db : ResearchDB) (run_id : string) (m : Mode) : bool :=
  match run_of db run_id with Some r => bool_decide (rr_mode r = m) | None => false end.

Definition forecast_evaluation (db : ResearchDB) (forecast_id : string) : option ForecastEvaluationV2 :=
  List.find (fun e => (fe_forecast_id e =? forecast_id)%string) (db_forecast_evaluations db).

Definition signals_of (db : ResearchDB) (run_id : string) : list AgentSignalV2Record :=
  List.filter (fun s => (sr_run_id s =? run_id)%string) (db_signals db).

(** A unique constraint: no stored row may clash with a new one. *)
Definition insert_row {A} (clash : A -> bool) (row : A) (table : list A) : result (list A) :=
  raise_when (existsb clash table) IntegrityError "UNIQUE constraint failed" ;;
  Ok (table ++ [row]).

Definition signal_clash (s t : AgentSignalV2Record) : bool :=
  (sr_id t =? sr_id s)%string || (sr_content_hash t =? sr_content_hash s)%string
  || ((sr_run_id t =? sr_run_id s)%string && (sr_agent_id t =? sr_agent_id s)%string
      && (sr_target_id t =? sr_target_id s)%string && bool_decide (sr_signal_kind t = sr_signal_kind s)).

Definition forecast_clash (f g : ForecastV2) : bool :=
  (fv_id g =? fv_id f)%string || (fv_content_hash g =? fv_content_hash f)%string
  || (fv_source_signal_id g =? fv_source_signal_id f)%string
  || ((fv_run_id g =? fv_run_id f)%string && (fv_target_id g =? fv_target_id f)%string).

Definition add_signal (row : AgentSignalV2Record) (db : ResearchDB) : result ResearchDB :=
  l ← insert_row (signal_clash row) row (db_signals db); Ok (set_signals l db).

Definition add_forecast (row : ForecastV2) (db : ResearchDB) : result ResearchDB :=
  l ← insert_row (forecast_clash row) row (db_forecasts db); Ok (set_forecasts l db).

End ResearchRows.
