(* ===== verification/ResearchFlow.v ===== *)
(** * The file-first v2 research workflow ([backend/app/services/research_v2.py])

    Preparing a frozen request from a snapshot, accepting the drafts of the
    external model, the deterministic chief investment officer, the forecasts
    with their lane, and the acceptance fence before the target session.  Each
    operation is one database transaction: it returns the new tables, or an
    exception and the tables stay as they were. *)
From S2P Require Import Prelude PyStr PyTime Float64 Domain Json Contracts Wiki Snapshot ResearchV2 ResearchRows.
Import PyStr PyTime Float64 Json Contracts ResearchV2 ResearchRows.
Open Scope string_scope.
Open Scope list_scope.
Open Scope Z_scope.

Module ResearchFlow.

Abbreviation select_for_agent := Wiki.select_for_agent.
Abbreviation get_entry := Wiki.get_entry.
Abbreviation validate_trusted_source_url := Snapshot.validate_trusted_source_url.

Definition RESEARCH_RUN_SCHEMA_V2 : string := "forecast-loop.research-run/v2".
Definition FORECAST_SCHEMA_V2 : string := "forecast-loop.forecast/v2".
Definition AGENT_SIGNAL_SCHEMA_V2 : string := "forecast-loop.agent-signal/v2".
Definition CODEX_HANDOFF_SCHEMA_V3 : string := "forecast-loop.codex-handoff/v3".
Definition RESEARCH_AGENT_IDS : list string :=
  ["macro_policy_agent"; "market_news_agent"; "ai_storage_industry_agent"].
Definition STRATEGY_AGENT_ID : string := "strategy_agent".
Definition CRITIC_AGENT_ID : string := "risk_critic_agent".
Definition CIO_AGENT_ID : string := "cio_agent".
Definition FROZEN_CODEX_MODEL : string := "gpt-5.6-sol".

(** ** Cadence *)

(** [d.isocalendar()[:2]]: the year and the number of the week of its Thursday. *)
Definition iso_week (d : date) : Z * Z :=
  let thursday := d - weekday d + 3 in
  let year := c_year (ord2civil thursday) in
  (year, (thursday - ymd2ord year 1 1) / 7 + 1).

Definition year_month (d : date) : Z * Z := (c_year (ord2civil d), c_month (ord2civil d)).

Inductive Cadence := weekly | monthly.

(** [_natural_view_due] *)
Definition natural_view_due {A B} (active : option A) (latest : option B) (anchor_date previous_session : date)
    (cadence : Cadence) : bool :=
  match active with
  | Some _ => false
  | None =>
      match latest with
      | None => true
      | Some _ =>
          match cadence with
          | weekly => negb (bool_decide (iso_week anchor_date = iso_week previous_session))
          | monthly => negb (bool_decide (year_month anchor_date = year_month previous_session))
          end
      end
  end.

(** ** Assignments *)

Definition Views : Type := list ((string * string) * AgentSignalV2Record).

(** [d.get(key)] of a dict kept in its insertion order *)
Definition view (views : Views) (agent_id target_id : string) : option AgentSignalV2Record :=
  snd <$> List.find (fun kv => bool_decide (kv.1 = (agent_id, target_id))) views.

(** [d.setdefault(key, row)] *)
Definition set_default (views : Views) (row : AgentSignalV2Record) : Views :=
  match view views (sr_agent_id row) (sr_target_id row) with
  | Some _ => views
  | None => views ++ [((sr_agent_id row, sr_target_id row), row)]
  end.

(** [_assignment_id] *)
Definition assignment_id (agent_id : string) (kind : SignalKindV2) (target_id : string)
    (natural_horizon : V2Horizon) (decision_horizon : option V2Horizon) : string :=
  py_join ":" [agent_id; kind_value kind; target_id; v2horizon_value natural_horizon;
               match decision_horizon with Some h => v2horizon_value h | None => "none" end].

(** The target and the horizon of the natural view of a research agent. *)
Definition natural_scope (agent_id : string) : string * V2Horizon :=
  if (agent_id =? "market_news_agent")%string then (CSI1000_D1_TARGET, D1)
  else if (agent_id =? "ai_storage_industry_agent")%string then (CSI1000_RELATIVE_W1_TARGET, W1)
  else (CSI1000_D20_RESEARCH_TARGET, D20).

Section Workflow.
Context `{Wiki.Uppercase} `{CanonicalHash} `{ContractDumps} `{SqlTime}.

(** [_latest_natural_views] *)
Definition latest_natural_views (db : ResearchDB) (m : Mode) : Views :=
  let rows := List.filter (fun s => bool_decide (sr_signal_kind s = NATURAL_VIEW) && in_mode db (sr_run_id s) m)
                (db_signals db) in
  fold_left set_default (order_by (fun a b => sql_leb (sr_created_at b) (sr_created_at a)) rows) [].

(** [context_signals] of [prepare_research_run]: the unexpired state of the two
    agents with a longer horizon. *)
Definition context_signals (latest : Views) (base_session : date) : Views :=
  List.filter (fun kv => (base_session <? sr_target_date kv.2)
                         && bool_decide (sr_agent_id kv.2 ∈ ["macro_policy_agent"; "ai_storage_industry_agent"]))
    latest.

(** [_assignment] *)
Definition assignment (agent_id : string) (kind : SignalKindV2) (target_id : string)
    (natural_horizon : V2Horizon) (decision_horizon : option V2Horizon) (snapshot : EvidenceSnapshotBodyV2)
    (wiki : Wiki.FrozenWikiCatalog) (state_available : bool) (prior_signal_id : option string)
    (context_signal_ids depends_on_assignment_ids : list string) (baseline : option Probs)
    (producer : Producer) (reason : GenerationReason) : result HandoffAssignmentV3 :=
  entry ← select_for_agent wiki agent_id (Some CSI1000) None;
  match Wiki.we_sections entry, Domain.AGENT_BY_ID !! agent_id with
  | [], _ => raise IndexError "list index out of range"
  | _, None => raise KeyError agent_id
  | section :: _, Some agent =>
      target ← target_date snapshot (default natural_horizon decision_horizon);
      let a := mkAssignment (assignment_id agent_id kind target_id natural_horizon decision_horizon) agent_id
        (Domain.ag_version agent)
        (if bool_decide (producer = codex) then FROZEN_CODEX_MODEL else "forecast-loop-deterministic-cio")
        (if bool_decide (producer = codex) then CODEX_HANDOFF_SCHEMA_V3 else "deterministic-cio/v2")
        producer kind target_id natural_horizon decision_horizon reason (es_base_session snapshot) target
        state_available prior_signal_id context_signal_ids depends_on_assignment_ids baseline
        (it_item_id <$> es_items snapshot) (Wiki.we_id entry) (Wiki.we_version entry) (Wiki.ws_slug section)
        (Wiki.we_content_hash entry)
        (Domain.ag_role agent +:+ " Use Wiki " +:+ Wiki.we_id entry +:+ "@" +:+ Wiki.we_version entry
         +:+ " section " +:+ Wiki.ws_slug section
         +:+ ". Do not cite evidence outside allowed_evidence_item_ids.") in
      validate_assignment a ;;
      Ok a
  end.

Definition baseline_of (baselines : gmap string Probs) (target_id : string) : result Probs :=
  match baselines !! target_id with Some b => Ok b | None => raise KeyError target_id end.

(** The reason why a research agent gives a natural view now, if it does. *)
Definition natural_reason (active latest : Views) (anchor_date previous_session : date) (agent_id : string)
    : option GenerationReason :=
  let target_id := (natural_scope agent_id).1 in
  if (agent_id =? "market_news_agent")%string then Some daily
  else
    let cadence := if (agent_id =? "ai_storage_industry_agent")%string then weekly else monthly in
    let last_view := view latest agent_id target_id in
    if natural_view_due (view active agent_id target_id) last_view anchor_date previous_session cadence
    then Some (match last_view with None => bootstrap | Some _ => scheduled end)
    else None.

(** One research agent: its natural view when it is due, then the impact of its
    state on the next session. *)
Definition research_step (snapshot : EvidenceSnapshotBodyV2) (wiki : Wiki.FrozenWikiCatalog)
    (active latest : Views) (baselines : gmap string Probs) (previous_session : date)
    (assignments : list HandoffAssignmentV3) (agent_id : string) : result (list HandoffAssignmentV3) :=
  let '(target_id, horizon) := natural_scope agent_id in
  assignments ←
    match natural_reason active latest (es_base_session snapshot) previous_session agent_id with
    | Some reason =>
        baseline ← baseline_of baselines target_id;
        a ← assignment agent_id NATURAL_VIEW target_id horizon None snapshot wiki true None [] []
              (Some baseline) codex reason;
        Ok (assignments ++ [a])
    | None => Ok assignments
    end;
  if bool_decide (agent_id ∈ ["macro_policy_agent"; "ai_storage_industry_agent"]) then
    let own a := (as_agent_id a =? agent_id)%string && bool_decide (as_signal_kind a = NATURAL_VIEW) in
    let prior := view active agent_id target_id in
    let current := List.find (fun a => own a && (as_target_id a =? target_id)%string) assignments in
    let state_available := bool_decide (is_Some prior) || existsb own assignments in
    a ← assignment agent_id D1_IMPACT CSI1000_D1_TARGET
          (if (agent_id =? "macro_policy_agent")%string then D20 else W1) (Some D1) snapshot wiki
          state_available (sr_id <$> prior) (option_list (sr_id <$> prior))
          (option_list (as_assignment_id <$> current)) None codex daily;
    Ok (assignments ++ [a])
  else Ok assignments.

(** [_decision_target_due] *)
Definition decision_target_due (db : ResearchDB) (target_id : string) (base_session previous_session : date)
    (m : Mode) : bool :=
  if (target_id =? CSI1000_D1_TARGET)%string then true
  else if negb (target_id =? CSI1000_RELATIVE_W1_TARGET)%string then false
  else
    let rows := List.filter (fun f => (fv_program_hash f =? PROGRAM_HASH)%string
                                      && (fv_target_id f =? target_id)%string && in_mode db (fv_run_id f) m)
                  (db_forecasts db) in
    match order_by (fun a b => (fv_anchor_date b <? fv_anchor_date a)
                               || ((fv_anchor_date b =? fv_anchor_date a)
                                   && sql_leb (fv_created_at b) (fv_created_at a))) rows with
    | [] => true
    | latest :: _ =>
        negb (base_session <? fv_target_date latest)
        && negb (bool_decide (iso_week base_session = iso_week previous_session))
    end.

(** Strategy, risk critic and chief investment officer of one decision target. *)
Definition decision_step (db : ResearchDB) (m : Mode) (snapshot : EvidenceSnapshotBodyV2)
    (wiki : Wiki.FrozenWikiCatalog) (baselines : gmap string Probs) (previous_session : date)
    (research_ids context_ids : list string) (assignments : list HandoffAssignmentV3) (t : ResearchTargetV2)
    : result (list HandoffAssignmentV3) :=
  let id := rt_target_id t in
  let h := rt_horizon t in
  if negb (decision_target_due db id (es_base_session snapshot) previous_session m) then Ok assignments
  else
    let reason := if bool_decide (h = D1) then daily else scheduled in
    baseline ← baseline_of baselines id;
    strategy ← assignment STRATEGY_AGENT_ID STRATEGY_FORECAST id h (Some h) snapshot wiki true None
                 context_ids research_ids (Some baseline) codex reason;
    critic ← assignment CRITIC_AGENT_ID RISK_CRITIQUE id h (Some h) snapshot wiki true None
               context_ids [as_assignment_id strategy] None codex reason;
    cio ← assignment CIO_AGENT_ID DECISION_FORECAST id h (Some h) snapshot wiki true None
            [] [as_assignment_id strategy; as_assignment_id critic] (Some baseline) deterministic reason;
    Ok (assignments ++ [strategy; critic; cio]).

(** [snapshot.instruments[CSI1000].returns[-2].trade_date] *)
Definition previous_session_of (snapshot : EvidenceSnapshotBodyV2) : result date :=
  i ← instrument snapshot CSI1000;
  match ie_returns i !! (length (ie_returns i) - 2)%nat with
  | Some r => raise_when (length (ie_returns i) <? 2)%nat IndexError "list index out of range" ;; Ok (dr_trade_date r)
  | None => raise IndexError "list index out of range"
  end.

(** [_build_assignments] *)
Definition build_assignments (db : ResearchDB) (m : Mode) (snapshot : EvidenceSnapshotBodyV2)
    (wiki : Wiki.FrozenWikiCatalog) (active latest : Views) (baselines : gmap string Probs)
    : result (list HandoffAssignmentV3) :=
  previous_session ← previous_session_of snapshot;
  research ← for_each (research_step snapshot wiki active latest baselines previous_session) [] RESEARCH_AGENT_IDS;
  for_each (decision_step db m snapshot wiki baselines previous_session (as_assignment_id <$> research)
              ((fun kv => sr_id kv.2) <$> active)) research (rp_decision_targets DEFAULT_PROGRAM_BODY).

(** ** Frozen baselines *)

(** [_is_live_outcome_bound] *)
Definition is_live_outcome_bound (db : ResearchDB) (observation_id : string) : bool :=
  existsb (fun e =>
      (se_observation_id e =? observation_id)%string
      && existsb (fun s => (sr_id s =? se_signal_id e)%string
                           && match run_of db (sr_run_id s) with
                              | Some r => bool_decide (rr_mode r = live)
                                          && bool_decide (rr_status r = run_completed)
                              | None => false
                              end) (db_signals db))
    (db_signal_evaluations db).

Definition BASELINE_TARGETS : list string :=
  [CSI1000_D1_TARGET; CSI1000_RELATIVE_W1_TARGET; CSI1000_D20_RESEARCH_TARGET].

Definition episode (o : OutcomeObservationV2Record) : string * date * date :=
  (or_target_id o, or_anchor_date o, or_target_date o).

(** The first observation of each episode of a target. *)
Fixpoint first_of_episodes (seen : list (string * date * date)) (l : list OutcomeObservationV2Record)
    : list OutcomeObservationV2Record :=
  match l with
  | [] => []
  | o :: l =>
      if negb (bool_decide (or_target_id o ∈ BASELINE_TARGETS)) || bool_decide (episode o ∈ seen)
      then first_of_episodes seen l
      else o :: first_of_episodes (episode o :: seen) l
  end.

(** The observations a baseline counts. *)
Definition baseline_observations (db : ResearchDB) (cutoff : datetime) (m : Mode)
    : list OutcomeObservationV2Record :=
  let rows := List.filter (fun o => sql_leb (or_observed_at o) cutoff && bool_decide (or_mode o = m))
                (db_observations db) in
  let ordered := order_by (fun a b => (or_target_date a <? or_target_date b)
                                      || ((or_target_date a =? or_target_date b)
                                          && bool_decide (String.le (or_id a) (or_id b)))) rows in
  first_of_episodes []
    (List.filter (fun o => negb (bool_decide (m = live)) || is_live_outcome_bound db (or_id o)) ordered).

Definition labels_of (target_id : string) (l : list OutcomeObservationV2Record) : list Direction :=
  or_actual_label <$> List.filter (fun o => (or_target_id o =? target_id)%string) l.

(** [_frozen_baselines] *)
Definition frozen_baselines (db : ResearchDB) (cutoff : datetime) (m : Mode) : result (gmap string Probs) :=
  let observations := baseline_observations db cutoff m in
  pairs ← mapM_result (fun t => p ← smoothed_baseline (labels_of t observations); Ok (t, p)) BASELINE_TARGETS;
  Ok (list_to_map pairs).

(** ** Sealing a signal *)

Definition j_opt {A} (f : A -> json) (o : option A) : json := match o with Some a => f a | None => JNull end.
Definition j_time (d : datetime) : json := JStr (isoformat d).
Definition j_date (d : date) : json := JStr (iso_date d).
Definition j_strings (l : list string) : json := JArr (JStr <$> l).
Definition j_probs (p : Probs) : json :=
  JObj (list_to_map ((fun d => (direction_value d, JFloat (prob p d))) <$> all_directions)).

(** Pydantic's JSON dumps of the draft and of the receipt. *)
Class ServiceDumps := {
  dump_draft : AgentSignalDraftV2 -> json;
  dump_receipt : ReceiptV2 -> json }.

Context `{ServiceDumps}.

(** The dict that [_seal_signal] hashes; the contract hashes its own dump. *)
Definition signal_dict (b : AgentSignalBodyV2) : json :=
  JObj (list_to_map
    [("schema_version", JStr AGENT_SIGNAL_SCHEMA_V2); ("signal_id", JStr (sg_signal_id b));
     ("run_id", JStr (sg_run_id b)); ("agent_id", JStr (sg_agent_id b));
     ("agent_version", JStr (sg_agent_version b)); ("model_name", JStr (sg_model_name b));
     ("prompt_version", JStr (sg_prompt_version b)); ("target_id", JStr (sg_target_id b));
     ("signal_kind", JStr (kind_value (sg_signal_kind b)));
     ("natural_horizon", JStr (v2horizon_value (sg_natural_horizon b)));
     ("decision_horizon", j_opt (fun h => JStr (v2horizon_value h)) (sg_decision_horizon b));
     ("generation_reason", JStr (reason_value (sg_generation_reason b)));
     ("anchor_date", j_date (sg_anchor_date b)); ("target_date", j_date (sg_target_date b));
     ("evidence_cutoff", j_time (sg_evidence_cutoff b)); ("program_hash", JStr (sg_program_hash b));
     ("input_hash", JStr (sg_input_hash b)); ("threshold", j_opt JFloat (sg_threshold b));
     ("baseline_probabilities", j_opt j_probs (sg_baseline_probabilities b));
     ("draft", dump_draft (sg_draft b)); ("created_at", j_time (sg_created_at b))]).

(** [_seal_signal] *)
Definition seal_signal (r : CodexHandoffBodyV3) (a : HandoffAssignmentV3) (d : AgentSignalDraftV2)
    (created_at : datetime) (signal_id : string) : result (Sealed AgentSignalBodyV2) :=
  threshold ← match sd_probabilities d with
              | Some _ => t ← threshold_for_target (body (ch_snapshot r)) (as_target_id a); Ok (Some t)
              | None => Ok None
              end;
  let b := mkSignal signal_id (ch_run_id r) (as_agent_id a) (as_agent_version a) (as_model_name a)
    (as_prompt_version a) (as_target_id a) (as_signal_kind a) (as_natural_horizon a) (as_decision_horizon a)
    (as_generation_reason a) (as_anchor_date a) (as_target_date a) (es_data_cutoff (body (ch_snapshot r)))
    (content_hash (ch_program r)) (ch_input_hash r) threshold (as_baseline_probabilities a) d created_at in
  validate_signal (mkSealed b (canonical_hash (signal_dict b))).

(** [_signal_record] *)
Definition signal_record (s : Sealed AgentSignalBodyV2) : AgentSignalV2Record :=
  let b := body s in
  mkSignalRow (sg_signal_id b) (sg_run_id b) (sg_agent_id b) (sg_agent_version b) (sg_model_name b)
    (sg_target_id b) (sg_signal_kind b) (sg_natural_horizon b) (sg_decision_horizon b) (sg_anchor_date b)
    (sg_target_date b) (sg_program_hash b) (sg_threshold b) (content_hash s) s (sg_created_at b).

(** ** The deterministic chief investment officer *)

Definition discount (severity : Level) : float :=
  match severity with no_level => f0 | low => lit 5 100 | medium => lit 12 100 | high => lit 20 100 end.

(** [f"{discount:.0%}"] *)
Definition discount_text (severity : Level) : string :=
  match severity with no_level => "0%" | low => "5%" | medium => "12%" | high => "20%" end.

Definition blend (severity : Level) (p baseline : Probs) (d : Direction) : float :=
  fadd (fmul (fsub f1 (discount severity)) (prob p d)) (fmul (discount severity) (prob baseline d)).

Definition epsilon : float := lit 1 100000000.

(** A tie between classes that are exactly equal moves mass to neutral. *)
Definition break_tie (v : Probs) : Probs :=
  let maximum := py_max (Domain.p_up v) [Domain.p_neutral v; Domain.p_down v] in
  match List.filter (fun d => feqb (prob v d) maximum) all_directions with
  | [_] => v
  | _ => Domain.mkProbs (fsub (Domain.p_up v) (fdiv epsilon (of_Z 2))) (fadd (Domain.p_neutral v) epsilon)
           (fsub (Domain.p_down v) (fdiv epsilon (of_Z 2)))
  end.

(** [max(values, key=values.get)]: the first class of greatest probability. *)
Definition max_class (p : Probs) : Direction :=
  fold_left (fun best d => if fltb (prob p best) (prob p d) then d else best) [NEUTRAL; DOWN] UP.

Definition sorted_union (a b : list string) : list string :=
  merge_sort String.le (elements (list_to_set a ∪ list_to_set b : gset string)).

(** [_deterministic_cio_draft] *)
Definition deterministic_cio_draft (strategy critic : AgentSignalDraftV2) (a : HandoffAssignmentV3)
    : result AgentSignalDraftV2 :=
  match sd_probabilities strategy, as_baseline_probabilities a with
  | Some p, Some baseline =>
      match sd_risk_severity critic with
      | None => research_error "deterministic CIO requires explicit critic risk severity"
      | Some severity =>
          final ← validate_probabilities_v2 (break_tie (Domain.Probs_of (blend severity p baseline)));
          validate_draft_v2 (mkDraft DECISION_FORECAST (as_target_id a) (as_natural_horizon a)
            (as_decision_horizon a) (Some (max_class final)) (Some final) None None None true false
            ("Deterministic CIO policy retained the Strategy distribution and applied the frozen "
             +:+ level_value severity +:+ " Risk-Critic discount (" +:+ discount_text severity
             +:+ ") toward the cutoff-bound historical baseline.")
            (sd_transmission_chain strategy) (sd_counter_evidence critic) (sd_invalidation_conditions critic)
            (sorted_union (sd_evidence_item_ids strategy) (sd_evidence_item_ids critic))
            (as_wiki_entry_id a) (as_wiki_version a) (as_wiki_section a) (as_wiki_content_hash a))
      end
  | _, _ => research_error "deterministic CIO requires Strategy and frozen baseline"
  end.

(** ** Accepting the drafts *)

Definition deterministic_producer (a : HandoffAssignmentV3) : bool := bool_decide (as_producer a = deterministic).

Definition codex_assignments (r : CodexHandoffBodyV3) : list HandoffAssignmentV3 :=
  List.filter (fun a => negb (deterministic_producer a)) (ch_assignments r).

(** [{a.assignment_id: a for a in request.assignments}[id]] *)
Definition assignment_by_id (r : CodexHandoffBodyV3) (id : string) : result HandoffAssignmentV3 :=
  match last (List.filter (fun a => (as_assignment_id a =? id)%string) (ch_assignments r)) with
  | Some a => Ok a
  | None => raise KeyError id
  end.

Definition assignment_identity (a : HandoffAssignmentV3)
    : string * SignalKindV2 * V2Horizon * option V2Horizon :=
  (as_target_id a, as_signal_kind a, as_natural_horizon a, as_decision_horizon a).

(** One draft against its assignment. *)
Definition check_record (r : CodexHandoffBodyV3) (record : string * AgentSignalDraftV2) : result unit :=
  a ← assignment_by_id r record.1;
  let d := record.2 in
  research_when (negb (bool_decide (draft_identity d = assignment_identity a)))
    ("draft identity mismatch for " +:+ as_assignment_id a) ;;
  research_when (negb (subset_of (sd_evidence_item_ids d) (it_item_id <$> es_items (body (ch_snapshot r)))))
    "draft references evidence outside the frozen snapshot" ;;
  research_when (negb (Bool.eqb (sd_state_available d) (as_state_available a)))
    "draft changed the host-derived natural-state availability" ;;
  match get_entry (ch_frozen_wiki r) (as_wiki_entry_id a) with
  | None => research_error "draft changed the frozen Wiki identity"
  | Some entry =>
      research_when (negb (bool_decide ((sd_wiki_entry_id d, sd_wiki_version d, sd_wiki_section d,
                                         sd_wiki_content_hash d)
                                        = (as_wiki_entry_id a, as_wiki_version a, as_wiki_section a,
                                           as_wiki_content_hash a)))
                     || negb (sd_wiki_version d =? Wiki.we_version entry)%string
                     || negb (sd_wiki_content_hash d =? Wiki.we_content_hash entry)%string)
        "draft changed the frozen Wiki identity"
  end.

(** [validate_research_draft_bundle] of a Codex request, from the parsed bundle *)
Definition validate_research_draft_bundle (request : Sealed CodexHandoffBodyV3) (bundle : CodexDraftBundleV3)
    : result unit :=
  validate_draft_bundle bundle ;;
  let r := body request in
  research_when (negb (cb_run_id bundle =? ch_run_id r)%string
                 || negb (cb_request_hash bundle =? content_hash request)%string)
    "draft bundle does not bind the frozen request" ;;
  research_when (negb (bool_decide (list_to_set (cb_drafts bundle).*1
                                    =@{gset string} list_to_set (as_assignment_id <$> codex_assignments r))))
    "draft bundle must contain exactly every assignment" ;;
  mapM_result (check_record r) (cb_drafts bundle) ;;
  Ok tt.

(** [_prediction_finalize_deadline]: midnight of the earliest target session;
    [min] of the assignments of a request, which has at least one. *)
Definition prediction_finalize_deadline (r : CodexHandoffBodyV3) (zone : zoneinfo) : result datetime :=
  match as_target_date <$> ch_assignments r with
  | [] => raise ValueError "min() iterable argument is empty"
  | d :: l => Ok (combine (fold_left Z.min l d) 0 zone)
  end.

(** [_request_has_decision_target] *)
Definition has_decision_target (r : CodexHandoffBodyV3) (target_id : string) : bool :=
  existsb (fun a => (as_target_id a =? target_id)%string && bool_decide (as_signal_kind a = DECISION_FORECAST))
    (ch_assignments r).

(** [_effective_lane] *)
Definition effective_lane (db : ResearchDB) (target_id : string) (configured_lane : Lane) (m : Mode) : Lane :=
  if negb (bool_decide (m = live)) || bool_decide (configured_lane = shadow) then shadow
  else
    let rows := List.filter (fun e => (av_program_hash e =? PROGRAM_HASH)%string
                                      && (av_target_id e =? target_id)%string) (db_activations db) in
    match order_by (fun a b => sql_leb (av_occurred_at b) (av_occurred_at a)) rows with
    | latest :: _ => if bool_decide (av_event_type latest = activated) then formal else shadow
    | [] => shadow
    end.

(** ** Finalizing a run *)

Definition j_receipt (r : ReceiptV2) : json :=
  JObj (list_to_map
    [("schema_version", JStr "forecast-loop.research-receipt/v2"); ("run_id", JStr (rc_run_id r));
     ("status", JStr "completed"); ("program_hash", JStr (rc_program_hash r));
     ("snapshot_hash", JStr (rc_snapshot_hash r)); ("input_hash", JStr (rc_input_hash r));
     ("request_hash", JStr (rc_request_hash r)); ("drafts_raw_hash", JStr (rc_drafts_raw_hash r));
     ("signal_ids", j_strings (rc_signal_ids r)); ("forecast_ids", j_strings (rc_forecast_ids r));
     ("completed_at", j_time (rc_completed_at r))]).

(** [ReceiptV2] of a completed run *)
Definition validate_receipt (r : Sealed ReceiptV2) : result (Sealed ReceiptV2) :=
  raise_when (negb (content_hash r =? canonical_hash (dump_receipt (body r)))%string) ValueError
    "research receipt hash mismatch" ;;
  Ok r.

(** The seals of a stored run against its request. *)
Definition seals_match (run : ResearchRunV2) (request : Sealed CodexHandoffBodyV3) : bool :=
  (rr_input_hash run =? ch_input_hash (body request))%string
  && bool_decide (rr_request_hash run = Some (content_hash request))
  && (rr_snapshot_hash run =? content_hash (ch_snapshot (body request)))%string
  && (rr_program_hash run =? content_hash (ch_program (body request)))%string.

(** [_recover_completed_research_run]; [receipt_file] is what [receipt.json]
    holds, and a missing file is written again. *)
Definition recover_completed_research_run (request : Sealed CodexHandoffBodyV3) (raw_hash : string)
    (receipt_file : option (Sealed ReceiptV2)) (run : ResearchRunV2) : result ResearchRunV2 :=
  research_when (negb (seals_match run request))
    "completed database seals no longer match the handoff request" ;;
  match rr_receipt run with
  | None => raise ValueError "validation error for ReceiptV2"
  | Some stored =>
      receipt ← validate_receipt stored;
      research_when (negb (rc_run_id (body receipt) =? rr_id run)%string
                     || negb (rc_drafts_raw_hash (body receipt) =? raw_hash)%string)
        "completed receipt no longer binds drafts.json" ;;
      match receipt_file with
      | Some file =>
          validate_receipt file ;;
          research_when (negb (bool_decide (file = receipt)))
            "receipt.json conflicts with the immutable database receipt"
      | None => Ok tt
      end ;;
      Ok run
  end.

(** The signals a finalize has added, by assignment, the tables and the number
    of identifiers it has drawn. *)
Record Progress := mkProgress {
  pg_signals : list (string * AgentSignalV2Record);
  pg_db : ResearchDB;
  pg_drawn : nat }.

Definition signal_at (p : Progress) (id : string) : result AgentSignalV2Record :=
  match List.find (fun kv => (kv.1 =? id)%string) (pg_signals p) with
  | Some kv => Ok kv.2
  | None => raise KeyError id
  end.

(** Seal a draft, add its row. *)
Definition record_signal (uuid : nat -> string) (r : CodexHandoffBodyV3) (now : datetime) (p : Progress)
    (a : HandoffAssignmentV3) (d : AgentSignalDraftV2) : result Progress :=
  s ← seal_signal r a d now (uuid (pg_drawn p));
  db ← add_signal (signal_record s) (pg_db p);
  Ok (mkProgress (pg_signals p ++ [(as_assignment_id a, signal_record s)]) db (S (pg_drawn p))).

(** The signals of the external drafts. *)
Definition codex_signal (uuid : nat -> string) (r : CodexHandoffBodyV3) (now : datetime)
    (bundle : CodexDraftBundleV3) (p : Progress) (a : HandoffAssignmentV3) : result Progress :=
  match List.find (fun kv => (kv.1 =? as_assignment_id a)%string) (cb_drafts bundle) with
  | None => raise KeyError (as_assignment_id a)
  | Some record => record_signal uuid r now p a record.2
  end.

Definition of_target (agent_id : string) (kind : SignalKindV2) (t : ResearchTargetV2) : string :=
  assignment_id agent_id kind (rt_target_id t) (rt_horizon t) (Some (rt_horizon t)).

(** The deterministic signal of one decision target. *)
Definition cio_signal (uuid : nat -> string) (r : CodexHandoffBodyV3) (now : datetime) (p : Progress)
    (t : ResearchTargetV2) : result Progress :=
  if negb (has_decision_target r (rt_target_id t)) then Ok p
  else
    a ← assignment_by_id r (of_target CIO_AGENT_ID DECISION_FORECAST t);
    strategy ← signal_at p (of_target STRATEGY_AGENT_ID STRATEGY_FORECAST t);
    strategy ← validate_signal (sr_envelope strategy);
    critic ← signal_at p (of_target CRITIC_AGENT_ID RISK_CRITIQUE t);
    critic ← validate_signal (sr_envelope critic);
    draft ← deterministic_cio_draft (sg_draft (body strategy)) (sg_draft (body critic)) a;
    record_signal uuid r now p a draft.

Definition uniform : Probs :=
  let third := fdiv (of_Z 1) (of_Z 3) in Domain.mkProbs third third third.

Definition j_forecast (f : ForecastV2) : json :=
  JObj (list_to_map
    [("schema_version", JStr FORECAST_SCHEMA_V2); ("run_id", JStr (fv_run_id f));
     ("source_signal_id", JStr (fv_source_signal_id f)); ("program_hash", JStr (fv_program_hash f));
     ("target_id", JStr (fv_target_id f)); ("horizon", JStr (v2horizon_value (fv_horizon f)));
     ("configured_lane", JStr (lane_value (fv_configured_lane f)));
     ("effective_lane", JStr (lane_value (fv_effective_lane f)));
     ("anchor_date", j_date (fv_anchor_date f)); ("target_date", j_date (fv_target_date f));
     ("probabilities", j_probs (fv_probabilities f)); ("threshold", j_opt JFloat (fv_threshold f));
     ("baseline_probabilities", j_probs (fv_baseline_probabilities f));
     ("rationale", JStr (fv_rationale f)); ("counter_evidence", j_strings (fv_counter_evidence f));
     ("invalidation_conditions", j_strings (fv_invalidation_conditions f));
     ("input_hash", JStr (fv_input_hash f)); ("created_at", j_time (fv_created_at f))]).

Definition with_forecast_hash (f : ForecastV2) (hash : string) : ForecastV2 :=
  mkForecast (fv_id f) (fv_run_id f) (fv_source_signal_id f) (fv_program_hash f) (fv_target_id f)
    (fv_horizon f) (fv_configured_lane f) (fv_effective_lane f) (fv_anchor_date f) (fv_target_date f)
    (fv_probabilities f) (fv_threshold f) (fv_baseline_probabilities f) (fv_rationale f)
    (fv_counter_evidence f) (fv_invalidation_conditions f) (fv_input_hash f) hash (fv_created_at f).

(** The forecast of one decision target, from its decision signal. *)
Definition forecast_of (uuid : nat -> string) (run : ResearchRunV2) (r : CodexHandoffBodyV3) (now : datetime)
    (acc : Progress * list ForecastV2) (t : ResearchTargetV2) : result (Progress * list ForecastV2) :=
  let '(p, forecasts) := acc in
  if negb (has_decision_target r (rt_target_id t)) then Ok acc
  else
    source ← signal_at p (of_target CIO_AGENT_ID DECISION_FORECAST t);
    envelope ← validate_signal (sr_envelope source);
    match sd_probabilities (sg_draft (body envelope)) with
    | None => raise AssertionError ""
    | Some probabilities =>
        target ← target_date (body (ch_snapshot r)) (rt_horizon t);
        let f := mkForecast (uuid (pg_drawn p)) (rr_id run) (sr_id source) (content_hash (ch_program r))
          (rt_target_id t) (rt_horizon t) (rt_lane t)
          (effective_lane (pg_db p) (rt_target_id t) (rt_lane t) (rr_mode run))
          (es_base_session (body (ch_snapshot r))) target probabilities (sg_threshold (body envelope))
          (default uniform (sg_baseline_probabilities (body envelope)))
          (sd_rationale (sg_draft (body envelope))) (sd_counter_evidence (sg_draft (body envelope)))
          (sd_invalidation_conditions (sg_draft (body envelope))) (ch_input_hash r) "" now in
        let f := with_forecast_hash f (canonical_hash (j_forecast f)) in
        db ← add_forecast f (pg_db p);
        Ok (mkProgress (pg_signals p) db (S (pg_drawn p)), forecasts ++ [f])
    end.

Definition completed_run (run : ResearchRunV2) (now : datetime) (receipt : Sealed ReceiptV2) : ResearchRunV2 :=
  mkRun (rr_id run) (rr_program_hash run) (rr_snapshot_hash run) (rr_input_hash run) (rr_request_hash run)
    (rr_mode run) run_completed (rr_anchor_date run) (rr_prepared_at run) (Some now) (Some receipt).

Definition replace_run (run : ResearchRunV2) (db : ResearchDB) : ResearchDB :=
  set_runs ((fun r => if (rr_id r =? rr_id run)%string then run else r) <$> db_runs db) db.

(** The transaction of [_finalize_research_run_attempt]. *)
Definition finalize_transaction (uuid : nat -> string) (db : ResearchDB) (request : Sealed CodexHandoffBodyV3)
    (bundle : CodexDraftBundleV3) (raw_hash : string) (now : datetime) (run : ResearchRunV2)
    : result (ResearchRunV2 * ResearchDB) :=
  research_when (negb (bool_decide (rr_status run = run_awaiting_draft)))
    ("research run cannot finalize from " +:+ run_state_value (rr_status run)) ;;
  research_when (negb (seals_match run request)) "database seals no longer match the handoff request" ;;
  let r := body request in
  p ← for_each (codex_signal uuid r now bundle) (mkProgress [] db 0) (codex_assignments r);
  p ← for_each (cio_signal uuid r now) p (rp_decision_targets (body (ch_program r)));
  acc ← for_each (forecast_of uuid run r now) (p, []) (rp_decision_targets (body (ch_program r)));
  let '(p, forecasts) := acc in
  let b := mkReceipt (rr_id run) (rr_program_hash run) (rr_snapshot_hash run) (rr_input_hash run)
    (content_hash request) raw_hash (merge_sort String.le ((fun kv => sr_id kv.2) <$> pg_signals p))
    (merge_sort String.le (fv_id <$> forecasts)) now in
  receipt ← validate_receipt (mkSealed b (canonical_hash (j_receipt b)));
  let run := completed_run run now receipt in
  Ok (run, replace_run run (pg_db p)).

(** [finalize_research_run] of a Codex request, with the host clock and the
    files of the job: the request, the drafts with the digest of their bytes,
    and [receipt.json].  Trace records are left out. *)
Definition finalize_research_run (uuid : nat -> string) (zone : zoneinfo) (db : ResearchDB)
    (request : Sealed CodexHandoffBodyV3) (bundle : CodexDraftBundleV3) (raw_hash : string)
    (receipt_file : option (Sealed ReceiptV2)) (now : datetime) : result (ResearchRunV2 * ResearchDB) :=
  request ← validate_request request;
  validate_research_draft_bundle request bundle ;;
  match run_of db (ch_run_id (body request)) with
  | None => research_error "research run does not exist"
  | Some run =>
      if bool_decide (rr_status run = run_completed) then
        run ← recover_completed_research_run request raw_hash receipt_file run; Ok (run, db)
      else
        research_when (negb (is_aware now)) "finalize host time must be timezone-aware" ;;
        let accepted_at := astimezone zone now in
        deadline ← prediction_finalize_deadline (body request) zone;
        research_when (negb (wall_ltb accepted_at deadline))
          ("research finalize cutoff has passed; no forecast may be accepted on or "
           +:+ "after the earliest target session") ;;
        finalize_transaction uuid db request bundle raw_hash accepted_at run
  end.

(** ** Preparing a run *)

Section Live.
Context `{Snapshot.SourceUrl.UrlChecks}.

(** [_validate_live_snapshot_sources] *)
Definition validate_live_snapshot_sources (s : EvidenceSnapshotBodyV2) : result unit :=
  validate_trusted_source_url (ss_source_url (tc_stamp (es_calendar_source s))) "v2 trading calendar" ;;
  mapM_result (fun kv =>
      mapM_result (fun row =>
          validate_trusted_source_url (ss_source_url (dr_source row))
            ("v2 " +:+ ie_code kv.2 +:+ " return on " +:+ iso_date (dr_trade_date row)))
        (ie_returns kv.2))
    (map_to_list (es_instruments s)) ;;
  mapM_result (fun item => validate_trusted_source_url (it_source_url item) ("v2 evidence " +:+ it_item_id item))
    (es_items s) ;;
  Ok tt.

(** [_validate_live_outcome_sources] *)
Definition validate_live_outcome_sources (o : OutcomeObservationBodyV2) : result unit :=
  match oo_primary_source o, oo_calendar_source o with
  | Some p, Some calendar =>
      validate_trusted_source_url (ss_source_url (op_stamp p)) ("v2 outcome " +:+ CSI1000) ;;
      validate_trusted_source_url (ss_source_url (oc_stamp calendar)) "v2 outcome trading calendar" ;;
      match oo_comparison_source o with
      | Some c => validate_trusted_source_url (ss_source_url (op_stamp c)) ("v2 outcome " +:+ CSI300)
      | None => Ok tt
      end
  | _, _ => research_error "live outcome is missing required trusted source stamps"
  end.

Definition research_input_hash (snapshot : Sealed EvidenceSnapshotBodyV2) (m : Mode) : string :=
  canonical_hash (JObj (list_to_map
    [("schema_version", JStr RESEARCH_RUN_SCHEMA_V2); ("program_hash", JStr PROGRAM_HASH);
     ("snapshot_hash", JStr (content_hash snapshot)); ("mode", JStr (mode_value m))])).

(** A stored request is of the Codex contract or of a Responses contract. *)
Inductive StoredRequest := codex_request | responses_request.

(** The job a prepare answers with: the frozen job of the anchor date, or a new one. *)
Inductive PreparedJob := frozen_job (run_id : string) | new_job (request : Sealed CodexHandoffBodyV3).

(** The runs already frozen for an anchor date, oldest first. *)
Definition existing_runs (db : ResearchDB) (m : Mode) (anchor_date : date) : list ResearchRunV2 :=
  order_by (fun a b => negb (sql_leb (rr_prepared_at b) (rr_prepared_at a))
                       || (sql_leb (rr_prepared_at a) (rr_prepared_at b) && bool_decide (String.le (rr_id a) (rr_id b))))
    (List.filter (fun r => (rr_program_hash r =? PROGRAM_HASH)%string && bool_decide (rr_mode r = m)
                           && (rr_anchor_date r =? anchor_date)) (db_runs db)).

Definition set_request_hash (run : ResearchRunV2) (hash : string) : ResearchRunV2 :=
  mkRun (rr_id run) (rr_program_hash run) (rr_snapshot_hash run) (rr_input_hash run) (Some hash) (rr_mode run)
    (rr_status run) (rr_anchor_date run) (rr_prepared_at run) (rr_completed_at run) (rr_receipt run).

(** The request of a run that has its row. *)
Definition build_request (snapshot : Sealed EvidenceSnapshotBodyV2) (wiki : Wiki.FrozenWikiCatalog)
    (context : Views) (assignments : list HandoffAssignmentV3) (program_seal : string) (run : ResearchRunV2)
    (trace_id : string) : result (Sealed CodexHandoffBodyV3) :=
  signals ← mapM_result (fun row => validate_signal (sr_envelope row))
              (order_by (fun a b => bool_decide (String.le (sr_id a) (sr_id b))) (snd <$> context));
  let b := mkHandoff (rr_id run) (mkSealed DEFAULT_PROGRAM_BODY program_seal) snapshot wiki signals
    (rr_prepared_at run) (rr_input_hash run) (Some trace_id) assignments in
  validate_request (mkSealed b (canonical_hash (dump_request b))).

(** [WikiCatalog.freeze], from the entries the catalog reads *)
Definition freeze_catalog (entries : list Wiki.WikiEntryRead) (allow_demo_fallback : bool)
    (cutoff : option datetime) : result Wiki.FrozenWikiCatalog :=
  documents ← Wiki.runtime_documents entries allow_demo_fallback;
  match cutoff with
  | None => Ok documents
  | Some c =>
      raise_when (negb (is_aware c)) RuntimeError "Wiki cutoff must be timezone-aware" ;;
      match List.filter (Wiki.visible_at c) documents with
      | [] => raise RuntimeError ("Live Wiki entries are unpublished or newer than the evidence cutoff: "
                                  +:+ py_join ", " (merge_sort String.le (Wiki.we_id <$> documents)))
      | visible => Ok visible
      end
  end.

(** What [prepare_research_run] has computed when it adds the row of the run. *)
Record Plan := mkPlan {
  pl_snapshot : Sealed EvidenceSnapshotBodyV2;
  pl_wiki : Wiki.FrozenWikiCatalog;
  pl_context : Views;
  pl_assignments : list HandoffAssignmentV3;
  pl_run : ResearchRunV2 }.

(** The first transaction of a new run: admission precedes the row, so that
    unusable inputs do not take the anchor date. *)
Definition plan_run (uuid : nat -> string) (zone : zoneinfo) (db : ResearchDB) (catalog : list Wiki.WikiEntryRead)
    (snapshot : Sealed EvidenceSnapshotBodyV2) (m : Mode) (now : datetime) : result Plan :=
  let s := body snapshot in
  wiki ← freeze_catalog catalog (bool_decide (m = demo)) (if bool_decide (m = live) then Some (es_data_cutoff s) else None);
  let latest := latest_natural_views db m in
  let context := context_signals latest (es_base_session s) in
  baselines ← frozen_baselines db (es_data_cutoff s) m;
  assignments ← build_assignments db m s wiki context latest baselines;
  let run := mkRun (uuid 0%nat) PROGRAM_HASH (content_hash snapshot) (research_input_hash snapshot m) None m
    run_awaiting_draft (es_base_session s) now None None in
  Ok (mkPlan snapshot wiki context assignments run).

Definition run_clash (a b : ResearchRunV2) : bool :=
  (rr_id b =? rr_id a)%string || (rr_input_hash b =? rr_input_hash a)%string.

(** [prepare_research_run] with the Codex provider.  [stored] reads the request
    file of a frozen job, [trace_id] is the trace that the recorder starts.  The
    row of the run is committed before the request is built, the hash of the
    request after it. *)
Definition prepare_research_run (uuid : nat -> string) (zone : zoneinfo) (stored : string -> result StoredRequest)
    (trace_id : string) (db : ResearchDB) (catalog : list Wiki.WikiEntryRead)
    (snapshot : Sealed EvidenceSnapshotBodyV2) (m : Mode) (utc_now : datetime)
    : result PreparedJob * ResearchDB :=
  let planned :=
    snapshot ← validate_snapshot snapshot;
    (if bool_decide (m = live) then validate_live_snapshot_sources (body snapshot) else Ok tt) ;;
    match existing_runs db m (es_base_session (body snapshot)) with
    | _ :: _ :: _ =>
        research_error "multiple frozen v2 runs already exist for the same program, mode, and anchor date"
    | [frozen] =>
        research_when (bool_decide (rr_status frozen = run_failed))
          "the v2 anchor date already belongs to a failed frozen run" ;;
        request ← stored (rr_id frozen);
        match request with
        | responses_request => research_error "the anchor date is already sealed to another draft provider"
        | codex_request => Ok (inl (rr_id frozen))
        end
    | [] =>
        plan ← plan_run uuid zone db catalog snapshot m (astimezone zone utc_now);
        runs ← insert_row (run_clash (pl_run plan)) (pl_run plan) (db_runs db);
        Ok (inr (plan, set_runs runs db))
    end in
  match planned with
  | Err e => (Err e, db)
  | Ok (inl run_id) => (Ok (frozen_job run_id), db)
  | Ok (inr (plan, db)) =>
      match build_request (pl_snapshot plan) (pl_wiki plan) (pl_context plan) (pl_assignments plan) PROGRAM_HASH
              (pl_run plan) trace_id with
      | Err e => (Err e, db)
      | Ok request => (Ok (new_job request), replace_run (set_request_hash (pl_run plan) (content_hash request)) db)
      end
  end.

End Live.

End Workflow.

End ResearchFlow.
