(* ===== verification/ResearchOutcome.v ===== *)
(** * Outcomes, reviews and activation of the v2 loop ([backend/app/services/research_v2.py])

    Scoring the sealed signals against one outcome, the blind reasoning reviews
    with their human decisions, the reflections on evaluated forecasts, and the
    gate that moves the D1 target from the shadow to the formal lane. *)
From S2P Require Import Prelude PyStr PyTime Float64 Domain Json Contracts ResearchV2 ResearchRows ResearchFlow.
Import PyStr PyTime Float64 Json Contracts ResearchV2 ResearchRows ResearchFlow.
Open Scope string_scope.
Open Scope list_scope.
Open Scope Z_scope.

Module ResearchOutcome.

Definition EVALUATOR_VERSION_V2 : string := "2.0.0".
Definition REASONING_REVIEW_SCHEMA_V2 : string := "forecast-loop.reasoning-review/v2".
Definition ACTIVATION_SCHEMA_V2 : string := "forecast-loop.research-activation/v2".

Section Outcomes.
Context `{PyRuntime} `{CanonicalHash} `{ContractDumps} `{SqlTime}.

(** ** Evaluating an outcome *)

(** The scoreable signals of the episode of an outcome. *)
Definition matching_signals (db : ResearchDB) (o : OutcomeObservationBodyV2) : list AgentSignalV2Record :=
  List.filter (fun s =>
      (sr_program_hash s =? oo_program_hash o)%string && (sr_target_id s =? oo_target_id o)%string
      && (sr_anchor_date s =? oo_anchor_date o) && (sr_target_date s =? oo_target_date o)
      && probabilistic (sr_signal_kind s) && in_mode db (sr_run_id s) (oo_mode o)) (db_signals db).

(** [{item.threshold for item in rows}] has one element, and it is not [None]:
    floats are compared by value. *)
Definition common_threshold (rows : list AgentSignalV2Record) : result float :=
  match rows with
  | [] => research_error "no scoreable v2 signal matches the outcome observation"
  | s :: rest =>
      match sr_threshold s with
      | Some t =>
          research_when (negb (forallb (fun r => match sr_threshold r with Some u => feqb u t | None => false end) rest))
            "matching signals disagree on the frozen neutral threshold" ;;
          Ok t
      | None => research_error "matching signals disagree on the frozen neutral threshold"
      end
  end.

Definition same_episode (o : OutcomeObservationBodyV2) (row : OutcomeObservationV2Record) : bool :=
  (or_program_hash row =? oo_program_hash o)%string && (or_target_id row =? oo_target_id o)%string
  && (or_anchor_date row =? oo_anchor_date o) && (or_target_date row =? oo_target_date o)
  && bool_decide (or_mode row = oo_mode o).

Definition outcome_clash (a b : OutcomeObservationV2Record) : bool :=
  (or_id b =? or_id a)%string || (or_content_hash b =? or_content_hash a)%string
  || same_episode (body (or_observation a)) b.

Definition j_signal_evaluation (e : SignalEvaluationV2) : json :=
  JObj (list_to_map
    [("signal_id", JStr (se_signal_id e)); ("observation_id", JStr (se_observation_id e));
     ("actual_label", JStr (direction_value (se_actual_label e))); ("brier_score", JFloat (se_brier_score e));
     ("baseline_brier_score", JFloat (se_baseline_brier_score e));
     ("direction_correct", JBool (se_direction_correct e)); ("evaluator_version", JStr EVALUATOR_VERSION_V2);
     ("evaluated_at", j_time (se_evaluated_at e))]).

Definition j_forecast_evaluation (e : ForecastEvaluationV2) : json :=
  JObj (list_to_map
    [("forecast_id", JStr (fe_forecast_id e)); ("signal_evaluation_id", JStr (fe_signal_evaluation_id e));
     ("actual_value", JFloat (fe_actual_value e)); ("actual_label", JStr (direction_value (fe_actual_label e)));
     ("brier_score", JFloat (fe_brier_score e)); ("baseline_brier_score", JFloat (fe_baseline_brier_score e));
     ("direction_correct", JBool (fe_direction_correct e)); ("evaluated_at", j_time (fe_evaluated_at e))]).

Definition with_signal_hash (e : SignalEvaluationV2) (hash : string) : SignalEvaluationV2 :=
  mkSignalEvaluation (se_id e) (se_signal_id e) (se_observation_id e) (se_actual_label e) (se_brier_score e)
    (se_baseline_brier_score e) (se_direction_correct e) (se_evaluated_at e) hash.

Definition with_evaluation_hash (e : ForecastEvaluationV2) (hash : string) : ForecastEvaluationV2 :=
  mkForecastEvaluation (fe_id e) (fe_forecast_id e) (fe_signal_evaluation_id e) (fe_actual_value e)
    (fe_actual_label e) (fe_brier_score e) (fe_baseline_brier_score e) (fe_direction_correct e)
    (fe_evaluated_at e) hash.

(** The score of one signal. *)
Definition signal_evaluation (id observation_id : string) (row : AgentSignalV2Record) (b : AgentSignalBodyV2)
    (p : Probs) (label : Direction) (now : datetime) : SignalEvaluationV2 :=
  let e := mkSignalEvaluation id (sr_id row) observation_id label (multiclass_brier p label)
    (multiclass_brier (default uniform (sg_baseline_probabilities b)) label)
    (bool_decide (sd_direction (sg_draft b) = Some label)) now "" in
  with_signal_hash e (canonical_hash (j_signal_evaluation e)).

Definition signal_evaluation_clash (a b : SignalEvaluationV2) : bool :=
  (se_id b =? se_id a)%string || (se_signal_id b =? se_signal_id a)%string
  || (se_content_hash b =? se_content_hash a)%string.

Definition forecast_evaluation_clash (a b : ForecastEvaluationV2) : bool :=
  (fe_id b =? fe_id a)%string || (fe_forecast_id b =? fe_forecast_id a)%string
  || (fe_signal_evaluation_id b =? fe_signal_evaluation_id a)%string
  || (fe_content_hash b =? fe_content_hash a)%string.

(** One signal of the loop: scored once, and then only read. *)
Definition evaluate_signal (uuid : nat -> string) (observation_id : string) (label : Direction) (now : datetime)
    (acc : ResearchDB * list SignalEvaluationV2 * nat) (row : AgentSignalV2Record)
    : result (ResearchDB * list SignalEvaluationV2 * nat) :=
  let '(db, rows, drawn) := acc in
  match List.find (fun e => (se_signal_id e =? sr_id row)%string) (db_signal_evaluations db) with
  | Some existing => Ok (db, rows ++ [existing], drawn)
  | None =>
      envelope ← validate_signal (sr_envelope row);
      match sd_probabilities (sg_draft (body envelope)) with
      | None => Ok acc
      | Some p =>
          let e := signal_evaluation (uuid drawn) observation_id row (body envelope) p label now in
          l ← insert_row (signal_evaluation_clash e) e (db_signal_evaluations db);
          Ok (set_signal_evaluations l db, rows ++ [e], S drawn)
      end
  end.

(** One forecast: the projection of the score of its decision signal. *)
Definition evaluate_forecast (uuid : nat -> string) (rows : list SignalEvaluationV2) (value : float)
    (label : Direction) (now : datetime) (acc : ResearchDB * nat) (f : ForecastV2) : result (ResearchDB * nat) :=
  let '(db, drawn) := acc in
  match forecast_evaluation db (fv_id f) with
  | Some _ => Ok acc
  | None =>
      match last (List.filter (fun e => (se_signal_id e =? fv_source_signal_id f)%string) rows) with
      | None => research_error "decision signal was not evaluated"
      | Some s =>
          let e := mkForecastEvaluation (uuid drawn) (fv_id f) (se_id s) value label (se_brier_score s)
            (se_baseline_brier_score s) (se_direction_correct s) now "" in
          let e := with_evaluation_hash e (canonical_hash (j_forecast_evaluation e)) in
          l ← insert_row (forecast_evaluation_clash e) e (db_forecast_evaluations db);
          Ok (set_forecast_evaluations l db, S drawn)
      end
  end.

Definition time_15 : Z := time_of 15 0.

Context `{Snapshot.SourceUrl.UrlChecks}.

(** The observation row of an episode: the stored one, which must be the same,
    or a new one. *)
Definition observation_row (uuid : nat -> string) (db : ResearchDB) (o : Sealed OutcomeObservationBodyV2)
    (value threshold : float) (label : Direction) : result (ResearchDB * OutcomeObservationV2Record * nat) :=
  match List.find (same_episode (body o)) (db_observations db) with
  | Some existing =>
      research_when (negb (or_content_hash existing =? content_hash o)%string)
        "a different immutable outcome already exists for this episode" ;;
      Ok (db, existing, 0%nat)
  | None =>
      let b := body o in
      let row := mkOutcomeRow (uuid 0%nat) (oo_program_hash b) (oo_mode b) (oo_target_id b) (oo_anchor_date b)
        (oo_target_date b) value label threshold (oo_observed_at b) (content_hash o) o in
      l ← insert_row (outcome_clash row) row (db_observations db);
      Ok (set_observations l db, row, 1%nat)
  end.

(** [evaluate_research_target], from the parsed observation *)
Definition evaluate_research_target (uuid : nat -> string) (zone : zoneinfo) (db : ResearchDB)
    (observation : Sealed OutcomeObservationBodyV2) (now : datetime)
    : result (list SignalEvaluationV2 * ResearchDB) :=
  observation ← validate_outcome observation;
  let o := body observation in
  (if bool_decide (oo_mode o = live) then validate_live_outcome_sources o else Ok tt) ;;
  research_when (wall_ltb (astimezone zone (oo_observed_at o)) (combine (oo_target_date o) time_15 zone))
    "outcome was observed before the target session closed" ;;
  let signals := matching_signals db o in
  threshold ← common_threshold signals;
  value ← realized_outcome o;
  label ← classify_outcome value threshold;
  stored ← observation_row uuid db observation value threshold label;
  let '(db, row, drawn) := stored in
  let forecasts := List.filter (fun f => bool_decide (fv_source_signal_id f ∈ sr_id <$> signals))
                     (db_forecasts db) in
  evaluated ← for_each (evaluate_signal uuid (or_id row) label (astimezone zone now)) (db, [], drawn) signals;
  let '(db, rows, drawn) := evaluated in
  finished ← for_each (evaluate_forecast uuid rows value label (astimezone zone now)) (db, drawn) forecasts;
  Ok (rows, finished.1).

(** ** Reasoning reviews *)

(** [prepare_reasoning_review] of a Codex job: the blind inputs of a completed
    run, one per signal. *)
Definition prepare_reasoning_review (db : ResearchDB) (run_id : string)
    : result (list (Sealed ReasoningReviewBodyV2)) :=
  match run_of db run_id with
  | Some run =>
      research_when (negb (bool_decide (rr_status run = run_completed)))
        "reasoning review requires a completed v2 run" ;;
      mapM_result (fun s => e ← validate_signal (sr_envelope s); reasoning_review_input e)
        (order_by (fun a b => bool_decide (String.le (sr_id a) (sr_id b))) (signals_of db run_id))
  | None => research_error "reasoning review requires a completed v2 run"
  end.

(** The task file of a Codex review, and the bundle of drafts that answers it:
    a signal, the hash of its input and the rubric. *)
Record ReviewTask := mkReviewTask {
  rt_schema_version : option string;
  rt_run_id : option string;
  rt_outcomes_included : option bool;
  rt_reviews : list (Sealed ReasoningReviewBodyV2) }.

Record ReasoningReviewDraftV2 := mkReviewDraft {
  rd_signal_id : string; rd_review_input_hash : string; rd_rubric : ReasoningRubricDraftV2 }.

Record ReasoningReviewDraftBundleV2 := mkReviewBundle {
  rd_run_id : string;
  rd_generated_by : gmap string string;
  rd_reviews : list ReasoningReviewDraftV2 }.

(** The constraints and the validator of [ReasoningReviewDraftBundleV2]. *)
Definition validate_review_bundle (b : ReasoningReviewDraftBundleV2) : result unit :=
  mapM_result (fun d => field_check (is_sha256_hex (rd_review_input_hash d)) "review_input_hash" ;;
                        validate_rubric (rd_rubric d)) (rd_reviews b) ;;
  field_check (negb (empty (rd_reviews b))) "reviews" ;;
  raise_when (negb (bool_decide (rd_generated_by b !! "model" = Some "gpt-5.6-sol"))) ValueError
    "reasoning review requires gpt-5.6-sol" ;;
  raise_when (negb (bool_decide (rd_generated_by b !! "reasoning_effort" = Some "high"))) ValueError
    "reasoning review requires high effort" ;;
  raise_when (negb (bool_decide (NoDup (rd_signal_id <$> rd_reviews b)))) ValueError
    "reasoning review signal IDs must be unique".

Definition with_review_hash (r : ReasoningReviewV2) (hash : string) : ReasoningReviewV2 :=
  mkReasoningReview (rw_id r) (rw_signal_id r) (rw_review_input_hash r) (rw_deterministic_checks r)
    (rw_rubric r) (rw_total_score r) (rw_human_review_required r) (rw_human_review_status r)
    (rw_created_at r) hash.

(** [rubric.model_dump()] *)
Definition j_rubric (r : ReasoningRubricDraftV2) : json :=
  JObj (list_to_map
    [("model", JStr "gpt-5.6-sol"); ("reasoning_effort", JStr "high");
     ("evidence_relevance", JInt (rb_evidence_relevance r)); ("causal_chain", JInt (rb_causal_chain r));
     ("target_horizon_mapping", JInt (rb_target_horizon_mapping r));
     ("counter_evidence_and_invalidation", JInt (rb_counter_evidence_and_invalidation r));
     ("probability_uncertainty_consistency", JInt (rb_probability_uncertainty_consistency r));
     ("advisory", JStr (rb_advisory r))]).

Definition j_reasoning_review (r : ReasoningReviewV2) : json :=
  JObj (list_to_map
    [("schema_version", JStr REASONING_REVIEW_SCHEMA_V2); ("signal_id", JStr (rw_signal_id r));
     ("review_input_hash", JStr (rw_review_input_hash r));
     ("deterministic_checks", JObj (JBool <$> rw_deterministic_checks r)); ("rubric", j_rubric (rw_rubric r));
     ("total_score", JInt (rw_total_score r)); ("human_review_required", JBool (rw_human_review_required r));
     ("human_review_status", JStr (rw_human_review_status r)); ("created_at", j_time (rw_created_at r))]).

Definition reasoning_review_clash (a b : ReasoningReviewV2) : bool :=
  (rw_id b =? rw_id a)%string || (rw_signal_id b =? rw_signal_id a)%string
  || (rw_review_input_hash b =? rw_review_input_hash a)%string
  || (rw_content_hash b =? rw_content_hash a)%string.

(** One draft of the bundle, against its input and its signal. *)
Definition record_review (uuid : nat -> string) (inputs : list (Sealed ReasoningReviewBodyV2))
    (signals : list AgentSignalV2Record) (now : datetime) (acc : ResearchDB * list ReasoningReviewV2)
    (d : ReasoningReviewDraftV2) : result (ResearchDB * list ReasoningReviewV2) :=
  let '(db, rows) := acc in
  match last (List.filter (fun i => (rv_signal_id (body i) =? rd_signal_id d)%string) inputs) with
  | None => raise KeyError (rd_signal_id d)
  | Some input =>
      research_when (negb (content_hash input =? rd_review_input_hash d)%string)
        "reasoning review input hash mismatch" ;;
      match List.find (fun s => (sr_id s =? rd_signal_id d)%string) signals with
      | None => research_error "reasoning review references another run"
      | Some signal =>
          envelope ← validate_signal (sr_envelope signal);
          let checks := deterministic_review_checks (sg_draft (body envelope)) in
          required ← requires_human_review (rd_review_input_hash d) checks (rd_rubric d);
          let r := mkReasoningReview (uuid (length rows)) (sr_id signal) (rd_review_input_hash d) checks
            (rd_rubric d) (total_score (rd_rubric d)) required
            (if required then "pending" else "not_required") now "" in
          let r := with_review_hash r (canonical_hash (j_reasoning_review r)) in
          l ← insert_row (reasoning_review_clash r) r (db_reasoning_reviews db);
          Ok (set_reasoning_reviews l db, rows ++ [r])
      end
  end.

(** [finalize_reasoning_review] of a Codex job, from its parsed files *)
Definition finalize_reasoning_review (uuid : nat -> string) (zone : zoneinfo) (db : ResearchDB)
    (task : ReviewTask) (bundle : ReasoningReviewDraftBundleV2) (utc_now : datetime)
    : result (list ReasoningReviewV2 * ResearchDB) :=
  research_when (negb (bool_decide (rt_outcomes_included task = Some false)))
    "reasoning review task is not blind" ;;
  research_when (negb (bool_decide (rt_schema_version task = Some "forecast-loop.reasoning-review-task/v2")))
    "reasoning task provider does not match its frozen prediction" ;;
  validate_review_bundle bundle ;;
  research_when (negb (bool_decide (rt_run_id task = Some (rd_run_id bundle))))
    "reasoning drafts do not bind the review task" ;;
  inputs ← mapM_result validate_review_input (rt_reviews task);
  let input_ids : gset string := list_to_set ((fun i => rv_signal_id (body i)) <$> inputs) in
  research_when (negb (bool_decide (list_to_set (rd_signal_id <$> rd_reviews bundle) = input_ids)))
    "reasoning drafts must cover every blind review input" ;;
  match run_of db (rd_run_id bundle) with
  | None => research_error "research run was not found"
  | Some run =>
      let signals := signals_of db (rr_id run) in
      let existing := signals ≫= (fun s => List.filter (fun r => (rw_signal_id r =? sr_id s)%string)
                                            (db_reasoning_reviews db)) in
      match existing with
      | _ :: _ =>
          if bool_decide (list_to_set (rw_signal_id <$> existing) = input_ids)
          then Ok (order_by (fun a b => bool_decide (String.le (rw_signal_id a) (rw_signal_id b))) existing, db)
          else research_error "reasoning review set is only partially finalized"
      | [] =>
          acc ← for_each (record_review uuid inputs signals (astimezone zone utc_now)) (db, [])
                  (rd_reviews bundle);
          Ok (acc.2, acc.1)
      end
  end.

(** ** Human decisions *)

Definition j_human_event (subject : string) (e : HumanEvent) : json :=
  JObj (list_to_map
    [(subject, JStr (he_subject_id e)); ("decision", JStr (decision_value (he_decision e)));
     ("reviewer", JStr (he_reviewer e)); ("notes", JStr (he_notes e)); ("occurred_at", j_time (he_occurred_at e))]).

(** A decision as it is submitted. *)
Record Decided := mkDecided { dc_decision : HumanDecision; dc_reviewer : string; dc_notes : string }.

#[global] Instance decided_eq_dec : EqDecision Decided.
Proof. solve_decision. Defined.

Definition decided_of (e : HumanEvent) : Decided := mkDecided (he_decision e) (he_reviewer e) (he_notes e).

Definition human_event_clash (a b : HumanEvent) : bool :=
  (he_id b =? he_id a)%string || (he_subject_id b =? he_subject_id a)%string
  || (he_content_hash b =? he_content_hash a)%string.

Definition human_event (id subject subject_id : string) (d : Decided) (now : datetime) : HumanEvent :=
  let e := mkHumanEvent id subject_id (dc_decision d) (dc_reviewer d) (dc_notes d) now "" in
  mkHumanEvent id subject_id (dc_decision d) (dc_reviewer d) (dc_notes d) now
    (canonical_hash (j_human_event subject e)).

Definition events_of (events : list HumanEvent) (subject_id : string) : list HumanEvent :=
  List.filter (fun e => (he_subject_id e =? subject_id)%string) events.

(** The event table after a decision: at most one event for a subject, and the
    same decision again changes nothing. *)
Definition decide_once (id subject subject_id taken : string) (events : list HumanEvent) (d : Decided)
    (now : datetime) : result (list HumanEvent) :=
  match events_of events subject_id with
  | e :: _ => research_when (negb (bool_decide (decided_of e = d))) taken ;; Ok events
  | [] => let e := human_event id subject subject_id d now in insert_row (human_event_clash e) e events
  end.

(** [review_reasoning] *)
Definition review_reasoning (uuid : string) (zone : zoneinfo) (db : ResearchDB) (review_id : string)
    (d : Decided) (utc_now : datetime) : result (ReasoningReviewV2 * ResearchDB) :=
  match List.find (fun r => (rw_id r =? review_id)%string) (db_reasoning_reviews db) with
  | None => research_error "reasoning review was not found"
  | Some row =>
      research_when (negb (rw_human_review_required row)) "reasoning review does not require a human decision" ;;
      events ← decide_once uuid "review_id" (rw_id row)
                 "reasoning review already has an immutable human decision" (db_reasoning_events db) d
                 (astimezone zone utc_now);
      Ok (row, set_reasoning_events events db)
  end.

(** [_effective_reasoning_status] *)
Definition effective_reasoning_status (db : ResearchDB) (row : ReasoningReviewV2) : string :=
  match events_of (db_reasoning_events db) (rw_id row) with
  | e :: _ => decision_value (he_decision e)
  | [] => rw_human_review_status row
  end.

(** ** Reflections *)

Definition ReflectionIdentity : Type :=
  string * string * string * string * string * date * date * Direction.

Definition expected_identity (f : ForecastV2) (e : ForecastEvaluationV2) : ReflectionIdentity :=
  (fv_id f, fv_content_hash f, fe_id e, fe_content_hash e, fv_target_id f, fv_anchor_date f, fv_target_date f,
   fe_actual_label e).

Definition supplied_identity (r : ReflectionDraftBodyV2) : ReflectionIdentity :=
  (rf_forecast_id r, rf_forecast_hash r, rf_evaluation_id r, rf_evaluation_hash r, rf_target_id r,
   rf_anchor_date r, rf_target_date r, rf_actual_label r).

Definition persisted_identity (r : ReflectionV2) : ReflectionIdentity :=
  (rl_forecast_id r, rl_forecast_hash r, rl_evaluation_id r, rl_evaluation_hash r, rl_target_id r,
   rl_anchor_date r, rl_target_date r, rl_actual_label r).

Definition reflection_clash (a b : ReflectionV2) : bool :=
  (rl_id b =? rl_id a)%string || (rl_forecast_id b =? rl_forecast_id a)%string
  || (rl_evaluation_id b =? rl_evaluation_id a)%string || (rl_content_hash b =? rl_content_hash a)%string.

(** [create_reflection_v2] of a draft that its contract has accepted *)
Definition create_reflection_v2 (uuid : string) (zone : zoneinfo) (db : ResearchDB)
    (draft : Sealed ReflectionDraftBodyV2) (utc_now : datetime) : result (ReflectionV2 * ResearchDB) :=
  let b := body draft in
  match List.find (fun f => (fv_id f =? rf_forecast_id b)%string) (db_forecasts db) with
  | None => research_error "v2 reflection requires an evaluated forecast"
  | Some f =>
      match forecast_evaluation db (fv_id f) with
      | None => research_error "v2 reflection requires an evaluated forecast"
      | Some e =>
          research_when (negb (bool_decide (supplied_identity b = expected_identity f e)))
            "v2 reflection identity does not match the evaluated forecast" ;;
          match List.find (fun r => (rl_forecast_id r =? fv_id f)%string) (db_reflections db) with
          | Some existing =>
              match validate_reflection (rl_envelope existing) with
              | Err _ => research_error "stored v2 reflection envelope failed validation"
              | Ok stored =>
                  research_when (negb (content_hash stored =? rl_content_hash existing)%string
                                 || negb (rl_content_hash existing =? content_hash draft)%string
                                 || negb (bool_decide (rl_envelope existing = draft))
                                 || negb (bool_decide (persisted_identity existing = expected_identity f e)))
                    "v2 reflection already exists with conflicting content" ;;
                  Ok (existing, db)
              end
          | None =>
              let row := mkReflectionRow uuid (fv_id f) (fv_content_hash f) (fe_id e) (fe_content_hash e)
                (fv_target_id f) (fv_anchor_date f) (fv_target_date f) (fe_actual_label e) (rf_verdict b)
                (rf_findings b) draft (astimezone zone utc_now) (content_hash draft) in
              l ← insert_row (reflection_clash row) row (db_reflections db);
              Ok (row, set_reflections l db)
          end
      end
  end.

(** [review_reflection_v2] *)
Definition review_reflection_v2 (uuid : string) (zone : zoneinfo) (db : ResearchDB) (reflection_id : string)
    (d : Decided) (utc_now : datetime) : result (ReflectionV2 * ResearchDB) :=
  match List.find (fun r => (rl_id r =? reflection_id)%string) (db_reflections db) with
  | None => research_error "v2 reflection was not found"
  | Some row =>
      events ← decide_once uuid "reflection_id" (rl_id row) "v2 reflection already has an immutable review"
                 (db_reflection_events db) d (astimezone zone utc_now);
      Ok (row, set_reflection_events events db)
  end.

(** ** Activation *)

(** The evaluated live D1 forecasts, oldest target first. *)
Definition eligible_forecasts (db : ResearchDB) : list ForecastV2 :=
  order_by (fun a b => (fv_target_date a <? fv_target_date b)
                       || ((fv_target_date a =? fv_target_date b)
                           && (negb (sql_leb (fv_created_at b) (fv_created_at a))
                               || (sql_leb (fv_created_at a) (fv_created_at b)
                                   && bool_decide (String.le (fv_id a) (fv_id b))))))
    (List.filter (fun f => (fv_program_hash f =? PROGRAM_HASH)%string
                           && (fv_target_id f =? CSI1000_D1_TARGET)%string && in_mode db (fv_run_id f) live
                           && bool_decide (is_Some (forecast_evaluation db (fv_id f)))) (db_forecasts db)).

(** [first_by_target_date], in its insertion order *)
Fixpoint first_by_date (seen : list date) (l : list ForecastV2) : list ForecastV2 :=
  match l with
  | [] => []
  | f :: l => if bool_decide (fv_target_date f ∈ seen) then first_by_date seen l
              else f :: first_by_date (fv_target_date f :: seen) l
  end.

(** The approved reflection of a forecast, with its event: a later row of the
    join replaces an earlier one. *)
Definition approved_reflection (db : ResearchDB) (forecast_id : string) : option (ReflectionV2 * HumanEvent) :=
  last (List.filter (fun r => (rl_forecast_id r =? forecast_id)%string) (db_reflections db) ≫= fun r =>
        (fun e => (r, e)) <$> List.filter (fun e => bool_decide (he_decision e = approved))
                                (events_of (db_reflection_events db) (rl_id r))).

Definition j_evidence (e : ActivationEvidence) : json :=
  JObj (list_to_map
    [("forward_target_dates", JInt (ae_forward_target_dates e));
     ("approved_reflections", JInt (ae_approved_reflections e));
     ("earliest_10", JArr ((fun x => let '(d, forecast, reflection, event) := x in
        JObj (list_to_map [("target_date", j_date d); ("forecast_hash", JStr forecast);
                           ("reflection_hash", JStr reflection); ("review_event_hash", JStr event)]))
        <$> ae_earliest_10 e));
     ("agent_eval_report_hash", JStr (ae_agent_eval_report_hash e))]).

Definition j_activation (e : ResearchActivationEventV2) : json :=
  JObj (list_to_map
    [("schema_version", JStr ACTIVATION_SCHEMA_V2); ("program_hash", JStr (av_program_hash e));
     ("target_id", JStr (av_target_id e)); ("event_type", JStr "activated"); ("policy_version", JStr "2.0.0");
     ("evidence", j_evidence (av_evidence e)); ("actor", JStr (av_actor e));
     ("occurred_at", j_time (av_occurred_at e)); ("previous_event_hash", j_opt JStr (av_previous_event_hash e))]).

(** The latest activation event of the D1 target. *)
Definition latest_activation (db : ResearchDB) (target_id : string) : option ResearchActivationEventV2 :=
  head (order_by (fun a b => sql_leb (av_occurred_at b) (av_occurred_at a))
          (List.filter (fun e => (av_program_hash e =? PROGRAM_HASH)%string && (av_target_id e =? target_id)%string)
             (db_activations db))).

(** The gate of [_validated_agent_eval_pass_report] on a verified report: its
    decision, and the decisions of the D1 target with its number of episodes. *)
Record AgentEvalTarget := mkEvalTarget {
  et_release_gate : bool; et_decision_pass : bool; et_hard_gate_pass : bool; et_metric_gate_pass : option bool;
  et_episode_count : Z }.

Record AgentEvalReport := mkEvalReport {
  er_release_pass : bool; er_d1_target : option AgentEvalTarget; er_hash : string }.

Definition validated_agent_eval_pass_report (report : result AgentEvalReport) : result string :=
  match report with
  | Err e => research_error ("invalid finalized Agent Eval v2 job: " +:+ exn_msg e)
  | Ok r =>
      research_when (negb (er_release_pass r)) "Agent Eval must pass before D1 activation" ;;
      match er_d1_target r with
      | None => research_error "Agent Eval D1 target gate did not pass"
      | Some t =>
          research_when (negb (et_release_gate t) || negb (et_decision_pass t) || negb (et_hard_gate_pass t)
                         || negb (bool_decide (et_metric_gate_pass t = Some true)))
            "Agent Eval D1 target gate did not pass" ;;
          research_when (et_episode_count t <? 20)
            "Agent Eval D1 target has fewer than 20 independent episodes" ;;
          Ok (er_hash r)
      end
  end.

Definition activation_event (uuid actor : string) (evidence : ActivationEvidence) (now : datetime)
    (previous : option ResearchActivationEventV2) : ResearchActivationEventV2 :=
  let e hash := mkActivation uuid PROGRAM_HASH CSI1000_D1_TARGET activated evidence actor now
                  (av_content_hash <$> previous) hash in
  e (canonical_hash (j_activation (e ""))).

(** [activate_d1_v2]; [report] is the outcome of verifying the evaluation job. *)
Definition activate_d1_v2 (uuid : string) (zone : zoneinfo) (db : ResearchDB) (actor : string)
    (report : result AgentEvalReport) (utc_now : datetime) : result (ResearchActivationEventV2 * ResearchDB) :=
  report_hash ← validated_agent_eval_pass_report report;
  let firsts := first_by_date [] (eligible_forecasts db) in
  let earliest := take 10 firsts in
  research_when ((length firsts <? 20)%nat || (length earliest <? 10)%nat)
    "D1 activation requires 20 forward dates and 10 approvals" ;;
  approvals ← mapM_result (fun f =>
      match approved_reflection db (fv_id f) with
      | Some (r, e) => Ok (fv_target_date f, fv_content_hash f, rl_content_hash r, he_content_hash e)
      | None => research_error
          "D1 activation requires approval of every one of the earliest 10 live reflections"
      end) earliest;
  match latest_activation db CSI1000_D1_TARGET with
  | Some previous =>
      if bool_decide (av_event_type previous = activated) then Ok (previous, db)
      else
        let e := activation_event uuid actor
          (mkActivationEvidence (Z.of_nat (length firsts)) (Z.of_nat (length approvals)) approvals report_hash)
          (astimezone zone utc_now) (Some previous) in
        l ← insert_row (fun b => (av_id b =? av_id e)%string || (av_content_hash b =? av_content_hash e)%string)
              e (db_activations db);
        Ok (e, set_activations l db)
  | None =>
      let e := activation_event uuid actor
        (mkActivationEvidence (Z.of_nat (length firsts)) (Z.of_nat (length approvals)) approvals report_hash)
        (astimezone zone utc_now) None in
      l ← insert_row (fun b => (av_id b =? av_id e)%string || (av_content_hash b =? av_content_hash e)%string)
            e (db_activations db);
      Ok (e, set_activations l db)
  end.

(** ** Reading *)

(** The newest live forecast of each target. *)
Definition latest_forecast (db : ResearchDB) (target_id : string) : option ForecastV2 :=
  head (List.filter (fun f => (fv_target_id f =? target_id)%string)
    (order_by (fun a b => negb (sql_leb (fv_created_at a) (fv_created_at b))
                          || (sql_leb (fv_created_at b) (fv_created_at a)
                              && bool_decide (String.le (fv_id b) (fv_id a))))
      (List.filter (fun f => (fv_program_hash f =? PROGRAM_HASH)%string && in_mode db (fv_run_id f) live)
         (db_forecasts db)))).

(** [latest_forecasts_v2]: the formal and the shadow card. *)
Definition latest_forecasts_v2 (db : ResearchDB) : option ForecastV2 * option ForecastV2 :=
  (latest_forecast db CSI1000_D1_TARGET, latest_forecast db CSI1000_RELATIVE_W1_TARGET).

(** The live reviews, newest first; a cursor is the time and identifier of the
    last row of the page before. *)
Definition before_cursor (cursor : option (datetime * string)) (r : ReasoningReviewV2) : bool :=
  match cursor with
  | None => true
  | Some (at_, id) =>
      negb (sql_leb at_ (rw_created_at r))
      || (sql_leb at_ (rw_created_at r) && sql_leb (rw_created_at r) at_
          && bool_decide (String.compare (rw_id r) id = Lt))
  end.

Definition newer_review (a b : ReasoningReviewV2) : bool :=
  negb (sql_leb (rw_created_at a) (rw_created_at b))
  || (sql_leb (rw_created_at b) (rw_created_at a) && bool_decide (String.le (rw_id b) (rw_id a))).

Definition live_review (db : ResearchDB) (r : ReasoningReviewV2) : bool :=
  existsb (fun s => (sr_id s =? rw_signal_id r)%string && in_mode db (sr_run_id s) live) (db_signals db).

(** [reasoning_reviews_v2]: one page and the cursor of the next. *)
Definition reasoning_reviews_v2 (db : ResearchDB) (limit : nat) (cursor : option (datetime * string))
    : list ReasoningReviewV2 * option (datetime * string) :=
  let all := order_by newer_review (List.filter (fun r => live_review db r && before_cursor cursor r)
                                      (db_reasoning_reviews db)) in
  let rows := take (limit + 1) all in
  let page := take limit rows in
  (page, if (limit <? length rows)%nat then (fun r => (rw_created_at r, rw_id r)) <$> last page else None).

End Outcomes.

End ResearchOutcome.
