(* ===== verification/ResearchScore.v ===== *)
(** * Scorecards of the v2 loop ([backend/app/services/research_v2.py])

    The diagnostic sections of [agent_scorecards_v2]: samples grouped by exact
    identity, proper scores and calibration of the probabilistic signals, and
    the coverage of the risk critic.  No section ranks agents across roles. *)
From S2P Require Import Prelude PyStr PyTime Float64 Domain Json Contracts ResearchV2 ResearchRows ResearchFlow.
Import PyStr PyTime Float64 Json Contracts ResearchV2 ResearchRows ResearchFlow.
Open Scope string_scope.
Open Scope list_scope.
Open Scope Z_scope.

Module ResearchScore.

Definition SCORECARD_ECE_BINS_V2 : Z := 10.

Section Scores.
Context `{PyRuntime}.

(** [_mean] *)
Definition mean (values : list float) : option float :=
  match values with
  | [] => None
  | _ => let m := fdiv (py_sum values) (of_Z (Z.of_nat (length values))) in
         if is_finite m then Some m else None
  end.

(** [_relative_brier_skill] *)
Definition relative_brier_skill (average_brier baseline_brier : option float) : option float :=
  match average_brier, baseline_brier with
  | Some a, Some b => if fleb b f0 then None else Some (fdiv (fsub b a) b)
  | _, _ => None
  end.

(** The bin of a probability: the last one is closed on the right. *)
Definition in_bin (index : Z) (x : float) : bool :=
  fleb (int_div index SCORECARD_ECE_BINS_V2) x
  && (fltb x (int_div (index + 1) SCORECARD_ECE_BINS_V2)
      || ((index =? SCORECARD_ECE_BINS_V2 - 1) && fleb x (int_div (index + 1) SCORECARD_ECE_BINS_V2))).

Definition bucket (values : list (float * float)) (index : Z) : list (float * float) :=
  List.filter (fun v => in_bin index v.1) values.

(** One turn of the loop of [_ece]. *)
Definition ece_step (values : list (float * float)) (acc : float) (index : Z) : float :=
  match bucket values index with
  | [] => acc
  | b =>
      let n := Z.of_nat (length b) in
      let confidence := fdiv (py_sum b.*1) (of_Z n) in
      let frequency := fdiv (py_sum b.*2) (of_Z n) in
      fadd acc (fmul (int_div n (Z.of_nat (length values))) (fabs (fsub confidence frequency)))
  end.

(** [_ece] *)
Definition ece (values : list (float * float)) : float :=
  match values with
  | [] => f0
  | _ => fold_left (ece_step values) (seqZ 0 SCORECARD_ECE_BINS_V2) f0
  end.

Context `{CanonicalHash} `{ContractDumps} `{SqlTime}.

Definition evaluations_of (db : ResearchDB) (row : AgentSignalV2Record) : list SignalEvaluationV2 :=
  List.filter (fun e => (se_signal_id e =? sr_id row)%string) (db_signal_evaluations db).

Definition reviews_of (db : ResearchDB) (row : AgentSignalV2Record) : list ReasoningReviewV2 :=
  List.filter (fun r => (rw_signal_id r =? sr_id row)%string) (db_reasoning_reviews db).

(** The pairs of one class that [_classwise_ece] collects from a row. *)
Definition calibration_pairs (db : ResearchDB) (rows : list (AgentSignalV2Record * AgentSignalDraftV2))
    (d : Direction) : list (float * float) :=
  rows ≫= fun r =>
    match sd_probabilities r.2 with
    | None => []
    | Some p => (fun e => (prob p d, if bool_decide (se_actual_label e = d) then f1 else f0))
                  <$> evaluations_of db r.1
    end.

(** [_classwise_ece], from the rows with their revalidated drafts *)
Definition classwise_ece (db : ResearchDB) (rows : list (AgentSignalV2Record * AgentSignalDraftV2)) : Probs :=
  Domain.Probs_of (fun d => ece (calibration_pairs db rows d)).

Record RiskDiagnostics := mkRiskDiagnostics {
  rk_critique_count : Z;
  rk_counter_evidence_coverage_rate : float;
  rk_invalidation_coverage_rate : float;
  rk_risk_flag_rate : float;
  rk_evaluated_system_errors : Z;
  rk_missed_risk_count : Z;
  rk_missed_risk_rate : option float }.

Definition Episodes : Type := gmap (string * string) ForecastV2.

Definition count_if {A} (p : A -> bool) (l : list A) : Z := Z.of_nat (length (List.filter p l)).

(** The critique of an episode whose forecast was wrong. *)
Definition system_error (db : ResearchDB) (episodes : Episodes) (r : AgentSignalV2Record * AgentSignalDraftV2)
    : bool :=
  match episodes !! (sr_run_id r.1, sr_target_id r.1) with
  | None => false
  | Some f =>
      match forecast_evaluation db (fv_id f) with
      | None => false
      | Some e => negb (bool_decide (max_class (fv_probabilities f) = fe_actual_label e))
      end
  end.

Definition rate (n d : Z) : float := if d =? 0 then f0 else int_div n d.

(** [_risk_critic_diagnostics] *)
Definition risk_critic_diagnostics (db : ResearchDB) (rows : list (AgentSignalV2Record * AgentSignalDraftV2))
    (episodes : Episodes) : RiskDiagnostics :=
  let count := Z.of_nat (length rows) in
  let severity_in levels r := match sd_risk_severity r with Some l => bool_decide (l ∈ levels) | None => false end in
  let errors := List.filter (system_error db episodes) rows in
  let missed := count_if (fun r => severity_in [no_level; low] r.2) errors in
  mkRiskDiagnostics count
    (rate (count_if (fun r => negb (empty (sd_counter_evidence r.2))) rows) count)
    (rate (count_if (fun r => negb (empty (sd_invalidation_conditions r.2))) rows) count)
    (rate (count_if (fun r => severity_in [medium; high] r.2) rows) count)
    (Z.of_nat (length errors)) missed
    (match errors with [] => None | _ => Some (int_div missed (Z.of_nat (length errors))) end).

(** ** Items and sections *)

Record ScorecardItem := mkScorecard {
  si_agent_id : string;
  si_agent_name : string;
  si_agent_version : string;
  si_model_name : string;
  si_prompt_version : string;
  si_target_id : string;
  si_signal_kind : string;
  si_horizon : string;
  si_sample_size : Z;
  si_independent_episodes : Z;
  si_average_brier : option float;
  si_baseline_brier : option float;
  si_brier_skill : option float;
  si_classwise_ece : option Probs;
  si_direction_accuracy : option float;
  si_reasoning_average : option float;
  si_ablation_brier_delta : option float;
  si_risk_diagnostics : option RiskDiagnostics;
  si_note : string }.

(** The seven fields a group shares: agent, version, model, prompt, target, kind, horizon. *)
Definition Identity : Type := list string.

Definition identity_of (row : AgentSignalV2Record) (b : AgentSignalBodyV2) : Identity :=
  [sr_agent_id row; sr_agent_version row; sr_model_name row; sg_prompt_version b; sr_target_id row;
   kind_value (sr_signal_kind row); v2horizon_value (default (sr_natural_horizon row) (sr_decision_horizon row))].

Definition field (i : Identity) (n : nat) : string := default "" (i !! n).

(** [_scorecard_item] *)
Definition scorecard_item (db : ResearchDB) (rows : list (AgentSignalV2Record * AgentSignalDraftV2))
    (identity : Identity) (episodes : Episodes) : ScorecardItem :=
  let evaluations := rows ≫= fun r => evaluations_of db r.1 in
  let reasoning := rows ≫= fun r => rw_total_score <$> reviews_of db r.1 in
  let average := mean (se_brier_score <$> evaluations) in
  let baseline := mean (se_baseline_brier_score <$> evaluations) in
  let scored := List.filter (fun r => negb (empty (evaluations_of db r.1))) rows in
  let agent_id := field identity 0 in
  mkScorecard agent_id
    (match Domain.AGENT_BY_ID !! agent_id with Some a => Domain.ag_name a | None => agent_id end)
    (field identity 1) (field identity 2) (field identity 3) (field identity 4) (field identity 5) (field identity 6)
    (Z.of_nat (length evaluations))
    (Z.of_nat (length (remove_dups ((fun r => (sr_anchor_date r.1, sr_target_date r.1)) <$> scored))))
    average baseline (relative_brier_skill average baseline)
    (if empty evaluations then None else Some (classwise_ece db rows))
    (mean ((fun e => if se_direction_correct e then f1 else f0) <$> evaluations))
    (mean (of_Z <$> reasoning)) None
    (if (field identity 5 =? "risk_critique")%string then Some (risk_critic_diagnostics db rows episodes) else None)
    "".

Definition with_note (i : ScorecardItem) (note : string) : ScorecardItem :=
  mkScorecard (si_agent_id i) (si_agent_name i) (si_agent_version i) (si_model_name i) (si_prompt_version i)
    (si_target_id i) (si_signal_kind i) (si_horizon i) (si_sample_size i) (si_independent_episodes i)
    (si_average_brier i) (si_baseline_brier i) (si_brier_skill i) (si_classwise_ece i) (si_direction_accuracy i)
    (si_reasoning_average i) (si_ablation_brier_delta i) (si_risk_diagnostics i) note.

(** The copy of an item without any score of the market. *)
Definition without_scores (i : ScorecardItem) (ablation : option float) (note : string) : ScorecardItem :=
  mkScorecard (si_agent_id i) (si_agent_name i) (si_agent_version i) (si_model_name i) (si_prompt_version i)
    (si_target_id i) (si_signal_kind i) (si_horizon i) (si_sample_size i) (si_independent_episodes i)
    None None None None None (si_reasoning_average i) ablation (si_risk_diagnostics i) note.

Definition shadow_note : string :=
  "Shadow-only D1 benchmark; it never enters Strategy, CIO, or the formal forecast projection.".
Definition impact_note : string := "D1 impact is evaluated structurally; it does not cast a market vote.".
Definition critic_note : string :=
  "Risk Critic is evaluated on coverage, invalidation conditions, missed system errors, and blind review; "
  +:+ "it never receives a direction score.".
Definition rubric_note : string := "Blind LLM rubric is advisory and separately human-audited.".
Definition ablation_note : string :=
  "Latest exact-version private replay; diagnostic only and never changes weights.".
Definition no_ablation_note : string :=
  "No exact-version private ablation is available; no automatic weight changes.".

Definition Ablations : Type := gmap (string * string * string * string * string) float.

Inductive Axis := final_system | natural_horizon | d1_impact | reasoning | incremental_value.

#[global] Instance axis_eq_dec : EqDecision Axis.
Proof. solve_decision. Defined.

(** The entries that one group adds, each with its section. *)
Definition group_entries (db : ResearchDB) (ablations : Ablations) (episodes : Episodes)
    (group : Identity * list (AgentSignalV2Record * AgentSignalDraftV2)) : list (Axis * ScorecardItem) :=
  let '(identity, rows) := group in
  let kind := field identity 5 in
  let item := scorecard_item db rows identity episodes in
  let item := if bool_decide (si_agent_id item ∈ ["user_judgment_agent"; "quant_agent"])
              then with_note item shadow_note else item in
  let critic := (kind =? "risk_critique")%string in
  let ablation := ablations !! (si_target_id item, si_agent_id item, si_agent_version item, si_model_name item,
                                si_prompt_version item) in
  (if bool_decide (kind ∈ ["strategy_forecast"; "decision_forecast"]) then [(final_system, item)] else [])
  ++ (if (kind =? "natural_view")%string then [(natural_horizon, item)] else [])
  ++ (if (kind =? "d1_impact")%string then [(d1_impact, without_scores item None impact_note)] else [])
  ++ (if existsb (fun r => negb (empty (reviews_of db r.1))) rows || critic
      then [(reasoning, without_scores item None (if critic then critic_note else rubric_note))] else [])
  ++ [(incremental_value, without_scores item ablation
        (if bool_decide (is_Some ablation) then ablation_note else no_ablation_note))].

(** [grouped.setdefault(identity, []).append(row)] *)
Fixpoint add_to_group {A} (groups : list (Identity * list A)) (i : Identity) (x : A) : list (Identity * list A) :=
  match groups with
  | [] => [(i, [x])]
  | (j, xs) :: groups =>
      if bool_decide (i = j) then (j, xs ++ [x]) :: groups else (j, xs) :: add_to_group groups i x
  end.

(** Tuples of texts are ordered field by field. *)
Fixpoint identity_le (a b : Identity) : bool :=
  match a, b with
  | [], _ => true
  | _ :: _, [] => false
  | x :: a, y :: b => match String.compare x y with Lt => true | Gt => false | Eq => identity_le a b end
  end.

(** [agent_scorecards_v2]: the entries of each section in the order they are added *)
Definition agent_scorecards_v2 (db : ResearchDB) (ablations : Ablations)
    : result (list (Axis * ScorecardItem)) :=
  let rows := order_by (fun a b => sql_leb (sr_created_at a) (sr_created_at b))
    (List.filter (fun s => (sr_program_hash s =? PROGRAM_HASH)%string && in_mode db (sr_run_id s) live)
       (db_signals db)) in
  let episodes : Episodes := list_to_map (rev ((fun f => ((fv_run_id f, fv_target_id f), f))
    <$> List.filter (fun f => bool_decide (fv_run_id f ∈ sr_run_id <$> rows)) (db_forecasts db))) in
  groups ← for_each (fun groups row =>
      e ← validate_signal (sr_envelope row);
      Ok (add_to_group groups (identity_of row (body e)) (row, sg_draft (body e)))) [] rows;
  Ok (order_by (fun a b : Identity * _ => identity_le a.1 b.1) groups ≫= group_entries db ablations episodes).

(** The items of one section. *)
Definition section (axis : Axis) (entries : list (Axis * ScorecardItem)) : list ScorecardItem :=
  snd <$> List.filter (fun e => bool_decide (e.1 = axis)) entries.

End Scores.

End ResearchScore.
