(* ===== verification/ResearchTheory.v ===== *)
(** * Writes of the v2 loop, and what they preserve

    Each operation of the v2 services is a sequence of atomic writes on the
    tables.  A write only adds a row, gives a run its request hash or completes
    it; so the tables are append-only and the invariants of the store follow by
    induction on the writes. *)
From S2P Require Import Prelude PyStr PyTime Float64 Domain Json Contracts Wiki Snapshot ResearchV2 ResearchRows ResearchFlow ResearchOutcome.
Import PyStr PyTime Float64 Json Contracts ResearchV2 ResearchRows ResearchFlow ResearchOutcome.
Open Scope string_scope.
Open Scope list_scope.
Open Scope Z_scope.

Module ResearchTheory.

(** ** Insertion and lookup *)

Lemma insert_row_Ok {A} (clash : A -> bool) row table l :
  insert_row clash row table = Ok l <-> l = table ++ [row] /\ forall x, x ∈ table -> clash x = false.
Proof.
  unfold insert_row. rewrite raise_when_bind_Ok, existsb_false. split.
  - intros [Hc [= <-]]. done.
  - intros [-> Hc]. done.
Qed.

Lemma insert_row_NoDup {A B} (key : A -> B) clash row table l :
  insert_row clash row table = Ok l -> NoDup (key <$> table) ->
  (forall x, key x = key row -> clash x = true) -> NoDup (key <$> l).
Proof.
  intros [-> Hc]%insert_row_Ok Hnd Hkey. rewrite fmap_app, NoDup_app. cbn [fmap list_fmap].
  split_and!; [done| |apply NoDup_singleton].
  intros k (x & -> & Hx)%list_elem_of_fmap Hk%list_elem_of_singleton.
  apply Hkey in Hk. rewrite (Hc _ Hx) in Hk. done.
Qed.

Lemma find_app_Some {A} (p : A -> bool) l k x : List.find p l = Some x -> List.find p (l ++ k) = Some x.
Proof. induction l as [|y l IH]; cbn; [done|]. destruct (p y); [done|exact IH]. Qed.

Lemma find_app_None {A} (p : A -> bool) l k : List.find p l = None -> List.find p (l ++ k) = List.find p k.
Proof. induction l as [|y l IH]; cbn; [done|]. destruct (p y); [done|exact IH]. Qed.

Lemma order_by_elem {A} (before : A -> A -> bool) l x : x ∈ order_by before l <-> x ∈ l.
Proof. unfold order_by. by rewrite merge_sort_Permutation. Qed.

Lemma order_by_length {A} (before : A -> A -> bool) l : length (order_by before l) = length l.
Proof. apply Permutation_length, merge_sort_Permutation. Qed.

Lemma run_of_elem db id r : run_of db id = Some r -> r ∈ db_runs db /\ rr_id r = id.
Proof. intros [Hin Hid]%find_elem. split; [done|]. by apply String.eqb_eq in Hid. Qed.

(** ** Runs only move forward *)

Definition run_identity (r : ResearchRunV2) : string * string * string * string * Mode * date * datetime :=
  (rr_id r, rr_program_hash r, rr_snapshot_hash r, rr_input_hash r, rr_mode r, rr_anchor_date r, rr_prepared_at r).

(** A finished run never changes, a request hash once set is kept, and no
    operation here marks a run as failed. *)
Definition run_moves (r r' : ResearchRunV2) : Prop :=
  run_identity r' = run_identity r
  /\ (rr_status r <> run_awaiting_draft -> r' = r)
  /\ (rr_request_hash r <> None -> rr_request_hash r' = rr_request_hash r)
  /\ (rr_status r' = run_failed -> rr_status r = run_failed).

#[global] Instance run_moves_preorder : PreOrder run_moves.
Proof.
  split.
  - intros r. done.
  - intros a b c (Hi & Hs & Hh & Hf) (Hi' & Hs' & Hh' & Hf'). split_and!; [| | |by intros ?%Hf'%Hf].
    + by rewrite Hi'.
    + intros Ha. specialize (Hs Ha) as ->. by apply Hs'.
    + intros Ha. rewrite <- (Hh Ha). apply Hh'. by rewrite (Hh Ha).
Qed.

(** The tables of a later state: rows are only added, runs only move forward. *)
Record grows (db db' : ResearchDB) : Prop := mkGrows {
  gr_runs : exists new, exists old, db_runs db' = old ++ new /\ Forall2 run_moves (db_runs db) old;
  gr_signals : db_signals db `prefix_of` db_signals db';
  gr_forecasts : db_forecasts db `prefix_of` db_forecasts db';
  gr_observations : db_observations db `prefix_of` db_observations db';
  gr_signal_evaluations : db_signal_evaluations db `prefix_of` db_signal_evaluations db';
  gr_forecast_evaluations : db_forecast_evaluations db `prefix_of` db_forecast_evaluations db';
  gr_reasoning_reviews : db_reasoning_reviews db `prefix_of` db_reasoning_reviews db';
  gr_reasoning_events : db_reasoning_events db `prefix_of` db_reasoning_events db';
  gr_reflections : db_reflections db `prefix_of` db_reflections db';
  gr_reflection_events : db_reflection_events db `prefix_of` db_reflection_events db';
  gr_activations : db_activations db `prefix_of` db_activations db' }.

#[global] Instance grows_preorder : PreOrder grows.
Proof.
  split.
  - intros db. split; try reflexivity. exists [], (db_runs db). rewrite app_nil_r. split; [done|]. reflexivity.
  - intros a b c [(n & o & E & F) ? ? ? ? ? ? ? ? ? ?] [(n' & o' & E' & F') ? ? ? ? ? ? ? ? ? ?].
    split; try (by etrans).
    rewrite E in F'. apply Forall2_app_inv_l in F' as (o1 & o2 & F1 & F2 & ->).
    exists (o2 ++ n'), o1. rewrite E', app_assoc. split; [done|]. by etrans.
Qed.

Lemma grows_run db db' id r :
  grows db db' -> run_of db id = Some r -> exists r', run_of db' id = Some r' /\ run_moves r r'.
Proof.
  intros [(new & old & E & F) _ _ _ _ _ _ _ _ _ _] Hr. unfold run_of in *. rewrite E.
  enough (exists r', List.find (fun r => (rr_id r =? id)%string) old = Some r' /\ run_moves r r') as (r' & Hf & Hm).
  { exists r'. split; [by apply find_app_Some|done]. }
  clear E new. induction F as [|a b l k Hab F IH]; [done|]. cbn in Hr |- *.
  assert (rr_id b = rr_id a) as -> by (destruct Hab as [Hi _]; unfold run_identity in Hi; congruence).
  destruct (rr_id a =? id)%string; [injection Hr as <-; eauto|by apply IH].
Qed.

Lemma grows_mode db db' id m : grows db db' -> in_mode db id m = true -> in_mode db' id m = true.
Proof.
  intros Hg Hm. unfold in_mode in *. destruct (run_of db id) as [r|] eqn:Er; [|done].
  destruct (grows_run _ _ _ _ Hg Er) as (r' & -> & Hi & _). unfold run_identity in Hi.
  by replace (rr_mode r') with (rr_mode r) by congruence.
Qed.

Lemma prefix_elem {A} (l k : list A) x : l `prefix_of` k -> x ∈ l -> x ∈ k.
Proof. intros [t ->] Hx. apply elem_of_app. by left. Qed.

Lemma prefix_find {A} (p : A -> bool) l k x : l `prefix_of` k -> List.find p l = Some x -> List.find p k = Some x.
Proof. intros [t ->]. apply find_app_Some. Qed.

Lemma grows_evaluated db db' id :
  grows db db' -> is_Some (forecast_evaluation db id) -> is_Some (forecast_evaluation db' id).
Proof. intros Hg [e He]. exists e. exact (prefix_find _ _ _ _ (gr_forecast_evaluations _ _ Hg) He). Qed.

(** ** Writes *)

Section Writes.
Context `{CanonicalHash} `{ContractDumps} `{SqlTime}.

(** The forward evidence that an activation event names is in the store. *)
Definition backing (db : ResearchDB) (x : date * string * string * string) : Prop :=
  let '(d, forecast_hash, reflection_hash, event_hash) := x in
  exists f r e,
    f ∈ db_forecasts db /\ fv_target_id f = CSI1000_D1_TARGET /\ fv_target_date f = d
    /\ fv_content_hash f = forecast_hash /\ in_mode db (fv_run_id f) live = true
    /\ is_Some (forecast_evaluation db (fv_id f))
    /\ r ∈ db_reflections db /\ rl_forecast_id r = fv_id f /\ rl_content_hash r = reflection_hash
    /\ e ∈ db_reflection_events db /\ he_subject_id e = rl_id r /\ he_decision e = approved
    /\ he_content_hash e = event_hash.

Definition backed (db : ResearchDB) (e : ResearchActivationEventV2) : Prop :=
  let v := av_evidence e in
  av_target_id e = CSI1000_D1_TARGET /\ av_event_type e = activated
  /\ 20 <= ae_forward_target_dates v /\ ae_approved_reflections v = 10
  /\ length (ae_earliest_10 v) = 10%nat
  /\ NoDup ((fun x : date * string * string * string => x.1.1.1) <$> ae_earliest_10 v)
  /\ Forall (backing db) (ae_earliest_10 v).

Lemma backed_grows db db' e : grows db db' -> backed db e -> backed db' e.
Proof.
  intros Hg (? & ? & ? & ? & ? & ? & Hb). split_and!; try done. eapply Forall_impl; [exact Hb|].
  intros [[[d fh] rh] eh] (f & r & ev & Hf & ? & ? & ? & Hm & He & Hr & ? & ? & Hev & ? & ? & ?). exists f, r, ev.
  split_and!; try done.
  - exact (prefix_elem _ _ _ (gr_forecasts _ _ Hg) Hf).
  - exact (grows_mode _ _ _ _ Hg Hm).
  - exact (grows_evaluated _ _ _ Hg He).
  - exact (prefix_elem _ _ _ (gr_reflections _ _ Hg) Hr).
  - exact (prefix_elem _ _ _ (gr_reflection_events _ _ Hg) Hev).
Qed.

Definition same_outcome (a b : OutcomeObservationV2Record) : Prop :=
  (or_program_hash a, or_target_id a, or_anchor_date a, or_target_date a, or_mode a)
  = (or_program_hash b, or_target_id b, or_anchor_date b, or_target_date b, or_mode b).

Inductive write (db : ResearchDB) : ResearchDB -> Prop :=
  | write_run row l :
      insert_row (run_clash row) row (db_runs db) = Ok l ->
      existing_runs db (rr_mode row) (rr_anchor_date row) = [] -> rr_program_hash row = PROGRAM_HASH ->
      write db (set_runs l db)
  | write_request_hash run hash :
      run ∈ db_runs db -> rr_request_hash run = None -> rr_status run = run_awaiting_draft ->
      write db (replace_run (set_request_hash run hash) db)
  | write_completed run now receipt :
      run ∈ db_runs db -> rr_status run = run_awaiting_draft ->
      write db (replace_run (completed_run run now receipt) db)
  | write_signal s db' : add_signal (signal_record s) db = Ok db' -> write db db'
  | write_forecast f run db' :
      run ∈ db_runs db -> fv_run_id f = rr_id run ->
      fv_effective_lane f = effective_lane db (fv_target_id f) (fv_configured_lane f) (rr_mode run) ->
      add_forecast f db = Ok db' -> write db db'
  | write_observation row l :
      insert_row (outcome_clash row) row (db_observations db) = Ok l ->
      or_program_hash row = oo_program_hash (body (or_observation row)) ->
      or_target_id row = oo_target_id (body (or_observation row)) ->
      or_anchor_date row = oo_anchor_date (body (or_observation row)) ->
      or_target_date row = oo_target_date (body (or_observation row)) ->
      or_mode row = oo_mode (body (or_observation row)) ->
      write db (set_observations l db)
  | write_signal_evaluation e l :
      insert_row (signal_evaluation_clash e) e (db_signal_evaluations db) = Ok l ->
      write db (set_signal_evaluations l db)
  | write_forecast_evaluation e l :
      insert_row (forecast_evaluation_clash e) e (db_forecast_evaluations db) = Ok l ->
      write db (set_forecast_evaluations l db)
  | write_reasoning_review r l :
      insert_row (reasoning_review_clash r) r (db_reasoning_reviews db) = Ok l ->
      write db (set_reasoning_reviews l db)
  | write_reasoning_event e l :
      insert_row (human_event_clash e) e (db_reasoning_events db) = Ok l -> write db (set_reasoning_events l db)
  | write_reflection r l :
      insert_row (reflection_clash r) r (db_reflections db) = Ok l -> write db (set_reflections l db)
  | write_reflection_event e l :
      insert_row (human_event_clash e) e (db_reflection_events db) = Ok l -> write db (set_reflection_events l db)
  | write_activation e :
      backed db e -> write db (set_activations (db_activations db ++ [e]) db).

Lemma insert_prefix {A} clash (row : A) table l : insert_row clash row table = Ok l -> table `prefix_of` l.
Proof. intros [-> _]%insert_row_Ok. by exists [row]. Qed.

Lemma add_signal_Ok row db db' :
  add_signal row db = Ok db' <->
  exists l, insert_row (signal_clash row) row (db_signals db) = Ok l /\ db' = set_signals l db.
Proof. unfold add_signal. rewrite bind_Ok. split; intros (l & Hl & E); exists l; split; congruence. Qed.

Lemma add_forecast_Ok f db db' :
  add_forecast f db = Ok db' <->
  exists l, insert_row (forecast_clash f) f (db_forecasts db) = Ok l /\ db' = set_forecasts l db.
Proof. unfold add_forecast. rewrite bind_Ok. split; intros (l & Hl & E); exists l; split; congruence. Qed.

(** Replacing a run changes that run only: identifiers are unique. *)
Lemma replace_run_moves db run run' :
  NoDup (rr_id <$> db_runs db) -> run ∈ db_runs db -> run_moves run run' ->
  Forall2 run_moves (db_runs db) (db_runs (replace_run run' db)).
Proof.
  intros Hnd Hin Hm. cbn [replace_run set_runs db_runs].
  assert (rr_id run' = rr_id run) as Eid by (destruct Hm as [Hi _]; unfold run_identity in Hi; congruence).
  assert (forall r, r ∈ db_runs db -> rr_id r = rr_id run -> r = run) as Huniq.
  { intros r Hr E. apply list_elem_of_lookup in Hr as [i Hi], Hin as [j Hj].
    assert (i = j) as ->; [|congruence].
    eapply NoDup_lookup; [exact Hnd| |]; rewrite list_lookup_fmap; [by rewrite Hi|rewrite Hj; cbn; by rewrite E]. }
  apply Forall2_fmap_r. apply Forall_Forall2_diag, Forall_forall. intros r Hr.
  cbn beta. change (run_moves r (if (rr_id r =? rr_id run')%string then run' else r)).
  destruct (rr_id r =? rr_id run')%string eqn:E; [|reflexivity].
  apply String.eqb_eq in E. rewrite (Huniq r Hr); [done|congruence].
Qed.

Lemma runs_same db : exists new, exists old, db_runs db = old ++ new /\ Forall2 run_moves (db_runs db) old.
Proof. exists [], (db_runs db). rewrite app_nil_r. split; reflexivity. Qed.

Lemma write_grows db db' : NoDup (rr_id <$> db_runs db) -> write db db' -> grows db db'.
Proof.
  intros Hnd Hw. destruct Hw.
  all: try match goal with E : add_signal _ _ = Ok _ |- _ => apply add_signal_Ok in E as (l & E & ->) end.
  all: try match goal with E : add_forecast _ _ = Ok _ |- _ => apply add_forecast_Ok in E as (l & E & ->) end.
  all: try (split; cbn [set_runs set_signals set_forecasts set_observations set_signal_evaluations
    set_forecast_evaluations set_reasoning_reviews set_reasoning_events set_reflections set_reflection_events
    set_activations db_runs db_signals db_forecasts db_observations db_signal_evaluations db_forecast_evaluations
    db_reasoning_reviews db_reasoning_events db_reflections db_reflection_events db_activations];
    first [reflexivity | by eapply insert_prefix | apply runs_same | by eexists | idtac]).
  - match goal with E : insert_row _ _ _ = Ok _ |- _ => apply insert_row_Ok in E as [-> _] end.
    exists [row], (db_runs db). split; reflexivity.
  - exists [], (db_runs (replace_run (set_request_hash run hash) db)). rewrite app_nil_r. split; [done|].
    apply replace_run_moves with run; [done..|]. split_and!; [done|by intros []|by intros []|done].
  - exists [], (db_runs (replace_run (completed_run run now receipt) db)). rewrite app_nil_r. split; [done|].
    apply replace_run_moves with run; [done..|]. split_and!; [done|by intros []|done|done].
Qed.

End Writes.

End ResearchTheory.
