(* ===== verification/ResearchInv.v ===== *)
(** * Invariants of the v2 store, and its operations as sequences of writes

    The unique constraints, one run per anchor date, and the evidence behind
    each activation and each formal forecast hold in every state that the
    operations reach. *)
From S2P Require Import Prelude PyStr PyTime Float64 Domain Json Contracts Wiki Snapshot ResearchV2 ResearchRows ResearchFlow ResearchOutcome ResearchTheory.
Import PyStr PyTime Float64 Json Contracts ResearchV2 ResearchRows ResearchFlow ResearchOutcome ResearchTheory.
Open Scope string_scope.
Open Scope list_scope.
Open Scope Z_scope.

Module ResearchInv.

Definition anchor_key (r : ResearchRunV2) : Mode * date := (rr_mode r, rr_anchor_date r).
Definition signal_key (s : AgentSignalV2Record) : string * string * string * SignalKindV2 :=
  (sr_run_id s, sr_agent_id s, sr_target_id s, sr_signal_kind s).
Definition outcome_key (o : OutcomeObservationV2Record) : string * string * date * date * Mode :=
  (or_program_hash o, or_target_id o, or_anchor_date o, or_target_date o, or_mode o).

Section Invariant.
Context `{CanonicalHash} `{ContractDumps} `{SqlTime}.

(** A formal forecast: of the D1 target, of a live run, after an activation. *)
Definition formal_backed (db : ResearchDB) (f : ForecastV2) : Prop :=
  fv_effective_lane f = formal ->
  fv_target_id f = CSI1000_D1_TARGET /\ in_mode db (fv_run_id f) live = true /\ db_activations db <> [].

Record research_inv (db : ResearchDB) : Prop := mkInv {
  inv_run_ids : NoDup (rr_id <$> db_runs db);
  inv_anchors : NoDup (anchor_key <$> db_runs db);
  inv_program : Forall (fun r => rr_program_hash r = PROGRAM_HASH) (db_runs db);
  inv_signal_ids : NoDup (sr_id <$> db_signals db);
  inv_signal_keys : NoDup (signal_key <$> db_signals db);
  inv_signal_rows : Forall (fun s => s = signal_record (sr_envelope s)) (db_signals db);
  inv_sources : NoDup (fv_source_signal_id <$> db_forecasts db);
  inv_targets : NoDup ((fun f => (fv_run_id f, fv_target_id f)) <$> db_forecasts db);
  inv_formal : Forall (formal_backed db) (db_forecasts db);
  inv_outcomes : NoDup (outcome_key <$> db_observations db);
  inv_scored : NoDup (se_signal_id <$> db_signal_evaluations db);
  inv_evaluated : NoDup (fe_forecast_id <$> db_forecast_evaluations db);
  inv_reviewed : NoDup (rw_signal_id <$> db_reasoning_reviews db);
  inv_decided : NoDup (he_subject_id <$> db_reasoning_events db);
  inv_reflected : NoDup (rl_forecast_id <$> db_reflections db);
  inv_approved : NoDup (he_subject_id <$> db_reflection_events db);
  inv_activations : Forall (backed db) (db_activations db) }.

Lemma research_inv_empty : research_inv empty_db.
Proof. split; constructor. Qed.

Lemma moves_key {B} (key : ResearchRunV2 -> B) l k :
  (forall r r', run_moves r r' -> key r' = key r) -> Forall2 run_moves l k -> key <$> k = key <$> l.
Proof. intros Hk. induction 1 as [|r r' l k Hr _ IH]; [done|]. cbn. by rewrite (Hk _ _ Hr), IH. Qed.

Lemma moves_identity r r' :
  run_moves r r' ->
  rr_id r' = rr_id r /\ anchor_key r' = anchor_key r /\ rr_program_hash r' = rr_program_hash r.
Proof. intros [Hi _]. unfold run_identity, anchor_key in *. split_and!; congruence. Qed.

Lemma moves_runs l k :
  Forall2 run_moves l k ->
  rr_id <$> k = rr_id <$> l /\ anchor_key <$> k = anchor_key <$> l
  /\ rr_program_hash <$> k = rr_program_hash <$> l.
Proof.
  intros F. split_and!; apply moves_key; try done; intros r r' (?&?&?)%moves_identity; done.
Qed.

Lemma program_runs l : Forall (fun r => rr_program_hash r = PROGRAM_HASH) l <-> rr_program_hash <$> l = (fun _ => PROGRAM_HASH) <$> l.
Proof.
  induction l as [|r l IH]; [done|]. rewrite Forall_cons, IH. cbn. split; [intros [-> ->]; done|intros [= -> ->]; done].
Qed.

Lemma run_of_unique db r : NoDup (rr_id <$> db_runs db) -> r ∈ db_runs db -> run_of db (rr_id r) = Some r.
Proof.
  intros Hnd Hin. destruct (run_of db (rr_id r)) as [r'|] eqn:E.
  - apply run_of_elem in E as [Hin' Hid]. f_equal.
    apply list_elem_of_lookup in Hin as [i Hi], Hin' as [j Hj].
    assert (j = i) as ->; [|congruence].
    eapply NoDup_lookup; [exact Hnd| |]; rewrite list_lookup_fmap; [by rewrite Hj|by rewrite Hi; cbn; rewrite <- Hid].
  - exfalso. pose proof (find_None_elem _ _ _ E Hin) as Hn. cbn beta in Hn. by rewrite String.eqb_refl in Hn.
Qed.

Lemma effective_lane_formal db t c m :
  effective_lane db t c m = formal ->
  m = live /\ c = formal /\ exists e, e ∈ db_activations db /\ av_target_id e = t /\ av_event_type e = activated.
Proof.
  unfold effective_lane. destruct (bool_decide (m = live)) eqn:Em; [|done]. apply bool_decide_eq_true in Em.
  cbn [negb orb]. destruct (bool_decide (c = shadow)) eqn:Ec; [done|]. apply bool_decide_eq_false in Ec.
  destruct (order_by _ _) as [|e l] eqn:Eo; [done|].
  destruct (bool_decide (av_event_type e = activated)) eqn:Ee; [|done]. apply bool_decide_eq_true in Ee.
  intros _. split_and!; [done|by destruct c|]. exists e.
  assert (e ∈ e :: l) as Hin by left. rewrite <- Eo, order_by_elem in Hin.
  apply filter_elem in Hin as [Hin Hp]. apply andb_true_iff in Hp as [_ Ht]. apply String.eqb_eq in Ht. done.
Qed.

Lemma formal_backed_grows db db' f : grows db db' -> formal_backed db f -> formal_backed db' f.
Proof.
  intros Hg Hf Hl. destruct (Hf Hl) as (Ht & Hm & Ha). split_and!; [done|exact (grows_mode _ _ _ _ Hg Hm)|].
  destruct (gr_activations _ _ Hg) as [k ->]. by destruct (db_activations db).
Qed.

(** Each key of a unique constraint clashes with itself. *)
Lemma clash_keys :
  (forall a b, rr_id b = rr_id a -> run_clash a b = true)
  /\ (forall a b, sr_id b = sr_id a -> signal_clash a b = true)
  /\ (forall a b, signal_key b = signal_key a -> signal_clash a b = true)
  /\ (forall a b, fv_source_signal_id b = fv_source_signal_id a -> forecast_clash a b = true)
  /\ (forall a b, (fv_run_id b, fv_target_id b) = (fv_run_id a, fv_target_id a) -> forecast_clash a b = true)
  /\ (forall a b, se_signal_id b = se_signal_id a -> signal_evaluation_clash a b = true)
  /\ (forall a b, fe_forecast_id b = fe_forecast_id a -> forecast_evaluation_clash a b = true)
  /\ (forall a b, rw_signal_id b = rw_signal_id a -> reasoning_review_clash a b = true)
  /\ (forall a b, rl_forecast_id b = rl_forecast_id a -> reflection_clash a b = true)
  /\ (forall a b, he_subject_id b = he_subject_id a -> human_event_clash a b = true).
Proof.
  unfold run_clash, signal_clash, signal_key, forecast_clash, signal_evaluation_clash, forecast_evaluation_clash,
    reasoning_review_clash, reflection_clash, human_event_clash.
  split_and!; intros a b E; try (injection E as E1 E2); try (injection E1 as E1 E3; injection E1 as E1 E4);
    repeat match goal with E : ?x = ?y |- _ => rewrite E; clear E end;
    rewrite ?String.eqb_refl, ?bool_decide_eq_true_2 by done; by rewrite ?orb_true_r.
Qed.

Ltac projections :=
  cbn [set_runs set_signals set_forecasts set_observations set_signal_evaluations set_forecast_evaluations
    set_reasoning_reviews set_reasoning_events set_reflections set_reflection_events set_activations
    db_runs db_signals db_forecasts db_observations db_signal_evaluations db_forecast_evaluations
    db_reasoning_reviews db_reasoning_events db_reflections db_reflection_events db_activations] in *.

(** Moving runs forward keeps the invariant. *)
Lemma moved_runs_inv db k :
  research_inv db -> Forall2 run_moves (db_runs db) k -> grows db (set_runs k db) -> research_inv (set_runs k db).
Proof.
  intros [] F Hg. destruct (moves_runs _ _ F) as (E1 & E2 & E3).
  split; projections; try done.
  - by rewrite E1.
  - by rewrite E2.
  - rewrite program_runs in *. rewrite E3, inv_program0. clear -F. by induction F; cbn; f_equal.
  - eapply Forall_impl; [done|]. intros f. by apply formal_backed_grows.
  - eapply Forall_impl; [done|]. intros e. by apply backed_grows.
Qed.

Lemma no_anchor db m d :
  Forall (fun r => rr_program_hash r = PROGRAM_HASH) (db_runs db) -> existing_runs db m d = [] ->
  (m, d) ∉ anchor_key <$> db_runs db.
Proof.
  intros Hp He (r & [= -> ->] & Hr)%list_elem_of_fmap. rewrite Forall_forall in Hp.
  assert (r ∈ existing_runs db (rr_mode r) (rr_anchor_date r)) as Hin.
  { unfold existing_runs. rewrite order_by_elem, filter_elem. split; [done|].
    rewrite (Hp r Hr), String.eqb_refl, Z.eqb_refl. by rewrite bool_decide_eq_true_2. }
  rewrite He in Hin. by apply not_elem_of_nil in Hin.
Qed.

(** A forecast that is added with the lane the activations give it is backed. *)
Lemma effective_lane_backed db db' f run :
  research_inv db -> grows db db' -> run ∈ db_runs db -> fv_run_id f = rr_id run ->
  fv_effective_lane f = effective_lane db (fv_target_id f) (fv_configured_lane f) (rr_mode run) ->
  formal_backed db' f.
Proof.
  intros Hinv Hg Hin Hrun Hlane. apply formal_backed_grows with db; [done|]. intros Hf. rewrite Hlane in Hf.
  apply effective_lane_formal in Hf as (Hm & _ & e & He & Ht & _).
  pose proof (inv_activations _ Hinv) as Hb. rewrite Forall_forall in Hb. destruct (Hb e He) as [Htarget _].
  split_and!; [congruence| |by intros E; rewrite E in He; apply not_elem_of_nil in He].
  unfold in_mode. rewrite Hrun, (run_of_unique _ _ (inv_run_ids _ Hinv) Hin), Hm. done.
Qed.

(** Every write keeps the invariant. *)
Lemma write_inv db db' : research_inv db -> write db db' -> research_inv db'.
Proof.
  intros Hinv Hw. pose proof (write_grows _ _ (inv_run_ids _ Hinv) Hw) as Hg.
  pose proof clash_keys as (K1 & K2 & K3 & K4 & K5 & K6 & K7 & K8 & K9 & K10).
  pose proof (effective_lane_backed db db') as Hback.
  destruct Hw as [row l Hins Hex Hprog|run hash Hin Hnone Hst|run now receipt Hin Hst|s db' Hadd
                 |f run db' Hin Hrun Hlane Hadd|row l Hins E1 E2 E3 E4 E5| | | | | | |e He].
  2,3: apply moved_runs_inv; [done| |done];
    apply replace_run_moves with run; [apply Hinv|done|by split_and!; try (intros []; done)].
  all: try match goal with E : add_signal _ _ = Ok _ |- _ => apply add_signal_Ok in E as (l & E & ->) end.
  all: try match goal with E : add_forecast _ _ = Ok _ |- _ => apply add_forecast_Ok in E as (l & E & ->) end.
  all: pose proof Hinv as []; split; projections;
    first [ done
          | eapply insert_row_NoDup; [eassumption|eassumption|]; eauto; fail
          | (eapply Forall_impl; [eassumption|]; intros ?; first [by apply formal_backed_grows | by apply backed_grows]); fail
          | idtac ].
  - apply insert_row_Ok in Hins as [-> Hc]. rewrite fmap_app, NoDup_app. split_and!; [done| |apply NoDup_singleton].
    intros k Hk ->%list_elem_of_singleton. exact (no_anchor _ _ _ inv_program0 Hex Hk).
  - apply insert_row_Ok in Hins as [-> Hc]. apply Forall_app. split; [done|by apply Forall_singleton].
  - apply insert_row_Ok in Hadd as [-> Hc]. apply Forall_app. split; [done|]. by apply Forall_singleton.
  - apply insert_row_Ok in Hadd as [-> Hc]. apply Forall_app. split.
    + eapply Forall_impl; [exact inv_formal0|]. intros g. by apply formal_backed_grows.
    + apply Forall_singleton. by apply Hback with run.
  - eapply insert_row_NoDup; [exact Hins|done|]. intros x Hx. unfold outcome_key in Hx. injection Hx as ? ? ? ? ?.
    unfold outcome_clash, same_episode. rewrite <- E1, <- E2, <- E3, <- E4, <- E5.
    repeat match goal with E : _ = _ |- _ => rewrite E; clear E end.
    rewrite !String.eqb_refl, !Z.eqb_refl, bool_decide_eq_true_2 by done. by rewrite !orb_true_r.
  - apply Forall_app. split; [|apply Forall_singleton; by apply backed_grows with db].
    eapply Forall_impl; [exact inv_activations0|]. intros x. by apply backed_grows.
Qed.

Lemma writes_inv db db' : rtc write db db' -> research_inv db -> research_inv db' /\ grows db db'.
Proof.
  induction 1 as [db|a b c Hw _ IH]; [by split|]. intros Hinv.
  pose proof (write_grows _ _ (inv_run_ids _ Hinv) Hw) as Hg. apply write_inv in Hw; [|done].
  destruct (IH Hw) as [Hc Hgc]. split; [done|]. by etrans.
Qed.

End Invariant.

End ResearchInv.
