(* ===== verification/ResearchSteps.v ===== *)
(** * The operations of the v2 loop as steps

    Every operation is a sequence of atomic writes, so each state reached by any
    interleaving of operations satisfies the invariant and only grows. *)
From S2P Require Import Prelude PyStr PyTime Float64 Domain Json Contracts Wiki Snapshot ResearchV2 ResearchRows ResearchFlow ResearchOutcome ResearchTheory ResearchInv.
Import PyStr PyTime Float64 Json Contracts ResearchV2 ResearchRows ResearchFlow ResearchOutcome ResearchTheory ResearchInv.
Open Scope string_scope.
Open Scope list_scope.
Open Scope Z_scope.

Module ResearchSteps.

Lemma research_when_Ok {A} b m (k : result A) a : (research_when b m ;; k) = Ok a <-> b = false /\ k = Ok a.
Proof. apply raise_when_bind_Ok. Qed.

(** A loop whose body relates its states relates its ends. *)
Lemma for_each_rtc {A S T} (R : relation T) (g : S -> T) (f : S -> A -> result S) l s s' :
  (forall s x s', x ∈ l -> f s x = Ok s' -> rtc R (g s) (g s')) ->
  for_each f s l = Ok s' -> rtc R (g s) (g s').
Proof.
  intros Hf. apply (for_each_invariant (fun t => rtc R (g s) (g t))); [|reflexivity].
  intros t x t' Hx Ht Hb. etrans; [exact Ht|by eapply Hf].
Qed.

Section Steps.
Context `{PyRuntime} `{Wiki.Uppercase} `{CanonicalHash} `{ContractDumps} `{SqlTime} `{ServiceDumps}
  `{Snapshot.SourceUrl.UrlChecks}.

(** ** Preparing *)

Lemma build_request_run snapshot wiki context assignments seal run trace_id request :
  build_request snapshot wiki context assignments seal run trace_id = Ok request ->
  ch_run_id (body request) = rr_id run.
Proof.
  unfold build_request. intros (signals & _ & Hr)%bind_Ok. unfold validate_request in Hr.
  repeat first [ apply bind_Ok in Hr as (? & _ & Hr) ]. by injection Hr as <-.
Qed.

Lemma plan_run_row uuid zone db catalog snapshot m now plan :
  plan_run uuid zone db catalog snapshot m now = Ok plan ->
  pl_run plan = mkRun (uuid 0%nat) PROGRAM_HASH (content_hash snapshot) (research_input_hash snapshot m) None m
    run_awaiting_draft (es_base_session (body snapshot)) now None None.
Proof.
  unfold plan_run. intros H7. repeat apply bind_Ok in H7 as (? & _ & H7). by injection H7 as <-.
Qed.

(** What a prepare does to the tables: nothing, or the row of one new run. *)
Lemma prepare_writes uuid zone stored trace_id db catalog snapshot m now :
  rtc write db (prepare_research_run uuid zone stored trace_id db catalog snapshot m now).2.
Proof.
  unfold prepare_research_run.
  destruct (validate_snapshot snapshot) as [s|e] eqn:Es; [|reflexivity]. cbn [mbind result_bind].
  destruct (if bool_decide (m = live) then _ else _) as [[]|e]; [|reflexivity]. cbn [mbind result_bind].
  destruct (existing_runs db m (es_base_session (body s))) as [|r [|r' l]] eqn:Ex; [| |reflexivity].
  - destruct (plan_run uuid zone db catalog s m (astimezone zone now)) as [plan|e] eqn:Ep; [|reflexivity].
    cbn [mbind result_bind]. apply plan_run_row in Ep.
    destruct (insert_row (run_clash (pl_run plan)) (pl_run plan) (db_runs db)) as [l|e] eqn:Ei; [|reflexivity].
    cbn [mbind result_bind].
    assert (write db (set_runs l db)) as Hw by (eapply write_run; [exact Ei|by rewrite Ep|by rewrite Ep]).
    destruct (build_request _ _ _ _ _ _ _) as [request|e]; [|by apply rtc_once].
    eapply rtc_l; [exact Hw|]. apply rtc_once. cbn [snd].
    apply write_request_hash; [|by rewrite Ep..].
    apply insert_row_Ok in Ei as [-> _]. apply elem_of_app. right. by apply list_elem_of_singleton.
  - destruct (research_when _ _) as [[]|e]; [|reflexivity]. cbn [mbind result_bind].
    destruct (stored (rr_id r)) as [[]|e]; reflexivity.
Qed.

(** ** Finalizing *)

Lemma record_signal_Ok uuid r now p a d p' :
  record_signal uuid r now p a d = Ok p' <->
  exists s db', seal_signal r a d now (uuid (pg_drawn p)) = Ok s /\ add_signal (signal_record s) (pg_db p) = Ok db'
    /\ p' = mkProgress (pg_signals p ++ [(as_assignment_id a, signal_record s)]) db' (S (pg_drawn p)).
Proof.
  unfold record_signal. split.
  - intros (s & Hs & Hr)%bind_Ok. apply bind_Ok in Hr as (db' & Hd & [= <-]). by exists s, db'.
  - intros (s & db' & Hs & Hd & ->). rewrite Hs. cbn [mbind result_bind]. by rewrite Hd.
Qed.

Lemma record_signal_write uuid r now p a d p' :
  record_signal uuid r now p a d = Ok p' -> rtc write (pg_db p) (pg_db p') /\ db_runs (pg_db p') = db_runs (pg_db p).
Proof.
  intros (s & db' & _ & Hd & ->)%record_signal_Ok. cbn [pg_db]. split; [by eapply rtc_once, write_signal|].
  by apply add_signal_Ok in Hd as (l & _ & ->).
Qed.

Lemma codex_signal_write uuid r now bundle p a p' :
  codex_signal uuid r now bundle p a = Ok p' -> rtc write (pg_db p) (pg_db p') /\ db_runs (pg_db p') = db_runs (pg_db p).
Proof. unfold codex_signal. destruct (List.find _ _); [apply record_signal_write|done]. Qed.

Lemma cio_signal_write uuid r now p t p' :
  cio_signal uuid r now p t = Ok p' -> rtc write (pg_db p) (pg_db p') /\ db_runs (pg_db p') = db_runs (pg_db p).
Proof.
  unfold cio_signal. destruct (negb _); [by intros [= <-]|]. intros Hr.
  do 6 apply bind_Ok in Hr as (? & _ & Hr). by apply record_signal_write in Hr.
Qed.

(** What [forecast_of] adds for a target of the request. *)
Lemma forecast_of_Ok uuid run r now p fs t p' fs' :
  forecast_of uuid run r now (p, fs) t = Ok (p', fs') ->
  (has_decision_target r (rt_target_id t) = false /\ p' = p /\ fs' = fs)
  \/ exists source envelope probabilities target f db',
       has_decision_target r (rt_target_id t) = true
       /\ signal_at p (of_target CIO_AGENT_ID DECISION_FORECAST t) = Ok source
       /\ validate_signal (sr_envelope source) = Ok envelope
       /\ sd_probabilities (sg_draft (body envelope)) = Some probabilities
       /\ target_date (body (ch_snapshot r)) (rt_horizon t) = Ok target
       /\ add_forecast f (pg_db p) = Ok db'
       /\ p' = mkProgress (pg_signals p) db' (S (pg_drawn p)) /\ fs' = fs ++ [f]
       /\ fv_run_id f = rr_id run /\ fv_source_signal_id f = sr_id source /\ fv_target_id f = rt_target_id t
       /\ fv_configured_lane f = rt_lane t
       /\ fv_effective_lane f = effective_lane (pg_db p) (rt_target_id t) (rt_lane t) (rr_mode run)
       /\ fv_target_date f = target /\ fv_probabilities f = probabilities
       /\ fv_threshold f = sg_threshold (body envelope) /\ fv_created_at f = now
       /\ fv_anchor_date f = es_base_session (body (ch_snapshot r))
       /\ fv_content_hash f = canonical_hash (j_forecast (with_forecast_hash f "")).
Proof.
  unfold forecast_of. destruct (has_decision_target _ _) eqn:Ht; cbn [negb]; [|by intros [= <- <-]; left].
  intros (source & Hs & Hr)%bind_Ok. apply bind_Ok in Hr as (envelope & He & Hr).
  destruct (sd_probabilities _) as [probabilities|] eqn:Ep; [|done].
  apply bind_Ok in Hr as (target & Htd & Hr). apply bind_Ok in Hr as (db' & Hd & Hr). injection Hr as <- <-.
  right. do 6 eexists. split_and!; try done.
Qed.

Lemma forecast_of_write uuid run r now acc t acc' :
  run ∈ db_runs (pg_db acc.1) -> forecast_of uuid run r now acc t = Ok acc' ->
  rtc write (pg_db acc.1) (pg_db acc'.1) /\ db_runs (pg_db acc'.1) = db_runs (pg_db acc.1).
Proof.
  destruct acc as [p fs], acc' as [p' fs']. intros Hin.
  intros [(_ & -> & ->)|(source & envelope & probabilities & target & f & db' & _ & _ & _ & _ & _ & Hadd & -> & _
    & Hrun & _ & Ht & Hc & Hl & _)]%forecast_of_Ok; [done|]. cbn [fst pg_db]. split.
  - apply rtc_once. eapply write_forecast; [exact Hin|exact Hrun| |exact Hadd]. by rewrite Ht, Hc.
  - by apply add_forecast_Ok in Hadd as (l & _ & ->).
Qed.

(** The loops of a finalize: writes that leave the runs alone. *)
Lemma progress_loop {A S} (g : S -> ResearchDB) (f : S -> A -> result S) (P : ResearchDB -> Prop) l s s' :
  (forall s x s', P (g s) -> f s x = Ok s' -> rtc write (g s) (g s') /\ db_runs (g s') = db_runs (g s)) ->
  (forall a b, db_runs a = db_runs b -> P a -> P b) -> P (g s) ->
  for_each f s l = Ok s' -> rtc write (g s) (g s') /\ db_runs (g s') = db_runs (g s).
Proof.
  intros Hf HP Hs. apply (for_each_invariant (fun t => rtc write (g s) (g t) /\ db_runs (g t) = db_runs (g s)));
    [|by split].
  intros t x t' _ [Ht Er] Hb. apply Hf in Hb as [Hw Er']; [|by eapply HP; [symmetry|]].
  split; [by etrans|congruence].
Qed.

Lemma finalize_transaction_writes uuid db request bundle raw_hash now run run' db' :
  run ∈ db_runs db -> finalize_transaction uuid db request bundle raw_hash now run = Ok (run', db') ->
  rtc write db db'.
Proof.
  intros Hin. unfold finalize_transaction. intros [Hst Hr]%research_when_Ok.
  apply research_when_Ok in Hr as [_ Hr]. apply bind_Ok in Hr as (p1 & L1 & Hr).
  apply bind_Ok in Hr as (p2 & L2 & Hr). apply bind_Ok in Hr as ([p3 fs] & L3 & Hr).
  apply bind_Ok in Hr as (receipt & _ & Hr). injection Hr as <- <-.
  destruct (progress_loop pg_db _ (fun _ => True) _ _ _
    (fun s x s' _ => codex_signal_write uuid (body request) now bundle s x s') ltac:(done) I L1) as [W1 E1].
  destruct (progress_loop pg_db _ (fun _ => True) _ _ _
    (fun s x s' _ => cio_signal_write uuid (body request) now s x s') ltac:(done) I L2) as [W2 E2].
  assert (run ∈ db_runs (pg_db p2)) as Hin2 by (rewrite E2, E1; exact Hin).
  destruct (progress_loop (fun acc => pg_db acc.1) _ (fun d => run ∈ db_runs d) _ (p2, []) (p3, fs)
    (forecast_of_write uuid run (body request) now) ltac:(by intros a b E; cbn; rewrite E) Hin2 L3) as [W3 E3].
  cbn [fst pg_db] in *. etrans; [exact W1|]. etrans; [exact W2|]. etrans; [exact W3|]. apply rtc_once.
  apply write_completed; [by rewrite E3|]. apply negb_false_iff in Hst. by apply bool_decide_eq_true in Hst.
Qed.

Lemma finalize_writes uuid zone db request bundle raw_hash file now run' db' :
  finalize_research_run uuid zone db request bundle raw_hash file now = Ok (run', db') -> rtc write db db'.
Proof.
  unfold finalize_research_run. intros (r & _ & Hr)%bind_Ok. apply bind_Ok in Hr as (? & _ & Hr).
  destruct (run_of db _) as [run|] eqn:Er; [|done]. apply run_of_elem in Er as [Hin _].
  destruct (bool_decide _).
  - apply bind_Ok in Hr as (? & _ & Hr). by injection Hr as _ <-.
  - apply research_when_Ok in Hr as [_ Hr]. apply bind_Ok in Hr as (? & _ & Hr).
    apply research_when_Ok in Hr as [_ Hr]. by eapply finalize_transaction_writes.
Qed.

(** ** Outcomes, reviews, reflections and activation *)

Lemma observation_row_writes uuid db o value threshold label db' row drawn :
  observation_row uuid db o value threshold label = Ok (db', row, drawn) ->
  rtc write db db' /\ db_signals db' = db_signals db /\ db_runs db' = db_runs db
  /\ db_forecasts db' = db_forecasts db /\ db_signal_evaluations db' = db_signal_evaluations db
  /\ db_forecast_evaluations db' = db_forecast_evaluations db
  /\ List.find (same_episode (body o)) (db_observations db') = Some row
  /\ or_content_hash row = content_hash o.
Proof.
  unfold observation_row. destruct (List.find _ _) as [existing|] eqn:Ef.
  - intros [Hh [= <- <- <-]]%research_when_Ok. apply negb_false_iff, String.eqb_eq in Hh. by split_and!.
  - intros (l & Hl & [= <- <- <-])%bind_Ok. split_and!; try done.
    + apply rtc_once. by eapply write_observation.
    + apply insert_row_Ok in Hl as [-> _]. cbn [set_observations db_observations].
      rewrite find_app_None by done. cbn. unfold same_episode. cbn.
      by rewrite !String.eqb_refl, !Z.eqb_refl, bool_decide_eq_true_2.
Qed.

Lemma evaluate_signal_Ok uuid oid label now db rows drawn s acc' :
  evaluate_signal uuid oid label now (db, rows, drawn) s = Ok acc' ->
  (exists e, List.find (fun e => (se_signal_id e =? sr_id s)%string) (db_signal_evaluations db) = Some e
     /\ acc' = (db, rows ++ [e], drawn))
  \/ (List.find (fun e => (se_signal_id e =? sr_id s)%string) (db_signal_evaluations db) = None
      /\ exists envelope, validate_signal (sr_envelope s) = Ok envelope /\
      ((sd_probabilities (sg_draft (body envelope)) = None /\ acc' = (db, rows, drawn))
       \/ exists p e l, sd_probabilities (sg_draft (body envelope)) = Some p
            /\ e = signal_evaluation (uuid drawn) oid s (body envelope) p label now
            /\ insert_row (signal_evaluation_clash e) e (db_signal_evaluations db) = Ok l
            /\ acc' = (set_signal_evaluations l db, rows ++ [e], S drawn))).
Proof.
  unfold evaluate_signal. destruct (List.find _ _) as [e|] eqn:Ef; [intros [= <-]; left; eauto|].
  intros (envelope & He & Hr)%bind_Ok. right. split; [done|]. exists envelope. split; [done|].
  destruct (sd_probabilities _) as [p|]; [|injection Hr as <-; by left].
  apply bind_Ok in Hr as (l & Hl & [= <-]). right. by exists p, (signal_evaluation (uuid drawn) oid s (body envelope) p label now), l.
Qed.

Lemma evaluate_signal_writes uuid oid label now acc s acc' :
  evaluate_signal uuid oid label now acc s = Ok acc' -> rtc write acc.1.1 acc'.1.1.
Proof.
  destruct acc as [[db rows] drawn].
  intros [(e & _ & ->)|(_ & envelope & _ & [[_ ->]|(p & e & l & _ & _ & Hl & ->)])]%evaluate_signal_Ok;
    [done..|]. cbn. apply rtc_once. by eapply write_signal_evaluation.
Qed.

Lemma evaluate_forecast_Ok uuid rows value label now db drawn f acc' :
  evaluate_forecast uuid rows value label now (db, drawn) f = Ok acc' ->
  (is_Some (forecast_evaluation db (fv_id f)) /\ acc' = (db, drawn))
  \/ exists s e l,
       forecast_evaluation db (fv_id f) = None
       /\ last (List.filter (fun e => (se_signal_id e =? fv_source_signal_id f)%string) rows) = Some s
       /\ insert_row (forecast_evaluation_clash e) e (db_forecast_evaluations db) = Ok l
       /\ acc' = (set_forecast_evaluations l db, S drawn)
       /\ fe_forecast_id e = fv_id f /\ fe_signal_evaluation_id e = se_id s /\ fe_actual_label e = label
       /\ fe_actual_value e = value /\ fe_brier_score e = se_brier_score s
       /\ fe_baseline_brier_score e = se_baseline_brier_score s
       /\ fe_direction_correct e = se_direction_correct s.
Proof.
  unfold evaluate_forecast. destruct (forecast_evaluation db (fv_id f)) as [e|] eqn:Ef; [intros [= <-]; left; eauto|].
  destruct (last _) as [s|] eqn:El; [|done]. intros (l & Hl & [= <-])%bind_Ok. right.
  exists s. do 2 eexists. split_and!; [done|done|exact Hl|done..].
Qed.

Lemma evaluate_forecast_writes uuid rows value label now acc f acc' :
  evaluate_forecast uuid rows value label now acc f = Ok acc' -> rtc write acc.1 acc'.1.
Proof.
  destruct acc as [db drawn].
  intros [[_ ->]|(s & e & l & _ & _ & Hl & -> & _)]%evaluate_forecast_Ok; [done|]. cbn.
  apply rtc_once. by eapply write_forecast_evaluation.
Qed.

Lemma evaluate_writes uuid zone db o now rows db' :
  evaluate_research_target uuid zone db o now = Ok (rows, db') -> rtc write db db'.
Proof.
  unfold evaluate_research_target. intros (o' & _ & Hr)%bind_Ok. apply bind_Ok in Hr as (? & _ & Hr).
  apply research_when_Ok in Hr as [_ Hr]. apply bind_Ok in Hr as (threshold & _ & Hr).
  apply bind_Ok in Hr as (value & _ & Hr). apply bind_Ok in Hr as (label & _ & Hr).
  apply bind_Ok in Hr as ([[db1 row] drawn] & H1' & Hr). apply bind_Ok in Hr as ([[db2 rows'] drawn'] & L2 & Hr).
  apply bind_Ok in Hr as ([db3 drawn''] & L3 & Hr). injection Hr as <- <-. cbn [fst].
  apply observation_row_writes in H1' as [W1 _].
  apply (for_each_rtc write (fun acc => acc.1.1)) in L2; [|intros ? ? ? _; apply evaluate_signal_writes].
  apply (for_each_rtc write fst) in L3; [|intros ? ? ? _; apply evaluate_forecast_writes].
  etrans; [exact W1|]. etrans; [exact L2|exact L3].
Qed.

Lemma record_review_writes uuid inputs signals now acc d acc' :
  record_review uuid inputs signals now acc d = Ok acc' -> rtc write acc.1 acc'.1.
Proof.
  unfold record_review. destruct acc as [db rows]. destruct (last _) as [input|]; [|done].
  intros [_ Hr]%research_when_Ok. destruct (List.find _ _) as [s|]; [|done].
  do 2 apply bind_Ok in Hr as (? & _ & Hr). apply bind_Ok in Hr as (l & Hl & [= <-]).
  apply rtc_once. by eapply write_reasoning_review.
Qed.

Lemma finalize_review_writes uuid zone db task bundle now rows db' :
  finalize_reasoning_review uuid zone db task bundle now = Ok (rows, db') -> rtc write db db'.
Proof.
  unfold finalize_reasoning_review. intros [_ Hr]%research_when_Ok. apply research_when_Ok in Hr as [_ Hr].
  apply bind_Ok in Hr as (? & _ & Hr). apply research_when_Ok in Hr as [_ Hr].
  apply bind_Ok in Hr as (inputs & _ & Hr). apply research_when_Ok in Hr as [_ Hr].
  destruct (run_of db _) as [run|]; [|done]. destruct (_ ≫= _) as [|? ?].
  - apply bind_Ok in Hr as ([db1 rs] & L & [= <- <-]).
    apply (for_each_rtc write fst) in L; [done|intros ? ? ? _; apply record_review_writes].
  - destruct (bool_decide _); [|done]. by injection Hr as _ <-.
Qed.

Lemma decide_once_Ok id subject subject_id taken events d now events' :
  decide_once id subject subject_id taken events d now = Ok events' ->
  (events' = events /\ exists e, head (events_of events subject_id) = Some e /\ decided_of e = d)
  \/ (events_of events subject_id = []
      /\ let e := human_event id subject subject_id d now in
         insert_row (human_event_clash e) e events = Ok events').
Proof.
  unfold decide_once. destruct (events_of events subject_id) as [|e l]; [by right|].
  intros [Hd [= <-]]%research_when_Ok. apply negb_false_iff, bool_decide_eq_true in Hd. left. eauto.
Qed.

Lemma set_same_events db :
  set_reasoning_events (db_reasoning_events db) db = db /\ set_reflection_events (db_reflection_events db) db = db.
Proof. by destruct db. Qed.

Lemma review_reasoning_writes uuid zone db id d now row db' :
  review_reasoning uuid zone db id d now = Ok (row, db') -> rtc write db db'.
Proof.
  unfold review_reasoning. destruct (List.find _ _) as [r|]; [|done]. intros [_ Hr]%research_when_Ok.
  apply bind_Ok in Hr as (events & Hd & [= <- <-]). destruct (decide_once_Ok _ _ _ _ _ _ _ _ Hd) as [[-> _]|[_ Hi]].
  - by rewrite (proj1 (set_same_events db)).
  - apply rtc_once. by eapply write_reasoning_event.
Qed.

Lemma review_reflection_writes uuid zone db id d now row db' :
  review_reflection_v2 uuid zone db id d now = Ok (row, db') -> rtc write db db'.
Proof.
  unfold review_reflection_v2. destruct (List.find _ _) as [r|]; [|done].
  intros (events & Hd & [= <- <-])%bind_Ok. destruct (decide_once_Ok _ _ _ _ _ _ _ _ Hd) as [[-> _]|[_ Hi]].
  - by rewrite (proj2 (set_same_events db)).
  - apply rtc_once. by eapply write_reflection_event.
Qed.

Lemma create_reflection_writes uuid zone db draft now row db' :
  create_reflection_v2 uuid zone db draft now = Ok (row, db') -> rtc write db db'.
Proof.
  unfold create_reflection_v2. destruct (List.find _ _) as [f|]; [|done].
  destruct (forecast_evaluation _ _) as [e|]; [|done]. intros [_ Hr]%research_when_Ok.
  destruct (List.find _ (db_reflections db)) as [existing|].
  - destruct (validate_reflection _) as [stored|]; [|done]. apply research_when_Ok in Hr as [_ Hr].
    by injection Hr as _ <-.
  - apply bind_Ok in Hr as (l & Hl & [= _ <-]). apply rtc_once. by eapply write_reflection.
Qed.

(** ** The activation gate *)

Lemma eligible_elem db f :
  f ∈ eligible_forecasts db ->
  f ∈ db_forecasts db /\ fv_target_id f = CSI1000_D1_TARGET /\ in_mode db (fv_run_id f) live = true
  /\ is_Some (forecast_evaluation db (fv_id f)).
Proof.
  unfold eligible_forecasts. rewrite order_by_elem, filter_elem. intros [Hin Hp].
  rewrite !andb_true_iff in Hp. destruct Hp as [[[_ Ht] Hm] He].
  apply String.eqb_eq in Ht. by apply bool_decide_eq_true in He.
Qed.

Lemma first_by_date_spec seen l :
  (forall f, f ∈ first_by_date seen l -> f ∈ l /\ fv_target_date f ∉ seen)
  /\ NoDup (fv_target_date <$> first_by_date seen l).
Proof.
  revert seen. induction l as [|f l IH]; intros seen; cbn; [split; [by intros f ?%not_elem_of_nil|constructor]|].
  destruct (bool_decide _) eqn:E.
  - destruct (IH seen) as [Hin Hnd]. split; [|done]. intros g [Hg Hs]%Hin. split; [by right|done].
  - apply bool_decide_eq_false in E. destruct (IH (fv_target_date f :: seen)) as [Hin Hnd]. split.
    + intros g [->|Hg]%elem_of_cons; [by split; [left|]|]. apply Hin in Hg as [Hg Hs].
      apply not_elem_of_cons in Hs as [_ Hs]. split; [by right|done].
    + cbn. apply NoDup_cons. split; [|done]. intros (g & Eg & Hg)%list_elem_of_fmap.
      apply Hin in Hg as [_ Hs]. apply not_elem_of_cons in Hs as [Hs _]. by rewrite <- Eg in Hs.
Qed.

Lemma approved_reflection_elem db id r e :
  approved_reflection db id = Some (r, e) ->
  r ∈ db_reflections db /\ rl_forecast_id r = id /\ e ∈ db_reflection_events db
  /\ he_subject_id e = rl_id r /\ he_decision e = approved.
Proof.
  unfold approved_reflection. intros Hl%last_Some_elem_of.
  apply list_elem_of_bind in Hl as (r' & Hx & Hr). apply list_elem_of_fmap in Hx as (e' & [= -> ->] & He).
  unfold events_of in He. rewrite !filter_elem in He. apply filter_elem in Hr. destruct Hr as [Hr Hid], He as [[He Hs] Hd].
  apply String.eqb_eq in Hid, Hs. by apply bool_decide_eq_true in Hd.
Qed.

Lemma report_Ok report hash :
  validated_agent_eval_pass_report report = Ok hash ->
  exists r t, report = Ok r /\ er_hash r = hash /\ er_release_pass r = true /\ er_d1_target r = Some t
    /\ et_release_gate t = true /\ et_decision_pass t = true /\ et_hard_gate_pass t = true
    /\ et_metric_gate_pass t = Some true /\ 20 <= et_episode_count t.
Proof.
  unfold validated_agent_eval_pass_report. destruct report as [r|e]; [|done]. intros [Hp Hr]%research_when_Ok.
  destruct (er_d1_target r) as [t|] eqn:Et; [|done]. apply research_when_Ok in Hr as [Hg Hr].
  apply research_when_Ok in Hr as [Hc [= <-]]. rewrite !orb_false_iff, !negb_false_iff in Hg.
  destruct Hg as [[[? ?] ?] Hm]. apply bool_decide_eq_true in Hm. apply negb_false_iff in Hp.
  exists r, t. split_and!; try done. lia.
Qed.

(** The approvals that the gate collects, one per forecast. *)
Lemma approvals_backing db l approvals :
  mapM_result (fun f =>
    match approved_reflection db (fv_id f) with
    | Some (r, e) => Ok (fv_target_date f, fv_content_hash f, rl_content_hash r, he_content_hash e)
    | None => research_error
        "D1 activation requires approval of every one of the earliest 10 live reflections"
    end) l = Ok approvals ->
  Forall (fun f => f ∈ eligible_forecasts db) l ->
  Forall (backing db) approvals
  /\ (fun x : date * string * string * string => x.1.1.1) <$> approvals = fv_target_date <$> l.
Proof.
  intros F%mapM_result_Ok Hl. induction F as [|f x l approvals Hx _ IH]; [by split|].
  apply Forall_cons in Hl as [Hf Hl]. destruct (IH Hl) as [Hb Hd].
  destruct (approved_reflection db (fv_id f)) as [[r e]|] eqn:Ea; [|done]. injection Hx as <-.
  apply eligible_elem in Hf as (? & ? & ? & ?). apply approved_reflection_elem in Ea as (? & ? & ? & ? & ?).
  split; [|cbn; by rewrite Hd]. constructor; [|done]. exists f, r, e. by split_and!.
Qed.

(** What [activate_d1_v2] does: it answers with the activation in force, or adds
    an event that names the forward evidence. *)
Lemma activate_Ok uuid zone db actor report now e db' :
  activate_d1_v2 uuid zone db actor report now = Ok (e, db') ->
  (db' = db /\ e ∈ db_activations db) \/ (db' = set_activations (db_activations db ++ [e]) db /\ backed db e).
Proof.
  unfold activate_d1_v2. intros (hash & _ & Hr)%bind_Ok. apply research_when_Ok in Hr as [Hn Hr].
  apply orb_false_iff in Hn as [Hn1 Hn2]. apply Nat.ltb_ge in Hn1, Hn2.
  apply bind_Ok in Hr as (approvals & Ha & Hr).
  pose proof (first_by_date_spec [] (eligible_forecasts db)) as [Hin Hnd].
  set (firsts := first_by_date [] (eligible_forecasts db)) in *.
  assert (Forall (fun f => f ∈ eligible_forecasts db) (take 10 firsts)) as Hel.
  { apply Forall_take, Forall_forall. intros f Hf. by apply Hin. }
  apply approvals_backing in Ha as Hb; [|done]. destruct Hb as [Hb Hdates].
  assert (length approvals = 10%nat) as Hlen.
  { apply mapM_result_Ok, Forall2_length in Ha. rewrite <- Ha. rewrite length_take in *. lia. }
  assert (forall previous, backed db (activation_event uuid actor
    (mkActivationEvidence (Z.of_nat (length firsts)) (Z.of_nat (length approvals)) approvals hash)
    (astimezone zone now) previous)) as Hbacked.
  { intros previous. unfold backed, activation_event. cbn. split_and!; try done; [lia|by rewrite Hlen|].
    rewrite Hdates, fmap_take. rewrite <- (take_drop 10 (fv_target_date <$> firsts)) in Hnd.
    by apply NoDup_app in Hnd as (? & _ & _). }
  destruct (latest_activation db CSI1000_D1_TARGET) as [previous|] eqn:El.
  - destruct (bool_decide _).
    + injection Hr as <- <-. left. split; [done|]. unfold latest_activation in El.
      apply head_Some_elem_of in El. rewrite order_by_elem, filter_elem in El. by destruct El.
    + apply bind_Ok in Hr as (l & Hl & Hr). apply insert_row_Ok in Hl as [-> _]. injection Hr as <- <-. by right.
  - apply bind_Ok in Hr as (l & Hl & Hr). apply insert_row_Ok in Hl as [-> _]. injection Hr as <- <-. by right.
Qed.

Lemma activate_writes uuid zone db actor report now e db' :
  activate_d1_v2 uuid zone db actor report now = Ok (e, db') -> rtc write db db'.
Proof. intros [[-> _]|[-> Hb]]%activate_Ok; [done|]. apply rtc_once. by constructor. Qed.

(** ** Steps *)

(** One call of a service, with any arguments; a call that raises after its
    first transaction leaves what it committed. *)
Inductive step (db : ResearchDB) : ResearchDB -> Prop :=
  | step_prepare uuid zone stored trace_id catalog snapshot m now :
      step db (prepare_research_run uuid zone stored trace_id db catalog snapshot m now).2
  | step_finalize uuid zone request bundle raw_hash file now run db' :
      finalize_research_run uuid zone db request bundle raw_hash file now = Ok (run, db') -> step db db'
  | step_evaluate uuid zone o now rows db' :
      evaluate_research_target uuid zone db o now = Ok (rows, db') -> step db db'
  | step_review uuid zone task bundle now rows db' :
      finalize_reasoning_review uuid zone db task bundle now = Ok (rows, db') -> step db db'
  | step_review_decision uuid zone id d now row db' :
      review_reasoning uuid zone db id d now = Ok (row, db') -> step db db'
  | step_reflect uuid zone draft now row db' :
      create_reflection_v2 uuid zone db draft now = Ok (row, db') -> step db db'
  | step_reflection_decision uuid zone id d now row db' :
      review_reflection_v2 uuid zone db id d now = Ok (row, db') -> step db db'
  | step_activate uuid zone actor report now e db' :
      activate_d1_v2 uuid zone db actor report now = Ok (e, db') -> step db db'.

Lemma step_writes db db' : step db db' -> rtc write db db'.
Proof.
  intros []; eauto using prepare_writes, finalize_writes, evaluate_writes, finalize_review_writes,
    review_reasoning_writes, create_reflection_writes, review_reflection_writes, activate_writes.
Qed.

Lemma steps_inv db db' : rtc step db db' -> research_inv db -> research_inv db' /\ grows db db'.
Proof.
  intros Hs. apply writes_inv. induction Hs as [|a b c Hab _ IH]; [done|]. etrans; [by apply step_writes|done].
Qed.

End Steps.

End ResearchSteps.
