(* ===== verification/ResearchDemo.v ===== *)
(** * A concrete run of the v2 loop

    One demo run from the frozen evidence to the human decision, at which the
    theorems of the loop are applied.  The hash of a document is a checksum of
    the identifier it carries, so that rows with distinct identifiers have
    distinct hashes. *)
From S2P Require Import Prelude PyStr PyTime Float64 Domain Json Contracts Wiki Snapshot ResearchV2 ResearchRows ResearchFlow ResearchOutcome ResearchTheory ResearchInv ResearchSteps JobDemo.
Import PyStr PyTime Float64 Json Contracts ResearchV2 ResearchRows ResearchFlow ResearchOutcome ResearchTheory ResearchInv ResearchSteps.
Open Scope string_scope.
Open Scope list_scope.
Open Scope Z_scope.

Module ResearchDemo.

Abbreviation digits := JobDemo.digits.

(** ** Instances *)

Definition identifying_keys : list string :=
  ["signal_id"; "source_signal_id"; "forecast_id"; "review_id"; "reflection_id"; "run_id"; "base_session"].

Definition identity_text (j : json) : string :=
  match j with
  | JStr s => s
  | JObj m => match omap (fun k => match m !! k with Some (JStr s) => Some s | _ => None end) identifying_keys with
              | s :: _ => s
              | [] => ""
              end
  | _ => ""
  end.

#[export] Instance python : PyRuntime := {| runtime := Py312 |}.
#[export] Instance ascii_only : Wiki.Uppercase := {| Wiki.py_upper := fun s => s |}.
#[export] Instance identity_hash : CanonicalHash := {| canonical_hash j := digits (identity_text j) |}.
#[export] Instance wall_clock : SqlTime := {| sql_leb a b := dt_wall a <=? dt_wall b |}.
#[export] Instance strict_urls : Snapshot.SourceUrl.UrlChecks :=
  {| Snapshot.SourceUrl.bracketed_ok := fun _ => false; Snapshot.SourceUrl.nfkc_ok := fun _ => false |}.
#[export] Instance service_dumps : ServiceDumps :=
  {| dump_draft d := JStr (sd_rationale d); dump_receipt := j_receipt |}.
#[export] Instance contract_dumps : ContractDumps := {|
  dump_program p := JStr (rp_program_id p);
  dump_snapshot s := JStr ("snapshot " +:+ iso_date (es_base_session s));
  dump_signal := signal_dict;
  dump_request r := JStr ("request " +:+ ch_run_id r);
  dump_review_input r := JStr ("review " +:+ rv_signal_id r);
  dump_reflection r := JStr ("reflection " +:+ rf_forecast_id r);
  dump_outcome o := JStr ("outcome " +:+ oo_target_id o) |}.

(** ** Evidence *)

Definition base : date := ymd2ord 2026 7 6.
Definition at_hour (d : date) (h : Z) : datetime := DateTime (d * us_per_day + h * us_per_hour) (Some (8 * us_per_hour)).
Definition cutoff : datetime := at_hour base 16.

Definition stamp (hash : string) : SourceStampV2 := mkStamp "https://example.org/series" hash cutoff cutoff.
Definition sessions : list date := seqZ (base + 1) 20.

Definition history : list DailyReturnV2 :=
  (fun d => mkReturn d f0 (stamp (digits "returns"))) <$> seqZ (base - 19) 20.

Definition snapshot_body : EvidenceSnapshotBodyV2 :=
  mkSnapshot PROGRAM_HASH cutoff cutoff cutoff base sessions
    (mkCalendarStamp (stamp (canonical_hash (calendar_payload base sessions))) base sessions)
    {[CSI1000 := mkEvidence CSI1000 f0 history; CSI300 := mkEvidence CSI300 f0 history]}
    [mkItem "item" "title" "summary" cutoff cutoff "https://example.org/item" (digits "item") []].

Definition snapshot : Sealed EvidenceSnapshotBodyV2 :=
  mkSealed snapshot_body (canonical_hash (dump_snapshot snapshot_body)).

Definition wiki : list Wiki.WikiEntryRead :=
  [Wiki.WikiEntry "VC-WIKI-DEMO-METHODOLOGY" "Methodology" "1.0.0" None "demo-only" [] []
     [Wiki.Section_ "method" "Method" "Excerpt"] (digits "wiki")].

(** ** The run *)

Definition value_or {A} (a : A) (r : result A) : A := match r with Ok b => b | Err _ => a end.

Lemma succeeds_Ok {A} (a : A) r : is_ok r = true -> r = Ok (value_or a r).
Proof. by destruct r. Qed.

Definition uuid (tag : string) (n : nat) : string := tag +:+ String (Ascii.ascii_of_nat (97 + n)) "".

Abbreviation prepared :=
  (prepare_research_run (uuid "run-") shanghai (fun _ => Ok codex_request) "00000000000000000000000000000001"
    empty_db wiki snapshot demo (at_hour base 17)).

Abbreviation prepared_db := prepared.2.

Definition no_run : ResearchRunV2 := mkRun "" "" "" "" None demo run_failed base cutoff None None.
Definition awaiting_run : ResearchRunV2 := default no_run (head (db_runs prepared_db)).

(** The frozen request; a prepare that fails leaves the empty one. *)
Definition empty_request : Sealed CodexHandoffBodyV3 :=
  mkSealed (mkHandoff "" (mkSealed DEFAULT_PROGRAM_BODY "") snapshot [] [] cutoff "" None []) "".

Definition job_request (job : PreparedJob) : Sealed CodexHandoffBodyV3 :=
  match job with new_job r => r | frozen_job _ => empty_request end.

Definition request : Sealed CodexHandoffBodyV3 := job_request (value_or (new_job empty_request) prepared.1).

Definition draft_of (a : HandoffAssignmentV3) : AgentSignalDraftV2 :=
  let with_fields direction probabilities impact importance severity chain counter invalidation :=
    mkDraft (as_signal_kind a) (as_target_id a) (as_natural_horizon a) (as_decision_horizon a) direction
      probabilities impact importance severity (as_state_available a) false (as_assignment_id a) chain counter
      invalidation ["item"] (as_wiki_entry_id a) (as_wiki_version a) (as_wiki_section a)
      (as_wiki_content_hash a) in
  match as_signal_kind a with
  | D1_IMPACT => with_fields None None (Some positive) (Some low) None ["chain"] [] []
  | RISK_CRITIQUE => with_fields None None None None (Some medium) [] ["doubt"] ["stop"]
  | _ => with_fields (Some UP) (Some (Domain.mkProbs (lit 5 10) (lit 3 10) (lit 2 10))) None None None
           ["chain"] ["doubt"] ["stop"]
  end.

Definition generated_by : gmap string string :=
  {["surface" := "codex"; "model" := "gpt-5.6-sol"; "reasoning_effort" := "high"]}.

Definition bundle : CodexDraftBundleV3 :=
  mkDraftBundle (ch_run_id (body request)) (content_hash request) (at_hour base 18) generated_by
    ((fun a => (as_assignment_id a, draft_of a)) <$> codex_assignments (body request)).

Definition drafts_hash : string := digits "drafts.json".

Abbreviation finalized :=
  (finalize_research_run (uuid "row-") shanghai prepared_db request bundle drafts_hash None (at_hour base 19)).

Definition finalized_run : ResearchRunV2 := (value_or (no_run, empty_db) finalized).1.
Definition finalized_db : ResearchDB := (value_or (no_run, empty_db) finalized).2.

(** ** The outcome and the reviews *)

Definition outcome_body : OutcomeObservationBodyV2 :=
  mkObservation PROGRAM_HASH demo CSI1000_D1_TARGET base (base + 1) (of_Z 6000) (of_Z 6060) None None
    (at_hour (base + 1) 16) None None None {[CSI1000 := digits "price"]}.

Definition outcome : Sealed OutcomeObservationBodyV2 :=
  mkSealed outcome_body (canonical_hash (dump_outcome outcome_body)).

Abbreviation evaluated :=
  (evaluate_research_target (uuid "score-") shanghai finalized_db outcome (at_hour (base + 1) 17)).

Definition scores : list SignalEvaluationV2 := (value_or ([], empty_db) evaluated).1.
Definition evaluated_db : ResearchDB := (value_or ([], empty_db) evaluated).2.

Definition review_inputs : list (Sealed ReasoningReviewBodyV2) :=
  value_or [] (prepare_reasoning_review evaluated_db (ch_run_id (body request))).

Definition weak_rubric : ReasoningRubricDraftV2 := mkRubric 1 1 1 1 1 "advisory".

Definition review_task : ReviewTask :=
  mkReviewTask (Some "forecast-loop.reasoning-review-task/v2") (Some (ch_run_id (body request))) (Some false)
    review_inputs.

Definition review_bundle : ReasoningReviewDraftBundleV2 :=
  mkReviewBundle (ch_run_id (body request)) generated_by
    ((fun i => mkReviewDraft (rv_signal_id (body i)) (content_hash i) weak_rubric) <$> review_inputs).

Abbreviation reviewed :=
  (finalize_reasoning_review (uuid "review-") shanghai evaluated_db review_task review_bundle (at_hour (base + 1) 18)).

Definition reviews : list ReasoningReviewV2 := (value_or ([], empty_db) reviewed).1.
Definition reviewed_db : ResearchDB := (value_or ([], empty_db) reviewed).2.

Definition approval : Decided := mkDecided approved "reviewer" "notes".

Abbreviation decided :=
  (review_reasoning "event" shanghai reviewed_db (uuid "review-" 0) approval (at_hour (base + 1) 19)).

Definition no_review : ReasoningReviewV2 := mkReasoningReview "" "" "" ∅ weak_rubric 0 false "" cutoff "".

Definition decided_review : ReasoningReviewV2 := (value_or (no_review, empty_db) decided).1.
Definition decided_db : ResearchDB := (value_or (no_review, empty_db) decided).2.

(** ** The loop succeeds *)

Lemma succeeds_pair {A B} (p : A * B) r : is_ok r = true -> r = Ok ((value_or p r).1, (value_or p r).2).
Proof. destruct r as [[]|]; [done|intros [=]]. Qed.

Lemma loop_succeeds : (is_ok finalized && is_ok evaluated) && (is_ok reviewed && is_ok decided) = true.
Proof. by_vm. Qed.

Definition is_new_job (r : result PreparedJob) : bool := match r with Ok (new_job _) => true | _ => false end.

Lemma new_job_Ok (p : result PreparedJob * ResearchDB) :
  is_new_job p.1 = true -> p = (Ok (new_job (job_request (value_or (new_job empty_request) p.1))), p.2).
Proof. by destruct p as [[[]|] ?]. Qed.

Lemma prepare_succeeds : prepared = (Ok (new_job request), prepared_db).
Proof. apply new_job_Ok. by_vm. Qed.

Lemma finalize_succeeds :
  finalize_research_run (uuid "row-") shanghai prepared_db request bundle drafts_hash None (at_hour base 19)
  = Ok (finalized_run, finalized_db).
Proof. exact (succeeds_pair _ _ (proj1 (andb_prop _ _ (proj1 (andb_prop _ _ loop_succeeds))))). Qed.

Lemma evaluate_succeeds :
  evaluate_research_target (uuid "score-") shanghai finalized_db outcome (at_hour (base + 1) 17)
  = Ok (scores, evaluated_db).
Proof. exact (succeeds_pair _ _ (proj2 (andb_prop _ _ (proj1 (andb_prop _ _ loop_succeeds))))). Qed.

Lemma review_succeeds :
  finalize_reasoning_review (uuid "review-") shanghai evaluated_db review_task review_bundle (at_hour (base + 1) 18)
  = Ok (reviews, reviewed_db).
Proof. exact (succeeds_pair _ _ (proj1 (andb_prop _ _ (proj2 (andb_prop _ _ loop_succeeds))))). Qed.

Lemma decide_succeeds :
  review_reasoning "event" shanghai reviewed_db (uuid "review-" 0) approval (at_hour (base + 1) 19)
  = Ok (decided_review, decided_db).
Proof. exact (succeeds_pair _ _ (proj2 (andb_prop _ _ (proj2 (andb_prop _ _ loop_succeeds))))). Qed.

Lemma loop_steps :
  rtc step empty_db finalized_db /\ rtc step finalized_db evaluated_db /\ rtc step evaluated_db reviewed_db
  /\ rtc step reviewed_db decided_db.
Proof.
  split_and!.
  - eapply rtc_l; [apply step_prepare|]. eapply rtc_once, step_finalize. exact finalize_succeeds.
  - eapply rtc_once, step_evaluate. exact evaluate_succeeds.
  - eapply rtc_once, step_review. exact review_succeeds.
  - eapply rtc_once, step_review_decision. exact decide_succeeds.
Qed.

Lemma loop_inv : research_inv finalized_db /\ research_inv reviewed_db.
Proof.
  destruct loop_steps as (L1 & L2 & L3 & _). split; (refine (proj1 (steps_inv empty_db _ _ research_inv_empty))).
  - exact L1.
  - etrans; [exact L1|]. etrans; [exact L2|exact L3].
Qed.

(** ** A live store before its activation

    Twenty-one completed live runs: the forecasts of the first twenty are
    evaluated and the reflections of the first ten approved; the last run has
    its forecast after the activation. *)

Definition numbered (tag : string) (i : Z) : string := tag +:+ String (Ascii.ascii_of_nat (97 + Z.to_nat i)) "".

Definition nth_run (i : Z) : ResearchRunV2 :=
  mkRun (numbered "run-" i) PROGRAM_HASH (digits "snapshot") (numbered "input-" i) None live run_completed
    (base + i) (at_hour (base + i) 17) (Some (at_hour (base + i) 19)) None.

Definition even : Domain.Probs := uniform.

Definition live_forecast (lane : Lane) (i : Z) : ForecastV2 :=
  mkForecast (numbered "forecast-" i) (numbered "run-" i) (numbered "signal-" i) PROGRAM_HASH CSI1000_D1_TARGET D1
    formal lane (base + i) (base + i + 1) even None even "rationale" [] [] (numbered "input-" i)
    (numbered "forecast-hash-" i) (at_hour (base + i) 19).

Definition live_evaluation (i : Z) : ForecastEvaluationV2 :=
  mkForecastEvaluation (numbered "evaluation-" i) (numbered "forecast-" i) (numbered "score-" i) f0 UP f0 f0 true
    (at_hour (base + i + 1) 17) (numbered "evaluation-hash-" i).

Definition live_reflection (i : Z) : ReflectionV2 :=
  let b := mkReflection (numbered "forecast-" i) (numbered "forecast-hash-" i) (numbered "evaluation-" i)
    (numbered "evaluation-hash-" i) CSI1000_D1_TARGET (base + i) (base + i + 1) UP right_reason [] in
  mkReflectionRow (numbered "reflection-" i) (rf_forecast_id b) (rf_forecast_hash b) (rf_evaluation_id b)
    (rf_evaluation_hash b) (rf_target_id b) (rf_anchor_date b) (rf_target_date b) UP right_reason []
    (mkSealed b (numbered "reflection-hash-" i)) (at_hour (base + i + 1) 18) (numbered "reflection-hash-" i).

Definition live_approval (i : Z) : HumanEvent :=
  human_event (numbered "event-" i) "reflection_id" (numbered "reflection-" i) approval (at_hour (base + i + 1) 19).

Definition live_store : ResearchDB :=
  mkResearchDB (nth_run <$> seqZ 0 21) [] (live_forecast shadow <$> seqZ 0 20) [] []
    (live_evaluation <$> seqZ 0 20) [] [] (live_reflection <$> seqZ 0 10) (live_approval <$> seqZ 0 10) [].

Definition eval_report : AgentEvalReport := mkEvalReport true (Some (mkEvalTarget true true true (Some true) 20)) "report".

Abbreviation activation :=
  (activate_d1_v2 "activation" shanghai live_store "actor" (Ok eval_report) (at_hour (base + 20) 18)).

Definition no_activation : ResearchActivationEventV2 :=
  mkActivation "" "" "" retired (mkActivationEvidence 0 0 [] "") "" cutoff None "".

Definition activation_row : ResearchActivationEventV2 := (value_or (no_activation, empty_db) activation).1.
Definition active_store : ResearchDB := (value_or (no_activation, empty_db) activation).2.

Lemma activate_succeeds :
  activate_d1_v2 "activation" shanghai live_store "actor" (Ok eval_report) (at_hour (base + 20) 18)
  = Ok (activation_row, active_store).
Proof. apply succeeds_pair. by_vm. Qed.

(** The store after the formal forecast of the last run. *)
Definition formal_forecast : ForecastV2 := live_forecast formal 20.
Definition formal_store : ResearchDB := value_or empty_db (add_forecast formal_forecast active_store).

Lemma formal_store_Ok : add_forecast formal_forecast active_store = Ok formal_store.
Proof. apply succeeds_Ok. by_vm. Qed.

Lemma live_store_inv : research_inv live_store.
Proof. split; first [constructor; fail|by_decide]. Qed.

Lemma formal_store_inv : research_inv formal_store.
Proof.
  assert (research_inv active_store) as Hinv.
  { refine (proj1 (steps_inv live_store _ _ live_store_inv)). eapply rtc_once, step_activate. exact activate_succeeds. }
  eapply write_inv; [exact Hinv|]. eapply (write_forecast active_store formal_forecast (nth_run 20)).
  - apply (list_elem_of_lookup_2 _ 20). by_vm.
  - done.
  - by_vm.
  - exact formal_store_Ok.
Qed.

(** ** A live outcome *)

Definition price_source (instrument : string) : OutcomePriceSourceStampV2 :=
  mkPriceSource instrument base (base + 1)
    (mkStamp "https://example.org/price" (digits instrument) (at_hour (base + 1) 16) (at_hour (base + 1) 16)).

Definition live_outcome_body : OutcomeObservationBodyV2 :=
  mkObservation PROGRAM_HASH live CSI1000_D1_TARGET base (base + 1) (of_Z 6000) (of_Z 6060) None None
    (at_hour (base + 1) 17) (Some (price_source CSI1000)) None
    (Some (mkCalendarSource [base; base + 1]
       (mkStamp "https://example.org/calendar" (digits "calendar") (at_hour (base + 1) 16) (at_hour (base + 1) 16))))
    (<["calendar" := digits "calendar"]> {[CSI1000 := digits CSI1000]}).

Definition live_outcome : Sealed OutcomeObservationBodyV2 :=
  mkSealed live_outcome_body (canonical_hash (dump_outcome live_outcome_body)).

(** ** A tie of the deterministic officer

    A strategy and a critique whose blend with the baseline of two observed
    outcomes gives up and down the same probability. *)

Definition decision_draft (kind : SignalKindV2) (direction : option Direction) (p : option Domain.Probs)
    (severity : option Level) : AgentSignalDraftV2 :=
  mkDraft kind CSI1000_D1_TARGET D1 (Some D1) direction p None None severity true false "rationale" [] ["doubt"]
    ["stop"] ["item"] "VC-WIKI-DEMO-METHODOLOGY" "1.0.0" "method" (digits "wiki").

Definition tie_strategy : AgentSignalDraftV2 :=
  decision_draft STRATEGY_FORECAST (Some UP) (Some (Domain.mkProbs (lit 41 100) (lit 23 100) (lit 36 100))) None.

Definition severe_critique : AgentSignalDraftV2 := decision_draft RISK_CRITIQUE None None (Some high).

Definition cio_assignment (baseline : Domain.Probs) : HandoffAssignmentV3 :=
  mkAssignment "cio" CIO_AGENT_ID "1.0.0" "forecast-loop-deterministic-cio" "deterministic-cio/v2" deterministic
    DECISION_FORECAST CSI1000_D1_TARGET D1 (Some D1) daily base (base + 1) true None [] [] (Some baseline) ["item"]
    "VC-WIKI-DEMO-METHODOLOGY" "1.0.0" "method" (digits "wiki") "role".

End ResearchDemo.
