(* ===== verification/ResearchProps.v ===== *)
(** * What the v2 research loop guarantees *)
From S2P Require Import Prelude PyStr PyTime Float64 Domain Json Contracts Wiki Snapshot ResearchV2 ResearchRows ResearchFlow ResearchOutcome ResearchTheory ResearchInv ResearchSteps ResearchDemo.
Import PyStr PyTime Float64 Json Contracts ResearchV2 ResearchRows ResearchFlow ResearchOutcome ResearchTheory ResearchInv ResearchSteps.
Open Scope string_scope.
Open Scope list_scope.
Open Scope Z_scope.

Module ResearchProps.

Section Props.
Context `{PyRuntime} `{Wiki.Uppercase} `{CanonicalHash} `{ContractDumps} `{SqlTime} `{ServiceDumps}
  `{Snapshot.SourceUrl.UrlChecks}.

(** ** The store *)

Lemma NoDup_key {A B} (key : A -> B) l x y : NoDup (key <$> l) -> x ∈ l -> y ∈ l -> key x = key y -> x = y.
Proof.
  intros Hnd [i Hi]%list_elem_of_lookup [j Hj]%list_elem_of_lookup E.
  assert (i = j) as ->; [|congruence].
  eapply NoDup_lookup; [exact Hnd| |]; rewrite list_lookup_fmap; [by rewrite Hi|rewrite Hj; cbn; by rewrite E].
Qed.


(** ** Contracts return what they accept *)

Lemma validate_signal_id s s' : validate_signal s = Ok s' -> s' = s.
Proof. unfold validate_signal. intros Hr. repeat apply bind_Ok in Hr as (? & _ & Hr). congruence. Qed.

Lemma validate_request_id r r' : validate_request r = Ok r' -> r' = r.
Proof. unfold validate_request. intros Hr. repeat apply bind_Ok in Hr as (? & _ & Hr). congruence. Qed.

Lemma validate_snapshot_id s s' : validate_snapshot s = Ok s' -> s' = s.
Proof. unfold validate_snapshot. intros Hr. repeat apply bind_Ok in Hr as (? & _ & Hr). congruence. Qed.

(** ** The lane *)


(** ** Finalizing *)

(** A sealed signal is accepted by its contract and carries the identity, cutoff
    and draft it was sealed with. *)
Lemma seal_signal_Ok r a d at_ id s :
  seal_signal r a d at_ id = Ok s ->
  validate_signal s = Ok s /\ sg_signal_id (body s) = id /\ sg_run_id (body s) = ch_run_id r
  /\ sg_agent_id (body s) = as_agent_id a /\ sg_target_id (body s) = as_target_id a
  /\ sg_signal_kind (body s) = as_signal_kind a /\ sg_target_date (body s) = as_target_date a
  /\ sg_evidence_cutoff (body s) = es_data_cutoff (body (ch_snapshot r))
  /\ sg_created_at (body s) = at_ /\ sg_draft (body s) = d
  /\ sg_baseline_probabilities (body s) = as_baseline_probabilities a.
Proof.
  unfold seal_signal. intros (t & _ & Hv)%bind_Ok. pose proof (validate_signal_id _ _ Hv) as ->. by split_and!.
Qed.

(** Where the draft of an assignment comes from. *)
Definition origin (r : CodexHandoffBodyV3) (bundle : CodexDraftBundleV3) (a : HandoffAssignmentV3)
    (d : AgentSignalDraftV2) : Prop :=
  (a ∈ codex_assignments r /\ exists i, (i, d) ∈ cb_drafts bundle /\ i = as_assignment_id a)
  \/ exists strategy critic, deterministic_cio_draft strategy critic a = Ok d.

Definition sealed_from (uuid : nat -> string) (r : CodexHandoffBodyV3) (bundle : CodexDraftBundleV3)
    (now : datetime) (kv : string * AgentSignalV2Record) : Prop :=
  exists a d s n, a ∈ ch_assignments r /\ kv.1 = as_assignment_id a /\ origin r bundle a d
    /\ seal_signal r a d now (uuid n) = Ok s /\ kv.2 = signal_record s.

(** A progress that has only added these signals. *)
Definition extends_by (p p' : Progress) (ss : list (string * AgentSignalV2Record)) : Prop :=
  pg_signals p' = pg_signals p ++ ss /\ db_signals (pg_db p') = db_signals (pg_db p) ++ ss.*2
  /\ db_forecasts (pg_db p') = db_forecasts (pg_db p) /\ db_runs (pg_db p') = db_runs (pg_db p).

Lemma record_signal_extends uuid r now p a d p' :
  record_signal uuid r now p a d = Ok p' ->
  exists s n, seal_signal r a d now (uuid n) = Ok s
    /\ extends_by p p' [(as_assignment_id a, signal_record s)].
Proof.
  intros (s & db' & Hs & Hd & ->)%record_signal_Ok. exists s, (pg_drawn p). split; [done|].
  apply add_signal_Ok in Hd as (l & Hl & ->). apply insert_row_Ok in Hl as [-> _]. by split_and!.
Qed.

Lemma signals_loop {A} (f : Progress -> A -> result Progress) (Q : string * AgentSignalV2Record -> Prop)
    (ids : A -> list string) l p p' :
  (forall p x p', x ∈ l -> f p x = Ok p' -> exists ss, extends_by p p' ss /\ Forall Q ss /\ ss.*1 = ids x) ->
  for_each f p l = Ok p' -> exists ss, extends_by p p' ss /\ Forall Q ss /\ ss.*1 = l ≫= ids.
Proof.
  revert p. induction l as [|x l IH]; intros p Hf; cbn.
  - intros [= <-]. exists []. split_and!; [|constructor|done]. split_and!; [by rewrite app_nil_r..|done|done].
  - intros (p1 & H1' & Hr)%bind_Ok. destruct (Hf _ _ _ ltac:(left) H1') as (s1 & (E1 & E2 & E3 & R1) & Q1 & I1).
    destruct (IH p1) as (s2 & (E4 & E5 & E6 & R2) & Q2 & I2); [intros ??? Hx; apply Hf; by right|done|].
    exists (s1 ++ s2). split_and!; [|by apply Forall_app|by rewrite fmap_app, I1, I2].
    split_and!; [by rewrite E4, E1, app_assoc|by rewrite E5, E2, fmap_app, app_assoc|by rewrite E6|by rewrite R2].
Qed.

Lemma codex_signals uuid r now bundle p p' :
  for_each (codex_signal uuid r now bundle) p (codex_assignments r) = Ok p' ->
  exists ss, extends_by p p' ss /\ Forall (sealed_from uuid r bundle now) ss
    /\ ss.*1 = as_assignment_id <$> codex_assignments r.
Proof.
  intros L. apply (signals_loop _ (sealed_from uuid r bundle now) (fun a => [as_assignment_id a])) in L
    as (ss & E & Q & I).
  2: { intros q a q' Ha. unfold codex_signal. destruct (List.find _ _) as [[i d]|] eqn:Ef; [|done].
    apply find_elem in Ef as [Hin Hi]. apply String.eqb_eq in Hi. intros (s & n & Hs & He)%record_signal_extends.
    exists [(as_assignment_id a, signal_record s)]. split_and!; [done| |done]. apply Forall_singleton.
    exists a, d, s, n. apply filter_elem in Ha as Hm. split_and!; try done; [by destruct Hm|].
    left. split; [done|]. by exists i. }
  exists ss. split_and!; [done..|]. rewrite I. clear. induction (codex_assignments r) as [|a l IH]; [done|].
  cbn. by f_equal.
Qed.

Lemma assignment_by_id_Ok r id a :
  assignment_by_id r id = Ok a -> a ∈ ch_assignments r /\ as_assignment_id a = id.
Proof.
  unfold assignment_by_id. destruct (last _) as [b|] eqn:El; [|done]. intros [= ->].
  apply last_Some_elem_of, filter_elem in El as [Hin E]. by apply String.eqb_eq in E.
Qed.

Definition decided_targets (r : CodexHandoffBodyV3) : list ResearchTargetV2 :=
  List.filter (fun t => has_decision_target r (rt_target_id t)) (rp_decision_targets (body (ch_program r))).

Lemma cio_signals uuid r now bundle p p' :
  for_each (cio_signal uuid r now) p (rp_decision_targets (body (ch_program r))) = Ok p' ->
  exists ss, extends_by p p' ss /\ Forall (sealed_from uuid r bundle now) ss
    /\ ss.*1 = of_target CIO_AGENT_ID DECISION_FORECAST <$> decided_targets r.
Proof.
  intros L. apply (signals_loop _ (sealed_from uuid r bundle now)
    (fun t => if has_decision_target r (rt_target_id t) then [of_target CIO_AGENT_ID DECISION_FORECAST t] else []))
    in L as (ss & E & Q & I).
  2: { intros q t q' _. unfold cio_signal. destruct (has_decision_target _ _); cbn [negb].
    - intros (a & Ha & Hr)%bind_Ok. apply assignment_by_id_Ok in Ha as [Ha Eid].
      apply bind_Ok in Hr as (s1 & _ & Hr). apply bind_Ok in Hr as (s2 & _ & Hr).
      apply bind_Ok in Hr as (s3 & _ & Hr). apply bind_Ok in Hr as (s4 & _ & Hr).
      apply bind_Ok in Hr as (d & Hd & Hr). apply record_signal_extends in Hr as (s & n & Hs & He).
      exists [(as_assignment_id a, signal_record s)]. split_and!; [done| |by rewrite <- Eid]. apply Forall_singleton.
      exists a, d, s, n. split_and!; try done. right. by exists (sg_draft (body s2)), (sg_draft (body s4)).
    - intros [= <-]. exists []. split_and!; [|constructor|done]. split_and!; [by rewrite app_nil_r..|done|done]. }
  exists ss. split_and!; [done..|]. rewrite I. unfold decided_targets. clear.
  induction (rp_decision_targets _) as [|t l IH]; [done|]. cbn. destruct (has_decision_target _ _); cbn; [f_equal|]; exact IH.
Qed.

(** The forecast of a decision target repeats its decision signal. *)
Definition forecast_from (r : CodexHandoffBodyV3) (run : ResearchRunV2) (signals : list (string * AgentSignalV2Record))
    (now : datetime) (t : ResearchTargetV2) (f : ForecastV2) : Prop :=
  fv_run_id f = rr_id run /\ fv_target_id f = rt_target_id t /\ fv_created_at f = now
  /\ fv_configured_lane f = rt_lane t
  /\ target_date (body (ch_snapshot r)) (rt_horizon t) = Ok (fv_target_date f)
  /\ exists s, (of_target CIO_AGENT_ID DECISION_FORECAST t, s) ∈ signals /\ fv_source_signal_id f = sr_id s
       /\ sd_probabilities (sg_draft (body (sr_envelope s))) = Some (fv_probabilities f)
       /\ fv_threshold f = sg_threshold (body (sr_envelope s)).

Lemma forecasts_loop uuid run r now l p fs p' fs' :
  for_each (forecast_of uuid run r now) (p, fs) l = Ok (p', fs') ->
  pg_signals p' = pg_signals p /\ db_signals (pg_db p') = db_signals (pg_db p)
  /\ db_runs (pg_db p') = db_runs (pg_db p)
  /\ exists new, fs' = fs ++ new /\ db_forecasts (pg_db p') = db_forecasts (pg_db p) ++ new
       /\ Forall2 (forecast_from r run (pg_signals p) now)
            (List.filter (fun t => has_decision_target r (rt_target_id t)) l) new.
Proof.
  revert p fs. induction l as [|t l IH]; intros p fs; cbn [for_each].
  - intros [= <- <-]. split_and!; [done..|]. exists []. rewrite !app_nil_r. split_and!; done.
  - intros ([p1 fs1] & H1' & Hr)%bind_Ok.
    destruct (IH _ _ Hr) as (S1 & S2 & S4 & new & -> & S3 & F).
    destruct (forecast_of_Ok _ _ _ _ _ _ _ _ _ H1')
      as [(Ht & -> & ->)|(source & envelope & probabilities & target & f & db' & Ht & Hs & He & Hp & Hd & Hadd & -> & ->
          & ? & Hsrc & ? & ? & _ & Htd & Hpr & Hth & ? & _ & _)]; cbn [List.filter]; rewrite Ht.
    + split_and!; [done..|]. by exists new.
    + cbn [pg_signals pg_db] in *. apply add_forecast_Ok in Hadd as (k & Hk & ->).
      apply insert_row_Ok in Hk as [-> _]. split_and!; [done..|]. exists (f :: new). rewrite S3.
      cbn [set_forecasts db_forecasts]. split_and!; [by rewrite <- app_assoc..|]. constructor; [|done].
      unfold signal_at in Hs. destruct (List.find _ _) as [[i s]|] eqn:Ef; [|done]. injection Hs as Hs. cbn in Hs. subst s.
      apply find_elem in Ef as [Hin Hi]. cbn in Hi. apply String.eqb_eq in Hi. subst i.
      apply validate_signal_id in He. subst envelope.
      split_and!; [done..|by rewrite Htd|]. exists source. split_and!; [done..|by rewrite Hp, Hpr|done].
Qed.

Lemma deadline_before r zone deadline accepted a :
  prediction_finalize_deadline r zone = Ok deadline -> wall_ltb accepted deadline = true ->
  a ∈ ch_assignments r -> wall_ltb accepted (combine (as_target_date a) 0 zone) = true.
Proof.
  unfold prediction_finalize_deadline. intros Hd Hw Ha.
  assert (forall l d, fold_left Z.min l d <= d /\ forall x, x ∈ l -> fold_left Z.min l d <= x) as Hmin.
  { induction l as [|y l IH]; intros d; cbn; [split; [lia|by intros x ?%not_elem_of_nil]|].
    destruct (IH (Z.min d y)) as [Hle Hall]. split; [lia|]. intros x [->|Hx]%elem_of_cons; [lia|by apply Hall]. }
  assert (as_target_date a ∈ as_target_date <$> ch_assignments r) as Hin by by apply list_elem_of_fmap_2.
  destruct (as_target_date <$> ch_assignments r) as [|d l]; [by apply not_elem_of_nil in Hin|].
  injection Hd as <-. destruct (Hmin l d) as [Hle Hall].
  unfold wall_ltb, combine, attach in *. cbn [dt_wall] in *. rewrite Z.ltb_lt in *.
  assert (fold_left Z.min l d <= as_target_date a) as Hx by (apply elem_of_cons in Hin as [->|Hin]; [done|by apply Hall]).
  pose proof (Z.mul_le_mono_nonneg_r _ _ us_per_day ltac:(done) Hx). lia.
Qed.

(** The transaction of a finalize, on the tables. *)
Lemma transaction_Ok uuid db request bundle raw_hash now run0 run db' :
  finalize_transaction uuid db request bundle raw_hash now run0 = Ok (run, db') ->
  let r := body request in
  rr_status run0 = run_awaiting_draft /\ seals_match run0 request = true
  /\ exists signals forecasts receipt,
       db_signals db' = db_signals db ++ signals.*2
       /\ db_forecasts db' = db_forecasts db ++ forecasts
       /\ Forall (sealed_from uuid r bundle now) signals
       /\ signals.*1 = (as_assignment_id <$> codex_assignments r)
                       ++ (of_target CIO_AGENT_ID DECISION_FORECAST <$> decided_targets r)
       /\ Forall2 (forecast_from r run0 signals now) (decided_targets r) forecasts
       /\ run = completed_run run0 now receipt /\ validate_receipt receipt = Ok receipt
       /\ rc_run_id (body receipt) = rr_id run0 /\ rc_drafts_raw_hash (body receipt) = raw_hash
       /\ rc_request_hash (body receipt) = content_hash request
       /\ rc_signal_ids (body receipt) ≡ₚ sr_id <$> signals.*2
       /\ rc_forecast_ids (body receipt) ≡ₚ fv_id <$> forecasts
       /\ exists db1, db_runs db1 = db_runs db /\ db' = replace_run run db1.
Proof.
  unfold finalize_transaction. cbv zeta. intros [Hst Hr]%research_when_Ok.
  apply negb_false_iff, bool_decide_eq_true in Hst. apply research_when_Ok in Hr as [Hseal Hr].
  apply negb_false_iff in Hseal. apply bind_Ok in Hr as (p1 & L1 & Hr). apply bind_Ok in Hr as (p2 & L2 & Hr).
  apply bind_Ok in Hr as ([p3 fs] & L3 & Hr). apply bind_Ok in Hr as (receipt & Hrc & Hr).
  destruct (codex_signals _ _ _ _ _ _ L1) as (s1 & (A1 & A2 & A3 & A4) & Q1 & I1).
  destruct (cio_signals _ _ _ bundle _ _ L2) as (s2 & (B1 & B2 & B3 & B4) & Q2 & I2).
  apply forecasts_loop in L3 as L3'. destruct L3' as (C1 & C2 & C4 & new & -> & C3 & F).
  split; [done|]. split; [done|].
  assert (pg_signals p2 = s1 ++ s2) as Esig by by rewrite B1, A1.
  assert (receipt = mkSealed (body receipt) (content_hash receipt)) as Erc by by destruct receipt.
  unfold validate_receipt in Hrc. apply bind_Ok in Hrc as ([] & Hh & Hrc).
  injection Hr as <- <-. exists (s1 ++ s2), new, receipt. cbn [app] in *.
  split_and!.
  - cbn [replace_run set_runs db_signals]. rewrite C2, B2, A2, fmap_app, app_assoc. done.
  - cbn [replace_run set_runs db_forecasts]. by rewrite C3, B3, A3.
  - by apply Forall_app.
  - by rewrite fmap_app, I1, I2.
  - by rewrite <- Esig.
  - done.
  - injection Hrc as <-. unfold validate_receipt. by rewrite Hh.
  - by injection Hrc as <-.
  - by injection Hrc as <-.
  - by injection Hrc as <-.
  - injection Hrc as <-. cbn. rewrite merge_sort_Permutation, C1, Esig. by rewrite <- list_fmap_compose.
  - injection Hrc as <-. cbn. by rewrite merge_sort_Permutation.
  - exists (pg_db p3). split; [by rewrite C4, B4, A4|done].
Qed.

Lemma finalize_Ok uuid zone db request bundle raw_hash file now run db' :
  finalize_research_run uuid zone db request bundle raw_hash file now = Ok (run, db') ->
  validate_request request = Ok request /\ validate_research_draft_bundle request bundle = Ok tt
  /\ exists run0, run_of db (ch_run_id (body request)) = Some run0
  /\ ((rr_status run0 = run_completed /\ db' = db
       /\ recover_completed_research_run request raw_hash file run0 = Ok run)
      \/ (rr_status run0 <> run_completed /\ is_aware now = true
          /\ (exists deadline, prediction_finalize_deadline (body request) zone = Ok deadline
                /\ wall_ltb (astimezone zone now) deadline = true)
          /\ finalize_transaction uuid db request bundle raw_hash (astimezone zone now) run0 = Ok (run, db'))).
Proof.
  unfold finalize_research_run. intros (r & Hv & Hr)%bind_Ok.
  assert (r = request) as ->.
  { unfold validate_request in Hv. repeat apply bind_Ok in Hv as (? & _ & Hv). congruence. }
  apply bind_Ok in Hr as ([] & Hb & Hr). split; [done|]. split; [done|].
  destruct (run_of db _) as [run0|]; [|done]. exists run0. split; [done|].
  destruct (bool_decide _) eqn:Est.
  - apply bool_decide_eq_true in Est. apply bind_Ok in Hr as (run1 & Hrec & [= <- <-]). by left.
  - apply bool_decide_eq_false in Est. apply research_when_Ok in Hr as [Ha Hr].
    apply bind_Ok in Hr as (deadline & Hd & Hr). apply research_when_Ok in Hr as [Hw Hr].
    apply negb_false_iff in Ha, Hw. right. split_and!; [done..|by exists deadline|done].
Qed.

(** C9 What finalizing an awaiting run does.  The host accepts it before the
    midnight of every target session of its assignments; each external
    assignment gives one sealed signal with the accepted draft, in order, each
    decision target one deterministic signal and one forecast that repeats it;
    the run is completed with a sealed receipt of exactly these rows. *)
Theorem finalized_run_sound uuid zone db request bundle raw_hash file now run0 run db' :
  finalize_research_run uuid zone db request bundle raw_hash file now = Ok (run, db') ->
  run_of db (ch_run_id (body request)) = Some run0 -> rr_status run0 = run_awaiting_draft ->
  let r := body request in
  let accepted := astimezone zone now in
  (forall a, a ∈ ch_assignments r -> wall_ltb accepted (combine (as_target_date a) 0 zone) = true)
  /\ exists signals forecasts receipt,
       db_signals db' = db_signals db ++ signals.*2
       /\ db_forecasts db' = db_forecasts db ++ forecasts
       /\ Forall (sealed_from uuid r bundle accepted) signals
       /\ signals.*1 = (as_assignment_id <$> codex_assignments r)
                       ++ (of_target CIO_AGENT_ID DECISION_FORECAST <$> decided_targets r)
       /\ Forall2 (forecast_from r run0 signals accepted) (decided_targets r) forecasts
       /\ run = completed_run run0 accepted receipt /\ validate_receipt receipt = Ok receipt
       /\ rc_drafts_raw_hash (body receipt) = raw_hash
       /\ rc_signal_ids (body receipt) ≡ₚ sr_id <$> signals.*2
       /\ rc_forecast_ids (body receipt) ≡ₚ fv_id <$> forecasts.
Proof.
  intros Hf Hrun Hst r accepted. apply finalize_Ok in Hf as (_ & _ & run1 & Hrun' & Hf).
  rewrite Hrun in Hrun'. injection Hrun' as <-.
  destruct Hf as [[Hc _]|(_ & _ & (deadline & Hd & Hw) & Ht)]; [congruence|].
  split; [intros a Ha; by eapply deadline_before|].
  apply transaction_Ok in Ht as (_ & _ & signals & forecasts & receipt & ? & ? & ? & ? & ? & ? & ? & _ & ? & _ & ? & ? & _).
  exists signals, forecasts, receipt. by split_and!.
Qed.

Lemma run_of_replace db db1 run run' :
  db_runs db1 = db_runs db -> run_of db (rr_id run) = Some run -> rr_id run' = rr_id run ->
  run_of (replace_run run' db1) (rr_id run) = Some run'.
Proof.
  intros E Hr Eid. unfold run_of in *. cbn [replace_run set_runs db_runs]. rewrite E, Eid. clear E db1.
  induction (db_runs db) as [|a l IH]; [done|]. cbn in *.
  destruct (rr_id a =? rr_id run)%string eqn:Ea.
  - by rewrite Eid, String.eqb_refl.
  - rewrite Ea. by apply IH.
Qed.

(** Finalizing again, at any later time, even after the target session has
    begun, returns the completed run and changes nothing, as long as the drafts
    are the same bytes and [receipt.json] is missing or as it was written. *)
Theorem finalize_idempotent uuid zone db request bundle raw_hash file now run db' uuid' now' file' :
  finalize_research_run uuid zone db request bundle raw_hash file now = Ok (run, db') ->
  file' = None \/ file' = rr_receipt run ->
  finalize_research_run uuid' zone db' request bundle raw_hash file' now' = Ok (run, db').
Proof.
  intros Hf Hfile. apply finalize_Ok in Hf as (Hv & Hb & run0 & Hrun & Hf).
  assert (rr_status run = run_completed /\ run_of db' (ch_run_id (body request)) = Some run
          /\ recover_completed_research_run request raw_hash file' run = Ok run) as (Hst & Hrun' & Hrec).
  { assert (forall receipt, seals_match run request = true -> rr_receipt run = Some receipt ->
      validate_receipt receipt = Ok receipt -> rc_run_id (body receipt) = rr_id run ->
      rc_drafts_raw_hash (body receipt) = raw_hash ->
      recover_completed_research_run request raw_hash file' run = Ok run) as Hrecover.
    { intros receipt Hs Hrc Hval Hid Hraw. unfold recover_completed_research_run. rewrite Hs, Hrc. cbn [negb].
      unfold research_when, raise_when. cbn [mbind result_bind]. rewrite Hval. cbn [mbind result_bind].
      rewrite Hid, Hraw, !String.eqb_refl. cbn [negb orb mbind result_bind].
      destruct Hfile as [->| ->]; [done|]. rewrite Hrc, Hval. cbn [mbind result_bind].
      by rewrite bool_decide_eq_true_2. }
    destruct Hf as [(Hst & -> & Hrec)|(_ & _ & _ & Ht)].
    - assert (run = run0) as ->.
      { unfold recover_completed_research_run in Hrec. apply research_when_Ok in Hrec as [_ Hrec].
        destruct (rr_receipt run0); [|done]. repeat apply bind_Ok in Hrec as (? & _ & Hrec). congruence. }
      split_and!; [done..|]. unfold recover_completed_research_run in Hrec.
      apply research_when_Ok in Hrec as [Hs Hrec]. apply negb_false_iff in Hs.
      destruct (rr_receipt run0) as [receipt|] eqn:Erc; [|done].
      apply bind_Ok in Hrec as (receipt' & Hval & Hrec). apply research_when_Ok in Hrec as [Hid Hrec].
      rewrite orb_false_iff, !negb_false_iff, !String.eqb_eq in Hid.
      assert (receipt' = receipt) as ->.
      { unfold validate_receipt in Hval. apply bind_Ok in Hval as (? & _ & Hval). congruence. }
      destruct Hid. by apply (Hrecover receipt).
    - apply transaction_Ok in Ht as (Hst & Hs & signals & forecasts & receipt & _ & _ & _ & _ & _ & -> & Hval & Hid & Hraw
        & _ & _ & _ & db1 & Eruns & ->).
      pose proof (run_of_elem _ _ _ Hrun) as [_ Eid]. split_and!; [done| |].
      + rewrite <- Eid in *. by apply run_of_replace with db.
      + by apply (Hrecover receipt). }
  unfold finalize_research_run. rewrite Hv. cbn [mbind result_bind]. rewrite Hb. cbn [mbind result_bind].
  rewrite Hrun', bool_decide_eq_true_2 by done. by rewrite Hrec.
Qed.

End Props.

(** ** The loop at a concrete run *)

Section Demo.
Import ResearchDemo.



Lemma finalized_run_sound_witness :
  exists (signals : list (string * AgentSignalV2Record)) forecasts receipt,
    length (db_signals finalized_db) = 11%nat /\ db_signals finalized_db = db_signals prepared_db ++ signals.*2
    /\ db_forecasts finalized_db = db_forecasts prepared_db ++ forecasts
    /\ finalized_run = completed_run awaiting_run (astimezone shanghai (at_hour base 19)) receipt.
Proof.
  destruct (finalized_run_sound _ _ _ _ _ _ _ _ awaiting_run _ _ finalize_succeeds)
    as (_ & signals & forecasts & receipt & Hs & Hf & _ & _ & _ & Hr & _).
  - by_vm.
  - by_vm.
  - exists signals, forecasts, receipt. split; [by_vm|]. split; [exact Hs|]. split; [exact Hf|exact Hr].
Defined.

(** A second finalize, days after the target session. *)
Lemma finalize_idempotent_witness :
  finalize_research_run (uuid "other-") shanghai finalized_db request bundle drafts_hash (rr_receipt finalized_run)
    (at_hour (base + 9) 9) = Ok (finalized_run, finalized_db).
Proof. exact (finalize_idempotent _ _ _ _ _ _ _ _ _ _ _ _ _ finalize_succeeds (or_intror eq_refl)). Defined.

End Demo.

End ResearchProps.
