(* ===== verification/PrepareProps.v ===== *)
(** * Preparing a run of the v2 loop

    A prepare answers with the frozen job of its anchor date, or with a new one
    whose assignments are bound to the frozen evidence. *)
From S2P Require Import Prelude PyStr PyTime Float64 Domain Json Contracts Wiki Snapshot ResearchV2 ResearchRows ResearchFlow ResearchOutcome ResearchTheory ResearchInv ResearchSteps ResearchDemo ResearchProps.
Import PyStr PyTime Float64 Json Contracts ResearchV2 ResearchRows ResearchFlow ResearchOutcome ResearchTheory ResearchInv ResearchSteps ResearchProps.
Open Scope string_scope.
Open Scope list_scope.
Open Scope Z_scope.

Module PrepareProps.

Section Props.
Context `{PyRuntime} `{Wiki.Uppercase} `{CanonicalHash} `{ContractDumps} `{SqlTime} `{ServiceDumps}
  `{Snapshot.SourceUrl.UrlChecks}.

(** ** Assignments *)

Lemma runtime_documents_elem documents fallback l :
  Wiki.runtime_documents documents fallback = Ok l -> forall e, e ∈ l -> e ∈ documents.
Proof.
  unfold Wiki.runtime_documents. intros Hr e He.
  destruct (List.filter (Wiki.has_status "active") documents) as [|a la] eqn:Ea.
  - destruct (List.filter (Wiki.has_status "demo-only") documents) as [|d ld] eqn:Ed; [done|].
    destruct fallback; [|done]. injection Hr as <-. rewrite <- Ed in He. by apply filter_elem in He as [? _].
  - injection Hr as <-. rewrite <- Ea in He. by apply filter_elem in He as [? _].
Qed.

Lemma select_elem catalog agent_id code preferred e :
  select_for_agent catalog agent_id code preferred = Ok e -> e ∈ catalog.
Proof.
  unfold select_for_agent, Wiki.select_for_agent. intros (l & Hl & Hr)%bind_Ok.
  apply (runtime_documents_elem _ _ _ Hl). revert Hr. clear Hl.
  assert (forall p, List.find p l = Some e -> e ∈ l) as Hfind by (intros p [Hin _]%find_elem; done).
  destruct preferred as [preferred|]; [destruct (List.find _ l) eqn:E; intros [= ->]; by eapply Hfind|].
  destruct (Wiki.assoc _ _) as [pinned|].
  - destruct (List.find _ l) as [e'|] eqn:E; [intros [= ->]; by eapply Hfind|].
    destruct l as [|d [|d' l]]; [done| |done]. destruct (Wiki.is_demo_methodology d); [|done]. intros [= ->]. left.
  - unfold Wiki.search_entry. destruct (if (_ =? _)%string then _ else None) as [token|]; cbn [mbind option_bind].
    + destruct (List.find _ l) as [e'|] eqn:E; [intros [= ->]; by eapply Hfind|].
      destruct (List.find (Wiki.matches_keywords _) l) as [e'|] eqn:E'; [intros [= ->]; by eapply Hfind|].
      destruct l as [|d l]; [done|]. intros [= ->]. left.
    + destruct (List.find (Wiki.matches_keywords _) l) as [e'|] eqn:E'; [intros [= ->]; by eapply Hfind|].
      destruct l as [|d l]; [done|]. intros [= ->]. left.
Qed.

(** An assignment is bound to the snapshot, to the frozen Wiki and to the frozen
    baselines. *)
Definition bound_assignment (snapshot : EvidenceSnapshotBodyV2) (wiki : Wiki.FrozenWikiCatalog)
    (baselines : gmap string Probs) (a : HandoffAssignmentV3) : Prop :=
  as_anchor_date a = es_base_session snapshot
  /\ target_date snapshot (default (as_natural_horizon a) (as_decision_horizon a)) = Ok (as_target_date a)
  /\ as_allowed_evidence_item_ids a = it_item_id <$> es_items snapshot
  /\ (exists entry, entry ∈ wiki /\ as_wiki_entry_id a = Wiki.we_id entry /\ as_wiki_version a = Wiki.we_version entry
        /\ as_wiki_section a ∈ Wiki.ws_slug <$> Wiki.we_sections entry
        /\ as_wiki_content_hash a = Wiki.we_content_hash entry)
  /\ (as_baseline_probabilities a = None \/ as_baseline_probabilities a = baselines !! as_target_id a).

Lemma assignment_Ok agent_id kind target h dh snapshot wiki available prior context depends baseline producer reason
    baselines a :
  assignment agent_id kind target h dh snapshot wiki available prior context depends baseline producer reason = Ok a ->
  baseline = None \/ baseline = baselines !! target ->
  bound_assignment snapshot wiki baselines a
  /\ as_agent_id a = agent_id /\ as_signal_kind a = kind /\ as_target_id a = target
  /\ as_assignment_id a = assignment_id agent_id kind target h dh
  /\ as_depends_on_assignment_ids a = depends /\ as_producer a = producer /\ as_baseline_probabilities a = baseline.
Proof.
  unfold assignment. intros (entry & Hs & Hr)%bind_Ok Hb. apply select_elem in Hs.
  destruct (Wiki.we_sections entry) as [|section l] eqn:El; [done|].
  destruct (Domain.AGENT_BY_ID !! agent_id); [|done]. apply bind_Ok in Hr as (d & Hd & Hr).
  apply bind_Ok in Hr as (u & _ & Hr). injection Hr as <-.
  split; [|by split_and!]. split_and!; try done.
  exists entry. split_and!; try done. rewrite El. left.
Qed.

(** The strategist and the critic behind a decision. *)
Definition committee_of (l : list HandoffAssignmentV3) (a : HandoffAssignmentV3) : Prop :=
  as_agent_id a = CIO_AGENT_ID /\ as_signal_kind a = DECISION_FORECAST
  /\ exists strategy critic, strategy ∈ l /\ critic ∈ l
     /\ as_agent_id strategy = STRATEGY_AGENT_ID /\ as_signal_kind strategy = STRATEGY_FORECAST
     /\ as_agent_id critic = CRITIC_AGENT_ID /\ as_signal_kind critic = RISK_CRITIQUE
     /\ as_target_id strategy = as_target_id a /\ as_target_id critic = as_target_id a
     /\ as_depends_on_assignment_ids critic = [as_assignment_id strategy]
     /\ as_depends_on_assignment_ids a = [as_assignment_id strategy; as_assignment_id critic]
     /\ as_baseline_probabilities strategy = as_baseline_probabilities a.

Definition planned (snapshot : EvidenceSnapshotBodyV2) (wiki : Wiki.FrozenWikiCatalog) (baselines : gmap string Probs)
    (l : list HandoffAssignmentV3) : Prop :=
  Forall (bound_assignment snapshot wiki baselines) l
  /\ forall a, a ∈ l -> as_producer a = deterministic -> committee_of l a.

Lemma planned_snoc snapshot wiki baselines l a :
  planned snapshot wiki baselines l -> bound_assignment snapshot wiki baselines a -> as_producer a = codex ->
  planned snapshot wiki baselines (l ++ [a]).
Proof.
  intros [Hb Hc] Ha Hp. split; [by apply Forall_app; split; [|apply Forall_singleton]|].
  intros b [Hb'| ->%list_elem_of_singleton]%elem_of_app Hd; [|congruence].
  destruct (Hc b Hb' Hd) as (? & ? & s & c & ? & ? & ?). split_and!; [done..|]. exists s, c.
  split; [apply elem_of_app; by left|]. split; [apply elem_of_app; by left|done].
Qed.

Lemma baseline_of_Ok baselines t b : baseline_of baselines t = Ok b -> Some b = baselines !! t.
Proof. unfold baseline_of. destruct (baselines !! t); [by intros [= ->]|done]. Qed.

Lemma research_step_planned snapshot wiki active latest baselines previous l id l' :
  research_step snapshot wiki active latest baselines previous l id = Ok l' ->
  planned snapshot wiki baselines l -> planned snapshot wiki baselines l'.
Proof.
  unfold research_step. destruct (natural_scope id) as [target h]. intros (l1 & H1' & Hr)%bind_Ok Hl.
  assert (planned snapshot wiki baselines l1) as Hl1.
  { destruct (natural_reason _ _ _ _ _); [|by injection H1' as <-].
    apply bind_Ok in H1' as (b & Hb & H1'). apply baseline_of_Ok in Hb.
    apply bind_Ok in H1' as (a & Ha & [= <-]). apply (assignment_Ok _ _ _ _ _ _ _ _ _ _ _ _ _ _ baselines) in Ha
      as (? & _ & _ & _ & _ & _ & Hp & _); [|by right]. by apply planned_snoc. }
  destruct (bool_decide _); [|by injection Hr as <-]. apply bind_Ok in Hr as (a & Ha & [= <-]).
  apply (assignment_Ok _ _ _ _ _ _ _ _ _ _ _ _ _ _ baselines) in Ha as (? & _ & _ & _ & _ & _ & Hp & _); [|by left].
  by apply planned_snoc.
Qed.

Lemma decision_step_planned db m snapshot wiki baselines previous research context l t l' :
  decision_step db m snapshot wiki baselines previous research context l t = Ok l' ->
  planned snapshot wiki baselines l ->
  planned snapshot wiki baselines l' /\ l `prefix_of` l'
  /\ (decision_target_due db (rt_target_id t) (es_base_session snapshot) previous m = true ->
      exists a, a ∈ l' /\ as_producer a = deterministic /\ as_target_id a = rt_target_id t).
Proof.
  unfold decision_step. destruct (decision_target_due _ _ _ _ _) eqn:Ed; cbn [negb];
    [|intros [= <-] ?; split_and!; [done|done|intros [=]]].
  intros (b & Hb & Hr)%bind_Ok Hl. apply baseline_of_Ok in Hb.
  apply bind_Ok in Hr as (s & Hs & Hr). apply bind_Ok in Hr as (c & Hc & Hr). apply bind_Ok in Hr as (a & Ha & [= <-]).
  apply (assignment_Ok _ _ _ _ _ _ _ _ _ _ _ _ _ _ baselines) in Hs as (Bs & As & Ks & Ts & _ & _ & Ps & Gs); [|by right].
  apply (assignment_Ok _ _ _ _ _ _ _ _ _ _ _ _ _ _ baselines) in Hc as (Bc & Ac & Kc & Tc & _ & Dc & Pc & _); [|by left].
  apply (assignment_Ok _ _ _ _ _ _ _ _ _ _ _ _ _ _ baselines) in Ha as (Ba & Aa & Ka & Ta & _ & Da & Pa & Ga); [|by right].
  destruct (planned_snoc _ _ _ _ _ (planned_snoc _ _ _ _ _ Hl Bs Ps) Bc Pc) as [Hb2 Hc2]. split_and!.
  - replace (l ++ [s; c; a]) with (((l ++ [s]) ++ [c]) ++ [a]) by by rewrite <- !app_assoc.
    split; [by apply Forall_app; split; [|apply Forall_singleton]|].
    intros x Hx Hd. apply elem_of_app in Hx as [Hx| ->%list_elem_of_singleton].
    + destruct (Hc2 x Hx Hd) as (? & ? & s' & c' & ? & ? & ?). split_and!; [done..|]. exists s', c'.
      split; [apply elem_of_app; by left|]. split; [apply elem_of_app; by left|done].
    + split_and!; [done..|]. exists s, c. rewrite !elem_of_app, !list_elem_of_singleton.
      split_and!; try congruence; [by left; left; right|by left; right].
  - by eexists.
  - intros _. exists a. split_and!; [|done..]. apply elem_of_app. right. right. right. left.
Qed.

(** The assignments of a run: planned, with a decision on the D1 target. *)
Lemma build_assignments_planned db m snapshot wiki active latest baselines l :
  build_assignments db m snapshot wiki active latest baselines = Ok l ->
  planned snapshot wiki baselines l
  /\ exists a, a ∈ l /\ as_producer a = deterministic /\ as_target_id a = CSI1000_D1_TARGET.
Proof.
  unfold build_assignments. intros (previous & _ & Hr)%bind_Ok. apply bind_Ok in Hr as (research & Hres & Hr).
  assert (planned snapshot wiki baselines research) as Hp.
  { refine (for_each_invariant (planned snapshot wiki baselines) _ _ _ _ _ _ Hres).
    - intros l1 x l2 _ Hl Hx. exact (research_step_planned _ _ _ _ _ _ _ _ _ Hx Hl).
    - split; [constructor|by intros a ?%not_elem_of_nil]. }
  cbn [DEFAULT_PROGRAM_BODY rp_decision_targets for_each] in Hr. apply bind_Ok in Hr as (l1 & H1' & Hr).
  apply bind_Ok in Hr as (l2 & H2' & [= <-]).
  destruct (decision_step_planned _ _ _ _ _ _ _ _ _ _ _ H1' Hp) as (Hp1 & _ & Hd1).
  destruct (decision_step_planned _ _ _ _ _ _ _ _ _ _ _ H2' Hp1) as (Hp2 & Hpre & _). split; [done|].
  destruct (Hd1 eq_refl) as (a & Ha & ? & ?). exists a. split; [|done]. exact (prefix_elem _ _ _ Hpre Ha).
Qed.

(** ** Preparing *)

(** The only run of an anchor date is what a prepare finds there. *)
Lemma existing_run db r :
  research_inv db -> r ∈ db_runs db -> existing_runs db (rr_mode r) (rr_anchor_date r) = [r].
Proof.
  intros Hinv Hr. pose proof (inv_program _ Hinv) as Hp. rewrite Forall_forall in Hp.
  unfold existing_runs. match goal with |- order_by _ (List.filter ?q _) = _ => set (p := q) end.
  enough (List.filter p (db_runs db) = [r]) as -> by done.
  assert (forall l, NoDup (anchor_key <$> l) -> (forall x, x ∈ l -> x ∈ db_runs db) ->
    List.filter p l = if bool_decide (anchor_key r ∈ anchor_key <$> l) then [r] else []) as Hf.
  2: { rewrite Hf by (done || apply Hinv). by rewrite bool_decide_eq_true_2 by by apply list_elem_of_fmap_2. }
  induction l as [|x l IH]; cbn; intros Hnd Hall; [done|]. apply NoDup_cons in Hnd as [Hx Hnd].
  rewrite IH by (done || (intros y Hy; apply Hall; by right)).
  assert (p x = bool_decide (anchor_key r = anchor_key x)) as ->.
  { unfold p. rewrite (Hp x) by (apply Hall; left). rewrite String.eqb_refl. cbn [andb]. unfold anchor_key.
    apply Bool.eq_iff_eq_true. rewrite andb_true_iff, !bool_decide_eq_true, Z.eqb_eq.
    split; [intros [-> ->]; done|intros [= -> ->]; done]. }
  destruct (decide (anchor_key r = anchor_key x)) as [E|E].
  - rewrite (bool_decide_eq_true_2 (_ = _)) by done.
    rewrite (bool_decide_eq_false_2 (_ ∈ anchor_key <$> l)) by by rewrite E.
    rewrite (bool_decide_eq_true_2 (_ ∈ _)) by (rewrite E; left). f_equal. symmetry. apply (NoDup_key _ _ _ _ (inv_anchors _ Hinv)); [done|apply Hall; left|done].
  - rewrite (bool_decide_eq_false_2 (_ = _)) by done.
    apply (f_equal (fun b : bool => if b then [r] else [])), bool_decide_ext.
    rewrite elem_of_cons. split; [by right|by intros [|]].
Qed.

(** What a prepare that answers with a new job has computed. *)
Lemma prepare_plan uuid zone stored trace_id db catalog s m now request db' :
  prepare_research_run uuid zone stored trace_id db catalog s m now = (Ok (new_job request), db') ->
  validate_snapshot s = Ok s /\ exists plan,
    plan_run uuid zone db catalog s m (astimezone zone now) = Ok plan
    /\ build_request (pl_snapshot plan) (pl_wiki plan) (pl_context plan) (pl_assignments plan) PROGRAM_HASH (pl_run plan)
         trace_id = Ok request.
Proof.
  unfold prepare_research_run. destruct (validate_snapshot s) as [s'|e] eqn:Es; cbn [mbind result_bind]; [|done].
  apply validate_snapshot_id in Es as Eid. subst s'. intros Hr. split; [done|]. revert Hr.
  destruct (if bool_decide (m = live) then _ else _) as [[]|e]; cbn [mbind result_bind]; [|done].
  destruct (existing_runs db m _) as [|r [|r' l]]; [| |done].
  - destruct (plan_run uuid zone db catalog s m (astimezone zone now)) as [plan|e]; [|done].
    cbn [mbind result_bind]. destruct (insert_row _ _ _) as [l|e]; cbn [mbind result_bind]; [|done].
    destruct (build_request _ _ _ _ _ _ _) as [q|e] eqn:Eb; [|done]. intros [= <- _]. by exists plan.
  - destruct (research_when _ _) as [[]|e]; cbn [mbind result_bind]; [|done].
    destruct (stored (rr_id r)) as [[]|e]; done.
Qed.

Lemma freeze_catalog_visible entries fallback cutoff wiki :
  freeze_catalog entries fallback (Some cutoff) = Ok wiki -> forall e, e ∈ wiki -> Wiki.visible_at cutoff e = true.
Proof.
  unfold freeze_catalog. intros (l & _ & Hr)%bind_Ok e He. apply raise_when_bind_Ok in Hr as [_ Hr].
  destruct (List.filter (Wiki.visible_at cutoff) l) as [|v k] eqn:E; [done|]. injection Hr as <-.
  rewrite <- E in He. by apply filter_elem in He as [_ ?].
Qed.

(** C8 A new job: its assignments have distinct identifiers; each is bound to
    the base session and a future session of the frozen evidence, to its items,
    to a frozen Wiki entry with one of its sections, and to no baseline but the
    frozen one of its target; each decision of the deterministic officer has
    its strategist and its critic in the job, and the D1 target is always
    decided; in a live run every frozen Wiki entry was published by the cutoff. *)
Theorem prepared_job_sound uuid zone stored trace_id db catalog s m now request db' :
  prepare_research_run uuid zone stored trace_id db catalog s m now = (Ok (new_job request), db') ->
  let r := body request in
  validate_request request = Ok request /\ ch_snapshot r = s /\ NoDup (as_assignment_id <$> ch_assignments r)
  /\ (exists baselines, frozen_baselines db (es_data_cutoff (body s)) m = Ok baselines
        /\ Forall (bound_assignment (body s) (ch_frozen_wiki r) baselines) (ch_assignments r))
  /\ (forall a, a ∈ ch_assignments r -> as_producer a = deterministic -> committee_of (ch_assignments r) a)
  /\ (exists a, a ∈ ch_assignments r /\ as_producer a = deterministic /\ as_target_id a = CSI1000_D1_TARGET)
  /\ (m = live -> forall e, e ∈ ch_frozen_wiki r -> Wiki.visible_at (es_data_cutoff (body s)) e = true).
Proof.
  intros Hp r. apply prepare_plan in Hp as (_ & plan & Hplan & Hb). unfold build_request in Hb.
  apply bind_Ok in Hb as (signals & _ & Hb). apply validate_request_id in Hb as Eq.
  unfold plan_run in Hplan. apply bind_Ok in Hplan as (wiki & Hw & Hplan).
  apply bind_Ok in Hplan as (baselines & Hbase & Hplan). apply bind_Ok in Hplan as (l & Hl & Hplan).
  injection Hplan as <-. apply build_assignments_planned in Hl as [[Hbound Hcommittee] Hd1]. subst r.
  assert (validate_request request = Ok request) as Hv by (rewrite Eq at 1; exact Hb). clear Hb.
  assert (ch_snapshot (body request) = s /\ ch_frozen_wiki (body request) = wiki /\ ch_assignments (body request) = l)
    as (Es & Ew & Ea) by (rewrite Eq; done). rewrite Ew, Ea. split_and!; [done|done| |by exists baselines|done|done|].
  - unfold validate_request in Hv. do 10 apply bind_Ok in Hv as (? & _ & Hv). cbv zeta in Hv. rewrite Ea in Hv.
    apply raise_when_bind_Ok in Hv as [Hnd _]. by apply negb_false_iff, bool_decide_eq_true in Hnd.
  - intros ->. exact (freeze_catalog_visible _ _ _ _ Hw).
Qed.

(** A prepare that answers with a new job has added its run. *)
Lemma prepare_new_job uuid zone stored trace_id db catalog s m now request db' :
  prepare_research_run uuid zone stored trace_id db catalog s m now = (Ok (new_job request), db') ->
  exists r, r ∈ db_runs db' /\ rr_id r = ch_run_id (body request) /\ rr_mode r = m
    /\ rr_anchor_date r = es_base_session (body s) /\ rr_status r = run_awaiting_draft
    /\ rr_request_hash r = Some (content_hash request) /\ validate_request request = Ok request.
Proof.
  unfold prepare_research_run. destruct (validate_snapshot s) as [s'|e] eqn:Es; cbn [mbind result_bind]; [|done].
  apply validate_snapshot_id in Es as ->.
  destruct (if bool_decide (m = live) then _ else _) as [[]|e]; cbn [mbind result_bind]; [|done].
  destruct (existing_runs db m _) as [|r [|r' l]]; [| |done].
  - destruct (plan_run uuid zone db catalog s m (astimezone zone now)) as [plan|e] eqn:Ep; [|done].
    cbn [mbind result_bind]. apply plan_run_row in Ep.
    destruct (insert_row _ _ _) as [l|e] eqn:Ei; cbn [mbind result_bind]; [|done].
    destruct (build_request _ _ _ _ _ _ _) as [q|e] eqn:Eb; [|done]. intros [= <- <-].
    exists (set_request_hash (pl_run plan) (content_hash q)). apply insert_row_Ok in Ei as [-> _].
    unfold build_request in Eb. apply bind_Ok in Eb as (signals & _ & Eb).
    apply validate_request_id in Eb as Eq. subst q.
    split_and!; [|by rewrite ?Ep..|exact Eb].
    cbn [replace_run set_runs db_runs]. rewrite fmap_app. apply elem_of_app. right. cbn.
    rewrite String.eqb_refl. by apply list_elem_of_singleton.
  - destruct (research_when _ _) as [[]|e]; cbn [mbind result_bind]; [|done].
    destruct (stored (rr_id r)) as [[]|e]; done.
Qed.

(** An anchor date is frozen once: after a prepare has answered with a new
    job, and whatever has happened since, every prepare with an accepted
    snapshot of that mode and anchor date answers with the same job and changes
    nothing, also with other evidence or another Wiki. *)
Theorem anchor_date_frozen uuid zone stored trace_id db catalog s m now request db1 db2 :
  research_inv db -> prepare_research_run uuid zone stored trace_id db catalog s m now = (Ok (new_job request), db1) ->
  rtc step db1 db2 ->
  forall uuid' zone' stored' trace_id' catalog' s' now',
    validate_snapshot s' = Ok s' -> (m = live -> validate_live_snapshot_sources (body s') = Ok tt) ->
    es_base_session (body s') = es_base_session (body s) -> stored' (ch_run_id (body request)) = Ok codex_request ->
    prepare_research_run uuid' zone' stored' trace_id' db2 catalog' s' m now'
    = (Ok (frozen_job (ch_run_id (body request))), db2).
Proof.
  intros Hinv Hp Hs uuid' zone' stored' trace_id' catalog' s' now' Hv Hl Hb Hst.
  assert (research_inv db1) as Hinv1.
  { refine (proj1 (steps_inv db db1 _ Hinv)). apply rtc_once.
    replace db1 with (prepare_research_run uuid zone stored trace_id db catalog s m now).2 by by rewrite Hp.
    apply step_prepare. }
  destruct (steps_inv _ _ Hs Hinv1) as [Hinv2 Hg].
  apply prepare_new_job in Hp as (r & Hr & Hid & <- & Hd & Haw & _).
  destruct (grows_run _ _ _ _ Hg (run_of_unique _ _ (inv_run_ids _ Hinv1) Hr)) as (r' & Hr' & Hi & _ & _ & Hf).
  apply run_of_elem in Hr' as [Hr' Hid']. unfold run_identity in Hi. injection Hi as _ _ _ _ Hm Ha _.
  pose proof (existing_run _ _ Hinv2 Hr') as He. rewrite Hm, Ha, Hd, <- Hb in He.
  unfold prepare_research_run. rewrite Hv. cbn [mbind result_bind].
  replace (if bool_decide (rr_mode r = live) then _ else _) with (Ok tt : result unit)
    by (destruct (decide (rr_mode r = live)) as [El|El]; [by rewrite bool_decide_eq_true_2, Hl|by rewrite bool_decide_eq_false_2]).
  cbn [mbind result_bind]. rewrite He. unfold research_when, raise_when.
  rewrite bool_decide_eq_false_2 by (intros E; apply Hf in E; congruence). cbn [mbind result_bind].
  rewrite Hid', Hid, Hst. done.
Qed.

End Props.

Section Demo.
Import ResearchDemo.

Lemma prepared_job_sound_witness :
  length (ch_assignments (body request)) = 11%nat /\ ch_snapshot (body request) = snapshot
  /\ exists a, a ∈ ch_assignments (body request) /\ as_producer a = deterministic
       /\ as_target_id a = CSI1000_D1_TARGET.
Proof.
  destruct (prepared_job_sound _ _ _ _ _ _ _ _ _ _ _ prepare_succeeds) as (_ & Hs & _ & _ & _ & Hd & _).
  split; [by_vm|]. split; [exact Hs|exact Hd].
Defined.

(** A prepare of the same evidence the next day. *)
Lemma anchor_date_frozen_witness :
  prepare_research_run (uuid "again-") shanghai (fun _ => Ok codex_request) "00000000000000000000000000000002"
    finalized_db wiki snapshot demo (at_hour (base + 1) 9) = (Ok (frozen_job "run-a"), finalized_db).
Proof.
  refine (anchor_date_frozen _ _ _ _ _ _ _ _ _ _ _ _ research_inv_empty prepare_succeeds _ _ _ _ _ _ snapshot _ _ _ _ _).
  - eapply rtc_once, step_finalize. exact finalize_succeeds.
  - by_vm.
  - intros [=].
  - reflexivity.
  - reflexivity.
Defined.

End Demo.

End PrepareProps.
