(* ===== verification/OutcomeProps.v ===== *)
(** * Outcomes, baselines, decisions and the deterministic officer of the v2 loop *)
From S2P Require Import Prelude PyStr PyTime Float64 Domain Json Contracts Wiki Snapshot ResearchV2 ResearchRows ResearchFlow ResearchOutcome ResearchTheory ResearchInv ResearchSteps ResearchDemo.
Import PyStr PyTime Float64 Json Contracts ResearchV2 ResearchRows ResearchFlow ResearchOutcome ResearchTheory ResearchInv ResearchSteps ResearchDemo.
Open Scope string_scope.
Open Scope list_scope.
Open Scope Z_scope.

Module OutcomeProps.

Lemma opt_none {A} (o : option A) : bool_decide (is_Some o) = false -> o = None.
Proof. destruct o; [|done]. intros E%bool_decide_eq_false. by destruct E. Qed.

(** What an accepted probabilistic draft holds. *)
Lemma validate_probabilistic_Ok d u :
  validate_probabilistic d = Ok u ->
  exists p direction, sd_probabilities d = Some p /\ sd_direction d = Some direction /\ winners p = [direction]
    /\ sd_impact d = None /\ sd_importance d = None /\ sd_risk_severity d = None /\ sd_abstain d = false.
Proof.
  unfold validate_probabilistic. destruct (sd_probabilities d) as [p|]; [|done].
  destruct (sd_direction d) as [direction|]; [|done]. destruct (winners p) as [|w [|? ?]] eqn:Ew; [done| |done].
  intros [Hd Hr]%raise_when_bind_Ok. apply raise_when_bind_Ok in Hr as [Hi Hr].
  apply raise_when_bind_Ok in Hr as [Hs Hr]. apply raise_when_Ok in Hr.
  apply negb_false_iff, bool_decide_eq_true in Hd as ->. apply orb_false_iff in Hi as [Hi1 Hi2].
  exists p, w. split_and!; try done; by apply opt_none.
Qed.

Lemma validate_draft_v2_Ok d d' :
  validate_draft_v2 d = Ok d' -> d' = d /\ exists u, validate_kind_payload d = Ok u.
Proof.
  unfold validate_draft_v2. intros (? & _ & Hr)%bind_Ok. do 6 apply bind_Ok in Hr as (? & _ & Hr).
  apply bind_Ok in Hr as (u & Hu & [= <-]). by split; [|exists u].
Qed.

Section Props.
Context `{PyRuntime} `{Wiki.Uppercase} `{CanonicalHash} `{ContractDumps} `{SqlTime} `{ServiceDumps}
  `{Snapshot.SourceUrl.UrlChecks}.

Lemma validate_signal_Ok s s' :
  validate_signal s = Ok s' ->
  s' = s /\ (exists d, validate_draft_v2 (sg_draft (body s)) = Ok d)
  /\ signal_identity (body s) = draft_identity (sg_draft (body s)).
Proof.
  unfold validate_signal. intros Hr. do 4 apply bind_Ok in Hr as (? & _ & Hr).
  apply bind_Ok in Hr as (d & Hd & Hr). do 2 apply bind_Ok in Hr as (? & _ & Hr).
  apply raise_when_bind_Ok in Hr as [Hi Hr]. apply negb_false_iff, bool_decide_eq_true in Hi.
  do 2 apply bind_Ok in Hr as (? & _ & Hr). injection Hr as <-. split_and!; [done|by exists d|done].
Qed.

Lemma probabilistic_signal s s' :
  validate_signal s = Ok s' -> probabilistic (sg_signal_kind (body s)) = true ->
  exists p, sd_probabilities (sg_draft (body s')) = Some p.
Proof.
  intros (-> & (d & Hd) & Hi)%validate_signal_Ok Hk. apply validate_draft_v2_Ok in Hd as (_ & u & Hu).
  unfold signal_identity, draft_identity in Hi. injection Hi as _ Ek _ _. rewrite Ek in Hk.
  unfold validate_kind_payload in Hu. destruct (sd_signal_kind (sg_draft (body s))); try done;
    apply validate_probabilistic_Ok in Hu as (p & ? & Hp & _); by exists p.
Qed.

(** ** Scoring once *)

Definition scored_by (db : ResearchDB) (s : AgentSignalV2Record) : option SignalEvaluationV2 :=
  List.find (fun e => (se_signal_id e =? sr_id s)%string) (db_signal_evaluations db).

(** The new score of a signal. *)
Definition new_score (oid : string) (label : Direction) (now : datetime) (l : list AgentSignalV2Record)
    (e : SignalEvaluationV2) : Prop :=
  exists s envelope p id, s ∈ l /\ validate_signal (sr_envelope s) = Ok envelope
    /\ sd_probabilities (sg_draft (body envelope)) = Some p
    /\ e = signal_evaluation id oid s (body envelope) p label now.

Definition always_scored (s : AgentSignalV2Record) : Prop :=
  forall envelope, validate_signal (sr_envelope s) = Ok envelope ->
  exists p, sd_probabilities (sg_draft (body envelope)) = Some p.

Lemma evaluate_loop uuid oid label now all l db rows n db' rows' n' :
  (forall s, s ∈ l -> s ∈ all /\ always_scored s) ->
  for_each (evaluate_signal uuid oid label now) (db, rows, n) l = Ok (db', rows', n') ->
  exists new, rows' = rows ++ new
    /\ Forall2 (fun s e => scored_by db' s = Some e) l new
    /\ (forall e, e ∈ db_signal_evaluations db' -> e ∈ db_signal_evaluations db \/ new_score oid label now all e)
    /\ db_signal_evaluations db `prefix_of` db_signal_evaluations db'
    /\ db' = set_signal_evaluations (db_signal_evaluations db') db.
Proof.
  revert db rows n. induction l as [|s l IH]; intros db rows n Hs; cbn [for_each].
  - intros [= <- <- <-]. exists []. split_and!; [by rewrite app_nil_r|done|by left|done|by destruct db].
  - intros ([[db1 rows1] n1] & H1' & Hr)%bind_Ok. destruct (Hs s ltac:(left)) as [Hall Hsc].
    assert (exists e, rows1 = rows ++ [e] /\ scored_by db1 s = Some e
      /\ (forall x, x ∈ db_signal_evaluations db1 -> x ∈ db_signal_evaluations db \/ new_score oid label now all x)
      /\ db_signal_evaluations db `prefix_of` db_signal_evaluations db1
      /\ db1 = set_signal_evaluations (db_signal_evaluations db1) db) as (e & -> & He & Hn & Hp & Hd).
    { destruct (evaluate_signal_Ok _ _ _ _ _ _ _ _ _ H1')
        as [(e & Hf & [= -> -> ->])|(Hf & envelope & Hv & [[Hnone _]|(p & e & k & Hp & -> & Hk & [= -> -> ->])])].
      - exists e. split_and!; [done|done|by left|done|by destruct db].
      - destruct (Hsc _ Hv) as [p Hp]. congruence.
      - apply insert_row_Ok in Hk as [-> _]. eexists. split_and!; [done| | |by eexists|by destruct db].
        + unfold scored_by. cbn [set_signal_evaluations db_signal_evaluations]. rewrite find_app_None by done.
          cbn. by rewrite String.eqb_refl.
        + intros x [Hx| ->%list_elem_of_singleton]%elem_of_app; [by left|right].
          by exists s, envelope, p, (uuid n). }
    destruct (IH _ _ _ (fun x Hx => Hs x ltac:(by right)) Hr) as (new & -> & F & Hn' & Hp' & Hd').
    exists (e :: new). split_and!; [by rewrite <- app_assoc| | |by etrans|by rewrite Hd', Hd].
    + constructor; [|done]. exact (prefix_find _ _ _ _ Hp' He).
    + intros x [Hx|Hx]%Hn'; [by apply Hn|by right].
Qed.

Lemma evaluate_again uuid oid label now l new db rows n :
  Forall2 (fun s e => scored_by db s = Some e) l new ->
  for_each (evaluate_signal uuid oid label now) (db, rows, n) l = Ok (db, rows ++ new, n).
Proof.
  intros F. revert rows. induction F as [|s e l new He _ IH]; intros rows; cbn; [by rewrite app_nil_r|].
  unfold scored_by in He. rewrite He. cbn. by rewrite IH, <- app_assoc.
Qed.

Lemma forecast_loop uuid rows value label now l db n db' n' :
  for_each (evaluate_forecast uuid rows value label now) (db, n) l = Ok (db', n') ->
  (forall f, f ∈ l -> is_Some (forecast_evaluation db' (fv_id f)))
  /\ db_forecast_evaluations db `prefix_of` db_forecast_evaluations db'
  /\ db' = set_forecast_evaluations (db_forecast_evaluations db') db.
Proof.
  revert db n. induction l as [|f l IH]; intros db n; cbn [for_each].
  - intros [= <- <-]. split_and!; [by intros f ?%not_elem_of_nil|done|by destruct db].
  - intros ([db1 n1] & H1' & Hr)%bind_Ok.
    assert (is_Some (forecast_evaluation db1 (fv_id f))
      /\ db_forecast_evaluations db `prefix_of` db_forecast_evaluations db1
      /\ db1 = set_forecast_evaluations (db_forecast_evaluations db1) db) as (He & Hp & Hd).
    { destruct (evaluate_forecast_Ok _ _ _ _ _ _ _ _ _ H1')
        as [[He [= -> ->]]|(s & e & k & Hn & _ & Hk & [= -> ->] & Hid & _)].
      - split_and!; [done|done|by destruct db].
      - apply insert_row_Ok in Hk as [-> _]. split_and!; [|by eexists|by destruct db].
        exists e. unfold forecast_evaluation in *. cbn [set_forecast_evaluations db_forecast_evaluations].
        rewrite find_app_None by done. cbn. by rewrite Hid, String.eqb_refl. }
    destruct (IH _ _ Hr) as (He' & Hp' & Hd'). split_and!; [|by etrans|by rewrite Hd', Hd].
    intros g [->|Hg]%elem_of_cons; [|by apply He']. destruct He as [e He]. exists e.
    exact (prefix_find _ _ _ _ Hp' He).
Qed.

Lemma forecast_again uuid rows value label now l db n :
  (forall f, f ∈ l -> is_Some (forecast_evaluation db (fv_id f))) ->
  for_each (evaluate_forecast uuid rows value label now) (db, n) l = Ok (db, n).
Proof.
  induction l as [|f l IH]; intros Hf; cbn; [done|].
  destruct (Hf f ltac:(left)) as [e ->]. cbn. apply IH. intros g Hg. apply Hf. by right.
Qed.

(** C10 Scoring an outcome.  It was observed after the close of the target
    session; every probabilistic signal of its episode has exactly the returned
    score, new ones being the Brier score of the sealed probabilities against
    the label of the realized value at the common sealed threshold; every
    forecast of these signals is evaluated; and scoring the same outcome again,
    at any later time, returns the same scores and changes nothing. *)
Theorem outcome_scored_once uuid zone db o now rows db' uuid' now' :
  research_inv db -> evaluate_research_target uuid zone db o now = Ok (rows, db') ->
  let b := body o in
  wall_ltb (astimezone zone (oo_observed_at b)) (combine (oo_target_date b) time_15 zone) = false
  /\ (exists oid threshold value label, common_threshold (matching_signals db b) = Ok threshold
       /\ realized_outcome b = Ok value /\ classify_outcome value threshold = Ok label
       /\ Forall2 (fun s e => scored_by db' s = Some e) (matching_signals db b) rows
       /\ forall e, e ∈ db_signal_evaluations db' ->
            e ∈ db_signal_evaluations db
            \/ new_score oid label (astimezone zone now) (matching_signals db b) e)
  /\ (forall f, f ∈ db_forecasts db -> fv_source_signal_id f ∈ sr_id <$> matching_signals db b ->
        is_Some (forecast_evaluation db' (fv_id f)))
  /\ evaluate_research_target uuid' zone db' o now' = Ok (rows, db').
Proof.
  intros Hinv. unfold evaluate_research_target. intros (o' & Hv & Hr)%bind_Ok.
  assert (o' = o) as ->.
  { unfold validate_outcome in Hv. repeat apply bind_Ok in Hv as (? & _ & Hv). congruence. }
  apply bind_Ok in Hr as ([] & Hlive & Hr). apply research_when_Ok in Hr as [Hw Hr].
  apply bind_Ok in Hr as (threshold & Ht & Hr). apply bind_Ok in Hr as (value & Hval & Hr).
  apply bind_Ok in Hr as (label & Hlab & Hr). apply bind_Ok in Hr as ([[db1 row] drawn] & H1' & Hr).
  apply bind_Ok in Hr as ([[db2 rows'] drawn'] & L2 & Hr). apply bind_Ok in Hr as ([db3 drawn''] & L3 & Hr).
  injection Hr as <- <-. cbn [fst].
  destruct (observation_row_writes _ _ _ _ _ _ _ _ _ H1') as (_ & Es & Er & Ef & Ee & Efe & Hfind & Hhash).
  apply (evaluate_loop _ _ _ _ (matching_signals db (body o))) in L2 as (new & Erows & F & Hnew & _ & Ed2).
  2: { intros s Hs. split; [done|]. unfold matching_signals in Hs. apply filter_elem in Hs as [Hin Hp].
       rewrite !andb_true_iff in Hp. destruct Hp as [[_ Hk] _].
       pose proof (inv_signal_rows _ Hinv) as Hall. rewrite Forall_forall in Hall. specialize (Hall s Hin).
       intros envelope He. eapply probabilistic_signal; [exact He|]. rewrite Hall in Hk. exact Hk. }
  cbn [app] in Erows. subst rows'. apply forecast_loop in L3 as L3'. destruct L3' as (Hdone & _ & Ed3).
  rewrite Ef in Hdone.
  assert (observation_row uuid' db3 o value threshold label = Ok (db3, row, 0%nat)) as Hobs.
  { unfold observation_row. replace (db_observations db3) with (db_observations db1) by by rewrite Ed3, Ed2.
    rewrite Hfind, Hhash, String.eqb_refl. done. }
  assert (db_signals db3 = db_signals db /\ db_runs db3 = db_runs db /\ db_forecasts db3 = db_forecasts db)
    as (Es3 & Er3 & Ef3) by (rewrite Ed3, Ed2; done).
  assert (matching_signals db3 (body o) = matching_signals db (body o)) as Em.
  { unfold matching_signals, in_mode, run_of. by rewrite Es3, Er3. }
  assert (forall s, scored_by db3 s = scored_by db2 s) as Esc by (intros s; unfold scored_by; by rewrite Ed3).
  assert (Forall2 (fun s e => scored_by db3 s = Some e) (matching_signals db (body o)) new) as F3.
  { eapply Forall2_impl; [exact F|]. intros s e He. by rewrite Esc. }
  split_and!.
  - exact Hw.
  - exists (or_id row), threshold, value, label. split_and!; [done..|]. intros e He.
    replace (db_signal_evaluations db3) with (db_signal_evaluations db2) in He by by rewrite Ed3.
    apply Hnew in He. by rewrite Ee in He.
  - intros f Hf Hsrc. apply Hdone, filter_elem. split; [by rewrite ?Ef|]. by apply bool_decide_eq_true.
  - rewrite Hv. cbn [mbind result_bind]. rewrite Hlive. cbn [mbind result_bind].
    unfold research_when at 1, raise_when at 1. rewrite Hw. cbn [mbind result_bind].
    rewrite Em, Ht. cbn [mbind result_bind]. rewrite Hval. cbn [mbind result_bind]. rewrite Hlab.
    cbn [mbind result_bind]. rewrite Hobs. cbn [mbind result_bind].
    rewrite (evaluate_again _ _ _ _ _ _ _ [] _ F3). cbn [mbind result_bind app]. rewrite Ef3.
    rewrite (forecast_again _ _ _ _ _ _ _ _ Hdone). done.
Qed.

(** ** Frozen baselines *)

Lemma first_of_episodes_spec seen l :
  (forall o, o ∈ first_of_episodes seen l -> o ∈ l /\ or_target_id o ∈ BASELINE_TARGETS /\ episode o ∉ seen)
  /\ NoDup (episode <$> first_of_episodes seen l).
Proof.
  revert seen. induction l as [|o l IH]; intros seen; cbn [first_of_episodes];
    [split; [by intros o ?%not_elem_of_nil|constructor]|].
  destruct (negb _ || _) eqn:E.
  - destruct (IH seen) as [Hin Hnd]. split; [|done]. intros x (? & ? & ?)%Hin. split_and!; [by right|done..].
  - apply orb_false_iff in E as [E1 E2]. apply negb_false_iff, bool_decide_eq_true in E1.
    apply bool_decide_eq_false in E2. destruct (IH (episode o :: seen)) as [Hin Hnd]. split.
    + intros x [->|(? & ? & Hs)%Hin]%elem_of_cons; [by split_and!; [left|..]|].
      apply not_elem_of_cons in Hs as [_ Hs]. split_and!; [by right|done..].
    + cbn. apply NoDup_cons. split; [|done]. intros (x & Ex & Hx)%list_elem_of_fmap.
      apply Hin in Hx as (_ & _ & Hs). apply not_elem_of_cons in Hs as [Hs _]. by rewrite <- Ex in Hs.
Qed.

(** The live run behind an observation that a live baseline counts. *)
Definition live_bound (db : ResearchDB) (o : OutcomeObservationV2Record) : Prop :=
  exists e s run, e ∈ db_signal_evaluations db /\ se_observation_id e = or_id o
    /\ s ∈ db_signals db /\ sr_id s = se_signal_id e
    /\ run_of db (sr_run_id s) = Some run /\ rr_mode run = live /\ rr_status run = run_completed.

Lemma is_live_bound db o : is_live_outcome_bound db (or_id o) = true -> live_bound db o.
Proof.
  unfold is_live_outcome_bound. intros Hex%existsb_exists. destruct Hex as (e & He & Hb).
  apply andb_true_iff in Hb as [Ho Hs]. apply existsb_exists in Hs as (s & Hs & Hb).
  apply andb_true_iff in Hb as [Hid Hr]. destruct (run_of db (sr_run_id s)) as [run|] eqn:Er; [|done].
  apply andb_true_iff in Hr as [Hm Hst]. apply String.eqb_eq in Ho, Hid. apply bool_decide_eq_true in Hm, Hst.
  exists e, s, run. rewrite !list_elem_of_In. by split_and!.
Qed.

(** A frozen baseline counts only observations of its own mode that the
    database dates by the evidence cutoff, at most one of an episode, and in a
    live run only those that scored a signal of a completed live run; outcomes
    observed later do not change it. *)
Theorem baseline_cutoff_safe db cutoff m :
  (forall o, o ∈ baseline_observations db cutoff m ->
     o ∈ db_observations db /\ sql_leb (or_observed_at o) cutoff = true /\ or_mode o = m
     /\ or_target_id o ∈ BASELINE_TARGETS /\ (m = live -> live_bound db o))
  /\ NoDup (episode <$> baseline_observations db cutoff m)
  /\ forall later, Forall (fun o => sql_leb (or_observed_at o) cutoff = false) later ->
       frozen_baselines (set_observations (db_observations db ++ later) db) cutoff m = frozen_baselines db cutoff m.
Proof.
  split_and!.
  - intros o Ho. apply first_of_episodes_spec in Ho as (Ho & Ht & _). rewrite filter_elem, order_by_elem, filter_elem in Ho.
    destruct Ho as [[Hin Hp] Hl]. apply andb_true_iff in Hp as [Hc Hm]. apply bool_decide_eq_true in Hm.
    split_and!; [done..|]. intros ->. apply is_live_bound. by rewrite bool_decide_eq_true_2 in Hl.
  - apply first_of_episodes_spec.
  - intros later Hlater. unfold frozen_baselines.
    enough (baseline_observations (set_observations (db_observations db ++ later) db) cutoff m
            = baseline_observations db cutoff m) as -> by done.
    unfold baseline_observations. cbn [set_observations db_observations].
    rewrite List.filter_app. replace (List.filter _ later) with ([] : list OutcomeObservationV2Record); [by rewrite app_nil_r|].
    induction Hlater as [|o l Ho _ IH]; [done|]. cbn. by rewrite Ho.
Qed.

(** ** Human decisions *)

Lemma events_of_app a b id : events_of (a ++ b) id = events_of a id ++ events_of b id.
Proof. apply List.filter_app. Qed.

(** A human decision on a reasoning review is final: whatever happens
    later, the effective status of the review is that decision, the same
    submission is answered with the same row, and any other is refused. *)
Theorem human_decision_final uuid zone db id d now row db1 db2 :
  research_inv db -> review_reasoning uuid zone db id d now = Ok (row, db1) -> rtc step db1 db2 ->
  effective_reasoning_status db2 row = decision_value (dc_decision d)
  /\ forall uuid' zone' d' now',
       review_reasoning uuid' zone' db2 id d' now'
       = (if decide (d' = d) then Ok (row, db2)
          else research_error "reasoning review already has an immutable human decision").
Proof.
  intros Hinv Hr Hs. apply review_reasoning_writes in Hr as Hw. destruct (writes_inv _ _ Hw Hinv) as [Hinv1 Hg1].
  destruct (steps_inv _ _ Hs Hinv1) as [_ Hg2]. unfold review_reasoning in Hr.
  destruct (List.find _ _) as [r|] eqn:Ef; [|done]. apply research_when_Ok in Hr as [Hreq Hr].
  apply bind_Ok in Hr as (events & Hd & [= -> <-]).
  assert (exists e, head (events_of events (rw_id row)) = Some e /\ decided_of e = d) as (e & He & Hde).
  { apply decide_once_Ok in Hd as [[-> Hex]|[Hnil Hi]]; [done|]. apply insert_row_Ok in Hi as [-> _].
    rewrite events_of_app, Hnil. eexists. cbn. rewrite String.eqb_refl. split; [done|]. by destruct d. }
  pose proof (gr_reasoning_events _ _ Hg2) as [k Hk]. cbn [set_reasoning_events db_reasoning_events] in Hk.
  assert (exists l, events_of (db_reasoning_events db2) (rw_id row) = e :: l) as [l El].
  { rewrite Hk, events_of_app. destruct (events_of events (rw_id row)) as [|e' l]; [done|].
    injection He as ->. by eexists. }
  split.
  - unfold effective_reasoning_status. rewrite El. by rewrite <- Hde.
  - intros uuid' zone' d' now'. unfold review_reasoning.
    pose proof (gr_reasoning_reviews _ _ Hg2) as Hp. cbn [set_reasoning_events db_reasoning_reviews] in Hp.
    rewrite (prefix_find _ _ _ _ Hp Ef). unfold research_when at 1, raise_when at 1. rewrite Hreq.
    cbn [mbind result_bind]. unfold decide_once. rewrite El, Hde. destruct (decide (d' = d)) as [->|Hne].
    + unfold research_when, raise_when. rewrite bool_decide_eq_true_2 by done. cbn [negb mbind result_bind].
      by rewrite (proj1 (set_same_events db2)).
    + unfold research_when, raise_when. rewrite bool_decide_eq_false_2 by congruence. done.
Qed.

End Props.

(** ** At a concrete run *)

(** The outcome of the session scores the three probabilistic signals of its
    target, and scoring it the next day repeats the scores. *)
Lemma outcome_scored_once_witness :
  length scores = 3%nat /\ length (db_forecast_evaluations evaluated_db) = 1%nat
  /\ evaluate_research_target (uuid "later-") shanghai evaluated_db outcome (at_hour (base + 2) 9)
     = Ok (scores, evaluated_db).
Proof.
  split; [by_vm|]. split; [by_vm|].
  exact (proj2 (proj2 (proj2 (outcome_scored_once _ _ _ _ _ _ _ _ _ (proj1 loop_inv) evaluate_succeeds)))).
Defined.

Lemma human_decision_final_witness :
  effective_reasoning_status decided_db decided_review = "approved"
  /\ review_reasoning "late" shanghai decided_db (uuid "review-" 0) (mkDecided rejected "other" "notes") (at_hour (base + 3) 9)
     = research_error "reasoning review already has an immutable human decision".
Proof.
  destruct (human_decision_final _ _ _ _ _ _ _ _ _ (proj2 loop_inv) decide_succeeds (rtc_refl _ _)) as [Hs Hd].
  split; [exact Hs|]. rewrite Hd. reflexivity.
Defined.

End OutcomeProps.
