(* ===== verification/SignalProps.v ===== *)
(** * Contracts, cadence, the deterministic officer and calibration of the v2 loop *)
From S2P Require Import Prelude PyStr PyTime Float64 Domain Json Contracts Wiki Snapshot ResearchV2 ResearchRows ResearchFlow ResearchScore ResearchTheory OutcomeProps ResearchDemo.
Import PyStr PyTime Float64 Json Contracts ResearchV2 ResearchRows ResearchFlow ResearchScore ResearchTheory OutcomeProps ResearchDemo.
Open Scope string_scope.
Open Scope list_scope.
Open Scope Z_scope.

Module SignalProps.

(** ** The snapshot *)

Lemma increasing_sorted l : increasing l = true <-> StronglySorted Z.lt l.
Proof.
  split.
  - induction l as [|a [|b l] IH]; intros Hi; [constructor|repeat constructor|].
    cbn in Hi. apply andb_true_iff in Hi as [Hab Hi]. apply Z.ltb_lt in Hab. specialize (IH Hi).
    constructor; [done|]. apply StronglySorted_inv in IH as [_ Hb]. constructor; [done|].
    eapply Forall_impl; [exact Hb|]. intros x. cbn. lia.
  - induction 1 as [|a l Hs IH Ha]; [done|]. destruct l as [|b l]; [done|]. cbn.
    apply Forall_cons in Ha as [Hab _]. apply andb_true_iff. split; [by apply Z.ltb_lt|done].
Qed.

Lemma sorted_le_last l d : StronglySorted Z.lt l -> last l = Some d -> forall x, x ∈ l -> x <= d.
Proof.
  induction 1 as [|a l Hs IH Ha]; [done|]. destruct l as [|b l].
  - cbn. intros [= ->] x ->%list_elem_of_singleton. lia.
  - intros Hl x [->|Hx]%elem_of_cons; [|by apply IH].
    apply Forall_cons in Ha as [Hab _]. specialize (IH Hl b ltac:(left)). lia.
Qed.

Section Contracts.
Context `{CanonicalHash} `{ContractDumps}.

Definition before (cutoff d : datetime) : Prop := dt_ltb cutoff d = false.

Lemma instrument_bounds base cutoff i :
  instrument_in_bounds base cutoff i = Ok tt ->
  last (return_dates i) = Some base
  /\ forall r, r ∈ ie_returns i -> before cutoff (ss_observed_at (dr_source r)) /\ before cutoff (ss_ingested_at (dr_source r)).
Proof.
  unfold instrument_in_bounds. intros [Hl Hr]%raise_when_bind_Ok. apply raise_when_Ok in Hr.
  apply negb_false_iff, bool_decide_eq_true in Hl. split; [done|]. intros r Hin.
  rewrite existsb_false in Hr. specialize (Hr r Hin). by apply orb_false_iff in Hr.
Qed.

Lemma validate_instrument_increasing i u : validate_instrument i = Ok u -> increasing (return_dates i) = true.
Proof.
  unfold validate_instrument. intros (? & _ & Hr)%bind_Ok. do 2 apply bind_Ok in Hr as (? & _ & Hr).
  apply raise_when_bind_Ok in Hr as [Hi _]. by apply negb_false_iff in Hi.
Qed.

(** C11 An accepted evidence snapshot looks only back: each return, each
    evidence item and the calendar were observed and ingested by the cutoff,
    both return histories end on the base session, the at least twenty future
    sessions all follow it in order and are the ones the hashed calendar
    payload lists, and the seal is the hash of the body. *)
Theorem research_snapshot_no_lookahead s s' :
  validate_snapshot s = Ok s' ->
  let b := body s in
  let cutoff := es_data_cutoff b in
  s' = s /\ content_hash s = canonical_hash (dump_snapshot b)
  /\ before (es_as_of b) cutoff /\ before (es_created_at b) cutoff
  /\ before cutoff (ss_observed_at (tc_stamp (es_calendar_source b)))
  /\ before cutoff (ss_ingested_at (tc_stamp (es_calendar_source b)))
  /\ (forall item, item ∈ es_items b -> before cutoff (it_published_at item) /\ before cutoff (it_ingested_at item))
  /\ (forall code i, es_instruments b !! code = Some i -> code ∈ [CSI1000; CSI300] /\ ie_code i = code
        /\ forall r, r ∈ ie_returns i -> dr_trade_date r <= es_base_session b
             /\ before cutoff (ss_observed_at (dr_source r)) /\ before cutoff (ss_ingested_at (dr_source r)))
  /\ 20 <= Z.of_nat (length (es_future_sessions b)) /\ StronglySorted Z.lt (es_future_sessions b)
  /\ (forall d, d ∈ es_future_sessions b -> es_base_session b < d)
  /\ ss_source_hash (tc_stamp (es_calendar_source b))
     = canonical_hash (calendar_payload (es_base_session b) (es_future_sessions b)).
Proof.
  unfold validate_snapshot. intros (? & _ & Hr)%bind_Ok. apply bind_Ok in Hr as (b' & Hb & Hr).
  apply raise_when_bind_Ok in Hr as [Hh [= <-]]. apply negb_false_iff, String.eqb_eq in Hh.
  split; [done|]. split; [done|].
  unfold validate_snapshot_body in Hb. do 4 apply bind_Ok in Hb as (? & _ & Hb).
  apply bind_Ok in Hb as (u1 & Hlen & Hb). apply bind_Ok in Hb as (u2 & Hcal & Hb).
  apply bind_Ok in Hb as (u3 & Hins & Hb). apply bind_Ok in Hb as (u4 & _ & Hb).
  apply bind_Ok in Hb as (u5 & Hbound & _).
  unfold field_check in Hlen. apply raise_when_Ok, negb_false_iff, Z.leb_le in Hlen.
  unfold validate_calendar in Hcal. do 2 apply bind_Ok in Hcal as (? & _ & Hcal).
  apply raise_when_bind_Ok in Hcal as [_ Hcal]. apply raise_when_Ok, negb_false_iff, String.eqb_eq in Hcal.
  unfold validate_snapshot_boundary in Hbound. apply raise_when_bind_Ok in Hbound as [_ Hbound].
  destruct (es_instruments (body s) !! CSI1000) as [i1|] eqn:E1; [|done].
  destruct (es_instruments (body s) !! CSI300) as [i3|] eqn:E3; [|done].
  apply raise_when_bind_Ok in Hbound as [Hdom Hbound]. apply negb_false_iff, bool_decide_eq_true in Hdom.
  apply raise_when_bind_Ok in Hbound as [Hcode Hbound]. apply orb_false_iff in Hcode as [Hc1 Hc3].
  apply negb_false_iff, String.eqb_eq in Hc1, Hc3.
  apply raise_when_bind_Ok in Hbound as [Hfut Hbound]. apply orb_false_iff in Hfut as [Hinc Hafter].
  apply negb_false_iff in Hinc. rewrite existsb_false in Hafter.
  apply raise_when_bind_Ok in Hbound as [Hsame Hbound]. apply orb_false_iff in Hsame as [Hbase Hsess].
  apply negb_false_iff in Hbase, Hsess. apply Z.eqb_eq in Hbase. apply bool_decide_eq_true in Hsess.
  apply raise_when_bind_Ok in Hbound as [Htime Hbound]. apply orb_false_iff in Htime as [Ht1 Ht2].
  apply raise_when_bind_Ok in Hbound as [Hco Hbound]. apply raise_when_bind_Ok in Hbound as [Hci Hbound].
  apply raise_when_bind_Ok in Hbound as [_ Hbound]. apply bind_Ok in Hbound as (us & Hboth & Hitems).
  apply raise_when_Ok in Hitems. rewrite existsb_false in Hitems.
  split_and!; try done.
  - intros item Hi. specialize (Hitems item Hi). by apply orb_false_iff in Hitems.
  - intros code i Hi.
    assert (i ∈ [i1; i3] /\ code ∈ [CSI1000; CSI300] /\ ie_code i = code) as (Hin & Hcode & Hic).
    { assert (code ∈ dom (es_instruments (body s))) as Hd by (by apply elem_of_dom; exists i).
      rewrite Hdom in Hd. apply elem_of_union in Hd as [->%elem_of_singleton| ->%elem_of_singleton].
      - rewrite E1 in Hi. injection Hi as <-. split_and!; [left|left|done].
      - rewrite E3 in Hi. injection Hi as <-. split_and!; [right; left|right; left|done]. }
    split_and!; [done|done|]. intros r Hr.
    destruct (mapM_result_elem _ _ _ i Hboth Hin) as [[] Hib]. apply instrument_bounds in Hib as [Hl Hbef].
    destruct (mapM_result_elem _ _ _ (code, i) Hins) as [v Hv]; [by apply elem_of_map_to_list|].
    apply validate_instrument_increasing, increasing_sorted in Hv.
    split; [|by apply Hbef]. eapply sorted_le_last; [exact Hv|exact Hl|]. unfold return_dates.
    by apply list_elem_of_fmap_2.
  - by apply increasing_sorted.
  - intros d Hd. specialize (Hafter d Hd). by apply Z.leb_gt in Hafter.
  - by rewrite Hcal, Hbase, Hsess.
Qed.

(** ** Live outcomes *)

(** An accepted live outcome is bound to its episode: its price sources
    span exactly the anchor and target sessions, its calendar starts and ends
    there with as many sessions as the horizon counts, the benchmark is there
    exactly for the relative target, nothing was ingested after the
    observation, and the source hashes are those of the stamps. *)
Theorem live_outcome_bound o o' :
  validate_outcome o = Ok o' -> oo_mode (body o) = live ->
  let b := body o in
  exists primary calendar,
    oo_primary_source b = Some primary /\ oo_calendar_source b = Some calendar
    /\ bound_to_episode b CSI1000 primary = true
    /\ expected_sessions (oo_target_id b) = Ok (length (oc_sessions calendar))
    /\ head (oc_sessions calendar) = Some (oo_anchor_date b) /\ last (oc_sessions calendar) = Some (oo_target_date b)
    /\ StronglySorted Z.lt (oc_sessions calendar)
    /\ before (oo_observed_at b) (ss_ingested_at (op_stamp primary))
    /\ before (oo_observed_at b) (ss_ingested_at (oc_stamp calendar))
    /\ match oo_comparison_source b with
       | Some c => oo_target_id b = CSI1000_RELATIVE_W1_TARGET /\ bound_to_episode b CSI300 c = true
                   /\ before (oo_observed_at b) (ss_ingested_at (op_stamp c))
                   /\ oo_source_hashes b !! CSI300 = Some (ss_source_hash (op_stamp c))
       | None => oo_target_id b <> CSI1000_RELATIVE_W1_TARGET /\ oo_source_hashes b !! CSI300 = None
       end
    /\ oo_source_hashes b !! CSI1000 = Some (ss_source_hash (op_stamp primary))
    /\ oo_source_hashes b !! "calendar" = Some (ss_source_hash (oc_stamp calendar)).
Proof.
  intros Hv Hlive b. apply bind_Ok in Hv as (b' & Hb & _). unfold validate_outcome_body in Hb.
  do 8 apply bind_Ok in Hb as (? & _ & Hb). apply bind_Ok in Hb as (u1 & Hcal & Hb).
  apply bind_Ok in Hb as (u2 & Hrules & _). unfold validate_observation_rules in Hrules.
  do 6 apply raise_when_bind_Ok in Hrules as [_ Hrules]. rewrite Hlive in Hrules.
  unfold validate_live_provenance in Hrules. fold b in Hrules, Hcal.
  destruct (oo_primary_source b) as [primary|]; [|done]. destruct (oo_calendar_source b) as [calendar|]; [|done].
  apply raise_when_bind_Ok in Hrules as [Hp Hrules]. apply negb_false_iff in Hp.
  apply bind_Ok in Hrules as (n & Hn & Hrules). apply raise_when_bind_Ok in Hrules as [Hs Hrules].
  rewrite !orb_false_iff, !negb_false_iff in Hs. destruct Hs as [[Hlen Hhead] Hlast].
  apply Nat.eqb_eq in Hlen. apply bool_decide_eq_true in Hhead, Hlast.
  apply bind_Ok in Hrules as (u3 & Hcmp & Hrules). apply raise_when_bind_Ok in Hrules as [Hstamps Hhash].
  apply raise_when_Ok, negb_false_iff, bool_decide_eq_true in Hhash. rewrite existsb_false in Hstamps.
  unfold opt_check, validate_calendar_order in Hcal. do 2 apply bind_Ok in Hcal as (? & _ & Hcal).
  apply raise_when_bind_Ok in Hcal as [Hinc _]. apply negb_false_iff, increasing_sorted in Hinc.
  exists primary, calendar. subst n. split_and!; try done.
  - apply Hstamps. left.
  - apply Hstamps. right. left.
  - destruct (oo_comparison_source b) as [c|].
    + destruct (oo_target_id b =? CSI1000_RELATIVE_W1_TARGET)%string eqn:Et; [|by apply raise_when_Ok in Hcmp].
      apply String.eqb_eq in Et. apply raise_when_Ok, negb_false_iff in Hcmp.
      split_and!; [done|done|apply Hstamps; right; right; left|by rewrite Hhash, lookup_insert_eq].
    + destruct (oo_target_id b =? CSI1000_RELATIVE_W1_TARGET)%string eqn:Et; [by apply raise_when_Ok in Hcmp|].
      apply String.eqb_neq in Et. split; [done|]. by rewrite Hhash.
  - rewrite Hhash. by destruct (oo_comparison_source b).
  - rewrite Hhash. by destruct (oo_comparison_source b).
Qed.

End Contracts.

(** ** Cadence *)

(** The Monday of a week. *)
Definition monday (d : date) : date := d - weekday d.

Lemma iso_week_monday a b : iso_week a = iso_week b <-> monday a = monday b.
Proof.
  unfold iso_week, monday. split; [|intros E; rewrite E; done].
  intros [= Ey Ew]. rewrite Ey in Ew. unfold weekday in *.
  set (j := ymd2ord _ 1 1) in Ew. clearbody j. clear Ey.
  pose proof (Z.div_mod (a - (a + 6) mod 7 + 3 - j) 7 ltac:(lia)).
  pose proof (Z.div_mod (b - (b + 6) mod 7 + 3 - j) 7 ltac:(lia)).
  pose proof (Z.mod_pos_bound (a - (a + 6) mod 7 + 3 - j) 7 ltac:(lia)).
  pose proof (Z.mod_pos_bound (b - (b + 6) mod 7 + 3 - j) 7 ltac:(lia)).
  pose proof (Z.div_mod (a + 6) 7 ltac:(lia)). pose proof (Z.div_mod (b + 6) 7 ltac:(lia)). lia.
Qed.

(** The weekly cadence: without an unexpired view, a weekly view is due on
    the first session whose week, Monday to Sunday, is not the week of the
    session before, also across the end of a year, and always when there is no
    earlier view. *)
Theorem weekly_cadence {A B} (active : option A) (latest : option B) anchor previous :
  natural_view_due active latest anchor previous weekly = true
  <-> active = None /\ (latest = None \/ monday anchor <> monday previous).
Proof.
  unfold natural_view_due. rewrite <- iso_week_monday. destruct active; [split; [done|by intros [[=] _]]|].
  destruct latest; [|split; [by split; [|left]|done]]. rewrite negb_true_iff, bool_decide_eq_false. split.
  - intros Hne. split; [done|by right].
  - intros (_ & [[=]|Hne]). done.
Qed.

(** ** The deterministic officer *)

(** A draft of the deterministic officer: the direction is the only class
    that is close to the greatest probability, the uncertainty is the
    critic's, the evidence is exactly what strategist and critic cite, and the
    draft never abstains and passes its contract. *)
Theorem cio_draft_sound strategy critic a d :
  deterministic_cio_draft strategy critic a = Ok d ->
  exists p direction, sd_probabilities d = Some p /\ sd_direction d = Some direction /\ winners p = [direction]
  /\ (exists severity base q, sd_risk_severity critic = Some severity /\ as_baseline_probabilities a = Some base
        /\ sd_probabilities strategy = Some q /\ p = break_tie (Domain.Probs_of (blend severity q base)))
  /\ sd_signal_kind d = DECISION_FORECAST /\ draft_identity d = (as_target_id a, DECISION_FORECAST, as_natural_horizon a, as_decision_horizon a)
  /\ (forall e, e ∈ sd_evidence_item_ids d <-> e ∈ sd_evidence_item_ids strategy \/ e ∈ sd_evidence_item_ids critic)
  /\ NoDup (sd_evidence_item_ids d)
  /\ sd_counter_evidence d = sd_counter_evidence critic
  /\ sd_invalidation_conditions d = sd_invalidation_conditions critic
  /\ sd_abstain d = false /\ sd_risk_severity d = None.
Proof.
  unfold deterministic_cio_draft. destruct (sd_probabilities strategy) as [q|]; [|done].
  destruct (as_baseline_probabilities a) as [base|]; [|done].
  destruct (sd_risk_severity critic) as [severity|]; [|done]. intros (p & Hp & Hd)%bind_Ok.
  assert (p = break_tie (Domain.Probs_of (blend severity q base))) as ->.
  { unfold validate_probabilities_v2 in Hp. repeat apply bind_Ok in Hp as (? & _ & Hp). congruence. }
  apply validate_draft_v2_Ok in Hd as [-> (u & Hu)].
  unfold validate_kind_payload in Hu. cbn [sd_signal_kind] in Hu.
  apply validate_probabilistic_Ok in Hu as (p & direction & Ep & Ed & Hw & _).
  exists p, direction. cbn in Ep, Ed. split_and!; try done.
  - exists severity, base, q. split_and!; [done..|]. congruence.
  - intros e. cbn. unfold sorted_union. rewrite merge_sort_Permutation, elem_of_elements, elem_of_union.
    by rewrite !elem_of_list_to_set.
  - cbn. unfold sorted_union. rewrite merge_sort_Permutation. apply NoDup_elements.
Qed.

(** ** Calibration bins *)

Definition edge (i : Z) : float := int_div i SCORECARD_ECE_BINS_V2.

Lemma edges_increase : forallb (fun i => forallb (fun j => implb (i <? j) (fltb (edge i) (edge j)) &&
  implb (j <=? i) (negb (fltb (edge i) (edge j)))) (seqZ 0 11)) (seqZ 0 11) = true.
Proof. by_vm. Qed.

Lemma edge_ltb i j : 0 <= i <= 10 -> 0 <= j <= 10 -> fltb (edge i) (edge j) = (i <? j).
Proof.
  intros Hi Hj. pose proof edges_increase as He. rewrite forallb_forall in He.
  specialize (He i ltac:(apply list_elem_of_In, elem_of_seqZ; lia)). rewrite forallb_forall in He.
  specialize (He j ltac:(apply list_elem_of_In, elem_of_seqZ; lia)). apply andb_true_iff in He as [H1 H2].
  destruct (i <? j) eqn:E; [done|]. assert (j <=? i = true) as E' by lia. rewrite E' in H2. cbn in H2.
  by apply negb_true_iff in H2.
Qed.

Lemma edge_not_nan i : 0 <= i <= 10 -> is_nan (edge i) = false.
Proof.
  intros Hi. assert (forallb (fun i => negb (is_nan (edge i))) (seqZ 0 11) = true) as He by by_vm.
  rewrite forallb_forall in He. specialize (He i ltac:(apply list_elem_of_In, elem_of_seqZ; lia)).
  by apply negb_true_iff in He.
Qed.

Lemma in_bin_spec i x :
  0 <= i < 10 -> is_nan x = false -> fleb x f1 = true ->
  in_bin i x = fleb (edge i) x && ((i =? 9) || fltb x (edge (i + 1))).
Proof.
  intros Hi Hx H1. unfold in_bin. fold (edge i) (edge (i + 1)). f_equal.
  change (SCORECARD_ECE_BINS_V2 - 1) with 9. destruct (i =? 9) eqn:E; cbn.
  - apply Z.eqb_eq in E as ->. change (edge (9 + 1)) with f1 in *.
    replace (int_div (9 + 1) SCORECARD_ECE_BINS_V2) with f1 by by_vm. rewrite H1. by rewrite orb_true_r.
  - by rewrite orb_false_r.
Qed.

(** The greatest edge that is not above a number. *)
Lemma bin_exists x n :
  is_nan x = false -> fleb f0 x = true -> (n <= 9)%nat ->
  exists i, 0 <= i <= Z.of_nat n /\ fleb (edge i) x = true /\ (i = Z.of_nat n \/ fltb x (edge (i + 1)) = true).
Proof.
  intros Hx H0. induction n as [|n IH]; intros Hn.
  - exists 0. split_and!; [lia|lia| |by left]. by replace (edge 0) with f0 by by_vm.
  - destruct (fltb x (edge (Z.of_nat (S n)))) eqn:E.
    + destruct (IH ltac:(lia)) as (i & Hi & Hle & [->|Hlt]).
      * exists (Z.of_nat n). split_and!; [lia|lia|done|right]. by replace (Z.of_nat n + 1) with (Z.of_nat (S n)) by lia.
      * exists i. split_and!; [lia|lia|done|by right].
    + exists (Z.of_nat (S n)). split_and!; [lia|lia| |by left].
      rewrite fltb_false_fleb in E by (done || apply edge_not_nan; lia). by apply negb_false_iff in E.
Qed.

(** A number of the unit interval lies in exactly one bin. *)
Lemma bin_unique x :
  unit_interval x = true -> exists i, 0 <= i < 10 /\ forall j, 0 <= j < 10 -> in_bin j x = true <-> j = i.
Proof.
  unfold unit_interval. rewrite !andb_true_iff. intros [[Hf H0] H1].
  pose proof (is_finite_not_nan x Hf) as Hx. destruct (bin_exists x 9 Hx H0 ltac:(lia)) as (i & Hi & Hle & Hlt).
  exists i. split; [lia|]. intros j Hj. rewrite in_bin_spec by done. rewrite andb_true_iff, orb_true_iff, Z.eqb_eq.
  split; [|intros ->; split; [done|destruct Hlt as [->|]; [by left|by right]]].
  assert (below : forall a b, 0 <= a <= 10 -> 0 <= b < 10 -> fleb (edge a) x = true -> fltb x (edge (b + 1)) = true -> a < b + 1).
  { intros a b Ha Hb La Lb. apply Z.ltb_lt. rewrite <- edge_ltb by lia. by eapply fleb_fltb_trans. }
  intros [Lj [->|Rj]].
  - destruct Hlt as [->|R]; [lia|]. pose proof (below 9 i ltac:(lia) ltac:(lia) Lj R). lia.
  - pose proof (below i j ltac:(lia) ltac:(lia) Hle Rj). destruct Hlt as [->|R]; [lia|].
    pose proof (below j i ltac:(lia) ltac:(lia) Lj R). lia.
Qed.

(** One more index among those counted. *)
Lemma sum_one (f : Z -> bool) (g : Z -> nat) l k :
  NoDup l -> k ∈ l -> (forall j, j ∈ l -> f j = true <-> j = k) ->
  sum_list ((fun i => if f i then S (g i) else g i) <$> l) = S (sum_list (g <$> l)).
Proof.
  intros Hnd. revert k. induction Hnd as [|a l Ha Hnd IH]; intros k Hk Hf; [by apply not_elem_of_nil in Hk|].
  cbn. destruct (decide (a = k)) as [->|Hne].
  - rewrite (proj2 (Hf k ltac:(left)) eq_refl). cbn. do 2 f_equal. f_equal. apply list_fmap_ext. intros i j Hj.
    destruct (f j) eqn:E; [|done]. apply list_elem_of_lookup_2 in Hj. apply Hf in E as ->; [done|by right].
  - destruct (f a) eqn:E; [by apply Hf in E; [|left]|].
    rewrite (IH k); [lia| |intros j Hj; apply Hf; by right]. by apply elem_of_cons in Hk as [->|].
Qed.

(** The ten calibration bins partition the unit interval: each probability,
    the two ends included, falls in exactly one, so the bins of the
    calibration error together weigh every pair once. *)
Theorem ece_bins_partition values :
  Forall (fun v : float * float => unit_interval v.1 = true) values ->
  (forall v, v ∈ values -> exists i, 0 <= i < 10 /\ forall j, 0 <= j < 10 -> in_bin j v.1 = true <-> j = i)
  /\ sum_list ((fun i => length (bucket values i)) <$> seqZ 0 SCORECARD_ECE_BINS_V2) = length values.
Proof.
  intros Hv. split; [intros v Hin; rewrite Forall_forall in Hv; by apply bin_unique, Hv|].
  induction Hv as [|v l Hu Hv IH]; [by_vm|]. cbn [length]. rewrite <- IH. clear IH Hv. change SCORECARD_ECE_BINS_V2 with 10.
  destruct (bin_unique v.1 Hu) as (k & Hk & Hin).
  rewrite <- (sum_one (fun i => in_bin i v.1) (fun i => length (bucket l i)) (seqZ 0 10) k).
  - f_equal. apply list_fmap_ext. intros i j _. unfold bucket. cbn. by destruct (in_bin j v.1).
  - apply NoDup_seqZ.
  - by apply elem_of_seqZ.
  - intros j Hj%elem_of_seqZ. by apply Hin.
Qed.

(** ** At concrete contracts *)

Lemma research_snapshot_no_lookahead_witness :
  validate_snapshot snapshot = Ok snapshot
  /\ forall item, item ∈ es_items (body snapshot) ->
       before (es_data_cutoff (body snapshot)) (it_published_at item)
       /\ before (es_data_cutoff (body snapshot)) (it_ingested_at item).
Proof.
  assert (validate_snapshot snapshot = Ok snapshot) as E by by_vm. split; [exact E|].
  exact (proj1 (proj2 (proj2 (proj2 (proj2 (proj2 (proj2 (research_snapshot_no_lookahead _ _ E)))))))).
Defined.

Lemma live_outcome_bound_witness :
  exists primary calendar,
    oo_primary_source live_outcome_body = Some primary /\ oo_calendar_source live_outcome_body = Some calendar
    /\ bound_to_episode live_outcome_body CSI1000 primary = true.
Proof.
  destruct (live_outcome_bound live_outcome live_outcome) as (primary & calendar & Hp & Hc & Hb & _).
  - by_vm.
  - reflexivity.
  - exists primary, calendar. split; [exact Hp|]. split; [exact Hc|exact Hb].
Defined.

Definition even_baseline : Probs := Domain.Probs_of (fun _ => int_div 1 3).
Definition calm_strategy : AgentSignalDraftV2 :=
  decision_draft STRATEGY_FORECAST (Some UP) (Some (Domain.mkProbs (lit 5 10) (lit 3 10) (lit 2 10))) None.
Definition calm_draft : AgentSignalDraftV2 :=
  value_or calm_strategy (deterministic_cio_draft calm_strategy severe_critique (cio_assignment even_baseline)).

Lemma cio_draft_sound_witness :
  sd_abstain calm_draft = false /\ sd_direction calm_draft = Some UP
  /\ exists p direction, sd_probabilities calm_draft = Some p /\ sd_direction calm_draft = Some direction
       /\ winners p = [direction].
Proof.
  destruct (cio_draft_sound calm_strategy severe_critique (cio_assignment even_baseline) calm_draft)
    as (p & direction & Hp & Hd & Hw & _).
  - by_vm.
  - split; [by_vm|]. split; [by_vm|]. exists p, direction. split; [exact Hp|]. split; [exact Hd|exact Hw].
Defined.

Lemma ece_bins_partition_witness :
  sum_list ((fun i => length (bucket [(f0, f1); (lit 3 10, f0); (f1, f1)] i)) <$> seqZ 0 SCORECARD_ECE_BINS_V2) = 3%nat.
Proof.
  refine (proj2 (ece_bins_partition [(f0, f1); (lit 3 10, f0); (f1, f1)] _)).
  repeat apply Forall_cons_2; try apply Forall_nil_2; vm_compute; reflexivity.
Defined.

(** The tie of the demo: up and down get the same probability, shifting mass to
    the neutral class leaves them tied, and the officer refuses the drafts that
    their contracts have accepted. *)
Lemma cio_tie_refused :
  exists baseline, smoothed_baseline [NEUTRAL; DOWN] = Ok baseline
    /\ validate_draft_v2 tie_strategy = Ok tie_strategy /\ validate_draft_v2 severe_critique = Ok severe_critique
    /\ deterministic_cio_draft tie_strategy severe_critique (cio_assignment baseline)
       = raise ValueError "the predicted class must have a unique maximum probability".
Proof.
  exists (Domain.Probs_of (fun d => int_div (count_label [NEUTRAL; DOWN] d) 5)).
  split; [by_vm|]. split; [by_vm|]. split; by_vm.
Qed.

End SignalProps.
