(* ===== verification/AgentEval.v ===== *)
(** * Contracts of the Agent evaluation replays
      ([backend/app/services/agent_evaluation_v2.py], the models and their validators)

    A suite freezes targets, two or more arms and episodes with trusted
    outcomes; a job hands an outcome-free copy of the episodes to external
    tasks; each task returns one draft; a report compares the arms.  Fields
    with a single admitted value (schema versions, the kind of runner, the
    name and effort of the reviewer model) are not kept. *)
From Stdlib Require Import Ascii.
From S2P Require Import Prelude PyStr PyTime Float64 Domain Json Contracts ResearchV2.
Import PyStr PyTime Float64 Domain Json.
Open Scope string_scope.
Open Scope list_scope.
Open Scope Z_scope.

Module AgentEval.

Definition RELEASE_POLICY_VERSION_V2 : string := "2.0.0".
Definition EVALUATOR_VERSION_V2 : string := "2.0.0".
Definition MAX_JSON_BYTES : Z := 25 * 1024 * 1024.
Definition REASONING_DIMENSIONS : list string :=
  ["evidence_relevance"; "causal_chain"; "target_horizon_mapping";
   "counterevidence_invalidation"; "calibration_uncertainty"].
Definition RESERVED_OUTCOME_KEYS : list string :=
  ["actual_direction"; "actual_label"; "actual_return"; "evaluation_result"; "outcome"; "outcome_hash";
   "realized_class"; "realized_label"; "realized_return"; "target_close"].

Definition eval_error {A} (m : string) : result A := raise AgentEvalV2Error m.
Definition eval_when (b : bool) (m : string) : result unit := raise_when b AgentEvalV2Error m.

(** A violated [Field] constraint; lengths count characters. *)
Definition field (b : bool) (name : string) : result unit :=
  raise_when (negb b) ValueError ("validation error: " +:+ name).
Definition text_between (lo hi : Z) (s : string) : bool := (lo <=? py_len s) && (py_len s <=? hi).
Definition unique (l : list string) : bool := bool_decide (NoDup l).

(** [_contains_reserved_outcome_key]: lower-casing a letter outside ASCII never
    gives one of the reserved keys. *)
Fixpoint contains_reserved_outcome_key (value : json) : bool :=
  match value with
  | JObj m =>
      map_fold (fun key item found =>
        bool_decide (py_lower key ∈ RESERVED_OUTCOME_KEYS) || contains_reserved_outcome_key item || found)
        false m
  | JArr l => existsb contains_reserved_outcome_key l
  | _ => false
  end.

(** [_validate_component]: a value that is one component of a path. *)
Definition null_byte : Ascii.ascii := Ascii.Ascii false false false false false false false false.
Definition path_separator (c : Ascii.ascii) : bool :=
  bool_decide (c = "/"%char) || bool_decide (c = "\"%char) || bool_decide (c = null_byte).
Definition validate_component (value label : string) : result unit :=
  eval_when (negb (truthy value) || bool_decide (value ∈ ["."; ".."])
             || negb (all_bytes (fun c => negb (path_separator c)) value)) ("invalid " +:+ label).

(** ** Frozen arms *)

Record FrozenArtifactV2 := mkArtifact { fa_version : string; fa_content_hash : string }.
Record FrozenModelV2 := mkModel { fm_version : string; fm_content_hash : string; fm_name : string }.

Record TargetVersionManifestV2 := mkTargetVersion {
  tv_target_id : string;
  tv_model : FrozenModelV2;
  tv_agents : gmap string FrozenArtifactV2;
  tv_prompts : gmap string FrozenArtifactV2;
  tv_workflow : FrozenArtifactV2;
  tv_research_program : FrozenArtifactV2;
  tv_aggregation : FrozenArtifactV2;
  tv_wiki : FrozenArtifactV2 }.

Record EvalArmV2 := mkArm {
  arm_id : string; arm_description : string; arm_targets : list TargetVersionManifestV2 }.

Record EvalTargetV2 := mkTarget {
  et_target_id : string; et_horizon : string; et_description : string; et_release_gate : bool }.

Definition check_artifact (a : FrozenArtifactV2) : result unit :=
  field (text_between 1 120 (fa_version a)) "version" ;;
  field (is_sha256_hex (fa_content_hash a)) "content_hash".

Definition check_model (m : FrozenModelV2) : result unit :=
  field (text_between 1 120 (fm_version m)) "version" ;;
  field (is_sha256_hex (fm_content_hash m)) "content_hash" ;;
  field (text_between 1 160 (fm_name m)) "name".

(** The keys of a dict of components, checked one by one. *)
Definition check_components (label : string) (m : gmap string FrozenArtifactV2) : result unit :=
  mapM_result (fun value => validate_component value (label +:+ " ID")) (elements (dom m)) ;; Ok tt.

(** [TargetVersionManifestV2] with [validate_component_names] *)
Definition check_target_version (t : TargetVersionManifestV2) : result unit :=
  field (text_between 1 160 (tv_target_id t)) "target_id" ;;
  check_model (tv_model t) ;;
  mapM_result check_artifact (snd <$> map_to_list (tv_agents t)) ;;
  field (negb (bool_decide (tv_agents t = ∅))) "agents" ;;
  mapM_result check_artifact (snd <$> map_to_list (tv_prompts t)) ;;
  field (negb (bool_decide (tv_prompts t = ∅))) "prompts" ;;
  mapM_result check_artifact [tv_workflow t; tv_research_program t; tv_aggregation t; tv_wiki t] ;;
  check_components "agent" (tv_agents t) ;;
  check_components "prompt" (tv_prompts t) ;;
  raise_when (negb (bool_decide (dom (tv_agents t) = dom (tv_prompts t)))) ValueError
    "every frozen agent must have exactly one frozen prompt".

(** [EvalArmV2] with [validate_target_ids] *)
Definition check_arm (a : EvalArmV2) : result unit :=
  field (text_between 1 120 (arm_id a)) "arm_id" ;;
  mapM_result check_target_version (arm_targets a) ;;
  field (negb (bool_decide (arm_targets a = []))) "targets" ;;
  raise_when (negb (unique (tv_target_id <$> arm_targets a))) ValueError "arm target IDs must be unique".

Definition check_target (t : EvalTargetV2) : result unit :=
  field (text_between 1 160 (et_target_id t)) "target_id" ;;
  field (text_between 1 32 (et_horizon t)) "horizon".

(** ** Episodes *)

Record FrozenEvidenceV2 := mkEvidence {
  ev_evidence_id : string; ev_observed_at : datetime; ev_content_hash : string }.
Record TrustedOutcomeV2 := mkOutcome { to_label : Direction; to_observation_hash : string }.
Record ProbabilityIntervalV2 := mkInterval { pi_minimum : float; pi_maximum : float }.

Record MustPassInvariantV2 := mkInvariant {
  mi_expected_direction : option Direction;
  mi_probability_bounds : list (Direction * ProbabilityIntervalV2);
  mi_required_evidence_ids : list string }.

Record EvalEpisodeV2 := mkEpisode {
  ep_episode_id : string;
  ep_target_id : string;
  ep_independence_key : string;
  ep_anchor_date : date;
  ep_target_date : date;
  ep_evidence_cutoff : datetime;
  ep_input_payload : gmap string json;
  ep_input_hash : string;
  ep_evidence : list FrozenEvidenceV2;
  ep_expected_trajectory : list string;
  ep_must_pass : bool;
  ep_must_pass_invariant : option MustPassInvariantV2;
  ep_outcome : TrustedOutcomeV2 }.

Record EvalEpisodeInputV2 := mkEpisodeInput {
  ei_episode_id : string;
  ei_target_id : string;
  ei_independence_key : string;
  ei_anchor_date : date;
  ei_target_date : date;
  ei_evidence_cutoff : datetime;
  ei_input_payload : gmap string json;
  ei_input_hash : string;
  ei_evidence : list FrozenEvidenceV2;
  ei_expected_trajectory : list string;
  ei_must_pass : bool;
  ei_must_pass_invariant : option MustPassInvariantV2 }.

(** [_outcome_free_episode] *)
Definition outcome_free_episode (e : EvalEpisodeV2) : EvalEpisodeInputV2 :=
  mkEpisodeInput (ep_episode_id e) (ep_target_id e) (ep_independence_key e) (ep_anchor_date e)
    (ep_target_date e) (ep_evidence_cutoff e) (ep_input_payload e) (ep_input_hash e) (ep_evidence e)
    (ep_expected_trajectory e) (ep_must_pass e) (ep_must_pass_invariant e).

Definition check_evidence (e : FrozenEvidenceV2) : result unit :=
  field (text_between 1 200 (ev_evidence_id e)) "evidence_id" ;;
  field (is_sha256_hex (ev_content_hash e)) "content_hash" ;;
  raise_when (negb (is_aware (ev_observed_at e))) ValueError "evidence observed_at must be timezone-aware".

Definition check_interval (i : ProbabilityIntervalV2) : result unit :=
  field (ResearchV2.unit_interval (pi_minimum i)) "minimum" ;;
  field (ResearchV2.unit_interval (pi_maximum i)) "maximum" ;;
  raise_when (fltb (pi_maximum i) (pi_minimum i)) ValueError
    "probability interval minimum may not exceed maximum".

(** [MustPassInvariantV2] with [require_semantic_assertion] *)
Definition check_invariant (i : MustPassInvariantV2) : result unit :=
  mapM_result (fun b => check_interval b.2) (mi_probability_bounds i) ;;
  raise_when (bool_decide (mi_expected_direction i = None)
              && match mi_probability_bounds i with [] => true | _ => false end
              && match mi_required_evidence_ids i with [] => true | _ => false end) ValueError
    "must-pass invariant requires a semantic assertion" ;;
  raise_when (negb (unique (mi_required_evidence_ids i))) ValueError
    "must-pass required evidence IDs must be unique".

Definition check_opt {A} (check : A -> result unit) (o : option A) : result unit :=
  match o with Some a => check a | None => Ok tt end.

Definition subset_of (l allowed : list string) : bool := forallb (fun x => bool_decide (x ∈ allowed)) l.

(** ** The release policy *)

Record ReleasePolicyV2 := mkPolicy {
  rp_version : string;
  rp_min_metric_episodes : Z;
  rp_must_pass_rate : float;
  rp_max_brier_delta : float;
  rp_max_direction_drop : float;
  rp_max_p95_latency_ratio : float;
  rp_max_token_ratio : float }.

Definition at_least (lo x : float) : bool := fleb lo x.

(** [ReleasePolicyV2] with [forbid_weaker_release_gates] *)
Definition check_policy (p : ReleasePolicyV2) : result unit :=
  field (1 <=? rp_min_metric_episodes p) "min_metric_episodes" ;;
  field (ResearchV2.unit_interval (rp_must_pass_rate p)) "must_pass_rate" ;;
  field (at_least f0 (rp_max_brier_delta p)) "max_brier_delta" ;;
  field (ResearchV2.unit_interval (rp_max_direction_drop p)) "max_direction_drop" ;;
  field (at_least f1 (rp_max_p95_latency_ratio p)) "max_p95_latency_ratio" ;;
  field (at_least f1 (rp_max_token_ratio p)) "max_token_ratio" ;;
  raise_when (negb (rp_version p =? RELEASE_POLICY_VERSION_V2)%string) ValueError
    "Agent Eval v2 release policy version must be 2.0.0" ;;
  raise_when (rp_min_metric_episodes p <? 20) ValueError
    "Agent Eval v2 requires at least 20 independent episodes" ;;
  raise_when (negb (feqb (rp_must_pass_rate p) f1)) ValueError
    "Agent Eval v2 must-pass rate must remain 100%" ;;
  raise_when (fltb (lit 1 100) (rp_max_brier_delta p)) ValueError
    "Agent Eval v2 Brier regression limit may not exceed 0.01" ;;
  raise_when (fltb (lit 2 100) (rp_max_direction_drop p)) ValueError
    "Agent Eval v2 direction drop may not exceed 0.02" ;;
  raise_when (fltb (lit 12 10) (rp_max_p95_latency_ratio p)) ValueError
    "Agent Eval v2 P95 latency ratio may not exceed 1.20" ;;
  raise_when (fltb (lit 115 100) (rp_max_token_ratio p)) ValueError
    "Agent Eval v2 mean token ratio may not exceed 1.15".

(** [ReleasePolicyV2()] *)
Definition default_policy : ReleasePolicyV2 :=
  mkPolicy RELEASE_POLICY_VERSION_V2 20 f1 (lit 1 100) (lit 2 100) (lit 12 10) (lit 115 100).

(** Equality of two policies, as Pydantic compares models. *)
Definition policy_eqb (a b : ReleasePolicyV2) : bool :=
  (rp_version a =? rp_version b)%string && (rp_min_metric_episodes a =? rp_min_metric_episodes b)
  && feqb (rp_must_pass_rate a) (rp_must_pass_rate b) && feqb (rp_max_brier_delta a) (rp_max_brier_delta b)
  && feqb (rp_max_direction_drop a) (rp_max_direction_drop b)
  && feqb (rp_max_p95_latency_ratio a) (rp_max_p95_latency_ratio b)
  && feqb (rp_max_token_ratio a) (rp_max_token_ratio b).

(** ** Suites *)

Record AgentEvalSuiteV2 := mkSuite {
  su_suite_id : string;
  su_version : string;
  su_title : string;
  su_description : string;
  su_synthetic : bool;
  su_targets : list EvalTargetV2;
  su_arms : list EvalArmV2;
  su_episodes : list EvalEpisodeV2;
  su_release_policy : ReleasePolicyV2 }.

(** [target.horizon.upper() == "D1"] *)
Definition is_d1 (t : EvalTargetV2) : bool := (py_lower (et_horizon t) =? "d1")%string.

Definition episodes_of (target_id : string) (l : list EvalEpisodeV2) : list EvalEpisodeV2 :=
  List.filter (fun e => (ep_target_id e =? target_id)%string) l.

(** Tuples of dates in order. *)
Definition window (e : EvalEpisodeV2) : date * date := (ep_anchor_date e, ep_target_date e).
Definition window_le (a b : date * date) : Prop := a.1 < b.1 \/ (a.1 = b.1 /\ a.2 <= b.2).
#[global] Instance window_le_dec a b : Decision (window_le a b).
Proof. unfold window_le. apply _. Defined.

(** [zip(ordered, ordered[1:])]: no window starts before the one before it ends. *)
Fixpoint disjoint_windows (l : list (date * date)) : bool :=
  match l with
  | previous :: ((current :: _) as rest) => negb (current.1 <? previous.2) && disjoint_windows rest
  | _ => true
  end.

Definition check_windows (episodes : list EvalEpisodeV2) (t : EvalTargetV2) : result unit :=
  raise_when (negb (is_d1 t)
              && negb (disjoint_windows (merge_sort window_le (window <$> episodes_of (et_target_id t) episodes))))
    ValueError ("non-D1 episodes must not overlap within target " +:+ et_target_id t).

(** One episode of the loop that looks for duplicates. *)
Definition check_independence (seen : list (string * string) * list (string * date)) (e : EvalEpisodeV2)
    : result (list (string * string) * list (string * date)) :=
  let identity := (ep_target_id e, ep_independence_key e) in
  let date_identity := (ep_target_id e, ep_target_date e) in
  raise_when (bool_decide (identity ∈ seen.1)) ValueError
    "independence_key must be unique within a target" ;;
  raise_when (bool_decide (date_identity ∈ seen.2)) ValueError
    "target_date must be unique within a target" ;;
  Ok (identity :: seen.1, date_identity :: seen.2).

(** [validate_identities] *)
Definition validate_identities (s : AgentEvalSuiteV2) : result unit :=
  let target_ids := et_target_id <$> su_targets s in
  let required : gset string := list_to_set target_ids in
  raise_when (negb (unique target_ids)) ValueError "suite target IDs must be unique" ;;
  raise_when (negb (existsb et_release_gate (su_targets s))) ValueError
    "suite must contain at least one release-gated target" ;;
  raise_when (negb (unique (arm_id <$> su_arms s))) ValueError "suite arm IDs must be unique" ;;
  mapM_result (fun arm =>
      raise_when (negb (bool_decide (list_to_set (tv_target_id <$> arm_targets arm) = required))) ValueError
        ("arm " +:+ arm_id arm +:+ " must freeze every suite target exactly once")) (su_arms s) ;;
  raise_when (negb (unique (ep_episode_id <$> su_episodes s))) ValueError "suite episode IDs must be unique" ;;
  raise_when (negb (bool_decide (list_to_set (ep_target_id <$> su_episodes s) = required))) ValueError
    "suite episodes must cover every target" ;;
  for_each check_independence ([], []) (su_episodes s) ;;
  mapM_result (check_windows (su_episodes s)) (su_targets s) ;;
  Ok tt.

(** ** Drafts *)

(** [ProbabilitiesV2] with [require_unit_sum] *)
Definition check_probabilities (p : Probs) : result unit :=
  field (ResearchV2.unit_interval (p_up p)) "up" ;;
  field (ResearchV2.unit_interval (p_neutral p)) "neutral" ;;
  field (ResearchV2.unit_interval (p_down p)) "down" ;;
  raise_when (fltb (lit 1 1000000000)
                (fabs (fsub (fadd (fadd (p_up p) (p_neutral p)) (p_down p)) f1)))
    ValueError "probabilities must sum to 1".

Record ReasoningReviewV2 := mkReview {
  rv_evidence_relevance : Z;
  rv_causal_chain : Z;
  rv_target_horizon_mapping : Z;
  rv_counterevidence_invalidation : Z;
  rv_calibration_uncertainty : Z;
  rv_rule_passed : bool;
  rv_review_input_hash : string;
  rv_reviewer_id : string }.

(** [getattr(review, dimension)] along [REASONING_DIMENSIONS] *)
Definition scores (r : ReasoningReviewV2) : list Z :=
  [rv_evidence_relevance r; rv_causal_chain r; rv_target_horizon_mapping r;
   rv_counterevidence_invalidation r; rv_calibration_uncertainty r].

Record StructuredReasoningV2 := mkReasoning {
  sr_rationale : string; sr_causal_chain : list string; sr_counter_evidence : list string;
  sr_invalidation_conditions : list string }.

Record SelfReportedAblationV2 := mkSelfAblation { sa_agent_id : string; sa_probabilities : Probs }.

Inductive OutputStatus := completed | failed.
#[global] Instance output_status_eq_dec : EqDecision OutputStatus.
Proof. solve_decision. Defined.

(** A citation is the identifier of its evidence. *)
Record DraftEpisodeOutputV2 := mkOutput {
  do_episode_id : string;
  do_target_id : string;
  do_status : OutputStatus;
  do_trajectory : list string;
  do_citations : list string;
  do_probabilities : option Probs;
  do_reasoning : option StructuredReasoningV2;
  do_latency_ms : float;
  do_total_tokens : Z;
  do_reasoning_review : option ReasoningReviewV2;
  do_ablations : list SelfReportedAblationV2 }.

Record GeneratedByV2 := mkGeneratedBy { gb_producer : string; gb_model : string; gb_reasoning_effort : string }.

Record AgentEvalDraftV2 := mkDraft {
  ad_job_id : string;
  ad_arm_id : string;
  ad_suite_hash : string;
  ad_input_hash : string;
  ad_arm_manifest_hash : string;
  ad_generated_by : GeneratedByV2;
  ad_outputs : list DraftEpisodeOutputV2 }.

Definition check_review (r : ReasoningReviewV2) : result unit :=
  field (forallb (fun s => (0 <=? s) && (s <=? 2)) (scores r)) "scores" ;;
  field (is_sha256_hex (rv_review_input_hash r)) "review_input_hash" ;;
  field (text_between 1 160 (rv_reviewer_id r)) "reviewer_id".

Definition check_reasoning (r : StructuredReasoningV2) : result unit :=
  field (text_between 1 8000 (sr_rationale r)) "rationale" ;;
  field (negb (bool_decide (sr_causal_chain r = []))) "causal_chain" ;;
  field (negb (bool_decide (sr_counter_evidence r = []))) "counter_evidence" ;;
  field (negb (bool_decide (sr_invalidation_conditions r = []))) "invalidation_conditions".

Definition check_self_ablation (a : SelfReportedAblationV2) : result unit :=
  field (text_between 1 160 (sa_agent_id a)) "agent_id" ;;
  check_probabilities (sa_probabilities a).

Definition is_none {A} (o : option A) : bool := match o with None => true | Some _ => false end.
Definition is_nil {A} (l : list A) : bool := match l with [] => true | _ => false end.

(** [DraftEpisodeOutputV2] with [validate_completed_output] *)
Definition check_output (o : DraftEpisodeOutputV2) : result unit :=
  field (text_between 1 200 (do_episode_id o)) "episode_id" ;;
  field (text_between 1 160 (do_target_id o)) "target_id" ;;
  field (negb (is_nil (do_trajectory o))) "trajectory" ;;
  field (forallb (text_between 1 200) (do_citations o)) "citations" ;;
  check_opt check_probabilities (do_probabilities o) ;;
  check_opt check_reasoning (do_reasoning o) ;;
  field (at_least f0 (do_latency_ms o)) "latency_ms" ;;
  field (0 <=? do_total_tokens o) "total_tokens" ;;
  check_opt check_review (do_reasoning_review o) ;;
  mapM_result check_self_ablation (do_ablations o) ;;
  raise_when (bool_decide (do_status o = completed)
              && (is_none (do_probabilities o) || is_none (do_reasoning o))) ValueError
    "completed output requires probabilities and structured reasoning" ;;
  raise_when (bool_decide (do_status o = failed)
              && (negb (is_none (do_probabilities o)) || negb (is_none (do_reasoning o))
                  || negb (is_none (do_reasoning_review o)) || negb (is_nil (do_ablations o)))) ValueError
    "failed output cannot provide forecast artifacts" ;;
  raise_when (negb (unique (do_citations o))) ValueError "draft citation IDs must be unique" ;;
  raise_when (negb (unique (sa_agent_id <$> do_ablations o))) ValueError
    "self-reported ablation agent IDs must be unique".

Definition check_generated_by (g : GeneratedByV2) : result unit :=
  field (text_between 1 160 (gb_producer g)) "producer" ;;
  field (text_between 1 160 (gb_model g)) "model" ;;
  field (text_between 1 32 (gb_reasoning_effort g)) "reasoning_effort".

(** [AgentEvalDraftV2] with [validate_output_ids] *)
Definition check_draft (d : AgentEvalDraftV2) : result unit :=
  field (is_sha256_hex (ad_suite_hash d)) "suite_hash" ;;
  field (is_sha256_hex (ad_input_hash d)) "input_hash" ;;
  field (is_sha256_hex (ad_arm_manifest_hash d)) "arm_manifest_hash" ;;
  check_generated_by (ad_generated_by d) ;;
  mapM_result check_output (ad_outputs d) ;;
  raise_when (negb (unique (do_episode_id <$> ad_outputs d))) ValueError
    "draft output episode IDs must be unique".

(** ** Reviews *)

Record ReasoningReviewItemV2 := mkReviewItem {
  ri_arm_id : string; ri_episode_id : string; ri_target_id : string; ri_reviewed_output_hash : string;
  ri_review : ReasoningReviewV2 }.

Record AgentEvalReviewDraftV2 := mkReviewDraft {
  rd_job_id : string;
  rd_suite_hash : string;
  rd_eval_input_hash : string;
  rd_review_input_hash : string;
  rd_generated_by : GeneratedByV2;
  rd_reviews : list ReasoningReviewItemV2 }.

Definition check_review_item (i : ReasoningReviewItemV2) : result unit :=
  field (text_between 1 120 (ri_arm_id i)) "arm_id" ;;
  field (text_between 1 200 (ri_episode_id i)) "episode_id" ;;
  field (text_between 1 160 (ri_target_id i)) "target_id" ;;
  field (is_sha256_hex (ri_reviewed_output_hash i)) "reviewed_output_hash" ;;
  check_review (ri_review i).

(** [AgentEvalReviewDraftV2] with [validate_review_ids] *)
Definition check_review_draft (d : AgentEvalReviewDraftV2) : result unit :=
  field (is_sha256_hex (rd_suite_hash d)) "suite_hash" ;;
  field (is_sha256_hex (rd_eval_input_hash d)) "eval_input_hash" ;;
  field (is_sha256_hex (rd_review_input_hash d)) "review_input_hash" ;;
  check_generated_by (rd_generated_by d) ;;
  mapM_result check_review_item (rd_reviews d) ;;
  raise_when (negb (bool_decide (NoDup ((fun i => (ri_arm_id i, ri_episode_id i)) <$> rd_reviews d)))) ValueError
    "reasoning review identities must be unique" ;;
  raise_when (negb (gb_model (rd_generated_by d) =? "gpt-5.6-sol")%string) ValueError
    "reasoning reviewer must use gpt-5.6-sol" ;;
  raise_when (negb (gb_reasoning_effort (rd_generated_by d) =? "high")%string) ValueError
    "reasoning reviewer must use high reasoning effort" ;;
  raise_when (existsb (fun i => negb (rv_reviewer_id (ri_review i) =? gb_producer (rd_generated_by d))%string)
                (rd_reviews d)) ValueError "reviewer_id must match the independent review producer".

(** ** Ablations *)

(** The override [NoImpactOverrideV2] has no freedom. *)
Record AblationAssignmentV2 := mkAssignment {
  aa_ablation_id : string;
  aa_target_id : string;
  aa_agent_id : string;
  aa_agent : FrozenArtifactV2;
  aa_prompt : FrozenArtifactV2;
  aa_assignment_hash : string }.

Record AblationOutputV2 := mkAblationOutput {
  ao_ablation_id : string;
  ao_episode_id : string;
  ao_target_id : string;
  ao_agent_id : string;
  ao_status : OutputStatus;
  ao_full_output_hash : string;
  ao_ablation_input_hash : string;
  ao_probabilities : option Probs }.

Record AgentEvalAblationDraftV2 := mkAblationDraft {
  bd_job_id : string;
  bd_suite_hash : string;
  bd_eval_input_hash : string;
  bd_ablation_input_hash : string;
  bd_candidate_arm_id : string;
  bd_generated_by : GeneratedByV2;
  bd_outputs : list AblationOutputV2 }.

(** [AblationOutputV2] with [validate_output] *)
Definition check_ablation_output (o : AblationOutputV2) : result unit :=
  field (text_between 1 360 (ao_ablation_id o)) "ablation_id" ;;
  field (text_between 1 200 (ao_episode_id o)) "episode_id" ;;
  field (text_between 1 160 (ao_target_id o)) "target_id" ;;
  field (text_between 1 160 (ao_agent_id o)) "agent_id" ;;
  field (is_sha256_hex (ao_full_output_hash o)) "full_output_hash" ;;
  field (is_sha256_hex (ao_ablation_input_hash o)) "ablation_input_hash" ;;
  check_opt check_probabilities (ao_probabilities o) ;;
  raise_when (negb (bool_decide (bool_decide (ao_status o = completed) = negb (is_none (ao_probabilities o)))))
    ValueError "completed ablation requires probabilities; failed forbids them".

(** [AgentEvalAblationDraftV2] with [validate_output_ids] *)
Definition check_ablation_draft (d : AgentEvalAblationDraftV2) : result unit :=
  field (is_sha256_hex (bd_suite_hash d)) "suite_hash" ;;
  field (is_sha256_hex (bd_eval_input_hash d)) "eval_input_hash" ;;
  field (is_sha256_hex (bd_ablation_input_hash d)) "ablation_input_hash" ;;
  field (text_between 1 120 (bd_candidate_arm_id d)) "candidate_arm_id" ;;
  check_generated_by (bd_generated_by d) ;;
  mapM_result check_ablation_output (bd_outputs d) ;;
  raise_when (negb (bool_decide (NoDup ((fun o => (ao_ablation_id o, ao_episode_id o)) <$> bd_outputs d))))
    ValueError "ablation output identities must be unique".

(** ** Reports *)

Record MetricAggregateV2 := mkAggregate {
  ma_episode_count : Z;
  ma_direction_accuracy : option float;
  ma_mean_brier : option float;
  ma_p95_latency_ms : option float;
  ma_mean_tokens : option float }.

Record HardGateResultV2 := mkGate {
  hg_eligible_count : Z; hg_passed_count : Z; hg_rate : float; hg_passed : bool }.

Record ReasoningSummaryV2 := mkReasoningSummary {
  rs_review_count : Z;
  rs_mean_total_score : option float;
  rs_rubric_means : gmap string (option float);
  rs_rule_pass_rate : option float;
  rs_human_confirmed_severe_count : Z }.

Record AblationSummaryV2 := mkAblationSummary {
  as_agent_id : string;
  as_episode_count : Z;
  as_mean_full_brier : option float;
  as_mean_ablated_brier : option float;
  as_mean_incremental_brier : option float }.

Inductive ReleaseDecision := pass | fail | insufficient_sample.
#[global] Instance release_decision_eq_dec : EqDecision ReleaseDecision.
Proof. solve_decision. Defined.

(** A value of [metric_gates]: [float | bool | None]. *)
Inductive MetricValue := metric_float (x : float) | metric_bool (b : bool) | metric_none.
#[global] Instance metric_value_eq_dec : EqDecision MetricValue.
Proof. solve_decision. Defined.

Record TargetEvalReportV2 := mkTargetReport {
  tr_target_id : string;
  tr_horizon : string;
  tr_release_gate : bool;
  tr_decision : ReleaseDecision;
  tr_episode_count : Z;
  tr_hard_gates : gmap string HardGateResultV2;
  tr_hard_gate_pass : bool;
  tr_metric_gates : gmap string MetricValue;
  tr_metric_gate_pass : option bool;
  tr_baseline : MetricAggregateV2;
  tr_candidate : MetricAggregateV2;
  tr_reasoning : gmap string ReasoningSummaryV2;
  tr_ablation : list AblationSummaryV2 }.

Record AgentEvalReportV2 := mkReport {
  re_job_id : string;
  re_suite_id : string;
  re_suite_version : string;
  re_suite_hash : string;
  re_input_hash : string;
  re_baseline_arm_id : string;
  re_candidate_arm_id : string;
  re_release_decision : ReleaseDecision;
  re_evaluator_version : string;
  re_policy : ReleasePolicyV2;
  re_targets : gmap string TargetEvalReportV2;
  re_completed_at : datetime }.

(** [Field(ge=lo, le=hi)] of an optional float. *)
Definition opt_between (lo hi : float) (o : option float) : bool :=
  match o with Some x => fleb lo x && fleb x hi | None => true end.
Definition opt_at_least (lo : float) (o : option float) : bool :=
  match o with Some x => fleb lo x | None => true end.

(** [2 / 3] *)
Definition two_thirds : float := lit 2 3.

Definition check_aggregate (a : MetricAggregateV2) : result unit :=
  field (0 <=? ma_episode_count a) "episode_count" ;;
  field (opt_between f0 f1 (ma_direction_accuracy a)) "direction_accuracy" ;;
  field (opt_between f0 two_thirds (ma_mean_brier a)) "mean_brier" ;;
  field (opt_at_least f0 (ma_p95_latency_ms a)) "p95_latency_ms" ;;
  field (opt_at_least f0 (ma_mean_tokens a)) "mean_tokens".

Definition check_gate (g : HardGateResultV2) : result unit :=
  field (0 <=? hg_eligible_count g) "eligible_count" ;;
  field (0 <=? hg_passed_count g) "passed_count" ;;
  field (fleb f0 (hg_rate g) && fleb (hg_rate g) f1) "rate".

Definition check_reasoning_summary (r : ReasoningSummaryV2) : result unit :=
  field (0 <=? rs_review_count r) "review_count" ;;
  field (opt_between f0 (of_Z 10) (rs_mean_total_score r)) "mean_total_score" ;;
  field (opt_between f0 f1 (rs_rule_pass_rate r)) "rule_pass_rate" ;;
  field (0 <=? rs_human_confirmed_severe_count r) "human_confirmed_severe_count".

Definition check_ablation_summary (a : AblationSummaryV2) : result unit :=
  field (0 <=? as_episode_count a) "episode_count" ;;
  field (opt_between f0 two_thirds (as_mean_full_brier a)) "mean_full_brier" ;;
  field (opt_between f0 two_thirds (as_mean_ablated_brier a)) "mean_ablated_brier" ;;
  field (opt_between (fopp two_thirds) two_thirds (as_mean_incremental_brier a)) "mean_incremental_brier".

Definition check_target_report (t : TargetEvalReportV2) : result unit :=
  field (0 <=? tr_episode_count t) "episode_count" ;;
  mapM_result check_gate (snd <$> map_to_list (tr_hard_gates t)) ;;
  check_aggregate (tr_baseline t) ;;
  check_aggregate (tr_candidate t) ;;
  mapM_result check_reasoning_summary (snd <$> map_to_list (tr_reasoning t)) ;;
  mapM_result check_ablation_summary (tr_ablation t) ;;
  Ok tt.

Definition check_report (r : AgentEvalReportV2) : result unit :=
  field (is_sha256_hex (re_suite_hash r)) "suite_hash" ;;
  field (is_sha256_hex (re_input_hash r)) "input_hash" ;;
  check_policy (re_policy r) ;;
  mapM_result check_target_report (snd <$> map_to_list (re_targets r)) ;;
  Ok tt.

(** ** The frozen documents of a job *)

Record AgentEvalInputV2 := mkInput {
  in_job_id : string;
  in_suite_id : string;
  in_suite_version : string;
  in_suite_hash : string;
  in_baseline_arm_id : string;
  in_candidate_arm_id : string;
  in_arm_manifests : gmap string EvalArmV2;
  in_arm_manifest_hashes : gmap string string;
  in_targets : list EvalTargetV2;
  in_episodes : list EvalEpisodeInputV2;
  in_prepared_at : datetime;
  in_input_hash : string }.

Record AgentEvalReviewInputV2 := mkReviewInput {
  vi_job_id : string;
  vi_suite_hash : string;
  vi_eval_input_hash : string;
  vi_arm_ids : list string;
  vi_arm_manifest_hashes : gmap string string;
  vi_episodes : list EvalEpisodeInputV2;
  vi_rubric_dimensions : list string;
  vi_input_hash : string }.

Record AgentEvalAblationInputV2 := mkAblationInput {
  bi_job_id : string;
  bi_suite_hash : string;
  bi_eval_input_hash : string;
  bi_candidate_arm_id : string;
  bi_candidate_manifest : EvalArmV2;
  bi_candidate_manifest_hash : string;
  bi_episodes : list EvalEpisodeInputV2;
  bi_assignments : list AblationAssignmentV2;
  bi_input_hash : string }.

Inductive SuiteSource := public | private.
#[global] Instance suite_source_eq_dec : EqDecision SuiteSource.
Proof. solve_decision. Defined.

Record AgentEvalManifestV2 := mkManifest {
  mf_job_id : string;
  mf_suite_id : string;
  mf_suite_version : string;
  mf_suite_source : SuiteSource;
  mf_suite_hash : string;
  mf_baseline_arm_id : string;
  mf_candidate_arm_id : string;
  mf_input_hash : string;
  mf_input_file_hash : string;
  mf_review_input_hash : string;
  mf_review_input_file_hash : string;
  mf_ablation_input_hash : string;
  mf_ablation_input_file_hash : string;
  mf_prepared_at : datetime }.

Record AgentEvalReceiptV2 := mkReceipt {
  rc_job_id : string;
  rc_input_hash : string;
  rc_baseline_draft_hash : string;
  rc_candidate_draft_hash : string;
  rc_review_draft_hash : string;
  rc_ablation_draft_hash : string;
  rc_report_hash : string;
  rc_release_decision : ReleaseDecision;
  rc_finalized_at : datetime }.

Section Documents.
Context `{CanonicalHash}.

(** Pydantic's JSON dumps ([model_dump(mode="json")]) and its reading of the
    fields of a model ([model_validate] before the constraints and the
    validators); the text of a JSON value and its digest. *)
Class EvalDocuments := {
  dump_arm : EvalArmV2 -> json;
  dump_target : EvalTargetV2 -> json;
  dump_episode_input : EvalEpisodeInputV2 -> json;
  dump_artifact : FrozenArtifactV2 -> json;
  dump_assignment : AblationAssignmentV2 -> json;
  dump_output : DraftEpisodeOutputV2 -> json;
  dump_suite : AgentEvalSuiteV2 -> json;
  dump_input : AgentEvalInputV2 -> json;
  dump_review_input : AgentEvalReviewInputV2 -> json;
  dump_ablation_input : AgentEvalAblationInputV2 -> json;
  dump_manifest : AgentEvalManifestV2 -> json;
  dump_report : AgentEvalReportV2 -> json;
  dump_receipt : AgentEvalReceiptV2 -> json;
  dump_draft : AgentEvalDraftV2 -> json;
  dump_review_draft : AgentEvalReviewDraftV2 -> json;
  dump_ablation_draft : AgentEvalAblationDraftV2 -> json;
  read_suite : json -> option AgentEvalSuiteV2;
  read_input : json -> option AgentEvalInputV2;
  read_review_input : json -> option AgentEvalReviewInputV2;
  read_ablation_input : json -> option AgentEvalAblationInputV2;
  read_assignment : json -> option AblationAssignmentV2;
  read_manifest : json -> option AgentEvalManifestV2;
  read_report : json -> option AgentEvalReportV2;
  read_receipt : json -> option AgentEvalReceiptV2;
  read_draft : json -> option AgentEvalDraftV2;
  read_review_draft : json -> option AgentEvalReviewDraftV2;
  read_ablation_draft : json -> option AgentEvalAblationDraftV2;
  json_loads : string -> option json;
  json_dumps : json -> string;
  text_sha256 : string -> string }.

Context `{EvalDocuments}.

(** [_model_hash_without]: the digest of a dump without one key. *)
Definition hash_without (excluded : string) (dump : json) : string :=
  canonical_hash (match dump with JObj m => JObj (delete excluded m) | j => j end).

Definition suite_hash_v2 (s : AgentEvalSuiteV2) : string := canonical_hash (dump_suite s).
Definition arm_manifest_hash_v2 (a : EvalArmV2) : string := canonical_hash (dump_arm a).
Definition draft_output_hash (o : DraftEpisodeOutputV2) : string := canonical_hash (dump_output o).

(** [episode_input_hash]: the input is dumped with a placeholder for its hash,
    which is then removed. *)
Definition episode_input_hash (e : EvalEpisodeV2) : string :=
  let i := outcome_free_episode e in
  hash_without "input_hash"
    (dump_episode_input (mkEpisodeInput (ei_episode_id i) (ei_target_id i) (ei_independence_key i)
       (ei_anchor_date i) (ei_target_date i) (ei_evidence_cutoff i) (ei_input_payload i) zero_digest
       (ei_evidence i) (ei_expected_trajectory i) (ei_must_pass i) (ei_must_pass_invariant i))).

(** [EvalEpisodeV2] with [validate_frozen_input] *)
Definition check_episode (e : EvalEpisodeV2) : result unit :=
  let evidence_ids := ev_evidence_id <$> ep_evidence e in
  field (text_between 1 200 (ep_episode_id e)) "episode_id" ;;
  field (text_between 1 160 (ep_target_id e)) "target_id" ;;
  field (text_between 1 200 (ep_independence_key e)) "independence_key" ;;
  field (is_sha256_hex (ep_input_hash e)) "input_hash" ;;
  mapM_result check_evidence (ep_evidence e) ;;
  field (negb (is_nil (ep_expected_trajectory e))) "expected_trajectory" ;;
  check_opt check_invariant (ep_must_pass_invariant e) ;;
  field (is_sha256_hex (to_observation_hash (ep_outcome e))) "observation_hash" ;;
  raise_when (negb (is_aware (ep_evidence_cutoff e))) ValueError
    "episode evidence_cutoff must be timezone-aware" ;;
  raise_when (ep_target_date e <=? ep_anchor_date e) ValueError
    "episode target_date must follow anchor_date" ;;
  raise_when (contains_reserved_outcome_key (JObj (ep_input_payload e))) ValueError
    "episode input_payload must not contain realized outcomes" ;;
  raise_when (negb (unique evidence_ids)) ValueError "episode evidence IDs must be unique" ;;
  raise_when (existsb (fun i => dt_ltb (ep_evidence_cutoff e) (ev_observed_at i)) (ep_evidence e)) ValueError
    "episode evidence must not exceed evidence_cutoff" ;;
  raise_when (negb (bool_decide (ep_must_pass e = negb (is_none (ep_must_pass_invariant e))))) ValueError
    "must_pass episodes must declare exactly one semantic invariant" ;;
  match ep_must_pass_invariant e with
  | Some i => raise_when (negb (subset_of (mi_required_evidence_ids i) evidence_ids)) ValueError
                "must-pass required evidence must exist in the frozen episode"
  | None => Ok tt
  end ;;
  raise_when (negb (ep_input_hash e =? episode_input_hash e)%string) ValueError
    "episode input_hash does not match its outcome-free input".

(** [AgentEvalSuiteV2] with [validate_identities] *)
Definition check_suite (s : AgentEvalSuiteV2) : result unit :=
  field (text_between 1 120 (su_suite_id s)) "suite_id" ;;
  field (text_between 1 32 (su_version s)) "version" ;;
  field (text_between 1 200 (su_title s)) "title" ;;
  mapM_result check_target (su_targets s) ;;
  field (negb (is_nil (su_targets s))) "targets" ;;
  mapM_result check_arm (su_arms s) ;;
  field (2 <=? Z.of_nat (length (su_arms s))) "arms" ;;
  mapM_result check_episode (su_episodes s) ;;
  field (negb (is_nil (su_episodes s))) "episodes" ;;
  check_policy (su_release_policy s) ;;
  validate_identities s.

(** [EvalEpisodeInputV2] has constraints but no validator of its own. *)
Definition check_episode_input (e : EvalEpisodeInputV2) : result unit :=
  field (is_sha256_hex (ei_input_hash e)) "input_hash" ;;
  mapM_result check_evidence (ei_evidence e) ;;
  check_opt check_invariant (ei_must_pass_invariant e).

(** [AgentEvalInputV2] with [validate_input_seal] *)
Definition check_input (i : AgentEvalInputV2) : result unit :=
  field (is_sha256_hex (in_suite_hash i)) "suite_hash" ;;
  mapM_result check_arm (snd <$> map_to_list (in_arm_manifests i)) ;;
  mapM_result check_target (in_targets i) ;;
  mapM_result check_episode_input (in_episodes i) ;;
  field (is_sha256_hex (in_input_hash i)) "input_hash" ;;
  raise_when (negb (in_input_hash i =? hash_without "input_hash" (dump_input i))%string) ValueError
    "Agent Eval input_hash does not match input.json".

(** [AgentEvalReviewInputV2] with [validate_review_input] *)
Definition check_review_input (i : AgentEvalReviewInputV2) : result unit :=
  field (is_sha256_hex (vi_suite_hash i)) "suite_hash" ;;
  field (is_sha256_hex (vi_eval_input_hash i)) "eval_input_hash" ;;
  field (2 <=? Z.of_nat (length (vi_arm_ids i))) "arm_ids" ;;
  mapM_result check_episode_input (vi_episodes i) ;;
  field (negb (is_nil (vi_episodes i))) "episodes" ;;
  field (is_sha256_hex (vi_input_hash i)) "input_hash" ;;
  raise_when (negb (unique (vi_arm_ids i))) ValueError "review arm IDs must be unique" ;;
  raise_when (negb (bool_decide (list_to_set (vi_arm_ids i) = dom (D := gset string) (vi_arm_manifest_hashes i))))
    ValueError "review input must bind every arm manifest" ;;
  raise_when (negb (bool_decide (vi_rubric_dimensions i = REASONING_DIMENSIONS))) ValueError
    "review input must use the frozen five-dimension rubric" ;;
  raise_when (negb (vi_input_hash i =? hash_without "input_hash" (dump_review_input i))%string) ValueError
    "review input_hash does not match review input".

(** [AblationAssignmentV2] with [validate_assignment_hash] *)
Definition check_assignment (a : AblationAssignmentV2) : result unit :=
  field (text_between 1 360 (aa_ablation_id a)) "ablation_id" ;;
  field (text_between 1 160 (aa_target_id a)) "target_id" ;;
  field (text_between 1 160 (aa_agent_id a)) "agent_id" ;;
  mapM_result check_artifact [aa_agent a; aa_prompt a] ;;
  field (is_sha256_hex (aa_assignment_hash a)) "assignment_hash" ;;
  raise_when (negb (aa_assignment_hash a =? hash_without "assignment_hash" (dump_assignment a))%string) ValueError
    "ablation assignment_hash does not match frozen override".

(** [AgentEvalAblationInputV2] with [validate_ablation_input] *)
Definition check_ablation_input (i : AgentEvalAblationInputV2) : result unit :=
  field (is_sha256_hex (bi_suite_hash i)) "suite_hash" ;;
  field (is_sha256_hex (bi_eval_input_hash i)) "eval_input_hash" ;;
  field (text_between 1 120 (bi_candidate_arm_id i)) "candidate_arm_id" ;;
  check_arm (bi_candidate_manifest i) ;;
  field (is_sha256_hex (bi_candidate_manifest_hash i)) "candidate_manifest_hash" ;;
  mapM_result check_episode_input (bi_episodes i) ;;
  field (negb (is_nil (bi_episodes i))) "episodes" ;;
  mapM_result check_assignment (bi_assignments i) ;;
  field (negb (is_nil (bi_assignments i))) "assignments" ;;
  field (is_sha256_hex (bi_input_hash i)) "input_hash" ;;
  raise_when (negb (arm_id (bi_candidate_manifest i) =? bi_candidate_arm_id i)%string) ValueError
    "ablation candidate manifest arm does not match" ;;
  raise_when (negb (arm_manifest_hash_v2 (bi_candidate_manifest i) =? bi_candidate_manifest_hash i)%string)
    ValueError "ablation candidate manifest hash does not match" ;;
  raise_when (negb (unique (aa_ablation_id <$> bi_assignments i))) ValueError
    "ablation assignment IDs must be unique" ;;
  raise_when (negb (bi_input_hash i =? hash_without "input_hash" (dump_ablation_input i))%string) ValueError
    "ablation input_hash does not match ablation input".

Definition check_manifest (m : AgentEvalManifestV2) : result unit :=
  field (forallb is_sha256_hex
           [mf_suite_hash m; mf_input_hash m; mf_input_file_hash m; mf_review_input_hash m;
            mf_review_input_file_hash m; mf_ablation_input_hash m; mf_ablation_input_file_hash m]) "hashes".

Definition check_receipt (r : AgentEvalReceiptV2) : result unit :=
  field (forallb is_sha256_hex
           [rc_input_hash r; rc_baseline_draft_hash r; rc_candidate_draft_hash r; rc_review_draft_hash r;
            rc_ablation_draft_hash r; rc_report_hash r]) "hashes".

End Documents.

End AgentEval.
