(* ===== verification/AgentEvalScore.v ===== *)
(** * The comparison of two arms
      ([backend/app/services/agent_evaluation_v2.py], [_evaluate_v2] and its helpers)

    Per target: the metrics of both arms on the episodes that both completed,
    the hard gates of the candidate on every episode, the decision, and the
    advisory summaries.  The decision of the release is the worst decision of
    a release-gated target. *)
From S2P Require Import Prelude PyStr PyTime Float64 Domain Json Contracts ResearchV2 AgentEval.
Import PyStr PyTime Float64 Domain Json AgentEval.
Open Scope string_scope.
Open Scope list_scope.
Open Scope Z_scope.

Module AgentEvalScore.

Section Scores.
Context `{PyRuntime}.

(** [_mean] *)
Definition mean (l : list float) : option float :=
  if is_nil l then None else Some (fdiv (py_sum l) (of_Z (Z.of_nat (length l)))).

(** [sorted] of floats *)
Definition float_le (a b : float) : Prop := fleb a b = true.
#[global] Instance float_le_dec a b : Decision (float_le a b).
Proof. unfold float_le. apply _. Defined.

(** [int((len(ordered) - 1) * quantile + 0.999999)] within the list *)
Definition percentile_index (n : Z) (quantile : float) : Z :=
  Z.max 0 (Z.min (n - 1) (ftrunc (fadd (fmul (of_Z (n - 1)) quantile) (lit 999999 1000000)))).

(** [_percentile] *)
Definition percentile (l : list float) (quantile : float) : option float :=
  if is_nil l then None
  else merge_sort float_le l !! Z.to_nat (percentile_index (Z.of_nat (length l)) quantile).

(** [_delta] *)
Definition delta (left right : option float) : option float :=
  match left, right with Some l, Some r => Some (fsub l r) | _, _ => None end.

(** [_ratio]: none when the divisor is missing or equals zero. *)
Definition ratio (left right : option float) : option float :=
  match left, right with
  | Some l, Some r => if feqb r f0 then None else Some (fdiv l r)
  | _, _ => None
  end.

(** [_brier] *)
Definition brier (p : Probs) (label : Direction) : float :=
  fdiv (py_sum ((fun item => fsquare (fsub (prob p item) (indicator (bool_decide (item = label)))))
                <$> all_directions)) (of_Z 3).

(** [_direction]: [max] keeps the first of equal labels. *)
Definition direction (p : Probs) : Direction :=
  fold_left (fun best label => if fltb (prob p best) (prob p label) then label else best) [NEUTRAL; DOWN] UP.

(** The outputs of a draft by episode. *)
Definition Outputs : Type := gmap string DraftEpisodeOutputV2.
Definition outputs_by_id (d : AgentEvalDraftV2) : Outputs :=
  ResearchV2.dict_of do_episode_id id (ad_outputs d).

(** [outputs[episode_id]] *)
Definition output_of (outputs : Outputs) (episode_id : string) : result DraftEpisodeOutputV2 :=
  match outputs !! episode_id with Some o => Ok o | None => raise KeyError episode_id end.

Definition probabilities_of (o : DraftEpisodeOutputV2) : result Probs :=
  match do_probabilities o with
  | Some p => Ok p
  | None => raise AssertionError "output.probabilities is not None"
  end.

(** ** Metrics *)

(** [float(n)] of an integer *)
Definition float_of_int (n : Z) : result float :=
  raise_when (is_inf (of_Z n)) OverflowError "int too large to convert to float" ;; Ok (of_Z n).

(** One pass of the loop of [_metric_aggregate]. *)
Definition episode_metrics (outputs : Outputs) (e : EvalEpisodeV2) : result (float * float * float * float) :=
  o ← output_of outputs (ep_episode_id e);
  p ← probabilities_of o;
  tokens ← float_of_int (do_total_tokens o);
  let label := to_label (ep_outcome e) in
  Ok (brier p label, indicator (bool_decide (direction p = label)), do_latency_ms o, tokens).

(** [_metric_aggregate] *)
Definition metric_aggregate (episodes : list EvalEpisodeV2) (outputs : Outputs) : result MetricAggregateV2 :=
  rows ← mapM_result (episode_metrics outputs) episodes;
  let a := mkAggregate (Z.of_nat (length episodes))
             (mean ((fun r => r.1.1.2) <$> rows)) (mean ((fun r => r.1.1.1) <$> rows))
             (percentile ((fun r => r.1.2) <$> rows) (lit 95 100)) (mean ((fun r => r.2) <$> rows)) in
  check_aggregate a ;; Ok a.

(** ** Hard gates *)

(** [{item.evidence_id: item for item in episode.evidence}] *)
Definition evidence_by_id (e : EvalEpisodeV2) : gmap string FrozenEvidenceV2 :=
  ResearchV2.dict_of ev_evidence_id id (ep_evidence e).

Definition citation_valid (e : EvalEpisodeV2) (o : DraftEpisodeOutputV2) : bool :=
  let evidence := evidence_by_id e in
  forallb (fun id => bool_decide (is_Some (evidence !! id))) (do_citations o)
  && (bool_decide (evidence = ∅) || negb (is_nil (do_citations o))).

Definition cutoff_valid (e : EvalEpisodeV2) (o : DraftEpisodeOutputV2) : bool :=
  citation_valid e o
  && forallb (fun id => match evidence_by_id e !! id with
                        | Some item => dt_leb (ev_observed_at item) (ep_evidence_cutoff e)
                        | None => false
                        end) (do_citations o).

Definition trace_valid (e : EvalEpisodeV2) (o : DraftEpisodeOutputV2) : bool :=
  bool_decide (do_trajectory o = ep_expected_trajectory e).

(** [_must_pass_invariant_satisfied] *)
Definition must_pass_invariant_satisfied (e : EvalEpisodeV2) (o : DraftEpisodeOutputV2) : bool :=
  match ep_must_pass_invariant e, do_probabilities o with
  | Some invariant, Some p =>
      if negb (bool_decide (do_status o = completed)) || negb (citation_valid e o) || negb (cutoff_valid e o)
         || negb (trace_valid e o) then false
      else if match mi_expected_direction invariant with
              | Some d => negb (bool_decide (direction p = d))
              | None => false
              end then false
      else if existsb (fun b => negb (fleb (pi_minimum b.2) (prob p b.1) && fleb (prob p b.1) (pi_maximum b.2)))
                (mi_probability_bounds invariant) then false
      else subset_of (mi_required_evidence_ids invariant) (do_citations o)
  | _, _ => false
  end.

(** The five values of one episode, under their names. *)
Definition gate_values (e : EvalEpisodeV2) (o : DraftEpisodeOutputV2) : list (string * bool) :=
  [("schema_valid", bool_decide (do_status o = completed)); ("cutoff_valid", cutoff_valid e o);
   ("citation_valid", citation_valid e o); ("trace_valid", trace_valid e o);
   ("must_pass_bad_case", negb (ep_must_pass e) || must_pass_invariant_satisfied e o)].

Definition GATES : list string :=
  ["schema_valid"; "cutoff_valid"; "citation_valid"; "trace_valid"; "must_pass_bad_case"].

Definition count_true (l : list bool) : Z := Z.of_nat (length (List.filter id l)).

(** [_hard_gate] *)
Definition hard_gate (values : list bool) (threshold : float) : result HardGateResultV2 :=
  let passed_count := count_true values in
  let rate := if is_nil values then f1 else int_div passed_count (Z.of_nat (length values)) in
  let g := mkGate (Z.of_nat (length values)) passed_count rate (fleb threshold rate) in
  check_gate g ;; Ok g.

(** [_target_hard_gates] *)
Definition target_hard_gates (episodes : list EvalEpisodeV2) (outputs : Outputs) (threshold : float)
    : result (gmap string HardGateResultV2) :=
  rows ← mapM_result (fun e => o ← output_of outputs (ep_episode_id e); Ok (gate_values e o)) episodes;
  gates ← mapM_result (fun name =>
      g ← hard_gate ((fun row => default false (dict_get row name)) <$> rows) threshold;
      Ok (name, g)) GATES;
  Ok (list_to_map gates).

(** ** The metric gate *)

Definition metric_value (o : option float) : MetricValue :=
  match o with Some x => metric_float x | None => metric_none end.

(** [values[name] is not None and float(values[name]) <= limit] *)
Definition within (values : gmap string MetricValue) (name : string) (limit : float) : bool :=
  match values !! name with
  | Some (metric_float x) => fleb x limit
  | Some (metric_bool b) => fleb (indicator b) limit
  | Some metric_none | None => false
  end.

(** [_metric_gate_pass] *)
Definition metric_gate_pass (values : gmap string MetricValue) (policy : ReleasePolicyV2) : bool :=
  within values "brier_delta" (rp_max_brier_delta policy)
  && within values "direction_drop" (rp_max_direction_drop policy)
  && within values "p95_latency_ratio" (rp_max_p95_latency_ratio policy)
  && within values "token_ratio" (rp_max_token_ratio policy).

Definition metric_values (baseline candidate : MetricAggregateV2) : gmap string MetricValue :=
  list_to_map
    [("brier_delta", metric_value (delta (ma_mean_brier candidate) (ma_mean_brier baseline)));
     ("direction_drop",
       metric_value (delta (ma_direction_accuracy baseline) (ma_direction_accuracy candidate)));
     ("p95_latency_ratio",
       metric_value (ratio (ma_p95_latency_ms candidate) (ma_p95_latency_ms baseline)));
     ("token_ratio", metric_value (ratio (ma_mean_tokens candidate) (ma_mean_tokens baseline)))].

(** ** Advisory summaries *)

Definition Reviews : Type := gmap (string * string) ReasoningReviewV2.

(** [{(item.arm_id, item.episode_id): item.review for item in reviews}] *)
Definition reviews_by_id (d : AgentEvalReviewDraftV2) : Reviews :=
  fold_left (fun m i => <[(ri_arm_id i, ri_episode_id i) := ri_review i]> m) (rd_reviews d) ∅.

Definition review_of (reviews : Reviews) (arm : string) (e : EvalEpisodeV2) : result ReasoningReviewV2 :=
  match reviews !! (arm, ep_episode_id e) with
  | Some r => Ok r
  | None => raise KeyError (ep_episode_id e)
  end.

Definition sum_scores (r : ReasoningReviewV2) : Z := fold_left Z.add (scores r) 0.

(** [_reasoning_summary] of the reviews of one arm *)
Definition reasoning_summary (episodes : list EvalEpisodeV2) (reviews : Reviews) (arm : string)
    : result ReasoningSummaryV2 :=
  found ← mapM_result (review_of reviews arm) episodes;
  mapM_result (fun er : EvalEpisodeV2 * ReasoningReviewV2 =>
      eval_when (negb (rv_review_input_hash er.2 =? ep_input_hash er.1)%string)
        ("reasoning review input hash mismatch for " +:+ ep_episode_id er.1)) (zip episodes found) ;;
  let s := mkReasoningSummary (Z.of_nat (length found))
             (mean ((fun r => of_Z (sum_scores r)) <$> found))
             (list_to_map (imap (fun i dimension =>
                (dimension, mean ((fun r => of_Z (default 0 (scores r !! i))) <$> found))) REASONING_DIMENSIONS))
             (mean ((fun r => indicator (rv_rule_passed r)) <$> found)) 0 in
  check_reasoning_summary s ;; Ok s.

(** [_ablation_summary]: the pairs of full and ablated scores of each agent. *)
Definition ablation_pairs (outputs : Outputs) (ablations : list AblationOutputV2) (e : EvalEpisodeV2)
    : result (list (string * (float * float))) :=
  o ← output_of outputs (ep_episode_id e);
  match do_probabilities o with
  | Some p =>
      if bool_decide (do_status o = completed) then
        let label := to_label (ep_outcome e) in
        Ok (omap (fun a =>
              match ao_status a, ao_probabilities a with
              | completed, Some q => Some (ao_agent_id a, (brier p label, brier q label))
              | _, _ => None
              end) (List.filter (fun a => (ao_episode_id a =? ep_episode_id e)%string) ablations))
      else Ok []
  | None => Ok []
  end.

Definition ablation_row (rows : list (string * (float * float))) (agent_id : string) : result AblationSummaryV2 :=
  let values := snd <$> List.filter (fun r => (r.1 =? agent_id)%string) rows in
  let a := mkAblationSummary agent_id (Z.of_nat (length values)) (mean (fst <$> values)) (mean (snd <$> values))
             (mean ((fun v => fsub v.2 v.1) <$> values)) in
  check_ablation_summary a ;; Ok a.

Definition ablation_summary (episodes : list EvalEpisodeV2) (outputs : Outputs) (ablations : list AblationOutputV2)
    : result (list AblationSummaryV2) :=
  pairs ← mapM_result (ablation_pairs outputs ablations) episodes;
  let rows := concat pairs in
  mapM_result (ablation_row rows) (merge_sort String.le (elements (list_to_set (C := gset string) (fst <$> rows)))).

(** ** The report *)

Definition both_completed (baseline candidate : Outputs) (e : EvalEpisodeV2) : result bool :=
  b ← output_of baseline (ep_episode_id e);
  if bool_decide (do_status b = completed) then
    c ← output_of candidate (ep_episode_id e);
    Ok (bool_decide (do_status c = completed))
  else Ok false.

Definition paired_episodes (baseline candidate : Outputs) (episodes : list EvalEpisodeV2)
    : result (list EvalEpisodeV2) :=
  flags ← mapM_result (both_completed baseline candidate) episodes;
  Ok (fst <$> List.filter snd (zip episodes flags)).

(** The decision of one target. *)
Definition decide_target (hard_gate_pass enough metric_pass : bool) : ReleaseDecision :=
  if negb hard_gate_pass then fail
  else if negb enough then insufficient_sample
  else if metric_pass then pass else fail.

(** One target of the loop of [_evaluate_v2]. *)
Definition evaluate_target (suite : AgentEvalSuiteV2) (baseline candidate : AgentEvalDraftV2)
    (reviews : Reviews) (ablations : list AblationOutputV2) (target : EvalTargetV2) : result TargetEvalReportV2 :=
  let baseline_outputs := outputs_by_id baseline in
  let candidate_outputs := outputs_by_id candidate in
  let policy := su_release_policy suite in
  let episodes := episodes_of (et_target_id target) (su_episodes suite) in
  paired ← paired_episodes baseline_outputs candidate_outputs episodes;
  baseline_metrics ← metric_aggregate paired baseline_outputs;
  candidate_metrics ← metric_aggregate paired candidate_outputs;
  hard_gates ← target_hard_gates episodes candidate_outputs (rp_must_pass_rate policy);
  let hard_gate_pass := forallb hg_passed (snd <$> map_to_list hard_gates) in
  let values := metric_values baseline_metrics candidate_metrics in
  let metric_pass := metric_gate_pass values policy in
  let enough := rp_min_metric_episodes policy <=? Z.of_nat (length paired) in
  baseline_reasoning ← reasoning_summary episodes reviews (ad_arm_id baseline);
  candidate_reasoning ← reasoning_summary episodes reviews (ad_arm_id candidate);
  ablation ← ablation_summary episodes candidate_outputs ablations;
  let t := mkTargetReport (et_target_id target) (et_horizon target) (et_release_gate target)
    (decide_target hard_gate_pass enough metric_pass) (Z.of_nat (length paired)) hard_gates hard_gate_pass
    (<["passed" := if enough then metric_bool metric_pass else metric_none]> values)
    (if enough then Some metric_pass else None) baseline_metrics candidate_metrics
    {["baseline" := baseline_reasoning; "candidate" := candidate_reasoning]} ablation in
  check_target_report t ;; Ok t.

(** The decision of the release from those of the gated targets. *)
Definition decide_release (gated : list ReleaseDecision) : ReleaseDecision :=
  if bool_decide (fail ∈ gated) then fail
  else if bool_decide (insufficient_sample ∈ gated) then insufficient_sample else pass.

Definition gated_decisions (targets : gmap string TargetEvalReportV2) : list ReleaseDecision :=
  tr_decision <$> List.filter tr_release_gate (snd <$> map_to_list targets).

Context `{CanonicalHash} `{EvalDocuments}.

(** [_evaluate_v2] *)
Definition evaluate_v2 (suite : AgentEvalSuiteV2) (eval_input : AgentEvalInputV2)
    (baseline candidate : AgentEvalDraftV2) (review_draft : AgentEvalReviewDraftV2)
    (ablation_draft : AgentEvalAblationDraftV2) (completed_at : datetime) : result AgentEvalReportV2 :=
  targets ← for_each (fun reports target =>
      report ← evaluate_target suite baseline candidate (reviews_by_id review_draft)
                 (bd_outputs ablation_draft) target;
      Ok (<[et_target_id target := report]> reports)) ∅ (su_targets suite);
  let r := mkReport (in_job_id eval_input) (su_suite_id suite) (su_version suite) (suite_hash_v2 suite)
    (in_input_hash eval_input) (ad_arm_id baseline) (ad_arm_id candidate)
    (decide_release (gated_decisions targets)) EVALUATOR_VERSION_V2 (su_release_policy suite) targets
    completed_at in
  check_report r ;; Ok r.

End Scores.

End AgentEvalScore.
