(* ===== verification/AgentEvalJob.v ===== *)
(** * The file handoff of an evaluation job
      ([backend/app/services/agent_evaluation_v2.py], the suite store, [prepare],
      [status], [finalize] and [verify_finalized_agent_eval_v2_job])

    A job directory holds frozen inputs, one directory per external task and,
    once finalized, a report and the receipt that seals it.  Files are their
    bytes; permission bits are not kept.  Names of arms are single components
    of a path. *)
From S2P Require Import Prelude PyStr PyTime Float64 Domain Json Contracts ResearchV2 JobExecution AgentEval.
From S2P Require Import AgentEvalScore.
Import PyStr PyTime Float64 Domain Json AgentEval AgentEvalScore.
Open Scope string_scope.
Open Scope list_scope.
Open Scope Z_scope.

Module AgentEvalJob.

(** ** Files *)

Inductive Entry := Regular (raw : string) | Symlink | Folder.

#[global] Instance entry_eq_dec : EqDecision Entry.
Proof. solve_decision. Defined.

(** The entries of a job by their path below it. *)
Abbreviation JobDir := (gmap string Entry).

(** What the settings give: the entries [*/suite.json] below the two suite
    roots in order ([None] when the root does not exist; a path that leaves the
    root counts as a link), the state of the host outcome root, the resolved
    roots as components, and the configured release. *)
Record EvalSettings := mkSettings {
  st_public_suites : option (list Entry);
  st_outcome_suites : option (list Entry);
  st_outcome_root_is_directory : bool;
  st_outcome_root : list string;
  st_handoff_root : list string;
  st_release_candidate_hash : option string }.

(** The operating system refuses to create what is there. *)
Definition create (d : JobDir) (path : string) (e : Entry) : result JobDir :=
  match d !! path with
  | Some _ => raise OSError ("file exists: " +:+ path)
  | None => Ok (<[path := e]> d)
  end.

Definition mkdir (d : JobDir) (path : string) : result JobDir := create d path Folder.

(** [_atomic_write_new] *)
Definition atomic_write_new (d : JobDir) (path payload : string) : result JobDir := create d path (Regular payload).

Definition path_of (parent : option string) (name : string) : string :=
  match parent with Some p => p +:+ "/" +:+ name | None => name end.

(** [_job_file]: the entry of a file, which no link may replace. *)
Definition job_file (d : JobDir) (parent : option string) (name : string) : result Entry :=
  eval_when (bool_decide (parent = Some "..")) "Agent Eval file path must remain inside its job" ;;
  eval_when (match parent with Some p => bool_decide (d !! p = Some Symlink) | None => false end)
    "Agent Eval path component may not be a symlink" ;;
  match d !! path_of parent name with
  | None => eval_error "Agent Eval file is missing or escaped its job"
  | Some Symlink => eval_error "Agent Eval file may not be a symlink"
  | Some e => Ok e
  end.

(** [Model.model_validate(payload)] *)
Abbreviation model_validate := JobExecution.model_validate.

Section Jobs.
Context `{PyRuntime} `{CanonicalHash} `{EvalDocuments}.

(** [_json_bytes]: [allow_nan=False] refuses a number that is not finite. *)
Definition newline : string := String (Ascii.Ascii false true false true false false false false) "".

Fixpoint finite_json (j : json) : bool :=
  match j with
  | JFloat x => is_finite x
  | JArr l => forallb finite_json l
  | JObj m => map_fold (fun _ item finite => finite_json item && finite) true m
  | _ => true
  end.

Definition json_bytes (j : json) : result string :=
  raise_when (negb (finite_json j)) ValueError "Out of range float values are not JSON compliant" ;;
  Ok (json_dumps j +:+ newline).

(** [_secure_read_json] *)
Definition secure_read_json (e : Entry) : result (string * json) :=
  match e with
  | Symlink => eval_error "cannot open Agent Eval file"
  | Folder => eval_error "Agent Eval JSON artifact must be a regular file"
  | Regular raw =>
      let size := Z.of_nat (String.length raw) in
      eval_when ((size <=? 0) || (MAX_JSON_BYTES <? size)) "Agent Eval JSON artifact has an invalid size" ;;
      match json_loads raw with
      | None => eval_error "invalid Agent Eval JSON"
      | Some payload => Ok (raw, payload)
      end
  end.

Definition read_job_file (d : JobDir) (parent : option string) (name : string) : result (string * json) :=
  e ← job_file d parent name; secure_read_json e.

(** [_atomic_publish_immutable]: of two writers one links the file and the
    other compares with it. *)
Definition atomic_publish_immutable (d : JobDir) (path payload : string) : result JobDir :=
  match d !! path with
  | Some e =>
      existing ← secure_read_json e;
      eval_when (negb (existing.1 =? payload)%string)
        ("Agent Eval output already exists with different bytes: " +:+ path) ;;
      Ok d
  | None => Ok (<[path := Regular payload]> d)
  end.

(** ** The suite store *)

(** [_read_suite] *)
Definition read_suite_file (e : Entry) : result AgentEvalSuiteV2 :=
  raise_when (bool_decide (e = Symlink)) ValueError "suite path may not be a symlink" ;;
  document ← secure_read_json e;
  raise_when (4 * 1024 * 1024 <? Z.of_nat (String.length document.1)) ValueError "suite exceeds the 4 MiB limit" ;;
  model_validate read_suite check_suite document.2.

(** [AgentEvalV2Store.load] *)
Definition load_suite (s : EvalSettings) (suite_id : string) (version : option string) (source : SuiteSource)
    : result AgentEvalSuiteV2 :=
  validate_component suite_id "suite_id" ;;
  match (match source with public => st_public_suites s | private => st_outcome_suites s end) with
  | None => eval_error "Agent Eval suite root does not exist"
  | Some entries =>
      match List.filter (fun suite => (su_suite_id suite =? suite_id)%string
                         && match version with Some v => (su_version suite =? v)%string | None => true end)
              (omap (fun e => match read_suite_file e with Ok suite => Some suite | Err _ => None end) entries) with
      | [] => eval_error ("v2 suite " +:+ suite_id +:+ " was not found")
      | [suite] => Ok suite
      | _ => eval_error "v2 suite identity is ambiguous; specify suite_version"
      end
  end.

(** ** Prepare *)

Definition obj (l : list (string * json)) : json := JObj (list_to_map l).
Definition j_strs (l : list string) : json := JArr (JStr <$> l).
Definition j_map {A} (f : A -> json) (m : gmap string A) : json := JObj (f <$> m).

(** The body with its own digest, read back and validated. *)
Definition sealed_model {A} (read : json -> option A) (check : A -> result unit) (hash_key : string)
    (body : gmap string json) : result A :=
  model_validate read check (JObj (<[hash_key := JStr (canonical_hash (JObj body))]> body)).

Definition override_payload : json :=
  obj [("replacement", JStr "no_impact"); ("contribution_enabled", JBool false); ("impact", JStr "none");
       ("importance", JStr "none"); ("abstained", JBool true)].

(** [_ablation_assignments] *)
Definition ablation_assignments (candidate : EvalArmV2) : result (list AblationAssignmentV2) :=
  assignments ← mapM_result (fun target =>
      mapM_result (fun agent_id =>
          match tv_agents target !! agent_id, tv_prompts target !! agent_id with
          | Some agent, Some prompt =>
              sealed_model read_assignment check_assignment "assignment_hash" (list_to_map
                [("ablation_id", JStr (tv_target_id target +:+ ":" +:+ agent_id +:+ ":no-impact"));
                 ("target_id", JStr (tv_target_id target)); ("agent_id", JStr agent_id);
                 ("agent", dump_artifact agent); ("prompt", dump_artifact prompt);
                 ("override", override_payload)])
          | _, _ => raise KeyError agent_id
          end) (merge_sort String.le (elements (dom (D := gset string) (tv_agents target))))) (arm_targets candidate);
  Ok (concat assignments).

(** The selected arms under their identifiers. *)
Definition selected_arms (baseline candidate : EvalArmV2) : gmap string EvalArmV2 :=
  <[arm_id candidate := candidate]> {[arm_id baseline := baseline]}.

Definition input_body (suite : AgentEvalSuiteV2) (baseline candidate : EvalArmV2) (job_id : string) (now : datetime)
    : gmap string json :=
  list_to_map
    [("schema_version", JStr "forecast-loop.agent-eval-input/v2"); ("job_id", JStr job_id);
     ("suite_id", JStr (su_suite_id suite)); ("suite_version", JStr (su_version suite));
     ("suite_hash", JStr (suite_hash_v2 suite)); ("baseline_arm_id", JStr (arm_id baseline));
     ("candidate_arm_id", JStr (arm_id candidate));
     ("arm_manifests", j_map dump_arm (selected_arms baseline candidate));
     ("arm_manifest_hashes", j_map (fun arm => JStr (arm_manifest_hash_v2 arm)) (selected_arms baseline candidate));
     ("targets", JArr (dump_target <$> su_targets suite));
     ("episodes", JArr ((fun e => dump_episode_input (outcome_free_episode e)) <$> su_episodes suite));
     ("prepared_at", JStr (isoformat now))].

Definition review_body (i : AgentEvalInputV2) (suite_hash : string) (baseline candidate : EvalArmV2)
    : gmap string json :=
  list_to_map
    [("schema_version", JStr "forecast-loop.agent-eval-review-input/v2"); ("job_id", JStr (in_job_id i));
     ("suite_hash", JStr suite_hash); ("eval_input_hash", JStr (in_input_hash i));
     ("arm_ids", j_strs [arm_id baseline; arm_id candidate]);
     ("arm_manifest_hashes", j_map JStr (in_arm_manifest_hashes i));
     ("episodes", JArr (dump_episode_input <$> in_episodes i));
     ("rubric_dimensions", j_strs REASONING_DIMENSIONS); ("reviewer_model", JStr "gpt-5.6-sol");
     ("reasoning_effort", JStr "high")].

Definition ablation_body (i : AgentEvalInputV2) (suite_hash : string) (candidate : EvalArmV2)
    (assignments : list AblationAssignmentV2) : gmap string json :=
  list_to_map
    [("schema_version", JStr "forecast-loop.agent-eval-ablation-input/v2"); ("job_id", JStr (in_job_id i));
     ("suite_hash", JStr suite_hash); ("eval_input_hash", JStr (in_input_hash i));
     ("candidate_arm_id", JStr (arm_id candidate)); ("candidate_manifest", dump_arm candidate);
     ("candidate_manifest_hash", JStr (arm_manifest_hash_v2 candidate));
     ("episodes", JArr (dump_episode_input <$> in_episodes i));
     ("assignments", JArr (dump_assignment <$> assignments))].

(** The documents a job is frozen in. *)
Record FrozenJob := mkFrozen {
  fj_manifest : AgentEvalManifestV2;
  fj_input : AgentEvalInputV2;
  fj_review_input : AgentEvalReviewInputV2;
  fj_ablation_input : AgentEvalAblationInputV2 }.

(** Building and validating the documents of a job. *)
Definition freeze_job (suite : AgentEvalSuiteV2) (source : SuiteSource) (baseline candidate : EvalArmV2)
    (job_id : string) (now : datetime) : result FrozenJob :=
  let suite_hash := suite_hash_v2 suite in
  i ← sealed_model read_input check_input "input_hash" (input_body suite baseline candidate job_id now);
  r ← sealed_model read_review_input check_review_input "input_hash" (review_body i suite_hash baseline candidate);
  assignments ← ablation_assignments candidate;
  a ← sealed_model read_ablation_input check_ablation_input "input_hash"
        (ablation_body i suite_hash candidate assignments);
  input_bytes ← json_bytes (dump_input i);
  review_input_bytes ← json_bytes (dump_review_input r);
  ablation_input_bytes ← json_bytes (dump_ablation_input a);
  let m := mkManifest job_id (su_suite_id suite) (su_version suite) source suite_hash (arm_id baseline)
    (arm_id candidate) (in_input_hash i) (text_sha256 input_bytes) (vi_input_hash r)
    (text_sha256 review_input_bytes) (bi_input_hash a) (text_sha256 ablation_input_bytes) now in
  check_manifest m ;;
  Ok (mkFrozen m i r a).

Definition template_generator (producer : string) : GeneratedByV2 :=
  mkGeneratedBy producer "replace-with-actual-model" "replace-with-actual-effort".

Definition arm_template (j : FrozenJob) (arm : EvalArmV2) : AgentEvalDraftV2 :=
  mkDraft (mf_job_id (fj_manifest j)) (arm_id arm) (mf_suite_hash (fj_manifest j)) (mf_input_hash (fj_manifest j))
    (arm_manifest_hash_v2 arm) (template_generator "replace-with-external-task-id") [].

Definition review_template (m : AgentEvalManifestV2) : AgentEvalReviewDraftV2 :=
  mkReviewDraft (mf_job_id m) (mf_suite_hash m) (mf_input_hash m) (mf_review_input_hash m)
    (mkGeneratedBy "replace-with-independent-review-task-id" "gpt-5.6-sol" "high") [].

Definition ablation_template (m : AgentEvalManifestV2) : AgentEvalAblationDraftV2 :=
  mkAblationDraft (mf_job_id m) (mf_suite_hash m) (mf_input_hash m) (mf_ablation_input_hash m)
    (mf_candidate_arm_id m) (template_generator "replace-with-independent-ablation-task-id") [].

(** [_instruction_text] *)
Definition instruction_text (baseline_arm_id candidate_arm_id : string) : string :=
  String.concat newline
    ["# Agent Eval v2 external draft boundary"; "";
     "Read only `input.json` and the selected arm's `drafts.template.json`.";
     "Write exactly one file for each independent execution:"; "";
     "- `" +:+ baseline_arm_id +:+ "/drafts.json`";
     "- `" +:+ candidate_arm_id +:+ "/drafts.json`"; "";
     "After both arms exist, run two additional independent, outcome-blind tasks:"; "";
     "- `reviewer/drafts.json` reads `reviewer/input.json` plus both arm drafts and";
     "  reviews their structured reasoning using exactly `gpt-5.6-sol / high`.";
     "- `ablation/drafts.json` reads `ablation/input.json` plus the candidate draft";
     "  and independently reruns every frozen candidate episode with each listed";
     "  Agent replaced by the explicit `no_impact` override."; "";
     "Each task must use a different producer ID. Do not edit `input.json`, either";
     "task input, `manifest.json`, templates, `report.json`, or `receipt.json`.";
     "Outcomes are intentionally absent and are revealed only by the deterministic";
     "finalize command after all four drafts validate."; ""].

(** The documents of a new job, in the order in which they are written. *)
Definition job_documents (j : FrozenJob) (baseline candidate : EvalArmV2) : list (string * json) :=
  [("input.json", dump_input (fj_input j));
   ("manifest.json", dump_manifest (fj_manifest j));
   ("reviewer/input.json", dump_review_input (fj_review_input j));
   ("ablation/input.json", dump_ablation_input (fj_ablation_input j));
   (path_of (Some (arm_id baseline)) "drafts.template.json", dump_draft (arm_template j baseline));
   (path_of (Some (arm_id candidate)) "drafts.template.json", dump_draft (arm_template j candidate));
   ("reviewer/drafts.template.json", dump_review_draft (review_template (fj_manifest j)));
   ("ablation/drafts.template.json", dump_ablation_draft (ablation_template (fj_manifest j)))].

Definition write_document (d : JobDir) (document : string * json) : result JobDir :=
  raw ← json_bytes document.2;
  atomic_write_new d document.1 raw.

Definition arm_of (suite : AgentEvalSuiteV2) (id : string) : result EvalArmV2 :=
  match ResearchV2.dict_of arm_id (fun a => a) (su_arms suite) !! id with
  | Some arm => Ok arm
  | None => eval_error ("unknown v2 eval arm: " +:+ id)
  end.

(** [prepare_agent_eval_v2]: the directory of the new job [job_id]. *)
Definition prepare_agent_eval_v2 (s : EvalSettings) (suite_id : string) (suite_version : option string)
    (source : SuiteSource) (baseline_arm_id candidate_arm_id job_id : string) (now : datetime)
    : result (FrozenJob * JobDir) :=
  eval_when (baseline_arm_id =? candidate_arm_id)%string "baseline and candidate arms must be different" ;;
  suite ← load_suite s suite_id suite_version source;
  baseline ← arm_of suite baseline_arm_id;
  candidate ← arm_of suite candidate_arm_id;
  d ← for_each mkdir (∅ : JobDir) [baseline_arm_id; candidate_arm_id; "reviewer"; "ablation"];
  j ← freeze_job suite source baseline candidate job_id now;
  d ← for_each write_document d (job_documents j baseline candidate);
  d ← atomic_write_new d "README.md" (instruction_text baseline_arm_id candidate_arm_id);
  Ok (j, d).

(** ** Loading a job *)

Definition differ (l : list (string * string)) : bool := existsb (fun p => negb (p.1 =? p.2)%string) l.

(** [_load_frozen_job] of the directory named [name] *)
Definition load_frozen_job (name : string) (d : JobDir) : result FrozenJob :=
  document ← read_job_file d None "manifest.json";
  m ← model_validate read_manifest check_manifest document.2;
  eval_when (negb (mf_job_id m =? name)%string) "manifest job_id does not match its directory" ;;
  document ← read_job_file d None "input.json";
  i ← model_validate read_input check_input document.2;
  eval_when (negb (text_sha256 document.1 =? mf_input_file_hash m)%string) "input.json changed after prepare" ;;
  eval_when (differ [(in_job_id i, mf_job_id m); (in_suite_id i, mf_suite_id m);
                     (in_suite_version i, mf_suite_version m); (in_suite_hash i, mf_suite_hash m);
                     (in_input_hash i, mf_input_hash m); (in_baseline_arm_id i, mf_baseline_arm_id m);
                     (in_candidate_arm_id i, mf_candidate_arm_id m)])
    "input.json does not match its handoff manifest" ;;
  document ← read_job_file d (Some "reviewer") "input.json";
  r ← model_validate read_review_input check_review_input document.2;
  eval_when (differ [(text_sha256 document.1, mf_review_input_file_hash m);
                     (vi_input_hash r, mf_review_input_hash m); (vi_job_id r, mf_job_id m);
                     (vi_suite_hash r, mf_suite_hash m); (vi_eval_input_hash r, mf_input_hash m)]
             || negb (bool_decide (vi_arm_manifest_hashes r = in_arm_manifest_hashes i)))
    "reviewer/input.json does not match its handoff manifest" ;;
  document ← read_job_file d (Some "ablation") "input.json";
  a ← model_validate read_ablation_input check_ablation_input document.2;
  eval_when (differ [(text_sha256 document.1, mf_ablation_input_file_hash m);
                     (bi_input_hash a, mf_ablation_input_hash m); (bi_job_id a, mf_job_id m);
                     (bi_suite_hash a, mf_suite_hash m); (bi_eval_input_hash a, mf_input_hash m);
                     (bi_candidate_arm_id a, mf_candidate_arm_id m)])
    "ablation/input.json does not match its handoff manifest" ;;
  match in_arm_manifest_hashes i !! mf_candidate_arm_id m with
  | None => raise KeyError (mf_candidate_arm_id m)
  | Some hash =>
      eval_when (negb (bi_candidate_manifest_hash a =? hash)%string)
        "ablation/input.json does not match its handoff manifest" ;;
      Ok (mkFrozen m i r a)
  end.

(** [set(l) == set(k)] *)
Definition same_elements {A} `{EqDecision A} (l k : list A) : bool :=
  forallb (fun x => bool_decide (x ∈ k)) l && forallb (fun x => bool_decide (x ∈ l)) k.

(** [_load_bound_draft] *)
Definition load_bound_draft (d : JobDir) (arm_id : string) (j : FrozenJob) : result (AgentEvalDraftV2 * string) :=
  let m := fj_manifest j in
  document ← read_job_file d (Some arm_id) "drafts.json";
  draft ← model_validate read_draft check_draft document.2;
  eval_when (differ [(ad_job_id draft, mf_job_id m); (ad_arm_id draft, arm_id);
                     (ad_suite_hash draft, mf_suite_hash m); (ad_input_hash draft, mf_input_hash m)]
             || negb (bool_decide (Some (ad_arm_manifest_hash draft)
                                   = in_arm_manifest_hashes (fj_input j) !! arm_id)))
    (arm_id +:+ " drafts.json does not match frozen bindings") ;;
  eval_when (negb (same_elements ((fun o => (do_episode_id o, do_target_id o)) <$> ad_outputs draft)
                     ((fun e => (ei_episode_id e, ei_target_id e)) <$> in_episodes (fj_input j))))
    (arm_id +:+ " drafts.json must cover every episode exactly once") ;;
  Ok (draft, document.1).

(** [_require_distinct_arm_producers] *)
Definition require_distinct_arm_producers (arm_drafts : gmap string AgentEvalDraftV2) : result unit :=
  eval_when (negb (unique ((fun d => gb_producer (ad_generated_by d)) <$> (snd <$> map_to_list arm_drafts))))
    "baseline and candidate drafts require independent tasks".

(** The outputs of one arm by episode. *)
Definition arm_output (arm_drafts : gmap string AgentEvalDraftV2) (arm episode_id : string)
    : result DraftEpisodeOutputV2 :=
  match arm_drafts !! arm with
  | Some draft => output_of (outputs_by_id draft) episode_id
  | None => raise KeyError arm
  end.

(** One pass of the loop of [_load_bound_review_draft]. *)
Definition check_bound_review (inputs : gmap string EvalEpisodeInputV2)
    (arm_drafts : gmap string AgentEvalDraftV2) (item : ReasoningReviewItemV2) : result unit :=
  match inputs !! ri_episode_id item with
  | None => raise KeyError (ri_episode_id item)
  | Some e =>
      eval_when (negb (rv_review_input_hash (ri_review item) =? ei_input_hash e)%string)
        ("reasoning review input hash mismatch for " +:+ ri_episode_id item) ;;
      o ← arm_output arm_drafts (ri_arm_id item) (ri_episode_id item);
      eval_when (negb (ri_reviewed_output_hash item =? draft_output_hash o)%string)
        ("reasoning review output hash mismatch for " +:+ ri_arm_id item +:+ "/" +:+ ri_episode_id item)
  end.

(** [_load_bound_review_draft] *)
Definition load_bound_review_draft (d : JobDir) (j : FrozenJob) (arm_drafts : gmap string AgentEvalDraftV2)
    : result (AgentEvalReviewDraftV2 * string) :=
  let m := fj_manifest j in
  document ← read_job_file d (Some "reviewer") "drafts.json";
  eval_when (contains_reserved_outcome_key document.2)
    "reasoning review draft must not contain realized outcomes" ;;
  draft ← model_validate read_review_draft check_review_draft document.2;
  eval_when (differ [(rd_job_id draft, mf_job_id m); (rd_suite_hash draft, mf_suite_hash m);
                     (rd_eval_input_hash draft, mf_input_hash m);
                     (rd_review_input_hash draft, vi_input_hash (fj_review_input j))])
    "reviewer drafts.json does not match frozen bindings" ;;
  eval_when (bool_decide (gb_producer (rd_generated_by draft)
                          ∈ (fun a => gb_producer (ad_generated_by a)) <$> (snd <$> map_to_list arm_drafts)))
    "reasoning review must be produced by an independent task" ;;
  eval_when (negb (same_elements ((fun i => (ri_arm_id i, ri_episode_id i, ri_target_id i)) <$> rd_reviews draft)
                     (arm ← vi_arm_ids (fj_review_input j);
                      (fun e => (arm, ei_episode_id e, ei_target_id e)) <$> in_episodes (fj_input j))))
    "reviewer drafts.json must review every arm episode exactly once" ;;
  let inputs := ResearchV2.dict_of ei_episode_id (fun e => e) (in_episodes (fj_input j)) in
  mapM_result (check_bound_review inputs arm_drafts) (rd_reviews draft) ;;
  Ok (draft, document.1).

(** One pass of the loop of [_load_bound_ablation_draft]. *)
Definition check_bound_ablation (assignments : gmap string AblationAssignmentV2) (outputs : Outputs)
    (input_hash : string) (item : AblationOutputV2) : result unit :=
  match assignments !! ao_ablation_id item, outputs !! ao_episode_id item with
  | Some assignment, Some episode =>
      eval_when (differ [(ao_target_id item, aa_target_id assignment); (ao_agent_id item, aa_agent_id assignment);
                         (ao_ablation_input_hash item, input_hash)])
        "ablation output does not match frozen no-impact override" ;;
      eval_when (negb (ao_full_output_hash item =? draft_output_hash episode)%string)
        ("ablation full output hash mismatch for " +:+ ao_episode_id item)
  | _, _ => eval_error "ablation output does not match frozen no-impact override"
  end.

(** [_load_bound_ablation_draft] *)
Definition load_bound_ablation_draft (d : JobDir) (j : FrozenJob) (candidate : AgentEvalDraftV2)
    (forbidden_producers : list string) : result (AgentEvalAblationDraftV2 * string) :=
  let m := fj_manifest j in
  let a := fj_ablation_input j in
  document ← read_job_file d (Some "ablation") "drafts.json";
  eval_when (contains_reserved_outcome_key document.2) "ablation draft must not contain realized outcomes" ;;
  draft ← model_validate read_ablation_draft check_ablation_draft document.2;
  eval_when (differ [(bd_job_id draft, mf_job_id m); (bd_suite_hash draft, mf_suite_hash m);
                     (bd_eval_input_hash draft, mf_input_hash m); (bd_ablation_input_hash draft, bi_input_hash a);
                     (bd_candidate_arm_id draft, mf_candidate_arm_id m)])
    "ablation drafts.json does not match frozen bindings" ;;
  eval_when (bool_decide (gb_producer (bd_generated_by draft) ∈ forbidden_producers))
    "ablation must be produced by an independent task" ;;
  eval_when (negb (same_elements ((fun o => (ao_ablation_id o, ao_episode_id o)) <$> bd_outputs draft)
                     (assignment ← bi_assignments a;
                      (fun e => (aa_ablation_id assignment, ei_episode_id e))
                      <$> List.filter (fun e => (ei_target_id e =? aa_target_id assignment)%string)
                            (in_episodes (fj_input j)))))
    "ablation drafts.json must cover every frozen no-impact assignment" ;;
  mapM_result (check_bound_ablation (ResearchV2.dict_of aa_ablation_id (fun x => x) (bi_assignments a))
                 (outputs_by_id candidate) (bi_input_hash a)) (bd_outputs draft) ;;
  Ok (draft, document.1).

(** ** Status *)

Definition present (d : JobDir) (parent : option string) (name : string) : bool :=
  bool_decide (is_Some (d !! path_of parent name)).

(** The two drafts of the arms, of distinct producers. *)
Definition load_arm_drafts (d : JobDir) (j : FrozenJob)
    : result ((AgentEvalDraftV2 * string) * (AgentEvalDraftV2 * string) * gmap string AgentEvalDraftV2) :=
  baseline ← load_bound_draft d (mf_baseline_arm_id (fj_manifest j)) j;
  candidate ← load_bound_draft d (mf_candidate_arm_id (fj_manifest j)) j;
  let arm_drafts := <[ad_arm_id candidate.1 := candidate.1]> {[ad_arm_id baseline.1 := baseline.1]} in
  require_distinct_arm_producers arm_drafts ;;
  Ok (baseline, candidate, arm_drafts).

(** The four drafts of a job. *)
Record Drafts := mkDrafts {
  dr_baseline : AgentEvalDraftV2 * string;
  dr_candidate : AgentEvalDraftV2 * string;
  dr_review : AgentEvalReviewDraftV2 * string;
  dr_ablation : AgentEvalAblationDraftV2 * string }.

Definition producer_of (d : AgentEvalDraftV2) : string := gb_producer (ad_generated_by d).

(** The loading that [finalize] and [verify] share. *)
Definition load_drafts (d : JobDir) (j : FrozenJob) : result Drafts :=
  arms ← load_arm_drafts d j;
  let '(baseline, candidate, arm_drafts) := arms in
  review ← load_bound_review_draft d j arm_drafts;
  ablation ← load_bound_ablation_draft d j candidate.1
    [producer_of baseline.1; producer_of candidate.1; gb_producer (rd_generated_by review.1)];
  Ok (mkDrafts baseline candidate review ablation).

Definition evaluate_drafts (suite : AgentEvalSuiteV2) (j : FrozenJob) (ds : Drafts) (completed_at : datetime)
    : result AgentEvalReportV2 :=
  evaluate_v2 suite (fj_input j) (dr_baseline ds).1 (dr_candidate ds).1 (dr_review ds).1 (dr_ablation ds).1
    completed_at.

(** ** The receipt *)

Definition check_sealed_file (d : JobDir) (parent : option string) (name hash message : string) : result unit :=
  document ← read_job_file d parent name;
  eval_when (negb (text_sha256 document.1 =? hash)%string) message.

(** [_load_receipt] *)
Definition load_receipt (d : JobDir) (m : AgentEvalManifestV2) : result AgentEvalReceiptV2 :=
  document ← read_job_file d None "receipt.json";
  receipt ← model_validate read_receipt check_receipt document.2;
  eval_when (differ [(rc_job_id receipt, mf_job_id m); (rc_input_hash receipt, mf_input_hash m)])
    "receipt does not match frozen Agent Eval input" ;;
  document ← read_job_file d None "report.json";
  report ← model_validate read_report check_report document.2;
  eval_when (negb (text_sha256 document.1 =? rc_report_hash receipt)%string)
    "Agent Eval report hash does not match receipt" ;;
  eval_when (negb (bool_decide (re_release_decision report = rc_release_decision receipt)))
    "Agent Eval report decision does not match receipt" ;;
  check_sealed_file d (Some (mf_baseline_arm_id m)) "drafts.json" (rc_baseline_draft_hash receipt)
    "baseline draft hash does not match receipt" ;;
  check_sealed_file d (Some (mf_candidate_arm_id m)) "drafts.json" (rc_candidate_draft_hash receipt)
    "candidate draft hash does not match receipt" ;;
  check_sealed_file d (Some "reviewer") "drafts.json" (rc_review_draft_hash receipt)
    "reasoning review draft hash does not match receipt" ;;
  check_sealed_file d (Some "ablation") "drafts.json" (rc_ablation_draft_hash receipt)
    "ablation draft hash does not match receipt" ;;
  Ok receipt.

(** ** Verification *)

(** [path.is_relative_to(other)] of resolved paths *)
Fixpoint is_relative_to (path other : list string) : bool :=
  match other, path with
  | [], _ => true
  | o :: other, p :: path => (p =? o)%string && is_relative_to path other
  | _ :: _, [] => false
  end.

Context `{!ResearchV2.ContractDumps}.

(** [_validate_release_candidate_binding] *)
Definition validate_release_candidate_binding (s : EvalSettings) (j : FrozenJob) : result unit :=
  let m := fj_manifest j in
  let i := fj_input j in
  eval_when (negb (bool_decide (mf_suite_source m = private)))
    "release activation requires a private Agent Eval suite" ;;
  eval_when (negb (st_outcome_root_is_directory s)) "host outcome root must be an existing non-symlink directory" ;;
  eval_when (is_relative_to (st_outcome_root s) (st_handoff_root s)
             || is_relative_to (st_handoff_root s) (st_outcome_root s))
    "host outcome root must be disjoint from the handoff root" ;;
  match st_release_candidate_hash s with
  | None => eval_error "current release candidate hash is not configured"
  | Some expected =>
      eval_when (negb (bool_decide (in_arm_manifest_hashes i !! mf_candidate_arm_id m = Some expected)))
        "Agent Eval candidate does not match the current release" ;;
      match in_arm_manifests i !! mf_candidate_arm_id m with
      | None => raise KeyError (mf_candidate_arm_id m)
      | Some candidate =>
          match List.find (fun t => (tv_target_id t =? ResearchV2.CSI1000_D1_TARGET)%string)
                  (arm_targets candidate) with
          | None => eval_error "current release candidate does not freeze the formal D1 target"
          | Some t =>
              eval_when (negb (fa_content_hash (tv_research_program t) =? ResearchV2.PROGRAM_HASH)%string)
                "candidate research program is not the current v2 program"
          end
      end
  end.

(** [a == b] of two datetimes: a naive one never equals an aware one. *)
Definition same_time (a b : datetime) : bool := eqb (is_aware a) (is_aware b) && dt_eqb a b.

(** The suite a job was prepared from, unchanged. *)
Definition trusted_suite (s : EvalSettings) (m : AgentEvalManifestV2) : result AgentEvalSuiteV2 :=
  suite ← load_suite s (mf_suite_id m) (Some (mf_suite_version m)) (mf_suite_source m);
  eval_when (negb (suite_hash_v2 suite =? mf_suite_hash m)%string) "suite changed after Agent Eval v2 prepare" ;;
  Ok suite.

Definition report_identity (report : AgentEvalReportV2) (m : AgentEvalManifestV2) : list (string * string) :=
  [(re_job_id report, mf_job_id m); (re_suite_hash report, mf_suite_hash m);
   (re_input_hash report, mf_input_hash m); (re_baseline_arm_id report, mf_baseline_arm_id m);
   (re_candidate_arm_id report, mf_candidate_arm_id m)].

(** [verify_finalized_agent_eval_v2_job] of the report of the job [name] *)
Definition verify_finalized_job (s : EvalSettings) (require_release_binding : bool) (name : string) (d : JobDir)
    : result (AgentEvalReportV2 * string) :=
  eval_when (bool_decide (d !! "report.json" = Some Symlink))
    "activation requires a regular finalized report.json" ;;
  job_file d None "report.json" ;;
  j ← load_frozen_job name d;
  (if require_release_binding then validate_release_candidate_binding s j else Ok tt) ;;
  ds ← load_drafts d j;
  suite ← trusted_suite s (fj_manifest j);
  eval_when (require_release_binding && su_synthetic suite)
    "release activation requires a non-synthetic private suite" ;;
  receipt ← load_receipt d (fj_manifest j);
  document ← read_job_file d None "report.json";
  report ← model_validate read_report check_report document.2;
  eval_when (differ (report_identity report (fj_manifest j)
                     ++ [(re_suite_id report, mf_suite_id (fj_manifest j));
                         (re_suite_version report, mf_suite_version (fj_manifest j))])
             || negb (policy_eqb (re_policy report) (su_release_policy suite))
             || negb (bool_decide (dom (re_targets report)
                                   = list_to_set (C := gset string) (et_target_id <$> su_targets suite)))
             || negb (same_time (re_completed_at report) (rc_finalized_at receipt)))
    "Agent Eval report identity does not match its frozen job" ;;
  eval_when (negb (text_sha256 document.1 =? rc_report_hash receipt)%string)
    "Agent Eval report hash does not match receipt" ;;
  recomputed ← evaluate_drafts suite j ds (rc_finalized_at receipt);
  bytes ← json_bytes (dump_report recomputed);
  eval_when (negb (bytes =? document.1)%string)
    "Agent Eval report does not match deterministic outcome-bound recomputation" ;;
  Ok (report, text_sha256 document.1).

(** ** Finalize *)

(** The time of the report: that of a report left without its receipt, or now. *)
Definition completion_time (d : JobDir) (m : AgentEvalManifestV2) (now : datetime) : result datetime :=
  if present d None "report.json" then
    document ← read_job_file d None "report.json";
    existing ← model_validate read_report check_report document.2;
    eval_when (differ (report_identity existing m)) "unsealed report does not match the frozen handoff" ;;
    Ok (re_completed_at existing)
  else Ok now.

(** The report of a job that is ready, with the drafts it rests on. *)
Definition finalized_report (s : EvalSettings) (d : JobDir) (j : FrozenJob) (now : datetime)
    : result (AgentEvalReportV2 * Drafts) :=
  ds ← load_drafts d j;
  suite ← trusted_suite s (fj_manifest j);
  completed_at ← completion_time d (fj_manifest j) now;
  report ← evaluate_drafts suite j ds completed_at;
  Ok (report, ds).

Definition receipt_of (m : AgentEvalManifestV2) (ds : Drafts) (report : AgentEvalReportV2) (report_bytes : string)
    : AgentEvalReceiptV2 :=
  mkReceipt (mf_job_id m) (mf_input_hash m) (text_sha256 (dr_baseline ds).2) (text_sha256 (dr_candidate ds).2)
    (text_sha256 (dr_review ds).2) (text_sha256 (dr_ablation ds).2) (text_sha256 report_bytes)
    (re_release_decision report) (re_completed_at report).

(** [finalize_agent_eval_v2] without a database: the report is published first
    and its receipt seals it; an error leaves what was published before it. *)
Definition finalize_agent_eval_v2 (s : EvalSettings) (name : string) (d : JobDir) (now : datetime)
    : result AgentEvalReportV2 * JobDir :=
  match load_frozen_job name d with
  | Err e => (Err e, d)
  | Ok j =>
      if present d None "receipt.json" then (fst <$> verify_finalized_job s false name d, d)
      else
        match r ← finalized_report s d j now; bytes ← json_bytes (dump_report r.1);
              d' ← atomic_publish_immutable d "report.json" bytes; Ok (r, bytes, d') with
        | Err e => (Err e, d)
        | Ok ((report, ds), bytes, d') =>
            let receipt := receipt_of (fj_manifest j) ds report bytes in
            match check_receipt receipt ;; raw ← json_bytes (dump_receipt receipt);
                  atomic_publish_immutable d' "receipt.json" raw with
            | Err e => (Err e, d')
            | Ok d'' => (Ok report, d'')
            end
        end
  end.

(** ** Status *)

Inductive JobStatus := awaiting_draft | ready_to_finalize | job_completed (decision : ReleaseDecision).

Definition pending_task (d : JobDir) (parent : string) : list string :=
  if present d (Some parent) "drafts.json" then [] else [parent].

(** [agent_eval_v2_status]: the state and the arms and tasks without a draft. *)
Definition agent_eval_v2_status (s : EvalSettings) (name : string) (d : JobDir)
    : result (JobStatus * list string * list string) :=
  j ← load_frozen_job name d;
  let arms := [mf_baseline_arm_id (fj_manifest j); mf_candidate_arm_id (fj_manifest j)] in
  if present d None "receipt.json" then
    r ← verify_finalized_job s false name d;
    Ok (job_completed (re_release_decision r.1), [], [])
  else
    let pending_arms := concat (pending_task d <$> arms) in
    mapM_result (fun arm => load_bound_draft d arm j)
      (List.filter (fun arm => present d (Some arm) "drafts.json") arms) ;;
    if negb (is_nil pending_arms) then Ok (awaiting_draft, pending_arms, ["reviewer"; "ablation"])
    else
      loaded ← load_arm_drafts d j;
      let '(baseline, candidate, arm_drafts) := loaded in
      review ← (if present d (Some "reviewer") "drafts.json"
                then Some <$> load_bound_review_draft d j arm_drafts else Ok None);
      (if present d (Some "ablation") "drafts.json" then
         load_bound_ablation_draft d j candidate.1
           (map producer_of [baseline.1; candidate.1]
            ++ match review with Some r => [gb_producer (rd_generated_by r.1)] | None => [] end) ;;
         Ok tt
       else Ok tt) ;;
      let pending_tasks := pending_task d "reviewer" ++ pending_task d "ablation" in
      Ok (if is_nil pending_tasks then ready_to_finalize else awaiting_draft, [], pending_tasks).

End Jobs.

End AgentEvalJob.
