(* ===== verification/AgentEvalTheory.v ===== *)
(** * Lemmas on the evaluation of arms

    The rate of a hard gate is one only when every value passed; what a passing
    decision says of each target; the files that publishing leaves alone. *)
From Stdlib Require Import SpecFloat.
From S2P Require Import Prelude PyStr PyTime Float64 Rounding Domain Json Contracts ResearchV2 AgentEval.
From S2P Require Import AgentEvalScore.
Import PyStr PyTime Float64 Rounding Domain Json AgentEval AgentEvalScore.
Open Scope string_scope.
Open Scope list_scope.
Open Scope Z_scope.

Module AgentEvalTheory.

(** ** Rates *)

Lemma round_le m r s :
  round_nearest_even m (loc_of_shr_record (Build_shr_record m r s)) <= m + 1
  /\ (r = false -> round_nearest_even m (loc_of_shr_record (Build_shr_record m r s)) = m).
Proof. destruct r, s; cbn; repeat case_match; split; intros; done || lia. Qed.

Lemma round_nonneg m l : 0 <= m -> 0 <= round_nearest_even m l.
Proof. destruct l as [|[]]; cbn; repeat case_match; lia. Qed.

(** What is left of a mantissa of at most 54 digits when it is shifted to 53. *)
Lemma rounded_mantissa q e l :
  2 ^ 52 <= q < 2 ^ 54 -> -1074 <= e ->
  exists M E, binary_round_aux 53 1024 false q e l = settle M E /\ 0 <= M
    /\ ((q < 2 ^ 53 /\ E = e /\ (M <= q \/ (M = q + 1 /\ l <> loc_Exact)))
        \/ (2 ^ 53 <= q /\ E = e + 1 /\ (2 * M <= q \/ (2 * M <= q + 2 /\ (l <> loc_Exact \/ Z.odd q = true))))).
Proof.
  intros Hq He. destruct q as [|p|]; [lia| |lia].
  pose proof (digits_bounds p) as [Hlo Hhi].
  unfold binary_round_aux.
  destruct (Z.ltb_spec (Z.pos p) (2 ^ 53)) as [Hp|Hp].
  - assert (digits p = 53) as Hd.
    { pose proof (digits_le p 53 ltac:(lia) Hp).
      assert (2 ^ 52 < 2 ^ digits p) as Hlt%Z.pow_lt_mono_r_iff by lia; lia. }
    set (rec := shr_record_of_loc (Z.pos p) l).
    assert (shr_fexp 53 1024 (Z.pos p) e l = (rec, e)) as ->
      by (unfold shr_fexp; cbn [Zdigits2]; rewrite rexp_eq, Hd; by replace (_ `max` _ - e) with 0 by lia).
    exists (round_nearest_even (shr_m rec) (loc_of_shr_record rec)), e.
    assert (shr_m rec = Z.pos p) as Em by (by destruct l as [|[]]).
    pose proof (round_le (Z.pos p) (shr_r rec) (shr_s rec)) as [H1 H2].
    replace (Build_shr_record (Z.pos p) (shr_r rec) (shr_s rec)) with rec in * by (rewrite <- Em; by destruct rec).
    rewrite Em. split; [|split].
    + rewrite settle_spec; [done| |lia]. pose proof (round_nonneg (Z.pos p) (loc_of_shr_record rec)). lia.
    + apply round_nonneg. lia.
    + left. split; [done|]. split; [done|]. destruct l; [left; rewrite H2 by done; lia|].
      destruct (Z.le_gt_cases (round_nearest_even (Z.pos p) (loc_of_shr_record rec)) (Z.pos p)); [by left|right].
      split; [lia|done].
  - assert (digits p = 54) as Hd.
    { pose proof (digits_le p 54 ltac:(lia) ltac:(lia)).
      assert (2 ^ 53 < 2 ^ digits p) as Hlt%Z.pow_lt_mono_r_iff by lia; lia. }
    set (rec := shr_1 (shr_record_of_loc (Z.pos p) l)).
    assert (shr_fexp 53 1024 (Z.pos p) e l = (rec, e + 1)) as ->
      by (unfold shr_fexp; cbn [Zdigits2]; rewrite rexp_eq, Hd; by replace (_ `max` _ - e) with 1 by lia).
    assert (shr_m rec = Z.pos p / 2 /\ (shr_r rec = false \/ Z.odd (Z.pos p) = true)) as [Em Hr].
    { assert (Z.pos p / 2 = Z.div2 (Z.pos p)) as -> by (by rewrite Z.div2_div).
      unfold rec. destruct l as [|[]]; destruct p as [p|p|]; cbn; auto. }
    clearbody rec. pose proof (Z.div_mod (Z.pos p) 2 ltac:(lia)). pose proof (Z.mod_pos_bound (Z.pos p) 2 ltac:(lia)).
    assert (0 <= shr_m rec) by lia.
    exists (round_nearest_even (shr_m rec) (loc_of_shr_record rec)), (e + 1).
    pose proof (round_le (shr_m rec) (shr_r rec) (shr_s rec)) as [Hr1 Hr2].
    replace (Build_shr_record (shr_m rec) (shr_r rec) (shr_s rec)) with rec in * by (by destruct rec).
    pose proof (round_nonneg (shr_m rec) (loc_of_shr_record rec) ltac:(done)).
    split; [|split; [done|]].
    + rewrite settle_spec; [done| |lia]. lia.
    + right. split; [done|]. split; [done|]. destruct Hr as [Hr|Hr].
      * left. rewrite Hr2 by done. lia.
      * right. split; [lia|by right].
Qed.

(** A proper fraction of integers up to [2^53] rounds below one. *)
Lemma int_div_below_one p n : 0 <= p < n -> n <= 2 ^ 53 -> fleb f1 (int_div p n) = false.
Proof.
  intros Hp Hn. destruct p as [|P|]; [done| |lia]. destruct n as [|N|]; [lia| |lia].
  pose proof (digits_bounds P) as [HP1 HP2]. pose proof (digits_bounds N) as [HN1 HN2].
  assert (digits P <= digits N <= 54 /\ 1 <= digits P) as [Hd HdP].
  { split; [split|].
    - assert (2 ^ (digits P - 1) < 2 ^ digits N) as Hlt%Z.pow_lt_mono_r_iff by lia; lia.
    - apply digits_le; lia.
    - destruct (digits P) eqn:E; lia. }
  unfold int_div, lit. cbn [Z.to_pos]. unfold SFdiv, SFdiv_core_binary. cbn [Zdigits2].
  rewrite rexp_eq. set (k := 53 + digits N - digits P).
  replace (_ `min` _) with (- k) by lia. replace (0 - 0 - - k) with k by lia.
  replace (match k with 0 => Z.pos P | Z.pos _ => Z.shiftl (Z.pos P) k | Z.neg _ => 0 end)
    with (Z.pos P * 2 ^ k) by (rewrite <- Z.shiftl_mul_pow2 by lia; destruct k eqn:E; lia || done).
  pose proof (Z_div_mod (Z.pos P * 2 ^ k) (Z.pos N) ltac:(lia)) as Hdm.
  destruct (Z.div_eucl (Z.pos P * 2 ^ k) (Z.pos N)) as [q r]. destruct Hdm as [Hq Hr].
  cbn [xorb].
  assert (2 ^ digits P = 2 * 2 ^ (digits P - 1)) by (rewrite <- Z.pow_succ_r by lia; f_equal; lia).
  assert (2 ^ digits N = 2 * 2 ^ (digits N - 1)) by (rewrite <- Z.pow_succ_r by lia; f_equal; lia).
  assert (2 ^ (digits P - 1) * 2 ^ k = 2 ^ 52 * 2 ^ digits N) as Hk by (rewrite <- !Z.pow_add_r by lia; f_equal; lia).
  assert (2 ^ 52 <= q < 2 ^ 54) as Hq54 by nia.
  assert (0 < 2 ^ k) by (apply Z.pow_pos_nonneg; lia).
  assert (q < 2 ^ k) as Hqk by nia.
  assert (2 ^ 53 <= 2 ^ k) by (apply Z.pow_le_mono_r; lia).
  destruct (rounded_mantissa q (- k) (new_location (Z.pos N) r) Hq54 ltac:(lia)) as (M & E & -> & HM & Hcase).
  assert (new_location (Z.pos N) r <> loc_Exact -> r <> 0) as Hloc.
  { intros Hne ->. apply Hne. unfold new_location, new_location_even, new_location_odd. by case_match. }
  assert (M <= 2 ^ 53 /\ ((E = -53 /\ M <= 2 ^ 53 - 1) \/ E < -53)) as [HM' HE].
  { assert (k = 53 \/ k = 54 \/ 55 <= k) as [Ek|[Ek|Ek]] by lia; [rewrite Ek in *|rewrite Ek in *|];
      destruct Hcase as [(? & -> & [|[? Hl]])|(? & -> & [|[? [Hl|Hl]]])]; try lia;
      first [apply Hloc in Hl | apply Z.odd_spec in Hl as [x Hl] | idtac]; nia. }
  assert (fleb (settle M E) (settle (2 ^ 53 - 1) (-53)) = true) as Hle.
  { apply settle_mono; [lia|lia|]. lia. }
  apply not_true_iff_false. intros Hge. pose proof (fleb_trans _ _ _ Hge Hle) as Hbad. by vm_compute in Hbad.
Qed.

Lemma count_true_bound l : 0 <= count_true l <= Z.of_nat (length l).
Proof. unfold count_true. induction l as [|[] l IH]; cbn; lia. Qed.

Lemma count_true_all l : count_true l = Z.of_nat (length l) -> forall b, b ∈ l -> b = true.
Proof.
  unfold count_true. induction l as [|[] l IH]; cbn; intros Hl b Hb; [by apply elem_of_nil in Hb|..].
  - apply elem_of_cons in Hb as [->|Hb]; [done|]. apply IH; [lia|done].
  - pose proof (count_true_bound l) as Hle. unfold count_true in Hle. lia.
Qed.

Lemma fleb_feqb_l x y z : feqb x y = true -> fleb x z = true -> fleb y z = true.
Proof.
  intros Hxy Hxz. apply (fleb_trans y x z); [|done]. rewrite fleb_spec, feqb_sym, Hxy. apply orb_true_r.
Qed.

(** A gate that requires everything passes only when every value is true. *)
Lemma hard_gate_all values threshold g :
  hard_gate values threshold = Ok g -> hg_passed g = true -> feqb threshold f1 = true ->
  Z.of_nat (length values) <= 2 ^ 53 -> forall b, b ∈ values -> b = true.
Proof.
  unfold hard_gate. intros Hg Hp Ht Hn. apply bind_Ok in Hg as (u & _ & [= <-]). cbn [hg_passed] in Hp.
  apply (fleb_feqb_l _ _ _ Ht) in Hp. intros b Hb. destruct values as [|v values]; [by apply elem_of_nil in Hb|].
  cbn [is_nil] in Hp. revert b Hb. apply count_true_all.
  pose proof (count_true_bound (v :: values)).
  destruct (Z.eq_dec (count_true (v :: values)) (Z.of_nat (length (v :: values)))) as [E|N]; [done|].
  rewrite int_div_below_one in Hp by lia. done.
Qed.

(** ** Collections *)

Lemma dict_of_elem {A} (key : A -> string) (l : list A) k x :
  ResearchV2.dict_of key id l !! k = Some x -> x ∈ l /\ key x = k.
Proof.
  unfold ResearchV2.dict_of. enough (forall m : gmap string A, (forall k x, m !! k = Some x -> x ∈ l /\ key x = k) ->
    forall l', (forall x, x ∈ l' -> x ∈ l) ->
    fold_left (fun m x => <[key x := id x]> m) l' m !! k = Some x -> x ∈ l /\ key x = k) as Hgen.
  { apply Hgen; [|done]. intros k' x'. by rewrite lookup_empty. }
  intros m Hm l'. revert m Hm. induction l' as [|y l' IH]; intros m Hm Hl'; cbn [fold_left]; [by apply Hm|].
  apply IH; [|by intros; apply Hl', elem_of_cons; right].
  intros k' x'. rewrite lookup_insert. case_decide as E; [|apply Hm].
  intros [= <-]. split; [|done]. apply Hl', elem_of_cons. by left.
Qed.

Lemma dict_of_dom {A B} (key : A -> string) (value : A -> B) (l : list A) x :
  x ∈ l -> is_Some (ResearchV2.dict_of key value l !! key x).
Proof.
  unfold ResearchV2.dict_of.
  assert (forall l (m : gmap string B) k, is_Some (m !! k) ->
            is_Some (fold_left (fun m x => <[key x := value x]> m) l m !! k)) as Hkeep.
  { clear. induction l as [|y l IH]; intros m k Hk; [done|]. apply IH. rewrite lookup_insert. by case_decide. }
  generalize (∅ : gmap string B). induction l as [|y l IH]; intros m Hx; [by apply elem_of_nil in Hx|].
  cbn [fold_left]. apply elem_of_cons in Hx as [->|Hx]; [|by apply IH].
  apply Hkeep. rewrite lookup_insert_eq. done.
Qed.

Lemma output_of_elem d episode_id o :
  output_of (outputs_by_id d) episode_id = Ok o -> o ∈ ad_outputs d /\ do_episode_id o = episode_id.
Proof.
  unfold output_of. destruct (outputs_by_id d !! episode_id) as [o'|] eqn:E; [|done]. intros [= <-].
  by apply (dict_of_elem do_episode_id) in E.
Qed.

(** A loop that fills a dict under distinct keys. *)
Lemma for_each_insert {A B} (key : A -> string) (f : A -> result B) l m0 m :
  for_each (fun (m : gmap string B) x => r ← f x; Ok (<[key x := r]> m)) m0 l = Ok m -> NoDup (key <$> l) ->
  (forall x, x ∈ l -> exists r, f x = Ok r /\ m !! key x = Some r)
  /\ forall k, k ∉ key <$> l -> m !! k = m0 !! k.
Proof.
  revert m0. induction l as [|x l IH]; intros m0 Hl Hnd; cbn [for_each] in Hl.
  { injection Hl as <-. split; [intros x Hx; by apply elem_of_nil in Hx|done]. }
  apply bind_Ok in Hl as (m1 & H1 & Hl). apply bind_Ok in H1 as (r & Hr & [= <-]).
  apply NoDup_cons in Hnd as [Hx Hnd]. destruct (IH _ Hl Hnd) as [Hin Hout]. split.
  - intros y [->|Hy]%elem_of_cons; [|by apply Hin]. exists r. split; [done|].
    rewrite (Hout _ Hx). apply lookup_insert_eq.
  - intros k Hk. rewrite fmap_cons, not_elem_of_cons in Hk. destruct Hk as [Hne Hk].
    rewrite (Hout _ Hk). by apply lookup_insert_ne.
Qed.

Lemma filter_flags_sublist {A} (l : list A) flags : sublist (fst <$> List.filter snd (zip l flags)) l.
Proof.
  revert flags. induction l as [|x l IH]; intros [|[] flags]; cbn; try constructor; try apply IH.
  apply sublist_nil_l.
Qed.

Lemma filter_sublist {A} (p : A -> bool) l : sublist (List.filter p l) l.
Proof. induction l as [|x l IH]; cbn; [constructor|]. case_match; constructor; apply IH. Qed.

Lemma NoDup_fmap_sublist {A B} (f : A -> B) (l k : list A) : sublist l k -> NoDup (f <$> k) -> NoDup (f <$> l).
Proof.
  intros Hs Hk. eapply sublist_NoDup; [exact Hk|]. clear Hk. induction Hs; rewrite ?fmap_cons; by constructor.
Qed.

(** ** Suites *)

(** What the loop over the episodes guarantees: no pair of a target and a key,
    and no pair of a target and a date, twice. *)
Lemma independence_loop l seen r :
  for_each check_independence seen l = Ok r ->
  NoDup seen.1 -> NoDup seen.2 ->
  NoDup (reverse ((fun e => (ep_target_id e, ep_independence_key e)) <$> l) ++ seen.1)
  /\ NoDup (reverse ((fun e => (ep_target_id e, ep_target_date e)) <$> l) ++ seen.2).
Proof.
  revert seen. induction l as [|e l IH]; intros [keys dates] Hl Hk Hd; [done|]. cbn [for_each] in Hl.
  apply bind_Ok in Hl as (seen' & H1 & Hl). unfold check_independence in H1. cbn [fst snd] in *.
  apply raise_when_bind_Ok in H1 as [Hkey H1]. apply raise_when_bind_Ok in H1 as [Hdate [= <-]].
  apply bool_decide_eq_false in Hkey, Hdate.
  rewrite !fmap_cons, !reverse_cons, <- !app_assoc. apply IH in Hl; [done|by constructor..].
Qed.

Lemma NoDup_of_target {A} (f : EvalEpisodeV2 -> A) l id :
  NoDup ((fun e => (ep_target_id e, f e)) <$> l) -> NoDup (f <$> episodes_of id l).
Proof.
  intros Hnd. unfold episodes_of. induction l as [|e l IH]; cbn; [constructor|].
  rewrite fmap_cons in Hnd. apply NoDup_cons in Hnd as [He Hnd].
  destruct (ep_target_id e =? id)%string eqn:E; [|by apply IH]. apply String.eqb_eq in E as <-.
  rewrite fmap_cons. constructor; [|by apply IH]. intros (e' & Hf & He')%list_elem_of_fmap.
  apply filter_elem in He' as [He' Ht%String.eqb_eq]. apply He. apply list_elem_of_fmap.
  exists e'. by rewrite Ht, Hf.
Qed.

(** The facts of an accepted suite that its evaluation uses. *)
Lemma validate_identities_Ok s :
  validate_identities s = Ok tt ->
  NoDup (et_target_id <$> su_targets s)
  /\ NoDup (ep_episode_id <$> su_episodes s)
  /\ (forall id, NoDup (ep_independence_key <$> episodes_of id (su_episodes s))
                 /\ NoDup (ep_target_date <$> episodes_of id (su_episodes s)))
  /\ (forall t, t ∈ su_targets s -> check_windows (su_episodes s) t = Ok tt).
Proof.
  intros H. apply raise_when_bind_Ok in H as [Ht%negb_false_iff%bool_decide_eq_true H].
  apply raise_when_bind_Ok in H as [_ H]. apply raise_when_bind_Ok in H as [_ H].
  apply bind_Ok in H as (? & _ & H).
  apply raise_when_bind_Ok in H as [He%negb_false_iff%bool_decide_eq_true H].
  apply raise_when_bind_Ok in H as [_ H]. apply bind_Ok in H as (r & Hloop & H).
  apply bind_Ok in H as (l & Hw & _).
  destruct (independence_loop _ _ _ Hloop) as [Hk Hd]; [constructor..|].
  rewrite app_nil_r in Hk, Hd. rewrite reverse_Permutation in Hk. rewrite reverse_Permutation in Hd.
  split; [done|]. split; [done|]. split; [intros id; split; by apply NoDup_of_target|].
  intros t Hin. destruct (mapM_result_elem _ _ _ _ Hw Hin) as [[] ?]. done.
Qed.

Section Suites.
Context `{CanonicalHash} `{EvalDocuments}.

Lemma check_suite_Ok s :
  check_suite s = Ok tt ->
  (forall e, e ∈ su_episodes s -> check_episode e = Ok tt)
  /\ check_policy (su_release_policy s) = Ok tt /\ validate_identities s = Ok tt.
Proof.
  intros Hs. unfold check_suite in Hs.
  do 3 (apply bind_Ok in Hs as ([] & _ & Hs)). apply bind_Ok in Hs as (? & _ & Hs).
  apply bind_Ok in Hs as ([] & _ & Hs). apply bind_Ok in Hs as (? & _ & Hs).
  apply bind_Ok in Hs as ([] & _ & Hs). apply bind_Ok in Hs as (l & He & Hs).
  apply bind_Ok in Hs as ([] & _ & Hs). apply bind_Ok in Hs as ([] & Hp & Hs).
  split; [|done]. intros e Hin. by destruct (mapM_result_elem _ _ _ _ He Hin) as [[] ?].
Qed.

End Suites.

(** The limits an accepted policy stays within. *)
Lemma check_policy_Ok p :
  check_policy p = Ok tt ->
  20 <= rp_min_metric_episodes p /\ feqb (rp_must_pass_rate p) f1 = true
  /\ fltb (lit 1 100) (rp_max_brier_delta p) = false /\ fltb (lit 2 100) (rp_max_direction_drop p) = false
  /\ fltb (lit 12 10) (rp_max_p95_latency_ratio p) = false
  /\ fltb (lit 115 100) (rp_max_token_ratio p) = false.
Proof.
  intros Hp. do 6 (apply bind_Ok in Hp as ([] & _ & Hp)).
  do 3 (apply raise_when_bind_Ok in Hp as [?Hc Hp]).
  do 3 (apply raise_when_bind_Ok in Hp as [?Hc Hp]). apply raise_when_Ok in Hp.
  apply Z.ltb_ge in Hc0. apply negb_false_iff in Hc1. done.
Qed.

(** What is within a limit is within a larger number. *)
Lemma within_limit x limit bound :
  is_nan bound = false -> fltb bound limit = false -> fleb x limit = true -> fleb x bound = true.
Proof.
  intros Hb Hl Hx. apply (fleb_trans _ _ _ Hx).
  assert (is_nan limit = false) as Hn.
  { rewrite fleb_spec, orb_true_iff, fltb_spec, feqb_spec in Hx. tauto. }
  rewrite fltb_false_fleb in Hl by done. by apply negb_false_iff in Hl.
Qed.

(** ** Windows *)

Lemma NoDup_fmap_same {A B} (f : A -> B) l x y :
  NoDup (f <$> l) -> x ∈ l -> y ∈ l -> f x = f y -> x = y.
Proof.
  induction l as [|z l IH]; intros Hnd Hx Hy Hf; [by apply elem_of_nil in Hx|].
  rewrite fmap_cons in Hnd. apply NoDup_cons in Hnd as [Hz Hnd].
  assert (forall w, w ∈ l -> f z <> f w) as Hne.
  { intros w Hw E. apply Hz. rewrite E. by apply list_elem_of_fmap_2. }
  apply elem_of_cons in Hx as [->|Hx]; apply elem_of_cons in Hy as [->|Hy]; [done|..|by apply IH].
  - by destruct (Hne y Hy).
  - by destruct (Hne x Hx).
Qed.

Lemma disjoint_windows_sorted l :
  disjoint_windows l = true -> Forall (fun w => w.1 < w.2) l -> StronglySorted (fun a b => a.2 <= b.1) l.
Proof.
  induction l as [|a l IH]; intros Hd Hw; [constructor|]. apply Forall_cons in Hw as [Ha Hw].
  destruct l as [|b l]; [by repeat constructor|].
  cbn [disjoint_windows] in Hd. apply andb_true_iff in Hd as [Hab%negb_true_iff%Z.ltb_ge Hd].
  specialize (IH Hd Hw). constructor; [done|]. apply StronglySorted_inv in IH as [_ Hb].
  apply Forall_cons in Hw as [Hb' _]. constructor; [done|]. eapply Forall_impl; [exact Hb|]. intros w Hw.
  cbn beta in *. unfold date in *. lia.
Qed.

Lemma StronglySorted_comparable {A} (R : A -> A -> Prop) l x y :
  StronglySorted R l -> x ∈ l -> y ∈ l -> x <> y -> R x y \/ R y x.
Proof.
  induction 1 as [|z l _ IH Hz]; intros Hx Hy Hne; [by apply elem_of_nil in Hx|].
  rewrite Forall_forall in Hz.
  apply elem_of_cons in Hx as [->|Hx]; apply elem_of_cons in Hy as [->|Hy]; auto. done.
Qed.

End AgentEvalTheory.
