(* ===== verification/AgentEvalEarned.v ===== *)
(** * What a passing decision certifies

    From the decision of a target back to its gates, its metrics and the
    outputs they were computed from. *)
From S2P Require Import Prelude PyStr PyTime Float64 Rounding Domain Json Contracts ResearchV2 AgentEval.
From S2P Require Import AgentEvalScore AgentEvalTheory.
Import PyStr PyTime Float64 Rounding Domain Json AgentEval AgentEvalScore AgentEvalTheory.
Open Scope string_scope.
Open Scope list_scope.
Open Scope Z_scope.

Module AgentEvalEarned.

Section Earned.
Context `{PyRuntime}.

(** An output that stands against its episode: completed, within the evidence
    of the episode and its cutoff, along the expected trajectory, and true to
    the invariant of a must-pass episode. *)
Definition invariant_kept (i : MustPassInvariantV2) (o : DraftEpisodeOutputV2) : Prop :=
  exists p, do_probabilities o = Some p
    /\ (forall d, mi_expected_direction i = Some d -> direction p = d)
    /\ (forall d b, (d, b) ∈ mi_probability_bounds i ->
         fleb (pi_minimum b) (prob p d) = true /\ fleb (prob p d) (pi_maximum b) = true)
    /\ (forall id, id ∈ mi_required_evidence_ids i -> id ∈ do_citations o).

Definition output_stands (e : EvalEpisodeV2) (o : DraftEpisodeOutputV2) : Prop :=
  do_episode_id o = ep_episode_id e
  /\ do_status o = completed
  /\ do_trajectory o = ep_expected_trajectory e
  /\ (forall id, id ∈ do_citations o ->
       exists item, item ∈ ep_evidence e /\ ev_evidence_id item = id
         /\ dt_leb (ev_observed_at item) (ep_evidence_cutoff e) = true)
  /\ (ep_evidence e <> [] -> do_citations o <> [])
  /\ (ep_must_pass e = true -> exists i, ep_must_pass_invariant e = Some i /\ invariant_kept i o).

Lemma citation_valid_Ok e o :
  citation_valid e o = true ->
  (forall id, id ∈ do_citations o -> is_Some (evidence_by_id e !! id)) /\ (ep_evidence e <> [] -> do_citations o <> []).
Proof.
  intros [Hc Hn]%andb_true_iff. split.
  - intros id Hid. rewrite forallb_forall in Hc.
    specialize (Hc id (proj1 (list_elem_of_In _ _) Hid)). by apply bool_decide_eq_true in Hc.
  - intros He Hnil. rewrite Hnil in Hn. cbn in Hn. rewrite orb_false_r in Hn. apply bool_decide_eq_true in Hn.
    destruct (ep_evidence e) as [|x l] eqn:E; [done|].
    destruct (dict_of_dom ev_evidence_id id (ep_evidence e) x) as [y Hy]; [rewrite E; by left|].
    unfold evidence_by_id in Hn. rewrite Hn in Hy. done.
Qed.

Lemma cutoff_valid_Ok e o id :
  cutoff_valid e o = true -> id ∈ do_citations o ->
  exists item, item ∈ ep_evidence e /\ ev_evidence_id item = id
    /\ dt_leb (ev_observed_at item) (ep_evidence_cutoff e) = true.
Proof.
  intros [_ Hc]%andb_true_iff Hid. rewrite forallb_forall in Hc.
  specialize (Hc id (proj1 (list_elem_of_In _ _) Hid)).
  destruct (evidence_by_id e !! id) as [item|] eqn:E; [|done].
  apply (dict_of_elem ev_evidence_id) in E as [? ?]. eauto.
Qed.

Lemma must_pass_Ok e o :
  must_pass_invariant_satisfied e o = true -> exists i, ep_must_pass_invariant e = Some i /\ invariant_kept i o.
Proof.
  unfold must_pass_invariant_satisfied. destruct (ep_must_pass_invariant e) as [i|]; [|done].
  destruct (do_probabilities o) as [p|] eqn:Ep; [|done]. intros Hm. exists i. split; [done|].
  repeat match type of Hm with (if ?b then _ else _) = _ => destruct b eqn:?E; [done|] end.
  exists p. split; [done|]. split; [|split].
  - intros d Hd. rewrite Hd in E0. by apply negb_false_iff, bool_decide_eq_true in E0.
  - intros d b Hb. rewrite existsb_false in E1. specialize (E1 _ Hb). cbn in E1.
    by apply negb_false_iff, andb_true_iff in E1.
  - intros id Hid. unfold subset_of in Hm. rewrite forallb_forall in Hm.
    specialize (Hm id (proj1 (list_elem_of_In _ _) Hid)). by apply bool_decide_eq_true in Hm.
Qed.

Lemma gate_values_stand e o :
  do_episode_id o = ep_episode_id e -> (forall v, v ∈ gate_values e o -> v.2 = true) -> output_stands e o.
Proof.
  intros Hid Hv.
  assert (forall name v, (name, v) ∈ gate_values e o -> v = true) as Hg by (intros ? ? Hin; by apply (Hv _ Hin)).
  unfold gate_values in Hg.
  assert (bool_decide (do_status o = completed) = true) as Hs by (apply (Hg "schema_valid"); by left).
  assert (cutoff_valid e o = true) as Hc by (apply (Hg "cutoff_valid"); right; by left).
  assert (citation_valid e o = true) as Hcit by (apply (Hg "citation_valid"); do 2 right; by left).
  assert (trace_valid e o = true) as Ht by (apply (Hg "trace_valid"); do 3 right; by left).
  assert (negb (ep_must_pass e) || must_pass_invariant_satisfied e o = true) as Hm
    by (apply (Hg "must_pass_bad_case"); do 4 right; by left).
  apply bool_decide_eq_true in Hs, Ht. split; [done|]. split; [done|]. split; [done|].
  split; [intros id; by apply cutoff_valid_Ok|]. split; [by apply citation_valid_Ok|].
  intros He. rewrite He in Hm. by apply must_pass_Ok.
Qed.

(** The gates of a target, each over the values of its name. *)
Lemma target_hard_gates_Ok episodes outputs threshold gates :
  target_hard_gates episodes outputs threshold = Ok gates ->
  exists rows,
    Forall2 (fun e row => exists o, output_of outputs (ep_episode_id e) = Ok o /\ row = gate_values e o) episodes rows
    /\ forall name, name ∈ GATES -> exists g, gates !! name = Some g
         /\ hard_gate ((fun row => default false (dict_get row name)) <$> rows) threshold = Ok g.
Proof.
  unfold target_hard_gates. intros Hg. apply bind_Ok in Hg as (rows & Hrows & Hg).
  apply bind_Ok in Hg as (l & Hl & [= <-]). exists rows. split.
  - apply mapM_result_Ok in Hrows. eapply Forall2_impl; [exact Hrows|]. cbn beta.
    intros e row (o & Ho & [= <-])%bind_Ok. eauto.
  - intros name Hname. destruct (mapM_result_elem _ _ _ _ Hl Hname) as [y Hy].
    assert (fst <$> l = GATES) as Hfst.
    { apply mapM_result_Ok in Hl. clear -Hl. induction Hl as [|n y names l Hy _ IH]; [done|].
      apply bind_Ok in Hy as (g & _ & [= <-]). cbn. by rewrite IH. }
    apply bind_Ok in Hy as (g & Hg & _). exists g. split; [|done].
    apply elem_of_list_to_map_1; [rewrite Hfst; by_decide|].
    apply mapM_result_Ok in Hl. clear -Hl Hname Hg.
    induction Hl as [|n y names l Hy _ IH]; [by apply elem_of_nil in Hname|].
    apply elem_of_cons in Hname as [->|Hin]; [|right; by apply IH].
    apply bind_Ok in Hy as (g' & Hg' & [= <-]). rewrite Hg in Hg'. injection Hg' as <-. by left.
Qed.

Lemma gates_all episodes outputs threshold gates :
  target_hard_gates episodes outputs threshold = Ok gates ->
  forallb hg_passed (snd <$> map_to_list gates) = true ->
  feqb threshold f1 = true -> Z.of_nat (length episodes) <= 2 ^ 53 ->
  forall e, e ∈ episodes -> exists o, output_of outputs (ep_episode_id e) = Ok o
    /\ forall v, v ∈ gate_values e o -> v.2 = true.
Proof.
  intros Hg Hall Ht Hn e He. destruct (target_hard_gates_Ok _ _ _ _ Hg) as (rows & Hrows & Hgates).
  destruct (proj1 (list_elem_of_lookup _ _) He) as [i Hi].
  destruct (Forall2_lookup_l _ _ _ _ _ Hrows Hi) as (row & Hrow & o & Ho & ->).
  exists o. split; [done|]. intros [name v] Hv. cbn [snd].
  assert (name ∈ GATES /\ dict_get (gate_values e o) name = Some v) as [Hname Hget].
  { unfold gate_values in Hv |- *. repeat (apply elem_of_cons in Hv as [Hv|Hv]; [injection Hv as -> ->;
      split; [by_decide|done]|]). by apply elem_of_nil in Hv. }
  destruct (Hgates name Hname) as (g & Hlook & Hgate).
  apply (hard_gate_all _ _ _ Hgate); [|done|..].
  - rewrite forallb_forall in Hall. apply Hall, list_elem_of_In, list_elem_of_fmap.
    exists (name, g). split; [done|]. by apply elem_of_map_to_list.
  - rewrite length_fmap, <- (Forall2_length _ _ _ Hrows). done.
  - apply list_elem_of_fmap. exists (gate_values e o). rewrite Hget. split; [done|].
    by apply list_elem_of_lookup_2 with i.
Qed.

Definition at_most (o : option float) (limit : float) : Prop := exists x, o = Some x /\ fleb x limit = true.

(** What a passing target certifies: every episode of the target stands, and
    the metrics of twenty or more independent episodes that both arms completed
    are within the limits of the policy. *)
Definition target_earned (suite : AgentEvalSuiteV2) (baseline candidate : AgentEvalDraftV2) (target_id : string)
    : Prop :=
  let episodes := episodes_of target_id (su_episodes suite) in
  (forall e, e ∈ episodes -> exists o, o ∈ ad_outputs candidate /\ output_stands e o)
  /\ exists paired b c,
       sublist paired episodes
       /\ 20 <= Z.of_nat (length paired)
       /\ NoDup (ep_independence_key <$> paired) /\ NoDup (ep_target_date <$> paired)
       /\ metric_aggregate paired (outputs_by_id baseline) = Ok b
       /\ metric_aggregate paired (outputs_by_id candidate) = Ok c
       /\ at_most (delta (ma_mean_brier c) (ma_mean_brier b)) (lit 1 100)
       /\ at_most (delta (ma_direction_accuracy b) (ma_direction_accuracy c)) (lit 2 100)
       /\ at_most (ratio (ma_p95_latency_ms c) (ma_p95_latency_ms b)) (lit 12 10)
       /\ at_most (ratio (ma_mean_tokens c) (ma_mean_tokens b)) (lit 115 100).

Lemma within_at_most o values name limit bound :
  within values name limit = true -> values !! name = Some (metric_value o) ->
  is_nan bound = false -> fltb bound limit = false -> at_most o bound.
Proof.
  unfold within. intros Hw Hv Hb Hl. rewrite Hv in Hw. destruct o as [x|]; [|done]. cbn [metric_value] in Hw.
  exists x. split; [done|]. by apply (within_limit x limit).
Qed.

Lemma metric_gate_within b c policy :
  metric_gate_pass (metric_values b c) policy = true -> check_policy policy = Ok tt ->
  at_most (delta (ma_mean_brier c) (ma_mean_brier b)) (lit 1 100)
  /\ at_most (delta (ma_direction_accuracy b) (ma_direction_accuracy c)) (lit 2 100)
  /\ at_most (ratio (ma_p95_latency_ms c) (ma_p95_latency_ms b)) (lit 12 10)
  /\ at_most (ratio (ma_mean_tokens c) (ma_mean_tokens b)) (lit 115 100).
Proof.
  intros Hg (_ & _ & Hb & Hd & Hl & Ht)%check_policy_Ok. unfold metric_gate_pass in Hg.
  apply andb_true_iff in Hg as [Hg H4]. apply andb_true_iff in Hg as [Hg H3]. apply andb_true_iff in Hg as [H1 H2].
  split; [|split; [|split]];
    [eapply (within_at_most _ _ _ _ _ H1)|eapply (within_at_most _ _ _ _ _ H2)
    |eapply (within_at_most _ _ _ _ _ H3)|eapply (within_at_most _ _ _ _ _ H4)]; done.
Qed.

Lemma paired_sublist b c episodes paired : paired_episodes b c episodes = Ok paired -> sublist paired episodes.
Proof.
  unfold paired_episodes. intros Hp. apply bind_Ok in Hp as (flags & _ & [= <-]). apply filter_flags_sublist.
Qed.

(** The report of a target that passed. *)
Lemma evaluate_target_pass suite baseline candidate reviews ablations target report :
  evaluate_target suite baseline candidate reviews ablations target = Ok report ->
  tr_decision report = pass ->
  check_policy (su_release_policy suite) = Ok tt -> validate_identities suite = Ok tt ->
  Z.of_nat (length (su_episodes suite)) <= 2 ^ 53 ->
  target_earned suite baseline candidate (et_target_id target).
Proof.
  intros He Hd Hpol Hid Hn. unfold evaluate_target in He.
  apply bind_Ok in He as (paired & Hpaired & He). apply bind_Ok in He as (b & Hb & He).
  apply bind_Ok in He as (c & Hc & He). apply bind_Ok in He as (gates & Hgates & He).
  apply bind_Ok in He as (? & _ & He). apply bind_Ok in He as (? & _ & He). apply bind_Ok in He as (? & _ & He).
  apply bind_Ok in He as (? & _ & [= <-]). cbn [tr_decision] in Hd. unfold decide_target in Hd.
  destruct (forallb hg_passed _) eqn:Hall; [|done]. cbn [negb] in Hd.
  destruct (rp_min_metric_episodes _ <=? _) eqn:Hmin; [|done]. cbn [negb] in Hd.
  destruct (metric_gate_pass _ _) eqn:Hmet; [|done].
  destruct (check_policy_Ok _ Hpol) as (H20 & Hone & _).
  destruct (validate_identities_Ok _ Hid) as (_ & _ & Hind & _). destruct (Hind (et_target_id target)) as [Hk Ht].
  split.
  - intros e Hin. destruct (gates_all _ _ _ _ Hgates Hall Hone) with e as (o & Ho & Hv); [|done|].
    + pose proof (sublist_length _ _ (filter_sublist (fun e => (ep_target_id e =? et_target_id target)%string)
        (su_episodes suite))) as Hle. unfold episodes_of. lia.
    + apply output_of_elem in Ho as [Ho Hoid]. exists o. split; [done|]. by apply gate_values_stand.
  - exists paired, b, c. pose proof (paired_sublist _ _ _ _ Hpaired) as Hsub. split; [done|].
    split; [apply Z.leb_le in Hmin; lia|].
    split; [by apply (NoDup_fmap_sublist _ _ _ Hsub)|]. split; [by apply (NoDup_fmap_sublist _ _ _ Hsub)|].
    split; [done|]. split; [done|]. by apply metric_gate_within with (su_release_policy suite).
Qed.

Context `{CanonicalHash} `{EvalDocuments}.

(** The report of each target of the suite. *)
Lemma evaluate_v2_targets suite i baseline candidate review ablation at_ report :
  evaluate_v2 suite i baseline candidate review ablation at_ = Ok report ->
  NoDup (et_target_id <$> su_targets suite) ->
  re_release_decision report = decide_release (gated_decisions (re_targets report))
  /\ forall t, t ∈ su_targets suite -> exists tr, re_targets report !! et_target_id t = Some tr
       /\ evaluate_target suite baseline candidate (reviews_by_id review) (bd_outputs ablation) t = Ok tr
       /\ tr_release_gate tr = et_release_gate t.
Proof.
  unfold evaluate_v2. intros He Hnd. apply bind_Ok in He as (targets & Hloop & He).
  apply bind_Ok in He as (? & _ & [= <-]). cbn [re_release_decision re_targets]. split; [done|].
  destruct (for_each_insert et_target_id _ _ _ _ Hloop Hnd) as [Hin _].
  intros t Ht. destruct (Hin t Ht) as (tr & Htr & Hlook). exists tr. split; [done|]. split; [done|].
  unfold evaluate_target in Htr. repeat (apply bind_Ok in Htr as (? & _ & Htr)). by injection Htr as <-.
Qed.

Lemma decide_release_pass l : decide_release l = pass -> forall d, d ∈ l -> d = pass.
Proof.
  unfold decide_release. intros Hd d Hin. case_bool_decide as Hf; [done|]. case_bool_decide as Hs; [done|].
  by destruct d.
Qed.

Lemma released_targets suite i baseline candidate review ablation at_ report t :
  check_suite suite = Ok tt -> Z.of_nat (length (su_episodes suite)) <= 2 ^ 53 ->
  evaluate_v2 suite i baseline candidate review ablation at_ = Ok report ->
  re_release_decision report = pass ->
  t ∈ su_targets suite -> et_release_gate t = true ->
  target_earned suite baseline candidate (et_target_id t).
Proof.
  intros (_ & Hpol & Hid)%check_suite_Ok Hn He Hd Ht Hgate.
  destruct (validate_identities_Ok _ Hid) as (Hnd & _).
  destruct (evaluate_v2_targets _ _ _ _ _ _ _ _ He Hnd) as [Hrel Htargets].
  destruct (Htargets t Ht) as (tr & Hlook & Htr & Hg).
  apply (evaluate_target_pass _ _ _ _ _ _ _ Htr); [|done..].
  apply (decide_release_pass (gated_decisions (re_targets report))); [congruence|].
  apply list_elem_of_fmap. exists tr. split; [done|]. apply filter_elem. split; [|congruence].
  apply list_elem_of_fmap. exists (et_target_id t, tr). split; [done|]. by apply elem_of_map_to_list.
Qed.

End Earned.

(** ** An arm that is always wrong *)

Definition certain (d : Direction) : Probs := Probs_of (fun label => indicator (bool_decide (label = d))).

(** An episode whose output is certain of another label than the outcome. *)
Definition certainly_wrong (outputs : Outputs) (e : EvalEpisodeV2) : Prop :=
  exists o d, outputs !! ep_episode_id e = Some o /\ do_probabilities o = Some (certain d)
    /\ d <> to_label (ep_outcome e) /\ is_inf (of_Z (do_total_tokens o)) = false.

Lemma brier_wrong d label : d <> label -> @brier {| runtime := Py311 |} (certain d) label = two_thirds.
Proof. destruct d, label; try done; intros _; by_vm. Qed.

Lemma direction_certain d : direction (certain d) = d.
Proof. by destruct d. Qed.

Lemma wrong_metrics outputs e :
  certainly_wrong outputs e ->
  exists latency tokens, @episode_metrics {| runtime := Py311 |} outputs e = Ok (two_thirds, f0, latency, tokens).
Proof.
  intros (o & d & Ho & Hp & Hd & Ht). exists (do_latency_ms o), (of_Z (do_total_tokens o)).
  unfold episode_metrics, output_of, probabilities_of, float_of_int. rewrite Ho. cbn [mbind result_bind].
  rewrite Hp, Ht. cbn [raise_when mbind result_bind]. rewrite (brier_wrong _ _ Hd), direction_certain.
  by rewrite bool_decide_eq_false_2.
Qed.

(** Python 3.12 sums with compensation and stays within the bound. *)
Example mean_in_bounds_312 :
  @mean {| runtime := Py312 |} (replicate 31 two_thirds) = Some two_thirds.
Proof. by_vm. Qed.

End AgentEvalEarned.
