(* ===== verification/AgentEvalJobTheory.v ===== *)
(** * Lemmas on the files of an evaluation job

    Publishing a report or a receipt changes nothing that a job is loaded from;
    what a finalized job rests on, step by step. *)
From Stdlib Require Import Ascii.
From S2P Require Import Prelude PyStr PyTime Float64 Domain Json Contracts ResearchV2 JobExecution AgentEval.
From S2P Require Import AgentEvalScore AgentEvalJob AgentEvalTheory.
Import PyStr PyTime Float64 Domain Json AgentEval AgentEvalScore AgentEvalJob AgentEvalTheory.
Open Scope string_scope.
Open Scope list_scope.
Open Scope Z_scope.

Module AgentEvalJobTheory.

Definition PUBLISHED : list string := ["report.json"; "receipt.json"].

(** [d'] is [d] with files published that were not there. *)
Definition published (d d' : JobDir) : Prop :=
  forall path, d' !! path = d !! path
    \/ (path ∈ PUBLISHED /\ d !! path = None /\ exists raw, d' !! path = Some (Regular raw)).

Lemma published_refl d : published d d.
Proof. by left. Qed.

Lemma published_trans d1 d2 d3 : published d1 d2 -> published d2 d3 -> published d1 d3.
Proof.
  intros H12 H23 path. destruct (H23 path) as [->|(Hp & H2 & raw & H3)]; [apply H12|].
  destruct (H12 path) as [E|(_ & _ & raw' & E)]; rewrite E in H2; [right; eauto|done].
Qed.

Lemma eval_when_Ok {A} b m (k : result A) a : (eval_when b m ;; k) = Ok a <-> b = false /\ k = Ok a.
Proof. apply raise_when_bind_Ok. Qed.

(** A path below a directory is not a published file. *)
Lemma slash_in p n : "/"%char ∈ String.list_ascii_of_string (p +:+ "/" +:+ n).
Proof. induction p as [|c p IH]; cbn; [left|by right]. Qed.

Lemma below_not_published p n : path_of (Some p) n ∉ PUBLISHED.
Proof.
  intros Hin. pose proof (slash_in p n) as Hs. cbn [path_of] in Hin.
  repeat (apply elem_of_cons in Hin as [Hin|Hin];
    [rewrite Hin in Hs; cbn in Hs; repeat (apply elem_of_cons in Hs as [Hs|Hs]; [done|]); by apply elem_of_nil in Hs|]).
  by apply elem_of_nil in Hin.
Qed.

Lemma differ_false l : differ l = false <-> forall a b, (a, b) ∈ l -> a = b.
Proof.
  unfold differ. rewrite existsb_false. split.
  - intros Hl a b Hin. specialize (Hl _ Hin). cbn in Hl. by apply negb_false_iff, String.eqb_eq in Hl.
  - intros Hl [a b] Hin. cbn. apply negb_false_iff, String.eqb_eq. by apply Hl.
Qed.

Lemma same_elements_spec {A} `{EqDecision A} (l k : list A) :
  same_elements l k = true <-> forall x, x ∈ l <-> x ∈ k.
Proof.
  unfold same_elements. rewrite andb_true_iff, !forallb_forall. setoid_rewrite bool_decide_eq_true.
  setoid_rewrite <- list_elem_of_In. naive_solver.
Qed.

Lemma job_file_published d d' parent name :
  published d d' -> path_of parent name ∉ PUBLISHED -> job_file d' parent name = job_file d parent name.
Proof.
  intros Hd Hp. unfold job_file. destruct (Hd (path_of parent name)) as [->|[? _]]; [|done].
  destruct parent as [p|]; [|done]. destruct (Hd p) as [->|(_ & -> & raw & ->)]; done.
Qed.

Section Jobs.
Context `{PyRuntime} `{CanonicalHash} `{EvalDocuments}.

Lemma read_published d d' parent name :
  published d d' -> path_of parent name ∉ PUBLISHED -> read_job_file d' parent name = read_job_file d parent name.
Proof. intros. unfold read_job_file. by rewrite (job_file_published d d'). Qed.

Lemma read_below_published d d' p name :
  published d d' -> read_job_file d' (Some p) name = read_job_file d (Some p) name.
Proof. intros. apply read_published; [done|apply below_not_published]. Qed.

Lemma load_frozen_published name d d' : published d d' -> load_frozen_job name d' = load_frozen_job name d.
Proof.
  intros Hd. unfold load_frozen_job.
  rewrite !(read_published d d' None) by (done || by_decide). by rewrite !(read_below_published d d').
Qed.

Lemma load_bound_draft_published d d' arm j : published d d' -> load_bound_draft d' arm j = load_bound_draft d arm j.
Proof. intros Hd. unfold load_bound_draft. by rewrite !(read_below_published d d'). Qed.

Lemma load_drafts_published d d' j : published d d' -> load_drafts d' j = load_drafts d j.
Proof.
  intros Hd. unfold load_drafts, load_arm_drafts, load_bound_review_draft, load_bound_ablation_draft.
  by rewrite !(load_bound_draft_published d d'), !(read_below_published d d').
Qed.

Lemma check_sealed_published d d' p name hash m :
  published d d' -> check_sealed_file d' (Some p) name hash m = check_sealed_file d (Some p) name hash m.
Proof. intros Hd. unfold check_sealed_file. by rewrite (read_below_published d d'). Qed.

(** ** Publishing *)

Lemma secure_read_Ok e raw j :
  secure_read_json e = Ok (raw, j) ->
  e = Regular raw /\ json_loads raw = Some j /\ 0 < Z.of_nat (String.length raw) <= MAX_JSON_BYTES.
Proof.
  destruct e as [raw'| |]; [|done..]. unfold secure_read_json. intros [Hs Hr]%eval_when_Ok.
  apply orb_false_iff in Hs as [Hs1%Z.leb_gt Hs2%Z.ltb_ge].
  destruct (json_loads raw') as [j'|] eqn:E; [|done]. injection Hr as <- <-. done.
Qed.

Lemma secure_read_text raw j :
  json_loads raw = Some j -> 0 < Z.of_nat (String.length raw) <= MAX_JSON_BYTES ->
  secure_read_json (Regular raw) = Ok (raw, j).
Proof.
  intros Hj Hs. unfold secure_read_json, eval_when.
  rewrite (proj2 (Z.leb_gt _ _)), (proj2 (Z.ltb_ge _ _)) by lia. cbn. by rewrite Hj.
Qed.

Lemma read_job_file_top d name raw j :
  d !! name = Some (Regular raw) -> json_loads raw = Some j ->
  0 < Z.of_nat (String.length raw) <= MAX_JSON_BYTES -> read_job_file d None name = Ok (raw, j).
Proof.
  intros Hd Hj Hs. unfold read_job_file, job_file. cbn. rewrite Hd. by apply secure_read_text.
Qed.

Lemma publish_immutable_Ok d path payload d' :
  atomic_publish_immutable d path payload = Ok d' ->
  (d !! path = Some (Regular payload) /\ d' = d)
  \/ (d !! path = None /\ d' = <[path := Regular payload]> d).
Proof.
  unfold atomic_publish_immutable. destruct (d !! path) as [e|] eqn:E.
  - intros (raw & Hr & Hd)%bind_Ok. destruct raw as [raw j]. apply secure_read_Ok in Hr as (-> & _ & _).
    apply eval_when_Ok in Hd as [Hd [= <-]]. apply negb_false_iff, String.eqb_eq in Hd. cbn in Hd. subst. by left.
  - intros [= <-]. by right.
Qed.

Lemma publish_published d path payload d' :
  atomic_publish_immutable d path payload = Ok d' -> path ∈ PUBLISHED ->
  published d d' /\ d' !! path = Some (Regular payload).
Proof.
  intros [[Hp ->]|[Hp ->]]%publish_immutable_Ok Hin; [by split; [apply published_refl|]|].
  rewrite lookup_insert_eq. split; [|done]. intros p. rewrite lookup_insert. case_decide as E; [|by left].
  right. rewrite <- E. eauto.
Qed.

Lemma present_published d d' parent name :
  published d d' -> present d parent name = true -> present d' parent name = true.
Proof.
  unfold present. intros Hd [e He]%bool_decide_eq_true. apply bool_decide_eq_true.
  destruct (Hd (path_of parent name)) as [->|(_ & E & _)]; [eauto|congruence].
Qed.

(** ** Loading *)

Lemma load_bound_draft_Ok d arm j draft raw :
  load_bound_draft d arm j = Ok (draft, raw) ->
  ad_arm_id draft = arm
  /\ (exists doc, read_job_file d (Some arm) "drafts.json" = Ok (raw, doc))
  /\ forall x, x ∈ (fun o => (do_episode_id o, do_target_id o)) <$> ad_outputs draft
       <-> x ∈ (fun e => (ei_episode_id e, ei_target_id e)) <$> in_episodes (fj_input j).
Proof.
  unfold load_bound_draft. intros ([raw' doc] & Hr & Hd)%bind_Ok. apply bind_Ok in Hd as (draft' & _ & Hd).
  apply eval_when_Ok in Hd as [Hb Hd]. apply eval_when_Ok in Hd as [Hc [= <- <-]].
  apply orb_false_iff in Hb as [Hb _]. rewrite differ_false in Hb.
  apply negb_false_iff in Hc. rewrite same_elements_spec in Hc. split; [|split; [by exists doc|done]].
  apply Hb. right. by left.
Qed.

Lemma load_drafts_Ok d j ds :
  load_drafts d j = Ok ds ->
  let m := fj_manifest j in
  let arm_drafts := <[ad_arm_id (dr_candidate ds).1 := (dr_candidate ds).1]>
                      {[ad_arm_id (dr_baseline ds).1 := (dr_baseline ds).1]} in
  load_bound_draft d (mf_baseline_arm_id m) j = Ok (dr_baseline ds)
  /\ load_bound_draft d (mf_candidate_arm_id m) j = Ok (dr_candidate ds)
  /\ require_distinct_arm_producers arm_drafts = Ok tt
  /\ load_bound_review_draft d j arm_drafts = Ok (dr_review ds)
  /\ load_bound_ablation_draft d j (dr_candidate ds).1
       [producer_of (dr_baseline ds).1; producer_of (dr_candidate ds).1;
        gb_producer (rd_generated_by (dr_review ds).1)] = Ok (dr_ablation ds).
Proof.
  unfold load_drafts, load_arm_drafts. intros ([[b c] m] & Hl & Hd)%bind_Ok.
  apply bind_Ok in Hl as (b' & Hb & Hl). apply bind_Ok in Hl as (c' & Hc & Hl).
  apply bind_Ok in Hl as ([] & Hp & [= -> -> <-]).
  apply bind_Ok in Hd as (r & Hr & Hd). apply bind_Ok in Hd as (a & Ha & [= <-]). done.
Qed.

(** The bytes of the drafts are those of their files. *)
Lemma load_drafts_raw d j ds :
  load_drafts d j = Ok ds ->
  (exists doc, read_job_file d (Some (mf_baseline_arm_id (fj_manifest j))) "drafts.json" = Ok ((dr_baseline ds).2, doc))
  /\ (exists doc, read_job_file d (Some (mf_candidate_arm_id (fj_manifest j))) "drafts.json" = Ok
    ((dr_candidate ds).2, doc))
  /\ (exists doc, read_job_file d (Some "reviewer") "drafts.json" = Ok ((dr_review ds).2, doc))
  /\ (exists doc, read_job_file d (Some "ablation") "drafts.json" = Ok ((dr_ablation ds).2, doc)).
Proof.
  intros (Hb & Hc & _ & Hr & Ha)%load_drafts_Ok.
  destruct (dr_baseline ds) as [b rb], (dr_candidate ds) as [c rc], (dr_review ds) as [r rr], (dr_ablation ds) as [a ra].
  apply load_bound_draft_Ok in Hb as (_ & Hb & _). apply load_bound_draft_Ok in Hc as (_ & Hc & _).
  split; [done|]. split; [done|]. cbn [fst snd] in *. split.
  - unfold load_bound_review_draft in Hr. apply bind_Ok in Hr as ([raw doc] & Hread & Hr).
    repeat first [apply eval_when_Ok in Hr as [_ Hr] | apply bind_Ok in Hr as (? & _ & Hr)].
    injection Hr as _ <-. by exists doc.
  - unfold load_bound_ablation_draft in Ha. apply bind_Ok in Ha as ([raw doc] & Hread & Ha).
    repeat first [apply eval_when_Ok in Ha as [_ Ha] | apply bind_Ok in Ha as (? & _ & Ha)].
    injection Ha as _ <-. by exists doc.
Qed.

(** What binds the input of a loaded job to its manifest. *)
Lemma load_frozen_Ok name d j :
  load_frozen_job name d = Ok j ->
  mf_job_id (fj_manifest j) = name
  /\ in_job_id (fj_input j) = name
  /\ in_input_hash (fj_input j) = mf_input_hash (fj_manifest j)
  /\ check_review_input (fj_review_input j) = Ok tt
  /\ vi_arm_manifest_hashes (fj_review_input j) = in_arm_manifest_hashes (fj_input j).
Proof.
  unfold load_frozen_job. intros Hl. apply bind_Ok in Hl as (? & _ & Hl). apply bind_Ok in Hl as (m & _ & Hl).
  apply eval_when_Ok in Hl as [Hname%negb_false_iff%String.eqb_eq Hl].
  apply bind_Ok in Hl as (? & _ & Hl). apply bind_Ok in Hl as (i & _ & Hl).
  apply eval_when_Ok in Hl as [_ Hl]. apply eval_when_Ok in Hl as [Hi Hl]. rewrite differ_false in Hi.
  apply bind_Ok in Hl as (? & _ & Hl). apply bind_Ok in Hl as (r & Hr & Hl).
  apply eval_when_Ok in Hl as [[_ Hv%negb_false_iff%bool_decide_eq_true]%orb_false_iff Hl].
  apply bind_Ok in Hl as (? & _ & Hl). apply bind_Ok in Hl as (a & _ & Hl). apply eval_when_Ok in Hl as [_ Hl].
  destruct (in_arm_manifest_hashes i !! _); [|done]. apply eval_when_Ok in Hl as [_ [= <-]].
  cbn [fj_manifest fj_input fj_review_input]. split; [done|].
  split; [rewrite <- Hname; apply Hi; by left|]. split; [apply Hi; do 4 right; by left|]. split; [|done].
  unfold JobExecution.model_validate in Hr. destruct (read_review_input _) as [r'|]; [|done].
  apply bind_Ok in Hr as ([] & Hr & [= ->]). done.
Qed.

Lemma load_suite_Ok s id version source suite :
  load_suite s id version source = Ok suite ->
  check_suite suite = Ok tt /\ su_suite_id suite = id /\ (forall v, version = Some v -> su_version suite = v).
Proof.
  unfold load_suite. intros Hl. apply bind_Ok in Hl as ([] & _ & Hl).
  destruct (match source with public => _ | private => _ end) as [entries|]; [|done].
  destruct (List.filter _ _) as [|x [|]] eqn:E; [done| |done]. injection Hl as ->.
  assert (suite ∈ List.filter (fun suite => (su_suite_id suite =? id)%string
            && match version with Some v => (su_version suite =? v)%string | None => true end)
            (omap (fun e => match read_suite_file e with Ok suite => Some suite | Err _ => None end) entries)) as Hin
    by (rewrite E; by left).
  apply filter_elem in Hin as [Hin [Hid%String.eqb_eq Hv]%andb_true_iff].
  apply list_elem_of_omap in Hin as (e & _ & He). destruct (read_suite_file e) as [x|] eqn:Er; [|done].
  injection He as ->. split; [|split; [done|intros v ->; by apply String.eqb_eq in Hv]].
  unfold read_suite_file in Er. apply raise_when_bind_Ok in Er as [_ Er]. apply bind_Ok in Er as (doc & _ & Er).
  apply raise_when_bind_Ok in Er as [_ Er]. unfold JobExecution.model_validate in Er.
  destruct (read_suite doc.2) as [x|]; [|done]. apply bind_Ok in Er as ([] & Hc & [= ->]). done.
Qed.

Lemma fleb_not_nan x y : fleb x y = true -> is_nan x = false /\ is_nan y = false.
Proof. rewrite fleb_spec, orb_true_iff, fltb_spec, feqb_spec. tauto. Qed.

Lemma policy_eqb_refl p : check_policy p = Ok tt -> policy_eqb p p = true.
Proof.
  intros Hp. unfold check_policy in Hp.
  apply bind_Ok in Hp as ([] & _ & Hp). apply bind_Ok in Hp as ([] & Hq1 & Hp).
  apply bind_Ok in Hp as ([] & Hq2 & Hp). apply bind_Ok in Hp as ([] & Hq3 & Hp).
  apply bind_Ok in Hp as ([] & Hq4 & Hp). apply bind_Ok in Hp as ([] & Hq5 & _).
  unfold field in *. apply raise_when_Ok, negb_false_iff in Hq1, Hq2, Hq3, Hq4, Hq5.
  unfold ResearchV2.unit_interval, at_least in *.
  apply andb_true_iff in Hq1 as [Hq1 _]. apply andb_true_iff in Hq1 as [_ Hq1].
  apply andb_true_iff in Hq3 as [Hq3 _]. apply andb_true_iff in Hq3 as [_ Hq3].
  apply fleb_not_nan in Hq1 as [_ Hq1], Hq2 as [_ Hq2], Hq3 as [_ Hq3], Hq4 as [_ Hq4], Hq5 as [_ Hq5].
  unfold policy_eqb. by rewrite String.eqb_refl, Z.eqb_refl, !feqb_refl by done.
Qed.

Lemma same_time_refl t : same_time t t = true.
Proof. unfold same_time, dt_eqb. by rewrite eqb_reflx, Z.eqb_refl. Qed.

(** What an evaluation writes about itself. *)
Lemma evaluate_v2_identity suite i b c r a at_ report :
  evaluate_v2 suite i b c r a at_ = Ok report ->
  check_report report = Ok tt
  /\ re_job_id report = in_job_id i /\ re_suite_id report = su_suite_id suite
  /\ re_suite_version report = su_version suite /\ re_suite_hash report = suite_hash_v2 suite
  /\ re_input_hash report = in_input_hash i /\ re_baseline_arm_id report = ad_arm_id b
  /\ re_candidate_arm_id report = ad_arm_id c /\ re_policy report = su_release_policy suite
  /\ re_completed_at report = at_
  /\ dom (re_targets report) = list_to_set (C := gset string) (et_target_id <$> su_targets suite).
Proof.
  unfold evaluate_v2. intros He. apply bind_Ok in He as (targets & Hloop & He).
  apply bind_Ok in He as ([] & Hc & [= <-]). do 10 (split; [done|]). cbn [re_targets].
  assert (forall l (m0 m : gmap string TargetEvalReportV2),
    for_each (fun reports target =>
      report ← evaluate_target suite b c (reviews_by_id r) (bd_outputs a) target;
      Ok (<[et_target_id target := report]> reports)) m0 l = Ok m ->
    dom m = dom (D := gset string) m0 ∪ list_to_set (et_target_id <$> l)) as Hdom.
  { clear. induction l as [|t l IH]; intros m0 m Hl; cbn [for_each] in Hl.
    - injection Hl as <-. set_solver.
    - apply bind_Ok in Hl as (m1 & H1 & Hl). apply bind_Ok in H1 as (tr & _ & [= <-]).
      rewrite (IH _ _ Hl), dom_insert_L, fmap_cons. set_solver. }
  rewrite (Hdom _ _ _ Hloop), dom_empty_L. set_solver.
Qed.

Context `{!ResearchV2.ContractDumps}.

Lemma trusted_suite_Ok s m suite :
  trusted_suite s m = Ok suite ->
  check_suite suite = Ok tt /\ su_suite_id suite = mf_suite_id m /\ su_version suite = mf_suite_version m
  /\ suite_hash_v2 suite = mf_suite_hash m.
Proof.
  unfold trusted_suite. intros Hs. apply bind_Ok in Hs as (suite' & Hl & Hs).
  apply eval_when_Ok in Hs as [Hh%negb_false_iff%String.eqb_eq [= <-]].
  apply load_suite_Ok in Hl as (Hc & Hid & Hv). auto.
Qed.

(** The report of drafts and the manifest agree on every identity. *)
Lemma evaluated_identity name d j s ds suite at_ report :
  load_frozen_job name d = Ok j -> load_drafts d j = Ok ds -> trusted_suite s (fj_manifest j) = Ok suite ->
  evaluate_drafts suite j ds at_ = Ok report ->
  differ (report_identity report (fj_manifest j)
          ++ [(re_suite_id report, mf_suite_id (fj_manifest j));
              (re_suite_version report, mf_suite_version (fj_manifest j))]) = false
  /\ differ (report_identity report (fj_manifest j)) = false
  /\ policy_eqb (re_policy report) (su_release_policy suite) = true
  /\ dom (re_targets report) = list_to_set (C := gset string) (et_target_id <$> su_targets suite)
  /\ re_completed_at report = at_ /\ check_report report = Ok tt.
Proof.
  intros (Hn & Hjob & Hinput & _)%load_frozen_Ok (Hb & Hc & _)%load_drafts_Ok (Hs & Hid & Hv & Hh)%trusted_suite_Ok He.
  apply evaluate_v2_identity in He as (Hrep & E1 & E2 & E3 & E4 & E5 & E6 & E7 & E8 & E9 & E10).
  destruct (dr_baseline ds) as [b rb], (dr_candidate ds) as [c rc].
  apply load_bound_draft_Ok in Hb as (Hb & _). apply load_bound_draft_Ok in Hc as (Hc & _). cbn [fst] in *.
  apply check_suite_Ok in Hs as (_ & Hp & _).
  assert (forall x, x ∈ report_identity report (fj_manifest j) -> x.1 = x.2) as Hall.
  { intros x Hx. unfold report_identity in Hx.
    repeat (apply elem_of_cons in Hx as [->|Hx]; [cbn; congruence|]). by apply elem_of_nil in Hx. }
  split; [|split; [|split; [|done]]].
  - apply differ_false. intros x y [Hx|Hx]%elem_of_app; [by apply (Hall _ Hx)|].
    repeat (apply elem_of_cons in Hx as [Hx|Hx]; [injection Hx as -> ->; congruence|]). by apply elem_of_nil in Hx.
  - apply differ_false. intros x y Hx. by apply (Hall _ Hx).
  - rewrite E8. by apply policy_eqb_refl.
Qed.

(** ** Finalizing *)

(** What a first successful [finalize] did. *)
Record finalized (s : EvalSettings) (name : string) (d : JobDir) (now : datetime) (report : AgentEvalReportV2)
    (d' : JobDir) (j : FrozenJob) (ds : Drafts) (suite : AgentEvalSuiteV2) (bytes raw : string) (d1 : JobDir) : Prop := {
  fin_frozen : load_frozen_job name d = Ok j;
  fin_drafts : load_drafts d j = Ok ds;
  fin_suite : trusted_suite s (fj_manifest j) = Ok suite;
  fin_time : completion_time d (fj_manifest j) now = Ok (re_completed_at report);
  fin_report : evaluate_drafts suite j ds (re_completed_at report) = Ok report;
  fin_bytes : json_bytes (dump_report report) = Ok bytes;
  fin_published : atomic_publish_immutable d "report.json" bytes = Ok d1;
  fin_check : check_receipt (receipt_of (fj_manifest j) ds report bytes) = Ok tt;
  fin_raw : json_bytes (dump_receipt (receipt_of (fj_manifest j) ds report bytes)) = Ok raw;
  fin_sealed : atomic_publish_immutable d1 "receipt.json" raw = Ok d' }.

Lemma finalize_eval_Ok s name d now report d' :
  finalize_agent_eval_v2 s name d now = (Ok report, d') -> present d None "receipt.json" = false ->
  exists j ds suite bytes raw d1, finalized s name d now report d' j ds suite bytes raw d1.
Proof.
  unfold finalize_agent_eval_v2. intros Hf Hp. destruct (load_frozen_job name d) as [j|] eqn:Hj; [|done].
  rewrite Hp in Hf. destruct (_ ← finalized_report s d j now; _) as [[[[r ds] bytes] d1]|] eqn:Hr; [|done].
  apply bind_Ok in Hr as ([r' ds'] & Hr & Hrest). apply bind_Ok in Hrest as (bytes' & Hbytes & Hrest).
  apply bind_Ok in Hrest as (d1' & Hpub & [= -> -> -> ->]).
  unfold finalized_report in Hr. apply bind_Ok in Hr as (ds' & Hds & Hr). apply bind_Ok in Hr as (suite & Hs & Hr).
  apply bind_Ok in Hr as (at_ & Ht & Hr). apply bind_Ok in Hr as (r' & He & [= -> ->]).
  destruct (_ ;; _) as [d2|] eqn:Hrec; [|done]. injection Hf as -> ->.
  apply bind_Ok in Hrec as ([] & Hcheck & Hrec). apply bind_Ok in Hrec as (raw & Hraw & Hrec).
  pose proof (evaluated_identity _ _ _ _ _ _ _ _ Hj Hds Hs He) as (_ & _ & _ & _ & Hat & _).
  exists j, ds, suite, bytes, raw, d1. subst at_. by split.
Qed.

Lemma finalized_files s name d now report d' j ds suite bytes raw d1 :
  finalized s name d now report d' j ds suite bytes raw d1 ->
  published d d' /\ d' !! "report.json" = Some (Regular bytes) /\ d' !! "receipt.json" = Some (Regular raw).
Proof.
  intros Hf. destruct (publish_published _ _ _ _ (fin_published _ _ _ _ _ _ _ _ _ _ _ _ Hf)) as [Hp01 Hp1]; [by_decide|].
  destruct (publish_published _ _ _ _ (fin_sealed _ _ _ _ _ _ _ _ _ _ _ _ Hf)) as [Hp12 Hp2]; [by_decide|].
  split; [by apply (published_trans d d1)|]. split; [|done].
  destruct (Hp12 "report.json") as [->|(_ & E & _)]; [done|congruence].
Qed.

End Jobs.

End AgentEvalJobTheory.
