(* ===== verification/AgentEvalSealed.v ===== *)
(** * Sealed evaluation jobs

    Reading back what finalizing wrote, and what a successful verification says
    of the job, its tasks and its suite. *)
From S2P Require Import Prelude PyStr PyTime Float64 Domain Json Contracts ResearchV2 ResearchRows ResearchOutcome.
From S2P Require Import ResearchSteps JobExecution AgentEval AgentEvalScore AgentEvalJob AgentEvalTheory.
From S2P Require Import AgentEvalEarned AgentEvalJobTheory.
Import PyStr PyTime Float64 Domain Json AgentEval AgentEvalScore AgentEvalJob AgentEvalTheory AgentEvalEarned
  AgentEvalJobTheory.
Open Scope string_scope.
Open Scope list_scope.
Open Scope Z_scope.

Module AgentEvalSealed.

Section Sealed.
Context `{PyRuntime} `{CanonicalHash} `{EvalDocuments} `{!ResearchV2.ContractDumps}.

(** Pydantic reads from a text the model that was dumped to it. *)
Definition reads_back {A} (read : json -> option A) (raw : string) (a : A) : Prop :=
  Z.of_nat (String.length raw) <= MAX_JSON_BYTES /\ exists j, json_loads raw = Some j /\ read j = Some a.

Lemma job_bytes_nonempty j raw : json_bytes j = Ok raw -> 0 < Z.of_nat (String.length raw).
Proof.
  unfold json_bytes. intros [_ [= <-]]%raise_when_bind_Ok.
  destruct (json_dumps j) as [|c t]; [by cbn|].
  change (String c t +:+ newline) with (String c (t +:+ newline)). cbn [String.length]. lia.
Qed.

Lemma read_back {A} (read : json -> option A) check d name dump raw a :
  d !! name = Some (Regular raw) -> json_bytes dump = Ok raw -> reads_back read raw a -> check a = Ok tt ->
  exists doc, read_job_file d None name = Ok (raw, doc) /\ model_validate read check doc = Ok a.
Proof.
  intros Hd Hraw (Hsize & j & Hj & Hr) Hc. exists j. split.
  - apply read_job_file_top; [done..|]. apply job_bytes_nonempty in Hraw. lia.
  - unfold JobExecution.model_validate. by rewrite Hr, Hc.
Qed.

(** A file whose bytes are read again has the digest they had. *)
Lemma check_sealed_same d p name raw doc m :
  read_job_file d (Some p) name = Ok (raw, doc) -> check_sealed_file d (Some p) name (text_sha256 raw) m = Ok tt.
Proof. intros Hr. unfold check_sealed_file. rewrite Hr. cbn. by rewrite String.eqb_refl. Qed.

Lemma load_receipt_finalized s name d now report d' j ds suite bytes raw d1 :
  finalized s name d now report d' j ds suite bytes raw d1 ->
  check_report report = Ok tt ->
  reads_back read_report bytes report ->
  reads_back read_receipt raw (receipt_of (fj_manifest j) ds report bytes) ->
  load_receipt d' (fj_manifest j) = Ok (receipt_of (fj_manifest j) ds report bytes).
Proof.
  intros Hf Hcheck Hrep Hrec. destruct (finalized_files _ _ _ _ _ _ _ _ _ _ _ _ Hf) as (Hpub & Hfr & Hfc).
  destruct Hf as [Xfrozen Xdrafts Xsuite Xtime Xreport Xbytes Xpublished Xcheck Xraw Xsealed]. unfold load_receipt.
  destruct (read_back _ check_receipt _ _ _ _ _ Hfc Xraw Hrec Xcheck) as (doc & -> & Hdoc).
  cbn [mbind result_bind snd fst]. rewrite Hdoc. cbn [mbind result_bind].
  rewrite (proj2 (differ_false _)); [|intros a b Hin; cbn in Hin; set_solver].
  destruct (read_back _ check_report _ _ _ _ _ Hfr Xbytes Hrep Hcheck) as (doc' & -> & Hdoc').
  cbn [eval_when raise_when mbind result_bind snd fst]. rewrite Hdoc'. cbn [mbind result_bind].
  cbn [rc_report_hash receipt_of]. rewrite String.eqb_refl, bool_decide_eq_true_2 by done.
  cbn [eval_when raise_when negb mbind result_bind].
  rewrite !(check_sealed_published d d') by done.
  destruct (load_drafts_raw _ _ _ Xdrafts) as ((? & Hb) & (? & Hc) & (? & Hr) & (? & Ha)).
  cbn [rc_baseline_draft_hash rc_candidate_draft_hash rc_review_draft_hash rc_ablation_draft_hash receipt_of].
  by rewrite (check_sealed_same _ _ _ _ _ _ Hb), (check_sealed_same _ _ _ _ _ _ Hc),
    (check_sealed_same _ _ _ _ _ _ Hr), (check_sealed_same _ _ _ _ _ _ Ha).
Qed.

Lemma verify_finalized s name d now report d' j ds suite bytes raw d1 :
  finalized s name d now report d' j ds suite bytes raw d1 ->
  reads_back read_report bytes report ->
  reads_back read_receipt raw (receipt_of (fj_manifest j) ds report bytes) ->
  verify_finalized_job s false name d' = Ok (report, text_sha256 bytes).
Proof.
  intros Hf Hrep Hrec. pose proof (finalized_files _ _ _ _ _ _ _ _ _ _ _ _ Hf) as (Hpub & Hfr & Hfc).
  pose proof (evaluated_identity _ _ _ _ _ _ _ _ (fin_frozen _ _ _ _ _ _ _ _ _ _ _ _ Hf)
    (fin_drafts _ _ _ _ _ _ _ _ _ _ _ _ Hf) (fin_suite _ _ _ _ _ _ _ _ _ _ _ _ Hf)
    (fin_report _ _ _ _ _ _ _ _ _ _ _ _ Hf)) as (Hid & _ & Hpol & Hdom & _ & Hcheck).
  pose proof (load_receipt_finalized _ _ _ _ _ _ _ _ _ _ _ _ Hf Hcheck Hrep Hrec) as Hload.
  destruct Hf as [Xfrozen Xdrafts Xsuite Xtime Xreport Xbytes Xpublished Xcheck Xraw Xsealed].
  unfold verify_finalized_job. unfold job_file at 1. cbn [path_of]. rewrite Hfr.
  cbn [eval_when raise_when mbind result_bind bool_decide].
  rewrite !bool_decide_eq_false_2 by done. cbn [eval_when raise_when mbind result_bind].
  rewrite (load_frozen_published name d d') by done. rewrite Xfrozen. cbn [mbind result_bind].
  rewrite (load_drafts_published d d') by done. rewrite Xdrafts. cbn [mbind result_bind].
  rewrite Xsuite. cbn [mbind result_bind andb eval_when raise_when]. rewrite Hload. cbn [mbind result_bind].
  destruct (read_back _ check_report _ _ _ _ _ Hfr Xbytes Hrep Hcheck) as (doc & -> & Hdoc).
  cbn [mbind result_bind snd fst]. rewrite Hdoc. cbn [mbind result_bind].
  cbn [rc_finalized_at rc_report_hash receipt_of].
  rewrite Hid, Hpol, Hdom, same_time_refl, bool_decide_eq_true_2 by done.
  cbn [negb orb eval_when raise_when mbind result_bind]. rewrite String.eqb_refl.
  cbn [negb eval_when raise_when mbind result_bind]. rewrite Xreport. cbn [mbind result_bind].
  rewrite Xbytes. cbn [mbind result_bind]. by rewrite String.eqb_refl.
Qed.

(** What was dumped to the report and the receipt of a directory is read back. *)
Definition readable (d' : JobDir) (report : AgentEvalReportV2) : Prop :=
  (forall raw, d' !! "report.json" = Some (Regular raw) -> json_bytes (dump_report report) = Ok raw ->
     reads_back read_report raw report)
  /\ (forall raw receipt, d' !! "receipt.json" = Some (Regular raw) -> json_bytes (dump_receipt receipt) = Ok raw ->
     reads_back read_receipt raw receipt).

(** ** Activation *)

Lemma verify_Ok s name d report report_hash :
  verify_finalized_job s true name d = Ok (report, report_hash) ->
  exists j ds suite at_ raw recomputed,
    load_frozen_job name d = Ok j /\ validate_release_candidate_binding s j = Ok tt
    /\ load_drafts d j = Ok ds /\ trusted_suite s (fj_manifest j) = Ok suite /\ su_synthetic suite = false
    /\ d !! "report.json" = Some (Regular raw) /\ report_hash = text_sha256 raw
    /\ (exists doc, json_loads raw = Some doc /\ read_report doc = Some report)
    /\ evaluate_drafts suite j ds at_ = Ok recomputed /\ json_bytes (dump_report recomputed) = Ok raw.
Proof.
  unfold verify_finalized_job. intros [_ Hv]%eval_when_Ok. apply bind_Ok in Hv as (? & _ & Hv).
  apply bind_Ok in Hv as (j & Hj & Hv). apply bind_Ok in Hv as ([] & Hb & Hv). apply bind_Ok in Hv as (ds & Hds & Hv).
  apply bind_Ok in Hv as (suite & Hs & Hv). apply eval_when_Ok in Hv as [Hsyn Hv].
  apply bind_Ok in Hv as (receipt & _ & Hv). apply bind_Ok in Hv as ([raw doc] & Hread & Hv).
  apply bind_Ok in Hv as (r & Hr & Hv). apply eval_when_Ok in Hv as [_ Hv]. apply eval_when_Ok in Hv as [_ Hv].
  apply bind_Ok in Hv as (recomputed & He & Hv). apply bind_Ok in Hv as (bytes & Hbytes & Hv).
  apply eval_when_Ok in Hv as [E%negb_false_iff%String.eqb_eq [= <- <-]]. cbn [fst snd] in *. subst bytes.
  unfold read_job_file, job_file in Hread. cbn in Hread.
  destruct (d !! "report.json") as [e|] eqn:Ed; [|done].
  assert (secure_read_json e = Ok (raw, doc)) as (-> & Hdoc & _)%secure_read_Ok by (by destruct e).
  exists j, ds, suite, (rc_finalized_at receipt), raw, recomputed.
  repeat (split; [done|]). split; [|done]. exists doc. split; [done|].
  unfold JobExecution.model_validate in Hr. destruct (read_report doc) as [r'|]; [|done].
  by apply bind_Ok in Hr as (? & _ & [= ->]).
Qed.

Lemma candidate_binding_Ok s j :
  validate_release_candidate_binding s j = Ok tt ->
  let m := fj_manifest j in
  mf_suite_source m = private
  /\ (exists hash, st_release_candidate_hash s = Some hash
       /\ in_arm_manifest_hashes (fj_input j) !! mf_candidate_arm_id m = Some hash)
  /\ exists arm t, in_arm_manifests (fj_input j) !! mf_candidate_arm_id m = Some arm /\ t ∈ arm_targets arm
       /\ tv_target_id t = ResearchV2.CSI1000_D1_TARGET
       /\ fa_content_hash (tv_research_program t) = ResearchV2.PROGRAM_HASH.
Proof.
  unfold validate_release_candidate_binding. intros [Hsrc Hb]%eval_when_Ok.
  apply negb_false_iff, bool_decide_eq_true in Hsrc.
  apply eval_when_Ok in Hb as [_ Hb]. apply eval_when_Ok in Hb as [_ Hb].
  destruct (st_release_candidate_hash s) as [hash|]; [|done].
  apply eval_when_Ok in Hb as [Hh%negb_false_iff%bool_decide_eq_true Hb].
  destruct (in_arm_manifests (fj_input j) !! _) as [arm|] eqn:Harm; [|done].
  destruct (List.find _ (arm_targets arm)) as [t|] eqn:Ht; [|done].
  apply raise_when_Ok, negb_false_iff, String.eqb_eq in Hb. apply find_elem in Ht as [Ht Hid%String.eqb_eq].
  split; [done|]. split; [by exists hash|]. by exists arm, t.
Qed.

(** A suite that is evaluated has outputs to evaluate. *)
Lemma evaluated_outputs suite j ds at_ report :
  check_suite suite = Ok tt -> evaluate_drafts suite j ds at_ = Ok report ->
  ad_outputs (dr_baseline ds).1 <> [].
Proof.
  intros Hs He Hnil. destruct (check_suite_Ok _ Hs) as (_ & _ & Hid).
  destruct (validate_identities_Ok _ Hid) as (Hnd & _).
  assert (exists e t, e ∈ su_episodes suite /\ t ∈ su_targets suite /\ ep_target_id e = et_target_id t)
    as (e & t & Hin & Ht & Eid).
  { unfold check_suite in Hs.
    do 3 (apply bind_Ok in Hs as ([] & _ & Hs)). apply bind_Ok in Hs as (? & _ & Hs).
    apply bind_Ok in Hs as ([] & _ & Hs). apply bind_Ok in Hs as (? & _ & Hs).
    apply bind_Ok in Hs as ([] & _ & Hs). apply bind_Ok in Hs as (l & _ & Hs).
    apply bind_Ok in Hs as ([] & Hne & _).
    destruct (su_episodes suite) as [|e l'] eqn:El; [by vm_compute in Hne|].
    unfold validate_identities in Hid. do 3 (apply raise_when_bind_Ok in Hid as [_ Hid]).
    apply bind_Ok in Hid as (? & _ & Hid). apply raise_when_bind_Ok in Hid as [_ Hid].
    apply raise_when_bind_Ok in Hid as [Hcov%negb_false_iff%bool_decide_eq_true _].
    assert (ep_target_id e ∈ (list_to_set (et_target_id <$> su_targets suite) : gset string)) as Hin.
    { rewrite <- Hcov, El. apply elem_of_list_to_set. by left. }
    apply elem_of_list_to_set, list_elem_of_fmap in Hin as (t & E & Ht). exists e, t. split; [by left|done]. }
  destruct (evaluate_v2_targets _ _ _ _ _ _ _ _ He Hnd) as [_ Htargets].
  destruct (Htargets t Ht) as (tr & _ & Htr & _). unfold evaluate_target in Htr.
  apply bind_Ok in Htr as (paired & Hp & _). unfold paired_episodes in Hp. apply bind_Ok in Hp as (flags & Hf & _).
  destruct (mapM_result_elem _ _ _ e Hf) as [b Hb].
  { apply filter_elem. split; [done|]. by apply String.eqb_eq. }
  unfold both_completed in Hb. apply bind_Ok in Hb as (o & [Ho _]%output_of_elem & _).
  rewrite Hnil in Ho. by apply elem_of_nil in Ho.
Qed.

Lemma four_distinct {A} (b c r a : A) : NoDup [c; b] -> r ∉ [c; b] -> a ∉ [b; c; r] -> NoDup [b; c; r; a].
Proof. rewrite !NoDup_cons. set_solver. Qed.

(** The tasks behind a job that loads and was evaluated are four. *)
Lemma independent_producers name d j ds suite at_ report :
  load_frozen_job name d = Ok j -> load_drafts d j = Ok ds ->
  check_suite suite = Ok tt -> evaluate_drafts suite j ds at_ = Ok report ->
  NoDup [producer_of (dr_baseline ds).1; producer_of (dr_candidate ds).1;
         gb_producer (rd_generated_by (dr_review ds).1); gb_producer (bd_generated_by (dr_ablation ds).1)].
Proof.
  intros (_ & _ & _ & Hvi & _)%load_frozen_Ok Hds Hs He.
  pose proof (evaluated_outputs _ _ _ _ _ Hs He) as Hne.
  apply load_drafts_Ok in Hds as (Hb & Hc & Hdist & Hr & Ha).
  destruct (dr_baseline ds) as [b rb], (dr_candidate ds) as [c rc], (dr_review ds) as [r rr], (dr_ablation ds) as [a ra].
  cbn [fst] in *. apply load_bound_draft_Ok in Hb as (_ & _ & Hcover).
  set (arms := <[ad_arm_id c := c]> {[ad_arm_id b := b]}) in *.
  assert (in_episodes (fj_input j) <> []) as Hep.
  { intros Hnil. rewrite Hnil in Hcover. destruct (ad_outputs b) as [|o l]; [done|].
    apply (elem_of_nil (do_episode_id o, do_target_id o)), Hcover. rewrite fmap_cons. by left. }
  unfold load_bound_review_draft in Hr. apply bind_Ok in Hr as ([raw doc] & _ & Hr).
  apply eval_when_Ok in Hr as [_ Hr]. apply bind_Ok in Hr as (r' & _ & Hr). apply eval_when_Ok in Hr as [_ Hr].
  apply eval_when_Ok in Hr as [Hpr%bool_decide_eq_false Hr].
  apply eval_when_Ok in Hr as [Hset%negb_false_iff Hr]. rewrite same_elements_spec in Hset.
  apply bind_Ok in Hr as (? & Hchecks & [= -> _]).
  assert (forall arm, arm ∈ vi_arm_ids (fj_review_input j) -> is_Some (arms !! arm)) as Harms.
  { intros arm Harm. destruct (in_episodes (fj_input j)) as [|e l]; [done|].
    assert ((arm, ei_episode_id e, ei_target_id e)
            ∈ (fun i => (ri_arm_id i, ri_episode_id i, ri_target_id i)) <$> rd_reviews r) as Hin.
    { apply Hset, list_elem_of_bind. exists arm. split; [by left|done]. }
    apply list_elem_of_fmap in Hin as (item & [= -> _ _] & Hin).
    destruct (mapM_result_elem _ _ _ _ Hchecks Hin) as [u Hu]. unfold check_bound_review in Hu.
    destruct (_ !! ri_episode_id item); [|done]. apply eval_when_Ok in Hu as [_ Hu].
    apply bind_Ok in Hu as (o & Ho & _). unfold arm_output in Ho. by destruct (arms !! ri_arm_id item). }
  assert (ad_arm_id c <> ad_arm_id b) as Hcb.
  { intros E. unfold check_review_input in Hvi. do 2 (apply bind_Ok in Hvi as ([] & _ & Hvi)).
    apply bind_Ok in Hvi as ([] & Hlen & Hvi). apply bind_Ok in Hvi as (? & _ & Hvi).
    do 2 (apply bind_Ok in Hvi as ([] & _ & Hvi)).
    apply raise_when_bind_Ok in Hvi as [Hu%negb_false_iff%bool_decide_eq_true _].
    unfold field in Hlen. apply raise_when_Ok, negb_false_iff, Z.leb_le in Hlen.
    assert (forall arm, arm ∈ vi_arm_ids (fj_review_input j) -> arm = ad_arm_id b) as Hall.
    { intros arm Harm. destruct (Harms arm Harm) as [draft Hx]. unfold arms in Hx. rewrite E, insert_singleton_eq in Hx.
      by apply lookup_singleton_Some in Hx as [? _]. }
    destruct (vi_arm_ids (fj_review_input j)) as [|arm1 [|arm2 l]]; [cbn in Hlen; lia..|].
    apply NoDup_cons in Hu as [Hx _]. apply Hx. rewrite (Hall arm1), (Hall arm2) by (repeat constructor). by left. }
  assert (map_to_list arms ≡ₚ [(ad_arm_id c, c); (ad_arm_id b, b)]) as Hperm.
  { unfold arms. rewrite map_to_list_insert by (by apply lookup_singleton_ne). by rewrite map_to_list_singleton. }
  unfold require_distinct_arm_producers in Hdist.
  apply raise_when_Ok, negb_false_iff, bool_decide_eq_true in Hdist. rewrite Hperm in Hdist, Hpr. cbn in Hdist, Hpr.
  unfold load_bound_ablation_draft in Ha. apply bind_Ok in Ha as ([raw' doc'] & _ & Ha).
  apply eval_when_Ok in Ha as [_ Ha]. apply bind_Ok in Ha as (a' & _ & Ha). apply eval_when_Ok in Ha as [_ Ha].
  apply eval_when_Ok in Ha as [Hpa%bool_decide_eq_false Ha]. apply eval_when_Ok in Ha as [_ Ha].
  apply bind_Ok in Ha as (? & _ & [= -> _]). unfold producer_of in *.
  by apply four_distinct.
Qed.

(** What [_validated_agent_eval_pass_report] reads of a verified report. *)
Definition gate_report (verified : AgentEvalReportV2 * string) : ResearchOutcome.AgentEvalReport :=
  ResearchOutcome.mkEvalReport (bool_decide (re_release_decision verified.1 = pass))
    ((fun t => ResearchOutcome.mkEvalTarget (tr_release_gate t) (bool_decide (tr_decision t = pass))
                 (tr_hard_gate_pass t) (tr_metric_gate_pass t) (tr_episode_count t))
     <$> re_targets verified.1 !! ResearchV2.CSI1000_D1_TARGET)
    verified.2.

Lemma gate_report_Ok verified report_hash :
  ResearchOutcome.validated_agent_eval_pass_report (gate_report <$> verified) = Ok report_hash ->
  exists report tr, verified = Ok (report, report_hash) /\ re_release_decision report = pass
    /\ re_targets report !! ResearchV2.CSI1000_D1_TARGET = Some tr /\ tr_release_gate tr = true.
Proof.
  intros (r & t & Hr & <- & Hp & Ht & Hg & _)%ResearchSteps.report_Ok.
  destruct verified as [[report h]|]; [|done]. cbn in Hr. injection Hr as <-. cbn in *.
  destruct (re_targets report !! _) as [tr|] eqn:Etr; [|done]. cbn in Ht. injection Ht as <-.
  apply bool_decide_eq_true in Hp. by exists report, tr.
Qed.

(** The report of a job as Pydantic reads it is the one that was dumped. *)
Definition report_readable (d : JobDir) : Prop :=
  forall report raw, d !! "report.json" = Some (Regular raw) -> json_bytes (dump_report report) = Ok raw ->
    reads_back read_report raw report.

End Sealed.

End AgentEvalSealed.
