(* ===== verification/AgentEvalDemo.v ===== *)
(** * A concrete evaluation job

    Two arms on a suite of two targets: twenty episodes of the D1 target, which
    gates the release, and two of a weekly target.  The hash of a document is a
    checksum of its text; every text is one word. *)
From S2P Require Import Prelude PyStr PyTime Float64 Domain Json Contracts ResearchV2 ResearchRows ResearchOutcome.
From S2P Require Import ResearchDemo AgentEval AgentEvalScore AgentEvalJob AgentEvalTheory AgentEvalEarned.
From S2P Require Import AgentEvalJobTheory AgentEvalSealed.
Import PyStr PyTime Float64 Domain Json AgentEval AgentEvalScore AgentEvalJob AgentEvalTheory AgentEvalEarned
  AgentEvalJobTheory AgentEvalSealed.
Open Scope string_scope.
Open Scope list_scope.
Open Scope Z_scope.

Module AgentEvalDemo.

Abbreviation digits := ResearchDemo.digits.
Abbreviation base := ResearchDemo.base.
Abbreviation at_hour := ResearchDemo.at_hour.
Abbreviation numbered := ResearchDemo.numbered.
Abbreviation D1_TARGET := ResearchV2.CSI1000_D1_TARGET.

#[export] Existing Instance ResearchDemo.python.
#[export] Existing Instance ResearchDemo.identity_hash.
#[export] Existing Instance ResearchDemo.contract_dumps.
#[export] Existing Instance ResearchDemo.wall_clock.

(** ** The suite *)

Definition item (day : date) : FrozenEvidenceV2 := mkEvidence "item" (at_hour day 12) (digits "item").

Definition invariant : MustPassInvariantV2 := mkInvariant (Some UP) [(UP, mkInterval (lit 1 2) f1)] ["item"].

(** An episode; the text of its input is its identifier. *)
Definition episode (target_id : string) (tag : string) (days : Z) (must_pass : bool) (i : Z) : EvalEpisodeV2 :=
  let id := numbered tag i in
  let anchor := base + days * i in
  mkEpisode id target_id id anchor (anchor + days) (at_hour anchor 16) ∅ (digits ("episode " +:+ id))
    [item anchor] ["plan"; "answer"] must_pass (if must_pass then Some invariant else None)
    (mkOutcome UP (digits "observation")).

Definition episodes : list EvalEpisodeV2 :=
  ((fun i => episode D1_TARGET "day-" 1 (i =? 0) i) <$> seqZ 0 20)
  ++ (episode "weekly" "week-" 7 false <$> seqZ 0 2).

Definition artifact (name : string) : FrozenArtifactV2 := mkArtifact "1.0.0" (digits name).

Definition target_version (target_id : string) : TargetVersionManifestV2 :=
  mkTargetVersion target_id (mkModel "1" (digits "model") "model") {["macro" := artifact "agent"]}
    {["macro" := artifact "prompt"]} (artifact "workflow") (mkArtifact "2.0.0" ResearchV2.PROGRAM_HASH)
    (artifact "aggregation") (artifact "wiki").

Definition arm (id : string) : EvalArmV2 := mkArm id "" [target_version D1_TARGET; target_version "weekly"].

Definition suite : AgentEvalSuiteV2 :=
  mkSuite "daily" "1" "Daily" "" false
    [mkTarget D1_TARGET "D1" "" true; mkTarget "weekly" "W1" "" false]
    [arm "current"; arm "next"] episodes default_policy.

(** ** The frozen documents *)

Definition manifest : AgentEvalManifestV2 :=
  mkManifest "job" "daily" "1" private (digits "suite") "current" "next" (digits "input") (digits "input")
    (digits "review-input") (digits "review-input") (digits "ablation-input") (digits "ablation-input")
    (at_hour base 9).

Definition arm_hashes : gmap string string := {["current" := digits "current"; "next" := digits "next"]}.

Definition input : AgentEvalInputV2 :=
  mkInput "job" "daily" "1" (digits "suite") "current" "next" {["current" := arm "current"; "next" := arm "next"]}
    arm_hashes (su_targets suite) (outcome_free_episode <$> episodes) (at_hour base 9) (digits "input").

Definition review_input : AgentEvalReviewInputV2 :=
  mkReviewInput "job" (digits "suite") (digits "input") ["current"; "next"] arm_hashes (in_episodes input)
    REASONING_DIMENSIONS (digits "review-input").

Definition assignment (target_id : string) : AblationAssignmentV2 :=
  let id := target_id +:+ ":macro:no-impact" in
  mkAssignment id target_id "macro" (artifact "agent") (artifact "prompt") (digits id).

Definition ablation_input : AgentEvalAblationInputV2 :=
  mkAblationInput "job" (digits "suite") (digits "input") "next" (arm "next") (digits "next") (in_episodes input)
    [assignment D1_TARGET; assignment "weekly"] (digits "ablation-input").

(** ** The drafts *)

Definition reasoning : StructuredReasoningV2 := mkReasoning "rationale" ["chain"] ["doubt"] ["stop"].

Definition output (p : Probs) (e : EvalEpisodeV2) : DraftEpisodeOutputV2 :=
  mkOutput (ep_episode_id e) (ep_target_id e) completed ["plan"; "answer"] ["item"] (Some p) (Some reasoning)
    (of_Z 100) 1000 None [].

Definition arm_draft (id producer : string) (p : Probs) : AgentEvalDraftV2 :=
  mkDraft "job" id (digits "suite") (digits "input") (digits id) (mkGeneratedBy producer "model" "high")
    (output p <$> episodes).

Definition current : AgentEvalDraftV2 := arm_draft "current" "task-1" (mkProbs (lit 5 10) (lit 3 10) (lit 2 10)).
Definition next : AgentEvalDraftV2 := arm_draft "next" "task-2" (mkProbs (lit 6 10) (lit 2 10) (lit 2 10)).

Definition review (arm_id : string) (e : EvalEpisodeV2) : ReasoningReviewItemV2 :=
  mkReviewItem arm_id (ep_episode_id e) (ep_target_id e) (digits ("output " +:+ ep_episode_id e))
    (mkReview 2 2 1 1 2 true (ep_input_hash e) "task-3").

Definition review_draft : AgentEvalReviewDraftV2 :=
  mkReviewDraft "job" (digits "suite") (digits "input") (digits "review-input")
    (mkGeneratedBy "task-3" "gpt-5.6-sol" "high") ((review "current" <$> episodes) ++ (review "next" <$> episodes)).

Definition ablated (e : EvalEpisodeV2) : AblationOutputV2 :=
  mkAblationOutput (ep_target_id e +:+ ":macro:no-impact") (ep_episode_id e) (ep_target_id e) "macro" completed
    (digits ("output " +:+ ep_episode_id e)) (digits "ablation-input")
    (Some (mkProbs (lit 5 10) (lit 3 10) (lit 2 10))).

Definition ablation_draft : AgentEvalAblationDraftV2 :=
  mkAblationDraft "job" (digits "suite") (digits "input") (digits "ablation-input") "next"
    (mkGeneratedBy "task-4" "model" "high") (ablated <$> episodes).

(** ** Texts

    The text of a document is its name; of a report or a receipt it is the name
    only for the one that the job produces. *)
Definition read_named {A} (text : string) (a : A) (j : json) : option A :=
  match j with JStr s => if (s =? text)%string then Some a else None | _ => None end.

Definition documents_with (r : AgentEvalReportV2 -> json) (c : AgentEvalReceiptV2 -> json)
    (rr : json -> option AgentEvalReportV2) (rc : json -> option AgentEvalReceiptV2) : EvalDocuments := {|
  dump_arm a := JStr (arm_id a);
  dump_target t := JStr (et_target_id t);
  dump_episode_input e := JStr ("episode " +:+ ei_episode_id e);
  dump_artifact a := JStr (fa_version a);
  dump_assignment a := JStr (aa_ablation_id a);
  dump_output o := JStr ("output " +:+ do_episode_id o);
  dump_suite _ := JStr "suite";
  dump_input _ := JStr "input";
  dump_review_input _ := JStr "review-input";
  dump_ablation_input _ := JStr "ablation-input";
  dump_manifest _ := JStr "manifest";
  dump_report := r;
  dump_receipt := c;
  dump_draft d := JStr (ad_arm_id d);
  dump_review_draft _ := JStr "review-draft";
  dump_ablation_draft _ := JStr "ablation-draft";
  read_suite := read_named "suite" suite;
  read_input := read_named "input" input;
  read_review_input := read_named "review-input" review_input;
  read_ablation_input := read_named "ablation-input" ablation_input;
  read_assignment _ := None;
  read_manifest := read_named "manifest" manifest;
  read_report := rr;
  read_receipt := rc;
  read_draft j := match read_named "current-draft" current j with
                  | Some d => Some d | None => read_named "next-draft" next j end;
  read_review_draft := read_named "review-draft" review_draft;
  read_ablation_draft := read_named "ablation-draft" ablation_draft;
  json_loads raw := Some (JStr raw);
  json_dumps j := match j with JStr s => s | _ => "" end;
  text_sha256 := digits |}.

Definition drafts : Drafts :=
  mkDrafts (current, "current-draft") (next, "next-draft") (review_draft, "review-draft")
    (ablation_draft, "ablation-draft").

Definition finished_at : datetime := at_hour (base + 40) 9.

Definition no_documents : EvalDocuments :=
  documents_with (fun _ => JNull) (fun _ => JNull) (fun _ => None) (fun _ => None).

Definition no_report : AgentEvalReportV2 := mkReport "" "" "" "" "" "" "" fail "" default_policy ∅ finished_at.

Definition report : AgentEvalReportV2 :=
  match @evaluate_v2 _ _ no_documents suite input current next review_draft ablation_draft finished_at with
  | Ok r => r
  | Err _ => no_report
  end.

Definition report_text : string := "report" +:+ newline.
Definition receipt_text : string := "receipt" +:+ newline.

Definition receipt : AgentEvalReceiptV2 :=
  mkReceipt "job" (digits "input") (digits "current-draft") (digits "next-draft") (digits "review-draft")
    (digits "ablation-draft") (digits report_text) (re_release_decision report) finished_at.

#[export] Instance policy_eq_dec : EqDecision ReleasePolicyV2.
Proof. solve_decision. Defined.
#[export] Instance aggregate_eq_dec : EqDecision MetricAggregateV2.
Proof. solve_decision. Defined.
#[export] Instance gate_eq_dec : EqDecision HardGateResultV2.
Proof. solve_decision. Defined.
#[export] Instance reasoning_summary_eq_dec : EqDecision ReasoningSummaryV2.
Proof. solve_decision. Defined.
#[export] Instance ablation_summary_eq_dec : EqDecision AblationSummaryV2.
Proof. solve_decision. Defined.
#[export] Instance target_report_eq_dec : EqDecision TargetEvalReportV2.
Proof. solve_decision. Defined.
#[export] Instance report_eq_dec : EqDecision AgentEvalReportV2.
Proof. solve_decision. Defined.
#[export] Instance receipt_eq_dec : EqDecision AgentEvalReceiptV2.
Proof. solve_decision. Defined.

Definition dump_named {A} `{EqDecision A} (text : string) (a b : A) : json :=
  JStr (if bool_decide (b = a) then text else "another").

#[export] Instance documents : EvalDocuments :=
  documents_with (dump_named "report" report) (dump_named "receipt" receipt)
    (read_named report_text report) (read_named receipt_text receipt).

(** ** The job *)

(** The directory when every task has delivered. *)
Definition ready : JobDir :=
  list_to_map
    [("input.json", Regular "input"); ("manifest.json", Regular "manifest");
     ("reviewer/input.json", Regular "review-input"); ("ablation/input.json", Regular "ablation-input");
     ("current", Folder); ("next", Folder); ("reviewer", Folder); ("ablation", Folder);
     ("current/drafts.json", Regular "current-draft"); ("next/drafts.json", Regular "next-draft");
     ("reviewer/drafts.json", Regular "review-draft"); ("ablation/drafts.json", Regular "ablation-draft")].

Definition settings : EvalSettings :=
  mkSettings None (Some [Regular "suite"]) true ["srv"; "outcomes"] ["srv"; "app"; "handoffs"] (Some (digits "next")).

Definition sealed_job : JobDir :=
  <["receipt.json" := Regular receipt_text]> (<["report.json" := Regular report_text]> ready).

Lemma suite_accepted : check_suite suite = Ok tt.
Proof. by_vm. Qed.

Lemma job_finalizes : finalize_agent_eval_v2 settings "job" ready finished_at = (Ok report, sealed_job).
Proof. by_vm. Qed.

Lemma report_passes : re_release_decision report = pass.
Proof. by_vm. Qed.

Lemma dump_named_inj {A} `{EqDecision A} text (a b : A) :
  "another" +:+ newline <> text +:+ newline ->
  json_bytes (dump_named text a b) = Ok (text +:+ newline) -> b = a.
Proof. unfold dump_named. intros Hne Hb. case_bool_decide as E; [done|]. by injection Hb. Qed.

Lemma read_named_text {A} text (a : A) : read_named text a (JStr text) = Some a.
Proof. unfold read_named. by rewrite String.eqb_refl. Qed.

Lemma sealed_files :
  sealed_job !! "report.json" = Some (Regular report_text) /\ sealed_job !! "receipt.json" = Some (Regular receipt_text).
Proof.
  unfold sealed_job. split; [|apply lookup_insert_eq].
  rewrite lookup_insert_ne by by_decide. apply lookup_insert_eq.
Qed.

Lemma job_readable : readable sealed_job report.
Proof.
  destruct sealed_files as [Hreport Hreceipt]. split.
  - intros raw Hraw _. rewrite Hreport in Hraw. injection Hraw as <-. split; [by_decide|].
    exists (JStr report_text). split; [done|].
    exact (read_named_text report_text report).
  - intros raw c Hraw Hc. rewrite Hreceipt in Hraw. injection Hraw as <-.
    apply (dump_named_inj "receipt" receipt) in Hc as ->; [|done].
    split; [by_decide|]. exists (JStr receipt_text). split; [done|].
    exact (read_named_text receipt_text receipt).
Qed.

Lemma job_report_readable : report_readable sealed_job.
Proof.
  intros r raw Hraw Hr. destruct sealed_files as [Hreport _]. rewrite Hreport in Hraw. injection Hraw as <-.
  apply (dump_named_inj "report" report) in Hr as ->; [|done].
  split; [by_decide|]. exists (JStr report_text). split; [done|]. exact (read_named_text report_text report).
Qed.

(** An arm that is certain of the wrong direction, 31 times. *)
Definition wrong_episodes : list EvalEpisodeV2 := replicate 31 (episode "weekly" "week-" 7 false 0).
Definition wrong_outputs : Outputs :=
  {[numbered "week-" 0 := output (certain DOWN) (episode "weekly" "week-" 7 false 0)]}.

Lemma always_wrong e : e ∈ wrong_episodes -> certainly_wrong wrong_outputs e.
Proof.
  intros [-> _]%elem_of_replicate. exists (output (certain DOWN) (episode "weekly" "week-" 7 false 0)), DOWN.
  split; [apply lookup_singleton_eq|]. done.
Qed.

(** ** An activation on the job *)

Lemma job_verifies : verify_finalized_job settings true "job" sealed_job = Ok (report, digits report_text).
Proof. by_vm. Qed.

Abbreviation activation :=
  (ResearchOutcome.activate_d1_v2 "activation" shanghai ResearchDemo.live_store "actor"
     (Ok (gate_report (report, digits report_text))) (at_hour (base + 50) 18)).

Definition activation_row : ResearchRows.ResearchActivationEventV2 :=
  (ResearchDemo.value_or (ResearchDemo.no_activation, ResearchDemo.live_store) activation).1.
Definition active_store : ResearchRows.ResearchDB :=
  (ResearchDemo.value_or (ResearchDemo.no_activation, ResearchDemo.live_store) activation).2.

Lemma job_activates :
  ResearchOutcome.activate_d1_v2 "activation" shanghai ResearchDemo.live_store "actor"
    (gate_report <$> verify_finalized_job settings true "job" sealed_job) (at_hour (base + 50) 18)
  = Ok (activation_row, active_store).
Proof. rewrite job_verifies.
  refine (ResearchDemo.succeeds_pair (ResearchDemo.no_activation, ResearchDemo.live_store) activation _). by_vm. Qed.

End AgentEvalDemo.
