(* ===== verification/AgentEvalPrepare.v ===== *)
(** * Preparing an evaluation job

    The files of a new job are created one by one, none over another; what is
    read back from them is what the job was frozen in. *)
From Stdlib Require Import Ascii.
From S2P Require Import Prelude PyStr PyTime Float64 Domain Json Contracts ResearchV2 JobExecution AgentEval.
From S2P Require Import AgentEvalScore AgentEvalJob AgentEvalTheory AgentEvalJobTheory AgentEvalSealed.
Import PyStr PyTime Float64 Domain Json AgentEval AgentEvalScore AgentEvalJob AgentEvalTheory
  AgentEvalJobTheory AgentEvalSealed.
Open Scope string_scope.
Open Scope list_scope.
Open Scope Z_scope.

Module AgentEvalPrepare.

(** ** Creating files *)

(** [d'] is [d] after creating the entries of the list in order. *)
Inductive created : list (string * Entry) -> JobDir -> JobDir -> Prop :=
  | created_nil d : created [] d d
  | created_cons p e l d d' : d !! p = None -> created l (<[p := e]> d) d' -> created ((p, e) :: l) d d'.

Lemma created_app l1 l2 d d1 d2 : created l1 d d1 -> created l2 d1 d2 -> created (l1 ++ l2) d d2.
Proof. induction 1; intros; [done|]. cbn. constructor; auto. Qed.

Lemma create_Ok d p e d' : create d p e = Ok d' -> d !! p = None /\ d' = <[p := e]> d.
Proof. unfold create. destruct (d !! p); [done|]. by intros [= <-]. Qed.

Lemma created_spec l d d' :
  created l d d' ->
  (forall p e, d !! p = Some e -> d' !! p = Some e)
  /\ (forall p e, (p, e) ∈ l -> d' !! p = Some e)
  /\ (forall p, p ∉ fst <$> l -> d' !! p = d !! p).
Proof.
  induction 1 as [d|p e l d d' Hp _ (IHd & IHl & IHn)].
  - split; [done|]. split; [intros p e Hin; by apply elem_of_nil in Hin|done].
  - split; [|split].
    + intros q x Hq. apply IHd. rewrite lookup_insert_ne; [done|]. congruence.
    + intros q x [[= -> ->]|Hin]%elem_of_cons; [|by apply IHl]. apply IHd, lookup_insert_eq.
    + intros q Hq. rewrite fmap_cons, not_elem_of_cons in Hq. destruct Hq as [Hne Hq].
      rewrite (IHn q Hq). by apply lookup_insert_ne.
Qed.

Lemma mkdirs_Ok l d d' : for_each mkdir d l = Ok d' -> created ((fun p => (p, Folder)) <$> l) d d'.
Proof.
  revert d. induction l as [|p l IH]; intros d Hl; cbn in Hl; [injection Hl as <-; constructor|].
  apply bind_Ok in Hl as (d1 & [Hp ->]%create_Ok & Hl). constructor; auto.
Qed.

Section Prepare.
Context `{PyRuntime} `{CanonicalHash} `{EvalDocuments}.

Lemma writes_Ok docs d d' :
  for_each write_document d docs = Ok d' ->
  exists l, created l d d' /\ fst <$> l = fst <$> docs
    /\ forall name doc, (name, doc) ∈ docs -> exists raw, json_bytes doc = Ok raw /\ (name, Regular raw) ∈ l.
Proof.
  revert d. induction docs as [|[name doc] docs IH]; intros d Hl; cbn [for_each] in Hl.
  { injection Hl as <-. exists []. split; [constructor|]. split; [done|]. intros ? ? Hin. by apply elem_of_nil in Hin. }
  apply bind_Ok in Hl as (d1 & Hw & Hl). unfold write_document in Hw. apply bind_Ok in Hw as (raw & Hraw & Hw).
  apply create_Ok in Hw as [Hp ->]. destruct (IH _ Hl) as (l & Hc & Hfst & Hdocs).
  exists ((name, Regular raw) :: l). split; [by constructor|]. split; [cbn; by rewrite Hfst|].
  intros n x [[= -> ->]|Hin]%elem_of_cons; [exists raw; split; [done|by left]|].
  destruct (Hdocs _ _ Hin) as (raw' & ? & ?). exists raw'. split; [done|by right].
Qed.

(** A document that was written is read back. *)
Lemma read_back_below {A} (read : json -> option A) check d parent name dump raw a :
  d !! path_of (Some parent) name = Some (Regular raw) -> d !! parent = Some Folder -> parent <> ".." ->
  json_bytes dump = Ok raw -> reads_back read raw a -> check a = Ok tt ->
  exists doc, read_job_file d (Some parent) name = Ok (raw, doc) /\ model_validate read check doc = Ok a.
Proof.
  intros Hd Hp Hdots Hraw (Hsize & j & Hj & Hr) Hc. exists j. split.
  - unfold read_job_file, job_file. rewrite Hd, Hp, !bool_decide_eq_false_2 by congruence.
    cbn [eval_when raise_when mbind result_bind]. apply secure_read_text; [done|].
    apply job_bytes_nonempty in Hraw. lia.
  - unfold JobExecution.model_validate. by rewrite Hr, Hc.
Qed.

(** ** Frozen documents *)

(** Pydantic keeps the texts of the fields it reads from a body. *)
Class FieldLaws := {
  input_fields : forall body i, read_input (JObj body) = Some i ->
    get_str body "job_id" = Some (in_job_id i) /\ get_str body "suite_id" = Some (in_suite_id i)
    /\ get_str body "suite_version" = Some (in_suite_version i)
    /\ get_str body "suite_hash" = Some (in_suite_hash i)
    /\ get_str body "baseline_arm_id" = Some (in_baseline_arm_id i)
    /\ get_str body "candidate_arm_id" = Some (in_candidate_arm_id i)
    /\ get_obj body "arm_manifest_hashes" = Some (JStr <$> in_arm_manifest_hashes i);
  review_input_fields : forall body r, read_review_input (JObj body) = Some r ->
    get_str body "job_id" = Some (vi_job_id r) /\ get_str body "suite_hash" = Some (vi_suite_hash r)
    /\ get_str body "eval_input_hash" = Some (vi_eval_input_hash r)
    /\ get_obj body "arm_manifest_hashes" = Some (JStr <$> vi_arm_manifest_hashes r);
  ablation_input_fields : forall body a, read_ablation_input (JObj body) = Some a ->
    get_str body "job_id" = Some (bi_job_id a) /\ get_str body "suite_hash" = Some (bi_suite_hash a)
    /\ get_str body "eval_input_hash" = Some (bi_eval_input_hash a)
    /\ get_str body "candidate_arm_id" = Some (bi_candidate_arm_id a)
    /\ get_str body "candidate_manifest_hash" = Some (bi_candidate_manifest_hash a) }.

Lemma sealed_model_Ok {A} (read : json -> option A) check key body a :
  sealed_model read check key body = Ok a ->
  read (JObj (<[key := JStr (canonical_hash (JObj body))]> body)) = Some a /\ check a = Ok tt.
Proof.
  unfold sealed_model, JobExecution.model_validate. destruct (read _) as [x|]; [|done].
  intros ([] & Hc & [= <-])%bind_Ok. done.
Qed.

Lemma texts_inj (m1 m2 : gmap string string) : JStr <$> m1 = JStr <$> m2 -> m2 = m1.
Proof.
  intros E. apply map_eq. intros k. apply (f_equal (lookup k)) in E. rewrite !lookup_fmap in E.
  destruct (m1 !! k), (m2 !! k); cbn in E; congruence.
Qed.

(** A field of a sealed body. *)
Lemma sealed_lookup key v (l : list (string * json)) k :
  k <> key ->
  (<[key := v]> (list_to_map l) : gmap string json) !! k = snd <$> List.find (fun p => (p.1 =? k)%string) l.
Proof.
  intros Hk. rewrite lookup_insert_ne by done. induction l as [|[q x] l IH]; [done|]. cbn.
  destruct (String.eqb_spec q k) as [->|Hne]; [by rewrite lookup_insert_eq|]. by rewrite lookup_insert_ne.
Qed.

Context `{!FieldLaws}.

(** What an accepted input says of the body it was read from. *)
Lemma sealed_input suite baseline candidate job_id now i :
  sealed_model read_input check_input "input_hash" (input_body suite baseline candidate job_id now) = Ok i ->
  (in_job_id i, in_suite_id i, in_suite_version i, in_suite_hash i, in_baseline_arm_id i, in_candidate_arm_id i)
  = (job_id, su_suite_id suite, su_version suite, suite_hash_v2 suite, arm_id baseline, arm_id candidate)
  /\ in_arm_manifest_hashes i = arm_manifest_hash_v2 <$> selected_arms baseline candidate /\ check_input i = Ok tt.
Proof.
  intros [(F1 & F2 & F3 & F4 & F5 & F6 & F7)%input_fields Hc]%sealed_model_Ok. unfold get_str, get_obj, input_body in *.
  rewrite sealed_lookup in F1, F2, F3, F4, F5, F6, F7 by done. cbn in F1, F2, F3, F4, F5, F6, F7.
  split; [congruence|]. split; [|done]. injection F7 as E. apply texts_inj.
  rewrite <- E. by rewrite <- map_fmap_compose.
Qed.

Lemma sealed_review_input i suite_hash baseline candidate r :
  sealed_model read_review_input check_review_input "input_hash" (review_body i suite_hash baseline candidate) = Ok r ->
  (vi_job_id r, vi_suite_hash r, vi_eval_input_hash r) = (in_job_id i, suite_hash, in_input_hash i)
  /\ vi_arm_manifest_hashes r = in_arm_manifest_hashes i /\ check_review_input r = Ok tt.
Proof.
  intros [(F1 & F2 & F3 & F4)%review_input_fields Hc]%sealed_model_Ok. unfold get_str, get_obj, review_body in *.
  rewrite sealed_lookup in F1, F2, F3, F4 by done. cbn in F1, F2, F3, F4.
  split; [congruence|]. split; [|done]. injection F4 as E. by apply texts_inj.
Qed.

Lemma sealed_ablation_input i suite_hash candidate l a :
  sealed_model read_ablation_input check_ablation_input "input_hash" (ablation_body i suite_hash candidate l) = Ok a ->
  (bi_job_id a, bi_suite_hash a, bi_eval_input_hash a, bi_candidate_arm_id a, bi_candidate_manifest_hash a)
  = (in_job_id i, suite_hash, in_input_hash i, arm_id candidate, arm_manifest_hash_v2 candidate)
  /\ check_ablation_input a = Ok tt.
Proof.
  intros [(F1 & F2 & F3 & F4 & F5)%ablation_input_fields Hc]%sealed_model_Ok. unfold get_str, ablation_body in *.
  rewrite sealed_lookup in F1, F2, F3, F4, F5 by done. cbn in F1, F2, F3, F4, F5. split; [congruence|done].
Qed.

(** Pairs that agree one by one. *)
Fixpoint agree (l : list (string * string)) : Prop :=
  match l with [] => True | p :: l => p.1 = p.2 /\ agree l end.

Lemma differ_bound l : agree l -> differ l = false.
Proof.
  unfold differ. induction l as [|p l IH]; [done|]. cbn. intros [-> Hl]. rewrite String.eqb_refl. by apply IH.
Qed.

(** What the documents of a frozen job owe to the request. *)
Lemma freeze_job_Ok suite source baseline candidate job_id now j :
  freeze_job suite source baseline candidate job_id now = Ok j ->
  exists i r l a raw_i raw_r raw_a,
    sealed_model read_input check_input "input_hash" (input_body suite baseline candidate job_id now) = Ok i
    /\ sealed_model read_review_input check_review_input "input_hash"
         (review_body i (suite_hash_v2 suite) baseline candidate) = Ok r
    /\ sealed_model read_ablation_input check_ablation_input "input_hash"
         (ablation_body i (suite_hash_v2 suite) candidate l) = Ok a
    /\ json_bytes (dump_input i) = Ok raw_i /\ json_bytes (dump_review_input r) = Ok raw_r
    /\ json_bytes (dump_ablation_input a) = Ok raw_a
    /\ j = mkFrozen (mkManifest job_id (su_suite_id suite) (su_version suite) source (suite_hash_v2 suite)
             (arm_id baseline) (arm_id candidate) (in_input_hash i) (text_sha256 raw_i) (vi_input_hash r)
             (text_sha256 raw_r) (bi_input_hash a) (text_sha256 raw_a) now) i r a
    /\ check_manifest (fj_manifest j) = Ok tt.
Proof.
  unfold freeze_job. intros (i & Hi & Hj)%bind_Ok. apply bind_Ok in Hj as (r & Hr & Hj).
  apply bind_Ok in Hj as (l & _ & Hj). apply bind_Ok in Hj as (a & Ha & Hj).
  apply bind_Ok in Hj as (raw_i & Hraw_i & Hj). apply bind_Ok in Hj as (raw_r & Hraw_r & Hj).
  apply bind_Ok in Hj as (raw_a & Hraw_a & Hj). apply bind_Ok in Hj as ([] & Hc & [= <-]).
  by exists i, r, l, a, raw_i, raw_r, raw_a.
Qed.

(** The four documents of a job read back from the bytes they are written as. *)
Record read_back_documents (j : FrozenJob) : Prop := {
  back_manifest : forall raw, json_bytes (dump_manifest (fj_manifest j)) = Ok raw ->
    reads_back read_manifest raw (fj_manifest j);
  back_input : forall raw, json_bytes (dump_input (fj_input j)) = Ok raw -> reads_back read_input raw (fj_input j);
  back_review : forall raw, json_bytes (dump_review_input (fj_review_input j)) = Ok raw ->
    reads_back read_review_input raw (fj_review_input j);
  back_ablation : forall raw, json_bytes (dump_ablation_input (fj_ablation_input j)) = Ok raw ->
    reads_back read_ablation_input raw (fj_ablation_input j) }.

(** The files a job is loaded from. *)
Definition holds (d : JobDir) (name : string) (document : json) : Prop :=
  exists raw, json_bytes document = Ok raw /\ d !! name = Some (Regular raw).

Lemma load_prepared suite source baseline candidate job_id now j d :
  freeze_job suite source baseline candidate job_id now = Ok j -> read_back_documents j ->
  d !! "reviewer" = Some Folder -> d !! "ablation" = Some Folder ->
  holds d "manifest.json" (dump_manifest (fj_manifest j)) -> holds d "input.json" (dump_input (fj_input j)) ->
  holds d "reviewer/input.json" (dump_review_input (fj_review_input j)) ->
  holds d "ablation/input.json" (dump_ablation_input (fj_ablation_input j)) ->
  load_frozen_job job_id d = Ok j.
Proof.
  intros (i & r & l & a & raw_i & raw_r & raw_a & Hi & Hr & Ha & Ei & Er & Ea & -> & Hm)%freeze_job_Ok
    [Bm Bi Br Ba] Hdr Hda (raw_m & Em & Dm) (raw_i' & Ei' & Di) (raw_r' & Er' & Dr) (raw_a' & Ea' & Da).
  apply sealed_input in Hi as ([= I1 I2 I3 I4 I5 I6] & Ihashes & Ic).
  apply sealed_review_input in Hr as ([= R1 R2 R3] & Rhashes & Rc).
  apply sealed_ablation_input in Ha as ([= A1 A2 A3 A4 A5] & Ac).
  cbn [fj_manifest fj_input fj_review_input fj_ablation_input] in *.
  rewrite Ei in Ei'. injection Ei' as <-. rewrite Er in Er'. injection Er' as <-. rewrite Ea in Ea'.
  injection Ea' as <-.
  destruct (read_back _ check_manifest _ _ _ _ _ Dm Em (Bm _ Em) Hm) as (doc_m & Lm & Vm).
  destruct (read_back _ check_input _ _ _ _ _ Di Ei (Bi _ Ei) Ic) as (doc_i & Li & Vi).
  destruct (read_back_below _ check_review_input d "reviewer" "input.json" _ _ _ Dr Hdr ltac:(done) Er (Br _
    Er) Rc) as (doc_r & Lr & Vr).
  destruct (read_back_below _ check_ablation_input d "ablation" "input.json" _ _ _ Da Hda ltac:(done) Ea (Ba _
    Ea) Ac) as (doc_a & La & Va).
  unfold load_frozen_job. rewrite Lm. cbn [mbind result_bind snd]. rewrite Vm. cbn [mbind result_bind mf_job_id].
  rewrite String.eqb_refl. cbn [negb eval_when raise_when mbind result_bind]. rewrite Li. cbn [mbind result_bind snd].
  rewrite Vi. cbn [mbind result_bind fst]. cbn [mf_input_file_hash]. rewrite String.eqb_refl.
  cbn [negb eval_when raise_when mbind result_bind]. rewrite differ_bound by (cbn; intuition congruence).
  cbn [eval_when raise_when mbind result_bind]. rewrite Lr. cbn [mbind result_bind snd]. rewrite Vr.
  cbn [mbind result_bind fst]. rewrite differ_bound by (cbn; intuition congruence).
  rewrite bool_decide_eq_true_2 by done. cbn [negb orb eval_when raise_when mbind result_bind].
  rewrite La. cbn [mbind result_bind snd]. rewrite Va. cbn [mbind result_bind fst].
  rewrite differ_bound by (cbn; intuition congruence). cbn [eval_when raise_when mbind result_bind mf_candidate_arm_id].
  rewrite Ihashes, lookup_fmap. unfold selected_arms. rewrite lookup_insert_eq. cbn [fmap option_fmap option_map].
  rewrite A5, String.eqb_refl. done.
Qed.

(** ** The directory of a new job *)

Lemma arm_of_Ok suite id arm : arm_of suite id = Ok arm -> arm ∈ su_arms suite /\ arm_id arm = id.
Proof.
  unfold arm_of. destruct (_ !! id) as [x|] eqn:E; [|done]. intros [= <-]. by apply (dict_of_elem arm_id) in E.
Qed.

(** The names of a new job, and the entries that it is loaded from. *)
Lemma prepare_eval_Ok s suite_id version source b c job_id now j d :
  prepare_agent_eval_v2 s suite_id version source b c job_id now = Ok (j, d) ->
  exists suite baseline candidate,
    load_suite s suite_id version source = Ok suite /\ arm_id baseline = b /\ arm_id candidate = c /\ b <> c
    /\ freeze_job suite source baseline candidate job_id now = Ok j
    /\ (forall p, p ∈ ["reviewer"; "ablation"] -> d !! p = Some Folder)
    /\ (forall name doc, (name, doc) ∈ job_documents j baseline candidate -> holds d name doc)
    /\ (forall p, is_Some (d !! p) ->
         p ∈ [b; c; "reviewer"; "ablation"] ++ (fst <$> job_documents j baseline candidate) ++ ["README.md"]).
Proof.
  unfold prepare_agent_eval_v2. intros [Hne%String.eqb_neq Hp]%eval_when_Ok.
  apply bind_Ok in Hp as (suite & Hs & Hp). apply bind_Ok in Hp as (baseline & [_ Hb]%arm_of_Ok & Hp).
  apply bind_Ok in Hp as (candidate & [_ Hc]%arm_of_Ok & Hp).
  apply bind_Ok in Hp as (d1 & Hm%mkdirs_Ok & Hp). apply bind_Ok in Hp as (j' & Hj & Hp).
  apply bind_Ok in Hp as (d2 & (l & Hl & Hfst & Hdocs)%writes_Ok & Hp).
  apply bind_Ok in Hp as (d3 & [Hr ->]%create_Ok & [= -> <-]).
  pose proof (created_app _ _ _ _ _ Hm (created_app _ _ _ _ _ Hl
    (created_cons _ (Regular (instruction_text b c)) [] _ _ Hr (created_nil _)))) as Hall.
  apply created_spec in Hall as (_ & Hin & Hout).
  exists suite, baseline, candidate. do 5 (split; [done|]). split; [|split].
  - intros p Hp. apply Hin, elem_of_app. left. apply (list_elem_of_fmap_2 (fun p => (p, Folder))). set_solver.
  - intros name doc Hd. destruct (Hdocs _ _ Hd) as (raw & Hraw & Hel). exists raw. split; [done|].
    apply Hin, elem_of_app. right. apply elem_of_app. by left.
  - intros p [e He]. destruct (decide (p ∈ fst <$> (((fun p => (p, Folder)) <$> [b; c; "reviewer"; "ablation"])
      ++ l ++ [("README.md", Regular (instruction_text b c))]))) as [Hx|Hx].
    + rewrite !fmap_app, Hfst in Hx. exact Hx.
    + rewrite Hout, lookup_empty in He; done.
Qed.

(** The suite of a new job is found again by its identifier and version. *)
Lemma load_suite_again s suite_id version source suite :
  load_suite s suite_id version source = Ok suite ->
  load_suite s (su_suite_id suite) (Some (su_version suite)) source = Ok suite.
Proof.
  intros Hl. pose proof (load_suite_Ok _ _ _ _ _ Hl) as (_ & Hid & Hv). unfold load_suite in *. rewrite Hid.
  apply bind_Ok in Hl as ([] & -> & Hl). cbn [mbind result_bind].
  destruct (match source with public => _ | private => _ end) as [entries|]; [|done].
  set (found := omap _ entries) in *.
  assert (List.filter (fun x => (su_suite_id x =? suite_id)%string && (su_version x =? su_version suite)%string) found
    = List.filter (fun x => (su_version x =? su_version suite)%string)
        (List.filter (fun x => (su_suite_id x =? suite_id)%string
           && match version with Some v => (su_version x =? v)%string | None => true end) found)) as ->.
  { clear -Hv. induction found as [|x found IH]; [done|]. cbn.
    destruct (su_suite_id x =? suite_id)%string; cbn; [|exact IH]. destruct version as [v|]; cbn.
    - rewrite (Hv v eq_refl) in *. destruct (String.eqb_spec (su_version x) v) as [E|E]; cbn; [|exact IH].
      rewrite E, String.eqb_refl. f_equal. exact IH.
    - destruct (su_version x =? su_version suite)%string; [f_equal|]; exact IH. }
  destruct (List.filter _ found) as [|x [|]]; [done| |done]. injection Hl as ->. cbn. by rewrite String.eqb_refl.
Qed.

End Prepare.

(** ** Names *)

Lemma length_ascii s : length (String.list_ascii_of_string s) = String.length s.
Proof. induction s as [|c s IH]; cbn; [done|by rewrite IH]. Qed.

(** Equal texts end in the same characters. *)
Lemma same_tail (a t b m u : string) :
  String.length t = String.length u -> a +:+ t = b +:+ m +:+ u -> t = u.
Proof.
  intros Hlen E. apply (f_equal String.list_ascii_of_string) in E.
  rewrite !list_ascii_of_string_app, (assoc_L app) in E. apply app_inj_2 in E as [_ E]; [|by rewrite !length_ascii].
  by rewrite <- (String.string_of_list_ascii_of_string t), E, String.string_of_list_ascii_of_string.
Qed.

Lemma component_no_slash b label : validate_component b label = Ok tt -> "/"%char ∉ String.list_ascii_of_string b.
Proof.
  unfold validate_component. intros Hc%raise_when_Ok Hin. apply orb_false_iff in Hc as [_ Hc%negb_false_iff].
  unfold all_bytes in Hc. rewrite forallb_forall in Hc. apply list_elem_of_In in Hin. by specialize (Hc _ Hin).
Qed.

Lemma flat_not_draft x arm : "/"%char ∉ String.list_ascii_of_string x -> x <> path_of (Some arm) "drafts.json".
Proof. intros Hx ->. apply Hx, slash_in. Qed.

Lemma tail_not_draft a t arm :
  String.length t = 6%nat -> t <> "s.json" -> a +:+ t <> path_of (Some arm) "drafts.json".
Proof. intros Hlen Hne E. apply Hne. by apply (same_tail a t arm "/draft" "s.json"). Qed.

Lemma template_not_draft arm' arm : path_of (Some arm') "drafts.template.json" <> path_of (Some arm) "drafts.json".
Proof.
  intros E. symmetry in E. cbn [path_of] in E. apply (f_equal String.list_ascii_of_string) in E.
  change ("/" +:+ "drafts.json") with ("/draft" +:+ "s.json") in E.
  change ("/" +:+ "drafts.template.json") with ("/drafts.templat" +:+ "e.json") in E.
  rewrite !list_ascii_of_string_app, !(assoc_L app) in E. apply app_inj_2 in E as [_ E]; done.
Qed.

Section Directory.
Context `{CanonicalHash} `{EvalDocuments}.

(** The names of a new job: no draft, and neither a report nor a receipt but for
    the directories of the arms. *)
Lemma new_names j baseline candidate p :
  validate_component (arm_id baseline) "arm_id" = Ok tt -> validate_component (arm_id candidate) "arm_id" = Ok tt ->
  p ∈ [arm_id baseline; arm_id candidate; "reviewer"; "ablation"]
      ++ (fst <$> job_documents j baseline candidate) ++ ["README.md"] ->
  (forall arm, p <> path_of (Some arm) "drafts.json") /\ (p ∈ PUBLISHED -> p ∈ [arm_id baseline; arm_id candidate]).
Proof.
  intros Hb%component_no_slash Hc%component_no_slash Hp. cbn [job_documents fmap list_fmap fst app] in Hp.
  assert (forall x, x ∉ PUBLISHED -> x ∈ PUBLISHED -> x ∈ [arm_id baseline; arm_id candidate]) as Hno by done.
  repeat (apply elem_of_cons in Hp as [->|Hp]); [..|by apply elem_of_nil in Hp].
  - split; [by intros; apply flat_not_draft|]. by left.
  - split; [by intros; apply flat_not_draft|]. right. by left.
  - split; [intros; apply flat_not_draft|apply Hno]; by_decide.
  - split; [intros; apply flat_not_draft|apply Hno]; by_decide.
  - split; [intros; apply flat_not_draft|apply Hno]; by_decide.
  - split; [intros; apply flat_not_draft|apply Hno]; by_decide.
  - split; [intros; by apply (tail_not_draft "reviewer/inpu")|apply Hno; by_decide].
  - split; [intros; by apply (tail_not_draft "ablation/inpu")|apply Hno; by_decide].
  - split; [intros; apply template_not_draft|apply Hno, below_not_published].
  - split; [intros; apply template_not_draft|apply Hno, below_not_published].
  - split; [intros; by apply (tail_not_draft "reviewer/drafts.templat")|apply Hno; by_decide].
  - split; [intros; by apply (tail_not_draft "ablation/drafts.templat")|apply Hno; by_decide].
  - split; [intros; apply flat_not_draft|apply Hno]; by_decide.
Qed.

End Directory.

End AgentEvalPrepare.
