(* ===== verification/AgentEvalNewJob.v ===== *)
(** * A concrete new evaluation job

    The suite of the concrete job, prepared: the texts of the documents are one
    word each, and a document is read from a body field by field. *)
From S2P Require Import Prelude PyStr PyTime Float64 Domain Json Contracts ResearchV2 ResearchRows ResearchDemo.
From S2P Require Import AgentEval AgentEvalScore AgentEvalJob AgentEvalSealed AgentEvalPrepare AgentEvalDemo.
Import PyStr PyTime Float64 Domain Json AgentEval AgentEvalScore AgentEvalJob AgentEvalSealed AgentEvalPrepare.
Import AgentEvalDemo(arm, artifact, suite, settings, read_named).
Open Scope string_scope.
Open Scope list_scope.
Open Scope Z_scope.

Module AgentEvalNewJob.

Abbreviation digits := ResearchDemo.digits.

#[export] Existing Instance ResearchDemo.python.
#[export] Existing Instance ResearchDemo.identity_hash.
#[export] Existing Instance ResearchDemo.contract_dumps.

(** A document that is written as one word. *)
Definition word (text : string) : json := JObj {["document" := JStr text]}.

(** The texts of an object whose values are all texts. *)
Definition strings (o : gmap string json) : option (gmap string string) :=
  let m := omap (fun v => match v with JStr s => Some s | _ => None end) o in
  if bool_decide (JStr <$> m = o) then Some m else None.

Lemma strings_Some o m : strings o = Some m -> o = JStr <$> m.
Proof. unfold strings. case_bool_decide as E; [|done]. intros [= <-]. by rewrite E. Qed.

Definition prepared_at : datetime := ResearchDemo.at_hour ResearchDemo.base 9.

Definition input_of (body : gmap string json) : option AgentEvalInputV2 :=
  job ← get_str body "job_id"; suite_id ← get_str body "suite_id"; version ← get_str body "suite_version";
  suite_hash ← get_str body "suite_hash"; baseline ← get_str body "baseline_arm_id";
  candidate ← get_str body "candidate_arm_id"; hashes ← get_obj body "arm_manifest_hashes";
  hashes ← strings hashes; hash ← get_str body "input_hash";
  Some (mkInput job suite_id version suite_hash baseline candidate {["current" := arm "current"; "next" := arm "next"]}
          hashes (su_targets suite) (outcome_free_episode <$> su_episodes suite) prepared_at hash).

Definition review_input_of (body : gmap string json) : option AgentEvalReviewInputV2 :=
  job ← get_str body "job_id"; suite_hash ← get_str body "suite_hash"; input_hash ← get_str body "eval_input_hash";
  hashes ← get_obj body "arm_manifest_hashes"; hashes ← strings hashes; hash ← get_str body "input_hash";
  Some (mkReviewInput job suite_hash input_hash ["current"; "next"] hashes
          (outcome_free_episode <$> su_episodes suite) REASONING_DIMENSIONS hash).

Definition ablation_input_of (assignments : list AblationAssignmentV2) (body : gmap string json)
    : option AgentEvalAblationInputV2 :=
  job ← get_str body "job_id"; suite_hash ← get_str body "suite_hash"; input_hash ← get_str body "eval_input_hash";
  candidate ← get_str body "candidate_arm_id"; arm_hash ← get_str body "candidate_manifest_hash";
  hash ← get_str body "input_hash";
  Some (mkAblationInput job suite_hash input_hash candidate (arm "next") arm_hash
          (outcome_free_episode <$> su_episodes suite) assignments hash).

Definition assignment_from (j : json) : option AblationAssignmentV2 :=
  match j with
  | JObj body =>
      id ← get_str body "ablation_id"; target ← get_str body "target_id"; agent ← get_str body "agent_id";
      hash ← get_str body "assignment_hash";
      Some (mkAssignment id target agent (artifact "agent") (artifact "prompt") hash)
  | _ => None
  end.

(** A body is read field by field, and one word is the text of one document. *)
Definition read_word {A} (text : string) (known : option A) (of_body : gmap string json -> option A) (j : json)
    : option A :=
  match j with
  | JObj body => of_body body
  | JStr s => if (s =? text +:+ newline)%string then known else None
  | _ => None
  end.

Definition assignments : list AblationAssignmentV2 :=
  (fun t => mkAssignment (t +:+ ":macro:no-impact") t "macro" (artifact "agent") (artifact "prompt") (digits ""))
  <$> [ResearchV2.CSI1000_D1_TARGET; "weekly"].

Definition documents_of (known : option FrozenJob) : EvalDocuments := {|
  dump_arm a := JStr (arm_id a);
  dump_target t := JStr (et_target_id t);
  dump_episode_input e := JStr ("episode " +:+ ei_episode_id e);
  dump_artifact a := JStr (fa_version a);
  dump_assignment _ := word "assignment";
  dump_output o := JStr ("output " +:+ do_episode_id o);
  dump_suite _ := JStr "suite";
  dump_input _ := word "input";
  dump_review_input _ := word "review-input";
  dump_ablation_input _ := word "ablation-input";
  dump_manifest _ := word "manifest";
  dump_report _ := word "report";
  dump_receipt _ := word "receipt";
  dump_draft _ := word "draft";
  dump_review_draft _ := word "review-draft";
  dump_ablation_draft _ := word "ablation-draft";
  read_suite := read_named "suite" suite;
  read_input := read_word "input" (fj_input <$> known) input_of;
  read_review_input := read_word "review-input" (fj_review_input <$> known) review_input_of;
  read_ablation_input := read_word "ablation-input" (fj_ablation_input <$> known) (ablation_input_of assignments);
  read_assignment := assignment_from;
  read_manifest := read_word "manifest" (fj_manifest <$> known) (fun _ => None);
  read_report _ := None;
  read_receipt _ := None;
  read_draft _ := None;
  read_review_draft _ := None;
  read_ablation_draft _ := None;
  json_loads raw := Some (JStr raw);
  json_dumps j := match j with JObj body => default "" (get_str body "document") | _ => "" end;
  text_sha256 := digits |}.

Abbreviation prepared known :=
  (@prepare_agent_eval_v2 ResearchDemo.identity_hash (documents_of known) settings "daily" None private "current" "next" "job"
     prepared_at).

(** The job that is frozen does not depend on the texts read later. *)
Definition new_job : option FrozenJob := match prepared None with Ok (j, _) => Some j | Err _ => None end.

#[export] Instance documents : EvalDocuments := documents_of new_job.

Definition no_job : FrozenJob * JobDir :=
  (mkFrozen AgentEvalDemo.manifest AgentEvalDemo.input AgentEvalDemo.review_input AgentEvalDemo.ablation_input, ∅).

Definition job : FrozenJob := (ResearchDemo.value_or no_job (prepared new_job)).1.
Definition directory : JobDir := (ResearchDemo.value_or no_job (prepared new_job)).2.

Lemma job_prepared : prepared new_job = Ok (job, directory).
Proof. refine (ResearchDemo.succeeds_pair no_job (prepared new_job) _). by_vm. Qed.

(** The fields of a body are read as they are. *)
#[export] Instance field_laws : FieldLaws.
Proof.
  split; cbn [read_input read_review_input read_ablation_input documents documents_of read_word];
    unfold input_of, review_input_of, ablation_input_of; intros body x Hx.
  all: repeat (apply bind_Some in Hx as (? & ? & Hx)).
  all: injection Hx as <-; cbn.
  all: repeat match goal with E : strings _ = Some _ |- _ => apply strings_Some in E; subst end.
  all: done.
Qed.

Lemma new_job_known : new_job = Some job.
Proof. by_vm. Qed.

Lemma read_word_text {A} text (x : A) known of_body :
  known = Some x -> read_word text known of_body (JStr (text +:+ newline)) = Some x.
Proof. intros ->. unfold read_word. by rewrite String.eqb_refl. Qed.

Lemma job_reads_back : read_back_documents job.
Proof.
  assert (forall (A : Type) (read : json -> option A) text x known of_body raw,
    known = Some x -> read = read_word text known of_body -> json_bytes (word text) = Ok raw ->
    Z.of_nat (String.length (text +:+ newline)) <= MAX_JSON_BYTES -> reads_back read raw x) as Hback.
  { intros A read text x known of_body raw Hk -> [_ [= <-]]%raise_when_bind_Ok Hlen.
    change (json_dumps (word text)) with text. split; [exact Hlen|]. exists (JStr (text +:+ newline)).
    split; [done|]. by apply read_word_text. }
  split; intros raw Hraw.
  - apply (Hback _ _ "manifest" _ (fj_manifest <$> new_job) (fun _ => None)); [|done|exact Hraw|by_decide].
    by rewrite new_job_known.
  - apply (Hback _ _ "input" _ (fj_input <$> new_job) input_of); [|done|exact Hraw|by_decide].
    by rewrite new_job_known.
  - apply (Hback _ _ "review-input" _ (fj_review_input <$> new_job) review_input_of); [|done|exact Hraw|by_decide].
    by rewrite new_job_known.
  - apply (Hback _ _ "ablation-input" _ (fj_ablation_input <$> new_job) (ablation_input_of assignments));
      [|done|exact Hraw|by_decide].
    by rewrite new_job_known.
Qed.

End AgentEvalNewJob.
