(* ===== verification/AgentEvalProps.v ===== *)
(** * What an evaluation job guarantees

    A report that releases a candidate has seen it complete every episode of
    every gated target within its evidence, and has compared the two arms on
    twenty or more independent episodes.  A finalized job verifies, is finalized
    once and survives an interruption between its two files; an activation of
    the research loop rests on a job that was evaluated again. *)
From S2P Require Import Prelude PyStr PyTime Float64 Domain Json Contracts ResearchV2 ResearchRows ResearchOutcome.
From S2P Require Import ResearchDemo JobExecution AgentEval AgentEvalScore AgentEvalJob AgentEvalTheory.
From S2P Require Import AgentEvalEarned AgentEvalJobTheory AgentEvalSealed AgentEvalDemo AgentEvalPrepare.
From S2P Require Import AgentEvalNewJob.
Import PyStr PyTime Float64 Domain Json AgentEval AgentEvalScore AgentEvalJob AgentEvalTheory AgentEvalEarned
  AgentEvalJobTheory AgentEvalSealed AgentEvalPrepare.
Open Scope string_scope.
Open Scope list_scope.
Open Scope Z_scope.

Module AgentEvalProps.

Section Evaluations.
Context `{PyRuntime} `{CanonicalHash} `{EvalDocuments}.

(** C6 A report releases a candidate only when it earned every gated target:
    on each episode of the target the candidate completed its output, cited
    only evidence of the episode observed by the cutoff, followed the expected
    trajectory and kept the invariant of a must-pass episode; and over twenty
    or more episodes with distinct dates and keys that both arms completed its
    mean Brier score, direction accuracy, latency and token use are within
    0.01, 0.02, 1.20 and 1.15 of the baseline, whatever the suite's own policy
    says. *)
Theorem release_pass_earned suite i baseline candidate review ablation at_ report t :
  check_suite suite = Ok tt -> Z.of_nat (length (su_episodes suite)) <= 2 ^ 53 ->
  evaluate_v2 suite i baseline candidate review ablation at_ = Ok report ->
  re_release_decision report = pass ->
  t ∈ su_targets suite -> et_release_gate t = true ->
  target_earned suite baseline candidate (et_target_id t).
Proof. apply released_targets. Qed.

(** C15 The episodes of a target of an accepted suite are independent: their
    keys and their target dates are distinct, and unless the target is of one
    day no two of their windows from anchor to target overlap.  Each episode
    looks forward from its anchor and its evidence stops at its cutoff. *)
Theorem independent_episodes suite t :
  check_suite suite = Ok tt -> t ∈ su_targets suite ->
  let episodes := episodes_of (et_target_id t) (su_episodes suite) in
  NoDup (ep_independence_key <$> episodes) /\ NoDup (ep_target_date <$> episodes)
  /\ (forall e, e ∈ episodes ->
       ep_anchor_date e < ep_target_date e
       /\ forall i, i ∈ ep_evidence e -> dt_ltb (ep_evidence_cutoff e) (ev_observed_at i) = false)
  /\ (is_d1 t = false -> forall e1 e2, e1 ∈ episodes -> e2 ∈ episodes -> e1 <> e2 ->
       ep_target_date e1 <= ep_anchor_date e2 \/ ep_target_date e2 <= ep_anchor_date e1).
Proof.
  intros (Hep & _ & Hid)%check_suite_Ok Ht. destruct (validate_identities_Ok _ Hid) as (_ & _ & Hind & Hwin).
  destruct (Hind (et_target_id t)) as [Hk Hd]. intros episodes.
  assert (forall e, e ∈ episodes -> ep_anchor_date e < ep_target_date e
            /\ forall i, i ∈ ep_evidence e -> dt_ltb (ep_evidence_cutoff e) (ev_observed_at i) = false) as Hep'.
  { intros e [He _]%filter_elem. specialize (Hep e He). unfold check_episode in Hep.
    repeat first [apply raise_when_bind_Ok in Hep as [?Hc Hep] | apply bind_Ok in Hep as (? & _ & Hep)].
    split; [match goal with Hc : (_ <=? _) = false |- _ => by apply Z.leb_gt in Hc end|]. intros i Hi.
    match goal with Hc : existsb _ (ep_evidence e) = false |- _ => by apply (proj1 (existsb_false _ _) Hc) end. }
  split; [done|]. split; [done|]. split; [done|]. intros Hd1 e1 e2 He1 He2 Hne.
  specialize (Hwin t Ht). unfold check_windows in Hwin. rewrite Hd1 in Hwin.
  apply raise_when_Ok in Hwin. cbn [negb andb] in Hwin. apply negb_false_iff, disjoint_windows_sorted in Hwin.
  - assert (forall e, e ∈ episodes -> window e ∈ merge_sort window_le (window <$> episodes)) as Hin.
    { intros e He. rewrite merge_sort_Permutation. by apply list_elem_of_fmap_2. }
    destruct (StronglySorted_comparable _ _ (window e1) (window e2) Hwin) as [Hw|Hw]; [by apply Hin..| |by left|by right].
    intros [= _ E]. apply Hne. by apply (NoDup_fmap_same ep_target_date episodes).
  - rewrite merge_sort_Permutation. apply Forall_fmap, Forall_forall. intros e He. by apply Hep'.
Qed.

End Evaluations.

(** C16 The report bounds the mean Brier score of an arm by [2 / 3], the score
    of a forecast that is certain and wrong.  Under Python 3.11 the mean of 31
    such scores rounds above that bound: the aggregate of an arm that is
    certain and wrong on 31 paired episodes is refused by its own constraint,
    so the evaluation raises instead of reporting the arm. *)
Theorem all_wrong_arm_unreportable episodes outputs :
  length episodes = 31%nat -> (forall e, e ∈ episodes -> certainly_wrong outputs e) ->
  @metric_aggregate {| runtime := Py311 |} episodes outputs
  = Err (Exn ValueError "validation error: mean_brier").
Proof.
  intros Hlen Hwrong.
  destruct (mapM_result_exists (@episode_metrics {| runtime := Py311 |} outputs) episodes) as [rows Hrows].
  { intros e He. destruct (wrong_metrics _ _ (Hwrong e He)) as (? & ? & ->). eauto. }
  unfold metric_aggregate. rewrite Hrows. cbn [mbind result_bind].
  apply mapM_result_Ok in Hrows.
  assert ((fun r => r.1.1.1) <$> rows = replicate (length episodes) two_thirds
          /\ (fun r => r.1.1.2) <$> rows = replicate (length episodes) f0) as [Hb Hd].
  { clear Hlen. induction Hrows as [|e r episodes rows Hr _ IH]; [done|].
    destruct (wrong_metrics outputs e) as (? & ? & He); [apply Hwrong; by left|].
    rewrite Hr in He. injection He as ->. destruct IH as [Hb Hd]; [intros; apply Hwrong; by right|].
    rewrite !fmap_cons, Hb, Hd. done. }
  rewrite Hb, Hd, Hlen. reflexivity.
Qed.

Section Preparing.
Context `{PyRuntime} `{CanonicalHash} `{EvalDocuments} `{!ResearchV2.ContractDumps} `{!FieldLaws}.

(** C14 A job that was prepared can be worked on: its directory loads as the
    documents it was frozen in, it awaits the drafts of both arms and of both
    independent tasks, and as long as the suites stay as they are finalizing
    finds the suite it was prepared from.  The arms are named by single path
    components, and not as the receipt. *)
Theorem prepared_job_loads s suite_id version source baseline candidate job_id now j d :
  prepare_agent_eval_v2 s suite_id version source baseline candidate job_id now = Ok (j, d) ->
  read_back_documents j ->
  validate_component baseline "arm_id" = Ok tt -> validate_component candidate "arm_id" = Ok tt ->
  "receipt.json" ∉ [baseline; candidate] ->
  load_frozen_job job_id d = Ok j
  /\ agent_eval_v2_status s job_id d = Ok (awaiting_draft, [baseline; candidate], ["reviewer"; "ablation"])
  /\ exists suite, load_suite s suite_id version source = Ok suite /\ trusted_suite s (fj_manifest j) = Ok suite.
Proof.
  intros (suite & b & c & Hsuite & <- & <- & _ & Hj & Hfolders & Hdocs & Hnames)%prepare_eval_Ok Hback Hb Hc Hreceipt.
  assert (load_frozen_job job_id d = Ok j) as Hload.
  { apply (load_prepared _ _ _ _ _ _ _ _ Hj Hback); (apply Hfolders || apply Hdocs); cbn; set_solver. }
  split; [exact Hload|]. split.
  - pose proof (freeze_job_Ok _ _ _ _ _ _ _ Hj) as (i & r & l & a & ri & rr & ra & _ & _ & _ & _ & _ & _ & Ej & _).
    assert (d !! "receipt.json" = None) as Hrec.
    { apply eq_None_not_Some. intros Hp. apply Hreceipt, (new_names _ _ _ _ Hb Hc (Hnames _ Hp)). right. by left. }
    assert (forall arm, d !! path_of (Some arm) "drafts.json" = None) as Hdrafts.
    { intros arm. apply eq_None_not_Some. intros Hp.
      by apply (proj1 (new_names _ _ _ _ Hb Hc (Hnames _ Hp)) arm). }
    unfold agent_eval_v2_status, pending_task, present. rewrite Hload, Ej.
    cbn [mbind result_bind fj_manifest mf_baseline_arm_id mf_candidate_arm_id fmap list_fmap List.filter].
    rewrite !Hdrafts. cbn [path_of]. rewrite Hrec. done.
  - exists suite. split; [done|]. unfold trusted_suite.
    pose proof (freeze_job_Ok _ _ _ _ _ _ _ Hj) as (i & r & l & a & ri & rr & ra & _ & _ & _ & _ & _ & _ & -> & _).
    cbn [fj_manifest mf_suite_id mf_suite_version mf_suite_source mf_suite_hash].
    rewrite (load_suite_again _ _ _ _ _ Hsuite). cbn. by rewrite String.eqb_refl.
Qed.

End Preparing.

Section Sealing.
Context `{PyRuntime} `{CanonicalHash} `{EvalDocuments} `{!ResearchV2.ContractDumps}.

(** C12 A job that was finalized once is sealed: it verifies, with the report
    that finalizing returned; finalizing it again at any later time returns
    that report and writes nothing; its status is the decision of the report;
    and of its files finalizing has only added the report and the receipt. *)
Theorem finalized_job_verifies s name d now report d' :
  finalize_agent_eval_v2 s name d now = (Ok report, d') -> present d None "receipt.json" = false ->
  readable d' report ->
  (exists report_hash, verify_finalized_job s false name d' = Ok (report, report_hash))
  /\ (forall later, finalize_agent_eval_v2 s name d' later = (Ok report, d'))
  /\ agent_eval_v2_status s name d' = Ok (job_completed (re_release_decision report), [], [])
  /\ published d d'.
Proof.
  intros Hfin Hp [Hrep Hrec].
  destruct (finalize_eval_Ok _ _ _ _ _ _ Hfin Hp) as (j & ds & suite & bytes & raw & d1 & Hf).
  pose proof (finalized_files _ _ _ _ _ _ _ _ _ _ _ _ Hf) as (Hpub & Hfr & Hfc).
  assert (verify_finalized_job s false name d' = Ok (report, text_sha256 bytes)) as Hv.
  { eapply (verify_finalized _ _ _ _ _ _ _ _ _ _ _ _ Hf); [apply Hrep|apply Hrec]; try done; apply Hf. }
  assert (load_frozen_job name d' = Ok j) as Hj by (rewrite (load_frozen_published name d d') by done; apply Hf).
  assert (present d' None "receipt.json" = true) as Hpr by (by unfold present; cbn [path_of]; rewrite Hfc).
  split; [eauto|]. split; [|split; [|done]].
  - intros later. unfold finalize_agent_eval_v2. by rewrite Hj, Hpr, Hv.
  - unfold agent_eval_v2_status. rewrite Hj. cbn [mbind result_bind]. by rewrite Hpr, Hv.
Qed.

(** C13 A finalize that is interrupted after its report is published and
    before the receipt is written can be repeated: at any later time it returns
    the same report and leaves the directory that the uninterrupted call
    leaves. *)
Theorem interrupted_finalize_completes s name d now report d' later bytes :
  finalize_agent_eval_v2 s name d now = (Ok report, d') -> present d None "receipt.json" = false ->
  d' !! "report.json" = Some (Regular bytes) -> readable d' report ->
  finalize_agent_eval_v2 s name (<["report.json" := Regular bytes]> d) later = (Ok report, d').
Proof.
  intros Hfin Hp Hbytes [Hrep _].
  destruct (finalize_eval_Ok _ _ _ _ _ _ Hfin Hp) as (j & ds & suite & bytes' & raw & d1 & Hf).
  pose proof (finalized_files _ _ _ _ _ _ _ _ _ _ _ _ Hf) as (_ & Hfr & _).
  rewrite Hbytes in Hfr. injection Hfr as <-.
  pose proof (evaluated_identity _ _ _ _ _ _ _ _ (fin_frozen _ _ _ _ _ _ _ _ _ _ _ _ Hf)
    (fin_drafts _ _ _ _ _ _ _ _ _ _ _ _ Hf) (fin_suite _ _ _ _ _ _ _ _ _ _ _ _ Hf)
    (fin_report _ _ _ _ _ _ _ _ _ _ _ _ Hf)) as (_ & Hid & _ & _ & _ & Hcheck).
  destruct Hf as [Xfrozen Xdrafts Xsuite Xtime Xreport Xbytes Xpublished Xcheck Xraw Xsealed].
  specialize (Hrep _ Hbytes Xbytes).
  assert (d1 = <["report.json" := Regular bytes]> d /\ published d d1) as [<- Hpub].
  { split; [|by apply (publish_published _ _ _ _ Xpublished); by_decide].
    apply publish_immutable_Ok in Xpublished as [[Hin ->]|[_ ->]]; [|done]. by rewrite insert_id. }
  destruct (publish_published _ _ _ _ Xpublished) as [_ Hd1]; [by_decide|].
  assert (present d1 None "receipt.json" = false) as Hp1.
  { unfold present in *. cbn [path_of] in *.
  destruct (publish_immutable_Ok _ _ _ _ Xpublished) as [[_ ->]|[_ ->]]; [done|].
    by rewrite lookup_insert_ne. }
  assert (present d1 None "report.json" = true) as Hpr by (by unfold present; cbn [path_of]; rewrite Hd1).
  destruct (read_back _ check_report _ _ _ _ _ Hd1 Xbytes Hrep Hcheck) as (doc & Hread & Hdoc).
  unfold finalize_agent_eval_v2. rewrite (load_frozen_published name d d1), Xfrozen, Hp1 by done.
  unfold finalized_report. rewrite (load_drafts_published d d1), Xdrafts by done. cbn [mbind result_bind].
  rewrite Xsuite. cbn [mbind result_bind]. unfold completion_time. rewrite Hpr, Hread. cbn [mbind result_bind snd].
  rewrite Hdoc. cbn [mbind result_bind]. rewrite Hid. cbn [eval_when raise_when mbind result_bind].
  rewrite Xreport. cbn [mbind result_bind fst]. rewrite Xbytes. cbn [mbind result_bind].
  assert (atomic_publish_immutable d1 "report.json" bytes = Ok d1) as ->.
  { destruct Hrep as (Hsize & doc' & Hloads & _). apply job_bytes_nonempty in Xbytes.
    unfold atomic_publish_immutable. rewrite Hd1, (secure_read_text bytes doc') by (done || lia).
    cbn. by rewrite String.eqb_refl. }
  cbn [mbind result_bind]. rewrite Xcheck. cbn [mbind result_bind]. rewrite Xraw. cbn [mbind result_bind].
  by rewrite Xsealed.
Qed.

Context `{!ResearchRows.SqlTime}.

(** C7 The D1 target is activated, or confirmed active, only on a private and
    non-synthetic suite that is what the job was prepared from, for the arm the
    release is configured with and the current research program, on drafts of
    four different producers whose evaluation, made again from them, releases
    the candidate; so the candidate has earned the D1 target. *)
Theorem activation_rests_on_replay uuid zone rdb actor s name d utc_now e rdb' :
  ResearchOutcome.activate_d1_v2 uuid zone rdb actor (gate_report <$> verify_finalized_job s true name d) utc_now
  = Ok (e, rdb') ->
  report_readable d ->
  exists j ds suite at_ report,
    load_frozen_job name d = Ok j /\ load_drafts d j = Ok ds /\ trusted_suite s (fj_manifest j) = Ok suite
    /\ mf_suite_source (fj_manifest j) = private /\ su_synthetic suite = false
    /\ (exists hash, st_release_candidate_hash s = Some hash
         /\ in_arm_manifest_hashes (fj_input j) !! mf_candidate_arm_id (fj_manifest j) = Some hash)
    /\ (exists arm t, in_arm_manifests (fj_input j) !! mf_candidate_arm_id (fj_manifest j) = Some arm
         /\ t ∈ arm_targets arm /\ tv_target_id t = ResearchV2.CSI1000_D1_TARGET
         /\ fa_content_hash (tv_research_program t) = ResearchV2.PROGRAM_HASH)
    /\ NoDup [producer_of (dr_baseline ds).1; producer_of (dr_candidate ds).1;
              gb_producer (rd_generated_by (dr_review ds).1); gb_producer (bd_generated_by (dr_ablation ds).1)]
    /\ evaluate_drafts suite j ds at_ = Ok report /\ re_release_decision report = pass
    /\ (Z.of_nat (length (su_episodes suite)) <= 2 ^ 53 ->
        target_earned suite (dr_baseline ds).1 (dr_candidate ds).1 ResearchV2.CSI1000_D1_TARGET).
Proof.
  intros Hact Hback. unfold ResearchOutcome.activate_d1_v2 in Hact. apply bind_Ok in Hact as (h & Hgate & _).
  apply gate_report_Ok in Hgate as (report & tr & Hv & Hpass & Htr & Hrel).
  apply verify_Ok in Hv as (j & ds & suite & at_ & raw & recomputed & Hj & Hb & Hds & Hs & Hsyn & Hraw & _
    & (doc & Hdoc & Hread) & He & Hbytes).
  assert (recomputed = report) as ->.
  { destruct (Hback _ _ Hraw Hbytes) as (_ & doc' & Hdoc' & Hread'). congruence. }
  apply candidate_binding_Ok in Hb as (Hsrc & Hhash & Harm). pose proof (trusted_suite_Ok _ _ _ Hs) as (Hc & _).
  exists j, ds, suite, at_, report. do 7 (split; [done|]).
  split; [by apply (independent_producers name d j ds suite at_ report)|]. split; [done|]. split; [done|].
  intros Hn. destruct (check_suite_Ok _ Hc) as (_ & _ & Hid). destruct (validate_identities_Ok _ Hid) as (Hnd & _).
  pose proof (evaluate_v2_identity _ _ _ _ _ _ _ _ He) as (_ & _ & _ & _ & _ & _ & _ & _ & _ & _ & Hdom).
  assert (ResearchV2.CSI1000_D1_TARGET ∈ dom (re_targets report)) as Hin by (by apply elem_of_dom; exists tr).
  rewrite Hdom in Hin. apply elem_of_list_to_set, list_elem_of_fmap in Hin as (t & Et & Ht).
  destruct (evaluate_v2_targets _ _ _ _ _ _ _ _ He Hnd) as [_ Htargets].
  destruct (Htargets t Ht) as (tr' & Hlook & _ & Hg). rewrite <- Et in Hlook. rewrite Htr in Hlook.
  injection Hlook as <-. rewrite Et. apply (released_targets suite (fj_input j) _ _ (dr_review ds).1 (dr_ablation ds).1
    at_ report); [done..|]. congruence.
Qed.

End Sealing.

(** ** Witnesses *)

Module Witnesses.
Import AgentEvalDemo.

Lemma release_pass_earned_witness : target_earned suite current next D1_TARGET.
Proof.
  apply (release_pass_earned suite input current next review_draft ablation_draft finished_at report
           (mkTarget D1_TARGET "D1" "" true)).
  - exact suite_accepted.
  - by_decide.
  - by_vm.
  - exact report_passes.
  - by left.
  - reflexivity.
Defined.

Lemma independent_episodes_witness :
  NoDup (ep_target_date <$> episodes_of "weekly" (su_episodes suite))
  /\ forall e1 e2, e1 ∈ episodes_of "weekly" (su_episodes suite) -> e2 ∈ episodes_of "weekly" (su_episodes suite) ->
       e1 <> e2 -> ep_target_date e1 <= ep_anchor_date e2 \/ ep_target_date e2 <= ep_anchor_date e1.
Proof.
  destruct (independent_episodes suite (mkTarget "weekly" "W1" "" false)) as (_ & Hdates & _ & Hwindows).
  - exact suite_accepted.
  - right. by left.
  - split; [exact Hdates|]. apply Hwindows. reflexivity.
Defined.

Lemma all_wrong_arm_unreportable_witness :
  @metric_aggregate {| runtime := Py311 |} wrong_episodes wrong_outputs
  = Err (Exn ValueError "validation error: mean_brier").
Proof. apply all_wrong_arm_unreportable; [reflexivity|exact always_wrong]. Defined.

Lemma finalized_job_verifies_witness :
  exists report_hash, verify_finalized_job settings false "job" sealed_job = Ok (report, report_hash).
Proof.
  destruct (finalized_job_verifies settings "job" ready finished_at report sealed_job) as [Hv _].
  - exact job_finalizes.
  - by_vm.
  - exact job_readable.
  - exact Hv.
Defined.

Lemma interrupted_finalize_completes_witness :
  finalize_agent_eval_v2 settings "job" (<["report.json" := Regular report_text]> ready) (at_hour (base + 50) 9)
  = (Ok report, sealed_job).
Proof.
  apply (interrupted_finalize_completes settings "job" ready finished_at).
  - exact job_finalizes.
  - by_vm.
  - exact (proj1 sealed_files).
  - exact job_readable.
Defined.

Lemma activation_rests_on_replay_witness :
  exists suite baseline candidate, su_synthetic suite = false
    /\ (Z.of_nat (length (su_episodes suite)) <= 2 ^ 53 -> target_earned suite baseline candidate D1_TARGET).
Proof.
  destruct (activation_rests_on_replay _ _ _ _ _ _ _ _ _ _ job_activates job_report_readable)
    as (j & ds & suite & at_ & report & _ & _ & _ & _ & Hsyn & _ & _ & _ & _ & _ & Hearned).
  exists suite, (dr_baseline ds).1, (dr_candidate ds).1. split; [exact Hsyn|exact Hearned].
Defined.

End Witnesses.

Module NewJobWitness.
Import AgentEvalNewJob.

Lemma prepared_job_loads_witness :
  load_frozen_job "job" directory = Ok job
  /\ agent_eval_v2_status AgentEvalDemo.settings "job" directory
     = Ok (awaiting_draft, ["current"; "next"], ["reviewer"; "ablation"]).
Proof.
  destruct (prepared_job_loads AgentEvalDemo.settings "daily" None private "current" "next" "job" prepared_at
              job directory) as (Hload & Hstatus & _).
  - exact job_prepared.
  - exact job_reads_back.
  - reflexivity.
  - reflexivity.
  - by_decide.
  - split; [exact Hload|exact Hstatus].
Defined.

End NewJobWitness.

End AgentEvalProps.
